(* ===== verification/_CoqProject ===== *)
-Q . S2P
Prelude.v
PyStr.v
Glob.v
PyVal.v
PyExn.v
PyFloat.v
PyUrl.v
RefResolution.v
IRModels.v
IRDiff.v
IRCompose.v
OpenApi.v
Validators.v
IRPasses.v
Enhancement.v
ResponseShaping.v
SecretRefs.v
WebhookAdapter.v
CircuitBreaker.v
RuntimeProtocols.v
RuntimeState.v
RuntimeAuth.v
RuntimeRequest.v
RuntimeSql.v
RuntimeStreams.v
RuntimeProxy.v
RuntimeContracts.v
RuntimeLoader.v
CompileModels.v
JobStore.v
CompileWorkflow.v
Registry.v
RollbackWorkflow.v
Authz.v
Security.v
ReviewWorkflow.v
RouteConfig.v
GatewayBinding.v
Generator.v
Deployment.v
Kubernetes.v
Samples.v
PreDeploy.v
RuntimeApp.v
PostDeploy.v
Enhancer.v
Sources.v
Publishers.v
Stages.v
ProductionRollback.v
ExtractorKit.v
ODataExtractor.v
ScimExtractor.v
JsonRpcExtractor.v
SqlExtractor.v
AsyncApiExtractor.v
GraphQLExtractor.v
SoapExtractor.v
Scan.v
GrpcExtractor.v
CliOutput.v
CliExtractor.v
RestEndpoints.v
RestProbing.v
RestExtractor.v
BlackBox.v
Judge.v
ApiStore.v
CompileRoutes.v
ArtifactRoutes.v
GatewayRoutes.v
