(* ===== verification/Prelude.v ===== *)
(** * service2mcp: a model of the compiler and its runtime

    service2mcp turns the description of an API into a running MCP server.  A
    client asks the compiler API to compile a source; a worker detects what the
    source is, extracts an intermediate representation (the IR), enhances and
    validates it, generates Kubernetes manifests, deploys them, checks the running
    service, publishes its gateway routes and registers the new version.  The
    deployed runtime reads the IR and offers its operations as tools, turning each
    call into a request to the original API.  Access control guards the API and
    keeps the gateway in line with tokens, policies and service versions.

    ** How the program is modelled

    Python functions are Rocq functions under the names of the source; file and
    function names in comments are those under [src/].  A computation with effects
    is [comp S E A], a function from a state to an outcome ([Ok] or [Raise]) and the
    state it leaves; what was done before an exception stays done.  Pure code that
    may raise returns [outcome].  Exceptions carry their class, message and
    attributes ([PyExn]).  JSON-like values are [pyval], dictionaries keep insertion
    order ([PyVal]).  Data models are records with the source's fields.  Text is a
    sequence of 8-bit characters: case mapping, white space and character classes
    are those of ASCII, and where bytes matter the text is its UTF-8 encoding.
    Integers are unbounded, as Python's are; floats are binary64.  Code outside the
    repository (httpx, pydantic's coercions, SQLAlchemy's engine, cryptography, YAML,
    XML and JSON parsers, Kubernetes, brokers, language models, clocks, the
    environment) is a parameter of the definitions that use it, often the field of a
    class such as [Upstream]; what the code relies on is stated where it is used.

    ** The files

    Shared ground.
    - [Prelude]: outcomes, [comp], weakest preconditions over both exits, loops,
      preserved invariants, notations and tactics.
    - [PyStr], [PyVal], [PyExn], [PyFloat], [PyUrl], [Glob]: strings, values and
      dictionaries, exceptions and UUIDs, float conversions, URLs and integers in
      texts, [fnmatch] patterns.

    The intermediate representation ([libs/ir]).
    - [IRModels]: every model of [models.py], its field constraints and validators.
      What validation accepts is well formed, and validating it again changes
      nothing.
    - [IRDiff]: [diff.py]; the reported differences are exactly those there are.
    - [IRCompose]: [compose.py]; a federation that succeeds is valid and loses
      nothing, one that fails names real clashes.
    - [IRPasses]: [transform.py], [sla.py], and the deterministic passes of
      [libs/enhancer]; passes keep identities and references.

    From a source to a description.
    - [RefResolution]: the in-place resolution of [$ref]s of
      [libs/extractors/openapi.py] on a heap of shared, possibly cyclic nodes; it
      terminates, and it replaces a reference by its target.
    - [OpenApi]: the rest of [openapi.py]; an extraction that succeeds is a valid
      description of exactly the operations of the specification.
    - [Enhancer]: descriptions from a language model: batches, concurrency, the token
      budget, reading and applying answers; only descriptions ever change.
    - [Enhancement]: the enhance stage after the language model; whatever the model
      answers, operations keep their identity and references stay sound.
    - [Validators]: drift detection, audits, thresholds, capabilities; drift
      reported as not breaking keeps every tool callable.
    - [Generator]: manifests, names, route configuration, secret wiring.
    - [Deployment]: what the generator builds composed with the gateway, which
      publishes it, and with the runtime, which finds its secrets in it.
    - [Samples], [PreDeploy], [PostDeploy], [RuntimeApp]: the arguments a runtime is
      tried out with, the checks before and after a deployment and the audit of
      [libs/validator], and the endpoints of the runtime they ask; a description that
      passes before can be served, a runtime that passes works, and a working one
      passes.
    - [Kubernetes]: the deployer of [activities/production.py]: a deployment is there
      as a whole or not at all, and waiting for it ends.
    - [Sources]: sources, fetching and the choice of an extractor; the first of the
      most confident extractors is picked.
    - [BlackBox]: a description compared with endpoints known to exist; the report is
      exact.  [Judge]: a language model scores descriptions; every tool is scored.
    - [ExtractorKit]: XML documents, identifiers, addresses, the models' defaults and
      the class [Extracts] of what every extractor promises: a valid description of
      its own protocol.  [ODataExtractor], [ScimExtractor], [JsonRpcExtractor],
      [GraphQLExtractor], [SoapExtractor], [SqlExtractor], [AsyncApiExtractor],
      [GrpcExtractor], [CliExtractor]: one file for each extractor, with an instance of
      the class and a theorem on what its operations are.  [Scan] writes regular
      expressions out as scanners; [CliOutput] reads a command's output, and every
      printed table back.  [SqlExtractor] composes with [RuntimeSql]: from a schema to the
      statements the runtime executes.  [AsyncApiExtractor] composes with
      [PreDeploy]: what it describes is never deployed; and [GrpcExtractor] does:
      which services are.
    - [RestEndpoints], [RestProbing], [RestExtractor]: a REST service is crawled.  Removing
      the concrete paths under templates keeps exactly what nothing more general covers;
      the requests of a crawl only read, and visit so many pages at most; and every
      method discovered is described.

    Compiling ([apps/compiler_worker], [apps/compiler_api]).
    - [Publishers], [Stages], [ProductionRollback]: the production activities - settings,
      route publishers, tool calls, the nine stages with their compensations, and the
      parts of a production rollback - composed from the components above through the
      class [Worker] of everything outside.  What a compilation registers is what it
      checked, deployed and published; compensating undoes exactly what a stage did;
      every stage finds its inputs; a rollback checks the deployment it made.
    - [CompileModels]: stages, requests, the reserved options with checkpoint and
      rollback metadata; checkpoints are read back as they were written.
    - [JobStore]: the job tables under concurrent commits; event numbers are unique
      and a retry happens exactly on a clash.
    - [CompileWorkflow]: [run], retries, checkpoints, compensation.  It refines the
      abstract account of a job: stages in order, the failure reported, everything
      already done undone in reverse.
    - [ApiStore], [CompileRoutes]: the session of the compiler API over jobs, versions
      and the audit log, where each call may fail; submitting is all or nothing, a
      rollback goes to the version before, an accepted retry can be resumed by the
      worker, and the event stream delivers in order.
    - [ArtifactRoutes], [GatewayRoutes]: the routes over registered versions; a publisher
      of routes promises that what it published can be taken back ([SafePublisher]),
      the one that posts to access control's handlers keeps the promise, and so an
      activation moves registry, audit log and gateway together; the catalogue.
    - [Registry], [RollbackWorkflow]: versions and their activation, and rollback;
      at most one version is active, and a rollback leaves the service consistent.
    - [ReviewWorkflow]: the approval states; what is deployed was approved.

    Access control ([apps/access_control]).
    - [Authz], [Security]: policies and their evaluation, JWTs and personal access
      tokens; a permission is justified by a policy, a revoked token is refused.
    - [RouteConfig], [GatewayBinding]: validated route configurations; publishing,
      rolling back and reconciling gateway routes, which converges and is stable.

    The runtime ([apps/mcp_runtime]).
    - [SecretRefs], [WebhookAdapter], [CircuitBreaker]: small components with their
      whole state.
    - [RuntimeState]: the state of a runtime and the class [Upstream] of everything
      outside it.  [RuntimeAuth], [RuntimeRequest], [RuntimeProtocols],
      [RuntimeSql], [RuntimeStreams], [ResponseShaping]: authentication and the token
      cache, URL and body of a request and the polling of asynchronous jobs, SOAP,
      GraphQL, OData, SCIM and JSON-RPC, SQL statements, streams, and what is done to
      an answer.
    - [RuntimeProxy]: one invocation with breaker, dispatch, errors and metrics;
      any sequence of invocations refines the breaker's abstract state machine.
    - [RuntimeContracts]: the runtime's streams meet [libs/runtime_contracts.py].
    - [RuntimeLoader]: from the file of a description to tools, resources and
      prompts, and from a tool call back to the proxy.

    ** Bounds and fuel

    - [replace_fuel], [remove_sub] and [parse_glob] take the length of their text
      plus one: every step consumes a character.
    - [resolve] takes the number of nodes of the heap plus one: every call marks a
      node that was not marked ([resolution_inlines] states that the fuel suffices).
    - [unused_name] takes the number of existing names plus one candidates: one of
      them is free.
    - [poll_loop] takes its fuel from the clock: [poll_terminates] shows that enough
      exists once the clock passes the deadline.
    - [poll_until] likewise: [wait_for_rollout_ends] shows that the sleeps that fit
      before the deadline, plus one, are enough.
    - [_complex_type_to_schema] and [_collect_message_descriptor] take the number of
      types plus one: every nested call marks one ([to_schema_answers],
      [collect_adds] show that this is enough).
    - [slices] takes the length of its list: a slice consumes at least one element.
      [split_at] and [fenced] take the length of their text plus one.
    - [kubernetes_manifest_deployer] and [poll_fuel] pass fuel to [poll_until]; running out
      of it is an exception of its own.
    - The depth limits 5 and 10 of nested schemas and parameters are the source's.
    - Versions are 32-bit columns ([int32_version]); ports are checked as in the
      source.

    ** Not modelled

    - gRPC executors and broker clients: calls into their libraries; the proxy takes
      them as parameters.
    - FastAPI wiring, Celery, migrations, logging, metrics and tracing adapters, the
      proof runner and the mock servers.
    Remaining candidates, in the order they would add most: the broker bridge
    and the gRPC executors of the runtime, the routes of authentication. *)

From stdpp Require Export base tactics list list_numbers option strings gmap sets.
From Stdlib Require Export ZArith Lia.

#[global] Set Default Goal Selector "!".
#[global] Open Scope Z_scope.

(** ** Outcomes and effectful computations

    A Python function either returns or raises; what it did to the state it
    could reach before raising stays done.  [comp S E A] is therefore a state
    transformer whose final state is kept on both exits. *)

Inductive outcome (E A : Type) : Type :=
| Ok (a : A)
| Raise (e : E).
Arguments Ok {E A} a.
Arguments Raise {E A} e.

Definition comp (S E A : Type) : Type := S → outcome E A * S.

Definition ret {S E A} (a : A) : comp S E A := λ s, (Ok a, s).

Definition bind {S E A B} (m : comp S E A) (k : A → comp S E B) : comp S E B :=
  λ s, match m s with
       | (Ok a, s') => k a s'
       | (Raise e, s') => (Raise e, s')
       end.

Definition raise {S E A} (e : E) : comp S E A := λ s, (Raise e, s).

Definition gets {S E A} (f : S → A) : comp S E A := λ s, (Ok (f s), s).

Definition modify {S E} (f : S → S) : comp S E unit := λ s, (Ok tt, f s).

(** [try: m / except: h]; the handler runs in the state the body left. *)
Definition catch {S E A} (m : comp S E A) (h : E → comp S E A) : comp S E A :=
  λ s, match m s with
       | (Ok a, s') => (Ok a, s')
       | (Raise e, s') => h e s'
       end.

(** The body's outcome as a value, for [try/except/else] chains. *)
Definition attempt {S E A} (m : comp S E A) : comp S E (outcome E A) :=
  λ s, let '(o, s') := m s in (Ok o, s').

Definition from_option_or {S E A} (e : E) (o : option A) : comp S E A :=
  match o with Some a => ret a | None => raise e end.

Definition when {S E} (b : bool) (m : comp S E unit) : comp S E unit :=
  if b then m else ret tt.

Fixpoint for_each {S E A} (l : list A) (f : A → comp S E unit) : comp S E unit :=
  match l with
  | [] => ret tt
  | x :: l' => bind (f x) (λ _, for_each l' f)
  end.

(** A loop that threads an accumulator through the iterations. *)
Fixpoint fold_each {S E A B} (f : B → A → comp S E B) (b : B) (l : list A) : comp S E B :=
  match l with
  | [] => ret b
  | x :: l' => bind (f b x) (λ b', fold_each f b' l')
  end.

(** Sequencing of code that only fails *)
Definition obind {E A B} (m : outcome E A) (k : A → outcome E B) : outcome E B :=
  match m with Ok a => k a | Raise e => Raise e end.

Lemma obind_ok {E A B} (m : outcome E A) (k : A → outcome E B) b :
  obind m k = Ok b ↔ ∃ a, m = Ok a ∧ k a = Ok b.
Proof. destruct m; simpl; naive_solver. Qed.

Lemma bind_ok {S E A B} (m : comp S E A) (k : A → comp S E B) b s s' :
  bind m k s = (Ok b, s') ↔ ∃ a s1, m s = (Ok a, s1) ∧ k a s1 = (Ok b, s').
Proof. unfold bind. destruct (m s) as [[a|e] s1]; naive_solver. Qed.

Definition outcome_of {S E A} (m : comp S E A) (s : S) : outcome E A := (m s).1.
Definition state_of {S E A} (m : comp S E A) (s : S) : S := (m s).2.

Declare Scope py_scope.
Delimit Scope py_scope with py.
Notation "x '<-' m ;; k" := (bind m (λ x, k))
  (at level 100, m at next level, right associativity) : py_scope.
Notation "m ;;; k" := (bind m (λ _, k))
  (at level 100, right associativity) : py_scope.
Notation "'let!' x := m 'in' k" := (obind m (λ x, k))
  (at level 10, x binder, m at level 100, k at level 200) : py_scope.
#[global] Open Scope py_scope.

(** ** Weakest preconditions over both exits *)

Definition wp {S E A} (m : comp S E A)
    (Q : A → S → Prop) (R : E → S → Prop) (s : S) : Prop :=
  match m s with
  | (Ok a, s') => Q a s'
  | (Raise e, s') => R e s'
  end.

Section wp_rules.
Context {S E : Type}.
Implicit Types s : S.

Lemma wp_ret {A} (a : A) (Q : A → S → Prop) (R : E → S → Prop) s :
  Q a s → wp (ret a) Q R s.
Proof. done. Qed.

Lemma wp_raise {A} (e : E) (Q : A → S → Prop) (R : E → S → Prop) s :
  R e s → wp (raise e) Q R s.
Proof. done. Qed.

Lemma wp_gets {A} (f : S → A) (Q : A → S → Prop) (R : E → S → Prop) s :
  Q (f s) s → wp (gets f) Q R s.
Proof. done. Qed.

Lemma wp_modify (f : S → S) (Q : unit → S → Prop) (R : E → S → Prop) s :
  Q tt (f s) → wp (modify f) Q R s.
Proof. done. Qed.

Lemma wp_bind {A B} (m : comp S E A) (k : A → comp S E B) Q R s :
  wp m (λ a s', wp (k a) Q R s') R s → wp (bind m k) Q R s.
Proof. unfold wp, bind. by destruct (m s) as [[]]. Qed.

Lemma wp_bind_inv {A B} (m : comp S E A) (k : A → comp S E B) Q R s :
  wp (bind m k) Q R s → wp m (λ a s', wp (k a) Q R s') R s.
Proof. unfold wp, bind. by destruct (m s) as [[]]. Qed.

Lemma wp_mono {A} (m : comp S E A) (Q Q' : A → S → Prop) (R R' : E → S → Prop) s :
  wp m Q R s →
  (∀ a s', Q a s' → Q' a s') →
  (∀ e s', R e s' → R' e s') →
  wp m Q' R' s.
Proof. unfold wp. destruct (m s) as [[]]; eauto. Qed.

Lemma wp_conj {A} (m : comp S E A) (Q Q' : A → S → Prop) (R R' : E → S → Prop) s :
  wp m Q R s → wp m Q' R' s →
  wp m (λ a s', Q a s' ∧ Q' a s') (λ e s', R e s' ∧ R' e s') s.
Proof. unfold wp. destruct (m s) as [[]]; eauto. Qed.

Lemma wp_catch {A} (m : comp S E A) (h : E → comp S E A) Q R s :
  wp m Q (λ e s', wp (h e) Q R s') s → wp (catch m h) Q R s.
Proof. unfold wp, catch. by destruct (m s) as [[]]. Qed.

Lemma wp_attempt {A} (m : comp S E A) (Q : outcome E A → S → Prop) (R : E → S → Prop) s :
  wp m (λ a s', Q (Ok a) s') (λ e s', Q (Raise e) s') s → wp (attempt m) Q R s.
Proof. unfold wp, attempt. by destruct (m s) as [[]]. Qed.

Lemma wp_when (b : bool) (m : comp S E unit) Q R s :
  (b = true → wp m Q R s) → (b = false → Q tt s) → wp (when b m) Q R s.
Proof. intros H1 H2. destruct b; simpl; [by apply H1|]. by apply wp_ret, H2. Qed.

(** Loop rule: [I] is indexed by the elements already processed. *)
Lemma wp_for_each {A} (f : A → comp S E unit) (I : list A → S → Prop)
    (R : E → S → Prop) (l : list A) s :
  I [] s →
  (∀ pre x post s', l = pre ++ x :: post → I pre s' →
     wp (f x) (λ _ s'', I (pre ++ [x]) s'') R s') →
  wp (for_each l f) (λ _ s', I l s') R s.
Proof.
  intros H0 Hstep.
  enough (∀ post pre s', l = pre ++ post → I pre s' →
    wp (for_each post f) (λ _ s'', I l s'') R s') as Hgo by (by apply (Hgo l [])).
  induction post as [|x post IH]; intros pre s' Hl Hs'; simpl.
  - apply wp_ret. by rewrite Hl, app_nil_r.
  - apply wp_bind. eapply wp_mono; [by eapply Hstep| |done].
    intros [] s'' Hs''. apply (IH (pre ++ [x])); [|done].
    by rewrite <-(assoc_L (++)).
Qed.

Lemma wp_fold_each {A B} (f : B → A → comp S E B) (I : list A → B → S → Prop)
    (R : E → S → Prop) (l : list A) b s :
  I [] b s →
  (∀ pre x post b' s', l = pre ++ x :: post → I pre b' s' →
     wp (f b' x) (λ b'' s'', I (pre ++ [x]) b'' s'') R s') →
  wp (fold_each f b l) (λ b' s', I l b' s') R s.
Proof.
  intros H0 Hstep.
  enough (∀ post pre b' s', l = pre ++ post → I pre b' s' →
    wp (fold_each f b' post) (λ b'' s'', I l b'' s'') R s') as Hgo by (by apply (Hgo l [])).
  induction post as [|x post IH]; intros pre b' s' Hl Hs'; simpl.
  - apply wp_ret. by rewrite Hl, app_nil_r.
  - apply wp_bind. eapply wp_mono; [by eapply Hstep| |done].
    intros b'' s'' Hs''. apply (IH (pre ++ [x])); [|done].
    by rewrite <-(assoc_L (++)).
Qed.
End wp_rules.

(** An operation preserves an invariant when both exits do. *)
Definition preserves {S E A} (I : S → Prop) (m : comp S E A) : Prop :=
  ∀ s, I s → wp m (λ _ s', I s') (λ _ s', I s') s.

Section preserves_rules.
Context {S E : Type} (I : S → Prop).

Lemma preserves_ret {A} (a : A) : preserves (E:=E) I (ret a).
Proof. by intros s Hs. Qed.
Lemma preserves_raise {A} (e : E) : preserves (A:=A) I (raise e).
Proof. by intros s Hs. Qed.
Lemma preserves_gets {A} (f : S → A) : preserves (E:=E) I (gets f).
Proof. by intros s Hs. Qed.
Lemma preserves_modify (f : S → S) :
  (∀ s, I s → I (f s)) → preserves (E:=E) I (modify f).
Proof. intros Hf s Hs. by apply Hf. Qed.
Lemma preserves_bind {A B} (m : comp S E A) (k : A → comp S E B) :
  preserves I m → (∀ a, preserves I (k a)) → preserves I (bind m k).
Proof.
  intros Hm Hk s Hs. apply wp_bind. eapply wp_mono; [by apply Hm| |done].
  intros a s' Hs'. by apply Hk.
Qed.
Lemma preserves_catch {A} (m : comp S E A) (h : E → comp S E A) :
  preserves I m → (∀ e, preserves I (h e)) → preserves I (catch m h).
Proof.
  intros Hm Hk s Hs. apply wp_catch. eapply wp_mono; [by apply Hm|done|].
  intros a s' Hs'. by apply Hk.
Qed.
Lemma preserves_when b (m : comp S E unit) : preserves I m → preserves I (when b m).
Proof. destruct b; [done|]. intros _. apply preserves_ret. Qed.
Lemma preserves_for_each {A} (l : list A) (f : A → comp S E unit) :
  (∀ x, preserves I (f x)) → preserves I (for_each l f).
Proof.
  intros Hf. induction l; simpl; [apply preserves_ret|by apply preserves_bind].
Qed.
Lemma preserves_from_option {A} (e : E) (o : option A) :
  preserves I (from_option_or e o).
Proof. by destruct o; intros s Hs. Qed.
End preserves_rules.

Create HintDb preserve.
#[export] Hint Resolve preserves_ret preserves_raise preserves_gets preserves_modify
  preserves_bind preserves_catch preserves_when preserves_for_each
  preserves_from_option : preserve.

(** ** Generic list facts *)

Section lists.
Context {A : Type}.

(** Python's loop over a sequence with a [seen] set: the elements that
    were already present when met again. *)
Fixpoint dups_from `{EqDecision A} (seen : list A) (l : list A) : list A :=
  match l with
  | [] => []
  | x :: l' =>
      if decide (x ∈ seen) then x :: dups_from seen l' else dups_from (x :: seen) l'
  end.

Lemma dups_from_nil `{EqDecision A} (l seen : list A) :
  NoDup seen →
  dups_from seen l = [] ↔ NoDup l ∧ (∀ x, x ∈ l → x ∉ seen).
Proof.
  revert seen. induction l as [|x l IH]; intros seen Hseen; simpl.
  { split; [|done]. intros _. split; [constructor|]. intros x Hx. by inv Hx. }
  case_decide as Hx.
  - split; [done|]. intros [_ H]. exfalso. apply (H x); [left|done].
  - rewrite IH; [|by constructor].
    rewrite NoDup_cons. split.
    + intros [Hl Hs]. split_and!; [|done|].
      * intros Hin. apply (Hs x Hin). left.
      * intros y [->|Hy]%elem_of_cons; [done|].
        intros Hy'. by apply (Hs y Hy); right.
    + intros [[Hxl Hl] Hs]. split; [done|].
      intros y Hy [->|Hy']%elem_of_cons; [done|].
      by apply (Hs y); [right|].
Qed.

Lemma filter_partition_length (P : A → bool) (l : list A) :
  length l = (length (List.filter P l) + length (List.filter (negb ∘ P) l))%nat.
Proof. induction l as [|x l IH]; simpl; [done|]. destruct (P x); simpl; lia. Qed.

(** Uniqueness of a key, pointwise. *)
Lemma NoDup_fmap_iff {B} (f : A → B) (l : list A) :
  NoDup l → NoDup (f <$> l) ↔ ∀ x y, x ∈ l → y ∈ l → f x = f y → x = y.
Proof.
  intros Hl. split.
  - induction Hl as [|z l Hz Hl IH]; intros Hf x y Hx Hy Heq; [by inv Hx|].
    rewrite fmap_cons, NoDup_cons in Hf. destruct Hf as [Hfz Hf].
    apply elem_of_cons in Hx as [->|Hx]; apply elem_of_cons in Hy as [->|Hy].
    + done.
    + destruct Hfz. rewrite Heq. by apply list_elem_of_fmap_2.
    + destruct Hfz. rewrite <-Heq. by apply list_elem_of_fmap_2.
    + by apply IH.
  - intros Hinj. induction Hl as [|z l Hz Hl IH]; [constructor|]. rewrite fmap_cons.
    constructor.
    + intros (y & Heq & Hy)%list_elem_of_fmap. destruct Hz.
      rewrite (Hinj z y); [done|left|by right|done].
    + apply IH. intros x y Hx Hy. apply Hinj; by right.
Qed.

Lemma elem_of_filterb (P : A → bool) (l : list A) x : x ∈ List.filter P l ↔ P x = true ∧ x ∈ l.
Proof. rewrite !list_elem_of_In, filter_In. tauto. Qed.

Lemma NoDup_filterb (P : A → bool) (l : list A) : NoDup l → NoDup (List.filter P l).
Proof.
  induction 1; simpl; [constructor|]. destruct (P x); [|done].
  constructor; [|done]. by rewrite elem_of_filterb; intros [].
Qed.

Lemma NoDup_fmap_filterb {B} (f : A → B) (P : A → bool) (l : list A) :
  NoDup (f <$> l) → NoDup (f <$> List.filter P l).
Proof.
  induction l as [|a l IH]; [done|]. cbn. intros [Ha Hl]%NoDup_cons. destruct (P a); [|by apply IH].
  cbn. constructor; [|by apply IH]. intros (b & E & [_ Hb]%elem_of_filterb)%list_elem_of_fmap.
  apply Ha. rewrite E. by apply list_elem_of_fmap_2.
Qed.

Lemma NoDup_singleton_iff (l : list A) a : NoDup l → (∀ x, x ∈ l ↔ x = a) → l = [a].
Proof.
  intros Hl Hiff. destruct Hl as [|x l Hx Hl].
  - exfalso. assert (a ∈ []) as Ha by by apply Hiff. inv Ha.
  - assert (x = a) as -> by (apply Hiff; left). f_equal.
    destruct l as [|y l]; [done|]. exfalso. apply Hx.
    assert (y = a) as -> by (apply Hiff; right; left). left.
Qed.
End lists.

(** Case analysis on the scrutinee of a visible match, with its equation. *)
Ltac case_on t := let H := fresh "E" in destruct t eqn:H.
(** Closed decidable facts, by evaluation. *)
Ltac by_eval := apply (bool_decide_eq_true_1 _); vm_compute; reflexivity.
(** Successive results of a computation that succeeded *)
Ltac obinds H := repeat (apply obind_ok in H; destruct H as (? & ? & H)).
Ltac mbind H x w Hx := apply bind_ok in H; destruct H as (x & w & Hx & H).
Ltac step_wp :=
  first [ apply wp_ret | apply wp_raise | apply wp_gets | apply wp_modify
        | apply wp_bind | apply wp_catch | apply wp_attempt ].
Ltac steps_wp := repeat (step_wp; cbn beta).
