(* ===== verification/PyStr.v ===== *)
(** * Python string operations

    The operations of Python's [str], [fnmatch] and [re] that the modelled code
    calls.  A [str] is a sequence of 8-bit characters; white space and case
    mapping are those of the ASCII range, so the definitions agree with Python
    on ASCII strings. *)

From S2P Require Export Prelude.
From stdpp Require Export pretty.
From Stdlib Require Import Ascii.

#[global] Open Scope string_scope.
#[global] Open Scope list_scope.
#[global] Open Scope Z_scope.

Abbreviation chars := String.list_ascii_of_string.
Abbreviation of_chars := String.string_of_list_ascii.

(** [bool(s)] *)
Definition str_truthy (s : string) : bool :=
  match s with EmptyString => false | _ => true end.

(** [bool(x)] for [x : str | None] *)
Definition opt_truthy (o : option string) : bool :=
  match o with Some s => str_truthy s | None => false end.

(** [a or b] for optional strings *)
Definition opt_or (a b : option string) : option string :=
  if opt_truthy a then a else b.

Definition str_eqb : string → string → bool := String.eqb.

Definition ord (c : ascii) : N := N_of_ascii c.

(** [str.isspace] on one ASCII character *)
Definition is_space (c : ascii) : bool :=
  let n := ord c in
  ((9 <=? n) && (n <=? 13) || (28 <=? n) && (n <=? 32))%N.

Fixpoint lstrip (s : string) : string :=
  match s with
  | EmptyString => ""
  | String c s' => if is_space c then lstrip s' else s
  end.

Fixpoint rstrip (s : string) : string :=
  match s with
  | EmptyString => ""
  | String c s' =>
      match rstrip s' with
      | EmptyString => if is_space c then "" else String c ""
      | r => String c r
      end
  end.

Definition strip (s : string) : string := rstrip (lstrip s).

Definition lower_char (c : ascii) : ascii :=
  let n := ord c in
  if ((65 <=? n) && (n <=? 90))%N then ascii_of_N (n + 32) else c.

Definition upper_char (c : ascii) : ascii :=
  let n := ord c in
  if ((97 <=? n) && (n <=? 122))%N then ascii_of_N (n - 32) else c.

Fixpoint map_str (f : ascii → ascii) (s : string) : string :=
  match s with EmptyString => "" | String c s' => String (f c) (map_str f s') end.

Definition lower : string → string := map_str lower_char.
Definition upper : string → string := map_str upper_char.

Definition startswith (p s : string) : bool := String.prefix p s.

Fixpoint drop_str (n : nat) (s : string) : string :=
  match n, s with
  | O, _ => s
  | S n', String _ s' => drop_str n' s'
  | S _, EmptyString => ""
  end.

Definition endswith (p s : string) : bool :=
  (String.length p <=? String.length s)%nat
  && str_eqb (drop_str (String.length s - String.length p) s) p.

(** [sep.join(parts)] *)
Fixpoint join (sep : string) (parts : list string) : string :=
  match parts with
  | [] => ""
  | [p] => p
  | p :: ps => p +:+ sep +:+ join sep ps
  end.

(** [s.split(c)] for a one-character separator: never empty *)
Fixpoint split_on (c : ascii) (s : string) : list string :=
  match s with
  | EmptyString => [""]
  | String a s' =>
      if decide (a = c) then "" :: split_on c s'
      else match split_on c s' with
           | p :: ps => String a p :: ps
           | [] => [String a ""]
           end
  end.

(** [sub in s] *)
Fixpoint str_contains (sub s : string) : bool :=
  startswith sub s
  || match s with EmptyString => false | String _ s' => str_contains sub s' end.

(** [str(n)] *)
Definition str_of_Z (n : Z) : string := pretty n.

(** ** strip *)

Lemma lstrip_head s c s' : lstrip s = String c s' → is_space c = false.
Proof.
  induction s as [|a s IH]; simpl; [done|].
  destruct (is_space a) eqn:E; [done|]. intros; by simplify_eq.
Qed.

Lemma lstrip_nonspace c s : is_space c = false → lstrip (String c s) = String c s.
Proof. simpl. by intros ->. Qed.

Lemma lstrip_idemp s : lstrip (lstrip s) = lstrip s.
Proof.
  destruct (lstrip s) as [|c s'] eqn:E; [done|].
  by rewrite lstrip_nonspace; [|eapply lstrip_head].
Qed.

Lemma rstrip_idemp s : rstrip (rstrip s) = rstrip s.
Proof.
  induction s as [|c s IH]; simpl; [done|].
  destruct (rstrip s) as [|d r] eqn:E.
  - destruct (is_space c) eqn:Ec; simpl; [done|]. by rewrite Ec.
  - change (rstrip (String c (String d r))) with
      (match rstrip (String d r) with
       | EmptyString => if is_space c then "" else String c ""
       | r => String c r end).
    by rewrite IH.
Qed.

Lemma rstrip_cons_nonspace c s :
  is_space c = false → ∃ s', rstrip (String c s) = String c s'.
Proof. intros Hc. simpl. destruct (rstrip s); rewrite ?Hc; eauto. Qed.

Lemma lstrip_rstrip_lstrip s : lstrip (rstrip (lstrip s)) = rstrip (lstrip s).
Proof.
  destruct (lstrip s) as [|c s'] eqn:E; [done|].
  apply lstrip_head in E. destruct (rstrip_cons_nonspace c s' E) as [r ->].
  by rewrite lstrip_nonspace.
Qed.

Lemma strip_idemp s : strip (strip s) = strip s.
Proof. unfold strip. by rewrite lstrip_rstrip_lstrip, rstrip_idemp. Qed.

(** ** case mapping *)

Lemma lower_char_idemp c : lower_char (lower_char c) = lower_char c.
Proof. by destruct c as [[] [] [] [] [] [] [] []]. Qed.

Lemma is_space_lower c : is_space (lower_char c) = is_space c.
Proof. by destruct c as [[] [] [] [] [] [] [] []]. Qed.

Lemma map_str_idemp f s : (∀ c, f (f c) = f c) → map_str f (map_str f s) = map_str f s.
Proof. intros Hf. induction s as [|c s IH]; simpl; [done|]. by rewrite Hf, IH. Qed.

Lemma lower_idemp s : lower (lower s) = lower s.
Proof. apply map_str_idemp, lower_char_idemp. Qed.

Lemma lstrip_map f s : (∀ c, is_space (f c) = is_space c) →
  lstrip (map_str f s) = map_str f (lstrip s).
Proof. intros Hf. induction s as [|c s IH]; simpl; [done|]. rewrite Hf. by destruct (is_space c). Qed.

Lemma rstrip_map f s : (∀ c, is_space (f c) = is_space c) →
  rstrip (map_str f s) = map_str f (rstrip s).
Proof.
  intros Hf. induction s as [|c s IH]; simpl; [done|].
  rewrite IH. destruct (rstrip s); simpl; [|done]. rewrite Hf. by destruct (is_space c).
Qed.

Lemma strip_lower s : strip (lower s) = lower (strip s).
Proof.
  unfold strip, lower. rewrite lstrip_map by apply is_space_lower.
  apply rstrip_map, is_space_lower.
Qed.

(** ** append, prefix, join *)

Lemma str_eqb_eq s t : str_eqb s t = true ↔ s = t.
Proof. apply String.eqb_eq. Qed.
Lemma str_eqb_refl s : str_eqb s s = true.
Proof. apply String.eqb_refl. Qed.
Lemma str_eqb_neq s t : str_eqb s t = false ↔ s ≠ t.
Proof. apply String.eqb_neq. Qed.

Lemma str_eqbP s t : reflect (s = t) (str_eqb s t).
Proof. apply String.eqb_spec. Qed.

(** Case analysis on the string comparisons of the goal. *)
Ltac case_eqb :=
  repeat match goal with
  | |- context [str_eqb ?s ?t] =>
      destruct (str_eqbP s t); [subst|]; simpl
  end.

Lemma startswith_app p s : startswith p (p +:+ s) = true.
Proof.
  unfold startswith, String.app. induction p as [|c p IH]; simpl; [by destruct s|].
  destruct (ascii_dec c c); [done|congruence].
Qed.

Lemma startswith_true p s : startswith p s = true → ∃ t, s = p +:+ t.
Proof.
  unfold startswith, String.app. revert s. induction p as [|c p IH]; intros s; simpl; [by exists s|].
  destruct s as [|d s]; [done|]; simpl. destruct (ascii_dec c d) as [->|]; simpl; [|done].
  intros [t ->]%IH. by exists t.
Qed.

Lemma str_app_inj_l p s t : p +:+ s = p +:+ t → s = t.
Proof. apply (inj (String.app p)). Qed.

Lemma str_app_assoc a b c : a +:+ (b +:+ c) = (a +:+ b) +:+ c.
Proof. unfold String.app. induction a; simpl; congruence. Qed.

Lemma str_app_empty s : s +:+ "" = s.
Proof. unfold String.app. induction s; simpl; congruence. Qed.

Lemma str_of_Z_inj m n : str_of_Z m = str_of_Z n → m = n.
Proof. apply (inj pretty). Qed.

Create Rewrite HintDb py.
Lemma split_on_none c s : c ∉ chars s → split_on c s = [s].
Proof.
  induction s as [|a s IH]; simpl; [done|]. rewrite not_elem_of_cons. intros [Hne Hs].
  rewrite decide_False by done. by rewrite IH.
Qed.

Lemma split_on_app c a b : c ∉ chars a → split_on c (a +:+ String c b) = a :: split_on c b.
Proof.
  induction a as [|x a IH]; simpl; [by rewrite decide_True|]. rewrite not_elem_of_cons. intros [Hne Ha].
  rewrite decide_False by done. by rewrite IH.
Qed.

Lemma split_on_cons c s : ∃ p ps, split_on c s = p :: ps.
Proof.
  destruct s; simpl; [eauto|]. case_decide; [eauto|]. destruct (split_on c s); eauto.
Qed.

Lemma split_on_join c s : join (String c "") (split_on c s) = s.
Proof.
  induction s as [|a s IH]; simpl; [done|]. destruct (split_on_cons c s) as (p & ps & Hs).
  rewrite Hs in IH. case_decide as Ha; rewrite Hs; [rewrite <-IH, Ha; done|].
  rewrite <-IH. by destruct ps.
Qed.

#[export] Hint Rewrite str_eqb_refl strip_idemp lower_idemp : py.
#[export] Hint Resolve startswith_app str_eqb_refl : core.
