(* ===== verification/Glob.v ===== *)
(** * Shell-style patterns

    [fnmatch.fnmatchcase] (used by the policy evaluator) and the [*]-only
    pattern of the IR transforms, as token lists with an executable matcher and
    the relation it decides. *)

From S2P Require Export PyStr.
From Stdlib Require Import Ascii.

Inductive gtok :=
| GLit (c : ascii)
| GAny
| GStar
| GLineStar
| GSet (neg : bool) (items : list (ascii * ascii)).

Definition in_range (c : ascii) (r : ascii * ascii) : bool :=
  ((ord r.1 <=? ord c) && (ord c <=? ord r.2))%N.

Definition newline : ascii := "010"%char.

(** Tokens that consume exactly one character. *)
Definition tok_accepts (t : gtok) (c : ascii) : bool :=
  match t with
  | GLit d => bool_decide (c = d)
  | GAny => true
  | GStar | GLineStar => false
  | GSet neg items => xorb neg (existsb (in_range c) items)
  end.

(** Characters the two star tokens may absorb: [re]'s dot with and without
    [DOTALL]. *)
Definition star_accepts (t : gtok) (c : ascii) : option bool :=
  match t with
  | GStar => Some true
  | GLineStar => Some (bool_decide (c ≠ newline))
  | _ => None
  end.

Fixpoint gmatch (ts : list gtok) : list ascii → bool :=
  match ts with
  | [] => λ s, match s with [] => true | _ => false end
  | t :: ts' =>
      match t with
      | GStar =>
          fix star (s : list ascii) : bool :=
            gmatch ts' s || match s with [] => false | _ :: s' => star s' end
      | GLineStar =>
          fix star (s : list ascii) : bool :=
            gmatch ts' s
            || match s with [] => false | c :: s' => bool_decide (c ≠ newline) && star s' end
      | _ => λ s, match s with [] => false | c :: s' => tok_accepts t c && gmatch ts' s' end
      end
  end.

(** What a pattern means, independently of the search strategy. *)
Inductive glob_matches : list gtok → list ascii → Prop :=
| gm_nil : glob_matches [] []
| gm_one t ts c s :
    tok_accepts t c = true → glob_matches ts s → glob_matches (t :: ts) (c :: s)
| gm_star ts s1 s2 :
    glob_matches ts s2 → glob_matches (GStar :: ts) (s1 ++ s2)
| gm_line_star ts s1 s2 :
    Forall (λ c, c ≠ newline) s1 →
    glob_matches ts s2 → glob_matches (GLineStar :: ts) (s1 ++ s2).

Lemma gmatch_sound ts s : gmatch ts s = true → glob_matches ts s.
Proof.
  revert s. induction ts as [|t ts IH]; intros s.
  { destruct s; [constructor|done]. }
  destruct t as [d| | | |neg items]; simpl;
    try (destruct s as [|c s]; [done|]; intros [H1 H2]%andb_true_iff; apply gm_one; [done|by apply IH]).
  - destruct s as [|c s]; [done|]. intros H. apply gm_one; [done|by apply IH].
  - induction s as [|c s IHs]; intros [H|H]%orb_true_iff; try done.
    1,2: by apply (gm_star ts []), IH.
    apply IHs in H. inv H. by apply (gm_star ts (c :: s1)).
  - induction s as [|c s IHs]; intros [H|H]%orb_true_iff; try done.
    1,2: by apply (gm_line_star ts []), IH.
    apply andb_true_iff in H as [Hc H]. apply IHs in H. apply bool_decide_eq_true in Hc.
    inv H. apply (gm_line_star ts (c :: s1)); [by constructor|done].
Qed.

Lemma gmatch_star_app ts s1 s2 : gmatch ts s2 = true → gmatch (GStar :: ts) (s1 ++ s2) = true.
Proof.
  intros H. induction s1 as [|c s1 IH].
  - destruct s2; simpl in *; by rewrite H.
  - cbn [app]. change (gmatch (GStar :: ts) (c :: s1 ++ s2)) with
      (gmatch ts (c :: s1 ++ s2) || gmatch (GStar :: ts) (s1 ++ s2)).
    rewrite IH. apply orb_true_r.
Qed.

Lemma gmatch_line_star_app ts s1 s2 :
  Forall (λ c, c ≠ newline) s1 →
  gmatch ts s2 = true → gmatch (GLineStar :: ts) (s1 ++ s2) = true.
Proof.
  intros Hs H. induction Hs as [|c s1 Hc Hs IH].
  - destruct s2; simpl in *; by rewrite H.
  - cbn [app]. change (gmatch (GLineStar :: ts) (c :: s1 ++ s2)) with
      (gmatch ts (c :: s1 ++ s2) || (bool_decide (c ≠ newline) && gmatch (GLineStar :: ts) (s1 ++ s2))).
    rewrite IH, bool_decide_eq_true_2 by done. apply orb_true_r.
Qed.

Lemma gmatch_complete ts s : glob_matches ts s → gmatch ts s = true.
Proof.
  induction 1 as [|t ts c s Ht _ IH|ts s1 s2 _ IH|ts s1 s2 Hs _ IH].
  - done.
  - destruct t; try done; simpl in *; by rewrite ?Ht, IH.
  - by apply gmatch_star_app.
  - by apply gmatch_line_star_app.
Qed.

Lemma gmatch_spec ts s : gmatch ts s = true ↔ glob_matches ts s.
Proof. split; [apply gmatch_sound|apply gmatch_complete]. Qed.

(** ** fnmatch.translate *)

(** The text up to a closing bracket, and what follows it. *)
Fixpoint break_bracket (p : list ascii) : option (list ascii * list ascii) :=
  match p with
  | [] => None
  | c :: p' =>
      if decide (c = "]"%char) then Some ([], p')
      else '(mid, rest) ← break_bracket p'; Some (c :: mid, rest)
  end.

(** The body of a bracket expression opened just before [p]: a leading [!] and a
    bracket right after it belong to the body. *)
Definition split_class (p : list ascii) : option (list ascii * list ascii) :=
  let '(pre1, r1) :=
    match p with
    | c :: r => if decide (c = "!"%char) then ([c], r) else ([], p)
    | [] => ([], p)
    end in
  let '(pre2, r2) :=
    match r1 with
    | c :: r => if decide (c = "]"%char) then ([c], r) else ([], r1)
    | [] => ([], r1)
    end in
  '(mid, rest) ← break_bracket r2; Some (pre1 ++ pre2 ++ mid, rest).

(** Ranges [x-y] and single characters of a bracket body. *)
Fixpoint class_items (p : list ascii) : list (ascii * ascii) :=
  match p with
  | [] => []
  | x :: r =>
      match r with
      | d :: y :: r' =>
          if decide (d = "-"%char) then (x, y) :: class_items r' else (x, x) :: class_items r
      | _ => (x, x) :: class_items r
      end
  end.

Definition class_tok (stuff : list ascii) : gtok :=
  match stuff with
  | c :: r => if decide (c = "!"%char) then GSet true (class_items r) else GSet false (class_items stuff)
  | [] => GSet false []
  end.

Fixpoint parse_glob (fuel : nat) (p : list ascii) : list gtok :=
  match fuel with
  | O => []
  | S fuel' =>
      match p with
      | [] => []
      | c :: r =>
          if decide (c = "*"%char) then GStar :: parse_glob fuel' r
          else if decide (c = "?"%char) then GAny :: parse_glob fuel' r
          else if decide (c = "["%char) then
            match split_class r with
            | Some (stuff, rest) => class_tok stuff :: parse_glob fuel' rest
            | None => GLit c :: parse_glob fuel' r
            end
          else GLit c :: parse_glob fuel' r
      end
  end.

Definition glob_tokens (p : string) : list gtok :=
  parse_glob (length (chars p)) (chars p).

(** [fnmatch.fnmatchcase(name, pat)] *)
Definition fnmatchcase (name pat : string) : bool := gmatch (glob_tokens pat) (chars name).

Lemma break_bracket_length p mid rest :
  break_bracket p = Some (mid, rest) → (length rest < length p)%nat.
Proof.
  revert mid. induction p as [|c p IH]; intros mid; simpl; [done|].
  case_decide; [intros; simplify_eq; lia|].
  destruct (break_bracket p) as [[m r]|]; [|done]. intros; simplify_eq/=.
  specialize (IH m eq_refl). lia.
Qed.

Lemma split_class_length p stuff rest :
  split_class p = Some (stuff, rest) → (length rest < length p)%nat.
Proof.
  unfold split_class. intros H.
  assert (∀ q pre, ('(mid, r) ← break_bracket q; Some (pre ++ mid, r)) = Some (stuff, rest) →
    (length rest < length q)%nat) as Hbreak.
  { intros q pre ([mid r] & Hb%break_bracket_length & ?)%bind_Some. by simplify_eq/=. }
  destruct p as [|c p]; [apply (Hbreak [] []) in H; simpl in *; lia|].
  case_decide; simpl in *.
  - destruct p as [|d p]; [apply (Hbreak [] [c]) in H; simpl in *; lia|].
    case_decide; simpl in *.
    + apply (Hbreak p [c; d]) in H. lia.
    + apply (Hbreak (d :: p) [c]) in H. simpl in *. lia.
  - case_decide; simpl in *.
    + apply (Hbreak p [c]) in H. lia.
    + apply (Hbreak (c :: p) []) in H. simpl in *. lia.
Qed.

(** The fuel is the pattern's length: every token consumes a character, so more
    fuel changes nothing. *)
Lemma parse_glob_fuel n m p :
  (length p ≤ n)%nat → (length p ≤ m)%nat → parse_glob n p = parse_glob m p.
Proof.
  revert m p. induction n as [|n IH]; intros m p Hn Hm.
  { destruct p; [by destruct m|simpl in Hn; lia]. }
  destruct m as [|m]; [destruct p; [done|simpl in Hm; lia]|].
  destruct p as [|c r]; [done|]. simpl in *.
  destruct (split_class r) as [[stuff rest]|] eqn:E.
  1: apply split_class_length in E.
  all: repeat case_decide; f_equal; apply IH; lia.
Qed.

(** A pattern without special characters only matches itself. *)
Definition plain_char (c : ascii) : bool :=
  negb (bool_decide (c = "*"%char) || bool_decide (c = "?"%char) || bool_decide (c = "["%char)).

Definition plain_pattern (p : string) : bool := forallb plain_char (chars p).

Lemma parse_glob_plain n p :
  (length p ≤ n)%nat → forallb plain_char p = true → parse_glob n p = GLit <$> p.
Proof.
  revert p. induction n as [|n IH]; intros p Hn Hp.
  { destruct p; [done|simpl in Hn; lia]. }
  destruct p as [|c r]; [done|]. simpl in *.
  apply andb_true_iff in Hp as [Hc Hr]. unfold plain_char in Hc.
  repeat case_bool_decide; try done.
  repeat case_decide; try done. f_equal. apply IH; [lia|done].
Qed.

Lemma gmatch_lits p s : gmatch (GLit <$> p) s = true ↔ s = p.
Proof.
  revert s. induction p as [|c p IH]; intros s; simpl.
  { by destruct s. }
  destruct s as [|d s]; [done|].
  rewrite andb_true_iff, bool_decide_eq_true, IH. naive_solver.
Qed.

Lemma chars_inj s t : chars s = chars t → s = t.
Proof.
  intros H. rewrite <-(String.string_of_list_ascii_of_string s), H.
  apply String.string_of_list_ascii_of_string.
Qed.

Lemma fnmatchcase_plain name pat :
  plain_pattern pat = true → fnmatchcase name pat = true ↔ name = pat.
Proof.
  intros Hp. unfold fnmatchcase, glob_tokens.
  rewrite parse_glob_plain by done. rewrite gmatch_lits.
  split; [apply chars_inj|by intros ->].
Qed.

Lemma fnmatchcase_star name : fnmatchcase name "*" = true.
Proof.
  apply gmatch_spec. change (glob_tokens "*") with [GStar].
  rewrite <-(app_nil_r (chars name)). constructor. constructor.
Qed.

(** ** [re.escape(pattern).replace("\*", ".*")] under [re.fullmatch]

    The dot does not match a newline there. *)
Definition star_tokens (p : string) : list gtok :=
  (λ c, if decide (c = "*"%char) then GLineStar else GLit c) <$> chars p.

Definition star_fullmatch (pattern value : string) : bool :=
  gmatch (star_tokens pattern) (chars value).
