(* ===== verification/PyVal.v ===== *)
(** * Python values and dictionaries

    The dynamically typed values that flow through the program as
    [dict[str, Any]] (JSON documents, options, checkpoints), and Python's
    insertion-ordered dictionaries with string keys. *)

From S2P Require Export PyStr.
From Stdlib Require Import PrimFloat FloatOps SpecFloat.

(** ** Insertion-ordered dictionaries *)

Abbreviation dict V := (list (string * V)).

Section dict.
Context {V : Type}.
Implicit Types d : dict V.

(** [d.get(k)] *)
Fixpoint dict_get d (k : string) : option V :=
  match d with
  | [] => None
  | (k', v) :: d' => if str_eqb k k' then Some v else dict_get d' k
  end.

(** [d[k] = v]: an existing key keeps its position *)
Fixpoint dict_set d (k : string) (v : V) : dict V :=
  match d with
  | [] => [(k, v)]
  | (k', v') :: d' =>
      if str_eqb k k' then (k', v) :: d' else (k', v') :: dict_set d' k v
  end.

(** [del d[k]] and [d.pop(k, None)] *)
Fixpoint dict_del d (k : string) : dict V :=
  match d with
  | [] => []
  | (k', v') :: d' => if str_eqb k k' then d' else (k', v') :: dict_del d' k
  end.

Definition dict_keys d : list string := d.*1.

Definition dict_mem d (k : string) : bool := bool_decide (is_Some (dict_get d k)).

(** [{**d, **e}] and [d.update(e)] *)
Definition dict_update d (e : dict V) : dict V :=
  foldl (λ acc kv, dict_set acc kv.1 kv.2) d e.

(** A literal or comprehension: later duplicates win, first position kept *)
Definition dict_of_list (l : list (string * V)) : dict V := dict_update [] l.

Definition dict_wf d : Prop := NoDup (dict_keys d).

#[export] Instance dict_wf_dec d : Decision (dict_wf d) := NoDup_dec (dict_keys d).

Lemma dict_get_Some_elem d k v : dict_get d k = Some v → (k, v) ∈ d.
Proof.
  induction d as [|[k' v'] d IH]; simpl; [done|].
  case_eqb; [intros; simplify_eq; left|]. intros; right; auto.
Qed.

Lemma dict_get_None d k : dict_get d k = None ↔ k ∉ dict_keys d.
Proof.
  induction d as [|[k' v'] d IH]; simpl; [set_solver|].
  rewrite not_elem_of_cons. case_eqb; naive_solver.
Qed.

Lemma dict_get_is_Some d k : is_Some (dict_get d k) ↔ k ∈ dict_keys d.
Proof.
  destruct (dict_get d k) eqn:E.
  - split; [|eauto]. intros _. apply dict_get_Some_elem in E.
    apply list_elem_of_fmap. by exists (k, v).
  - apply dict_get_None in E. split; [by intros []|done].
Qed.

Lemma dict_get_elem d k v : dict_wf d → (k, v) ∈ d → dict_get d k = Some v.
Proof.
  unfold dict_wf. induction d as [|[k' v'] d IH]; simpl; [set_solver|].
  intros [Hk Hd]%NoDup_cons [Heq|Hin]%elem_of_cons; simplify_eq; case_eqb; try done.
  - exfalso. apply Hk. apply list_elem_of_fmap. by exists (k', v).
  - auto.
Qed.

Lemma dict_get_set d k k' v :
  dict_get (dict_set d k v) k' = if str_eqb k' k then Some v else dict_get d k'.
Proof.
  induction d as [|[k0 v0] d IH]; simpl; [done|].
  destruct (str_eqbP k k0); simpl; [subst; by destruct (str_eqb k' k0)|].
  destruct (str_eqbP k' k0); [|done]. subst. by case_eqb.
Qed.

Lemma dict_get_set_eq d k v : dict_get (dict_set d k v) k = Some v.
Proof. by rewrite dict_get_set, str_eqb_refl. Qed.

Lemma dict_get_set_ne d k k' v : k' ≠ k → dict_get (dict_set d k v) k' = dict_get d k'.
Proof. intros. rewrite dict_get_set. by case_eqb. Qed.

Lemma dict_keys_set d k v k' : k' ∈ dict_keys (dict_set d k v) ↔ k' = k ∨ k' ∈ dict_keys d.
Proof. rewrite <-!dict_get_is_Some, dict_get_set. case_eqb; naive_solver. Qed.

Lemma dict_wf_set d k v : dict_wf d → dict_wf (dict_set d k v).
Proof.
  unfold dict_wf. induction d as [|[k' v'] d IH]; simpl; [intros; apply NoDup_singleton|].
  case_eqb; [done|].
  intros [Hk Hd]%NoDup_cons. apply NoDup_cons. split; [|by apply IH].
  change (k' ∉ dict_keys (dict_set d k v)). rewrite dict_keys_set. naive_solver.
Qed.

Lemma dict_wf_update d e : dict_wf d → dict_wf (dict_update d e).
Proof.
  unfold dict_update. revert d. induction e as [|[k v] e IH]; simpl; [done|].
  intros d Hd. by apply IH, dict_wf_set.
Qed.

Lemma dict_wf_of_list l : dict_wf (dict_of_list l).
Proof. apply dict_wf_update. constructor. Qed.

Lemma dict_set_fresh d k v : k ∉ dict_keys d → dict_set d k v = d ++ [(k, v)].
Proof.
  induction d as [|[k' v'] d IH]; simpl; [done|].
  rewrite not_elem_of_cons. intros [Hne Hd]. case_eqb; [done|]. by rewrite IH.
Qed.

Lemma dict_update_fresh d e :
  dict_wf e → (∀ k, k ∈ dict_keys e → k ∉ dict_keys d) → dict_update d e = d ++ e.
Proof.
  unfold dict_update, dict_wf. revert d.
  induction e as [|[k v] e IH]; intros d; simpl; [by rewrite app_nil_r|].
  intros [Hk He]%NoDup_cons Hfresh.
  rewrite dict_set_fresh by (apply Hfresh; left).
  rewrite IH; [by rewrite <-(assoc_L (++))|done|].
  intros k' Hk'. unfold dict_keys. rewrite fmap_app, not_elem_of_app. simpl. split.
  - apply Hfresh. by right.
  - intros ->%list_elem_of_singleton. done.
Qed.

Lemma dict_get_update d e k :
  dict_wf e →
  dict_get (dict_update d e) k =
    match dict_get e k with Some v => Some v | None => dict_get d k end.
Proof.
  unfold dict_update, dict_wf. revert d. induction e as [|[k' v'] e IH]; intros d; simpl; [done|].
  intros [Hk He]%NoDup_cons. rewrite IH by done.
  destruct (str_eqbP k k') as [<-|Hkk].
  - destruct (dict_get e k) eqn:E.
    + exfalso. apply Hk. apply (dict_get_is_Some e). eauto.
    + apply dict_get_set_eq.
  - destruct (dict_get e k); [done|]. by apply dict_get_set_ne.
Qed.

Lemma dict_of_list_wf_id l : dict_wf l → dict_of_list l = l.
Proof. intros Hl. unfold dict_of_list. rewrite dict_update_fresh; [done|done|]. set_solver. Qed.

Lemma dict_get_del d k k' :
  dict_wf d → dict_get (dict_del d k) k' = if str_eqb k' k then None else dict_get d k'.
Proof.
  unfold dict_wf. induction d as [|[k0 v0] d IH]; simpl.
  { intros _. by destruct (str_eqb k' k). }
  intros [Hk Hd]%NoDup_cons.
  destruct (str_eqbP k k0) as [->|]; simpl.
  - destruct (str_eqbP k' k0); [|done]. subst. by apply dict_get_None.
  - rewrite IH by done. destruct (str_eqbP k' k0); [|done]. subst. by case_eqb.
Qed.

Lemma dict_keys_del d k k' : k' ∈ dict_keys (dict_del d k) → k' ∈ dict_keys d.
Proof.
  induction d as [|[k0 v0] d IH]; simpl; [done|]. case_eqb; rewrite ?elem_of_cons; [by right|].
  intros [->|H]; [by left|right; by apply IH].
Qed.

Lemma dict_wf_del d k : dict_wf d → dict_wf (dict_del d k).
Proof.
  unfold dict_wf. induction d as [|[k0 v0] d IH]; simpl; [done|].
  intros [Hk Hd]%NoDup_cons. case_eqb; [done|]. apply NoDup_cons. split; [|by apply IH].
  intros H. apply Hk. by eapply dict_keys_del.
Qed.

Lemma dict_mem_get d k : dict_mem d k = match dict_get d k with Some _ => true | None => false end.
Proof. unfold dict_mem. destruct (dict_get d k); [by rewrite bool_decide_eq_true_2 by eauto|done]. Qed.

Lemma dict_get_filter (P : string → V → bool) d k :
  dict_wf d →
  dict_get (List.filter (λ kv, P kv.1 kv.2) d) k =
    match dict_get d k with Some v => if P k v then Some v else None | None => None end.
Proof.
  unfold dict_wf. induction d as [|[k0 v0] d IH]; simpl; [done|]. intros [Hk Hd]%NoDup_cons.
  destruct (P k0 v0) eqn:EP; simpl; destruct (str_eqbP k k0) as [->|Hne]; rewrite ?EP; try done; try by apply IH.
  rewrite IH by done. by rewrite (proj2 (dict_get_None d k0) Hk).
Qed.

Lemma dict_wf_filterb (P : string → V → bool) d : dict_wf d → dict_wf (List.filter (λ kv, P kv.1 kv.2) d).
Proof.
  unfold dict_wf. induction d as [|[k0 v0] d IH]; simpl; [done|]. intros [Hk Hd]%NoDup_cons.
  destruct (P k0 v0); simpl; [|by apply IH]. apply NoDup_cons. split; [|by apply IH].
  intros ([k v] & Heq & [_ Hin]%elem_of_filterb)%list_elem_of_fmap. simpl in Heq. subst k.
  apply Hk. apply list_elem_of_fmap. by exists (k0, v).
Qed.
End dict.

(** ** Values *)

Inductive pyval : Type :=
| VNone
| VBool (b : bool)
| VInt (z : Z)
| VFloat (f : float)
| VStr (s : string)
| VList (l : list pyval)
| VDict (d : list (string * pyval)).

Definition is_str (v : pyval) : bool := match v with VStr _ => true | _ => false end.
Definition is_dict (v : pyval) : bool := match v with VDict _ => true | _ => false end.
Definition is_list (v : pyval) : bool := match v with VList _ => true | _ => false end.
(** [isinstance(v, int)]: booleans are integers in Python *)
Definition is_int (v : pyval) : bool := match v with VInt _ | VBool _ => true | _ => false end.

Definition as_str (v : pyval) : option string := match v with VStr s => Some s | _ => None end.
Definition as_dict (v : pyval) : option (dict pyval) := match v with VDict d => Some d | _ => None end.
Definition as_list (v : pyval) : option (list pyval) := match v with VList l => Some l | _ => None end.
Definition as_int (v : pyval) : option Z :=
  match v with VInt z => Some z | VBool b => Some (if b then 1 else 0) | _ => None end.

Definition opt_str (o : option string) : pyval :=
  match o with Some s => VStr s | None => VNone end.
Definition opt_dict (o : option (dict pyval)) : pyval :=
  match o with Some d => VDict d | None => VNone end.

(** [d.get(k)] as a value, [None] when absent *)
Definition get_or_none (d : dict pyval) (k : string) : pyval :=
  default VNone (dict_get d k).

(** [bool(v)] *)
Definition truthy (v : pyval) : bool :=
  match v with
  | VNone => false
  | VBool b => b
  | VInt z => negb (z =? 0)
  | VFloat f => negb (PrimFloat.eqb f PrimFloat.zero)
  | VStr s => str_truthy s
  | VList l => match l with [] => false | _ => true end
  | VDict d => match d with [] => false | _ => true end
  end.

(** The exact value of a finite float is [m * 2^e]; comparison with an integer
    is exact in Python. *)
Definition float_eq_Z (f : float) (z : Z) : bool :=
  match Prim2SF f with
  | S754_zero _ => z =? 0
  | S754_finite s m e =>
      let m' := if s then Z.neg m else Z.pos m in
      if 0 <=? e then z =? m' * 2 ^ e else z * 2 ^ (- e) =? m'
  | _ => false
  end.

(** [a == b] *)
Fixpoint py_eq (a b : pyval) {struct a} : bool :=
  match a, b with
  | VNone, VNone => true
  | VStr s, VStr t => str_eqb s t
  | VFloat f, VFloat g => PrimFloat.eqb f g
  | VFloat f, VInt z | VInt z, VFloat f => float_eq_Z f z
  | VFloat f, VBool c | VBool c, VFloat f => float_eq_Z f (if c then 1 else 0)
  | VInt x, VInt y => x =? y
  | VInt x, VBool c | VBool c, VInt x => x =? (if c then 1 else 0)
  | VBool c, VBool c' => Bool.eqb c c'
  | VList l, VList m =>
      (fix go (l m : list pyval) : bool :=
         match l, m with
         | [], [] => true
         | x :: l', y :: m' => py_eq x y && go l' m'
         | _, _ => false
         end) l m
  | VDict d, VDict e =>
      (length d =? length e)%nat
      && (fix go (d : list (string * pyval)) : bool :=
            match d with
            | [] => true
            | (k, v) :: d' =>
                match dict_get e k with Some w => py_eq v w | None => false end && go d'
            end) d
  | _, _ => false
  end.

Section pyval_ind.
Variable P : pyval → Prop.
Hypothesis HNone : P VNone.
Hypothesis HBool : ∀ b, P (VBool b).
Hypothesis HInt : ∀ z, P (VInt z).
Hypothesis HFloat : ∀ f, P (VFloat f).
Hypothesis HStr : ∀ s, P (VStr s).
Hypothesis HList : ∀ l, Forall P l → P (VList l).
Hypothesis HDict : ∀ d, Forall (λ kv, P kv.2) d → P (VDict d).

(** Structural induction through the nested containers. *)
Fixpoint pyval_rect' (v : pyval) : P v :=
  match v with
  | VNone => HNone
  | VBool b => HBool b
  | VInt z => HInt z
  | VFloat f => HFloat f
  | VStr s => HStr s
  | VList l =>
      HList l ((fix go l := match l return Forall P l with
                            | [] => Forall_nil_2 _
                            | x :: l' => Forall_cons_2 _ _ _ (pyval_rect' x) (go l')
                            end) l)
  | VDict d =>
      HDict d ((fix go d := match d return Forall (λ kv, P kv.2) d with
                            | [] => Forall_nil_2 _
                            | kv :: d' => Forall_cons_2 _ _ _ (pyval_rect' kv.2) (go d')
                            end) d)
  end.
End pyval_ind.

(** Values on which [==] is reflexive: no NaN, and dictionaries with distinct
    keys, as every value decoded from JSON is. *)
Inductive json_wf : pyval → Prop :=
| wf_none : json_wf VNone
| wf_bool b : json_wf (VBool b)
| wf_int z : json_wf (VInt z)
| wf_float f : PrimFloat.eqb f f = true → json_wf (VFloat f)
| wf_str s : json_wf (VStr s)
| wf_list l : Forall json_wf l → json_wf (VList l)
| wf_dict d : dict_wf d → Forall (λ kv, json_wf kv.2) d → json_wf (VDict d).

Lemma py_eq_refl v : json_wf v → py_eq v v = true.
Proof.
  induction v as [| | | | |l IH|d IH] using pyval_rect'; intros Hwf; inv Hwf; simpl; try done.
  - by destruct b.
  - apply Z.eqb_refl.
  - match goal with H : Forall json_wf _ |- _ => revert H end.
    induction IH as [|x l Hx _ IHl]; intros Hl; [done|]. inv Hl.
    rewrite Hx by done. simpl. by apply IHl.
  - rewrite Nat.eqb_refl. simpl.
    match goal with H : dict_wf d |- _ => rename H into Hd end.
    match goal with H : Forall _ d |- _ => rename H into Hj end.
    enough (∀ e, Forall (λ kv, dict_get d kv.1 = Some kv.2) e →
                 Forall (λ kv, json_wf kv.2 → py_eq kv.2 kv.2 = true) e →
                 Forall (λ kv, json_wf kv.2) e →
      (fix go (d0 : list (string * pyval)) : bool :=
         match d0 with
         | [] => true
         | (k, v) :: d' =>
             match dict_get d k with Some w => py_eq v w | None => false end && go d'
         end) e = true) as Hgo.
    { apply Hgo; [|done|done]. apply Forall_forall. intros [k v] Hin. by apply dict_get_elem. }
    clear Hd Hj IH. intros e. induction e as [|[k v] e IHe]; [done|].
    intros H1 H2 H3. inv H1. inv H2. inv H3. simpl in *.
    match goal with H : dict_get d k = _ |- _ => rewrite H end.
    rewrite andb_true_iff. split; [auto|]. by apply IHe.
Qed.

Lemma json_get d k : json_wf (VDict d) → json_wf (get_or_none d k).
Proof.
  intros Hd. inv Hd. unfold get_or_none. destruct (dict_get d k) as [v|] eqn:E; [|constructor].
  apply dict_get_Some_elem in E. rename select (Forall _ d) into Hall. rewrite Forall_forall in Hall.
  by apply (Hall (k, v)).
Qed.

(** [str(v)] for the values the code formats that way; floats and containers are
    printed by Python's [repr] and left to the caller's parameter. *)
Definition py_str (repr : pyval → string) (v : pyval) : string :=
  match v with
  | VNone => "None"
  | VBool true => "True"
  | VBool false => "False"
  | VInt z => str_of_Z z
  | VStr s => s
  | _ => repr v
  end.

(** [type(v).__name__] *)
Definition type_name (v : pyval) : string :=
  match v with
  | VNone => "NoneType"
  | VBool _ => "bool"
  | VInt _ => "int"
  | VFloat _ => "float"
  | VStr _ => "str"
  | VList _ => "list"
  | VDict _ => "dict"
  end.
