(* ===== verification/PyExn.v ===== *)
(** * Exceptions and UUIDs

    An exception value carries its class name, its message ([str(exc)]) and its
    attributes.  A UUID is its 128-bit integer, printed and parsed the way
    Python's [uuid] module does. *)

From S2P Require Export PyVal.
From Stdlib Require Import Ascii.

(** ** Exceptions *)

Record exn := mk_exn {
  exn_type : string;
  exn_str : string;
  exn_attrs : dict pyval;
}.

Definition value_error (m : string) : exn := mk_exn "ValueError" m [].
Definition key_error (m : string) : exn := mk_exn "KeyError" m [].
Definition runtime_error (m : string) : exn := mk_exn "RuntimeError" m [].
Definition type_error (m : string) : exn := mk_exn "TypeError" m [].
Definition integrity_error (m : string) : exn := mk_exn "IntegrityError" m [].
Definition http_error (status : Z) (detail : string) : exn :=
  mk_exn "HTTPException" detail [("status_code", VInt status)].

Definition exn_is (cls : string) (e : exn) : bool := str_eqb (exn_type e) cls.

Definition http_status (e : exn) : option Z :=
  if exn_is "HTTPException" e then dict_get (exn_attrs e) "status_code" ≫= as_int else None.

(** The classes of [httpx.RequestError] *)
Definition request_errors : list string :=
  ["RequestError"; "TransportError"; "TimeoutException"; "ConnectTimeout"; "ReadTimeout"; "WriteTimeout"; "PoolTimeout";
   "NetworkError"; "ConnectError"; "ReadError"; "WriteError"; "CloseError"; "ProtocolError"; "LocalProtocolError";
   "RemoteProtocolError"; "ProxyError"; "UnsupportedProtocol"; "DecodingError"; "TooManyRedirects"].
Definition is_request_error (e : exn) : bool := existsb (str_eqb (exn_type e)) request_errors.

(** What iterating a value yields, as values *)
Definition iterate (v : pyval) : outcome exn (list pyval) :=
  match v with
  | VList l => Ok l
  | VStr s => Ok ((λ c, VStr (String c "")) <$> chars s)
  | VDict d => Ok (VStr <$> dict_keys d)
  | _ => Raise (type_error "not iterable")
  end.

Definition attribute_error (name : string) : exn := mk_exn "AttributeError" ("object has no attribute '" +:+ name +:+ "'") [].

(** [v.get(...)]: only dictionaries have it. *)
Definition as_mapping (v : pyval) : outcome exn (dict pyval) :=
  match v with VDict d => Ok d | _ => Raise (attribute_error "get") end.

(** [d.get(k, default)] *)
Definition get_default (d : dict pyval) (k : string) (v : pyval) : pyval := default v (dict_get d k).

(** [a or b] *)
Definition value_or (a b : pyval) : pyval := if truthy a then a else b.

(** ** UUIDs *)

Definition uuid := N.
Definition uuid_wf (u : uuid) : Prop := (u < 2 ^ 128)%N.

#[global] Instance uuid_eq_dec : EqDecision uuid := N.eq_dec.

Definition hex_digit (n : N) : ascii :=
  if (n <? 10)%N then ascii_of_N (48 + n) else ascii_of_N (87 + n).

Definition hex_value (c : ascii) : option N :=
  let n := ord c in
  if ((48 <=? n) && (n <=? 57))%N then Some (n - 48)%N
  else if ((97 <=? n) && (n <=? 102))%N then Some (n - 87)%N
  else if ((65 <=? n) && (n <=? 70))%N then Some (n - 55)%N
  else None.

(** [n] hexadecimal digits, most significant first *)
Fixpoint hex_digits (n : nat) (u : N) : list ascii :=
  match n with
  | O => []
  | S n' => hex_digits n' (u / 16) ++ [hex_digit (u mod 16)]
  end.

(** [str(u)] : 8-4-4-4-12 *)
Definition uuid_str (u : uuid) : string :=
  let h := hex_digits 32 u in
  of_chars (take 8 h ++ ["-"%char] ++ take 4 (drop 8 h) ++ ["-"%char]
    ++ take 4 (drop 12 h) ++ ["-"%char] ++ take 4 (drop 16 h) ++ ["-"%char] ++ drop 20 h).

(** Python's [int(s, 16)] on the digits: an underscore only between digits. *)
Fixpoint int16_digits (acc : N) (after_digit : bool) (s : list ascii) : option N :=
  match s with
  | [] => if after_digit then Some acc else None
  | c :: s' =>
      if decide (c = "_"%char) then
        if after_digit then int16_digits acc false s' else None
      else '(d) ← hex_value c; int16_digits (16 * acc + d) true s'
  end.

Definition drop_radix_prefix (s : list ascii) : list ascii :=
  match s with
  | c :: d :: e :: s' =>
      if decide (c = "0"%char ∧ (d = "x"%char ∨ d = "X"%char)) then
        if decide (e = "_"%char) then s' else e :: s'
      else s
  | _ => s
  end.

Definition int16 (s : string) : option Z :=
  match chars (strip s) with
  | c :: r =>
      if decide (c = "-"%char) then (λ n, - Z.of_N n) <$> int16_digits 0 false (drop_radix_prefix r)
      else if decide (c = "+"%char) then Z.of_N <$> int16_digits 0 false (drop_radix_prefix r)
      else Z.of_N <$> int16_digits 0 false (drop_radix_prefix (c :: r))
  | [] => None
  end.

(** [s.replace(sub, "")] *)
Fixpoint remove_sub (fuel : nat) (sub s : string) : string :=
  match fuel with
  | O => s
  | S fuel' =>
      if startswith sub s then remove_sub fuel' sub (drop_str (String.length sub) s)
      else match s with
           | EmptyString => ""
           | String c s' => String c (remove_sub fuel' sub s')
           end
  end.

Definition str_remove (sub s : string) : string := remove_sub (S (String.length s)) sub s.

Definition drop_braces : list ascii → list ascii :=
  fix go l := match l with
              | c :: l' => if decide (c = "{"%char ∨ c = "}"%char) then go l' else l
              | [] => []
              end.

(** [s.strip("{}")] *)
Definition strip_braces (l : list ascii) : list ascii :=
  rev (drop_braces (rev (drop_braces l))).

(** [UUID(s)]: [None] where Python raises [ValueError]. *)
Definition uuid_parse (s : string) : option uuid :=
  let h := str_remove "uuid:" (str_remove "urn:" s) in
  let digits := List.filter (λ c, bool_decide (c ≠ "-"%char)) (strip_braces (chars h)) in
  if decide (length digits = 32%nat) then
    n ← int16 (of_chars digits);
    if bool_decide (0 ≤ n < 2 ^ 128) then Some (Z.to_N n) else None
  else None.

(** ** The printed form parses back *)

Fixpoint nibbles (n : nat) (u : N) : list N :=
  match n with O => [] | S n' => nibbles n' (u / 16) ++ [(u mod 16)%N] end.

Lemma hex_digits_nibbles n u : hex_digits n u = hex_digit <$> nibbles n u.
Proof.
  revert u. induction n as [|n IH]; intros u; simpl; [done|]. by rewrite fmap_app, IH.
Qed.

Lemma length_nibbles n u : length (nibbles n u) = n.
Proof. revert u. induction n as [|n IH]; intros u; simpl; [done|]. rewrite length_app, IH. simpl. lia. Qed.

Lemma nibbles_bound n u : Forall (λ d, d < 16)%N (nibbles n u).
Proof.
  revert u. induction n as [|n IH]; intros u; simpl; [constructor|].
  apply Forall_app. split; [done|]. apply Forall_singleton. by apply N.mod_upper_bound.
Qed.

Lemma nibbles_value n u acc :
  foldl (λ a d, 16 * a + d)%N acc (nibbles n u) = (16 ^ N.of_nat n * acc + u mod 16 ^ N.of_nat n)%N.
Proof.
  revert u acc. induction n as [|n IH]; intros u acc.
  { simpl nibbles. simpl foldl. rewrite N.mod_1_r. change (N.of_nat 0) with 0%N. rewrite N.pow_0_r. lia. }
  simpl nibbles. rewrite foldl_app, IH. simpl foldl.
  rewrite Nat2N.inj_succ, N.pow_succ_r'.
  rewrite (N.Div0.mod_mul_r u 16). lia.
Qed.

(** A decidable fact about the sixteen lowercase digits. *)
Lemma hex_digit_all (P : ascii → bool) d :
  forallb P (hex_digit ∘ N.of_nat <$> seq 0 16) = true → (d < 16)%N → P (hex_digit d) = true.
Proof.
  rewrite forallb_forall. intros HP Hd. apply HP. apply list_elem_of_In, list_elem_of_fmap.
  exists (N.to_nat d). split; [simpl; by rewrite N2Nat.id|]. apply elem_of_seq. lia.
Qed.

Lemma hex_value_digit d : (d < 16)%N → hex_value (hex_digit d) = Some d.
Proof.
  intros Hd.
  assert (∀ k, k ∈ seq 0 16 → hex_value (hex_digit (N.of_nat k)) = Some (N.of_nat k)) as H.
  { intros k Hk. repeat (apply elem_of_cons in Hk as [->|Hk]; [reflexivity|]). by inv Hk. }
  rewrite <-(N2Nat.id d). apply H, elem_of_seq. lia.
Qed.

Lemma int16_digits_hex ds acc b :
  Forall (λ d, d < 16)%N ds → b = true ∨ ds ≠ [] →
  int16_digits acc b (hex_digit <$> ds) = Some (foldl (λ a d, 16 * a + d)%N acc ds).
Proof.
  intros Hds. revert acc b. induction Hds as [|d ds Hd _ IH]; intros acc b Hb.
  { by destruct Hb as [->|]. }
  cbn [fmap list_fmap int16_digits].
  pose proof (hex_digit_all (λ c, bool_decide (c ≠ "_"%char)) d eq_refl Hd) as Hu.
  rewrite bool_decide_eq_true in Hu. rewrite decide_False by done.
  rewrite hex_value_digit by done. cbn [mbind option_bind]. apply IH. by left.
Qed.

Definition uuid_char (c : ascii) : bool :=
  bool_decide (c ∈ hex_digit ∘ N.of_nat <$> seq 0 16) || bool_decide (c = "-"%char).

Lemma hex_digit_uuid_char d : (d < 16)%N → uuid_char (hex_digit d) = true.
Proof. intros Hd. by apply (hex_digit_all uuid_char). Qed.

Lemma startswith_head c p d s : c ≠ d → startswith (String c p) (String d s) = false.
Proof. intros. unfold startswith. simpl. by destruct (ascii_dec c d). Qed.

Lemma remove_sub_absent fuel c p s :
  c ∉ chars s → remove_sub fuel (String c p) s = s.
Proof.
  revert s. induction fuel as [|fuel IH]; intros s Hs; [done|].
  destruct s as [|d s]; [done|]. cbn [remove_sub].
  change (chars (String d s)) with (d :: chars s) in Hs. apply not_elem_of_cons in Hs as [Hne Hs].
  rewrite startswith_head by done. by rewrite IH.
Qed.

Lemma strip_no_space s : Forall (λ c, is_space c = false) (chars s) → strip s = s.
Proof.
  intros Hs. assert (lstrip s = s) as Hl.
  { destruct s as [|c s]; [done|]. inv Hs. by apply lstrip_nonspace. }
  unfold strip. rewrite Hl. clear Hl.
  induction s as [|c s IH]; [done|]. inv Hs. simpl. rewrite IH by done.
  destruct s; [|done]. by destruct (is_space c).
Qed.

Lemma drop_braces_none l : Forall (λ c, c ≠ "{"%char ∧ c ≠ "}"%char) l → drop_braces l = l.
Proof. destruct l as [|c l]; [done|]. intros H. inv H. simpl. by rewrite decide_False by naive_solver. Qed.

Lemma strip_braces_none l : Forall (λ c, c ≠ "{"%char ∧ c ≠ "}"%char) l → strip_braces l = l.
Proof.
  intros H. unfold strip_braces. rewrite (drop_braces_none l) by done.
  rewrite drop_braces_none by (by apply Forall_rev). apply rev_involutive.
Qed.

Lemma uuid_char_all (P : ascii → bool) c :
  forallb P ("-"%char :: (hex_digit ∘ N.of_nat <$> seq 0 16)) = true →
  uuid_char c = true → P c = true.
Proof.
  rewrite forallb_forall. intros HP Hc. apply HP. unfold uuid_char in Hc.
  apply orb_true_iff in Hc as [Hc%bool_decide_eq_true|Hc%bool_decide_eq_true].
  - right. by apply list_elem_of_In.
  - by left.
Qed.

Definition uuid_layout (h : list ascii) : list ascii :=
  take 8 h ++ ["-"%char] ++ take 4 (drop 8 h) ++ ["-"%char]
    ++ take 4 (drop 12 h) ++ ["-"%char] ++ take 4 (drop 16 h) ++ ["-"%char] ++ drop 20 h.

Lemma uuid_layout_chars h :
  Forall (λ c, uuid_char c = true) h → Forall (λ c, uuid_char c = true) (uuid_layout h).
Proof.
  intros H. unfold uuid_layout. repeat apply Forall_app_2;
    first [by apply Forall_singleton | auto using Forall_take, Forall_drop].
Qed.

Lemma filter_true {A} (P : A → bool) l : Forall (λ x, P x = true) l → List.filter P l = l.
Proof. induction 1 as [|x l Hx _ IH]; simpl; [done|]. by rewrite Hx, IH. Qed.

Lemma uuid_layout_digits h :
  Forall (λ c, c ≠ "-"%char) h →
  List.filter (λ c, bool_decide (c ≠ "-"%char)) (uuid_layout h) = h.
Proof.
  intros H. unfold uuid_layout. rewrite !List.filter_app.
  change (List.filter (λ c, bool_decide (c ≠ "-"%char)) ["-"%char]) with (@nil ascii).
  rewrite !filter_true;
    try (apply (Forall_impl (λ c, c ≠ "-"%char));
         [auto using Forall_take, Forall_drop | intros; by apply bool_decide_eq_true]).
  cbn [app].
  assert (∀ n m k, k = (m + n)%nat → take n (drop m h) ++ drop k h = drop m h) as Hsplit.
  { intros n m k ->. rewrite <-drop_drop. apply take_drop. }
  rewrite (Hsplit 4 16 20)%nat, (Hsplit 4 12 16)%nat, (Hsplit 4 8 12)%nat by done.
  apply take_drop.
Qed.

Definition char_notin (l : list ascii) (c : ascii) : bool := negb (existsb (Ascii.eqb c) l).

Lemma char_notin_true l c : char_notin l c = true → c ∉ l.
Proof.
  unfold char_notin. rewrite negb_true_iff. intros H Hin.
  assert (existsb (Ascii.eqb c) l = true) as Ht; [|congruence].
  apply existsb_exists. exists c. split; [by apply list_elem_of_In|apply Ascii.eqb_refl].
Qed.

Lemma int16_of_nibbles ds :
  Forall (λ d, d < 16)%N ds → ds ≠ [] →
  int16 (of_chars (hex_digit <$> ds)) = Some (Z.of_N (foldl (λ a d, 16 * a + d)%N 0%N ds)).
Proof.
  intros Hds Hne. unfold int16.
  assert (Forall (λ c, uuid_char c = true) (hex_digit <$> ds)) as Hc.
  { apply Forall_fmap. eapply Forall_impl; [done|]. apply hex_digit_uuid_char. }
  rewrite strip_no_space.
  2:{ rewrite String.list_ascii_of_string_of_list_ascii. eapply Forall_impl; [done|].
      intros c Hcc. apply negb_true_iff. by apply (uuid_char_all (λ c, negb (is_space c)) c eq_refl). }
  rewrite String.list_ascii_of_string_of_list_ascii.
  destruct ds as [|d ds]; [done|]. inv Hds.
  assert (∀ e, (e < 16)%N → hex_digit e ∉ ["-"; "+"; "x"; "X"]%char) as Hd.
  { intros e He. apply char_notin_true. by apply (hex_digit_all (char_notin _)). }
  cbn [fmap list_fmap].
  rewrite !decide_False by (intros Heq; pose proof (Hd d ltac:(done)); set_solver).
  assert (drop_radix_prefix (hex_digit d :: (hex_digit <$> ds)) = hex_digit d :: (hex_digit <$> ds)) as ->.
  { destruct ds as [|d1 [|d2 ds]]; [done..|]. cbn [fmap list_fmap drop_radix_prefix].
    rewrite decide_False; [done|]. intros [_ Hx].
    match goal with H : Forall _ (d1 :: _) |- _ => inv H end.
    pose proof (Hd d1 ltac:(done)). set_solver. }
  change (hex_digit d :: (hex_digit <$> ds)) with (hex_digit <$> d :: ds).
  rewrite int16_digits_hex; [done| |by right]. by constructor.
Qed.

(** [UUID(str(u)) == u] *)
Lemma uuid_parse_str u : uuid_wf u → uuid_parse (uuid_str u) = Some u.
Proof.
  intros Hu. unfold uuid_parse, uuid_str. fold (uuid_layout (hex_digits 32 u)).
  set (h := hex_digits 32 u).
  assert (Forall (λ d, d < 16)%N (nibbles 32 u)) as Hn by apply nibbles_bound.
  assert (h = hex_digit <$> nibbles 32 u) as Hh by apply hex_digits_nibbles.
  assert (Forall (λ c, uuid_char c = true) h) as Hc.
  { rewrite Hh. apply Forall_fmap. eapply Forall_impl; [done|]. apply hex_digit_uuid_char. }
  apply uuid_layout_chars in Hc as Hl.
  assert (Forall (λ c, c ∉ ["u"; "{"; "}"]%char) (uuid_layout h)) as Hl'.
  { eapply Forall_impl; [done|]. intros c Hcc. apply char_notin_true.
    by apply (uuid_char_all (char_notin _)). }
  assert ("u"%char ∉ chars (of_chars (uuid_layout h))) as Hu'.
  { rewrite String.list_ascii_of_string_of_list_ascii. intros Hin.
    rewrite Forall_forall in Hl'. apply (Hl' _ Hin). by left. }
  unfold str_remove.
  rewrite !remove_sub_absent by (rewrite ?remove_sub_absent by done; done).
  rewrite String.list_ascii_of_string_of_list_ascii.
  rewrite strip_braces_none by (eapply Forall_impl; [exact Hl'|set_solver]).
  rewrite uuid_layout_digits.
  2:{ rewrite Hh. apply Forall_fmap. eapply Forall_impl; [done|]. intros d Hd.
      assert (hex_digit d ∉ ["-"%char]) as Hd'; [|set_solver].
      apply char_notin_true. by apply (hex_digit_all (char_notin _)). }
  rewrite decide_True by (rewrite Hh, length_fmap; apply length_nibbles).
  rewrite Hh, int16_of_nibbles; [|done|by intros ?%(f_equal length)].
  rewrite nibbles_value, N.mod_small by done. cbn [mbind option_bind].
  rewrite N.mul_0_r, N.add_0_l.
  rewrite bool_decide_eq_true_2; [by rewrite N2Z.id|].
  unfold uuid_wf in Hu. lia.
Qed.

#[global] Arguments uuid_parse : simpl never.
#[global] Arguments uuid_str : simpl never.
