(* ===== verification/PyFloat.v ===== *)
(** * Floats at the edges of the program

    The conversions between Python's [float] and [int], exact as Python's are. *)

From S2P Require Export PyVal.
From Stdlib Require Import PrimFloat FloatOps SpecFloat FloatAxioms.

(** [float(n)]: the nearest double; [None] for Python's [OverflowError]. *)
Definition float_of_Z (n : Z) : option float :=
  let f := SF2Prim (binary_normalize prec emax n 0 false) in
  if PrimFloat.is_infinity f then None else Some f.

(** [int(f)]: towards zero; [None] for a NaN or an infinity. *)
Definition int_of_float (f : float) : option Z :=
  match Prim2SF f with
  | S754_zero _ => Some 0
  | S754_finite s m e =>
      let a := if 0 <=? e then Z.pos m * 2 ^ e else Z.pos m / 2 ^ (- e) in
      Some (if s then - a else a)
  | _ => None
  end.

(** [f > n], compared exactly *)
Definition float_gt_Z (f : float) (n : Z) : bool :=
  match Prim2SF f with
  | S754_zero _ => n <? 0
  | S754_finite s m e =>
      let m' := if s then Z.neg m else Z.pos m in
      if 0 <=? e then n <? m' * 2 ^ e else n * 2 ^ (- e) <? m'
  | S754_infinity s => negb s
  | S754_nan => false
  end.

(** [float(v)] for an [int], a [bool] or a [float] *)
Definition as_float (v : pyval) : option float :=
  match v with
  | VFloat f => Some f
  | VInt z => float_of_Z z
  | VBool b => Some (if b then 1%float else 0%float)
  | _ => None
  end.

Example float_of_Z_3600 : float_of_Z 3600 = Some 3600%float.
Proof. vm_compute. reflexivity. Qed.
Example int_of_float_neg : int_of_float (-2.75)%float = Some (-2).
Proof. vm_compute. reflexivity. Qed.
Example float_gt_Z_half : float_gt_Z 2.5%float 2 = true ∧ float_gt_Z 2%float 2 = false.
Proof. split; vm_compute; reflexivity. Qed.

(** ** Comparing floats *)

Lemma SFleb_trans x y z : SFleb x y = true → SFleb y z = true → SFleb x z = true.
Proof.
  unfold SFleb, SFcompare.
  destruct x as [[]|[]| |[] mx ex], y as [[]|[]| |[] my ey], z as [[]|[]| |[] mz ez]; try done; intros H1 H2.
  all: change (Pos.compare_cont Eq) with Pos.compare in *.
  all: repeat match goal with
  | H : context [Z.compare ?a ?b] |- _ => destruct (Z.compare_spec a b); subst; try done
  | H : context [Pos.compare ?a ?b] |- _ => destruct (Pos.compare_spec a b); subst; try done
  end.
  all: repeat match goal with
  | |- context [Z.compare ?a ?b] => destruct (Z.compare_spec a b); subst; try done; try lia
  | |- context [Pos.compare ?a ?b] => destruct (Pos.compare_spec a b); subst; try done; try lia
  end.
Qed.

Lemma SFleb_total x y : x ≠ S754_nan → y ≠ S754_nan → SFleb x y = negb (SFltb y x).
Proof.
  unfold SFleb, SFltb, SFcompare.
  destruct x as [[]|[]| |[] mx ex], y as [[]|[]| |[] my ey]; try done; intros _ _.
  all: change (Pos.compare_cont Eq) with Pos.compare in *.
  all: rewrite (Z.compare_antisym ex ey); destruct (Z.compare_spec ex ey); try done; cbn.
  all: rewrite (Pos.compare_antisym mx my); destruct (Pos.compare_spec mx my); try done; cbn.
Qed.

(** Every float but a NaN is comparable with itself. *)
Definition is_number (x : float) : Prop := PrimFloat.leb x x = true.

Lemma float_leb_trans x y z : PrimFloat.leb x y = true → PrimFloat.leb y z = true → PrimFloat.leb x z = true.
Proof. rewrite !leb_spec. apply SFleb_trans. Qed.

Lemma is_number_nan x : is_number x → Prim2SF x ≠ S754_nan.
Proof. unfold is_number. rewrite leb_spec. by destruct (Prim2SF x). Qed.

Lemma float_leb_total x y : is_number x → is_number y → PrimFloat.leb x y = negb (PrimFloat.ltb y x).
Proof. intros Hx%is_number_nan Hy%is_number_nan. rewrite leb_spec, ltb_spec. by apply SFleb_total. Qed.

Lemma float_ltb_leb x y : PrimFloat.ltb x y = true → PrimFloat.leb x y = true.
Proof. rewrite ltb_spec, leb_spec. unfold SFltb, SFleb. by destruct (SFcompare _ _) as [[]|]. Qed.

Lemma float_ltb_number x y : PrimFloat.ltb x y = true → is_number x ∧ is_number y.
Proof.
  unfold is_number. rewrite ltb_spec, !leb_spec. intros H.
  assert (∀ v, v ≠ S754_nan → SFleb v v = true) as Hr.
  { intros v Hv. rewrite (SFleb_total _ _ Hv Hv). unfold SFltb, SFcompare. destruct v as [[]|[]| |[] m e]; try done.
    all: change (Pos.compare_cont Eq) with Pos.compare; by rewrite Z.compare_refl, Pos.compare_refl. }
  split; apply Hr; intros E; rewrite E in H; [done|]. unfold SFltb, SFcompare in H. by destruct (Prim2SF x) as [[]|[]| |[]].
Qed.
