(* ===== verification/PyUrl.v ===== *)
(** * URLs

    What the program uses of Python's [urllib.parse]: splitting and joining a URL,
    percent-encoding, query strings, and [str.replace].  Text is a sequence of
    UTF-8 bytes.  The bracketed hosts of IPv6 addresses are not checked beyond
    their brackets. *)

From S2P Require Export PyExn.
From Stdlib Require Import Ascii.

(** ** Text *)

(** [s.partition(c)] when [c] occurs *)
Fixpoint split_first (c : ascii) (s : string) : option (string * string) :=
  match s with
  | EmptyString => None
  | String a s' =>
      if bool_decide (a = c) then Some ("", s')
      else match split_first c s' with Some (l, r) => Some (String a l, r) | None => None end
  end.

(** [s.replace(old, new)] for a non-empty [old], left to right *)
Fixpoint replace_fuel (fuel : nat) (old new s : string) : string :=
  match fuel with
  | O => s
  | S fuel' =>
      match s with
      | EmptyString => ""
      | String c s' =>
          if startswith old s then new +:+ replace_fuel fuel' old new (drop_str (String.length old) s)
          else String c (replace_fuel fuel' old new s')
      end
  end.
Definition str_replace (old new s : string) : string := replace_fuel (S (String.length s)) old new s.

Definition filter_str (p : ascii → bool) (s : string) : string := of_chars (List.filter p (chars s)).

Definition str_all (p : ascii → bool) (s : string) : bool := forallb p (chars s).

(** [s.rstrip(c)] *)
Fixpoint rstrip_char (c : ascii) (s : string) : string :=
  match s with
  | EmptyString => ""
  | String a s' =>
      match rstrip_char c s' with
      | EmptyString => if bool_decide (a = c) then "" else String a ""
      | r => String a r
      end
  end.

(** [sorted(l)], on texts and on pairs of texts *)
Fixpoint insert_by {A} (le : A → A → bool) (x : A) (l : list A) : list A :=
  match l with
  | [] => [x]
  | y :: l' => if le x y then x :: l else y :: insert_by le x l'
  end.
Definition sorted_by {A} (le : A → A → bool) (l : list A) : list A := foldr (insert_by le) [] l.
Definition sorted_strings : list string → list string := sorted_by String.leb.
Definition pair_leb (p q : string * string) : bool :=
  if str_eqb p.1 q.1 then String.leb p.2 q.2 else String.leb p.1 q.1.
Definition sorted_pairs : list (string * string) → list (string * string) := sorted_by pair_leb.

Definition is_alpha (c : ascii) : bool := ((65 <=? ord c) && (ord c <=? 90) || (97 <=? ord c) && (ord c <=? 122))%N.
Definition is_digit (c : ascii) : bool := ((48 <=? ord c) && (ord c <=? 57))%N.

(** ** Integers, slugs and placeholders in texts *)

(** Decimal digits with single underscores between them *)
Fixpoint decimal_digits (acc : Z) (after_digit : bool) (s : list ascii) : option Z :=
  match s with
  | [] => if after_digit then Some acc else None
  | c :: s' =>
      if bool_decide (c = "_"%char) then (if after_digit then decimal_digits acc false s' else None)
      else if is_digit c then decimal_digits (10 * acc + (Z.of_N (ord c) - 48)) true s' else None
  end.

(** [int(s)] of a text *)
Definition int_of_text (s : string) : option Z :=
  match chars (strip s) with
  | c :: r =>
      if bool_decide (c = "-"%char) then Z.opp <$> decimal_digits 0 false r
      else if bool_decide (c = "+"%char) then decimal_digits 0 false r
      else decimal_digits 0 false (c :: r)
  | [] => None
  end.

Definition is_slug_char (c : Ascii.ascii) : bool :=
  let n := ord c in (((97 <=? n) && (n <=? 122)) || ((48 <=? n) && (n <=? 57)))%N.

(** [re.sub(r"[^a-z0-9]+", "-", s)]; [in_run] inside a run already replaced *)
Fixpoint slug_chars (in_run : bool) (l : list Ascii.ascii) : list Ascii.ascii :=
  match l with
  | [] => []
  | c :: l' =>
      if is_slug_char c then c :: slug_chars false l'
      else if in_run then slug_chars true l'
      else "-"%char :: slug_chars true l'
  end.

Fixpoint drop_dashes (l : list Ascii.ascii) : list Ascii.ascii :=
  match l with
  | c :: l' => if bool_decide (c = "-"%char) then drop_dashes l' else l
  | [] => []
  end.
Definition rstrip_dashes (l : list Ascii.ascii) : list Ascii.ascii := rev (drop_dashes (rev l)).

(** [re.findall(r"{([^{}]+)}", s)]; [cur] is the name being read. *)
Fixpoint placeholders (cur : option string) (s : string) : list string :=
  match s with
  | EmptyString => []
  | String c s' =>
      if bool_decide (c = "{"%char) then placeholders (Some "") s'
      else if bool_decide (c = "}"%char) then
        match cur with
        | Some n => if str_truthy n then n :: placeholders None s' else placeholders None s'
        | None => placeholders None s'
        end
      else placeholders ((λ n, n +:+ String c "") <$> cur) s'
  end.

(** ** Percent-encoding *)

(** Letters, digits and [_.-~] *)
Definition unreserved (c : ascii) : bool :=
  is_alpha c || is_digit c || bool_decide (c ∈ ["_"%char; "."%char; "-"%char; "~"%char]).

Definition upper_hex (n : N) : ascii := upper_char (hex_digit n).

Definition percent (c : ascii) : string := String "%" (String (upper_hex (ord c / 16)) (String (upper_hex (ord c mod 16)) "")).

(** [quote(s, safe="")] *)
Fixpoint quote (s : string) : string :=
  match s with
  | EmptyString => ""
  | String c s' => if unreserved c then String c (quote s') else percent c +:+ quote s'
  end.

(** [quote_plus(s)] *)
Fixpoint quote_plus (s : string) : string :=
  match s with
  | EmptyString => ""
  | String c s' =>
      if bool_decide (c = " "%char) then String "+" (quote_plus s')
      else if unreserved c then String c (quote_plus s') else percent c +:+ quote_plus s'
  end.

(** [unquote(s.replace("+", " "))] *)
Fixpoint unquote_plus (s : string) : string :=
  match s with
  | String "%"%char (String a (String b s') as t) =>
      match hex_value a, hex_value b with
      | Some x, Some y => String (ascii_of_N (16 * x + y)) (unquote_plus s')
      | _, _ => String "%" (unquote_plus t)
      end
  | String c s' => String (if bool_decide (c = "+"%char) then " "%char else c) (unquote_plus s')
  | EmptyString => ""
  end.

(** [urlencode(pairs)] *)
Definition urlencode (pairs : list (string * string)) : string :=
  join "&" ((λ kv, quote_plus kv.1 +:+ "=" +:+ quote_plus kv.2) <$> pairs).

(** [parse_qsl(query, keep_blank_values=True)] *)
Definition parse_pair (s : string) : option (string * string) :=
  if str_truthy s then
    Some (match split_first "="%char s with
          | Some (k, v) => (unquote_plus k, unquote_plus v)
          | None => (unquote_plus s, "")
          end)
  else None.
Definition parse_qsl (query : string) : list (string * string) := omap parse_pair (split_on "&"%char query).

(** ** Splitting and joining *)

Record SplitResult := mk_split { scheme : string; netloc : string; path : string; query : string; fragment : string }.

Definition scheme_char (c : ascii) : bool := is_alpha c || is_digit c || bool_decide (c ∈ ["+"%char; "-"%char; "."%char]).

Fixpoint lstrip_control (s : string) : string :=
  match s with
  | EmptyString => ""
  | String c s' => if (ord c <=? 32)%N then lstrip_control s' else s
  end.

Definition split_scheme (url : string) : string * string :=
  match split_first ":"%char url, url with
  | Some (s, rest), String c _ => if is_alpha c && str_all scheme_char s then (lower s, rest) else ("", url)
  | _, _ => ("", url)
  end.

(** Up to the first of [/?#] *)
Fixpoint split_netloc (s : string) : string * string :=
  match s with
  | EmptyString => ("", "")
  | String c s' =>
      if bool_decide (c ∈ ["/"%char; "?"%char; "#"%char]) then ("", s)
      else let '(n, r) := split_netloc s' in (String c n, r)
  end.

Definition bad_brackets (n : string) : bool := xorb (str_contains "[" n) (str_contains "]" n).

Definition urlsplit (url : string) : outcome exn SplitResult :=
  let url := filter_str (λ c, negb (bool_decide (ord c ∈ [9; 13; 10]%N))) (lstrip_control url) in
  let '(s, url) := split_scheme url in
  let '(n, url) := if startswith "//" url then split_netloc (drop_str 2 url) else ("", url) in
  if bad_brackets n then Raise (value_error "Invalid IPv6 URL")
  else
    let '(url, f) := default (url, "") (split_first "#"%char url) in
    let '(url, q) := default (url, "") (split_first "?"%char url) in
    Ok (mk_split s n url q f).

(** The schemes of [uses_netloc] that matter here *)
Definition uses_netloc : list string :=
  [""; "ftp"; "http"; "gopher"; "nntp"; "telnet"; "imap"; "wais"; "file"; "mms"; "https"; "shttp"; "snews"; "prospero";
   "rtsp"; "rtsps"; "rtspu"; "rsync"; "svn"; "svn+ssh"; "sftp"; "nfs"; "git"; "git+ssh"; "ws"; "wss"; "itms-services"].

Definition urlunsplit (u : SplitResult) : string :=
  let url := path u in
  let url :=
    if str_truthy (netloc u) then
      "//" +:+ netloc u +:+ (if str_truthy url && negb (startswith "/" url) then String "/" url else url)
    else if startswith "//" url then "//" +:+ url
    else if str_truthy (scheme u) && bool_decide (scheme u ∈ uses_netloc) && (negb (str_truthy url) || startswith "/" url)
         then "//" +:+ url
    else url in
  let url := if str_truthy (scheme u) then scheme u +:+ ":" +:+ url else url in
  let url := if str_truthy (query u) then url +:+ "?" +:+ query u else url in
  if str_truthy (fragment u) then url +:+ "#" +:+ fragment u else url.

Example urlsplit_demo :
  urlsplit "HTTPS://user@host:8443/a/b?x=1&y=#top" = Ok (mk_split "https" "user@host:8443" "/a/b" "x=1&y=" "top").
Proof. vm_compute. reflexivity. Qed.
Example quote_demo : quote "a/b c?" = "a%2Fb%20c%3F".
Proof. vm_compute. reflexivity. Qed.

(** ** Properties *)

(** ** Sorting *)

Lemma insert_by_perm {A} (le : A → A → bool) x l : insert_by le x l ≡ₚ x :: l.
Proof. induction l as [|y l IH]; simpl; [done|]. destruct (le x y); [done|]. rewrite IH. constructor. Qed.

Lemma sorted_by_perm {A} (le : A → A → bool) l : sorted_by le l ≡ₚ l.
Proof. unfold sorted_by. induction l as [|x l IH]; simpl; [done|]. by rewrite insert_by_perm, IH. Qed.

(** The first of a sorted list is the first of the least ones. *)
Section least.
Context {A : Type} (le : A → A → bool) (P : A → Prop).
Context (le_total : ∀ x y, P x → P y → le x y = false → le y x = true).
Context (le_trans : ∀ x y z, le x y = true → le y z = true → le x z = true).

Lemma insert_by_head x l : head (insert_by le x l) =
  Some (match head l with Some y => if le x y then x else y | None => x end).
Proof. destruct l as [|y l]; simpl; [done|]. by destruct (le x y). Qed.

Lemma sorted_by_head l x : Forall P l → head (sorted_by le l) = Some x →
  ∃ pre post, l = pre ++ x :: post ∧ Forall (λ y, le y x = false) pre ∧ Forall (λ y, le x y = true) (pre ++ post).
Proof.
  induction l as [|a l IH] in x |- *; [done|]. intros [Ha Hl]%Forall_cons. unfold sorted_by in *. cbn [foldr].
  rewrite insert_by_head. destruct (head (foldr (insert_by le) [] l)) as [y|] eqn:E.
  - destruct (IH y Hl eq_refl) as (pre & post & -> & Hpre & Hall). destruct (le a y) eqn:Ey; intros [= <-].
    + exists [], (pre ++ y :: post). split_and!; [done|done|]. rewrite Forall_app in Hall. destruct Hall as [H1 H2].
      cbn. apply Forall_app. split; [|constructor; [exact Ey|]]; (eapply Forall_impl; [eassumption|]); intros z Hz; by apply le_trans with y.
    + apply Forall_app in Hl as [? [Hy ?]%Forall_cons]. exists (a :: pre), post. split_and!; [done|by constructor|]. cbn. constructor; [by apply le_total|done].
  - intros [= <-]. exists [], []. destruct l as [|b l]; [done|]. cbn [foldr] in E. by rewrite insert_by_head in E.
Qed.
End least.

(** ** Characters *)

Lemma chars_app s t : chars (s +:+ t) = chars s ++ chars t.
Proof. unfold String.app. induction s as [|c s IH]; simpl; [done|]. by rewrite IH. Qed.

Lemma chars_of l : chars (of_chars l) = l.
Proof. apply String.list_ascii_of_string_of_list_ascii. Qed.

Lemma of_chars_chars s : of_chars (chars s) = s.
Proof. apply String.string_of_list_ascii_of_string. Qed.

Lemma length_chars s : length (chars s) = String.length s.
Proof. induction s as [|c s IH]; simpl; [done|]. by rewrite IH. Qed.

Lemma length_of_chars l : String.length (of_chars l) = length l.
Proof. by rewrite <-length_chars, chars_of. Qed.

Lemma length_app_str s t : String.length (s +:+ t) = (String.length s + String.length t)%nat.
Proof. unfold String.app. induction s as [|c s IH]; simpl; congruence. Qed.

Lemma chars_nonempty s : s ≠ "" ↔ chars s ≠ [].
Proof. by destruct s. Qed.

Lemma str_all_app p s t : str_all p (s +:+ t) = str_all p s && str_all p t.
Proof. unfold str_all. by rewrite chars_app, forallb_app. Qed.

Lemma upper_hex_ok n : (n < 16)%N → unreserved (upper_hex n) = true.
Proof.
  intros Hn. assert (n ∈ (N.of_nat <$> seq 0 16)) as Hin.
  { apply list_elem_of_fmap. exists (N.to_nat n). split; [lia|]. apply elem_of_seq. lia. }
  simpl in Hin. rewrite !elem_of_cons in Hin.
  repeat (destruct Hin as [->|Hin]; [vm_compute; reflexivity|]). by apply elem_of_nil in Hin.
Qed.

Lemma ord_lt c : (ord c < 256)%N.
Proof. apply N_ascii_bounded. Qed.

(** What [quote] can produce. *)
Definition quoted_char (c : ascii) : bool := unreserved c || bool_decide (c = "%"%char).

Lemma quote_chars s : str_all quoted_char (quote s) = true.
Proof.
  induction s as [|c s IH]; [done|]. simpl. destruct (unreserved c) eqn:E.
  - unfold str_all in *. simpl. unfold quoted_char at 1. by rewrite E, IH.
  - rewrite str_all_app, IH, andb_true_r. unfold str_all, percent, quoted_char. simpl.
    rewrite !upper_hex_ok; [done|apply N.mod_upper_bound; lia|]. pose proof (ord_lt c).
    apply N.Div0.div_lt_upper_bound. lia.
Qed.
