(* ===== verification/RefResolution.v ===== *)
(** * Resolution of references in specifications
      ([OpenAPIExtractor._resolve_refs] of [libs/extractors/openapi.py])

    A parsed specification is a graph of dictionaries and lists that is rewritten
    in place: a dictionary holding a [$ref] takes over the entries of the one it
    points to.  The children of the two are then shared, and recursive schemas
    make the graph cyclic, so the model is a heap of nodes, not a tree. *)

From S2P Require Export PyUrl PyVal PyExn.
From stdpp Require Export gmap sets.
From Stdlib Require Import Ascii.

(** A value of the specification: a scalar, or a pointer to a dictionary or list *)
Inductive value := Scalar (v : pyval) | Ptr (a : nat).
Inductive node := Obj (fields : dict value) | Arr (items : list value).
Abbreviation heap := (gmap nat node).

Definition ref_key : string := "$ref".

(** [id(node) in _seen]; scalars have nothing to visit. *)
Abbreviation visited := (gset nat).

Section resolve.
(** The parsed external documents, by reference location; the address of the
    document *)
Context (_fetch_external_document : string → option value).
Context (root : value).

Definition object_at (h : heap) (v : value) : option (dict value) :=
  match v with
  | Ptr a => match h !! a with Some (Obj d) => Some d | _ => None end
  | Scalar _ => None
  end.

(** The walk of [_follow_json_pointer] below a value; [None] stands for the empty
    dictionary a missing entry is replaced by. *)
Fixpoint walk (h : heap) (parts : list string) (current : value) : option value :=
  match parts with
  | [] => Some current
  | part :: rest =>
      match object_at h current with
      | Some d => match dict_get d part with Some v => walk h rest v | None => None end
      | None => None
      end
  end.

(** [_follow_json_pointer] *)
Definition _follow_json_pointer (h : heap) (pointer : string) (doc : value) : dict value :=
  match walk h (split_on "/"%char pointer) doc with
  | Some v => default [] (object_at h v)
  | None => []
  end.

(** The location and the pointer of an external reference: [ref.split("#/", 1)] *)
Fixpoint split_ref (ref : string) : string * string :=
  match ref with
  | EmptyString => ("", "")
  | String c rest =>
      if startswith "#/" ref then ("", drop_str 2 ref)
      else let '(location, pointer) := split_ref rest in (String c location, pointer)
  end.

(** [_resolve_external_ref]: a document that cannot be had is empty.  A document
    that is a list or a scalar cannot be merged. *)
Definition _resolve_external_ref (h : heap) (ref : string) : outcome exn (dict value) :=
  let '(location, pointer) := split_ref ref in
  match _fetch_external_document location with
  | None => Ok []
  | Some doc =>
      if str_truthy pointer then Ok (_follow_json_pointer h pointer doc)
      else match object_at h doc with
           | Some d => Ok d
           | None => Raise (type_error "argument after ** must be a mapping")
           end
  end.

(** [_follow_ref] *)
Definition _follow_ref (h : heap) (ref : value) : outcome exn (dict value) :=
  match ref with
  | Scalar (VStr r) => if startswith "#/" r then Ok (_follow_json_pointer h (drop_str 2 r) root) else _resolve_external_ref h r
  | _ => Raise (mk_exn "AttributeError" "object has no attribute 'startswith'" [])
  end.

(** The loop over the values of a dictionary or the items of a list *)
Fixpoint visit_all (visit : heap → visited → value → option (outcome exn (heap * visited)))
    (h : heap) (seen : visited) (l : list value) : option (outcome exn (heap * visited)) :=
  match l with
  | [] => Some (Ok (h, seen))
  | v :: rest =>
      match visit h seen v with
      | Some (Ok (h', seen')) => visit_all visit h' seen' rest
      | r => r
      end
  end.

(** [_resolve_refs], with the recursion depth as fuel: [None] when it runs out *)
Fixpoint resolve (fuel : nat) (h : heap) (seen : visited) (v : value) : option (outcome exn (heap * visited)) :=
  match v with
  | Scalar _ => Some (Ok (h, seen))
  | Ptr a =>
      if decide (a ∈ seen) then Some (Ok (h, seen))
      else
        match fuel with
        | O => None
        | S fuel' =>
            let seen := {[a]} ∪ seen in
            match h !! a with
            | None => Some (Ok (h, seen))
            | Some (Arr items) => visit_all (resolve fuel') h seen items
            | Some (Obj d) =>
                match dict_get d ref_key with
                | None => visit_all (resolve fuel') h seen d.*2
                | Some ref =>
                    match _follow_ref h ref with
                    | Raise e => Some (Raise e)
                    | Ok resolved =>
                        let merged := dict_update resolved (dict_del d ref_key) in
                        visit_all (resolve fuel') (<[a := Obj merged]> h) seen merged.*2
                    end
                end
            end
        end
  end.

(** A call on a whole specification; one more than the number of nodes is enough
    ([resolve_terminates]). *)
Definition _resolve_refs (h : heap) : option (outcome exn heap) :=
  match resolve (S (size h)) h ∅ root with
  | Some (Ok (h', _)) => Some (Ok h')
  | Some (Raise e) => Some (Raise e)
  | None => None
  end.
End resolve.

(** ** Termination

    Every recursive call visits a node no other call visits. *)

Definition unvisited (h : heap) (seen : visited) : nat := size (dom h ∖ seen).

Lemma unvisited_visit h seen a : a ∈ dom h → a ∉ seen → (unvisited h ({[a]} ∪ seen) < unvisited h seen)%nat.
Proof. intros Ha Hs. apply subset_size. set_solver. Qed.

Lemma unvisited_mono h seen seen' : seen ⊆ seen' → (unvisited h seen' ≤ unvisited h seen)%nat.
Proof. intros Hs. apply subseteq_size. set_solver. Qed.

Section termination.
Context (fetch : string → option value) (root : value).

Definition ends_well (h : heap) (seen : visited) (r : option (outcome exn (heap * visited))) : Prop :=
  match r with
  | Some (Ok (h', seen')) => dom h' = dom h ∧ seen ⊆ seen'
  | Some (Raise _) => True
  | None => False
  end.

Lemma visit_all_ends visit (D : gset nat) n h seen l :
  (∀ h seen v, dom h = D → (unvisited h seen < n)%nat → ends_well h seen (visit h seen v)) →
  dom h = D → (unvisited h seen < n)%nat → ends_well h seen (visit_all visit h seen l).
Proof.
  intros Hv. revert h seen. induction l as [|v l IH]; intros h seen Hd Hn; [done|]. simpl.
  pose proof (Hv h seen v Hd Hn) as Hstep. destruct (visit h seen v) as [[[h' seen']|e]|]; [|done|done].
  destruct Hstep as [Hd' Hs]. assert (ends_well h' seen' (visit_all visit h' seen' l)) as H.
  { apply IH; [congruence|]. eapply Nat.le_lt_trans; [|exact Hn]. unfold unvisited. rewrite Hd'. by apply unvisited_mono. }
  destruct (visit_all visit h' seen' l) as [[[h2 seen2]|e]|]; [|done|done]. destruct H as [H1 H2]. split; [congruence|set_solver].
Qed.

Lemma resolve_ends fuel h seen v : (unvisited h seen < fuel)%nat → ends_well h seen (resolve fetch root fuel h seen v).
Proof.
  revert h seen v. induction fuel as [|fuel IH]; intros h seen v Hn; [lia|]. destruct v as [s|a]; simpl; [by split|].
  destruct (decide (a ∈ seen)); [by split|].
  destruct (h !! a) as [[d|items]|] eqn:E; [| |split; [done|set_solver]];
    assert (a ∈ dom h) as Ha by (by apply elem_of_dom; eexists);
    pose proof (unvisited_visit h seen a Ha n) as Hlt.
  - assert (∀ h' l, dom h' = dom h → ends_well h seen (visit_all (resolve fetch root fuel) h' ({[a]} ∪ seen) l)) as Hall.
    { intros h' l Hd. assert (ends_well h' ({[a]} ∪ seen) (visit_all (resolve fetch root fuel) h' ({[a]} ∪ seen) l)) as H.
      { apply (visit_all_ends _ (dom h) fuel); [intros ?????; by apply IH|done|]. unfold unvisited in *. rewrite Hd. lia. }
      destruct (visit_all _ _ _ _) as [[[h2 seen2]|e]|]; [|done|done]. destruct H. split; [congruence|set_solver]. }
    destruct (dict_get d ref_key) as [ref|]; [|by apply Hall]. destruct (_follow_ref fetch root h ref); [|done].
    apply Hall. rewrite dom_insert_L. set_solver.
  - assert (ends_well h ({[a]} ∪ seen) (visit_all (resolve fetch root fuel) h ({[a]} ∪ seen) items)) as H.
    { apply (visit_all_ends _ (dom h) fuel); [intros ?????; by apply IH|done|lia]. }
    destruct (visit_all _ _ _ _) as [[[h2 seen2]|e]|]; [|done|done]. destruct H. split; [done|set_solver].
Qed.

(** Resolution always ends, whatever cycles the specification has. *)
Lemma resolve_terminates h : is_Some (_resolve_refs fetch root h).
Proof.
  unfold _resolve_refs. assert (unvisited h ∅ < S (size h))%nat as Hn.
  { unfold unvisited. rewrite difference_empty_L, size_dom. lia. }
  pose proof (resolve_ends _ h ∅ root Hn) as H. by destruct (resolve _ _ _ _ _ _) as [[[h' seen']|e]|].
Qed.
End termination.

(** ** What resolution leaves behind *)

Definition ref_free (n : node) : Prop := match n with Obj d => dict_get d ref_key = None | Arr _ => True end.
Definition children (n : node) : list value := match n with Obj d => d.*2 | Arr items => items end.

(** What can be reached from a value *)
Inductive reaches (h : heap) : value → nat → Prop :=
| reach_here a : reaches h (Ptr a) a
| reach_step a n c b : h !! a = Some n → c ∈ children n → reaches h c b → reaches h (Ptr a) b.

Section inlining.
Context (fetch : string → option value) (root : value) (h0 : heap).

(** A pointer that leads through and to dictionaries without references *)
Fixpoint plain_walk (parts : list string) (v : value) : Prop :=
  match object_at h0 v with
  | Some d => dict_get d ref_key = None ∧
              match parts with
              | [] => True
              | part :: rest => match dict_get d part with Some v' => plain_walk rest v' | None => True end
              end
  | None => True
  end.

(** References inside the document, to dictionaries that are no references
    themselves *)
Definition plain_refs : Prop :=
  ∀ a d ref, h0 !! a = Some (Obj d) → dict_get d ref_key = Some ref →
    ∃ r, ref = Scalar (VStr r) ∧ startswith "#/" r = true ∧ plain_walk (split_on "/"%char (drop_str 2 r)) root.

(** What a node is meant to become: a reference takes over the entries of its
    target, its own entries winning. *)
Definition inlined (a : nat) : option node :=
  match h0 !! a with
  | Some (Obj d) =>
      match dict_get d ref_key with
      | Some ref => match _follow_ref fetch root h0 ref with
                    | Ok target => Some (Obj (dict_update target (dict_del d ref_key)))
                    | Raise _ => Some (Obj d)
                    end
      | None => Some (Obj d)
      end
  | n => n
  end.

Lemma inlined_plain a n : h0 !! a = Some n → ref_free n → inlined a = Some n.
Proof. intros E Hn. unfold inlined. rewrite E. destruct n as [d|l]; [by rewrite Hn|done]. Qed.

Lemma inlined_some a : is_Some (inlined a) ↔ is_Some (h0 !! a).
Proof.
  unfold inlined. destruct (h0 !! a) as [[d|l]|]; [|done|done].
  destruct (dict_get d ref_key) as [r|]; [|done]. by destruct (_follow_ref fetch root h0 r).
Qed.

Definition progress (h : heap) (seen : visited) : Prop := ∀ a, h !! a = if decide (a ∈ seen) then inlined a else h0 !! a.

Lemma progress_dom h seen : progress h seen → dom h = dom h0.
Proof.
  intros H. apply set_eq. intros a. rewrite !elem_of_dom, H. destruct (decide (a ∈ seen)); [apply inlined_some|done].
Qed.

Lemma progress_object h seen v : progress h seen → (∀ d, object_at h0 v = Some d → dict_get d ref_key = None) →
  object_at h v = object_at h0 v.
Proof.
  intros Hp Hv. destruct v as [s|a]; [done|]. simpl in *. rewrite Hp. destruct (decide (a ∈ seen)); [|done].
  destruct (h0 !! a) as [n|] eqn:E.
  - rewrite (inlined_plain a n); [done|done|]. destruct n as [d|l]; [by apply Hv|done].
  - unfold inlined. by rewrite E.
Qed.

Lemma progress_walk h seen parts v : progress h seen → plain_walk parts v →
  walk h parts v = walk h0 parts v ∧ ∀ w, walk h0 parts v = Some w → object_at h w = object_at h0 w ∧
    ∀ d, object_at h0 w = Some d → dict_get d ref_key = None.
Proof.
  intros Hp. revert v. induction parts as [|part parts IH]; intros v Hv.
  - split; [done|]. intros w [= <-]. assert (∀ d, object_at h0 v = Some d → dict_get d ref_key = None) as Hd.
    { intros d E. simpl in Hv. rewrite E in Hv. apply Hv. }
    split; [by eapply progress_object|done].
  - simpl in Hv. simpl. rewrite (progress_object h seen v Hp).
    + destruct (object_at h0 v) as [d|]; [|done]. destruct Hv as [_ Hv]. destruct (dict_get d part) as [v'|]; [|done]. by apply IH.
    + intros d E. rewrite E in Hv. apply Hv.
Qed.

Lemma progress_follow h seen a d ref : plain_refs → progress h seen → h0 !! a = Some (Obj d) → dict_get d ref_key = Some ref →
  ∃ target, _follow_ref fetch root h ref = Ok target ∧ _follow_ref fetch root h0 ref = Ok target ∧ dict_get target ref_key = None.
Proof.
  intros Href Hp Ha Hr. destruct (Href a d ref Ha Hr) as (r & -> & Hs & Hw). unfold _follow_ref. rewrite Hs. unfold _follow_json_pointer.
  destruct (progress_walk h seen _ _ Hp Hw) as [-> Hend]. destruct (walk h0 _ root) as [w|]; [|by eexists].
  destruct (Hend w eq_refl) as [-> Hd]. eexists. split; [done|]. split; [done|].
  destruct (object_at h0 w) as [dw|]; [by apply Hd|done].
Qed.

Definition in_seen (seen : visited) (v : value) : Prop := match v with Ptr a => a ∈ seen | Scalar _ => True end.
Definition covered (seen : visited) (a : nat) : Prop := ∀ n, inlined a = Some n → Forall (in_seen seen) (children n).

Lemma in_seen_mono seen seen' v : seen ⊆ seen' → in_seen seen v → in_seen seen' v.
Proof. destruct v; simpl; set_solver. Qed.

Lemma all_in_seen_mono seen seen' l : seen ⊆ seen' → Forall (in_seen seen) l → Forall (in_seen seen') l.
Proof. intros Hs H. eapply Forall_impl; [exact H|]. intros v. by apply in_seen_mono. Qed.

Lemma covered_mono seen seen' a : seen ⊆ seen' → covered seen a → covered seen' a.
Proof. intros Hs H n Hn. eapply all_in_seen_mono; [exact Hs|by apply H]. Qed.

(** A visit inlines what it newly reaches, and reaches all of it. *)
Definition visits (seen : visited) (goal : visited → Prop) (r : option (outcome exn (heap * visited))) : Prop :=
  ∃ h' seen', r = Some (Ok (h', seen')) ∧ progress h' seen' ∧ seen ⊆ seen' ∧ goal seen' ∧
    ∀ a, a ∈ seen' → a ∉ seen → covered seen' a.

Lemma visit_all_visits visit n h seen l :
  (∀ h seen v, progress h seen → (unvisited h0 seen < n)%nat → visits seen (λ s, in_seen s v) (visit h seen v)) →
  progress h seen → (unvisited h0 seen < n)%nat → visits seen (λ s, Forall (in_seen s) l) (visit_all visit h seen l).
Proof.
  intros Hv. revert h seen. induction l as [|v l IH]; intros h seen Hp Hn; simpl.
  { exists h, seen. by split_and!. }
  destruct (Hv h seen v Hp Hn) as (h1 & seen1 & -> & Hp1 & Hs1 & Hg1 & Hc1).
  destruct (IH h1 seen1 Hp1) as (h2 & seen2 & -> & Hp2 & Hs2 & Hg2 & Hc2).
  { eapply Nat.le_lt_trans; [by apply unvisited_mono|done]. }
  exists h2, seen2. split_and!; try done; [set_solver|constructor; [by eapply in_seen_mono|done]|].
  intros a Ha Hna. destruct (decide (a ∈ seen1)) as [H1|H1]; [|by apply Hc2]. eapply covered_mono; [exact Hs2|by apply Hc1].
Qed.

Lemma resolve_visits fuel h seen v : plain_refs → progress h seen → (unvisited h0 seen < fuel)%nat →
  visits seen (λ s, in_seen s v) (resolve fetch root fuel h seen v).
Proof.
  intros Href. revert h seen v. induction fuel as [|fuel IH]; intros h seen v Hp Hn; [lia|].
  destruct v as [s|a]; simpl; [by exists h, seen|]. destruct (decide (a ∈ seen)) as [Ha|Ha]; [by exists h, seen|].
  assert (h !! a = h0 !! a) as E by (rewrite Hp; by rewrite decide_False).
  assert (∀ h' l, progress h' ({[a]} ∪ seen) → (∀ n, inlined a = Some n → children n = l) → is_Some (h0 !! a) →
    visits seen (λ s, a ∈ s) (visit_all (resolve fetch root fuel) h' ({[a]} ∪ seen) l)) as Hall.
  { intros h' l Hp' Hl Hdom. apply elem_of_dom in Hdom. pose proof (unvisited_visit h0 seen a Hdom Ha) as Hlt.
    destruct (visit_all_visits (resolve fetch root fuel) fuel h' ({[a]} ∪ seen) l) as (h2 & seen2 & -> & Hp2 & Hs2 & Hg2 & Hc2);
      [intros ?????; by apply IH|done|lia|].
    exists h2, seen2. split_and!; try done; [set_solver|set_solver|]. intros b Hb Hnb.
    destruct (decide (b = a)) as [->|Hne]; [|apply Hc2; set_solver]. intros n Hi. by rewrite (Hl n Hi). }
  assert (∀ n, h0 !! a = Some n → ref_free n → progress h ({[a]} ∪ seen)) as Hsame.
  { intros n En Hf b. rewrite Hp. destruct (decide (b = a)) as [->|Hne].
    - rewrite decide_False, decide_True by set_solver. by rewrite (inlined_plain a n).
    - destruct (decide (b ∈ seen)); [rewrite decide_True by set_solver|rewrite decide_False by set_solver]; done. }
  rewrite E. destruct (h0 !! a) as [[d|items]|] eqn:E0.
  - destruct (dict_get d ref_key) as [ref|] eqn:Er.
    + destruct (progress_follow h seen a d ref Href Hp E0 Er) as (target & -> & Ht & _).
      apply Hall; [| |by eexists].
      * intros b. destruct (decide (b = a)) as [->|Hne].
        -- rewrite lookup_insert_eq, decide_True by set_solver. unfold inlined. by rewrite E0, Er, Ht.
        -- rewrite lookup_insert_ne, Hp by done.
           destruct (decide (b ∈ seen)); [rewrite decide_True by set_solver|rewrite decide_False by set_solver]; done.
      * intros n. unfold inlined. rewrite E0, Er, Ht. by intros [= <-].
    + apply Hall; [by eapply Hsame| |by eexists]. intros n. rewrite (inlined_plain a _ E0 Er). by intros [= <-].
  - apply Hall; [by eapply Hsame| |by eexists]. intros n. rewrite (inlined_plain a _ E0 I). by intros [= <-].
  - exists h, ({[a]} ∪ seen). split_and!; [done| |set_solver|simpl; set_solver|].
    + intros b. rewrite Hp. destruct (decide (b = a)) as [->|Hne].
      * rewrite decide_False, decide_True by set_solver. unfold inlined. by rewrite E0.
      * destruct (decide (b ∈ seen)); [rewrite decide_True by set_solver|rewrite decide_False by set_solver]; done.
    + intros b Hb Hnb n Hi. assert (b = a) as -> by set_solver. unfold inlined in Hi. by rewrite E0 in Hi.
Qed.

Lemma covered_reaches h' seen v a : (∀ b, b ∈ seen → h' !! b = inlined b) → (∀ b, b ∈ seen → covered seen b) →
  in_seen seen v → reaches h' v a → a ∈ seen.
Proof.
  intros Hh Hc Hv Hr. induction Hr as [a|a n c b En Hin _ IH]; [done|]. apply IH. simpl in Hv. rewrite Hh in En by done.
  specialize (Hc a Hv n En). rewrite Forall_forall in Hc. by apply Hc.
Qed.
End inlining.

(** C23. References are inlined, and resolution always ends.  On any specification,
    however cyclic, resolving ends.  When every reference points inside the document,
    through and to dictionaries that are no references themselves, it succeeds, and
    then everything that can be reached from the root holds no reference: a
    dictionary that was one now has the entries of its target under its own
    ones, and every other dictionary and list is as it was. *)
Theorem resolution_inlines fetch root h0 :
  is_Some (_resolve_refs fetch root h0) ∧
  (plain_refs root h0 → (∀ a d, h0 !! a = Some (Obj d) → dict_wf d) →
   ∃ h, _resolve_refs fetch root h0 = Some (Ok h) ∧
     ∀ a n, reaches h root a → h !! a = Some n →
       ref_free n ∧
       ∃ n0, h0 !! a = Some n0 ∧
         match n0 with
         | Arr items => n = Arr items
         | Obj d => match dict_get d ref_key with
                    | None => n = Obj d
                    | Some ref => ∃ target, _follow_ref fetch root h0 ref = Ok target ∧
                                            n = Obj (dict_update target (dict_del d ref_key))
                    end
         end).
Proof.
  split; [apply resolve_terminates|]. intros Href Hwf. unfold _resolve_refs.
  destruct (resolve_visits fetch root h0 (S (size h0)) h0 ∅ root Href) as (h & seen & -> & Hp & _ & Hroot & Hc).
  { intros a. by rewrite decide_False by set_solver. }
  { unfold unvisited. rewrite difference_empty_L, size_dom. lia. }
  assert (∀ b, b ∈ seen → h !! b = inlined fetch root h0 b) as Hh.
  { intros b Hb. by rewrite Hp, decide_True. }
  exists h. split; [done|]. intros a n Hr Hn. assert (a ∈ seen) as Ha.
  { eapply covered_reaches; [exact Hh| |exact Hroot|exact Hr]. intros b Hb. apply Hc; [done|set_solver]. }
  rewrite (Hh a Ha) in Hn. unfold inlined in Hn. destruct (h0 !! a) as [[d|items]|] eqn:E; [| |done].
  - destruct (dict_get d ref_key) as [ref|] eqn:Er.
    + destruct (progress_follow fetch root h0 h seen a d ref Href Hp E Er) as (target & _ & Ht & Hfree). rewrite Ht in Hn.
      injection Hn as <-. split; [|eexists; split; [done|]; cbn beta iota; rewrite Er; by exists target].
      simpl. rewrite dict_get_update by (apply dict_wf_del, (Hwf a), E). rewrite dict_get_del by (apply (Hwf a), E).
      by rewrite str_eqb_refl.
    + injection Hn as <-. split; [done|]. eexists. split; [done|]. cbn beta iota. by rewrite Er.
  - injection Hn as <-. split; [done|]. by eexists.
Qed.

(** ** Worked specifications *)

Definition ref_to (pointer : string) : value := Scalar (VStr pointer).
Definition no_documents : string → option value := λ _, None.

(** A recursive schema, referred to from a response *)
Definition recursive_spec : heap :=
  list_to_map [(0, Obj [("components", Ptr 1); ("response", Ptr 2)]);
               (1, Obj [("Pet", Ptr 3)]);
               (2, Obj [(ref_key, ref_to "#/components/Pet"); ("title", Scalar (VStr "a pet"))]);
               (3, Obj [("type", Scalar (VStr "object")); ("parent", Ptr 4)]);
               (4, Obj [(ref_key, ref_to "#/components/Pet")])]%nat.

Lemma recursive_spec_elem a n : recursive_spec !! a = Some n →
  (a, n) ∈ map_to_list recursive_spec.
Proof. apply elem_of_map_to_list. Qed.

Lemma resolution_inlines_witness : ∃ h,
  _resolve_refs no_documents (Ptr 0) recursive_spec = Some (Ok h) ∧
  (∀ a n, reaches h (Ptr 0) a → h !! a = Some n → ref_free n).
Proof.
  destruct (resolution_inlines no_documents (Ptr 0) recursive_spec) as [_ H].
  destruct H as (h & Hr & Hall).
  - intros a d ref Ha Hd. apply recursive_spec_elem in Ha. vm_compute in Ha.
    repeat (apply elem_of_cons in Ha as [Ha|Ha]; [injection Ha as -> ->; vm_compute in Hd; first [discriminate Hd|injection Hd as <-;
      eexists; split; [reflexivity|]; split; [reflexivity|]; vm_compute; by repeat split]|]).
    by apply elem_of_nil in Ha.
  - intros a d Ha. apply recursive_spec_elem in Ha. vm_compute in Ha.
    repeat (apply elem_of_cons in Ha as [Ha|Ha]; [injection Ha as -> ->; by_eval|]). by apply elem_of_nil in Ha.
  - exists h. split; [exact Hr|]. intros a n H1 H2. by destruct (Hall a n H1 H2).
Defined.

Definition node_after (r : option (outcome exn heap)) (a : nat) : option node :=
  match r with Some (Ok h) => h !! a | _ => None end.

(** A reference to a reference that was not visited yet stays a reference. *)
Example chained_reference_stays :
  node_after (_resolve_refs no_documents (Ptr 0)
    (list_to_map [(0, Obj [("a", Ptr 1); ("b", Ptr 2); ("c", Ptr 3)]);
                  (1, Obj [(ref_key, ref_to "#/b")]); (2, Obj [(ref_key, ref_to "#/c")]);
                  (3, Obj [("type", Scalar (VStr "string"))])]%nat)) 1
  = Some (Obj [(ref_key, ref_to "#/c")]).
Proof. vm_compute. reflexivity. Qed.

(** A pointer with an escaped slash is not decoded and finds nothing. *)
Example escaped_pointer_is_lost :
  node_after (_resolve_refs no_documents (Ptr 0)
    (list_to_map [(0, Obj [("a/b", Ptr 1); ("c", Ptr 2)]); (1, Obj [("type", Scalar (VStr "string"))]);
                  (2, Obj [(ref_key, ref_to "#/a~1b")])]%nat)) 2
  = Some (Obj []).
Proof. vm_compute. reflexivity. Qed.

(** A reference inside an external document is looked up in the main one. *)
Example external_reference_looked_up_in_main :
  node_after (_resolve_refs (λ _, Some (Ptr 2)) (Ptr 0)
    (list_to_map [(0, Obj [("s", Ptr 1)]); (1, Obj [(ref_key, ref_to "other.json#/x")]);
                  (2, Obj [("x", Ptr 3); ("y", Ptr 5)]); (3, Obj [("p", Ptr 4)]); (4, Obj [(ref_key, ref_to "#/y")]);
                  (5, Obj [("type", Scalar (VStr "string"))])]%nat)) 4
  = Some (Obj []).
Proof. vm_compute. reflexivity. Qed.
