(* ===== verification/IRModels.v ===== *)
(** * The intermediate representation ([libs/ir/models.py])

    Every model of the IR as a record with the source's fields, the constraints
    its fields declare ([*_fields]), and its [model_validator]s in the order
    pydantic runs them.  A model is built by checking the fields, then running
    the validators; [ValidationError] carries the validator's message.  The
    [*_dict] functions are the models' [__dict__], enumerations by their values,
    so that [==] on models is [py_eq] on these.  Messages keep their constant
    text; the values interpolated into some of them are left out. *)

From S2P Require Export PyExn.
From Stdlib Require Export PrimFloat.

(** ** Enumerations *)

Inductive RiskLevel := safe | cautious | dangerous | unknown.

#[global] Instance risk_eq_dec : EqDecision RiskLevel.
Proof. solve_decision. Defined.

Definition risk_value (r : RiskLevel) : string :=
  match r with
  | safe => "safe" | cautious => "cautious" | dangerous => "dangerous" | unknown => "unknown"
  end.

(** [RiskLevel(v)] *)
Definition parse_risk (v : string) : option RiskLevel :=
  List.find (λ r, str_eqb (risk_value r) v) [safe; cautious; dangerous; unknown].

Inductive SourceType := src_extractor | src_llm | src_user_override.
Definition source_value (s : SourceType) : string :=
  match s with src_extractor => "extractor" | src_llm => "llm" | src_user_override => "user_override" end.

Inductive AuthType := bearer | basic | api_key | custom_header | oauth2_auth | no_auth.
#[global] Instance auth_type_eq_dec : EqDecision AuthType.
Proof. solve_decision. Defined.
Definition auth_value (a : AuthType) : string :=
  match a with
  | bearer => "bearer" | basic => "basic" | api_key => "api_key" | custom_header => "custom_header"
  | oauth2_auth => "oauth2" | no_auth => "none"
  end.

Inductive TruncationPolicy := trunc_none | trunc_truncate | trunc_summarize.
Definition truncation_value (t : TruncationPolicy) : string :=
  match t with trunc_none => "none" | trunc_truncate => "truncate" | trunc_summarize => "summarize" end.

Inductive RequestBodyMode := body_json | body_multipart | body_raw.
Definition body_mode_value (m : RequestBodyMode) : string :=
  match m with body_json => "json" | body_multipart => "multipart" | body_raw => "raw" end.

Inductive AsyncStatusUrlSource := location_header | response_body.
Definition status_source_value (s : AsyncStatusUrlSource) : string :=
  match s with location_header => "location_header" | response_body => "response_body" end.

Inductive EventTransport :=
| websocket | sse | webhook | callback | graphql_subscription | grpc_stream_transport | async_event
| kafka | rabbitmq | mqtt | amqp | pulsar | nats.
Definition transport_value (t : EventTransport) : string :=
  match t with
  | websocket => "websocket" | sse => "sse" | webhook => "webhook" | callback => "callback"
  | graphql_subscription => "graphql_subscription" | grpc_stream_transport => "grpc_stream"
  | async_event => "async_event" | kafka => "kafka" | rabbitmq => "rabbitmq" | mqtt => "mqtt"
  | amqp => "amqp" | pulsar => "pulsar" | nats => "nats"
  end.

Inductive EventDirection := inbound | outbound | bidirectional.
Definition direction_value (d : EventDirection) : string :=
  match d with inbound => "inbound" | outbound => "outbound" | bidirectional => "bidirectional" end.

Inductive EventSupportLevel := unsupported | planned | supported.
Definition support_value (s : EventSupportLevel) : string :=
  match s with unsupported => "unsupported" | planned => "planned" | supported => "supported" end.

Inductive GrpcStreamMode := stream_server | stream_client | stream_bidirectional.
Definition stream_mode_value (m : GrpcStreamMode) : string :=
  match m with
  | stream_server => "server" | stream_client => "client" | stream_bidirectional => "bidirectional"
  end.

Inductive ToolIntent := discovery | action_intent.
Definition intent_value (t : ToolIntent) : string :=
  match t with discovery => "discovery" | action_intent => "action" end.

Inductive GraphQLOperationType := gql_query | gql_mutation.
Definition graphql_type_value (t : GraphQLOperationType) : string :=
  match t with gql_query => "query" | gql_mutation => "mutation" end.

Inductive SqlRelationKind := sql_table | sql_view.
Definition relation_kind_value (k : SqlRelationKind) : string :=
  match k with sql_table => "table" | sql_view => "view" end.

Inductive SqlOperationType := sql_query | sql_insert | sql_update | sql_delete.
Definition sql_action_value (a : SqlOperationType) : string :=
  match a with
  | sql_query => "query" | sql_insert => "insert" | sql_update => "update" | sql_delete => "delete"
  end.

(** ** Checks *)

(** Conditions tested in order; the first that holds raises its [ValueError]. *)
Fixpoint raise_first (l : list (bool * string)) : outcome exn unit :=
  match l with
  | [] => Ok tt
  | (bad, message) :: l' => if bad then Raise (value_error message) else raise_first l'
  end.

Definition unset {A} (o : option A) : bool := match o with None => true | Some _ => false end.
Definition given {A} (o : option A) : bool := negb (unset o).
Definition no_items {A} (l : list A) : bool := match l with [] => true | _ => false end.
Definition opt_all {A} (f : A → bool) (o : option A) : bool := match o with Some a => f a | None => true end.
Definition unit_interval (c : float) : bool := PrimFloat.leb 0 c && PrimFloat.leb c 1.
Definition one_of (s : string) (l : list string) : bool := bool_decide (s ∈ l).

(** A field constraint pydantic reports. *)
Definition field_error (model : string) : exn := mk_exn "ValidationError" model [].

(** Build a model: its fields first, then its validators. *)
Definition build (model : string) (fields : bool) (validators : outcome exn unit) : outcome exn unit :=
  if fields then validators else Raise (field_error model).

Definition vopt {A} (f : A → pyval) (o : option A) : pyval := match o with Some a => f a | None => VNone end.
Definition vstrs (l : list string) : pyval := VList (VStr <$> l).
Definition vints (l : list Z) : pyval := VList (VInt <$> l).

Lemma raise_first_ok l : raise_first l = Ok tt ↔ Forall (λ c, c.1 = false) l.
Proof.
  induction l as [|[[] m] l IH]; simpl; [done|split; [done|by intros [? _]%Forall_cons]|].
  rewrite IH, Forall_cons. naive_solver.
Qed.

Lemma unset_iff {A} (o : option A) : unset o = true ↔ o = None.
Proof. by destruct o. Qed.
Lemma given_false {A} (o : option A) : given o = false ↔ o = None.
Proof. by destruct o. Qed.

(** ** Component models *)

Record Param := mk_param {
  pa_name : string;
  pa_type : string;
  pa_required : bool;
  pa_description : string;
  pa_default : pyval;
  pa_json_schema : option (dict pyval);
  pa_source : SourceType;
  pa_confidence : float;
}.
Definition Param_dict (p : Param) : dict pyval := [
  ("name", VStr (pa_name p)); ("type", VStr (pa_type p)); ("required", VBool (pa_required p));
  ("description", VStr (pa_description p)); ("default", pa_default p);
  ("json_schema", opt_dict (pa_json_schema p)); ("source", VStr (source_value (pa_source p)));
  ("confidence", VFloat (pa_confidence p))].
Definition Param_fields (p : Param) : bool := str_truthy (pa_name p) && unit_interval (pa_confidence p).
Definition extractor_source_requires_high_confidence (p : Param) : outcome exn unit :=
  raise_first [(match pa_source p with src_extractor => PrimFloat.ltb (pa_confidence p) 0x1.999999999999ap-1 | _ => false end,
    "Param with source='extractor' must have confidence >= 0.8")].
Definition validate_Param (p : Param) : outcome exn unit :=
  build "Param" (Param_fields p) (extractor_source_requires_high_confidence p).

Record RiskMetadata := mk_risk {
  rm_writes_state : option bool;
  rm_destructive : option bool;
  rm_external_side_effect : option bool;
  rm_idempotent : option bool;
  rm_risk_level : RiskLevel;
  rm_confidence : float;
  rm_source : SourceType;
}.
Definition RiskMetadata_dict (r : RiskMetadata) : dict pyval := [
  ("writes_state", vopt VBool (rm_writes_state r)); ("destructive", vopt VBool (rm_destructive r));
  ("external_side_effect", vopt VBool (rm_external_side_effect r));
  ("idempotent", vopt VBool (rm_idempotent r)); ("risk_level", VStr (risk_value (rm_risk_level r)));
  ("confidence", VFloat (rm_confidence r)); ("source", VStr (source_value (rm_source r)))].
Definition RiskMetadata_fields (r : RiskMetadata) : bool := unit_interval (rm_confidence r).

Record PaginationConfig := mk_pagination {
  pg_style : string;
  pg_page_param : option string;
  pg_limit_param : option string;
  pg_cursor_param : option string;
  pg_next_field : option string;
  pg_total_field : option string;
  pg_default_page_size : option Z;
  pg_max_page_size : option Z;
}.
Definition PaginationConfig_dict (p : PaginationConfig) : dict pyval := [
  ("style", VStr (pg_style p)); ("page_param", opt_str (pg_page_param p));
  ("limit_param", opt_str (pg_limit_param p)); ("cursor_param", opt_str (pg_cursor_param p));
  ("next_field", opt_str (pg_next_field p)); ("total_field", opt_str (pg_total_field p));
  ("default_page_size", vopt VInt (pg_default_page_size p)); ("max_page_size", vopt VInt (pg_max_page_size p))].
Definition PaginationConfig_fields (p : PaginationConfig) : bool :=
  one_of (pg_style p) ["offset"; "cursor"; "page"; "link_header"; "envelope"; "none"].

Record ResponseStrategy := mk_strategy {
  rs_pagination : option PaginationConfig;
  rs_max_response_bytes : option Z;
  rs_max_array_items : option Z;
  rs_field_filter : option (list string);
  rs_truncation_policy : TruncationPolicy;
}.
Definition ResponseStrategy_dict (r : ResponseStrategy) : dict pyval := [
  ("pagination", vopt (λ p, VDict (PaginationConfig_dict p)) (rs_pagination r));
  ("max_response_bytes", vopt VInt (rs_max_response_bytes r));
  ("max_array_items", vopt VInt (rs_max_array_items r));
  ("field_filter", vopt vstrs (rs_field_filter r));
  ("truncation_policy", VStr (truncation_value (rs_truncation_policy r)))].
Definition ResponseStrategy_fields (r : ResponseStrategy) : bool :=
  opt_all PaginationConfig_fields (rs_pagination r)
  && opt_all (λ n, 0 <? n) (rs_max_response_bytes r) && opt_all (λ n, 1 <=? n) (rs_max_array_items r).

Record OAuth2ClientCredentialsConfig := mk_oauth2 {
  oc_token_url : string;
  oc_client_id_ref : option string;
  oc_client_id : option string;
  oc_client_secret_ref : string;
  oc_scopes : list string;
  oc_audience : option string;
  oc_client_auth_method : string;
}.
Definition OAuth2_dict (o : OAuth2ClientCredentialsConfig) : dict pyval := [
  ("token_url", VStr (oc_token_url o)); ("client_id_ref", opt_str (oc_client_id_ref o));
  ("client_id", opt_str (oc_client_id o)); ("client_secret_ref", VStr (oc_client_secret_ref o));
  ("scopes", vstrs (oc_scopes o)); ("audience", opt_str (oc_audience o));
  ("client_auth_method", VStr (oc_client_auth_method o))].
Definition client_id_must_be_configured (o : OAuth2ClientCredentialsConfig) : outcome exn unit :=
  raise_first [(negb (opt_truthy (oc_client_id_ref o)) && negb (opt_truthy (oc_client_id o)),
    "oauth2 client credentials config requires client_id or client_id_ref.")].
Definition validate_OAuth2 (o : OAuth2ClientCredentialsConfig) : outcome exn unit :=
  build "OAuth2ClientCredentialsConfig"
    (one_of (oc_client_auth_method o) ["client_secret_basic"; "client_secret_post"])
    (client_id_must_be_configured o).

Record MTLSConfig := mk_mtls { ml_cert_ref : string; ml_key_ref : string; ml_ca_ref : option string }.
Definition MTLSConfig_dict (m : MTLSConfig) : dict pyval := [
  ("cert_ref", VStr (ml_cert_ref m)); ("key_ref", VStr (ml_key_ref m)); ("ca_ref", opt_str (ml_ca_ref m))].

Record RequestSigningConfig := mk_signing {
  sg_algorithm : string;
  sg_secret_ref : string;
  sg_signature_header_name : string;
  sg_timestamp_header_name : string;
  sg_key_id : option string;
  sg_key_id_header_name : string;
}.
Definition RequestSigningConfig_dict (s : RequestSigningConfig) : dict pyval := [
  ("algorithm", VStr (sg_algorithm s)); ("secret_ref", VStr (sg_secret_ref s));
  ("signature_header_name", VStr (sg_signature_header_name s));
  ("timestamp_header_name", VStr (sg_timestamp_header_name s));
  ("key_id", opt_str (sg_key_id s)); ("key_id_header_name", VStr (sg_key_id_header_name s))].

Record AsyncJobConfig := mk_async_job {
  aj_initial_status_codes : list Z;
  aj_status_url_source : AsyncStatusUrlSource;
  aj_status_url_field : option string;
  aj_status_field : string;
  aj_pending_status_values : list string;
  aj_success_status_values : list string;
  aj_failure_status_values : list string;
  aj_poll_interval_seconds : float;
  aj_timeout_seconds : float;
}.
Definition AsyncJobConfig_dict (a : AsyncJobConfig) : dict pyval := [
  ("initial_status_codes", vints (aj_initial_status_codes a));
  ("status_url_source", VStr (status_source_value (aj_status_url_source a)));
  ("status_url_field", opt_str (aj_status_url_field a)); ("status_field", VStr (aj_status_field a));
  ("pending_status_values", vstrs (aj_pending_status_values a));
  ("success_status_values", vstrs (aj_success_status_values a));
  ("failure_status_values", vstrs (aj_failure_status_values a));
  ("poll_interval_seconds", VFloat (aj_poll_interval_seconds a));
  ("timeout_seconds", VFloat (aj_timeout_seconds a))].
Definition response_body_source_requires_field (a : AsyncJobConfig) : outcome exn unit :=
  raise_first [(match aj_status_url_source a with response_body => true | _ => false end
                && negb (opt_truthy (aj_status_url_field a)),
    "response_body async job source requires status_url_field.")].
Definition validate_AsyncJobConfig (a : AsyncJobConfig) : outcome exn unit :=
  build "AsyncJobConfig"
    (PrimFloat.ltb 0 (aj_poll_interval_seconds a) && PrimFloat.ltb 0 (aj_timeout_seconds a))
    (response_body_source_requires_field a).

Record GrpcStreamRuntimeConfig := mk_grpc_stream {
  gs_rpc_path : string;
  gs_mode : GrpcStreamMode;
  gs_max_messages : Z;
  gs_idle_timeout_seconds : float;
}.
Definition GrpcStreamRuntimeConfig_dict (g : GrpcStreamRuntimeConfig) : dict pyval := [
  ("rpc_path", VStr (gs_rpc_path g)); ("mode", VStr (stream_mode_value (gs_mode g)));
  ("max_messages", VInt (gs_max_messages g)); ("idle_timeout_seconds", VFloat (gs_idle_timeout_seconds g))].
Definition GrpcStreamRuntimeConfig_fields (g : GrpcStreamRuntimeConfig) : bool :=
  str_truthy (gs_rpc_path g) && (0 <? gs_max_messages g) && PrimFloat.ltb 0 (gs_idle_timeout_seconds g).

Record GrpcUnaryRuntimeConfig := mk_grpc_unary { gu_rpc_path : string; gu_timeout_seconds : float }.
Definition GrpcUnaryRuntimeConfig_dict (g : GrpcUnaryRuntimeConfig) : dict pyval := [
  ("rpc_path", VStr (gu_rpc_path g)); ("timeout_seconds", VFloat (gu_timeout_seconds g))].
Definition GrpcUnaryRuntimeConfig_fields (g : GrpcUnaryRuntimeConfig) : bool :=
  str_truthy (gu_rpc_path g) && PrimFloat.ltb 0 (gu_timeout_seconds g).

Record SoapOperationConfig := mk_soap {
  so_target_namespace : string;
  so_request_element : string;
  so_response_element : option string;
  so_soap_action : option string;
  so_soap_version : string;
  so_binding_style : string;
  so_body_use : string;
  so_child_element_form : string;
}.
Definition SoapOperationConfig_dict (s : SoapOperationConfig) : dict pyval := [
  ("target_namespace", VStr (so_target_namespace s)); ("request_element", VStr (so_request_element s));
  ("response_element", opt_str (so_response_element s)); ("soap_action", opt_str (so_soap_action s));
  ("soap_version", VStr (so_soap_version s)); ("binding_style", VStr (so_binding_style s));
  ("body_use", VStr (so_body_use s)); ("child_element_form", VStr (so_child_element_form s))].
Definition SoapOperationConfig_fields (s : SoapOperationConfig) : bool :=
  str_truthy (so_target_namespace s) && str_truthy (so_request_element s)
  && one_of (so_soap_version s) ["1.1"] && one_of (so_binding_style s) ["document"; "rpc"]
  && one_of (so_body_use s) ["literal"; "encoded"]
  && one_of (so_child_element_form s) ["qualified"; "unqualified"].

Record JsonRpcOperationConfig := mk_jsonrpc {
  jr_jsonrpc_version : string;
  jr_method_name : string;
  jr_params_type : string;
  jr_params_names : list string;
  jr_result_schema : option (dict pyval);
}.
Definition JsonRpcOperationConfig_dict (j : JsonRpcOperationConfig) : dict pyval := [
  ("jsonrpc_version", VStr (jr_jsonrpc_version j)); ("method_name", VStr (jr_method_name j));
  ("params_type", VStr (jr_params_type j)); ("params_names", vstrs (jr_params_names j));
  ("result_schema", opt_dict (jr_result_schema j))].
Definition JsonRpcOperationConfig_fields (j : JsonRpcOperationConfig) : bool :=
  one_of (jr_jsonrpc_version j) ["2.0"] && str_truthy (jr_method_name j)
  && one_of (jr_params_type j) ["positional"; "named"].

Record CliOperationConfig := mk_cli {
  cl_command : string;
  cl_subcommands : list string;
  cl_args_style : string;
  cl_env_vars : dict string;
  cl_working_dir : option string;
  cl_timeout_seconds : Z;
  cl_sandbox_mode : string;
  cl_output_format : string;
}.
Definition CliOperationConfig_dict (c : CliOperationConfig) : dict pyval := [
  ("command", VStr (cl_command c)); ("subcommands", vstrs (cl_subcommands c));
  ("args_style", VStr (cl_args_style c));
  ("env_vars", VDict ((λ kv, (kv.1, VStr kv.2)) <$> cl_env_vars c));
  ("working_dir", opt_str (cl_working_dir c)); ("timeout_seconds", VInt (cl_timeout_seconds c));
  ("sandbox_mode", VStr (cl_sandbox_mode c)); ("output_format", VStr (cl_output_format c))].
Definition CliOperationConfig_fields (c : CliOperationConfig) : bool :=
  str_truthy (cl_command c) && one_of (cl_args_style c) ["posix"; "gnu"; "windows"]
  && (1 <=? cl_timeout_seconds c) && (cl_timeout_seconds c <=? 3600)
  && one_of (cl_sandbox_mode c) ["local"; "docker"; "none"]
  && one_of (cl_output_format c) ["json"; "yaml"; "text"; "table"; "auto"].

Record GraphQLOperationConfig := mk_graphql {
  gq_operation_type : GraphQLOperationType;
  gq_operation_name : string;
  gq_document : string;
  gq_variable_names : list string;
}.
Definition GraphQLOperationConfig_dict (g : GraphQLOperationConfig) : dict pyval := [
  ("operation_type", VStr (graphql_type_value (gq_operation_type g)));
  ("operation_name", VStr (gq_operation_name g)); ("document", VStr (gq_document g));
  ("variable_names", vstrs (gq_variable_names g))].
Definition GraphQLOperationConfig_fields (g : GraphQLOperationConfig) : bool :=
  str_truthy (gq_operation_name g) && str_truthy (gq_document g).

Record SqlOperationConfig := mk_sql {
  sq_schema_name : string;
  sq_relation_name : string;
  sq_relation_kind : SqlRelationKind;
  sq_action : SqlOperationType;
  sq_filterable_columns : list string;
  sq_insertable_columns : list string;
  sq_updatable_columns : list string;
  sq_primary_key_columns : list string;
  sq_default_limit : Z;
  sq_max_limit : Z;
}.
Definition SqlOperationConfig_dict (s : SqlOperationConfig) : dict pyval := [
  ("schema_name", VStr (sq_schema_name s)); ("relation_name", VStr (sq_relation_name s));
  ("relation_kind", VStr (relation_kind_value (sq_relation_kind s)));
  ("action", VStr (sql_action_value (sq_action s)));
  ("filterable_columns", vstrs (sq_filterable_columns s));
  ("insertable_columns", vstrs (sq_insertable_columns s));
  ("updatable_columns", vstrs (sq_updatable_columns s));
  ("primary_key_columns", vstrs (sq_primary_key_columns s));
  ("default_limit", VInt (sq_default_limit s)); ("max_limit", VInt (sq_max_limit s))].
Definition is_table (k : SqlRelationKind) : bool := match k with sql_table => true | sql_view => false end.
Definition sql_contract_must_be_coherent (s : SqlOperationConfig) : outcome exn unit :=
  raise_first ((sq_max_limit s <? sq_default_limit s, "sql default_limit must be <= max_limit.") ::
    match sq_action s with
    | sql_query =>
        [(no_items (sq_filterable_columns s), "sql query operations require filterable_columns.")]
    | sql_insert =>
        [(negb (is_table (sq_relation_kind s)), "sql insert operations require relation_kind='table'.");
         (no_items (sq_insertable_columns s), "sql insert operations require insertable_columns.")]
    | sql_update =>
        [(negb (is_table (sq_relation_kind s)), "sql update operations require relation_kind='table'.");
         (no_items (sq_primary_key_columns s), "sql update operations require primary_key_columns.");
         (no_items (sq_updatable_columns s), "sql update operations require updatable_columns.")]
    | sql_delete =>
        [(negb (is_table (sq_relation_kind s)), "sql delete operations require relation_kind='table'.");
         (no_items (sq_primary_key_columns s), "sql delete operations require primary_key_columns.")]
    end).
Definition validate_SqlOperationConfig (s : SqlOperationConfig) : outcome exn unit :=
  build "SqlOperationConfig"
    (str_truthy (sq_schema_name s) && str_truthy (sq_relation_name s)
     && (0 <? sq_default_limit s) && (0 <? sq_max_limit s))
    (sql_contract_must_be_coherent s).

Record EventBridgeConfig := mk_event_bridge {
  eb_broker_url : string;
  eb_topic : option string;
  eb_queue : option string;
  eb_group_id : option string;
  eb_auth_ref : option string;
  eb_protocol_version : option string;
  eb_metadata : dict pyval;
}.
Definition EventBridgeConfig_dict (e : EventBridgeConfig) : dict pyval := [
  ("broker_url", VStr (eb_broker_url e)); ("topic", opt_str (eb_topic e)); ("queue", opt_str (eb_queue e));
  ("group_id", opt_str (eb_group_id e)); ("auth_ref", opt_str (eb_auth_ref e));
  ("protocol_version", opt_str (eb_protocol_version e)); ("metadata", VDict (eb_metadata e))].
Definition EventBridgeConfig_fields (e : EventBridgeConfig) : bool := str_truthy (eb_broker_url e).

Record EventDescriptor := mk_event {
  ed_id : string;
  ed_name : string;
  ed_description : string;
  ed_transport : EventTransport;
  ed_direction : EventDirection;
  ed_support : EventSupportLevel;
  ed_channel : option string;
  ed_operation_id : option string;
  ed_grpc_stream : option GrpcStreamRuntimeConfig;
  ed_event_bridge : option EventBridgeConfig;
  ed_metadata : dict pyval;
}.
Definition EventDescriptor_dict (e : EventDescriptor) : dict pyval := [
  ("id", VStr (ed_id e)); ("name", VStr (ed_name e)); ("description", VStr (ed_description e));
  ("transport", VStr (transport_value (ed_transport e)));
  ("direction", VStr (direction_value (ed_direction e)));
  ("support", VStr (support_value (ed_support e))); ("channel", opt_str (ed_channel e));
  ("operation_id", opt_str (ed_operation_id e));
  ("grpc_stream", vopt (λ g, VDict (GrpcStreamRuntimeConfig_dict g)) (ed_grpc_stream e));
  ("event_bridge", vopt (λ b, VDict (EventBridgeConfig_dict b)) (ed_event_bridge e));
  ("metadata", VDict (ed_metadata e))].
Definition grpc_stream_config_must_match_transport (e : EventDescriptor) : outcome exn unit :=
  match ed_transport e with
  | grpc_stream_transport =>
      match ed_grpc_stream e with
      | None => Raise (value_error "grpc_stream descriptors require grpc_stream runtime config.")
      | Some g =>
          match ed_channel e with
          | Some c =>
              if str_eqb c (gs_rpc_path g) then Ok tt
              else Raise (value_error "grpc_stream descriptor channel must match grpc_stream.rpc_path.")
          | None => Ok tt
          end
      end
  | _ =>
      if given (ed_grpc_stream e)
      then Raise (value_error "grpc_stream runtime config is only valid for grpc_stream transport.")
      else Ok tt
  end.
Definition validate_EventDescriptor (e : EventDescriptor) : outcome exn unit :=
  build "EventDescriptor"
    (str_truthy (ed_id e) && str_truthy (ed_name e)
     && opt_all GrpcStreamRuntimeConfig_fields (ed_grpc_stream e)
     && opt_all EventBridgeConfig_fields (ed_event_bridge e))
    (grpc_stream_config_must_match_transport e).

Record ErrorResponse := mk_error_response {
  er_status_code : option Z;
  er_error_code : option string;
  er_description : string;
  er_error_body_schema : option (dict pyval);
}.
Definition ErrorResponse_dict (e : ErrorResponse) : dict pyval := [
  ("status_code", vopt VInt (er_status_code e)); ("error_code", opt_str (er_error_code e));
  ("description", VStr (er_description e)); ("error_body_schema", opt_dict (er_error_body_schema e))].

Record ErrorSchema := mk_error_schema {
  es_responses : list ErrorResponse;
  es_default_error_schema : option (dict pyval);
}.
Definition ErrorSchema_dict (e : ErrorSchema) : dict pyval := [
  ("responses", VList ((λ r, VDict (ErrorResponse_dict r)) <$> es_responses e));
  ("default_error_schema", opt_dict (es_default_error_schema e))].

(** [body: dict | str | None], as the value itself *)
Record ResponseExample := mk_example {
  re_name : string;
  re_description : string;
  re_status_code : option Z;
  re_body : pyval;
  re_source : SourceType;
}.
Definition ResponseExample_dict (r : ResponseExample) : dict pyval := [
  ("name", VStr (re_name r)); ("description", VStr (re_description r));
  ("status_code", vopt VInt (re_status_code r)); ("body", re_body r);
  ("source", VStr (source_value (re_source r)))].
Definition ResponseExample_fields (r : ResponseExample) : bool :=
  str_truthy (re_name r) && match re_body r with VDict _ | VStr _ | VNone => true | _ => false end.

Record RetryConfig := mk_retry {
  rt_max_retries : Z;
  rt_backoff_base_ms : Z;
  rt_backoff_multiplier : float;
  rt_retryable_errors : list string;
}.
Definition RetryConfig_fields (r : RetryConfig) : bool :=
  (0 <=? rt_max_retries r) && (rt_max_retries r <=? 10) && (0 <? rt_backoff_base_ms r)
  && PrimFloat.ltb 1 (rt_backoff_multiplier r).

Record SlaConfig := mk_sla {
  sl_latency_budget_ms : option Z;
  sl_timeout_ms : option Z;
  sl_retry : RetryConfig;
}.
Definition SlaConfig_fields (s : SlaConfig) : bool :=
  opt_all (λ n, 0 <? n) (sl_latency_budget_ms s) && opt_all (λ n, 0 <? n) (sl_timeout_ms s)
  && RetryConfig_fields (sl_retry s).

(** ** Operations *)

Record Operation := mk_operation {
  op_id : string;
  op_name : string;
  op_description : string;
  op_method : option string;
  op_path : option string;
  op_params : list Param;
  op_response_schema : option (dict pyval);
  op_error_schema : ErrorSchema;
  op_response_examples : list ResponseExample;
  op_risk : RiskMetadata;
  op_response_strategy : ResponseStrategy;
  op_request_body_mode : RequestBodyMode;
  op_body_param_name : option string;
  op_async_job : option AsyncJobConfig;
  op_graphql : option GraphQLOperationConfig;
  op_sql : option SqlOperationConfig;
  op_grpc_unary : option GrpcUnaryRuntimeConfig;
  op_soap : option SoapOperationConfig;
  op_jsonrpc : option JsonRpcOperationConfig;
  op_cli : option CliOperationConfig;
  op_pagination : option PaginationConfig;
  op_tags : list string;
  op_tool_intent : option ToolIntent;
  op_source : SourceType;
  op_confidence : float;
  op_sla : option SlaConfig;
  op_enabled : bool;
}.

(** [model_copy(update={...})] of the fields the program updates *)
Definition op_with_identity (o : Operation) (id name : string) : Operation :=
  mk_operation id name (op_description o) (op_method o) (op_path o) (op_params o)
    (op_response_schema o) (op_error_schema o) (op_response_examples o) (op_risk o) (op_response_strategy o)
    (op_request_body_mode o) (op_body_param_name o) (op_async_job o) (op_graphql o) (op_sql o)
    (op_grpc_unary o) (op_soap o) (op_jsonrpc o) (op_cli o) (op_pagination o) (op_tags o) (op_tool_intent o)
    (op_source o) (op_confidence o) (op_sla o) (op_enabled o).

Definition op_with (o : Operation) (risk : RiskMetadata) (tags : list string) (sla : option SlaConfig)
    (enabled : bool) : Operation :=
  mk_operation (op_id o) (op_name o) (op_description o) (op_method o) (op_path o) (op_params o)
    (op_response_schema o) (op_error_schema o) (op_response_examples o) risk (op_response_strategy o)
    (op_request_body_mode o) (op_body_param_name o) (op_async_job o) (op_graphql o) (op_sql o)
    (op_grpc_unary o) (op_soap o) (op_jsonrpc o) (op_cli o) (op_pagination o) tags (op_tool_intent o)
    (op_source o) (op_confidence o) sla enabled.

Definition op_with_risk o r := op_with o r (op_tags o) (op_sla o) (op_enabled o).
Definition op_with_tags o t := op_with o (op_risk o) t (op_sla o) (op_enabled o).
Definition op_with_sla o s := op_with o (op_risk o) (op_tags o) s (op_enabled o).
Definition op_with_enabled o b := op_with o (op_risk o) (op_tags o) (op_sla o) b.

Definition is_unknown (r : RiskLevel) : bool := match r with unknown => true | _ => false end.

Definition unknown_risk_must_be_disabled (o : Operation) : Operation :=
  if is_unknown (rm_risk_level (op_risk o)) && op_enabled o then op_with_enabled o false else o.

(** [method is not None and method.upper() != m] *)
Definition method_differs (o : Operation) (m : string) : bool :=
  match op_method o with Some x => negb (str_eqb (upper x) m) | None => false end.

Definition grpc_unary_contract_must_be_coherent (o : Operation) : outcome exn unit :=
  match op_grpc_unary o with
  | None => Ok tt
  | Some g => raise_first [
      (given (op_graphql o), "grpc_unary execution contract cannot be combined with graphql.");
      (given (op_sql o), "grpc_unary execution contract cannot be combined with sql.");
      (given (op_soap o), "grpc_unary execution contract cannot be combined with soap.");
      (given (op_jsonrpc o), "grpc_unary execution contract cannot be combined with jsonrpc.");
      (method_differs o "POST", "grpc_unary operations must use method='POST'.");
      (match op_path o with Some p => negb (str_eqb p (gu_rpc_path g)) | None => false end,
       "grpc_unary rpc_path must match operation.path.")]
  end.

Definition soap_contract_must_be_coherent (o : Operation) : outcome exn unit :=
  match op_soap o with
  | None => Ok tt
  | Some _ => raise_first [
      (given (op_graphql o), "soap execution contract cannot be combined with graphql.");
      (given (op_sql o), "soap execution contract cannot be combined with sql.");
      (given (op_grpc_unary o), "soap execution contract cannot be combined with grpc_unary.");
      (given (op_jsonrpc o), "soap execution contract cannot be combined with jsonrpc.");
      (method_differs o "POST", "soap operations must use method='POST'.")]
  end.

Definition sql_contract_must_match_operation_shape (o : Operation) : outcome exn unit :=
  match op_sql o with
  | None => Ok tt
  | Some s =>
      let expected_method := match sq_action s with sql_query => "GET" | _ => "POST" end in
      raise_first [
        (given (op_graphql o), "sql execution contract cannot be combined with graphql.");
        (given (op_grpc_unary o), "sql execution contract cannot be combined with grpc_unary.");
        (given (op_soap o), "sql execution contract cannot be combined with soap.");
        (given (op_jsonrpc o), "sql execution contract cannot be combined with jsonrpc.");
        (method_differs o expected_method,
         "sql " +:+ sql_action_value (sq_action s) +:+ " operations must use method='" +:+ expected_method +:+ "'.")]
  end.

Definition jsonrpc_contract_must_be_coherent (o : Operation) : outcome exn unit :=
  match op_jsonrpc o with
  | None => Ok tt
  | Some _ => raise_first [
      (given (op_graphql o), "jsonrpc execution contract cannot be combined with graphql.");
      (given (op_sql o), "jsonrpc execution contract cannot be combined with sql.");
      (given (op_grpc_unary o), "jsonrpc execution contract cannot be combined with grpc_unary.");
      (given (op_soap o), "jsonrpc execution contract cannot be combined with soap.");
      (method_differs o "POST", "jsonrpc operations must use method='POST'.")]
  end.

Definition cli_contract_must_be_coherent (o : Operation) : outcome exn unit :=
  match op_cli o with
  | None => Ok tt
  | Some _ => raise_first [
      (given (op_graphql o), "cli execution contract cannot be combined with graphql.");
      (given (op_sql o), "cli execution contract cannot be combined with sql.");
      (given (op_grpc_unary o), "cli execution contract cannot be combined with grpc_unary.");
      (given (op_soap o), "cli execution contract cannot be combined with soap.");
      (given (op_jsonrpc o), "cli execution contract cannot be combined with jsonrpc.")]
  end.

(** Validators in order; the first [ValueError] is the result. *)
Fixpoint in_order (l : list (outcome exn unit)) : outcome exn unit :=
  match l with [] => Ok tt | Ok _ :: l' => in_order l' | Raise e :: _ => Raise e end.

Definition Operation_fields (o : Operation) : bool :=
  str_truthy (op_id o) && str_truthy (op_name o) && unit_interval (op_confidence o)
  && forallb ResponseExample_fields (op_response_examples o) && RiskMetadata_fields (op_risk o)
  && ResponseStrategy_fields (op_response_strategy o)
  && opt_all GraphQLOperationConfig_fields (op_graphql o)
  && opt_all GrpcUnaryRuntimeConfig_fields (op_grpc_unary o)
  && opt_all SoapOperationConfig_fields (op_soap o) && opt_all JsonRpcOperationConfig_fields (op_jsonrpc o)
  && opt_all CliOperationConfig_fields (op_cli o) && opt_all PaginationConfig_fields (op_pagination o)
  && opt_all SlaConfig_fields (op_sla o).

Definition validate_nested {A} (v : A → outcome exn unit) (o : option A) : outcome exn unit :=
  match o with Some a => v a | None => Ok tt end.

(** [Operation.model_validate]: nested models, fields, then the validators; the
    first of these switches an unclassified operation off. *)
Definition validate_Operation (o : Operation) : outcome exn Operation :=
  match in_order (map validate_Param (op_params o)
          ++ [validate_nested validate_AsyncJobConfig (op_async_job o);
              validate_nested validate_SqlOperationConfig (op_sql o);
              build "Operation" (Operation_fields o) (Ok tt)]) with
  | Raise e => Raise e
  | Ok _ =>
      let o' := unknown_risk_must_be_disabled o in
      match in_order [grpc_unary_contract_must_be_coherent o'; soap_contract_must_be_coherent o';
                      sql_contract_must_match_operation_shape o'; jsonrpc_contract_must_be_coherent o';
                      cli_contract_must_be_coherent o'] with
      | Ok _ => Ok o'
      | Raise e => Raise e
      end
  end.

(** ** Service-level models *)

Record AuthConfig := mk_auth {
  ac_type : AuthType;
  ac_header_name : option string;
  ac_header_prefix : option string;
  ac_api_key_param : option string;
  ac_api_key_location : option string;
  ac_oauth2_token_url : option string;
  ac_oauth2_scopes : option (list string);
  ac_compile_time_secret_ref : option string;
  ac_runtime_secret_ref : option string;
  ac_basic_username : option string;
  ac_basic_password_ref : option string;
  ac_oauth2 : option OAuth2ClientCredentialsConfig;
  ac_mtls : option MTLSConfig;
  ac_request_signing : option RequestSigningConfig;
}.
Definition AuthConfig_dict (a : AuthConfig) : dict pyval := [
  ("type", VStr (auth_value (ac_type a))); ("header_name", opt_str (ac_header_name a));
  ("header_prefix", opt_str (ac_header_prefix a)); ("api_key_param", opt_str (ac_api_key_param a));
  ("api_key_location", opt_str (ac_api_key_location a));
  ("oauth2_token_url", opt_str (ac_oauth2_token_url a));
  ("oauth2_scopes", vopt vstrs (ac_oauth2_scopes a));
  ("compile_time_secret_ref", opt_str (ac_compile_time_secret_ref a));
  ("runtime_secret_ref", opt_str (ac_runtime_secret_ref a));
  ("basic_username", opt_str (ac_basic_username a)); ("basic_password_ref", opt_str (ac_basic_password_ref a));
  ("oauth2", vopt (λ o, VDict (OAuth2_dict o)) (ac_oauth2 a));
  ("mtls", vopt (λ m, VDict (MTLSConfig_dict m)) (ac_mtls a));
  ("request_signing", vopt (λ s, VDict (RequestSigningConfig_dict s)) (ac_request_signing a))].

Definition auth_is (t : AuthType) (a : AuthConfig) : bool := bool_decide (ac_type a = t).

Definition nested_auth_configuration_must_be_coherent (a : AuthConfig) : outcome exn unit :=
  raise_first [
    (auth_is custom_header a && negb (opt_truthy (ac_header_name a)),
     "custom_header auth requires header_name.");
    (given (ac_oauth2 a) && negb (auth_is oauth2_auth a),
     "oauth2 client credentials config requires auth.type=oauth2.");
    ((given (ac_basic_username a) || given (ac_basic_password_ref a)) && negb (auth_is basic a),
     "basic auth username/password config requires auth.type=basic.");
    (negb (Bool.eqb (unset (ac_basic_username a)) (unset (ac_basic_password_ref a))),
     "basic auth username/password config requires both basic_username and basic_password_ref.")].
Definition validate_AuthConfig (a : AuthConfig) : outcome exn unit :=
  in_order [validate_nested validate_OAuth2 (ac_oauth2 a);
            build "AuthConfig"
              (opt_all (λ l, one_of l ["header"; "query"]) (ac_api_key_location a)
               && opt_all (λ s, one_of (sg_algorithm s) ["hmac-sha256"]) (ac_request_signing a))
              (nested_auth_configuration_must_be_coherent a)].

Record OperationChain := mk_chain {
  ch_id : string;
  ch_name : string;
  ch_description : string;
  ch_steps : list string;
}.
Definition OperationChain_dict (c : OperationChain) : dict pyval := [
  ("id", VStr (ch_id c)); ("name", VStr (ch_name c)); ("description", VStr (ch_description c));
  ("steps", vstrs (ch_steps c))].

Record ToolGroup := mk_group {
  tg_id : string;
  tg_label : string;
  tg_intent : string;
  tg_operation_ids : list string;
  tg_source : SourceType;
  tg_confidence : float;
}.
Definition ToolGroup_dict (g : ToolGroup) : dict pyval := [
  ("id", VStr (tg_id g)); ("label", VStr (tg_label g)); ("intent", VStr (tg_intent g));
  ("operation_ids", vstrs (tg_operation_ids g)); ("source", VStr (source_value (tg_source g)));
  ("confidence", VFloat (tg_confidence g))].

Record ResourceDefinition := mk_resource {
  rd_id : string;
  rd_name : string;
  rd_description : string;
  rd_uri : string;
  rd_mime_type : string;
  rd_content_type : string;
  rd_content : option string;
  rd_operation_id : option string;
  rd_tags : list string;
}.
Definition ResourceDefinition_dict (r : ResourceDefinition) : dict pyval := [
  ("id", VStr (rd_id r)); ("name", VStr (rd_name r)); ("description", VStr (rd_description r));
  ("uri", VStr (rd_uri r)); ("mime_type", VStr (rd_mime_type r));
  ("content_type", VStr (rd_content_type r)); ("content", opt_str (rd_content r));
  ("operation_id", opt_str (rd_operation_id r)); ("tags", vstrs (rd_tags r))].
Definition validate_content_shape (r : ResourceDefinition) : outcome exn unit :=
  raise_first [
    (str_eqb (rd_content_type r) "static" && unset (rd_content r), "Static ResourceDefinition must define content.");
    (str_eqb (rd_content_type r) "dynamic" && unset (rd_operation_id r),
     "Dynamic ResourceDefinition must define operation_id.");
    (str_eqb (rd_content_type r) "dynamic" && given (rd_content r),
     "Dynamic ResourceDefinition must not define static content.")].
Definition validate_ResourceDefinition (r : ResourceDefinition) : outcome exn unit :=
  build "ResourceDefinition"
    (str_truthy (rd_id r) && str_truthy (rd_name r) && str_truthy (rd_uri r)
     && one_of (rd_content_type r) ["static"; "dynamic"])
    (validate_content_shape r).

Record PromptArgument := mk_prompt_argument {
  pr_name : string;
  pr_description : string;
  pr_required : bool;
  pr_default : option string;
}.
Definition PromptArgument_dict (p : PromptArgument) : dict pyval := [
  ("name", VStr (pr_name p)); ("description", VStr (pr_description p)); ("required", VBool (pr_required p));
  ("default", opt_str (pr_default p))].

Record PromptDefinition := mk_prompt {
  pd_id : string;
  pd_name : string;
  pd_description : string;
  pd_template : string;
  pd_arguments : list PromptArgument;
  pd_tool_ids : list string;
  pd_tags : list string;
}.
Definition PromptDefinition_dict (p : PromptDefinition) : dict pyval := [
  ("id", VStr (pd_id p)); ("name", VStr (pd_name p)); ("description", VStr (pd_description p));
  ("template", VStr (pd_template p));
  ("arguments", VList ((λ a, VDict (PromptArgument_dict a)) <$> pd_arguments p));
  ("tool_ids", vstrs (pd_tool_ids p)); ("tags", vstrs (pd_tags p))].
Definition PromptDefinition_fields (p : PromptDefinition) : bool :=
  str_truthy (pd_id p) && str_truthy (pd_name p) && str_truthy (pd_template p)
  && forallb (λ a, str_truthy (pr_name a)) (pd_arguments p).

Definition IR_VERSION : string := "1.1.0".

Record ServiceIR := mk_ir {
  ir_version : string;
  ir_compiler_version : string;
  ir_source_url : option string;
  ir_source_hash : string;
  ir_protocol : string;
  ir_service_name : string;
  ir_service_description : string;
  ir_base_url : string;
  ir_auth : AuthConfig;
  ir_operations : list Operation;
  ir_operation_chains : list OperationChain;
  ir_tool_grouping : list ToolGroup;
  ir_event_descriptors : list EventDescriptor;
  ir_resource_definitions : list ResourceDefinition;
  ir_prompt_definitions : list PromptDefinition;
  ir_metadata : dict pyval;
  ir_created_at : Z;
  ir_tenant : option string;
  ir_environment : option string;
}.

(** [model_copy(update={...})] of the service's name, metadata and operations *)
Definition ir_with (ir : ServiceIR) (name : string) (ops : list Operation) (metadata : dict pyval) : ServiceIR :=
  mk_ir (ir_version ir) (ir_compiler_version ir) (ir_source_url ir) (ir_source_hash ir) (ir_protocol ir)
    name (ir_service_description ir) (ir_base_url ir) (ir_auth ir) ops (ir_operation_chains ir)
    (ir_tool_grouping ir) (ir_event_descriptors ir) (ir_resource_definitions ir) (ir_prompt_definitions ir)
    metadata (ir_created_at ir) (ir_tenant ir) (ir_environment ir).
Definition ir_with_operations (ir : ServiceIR) (ops : list Operation) : ServiceIR :=
  ir_with ir (ir_service_name ir) ops (ir_metadata ir).

(** ** Validators of [ServiceIR] *)

Definition op_ids (ir : ServiceIR) : list string := op_id <$> ir_operations ir.

(** The ids already seen when met again, as the source's [seen] loop collects them. *)
Definition duplicates (l : list string) : list string := dups_from [] l.
Definition ids_unique (what : string) (l : list string) : outcome exn unit :=
  raise_first [(negb (no_items (duplicates l)), what)].

(** [set(refs) - op_ids] is not empty *)
Definition has_invalid (refs ids : list string) : bool := existsb (λ r, negb (bool_decide (r ∈ ids))) refs.

Definition operation_ids_must_be_unique (ir : ServiceIR) : outcome exn unit :=
  ids_unique "Duplicate operation IDs" (op_ids ir).
Definition chain_steps_must_reference_valid_operations (ir : ServiceIR) : outcome exn unit :=
  raise_first ((λ c, (has_invalid (ch_steps c) (op_ids ir),
    "OperationChain '" +:+ ch_id c +:+ "' references unknown operations")) <$> ir_operation_chains ir).
Definition event_descriptors_must_reference_valid_operations (ir : ServiceIR) : outcome exn unit :=
  raise_first [(has_invalid (omap ed_operation_id (ir_event_descriptors ir)) (op_ids ir),
    "Event descriptors reference unknown operations")].
Definition tool_grouping_must_reference_valid_operations (ir : ServiceIR) : outcome exn unit :=
  raise_first ((λ g, (has_invalid (tg_operation_ids g) (op_ids ir),
    "ToolGroup '" +:+ tg_id g +:+ "' references unknown operations")) <$> ir_tool_grouping ir).
Definition resource_definition_ids_must_be_unique (ir : ServiceIR) : outcome exn unit :=
  ids_unique "Duplicate resource definition IDs" (rd_id <$> ir_resource_definitions ir).
Definition resource_definition_uris_must_be_unique (ir : ServiceIR) : outcome exn unit :=
  ids_unique "Duplicate resource definition URIs" (rd_uri <$> ir_resource_definitions ir).
Definition prompt_definition_ids_must_be_unique (ir : ServiceIR) : outcome exn unit :=
  ids_unique "Duplicate prompt definition IDs" (pd_id <$> ir_prompt_definitions ir).
Definition prompt_definition_names_must_be_unique (ir : ServiceIR) : outcome exn unit :=
  ids_unique "Duplicate prompt definition names" (pd_name <$> ir_prompt_definitions ir).
Definition prompt_tool_ids_must_reference_valid_operations (ir : ServiceIR) : outcome exn unit :=
  raise_first ((λ p, (has_invalid (pd_tool_ids p) (op_ids ir),
    "PromptDefinition '" +:+ pd_id p +:+ "' references unknown operations")) <$> ir_prompt_definitions ir).
Definition resource_operation_ids_must_reference_valid_operations (ir : ServiceIR) : outcome exn unit :=
  raise_first [(has_invalid (omap rd_operation_id (ir_resource_definitions ir)) (op_ids ir),
    "Resource definitions reference unknown operations")].

Definition service_validators (ir : ServiceIR) : list (outcome exn unit) := [
  operation_ids_must_be_unique ir; chain_steps_must_reference_valid_operations ir;
  event_descriptors_must_reference_valid_operations ir; tool_grouping_must_reference_valid_operations ir;
  resource_definition_ids_must_be_unique ir; resource_definition_uris_must_be_unique ir;
  prompt_definition_ids_must_be_unique ir; prompt_definition_names_must_be_unique ir;
  prompt_tool_ids_must_reference_valid_operations ir; resource_operation_ids_must_reference_valid_operations ir].

(** [ServiceIR(...)] of models already built: pydantic does not validate these again. *)
Definition construct_ServiceIR (ir : ServiceIR) : outcome exn ServiceIR :=
  match build "ServiceIR" (str_truthy (ir_service_name ir)) (in_order (service_validators ir)) with
  | Ok _ => Ok ir
  | Raise e => Raise e
  end.

Fixpoint traverse {A B} (f : A → outcome exn B) (l : list A) : outcome exn (list B) :=
  match l with
  | [] => Ok []
  | a :: l' =>
      match f a with
      | Raise e => Raise e
      | Ok b => match traverse f l' with Ok bs => Ok (b :: bs) | Raise e => Raise e end
      end
  end.

(** [ServiceIR.model_validate]: every nested model first. *)
Definition validate_ServiceIR (ir : ServiceIR) : outcome exn ServiceIR :=
  match in_order (validate_AuthConfig (ir_auth ir) :: map validate_EventDescriptor (ir_event_descriptors ir)
          ++ map validate_ResourceDefinition (ir_resource_definitions ir)
          ++ [build "ServiceIR" (forallb PromptDefinition_fields (ir_prompt_definitions ir)
                && forallb (λ c, str_truthy (ch_id c)) (ir_operation_chains ir)
                && forallb (λ g, str_truthy (tg_id g) && str_truthy (tg_label g)
                                 && unit_interval (tg_confidence g)) (ir_tool_grouping ir)) (Ok tt)]) with
  | Raise e => Raise e
  | Ok _ =>
      match traverse validate_Operation (ir_operations ir) with
      | Raise e => Raise e
      | Ok ops => construct_ServiceIR (ir_with_operations ir ops)
      end
  end.

(** ** What validation guarantees *)

Lemma in_order_ok l : in_order l = Ok tt ↔ Forall (λ o, o = Ok tt) l.
Proof.
  induction l as [|[[]|e] l IH]; simpl; [done| |].
  - rewrite IH, Forall_cons. naive_solver.
  - split; [done|]. by intros [? _]%Forall_cons.
Qed.

Lemma build_ok model fields v : build model fields v = Ok tt ↔ fields = true ∧ v = Ok tt.
Proof. destruct fields; simpl; naive_solver. Qed.

Lemma unit_ok {E} (o : outcome E unit) (u : unit) : o = Ok u ↔ o = Ok tt.
Proof. by destruct u. Qed.

Lemma ids_unique_ok what l : ids_unique what l = Ok tt ↔ NoDup l.
Proof.
  unfold ids_unique. rewrite raise_first_ok, Forall_singleton. simpl. unfold duplicates.
  rewrite negb_false_iff. trans (dups_from [] l = []).
  - by destruct (dups_from [] l).
  - rewrite dups_from_nil by constructor. split; [by intros []|]. intros. split; [done|]. intros x _ Hx. inv Hx.
Qed.

Lemma has_invalid_false refs ids : has_invalid refs ids = false ↔ ∀ r, r ∈ refs → r ∈ ids.
Proof.
  unfold has_invalid. rewrite <-not_true_iff_false, existsb_exists. split.
  - intros H r Hr. destruct (decide (r ∈ ids)); [done|]. destruct H. exists r.
    rewrite <-list_elem_of_In. by rewrite bool_decide_eq_false_2.
  - intros H (r & Hr%list_elem_of_In & Hn). by rewrite bool_decide_eq_true_2 in Hn by auto.
Qed.

Lemma fmap_checks {A} (f : A → bool * string) l :
  raise_first (f <$> l) = Ok tt ↔ ∀ x, x ∈ l → (f x).1 = false.
Proof. by rewrite raise_first_ok, Forall_fmap, Forall_forall. Qed.

(** The integrity of a service description: identifiers are unique, and every
    reference to an operation resolves. *)
Record service_wf (ir : ServiceIR) : Prop := {
  wf_name : str_truthy (ir_service_name ir) = true;
  wf_op_ids : NoDup (op_ids ir);
  wf_chains : ∀ c i, c ∈ ir_operation_chains ir → i ∈ ch_steps c → i ∈ op_ids ir;
  wf_events : ∀ e i, e ∈ ir_event_descriptors ir → ed_operation_id e = Some i → i ∈ op_ids ir;
  wf_groups : ∀ g i, g ∈ ir_tool_grouping ir → i ∈ tg_operation_ids g → i ∈ op_ids ir;
  wf_resource_ids : NoDup (rd_id <$> ir_resource_definitions ir);
  wf_resource_uris : NoDup (rd_uri <$> ir_resource_definitions ir);
  wf_prompt_ids : NoDup (pd_id <$> ir_prompt_definitions ir);
  wf_prompt_names : NoDup (pd_name <$> ir_prompt_definitions ir);
  wf_prompts : ∀ p i, p ∈ ir_prompt_definitions ir → i ∈ pd_tool_ids p → i ∈ op_ids ir;
  wf_resources : ∀ r i, r ∈ ir_resource_definitions ir → rd_operation_id r = Some i → i ∈ op_ids ir;
}.

Lemma omap_refs {A} (f : A → option string) (l : list A) (ids : list string) :
  (∀ r, r ∈ omap f l → r ∈ ids) ↔ ∀ x i, x ∈ l → f x = Some i → i ∈ ids.
Proof. setoid_rewrite list_elem_of_omap. naive_solver. Qed.

Lemma construct_eq ir ir' : construct_ServiceIR ir = Ok ir' ↔ ir' = ir ∧ service_wf ir.
Proof.
  unfold construct_ServiceIR.
  assert (build "ServiceIR" (str_truthy (ir_service_name ir)) (in_order (service_validators ir)) = Ok tt
    ↔ service_wf ir) as <-.
  { rewrite build_ok, in_order_ok. unfold service_validators. rewrite !Forall_cons, Forall_nil.
    unfold operation_ids_must_be_unique, resource_definition_ids_must_be_unique,
      resource_definition_uris_must_be_unique, prompt_definition_ids_must_be_unique,
      prompt_definition_names_must_be_unique, chain_steps_must_reference_valid_operations,
      event_descriptors_must_reference_valid_operations, tool_grouping_must_reference_valid_operations,
      prompt_tool_ids_must_reference_valid_operations, resource_operation_ids_must_reference_valid_operations.
    rewrite !ids_unique_ok, !fmap_checks, !raise_first_ok, !Forall_singleton. simpl.
    setoid_rewrite has_invalid_false. rewrite !omap_refs.
    split; [intros; constructor; naive_solver|]. intros []. naive_solver. }
  destruct (build _ _ _) as [[]|e]; naive_solver.
Qed.

(** The execution contracts an operation carries. *)
Definition contracts (o : Operation) : list string :=
  (if given (op_graphql o) then ["graphql"] else []) ++ (if given (op_sql o) then ["sql"] else [])
  ++ (if given (op_grpc_unary o) then ["grpc_unary"] else []) ++ (if given (op_soap o) then ["soap"] else [])
  ++ (if given (op_jsonrpc o) then ["jsonrpc"] else []) ++ (if given (op_cli o) then ["cli"] else []).

(** The HTTP method a contract demands. *)
Definition required_method (o : Operation) : option string :=
  match op_sql o with
  | Some s => Some (match sq_action s with sql_query => "GET" | _ => "POST" end)
  | None => if given (op_grpc_unary o) || given (op_soap o) || given (op_jsonrpc o) then Some "POST" else None
  end.

Record operation_wf (o : Operation) : Prop := {
  wf_unclassified : rm_risk_level (op_risk o) = unknown → op_enabled o = false;
  wf_one_contract : (length (contracts o) ≤ 1)%nat;
  wf_method : ∀ m x, required_method o = Some m → op_method o = Some x → upper x = m;
  wf_rpc_path : ∀ g p, op_grpc_unary o = Some g → op_path o = Some p → p = gu_rpc_path g;
}.

(** Everything validation checks of an operation before its own validators. *)
Definition operation_parts (o : Operation) : outcome exn unit :=
  in_order (map validate_Param (op_params o)
    ++ [validate_nested validate_AsyncJobConfig (op_async_job o);
        validate_nested validate_SqlOperationConfig (op_sql o);
        build "Operation" (Operation_fields o) (Ok tt)]).

Definition contract_validators (o : Operation) : list (outcome exn unit) := [
  grpc_unary_contract_must_be_coherent o; soap_contract_must_be_coherent o;
  sql_contract_must_match_operation_shape o; jsonrpc_contract_must_be_coherent o;
  cli_contract_must_be_coherent o].

Lemma validate_operation_eq o o' :
  validate_Operation o = Ok o' ↔
  o' = unknown_risk_must_be_disabled o ∧ operation_parts o = Ok tt
  ∧ in_order (contract_validators (unknown_risk_must_be_disabled o)) = Ok tt.
Proof.
  change (validate_Operation o) with
    (match operation_parts o with
     | Raise e => Raise e
     | Ok _ => match in_order (contract_validators (unknown_risk_must_be_disabled o)) with
               | Ok _ => Ok (unknown_risk_must_be_disabled o)
               | Raise e => Raise e
               end
     end).
  destruct (operation_parts o) as [[]|]; [|naive_solver].
  destruct (in_order _) as [[]|]; naive_solver.
Qed.

Lemma disabled_fixed o :
  unknown_risk_must_be_disabled (unknown_risk_must_be_disabled o) = unknown_risk_must_be_disabled o.
Proof.
  unfold unknown_risk_must_be_disabled at 2 3. destruct (is_unknown _ && op_enabled o) eqn:E.
  - unfold unknown_risk_must_be_disabled. simpl. by rewrite andb_false_r.
  - unfold unknown_risk_must_be_disabled. by rewrite E.
Qed.

Lemma disabled_parts o : operation_parts (unknown_risk_must_be_disabled o) = operation_parts o.
Proof. unfold unknown_risk_must_be_disabled. by destruct (_ && _). Qed.

Lemma disabled_unclassified o :
  rm_risk_level (op_risk (unknown_risk_must_be_disabled o)) = unknown →
  op_enabled (unknown_risk_must_be_disabled o) = false.
Proof.
  unfold unknown_risk_must_be_disabled. destruct (is_unknown _ && op_enabled o) eqn:E; [done|].
  intros H. rewrite H in E. simpl in E. done.
Qed.

(** A validator [H] whose contract is given by [Ha], as the list of its checks. *)
Ltac open_contract H Ha :=
  rewrite Ha in H; apply raise_first_ok in H; rewrite !Forall_cons in H; simpl in H.

Lemma given_Some {A} (o : option A) : given o = true ↔ ∃ a, o = Some a.
Proof. destruct o; naive_solver. Qed.

(** The contracts exclude each other (GraphQL is excluded by each of the others). *)
Lemma validators_exclude o :
  in_order (contract_validators o) = Ok tt →
  (given (op_grpc_unary o) = true →
     given (op_graphql o) = false ∧ given (op_sql o) = false ∧ given (op_soap o) = false ∧ given (op_jsonrpc o) = false)
  ∧ (given (op_soap o) = true → given (op_graphql o) = false ∧ given (op_sql o) = false ∧ given (op_jsonrpc o) = false)
  ∧ (given (op_sql o) = true → given (op_graphql o) = false ∧ given (op_jsonrpc o) = false)
  ∧ (given (op_jsonrpc o) = true → given (op_graphql o) = false)
  ∧ (given (op_cli o) = true → given (op_graphql o) = false ∧ given (op_sql o) = false
       ∧ given (op_grpc_unary o) = false ∧ given (op_soap o) = false ∧ given (op_jsonrpc o) = false).
Proof.
  intros H%in_order_ok. unfold contract_validators in H. rewrite !Forall_cons in H.
  destruct H as (Hg & Hs & Hq & Hj & Hc & _).
  unfold grpc_unary_contract_must_be_coherent, soap_contract_must_be_coherent,
    sql_contract_must_match_operation_shape, jsonrpc_contract_must_be_coherent,
    cli_contract_must_be_coherent in *.
  split_and!; intros (a & Ha)%given_Some;
    [open_contract Hg Ha|open_contract Hs Ha|open_contract Hq Ha|open_contract Hj Ha|open_contract Hc Ha]; tauto.
Qed.

Lemma validators_method o m x :
  in_order (contract_validators o) = Ok tt → required_method o = Some m → op_method o = Some x → upper x = m.
Proof.
  intros H%in_order_ok Hreq Hx. unfold contract_validators in H. rewrite !Forall_cons in H.
  destruct H as (Hg & Hs & Hq & Hj & _).
  unfold grpc_unary_contract_must_be_coherent, soap_contract_must_be_coherent,
    sql_contract_must_match_operation_shape, jsonrpc_contract_must_be_coherent in *.
  assert (∀ m, method_differs o m = false → upper x = m) as Hm.
  { unfold method_differs. rewrite Hx. intros m' Hd. apply negb_false_iff in Hd. by apply String.eqb_eq. }
  unfold required_method in Hreq. destruct (op_sql o) as [q|].
  { injection Hreq as <-. apply raise_first_ok in Hq. rewrite !Forall_cons in Hq. apply Hm, Hq. }
  destruct (_ || _) eqn:E; [|done]. injection Hreq as <-.
  apply orb_true_iff in E as [[(a & Ha)%given_Some|(a & Ha)%given_Some]%orb_true_iff|(a & Ha)%given_Some];
    [open_contract Hg Ha|open_contract Hs Ha|open_contract Hj Ha]; apply Hm; tauto.
Qed.

Lemma validators_rpc_path o g p :
  in_order (contract_validators o) = Ok tt → op_grpc_unary o = Some g → op_path o = Some p → p = gu_rpc_path g.
Proof.
  intros H%in_order_ok Hg Hp. unfold contract_validators in H. rewrite Forall_cons in H.
  destruct H as [H _]. unfold grpc_unary_contract_must_be_coherent in H. open_contract H Hg.
  destruct H as (_ & _ & _ & _ & _ & H & _). rewrite Hp in H. apply negb_false_iff in H.
  by apply String.eqb_eq.
Qed.

Lemma validators_wf o :
  in_order (contract_validators o) = Ok tt →
  (rm_risk_level (op_risk o) = unknown → op_enabled o = false) → operation_wf o.
Proof.
  intros H Hunk. constructor; [done| |by intros; eapply validators_method|by intros; eapply validators_rpc_path].
  destruct (validators_exclude o H) as (H1 & H2 & H3 & H4 & H5). clear H Hunk. unfold contracts.
  destruct (given (op_grpc_unary o)), (given (op_soap o)), (given (op_sql o)), (given (op_jsonrpc o)),
    (given (op_cli o)), (given (op_graphql o)); simpl; try lia; exfalso; naive_solver.
Qed.

(** A validated operation carries at most one execution contract, its HTTP
    method and path are those the contract needs, it is switched off when its risk
    is unclassified and otherwise as given, and validating it again accepts it
    unchanged. *)
Theorem validate_operation_sound o o' :
  validate_Operation o = Ok o' →
  operation_wf o' ∧ validate_Operation o' = Ok o'
  ∧ o' = if is_unknown (rm_risk_level (op_risk o)) && op_enabled o then op_with_enabled o false else o.
Proof.
  intros (-> & Hparts & Hval)%validate_operation_eq. split; [|split; [|done]].
  - apply validators_wf; [done|]. apply disabled_unclassified.
  - apply validate_operation_eq. by rewrite disabled_fixed, disabled_parts.
Qed.

Lemma traverse_ok {A B} (f : A → outcome exn B) l l' :
  traverse f l = Ok l' ↔ Forall2 (λ a b, f a = Ok b) l l'.
Proof.
  revert l'. induction l as [|a l IH]; intros l'; simpl.
  { split; [by intros [= <-]|]. by intros ->%Forall2_nil_inv_l. }
  destruct (f a) as [b|e] eqn:E.
  - destruct (traverse f l) as [bs|e] eqn:Et.
    + split; [intros [= <-]; constructor; [done|by apply IH]|].
      intros (b' & l2 & Hb & Hl & ->)%Forall2_cons_inv_l. apply IH in Hl. congruence.
    + split; [done|]. intros (b' & l2 & Hb & Hl & ->)%Forall2_cons_inv_l. apply IH in Hl. congruence.
  - split; [done|]. intros (b' & l2 & Hb & _)%Forall2_cons_inv_l. congruence.
Qed.

(** A service description is constructed exactly when its identifiers are
    unique and every chain, event, group, prompt and resource refers to an
    operation it contains; construction changes nothing. *)
Theorem construct_service_spec ir ir' :
  construct_ServiceIR ir = Ok ir' ↔ ir' = ir ∧ service_wf ir.
Proof. apply construct_eq. Qed.

Definition service_parts (ir : ServiceIR) : outcome exn unit :=
  in_order (validate_AuthConfig (ir_auth ir) :: map validate_EventDescriptor (ir_event_descriptors ir)
    ++ map validate_ResourceDefinition (ir_resource_definitions ir)
    ++ [build "ServiceIR" (forallb PromptDefinition_fields (ir_prompt_definitions ir)
          && forallb (λ c, str_truthy (ch_id c)) (ir_operation_chains ir)
          && forallb (λ g, str_truthy (tg_id g) && str_truthy (tg_label g)
                           && unit_interval (tg_confidence g)) (ir_tool_grouping ir)) (Ok tt)]).

Lemma validate_service_eq ir ir' :
  validate_ServiceIR ir = Ok ir' ↔
  ∃ ops, service_parts ir = Ok tt ∧ Forall2 (λ o o', validate_Operation o = Ok o') (ir_operations ir) ops
    ∧ ir' = ir_with_operations ir ops ∧ service_wf ir'.
Proof.
  setoid_rewrite <-traverse_ok.
  change (validate_ServiceIR ir) with
    (match service_parts ir with
     | Raise e => Raise e
     | Ok _ => match traverse validate_Operation (ir_operations ir) with
               | Raise e => Raise e
               | Ok ops => construct_ServiceIR (ir_with_operations ir ops)
               end
     end).
  destruct (service_parts ir) as [[]|]; [|naive_solver].
  destruct (traverse _ _) as [ops|]; [|naive_solver]. rewrite construct_eq. naive_solver.
Qed.

Lemma validated_operations l ops : Forall2 (λ o o', validate_Operation o = Ok o') l ops →
  Forall (λ o', operation_wf o' ∧ validate_Operation o' = Ok o') ops.
Proof.
  intros Hops. apply Forall_forall. intros o' Ho'. apply list_elem_of_lookup in Ho' as [n Hn].
  destruct (Forall2_lookup_r _ _ _ _ _ Hops Hn) as (o & _ & Ho). apply validate_operation_eq in Ho as (-> & Hp & Hv).
  split; [apply validators_wf; [done|apply disabled_unclassified]|].
  apply validate_operation_eq. by rewrite disabled_fixed, disabled_parts.
Qed.

Lemma validated_wf ir ir' : validate_ServiceIR ir = Ok ir' → service_wf ir' ∧ Forall operation_wf (ir_operations ir').
Proof.
  intros (ops & _ & Hops & -> & Hwf)%validate_service_eq. split; [done|].
  eapply Forall_impl; [exact (validated_operations _ _ Hops)|by intros ? []].
Qed.

(** C19. Validating a description yields one whose references are sound, whose
    operations are each well-formed, and which validation accepts again
    unchanged: what the registry stores can be loaded back. *)
Theorem validate_service_sound ir ir' :
  validate_ServiceIR ir = Ok ir' →
  service_wf ir' ∧ Forall operation_wf (ir_operations ir') ∧ validate_ServiceIR ir' = Ok ir'.
Proof.
  intros H. destruct (validated_wf _ _ H) as [Hwf Hall]. split; [done|]. split; [done|].
  apply validate_service_eq in H as (ops & Hparts & Hops & -> & _).
  apply validate_service_eq. exists ops. split_and!; [done| |done|done].
  apply validated_operations in Hops. cbn [ir_operations ir_with_operations ir_with].
  clear -Hops. by induction Hops as [|o ops [_ Ho]]; constructor.
Qed.

(** ** Witnesses *)

Definition demo_risk (r : RiskLevel) : RiskMetadata := mk_risk None None None None r 0.5 src_extractor.
Definition demo_op (id : string) (r : RiskLevel) : Operation :=
  mk_operation id id "" (Some "get") (Some "/pets") [] None (mk_error_schema [] None) [] (demo_risk r)
    (mk_strategy None None None None trunc_none) body_json None None None
    (Some (mk_sql "public" "pets" sql_table sql_query ["id"] [] [] [] 50 200)) None None None None None
    ["read"] None src_extractor 1 None true.
Definition demo_no_auth : AuthConfig :=
  mk_auth no_auth None None None None None None None None None None None None None.
Definition demo_ir : ServiceIR :=
  mk_ir IR_VERSION "0.1.0" None "h" "sql" "pets" "" "http://pets" demo_no_auth
    [demo_op "list" safe; demo_op "audit" unknown]
    [mk_chain "c" "c" "" ["list"; "audit"]] [] [] [] [] [] 0 None None.
Definition demo_ir_validated : ServiceIR :=
  ir_with_operations demo_ir [demo_op "list" safe; op_with_enabled (demo_op "audit" unknown) false].

Lemma validate_operation_sound_witness :
  operation_wf (op_with_enabled (demo_op "audit" unknown) false).
Proof.
  destruct (validate_operation_sound (demo_op "audit" unknown) (op_with_enabled (demo_op "audit" unknown) false))
    as [H _]; [vm_compute; reflexivity|exact H].
Defined.

Lemma validate_service_sound_witness :
  service_wf demo_ir_validated ∧ validate_ServiceIR demo_ir_validated = Ok demo_ir_validated.
Proof.
  destruct (validate_service_sound demo_ir demo_ir_validated) as (H1 & _ & H2);
    [vm_compute; reflexivity|split; [exact H1|exact H2]].
Defined.
