(* ===== verification/IRDiff.v ===== *)
(** * Structured differences ([libs/ir/diff.py])

    [compute_diff] compares two descriptions attribute by attribute.  Attributes
    are read by name, as [getattr] does, from the models' dictionaries; their
    values are in the form [_normalize_diff_value] produces.  Where the source
    iterates over the intersection of two key sets, whose order Python leaves
    open, the model follows the old description's order. *)

From S2P Require Export IRModels.

(** ** Attributes *)

Definition RetryConfig_dict (r : RetryConfig) : dict pyval := [
  ("max_retries", VInt (rt_max_retries r)); ("backoff_base_ms", VInt (rt_backoff_base_ms r));
  ("backoff_multiplier", VFloat (rt_backoff_multiplier r)); ("retryable_errors", vstrs (rt_retryable_errors r))].
Definition SlaConfig_dict (s : SlaConfig) : dict pyval := [
  ("latency_budget_ms", vopt VInt (sl_latency_budget_ms s)); ("timeout_ms", vopt VInt (sl_timeout_ms s));
  ("retry", VDict (RetryConfig_dict (sl_retry s)))].

Definition vmodels {A} (f : A → dict pyval) (l : list A) : pyval := VList ((λ a, VDict (f a)) <$> l).
Definition vmodel {A} (f : A → dict pyval) (o : option A) : pyval := vopt (λ a, VDict (f a)) o.

Definition Operation_dict (o : Operation) : dict pyval := [
  ("id", VStr (op_id o)); ("name", VStr (op_name o)); ("description", VStr (op_description o));
  ("method", opt_str (op_method o)); ("path", opt_str (op_path o));
  ("params", vmodels Param_dict (op_params o)); ("response_schema", opt_dict (op_response_schema o));
  ("error_schema", VDict (ErrorSchema_dict (op_error_schema o)));
  ("response_examples", vmodels ResponseExample_dict (op_response_examples o));
  ("risk", VDict (RiskMetadata_dict (op_risk o)));
  ("response_strategy", VDict (ResponseStrategy_dict (op_response_strategy o)));
  ("request_body_mode", VStr (body_mode_value (op_request_body_mode o)));
  ("body_param_name", opt_str (op_body_param_name o));
  ("async_job", vmodel AsyncJobConfig_dict (op_async_job o));
  ("graphql", vmodel GraphQLOperationConfig_dict (op_graphql o));
  ("sql", vmodel SqlOperationConfig_dict (op_sql o));
  ("grpc_unary", vmodel GrpcUnaryRuntimeConfig_dict (op_grpc_unary o));
  ("soap", vmodel SoapOperationConfig_dict (op_soap o));
  ("jsonrpc", vmodel JsonRpcOperationConfig_dict (op_jsonrpc o));
  ("cli", vmodel CliOperationConfig_dict (op_cli o));
  ("pagination", vmodel PaginationConfig_dict (op_pagination o));
  ("tags", vstrs (op_tags o)); ("tool_intent", vopt (λ t, VStr (intent_value t)) (op_tool_intent o));
  ("source", VStr (source_value (op_source o))); ("confidence", VFloat (op_confidence o));
  ("sla", vmodel SlaConfig_dict (op_sla o)); ("enabled", VBool (op_enabled o))].

Definition ServiceIR_dict (ir : ServiceIR) : dict pyval := [
  ("ir_version", VStr (ir_version ir)); ("compiler_version", VStr (ir_compiler_version ir));
  ("source_url", opt_str (ir_source_url ir)); ("source_hash", VStr (ir_source_hash ir));
  ("protocol", VStr (ir_protocol ir)); ("service_name", VStr (ir_service_name ir));
  ("service_description", VStr (ir_service_description ir)); ("base_url", VStr (ir_base_url ir));
  ("auth", VDict (AuthConfig_dict (ir_auth ir)));
  ("operations", vmodels Operation_dict (ir_operations ir));
  ("operation_chains", vmodels OperationChain_dict (ir_operation_chains ir));
  ("tool_grouping", vmodels ToolGroup_dict (ir_tool_grouping ir));
  ("event_descriptors", vmodels EventDescriptor_dict (ir_event_descriptors ir));
  ("resource_definitions", vmodels ResourceDefinition_dict (ir_resource_definitions ir));
  ("prompt_definitions", vmodels PromptDefinition_dict (ir_prompt_definitions ir));
  ("metadata", VDict (ir_metadata ir)); ("created_at", VInt (ir_created_at ir));
  ("tenant", opt_str (ir_tenant ir)); ("environment", opt_str (ir_environment ir))].

(** ** The difference *)

Inductive change :=
| ParamChange (param_name field_name : string) (old_value new_value : pyval)
| FieldChange (field : string) (old_value new_value : pyval).

Record OperationDiff := mk_operation_diff {
  od_operation_id : string;
  od_operation_name : string;
  od_changes : list change;
  od_added_params : list string;
  od_removed_params : list string;
}.

Record IRDiff := mk_ir_diff {
  df_added_operations : list string;
  df_removed_operations : list string;
  df_changed_operations : list OperationDiff;
}.

Definition is_empty (d : IRDiff) : bool :=
  no_items (df_added_operations d) && no_items (df_removed_operations d) && no_items (df_changed_operations d).

Definition summary_part {A} (mark what : string) (l : list A) : list string :=
  if no_items l then [] else [mark +:+ str_of_Z (Z.of_nat (length l)) +:+ what].

Definition summary (d : IRDiff) : string :=
  match (summary_part "+" " operations" (df_added_operations d)
         ++ summary_part "-" " operations" (df_removed_operations d)
         ++ summary_part "~" " changed" (df_changed_operations d))%list with
  | [] => "no changes"
  | parts => join ", " parts
  end.

Definition service_compare_fields : list string := [
  "service_name"; "service_description"; "base_url"; "protocol"; "auth"; "operation_chains";
  "tool_grouping"; "metadata"; "tenant"; "environment"].
Definition op_compare_fields : list string := [
  "name"; "description"; "method"; "path"; "enabled"; "response_schema"; "error_schema";
  "response_examples"; "response_strategy"; "request_body_mode"; "body_param_name"; "async_job"; "graphql";
  "sql"; "grpc_unary"; "soap"; "jsonrpc"; "tags"; "tool_intent"].
Definition risk_compare_fields : list string :=
  ["writes_state"; "destructive"; "external_side_effect"; "idempotent"; "risk_level"].
Definition param_compare_fields : list string := ["type"; "required"; "description"; "default"].

(** The loop shared by the comparisons: the named attributes that differ. *)
Definition changed_fields (report : string → pyval → pyval → change) (fields : list string)
    (old new : dict pyval) : list change :=
  omap (λ f, let old_val := get_or_none old f in
             let new_val := get_or_none new f in
             if py_eq old_val new_val then None else Some (report f old_val new_val)) fields.

Definition by_name (l : list Param) : dict Param := dict_of_list ((λ p, (pa_name p, p)) <$> l).

Definition missing_from {V W} (d : dict V) (e : dict W) : list string :=
  List.filter (λ k, negb (dict_mem e k)) (dict_keys d).

(** The keys two dictionaries share, with both values. *)
Definition common {V} (d e : dict V) : list (V * V) :=
  omap (λ kv, (λ w, (kv.2, w)) <$> dict_get e kv.1) d.

(** [_diff_params]: parameters added, removed, and changed *)
Definition added_params (old_params new_params : list Param) : list string :=
  missing_from (by_name new_params) (by_name old_params).
Definition removed_params (old_params new_params : list Param) : list string :=
  missing_from (by_name old_params) (by_name new_params).
Definition param_changes (old_params new_params : list Param) : list change :=
  common (by_name old_params) (by_name new_params) ≫= λ on,
    changed_fields (ParamChange (pa_name on.1)) param_compare_fields (Param_dict on.1) (Param_dict on.2).

Definition operation_changes (old_op new_op : Operation) : list change :=
  changed_fields FieldChange op_compare_fields (Operation_dict old_op) (Operation_dict new_op)
  ++ changed_fields (λ f, FieldChange ("risk." +:+ f)) risk_compare_fields
       (RiskMetadata_dict (op_risk old_op)) (RiskMetadata_dict (op_risk new_op))
  ++ param_changes (op_params old_op) (op_params new_op).

Definition diff_operations (old_op new_op : Operation) : option OperationDiff :=
  let changes := operation_changes old_op new_op in
  let added := added_params (op_params old_op) (op_params new_op) in
  let removed := removed_params (op_params old_op) (op_params new_op) in
  if no_items changes && no_items added && no_items removed then None
  else Some (mk_operation_diff (op_id old_op) (op_name new_op) changes added removed).

Definition diff_service_level (old new : ServiceIR) : option OperationDiff :=
  match changed_fields FieldChange service_compare_fields (ServiceIR_dict old) (ServiceIR_dict new) with
  | [] => None
  | changes => Some (mk_operation_diff "__service__" "Service metadata" changes [] [])
  end.

Definition diff_capability_surface (operation_id operation_name field_name : string)
    (old_value new_value : pyval) : option OperationDiff :=
  if py_eq old_value new_value then None
  else Some (mk_operation_diff operation_id operation_name [FieldChange field_name old_value new_value] [] []).

Definition by_id (ir : ServiceIR) : dict Operation := dict_of_list ((λ o, (op_id o, o)) <$> ir_operations ir).

Definition surfaces : list (string * string * string) := [
  ("__resource_definitions__", "Resource definitions", "resource_definitions");
  ("__prompt_definitions__", "Prompt definitions", "prompt_definitions");
  ("__event_descriptors__", "Event descriptors", "event_descriptors")].

Definition compute_diff (old new : ServiceIR) : IRDiff :=
  let old_ops := by_id old in
  let new_ops := by_id new in
  mk_ir_diff (missing_from new_ops old_ops) (missing_from old_ops new_ops)
    (omap id [diff_service_level old new]
     ++ omap (λ s : string * string * string, let '(op, name, field) := s in
                diff_capability_surface op name field
                  (get_or_none (ServiceIR_dict old) field) (get_or_none (ServiceIR_dict new) field)) surfaces
     ++ omap (λ on : Operation * Operation, diff_operations on.1 on.2) (common old_ops new_ops)).

(** ** What the difference says *)

Lemma no_items_iff {A} (l : list A) : no_items l = true ↔ l = [].
Proof. by destruct l. Qed.

Lemma changed_fields_elem report fields old new c :
  c ∈ changed_fields report fields old new ↔
  ∃ f, f ∈ fields ∧ py_eq (get_or_none old f) (get_or_none new f) = false
    ∧ c = report f (get_or_none old f) (get_or_none new f).
Proof.
  unfold changed_fields. rewrite list_elem_of_omap. split.
  - intros (f & Hf & H). simpl in H. destruct (py_eq _ _) eqn:E; [done|]. injection H as <-. eauto.
  - intros (f & Hf & E & ->). exists f. split; [done|]. simpl. by rewrite E.
Qed.

(** The named attributes agree. *)
Definition agree (fields : list string) (old new : dict pyval) : Prop :=
  ∀ f, f ∈ fields → py_eq (get_or_none old f) (get_or_none new f) = true.

Lemma changed_fields_nil report fields old new : changed_fields report fields old new = [] ↔ agree fields old new.
Proof.
  unfold agree. split.
  - intros H f Hf. destruct (py_eq _ _) eqn:E; [done|].
    assert (report f (get_or_none old f) (get_or_none new f) ∈ changed_fields report fields old new) as Hin
      by (apply changed_fields_elem; eauto). rewrite H in Hin. inv Hin.
  - intros H. destruct (changed_fields report fields old new) as [|c l] eqn:E; [done|].
    assert (c ∈ changed_fields report fields old new) as Hc by (rewrite E; left).
    apply changed_fields_elem in Hc as (f & Hf & Hn & _). by rewrite H in Hn.
Qed.

Lemma missing_from_elem {V W} (d : dict V) (e : dict W) k :
  k ∈ missing_from d e ↔ k ∈ dict_keys d ∧ k ∉ dict_keys e.
Proof.
  unfold missing_from, dict_mem. rewrite elem_of_filterb, negb_true_iff, bool_decide_eq_false, dict_get_is_Some.
  naive_solver.
Qed.

Lemma missing_from_nil {V W} (d : dict V) (e : dict W) :
  missing_from d e = [] ↔ ∀ k, k ∈ dict_keys d → k ∈ dict_keys e.
Proof.
  split.
  - intros H k Hk. destruct (decide (k ∈ dict_keys e)); [done|].
    assert (k ∈ missing_from d e) as Hin by by apply missing_from_elem. rewrite H in Hin. inv Hin.
  - intros H. destruct (missing_from d e) as [|k l] eqn:E; [done|].
    assert (k ∈ missing_from d e) as Hk by (rewrite E; left). apply missing_from_elem in Hk as [? []]. by apply H.
Qed.

Lemma dict_keys_of_list {V} (l : list (string * V)) k : k ∈ dict_keys (dict_of_list l) ↔ k ∈ l.*1.
Proof.
  unfold dict_of_list, dict_update. enough (∀ d : dict V,
    k ∈ dict_keys (foldl (λ acc kv, dict_set acc kv.1 kv.2) d l) ↔ k ∈ dict_keys d ∨ k ∈ l.*1) as H.
  { rewrite H. split; [by intros [Hn|]; [inv Hn|]|by right]. }
  induction l as [|[k' v] l IH]; intros d; simpl.
  { split; [by left|by intros [|Hn]; [|inv Hn]]. }
  rewrite IH, dict_keys_set, elem_of_cons. naive_solver.
Qed.

Lemma by_id_keys ir k : k ∈ dict_keys (by_id ir) ↔ k ∈ op_ids ir.
Proof.
  unfold by_id. rewrite dict_keys_of_list, <-list_fmap_compose. done.
Qed.
Lemma by_name_keys ps k : k ∈ dict_keys (by_name ps) ↔ k ∈ pa_name <$> ps.
Proof. unfold by_name. by rewrite dict_keys_of_list, <-list_fmap_compose. Qed.

Lemma common_elem {V} (d e : dict V) v w :
  dict_wf d → (v, w) ∈ common d e ↔ ∃ k, dict_get d k = Some v ∧ dict_get e k = Some w.
Proof.
  intros Hd. unfold common. rewrite list_elem_of_omap. split.
  - intros ([k v'] & Hin & H). simpl in H. destruct (dict_get e k) eqn:E; [|done]. injection H as <- <-.
    exists k. split; [by apply dict_get_elem|done].
  - intros (k & Hv & Hw). exists (k, v). split; [by apply dict_get_Some_elem|]. simpl. by rewrite Hw.
Qed.

(** Two operations, as far as the comparison looks. *)
Record same_operation (o n : Operation) : Prop := {
  same_fields : agree op_compare_fields (Operation_dict o) (Operation_dict n);
  same_risk : agree risk_compare_fields (RiskMetadata_dict (op_risk o)) (RiskMetadata_dict (op_risk n));
  same_param_names : ∀ k, k ∈ pa_name <$> op_params o ↔ k ∈ pa_name <$> op_params n;
  same_params : ∀ k p q, dict_get (by_name (op_params o)) k = Some p → dict_get (by_name (op_params n)) k = Some q →
    agree param_compare_fields (Param_dict p) (Param_dict q);
}.

Lemma bind_nil {A B} (f : A → list B) l : l ≫= f = [] ↔ ∀ x, x ∈ l → f x = [].
Proof.
  induction l as [|a l IH]; [split; [intros _ x Hx; inv Hx|done]|]. rewrite bind_cons, app_nil. setoid_rewrite elem_of_cons.
  rewrite IH. naive_solver.
Qed.

Lemma no_items_if {A B C D} (a : list A) (b : list B) (c : list C) (d : D) :
  (if no_items a && no_items b && no_items c then None else Some d) = None ↔ a = [] ∧ b = [] ∧ c = [].
Proof. destruct a, b, c; naive_solver. Qed.

Lemma diff_operations_none o n : diff_operations o n = None ↔ same_operation o n.
Proof.
  unfold diff_operations. cbv zeta. rewrite no_items_if.
  unfold operation_changes, param_changes, added_params, removed_params.
  rewrite !app_nil, !changed_fields_nil, bind_nil, !missing_from_nil.
  setoid_rewrite by_name_keys. split.
  - intros ((H1 & H2 & H3) & Ha & Hr). constructor; [done|done|by split; auto|].
    intros k p q Hp Hq. apply (changed_fields_nil (ParamChange (pa_name p))). apply (H3 (p, q)).
    apply common_elem; [apply dict_wf_of_list|by eauto].
  - intros [H1 H2 H3 H4]. split_and!; [done|done| | |]; [|intros k; apply H3|intros k; apply H3].
    intros [p q] (k & Hp & Hq)%common_elem; [|apply dict_wf_of_list]. apply changed_fields_nil. by eapply H4.
Qed.

Lemma omap_nil {A B} (f : A → option B) l : omap f l = [] ↔ ∀ x, x ∈ l → f x = None.
Proof.
  induction l as [|a l IH]; [split; [intros _ x Hx; inv Hx|done]|]. cbn [omap list_omap]. setoid_rewrite elem_of_cons.
  destruct (f a) eqn:E; naive_solver.
Qed.

Lemma of_option_nil {A B} (o : option A) (f : A → B) (l : list B) :
  match o with Some a => f a :: l | None => l end = [] ↔ o = None ∧ l = [].
Proof. destruct o; naive_solver. Qed.

Lemma service_level_none old new :
  diff_service_level old new = None ↔ agree service_compare_fields (ServiceIR_dict old) (ServiceIR_dict new).
Proof.
  unfold diff_service_level. rewrite <-(changed_fields_nil FieldChange).
  by destruct (changed_fields _ _ _ _).
Qed.

Definition surface_fields : list string := ["resource_definitions"; "prompt_definitions"; "event_descriptors"].

(** Two descriptions, as far as the comparison looks. *)
Record same_service (old new : ServiceIR) : Prop := {
  same_ids : ∀ k, k ∈ op_ids old ↔ k ∈ op_ids new;
  same_attributes : agree service_compare_fields (ServiceIR_dict old) (ServiceIR_dict new);
  same_surfaces : agree surface_fields (ServiceIR_dict old) (ServiceIR_dict new);
  same_operations : ∀ k o n, dict_get (by_id old) k = Some o → dict_get (by_id new) k = Some n → same_operation o n;
}.

Lemma is_empty_eq old new : is_empty (compute_diff old new) = true ↔ same_service old new.
Proof.
  unfold is_empty. rewrite !andb_true_iff, !no_items_iff. unfold compute_diff.
  cbn [df_added_operations df_removed_operations df_changed_operations].
  rewrite !missing_from_nil, !app_nil, !omap_nil. setoid_rewrite by_id_keys. split.
  - intros [[Ha Hr] (Hs & Hf & Ho)]. constructor.
    + by split; auto.
    + apply service_level_none, (Hs (diff_service_level old new)). left.
    + intros f Hff. assert (∃ op name, (op, name, f) ∈ surfaces) as (op & name & Hin).
      { unfold surface_fields in Hff. rewrite !elem_of_cons in Hff.
        destruct Hff as [->|[->|[->|Hff]]]; [eexists _, _; unfold surfaces; repeat first [by left|right]..|inv Hff]. }
      specialize (Hf _ Hin). unfold diff_capability_surface in Hf. simpl in Hf. by destruct (py_eq _ _).
    + intros k o n Ho1 Hn. apply diff_operations_none, (Ho (o, n)).
      apply common_elem; [apply dict_wf_of_list|eauto].
  - intros [Hi Hs Hf Ho]. split; [split; intros; by apply Hi|]. split_and!.
    + intros o ->%list_elem_of_singleton. by apply service_level_none.
    + intros [[op name] f] Hin. unfold diff_capability_surface. rewrite Hf; [done|].
      unfold surfaces in Hin. rewrite !elem_of_cons in Hin. unfold surface_fields. rewrite !elem_of_cons.
      destruct Hin as [[= _ _ ->]|[[= _ _ ->]|[[= _ _ ->]|Hin]]]; [tauto..|inv Hin].
    + intros [o n] (k & Ho1 & Hn)%common_elem; [|apply dict_wf_of_list]. apply diff_operations_none. by eapply Ho.
Qed.

(** The difference of two descriptions is empty exactly when they have the
    same operations and agree on everything the comparison looks at: the service
    attributes, the three capability surfaces, and of each operation the compared
    fields, the risk, the parameter names and the parameters' attributes. *)
Theorem empty_diff_spec old new : is_empty (compute_diff old new) = true ↔ same_service old new.
Proof. apply is_empty_eq. Qed.

(** Exactly the operations only one side has are reported as added or removed,
    each once, and swapping the sides swaps the two lists. *)
Theorem added_removed_spec old new :
  (∀ k, k ∈ df_added_operations (compute_diff old new) ↔ k ∈ op_ids new ∧ k ∉ op_ids old)
  ∧ (∀ k, k ∈ df_removed_operations (compute_diff old new) ↔ k ∈ op_ids old ∧ k ∉ op_ids new)
  ∧ NoDup (df_added_operations (compute_diff old new)) ∧ NoDup (df_removed_operations (compute_diff old new))
  ∧ df_added_operations (compute_diff old new) = df_removed_operations (compute_diff new old).
Proof.
  unfold compute_diff. cbn [df_added_operations df_removed_operations]. setoid_rewrite missing_from_elem.
  setoid_rewrite by_id_keys. split; [done|]. split; [done|].
  split; [apply NoDup_filterb, dict_wf_of_list|]. split; [apply NoDup_filterb, dict_wf_of_list|done].
Qed.

Lemma diff_operations_changes o n d : diff_operations o n = Some d → od_changes d = operation_changes o n.
Proof.
  unfold diff_operations. cbv zeta. generalize (operation_changes o n). intros c.
  destruct (_ && _); [done|]. by intros [= <-].
Qed.

Lemma param_changes_elem ps qs c :
  c ∈ param_changes ps qs ↔
  ∃ k p q f, dict_get (by_name ps) k = Some p ∧ dict_get (by_name qs) k = Some q
    ∧ f ∈ param_compare_fields ∧ py_eq (get_or_none (Param_dict p) f) (get_or_none (Param_dict q) f) = false
    ∧ c = ParamChange (pa_name p) f (get_or_none (Param_dict p) f) (get_or_none (Param_dict q) f).
Proof.
  unfold param_changes. rewrite list_elem_of_bind. split.
  - intros ([p q] & Hc & Hin). apply common_elem in Hin as (k & Hp & Hq); [|apply dict_wf_of_list].
    apply changed_fields_elem in Hc as (f & Hf & Hn & ->). by exists k, p, q, f.
  - intros (k & p & q & f & Hp & Hq & Hf & Hn & ->). exists (p, q). split.
    + apply changed_fields_elem. by exists f.
    + apply common_elem; [apply dict_wf_of_list|eauto].
Qed.

(** The report on two operations is exact: a change is listed exactly when a
    compared field, a risk attribute or an attribute of a shared parameter differs,
    with both values; and there is a report exactly when something differs. *)
Theorem diff_operations_exact o n :
  (diff_operations o n = None ↔ same_operation o n)
  ∧ ∀ d, diff_operations o n = Some d → ∀ c, c ∈ od_changes d ↔
      let differs f a b := py_eq (get_or_none a f) (get_or_none b f) = false in
      (∃ f, f ∈ op_compare_fields ∧ differs f (Operation_dict o) (Operation_dict n)
         ∧ c = FieldChange f (get_or_none (Operation_dict o) f) (get_or_none (Operation_dict n) f))
      ∨ (∃ f, f ∈ risk_compare_fields ∧ differs f (RiskMetadata_dict (op_risk o)) (RiskMetadata_dict (op_risk n))
         ∧ c = FieldChange ("risk." +:+ f) (get_or_none (RiskMetadata_dict (op_risk o)) f)
                 (get_or_none (RiskMetadata_dict (op_risk n)) f))
      ∨ (∃ k p q f, dict_get (by_name (op_params o)) k = Some p ∧ dict_get (by_name (op_params n)) k = Some q
         ∧ f ∈ param_compare_fields ∧ differs f (Param_dict p) (Param_dict q)
         ∧ c = ParamChange (pa_name p) f (get_or_none (Param_dict p) f) (get_or_none (Param_dict q) f)).
Proof.
  split; [apply diff_operations_none|]. intros d Hd c. rewrite (diff_operations_changes o n d Hd).
  unfold operation_changes. rewrite !elem_of_app, !changed_fields_elem, param_changes_elem. reflexivity.
Qed.

Lemma dict_of_list_elem {V} (l : list (string * V)) k v : dict_get (dict_of_list l) k = Some v → (k, v) ∈ l.
Proof.
  unfold dict_of_list, dict_update. enough (∀ d : dict V,
    dict_get (foldl (λ acc kv, dict_set acc kv.1 kv.2) d l) k = Some v → (k, v) ∈ l ∨ dict_get d k = Some v) as H.
  { intros Hk. by destruct (H [] Hk). }
  induction l as [|[k' v'] l IH]; intros d; simpl; [by right|].
  intros [Hin|Hd]%IH; [left; by right|]. rewrite dict_get_set in Hd.
  destruct (str_eqbP k k') as [->|]; [|by right]. injection Hd as ->. left. left.
Qed.

Lemma agree_refl fields d : json_wf (VDict d) → agree fields d d.
Proof. intros Hd f _. apply py_eq_refl. by apply json_get. Qed.

Lemma vmodels_json {A} (f : A → dict pyval) l a : json_wf (vmodels f l) → a ∈ l → json_wf (VDict (f a)).
Proof.
  intros Hl Ha. inv Hl. rename select (Forall _ _) into H. rewrite Forall_fmap, Forall_forall in H. by apply H.
Qed.

(** A description does not differ from itself. *)
Theorem diff_self_empty ir :
  json_wf (VDict (ServiceIR_dict ir)) → is_empty (compute_diff ir ir) = true.
Proof.
  intros Hir. apply is_empty_eq. constructor; [done|by apply agree_refl|by apply agree_refl|].
  intros k o n Ho Hn. rewrite Ho in Hn. injection Hn as ->.
  apply dict_of_list_elem in Ho. apply list_elem_of_fmap in Ho as (o & [= -> ->] & Ho).
  assert (json_wf (VDict (Operation_dict o))) as Hj.
  { apply (vmodels_json Operation_dict (ir_operations ir)); [|done]. by apply (json_get _ "operations") in Hir. }
  constructor; [by apply agree_refl| |done|].
  - apply agree_refl. by apply (json_get _ "risk") in Hj.
  - intros k p q Hp Hq. rewrite Hp in Hq. injection Hq as ->. apply agree_refl.
    apply dict_of_list_elem in Hp. apply list_elem_of_fmap in Hp as (p & [= -> ->] & Hp).
    apply (vmodels_json Param_dict (op_params o)); [|done]. by apply (json_get _ "params") in Hj.
Qed.

Lemma diff_self_empty_witness : is_empty (compute_diff demo_ir demo_ir) = true.
Proof.
  apply (diff_self_empty demo_ir).
  repeat first [ by_eval | apply wf_float; vm_compute; reflexivity | constructor ].
Defined.

(** ** What the comparison does not look at *)

Definition with_cli (o : Operation) (cli : option CliOperationConfig) : Operation :=
  mk_operation (op_id o) (op_name o) (op_description o) (op_method o) (op_path o) (op_params o)
    (op_response_schema o) (op_error_schema o) (op_response_examples o) (op_risk o) (op_response_strategy o)
    (op_request_body_mode o) (op_body_param_name o) (op_async_job o) (op_graphql o) None (op_grpc_unary o)
    (op_soap o) (op_jsonrpc o) cli (op_pagination o) (op_tags o) (op_tool_intent o) (op_source o)
    (op_confidence o) (op_sla o) (op_enabled o).
Definition demo_cli (command : string) : CliOperationConfig := mk_cli command [] "gnu" [] None 30 "none" "auto".

(** The command a CLI operation runs is an execution contract like the others, but
    replacing it is no difference. *)
Example diff_misses_cli :
  let service c := ir_with_operations demo_ir [with_cli (demo_op "list" safe) (Some (demo_cli c))] in
  is_empty (compute_diff (service "ls") (service "rm")) = true.
Proof. vm_compute. reflexivity. Qed.

Example diff_demo :
  summary (compute_diff demo_ir (ir_with_operations demo_ir [op_with_enabled (demo_op "list" safe) false; demo_op "new" safe]))
  = "+1 operations, -1 operations, ~1 changed".
Proof. vm_compute. reflexivity. Qed.
