(* ===== verification/IRCompose.v ===== *)
(** * Federation ([libs/ir/compose.py])

    [compose_irs] merges service descriptions into one: identifiers are prefixed
    by their service, clashes are reported or skipped, references are rewritten,
    and the result is built with the validators of [IRModels]. *)

From S2P Require Export IRModels.

Definition CompositionConflictError (conflicts : list string) : exn :=
  mk_exn "CompositionConflictError" ("IR composition conflicts: " +:+ join "; " conflicts)
    [("conflicts", vstrs conflicts)].

Record CompositionStrategy := mk_composition {
  cs_prefix_operation_ids : bool;
  cs_fail_on_conflict : bool;
  cs_merged_service_name : option string;
  cs_merged_description : option string;
}.

Definition default_composition : CompositionStrategy := mk_composition true true None None.

Definition prefix_of (strat : CompositionStrategy) (ir : ServiceIR) : string :=
  if cs_prefix_operation_ids strat then ir_service_name ir +:+ "_" else "".

(** A reference to an operation, rewritten when there is one. *)
Definition prefixed_ref (prefix : string) (ref : option string) : option string :=
  match ref with
  | Some s => if str_truthy prefix && str_truthy s then Some (prefix +:+ s) else Some s
  | None => None
  end.

(** ** Renamed parts *)

Definition renamed_op (prefix : string) (o : Operation) : Operation :=
  op_with_identity o (prefix +:+ op_id o) (prefix +:+ op_name o).

Definition renamed_event (prefix : string) (e : EventDescriptor) : EventDescriptor :=
  mk_event (prefix +:+ ed_id e) (ed_name e) (ed_description e) (ed_transport e) (ed_direction e)
    (ed_support e) (ed_channel e) (prefixed_ref prefix (ed_operation_id e)) (ed_grpc_stream e)
    (ed_event_bridge e) (ed_metadata e).

Definition renamed_resource (service prefix : string) (r : ResourceDefinition) : ResourceDefinition :=
  mk_resource (prefix +:+ rd_id r) (rd_name r) (rd_description r)
    (if str_truthy prefix then service +:+ "/" +:+ rd_uri r else rd_uri r)
    (rd_mime_type r) (rd_content_type r) (rd_content r) (prefixed_ref prefix (rd_operation_id r)) (rd_tags r).

Definition renamed_prompt (prefix : string) (p : PromptDefinition) : PromptDefinition :=
  mk_prompt (prefix +:+ pd_id p) (prefix +:+ pd_name p) (pd_description p) (pd_template p) (pd_arguments p)
    ((λ t, prefix +:+ t) <$> pd_tool_ids p) (pd_tags p).

Definition renamed_chain (prefix : string) (c : OperationChain) : OperationChain :=
  mk_chain (ch_id c) (ch_name c) (ch_description c) ((λ s, prefix +:+ s) <$> ch_steps c).

Definition renamed_group (prefix : string) (g : ToolGroup) : ToolGroup :=
  mk_group (tg_id g) (tg_label g) (tg_intent g) ((λ i, prefix +:+ i) <$> tg_operation_ids g)
    (tg_source g) (tg_confidence g).

(** ** Merging *)

(** The loops: an element that clashes with those kept is reported and skipped. *)
Fixpoint merge {A} (clash : list A → A → option string) (kept l : list A) : list A * list string :=
  match l with
  | [] => (kept, [])
  | x :: l' =>
      match clash kept x with
      | Some message => let '(kept', conflicts) := merge clash kept l' in (kept', message :: conflicts)
      | None => merge clash (kept ++ [x]) l'
      end
  end.

Definition op_clash (kept : list Operation) (o : Operation) : option string :=
  if bool_decide (op_id o ∈ op_id <$> kept) then Some ("Duplicate operation ID: " +:+ op_id o) else None.

Definition event_clash (kept : list EventDescriptor) (e : EventDescriptor) : option string :=
  if bool_decide (ed_id e ∈ ed_id <$> kept) then Some ("Duplicate event descriptor ID: " +:+ ed_id e) else None.

Definition resource_clash (kept : list ResourceDefinition) (r : ResourceDefinition) : option string :=
  if bool_decide (rd_id r ∈ rd_id <$> kept) then Some ("Duplicate resource definition ID: " +:+ rd_id r)
  else if bool_decide (rd_uri r ∈ rd_uri <$> kept) then Some ("Duplicate resource URI: " +:+ rd_uri r)
  else None.

Definition prompt_clash (kept : list PromptDefinition) (p : PromptDefinition) : option string :=
  if bool_decide (pd_id p ∈ pd_id <$> kept) || bool_decide (pd_name p ∈ pd_name <$> kept)
  then Some ("Duplicate prompt definition: " +:+ pd_id p +:+ " / " +:+ pd_name p) else None.

(** [sorted(set(l))] *)
Fixpoint insert_sorted (s : string) (l : list string) : list string :=
  match l with
  | [] => [s]
  | t :: l' => if str_eqb s t then l else if String.ltb s t then s :: l else t :: insert_sorted s l'
  end.
Definition sorted_set (l : list string) : list string := foldr insert_sorted [] l.

Section compose.
(** [hashlib.sha256(...).hexdigest()] and the clock of [created_at] *)
Context (sha256 : string → string) (now : Z).

(** The parts of every service, renamed, in order. *)
Definition each_part {A} (strat : CompositionStrategy) (irs : list ServiceIR)
    (rename : string → ServiceIR → list A) : list A :=
  irs ≫= λ ir, rename (prefix_of strat ir) ir.

Definition all_operations strat irs : list Operation :=
  each_part strat irs (λ p ir, renamed_op p <$> ir_operations ir).
Definition all_events strat irs : list EventDescriptor :=
  each_part strat irs (λ p ir, renamed_event p <$> ir_event_descriptors ir).
Definition all_resources strat irs : list ResourceDefinition :=
  each_part strat irs (λ p ir, renamed_resource (ir_service_name ir) p <$> ir_resource_definitions ir).
Definition all_prompts strat irs : list PromptDefinition :=
  each_part strat irs (λ p ir, renamed_prompt p <$> ir_prompt_definitions ir).
Definition all_chains strat irs : list OperationChain :=
  each_part strat irs (λ p ir, renamed_chain p <$> ir_operation_chains ir).
Definition all_groups strat irs : list ToolGroup :=
  each_part strat irs (λ p ir, renamed_group p <$> ir_tool_grouping ir).

(** The description assembled from the merged parts. *)
Definition federated (strat : CompositionStrategy) (first : ServiceIR) (irs : list ServiceIR)
    (ops : list Operation) (events : list EventDescriptor) (resources : list ResourceDefinition)
    (prompts : list PromptDefinition) : ServiceIR :=
  let count := str_of_Z (Z.of_nat (length irs)) in
  let protocols := sorted_set (ir_protocol <$> irs) in
  mk_ir IR_VERSION "0.1.0" (ir_source_url first) (sha256 (join "|" (ir_source_hash <$> irs)))
    (match protocols with [p] => p | _ => "federated" end)
    (match cs_merged_service_name strat with
     | Some n => if str_truthy n then n else join "-" (ir_service_name <$> irs)
     | None => join "-" (ir_service_name <$> irs)
     end)
    (match cs_merged_description strat with
     | Some d => if str_truthy d then d else "Federated service from " +:+ count +:+ " sources"
     | None => "Federated service from " +:+ count +:+ " sources"
     end)
    (ir_base_url first) (ir_auth first) ops (all_chains strat irs) (all_groups strat irs) events resources prompts
    [("federated", VBool true); ("source_count", VInt (Z.of_nat (length irs)));
     ("source_protocols", vstrs protocols); ("source_services", vstrs (ir_service_name <$> irs))]
    now None None.

Definition compose_irs (irs : list ServiceIR) (strat : CompositionStrategy) : outcome exn ServiceIR :=
  match irs with
  | [] => Raise (value_error "Cannot compose empty list of ServiceIRs")
  | [ir] => Ok ir
  | first :: _ =>
      let '(ops, c1) := merge op_clash [] (all_operations strat irs) in
      let '(events, c2) := merge event_clash [] (all_events strat irs) in
      let '(resources, c3) := merge resource_clash [] (all_resources strat irs) in
      let '(prompts, c4) := merge prompt_clash [] (all_prompts strat irs) in
      let conflicts := c1 ++ c2 ++ c3 ++ c4 in
      if negb (no_items conflicts) && cs_fail_on_conflict strat
      then Raise (CompositionConflictError conflicts)
      else construct_ServiceIR (federated strat first irs ops events resources prompts)
  end.
End compose.

(** ** Facts about merging *)

Section merging.
Context {A : Type} (clash : list A → A → option string).

Lemma merge_kept kept l x : x ∈ kept → x ∈ (merge clash kept l).1.
Proof.
  revert kept. induction l as [|y l IH]; intros kept Hx; simpl; [done|].
  destruct (clash kept y); [|apply IH; apply elem_of_app; by left].
  specialize (IH kept Hx). by destruct (merge clash kept l).
Qed.

Lemma merge_sub kept l x : x ∈ (merge clash kept l).1 → x ∈ kept ∨ x ∈ l.
Proof.
  revert kept. induction l as [|y l IH]; intros kept; simpl; [by left|].
  destruct (clash kept y).
  - specialize (IH kept). destruct (merge clash kept l). simpl in *. intros [?|?]%IH; [by left|right; by right].
  - intros [[?| ->%list_elem_of_singleton]%elem_of_app|?]%IH; [by left|right; by left|right; by right].
Qed.

(** A key on which the kept elements never clash stays unique. *)
Lemma merge_unique (key : A → string) kept l :
  (∀ kept x, clash kept x = None → key x ∉ (key <$> kept)) →
  NoDup (key <$> kept) → NoDup (key <$> (merge clash kept l).1).
Proof.
  intros Hclash. revert kept. induction l as [|y l IH]; intros kept Hkept; simpl; [done|].
  destruct (clash kept y) eqn:E.
  - specialize (IH kept Hkept). by destruct (merge clash kept l).
  - apply IH. rewrite fmap_app. apply NoDup_app. split_and!; [done| |apply NoDup_singleton].
    intros k Hk ->%list_elem_of_singleton. by apply (Hclash kept y).
Qed.

(** An element that is skipped clashes with one that is kept. *)
Lemma merge_covers (key : A → string) kept l x :
  (∀ kept x m, clash kept x = Some m → key x ∈ key <$> kept) →
  x ∈ l → key x ∈ key <$> (merge clash kept l).1.
Proof.
  intros Hclash. revert kept. induction l as [|y l IH]; intros kept Hx; [by inv Hx|]. simpl.
  destruct (clash kept y) as [m|] eqn:E.
  - assert (key y ∈ key <$> kept) as Hy by by eapply Hclash.
    assert (∀ z, z ∈ key <$> kept → z ∈ key <$> (merge clash kept l).1) as Hmono.
    { intros z (w & -> & Hw)%list_elem_of_fmap. by apply list_elem_of_fmap_2, merge_kept. }
    specialize (IH kept). destruct (merge clash kept l) as [k c]. simpl in *.
    apply elem_of_cons in Hx as [->|Hx]; [by apply Hmono|by apply IH].
  - apply elem_of_cons in Hx as [->|Hx]; [|by apply IH].
    apply list_elem_of_fmap_2, merge_kept, elem_of_app. right. apply list_elem_of_singleton. done.
Qed.

(** Without conflicts nothing is skipped. *)
Lemma merge_all kept l : (merge clash kept l).2 = [] → (merge clash kept l).1 = kept ++ l.
Proof.
  revert kept. induction l as [|y l IH]; intros kept; simpl; [by rewrite app_nil_r|].
  destruct (clash kept y).
  - by destruct (merge clash kept l).
  - intros H. rewrite IH by done. by rewrite <-(assoc_L (++)).
Qed.
End merging.

Lemma op_clash_None kept o : op_clash kept o = None ↔ op_id o ∉ op_id <$> kept.
Proof. unfold op_clash. case_bool_decide; naive_solver. Qed.
Lemma op_clash_Some kept o m : op_clash kept o = Some m → op_id o ∈ op_id <$> kept.
Proof. unfold op_clash. by case_bool_decide. Qed.
Lemma event_clash_None kept e : event_clash kept e = None ↔ ed_id e ∉ ed_id <$> kept.
Proof. unfold event_clash. case_bool_decide; naive_solver. Qed.
Lemma resource_clash_None kept r :
  resource_clash kept r = None ↔ rd_id r ∉ (rd_id <$> kept) ∧ rd_uri r ∉ (rd_uri <$> kept).
Proof. unfold resource_clash. case_bool_decide; [naive_solver|]. case_bool_decide; naive_solver. Qed.
Lemma prompt_clash_None kept p :
  prompt_clash kept p = None ↔ pd_id p ∉ (pd_id <$> kept) ∧ pd_name p ∉ (pd_name <$> kept).
Proof.
  unfold prompt_clash. do 2 case_bool_decide; simpl; naive_solver.
Qed.

(** ** The merged description is sound *)

Section soundness.
Context (sha256 : string → string) (now : Z) (strat : CompositionStrategy).

Lemma each_part_elem {A} (irs : list ServiceIR) (rename : string → ServiceIR → list A) x :
  x ∈ each_part strat irs rename ↔ ∃ ir, ir ∈ irs ∧ x ∈ rename (prefix_of strat ir) ir.
Proof. unfold each_part. rewrite list_elem_of_bind. naive_solver. Qed.

(** What every input satisfies: sound references, named operations. *)
Definition input_ok (ir : ServiceIR) : Prop :=
  service_wf ir ∧ ∀ i, i ∈ op_ids ir → str_truthy i = true.

Lemma renamed_id_kept irs ir i :
  ir ∈ irs → i ∈ op_ids ir →
  (prefix_of strat ir +:+ i) ∈ op_id <$> (merge op_clash [] (all_operations strat irs)).1.
Proof.
  intros Hir (o & -> & Ho)%list_elem_of_fmap.
  apply (merge_covers op_clash op_id [] (all_operations strat irs) (renamed_op (prefix_of strat ir) o));
    [apply op_clash_Some|].
  apply each_part_elem. exists ir. split; [done|]. by apply list_elem_of_fmap_2.
Qed.

Lemma prefixed_ref_id prefix ref i :
  prefixed_ref prefix ref = Some i → ∃ j, ref = Some j ∧ (str_truthy j = true → i = prefix +:+ j).
Proof.
  destruct ref as [j|]; [|done]. simpl. destruct (str_truthy prefix) eqn:Ep; simpl.
  - destruct (str_truthy j) eqn:Ej; intros [= <-]; exists j; (split; [done|]); [done|]. intros H. by rewrite Ej in H.
  - intros [= <-]. exists j. split; [done|]. intros _. by destruct prefix.
Qed.

Lemma join_truthy a b l : str_truthy (join "-" (a :: b :: l)) = true.
Proof. simpl. by destruct a. Qed.

Lemma federated_wf first irs :
  Forall input_ok irs → (2 ≤ length irs)%nat →
  service_wf (federated sha256 now strat first irs
    (merge op_clash [] (all_operations strat irs)).1 (merge event_clash [] (all_events strat irs)).1
    (merge resource_clash [] (all_resources strat irs)).1 (merge prompt_clash [] (all_prompts strat irs)).1).
Proof.
  intros Hirs Hlen. rewrite Forall_forall in Hirs.
  assert (∀ ir i, ir ∈ irs → i ∈ op_ids ir →
    (prefix_of strat ir +:+ i) ∈ op_id <$> (merge op_clash [] (all_operations strat irs)).1) as Hid
    by apply renamed_id_kept.
  assert (∀ ir ref i, ir ∈ irs → (∀ j, ref = Some j → j ∈ op_ids ir) →
    prefixed_ref (prefix_of strat ir) ref = Some i →
    i ∈ op_id <$> (merge op_clash [] (all_operations strat irs)).1) as Href.
  { intros ir ref i Hir Hj (j & -> & Hi)%prefixed_ref_id. specialize (Hj j eq_refl).
    rewrite Hi by by apply (Hirs ir Hir). by apply Hid. }
  constructor; cbn -[merge join].
  - assert (str_truthy (join "-" (ir_service_name <$> irs)) = true) as Hname.
    { destruct irs as [|a [|b l]]; simpl in Hlen; [lia|lia|]. apply join_truthy. }
    destruct (cs_merged_service_name strat) as [n|]; [|done]. by destruct (str_truthy n) eqn:E.
  - apply (merge_unique _ op_id); [|constructor]. intros kept x. apply op_clash_None.
  - intros c i (ir & Hir & (c0 & -> & Hc)%list_elem_of_fmap)%each_part_elem (s & -> & Hs)%list_elem_of_fmap.
    apply Hid; [done|]. by eapply (wf_chains ir); [apply Hirs|..].
  - intros e i [He|(ir & Hir & (e0 & -> & He)%list_elem_of_fmap)%each_part_elem]%merge_sub; [inv He|].
    apply (Href ir); [done|]. intros j. by apply (wf_events ir); [apply Hirs|].
  - intros g i (ir & Hir & (g0 & -> & Hg)%list_elem_of_fmap)%each_part_elem (s & -> & Hs)%list_elem_of_fmap.
    apply Hid; [done|]. by eapply (wf_groups ir); [apply Hirs|..].
  - apply (merge_unique _ rd_id); [|constructor]. intros kept x Hx. by apply resource_clash_None in Hx as [].
  - apply (merge_unique _ rd_uri); [|constructor]. intros kept x Hx. by apply resource_clash_None in Hx as [].
  - apply (merge_unique _ pd_id); [|constructor]. intros kept x Hx. by apply prompt_clash_None in Hx as [].
  - apply (merge_unique _ pd_name); [|constructor]. intros kept x Hx. by apply prompt_clash_None in Hx as [].
  - intros p i [Hp|(ir & Hir & (p0 & -> & Hp)%list_elem_of_fmap)%each_part_elem]%merge_sub; [inv Hp|].
    intros (s & -> & Hs)%list_elem_of_fmap. apply Hid; [done|]. by eapply (wf_prompts ir); [apply Hirs|..].
  - intros r i [Hr|(ir & Hir & (r0 & -> & Hr)%list_elem_of_fmap)%each_part_elem]%merge_sub; [inv Hr|].
    apply (Href ir); [done|]. intros j. by apply (wf_resources ir); [apply Hirs|].
Qed.

Lemma compose_two_eq a b l :
  compose_irs sha256 now (a :: b :: l) strat =
    let irs := a :: b :: l in
    let o := merge op_clash [] (all_operations strat irs) in
    let e := merge event_clash [] (all_events strat irs) in
    let r := merge resource_clash [] (all_resources strat irs) in
    let p := merge prompt_clash [] (all_prompts strat irs) in
    if negb (no_items (o.2 ++ e.2 ++ r.2 ++ p.2)) && cs_fail_on_conflict strat
    then Raise (CompositionConflictError (o.2 ++ e.2 ++ r.2 ++ p.2))
    else construct_ServiceIR (federated sha256 now strat a irs o.1 e.1 r.1 p.1).
Proof.
  unfold compose_irs. cbv zeta.
  destruct (merge op_clash _ _), (merge event_clash _ _), (merge resource_clash _ _), (merge prompt_clash _ _).
  done.
Qed.

(** C16. Composing sound descriptions gives a sound description: the validators of
    the merged service never reject it.  The only errors are an empty input and,
    when asked for, the report of a conflict. *)
Theorem compose_sound irs :
  Forall input_ok irs →
  match compose_irs sha256 now irs strat with
  | Ok ir => service_wf ir
  | Raise e =>
      (irs = [] ∧ e = value_error "Cannot compose empty list of ServiceIRs")
      ∨ ∃ conflicts, conflicts ≠ [] ∧ cs_fail_on_conflict strat = true ∧ e = CompositionConflictError conflicts
  end.
Proof.
  intros Hirs. destruct irs as [|a [|b l]]; [by left|by inv Hirs; rename select (input_ok a) into Ha; apply Ha|].
  rewrite compose_two_eq. cbv zeta. set (conflicts := _.2 ++ _).
  destruct (negb (no_items conflicts) && cs_fail_on_conflict strat) eqn:E.
  - apply andb_true_iff in E as [Hc Hf]. right. exists conflicts. split; [|done].
    intros Hnil. by rewrite Hnil in Hc.
  - rewrite (proj2 (construct_eq _ _) (conj eq_refl (federated_wf a (a :: b :: l) Hirs ltac:(simpl; lia)))).
    apply federated_wf; [done|simpl; lia].
Qed.

(** When conflicts are errors, a composition that succeeds has lost nothing: its
    parts are the parts of all inputs, renamed, in order. *)
Theorem compose_complete irs ir :
  cs_fail_on_conflict strat = true → (2 ≤ length irs)%nat →
  compose_irs sha256 now irs strat = Ok ir →
  ir_operations ir = all_operations strat irs ∧ ir_event_descriptors ir = all_events strat irs
  ∧ ir_resource_definitions ir = all_resources strat irs ∧ ir_prompt_definitions ir = all_prompts strat irs
  ∧ ir_operation_chains ir = all_chains strat irs ∧ ir_tool_grouping ir = all_groups strat irs.
Proof.
  intros Hfail Hlen. destruct irs as [|a [|b l]]; [simpl in Hlen; lia|simpl in Hlen; lia|].
  rewrite compose_two_eq, Hfail. cbv zeta. rewrite andb_true_r.
  set (o := merge op_clash _ _). set (e := merge event_clash _ _).
  set (r := merge resource_clash _ _). set (p := merge prompt_clash _ _).
  destruct (no_items (o.2 ++ e.2 ++ r.2 ++ p.2)) eqn:E; [|done].
  assert (o.2 ++ e.2 ++ r.2 ++ p.2 = []) as Hnil by (by destruct (o.2 ++ _)).
  rewrite !app_nil in Hnil. destruct Hnil as (Ho & He & Hr & Hp). cbn [negb].
  intros [-> _]%construct_eq. unfold federated. cbn -[merge join].
  split; [exact (merge_all op_clash [] _ Ho)|]. split; [exact (merge_all event_clash [] _ He)|].
  split; [exact (merge_all resource_clash [] _ Hr)|]. split; [exact (merge_all prompt_clash [] _ Hp)|]. done.
Qed.
End soundness.

(** ** Witnesses *)

Definition demo_other : ServiceIR := ir_with demo_ir_validated "stores" [demo_op "list" safe; demo_op "audit" safe] [].

Lemma demo_inputs_ok : Forall input_ok [demo_ir_validated; demo_other].
Proof.
  assert (∀ ir, construct_ServiceIR ir = Ok ir → forallb str_truthy (op_ids ir) = true → input_ok ir) as H.
  { intros ir [_ Hc]%construct_eq Hids. split; [done|]. intros i Hi. rewrite forallb_forall in Hids.
    apply Hids. by apply list_elem_of_In. }
  apply Forall_cons_2; [|apply Forall_singleton]; apply H; vm_compute; reflexivity.
Qed.

Definition demo_federated : outcome exn ServiceIR :=
  compose_irs (λ s, s) 0 [demo_ir_validated; demo_other] default_composition.

Example demo_federated_ids :
  match demo_federated with Ok ir => op_ids ir | Raise _ => [] end
  = ["pets_list"; "pets_audit"; "stores_list"; "stores_audit"].
Proof. vm_compute. reflexivity. Qed.

Lemma compose_sound_witness :
  ∃ ir, demo_federated = Ok ir ∧ service_wf ir.
Proof.
  pose proof (compose_sound (λ s, s) 0 default_composition [demo_ir_validated; demo_other] demo_inputs_ok) as H.
  assert (∃ ir, demo_federated = Ok ir) as [ir Hir] by (eexists; vm_compute; reflexivity).
  exists ir. split; [exact Hir|]. unfold demo_federated in Hir. rewrite Hir in H. exact H.
Defined.

Lemma compose_complete_witness :
  ∃ ir, demo_federated = Ok ir
    ∧ ir_operations ir = all_operations default_composition [demo_ir_validated; demo_other].
Proof.
  assert (∃ ir, demo_federated = Ok ir) as [ir Hir] by (eexists; vm_compute; reflexivity).
  exists ir. split; [exact Hir|].
  destruct (compose_complete (λ s, s) 0 default_composition [demo_ir_validated; demo_other] ir) as [H _];
    [reflexivity|simpl; lia|exact Hir|exact H].
Defined.
