(* ===== verification/OpenApi.v ===== *)
(** * From an OpenAPI or Swagger specification to a service description
      ([libs/extractors/openapi.py])

    The specification is read after its references are resolved (RefResolution),
    as the tree of dictionaries and lists its graph unfolds to: a recursive schema
    is covered as far as it is unfolded, and the code stops at fixed depths itself.
    Keys are strings, as JSON has them. *)

From S2P Require Export IRModels PyUrl PyFloat.
From Stdlib Require Import Ascii.

(** A field that must hold text *)
Definition text_field (model : string) (v : pyval) : outcome exn string :=
  match v with VStr s => Ok s | _ => Raise (field_error model) end.

Section openapi.
Context (repr : pyval → string) (json_dumps : pyval → string) (urljoin : string → string → string).

(** ** Types *)

Definition known_types : list string := ["integer"; "number"; "string"; "boolean"; "array"; "object"].

(** [_TYPE_MAP.get(v, "string")]: a list or a dictionary cannot be looked up. *)
Definition _TYPE_MAP (v : pyval) : outcome exn string :=
  match v with
  | VStr s => Ok (if one_of s known_types then s else "string")
  | VList _ | VDict _ => Raise (type_error "unhashable type")
  | _ => Ok "string"
  end.

Definition _JSON_SCHEMA_MAX_DEPTH : nat := 5.
Definition _MAX_COMPOSITION_DEPTH : nat := 10.

(** A key whose value is taken when it is present *)
Definition entry_if (d : dict pyval) (k : string) (p : pyval → bool) (f : pyval → pyval) : dict pyval :=
  match dict_get d k with Some v => if p v then [(k, f v)] else [] | None => [] end.

(** The schema of a scalar property *)
Definition scalar_entry (v : dict pyval) : outcome exn pyval :=
  let! t := _TYPE_MAP (get_default v "type" (VStr "string")) in
  Ok (VDict (("type", VStr t) :: entry_if v "description" truthy (λ d, VStr (py_str repr d)) ++ entry_if v "enum" (λ _, true) id)).

(** [_extract_nested_json_schema]; [levels] counts down to the greatest depth. *)
Fixpoint nested_schema (levels : nat) (prop : dict pyval) : outcome exn (option (dict pyval)) :=
  match levels with
  | O => Ok None
  | S levels' =>
      let is_type t := match get_default prop "type" (VStr "") with VStr s => str_eqb s t | _ => false end in
      let array_schema (_ : unit) :=
        match is_type "array", dict_get prop "items" with
        | true, Some (VDict items) =>
            let! items_schema := nested_schema levels' items in
            match items_schema with
            | Some s => Ok (Some [("type", VStr "array"); ("items", VDict s)])
            | None =>
                let! t := _TYPE_MAP (get_default items "type" (VStr "string")) in
                Ok (Some [("type", VStr "array"); ("items", VDict (("type", VStr t) :: entry_if items "enum" truthy id))])
            end
        | _, _ => Ok None
        end in
      match is_type "object", dict_get prop "properties" with
      | true, Some (VDict sub_props) =>
          let! properties := traverse (λ kv,
            match kv.2 with
            | VDict v =>
                let! child := nested_schema levels' v in
                match child with
                | Some c => Ok [(kv.1, VDict c)]
                | None => let! entry := scalar_entry v in Ok [(kv.1, entry)]
                end
            | _ => Ok []
            end) sub_props in
          Ok (Some ([("type", VStr "object"); ("properties", VDict (concat properties))]
                    ++ entry_if prop "required" (λ v, is_list v && truthy v) id))
      | true, Some _ => Ok None
      | _, _ => array_schema tt
      end
  end.

Definition _extract_nested_json_schema : dict pyval → outcome exn (option (dict pyval)) := nested_schema (S _JSON_SCHEMA_MAX_DEPTH).

(** ** Parameters *)

Definition high : float := 0x1.ccccccccccccdp-1.
Definition low : float := 0x1.999999999999ap-1.

Definition extracted (name type : string) (required : bool) (description : string) (dflt : pyval)
    (schema : option (dict pyval)) (confidence : float) : Param :=
  mk_param name type required description dflt schema src_extractor confidence.

(** What is collected of a property *)
Record info := mk_info { in_type : string; in_description : string; in_json_schema : option (dict pyval) }.

Record merge := mk_merge { mg_props : dict info; mg_required : list string; mg_confidence : float }.

Definition min_float (a b : float) : float := if PrimFloat.ltb b a then b else a.

Definition add_info (props : dict info) (p : Param) : dict info :=
  if dict_mem props (pa_name p) then props else dict_set props (pa_name p) (mk_info (pa_type p) (pa_description p) (pa_json_schema p)).

(** A parameter of an [allOf] branch *)
Definition merge_all_of (m : merge) (p : Param) : merge :=
  mk_merge (add_info (mg_props m) p) (if pa_required p then mg_required m ++ [pa_name p] else mg_required m)
    (min_float (mg_confidence m) (pa_confidence p)).

(** The parameters of a [oneOf] or [anyOf] *)
Definition merge_any_of (m : merge) (params : list Param) : merge :=
  let props := foldl add_info (mg_props m) params in
  mk_merge props (mg_required m)
    (if (length (mg_props m) <? length props)%nat then min_float (mg_confidence m) low else mg_confidence m).

(** A property of the schema itself *)
Definition merge_property (top_required : list pyval) (m : merge) (kv : string * pyval) : outcome exn merge :=
  match kv.2 with
  | VDict prop =>
      let! t := _TYPE_MAP (get_default prop "type" (VStr "string")) in
      let! schema := _extract_nested_json_schema prop in
      Ok (mk_merge (dict_set (mg_props m) kv.1 (mk_info t (py_str repr (get_default prop "description" (VStr ""))) schema))
            (if existsb (py_eq (VStr kv.1)) top_required then mg_required m ++ [kv.1] else mg_required m) (mg_confidence m))
  | _ => Ok m
  end.

(** [for x in l: b = f(b, x)] *)
Fixpoint fold_outcome {A B} (f : B → A → outcome exn B) (b : B) (l : list A) : outcome exn B :=
  match l with
  | [] => Ok b
  | x :: l' => let! b' := f b x in fold_outcome f b' l'
  end.

(** [set(v)] *)
Definition as_set (v : pyval) : outcome exn (list pyval) :=
  let! l := iterate v in
  if existsb (λ x, is_list x || is_dict x) l then Raise (type_error "unhashable type") else Ok l.

Definition merged_params (m : merge) : list Param :=
  (λ kv, extracted kv.1 (in_type kv.2) (bool_decide (kv.1 ∈ mg_required m)) (in_description kv.2) VNone
           (in_json_schema kv.2) (mg_confidence m)) <$> mg_props m.

(** [_flatten_schema_to_params]; [levels] counts down to the greatest depth. *)
Fixpoint flatten (levels : nat) (v : pyval) : outcome exn (list Param) :=
  match levels with
  | O => Ok []
  | S levels' =>
      let! schema := as_mapping v in
      let branches k (f : merge → list Param → merge) m :=
        let! subs := iterate (get_default schema k (VList [])) in
        let! params := traverse (λ sub, if is_dict sub then flatten levels' sub else Ok []) subs in
        Ok (f m (concat params)) in
      let any_of k m :=
        if negb (truthy (get_default schema k (VList []))) || dict_mem schema "properties" then Ok m else branches k merge_any_of m in
      let! m := branches "allOf" (foldl merge_all_of) (mk_merge [] [] high) in
      let! m := any_of "oneOf" m in
      let! m := any_of "anyOf" m in
      let! top_required := as_set (get_default schema "required" (VList [])) in
      let! m := match get_default schema "properties" (VDict []) with
                | VDict props => fold_outcome (merge_property top_required) m props
                | _ => Ok m
                end in
      Ok (merged_params m)
  end.

Definition _flatten_schema_to_params : pyval → outcome exn (list Param) := flatten _MAX_COMPOSITION_DEPTH.

(** [_resolve_param_type] *)
Definition _resolve_param_type (p : dict pyval) (is_swagger : bool) : outcome exn string :=
  if is_swagger then _TYPE_MAP (VStr (py_str repr (get_default p "type" (VStr "string"))))
  else match get_default p "schema" (VDict []) with
       | VDict schema => _TYPE_MAP (get_default schema "type" (VStr "string"))
       | _ => Ok "string"
       end.

(** A body passed as one parameter *)
Definition payload_param (required : bool) (description : string) : Param :=
  extracted "payload" "object" required description VNone None high.

(** [_extract_request_body_params] *)
Definition _extract_request_body_params (body : pyval) : outcome exn (list Param * RequestBodyMode * option string) :=
  let! b := as_mapping body in
  match get_default b "content" (VDict []) with
  | VDict content =>
      let required := truthy (get_default b "required" (VBool false)) in
      if dict_mem content "multipart/form-data" then Ok ([payload_param required "Multipart form payload."], body_multipart, Some "payload")
      else if dict_mem content "application/octet-stream" then
        Ok ([payload_param required "Raw request body payload."], body_raw, Some "payload")
      else match get_default content "application/json" (VDict []) with
           | VDict json_content =>
               match get_default json_content "schema" (VDict []) with
               | VDict schema => let! params := _flatten_schema_to_params (VDict schema) in Ok (params, body_json, None)
               | _ => Ok ([], body_json, None)
               end
           | _ => Ok ([], body_json, None)
           end
  | _ => Ok ([], body_json, None)
  end.

(** One raw parameter: [seen] are the names so far. *)
Definition extract_param (is_swagger : bool) (acc : list Param * list pyval) (raw : pyval) : outcome exn (list Param * list pyval) :=
  match raw with
  | VDict p =>
      let name := get_default p "name" (VStr "") in
      if negb (truthy name) then Ok acc
      else if is_list name || is_dict name then Raise (type_error "unhashable type")
      else if existsb (py_eq name) acc.2 then Ok acc
      else
        let seen := acc.2 ++ [name] in
        if is_swagger && match get_or_none p "in" with VStr s => str_eqb s "body" | _ => false end then
          let! body := _flatten_schema_to_params (get_default p "schema" (VDict [])) in
          Ok (acc.1 ++ body, seen)
        else
          let! t := _resolve_param_type p is_swagger in
          let! n := text_field "Param" name in
          Ok (acc.1 ++ [extracted n t (truthy (get_default p "required" (VBool false)))
                          (py_str repr (get_default p "description" (VStr ""))) (get_or_none p "default") None high], seen)
  | _ => Ok acc
  end.

(** [a + b] of two lists; two texts give characters, which are no parameters. *)
Definition concat_params (a b : pyval) : outcome exn (list pyval) :=
  match a, b with
  | VList x, VList y => Ok (x ++ y)
  | VStr _, VStr _ => Ok []
  | _, _ => Raise (type_error "unsupported operand type(s) for +")
  end.

(** [_extract_params] *)
Definition _extract_params (op_spec path_item : dict pyval) (is_swagger : bool) : outcome exn (list Param * RequestBodyMode * option string) :=
  let! raw := concat_params (value_or (get_or_none path_item "parameters") (VList [])) (value_or (get_or_none op_spec "parameters") (VList [])) in
  let! acc := fold_outcome (extract_param is_swagger) ([], []) raw in
  match (if is_swagger then None else dict_get op_spec "requestBody") with
  | None => Ok (acc.1, body_json, None)
  | Some body =>
      let! '(body_params, mode, body_name) := _extract_request_body_params body in
      let add st bp := if existsb (py_eq (VStr (pa_name bp))) st.2 then st else (st.1 ++ [bp], st.2 ++ [VStr (pa_name bp)]) in
      Ok ((foldl add acc body_params).1, mode, body_name)
  end.

(** [_ensure_path_template_params] *)
Definition path_param (name : string) : Param :=
  extracted name "string" true "Path parameter inferred from the URL template." VNone None low.
Definition ensure_param (params : list Param) (name : string) : list Param :=
  if bool_decide (name ∈ pa_name <$> params) then params else params ++ [path_param name].
Definition _ensure_path_template_params (path : string) (params : list Param) : list Param :=
  foldl ensure_param params (placeholders None path).

(** ** Pagination *)

Definition _CURSOR_PARAM_NAMES : list string :=
  ["cursor"; "next_cursor"; "page_token"; "next_page_token"; "after"; "before"; "starting_after"; "ending_before"].
Definition _CURSOR_RESPONSE_FIELDS : list string := ["next_cursor"; "next_page_token"; "cursor"; "next"].
Definition _PAGE_SIZE_PARAM_NAMES : list string := ["per_page"; "page_size"; "pageSize"; "size"; "count"].
Definition _PAGINATION_RESPONSE_FIELDS : list string := ["total"; "total_count"; "count"; "page"; "pages"; "has_more"; "has_next"].

(** [sorted(a & b)], as the first element of it *)
Definition first_common (names known : list string) : option string :=
  head (sorted_strings (List.filter (λ n, one_of n names) known)).

(** [_detect_size_param] *)
Definition _detect_size_param (param_names : list string) (dflt : string) : string :=
  default dflt (List.find (λ c, one_of c param_names) ["limit"; "per_page"; "page_size"; "pageSize"; "size"; "count"]).

(** [_response_body_schema] *)
Definition _response_body_schema (resp : dict pyval) (is_swagger : bool) : option (dict pyval) :=
  if is_swagger then as_dict (get_or_none resp "schema")
  else match get_default resp "content" (VDict []) with
       | VDict content =>
           match get_default content "application/json" (VDict []) with
           | VDict json_content => as_dict (get_or_none json_content "schema")
           | _ => None
           end
       | _ => None
       end.

(** [_get_success_response_schema]: the same schema, of the first success code
    that has one *)
Definition _get_success_response_schema (op_spec : dict pyval) (is_swagger : bool) : option (dict pyval) :=
  match get_default op_spec "responses" (VDict []) with
  | VDict responses =>
      head (omap (λ code, match get_or_none responses code with VDict resp => _response_body_schema resp is_swagger | _ => None end)
              ["200"; "201"; "202"; "203"; "204"])
  | _ => None
  end.

Definition pages (style : string) (page cursor : option string) (limit : string) : PaginationConfig :=
  mk_pagination style page (Some limit) cursor None None None None.

(** The envelope of a response: an array of data next to its pagination *)
Definition envelope (props : dict pyval) (names : list string) : outcome exn (option PaginationConfig) :=
  let data_is_array := match get_default props "data" (VDict []) with
                       | VDict d => match get_or_none d "type" with VStr s => str_eqb s "array" | _ => false end
                       | _ => false
                       end in
  if data_is_array && (dict_mem props "meta" || dict_mem props "pagination") then
    let meta_key := if dict_mem props "meta" then "meta" else "pagination" in
    let! meta_fields := match get_default props meta_key (VDict []) with
                        | VDict meta => let! p := as_mapping (get_default meta "properties" (VDict [])) in Ok (dict_keys p)
                        | _ => Ok []
                        end in
    Ok (if existsb (λ f, one_of f meta_fields) _PAGINATION_RESPONSE_FIELDS
        then Some (pages "offset" (Some "offset") None (_detect_size_param names "page_size")) else None)
  else Ok None.

(** [_infer_pagination] *)
Definition _infer_pagination (op_spec : dict pyval) (params : list Param) (is_swagger : bool) : outcome exn (option PaginationConfig) :=
  let names := pa_name <$> params in
  let! props := match _get_success_response_schema op_spec is_swagger with
                | Some schema => let! p := as_mapping (get_default schema "properties" (VDict [])) in Ok (Some p)
                | None => Ok None
                end in
  let cursor := first_common names _CURSOR_PARAM_NAMES in
  let in_response := existsb (λ f, match props with Some p => dict_mem p f | None => false end) _CURSOR_RESPONSE_FIELDS in
  if given cursor || in_response then
    Ok (Some (pages "cursor" None (Some (default "cursor" cursor)) (_detect_size_param names "limit")))
  else
    match (if one_of "page" names then first_common names _PAGE_SIZE_PARAM_NAMES else None) with
    | Some size => Ok (Some (pages "page" (Some "page") None size))
    | None =>
        if one_of "offset" names && one_of "limit" names then Ok (Some (pages "offset" (Some "offset") None "limit"))
        else match props with Some p => envelope p names | None => Ok None end
    end.

(** ** Errors and examples *)

(** A status and a response *)
Definition status_of (code : string) : option Z := int_of_text code.

(** [_extract_error_schema] *)
Definition error_response (is_swagger : bool) (kv : string * pyval) : option ErrorResponse :=
  match kv.2, status_of kv.1 with
  | VDict resp, Some status =>
      if negb (str_eqb kv.1 "default") && (400 <=? status)
      then Some (mk_error_response (Some status) None (py_str repr (get_default resp "description" (VStr "")))
                   (_response_body_schema resp is_swagger))
      else None
  | _, _ => None
  end.
Definition _extract_error_schema (op_spec : dict pyval) (is_swagger : bool) : ErrorSchema :=
  match get_default op_spec "responses" (VDict []) with
  | VDict responses =>
      mk_error_schema
        (sorted_by (λ a b, default 0 (er_status_code a) <=? default 0 (er_status_code b)) (omap (error_response is_swagger) responses))
        (match dict_get responses "default" with Some (VDict resp) => _response_body_schema resp is_swagger | _ => None end)
  | _ => mk_error_schema [] None
  end.

(** [_normalize_example_body] *)
Definition _normalize_example_body (body : pyval) : pyval :=
  match body with VNone | VDict _ | VStr _ => body | _ => VStr (json_dumps body) end.

Definition response_example (name description : string) (status : Z) (body : pyval) : ResponseExample :=
  mk_example name description (Some status) (_normalize_example_body body) src_extractor.

(** The example a schema carries *)
Definition schema_example (schema : pyval) (status : Z) : list ResponseExample :=
  match schema with
  | VDict s => match dict_get s "example" with
               | Some e => [response_example ("schema_example_" +:+ str_of_Z status) ("Schema example for " +:+ str_of_Z status) status e]
               | None => []
               end
  | _ => []
  end.

(** The examples of one success response *)
Definition swagger_examples (resp : dict pyval) (status : Z) : list ResponseExample :=
  match get_default resp "examples" (VDict []) with
  | VDict examples =>
      match get_or_none examples "application/json" with
      | VNone => []
      | e => [response_example ("example_" +:+ str_of_Z status) (py_str repr (get_default resp "description" (VStr ""))) status e]
      end
  | _ => []
  end ++ schema_example (get_default resp "schema" (VDict [])) status.

Definition openapi_examples (resp : dict pyval) (status : Z) : list ResponseExample :=
  match get_default resp "content" (VDict []) with
  | VDict content =>
      match get_default content "application/json" (VDict []) with
      | VDict json_content =>
          match dict_get json_content "example" with
          | Some e => [response_example ("example_" +:+ str_of_Z status) (py_str repr (get_default resp "description" (VStr ""))) status e]
          | None => []
          end ++
          match get_default json_content "examples" (VDict []) with
          | VDict examples =>
              omap (λ kv, match kv.2 with
                          | VDict ex => Some (response_example kv.1 (py_str repr (get_default ex "summary" (VStr ""))) status (get_or_none ex "value"))
                          | _ => None
                          end) examples
          | _ => []
          end ++ schema_example (get_default json_content "schema" (VDict [])) status
      | _ => []
      end
  | _ => []
  end.

(** [_extract_response_examples] *)
Definition _extract_response_examples (op_spec : dict pyval) (is_swagger : bool) : list ResponseExample :=
  match get_default op_spec "responses" (VDict []) with
  | VDict responses =>
      concat ((λ kv, match kv.2, status_of kv.1 with
                     | VDict resp, Some status =>
                         if (200 <=? status) && (status <? 300)
                         then (if is_swagger then swagger_examples resp status else openapi_examples resp status) else []
                     | _, _ => []
                     end) <$> responses)
  | _ => []
  end.

(** ** Where the service is *)

(** [urlsplit("//" + host).hostname or host] *)
Definition hostname (host : string) : outcome exn string :=
  let! u := urlsplit ("//" +:+ host) in
  let info := default "" (last (split_on "@"%char (netloc u))) in
  let name := match split_first "["%char info with
              | Some (_, bracketed) => match split_first "]"%char bracketed with Some (h, _) => h | None => bracketed end
              | None => match split_first ":"%char info with Some (h, _) => h | None => info end
              end in
  Ok (if str_truthy name then lower name else host).

(** [_is_loopback_host] *)
Definition _is_loopback_host (host : string) : outcome exn bool :=
  let! h := hostname host in Ok (one_of h ["localhost"; "127.0.0.1"; "0.0.0.0"; "::1"]).

(** [_resolve_server_url] *)
Definition _resolve_server_url (server_url : string) (source_url : option string) : outcome exn string :=
  let! parsed := urlsplit server_url in
  if str_truthy (scheme parsed) && str_truthy (netloc parsed) then Ok server_url
  else if negb (opt_truthy source_url) then Ok server_url
  else
    let url := default "" source_url in
    if startswith "/" server_url then
      let! source := urlsplit url in Ok (scheme source +:+ "://" +:+ netloc source +:+ server_url)
    else Ok (urljoin url server_url).

(** [schemes[0]] *)
Definition first_item (v : pyval) : outcome exn pyval :=
  match v with
  | VList (x :: _) => Ok x
  | VStr (String c _) => Ok (VStr (String c ""))
  | VDict _ => Raise (key_error "0")
  | _ => Raise (type_error "object is not subscriptable")
  end.

(** [_extract_base_url] *)
Definition swagger_base_url (spec : dict pyval) (source_url : option string) : outcome exn string :=
  let! source := urlsplit (default "" source_url) in
  let raw_host := py_str repr (value_or (get_or_none spec "host") (VStr "")) in
  let! from_source := if str_truthy raw_host then _is_loopback_host raw_host else Ok true in
  let host := if from_source then netloc source else raw_host in
  let host := if str_truthy host then host else "localhost" in
  let schemes := get_default spec "schemes" (VList [VStr "https"]) in
  let! scheme :=
    if from_source && str_truthy (scheme source) then Ok (VStr (scheme source))
    else if truthy schemes then first_item schemes
    else Ok (VStr (if str_truthy (scheme source) then scheme source else "https")) in
  Ok (py_str repr scheme +:+ "://" +:+ host +:+ py_str repr (get_default spec "basePath" (VStr ""))).

Definition _extract_base_url (spec : dict pyval) (source_url : option string) (is_swagger : bool) : outcome exn string :=
  if is_swagger then swagger_base_url spec source_url
  else match get_default spec "servers" (VList []) with
       | VList (VDict server :: _) =>
           _resolve_server_url
             (py_str repr (get_default server "url" (VStr (if opt_truthy source_url then default "" source_url else "http://localhost"))))
             source_url
       | _ =>
           if opt_truthy source_url then
             let! parts := urlsplit (default "" source_url) in
             Ok (if str_truthy (scheme parts) && str_truthy (netloc parts) then scheme parts +:+ "://" +:+ netloc parts
                 else "http://localhost")
           else Ok "http://localhost"
       end.

(** ** Authentication *)

Definition auth_of (type : AuthType) (header prefix param location token_url : option string) (scopes : option (list string)) : AuthConfig :=
  mk_auth type header prefix param location token_url scopes None None None None None None None.
Definition plain_auth (type : AuthType) : AuthConfig := auth_of type None None None None None None.

(** A value compared with a text *)
Definition is_text_value (v : pyval) (s : string) : bool := match v with VStr t => str_eqb t s | _ => false end.

Definition api_key_auth (scheme : dict pyval) : outcome exn AuthConfig :=
  let location := get_default scheme "in" (VStr "header") in
  let! name := text_field "AuthConfig" (get_default scheme "name" (VStr "api_key")) in
  Ok (auth_of api_key None None (Some name) (Some (if is_text_value location "query" then "query" else "header")) None None).

Definition oauth2_flow (flow : dict pyval) : AuthConfig :=
  let scopes := match get_default flow "scopes" (VDict []) with VDict s => Some (dict_keys s) | _ => None end in
  auth_of oauth2_auth None None None None
    (match get_or_none flow "tokenUrl" with VStr u => if str_truthy u then Some u else None | _ => None end) scopes.

(** [_parse_swagger_auth] *)
Definition _parse_swagger_auth (scheme : dict pyval) : outcome exn AuthConfig :=
  let t := get_default scheme "type" (VStr "") in
  if is_text_value t "apiKey" then api_key_auth scheme
  else if is_text_value t "oauth2" then Ok (oauth2_flow scheme)
  else if is_text_value t "basic" then Ok (plain_auth basic)
  else Ok (plain_auth no_auth).

(** [_parse_openapi_auth] *)
Definition _parse_openapi_auth (scheme : dict pyval) : outcome exn AuthConfig :=
  let t := get_default scheme "type" (VStr "") in
  let http := get_default scheme "scheme" (VStr "bearer") in
  if is_text_value t "http" && is_text_value http "bearer" then
    Ok (auth_of bearer (Some "Authorization") (Some "Bearer") None None None None)
  else if is_text_value t "http" && is_text_value http "basic" then Ok (plain_auth basic)
  else if is_text_value t "apiKey" then api_key_auth scheme
  else if is_text_value t "oauth2" then
    match get_default scheme "flows" (VDict []) with
    | VDict flows =>
        match head (omap (λ name, as_dict (get_or_none flows name)) ["clientCredentials"; "password"; "authorizationCode"; "implicit"]) with
        | Some flow => Ok (oauth2_flow flow)
        | None => Ok (plain_auth no_auth)
        end
    | _ => Ok (plain_auth oauth2_auth)
    end
  else Ok (plain_auth no_auth).

(** [_extract_auth] *)
Definition _extract_auth (spec : dict pyval) (is_swagger : bool) : outcome exn AuthConfig :=
  let! sec_defs :=
    if is_swagger then Ok (get_default spec "securityDefinitions" (VDict []))
    else let! components := as_mapping (get_default spec "components" (VDict [])) in
         Ok (get_default components "securitySchemes" (VDict [])) in
  if negb (truthy sec_defs) then Ok (plain_auth no_auth)
  else
    let! defs := match sec_defs with VDict d => Ok d | _ => Raise (attribute_error "items") end in
    let! parsed := traverse (if is_swagger then _parse_swagger_auth else _parse_openapi_auth) (omap (λ kv, as_dict kv.2) defs) in
    Ok (default (plain_auth no_auth) (List.find (λ a, negb (bool_decide (ac_type a = no_auth))) parsed)).

(** ** Operations *)

Definition http_methods : list string := ["get"; "post"; "put"; "patch"; "delete"; "head"; "options"].

(** [_METHOD_RISK.get(method, unknown)] *)
Definition _METHOD_RISK (method : string) : RiskLevel :=
  if one_of method ["GET"; "HEAD"; "OPTIONS"] then safe
  else if one_of method ["POST"; "PUT"; "PATCH"] then cautious
  else if one_of method ["DELETE"] then dangerous
  else unknown.

(** [slugify(text)] *)
Definition slugify (text : string) : string :=
  let slug := of_chars (rstrip_dashes (drop_dashes (slug_chars false (chars (lower text))))) in
  if str_truthy slug then slug else "unnamed".

Definition ignored_event (id name : string) (t : EventTransport) (operation_id : option string) : EventDescriptor :=
  mk_event id name "" t inbound unsupported (Some name) operation_id None None [].

Definition method_risk (method : string) : RiskMetadata :=
  mk_risk (Some (one_of method ["POST"; "PUT"; "PATCH"; "DELETE"])) (Some (str_eqb method "DELETE")) None
    (Some (one_of method ["GET"; "PUT"; "DELETE"; "HEAD"; "OPTIONS"])) (_METHOD_RISK method) high src_extractor.

(** The operation of one method of one path, and its callbacks *)
Definition extract_operation (path : string) (path_item op_spec : dict pyval) (method : string) (is_swagger : bool)
    : outcome exn (Operation * list string) :=
  let op_id := get_default op_spec "operationId" (VStr (method +:+ "_" +:+ slugify path)) in
  let M := upper method in
  let! '(params, body_mode, body_name) := _extract_params op_spec path_item is_swagger in
  let params := _ensure_path_template_params path params in
  let callbacks := match get_default op_spec "callbacks" (VDict []) with VDict c => dict_keys c | _ => [] end in
  let! _ := match callbacks with [] => Ok "" | _ => text_field "EventDescriptor" op_id end in
  let! pagination := _infer_pagination op_spec params is_swagger in
  let! id := text_field "Operation" op_id in
  let! name := text_field "Operation" (get_default op_spec "summary" op_id) in
  let! description := text_field "Operation" (value_or (get_or_none op_spec "description") (get_default op_spec "summary" (VStr ""))) in
  let! tags := match get_default op_spec "tags" (VList []) with
               | VList l => traverse (text_field "Operation") l
               | _ => Raise (field_error "Operation")
               end in
  Ok (mk_operation id name description (Some M) (Some path) params None
        (_extract_error_schema op_spec is_swagger) (_extract_response_examples op_spec is_swagger)
        (method_risk M) (mk_strategy (if str_eqb M "GET" then pagination else None) None None None trunc_none)
        body_mode body_name None None None None None None None None tags None src_extractor high None
        (negb (bool_decide (_METHOD_RISK M = unknown))), callbacks).

(** The operations of one path *)
Definition extract_path (is_swagger : bool) (kv : string * pyval) : outcome exn (list (Operation * list string)) :=
  match kv.2 with
  | VDict path_item =>
      let! l := traverse (λ method, match dict_get path_item method with
                                    | Some (VDict op_spec) => let! o := extract_operation kv.1 path_item op_spec method is_swagger in Ok [o]
                                    | _ => Ok []
                                    end) http_methods in
      Ok (concat l)
  | _ => Ok []
  end.

(** [_extract_operations]: the operations, the identifiers of their callbacks and
    the events made of them *)
Definition _extract_operations (spec : dict pyval) (is_swagger : bool) : outcome exn (list Operation * list string * list EventDescriptor) :=
  match get_default spec "paths" (VDict []) with
  | VDict paths =>
      let! l := traverse (extract_path is_swagger) paths in
      let found := concat l in
      let events := concat ((λ oc : Operation * list string, (λ c, ignored_event (op_id oc.1 +:+ ":" +:+ c) c callback (Some (op_id oc.1))) <$> oc.2) <$> found) in
      Ok (found.*1, sorted_strings (ed_id <$> events), events)
  | _ => Ok ([], [], [])
  end.

(** [_extract_ignored_webhooks] and [_extract_webhook_descriptors] *)
Definition webhook_names (spec : dict pyval) : list string :=
  match get_default spec "webhooks" (VDict []) with VDict w => sorted_strings (dict_keys w) | _ => [] end.
Definition _extract_webhook_descriptors (spec : dict pyval) : list EventDescriptor :=
  (λ w, ignored_event w w webhook None) <$> webhook_names spec.

Definition sorted_events : list EventDescriptor → list EventDescriptor := sorted_by (λ a b, String.leb (ed_id a) (ed_id b)).

Definition names_entry (k : string) (names : list string) : dict pyval := match names with [] => [] | _ => [(k, VList (VStr <$> names))] end.

(** The body of [extract], given the parsed specification, the hash of its text and
    the time the description is made *)
Definition extract (spec : dict pyval) (source_url : option string) (source_hash : string) (now : Z) : outcome exn ServiceIR :=
  let is_swagger := dict_mem spec "swagger" in
  let version := get_default spec "swagger" (get_default spec "openapi" (VStr "unknown")) in
  let! base_url := _extract_base_url spec source_url is_swagger in
  let! auth := _extract_auth spec is_swagger in
  let! '(operations, ignored_callbacks, callback_descriptors) := _extract_operations spec is_swagger in
  let! info := as_mapping (get_default spec "info" (VDict [])) in
  let event_descriptors := sorted_events (callback_descriptors ++ _extract_webhook_descriptors spec) in
  let metadata := [("openapi_version", version); ("spec_title", get_default info "title" (VStr ""))]
                  ++ names_entry "ignored_callbacks" ignored_callbacks ++ names_entry "ignored_webhooks" (webhook_names spec) in
  let! title := match get_default info "title" (VStr "unnamed-api") with VStr t => Ok t | _ => Raise (attribute_error "lower") end in
  let! description := text_field "ServiceIR" (get_default info "description" (VStr "")) in
  validate_ServiceIR
    (mk_ir IR_VERSION "0.1.0" source_url source_hash "openapi" (slugify title) description base_url auth operations [] [] event_descriptors
       [] [] metadata now None None).

(** [detect], given the parsed specification *)
Definition detect (spec : dict pyval) : float :=
  if dict_mem spec "openapi" || dict_mem spec "swagger" then 0x1.e666666666666p-1
  else if dict_mem spec "paths" && dict_mem spec "info" then 0x1.3333333333333p-1
  else 0.
End openapi.

(** ** What an extracted description holds *)

Section soundness.
Context (repr : pyval → string) (json_dumps : pyval → string) (urljoin : string → string → string).

Abbreviation names params := (pa_name <$> params).

Lemma ensure_params_names placeholders params :
  names params ⊆ names (foldl ensure_param params placeholders) ∧
  (∀ n, n ∈ placeholders → n ∈ names (foldl ensure_param params placeholders)) ∧
  (NoDup (names params) → NoDup (names (foldl ensure_param params placeholders))).
Proof.
  revert params. induction placeholders as [|p ps IH]; intros params; simpl.
  { split_and!; try done. intros n Hn. by apply elem_of_nil in Hn. }
  destruct (IH (ensure_param params p)) as (H1 & H2 & H3).
  assert (names params ⊆ names (ensure_param params p) ∧ p ∈ names (ensure_param params p) ∧
    (NoDup (names params) → NoDup (names (ensure_param params p)))) as (G1 & G2 & G3).
  { unfold ensure_param. case_bool_decide as Hp; [done|]. rewrite fmap_app. split_and!; [set_solver|set_solver|].
    intros Hnd. apply NoDup_app. split; [done|]. split; [|apply NoDup_singleton]. intros x Hx Hx'.
    apply list_elem_of_singleton in Hx'. cbn in Hx'. by subst. }
  split_and!; [set_solver| |auto]. intros n [->|Hn]%elem_of_cons; [by apply H1|by apply H2].
Qed.

(** The names seen so far are those of the parameters. *)
Definition seen_names (acc : list Param * list pyval) : Prop := acc.2 = VStr <$> names acc.1 ∧ NoDup (names acc.1).

Lemma existsb_names n (l : list string) : existsb (py_eq (VStr n)) (VStr <$> l) = true ↔ n ∈ l.
Proof.
  induction l as [|m l IH]; simpl; [split; [done|by intros ?%elem_of_nil]|]. rewrite orb_true_iff, elem_of_cons, IH. simpl.
  by rewrite str_eqb_eq.
Qed.

Lemma seen_names_add acc p : seen_names acc → existsb (py_eq (VStr (pa_name p))) acc.2 = false →
  seen_names (acc.1 ++ [p], acc.2 ++ [VStr (pa_name p)]).
Proof.
  intros [E Hnd] Hf. split; cbn; rewrite !fmap_app; [by rewrite E|]. apply NoDup_app. split; [done|].
  split; [|apply NoDup_singleton]. intros x Hx Hx'%list_elem_of_singleton. subst x.
  rewrite E in Hf. apply existsb_names in Hx. congruence.
Qed.

Lemma extract_param_seen acc raw acc' : extract_param repr false acc raw = Ok acc' → seen_names acc → seen_names acc'.
Proof.
  unfold extract_param. destruct raw as [| | | | | |p]; try by intros [= <-]. cbn [andb].
  destruct (negb (truthy _)); [by intros [= <-]|]. destruct (is_list _ || is_dict _); [done|].
  destruct (existsb _ acc.2) eqn:E; [by intros [= <-]|]. intros H Hs. obinds H. injection H as <-.
  destruct (get_default p "name" (VStr "")) as [| | | |n| |]; try done. simplify_eq/=. by apply (seen_names_add acc (extracted _ _ _ _ _ _ _)).
Qed.

Lemma fold_outcome_inv {A B} (P : B → Prop) (f : B → A → outcome exn B) b l b' :
  (∀ b a b', f b a = Ok b' → P b → P b') → fold_outcome f b l = Ok b' → P b → P b'.
Proof.
  intros Hf. revert b. induction l as [|a l IH]; intros b H Hb; simpl in H; [by injection H as <-|].
  obinds H. eapply IH; [done|]. by eapply Hf.
Qed.

Definition add_unseen (st : list Param * list pyval) (bp : Param) : list Param * list pyval :=
  if existsb (py_eq (VStr (pa_name bp))) st.2 then st else (st.1 ++ [bp], st.2 ++ [VStr (pa_name bp)]).

Lemma add_unseen_all l st : seen_names st →
  seen_names (foldl add_unseen st l) ∧ (∀ p, p ∈ l → pa_name p ∈ names (foldl add_unseen st l).1) ∧
  names st.1 ⊆ names (foldl add_unseen st l).1.
Proof.
  revert st. induction l as [|p l IH]; intros st Hs; simpl.
  { split_and!; try done. intros p Hp. by apply elem_of_nil in Hp. }
  assert (seen_names (add_unseen st p) ∧ pa_name p ∈ names (add_unseen st p).1 ∧ names st.1 ⊆ names (add_unseen st p).1) as (G1 & G2 & G3).
  { unfold add_unseen. destruct (existsb _ st.2) eqn:E.
    - split_and!; try done. destruct Hs as [Es _]. rewrite Es in E. by apply existsb_names in E.
    - split; [by apply seen_names_add|]. cbn. rewrite fmap_app. set_solver. }
  destruct (IH _ G1) as (H1 & H2 & H3). split_and!; [done| |set_solver].
  intros q [->|Hq]%elem_of_cons; [by apply H3|by apply H2].
Qed.

Lemma request_body_name body params mode name :
  _extract_request_body_params repr body = Ok (params, mode, Some name) → ∃ p, p ∈ params ∧ pa_name p = name.
Proof.
  unfold _extract_request_body_params. intros H. obinds H. destruct (get_default _ "content" _) as [| | | | | |content]; try done.
  destruct (dict_mem content "multipart/form-data"); [simplify_eq; eexists; split; [left|done]|].
  destruct (dict_mem content "application/octet-stream"); [simplify_eq; eexists; split; [left|done]|].
  destruct (get_default content _ _) as [| | | | | |jc]; try done. destruct (get_default jc _ _) as [| | | | | |schema]; try done.
  obinds H. done.
Qed.

Lemma extract_params_names op_spec path_item is_swagger params mode name :
  _extract_params repr op_spec path_item is_swagger = Ok (params, mode, name) →
  (is_swagger = false → NoDup (names params)) ∧ (∀ n, name = Some n → n ∈ names params).
Proof.
  unfold _extract_params. intros H. apply obind_ok in H as (raw & _ & H). apply obind_ok in H as (acc & Hacc & H).
  destruct is_swagger; [by injection H as _ _ <-|].
  assert (seen_names acc) as Hs.
  { eapply (fold_outcome_inv seen_names); [|exact Hacc|]; [intros b a b'; apply extract_param_seen|]. split; [done|constructor]. }
  destruct (dict_get op_spec "requestBody") as [body|]; [|injection H as <- _ <-; split; [by destruct Hs|done]].
  apply obind_ok in H as ([[bp bm] bn] & Hb & H). simplify_eq/=. change (λ st bp, _) with add_unseen.
  destruct (add_unseen_all bp acc Hs) as (H1 & H2 & _). split; [intros _; apply H1|]. intros n ->.
  apply request_body_name in Hb as (p & Hp & <-). by apply H2.
Qed.

(** What the extractor promises of an operation *)
Record faithful (is_swagger : bool) (path method : string) (o : Operation) : Prop := {
  ft_path : op_path o = Some path;
  ft_method : op_method o = Some (upper method);
  ft_risk : op_risk o = method_risk (upper method);
  ft_enabled : op_enabled o = negb (bool_decide (_METHOD_RISK (upper method) = unknown));
  ft_holes : ∀ n, n ∈ placeholders None path → n ∈ names (op_params o);
  ft_distinct : is_swagger = false → NoDup (names (op_params o));
  ft_body : ∀ n, op_body_param_name o = Some n → n ∈ names (op_params o);
}.

Lemma extract_operation_faithful path path_item op_spec method is_swagger oc :
  extract_operation repr json_dumps path path_item op_spec method is_swagger = Ok oc → faithful is_swagger path method oc.1.
Proof.
  unfold extract_operation. intros H. apply obind_ok in H as ([[params mode] name] & Hp & H). obinds H. injection H as <-.
  apply extract_params_names in Hp as [Hnd Hn].
  destruct (ensure_params_names (placeholders None path) params) as (Hsub & Hall & Hkeep). split; try done; cbn [op_params fst].
  - intros Hs. by apply Hkeep, Hnd.
  - intros n E. by apply Hsub, Hn.
Qed.

(** The methods of a path that are described *)
Definition endpoints_of (kv : string * pyval) : list (string * string) :=
  match kv.2 with
  | VDict path_item => concat ((λ m, match dict_get path_item m with Some (VDict _) => [(kv.1, m)] | _ => [] end) <$> http_methods)
  | _ => []
  end.
Definition endpoints (spec : dict pyval) : list (string * string) :=
  match get_default spec "paths" (VDict []) with VDict paths => concat (endpoints_of <$> paths) | _ => [] end.

Lemma traverse_concat {A B C} (R : C → B → Prop) (f : A → outcome exn (list B)) (g : A → list C) l bs :
  traverse f l = Ok bs → (∀ a b, a ∈ l → f a = Ok b → Forall2 R (g a) b) → Forall2 R (concat (g <$> l)) (concat bs).
Proof.
  intros H%traverse_ok Hf. induction H as [|a b l bs Hab _ IH]; [constructor|]. cbn. apply Forall2_app.
  - apply Hf; [left|done].
  - apply IH. intros a' b' Ha'. apply Hf. by right.
Qed.

Definition described (is_swagger : bool) (e : string * string) (o : Operation) : Prop :=
  e.2 ∈ http_methods ∧ faithful is_swagger e.1 e.2 o.

Lemma extract_path_described is_swagger kv l :
  extract_path repr json_dumps is_swagger kv = Ok l → Forall2 (λ e oc, described is_swagger e oc.1) (endpoints_of kv) l.
Proof.
  unfold extract_path, endpoints_of. destruct kv.2 as [| | | | | |path_item]; try by intros [= <-]. intros H.
  apply obind_ok in H as (ls & H & Hl). injection Hl as <-. apply (traverse_concat _ _ _ _ _ H). intros m b Hm Hb.
  destruct (dict_get path_item m) as [[| | | | | |op_spec]|]; try by injection Hb as <-.
  apply obind_ok in Hb as (oc & Ho & Hb). injection Hb as <-. constructor; [|constructor]. split; [done|].
  by eapply extract_operation_faithful.
Qed.

Lemma extract_operations_described spec is_swagger ops cbs events :
  _extract_operations repr json_dumps spec is_swagger = Ok (ops, cbs, events) → Forall2 (described is_swagger) (endpoints spec) ops.
Proof.
  unfold _extract_operations, endpoints. destruct (get_default spec "paths" _) as [| | | | | |paths]; try by intros [= <- _ _].
  intros H. apply obind_ok in H as (ls & H & Hl). injection Hl as <- _ _. apply Forall2_fmap_r.
  apply (traverse_concat _ _ _ _ _ H). intros kv l _. apply extract_path_described.
Qed.

Lemma known_method m : m ∈ http_methods → _METHOD_RISK (upper m) ≠ unknown.
Proof.
  assert (Forall (λ m, _METHOD_RISK (upper m) ≠ unknown) http_methods) as H by (repeat constructor; done).
  rewrite Forall_forall in H. apply H.
Qed.

Lemma described_validated is_swagger es ops ops' : Forall2 (described is_swagger) es ops →
  Forall2 (λ o o', validate_Operation o = Ok o') ops ops' → ops' = ops.
Proof.
  intros Hd. revert ops'. induction Hd as [|e o es ops [Hm Hf] _ IH]; intros ops' Hv.
  { by apply Forall2_nil_inv_l in Hv. }
  apply Forall2_cons_inv_l in Hv as (o' & ops2 & Ho & Hv & ->). apply IH in Hv as ->. f_equal.
  apply validate_operation_eq in Ho as (-> & _). unfold unknown_risk_must_be_disabled. rewrite (ft_risk _ _ _ _ Hf). cbn.
  apply known_method in Hm. by destruct (_METHOD_RISK (upper e.2)).
Qed.

End soundness.

(** ** Worked specifications *)

Definition text (s : string) : pyval := VStr s.
Definition object_schema (props : dict pyval) : pyval := VDict [("type", text "object"); ("properties", VDict props)].
Definition typed (t : string) : pyval := VDict [("type", text t)].
Definition json_body (schema : pyval) : pyval :=
  VDict [("content", VDict [("application/json", VDict [("schema", schema)])])].

Definition pet_spec : dict pyval :=
  [("openapi", text "3.0.0"); ("info", VDict [("title", text "Pet Store")]);
   ("paths", VDict [
      ("/pets/{id}", VDict [
         ("parameters", VList [VDict [("name", text "id"); ("in", text "path"); ("required", VBool true); ("schema", typed "integer")]]);
         ("get", VDict [("operationId", text "getPet")]);
         ("put", VDict [("requestBody", json_body (VDict [("allOf", VList [object_schema [("id", typed "integer"); ("name", typed "string")];
                                                                           object_schema [("tag", typed "string")]])]))])]);
      ("/pets", VDict [("get", VDict [("parameters", VList [VDict [("name", text "cursor")]])])])])].

Definition run_extract (spec : dict pyval) : outcome exn ServiceIR :=
  extract (λ _, "") (λ _, "") (λ _ u, u) spec (Some "http://example.com/openapi.json") "hash" 0.


Definition spec_of (paths : dict pyval) : dict pyval := [("openapi", text "3.1.0"); ("info", VDict [("title", text "t")]); ("paths", VDict paths)].
Definition failure_of (r : outcome exn ServiceIR) : option string := match r with Raise e => Some (exn_type e) | Ok _ => None end.

(** A nullable type of OpenAPI 3.1 is a list: looking it up fails the whole
    extraction. *)
Example nullable_type_fails :
  failure_of (run_extract (spec_of [("/p", VDict [("get", VDict [("parameters",
    VList [VDict [("name", text "q"); ("schema", VDict [("type", VList [text "string"; text "null"])])]])])])])) = Some "TypeError".
Proof. vm_compute. reflexivity. Qed.

(** Paths that slug alike give two operations one identifier. *)
Example paths_that_slug_alike_fail :
  failure_of (run_extract (spec_of [("/p/{id}", VDict [("get", VDict [])]); ("/p/id", VDict [("get", VDict [])])])) = Some "ValueError".
Proof. vm_compute. reflexivity. Qed.

(** An empty summary leaves an operation without a name. *)
Example empty_summary_fails :
  failure_of (run_extract (spec_of [("/p", VDict [("get", VDict [("summary", text "")])])])) = Some "ValidationError".
Proof. vm_compute. reflexivity. Qed.

(** A Swagger body property named like another parameter is there twice. *)
Example swagger_parameter_twice :
  match run_extract [("swagger", text "2.0"); ("info", VDict [("title", text "t")]);
    ("paths", VDict [("/p/{id}", VDict [("put", VDict [("parameters",
       VList [VDict [("name", text "id"); ("in", text "path")];
              VDict [("name", text "body"); ("in", text "body"); ("schema", object_schema [("id", typed "string")])]])])])])] with
  | Ok ir => (λ o, pa_name <$> op_params o) <$> ir_operations ir = [["id"; "id"]]
  | Raise _ => False
  end.
Proof. vm_compute. reflexivity. Qed.

(** Schemes of HTTP authentication are compared with their case. *)
Example capital_bearer_is_no_auth :
  match _parse_openapi_auth [("type", text "http"); ("scheme", text "Bearer")] with
  | Ok a => ac_type a = no_auth
  | Raise _ => False
  end.
Proof. vm_compute. reflexivity. Qed.
