(* ===== verification/Validators.v ===== *)
(** * Offline validators ([libs/validator/drift.py], [libs/validator/audit.py],
      [libs/validator/capability_matrix.py])

    Comparing what is deployed with what the source says now; which tools an audit
    may run, and the thresholds it is held to; what each protocol can do. *)

From S2P Require Export IRDiff PyUrl PyFloat.

(** ** Drift *)

Inductive DriftSeverity := non_breaking | breaking.

Definition _BREAKING_PATTERNS : list string :=
  ["removed"; "type changed"; "required changed"; "risk level changed"; "method changed"; "path changed"; "enabled changed";
   "auth type changed"; "auth config changed"; "sla config removed"; "sla latency budget relaxed"; "sla timeout relaxed"].

Record DriftDetail := mk_drift { dd_operation_id : string; dd_changes : list string; dd_severity : DriftSeverity }.

Record DriftReport := mk_report {
  dr_service_name : string;
  dr_checked_at : Z;
  dr_has_drift : bool;
  dr_severity : DriftSeverity;
  dr_added_operations : list string;
  dr_removed_operations : list string;
  dr_modified_operations : list DriftDetail;
  dr_schema_changes : list string;
}.

(** [{key(x): x for x in l}] *)
Definition by_key {A} (key : A → string) (l : list A) : dict A := dict_of_list ((λ a, (key a, a)) <$> l).

(** The sorted differences and the intersection of two key sets *)
Definition keys_only {A} (d e : dict A) : list string := sorted_strings (List.filter (λ k, negb (dict_mem e k)) (dict_keys d)).
Definition keys_both {A} (d e : dict A) : list string := sorted_strings (List.filter (λ k, dict_mem e k) (dict_keys d)).

(** A change to report when it happened *)
Definition note (b : bool) (change : string) : list string := if b then [change] else [].

Definition show_bool (b : bool) : string := if b then "True" else "False".
Definition show_opt (s : option string) : string := default "None" s.
Definition arrow (a b : string) : string := a +:+ " -> " +:+ b.

(** [a != b] of values in their JSON form *)
Definition differ (a b : pyval) : bool := negb (py_eq a b).

(** The pairs of a key's entries in both, in the order of the keys *)
Definition common_entries {A} (d e : dict A) : list (string * (A * A)) :=
  omap (λ k, match dict_get d k, dict_get e k with Some a, Some b => Some (k, (a, b)) | _, _ => None end) (keys_both d e).

Section drift.
Context (repr : pyval → string).

(** The changes of one parameter *)
Definition param_changes (kp : string * (Param * Param)) : list string :=
  let '(name, (d, l)) := kp in
  note (negb (str_eqb (pa_type d) (pa_type l))) ("param '" +:+ name +:+ "' type changed: " +:+ arrow (pa_type d) (pa_type l)) ++
  note (xorb (pa_required d) (pa_required l))
    ("param '" +:+ name +:+ "' required changed: " +:+ arrow (show_bool (pa_required d)) (show_bool (pa_required l))) ++
  note (differ (pa_default d) (pa_default l))
    ("param '" +:+ name +:+ "' default changed: " +:+ arrow (repr (pa_default d)) (repr (pa_default l))).

(** [_compare_params] *)
Definition _compare_params (deployed live : Operation) : list string :=
  let d := by_key pa_name (op_params deployed) in
  let l := by_key pa_name (op_params live) in
  ((λ n, "param added: " +:+ n) <$> keys_only l d) ++ ((λ n, "param removed: " +:+ n) <$> keys_only d l)
  ++ concat (param_changes <$> common_entries d l).

(** One of the two times of a service level *)
Definition compare_time (label : string) (old new : option Z) : list string :=
  let ms n := str_of_Z n +:+ "ms" in
  match old, new with
  | None, Some n => [label +:+ " added: " +:+ ms n]
  | Some o, None => [label +:+ " removed (was " +:+ ms o +:+ ")"]
  | Some o, Some n => note (negb (o =? n)) (label +:+ " " +:+ (if n <? o then "tightened" else "relaxed") +:+ ": " +:+ arrow (ms o) (ms n))
  | None, None => []
  end.

Definition compare_sla (deployed live : option SlaConfig) : list string :=
  match deployed, live with
  | None, Some _ => ["sla config added"]
  | Some _, None => ["sla config removed"]
  | Some d, Some l =>
      compare_time "sla latency budget" (sl_latency_budget_ms d) (sl_latency_budget_ms l)
      ++ compare_time "sla timeout" (sl_timeout_ms d) (sl_timeout_ms l)
      ++ note (differ (VDict (RetryConfig_dict (sl_retry d))) (VDict (RetryConfig_dict (sl_retry l)))) "sla retry config changed"
  | None, None => []
  end.

Definition opt_eqb (a b : option string) : bool := bool_decide (a = b).

(** [_compare_operation] *)
Definition _compare_operation (d l : Operation) : list string :=
  let level o := rm_risk_level (op_risk o) in
  _compare_params d l
  ++ note (negb (bool_decide (level d = level l))) ("risk level changed: " +:+ arrow (risk_value (level d)) (risk_value (level l)))
  ++ note (negb (opt_eqb (op_path d) (op_path l))) ("path changed: " +:+ arrow (show_opt (op_path d)) (show_opt (op_path l)))
  ++ note (negb (opt_eqb (op_method d) (op_method l))) ("method changed: " +:+ arrow (show_opt (op_method d)) (show_opt (op_method l)))
  ++ note (xorb (op_enabled d) (op_enabled l)) ("enabled changed: " +:+ arrow (show_bool (op_enabled d)) (show_bool (op_enabled l)))
  ++ note (differ (opt_dict (op_response_schema d)) (opt_dict (op_response_schema l))) "response schema changed"
  ++ note (differ (VDict (ErrorSchema_dict (op_error_schema d))) (VDict (ErrorSchema_dict (op_error_schema l)))) "error schema changed"
  ++ note (differ (vmodels ResponseExample_dict (op_response_examples d)) (vmodels ResponseExample_dict (op_response_examples l)))
       "response examples changed"
  ++ compare_sla (op_sla d) (op_sla l).

(** [_compare_named_components] *)
Definition _compare_named_components {A} (label : string) (id : A → string) (json : A → dict pyval) (deployed live : list A) : list string :=
  let d := by_key id deployed in
  let l := by_key id live in
  ((λ i, label +:+ " added: " +:+ i) <$> keys_only l d) ++ ((λ i, label +:+ " removed: " +:+ i) <$> keys_only d l)
  ++ concat ((λ kp, note (differ (VDict (json kp.2.1)) (VDict (json kp.2.2))) (label +:+ " changed: " +:+ kp.1)) <$> common_entries d l).

(** [_compare_schema] *)
Definition _compare_schema (d l : ServiceIR) : list string :=
  note (negb (str_eqb (ir_base_url d) (ir_base_url l))) ("base_url changed: " +:+ arrow (ir_base_url d) (ir_base_url l))
  ++ (if negb (bool_decide (ac_type (ir_auth d) = ac_type (ir_auth l)))
      then ["auth type changed: " +:+ arrow (auth_value (ac_type (ir_auth d))) (auth_value (ac_type (ir_auth l)))]
      else note (differ (VDict (AuthConfig_dict (ir_auth d))) (VDict (AuthConfig_dict (ir_auth l)))) "auth config changed")
  ++ note (negb (str_eqb (ir_service_name d) (ir_service_name l))) ("service_name changed: " +:+ arrow (ir_service_name d) (ir_service_name l))
  ++ _compare_named_components "resource" rd_id ResourceDefinition_dict (ir_resource_definitions d) (ir_resource_definitions l)
  ++ _compare_named_components "prompt" pd_id PromptDefinition_dict (ir_prompt_definitions d) (ir_prompt_definitions l)
  ++ _compare_named_components "event descriptor" ed_id EventDescriptor_dict (ir_event_descriptors d) (ir_event_descriptors l).

(** [_classify_severity] *)
Definition is_breaking (change : string) : bool := existsb (λ p, str_contains p (lower change)) _BREAKING_PATTERNS.
Definition _classify_severity (change : string) : DriftSeverity := if is_breaking change then breaking else non_breaking.

(** The detail of an operation in both, when something changed *)
Definition drift_detail (kp : string * (Operation * Operation)) : option DriftDetail :=
  match _compare_operation kp.2.1 kp.2.2 with
  | [] => None
  | changes => Some (mk_drift kp.1 changes (if existsb is_breaking changes then breaking else non_breaking))
  end.

Definition breaking_detail (m : DriftDetail) : bool := match dd_severity m with breaking => true | non_breaking => false end.

(** [detect_drift] *)
Definition detect_drift (deployed live : ServiceIR) (now : Z) : DriftReport :=
  let d := by_key op_id (ir_operations deployed) in
  let l := by_key op_id (ir_operations live) in
  let added := keys_only l d in
  let removed := keys_only d l in
  let modified := omap drift_detail (common_entries d l) in
  let schema_changes := _compare_schema deployed live in
  mk_report (ir_service_name deployed) now
    (negb (no_items added && no_items removed && no_items modified && no_items schema_changes))
    (if negb (no_items removed) || existsb breaking_detail modified || existsb is_breaking schema_changes then breaking else non_breaking)
    added removed modified schema_changes.

(** [check_drift_from_source] *)
Definition check_drift_from_source {W} (deployed : ServiceIR) (extract : comp W exn ServiceIR) (now : Z) : comp W exn DriftReport :=
  live <- extract ;; ret (detect_drift deployed live now).
End drift.

(** ** Which tools an audit runs *)

Record ToolAuditSummary := mk_summary {
  ts_discovered_operations : Z;
  ts_generated_tools : Z;
  ts_audited_tools : Z;
  ts_passed : Z;
  ts_failed : Z;
  ts_skipped : Z;
}.

Record AuditPolicy := mk_policy {
  ap_skip_destructive : bool;
  ap_skip_external_side_effect : bool;
  ap_skip_writes_state : bool;
  ap_allow_idempotent_writes : bool;
  ap_audit_safe_methods : bool;
  ap_audit_discovery_intent : bool;
}.
Definition default_policy : AuditPolicy := mk_policy true true true false true true.

Inductive skip_reason := NoSample | SyntheticPath | Destructive | ExternalSideEffect | StateMutating.

Definition PATH_PLACEHOLDER_STRING_SAMPLE : string := "__tool_compiler_path_sample__".
Definition PATH_PLACEHOLDER_ID_SAMPLE : string := "__tool_compiler_path_id__".
Definition PATH_PLACEHOLDER_INT_SAMPLE : Z := 2147483647.

(** [_contains_synthetic_placeholder_sample] *)
Fixpoint _contains_synthetic_placeholder_sample (numeric : bool) (v : pyval) : bool :=
  match v with
  | VStr s => one_of s [PATH_PLACEHOLDER_STRING_SAMPLE; PATH_PLACEHOLDER_ID_SAMPLE]
              || numeric && str_eqb s (str_of_Z PATH_PLACEHOLDER_INT_SAMPLE)
  | VInt n => numeric && (n =? PATH_PLACEHOLDER_INT_SAMPLE)
  | VFloat f => numeric && float_eq_Z f PATH_PLACEHOLDER_INT_SAMPLE
  | VList l => existsb (_contains_synthetic_placeholder_sample numeric) l
  | VDict d => existsb (λ kv, _contains_synthetic_placeholder_sample numeric kv.2) d
  | VNone | VBool _ => false
  end.

(** [_has_synthetic_path_placeholder_samples] *)
Definition _has_synthetic_path_placeholder_samples (o : Operation) (arguments : dict pyval) (numeric : bool) : bool :=
  existsb (λ name,
    match dict_get arguments name with
    | None => false
    | Some v =>
        match dict_get (by_key pa_name (op_params o)) name with
        | Some p => match pa_default p with VNone => _contains_synthetic_placeholder_sample numeric v | _ => false end
        | None => _contains_synthetic_placeholder_sample numeric v
        end
    end) (placeholders None (default "" (op_path o))).

Definition opt_flag (b : option bool) : bool := default false b.

(** [AuditPolicy.skip_reason] *)
Definition skip_reason_for (p : AuditPolicy) (o : Operation) (sample_invocations : dict (dict pyval)) : option skip_reason :=
  match dict_get sample_invocations (op_id o) with
  | None => Some NoSample
  | Some arguments =>
      if _has_synthetic_path_placeholder_samples o arguments false then Some SyntheticPath
      else if ap_audit_safe_methods p && one_of (upper (default "" (op_method o))) ["GET"; "HEAD"; "OPTIONS"] then None
      else if ap_audit_discovery_intent p && match op_tool_intent o with Some discovery => true | _ => false end then None
      else if ap_skip_destructive p && opt_flag (rm_destructive (op_risk o)) then Some Destructive
      else if ap_skip_external_side_effect p && opt_flag (rm_external_side_effect (op_risk o)) then Some ExternalSideEffect
      else if ap_skip_writes_state p && opt_flag (rm_writes_state (op_risk o)) then
        (if ap_allow_idempotent_writes p && opt_flag (rm_idempotent (op_risk o)) then None else Some StateMutating)
      else None
  end.

(** [AuditPolicy.failure_skip_reason] *)
Definition failure_skip_reason (o : Operation) (arguments : dict pyval) : option skip_reason :=
  if _has_synthetic_path_placeholder_samples o arguments true then Some SyntheticPath else None.

(** ** Thresholds *)

Record AuditThresholds := mk_thresholds { at_min_audited_ratio : float; at_max_failed : option Z; at_min_passed : option Z }.

Inductive violation :=
| RatioBelow (audited generated : Z)
| FailedAbove (failed max : Z)
| PassedBelow (passed min : Z).

(** [a / b] of integers *)
Definition ratio (a b : Z) : outcome exn float :=
  match float_of_Z a, float_of_Z b with
  | Some x, Some y => Ok (PrimFloat.div x y)
  | _, _ => Raise (mk_exn "OverflowError" "integer division result too large for a float" [])
  end.

(** [check_thresholds] *)
Definition check_thresholds (s : ToolAuditSummary) (t : AuditThresholds) : outcome exn (list violation) :=
  let! actual := if 0 <? ts_generated_tools s then ratio (ts_audited_tools s) (ts_generated_tools s) else Ok 0%float in
  Ok ((if PrimFloat.ltb actual (at_min_audited_ratio t) then [RatioBelow (ts_audited_tools s) (ts_generated_tools s)] else [])
      ++ match at_max_failed t with Some m => if m <? ts_failed s then [FailedAbove (ts_failed s) m] else [] | None => [] end
      ++ match at_min_passed t with Some m => if ts_passed s <? m then [PassedBelow (ts_passed s) m] else [] | None => [] end).

Record CoverageExpectation := mk_expectation {
  ce_service_id : string;
  ce_expected_tools : Z;
  ce_expected_passed : option Z;
  ce_expected_actions : option (dict Z);
}.

Record CoverageReport := mk_coverage {
  cr_service_id : string;
  cr_actual_tools : Z;
  cr_actual_passed : Z;
  cr_actual_actions : dict Z;
  cr_expectation : option CoverageExpectation;
}.

Inductive coverage_violation :=
| ToolsBelow (actual expected : Z)
| AuditedBelow (actual expected : Z)
| ActionBelow (action : string) (actual expected : Z).

(** [CoverageReport.meets_expectation] *)
Definition meets_expectation (r : CoverageReport) : bool :=
  match cr_expectation r with Some e => ce_expected_tools e <=? cr_actual_tools r | None => true end.

(** [CoverageReport.violations] *)
Definition violations (r : CoverageReport) : list coverage_violation :=
  match cr_expectation r with
  | None => []
  | Some e =>
      (if cr_actual_tools r <? ce_expected_tools e then [ToolsBelow (cr_actual_tools r) (ce_expected_tools e)] else [])
      ++ match ce_expected_passed e with
         | Some n => if cr_actual_passed r <? n then [AuditedBelow (cr_actual_passed r) n] else []
         | None => []
         end
      ++ concat ((λ kv, let n := default 0 (dict_get (cr_actual_actions r) kv.1) in
                        if n <? kv.2 then [ActionBelow kv.1 n kv.2] else []) <$> default [] (ce_expected_actions e))
  end.

(** [check_coverage] *)
Definition check_coverage (reports : list CoverageReport) : list coverage_violation := concat (violations <$> reports).

(** ** What a protocol can do *)

Record ProtocolCapability := mk_capability {
  pc_key : string;
  pc_label : string;
  pc_extract : bool;
  pc_compile : bool;
  pc_runtime : bool;
  pc_live_proof : bool;
  pc_llm_e2e : bool;
}.

(** The rows, in the order of [_CAPABILITY_ORDER]; the notes are left out. *)
Definition _CAPABILITY_ROWS : list ProtocolCapability :=
  let full k l := mk_capability k l true true true true true in
  [full "openapi" "OpenAPI"; full "rest" "REST Discovery"; full "graphql" "GraphQL";
   mk_capability "grpc" "gRPC (generic)" true true false false false;
   full "grpc_unary" "gRPC Unary"; full "grpc_stream" "gRPC Server Stream"; full "soap" "SOAP / WSDL"; full "sql" "SQL";
   full "odata" "OData v4"; full "scim" "SCIM 2.0"; full "jsonrpc" "JSON-RPC 2.0";
   mk_capability "cli" "CLI" true true true false false; mk_capability "asyncapi" "AsyncAPI" true true true false false].

(** [_supports_native_grpc_stream_capability] *)
Definition _supports_native_grpc_stream_capability (d : EventDescriptor) : bool :=
  match ed_transport d, ed_support d, ed_operation_id d, ed_grpc_stream d with
  | grpc_stream_transport, supported, Some _, Some g => str_eqb (stream_mode_value (gs_mode g)) "server"
  | _, _, _, _ => false
  end.

(** [protocol_capability_key] *)
Definition protocol_capability_key (ir : ServiceIR) : string :=
  if negb (str_eqb (ir_protocol ir) "grpc") then ir_protocol ir
  else if existsb _supports_native_grpc_stream_capability (ir_event_descriptors ir) then "grpc_stream"
  else if existsb (λ o, op_enabled o && given (op_grpc_unary o)) (ir_operations ir) then "grpc_unary"
  else "grpc".

(** [_unknown_protocol_capability] *)
Definition _unknown_protocol_capability (protocol : string) : ProtocolCapability :=
  mk_capability protocol ("Unknown (" +:+ protocol +:+ ")") false false false false false.

(** [protocol_capability_for_service] *)
Definition protocol_capability_for_service (ir : ServiceIR) : ProtocolCapability :=
  let key := protocol_capability_key ir in
  default (_unknown_protocol_capability key) (List.find (λ c, str_eqb (pc_key c) key) _CAPABILITY_ROWS).

(** ** What a non-breaking report means *)

Lemma str_contains_mid a p b : str_contains p (a +:+ p +:+ b) = true.
Proof.
  induction a as [|c a IH].
  - change ("" +:+ p +:+ b) with (p +:+ b). destruct (p +:+ b) as [|c s] eqn:E; cbn [str_contains]; rewrite <-E, startswith_app; done.
  - change (startswith p (String c (a +:+ p +:+ b)) || str_contains p (a +:+ p +:+ b) = true). by rewrite IH, orb_true_r.
Qed.

Lemma lower_app a b : lower (a +:+ b) = lower a +:+ lower b.
Proof. unfold lower. induction a as [|c a IH]; [done|].
  change (String (lower_char c) (map_str lower_char (a +:+ b)) = String (lower_char c) (map_str lower_char a +:+ map_str lower_char b)).
  by rewrite IH.
Qed.

(** A change whose text has a breaking pattern in it *)
Lemma breaking_text p a b : p ∈ _BREAKING_PATTERNS → is_breaking (a +:+ p +:+ b) = true.
Proof.
  intros Hp. unfold is_breaking. apply existsb_exists. exists p. split; [by apply list_elem_of_In|].
  rewrite !lower_app. assert (lower p = p) as ->; [|apply str_contains_mid].
  assert (Forall (λ p, lower p = p) _BREAKING_PATTERNS) as H by by_eval. rewrite Forall_forall in H. by apply H.
Qed.

Lemma breaking_named p a n b c : p ∈ _BREAKING_PATTERNS → is_breaking (a +:+ n +:+ b +:+ p +:+ c) = true.
Proof.
  intros Hp. replace (a +:+ n +:+ b +:+ p +:+ c) with ((a +:+ n +:+ b) +:+ p +:+ c) by (by rewrite <-!str_app_assoc).
  by apply breaking_text.
Qed.

Lemma note_calm b c : existsb is_breaking (note b c) = false → is_breaking c = true → b = false.
Proof. destruct b; simpl; [|done]. rewrite orb_false_r. congruence. Qed.

Lemma existsb_app_calm (l k : list string) :
  existsb is_breaking (l ++ k) = false ↔ existsb is_breaking l = false ∧ existsb is_breaking k = false.
Proof. rewrite existsb_app. apply orb_false_iff. Qed.

Lemma existsb_concat_calm (ls : list (list string)) l :
  existsb is_breaking (concat ls) = false → l ∈ ls → existsb is_breaking l = false.
Proof.
  induction ls as [|l' ls IH]; intros H Hl; [by apply elem_of_nil in Hl|]. cbn in H. apply existsb_app_calm in H as [H1 H2].
  apply elem_of_cons in Hl as [->|Hl]; [done|by apply IH].
Qed.

Section lookups.
Context {A : Type}.
Implicit Types d e : dict A.

Lemma elem_of_insert_by {B} (le : B → B → bool) (x y : B) (l : list B) : y ∈ insert_by le x l ↔ y = x ∨ y ∈ l.
Proof.
  induction l as [|z l IH]; simpl; [by rewrite list_elem_of_singleton, elem_of_nil; tauto|].
  destruct (le x z); rewrite !elem_of_cons; [tauto|]. rewrite IH. tauto.
Qed.

Lemma elem_of_sorted_by {B} (le : B → B → bool) (y : B) (l : list B) : y ∈ sorted_by le l ↔ y ∈ l.
Proof. induction l as [|z l IH]; [done|]. unfold sorted_by in *. cbn. by rewrite elem_of_insert_by, elem_of_cons, IH. Qed.

Lemma elem_of_keys_only d e k : k ∈ keys_only d e ↔ k ∈ dict_keys d ∧ k ∉ dict_keys e.
Proof.
  unfold keys_only, sorted_strings. rewrite elem_of_sorted_by, elem_of_filterb, negb_true_iff.
  unfold dict_mem. rewrite bool_decide_eq_false, dict_get_is_Some. tauto.
Qed.

Lemma elem_of_common d e k a b : dict_get d k = Some a → dict_get e k = Some b → (k, (a, b)) ∈ common_entries d e.
Proof.
  intros Ha Hb. unfold common_entries. apply list_elem_of_omap. exists k. split; [|by rewrite Ha, Hb].
  unfold keys_both, sorted_strings. rewrite elem_of_sorted_by, elem_of_filterb. split.
  - unfold dict_mem. apply bool_decide_eq_true_2. by eexists.
  - apply dict_get_is_Some. by eexists.
Qed.

Lemma by_key_keys (key : A → string) l k : k ∈ dict_keys (by_key key l) ↔ k ∈ key <$> l.
Proof.
  unfold by_key, dict_of_list, dict_update. revert k. induction l as [|a l IH] using rev_ind; intros k; [done|].
  rewrite !fmap_app, foldl_app. cbn [foldl fmap list_fmap fst snd]. rewrite dict_keys_set, IH, elem_of_app, list_elem_of_singleton. tauto.
Qed.

Lemma by_key_get (key : A → string) l a : NoDup (key <$> l) → a ∈ l → dict_get (by_key key l) (key a) = Some a.
Proof.
  intros Hnd Ha. unfold by_key. rewrite dict_of_list_wf_id.
  - apply dict_get_elem; [|apply list_elem_of_fmap; by exists a]. unfold dict_wf, dict_keys. by rewrite <-list_fmap_compose.
  - unfold dict_wf, dict_keys. by rewrite <-list_fmap_compose.
Qed.
End lookups.

Section calm.
Context (repr : pyval → string).

(** What a client of the deployed operation relies on is still there. *)
Record still_callable (o o' : Operation) : Prop := {
  sc_method : op_method o' = op_method o;
  sc_path : op_path o' = op_path o;
  sc_enabled : op_enabled o' = op_enabled o;
  sc_risk : rm_risk_level (op_risk o') = rm_risk_level (op_risk o);
  sc_params : ∀ p, p ∈ op_params o → ∃ p', p' ∈ op_params o' ∧ pa_name p' = pa_name p ∧ pa_type p' = pa_type p ∧ pa_required p' = pa_required p;
}.

Lemma compare_params_calm o o' : NoDup (pa_name <$> op_params o) → NoDup (pa_name <$> op_params o') →
  existsb is_breaking (_compare_params repr o o') = false →
  ∀ p, p ∈ op_params o → ∃ p', p' ∈ op_params o' ∧ pa_name p' = pa_name p ∧ pa_type p' = pa_type p ∧ pa_required p' = pa_required p.
Proof.
  intros Hd Hl H p Hp. unfold _compare_params in H. rewrite !existsb_app_calm in H. destruct H as (_ & Hrem & Hchg).
  assert (pa_name p ∈ pa_name <$> op_params o') as Hin.
  { destruct (decide (pa_name p ∈ pa_name <$> op_params o')) as [|Hn]; [done|]. exfalso.
    assert (existsb is_breaking ((λ n, "param removed: " +:+ n) <$> keys_only (by_key pa_name (op_params o)) (by_key pa_name (op_params o'))) = true) as Hc;
      [|congruence].
    apply existsb_exists. exists ("param removed: " +:+ pa_name p). split; [|by apply (breaking_text "removed" "param " (": " +:+ pa_name p)); by_eval].
    apply list_elem_of_In, list_elem_of_fmap. eexists. split; [done|]. apply elem_of_keys_only. rewrite !by_key_keys. split; [|done].
    by apply list_elem_of_fmap_2. }
  apply list_elem_of_fmap in Hin as (p' & En & Hp'). exists p'. split; [done|]. split; [done|].
  assert (existsb is_breaking (param_changes repr (pa_name p, (p, p'))) = false) as Hc.
  { eapply existsb_concat_calm; [exact Hchg|]. apply list_elem_of_fmap_2, elem_of_common; [by apply by_key_get|].
    rewrite En. by apply by_key_get. }
  unfold param_changes in Hc. rewrite !existsb_app_calm in Hc. destruct Hc as (H1 & H2 & _). split.
  - apply note_calm in H1; [by apply negb_false_iff, str_eqb_eq in H1|].
    exact (breaking_named "type changed" "param '" (pa_name p) "' " (": " +:+ arrow (pa_type p) (pa_type p')) ltac:(by_eval)).
  - apply note_calm in H2; [by destruct (pa_required p), (pa_required p')|].
    exact (breaking_named "required changed" "param '" (pa_name p) "' "
      (": " +:+ arrow (show_bool (pa_required p)) (show_bool (pa_required p'))) ltac:(by_eval)).
Qed.

Lemma compare_operation_calm o o' : NoDup (pa_name <$> op_params o) → NoDup (pa_name <$> op_params o') →
  existsb is_breaking (_compare_operation repr o o') = false → still_callable o o'.
Proof.
  intros Hd Hl H. unfold _compare_operation in H. rewrite !existsb_app_calm in H. destruct H as (Hp & Hr & Hpath & Hm & He & _).
  split.
  - apply note_calm in Hm; [by apply negb_false_iff, bool_decide_eq_true_1 in Hm|].
    exact (breaking_text "method changed" "" (": " +:+ arrow (show_opt (op_method o)) (show_opt (op_method o'))) ltac:(by_eval)).
  - apply note_calm in Hpath; [by apply negb_false_iff, bool_decide_eq_true_1 in Hpath|].
    exact (breaking_text "path changed" "" (": " +:+ arrow (show_opt (op_path o)) (show_opt (op_path o'))) ltac:(by_eval)).
  - apply note_calm in He; [by destruct (op_enabled o), (op_enabled o')|].
    exact (breaking_text "enabled changed" "" (": " +:+ arrow (show_bool (op_enabled o)) (show_bool (op_enabled o'))) ltac:(by_eval)).
  - apply note_calm in Hr; [by apply negb_false_iff, bool_decide_eq_true_1 in Hr|].
    exact (breaking_text "risk level changed" "" (": " +:+ arrow (risk_value (rm_risk_level (op_risk o))) (risk_value (rm_risk_level (op_risk o'))))
             ltac:(by_eval)).
  - by apply compare_params_calm.
Qed.

Definition distinct_params (ir : ServiceIR) : Prop := ∀ o, o ∈ ir_operations ir → NoDup (pa_name <$> op_params o).

End calm.

Definition demo_live : ServiceIR :=
  ir_with_operations demo_ir_validated (demo_op "extra" safe :: ir_operations demo_ir_validated).

Lemma demo_live_wf : service_wf demo_ir_validated ∧ service_wf demo_live.
Proof.
  split; [apply (construct_eq demo_ir_validated demo_ir_validated)|apply (construct_eq demo_live demo_live)]; vm_compute; reflexivity.
Qed.


(** The text decides: adding a parameter called [removed_at] counts as breaking. *)
Example added_parameter_named_removed_is_breaking : is_breaking ("param added: " +:+ "removed_at") = true.
Proof. vm_compute. reflexivity. Qed.

(** What an operation executes is not compared. *)
Definition other_table (o : Operation) : Operation :=
  mk_operation (op_id o) (op_name o) (op_description o) (op_method o) (op_path o) (op_params o)
    (op_response_schema o) (op_error_schema o) (op_response_examples o) (op_risk o) (op_response_strategy o)
    (op_request_body_mode o) (op_body_param_name o) (op_async_job o) (op_graphql o)
    (Some (mk_sql "public" "owners" sql_table sql_query ["id"] [] [] [] 50 200)) (op_grpc_unary o) (op_soap o) (op_jsonrpc o)
    (op_cli o) (op_pagination o) (op_tags o) (op_tool_intent o) (op_source o) (op_confidence o) (op_sla o) (op_enabled o).

Example drift_misses_execution_contract :
  dr_has_drift (detect_drift (λ _, "") demo_ir_validated (ir_with_operations demo_ir_validated (other_table <$> ir_operations demo_ir_validated)) 0)
  = false.
Proof. vm_compute. reflexivity. Qed.

(** ** What an audit may run *)

(** A default audit changes nothing it was told to leave alone.  A tool the
    default policy lets an audit invoke has a sample, none of the placeholders of its
    path is filled with a synthetic value, and it is read by its method, or declared a
    discovery tool, or neither destructive nor with external effects nor writing
    state. *)
Theorem default_audit_is_harmless o samples :
  skip_reason_for default_policy o samples = None →
  (∃ arguments, dict_get samples (op_id o) = Some arguments ∧ _has_synthetic_path_placeholder_samples o arguments false = false) ∧
  (one_of (upper (default "" (op_method o))) ["GET"; "HEAD"; "OPTIONS"] = true ∨ op_tool_intent o = Some discovery ∨
   opt_flag (rm_destructive (op_risk o)) = false ∧ opt_flag (rm_external_side_effect (op_risk o)) = false ∧
   opt_flag (rm_writes_state (op_risk o)) = false).
Proof.
  unfold skip_reason_for. destruct (dict_get samples (op_id o)) as [arguments|]; [|done].
  destruct (_has_synthetic_path_placeholder_samples _ _ _) eqn:Es; [done|]. intros H. split; [by exists arguments|].
  cbn [default_policy ap_audit_safe_methods ap_audit_discovery_intent ap_skip_destructive ap_skip_external_side_effect ap_skip_writes_state
    ap_allow_idempotent_writes andb] in H.
  destruct (one_of _ _); [by left|]. right. destruct (op_tool_intent o) as [[]|]; [by left| |]; right;
    destruct (opt_flag (rm_destructive _)), (opt_flag (rm_external_side_effect _)), (opt_flag (rm_writes_state _)); done.
Qed.

Lemma default_audit_is_harmless_witness :
  opt_flag (rm_writes_state (op_risk (demo_op "list" safe))) = false ∧
  ∃ arguments, dict_get ([("list", [])] : dict (dict pyval)) (op_id (demo_op "list" safe)) = Some arguments.
Proof.
  split; [reflexivity|].
  destruct (default_audit_is_harmless (demo_op "list" safe) ([("list", [])] : dict (dict pyval)) eq_refl) as [(arguments & H & _) _]. by exists arguments.
Defined.

(** ** Thresholds are met exactly when nothing is reported *)

Lemma thresholds_met s t : check_thresholds s t = Ok [] ↔
  (∃ r, (if 0 <? ts_generated_tools s then ratio (ts_audited_tools s) (ts_generated_tools s) else Ok 0%float) = Ok r ∧
        PrimFloat.ltb r (at_min_audited_ratio t) = false) ∧
  (∀ m, at_max_failed t = Some m → ts_failed s ≤ m) ∧ (∀ m, at_min_passed t = Some m → m ≤ ts_passed s).
Proof.
  unfold check_thresholds. destruct (if 0 <? _ then _ else _) as [r|e]; cbn; [|naive_solver].
  destruct (PrimFloat.ltb r _) eqn:Er; [split; [by destruct (at_max_failed t)|]; intros [(r' & [= <-] & E) _]; congruence|].
  destruct (at_max_failed t) as [m|], (at_min_passed t) as [n|]; cbn;
    repeat match goal with |- context [?a <? ?b] => destruct (Z.ltb_spec a b) end; cbn;
    (split; [intros Hn; first [discriminate Hn|split_and!; [by exists r|intros ? [= <-]; lia|intros ? [= <-]; lia]|
               split_and!; [by exists r|done|intros ? [= <-]; lia]|split_and!; [by exists r|intros ? [= <-]; lia|done]|by split_and!; [exists r| |]]|
             intros (_ & H1 & H2); first [done|specialize (H1 _ eq_refl); lia|specialize (H2 _ eq_refl); lia]]).
Qed.
