(* ===== verification/IRPasses.v ===== *)
(** * Passes over service descriptions ([libs/ir/transform.py], [libs/ir/sla.py],
      [libs/enhancer/tool_intent.py], [pagination_inference.py],
      [error_normalizer.py])

    Operator-defined rewrites, and the deterministic passes that annotate every
    operation.  Each pass returns a copy of the description. *)

From S2P Require Export IRModels Glob PyFloat PyUrl.

(** ** Operator-defined transforms *)

Inductive TransformAction :=
| rename_operation | filter_by_tag | exclude_by_tag | add_tag | remove_tag | override_risk
| disable_operation | enable_operation | set_metadata | rename_service.

Record TransformRule := mk_rule { tr_action : TransformAction; tr_target : string; tr_value : pyval }.

Section transforms.
Context (repr : pyval → string).
Implicit Types ir : ServiceIR.
Implicit Types o : Operation.

(** The new name and id of an operation.  [None] when the rule gives a value that
    is not text: the copy then holds an identifier that is not a string, which is
    outside the description's types. *)
Definition renamed o (value : pyval) : option Operation :=
  match value with
  | VDict d =>
      match default (VStr (op_id o)) (dict_get d "id"), default (VStr (op_name o)) (dict_get d "name") with
      | VStr i, VStr n => Some (op_with_identity o i n)
      | _, _ => None
      end
  | v => Some (op_with_identity o (py_str repr v) (py_str repr v))
  end.

Definition with_risk_level (r : RiskMetadata) (l : RiskLevel) : RiskMetadata :=
  mk_risk (rm_writes_state r) (rm_destructive r) (rm_external_side_effect r) (rm_idempotent r) l (rm_confidence r) (rm_source r).

(** [_transform_operation] *)
Definition _transform_operation o (action : TransformAction) (value : pyval) : outcome exn (option Operation) :=
  match action with
  | rename_operation => Ok (renamed o value)
  | add_tag =>
      let tag := py_str repr value in
      Ok (Some (op_with_tags o (if bool_decide (tag ∈ op_tags o) then op_tags o else op_tags o ++ [tag])))
  | remove_tag => Ok (Some (op_with_tags o (List.filter (λ t, negb (str_eqb t (py_str repr value))) (op_tags o))))
  | override_risk =>
      match parse_risk (py_str repr value) with
      | Some l => Ok (Some (op_with_risk o (with_risk_level (op_risk o) l)))
      | None => Raise (value_error ("'" +:+ py_str repr value +:+ "' is not a valid RiskLevel"))
      end
  | disable_operation => Ok (Some (op_with_enabled o false))
  | enable_operation => Ok (Some (op_with_enabled o true))
  | _ => Ok (Some o)
  end.

(** [_matches] *)
Definition rule_matches (pattern value : string) : bool := star_fullmatch pattern value.

(** The loop over the operations *)
Fixpoint transform_operations (r : TransformRule) (l : list Operation) : outcome exn (option (list Operation)) :=
  match l with
  | [] => Ok (Some [])
  | o :: l' =>
      match (if rule_matches (tr_target r) (op_id o) then _transform_operation o (tr_action r) (tr_value r) else Ok (Some o)) with
      | Raise e => Raise e
      | Ok o' =>
          match transform_operations r l' with
          | Raise e => Raise e
          | Ok ops => Ok (match o', ops with Some o', Some ops => Some (o' :: ops) | _, _ => None end)
          end
      end
  end.

(** [_apply_single] *)
Definition _apply_single ir (r : TransformRule) : outcome exn (option ServiceIR) :=
  match tr_action r with
  | rename_service => Ok (Some (ir_with ir (py_str repr (tr_value r)) (ir_operations ir) (ir_metadata ir)))
  | set_metadata =>
      match tr_value r with
      | VDict d => Ok (Some (ir_with ir (ir_service_name ir) (ir_operations ir) (dict_update (ir_metadata ir) d)))
      | _ => Ok (Some ir)
      end
  | filter_by_tag =>
      Ok (Some (ir_with_operations ir (List.filter (λ o, bool_decide (py_str repr (tr_value r) ∈ op_tags o)) (ir_operations ir))))
  | exclude_by_tag =>
      Ok (Some (ir_with_operations ir (List.filter (λ o, negb (bool_decide (py_str repr (tr_value r) ∈ op_tags o))) (ir_operations ir))))
  | _ =>
      match transform_operations r (ir_operations ir) with
      | Raise e => Raise e
      | Ok ops => Ok (ir_with_operations ir <$> ops)
      end
  end.

(** [apply_transforms] *)
Fixpoint apply_transforms ir (rules : list TransformRule) : outcome exn (option ServiceIR) :=
  match rules with
  | [] => Ok (Some ir)
  | r :: rules' =>
      match _apply_single ir r with
      | Raise e => Raise e
      | Ok None => Ok None
      | Ok (Some ir') => apply_transforms ir' rules'
      end
  end.
End transforms.

(** ** Tool intents *)

(** The fields the passes below write *)
Definition op_annotated (o : Operation) (description : string) (errors : ErrorSchema) (pagination : option PaginationConfig)
    (intent : option ToolIntent) (sla : option SlaConfig) : Operation :=
  mk_operation (op_id o) (op_name o) description (op_method o) (op_path o) (op_params o)
    (op_response_schema o) errors (op_response_examples o) (op_risk o) (op_response_strategy o)
    (op_request_body_mode o) (op_body_param_name o) (op_async_job o) (op_graphql o) (op_sql o)
    (op_grpc_unary o) (op_soap o) (op_jsonrpc o) (op_cli o) pagination (op_tags o) intent
    (op_source o) (op_confidence o) sla (op_enabled o).

Definition op_with_intent o i := op_annotated o (op_description o) (op_error_schema o) (op_pagination o) (Some i) (op_sla o).
Definition op_with_description o d := op_annotated o d (op_error_schema o) (op_pagination o) (op_tool_intent o) (op_sla o).
Definition op_with_errors o e := op_annotated o (op_description o) e (op_pagination o) (op_tool_intent o) (op_sla o).
Definition op_with_pagination o p := op_annotated o (op_description o) (op_error_schema o) (Some p) (op_tool_intent o) (op_sla o).

(** [bool(flag)] of an optional flag *)
Definition flagged (b : option bool) : bool := default false b.

Definition _DISCOVERY_METHODS : list string := ["GET"; "HEAD"; "OPTIONS"].

(** [method and method.upper() in names] *)
Definition method_in (o : Operation) (names : list string) : bool :=
  match op_method o with Some m => str_truthy m && bool_decide (upper m ∈ names) | None => false end.

(** [derive_tool_intent] *)
Definition derive_tool_intent (o : Operation) : ToolIntent :=
  let risk := op_risk o in
  if flagged (rm_writes_state risk) || flagged (rm_destructive risk) || flagged (rm_external_side_effect risk) then action_intent
  else match rm_risk_level risk with
       | dangerous | cautious => action_intent
       | safe => if method_in o _DISCOVERY_METHODS then discovery else action_intent
       | unknown => action_intent
       end.

(** A pass over the operations; when nothing changed the same object is returned,
    which is the same description. *)
Definition over_operations (f : Operation → Operation) (ir : ServiceIR) : ServiceIR :=
  ir_with_operations ir (f <$> ir_operations ir).

Definition intent_of_operation (o : Operation) : Operation :=
  match op_tool_intent o with Some _ => o | None => op_with_intent o (derive_tool_intent o) end.

(** [derive_tool_intents] *)
Definition derive_tool_intents : ServiceIR → ServiceIR := over_operations intent_of_operation.

Definition _DISCOVERY_PREFIX : string := "[DISCOVERY] ".
Definition _ACTION_PREFIX : string := "[ACTION] ".

Definition intent_prefix (i : ToolIntent) : string :=
  match i with discovery => _DISCOVERY_PREFIX | action_intent => _ACTION_PREFIX end.

(** [desc] without the first of the two prefixes it starts with *)
Definition without_prefix (desc : string) : string :=
  if startswith _DISCOVERY_PREFIX desc then drop_str (String.length _DISCOVERY_PREFIX) desc
  else if startswith _ACTION_PREFIX desc then drop_str (String.length _ACTION_PREFIX) desc
  else desc.

Definition bifurcate_operation (o : Operation) : Operation :=
  match op_tool_intent o with
  | None => o
  | Some i =>
      if startswith (intent_prefix i) (op_description o) then o
      else op_with_description o (intent_prefix i +:+ without_prefix (op_description o))
  end.

(** [bifurcate_descriptions] *)
Definition bifurcate_descriptions : ServiceIR → ServiceIR := over_operations bifurcate_operation.

(** ** Error models *)

Definition _HTTP_METHODS : list string := ["GET"; "HEAD"; "OPTIONS"; "POST"; "PUT"; "PATCH"; "DELETE"].
Definition _SAFE_METHODS : list string := ["GET"; "HEAD"; "OPTIONS"].
Definition _CAUTIOUS_METHODS : list string := ["POST"; "PUT"; "PATCH"].
Definition _DANGEROUS_METHODS : list string := ["DELETE"].

Definition plain_error (code : Z) (description : string) : ErrorResponse := mk_error_response (Some code) None description None.
Definition _SAFE_ERRORS : list ErrorResponse :=
  [plain_error 400 "Bad Request"; plain_error 404 "Not Found"; plain_error 500 "Internal Server Error"].
Definition _CAUTIOUS_ERRORS : list ErrorResponse :=
  [plain_error 400 "Bad Request"; plain_error 404 "Not Found"; plain_error 409 "Conflict";
   plain_error 422 "Unprocessable Entity"; plain_error 500 "Internal Server Error"].
Definition _DANGEROUS_ERRORS : list ErrorResponse :=
  [plain_error 400 "Bad Request"; plain_error 404 "Not Found"; plain_error 409 "Conflict"; plain_error 500 "Internal Server Error"].
Definition _GENERIC_DEFAULT_ERROR_SCHEMA : dict pyval :=
  [("type", VStr "object");
   ("properties", VDict [("error", VDict [("type", VStr "string")]); ("code", VDict [("type", VStr "string")])])].

(** [_has_error_info] *)
Definition _has_error_info (o : Operation) : bool :=
  match es_responses (op_error_schema o) with [] => false | _ => true end || given (es_default_error_schema (op_error_schema o)).

(** [_infer_http_errors] *)
Definition _infer_http_errors (method : string) : list ErrorResponse :=
  let u := upper method in
  if bool_decide (u ∈ _SAFE_METHODS) then _SAFE_ERRORS
  else if bool_decide (u ∈ _CAUTIOUS_METHODS) then _CAUTIOUS_ERRORS
  else if bool_decide (u ∈ _DANGEROUS_METHODS) then _DANGEROUS_ERRORS
  else _SAFE_ERRORS.

(** [_normalize_operation] *)
Definition _normalize_operation (o : Operation) : Operation :=
  if _has_error_info o then o
  else
    let method := upper (default "" (op_method o)) in
    op_with_errors o
      (if bool_decide (method ∈ _HTTP_METHODS) then mk_error_schema (_infer_http_errors method) None
       else mk_error_schema [] (Some _GENERIC_DEFAULT_ERROR_SCHEMA)).

(** [normalize_error_schemas] *)
Definition normalize_error_schemas : ServiceIR → ServiceIR := over_operations _normalize_operation.

(** ** Pagination *)

Definition _OFFSET_PARAMS : list string := ["offset"; "skip"; "start"].
Definition _LIMIT_PARAMS : list string := ["limit"; "count"; "size"; "per_page"; "pageSize"; "page_size"; "top"].
Definition _CURSOR_PARAMS : list string := ["cursor"; "after"; "before"; "next_token"; "continuation_token"; "page_token"].
Definition _PAGE_PARAMS : list string := ["page"; "pageNumber"; "page_number"].

(** The first key of a list that a response schema's properties have; [in] fails
    on what is no container. *)
Definition first_property (keys : list string) (schema : option (dict pyval)) : outcome exn (option string) :=
  match schema with
  | None | Some [] => Ok None
  | Some s =>
      match default (VDict []) (dict_get s "properties") with
      | VDict props => Ok (List.find (dict_mem props) keys)
      | VList l => Ok (List.find (λ k, existsb (py_eq (VStr k)) l) keys)
      | VStr t => Ok (List.find (λ k, str_contains k t) keys)
      | _ => Raise (type_error "argument is not iterable")
      end
  end.

(** [_detect_next_field] and [_detect_total_field] *)
Definition _detect_next_field : option (dict pyval) → outcome exn (option string) :=
  first_property ["next"; "nextPage"; "next_page"; "nextCursor"; "next_cursor"; "nextToken"; "next_token"; "cursor"].
Definition _detect_total_field : option (dict pyval) → outcome exn (option string) :=
  first_property ["total"; "totalCount"; "total_count"; "count"; "totalItems"; "total_items"].

Section pagination.
(** Which element Python's [next(iter(s))] gives of a set; [None] of an empty one. *)
Context (any_of : list string → option string).

(** [param_names & names] *)
Definition common (o : Operation) (names : list string) : list string :=
  List.filter (λ n, bool_decide (n ∈ (λ p, lower (pa_name p)) <$> op_params o)) names.

Definition pagination_style style page limit cursor next total : PaginationConfig :=
  mk_pagination style page limit cursor next total None None.

(** [_detect_pagination] *)
Definition _detect_pagination (o : Operation) : outcome exn (option PaginationConfig) :=
  let limit := any_of (common o _LIMIT_PARAMS) in
  let field detect k := match detect (op_response_schema o) with Ok f => Ok (Some (k f)) | Raise e => Raise e end in
  match any_of (common o _CURSOR_PARAMS) with
  | Some c => field _detect_next_field (λ next, pagination_style "cursor" None limit (Some c) next None)
  | None =>
      match any_of (common o _OFFSET_PARAMS), limit with
      | Some off, Some l => field _detect_total_field (pagination_style "offset" (Some off) (Some l) None None)
      | off, _ =>
          match any_of (common o _PAGE_PARAMS) with
          | Some p => field _detect_total_field (pagination_style "page" (Some p) limit None None)
          | None =>
              Ok (match off, limit with
                  | None, Some l => Some (pagination_style "offset" None (Some l) None None None)
                  | _, _ => None
                  end)
          end
      end
  end.

(** [infer_pagination] *)
Definition infer_pagination (ir : ServiceIR) : outcome exn ServiceIR :=
  let annotate o := match _detect_pagination o with
                    | Raise e => Raise e
                    | Ok (Some p) => Ok (op_with_pagination o p)
                    | Ok None => Ok o
                    end in
  match traverse annotate (ir_operations ir) with
  | Ok ops => Ok (ir_with_operations ir ops)
  | Raise e => Raise e
  end.
End pagination.

(** ** Service levels *)

(** [math.ceil(f)]; [None] for a NaN or an infinity *)
Definition ceil_of_float (f : float) : option Z :=
  match int_of_float f with
  | Some z => Some (if float_gt_Z f z then z + 1 else z)
  | None => None
  end.

Definition overflow : exn := mk_exn "OverflowError" "" [].
Definition not_a_number (f : float) : exn := if PrimFloat.eqb f f then overflow else value_error "cannot convert float NaN to integer".

(** [sorted] of floats; without a NaN among them the order is total *)
Definition sorted_floats : list float → list float := sorted_by (λ x y, negb (PrimFloat.ltb y x)).

Definition default_retry : RetryConfig := mk_retry 2 100 2%float [].

(** The rank of a percentile among [n] values, from zero *)
Definition percentile_rank (percentile : float) (n : Z) : outcome exn Z :=
  match float_of_Z n with
  | None => Raise overflow
  | Some fn =>
      let x := PrimFloat.mul (PrimFloat.div percentile 100) fn in
      match ceil_of_float x with
      | Some r => Ok (Z.max 0 (Z.min (r - 1) (n - 1)))
      | None => Raise (not_a_number x)
      end
  end.

(** [compute_sla_from_latencies] *)
Definition compute_sla_from_latencies (latencies : list float) (percentile : float) : outcome exn SlaConfig :=
  match latencies with
  | [] => Raise (value_error "latencies must be non-empty")
  | _ =>
      if negb (PrimFloat.ltb 0 percentile && PrimFloat.leb percentile 100) then Raise (value_error "percentile must be in (0, 100]")
      else
        let sorted_lats := sorted_floats latencies in
        let n := Z.of_nat (length sorted_lats) in
        let rank := if n =? 1 then Ok 0 else percentile_rank percentile n in
        match rank with
        | Raise e => Raise e
        | Ok r =>
            let p_value := nth (Z.to_nat r) sorted_lats 0%float in
            match ceil_of_float p_value with
            | None => Raise (not_a_number p_value)
            | Some c =>
                let budget_ms := Z.max 1 c in
                Ok (mk_sla (Some budget_ms) (Some (budget_ms * 2)) default_retry)
            end
        end
  end.

(** [recommend_sla_for_ir] *)
Definition recommend_sla_for_ir (ir : ServiceIR) (latency_data : dict (list float)) : outcome exn ServiceIR :=
  let annotate o := match dict_get latency_data (op_id o) with
                    | None | Some [] => Ok o
                    | Some lats => match compute_sla_from_latencies lats 99 with
                                   | Ok sla => Ok (op_with_sla o (Some sla))
                                   | Raise e => Raise e
                                   end
                    end in
  match traverse annotate (ir_operations ir) with
  | Ok ops => Ok (ir_with_operations ir ops)
  | Raise e => Raise e
  end.

(** One operation's entry of the report *)
Definition sla_entry (o : Operation) : dict pyval :=
  let vint := λ z, match z with Some n => VInt n | None => VNone end in
  [("operation_id", VStr (op_id o)); ("has_sla", VBool (given (op_sla o)))] ++
  match op_sla o with
  | Some s => [("latency_budget_ms", vint (sl_latency_budget_ms s)); ("timeout_ms", vint (sl_timeout_ms s));
               ("retry", VDict [("max_retries", VInt (rt_max_retries (sl_retry s)));
                                ("backoff_base_ms", VInt (rt_backoff_base_ms (sl_retry s)));
                                ("backoff_multiplier", VFloat (rt_backoff_multiplier (sl_retry s)))])]
  | None => [("latency_budget_ms", VNone); ("timeout_ms", VNone); ("retry", VNone)]
  end.

(** [export_sla_report] *)
Definition export_sla_report (ir : ServiceIR) : dict pyval :=
  let has := λ o, given (op_sla o) in
  let count := λ p, VInt (Z.of_nat (length (List.filter p (ir_operations ir)))) in
  [("operations", VList ((λ o, VDict (sla_entry o)) <$> ir_operations ir));
   ("summary", VDict [("total_operations", VInt (Z.of_nat (length (ir_operations ir))));
                      ("with_sla", count has); ("without_sla", count (λ o, negb (has o)))])].

Section feasibility.
(** A power of a float; raises [OverflowError] *)
Context (float_pow : float → nat → outcome exn float).

(** The worst-case time of the retries, added up as the code does *)
Fixpoint retry_time (base step multiplier total : float) (i n : nat) : outcome exn float :=
  match n with
  | O => Ok total
  | S n' =>
      match float_pow multiplier i with
      | Ok p => retry_time base step multiplier (PrimFloat.add total (PrimFloat.add (PrimFloat.mul base p) step)) (S i) n'
      | Raise e => Raise e
      end
  end.

Inductive sla_warning := AggressiveBudget (budget : Z) | TimeoutBelowBudget (timeout budget : Z) | RetriesExceedTimeout (retries timeout : Z).

(** [budget or timeout] *)
Definition budget_or (budget : option Z) (timeout : Z) : Z :=
  match budget with Some b => if b =? 0 then timeout else b | None => timeout end.

(** [validate_sla_feasibility]: which of the three warnings apply, in order *)
Definition validate_sla_feasibility (s : SlaConfig) : outcome exn (list sla_warning) :=
  let retry := sl_retry s in
  let aggressive := match sl_latency_budget_ms s with Some b => if b <? 10 then [AggressiveBudget b] else [] | None => [] end in
  let below := match sl_latency_budget_ms s, sl_timeout_ms s with
               | Some b, Some t => if t <? b then [TimeoutBelowBudget t b] else []
               | _, _ => []
               end in
  let retries := match sl_timeout_ms s with
                 | Some t =>
                     if 0 <? rt_max_retries retry then
                       match float_of_Z (budget_or (sl_latency_budget_ms s) t), float_of_Z (rt_backoff_base_ms retry) with
                       | Some step, Some base =>
                           match retry_time base step (rt_backoff_multiplier retry) step 0 (Z.to_nat (rt_max_retries retry)) with
                           | Ok total => Ok (if float_gt_Z total t then [RetriesExceedTimeout (rt_max_retries retry) t] else [])
                           | Raise e => Raise e
                           end
                       | _, _ => Raise overflow
                       end
                     else Ok []
                 | None => Ok []
                 end in
  match retries with Ok r => Ok (aggressive ++ below ++ r) | Raise e => Raise e end.
End feasibility.

(** ** Integrity through the passes *)

Lemma service_wf_operations (ir : ServiceIR) (ops : list Operation) (name : string) (metadata : dict pyval) :
  str_truthy name = true → op_id <$> ops = op_ids ir → service_wf ir → service_wf (ir_with ir name ops metadata).
Proof.
  intros Hname Hids [Hn Hop Hc He Hg Hri Hru Hpi Hpn Hp Hr].
  assert (op_ids (ir_with ir name ops metadata) = op_ids ir) as E by exact Hids.
  split; rewrite ?E; simpl; eauto.
Qed.

Lemma over_operations_wf f ir :
  (∀ o, op_id (f o) = op_id o) → service_wf ir → service_wf (over_operations f ir).
Proof.
  intros Hf Hwf. apply service_wf_operations; [apply Hwf| |done].
  rewrite <-list_fmap_compose. unfold op_ids. apply list_fmap_ext. intros i o _. apply Hf.
Qed.

Lemma operation_wf_annotated o d e p i s : operation_wf o → operation_wf (op_annotated o d e p i s).
Proof. intros [Hu Hc Hm Hr]. split; [exact Hu|exact Hc|exact Hm|exact Hr]. Qed.

Create HintDb passes.

(** Whatever an annotation pass writes, the operation keeps its identity and its
    contract. *)
Definition annotates (f : Operation → Operation) : Prop := ∀ o, ∃ d e p i s, f o = op_annotated o d e p i s.

Lemma annotated_self o : ∃ d e p i s, o = op_annotated o d e p i s.
Proof. exists (op_description o), (op_error_schema o), (op_pagination o), (op_tool_intent o), (op_sla o). by destruct o. Qed.
#[export] Hint Resolve annotated_self : passes.

Lemma intent_annotates : annotates intent_of_operation.
Proof. intros o. unfold intent_of_operation. case_match; [auto with passes|by repeat eexists]. Qed.
Lemma bifurcate_annotates : annotates bifurcate_operation.
Proof. intros o. unfold bifurcate_operation. repeat case_match; try solve [auto with passes]. by repeat eexists. Qed.
Lemma normalize_annotates : annotates _normalize_operation.
Proof. intros o. unfold _normalize_operation. case_match; [auto with passes|by repeat eexists]. Qed.
#[export] Hint Resolve intent_annotates bifurcate_annotates normalize_annotates : passes.

Lemma annotates_wf f ir : annotates f → service_wf ir → Forall operation_wf (ir_operations ir) →
  service_wf (over_operations f ir) ∧ Forall operation_wf (ir_operations (over_operations f ir)).
Proof.
  intros Hf Hwf Hops. split.
  - apply over_operations_wf; [|done]. intros o. destruct (Hf o) as (d & e & p & i & s & ->). done.
  - simpl. apply Forall_fmap. eapply Forall_impl; [exact Hops|]. intros o Ho.
    destruct (Hf o) as (d & e & p & i & s & Ef). unfold compose. rewrite Ef. by apply operation_wf_annotated.
Qed.

(** ** Transforms and validation

    The rules copy descriptions without validating them again.  Which rules keep
    a description valid, whatever it holds: *)
Section transform_integrity.
Context (repr : pyval → string).

Definition keeps_identity (r : TransformRule) : bool :=
  match tr_action r with
  | rename_operation | filter_by_tag | exclude_by_tag => false
  | rename_service => str_truthy (py_str repr (tr_value r))
  | _ => true
  end.

Definition keeps_classification (r : TransformRule) : bool :=
  match tr_action r with
  | enable_operation => false
  | override_risk => negb (str_eqb (py_str repr (tr_value r)) "unknown")
  | _ => true
  end.

(** A rule that names no risk level *)
Definition names_no_level (r : TransformRule) : Prop :=
  tr_action r = override_risk ∧ parse_risk (py_str repr (tr_value r)) = None.

Definition applied (r : TransformRule) (o o' : Operation) : Prop :=
  if rule_matches (tr_target r) (op_id o) then _transform_operation repr o (tr_action r) (tr_value r) = Ok (Some o') else o' = o.

Lemma transform_operations_applied r l l' :
  transform_operations repr r l = Ok (Some l') → Forall2 (applied r) l l'.
Proof.
  revert l'. induction l as [|o l IH]; intros l' H; simpl in H; [by injection H as <-|].
  destruct (if rule_matches _ _ then _ else _) as [o1|e] eqn:E; [|done].
  destruct (transform_operations repr r l) as [ops|e]; [|done].
  destruct o1 as [o1|], ops as [ops|]; try done. injection H as <-. constructor; [|by apply IH].
  unfold applied. destruct (rule_matches _ _); [done|by injection E].
Qed.

Lemma parse_risk_value s l : parse_risk s = Some l → risk_value l = s.
Proof. unfold parse_risk. intros H. apply List.find_some in H as [_ H]. by apply str_eqb_eq in H. Qed.

Lemma applied_keeps r o o' : keeps_identity r = true → keeps_classification r = true → applied r o o' →
  op_id o' = op_id o ∧ (operation_wf o → operation_wf o').
Proof.
  unfold keeps_identity, keeps_classification, applied. destruct (rule_matches _ _); [|intros _ _ ->; tauto].
  unfold _transform_operation. destruct (tr_action r); intros Hi Hc H; try discriminate;
    try (injection H as <-; split; [done|]; intros [Hu H1 H2 H3]; split; done).
  destruct (parse_risk _) as [l|] eqn:El; [|discriminate]. injection H as <-. split; [done|].
  intros [Hu H1 H2 H3]. split; try done. simpl. intros ->. apply parse_risk_value in El.
  by rewrite <-El in Hc.
Qed.

Lemma transform_operations_outcome r l : keeps_identity r = true →
  match transform_operations repr r l with
  | Ok (Some _) => True
  | Ok None => False
  | Raise e => exn_type e = "ValueError" ∧ names_no_level r
  end.
Proof.
  intros Hi. induction l as [|o l IH]; [done|]. cbn [transform_operations].
  destruct (if rule_matches _ _ then _ else _) as [o1|e] eqn:E.
  - assert (is_Some o1) as [o2 ->].
    { destruct (rule_matches _ _); [|by injection E as <-]. unfold keeps_identity in Hi. unfold _transform_operation in E.
      destruct (tr_action r); try discriminate; try (injection E as <-; by eexists). destruct (parse_risk _); [|done]. by injection E as <-. }
    by destruct (transform_operations repr r l) as [[ops|]|e].
  - destruct (rule_matches _ _); [|done]. unfold _transform_operation in E. unfold names_no_level.
    destruct (tr_action r); try discriminate. destruct (parse_risk _); [done|]. by injection E as <-.
Qed.

Lemma apply_single_keeps ir r : keeps_identity r = true → keeps_classification r = true →
  service_wf ir → Forall operation_wf (ir_operations ir) →
  match _apply_single repr ir r with
  | Ok (Some ir') => service_wf ir' ∧ Forall operation_wf (ir_operations ir') ∧ op_ids ir' = op_ids ir
  | Ok None => False
  | Raise e => exn_type e = "ValueError" ∧ names_no_level r
  end.
Proof.
  intros Hi Hc Hwf Hops. pose proof (transform_operations_outcome r (ir_operations ir) Hi) as Hout.
  pose proof (transform_operations_applied r (ir_operations ir)) as Happ.
  assert (∀ ops, Forall2 (applied r) (ir_operations ir) ops →
    service_wf (ir_with_operations ir ops) ∧ Forall operation_wf ops ∧ op_id <$> ops = op_ids ir) as Hall.
  { intros ops H2. assert (op_id <$> ops = op_ids ir ∧ Forall operation_wf ops) as [E Ho].
    { unfold op_ids. clear Hwf Hout Happ. revert Hops. induction H2 as [|o o' l l' H _ IH]; intros Hops; [by split|].
      inv Hops. destruct (applied_keeps r o o' Hi Hc H) as [Eid Hw]. destruct IH as [E Ho]; [done|].
      cbn [fmap list_fmap]. split; [by f_equal|]. constructor; [by apply Hw|done]. }
    split; [|done]. apply service_wf_operations; [apply Hwf|exact E|done]. }
  unfold _apply_single, keeps_identity in *.
  destruct (tr_action r) eqn:Ea; try discriminate;
    try (destruct (transform_operations repr r (ir_operations ir)) as [[ops|]|e]; [|done|done]; apply Hall, Happ; reflexivity).
  - destruct (tr_value r); (split; [|split; [exact Hops|reflexivity]]);
      try exact Hwf; by apply service_wf_operations; [apply Hwf|reflexivity|].
  - split; [|split; [exact Hops|reflexivity]]. apply service_wf_operations; [exact Hi|reflexivity|exact Hwf].
Qed.

(** Which operator transforms keep a service description valid.  Applied to a
    valid description, a list of rules that neither renames or drops operations
    (nor empties the service's name), nor switches operations on, nor declares a
    risk unknown gives a valid description with the same operations in the same
    order; the only way it can fail is a rule that names no risk level, with
    [ValueError]. *)
Theorem transforms_keep_integrity ir rules :
  service_wf ir → Forall operation_wf (ir_operations ir) →
  Forall (λ r, keeps_identity r = true ∧ keeps_classification r = true) rules →
  match apply_transforms repr ir rules with
  | Ok (Some ir') => service_wf ir' ∧ Forall operation_wf (ir_operations ir') ∧ op_ids ir' = op_ids ir
  | Ok None => False
  | Raise e => exn_type e = "ValueError" ∧ ∃ r, r ∈ rules ∧ names_no_level r
  end.
Proof.
  intros Hwf Hops Hr. revert ir Hwf Hops. induction Hr as [|r rules [Hi Hc] _ IH]; intros ir Hwf Hops; [done|].
  cbn [apply_transforms]. pose proof (apply_single_keeps ir r Hi Hc Hwf Hops) as H1.
  destruct (_apply_single repr ir r) as [[ir1|]|e]; [|done|].
  - destruct H1 as (Hwf1 & Hops1 & Eids). specialize (IH ir1 Hwf1 Hops1).
    destruct (apply_transforms repr ir1 rules) as [[ir2|]|e]; [|done|].
    + by rewrite <-Eids.
    + destruct IH as (He & r' & Hin & Hn). split; [done|]. exists r'. split; [by right|done].
  - split; [apply H1|]. exists r. split; [left|apply H1].
Qed.
End transform_integrity.

Lemma demo_ir_valid : service_wf demo_ir_validated ∧ Forall operation_wf (ir_operations demo_ir_validated).
Proof.
  split.
  - apply (construct_eq demo_ir_validated demo_ir_validated). vm_compute. reflexivity.
  - repeat constructor; try done; intros *; vm_compute; intros; simplify_eq; done.
Qed.

Definition demo_rules : list TransformRule :=
  [mk_rule add_tag "li*" (VStr "public"); mk_rule override_risk "list" (VStr "cautious"); mk_rule disable_operation "*" VNone].

Lemma transforms_keep_integrity_witness : ∃ ir',
  apply_transforms (λ _, "") demo_ir_validated demo_rules = Ok (Some ir') ∧ service_wf ir' ∧
  Forall operation_wf (ir_operations ir').
Proof.
  assert (service_wf demo_ir_validated) as Hwf by apply demo_ir_valid.
  assert (Forall operation_wf (ir_operations demo_ir_validated)) as Hops by apply demo_ir_valid.
  assert (Forall (λ r, keeps_identity (λ _, "") r = true ∧ keeps_classification (λ _, "") r = true) demo_rules) as Hr
    by (repeat constructor).
  pose proof (transforms_keep_integrity (λ _, "") demo_ir_validated demo_rules Hwf Hops Hr) as H.
  destruct (apply_transforms (λ _, "") demo_ir_validated demo_rules) as [[ir'|]|e] eqn:E; [|destruct H|by vm_compute in E].
  exists ir'. split; [reflexivity|]. split; apply H.
Defined.

(** A wildcard rename gives every operation the same id; nothing complains. *)
Example transform_duplicates_ids :
  match apply_transforms (λ _, "") demo_ir_validated [mk_rule rename_operation "*" (VStr "x")] with
  | Ok (Some ir') => op_ids ir' = ["x"; "x"]
  | _ => False
  end.
Proof. vm_compute. reflexivity. Qed.
