(* ===== verification/Enhancement.v ===== *)
(** * The enhance stage after the language model ([libs/enhancer/tool_grouping.py],
      [resource_generator.py], [prompt_generator.py], [examples_generator.py],
      [_apply_post_enhancement] of
      [apps/compiler_worker/activities/production.py])

    Intents, descriptions, tool groups, error models, resources, prompts and
    examples, in the order the stage applies them.  What the language model
    answers is arbitrary. *)

From S2P Require Export IRPasses.
From Stdlib Require Import Ascii.

Section enhancement.
Context (json_indent : pyval → string) (json_loads : string → option pyval) (parse_float : string → option float)
  (coerce_int : pyval → option Z).
Implicit Types ir : ServiceIR.
Implicit Types o : Operation.

(** ** Tool groups *)

Record GroupingResult := mk_grouping { gr_groups : list ToolGroup; gr_ungrouped : list string; gr_llm_calls : Z }.

Definition newline_char : ascii := "010"%char.
Definition newline_str : string := String newline_char "".

(** The text between the fences of a Markdown block *)
Definition unfence (content : string) : string :=
  let text := strip content in
  if startswith "```" text || startswith "~~~" text then
    let fence := String.substring 0 1 text in
    let lines := tail (split_on newline_char text) in
    let lines := match last lines with
                 | Some l => if startswith fence (strip l) then removelast lines else lines
                 | None => lines
                 end in
    strip (join newline_str lines)
  else text.

(** [[oid for oid in ids if oid in valid_ids]]: testing a list or a dict for
    membership of a set fails. *)
Fixpoint existing_ids (valid : list string) (l : list pyval) : outcome exn (list string) :=
  match l with
  | [] => Ok []
  | v :: l' =>
      match v with
      | VList _ | VDict _ => Raise (type_error "unhashable type")
      | _ =>
          match existing_ids valid l' with
          | Raise e => Raise e
          | Ok ids => Ok (match v with VStr s => if bool_decide (s ∈ valid) then s :: ids else ids | _ => ids end)
          end
      end
  end.

(** [max(0.0, min(1.0, x))] *)
Definition clamp_unit (x : float) : float :=
  let m := if PrimFloat.ltb x 1 then x else 1%float in
  if PrimFloat.ltb 0 m then m else 0%float.

(** [float(v)] *)
Definition to_float (v : pyval) : outcome exn float :=
  match v with
  | VStr s => match parse_float s with Some f => Ok f | None => Raise (value_error "could not convert string to float") end
  | VNone | VList _ | VDict _ => Raise (type_error "float() argument must be a string or a real number")
  | _ => match as_float v with Some f => Ok f | None => Raise overflow end
  end.

(** One entry of the answer; [None] when it is skipped *)
Definition parse_group (valid : list string) (item : pyval) : outcome exn (option ToolGroup) :=
  match item with
  | VDict d =>
      let group_id := default (VStr "") (dict_get d "id") in
      let label := default (VStr "") (dict_get d "label") in
      if negb (truthy group_id) || negb (truthy label) then Ok None
      else
        match iterate (default (VList []) (dict_get d "operation_ids")) with
        | Raise e => Raise e
        | Ok l =>
            match existing_ids valid l with
            | Raise e => Raise e
            | Ok [] => Ok None
            | Ok ids =>
                match to_float (default (VFloat 0.5) (dict_get d "confidence")) with
                | Raise e => Raise e
                | Ok c =>
                    match group_id, label, default (VStr "") (dict_get d "intent") with
                    | VStr i, VStr lbl, VStr intent => Ok (Some (mk_group i lbl intent ids src_llm (clamp_unit c)))
                    | _, _, _ => Raise (field_error "ToolGroup")
                    end
                end
            end
        end
  | _ => Ok None
  end.

(** The failures the parsers turn into an empty answer; [ValidationError] is a
    [ValueError]. *)
Definition parse_failures : list string := ["JSONDecodeError"; "KeyError"; "TypeError"; "ValueError"; "ValidationError"].

(** [_parse_grouping_response] *)
Definition _parse_grouping_response (content : string) (operations : list Operation) : outcome exn (list ToolGroup) :=
  match json_loads (unfence content) with
  | Some (VList data) =>
      match traverse (parse_group (op_id <$> operations)) data with
      | Ok groups => Ok (omap id groups)
      | Raise e => if one_of (exn_type e) parse_failures then Ok [] else Raise e
      end
  | _ => Ok []
  end.

(** ** The language model *)

(** The failures of a call that the callers absorb *)
Definition call_failures : list string :=
  parse_failures ++ ["RuntimeError"; "HTTPError"; "HTTPStatusError"; "ConnectError"; "TimeoutException"].

Section with_llm.
Context {W : Type} (complete : string → comp W exn string).
(** The prompts, of which nothing below depends *)
Context (grouping_prompt : ServiceIR → list Operation → string) (examples_prompt : Operation → string → string).

(** [ToolGrouper.group] *)
Definition group ir : comp W exn GroupingResult :=
  let enabled_ops := List.filter op_enabled (ir_operations ir) in
  match enabled_ops with
  | [] => ret (mk_grouping [] [] 0)
  | _ =>
      answer <- attempt (complete (grouping_prompt ir enabled_ops)) ;;
      match answer with
      | Raise e => if one_of (exn_type e) call_failures then ret (mk_grouping [] [] 1) else raise e
      | Ok content =>
          match _parse_grouping_response content enabled_ops with
          | Raise e => raise e
          | Ok groups =>
              let grouped := concat (tg_operation_ids <$> groups) in
              ret (mk_grouping groups (List.filter (λ i, negb (bool_decide (i ∈ grouped))) (op_id <$> enabled_ops)) 1)
          end
      end
  end.

(** [model_copy] of the groups, resources and prompts *)
Definition ir_with_parts ir (groups : list ToolGroup) (resources : list ResourceDefinition) (prompts : list PromptDefinition) : ServiceIR :=
  mk_ir (ir_version ir) (ir_compiler_version ir) (ir_source_url ir) (ir_source_hash ir) (ir_protocol ir)
    (ir_service_name ir) (ir_service_description ir) (ir_base_url ir) (ir_auth ir) (ir_operations ir) (ir_operation_chains ir)
    groups (ir_event_descriptors ir) resources prompts
    (ir_metadata ir) (ir_created_at ir) (ir_tenant ir) (ir_environment ir).

(** [apply_grouping] *)
Definition apply_grouping ir (r : GroupingResult) : ServiceIR :=
  match gr_groups r with [] => ir | g => ir_with_parts ir g (ir_resource_definitions ir) (ir_prompt_definitions ir) end.

(** ** Examples *)

Definition op_with_examples o (examples : list ResponseExample) : Operation :=
  mk_operation (op_id o) (op_name o) (op_description o) (op_method o) (op_path o) (op_params o)
    (op_response_schema o) (op_error_schema o) examples (op_risk o) (op_response_strategy o)
    (op_request_body_mode o) (op_body_param_name o) (op_async_job o) (op_graphql o) (op_sql o)
    (op_grpc_unary o) (op_soap o) (op_jsonrpc o) (op_cli o) (op_pagination o) (op_tags o) (op_tool_intent o)
    (op_source o) (op_confidence o) (op_sla o) (op_enabled o).

(** [_needs_examples] *)
Definition _needs_examples o : bool := given (op_response_schema o) && no_items (op_response_examples o).

(** One example of the answer; [None] when it is skipped or malformed *)
Definition parse_example (item : pyval) : option ResponseExample :=
  match item with
  | VDict d =>
      match default (VStr "example") (dict_get d "name"), default (VStr "") (dict_get d "description") with
      | VStr n, VStr descr =>
          let code := match get_or_none d "status_code" with VNone => Some None | v => Some <$> coerce_int v end in
          match code with
          | Some c => let e := mk_example n descr c (get_or_none d "body") src_llm in if ResponseExample_fields e then Some e else None
          | None => None
          end
      | _, _ => None
      end
  | _ => None
  end.

(** [_parse_examples] *)
Definition _parse_examples (raw : string) : list ResponseExample :=
  match json_loads raw with
  | None => []
  | Some (VList data) => omap parse_example data
  | Some v => omap parse_example [v]
  end.

(** [_generate_for_operation] *)
Definition _generate_for_operation o (service_name : string) : comp W exn (list ResponseExample) :=
  answer <- attempt (complete (examples_prompt o service_name)) ;;
  match answer with
  | Ok content => ret (_parse_examples content)
  | Raise e => if one_of (exn_type e) call_failures then ret [] else raise e
  end.

Fixpoint generate_loop (service_name : string) (l : list Operation) : comp W exn (list Operation) :=
  match l with
  | [] => ret []
  | o :: l' =>
      o' <- (if _needs_examples o then
               examples <- _generate_for_operation o service_name ;;
               ret (match examples with [] => o | _ => op_with_examples o examples end)
             else ret o) ;;
      ops <- generate_loop service_name l' ;;
      ret (o' :: ops)
  end.

(** [ExamplesGenerator.generate] *)
Definition generate ir : comp W exn ServiceIR :=
  ops <- generate_loop (ir_service_name ir) (ir_operations ir) ;;
  ret (ir_with_operations ir ops).

(** ** Resources *)

Definition _service_uri (service_name resource : string) : string := "service:///" +:+ service_name +:+ "/" +:+ resource.

Definition static_resource ir (kind description : string) (content : pyval) : ResourceDefinition :=
  mk_resource (ir_service_name ir +:+ "-" +:+ kind) (ir_service_name ir +:+ " " +:+ kind) description
    (_service_uri (ir_service_name ir) kind) "application/json" "static" (Some (json_indent content)) None [].

Definition vlen {A} (l : list A) : pyval := VInt (Z.of_nat (length l)).
Definition count_ops (p : Operation → bool) ir : pyval := vlen (List.filter p (ir_operations ir)).

Definition _schema_resource ir : ResourceDefinition :=
  static_resource ir "schema" ("API schema summary for " +:+ ir_service_name ir)
    (VDict [("service_name", VStr (ir_service_name ir)); ("protocol", VStr (ir_protocol ir)); ("base_url", VStr (ir_base_url ir));
            ("description", VStr (ir_service_description ir)); ("ir_version", VStr (ir_version ir));
            ("compiler_version", VStr (ir_compiler_version ir)); ("operation_count", vlen (ir_operations ir))]).

Definition _operations_resource ir : ResourceDefinition :=
  static_resource ir "operations" ("List of available operations for " +:+ ir_service_name ir)
    (VList ((λ o, VDict [("id", VStr (op_id o)); ("name", VStr (op_name o)); ("description", VStr (op_description o));
                         ("method", opt_str (op_method o)); ("path", opt_str (op_path o));
                         ("risk_level", VStr (risk_value (rm_risk_level (op_risk o)))); ("enabled", VBool (op_enabled o))])
            <$> ir_operations ir)).

Definition _auth_requirements_resource ir : ResourceDefinition :=
  let a := ir_auth ir in
  static_resource ir "auth-requirements" ("Authentication requirements for " +:+ ir_service_name ir)
    (VDict ([("type", VStr (auth_value (ac_type a)))]
      ++ match ac_oauth2 a with
         | Some c => [("oauth2_token_url", VStr (oc_token_url c)); ("oauth2_scopes", VList (VStr <$> oc_scopes c))]
         | None => []
         end
      ++ match ac_header_name a with Some h => [("header_name", VStr h)] | None => [] end
      ++ match ac_api_key_location a with Some l => [("api_key_location", VStr l)] | None => [] end)).

Definition has_level (l : RiskLevel) o : bool := bool_decide (rm_risk_level (op_risk o) = l).

Definition _risk_profile_resource ir : ResourceDefinition :=
  let flag f := count_ops (λ o, flagged (f (op_risk o))) ir in
  static_resource ir "risk-profile" ("Aggregate risk profile for " +:+ ir_service_name ir)
    (VDict [("service_name", VStr (ir_service_name ir)); ("total_operations", vlen (ir_operations ir));
            ("risk_distribution", VDict [("safe", count_ops (has_level safe) ir); ("cautious", count_ops (has_level cautious) ir);
                                         ("dangerous", count_ops (has_level dangerous) ir)]);
            ("flags", VDict [("destructive", flag rm_destructive); ("writes_state", flag rm_writes_state);
                             ("idempotent", flag rm_idempotent)])]).

(** [errors[code]], each operation once *)
Definition add_error (op_id code : string) (errors : dict (list string)) : dict (list string) :=
  let ids := default [] (dict_get errors code) in
  dict_set errors code (if bool_decide (op_id ∈ ids) then ids else ids ++ [op_id]).

Definition error_catalog ir : dict (list string) :=
  foldl (λ errors o, foldl (λ errors code, add_error (op_id o) code errors) errors (omap er_error_code (es_responses (op_error_schema o))))
    [] (ir_operations ir).

Definition _error_catalog_resource ir : ResourceDefinition :=
  let errors := error_catalog ir in
  static_resource ir "error-catalog" ("Catalog of known error responses for " +:+ ir_service_name ir)
    (VDict [("service_name", VStr (ir_service_name ir));
            ("error_codes", VDict ((λ code, let ids := default [] (dict_get errors code) in
                                     (code, VDict [("operations", VList (VStr <$> ids)); ("count", vlen ids)]))
                                   <$> sorted_strings (dict_keys errors)));
            ("total_error_codes", vlen errors)]).

(** [generate_resources] *)
Definition generate_resources ir : list ResourceDefinition :=
  [_schema_resource ir; _operations_resource ir; _auth_requirements_resource ir; _risk_profile_resource ir; _error_catalog_resource ir].

(** ** Prompts *)

Definition prompt_argument (name description default_value : string) : PromptArgument :=
  mk_prompt_argument name description false (Some default_value).

Definition _explore_prompt ir : PromptDefinition :=
  mk_prompt ("explore_" +:+ ir_service_name ir) ("Explore " +:+ ir_service_name ir)
    ("List available operations for " +:+ ir_service_name ir +:+ " and their risk levels")
    "List available operations for {service_name} and their risk levels. Summarize what each tool does before using any."
    [prompt_argument "service_name" "Name of the service to explore" (ir_service_name ir)]
    (op_id <$> List.filter op_enabled (ir_operations ir)) ["discovery"].

(** [_is_safe_operation] *)
Definition _is_safe_operation o : bool :=
  match op_tool_intent o with Some discovery => true | _ => false end || has_level safe o || method_in o ["GET"].

Definition _safe_discovery_prompt ir : PromptDefinition :=
  let safe_ids := op_id <$> List.filter (λ o, op_enabled o && _is_safe_operation o) (ir_operations ir) in
  let safe_tool_list := match safe_ids with [] => "(none)" | _ => join ", " safe_ids end in
  mk_prompt ("safe_discovery_" +:+ ir_service_name ir) ("Safe discovery " +:+ ir_service_name ir)
    ("Only use discovery (read-only) tools to explore " +:+ ir_service_name ir)
    ("Only use discovery (read-only) tools to explore {service_name}. Available safe tools: " +:+ safe_tool_list)
    [prompt_argument "service_name" "Name of the service to explore safely" (ir_service_name ir)]
    safe_ids ["discovery"; "safe"].

(** [_extract_entity_from_path] *)
Definition _extract_entity_from_path (path : string) : option string :=
  let segments := List.filter (λ s, str_truthy s && negb (startswith "{" s) && negb (startswith ":" s)) (split_on "/"%char path) in
  last (List.filter (λ s, negb (one_of (lower s) ["api"; "v1"; "v2"; "v3"; "v4"])) segments).

(** The entity an operation belongs to, for operations that manage one *)
Definition crud_entity o : option string :=
  if op_enabled o && opt_truthy (op_path o) && method_in o ["GET"; "POST"; "PUT"; "PATCH"; "DELETE"] then
    match _extract_entity_from_path (default "" (op_path o)) with
    | Some e => if str_truthy e then Some e else None
    | None => None
    end
  else None.

Definition add_entity (acc : dict (list string)) o : dict (list string) :=
  match crud_entity o with
  | Some e => dict_set acc e (default [] (dict_get acc e) ++ [op_id o])
  | None => acc
  end.

Definition manage_prompt (e : string) (ids : list string) : PromptDefinition :=
  mk_prompt ("manage_" +:+ e) ("Manage " +:+ e) ("Create, read, update, or delete " +:+ e)
    ("Create, read, update, or delete {entity}. Available tools: " +:+ join ", " ids)
    [prompt_argument "entity" ("The " +:+ e +:+ " entity to manage") e] ids ["crud"; e].

(** [_crud_prompts] *)
Definition _crud_prompts ir : list PromptDefinition :=
  let entity_ops := foldl add_entity [] (ir_operations ir) in
  (λ kv, manage_prompt kv.1 kv.2) <$> List.filter (λ kv, (2 <=? length kv.2)%nat) entity_ops.

(** [_risk_aware_actions_prompt] *)
Definition _risk_aware_actions_prompt ir : option PromptDefinition :=
  let risky_ops := List.filter (λ o, op_enabled o && (has_level cautious o || has_level dangerous o)) (ir_operations ir) in
  match risky_ops with
  | [] => None
  | _ =>
      let risky_ids := op_id <$> risky_ops in
      let destructive_ids := op_id <$> List.filter (λ o, flagged (rm_destructive (op_risk o))) risky_ops in
      let caution := match destructive_ids with
                     | [] => ""
                     | _ => " DESTRUCTIVE tools (" +:+ join ", " destructive_ids +:+ ") require explicit user confirmation."
                     end in
      Some (mk_prompt ("risk_aware_actions_" +:+ ir_service_name ir) ("Risk-aware actions " +:+ ir_service_name ir)
              ("Use cautious/dangerous tools on " +:+ ir_service_name ir +:+ " with explicit confirmation")
              ("You may use the following risky tools on {service_name}, but ALWAYS confirm with the user before executing: "
               +:+ join ", " risky_ids +:+ "." +:+ caution)
              [prompt_argument "service_name" "Name of the service" (ir_service_name ir)] risky_ids ["risk-aware"])
  end.

(** [generate_prompts] *)
Definition generate_prompts ir : list PromptDefinition :=
  [_explore_prompt ir; _safe_discovery_prompt ir] ++ _crud_prompts ir
  ++ match _risk_aware_actions_prompt ir with Some p => [p] | None => [] end.

(** ** The stage *)

Definition or_generated {A} (l generated : list A) : list A := match l with [] => generated | _ => l end.

(** [_apply_post_enhancement]; [llm] says whether a client is available. *)
Definition _apply_post_enhancement (grouping_enabled llm : bool) ir : comp W exn ServiceIR :=
  let ir := bifurcate_descriptions (derive_tool_intents ir) in
  ir <- (if grouping_enabled && llm then catch (r <- group ir ;; ret (apply_grouping ir r)) (λ _, ret ir) else ret ir) ;;
  let ir := normalize_error_schemas ir in
  let ir := ir_with_parts ir (ir_tool_grouping ir) (or_generated (ir_resource_definitions ir) (generate_resources ir))
              (ir_prompt_definitions ir) in
  let ir := ir_with_parts ir (ir_tool_grouping ir) (ir_resource_definitions ir)
              (or_generated (ir_prompt_definitions ir) (generate_prompts ir)) in
  if llm then catch (generate ir) (λ _, ret ir) else ret ir.
End with_llm.
End enhancement.

(** ** What the stage guarantees *)

Lemma existing_ids_valid valid l ids : existing_ids valid l = Ok ids → ∀ i, i ∈ ids → i ∈ valid.
Proof.
  revert ids. induction l as [|v l IH]; intros ids H i Hi; simpl in H; [injection H as <-; by apply elem_of_nil in Hi|].
  destruct v; try done; destruct (existing_ids valid l) as [ids'|] eqn:E; try done; injection H as <-; try by eapply IH.
  revert Hi. case_bool_decide; [intros [->|Hi]%elem_of_cons; [done|by eapply IH]|by eapply IH].
Qed.

Section guarantees.
Context (json_indent : pyval → string) (json_loads : string → option pyval) (parse_float : string → option float)
  (coerce_int : pyval → option Z).
Context {W : Type} (complete : string → comp W exn string).
Context (grouping_prompt : ServiceIR → list Operation → string) (examples_prompt : Operation → string → string).
Implicit Types ir : ServiceIR.
Implicit Types o : Operation.

Lemma parse_group_valid valid item g : parse_group parse_float valid item = Ok (Some g) → ∀ i, i ∈ tg_operation_ids g → i ∈ valid.
Proof.
  destruct item as [| | | | | |d]; try done. unfold parse_group.
  destruct (negb _ || negb _); [done|]. destruct (iterate _) as [l|]; [|done].
  destruct (existing_ids valid l) as [[|j ids]|] eqn:E; try done. destruct (to_float _ _) as [c|]; [|done].
  destruct (default (VStr "") (dict_get d "id")), (default (VStr "") (dict_get d "label")), (default (VStr "") (dict_get d "intent"));
    try done.
  intros [= <-]. simpl. by eapply existing_ids_valid.
Qed.

Lemma groups_valid content ops groups : _parse_grouping_response json_loads parse_float content ops = Ok groups →
  ∀ g i, g ∈ groups → i ∈ tg_operation_ids g → i ∈ op_id <$> ops.
Proof.
  unfold _parse_grouping_response. intros H g i Hg Hi.
  destruct (json_loads _) as [[| | | | |data|]|]; try (injection H as <-; by apply elem_of_nil in Hg).
  destruct (traverse _ data) as [gs|e] eqn:E; [|destruct (one_of _ _); [injection H as <-; by apply elem_of_nil in Hg|done]].
  injection H as <-. apply traverse_ok in E. apply list_elem_of_omap in Hg as (og & Hog & Hid). unfold id in Hid. subst og.
  apply list_elem_of_lookup in Hog as [k Hk]. eapply Forall2_lookup_r in E as (item & _ & Hp); [|exact Hk].
  by eapply parse_group_valid.
Qed.

(** Only the groups, resources and prompts change. *)
Lemma service_wf_parts ir groups resources prompts :
  service_wf ir →
  (∀ g i, g ∈ groups → i ∈ tg_operation_ids g → i ∈ op_ids ir) →
  NoDup (rd_id <$> resources) → NoDup (rd_uri <$> resources) →
  (∀ r i, r ∈ resources → rd_operation_id r = Some i → i ∈ op_ids ir) →
  NoDup (pd_id <$> prompts) → NoDup (pd_name <$> prompts) →
  (∀ p i, p ∈ prompts → i ∈ pd_tool_ids p → i ∈ op_ids ir) →
  service_wf (ir_with_parts ir groups resources prompts).
Proof. intros [Hn Hop Hc He Hg Hri Hru Hpi Hpn Hp Hr] H1 H2 H3 H4 H5 H6 H7. by split. Qed.

Lemma group_valid ir s r s' : group json_loads parse_float complete grouping_prompt ir s = (Ok r, s') →
  ∀ g i, g ∈ gr_groups r → i ∈ tg_operation_ids g → i ∈ op_ids ir.
Proof.
  assert (∀ i, i ∈ op_id <$> List.filter op_enabled (ir_operations ir) → i ∈ op_ids ir) as Hsub.
  { intros i (o & -> & [_ Ho]%elem_of_filterb)%list_elem_of_fmap. by apply list_elem_of_fmap_2. }
  unfold group. destruct (List.filter op_enabled (ir_operations ir)) as [|o l] eqn:E.
  { intros [= <- _] g i Hg. by apply elem_of_nil in Hg. }
  unfold bind, attempt. destruct (complete _ s) as [[content|e] s1].
  - destruct (_parse_grouping_response _ _ _ _) as [groups|e] eqn:Ep; [|done]. intros [= <- _] g i Hg Hi.
    apply Hsub. by eapply groups_valid.
  - destruct (one_of _ _); [|done]. intros [= <- _] g i Hg. by apply elem_of_nil in Hg.
Qed.

Lemma apply_grouping_wf ir s r s' : service_wf ir →
  group json_loads parse_float complete grouping_prompt ir s = (Ok r, s') → service_wf (apply_grouping ir r).
Proof.
  intros Hwf H. unfold apply_grouping. pose proof (group_valid ir s r s' H) as Hg. destruct (gr_groups r) as [|g l]; [done|].
  by apply service_wf_parts; [| |apply Hwf..].
Qed.

Lemma apply_grouping_operations ir r : ir_operations (apply_grouping ir r) = ir_operations ir.
Proof. unfold apply_grouping. by destruct (gr_groups r). Qed.

(** *** Generated resources *)

Lemma generated_resources_wf ir :
  NoDup (rd_id <$> generate_resources json_indent ir) ∧ NoDup (rd_uri <$> generate_resources json_indent ir) ∧
  ∀ r, r ∈ generate_resources json_indent ir → rd_operation_id r = None.
Proof.
  set (kinds := ["schema"; "operations"; "auth-requirements"; "risk-profile"; "error-catalog"]).
  assert (NoDup kinds) as Hk by (apply (bool_decide_unpack _); vm_compute; exact I).
  split_and!.
  - change (rd_id <$> generate_resources json_indent ir) with ((λ k, ir_service_name ir +:+ "-" +:+ k) <$> kinds).
    apply NoDup_fmap_2; [|done]. intros x y H. by apply str_app_inj_l, str_app_inj_l in H.
  - change (rd_uri <$> generate_resources json_indent ir) with (_service_uri (ir_service_name ir) <$> kinds).
    apply NoDup_fmap_2; [|done]. intros x y H. unfold _service_uri in H. by do 3 apply str_app_inj_l in H.
  - intros r Hr. unfold generate_resources in Hr. rewrite !elem_of_cons in Hr.
    by destruct Hr as [->|[->|[->|[->|[->|Hr%elem_of_nil]]]]].
Qed.

(** *** Generated prompts *)

Lemma entities_wf l acc : dict_wf acc → dict_wf (foldl add_entity acc l).
Proof.
  revert acc. induction l as [|o l IH]; intros acc H; [done|]. cbn [foldl]. apply IH. unfold add_entity.
  case_match; [by apply dict_wf_set|done].
Qed.

Lemma entities_ids l acc e i : i ∈ default [] (dict_get (foldl add_entity acc l) e) →
  i ∈ default [] (dict_get acc e) ∨ i ∈ op_id <$> l.
Proof.
  revert acc. induction l as [|o l IH]; intros acc H; [by left|]. cbn [foldl] in H. apply IH in H as [H|H].
  - revert H. unfold add_entity. destruct (crud_entity o) as [e'|]; [|by left]. rewrite dict_get_set.
    case_eqb; [|by left]. subst. simpl. rewrite elem_of_app, list_elem_of_singleton. intros [H| ->]; [by left|right; left].
  - right. by right.
Qed.

Lemma elem_crud_prompts ir p : p ∈ _crud_prompts ir → ∃ e ids, p = manage_prompt e ids ∧ (∀ i, i ∈ ids → i ∈ op_ids ir).
Proof.
  unfold _crud_prompts. intros ([e ids] & -> & [_ H]%elem_of_filterb)%list_elem_of_fmap. exists e, ids. split; [done|].
  intros i Hi. destruct (entities_ids (ir_operations ir) [] e i) as [Hn|Hn]; [|by apply elem_of_nil in Hn|done].
  rewrite (dict_get_elem _ e ids); [done| |done]. apply entities_wf. constructor.
Qed.

Lemma generated_prompts_refs ir p i : p ∈ generate_prompts ir → i ∈ pd_tool_ids p → i ∈ op_ids ir.
Proof.
  assert (∀ f, i ∈ op_id <$> List.filter f (ir_operations ir) → i ∈ op_ids ir) as Hsub.
  { intros f (o & -> & [_ Ho]%elem_of_filterb)%list_elem_of_fmap. by apply list_elem_of_fmap_2. }
  unfold generate_prompts. rewrite !elem_of_app, !elem_of_cons. intros [[->|[->|Hn%elem_of_nil]]|[Hp|Hp]] Hi; try done.
  - simpl in Hi. by eapply Hsub.
  - simpl in Hi. by eapply Hsub.
  - apply elem_crud_prompts in Hp as (e & ids & -> & Hids). by apply Hids.
  - unfold _risk_aware_actions_prompt in Hp. destruct (List.filter _ _) as [|o l] eqn:E; [by apply elem_of_nil in Hp|].
    apply list_elem_of_singleton in Hp as ->. rewrite <-E in Hi. by eapply Hsub.
Qed.

(** Ids and names are a tag and a subject, and the tags differ. *)
Lemma generated_prompts_nodup ir (f : PromptDefinition → string) (t1 t2 t3 t4 : string) :
  (∀ x, x ∈ [_explore_prompt ir] → f x = t1 +:+ ir_service_name ir) →
  f (_safe_discovery_prompt ir) = t2 +:+ ir_service_name ir →
  (∀ e ids, f (manage_prompt e ids) = t3 +:+ e) →
  (∀ x, _risk_aware_actions_prompt ir = Some x → f x = t4 +:+ ir_service_name ir) →
  NoDup [String.substring 0 1 t1; String.substring 0 1 t2; String.substring 0 1 t3; String.substring 0 1 t4] →
  Forall str_truthy [t1; t2; t3; t4] →
  NoDup (f <$> generate_prompts ir).
Proof.
  intros H1 H2 H3 H4 Hnd Htr.
  assert (∀ t x t' x', str_truthy t → str_truthy t' → String.substring 0 1 t ≠ String.substring 0 1 t' → t +:+ x ≠ t' +:+ x') as Hdiff.
  { intros [|c t] x [|c' t'] x' Ht Ht' Hne H; try done. apply Hne. simpl in *. injection H as -> _. by destruct t, t'. }
  rewrite !Forall_cons in Htr. destruct Htr as (T1 & T2 & T3 & T4 & _).
  rewrite !NoDup_cons, !not_elem_of_cons in Hnd. destruct Hnd as ((N12 & N13 & N14 & _) & (N23 & N24 & _) & (N34 & _) & _).
  assert (∀ y, y ∈ f <$> _crud_prompts ir → ∃ e, y = t3 +:+ e) as Hcrud.
  { intros y (p & -> & (e & ids & -> & _)%elem_crud_prompts)%list_elem_of_fmap. eexists. apply H3. }
  assert (∀ y, y ∈ f <$> match _risk_aware_actions_prompt ir with Some p => [p] | None => [] end → y = t4 +:+ ir_service_name ir) as Hrisk.
  { intros y (p & -> & Hp)%list_elem_of_fmap. destruct (_risk_aware_actions_prompt ir) as [q|]; [|by apply elem_of_nil in Hp].
    apply list_elem_of_singleton in Hp as ->. by apply H4. }
  unfold generate_prompts. rewrite !fmap_app. cbn [fmap list_fmap app].
  rewrite (H1 (_explore_prompt ir)) by left. rewrite H2. rewrite !NoDup_cons, NoDup_app, not_elem_of_cons, !not_elem_of_app. split_and!.
  - by apply Hdiff.
  - intros (e & E)%Hcrud. by apply Hdiff in E.
  - intros E%Hrisk. by apply Hdiff in E.
  - intros (e & E)%Hcrud. by apply Hdiff in E.
  - intros E%Hrisk. by apply Hdiff in E.
  - unfold _crud_prompts. rewrite <-list_fmap_compose.
    assert (NoDup (List.filter (λ kv : string * list string, (2 <=? length kv.2)%nat) (foldl add_entity [] (ir_operations ir))).*1) as Hk.
    { apply (dict_wf_filterb (λ _ ids, (2 <=? length ids)%nat)), entities_wf. constructor. }
    revert Hk. generalize (List.filter (λ kv : string * list string, (2 <=? length kv.2)%nat) (foldl add_entity [] (ir_operations ir))).
    intros d Hk. rewrite (list_fmap_ext _ (λ kv, t3 +:+ kv.1) d) by (intros j [e ids] _; apply H3).
    change ((λ kv, t3 +:+ kv.1) <$> d) with ((λ e, t3 +:+ e) ∘ fst <$> d). rewrite list_fmap_compose. apply NoDup_fmap_2; [|done].
    intros x y. apply str_app_inj_l.
  - intros y (e & ->)%Hcrud E%Hrisk. by apply Hdiff in E.
  - destruct (_risk_aware_actions_prompt ir); [apply NoDup_singleton|constructor].
Qed.

Lemma generated_prompts_wf ir : NoDup (pd_id <$> generate_prompts ir) ∧ NoDup (pd_name <$> generate_prompts ir).
Proof.
  assert (∀ x, _risk_aware_actions_prompt ir = Some x →
    pd_id x = "risk_aware_actions_" +:+ ir_service_name ir ∧ pd_name x = "Risk-aware actions " +:+ ir_service_name ir) as Hr.
  { intros x. unfold _risk_aware_actions_prompt. destruct (List.filter _ _); [done|]. by intros [= <-]. }
  split.
  - apply (generated_prompts_nodup ir pd_id "explore_" "safe_discovery_" "manage_" "risk_aware_actions_"); try done.
    + by intros x ->%list_elem_of_singleton.
    + intros x Hx. by apply Hr.
    + apply (bool_decide_unpack _). vm_compute. exact I.
    + repeat constructor.
  - apply (generated_prompts_nodup ir pd_name "Explore " "Safe discovery " "Manage " "Risk-aware actions "); try done.
    + by intros x ->%list_elem_of_singleton.
    + intros x Hx. by apply Hr.
    + apply (bool_decide_unpack _). vm_compute. exact I.
    + repeat constructor.
Qed.

(** *** What happens to an operation *)

(** [o'] is [o] with its annotations filled in. *)
Record enhanced (o o' : Operation) : Prop := {
  eh_id : op_id o' = op_id o;
  eh_risk : op_risk o' = op_risk o;
  eh_enabled : op_enabled o' = op_enabled o;
  eh_params : op_params o' = op_params o;
  eh_contracts : operation_wf o → operation_wf o';
  eh_intent : op_tool_intent o' = Some (default (derive_tool_intent o) (op_tool_intent o));
  eh_prefix : startswith (intent_prefix (default (derive_tool_intent o) (op_tool_intent o))) (op_description o') = true;
  eh_errors : _has_error_info o' = true ∧ (_has_error_info o = true → op_error_schema o' = op_error_schema o);
  eh_examples : op_response_examples o ≠ [] → op_response_examples o' = op_response_examples o;
}.

Definition annotated_operation o : Operation := _normalize_operation (bifurcate_operation (intent_of_operation o)).

Lemma infer_http_errors_some m : _infer_http_errors m ≠ [].
Proof. unfold _infer_http_errors. by repeat case_bool_decide. Qed.

Lemma normalize_has_errors o : _has_error_info (_normalize_operation o) = true.
Proof.
  unfold _normalize_operation. destruct (_has_error_info o) eqn:E; [done|].
  case_bool_decide; [|done]. unfold _has_error_info. simpl. pose proof (infer_http_errors_some (upper (default "" (op_method o)))).
  by destruct (_infer_http_errors _).
Qed.

Lemma annotated_enhanced o : enhanced o (annotated_operation o).
Proof.
  set (i := default (derive_tool_intent o) (op_tool_intent o)).
  assert (∃ d, startswith (intent_prefix i) d = true ∧
    bifurcate_operation (intent_of_operation o) = op_annotated o d (op_error_schema o) (op_pagination o) (Some i) (op_sla o)) as (d & Hd & E).
  { unfold intent_of_operation, i, bifurcate_operation. destruct o as [] eqn:Eo. destruct op_tool_intent as [j|]; simpl.
    - destruct (startswith _ _) eqn:Es; [by eexists|]. eexists. split; [|done]. apply startswith_app.
    - destruct (startswith _ _) eqn:Es; [by eexists|]. eexists. split; [|done]. apply startswith_app. }
  unfold annotated_operation. rewrite E. set (o1 := op_annotated o d _ _ _ _).
  pose proof (normalize_has_errors o1) as Hn.
  assert (∃ e, _normalize_operation o1 = op_with_errors o1 e ∧ (_has_error_info o = true → e = op_error_schema o)) as (e & En & He).
  { unfold _normalize_operation. change (_has_error_info o1) with (_has_error_info o). destruct (_has_error_info o); by eexists. }
  rewrite En in Hn |- *.
  split; try done. intros Hwf. apply operation_wf_annotated, operation_wf_annotated, Hwf.
Qed.

Lemma annotated_examples o : op_response_examples (annotated_operation o) = op_response_examples o.
Proof.
  assert (∀ f, annotates f → ∀ o, op_response_examples (f o) = op_response_examples o) as H.
  { intros f Hf o'. by destruct (Hf o') as (? & ? & ? & ? & ? & ->). }
  unfold annotated_operation. by rewrite !H by auto with passes.
Qed.

Definition with_examples o o' : Prop := o' = o ∨ (op_response_examples o = [] ∧ ∃ l, o' = op_with_examples o l).

Lemma generate_loop_spec name l s ops s' :
  generate_loop json_loads coerce_int complete examples_prompt name l s = (Ok ops, s') → Forall2 with_examples l ops.
Proof.
  revert s ops s'. induction l as [|o l IH]; intros s ops s' H; [by injection H as <- _|].
  cbn [generate_loop] in H. unfold bind at 1 in H.
  destruct (_needs_examples o) eqn:En.
  - unfold bind at 1 in H. destruct (_generate_for_operation _ _ _ _ _ _ s) as [[ex|e] s1]; [|done].
    unfold ret at 1 in H. unfold bind at 1 in H. destruct (generate_loop _ _ _ _ _ _ s1) as [[ops'|e] s2] eqn:El; [|done].
    injection H as <- _. constructor; [|by eapply IH]. unfold _needs_examples in En. apply andb_true_iff in En as [_ En].
    destruct ex; [by left|]. right. split; [by destruct (op_response_examples o)|]. by eexists.
  - unfold ret at 1 in H. unfold bind at 1 in H. destruct (generate_loop _ _ _ _ _ _ s) as [[ops'|e] s2] eqn:El; [|done].
    injection H as <- _. constructor; [by left|by eapply IH].
Qed.

Lemma enhanced_with_examples o o1 o2 : enhanced o o1 → op_response_examples o1 = op_response_examples o → with_examples o1 o2 → enhanced o o2.
Proof.
  intros H He [->|(Hnil & l & ->)]; [done|]. destruct H as [E1 E2 E3 E4 Hwf E5 E6 E7 E8]. split; try done.
  - intros Ho. destruct (Hwf Ho) as [Hu H1 H2 H3]. by split.
  - intros Hne. congruence.
Qed.

Lemma generated_parts_wf ir : service_wf ir →
  service_wf (ir_with_parts ir (ir_tool_grouping ir) (or_generated (ir_resource_definitions ir) (generate_resources json_indent ir)) (ir_prompt_definitions ir)).
Proof.
  intros Hwf. destruct (generated_resources_wf ir) as (H1 & H2 & H3). destruct Hwf as [Hn Hop Hc He Hg Hri Hru Hpi Hpn Hp Hr].
  apply service_wf_parts; try done; unfold or_generated; destruct (ir_resource_definitions ir) eqn:E; try done.
  intros r i Hin Hi. by rewrite (H3 r Hin) in Hi.
Qed.

Lemma generated_prompts_parts_wf ir : service_wf ir →
  service_wf (ir_with_parts ir (ir_tool_grouping ir) (ir_resource_definitions ir) (or_generated (ir_prompt_definitions ir) (generate_prompts ir))).
Proof.
  intros Hwf. destruct (generated_prompts_wf ir) as (H1 & H2). pose proof (generated_prompts_refs ir) as H3.
  destruct Hwf as [Hn Hop Hc He Hg Hri Hru Hpi Hpn Hp Hr].
  apply service_wf_parts; try done; unfold or_generated; destruct (ir_prompt_definitions ir) eqn:E; try done.
Qed.

(** The description before the examples *)
Definition before_examples ir : ServiceIR :=
  let ir := ir_with_parts ir (ir_tool_grouping ir) (or_generated (ir_resource_definitions ir) (generate_resources json_indent ir))
              (ir_prompt_definitions ir) in
  ir_with_parts ir (ir_tool_grouping ir) (ir_resource_definitions ir) (or_generated (ir_prompt_definitions ir) (generate_prompts ir)).

Lemma generate_sound ir (base : list Operation) s ir' s' :
  service_wf ir → Forall2 enhanced base (ir_operations ir) →
  Forall2 (λ o o1, op_response_examples o1 = op_response_examples o) base (ir_operations ir) →
  generate json_loads coerce_int complete examples_prompt ir s = (Ok ir', s') →
  service_wf ir' ∧ Forall2 enhanced base (ir_operations ir').
Proof.
  intros Hwf H2 He H. unfold generate, bind in H.
  destruct (generate_loop _ _ _ _ _ _ s) as [[ops|e] s1] eqn:El; [|done]. injection H as <- _.
  apply generate_loop_spec in El. split.
  - apply service_wf_operations; [apply Hwf| |done]. unfold op_ids. clear -El.
    induction El as [|o o' l l' H _ IH]; [done|]. cbn [fmap list_fmap]. f_equal; [|exact IH].
    by destruct H as [->|(_ & ex & ->)].
  - simpl. clear Hwf. revert He ops El. induction H2 as [|o o1 l0 l H _ IH]; intros He ops El; [by inv El|].
    inv He. inv El. constructor; [by eapply enhanced_with_examples|by apply IH].
Qed.

(** The enhance stage keeps a description valid and annotates every operation,
    whatever the language model answers and however its calls fail.  On a valid
    description the stage always returns; the result is valid, with the operations in
    the same order, each keeping its id, risk, parameters, switch and contract; each
    has an intent (the one it had, or the derived one), a description that starts
    with that intent's tag, and an error model (its own if it had one); and examples
    it had are not overwritten. *)
Theorem post_enhancement_sound grouping_enabled llm ir s :
  service_wf ir → Forall operation_wf (ir_operations ir) →
  ∃ ir' s',
    _apply_post_enhancement json_indent json_loads parse_float coerce_int complete grouping_prompt examples_prompt
      grouping_enabled llm ir s = (Ok ir', s') ∧
    service_wf ir' ∧ Forall operation_wf (ir_operations ir') ∧ Forall2 enhanced (ir_operations ir) (ir_operations ir').
Proof.
  intros Hwf Hops. unfold _apply_post_enhancement. set (ir1 := bifurcate_descriptions (derive_tool_intents ir)).
  assert (service_wf ir1) as Hwf1.
  { apply over_operations_wf; [|apply over_operations_wf; [|done]]; intros o.
    - by destruct (bifurcate_annotates o) as (? & ? & ? & ? & ? & ->).
    - by destruct (intent_annotates o) as (? & ? & ? & ? & ? & ->). }
  assert (∃ ir2 s2, (if grouping_enabled && llm
      then catch (r <- group json_loads parse_float complete grouping_prompt ir1 ;; ret (apply_grouping ir1 r)) (λ _, ret ir1)
      else ret ir1) s = (Ok ir2, s2) ∧ service_wf ir2 ∧ ir_operations ir2 = ir_operations ir1) as (ir2 & s2 & E2 & Hwf2 & Eops).
  { destruct (grouping_enabled && llm); [|by eexists _, _]. unfold catch, bind.
    destruct (group _ _ _ _ ir1 s) as [[r|e] s1] eqn:Eg; simpl; eexists _, _; (split; [done|]); [|done].
    split; [by eapply apply_grouping_wf|apply apply_grouping_operations]. }
  unfold bind at 1. rewrite E2. cbv zeta. change (ir_with_parts _ _ _ _) with (before_examples (normalize_error_schemas ir2)).
  set (ir3 := before_examples (normalize_error_schemas ir2)).
  assert (service_wf ir3) as Hwf3.
  { apply generated_prompts_parts_wf, generated_parts_wf, over_operations_wf; [|done]. intros o.
    by destruct (normalize_annotates o) as (? & ? & ? & ? & ? & ->). }
  assert (ir_operations ir3 = annotated_operation <$> ir_operations ir) as E3.
  { simpl. rewrite Eops. unfold ir1. simpl. by rewrite <-!list_fmap_compose. }
  assert (Forall2 enhanced (ir_operations ir) (ir_operations ir3)) as H3.
  { rewrite E3. apply Forall2_fmap_r, Forall_Forall2_diag, Forall_true. apply annotated_enhanced. }
  assert (∀ ir', service_wf ir' → Forall2 enhanced (ir_operations ir) (ir_operations ir') →
    service_wf ir' ∧ Forall operation_wf (ir_operations ir') ∧ Forall2 enhanced (ir_operations ir) (ir_operations ir')) as Hdone.
  { intros ir' H H'. split; [done|]. split; [|done]. clear -Hops H'. induction H' as [|o o' l l' H _ IH]; [constructor|].
    inv Hops. constructor; [by apply H|by apply IH]. }
  destruct llm; [|eexists _, _; split; [done|by apply Hdone]].
  unfold catch. destruct (generate _ _ _ _ ir3 s2) as [[ir4|e] s3] eqn:Eg; eexists _, _; (split; [done|]); [|by apply Hdone].
  destruct (generate_sound ir3 (ir_operations ir) s2 ir4 s3 Hwf3 H3) as [H4 H4']; [|done|by apply Hdone].
  rewrite E3. apply Forall2_fmap_r, Forall_Forall2_diag, Forall_true. intros o. apply annotated_examples.
Qed.
End guarantees.

(** A model that answers in fenced text and groups an unknown operation too *)
Definition demo_llm (prompt : string) : comp unit exn string := ret "~~~json ... ~~~".

Definition demo_groups : pyval :=
  VList [VDict [("id", VStr "read"); ("label", VStr "Reading"); ("operation_ids", VList [VStr "list"; VStr "nope"]);
                ("confidence", VFloat 7)]].

Lemma post_enhancement_sound_witness : ∃ ir',
  _apply_post_enhancement (λ _, "{}") (λ _, Some demo_groups) (λ _, None) as_int demo_llm (λ _ _, "") (λ _ _, "")
    true true demo_ir_validated tt = (Ok ir', tt) ∧
  service_wf ir' ∧ tg_operation_ids <$> ir_tool_grouping ir' = [["list"]] ∧
  op_description <$> ir_operations ir' = ["[DISCOVERY] "; "[ACTION] "].
Proof.
  destruct demo_ir_valid as [Hwf Hops].
  destruct (post_enhancement_sound (λ _, "{}") (λ _, Some demo_groups) (λ _, None) as_int demo_llm (λ _ _, "") (λ _ _, "")
    true true demo_ir_validated tt Hwf Hops) as (ir' & [] & E & Hwf' & _ & _).
  exists ir'. split; [exact E|]. split; [exact Hwf'|].
  assert (∀ r, _apply_post_enhancement (λ _, "{}") (λ _, Some demo_groups) (λ _, None) as_int demo_llm (λ _ _, "") (λ _ _, "")
    true true demo_ir_validated tt = (Ok r, tt) → tg_operation_ids <$> ir_tool_grouping r = [["list"]] ∧
    op_description <$> ir_operations r = ["[DISCOVERY] "; "[ACTION] "]) as Hr.
  { intros r Hr. vm_compute in Hr. injection Hr as <-. split; vm_compute; reflexivity. }
  by apply Hr.
Defined.
