(* ===== verification/ResponseShaping.v ===== *)
(** * Response shaping ([apps/mcp_runtime/proxy_utils.py])

    What the runtime does to an upstream payload before a tool returns it: the
    field allowlist, the array limit, and truncation at a byte budget.  Text is
    represented by its UTF-8 bytes, one character each.  Python's sets of keys
    have no order; the model keeps the order of the filter list. *)

From S2P Require Export IRModels.
From Stdlib Require Import Ascii.

(** [_sanitize_json_floats] *)
Definition float_text (f : float) : option string :=
  if negb (PrimFloat.eqb f f) then Some "nan"
  else if PrimFloat.eqb f infinity then Some "inf"
  else if PrimFloat.eqb f neg_infinity then Some "-inf"
  else None.

Fixpoint sanitize_json_floats (v : pyval) : pyval :=
  match v with
  | VFloat f => match float_text f with Some s => VStr s | None => v end
  | VDict d => VDict ((λ kv, (kv.1, sanitize_json_floats kv.2)) <$> d)
  | VList l => VList (sanitize_json_floats <$> l)
  | _ => v
  end.

(** ** Field paths *)

(** [_split_escaped_dot_path] *)
Fixpoint split_escaped (current : list ascii) (p : list ascii) : list (list ascii) :=
  match p with
  | [] => [current]
  | c :: p' =>
      if bool_decide (c = "\"%char) then
        match p' with
        | d :: p'' => if bool_decide (d = "."%char) then split_escaped (current ++ ["."%char]) p''
                      else split_escaped (current ++ [c]) p'
        | [] => split_escaped (current ++ [c]) p'
        end
      else if bool_decide (c = "."%char) then current :: split_escaped [] p'
      else split_escaped (current ++ [c]) p'
  end.
Definition split_escaped_dot_path (path : string) : list string := of_chars <$> split_escaped [] (chars path).

(** [_has_unescaped_dot] *)
Fixpoint unescaped_dot (p : list ascii) : bool :=
  match p with
  | [] => false
  | c :: p' =>
      if bool_decide (c = "\"%char) then
        match p' with
        | d :: p'' => if bool_decide (d = "."%char) then unescaped_dot p'' else unescaped_dot p'
        | [] => false
        end
      else bool_decide (c = "."%char) || unescaped_dot p'
  end.
Definition has_unescaped_dot (path : string) : bool := unescaped_dot (chars path).

(** [path.split("[].", 1)] *)
Fixpoint split_brackets (s : string) : option (string * string) :=
  match s with
  | EmptyString => None
  | String c s' =>
      if startswith "[]." s then Some ("", drop_str 3 s)
      else match split_brackets s' with Some (root, rest) => Some (String c root, rest) | None => None end
  end.

(** The filter, sorted into its three kinds of path. *)
Record paths := mk_paths {
  top_keys : list string;
  nested_paths : list (string * list string);
  array_paths : dict (list string);
}.

Definition add_path (acc : paths) (path : string) : paths :=
  match split_brackets path with
  | Some (root, rest) =>
      mk_paths (top_keys acc) (nested_paths acc)
        (dict_set (array_paths acc) root (default [] (dict_get (array_paths acc) root) ++ [rest]))
  | None =>
      match split_escaped_dot_path path with
      | root :: segments =>
          if has_unescaped_dot path
          then mk_paths (top_keys acc) (nested_paths acc ++ [(root, segments)]) (array_paths acc)
          else mk_paths (top_keys acc ++ [root]) (nested_paths acc) (array_paths acc)
      | [] => acc
      end
  end.

Definition classify_paths (field_filter : list string) : paths := foldl add_path (mk_paths [] [] []) field_filter.

(** ** Filtering *)

(** [{k: v for k, v in d.items() if k in keys}] *)
Definition keep_keys (keys : list string) (d : dict pyval) : dict pyval :=
  List.filter (λ kv, bool_decide (kv.1 ∈ keys)) d.

(** The value at a path of dictionary keys. *)
Fixpoint value_at (segments : list string) (v : pyval) : option pyval :=
  match segments with
  | [] => Some v
  | seg :: rest =>
      match v with
      | VDict d => match dict_get d seg with Some w => value_at rest w | None => None end
      | _ => None
      end
  end.

(** Write a value at a path, creating dictionaries on the way; a step into
    something that is not a dictionary leaves it alone. *)
Fixpoint write_at (cur : pyval) (segments : list string) (node : pyval) : pyval :=
  match segments, cur with
  | [], _ => node
  | seg :: rest, VDict d =>
      VDict (dict_set d seg
        (match rest with
         | [] => node
         | _ => write_at (default (VDict []) (dict_get d seg)) rest node
         end))
  | _ :: _, _ => cur
  end.

(** [_set_nested] *)
Definition set_nested (target : dict pyval) (root : string) (segments : list string) (source : pyval) : dict pyval :=
  match segments with
  | [] => target
  | _ =>
      match value_at segments source with
      | None => target
      | Some node => dict_set target root (write_at (default (VDict []) (dict_get target root)) segments node)
      end
  end.

Definition filter_item (inner : list string) (v : pyval) : pyval :=
  match v with VDict e => VDict (keep_keys inner e) | _ => v end.

(** [_filter_dict] *)
Definition filter_dict (d : dict pyval) (keys : list string) (nested : list (string * list string))
    (arrays : dict (list string)) : dict pyval :=
  let result := foldl (λ acc key, match dict_get d key with Some v => dict_set acc key v | None => acc end) [] keys in
  let result := foldl (λ acc rs, match dict_get d rs.1 with
                                 | Some v => set_nested acc rs.1 rs.2 v
                                 | None => acc
                                 end) result nested in
  foldl (λ acc ri, match dict_get d ri.1 with
                   | Some (VList l) => dict_set acc ri.1 (VList (filter_item ri.2 <$> l))
                   | Some v => dict_set acc ri.1 v
                   | None => acc
                   end) result arrays.

(** [_apply_field_filter] *)
Definition apply_field_filter (payload : pyval) (field_filter : option (list string)) : pyval :=
  match field_filter with
  | None | Some [] => payload
  | Some f =>
      let p := classify_paths f in
      match payload with
      | VDict d => VDict (filter_dict d (top_keys p) (nested_paths p) (array_paths p))
      | VList l =>
          match nested_paths p, array_paths p with
          | [], [] => VList (filter_item (top_keys p) <$> l)
          | _, _ =>
              let inner := top_keys p ++ concat (snd <$> array_paths p) in
              VList ((λ v, match v with
                           | VDict d => VDict (filter_dict d inner (nested_paths p) (array_paths p))
                           | _ => v
                           end) <$> l)
          end
      | _ => payload
      end
  end.

(** [l[:n]] *)
Definition slice_to {A} (n : Z) (l : list A) : list A :=
  take (Z.to_nat (if n <? 0 then Z.max 0 (Z.of_nat (length l) + n) else n)) l.

(** [v[:n] if isinstance(v, list) else v] *)
Definition limit_value (n : Z) (v : pyval) : pyval :=
  match v with VList l => VList (slice_to n l) | _ => v end.

(** [_apply_array_limit] *)
Definition apply_array_limit (payload : pyval) (max_items : option Z) : pyval :=
  match max_items with
  | None => payload
  | Some n =>
      match payload with
      | VList l => VList (slice_to n l)
      | VDict d => VDict ((λ kv, (kv.1, limit_value n kv.2)) <$> d)
      | _ => payload
      end
  end.

(** ** Truncation *)

Definition byte_in (lo hi : N) (c : ascii) : bool := ((lo <=? ord c) && (ord c <=? hi))%N.
Definition continuation : ascii → bool := byte_in 128 191.

(** [bytes.decode("utf-8")] succeeds: the well-formed byte sequences. *)
Fixpoint utf8_ok (bs : list ascii) : bool :=
  match bs with
  | [] => true
  | a :: r =>
      if (ord a <? 128)%N then utf8_ok r
      else match r with
           | b :: r1 =>
               if byte_in 194 223 a then continuation b && utf8_ok r1
               else match r1 with
                    | c :: r2 =>
                        if byte_in 224 239 a then
                          (if (ord a =? 224)%N then byte_in 160 191 b
                           else if (ord a =? 237)%N then byte_in 128 159 b else continuation b)
                          && continuation c && utf8_ok r2
                        else match r2 with
                             | d :: r3 =>
                                 byte_in 240 244 a
                                 && (if (ord a =? 240)%N then byte_in 144 191 b
                                     else if (ord a =? 244)%N then byte_in 128 143 b else continuation b)
                                 && continuation c && continuation d && utf8_ok r3
                             | [] => false
                             end
                    | [] => false
                    end
           | [] => false
           end
  end.

(** The loop that shortens the candidate until it decodes. *)
Fixpoint shrink_to_utf8 (fin : nat) (candidate : list ascii) : list ascii :=
  match fin with
  | O => []
  | S fin' => if utf8_ok (take fin candidate) then take fin candidate else shrink_to_utf8 fin' candidate
  end.

(** [_truncate_utf8_prefix] *)
Definition truncate_utf8_prefix (payload_bytes : list ascii) (max_bytes : Z) : list ascii * bool :=
  let candidate := slice_to max_bytes payload_bytes in
  if utf8_ok candidate then (candidate, false) else (shrink_to_utf8 (length candidate) candidate, true).

Section truncation.
(** [json.dumps(payload, ensure_ascii=True)] *)
Context (dumps : pyval → string).

(** [type(payload).__name__] *)
Definition type_name (v : pyval) : string :=
  match v with
  | VNone => "NoneType" | VBool _ => "bool" | VInt _ => "int" | VFloat _ => "float"
  | VStr _ => "str" | VList _ => "list" | VDict _ => "dict"
  end.

(** [_apply_truncation] *)
Definition apply_truncation (payload : pyval) (strategy : ResponseStrategy) : pyval * bool :=
  match rs_max_response_bytes strategy with
  | None => (payload, false)
  | Some limit =>
      if limit <=? 0 then (payload, false)
      else
        let payload_bytes := chars (match payload with VStr s => s | _ => dumps payload end) in
        if Z.of_nat (length payload_bytes) <=? limit then (payload, false)
        else match rs_truncation_policy strategy with
             | trunc_none => (payload, false)
             | _ =>
                 let '(truncated, trimmed) := truncate_utf8_prefix payload_bytes limit in
                 (VDict ([("content", VStr (of_chars truncated)); ("original_type", VStr (type_name payload));
                          ("truncated", VBool true)]
                         ++ (if trimmed then [("utf8_boundary_trimmed", VBool true)] else [])), true)
             end
  end.

(** The strategy's steps of [sanitize_response], after the protocol's unwrapping. *)
Definition shape_response (payload : pyval) (strategy : ResponseStrategy) : pyval * bool :=
  apply_truncation
    (apply_array_limit (apply_field_filter payload (rs_field_filter strategy)) (rs_max_array_items strategy))
    strategy.
End truncation.

(** ** What a filter can return

    [part_of a b]: [a] is [b] with dictionary entries and array tails left out. *)
Inductive part_of : pyval → pyval → Prop :=
| part_refl v : part_of v v
| part_list l l' rest : Forall2 part_of l l' → part_of (VList l) (VList (l' ++ rest))
| part_dict d d' :
    (∀ k v, dict_get d k = Some v → ∃ v', dict_get d' k = Some v' ∧ part_of v v') →
    part_of (VDict d) (VDict d').
#[local] Hint Constructors part_of : core.

Definition sub_dict (d d' : dict pyval) : Prop :=
  ∀ k v, dict_get d k = Some v → ∃ v', dict_get d' k = Some v' ∧ part_of v v'.

Lemma sub_dict_nil d : sub_dict [] d.
Proof. done. Qed.

Lemma part_of_dict d v : part_of (VDict d) v ↔ ∃ d', v = VDict d' ∧ sub_dict d d'.
Proof.
  split.
  - intros H. inv H; [|by eauto]. exists d. split; [done|]. intros k v Hk. eauto.
  - intros (d' & -> & H). by constructor.
Qed.

Lemma sub_dict_set d d' k v v' :
  sub_dict d d' → dict_get d' k = Some v' → part_of v v' → sub_dict (dict_set d k v) d'.
Proof. intros Hd Hk Hv k0 v0. rewrite dict_get_set. case_eqb; [intros [= <-]; eauto|apply Hd]. Qed.

Lemma dict_set_same {V} (d : dict V) k v : dict_get d k = Some v → dict_set d k v = d.
Proof.
  induction d as [|[k' v'] d IH]; simpl; [done|]. case_eqb; [by intros [= ->]|]. intros H. by rewrite IH.
Qed.

Lemma keep_keys_get keys d k :
  dict_get (keep_keys keys d) k = if bool_decide (k ∈ keys) then dict_get d k else None.
Proof.
  unfold keep_keys. induction d as [|[k' v'] d IH]; simpl; [by destruct (bool_decide _)|].
  destruct (bool_decide (k' ∈ keys)) eqn:Hk'; simpl; case_eqb; try done.
  all: by rewrite ?IH, Hk'.
Qed.

Lemma keep_keys_sub keys d : sub_dict (keep_keys keys d) d.
Proof. intros k v. rewrite keep_keys_get. case_bool_decide; [eauto|done]. Qed.

Lemma filter_item_part inner v : part_of (filter_item inner v) v.
Proof. destruct v; simpl; eauto. apply part_dict, keep_keys_sub. Qed.

Lemma map_part (f : pyval → pyval) l : (∀ v, part_of (f v) v) → part_of (VList (f <$> l)) (VList l).
Proof.
  intros Hf. rewrite <-(app_nil_r l) at 2. apply part_list. induction l; simpl; constructor; auto.
Qed.

Lemma take_part n l v : part_of (VList l) v → part_of (VList (take n l)) v.
Proof.
  intros H. inv H as [|? l' rest HF|].
  - rewrite <-(take_drop n l) at 2. apply part_list. induction (take n l); constructor; auto.
  - rewrite <-(take_drop n l'), <-(assoc_L (++)). apply part_list. by apply Forall2_take.
Qed.

(** Writing a value found in the source, at the path where it was found, keeps
    the target a part of the source. *)
Lemma write_at_part cur src segs node :
  value_at segs src = Some node → part_of cur src → part_of (write_at cur segs node) src.
Proof.
  revert cur src. induction segs as [|seg rest IH]; intros cur src; simpl; [intros [= ->]; eauto|].
  destruct src as [| | | | | |e]; try done. destruct (dict_get e seg) as [w|] eqn:Ew; [|done].
  intros Hv Hcur. destruct cur as [| | | | | |c]; try done.
  apply part_of_dict in Hcur as (? & [= <-] & Hc). apply part_dict. eapply sub_dict_set; [done..|].
  destruct rest as [|seg' rest]; [injection Hv as ->; eauto|].
  apply IH; [done|]. destruct (dict_get c seg) as [x|] eqn:Ex; simpl.
  - destruct (Hc _ _ Ex) as (w' & Hw' & Hx). simplify_eq. done.
  - simpl in Hv. destruct w; try done. apply part_dict, sub_dict_nil.
Qed.

Lemma set_nested_part target d root segs src :
  dict_get d root = Some src → sub_dict target d → sub_dict (set_nested target root segs src) d.
Proof.
  intros Hroot Ht. unfold set_nested. destruct segs as [|seg segs]; [done|].
  destruct (value_at (seg :: segs) src) as [node|] eqn:Ev; [|done].
  eapply sub_dict_set; [done..|]. apply write_at_part; [done|].
  destruct (dict_get target root) as [x|] eqn:Ex; simpl.
  - destruct (Ht _ _ Ex) as (w' & ? & ?). by simplify_eq.
  - simpl in Ev. destruct src; try done. apply part_dict, sub_dict_nil.
Qed.

(** A loop over requests keeps a property of the result under construction. *)
Lemma foldl_keeps {A B} (P : A → Prop) (f : A → B → A) l a :
  P a → (∀ a b, b ∈ l → P a → P (f a b)) → P (foldl f a l).
Proof.
  revert a. induction l as [|b l IH]; intros a Ha Hf; simpl; [done|].
  apply IH; [apply Hf; [left|done]|]. intros a' b' Hb'. apply Hf. by right.
Qed.

Lemma filter_dict_part d keys nested arrays : sub_dict (filter_dict d keys nested arrays) d.
Proof.
  unfold filter_dict. apply foldl_keeps; [apply foldl_keeps; [apply foldl_keeps|]|].
  - apply sub_dict_nil.
  - intros acc k _ Hacc. destruct (dict_get d k) eqn:E; [|done]. eapply sub_dict_set; eauto.
  - intros acc [r s] _ Hacc. simpl. destruct (dict_get d r) eqn:E; [|done]. by apply set_nested_part.
  - intros acc [r s] _ Hacc. simpl. destruct (dict_get d r) as [v|] eqn:E; [|done].
    destruct v; eapply sub_dict_set; eauto. apply map_part, filter_item_part.
Qed.

Lemma field_filter_part payload f : part_of (apply_field_filter payload f) payload.
Proof.
  unfold apply_field_filter. destruct f as [[|p f]|]; [done| |done].
  destruct payload as [| | | | |l|d]; try done.
  - destruct (nested_paths _), (array_paths _); try (apply map_part, filter_item_part);
      apply map_part; intros v; destruct v; eauto; apply part_dict, filter_dict_part.
  - apply part_dict, filter_dict_part.
Qed.

Lemma dict_get_map {V} (f : V → V) (d : dict V) k :
  dict_get ((λ kv, (kv.1, f kv.2)) <$> d) k = f <$> dict_get d k.
Proof. induction d as [|[k' v'] d IH]; simpl; [done|]. by case_eqb. Qed.

Lemma array_limit_part payload v n : part_of payload v → part_of (apply_array_limit payload n) v.
Proof.
  intros H. destruct n as [n|]; [|done]. simpl. destruct payload as [| | | | |l|d]; try done.
  - by apply take_part.
  - apply part_of_dict in H as (d' & -> & Hd). apply part_dict. intros k x.
    rewrite (dict_get_map (limit_value n)).
    destruct (dict_get d k) as [y|] eqn:Ey; [|done]. intros [= <-].
    destruct (Hd _ _ Ey) as (y' & Hy' & Hpart). exists y'. split; [done|].
    destruct y; try done. by apply take_part.
Qed.

(** Filtering by the allowlist and limiting arrays only leave things out:
    whatever the payload, the filter and the limit, every value of the result
    stands in the payload at the same place, and arrays keep their order. *)
Theorem shaping_never_invents payload f n :
  part_of (apply_array_limit (apply_field_filter payload f) n) payload.
Proof. apply array_limit_part, field_filter_part. Qed.

(** ** What a filter must return *)

Lemma value_at_cons seg rest d :
  value_at (seg :: rest) (VDict d) = match dict_get d seg with Some w => value_at rest w | None => None end.
Proof. done. Qed.

Lemma write_at_same v segs node : value_at segs v = Some node → write_at v segs node = v.
Proof.
  revert v. induction segs as [|seg rest IH]; intros v; simpl; [congruence|].
  destruct v as [| | | | | |d]; try done. destruct (dict_get d seg) as [w|] eqn:E; [|done].
  intros Hv. f_equal. apply dict_set_same. destruct rest; [simpl in Hv; congruence|]. simpl default. by rewrite IH.
Qed.

(** Later writes keep what an earlier one copied. *)
Lemma write_at_keeps segs cur src node path w :
  value_at segs src = Some node → value_at path cur = Some w → value_at path src = Some w →
  value_at path (write_at cur segs node) = Some w.
Proof.
  revert cur src path. induction segs as [|seg rest IH]; intros cur src path Hv Hc Hs.
  - simpl in *. congruence.
  - destruct path as [|q path]; [simpl in Hc, Hs; simplify_eq; by rewrite write_at_same|].
    simpl in Hv. destruct src as [| | | | | |e]; try done. simpl in Hs, Hc.
    destruct (dict_get e seg) as [x|] eqn:Ex; [|done]. destruct cur as [| | | | | |c]; try done.
    simpl. rewrite dict_get_set. case_eqb; [|done]. rewrite Ex in Hs.
    destruct (dict_get c seg) as [y|]; [|done]. destruct rest; [simpl in *; congruence|]. by eapply IH.
Qed.

Lemma write_at_there segs cur src node :
  value_at segs src = Some node → part_of cur src → value_at segs (write_at cur segs node) = Some node.
Proof.
  revert cur src. induction segs as [|seg rest IH]; intros cur src; simpl; [done|].
  destruct src as [| | | | | |e]; try done. destruct (dict_get e seg) as [x|] eqn:Ex; [|done].
  intros Hv Hcur. assert (∃ c, cur = VDict c ∧ sub_dict c e) as (c & -> & Hc).
  { inv Hcur; [|by eauto]. exists e. split; [done|]. intros k v. eauto. }
  rewrite dict_get_set_eq. destruct rest as [|s' rest]; [done|]. apply (IH _ x); [done|].
  destruct (dict_get c seg) as [y|] eqn:Ey; simpl.
  - destruct (Hc _ _ Ey) as (x' & ? & ?). by simplify_eq.
  - simpl in Hv. destruct x; try done. apply part_dict, sub_dict_nil.
Qed.

(** The result under construction holds [w] at [path] and stays a part of [d]. *)
Definition holds_at (d : dict pyval) (path : list string) (w : pyval) (acc : dict pyval) : Prop :=
  sub_dict acc d ∧ value_at path (VDict acc) = Some w.

Section requests.
Context (d : dict pyval) (root : string) (segs : list string) (src w : pyval).
Context (Hroot : dict_get d root = Some src) (Hw : value_at segs src = Some w).
Abbreviation holds := (holds_at d (root :: segs) w).

Lemma holds_set acc k v : k ≠ root → dict_get d k = Some v → holds acc → holds (dict_set acc k v).
Proof.
  intros Hne Hk [Hs Hv]. split; [by eapply sub_dict_set; eauto|]. simpl in *. by rewrite dict_get_set_ne.
Qed.

Lemma top_key_copied acc v :
  sub_dict acc d → dict_get d root = Some v → holds (dict_set acc root v).
Proof. intros. split; [by eapply sub_dict_set; eauto|]. simpl. rewrite dict_get_set_eq. by simplify_eq. Qed.

Lemma top_key_step acc k : holds acc →
  holds (match dict_get d k with Some v => dict_set acc k v | None => acc end).
Proof.
  intros H. destruct (dict_get d k) as [v|] eqn:E; [|done].
  destruct (decide (k = root)) as [->|]; [by destruct H; apply top_key_copied|by apply holds_set].
Qed.

Lemma nested_step acc r s : holds acc →
  holds (match dict_get d r with Some v => set_nested acc r s v | None => acc end).
Proof.
  intros [Hs Hv]. destruct (dict_get d r) as [v|] eqn:E; [|done]. split; [by apply set_nested_part|].
  unfold set_nested. destruct s as [|s0 s]; [done|]. destruct (value_at (s0 :: s) v) as [node|] eqn:En; [|done].
  simpl in *. rewrite dict_get_set. case_eqb; [|done]. simplify_eq.
  destruct (dict_get acc r) as [x|]; [|done]. by eapply (write_at_keeps (s0 :: s)).
Qed.

Lemma nested_copied acc : segs ≠ [] → sub_dict acc d → holds (set_nested acc root segs src).
Proof.
  intros Hne Hs. split; [by apply set_nested_part|]. unfold set_nested. destruct segs as [|s0 s]; [done|].
  rewrite Hw, value_at_cons, dict_get_set_eq. eapply write_at_there; [done|].
  destruct (dict_get acc root) as [x|] eqn:Ex; simpl.
  - destruct (Hs _ _ Ex) as (x' & ? & ?). by simplify_eq.
  - simpl in Hw. destruct src; try done. apply part_dict, sub_dict_nil.
Qed.

Lemma filter_dict_keeps keys nested arrays :
  root ∉ dict_keys arrays → (segs = [] ∧ root ∈ keys ∨ segs ≠ [] ∧ (root, segs) ∈ nested) →
  holds (filter_dict d keys nested arrays).
Proof.
  intros Harr Hreq. unfold filter_dict.
  apply foldl_keeps.
  2: { intros acc [r inner] Hin Hacc. simpl. assert (r ≠ root).
       { intros ->. apply Harr, list_elem_of_fmap. by exists (root, inner). }
       destruct (dict_get d r) as [v|] eqn:Ev; [|done].
       destruct v; try by apply holds_set. destruct Hacc as [Hs Hv]. split.
       - eapply sub_dict_set; [done..|]. apply map_part, filter_item_part.
       - simpl in *. by rewrite dict_get_set_ne. }
  match goal with |- holds (foldl ?g (foldl ?f [] keys) nested) => set (top := f); set (nest := g) end.
  assert (sub_dict (foldl top [] keys) d) as Htop.
  { apply foldl_keeps; [apply sub_dict_nil|]. intros acc k _ Hacc. unfold top.
    destruct (dict_get d k) eqn:E; [|done]. eapply sub_dict_set; eauto. }
  destruct Hreq as [[Hs Hk]|[Hs Hk]].
  - apply foldl_keeps; [|intros; by apply nested_step].
    apply list_elem_of_split in Hk as (l1 & l2 & ->). rewrite foldl_app. simpl.
    apply foldl_keeps; [|intros; by apply top_key_step]. unfold top at 1. rewrite Hroot.
    apply top_key_copied; [|done]. apply foldl_keeps; [apply sub_dict_nil|]. intros acc k _ Hacc. unfold top.
    destruct (dict_get d k) eqn:E; [|done]. eapply sub_dict_set; eauto.
  - apply list_elem_of_split in Hk as (l1 & l2 & ->). rewrite foldl_app. simpl.
    apply foldl_keeps; [|intros; by apply nested_step]. unfold nest at 1. simpl. rewrite Hroot.
    apply nested_copied; [done|]. apply foldl_keeps; [done|]. intros acc [r s] _ Hacc. unfold nest. simpl.
    destruct (dict_get d r) eqn:E; [|done]. by apply set_nested_part.
Qed.
End requests.

(** The scanner's own induction: a character, or an escaped dot, at a time. *)
Lemma path_ind (P : list ascii → Prop) :
  P [] → (∀ p, P p → P ("\"%char :: "."%char :: p)) → (∀ p, P p → P ("."%char :: p)) →
  (∀ c p, c ≠ "."%char → (c = "\"%char → head p ≠ Some "."%char) → P p → P (c :: p)) → ∀ p, P p.
Proof.
  intros Hnil Hesc Hdot Hchar p. remember (length p) as n eqn:Hn. revert p Hn.
  induction n as [n IH] using lt_wf_ind. intros p ->. destruct p as [|c p]; [done|].
  destruct (decide (c = "."%char)) as [->|Hc]; [by eapply Hdot, IH; [|done]; simpl; lia|].
  destruct (decide (c = "\"%char ∧ head p = Some "."%char)) as [[-> Hp]|Hcp].
  - destruct p as [|e p]; [done|]. injection Hp as ->. eapply Hesc, IH; [|done]. simpl. lia.
  - apply Hchar; [done|tauto|]. eapply IH; [|done]. simpl. lia.
Qed.

(** A path without an unescaped dot is one segment; any other has more. *)
Lemma split_escaped_single p cur : ∃ root segs,
  split_escaped cur p = root :: segs ∧ bool_decide (segs = []) = negb (unescaped_dot p).
Proof.
  revert cur. induction p as [|p IH|p IH|c p Hc Hn IH] using path_ind; intros cur.
  - by exists cur, [].
  - apply IH.
  - destruct (IH []) as (r & s & Hs & _). exists cur, (r :: s). simpl. by rewrite Hs.
  - simpl. rewrite (bool_decide_eq_false_2 (c = "."%char)) by done. destruct (decide (c = "\"%char)) as [->|Hb].
    + rewrite bool_decide_eq_true_2 by done. destruct p as [|e p]; [by eexists _, []|].
      rewrite bool_decide_eq_false_2; [apply IH|]. intros ->. by apply Hn.
    + rewrite bool_decide_eq_false_2 by done. apply IH.
Qed.

(** The path that a filter entry without brackets asks for. *)
Definition asks_for (p : paths) (root : string) (segs : list string) : Prop :=
  segs = [] ∧ root ∈ top_keys p ∨ segs ≠ [] ∧ (root, segs) ∈ nested_paths p.

Lemma add_path_asks acc s root segs : asks_for acc root segs → asks_for (add_path acc s) root segs.
Proof.
  intros H. unfold add_path. destruct (split_brackets s) as [[]|]; [done|].
  destruct (split_escaped_dot_path s); [done|]. unfold asks_for in *. case_match; simpl; set_solver.
Qed.

Lemma add_path_asked acc s : split_brackets s = None → ∃ root segs,
  split_escaped_dot_path s = root :: segs ∧ asks_for (add_path acc s) root segs.
Proof.
  intros Hb. unfold add_path, asks_for, split_escaped_dot_path, has_unescaped_dot. rewrite Hb.
  destruct (split_escaped_single (chars s) []) as (root & segs & -> & Hs).
  exists (of_chars root), (of_chars <$> segs). split; [done|]. simpl.
  destruct (unescaped_dot (chars s)); simpl in *.
  - right. apply bool_decide_eq_false in Hs. split; [by destruct segs|set_solver].
  - left. apply bool_decide_eq_true in Hs as ->. split; [done|set_solver].
Qed.

Lemma classify_asks f s : s ∈ f → split_brackets s = None → ∃ root segs,
  split_escaped_dot_path s = root :: segs ∧ asks_for (classify_paths f) root segs.
Proof.
  intros (l1 & l2 & ->)%list_elem_of_split Hb. unfold classify_paths. rewrite foldl_app. simpl.
  set (acc := foldl add_path _ l1). destruct (add_path_asked acc s Hb) as (root & segs & Hs & Ha).
  exists root, segs. split; [done|]. apply foldl_keeps; [done|]. intros. by apply add_path_asks.
Qed.

Lemma classify_arrays f root : root ∈ dict_keys (array_paths (classify_paths f)) →
  ∃ s rest, s ∈ f ∧ split_brackets s = Some (root, rest).
Proof.
  unfold classify_paths. apply (foldl_keeps (λ acc, root ∈ dict_keys (array_paths acc) → _)); [by intros ?%elem_of_nil|].
  intros acc s Hs IH. unfold add_path. destruct (split_brackets s) as [[r rest]|] eqn:E; simpl.
  - intros [->|?]%dict_keys_set; eauto.
  - destruct (split_escaped_dot_path s); [done|]. by case_match.
Qed.

(** A value named by a filter entry is returned: the path of every entry
    without brackets (dots escaped as [\.]) leads to the same value in the result
    as in the payload, whatever other entries the filter has and in whatever
    order, unless a bracket entry filters the array at the same key. *)
Theorem field_filter_keeps d f s w :
  s ∈ f → split_brackets s = None →
  (∀ s' root rest, s' ∈ f → split_brackets s' = Some (root, rest) → head (split_escaped_dot_path s) ≠ Some root) →
  value_at (split_escaped_dot_path s) (VDict d) = Some w →
  value_at (split_escaped_dot_path s) (apply_field_filter (VDict d) (Some f)) = Some w.
Proof.
  intros Hs Hb Harr Hv. destruct (classify_asks f s Hs Hb) as (root & segs & Hsplit & Hask).
  rewrite Hsplit in *. rewrite value_at_cons in Hv. destruct (dict_get d root) as [src|] eqn:Er; [|done].
  destruct f as [|s0 f]; [by apply elem_of_nil in Hs|]. unfold apply_field_filter.
  eapply filter_dict_keeps; [done..| |done].
  intros (s' & rest & Hs' & Hb')%classify_arrays. by eapply Harr.
Qed.

Definition demo_payload : dict pyval :=
  [("id", VInt 7);
   ("user", VDict [("name", VStr "ann"); ("mail", VStr "a@b"); ("home", VDict [("zip", VStr "1"); ("town", VStr "x")])]);
   ("Address.City", VStr "Bern");
   ("items", VList [VDict [("id", VInt 1); ("secret", VStr "s")]; VInt 3])].
Definition demo_filter : list string := ["user.name"; "user.home.zip"; "Address\.City"; "items[].id"; "absent.x"].

Example demo_filtered : apply_field_filter (VDict demo_payload) (Some demo_filter) =
  VDict [("Address.City", VStr "Bern"); ("user", VDict [("name", VStr "ann"); ("home", VDict [("zip", VStr "1")])]);
         ("items", VList [VDict [("id", VInt 1)]; VInt 3])].
Proof. vm_compute. reflexivity. Qed.

Lemma field_filter_keeps_witness :
  value_at ["user"; "home"; "zip"] (apply_field_filter (VDict demo_payload) (Some demo_filter)) = Some (VStr "1").
Proof.
  assert ("user.home.zip" ∈ demo_filter) as Hin by by_eval.
  assert (split_brackets "user.home.zip" = None) as Hb by (vm_compute; reflexivity).
  assert (value_at (split_escaped_dot_path "user.home.zip") (VDict demo_payload) = Some (VStr "1")) as Hv
    by (vm_compute; reflexivity).
  refine (field_filter_keeps demo_payload demo_filter "user.home.zip" (VStr "1") Hin Hb _ Hv).
  intros s' root rest Hs'. unfold demo_filter in Hs'. rewrite !elem_of_cons in Hs'.
  intros Hs Hh. destruct Hs' as [->|[->|[->|[->|[->|Hs']]]]]; vm_compute in Hs; try discriminate Hs.
  - injection Hs as <- <-. vm_compute in Hh. discriminate Hh.
  - by apply elem_of_nil in Hs'.
Defined.

(** ** Truncation *)

(** A valid sequence starts with a character of at most four bytes, and is valid
    after it. *)
Lemma utf8_char bs : bs ≠ [] → utf8_ok bs = true → ∃ ch rest,
  bs = ch ++ rest ∧ (1 ≤ length ch ≤ 4)%nat ∧ ∀ tl, utf8_ok (ch ++ tl) = utf8_ok tl.
Proof.
  intros Hne Hok. destruct bs as [|a r]; [done|]. clear Hne. cbn [utf8_ok] in Hok.
  destruct (ord a <? 128)%N eqn:Ea.
  { exists [a], r. split_and!; simpl; [done|lia|lia|]. intros tl. by rewrite Ea. }
  destruct r as [|b r]; [done|]. destruct (byte_in 194 223 a) eqn:E2.
  { apply andb_true_iff in Hok as [Hb Hr]. exists [a; b], r. split_and!; simpl; [done|lia|lia|].
    intros tl. by rewrite Ea, E2, Hb. }
  destruct r as [|c r]; [done|]. destruct (byte_in 224 239 a) eqn:E3.
  { apply andb_true_iff in Hok as [Hb Hr]. exists [a; b; c], r. split_and!; simpl; [done|lia|lia|].
    intros tl. by rewrite Ea, E2, E3, Hb. }
  destruct r as [|e r]; [done|]. apply andb_true_iff in Hok as [Hb Hr].
  exists [a; b; c; e], r. split_and!; simpl; [done|lia|lia|]. intros tl. by rewrite Ea, E2, E3, Hb.
Qed.

(** Any prefix of a valid sequence is at most three bytes longer than a valid one. *)
Lemma utf8_near bs n : utf8_ok bs = true → (n ≤ length bs)%nat →
  ∃ m, (m ≤ n ≤ m + 3)%nat ∧ utf8_ok (take m bs) = true.
Proof.
  remember (length bs) as len eqn:Hlen. revert bs n Hlen. induction len as [len IH] using lt_wf_ind.
  intros bs n -> Hok Hn. destruct (decide (bs = [])) as [->|Hne]; [exists 0%nat; simpl in *; split; [lia|done]|].
  destruct (utf8_char bs Hne Hok) as (ch & rest & -> & Hch & Htl). rewrite Htl in Hok.
  rewrite length_app in *. destruct (decide (n < length ch)%nat); [exists 0%nat; split; [lia|done]|].
  destruct (IH (length rest) ltac:(lia) rest (n - length ch)%nat eq_refl Hok ltac:(lia)) as (m & Hm & Hval).
  exists (length ch + m)%nat. split; [lia|]. by rewrite take_app_add, Htl.
Qed.

Lemma shrink_spec fin candidate : ∃ k,
  shrink_to_utf8 fin candidate = take k candidate ∧ (k ≤ fin)%nat ∧ utf8_ok (take k candidate) = true ∧
  ∀ j, (k < j ≤ fin)%nat → utf8_ok (take j candidate) = false.
Proof.
  induction fin as [|fin (k & Hk & Hle & Hok & Hmax)].
  { exists 0%nat. split_and!; [done|lia|done|lia]. }
  cbn [shrink_to_utf8]. destruct (utf8_ok (take (S fin) candidate)) eqn:E.
  - exists (S fin). split_and!; [done|lia|done|lia].
  - exists k. split_and!; [done|lia|done|]. intros j Hj. destruct (decide (j = S fin)) as [->|]; [done|].
    apply Hmax. lia.
Qed.

Lemma truncate_utf8_spec bs (limit : Z) : 0 ≤ limit ≤ Z.of_nat (length bs) → ∃ k,
  truncate_utf8_prefix bs limit = (take k bs, bool_decide (Z.of_nat k < limit)) ∧ Z.of_nat k ≤ limit ∧
  utf8_ok (take k bs) = true ∧
  ∀ j, (k < j)%nat → Z.of_nat j ≤ limit → utf8_ok (take j bs) = false.
Proof.
  intros Hl. unfold truncate_utf8_prefix, slice_to. rewrite (proj2 (Z.ltb_ge _ _)) by lia.
  set (n := Z.to_nat limit). assert (length (take n bs) = n) as Hn by (rewrite length_take; lia).
  destruct (utf8_ok (take n bs)) eqn:E.
  - exists n. rewrite bool_decide_eq_false_2 by lia. split_and!; [done|lia|done|lia].
  - rewrite Hn. destruct (shrink_spec n (take n bs)) as (k & -> & Hk & Hok & Hmax).
    exists k. rewrite take_take, Nat.min_l in Hok |- * by lia.
    assert (k ≠ n) by (intros ->; congruence). rewrite bool_decide_eq_true_2 by lia.
    split_and!; [done|lia|done|]. intros j Hj Hjl. specialize (Hmax j ltac:(lia)).
    by rewrite take_take, Nat.min_l in Hmax by lia.
Qed.

Section truncation_spec.
Context (dumps : pyval → string).
Implicit Types st : ResponseStrategy.

(** The bytes of the payload as [_apply_truncation] counts them. *)
Definition payload_bytes (payload : pyval) : list ascii :=
  chars (match payload with VStr s => s | _ => dumps payload end).

(** The limit of a strategy that truncates, when the payload exceeds it. *)
Definition exceeded_limit (payload : pyval) st : option Z :=
  match rs_max_response_bytes st with
  | Some limit =>
      if (0 <? limit) && (limit <? Z.of_nat (length (payload_bytes payload)))
         && match rs_truncation_policy st with trunc_none => false | _ => true end then Some limit else None
  | None => None
  end.

(** A response within its budget, without a budget, or whose policy is not
    to truncate is returned as it is.  Otherwise the result carries the longest
    prefix of the serialised payload that fits the byte budget and is valid
    UTF-8: the search for it ends, gives up at most three bytes, and reports
    whether it gave up any. *)
Theorem apply_truncation_spec payload st :
  utf8_ok (payload_bytes payload) = true →
  match exceeded_limit payload st with
  | None => apply_truncation dumps payload st = (payload, false)
  | Some limit => ∃ k,
      apply_truncation dumps payload st =
        (VDict ([("content", VStr (of_chars (take k (payload_bytes payload)))); ("original_type", VStr (type_name payload));
                 ("truncated", VBool true)]
                ++ (if bool_decide (Z.of_nat k < limit) then [("utf8_boundary_trimmed", VBool true)] else [])), true)
      ∧ limit - 3 ≤ Z.of_nat k ≤ limit
      ∧ utf8_ok (take k (payload_bytes payload)) = true
      ∧ ∀ j, (k < j)%nat → Z.of_nat j ≤ limit → utf8_ok (take j (payload_bytes payload)) = false
  end.
Proof.
  intros Hok. unfold exceeded_limit, apply_truncation. destruct (rs_max_response_bytes st) as [limit|]; [|done].
  fold (payload_bytes payload). destruct (Z.ltb_spec 0 limit), (Z.leb_spec limit 0); try lia; [|done].
  set (len := Z.of_nat (length (payload_bytes payload))).
  destruct (Z.ltb_spec limit len), (Z.leb_spec len limit); try lia; [|done]. simpl. unfold len in *.
  destruct (truncate_utf8_spec (payload_bytes payload) limit ltac:(lia)) as (k & -> & Hk & Hval & Hmax).
  assert (limit - 3 ≤ Z.of_nat k).
  { destruct (utf8_near (payload_bytes payload) (Z.to_nat limit) Hok ltac:(lia)) as (m & Hm & Hmv).
    destruct (decide (k < m)%nat); [|lia]. rewrite Hmax in Hmv by lia. done. }
  destruct (rs_truncation_policy st); simpl; [done|exists k; split_and!; done..].
Qed.
End truncation_spec.

(** Two-byte characters against a budget of three bytes: the last one goes. *)
Definition demo_strategy : ResponseStrategy :=
  {| rs_pagination := None; rs_max_response_bytes := Some 3; rs_field_filter := None; rs_max_array_items := None;
     rs_truncation_policy := trunc_truncate |}.
Definition demo_text : pyval := VStr (of_chars (ascii_of_N <$> [195; 169; 195; 169]%N)).

Lemma apply_truncation_spec_witness : ∃ k,
  apply_truncation (λ _, "") demo_text demo_strategy =
    (VDict ([("content", VStr (of_chars (take k (payload_bytes (λ _, "") demo_text)))); ("original_type", VStr "str");
             ("truncated", VBool true)]
            ++ (if bool_decide (Z.of_nat k < 3) then [("utf8_boundary_trimmed", VBool true)] else [])), true) ∧
  0 ≤ Z.of_nat k ≤ 3.
Proof.
  assert (utf8_ok (payload_bytes (λ _, "") demo_text) = true) as Hok by (vm_compute; reflexivity).
  destruct (apply_truncation_spec (λ _, "") demo_text demo_strategy Hok) as (k & Heq & Hk & _).
  exists k. split; [exact Heq|]. exact Hk.
Defined.
