(* ===== verification/SecretRefs.v ===== *)
(** * Secret references ([libs/secret_refs.py])

    A secret is named by a reference and read from an environment variable,
    either of that very name or of a normalised one.  The environment is a
    parameter.  [\W] and upper-casing are those of ASCII. *)

From S2P Require Export PyExn.
From Stdlib Require Import Ascii.

(** [\w] *)
Definition is_word (c : ascii) : bool :=
  let n := ord c in
  ((48 <=? n) && (n <=? 57) || (65 <=? n) && (n <=? 90) || (97 <=? n) && (n <=? 122) || (n =? 95))%N.

Arguments is_word : simpl never.
Arguments upper_char : simpl never.

(** [re.sub(r"\W+", "_", s).upper()]; [run] inside a run of other characters. *)
Fixpoint normalize_from (run : bool) (s : string) : string :=
  match s with
  | EmptyString => ""
  | String c s' =>
      if is_word c then String (upper_char c) (normalize_from false s')
      else if run then normalize_from true s' else String "_" (normalize_from true s')
  end.
Definition normalized_secret_ref_name : string → string := normalize_from false.

(** [[A-Za-z0-9._-]+] *)
Definition is_key_char (c : ascii) : bool :=
  is_word c || bool_decide (c = "."%char) || bool_decide (c = "-"%char).
Definition kubernetes_secret_key_name (secret_ref : string) : string :=
  if str_truthy secret_ref && forallb is_key_char (chars secret_ref) then secret_ref
  else normalized_secret_ref_name secret_ref.

(** [grouped.setdefault(normalized, [])] with the new reference appended once *)
Definition group_ref (grouped : dict (list string)) (secret_ref : string) : dict (list string) :=
  let normalized := normalized_secret_ref_name secret_ref in
  let refs := default [] (dict_get grouped normalized) in
  dict_set grouped normalized (if bool_decide (secret_ref ∈ refs) then refs else refs ++ [secret_ref]).

Definition find_secret_ref_name_collisions (secret_refs : list string) : dict (list string) :=
  List.filter (λ kv, (1 <? length kv.2)%nat) (foldl group_ref [] secret_refs).

Definition secret_collision_error (context : string) (collisions : dict (list string)) : exn :=
  mk_exn "SecretReferenceCollisionError" ("Secret refs for " +:+ context +:+ " normalize to the same env name")
    [("context", VStr context); ("collisions", VDict ((λ kv, (kv.1, VList (VStr <$> kv.2))) <$> collisions))].

Definition ensure_no_secret_ref_name_collisions (secret_refs : list string) (context : string) : outcome exn unit :=
  match find_secret_ref_name_collisions secret_refs with
  | [] => Ok tt
  | collisions => Raise (secret_collision_error context collisions)
  end.

Definition candidate_env_names (secret_ref : string) : list string :=
  let normalized := normalized_secret_ref_name secret_ref in
  if bool_decide (normalized ∈ [secret_ref]) then [secret_ref] else [secret_ref; normalized].

Definition missing_secret_error (secret_ref purpose context : string) : exn :=
  mk_exn "MissingSecretReferenceError" ("Missing " +:+ purpose +:+ " for " +:+ context +:+ ": " +:+ secret_ref +:+ ".")
    [("secret_ref", VStr secret_ref); ("purpose", VStr purpose); ("context", VStr context)].

(** A line break or a null byte *)
Definition is_illegal (c : ascii) : bool := (ord c =? 13)%N || (ord c =? 10)%N || (ord c =? 0)%N.
Definition has_illegal (s : string) : bool := existsb is_illegal (chars s).

Section resolution.
(** [os.getenv] *)
Context (getenv : string → option string).

Fixpoint first_secret (purpose context : string) (env_names : list string) : option (outcome exn string) :=
  match env_names with
  | [] => None
  | env_name :: rest =>
      match getenv env_name with
      | Some secret =>
          if str_truthy secret && str_truthy (strip secret) then
            Some (if has_illegal secret
                  then Raise (value_error ("Secret for " +:+ purpose +:+ " (" +:+ context +:+ ") contains illegal control characters."))
                  else Ok secret)
          else first_secret purpose context rest
      | None => first_secret purpose context rest
      end
  end.

Definition resolve_secret_ref (secret_ref purpose context : string) : outcome exn string :=
  default (Raise (missing_secret_error secret_ref purpose context))
    (first_secret purpose context (candidate_env_names secret_ref)).
End resolution.

(** ** Normalisation *)

Lemma is_word_upper c : is_word c = true → is_word (upper_char c) = true.
Proof. by destruct c as [[] [] [] [] [] [] [] []]. Qed.
Lemma upper_char_idemp c : upper_char (upper_char c) = upper_char c.
Proof. by destruct c as [[] [] [] [] [] [] [] []]. Qed.


(** Names that normalisation leaves alone. *)
Definition env_name_ok (s : string) : bool := forallb (λ c, is_word c && bool_decide (upper_char c = c)) (chars s).

Lemma env_name_ok_cons c s :
  env_name_ok (String c s) = is_word c && bool_decide (upper_char c = c) && env_name_ok s.
Proof. done. Qed.

Lemma normalize_ok run s : env_name_ok (normalize_from run s) = true.
Proof.
  revert run. induction s as [|c s IH]; intros run; simpl; [done|].
  destruct (is_word c) eqn:E; simpl.
  - rewrite env_name_ok_cons, is_word_upper, upper_char_idemp, bool_decide_eq_true_2 by done. apply IH.
  - destruct run; [apply IH|]. rewrite env_name_ok_cons, IH. done.
Qed.

Lemma normalize_id run s : env_name_ok s = true → normalize_from run s = s.
Proof.
  revert run. induction s as [|c s IH]; intros run; [done|]. rewrite env_name_ok_cons. simpl.
  rewrite !andb_true_iff, bool_decide_eq_true. intros [[-> ->] Hs]. by rewrite IH.
Qed.

Lemma normalized_idemp s : normalized_secret_ref_name (normalized_secret_ref_name s) = normalized_secret_ref_name s.
Proof. apply normalize_id, normalize_ok. Qed.

Lemma candidates_cases s n : n ∈ candidate_env_names s ↔ n = s ∨ n = normalized_secret_ref_name s.
Proof. unfold candidate_env_names. case_bool_decide as H; rewrite ?elem_of_cons in *; set_solver. Qed.

(** Every name under which a reference is read or stored normalises to the
    reference's own normalised name. *)
Lemma candidate_normalized s n :
  n ∈ candidate_env_names s → normalized_secret_ref_name n = normalized_secret_ref_name s.
Proof. intros [ ->| ->]%candidates_cases; [done|apply normalized_idemp]. Qed.

Lemma key_normalized s :
  normalized_secret_ref_name (kubernetes_secret_key_name s) = normalized_secret_ref_name s.
Proof. unfold kubernetes_secret_key_name. case_match; [done|apply normalized_idemp]. Qed.

(** ** Collisions *)

(** What grouping keeps: every reference read so far is in its own group, and a
    group has more than one member only if two references collide. *)
Definition grouped_ok (refs : list string) (grouped : dict (list string)) : Prop :=
  dict_wf grouped ∧
  (∀ s, s ∈ refs → ∃ g, dict_get grouped (normalized_secret_ref_name s) = Some g ∧ s ∈ g) ∧
  (∀ n g, dict_get grouped n = Some g → NoDup g ∧ ∀ s, s ∈ g → s ∈ refs ∧ normalized_secret_ref_name s = n).

Lemma group_ref_ok refs grouped s :
  grouped_ok refs grouped → grouped_ok (refs ++ [s]) (group_ref grouped s).
Proof.
  intros (Hwf & Hin & Hg). unfold group_ref. set (n := normalized_secret_ref_name s).
  set (old := default [] (dict_get grouped n)).
  assert (NoDup old ∧ ∀ t, t ∈ old → t ∈ refs ∧ normalized_secret_ref_name t = n) as [Hnd Hold].
  { unfold old. destruct (dict_get grouped n) eqn:E; simpl; [by apply Hg|].
    split; [constructor|]. intros t Ht. by apply elem_of_nil in Ht. }
  set (new := if bool_decide (s ∈ old) then old else old ++ [s]).
  assert (∀ t, t ∈ new ↔ t ∈ old ∨ t = s) as Hnew.
  { intros t. unfold new. case_bool_decide; [|set_solver]. split; [by left|]. by intros [| ->]. }
  split; [by apply dict_wf_set|]. split.
  - intros t Ht. rewrite dict_get_set. destruct (str_eqbP (normalized_secret_ref_name t) n) as [He|He].
    + exists new. split; [done|]. apply Hnew. apply elem_of_app in Ht as [Ht| ->%list_elem_of_singleton]; [left|by right].
      destruct (Hin t Ht) as (g & Hgt & Htg). unfold old. rewrite He in Hgt. by rewrite Hgt.
    + apply elem_of_app in Ht as [Ht| ->%list_elem_of_singleton]; [by apply Hin|done].
  - intros m g. rewrite dict_get_set. destruct (str_eqbP m n) as [->|].
    + intros [= <-]. split.
      * unfold new. case_bool_decide; [done|]. apply NoDup_app. split_and!; [done|set_solver|apply NoDup_singleton].
      * intros t [Ht| ->]%Hnew; [|set_solver]. destruct (Hold t Ht). set_solver.
    + intros [Hgn Hgs]%Hg. split; [done|]. intros t [Ht ?]%Hgs. set_solver.
Qed.

Lemma grouped_all refs : grouped_ok refs (foldl group_ref [] refs).
Proof.
  induction refs as [|s refs IH] using rev_ind; [|rewrite foldl_app; by apply group_ref_ok].
  split_and!; [constructor|set_solver|done].
Qed.

Lemma ensure_ok_iff refs context :
  ensure_no_secret_ref_name_collisions refs context = Ok tt ↔
  ∀ s t, s ∈ refs → t ∈ refs → normalized_secret_ref_name s = normalized_secret_ref_name t → s = t.
Proof.
  unfold ensure_no_secret_ref_name_collisions, find_secret_ref_name_collisions.
  destruct (grouped_all refs) as (Hwf & Hin & Hg). set (grouped := foldl group_ref [] refs) in *.
  destruct (List.filter _ grouped) as [|[n g] l] eqn:E.
  - split; [intros _|done]. intros s t Hs Ht Heq.
    destruct (Hin s Hs) as (g & Hgs & Hsg). destruct (Hin t Ht) as (g' & Hgt & Htg).
    rewrite <-Heq in Hgt. simplify_eq.
    assert (¬ (1 < length g)%nat) as Hlen.
    { intros Hl. assert ((normalized_secret_ref_name s, g) ∈ List.filter (λ kv, (1 <? length kv.2)%nat) grouped) as Hf.
      { apply elem_of_filterb. split; [by apply Nat.ltb_lt|by apply dict_get_Some_elem]. }
      rewrite E in Hf. by apply elem_of_nil in Hf. }
    destruct g as [|a [|b g]]; simpl in Hlen; [by apply elem_of_nil in Hsg| |lia].
    apply list_elem_of_singleton in Hsg as ->. by apply list_elem_of_singleton in Htg as ->.
  - split; [done|]. intros Hinj. exfalso.
    assert ((n, g) ∈ List.filter (λ kv, (1 <? length kv.2)%nat) grouped) as Hf by (rewrite E; left).
    apply elem_of_filterb in Hf as [Hl Hng]. apply Nat.ltb_lt in Hl. simpl in Hl.
    destruct (Hg n g) as [Hnd Hgs]; [by apply dict_get_elem|].
    destruct g as [|a [|b g]]; simpl in Hl; [lia..|].
    destruct (Hgs a) as [Ha Hna]; [left|]. destruct (Hgs b) as [Hb Hnb]; [right; left|].
    assert (a = b) as <- by (apply Hinj; congruence).
    apply NoDup_cons in Hnd as [Hnd _]. apply Hnd. left.
Qed.

(** When the collision check accepts the references of a service, it has
    made them independent: no two of them are ever read from the same environment
    variable, and they are stored under different Kubernetes secret keys.  The
    check accepts whenever the normalised names differ. *)
Theorem accepted_refs_independent refs context :
  match ensure_no_secret_ref_name_collisions refs context with
  | Ok _ =>
      ∀ s t, s ∈ refs → t ∈ refs → s ≠ t →
        (∀ n, n ∈ candidate_env_names s → n ∉ candidate_env_names t) ∧
        kubernetes_secret_key_name s ≠ kubernetes_secret_key_name t
  | Raise _ => ∃ s t, s ∈ refs ∧ t ∈ refs ∧ s ≠ t ∧ normalized_secret_ref_name s = normalized_secret_ref_name t
  end.
Proof.
  destruct (ensure_no_secret_ref_name_collisions refs context) as [[]|e] eqn:E.
  - rewrite ensure_ok_iff in E. intros s t Hs Ht Hne. split.
    + intros n Hn Hn'. apply Hne, E; [done..|].
      by rewrite <-(candidate_normalized s n), <-(candidate_normalized t n).
    + intros Hk. apply Hne, E; [done..|]. by rewrite <-key_normalized, Hk, key_normalized.
  - destruct (decide (Exists (λ s, Exists (λ t, s ≠ t ∧
      normalized_secret_ref_name s = normalized_secret_ref_name t) refs) refs)) as [Hex|Hno].
    + apply Exists_exists in Hex as (s & Hs & (t & Ht & ? & ?)%Exists_exists). by exists s, t.
    + exfalso. assert (ensure_no_secret_ref_name_collisions refs context = Ok tt) as Hok; [|congruence].
      apply ensure_ok_iff. intros s t Hs Ht Heq. destruct (decide (s = t)); [done|]. destruct Hno.
      apply Exists_exists. exists s. split; [done|]. apply Exists_exists. by exists t.
Qed.

(** ** Resolution *)

(** A variable that holds a usable secret *)
Definition usable (getenv : string → option string) (n : string) : Prop :=
  ∃ v, getenv n = Some v ∧ str_truthy (strip v) = true.

#[export] Instance usable_dec getenv n : Decision (usable getenv n).
Proof.
  destruct (getenv n) as [v|] eqn:E; [destruct (str_truthy (strip v)) eqn:Ev|].
  - left. by exists v.
  - right. intros (w & ? & ?). congruence.
  - right. intros (w & ? & ?). congruence.
Defined.

Lemma first_secret_step getenv purpose context n rest :
  first_secret getenv purpose context (n :: rest) =
    if decide (usable getenv n) then first_secret getenv purpose context [n]
    else first_secret getenv purpose context rest.
Proof.
  simpl. destruct (getenv n) as [v|] eqn:E; [|rewrite decide_False; [done|by intros (? & ? & ?); congruence]].
  destruct (str_truthy v && str_truthy (strip v)) eqn:Ev.
  - apply andb_true_iff in Ev as [_ Ev]. rewrite decide_True; [done|by exists v].
  - rewrite decide_False; [done|]. intros (w & He & Hw). rewrite E in He. injection He as <-. rewrite Hw, andb_true_r in Ev.
    destruct v; [by vm_compute in Hw|done].
Qed.

(** Resolution reads the reference's own variable first and the normalised
    one second, skipping blank values; the secret found is returned unchanged
    unless it contains a line break or a null byte, which is an error, as is
    finding none. *)
Theorem resolve_secret_ref_spec getenv secret_ref purpose context :
  let normalized := normalized_secret_ref_name secret_ref in
  let use n := ∃ v, getenv n = Some v ∧ str_truthy (strip v) = true ∧
    resolve_secret_ref getenv secret_ref purpose context =
      (if has_illegal v
       then Raise (value_error ("Secret for " +:+ purpose +:+ " (" +:+ context +:+ ") contains illegal control characters."))
       else Ok v) in
  if decide (usable getenv secret_ref) then use secret_ref
  else if decide (usable getenv normalized) then use normalized
  else resolve_secret_ref getenv secret_ref purpose context = Raise (missing_secret_error secret_ref purpose context).
Proof.
  cbv zeta. unfold resolve_secret_ref.
  assert (first_secret getenv purpose context (candidate_env_names secret_ref) =
          first_secret getenv purpose context [secret_ref; normalized_secret_ref_name secret_ref]) as ->.
  { unfold candidate_env_names. case_bool_decide as H; [|done]. apply list_elem_of_singleton in H as ->.
    rewrite (first_secret_step _ _ _ secret_ref [secret_ref]). by case_decide. }
  assert (∀ n, usable getenv n → ∃ v, getenv n = Some v ∧ str_truthy (strip v) = true ∧
    first_secret getenv purpose context [n] = Some (if has_illegal v
       then Raise (value_error ("Secret for " +:+ purpose +:+ " (" +:+ context +:+ ") contains illegal control characters."))
       else Ok v)) as Huse.
  { intros n (v & Hv & Hs). exists v. split_and!; [done..|]. simpl. rewrite Hv, Hs.
    by destruct v; [vm_compute in Hs|]. }
  rewrite first_secret_step. case_decide as H1.
  { destruct (Huse _ H1) as (v & ? & ? & ->). by exists v. }
  rewrite first_secret_step. case_decide as H2; [|done].
  destruct (Huse _ H2) as (v & ? & ? & ->). by exists v.
Qed.

Example demo_collision :
  find_secret_ref_name_collisions ["db/pass"; "DB-PASS"; "db/pass"; "other"] = [("DB_PASS", ["db/pass"; "DB-PASS"])].
Proof. vm_compute. reflexivity. Qed.
