(* ===== verification/WebhookAdapter.v ===== *)
(** * Webhook adapter ([apps/mcp_runtime/webhook_adapter.py])

    Registered callbacks and, per channel, the payloads received and not yet
    read, in a bounded queue ([deque(maxlen=100)]). *)

From S2P Require Export PyUrl.
From Stdlib Require Import Ascii.

Definition _DEFAULT_MAX_STORED : nat := 100.

Record WebhookAdapter := mk_webhooks {
  wh_callback_base_url : option string;
  wh_payloads : dict (list pyval);
  wh_registered : dict pyval;
}.

(** [self._payloads.setdefault(channel, deque(maxlen=...))] *)
Definition ensure_channel (w : WebhookAdapter) (channel : string) : WebhookAdapter :=
  if dict_mem (wh_payloads w) channel then w
  else mk_webhooks (wh_callback_base_url w) (dict_set (wh_payloads w) channel []) (wh_registered w).

(** [register]; the registration id is the caller's fresh [uuid4().hex[:12]]. *)
Definition register (w : WebhookAdapter) (registration_id channel : string) (target_url : pyval) : pyval * WebhookAdapter :=
  let callback_url :=
    match target_url with
    | VNone =>
        match wh_callback_base_url w with
        | Some b => if str_truthy b then VStr (rstrip_char "/" b +:+ "/webhooks/" +:+ channel) else VNone
        | None => VNone
        end
    | v => v
    end in
  let registration := VDict [("registration_id", VStr registration_id); ("channel", VStr channel);
                             ("callback_url", callback_url)] in
  let w := mk_webhooks (wh_callback_base_url w) (wh_payloads w) (dict_set (wh_registered w) channel registration) in
  (registration, ensure_channel w channel).

Definition deregister (w : WebhookAdapter) (channel : string) : pyval * WebhookAdapter :=
  match dict_get (wh_registered w) channel with
  | None => (VDict [("channel", VStr channel); ("status", VStr "not_found")], w)
  | Some _ =>
      (VDict [("channel", VStr channel); ("status", VStr "deregistered")],
       mk_webhooks (wh_callback_base_url w) (dict_del (wh_payloads w) channel) (dict_del (wh_registered w) channel))
  end.

(** Appending to a full [deque] drops its first element. *)
Definition deque_append {A} (buf : list A) (x : A) : list A :=
  drop (length buf + 1 - _DEFAULT_MAX_STORED) (buf ++ [x]).

Definition receive_payload (w : WebhookAdapter) (channel : string) (payload : pyval) : WebhookAdapter :=
  let w := ensure_channel w channel in
  mk_webhooks (wh_callback_base_url w)
    (dict_set (wh_payloads w) channel (deque_append (default [] (dict_get (wh_payloads w) channel)) payload))
    (wh_registered w).

(** [while buf and len(results) < max_count] *)
Fixpoint pop_payloads (buf results : list pyval) (max_count : Z) : list pyval * list pyval :=
  match buf with
  | [] => (results, [])
  | x :: buf' =>
      if Z.of_nat (length results) <? max_count then pop_payloads buf' (results ++ [x]) max_count else (results, buf)
  end.

Definition get_payloads (w : WebhookAdapter) (channel : string) (max_count : Z) : list pyval * WebhookAdapter :=
  match dict_get (wh_payloads w) channel with
  | None | Some [] => ([], w)
  | Some buf =>
      let '(results, rest) := pop_payloads buf [] max_count in
      (results, mk_webhooks (wh_callback_base_url w) (dict_set (wh_payloads w) channel rest) (wh_registered w))
  end.

Definition list_registrations (w : WebhookAdapter) : dict pyval := wh_registered w.

(** ** The queue *)

(** The payloads waiting on a channel. *)
Definition waiting (w : WebhookAdapter) (channel : string) : list pyval :=
  default [] (dict_get (wh_payloads w) channel).

(** The last [n] elements *)
Definition last_n {A} (n : nat) (l : list A) : list A := drop (length l - n) l.

Lemma pop_payloads_eq buf results n :
  pop_payloads buf results n =
    (results ++ take (Z.to_nat (n - Z.of_nat (length results))) buf, drop (Z.to_nat (n - Z.of_nat (length results))) buf).
Proof.
  revert results. induction buf as [|x buf IH]; intros results; cbn [pop_payloads].
  { by rewrite take_nil, drop_nil, app_nil_r. }
  destruct (Z.ltb_spec (Z.of_nat (length results)) n).
  - rewrite IH, length_app. simpl length.
    replace (Z.to_nat (n - Z.of_nat (length results))) with
      (S (Z.to_nat (n - Z.of_nat (length results + 1)))) by lia. simpl. by rewrite <-(assoc_L (++)).
  - replace (Z.to_nat (n - Z.of_nat (length results))) with 0%nat by lia. simpl. by rewrite app_nil_r.
Qed.

(** What the channel's clients did to it, in order. *)
Inductive action := Received (payload : pyval) | Read (max_count : Z) | Registered (id : string) (target : pyval).

Definition act (w : WebhookAdapter) (channel : string) (a : action) : list pyval * WebhookAdapter :=
  match a with
  | Received p => ([], receive_payload w channel p)
  | Read n => get_payloads w channel n
  | Registered i t => ([], (register w i channel t).2)
  end.

(** Everything the reads of a run returned, and the adapter it leaves. *)
Fixpoint acts (w : WebhookAdapter) (channel : string) (l : list action) : list pyval * WebhookAdapter :=
  match l with
  | [] => ([], w)
  | a :: l' => let '(out, w') := act w channel a in let '(outs, w'') := acts w' channel l' in (out ++ outs, w'')
  end.

Definition received_by (l : list action) : list pyval :=
  omap (λ a, match a with Received p => Some p | _ => None end) l.

Lemma waiting_set b ps r c v c' :
  waiting (mk_webhooks b (dict_set ps c v) r) c' = if str_eqb c' c then v else default [] (dict_get ps c').
Proof. unfold waiting. simpl. rewrite dict_get_set. by destruct (str_eqb c' c). Qed.

Lemma ensure_channel_waiting w c c' : waiting (ensure_channel w c) c' = waiting w c'.
Proof.
  unfold ensure_channel, dict_mem, waiting. case_bool_decide as H; [done|]. simpl. rewrite dict_get_set. case_eqb; [|done].
  destruct (dict_get (wh_payloads w) c) eqn:E; [|done]. exfalso. apply H. eauto.
Qed.

Lemma receive_waiting w c p c' :
  waiting (receive_payload w c p) c' = if str_eqb c' c then deque_append (waiting w c) p else waiting w c'.
Proof.
  unfold receive_payload. rewrite waiting_set. fold (waiting (ensure_channel w c) c).
  fold (waiting (ensure_channel w c) c'). by rewrite !ensure_channel_waiting.
Qed.

Lemma get_payloads_spec w c n c' :
  (get_payloads w c n).1 = take (Z.to_nat n) (waiting w c) ∧
  waiting (get_payloads w c n).2 c' = if str_eqb c' c then drop (Z.to_nat n) (waiting w c) else waiting w c'.
Proof.
  unfold get_payloads. destruct (dict_get (wh_payloads w) c) as [[|x buf]|] eqn:E.
  2: { rewrite pop_payloads_eq. cbn [length fst snd]. rewrite waiting_set. unfold waiting at 1 2. rewrite E.
       simpl default. by rewrite Z.sub_0_r. }
  all: assert (waiting w c = []) as Hw by (unfold waiting; by rewrite E).
  all: rewrite Hw, take_nil, drop_nil; split; [done|]; simpl.
  all: by destruct (str_eqbP c' c) as [->|].
Qed.

(** Nothing is dropped while the queue never holds more than it can store. *)
Fixpoint never_full (waiting : nat) (l : list action) : Prop :=
  match l with
  | [] => True
  | Received _ :: l' => (waiting < _DEFAULT_MAX_STORED)%nat ∧ never_full (S waiting) l'
  | Read n :: l' => never_full (waiting - Z.to_nat n) l'
  | Registered _ _ :: l' => never_full waiting l'
  end.

Lemma act_waiting w c a : waiting (act w c a).2 c =
  match a with
  | Received p => deque_append (waiting w c) p
  | Read n => drop (Z.to_nat n) (waiting w c)
  | Registered _ _ => waiting w c
  end.
Proof.
  destruct a; simpl.
  - by rewrite receive_waiting, str_eqb_refl.
  - destruct (get_payloads_spec w c max_count c) as [_ ->]. by rewrite str_eqb_refl.
  - by rewrite ensure_channel_waiting.
Qed.

Lemma act_fifo w c a l : never_full (length (waiting w c)) (a :: l) →
  (act w c a).1 ++ waiting (act w c a).2 c = waiting w c ++ received_by [a] ∧ never_full (length (waiting (act w c a).2 c)) l.
Proof.
  intros Hn. rewrite act_waiting. destruct a as [p|n|i t]; simpl in *.
  - destruct Hn as [Hlt Hn]. unfold deque_append.
    replace (length (waiting w c) + 1 - _DEFAULT_MAX_STORED)%nat with 0%nat by (unfold _DEFAULT_MAX_STORED in *; lia).
    rewrite drop_0, length_app. simpl. by rewrite Nat.add_1_r.
  - destruct (get_payloads_spec w c n c) as [-> _]. by rewrite take_drop, app_nil_r, length_drop.
  - by rewrite app_nil_r.
Qed.

(** A webhook channel is a bounded first-in first-out queue.  Reading [n]
    payloads returns the oldest [n] waiting and removes exactly those; a payload
    received when 100 are waiting displaces the oldest; other channels are not
    touched.  Over any run that never overfills the channel, the payloads read
    and those still waiting are, in order, those received: none is lost,
    duplicated or reordered. *)
Theorem webhook_channel_fifo w c :
  (∀ n, (get_payloads w c n).1 = take (Z.to_nat n) (waiting w c)) ∧
  (∀ p, waiting (receive_payload w c p) c = last_n _DEFAULT_MAX_STORED (waiting w c ++ [p])) ∧
  (∀ n p c', c' ≠ c → waiting (get_payloads w c n).2 c' = waiting w c' ∧ waiting (receive_payload w c p) c' = waiting w c') ∧
  (∀ l, never_full (length (waiting w c)) l →
     (acts w c l).1 ++ waiting (acts w c l).2 c = waiting w c ++ received_by l).
Proof.
  split_and!.
  - intros n. by apply (get_payloads_spec w c n c).
  - intros p. rewrite receive_waiting, str_eqb_refl. unfold deque_append, last_n. by rewrite length_app.
  - intros n p c' Hne. destruct (get_payloads_spec w c n c') as [_ ->]. rewrite receive_waiting. by case_eqb.
  - intros l. revert w. induction l as [|a l IH]; intros w Hn; [simpl; by rewrite app_nil_r|].
    destruct (act_fifo w c a l Hn) as [Ha Hn']. simpl. destruct (act w c a) as [out w'] eqn:Ea. simpl in *.
    specialize (IH w' Hn'). destruct (acts w' c l) as [outs w'']. simpl in *.
    rewrite <-(assoc_L (++)), IH, (assoc_L (++)), Ha. unfold received_by. simpl.
    destruct a; simpl; by rewrite <-(assoc_L (++)).
Qed.

Example demo_webhook :
  let '(_, w) := register (mk_webhooks (Some "http://host/") [] []) "0123456789ab" "orders" VNone in
  let w := receive_payload (receive_payload w "orders" (VInt 1)) "orders" (VInt 2) in
  (get_payloads w "orders" 1).1 = [VInt 1] ∧ waiting (get_payloads w "orders" 1).2 "orders" = [VInt 2].
Proof. vm_compute. done. Qed.
