(* ===== verification/CircuitBreaker.v ===== *)
(** * Circuit breaker ([apps/mcp_runtime/circuit_breaker.py])

    Counts an operation's consecutive failures and opens at a threshold. *)

From S2P Require Export PyExn.

Record CircuitBreaker := mk_breaker {
  cb_operation_id : string;
  cb_failure_threshold : Z;
  cb_consecutive_failures : Z;
  cb_is_open : bool;
}.

Definition new_breaker (operation_id : string) (failure_threshold : Z) : CircuitBreaker :=
  mk_breaker operation_id failure_threshold 0 false.

Definition open_error (operation_id : string) : exn :=
  mk_exn "CircuitBreakerOpenError" ("Circuit breaker is open for operation " +:+ operation_id +:+ ".") [].

Definition before_request (b : CircuitBreaker) : outcome exn unit :=
  if cb_is_open b then Raise (open_error (cb_operation_id b)) else Ok tt.

Definition record_success (b : CircuitBreaker) : CircuitBreaker :=
  mk_breaker (cb_operation_id b) (cb_failure_threshold b) 0 false.

Definition record_failure (b : CircuitBreaker) : CircuitBreaker :=
  let n := cb_consecutive_failures b + 1 in
  mk_breaker (cb_operation_id b) (cb_failure_threshold b) n (if cb_failure_threshold b <=? n then true else cb_is_open b).

(** ** Calls through a breaker *)

(** How a call that the breaker admitted ended; some failures of a call are
    not recorded. *)
Inductive ending := Succeeded | Failed | Unrecorded.

Definition record (e : ending) (b : CircuitBreaker) : CircuitBreaker :=
  match e with Succeeded => record_success b | Failed => record_failure b | Unrecorded => b end.

(** One call: [None] when the breaker refused it. *)
Definition call (b : CircuitBreaker) (e : ending) : option ending * CircuitBreaker :=
  match before_request b with
  | Ok _ => (Some e, record e b)
  | Raise _ => (None, b)
  end.

(** Calls one after another; [l] says how each would end if admitted. *)
Fixpoint calls (b : CircuitBreaker) (l : list ending) : list (option ending) * CircuitBreaker :=
  match l with
  | [] => ([], b)
  | e :: l' => let '(r, b') := call b e in let '(rs, b'') := calls b' l' in (r :: rs, b'')
  end.

(** The length of the run of failures at the end of a history, unrecorded calls
    not counting. *)
Fixpoint run_length (n : Z) (l : list ending) : Z :=
  match l with
  | [] => n
  | Succeeded :: l' => run_length 0 l'
  | Failed :: l' => run_length (n + 1) l'
  | Unrecorded :: l' => run_length n l'
  end.

(** The first point at which the run of failures reaches [t]. *)
Fixpoint trips (t n : Z) (l : list ending) : option nat :=
  match l with
  | [] => None
  | e :: l' =>
      let n' := run_length n [e] in
      if (match e with Failed => t <=? n' | _ => false end) then Some 1%nat else S <$> trips t n' l'
  end.

(** A breaker is open exactly when its count has reached its threshold. *)
Definition breaker_ok (b : CircuitBreaker) : Prop :=
  0 < cb_failure_threshold b ∧ 0 ≤ cb_consecutive_failures b ∧
  (cb_is_open b = true ↔ cb_failure_threshold b ≤ cb_consecutive_failures b).

Lemma new_breaker_ok i t : 0 < t → breaker_ok (new_breaker i t).
Proof. intros. unfold breaker_ok. simpl. split_and!; [done|lia|]. split; [done|lia]. Qed.

Lemma record_success_ok b : breaker_ok b → breaker_ok (record_success b).
Proof. intros (H & _ & _). split_and!; simpl; [done|lia|]. split; [done|lia]. Qed.

Lemma record_failure_ok b : breaker_ok b → breaker_ok (record_failure b).
Proof.
  intros (H & Hn & Hiff). split_and!; simpl; [done|lia|].
  destruct (Z.leb_spec (cb_failure_threshold b) (cb_consecutive_failures b + 1)); [done|].
  rewrite Hiff. lia.
Qed.

Lemma record_ok e b : breaker_ok b → breaker_ok (record e b).
Proof. destruct e; [apply record_success_ok|apply record_failure_ok|done]. Qed.

Lemma calls_open b l : cb_is_open b = true → calls b l = (replicate (length l) None, b).
Proof.
  intros Hb. induction l as [|e l IH]; [done|]. simpl. unfold call, before_request. by rewrite Hb, IH.
Qed.

Lemma trips_take t n l k : trips t n l = Some k → trips t n (take k l) = Some k ∧ (k ≤ length l)%nat.
Proof.
  revert n k. induction l as [|e l IH]; intros n k H; [done|]. cbn [trips] in H.
  destruct (match e with Failed => t <=? run_length n [e] | _ => false end) eqn:E.
  - injection H as <-. cbn [take trips]. rewrite E. simpl. split; [done|lia].
  - destruct (trips t (run_length n [e]) l) as [k'|] eqn:Ek; [|done]. injection H as <-.
    destruct (IH _ _ Ek) as [Ht Hk]. cbn [take trips]. rewrite E, Ht. simpl. split; [done|lia].
Qed.

Lemma breaker_trips_from i t n l : 0 < t → n < t →
  match trips t n l with
  | None => calls (mk_breaker i t n false) l = (Some <$> l, mk_breaker i t (run_length n l) false) ∧ run_length n l < t
  | Some k =>
      calls (mk_breaker i t n false) l =
        ((Some <$> take k l) ++ replicate (length l - k) None, mk_breaker i t (run_length n (take k l)) true)
      ∧ run_length n (take k l) = t
  end.
Proof.
  intros Ht. revert n. induction l as [|e l IH]; intros n Hn; [done|].
  cbn [trips calls]. unfold call, before_request. cbn [cb_is_open].
  destruct e; cbn [record run_length take fmap list_fmap].
  - unfold record_success. cbn [cb_operation_id cb_failure_threshold]. specialize (IH 0 Ht).
    destruct (trips t 0 l) as [k|]; simpl; destruct IH as [-> IH]; done.
  - unfold record_failure. cbn [cb_operation_id cb_failure_threshold cb_consecutive_failures cb_is_open].
    destruct (Z.leb_spec t (n + 1)).
    + rewrite calls_open by done. simpl. split; [by rewrite ?Nat.sub_0_r|lia].
    + specialize (IH (n + 1) ltac:(lia)). destruct (trips t (n + 1) l) as [k|]; simpl; destruct IH as [-> IH]; done.
  - specialize (IH n Hn). destruct (trips t n l) as [k|]; simpl; destruct IH as [-> IH]; done.
Qed.


(** A breaker admits calls until the failures in a row reach its threshold
    and refuses every later call.  From a fresh breaker: as long as no run of
    failures has reached the threshold every call is admitted and the count is the
    length of the current run; the call that completes the run is the last one
    admitted, whatever the endings of the later calls would have been, and the
    breaker stays open. *)
Theorem breaker_trips_once i t l : 0 < t →
  match trips t 0 l with
  | None =>
      calls (new_breaker i t) l = (Some <$> l, mk_breaker i t (run_length 0 l) false) ∧ run_length 0 l < t
  | Some k =>
      calls (new_breaker i t) l =
        ((Some <$> take k l) ++ replicate (length l - k) None, mk_breaker i t (run_length 0 (take k l)) true)
      ∧ run_length 0 (take k l) = t
  end.
Proof. intros Ht. by apply breaker_trips_from. Qed.

Lemma breaker_trips_once_witness :
  calls (new_breaker "op" 2) [Failed; Succeeded; Failed; Unrecorded; Failed; Succeeded; Succeeded] =
    ([Some Failed; Some Succeeded; Some Failed; Some Unrecorded; Some Failed; None; None], mk_breaker "op" 2 2 true).
Proof.
  assert (0 < 2) as H by lia.
  exact (proj1 (breaker_trips_once "op" 2 [Failed; Succeeded; Failed; Unrecorded; Failed; Succeeded; Succeeded] H)).
Defined.
