(* ===== verification/RuntimeProtocols.v ===== *)
(** * Wire protocols of the runtime
    ([apps/mcp_runtime/proxy_soap.py], [proxy_graphql.py], [proxy_enterprise.py],
    and the response parsing and sanitising of [proxy_utils.py])

    How a tool's arguments become a SOAP envelope, a GraphQL document call, an
    OData query or a JSON-RPC request; how the errors those protocols report
    inside a response are found; and how a response becomes the tool's result.
    An [httpx] response is a record of what the code reads of it; XML text is
    parsed and printed by parameters, everything between text and tree is
    defined. *)

From S2P Require Export ResponseShaping PyExn.
From Stdlib Require Import Ascii.

Definition tool_error (m : string) : exn := mk_exn "ToolError" m [].

(** ** Responses *)

(** What is read of an [httpx.Response]: header names are in lower case, and
    [rsp_json] is [None] when [response.json()] raises. *)
Record response := mk_response {
  rsp_status : Z;
  rsp_headers : dict string;
  rsp_content : string;
  rsp_text : string;
  rsp_json : option pyval;
  rsp_request_url : option string;
}.

(** [response.is_error] *)
Definition is_error (r : response) : bool := (400 <=? rsp_status r) && (rsp_status r <=? 599).

Definition header (r : response) (name : string) : option string := dict_get (rsp_headers r) name.

(** [PreparedRequestPayload]; file parts are (name, content, content type). *)
Record PreparedRequestPayload := mk_payload {
  pp_query_params : dict pyval;
  pp_json_body : option pyval;
  pp_form_data : option (dict string);
  pp_files : option (dict (string * string * option string));
  pp_raw_body : option string;
  pp_content_type : option string;
  pp_signable_body : option pyval;
}.

Definition _TEXTUAL_CONTENT_TYPES : list string :=
  ["text/"; "application/json"; "application/xml"; "application/x-www-form-urlencoded"].
Definition _MAX_BINARY_ENCODE_BYTES : Z := 10 * 1024 * 1024.
Definition _SOAP_ENVELOPE_NS : string := "http://schemas.xmlsoap.org/soap/envelope/".

(** [a or b] for a text *)
Definition str_or (a b : string) : string := if str_truthy a then a else b.

(** ** XML trees *)

Inductive xml : Type := Elem (tag : string) (text : option string) (children : list xml).

Definition xml_tag (e : xml) : string := match e with Elem t _ _ => t end.
Definition xml_text (e : xml) : option string := match e with Elem _ t _ => t end.
Definition xml_children (e : xml) : list xml := match e with Elem _ _ c => c end.

(** [root.iter()]: the element and its descendants, in document order *)
Fixpoint xml_iter (e : xml) : list xml := match e with Elem _ _ c => e :: concat (xml_iter <$> c) end.

(** [_xml_local_name] *)
Fixpoint after_last (c : ascii) (s : string) : option string :=
  match s with
  | EmptyString => None
  | String a s' =>
      match after_last c s' with
      | Some r => Some r
      | None => if bool_decide (a = c) then Some s' else None
      end
  end.
Definition _xml_local_name (tag : string) : string := default tag (after_last "}"%char tag).

Definition has_local_name (n : string) (e : xml) : bool := str_eqb (_xml_local_name (xml_tag e)) n.

(** [next((x for x in l if p x), None)] *)
Fixpoint next_where {A} (p : A → bool) (l : list A) : option A :=
  match l with [] => None | x :: l' => if p x then Some x else next_where p l' end.

Definition _soap_body_element (root : xml) : option xml := next_where (has_local_name "Body") (xml_iter root).

(** [[\x00-\x08\x0b\x0c\x0e-\x1f\x7f]] *)
Definition xml_illegal (c : ascii) : bool :=
  let n := ord c in
  ((n <=? 8) || (11 <=? n) && (n <=? 12) || (14 <=? n) && (n <=? 31) || (n =? 127))%N.
Definition strip_illegal (s : string) : string :=
  of_chars (List.filter (λ c, negb (xml_illegal c)) (chars s)).

Definition is_ascii_digit (c : ascii) : bool := ((48 <=? ord c) && (ord c <=? 57))%N.
Definition is_ascii_letter (c : ascii) : bool :=
  ((65 <=? ord c) && (ord c <=? 90) || (97 <=? ord c) && (ord c <=? 122))%N.

(** [[a-zA-Z0-9_.\-]] *)
Definition is_name_char (c : ascii) : bool :=
  is_ascii_letter c || is_ascii_digit c || bool_decide (c ∈ ["_"%char; "."%char; "-"%char]).

Definition _sanitize_xml_name (name : string) : string :=
  let cleaned := map_str (λ c, if is_name_char c then c else "_"%char) (strip_illegal name) in
  match cleaned with
  | EmptyString => "_"
  | String c _ => if is_ascii_digit c || bool_decide (c ∈ ["."%char; "-"%char]) then String "_" cleaned else cleaned
  end.

(** ** Numbers in XML text *)

Fixpoint digits_value (acc : Z) (s : string) : option Z :=
  match s with
  | EmptyString => Some acc
  | String c s' => if is_ascii_digit c then digits_value (10 * acc + (Z.of_N (ord c) - 48)) s' else None
  end.
Definition natural_text (s : string) : option Z := if str_truthy s then digits_value 0 s else None.

(** [-?[0-9]+], and the integer it denotes; [int] refuses over 4300 digits. *)
Definition integer_text (s : string) : option Z :=
  match s with
  | String "-"%char s' => Z.opp <$> natural_text s'
  | _ => natural_text s
  end.
Definition too_long (s : string) : bool :=
  (4300 <? String.length (match s with String "-"%char s' => s' | _ => s end))%nat.

(** [-?[0-9]+\.[0-9]+] *)
Definition decimal_text (s : string) : bool :=
  match split_on "."%char s with
  | [a; b] => bool_decide (is_Some (integer_text a)) && bool_decide (is_Some (natural_text b))
  | _ => false
  end.

Section protocols.
(** [str] of containers and floats, [float(s)], base64, and the XML parser and
    printer of [xml.etree]. *)
Context (repr : pyval → string) (parse_float : string → float) (b64encode : string → string)
  (parse_xml : string → option xml) (print_xml : xml → string) (dumps : pyval → string).

Abbreviation str := (py_str repr).

(** ** Reading a response *)

(** [_parse_response_payload] *)
Definition _parse_response_payload (r : response) : pyval :=
  let content_type := default "" (header r "content-type") in
  let normalized := lower content_type in
  if str_contains "json" normalized then
    match rsp_json r with Some v => sanitize_json_floats v | None => VStr (rsp_text r) end
  else if existsb (λ t, startswith t normalized || str_contains t normalized) _TEXTUAL_CONTENT_TYPES then VStr (rsp_text r)
  else
    let raw := rsp_content r in
    let size := Z.of_nat (String.length raw) in
    let shown := str_or content_type "application/octet-stream" in
    if _MAX_BINARY_ENCODE_BYTES <? size then
      VDict [("binary", VBool true); ("content_type", VStr shown); ("truncated", VBool true); ("size_bytes", VInt size);
             ("message", VStr ("Binary response too large to encode (" +:+ str_of_Z size +:+ " bytes, limit "
                               +:+ str_of_Z _MAX_BINARY_ENCODE_BYTES +:+ " bytes)."))]
    else
      VDict [("binary", VBool true); ("content_type", VStr shown); ("content_base64", VStr (b64encode raw));
             ("size_bytes", VInt size)].

(** ** SOAP *)

Definition _soap_scalar_to_text (v : pyval) : string :=
  match v with
  | VBool b => if b then "true" else "false"
  | _ => strip_illegal (str v)
  end.

Definition qualified (namespace : option string) (name : string) : string :=
  match namespace with
  | Some ns => if str_truthy ns then "{" +:+ ns +:+ "}" +:+ name else name
  | None => name
  end.

(** The elements [_append_soap_argument] appends to its parent. *)
Fixpoint _append_soap_argument (namespace : option string) (name : string) (v : pyval) : list xml :=
  match v with
  | VNone => []
  | VList l => concat (_append_soap_argument namespace name <$> l)
  | VDict d =>
      [Elem (qualified namespace (_sanitize_xml_name name)) None
         (concat ((λ kv, _append_soap_argument namespace kv.1 kv.2) <$> d))]
  | _ => [Elem (qualified namespace (_sanitize_xml_name name)) (Some (_soap_scalar_to_text v)) []]
  end.

Definition soap_envelope (config : SoapOperationConfig) (arguments : dict pyval) : xml :=
  let child_namespace := if str_eqb (so_child_element_form config) "qualified" then Some (so_target_namespace config) else None in
  let request_root :=
    Elem ("{" +:+ so_target_namespace config +:+ "}" +:+ _sanitize_xml_name (so_request_element config)) None
      (concat ((λ kv, _append_soap_argument child_namespace kv.1 kv.2) <$> arguments)) in
  Elem ("{" +:+ _SOAP_ENVELOPE_NS +:+ "}Envelope") None [Elem ("{" +:+ _SOAP_ENVELOPE_NS +:+ "}Body") None [request_root]].

Definition prepare_soap_payload (op : Operation) (config : SoapOperationConfig) (remaining : dict pyval) : PreparedRequestPayload :=
  let envelope := print_xml (soap_envelope config remaining) in
  mk_payload [] None None None (Some envelope) (Some "text/xml; charset=utf-8") (Some (VStr envelope)).

(** [_coerce_xml_text] *)
Definition _coerce_xml_text (text : option string) : pyval :=
  match text with
  | None => VStr ""
  | Some t =>
      let stripped := strip t in
      if negb (str_truthy stripped) then VStr ""
      else if str_eqb (lower stripped) "true" then VBool true
      else if str_eqb (lower stripped) "false" then VBool false
      else match integer_text stripped with
           | Some z => if too_long stripped then VStr stripped else VInt z
           | None => if decimal_text stripped then VFloat (parse_float stripped) else VStr stripped
           end
  end.

(** [grouped.setdefault(key, []).append(value)] *)
Definition group_value (grouped : dict (list pyval)) (kv : string * pyval) : dict (list pyval) :=
  dict_set grouped kv.1 (default [] (dict_get grouped kv.1) ++ [kv.2]).

Definition ungroup (values : list pyval) : pyval := match values with [v] => v | _ => VList values end.

(** [_xml_element_to_value] *)
Fixpoint _xml_element_to_value (e : xml) : pyval :=
  match e with
  | Elem _ text [] => _coerce_xml_text text
  | Elem _ _ children =>
      VDict ((λ kg, (kg.1, ungroup kg.2)) <$>
        foldl group_value [] ((λ c, (_xml_local_name (xml_tag c), _xml_element_to_value c)) <$> children))
  end.

Definition stripped_text (e : xml) : string := strip (default "" (xml_text e)).

(** [soap_fault_message] on the parsed response *)
Definition soap_fault_message (r : response) (op : Operation) : option string :=
  match op_soap op with
  | None => None
  | Some _ =>
      root ← parse_xml (rsp_text r);
      body ← _soap_body_element root;
      fault ← next_where (has_local_name "Fault") (xml_children body);
      let says tag_name :=
        match next_where (has_local_name tag_name) (xml_iter fault) with
        | Some node => if str_truthy (stripped_text node) then Some (stripped_text node) else None
        | None => None
        end in
      let detail :=
        match says "faultstring" with
        | Some d => d
        | None => match says "Text" with Some d => d | None => str (_xml_element_to_value fault) end
        end in
      Some ("SOAP operation " +:+ op_id op +:+ " failed: " +:+ detail)
  end.

(** [_unwrap_soap_payload] *)
Definition _unwrap_soap_payload (r : response) (op : Operation) : outcome exn pyval :=
  match op_soap op with
  | None => Ok (_parse_response_payload r)
  | Some config =>
      match parse_xml (rsp_text r) with
      | None => Raise (tool_error ("SOAP operation " +:+ op_id op +:+ " returned invalid XML"))
      | Some root =>
          match _soap_body_element root with
          | None => Raise (tool_error ("SOAP operation " +:+ op_id op +:+ " returned no SOAP Body element."))
          | Some body =>
              match next_where (has_local_name "Fault") (xml_children body) with
              | Some _ =>
                  Raise (tool_error (if opt_truthy (soap_fault_message r op) then default "" (soap_fault_message r op)
                                     else "SOAP operation " +:+ op_id op +:+ " returned a SOAP Fault."))
              | None =>
                  let named :=
                    match so_response_element config with
                    | Some n => if str_truthy n then next_where (has_local_name n) (xml_children body) else None
                    | None => None
                    end in
                  match (match named with Some e => Some e | None => head (xml_children body) end) with
                  | None => Raise (tool_error ("SOAP operation " +:+ op_id op +:+ " returned an empty SOAP Body."))
                  | Some e => Ok (_xml_element_to_value e)
                  end
              end
          end
      end
  end.

(** ** GraphQL *)

Definition prepare_graphql_payload (op : Operation) (config : GraphQLOperationConfig) (remaining : dict pyval) : PreparedRequestPayload :=
  let variable_names := match gq_variable_names config with [] => dict_keys remaining | names => names end in
  let variables :=
    foldl (λ acc n, match dict_get remaining n with Some v => dict_set acc n v | None => acc end) [] variable_names in
  let json_body := VDict [("query", VStr (gq_document config)); ("variables", VDict variables);
                          ("operationName", VStr (gq_operation_name config))] in
  mk_payload [] (Some json_body) None None None None (Some json_body).

(** The message of one entry of [errors]; [join] accepts texts only. *)
Definition graphql_message (error : pyval) : option string :=
  match error with
  | VDict d => match dict_get d "message" with None => Some "unknown GraphQL error" | Some v => as_str v end
  | v => Some (str v)
  end.

Definition join_error : exn := type_error "sequence item: expected str instance".

Definition graphql_error_message (r : response) (op : Operation) : outcome exn (option string) :=
  match op_graphql op with
  | None => Ok None
  | Some _ =>
      match _parse_response_payload r with
      | VDict payload =>
          match dict_get payload "errors" with
          | Some (VList ((_ :: _) as raw_errors)) =>
              match mapM graphql_message raw_errors with
              | Some messages => Ok (Some ("GraphQL operation " +:+ op_id op +:+ " failed: " +:+ join "; " messages))
              | None => Raise join_error
              end
          | _ => Ok None
          end
      | _ => Ok (Some ("GraphQL operation " +:+ op_id op +:+ " returned a non-object response body."))
      end
  end.

Definition _unwrap_graphql_payload (payload : pyval) (op : Operation) : outcome exn pyval :=
  match op_graphql op with
  | None => Ok payload
  | Some config =>
      match payload with
      | VDict d =>
          match dict_get d "data" with
          | Some (VDict data) => Ok (default (VDict data) (dict_get data (gq_operation_name config)))
          | _ => Raise (tool_error ("GraphQL operation " +:+ op_id op +:+ " returned no data object."))
          end
      | _ => Raise (tool_error ("GraphQL operation " +:+ op_id op +:+ " returned a non-object response body."))
      end
  end.

(** ** OData *)

Definition strip_dollar (name : string) : option string :=
  if startswith "$" name then Some (drop_str 1 name) else None.

Definition is_system (dollar_params : list string) (k : string) : bool := bool_decide (k ∈ dollar_params).

(** Arguments named after a [$] parameter go to the query under that name; the
    others are split by [split_query_and_body]. *)
Definition prepare_odata_payload (split : Operation → dict pyval → dict pyval * option pyval)
    (op : Operation) (remaining : dict pyval) : PreparedRequestPayload :=
  let dollar_params := omap (λ p, strip_dollar (pa_name p)) (op_params op) in
  let odata_query := (λ kv, ("$" +:+ kv.1, kv.2)) <$> List.filter (λ kv, is_system dollar_params kv.1) remaining in
  let non_odata := List.filter (λ kv, negb (is_system dollar_params kv.1)) remaining in
  let '(query_params, json_body) := split op non_odata in
  mk_payload (dict_update query_params odata_query) json_body None None None None json_body.

(** [f"P ({code}): {message}" if code else f"P: {message}"] *)
Definition coded_message (p : string) (code message : pyval) : string :=
  if truthy code then p +:+ " (" +:+ str code +:+ "): " +:+ str message else p +:+ ": " +:+ str message.

Definition odata_error_message (r : response) (protocol : string) : option string :=
  if negb (str_eqb protocol "odata") then None
  else match _parse_response_payload r with
       | VDict payload =>
           match dict_get payload "error" with
           | None => None
           | Some (VDict error) =>
               let message := match default (VStr "OData error") (dict_get error "message") with
                              | VDict m => default (VStr (repr (VDict m))) (dict_get m "value")
                              | v => v
                              end in
               Some (coded_message "OData error" (default (VStr "") (dict_get error "code")) message)
           | Some _ => Some "OData response returned a malformed error envelope."
           end
       | _ => None
       end.

(** [if v is not None: result[key] = v] *)
Definition unless_none (key : string) (v : option pyval) : dict pyval :=
  match v with Some VNone | None => [] | Some w => [(key, w)] end.

Definition _unwrap_odata_payload (payload : pyval) : pyval :=
  match payload with
  | VDict d =>
      match dict_get d "value" with
      | Some (VList items) =>
          VDict ([("items", VList items)] ++ unless_none "total_count" (dict_get d "@odata.count")
                 ++ unless_none "next_link" (dict_get d "@odata.nextLink"))
      | _ => payload
      end
  | _ => payload
  end.

(** ** SCIM *)

Definition names_error (v : pyval) : bool := match v with VStr s => str_contains "Error" s | _ => false end.

Definition scim_error_message (r : response) (protocol : string) : outcome exn (option string) :=
  if negb (str_eqb protocol "scim") then Ok None
  else match _parse_response_payload r with
       | VDict payload =>
           match get_or_none payload "schemas" with
           | VList schemas =>
               if negb (existsb names_error schemas) then Ok None
               else
                 let detail := default (VStr "SCIM error") (dict_get payload "detail") in
                 let status := default (VStr "") (dict_get payload "status") in
                 let scim_type := default (VStr "") (dict_get payload "scimType") in
                 let lead := if truthy status then "SCIM error (status " +:+ str status +:+ ")" else "SCIM error" in
                 if truthy scim_type then
                   match scim_type with
                   | VStr s => Ok (Some (join ": " [lead; s; str detail]))
                   | _ => Raise join_error
                   end
                 else Ok (Some (join ": " [lead; str detail]))
           | VNone => Ok None
           | schemas =>
               if is_str schemas || dict_mem payload "detail" || dict_mem payload "status" || dict_mem payload "scimType"
               then Ok (Some "SCIM response returned a malformed error envelope.") else Ok None
           end
       | _ => Ok None
       end.

Definition _unwrap_scim_payload (payload : pyval) : pyval :=
  match payload with
  | VDict d =>
      match dict_get d "Resources" with
      | Some (VList resources) =>
          VDict ([("items", VList resources)] ++ unless_none "total_count" (dict_get d "totalResults")
                 ++ unless_none "start_index" (dict_get d "startIndex")
                 ++ unless_none "items_per_page" (dict_get d "itemsPerPage"))
      | _ => payload
      end
  | _ => payload
  end.

(** ** JSON-RPC *)

(** One step of the positional loop *)
Definition positional_step (remaining : dict pyval) (params : list pyval) (name : string) : list pyval :=
  match dict_get remaining name with
  | None | Some VNone => params
  | Some v =>
      if str_eqb name "payload" then match v with VList l => params ++ l | _ => params ++ [v] end
      else params ++ [v]
  end.

Definition jsonrpc_params (config : JsonRpcOperationConfig) (remaining : dict pyval) : pyval :=
  if str_eqb (jr_params_type config) "positional" then VList (foldl (positional_step remaining) [] (jr_params_names config))
  else
    let named := foldl (λ acc n, match dict_get remaining n with
                                 | Some v => if str_eqb n "payload" then acc else dict_set acc n v
                                 | None => acc
                                 end) [] (jr_params_names config) in
    let params := match get_or_none remaining "payload" with
                  | VDict p => dict_update named p
                  | VNone => named
                  | v => dict_set named "payload" v
                  end in
    VDict (match params with [] => remaining | _ => params end).

Definition prepare_jsonrpc_payload (config : JsonRpcOperationConfig) (remaining : dict pyval) : PreparedRequestPayload :=
  let json_body := VDict [("jsonrpc", VStr (jr_jsonrpc_version config)); ("method", VStr (jr_method_name config));
                          ("params", jsonrpc_params config remaining); ("id", VInt 1)] in
  mk_payload [] (Some json_body) None None None None (Some json_body).

Definition jsonrpc_error_message (r : response) (op : Operation) : option string :=
  match op_jsonrpc op with
  | None => None
  | Some _ =>
      match _parse_response_payload r with
      | VDict payload =>
          match dict_get payload "error" with
          | None => None
          | Some (VDict error) =>
              Some (coded_message "JSON-RPC error" (default (VStr "") (dict_get error "code"))
                      (default (VStr "JSON-RPC error") (dict_get error "message")))
          | Some _ => Some ("JSON-RPC operation " +:+ op_id op +:+ " returned a malformed error envelope.")
          end
      | _ => None
      end
  end.

Definition _unwrap_jsonrpc_payload (payload : pyval) (op : Operation) : pyval :=
  match op_jsonrpc op, payload with
  | Some _, VDict d => default payload (dict_get d "result")
  | _, _ => payload
  end.

(** ** From a response to a result *)

(** [sanitize_response] *)
Definition sanitize_response (r : response) (op : Operation) (protocol : string) : outcome exn (pyval * bool) :=
  let payload := _parse_response_payload r in
  obind (match op_soap op with Some _ => _unwrap_soap_payload r op | None => Ok payload end) (λ payload,
  obind (match op_graphql op with Some _ => _unwrap_graphql_payload payload op | None => Ok payload end) (λ payload,
  let payload := if str_eqb protocol "odata" then _unwrap_odata_payload payload else payload in
  let payload := if str_eqb protocol "scim" then _unwrap_scim_payload payload else payload in
  let payload := match op_jsonrpc op with Some _ => _unwrap_jsonrpc_payload payload op | None => payload end in
  Ok (shape_response dumps payload (op_response_strategy op)))).

(** The failure [check_protocol_errors] raises for a response: its kind, its
    label and its message.  All four messages are computed before any is used. *)
Definition protocol_failure (r : response) (op : Operation) (protocol : string)
    : outcome exn (option (string * string * string)) :=
  match soap_fault_message r op with
  | Some msg => Ok (Some ("soap_fault", "soap", msg))
  | None =>
      obind (graphql_error_message r op) (λ graphql,
      obind (scim_error_message r protocol) (λ scim,
      Ok (match graphql, odata_error_message r protocol, jsonrpc_error_message r op, scim with
          | Some m, _, _, _ => Some ("graphql_error", "graphql", m)
          | None, Some m, _, _ => Some ("odata_error", "odata", m)
          | None, None, Some m, _ => Some ("jsonrpc_error", "jsonrpc", m)
          | None, None, None, Some m => Some ("scim_error", "scim", m)
          | None, None, None, None => None
          end)))
  end.
End protocols.

(** ** SOAP arguments read back *)

Lemma after_last_none c s : c ∉ chars s → after_last c s = None.
Proof.
  induction s as [|a s IH]; simpl; [done|]. rewrite not_elem_of_cons. intros [Hne Hs].
  by rewrite IH, bool_decide_eq_false_2 by congruence.
Qed.

Lemma after_last_app c a b : c ∉ chars b → after_last c (a +:+ String c b) = Some b.
Proof.
  intros Hb. induction a as [|x a IH]; simpl; [by rewrite after_last_none, bool_decide_eq_true_2|].
  change (String.append a (String c b)) with (a +:+ String c b). by rewrite IH.
Qed.

(** An XML name: [_sanitize_xml_name] leaves it alone. *)
Definition xml_name (k : string) : Prop := _sanitize_xml_name k = k.

Lemma map_str_chars f s : chars (map_str f s) = f <$> chars s.
Proof. induction s as [|c s IH]; [done|]. simpl. by rewrite IH. Qed.

Lemma sanitized_name_char k c : c ∈ chars (_sanitize_xml_name k) → is_name_char c = true.
Proof.
  unfold _sanitize_xml_name. set (cleaned := map_str _ _).
  assert (∀ x, x ∈ chars cleaned → is_name_char x = true) as Hc.
  { intros x. unfold cleaned. rewrite map_str_chars. intros (y & -> & _)%list_elem_of_fmap.
    destruct (is_name_char y) eqn:E; [done|by vm_compute]. }
  destruct cleaned as [|x s]; [by intros ->%list_elem_of_singleton|].
  case_match; [|apply Hc]. intros [->|Hin]%elem_of_cons; [done|by apply Hc].
Qed.

Lemma local_name_qualified ns k : xml_name k → _xml_local_name (qualified ns k) = k.
Proof.
  intros Hk. assert ("}"%char ∉ chars k) as Hno.
  { intros Hin. rewrite <-Hk in Hin. apply sanitized_name_char in Hin. by vm_compute in Hin. }
  unfold _xml_local_name, qualified. destruct ns as [ns|]; [destruct (str_truthy ns)|].
  - assert ("{" +:+ ns +:+ "}" +:+ k = ("{" +:+ ns) +:+ String "}" k) as -> by (rewrite str_app_assoc; done).
    by rewrite after_last_app.
  - by rewrite after_last_none.
  - by rewrite after_last_none.
Qed.

(** Consecutive entries with one key make one group. *)
Lemma dict_set_last {V} (d : dict V) k v w : k ∉ dict_keys d → dict_set (d ++ [(k, v)]) k w = d ++ [(k, w)].
Proof.
  induction d as [|[k' v'] d IH]; simpl; [by rewrite str_eqb_refl|]. rewrite not_elem_of_cons. intros [Hne Hd].
  rewrite (proj2 (str_eqb_neq k k')) by done. by rewrite IH.
Qed.

Lemma dict_get_last {V} (d : dict V) k v : k ∉ dict_keys d → dict_get (d ++ [(k, v)]) k = Some v.
Proof.
  induction d as [|[k' v'] d IH]; simpl; [by rewrite str_eqb_refl|]. rewrite not_elem_of_cons. intros [Hne Hd].
  rewrite (proj2 (str_eqb_neq k k')) by done. by apply IH.
Qed.

Lemma group_run_more acc k vs ws : k ∉ dict_keys acc →
  foldl group_value (acc ++ [(k, vs)]) ((λ v, (k, v)) <$> ws) = acc ++ [(k, vs ++ ws)].
Proof.
  intros Hk. revert vs. induction ws as [|w ws IH]; intros vs; simpl; [by rewrite app_nil_r|].
  unfold group_value at 2. simpl. rewrite dict_get_last, dict_set_last by done. simpl. rewrite IH.
  by rewrite <-(assoc_L (++)).
Qed.

Lemma group_run acc k vs : k ∉ dict_keys acc → vs ≠ [] →
  foldl group_value acc ((λ v, (k, v)) <$> vs) = acc ++ [(k, vs)].
Proof.
  intros Hk Hvs. destruct vs as [|v vs]; [done|]. simpl. unfold group_value at 2. simpl.
  rewrite (proj2 (dict_get_None acc k)) by done. simpl. rewrite dict_set_fresh by done. by apply group_run_more.
Qed.

Definition tagged (kv : string * list pyval) : list (string * pyval) := (λ v, (kv.1, v)) <$> kv.2.

Lemma group_runs (d : dict (list pyval)) acc :
  dict_wf d → (∀ k, k ∈ dict_keys d → k ∉ dict_keys acc) → Forall (λ kv, kv.2 ≠ []) d →
  foldl group_value acc (concat (tagged <$> d)) = acc ++ d.
Proof.
  unfold dict_wf. revert acc. induction d as [|[k vs] d IH]; intros acc Hwf Hacc Hne; simpl; [by rewrite app_nil_r|].
  apply NoDup_cons in Hwf as [Hk Hwf]. apply Forall_cons in Hne as [Hvs Hne].
  rewrite foldl_app. change (tagged (k, vs)) with ((λ v, (k, v)) <$> vs).
  rewrite group_run by (first [done|apply Hacc; left]).
  rewrite IH; [by rewrite <-(assoc_L (++))|done| |done].
  intros k' Hk'. unfold dict_keys. rewrite fmap_app, not_elem_of_app. split; [apply Hacc; by right|].
  simpl. intros ->%list_elem_of_singleton. done.
Qed.

Section soap_roundtrip.
Context (repr : pyval → string) (parse_float : string → float).
Abbreviation encode := (_append_soap_argument repr).
Abbreviation decode := (_xml_element_to_value parse_float).
Abbreviation scalar_text := (_soap_scalar_to_text repr).
Abbreviation coerce := (_coerce_xml_text parse_float).

(** Values XML can carry: scalars whose text reads back, and non-empty objects
    with XML names as keys, whose fields are such values or lists of two or more. *)
Inductive soap_value : pyval → Prop :=
| sv_scalar v : is_list v = false → is_dict v = false → v ≠ VNone → coerce (Some (scalar_text v)) = v → soap_value v
| sv_object d : d ≠ [] → dict_wf d → Forall (λ kv, xml_name kv.1 ∧ soap_field kv.2) d → soap_value (VDict d)
with soap_field : pyval → Prop :=
| sf_value v : soap_value v → soap_field v
| sf_list l : (2 ≤ length l)%nat → Forall soap_value l → soap_field (VList l).

Definition occurrences (v : pyval) : list pyval := match v with VList l => l | _ => [v] end.

Lemma soap_value_occurrences v : soap_value v → occurrences v = [v].
Proof. intros H. destruct H as [v Hl _ _ _|]; [by destruct v|done]. Qed.

Lemma ungroup_occurrences v : soap_field v → ungroup (occurrences v) = v ∧ occurrences v ≠ [].
Proof.
  intros H. destruct H as [v Hv|l Hl _]; [by rewrite soap_value_occurrences|].
  destruct l as [|a [|b l]]; simpl in *; [lia..|done].
Qed.

(** What decoding sees of an element. *)
Definition seen (e : xml) : string * pyval := (_xml_local_name (xml_tag e), decode e).

Definition reads_back (ns : option string) (v : pyval) : Prop :=
  soap_value v → ∀ k, xml_name k → ∃ e, encode ns k v = [e] ∧ seen e = (k, v).

Lemma list_reads_back ns k l : xml_name k → Forall (reads_back ns) l → Forall soap_value l →
  seen <$> encode ns k (VList l) = (λ v, (k, v)) <$> l.
Proof.
  intros Hk. cbn [_append_soap_argument]. induction l as [|v l IH]; [done|]. intros [Hr Hrs]%Forall_cons [Hv Hvs]%Forall_cons.
  destruct (Hr Hv k Hk) as (e & He & Hs). rewrite !fmap_cons. cbn [concat]. rewrite He, fmap_app, IH by done.
  simpl. by rewrite Hs.
Qed.

Lemma field_reads_back ns k v : xml_name k →
  (reads_back ns v ∧ ∀ l, v = VList l → Forall (reads_back ns) l) → soap_field v →
  seen <$> encode ns k v = (λ x, (k, x)) <$> occurrences v.
Proof.
  intros Hk [Hv Hl] Hf. destruct Hf as [v Hs|l _ Hs].
  - rewrite soap_value_occurrences by done. destruct (Hv Hs k Hk) as (e & -> & He). simpl. by rewrite He.
  - apply list_reads_back; [done| |done]. by apply Hl.
Qed.

Lemma fields_read_back ns d :
  Forall (λ kv, xml_name kv.1 ∧ soap_field kv.2) d →
  Forall (λ kv, reads_back ns kv.2 ∧ ∀ l, kv.2 = VList l → Forall (reads_back ns) l) d →
  seen <$> concat ((λ kv, encode ns kv.1 kv.2) <$> d) =
    concat (tagged <$> ((λ kv, (kv.1, occurrences kv.2)) <$> d)).
Proof.
  induction d as [|[k v] d IH]; [done|]. intros [[Hk Hf] Hfs]%Forall_cons [Hr Hrs]%Forall_cons.
  rewrite !fmap_cons. cbn [concat fst snd]. rewrite fmap_app, IH by done. f_equal. by apply field_reads_back.
Qed.

Lemma object_decodes ns d tag :
  d ≠ [] → dict_wf d → Forall (λ kv, xml_name kv.1 ∧ soap_field kv.2) d →
  Forall (λ kv, reads_back ns kv.2 ∧ ∀ l, kv.2 = VList l → Forall (reads_back ns) l) d →
  decode (Elem tag None (concat ((λ kv, encode ns kv.1 kv.2) <$> d))) = VDict d.
Proof.
  intros Hne Hwf Hf Hr. pose proof (fields_read_back ns d Hf Hr) as Hseen.
  set (children := concat ((λ kv, encode ns kv.1 kv.2) <$> d)) in *.
  set (groups := (λ kv, (kv.1, occurrences kv.2)) <$> d) in *.
  assert (dict_keys groups = dict_keys d) as Hkeys.
  { unfold groups, dict_keys. rewrite <-list_fmap_compose. by apply list_fmap_ext. }
  assert (Forall (λ kv, kv.2 ≠ []) groups) as Hnon.
  { unfold groups. apply Forall_fmap. eapply Forall_impl; [exact Hf|]. intros [k v] [_ Hv]. by apply ungroup_occurrences. }
  destruct children as [|c cs].
  { exfalso. destruct d as [|[k v] d]; [done|]. unfold groups in Hseen. rewrite fmap_cons in Hseen. simpl in Hseen.
    apply Forall_cons in Hf as [[_ Hv] _]. destruct (occurrences v) eqn:E; [|done]. by apply ungroup_occurrences in E. }
  change (VDict ((λ kg, (kg.1, ungroup kg.2)) <$> foldl group_value [] (seen <$> (c :: cs))) = VDict d).
  rewrite Hseen, group_runs; [|unfold dict_wf; by rewrite Hkeys|by intros ? _ ?%elem_of_nil|done].
  simpl. f_equal. unfold groups. rewrite <-list_fmap_compose. rewrite <-(list_fmap_id d) at 2.
  apply list_fmap_ext. intros i [k v] Hi. simpl. f_equal.
  apply (ungroup_occurrences v). apply list_elem_of_lookup_2 in Hi. rewrite Forall_forall in Hf. by apply (Hf _ Hi).
Qed.

Lemma value_reads_back ns v : reads_back ns v ∧ ∀ l, v = VList l → Forall (reads_back ns) l.
Proof.
  induction v as [| | | | |l IH|d IH] using pyval_rect';
    try (split; [|done]; intros Hv k Hk; inv Hv; eexists; split; [done|];
         unfold seen; simpl; rewrite Hk, local_name_qualified by done; by f_equal).
  - split; [|done]. intros Hv. by inv Hv.
  - split; [intros Hv; by inv Hv|]. intros l' [= <-]. eapply Forall_impl; [exact IH|]. by intros v [].
  - split; [|done]. intros Hv k Hk. inv Hv. eexists. split; [done|].
    unfold seen. rewrite (object_decodes ns) by done. simpl. by rewrite Hk, local_name_qualified.
Qed.

(** Decoding a SOAP element gives back the argument it was built from: for
    every value XML can carry, under either child element form, the argument
    becomes one element with its (sanitised) name, and reading that element as the
    response reader does returns the value, objects with their key order and
    repeated elements as lists. *)
Theorem soap_argument_roundtrip ns k v : xml_name k → soap_value v →
  ∃ e, encode ns k v = [e] ∧ _xml_local_name (xml_tag e) = k ∧ decode e = v.
Proof.
  intros Hk Hv. destruct (proj1 (value_reads_back ns v) Hv k Hk) as (e & He & [= H1 H2]). by exists e.
Qed.
End soap_roundtrip.

(** A request with a nested object, a repeated element and an escaped name. *)
Definition demo_soap_argument : pyval :=
  VDict [("street", VStr "Hill 3"); ("active", VBool true);
         ("tags", VList [VStr "a"; VStr "b"]); ("geo", VDict [("lat", VInt 7)])].

Lemma soap_argument_roundtrip_witness : ∃ e,
  _append_soap_argument (λ _, "") (Some "urn:demo") "Address" demo_soap_argument = [e] ∧
  _xml_local_name (xml_tag e) = "Address" ∧ _xml_element_to_value (λ _, 0%float) e = demo_soap_argument.
Proof.
  apply (soap_argument_roundtrip (λ _, "") (λ _, 0%float) (Some "urn:demo") "Address" demo_soap_argument).
  - vm_compute. reflexivity.
  - assert (∀ s, _coerce_xml_text (λ _, 0%float) (Some (strip_illegal s)) = VStr s →
      soap_value (λ _, "") (λ _, 0%float) (VStr s)) as Hstr by (intros s Hs; by apply sv_scalar).
    apply sv_object; [discriminate|by_eval|].
    repeat (apply Forall_cons; split; [split; [vm_compute; reflexivity|]|]); [..|apply Forall_nil_2].
    + apply sf_value, Hstr. vm_compute. reflexivity.
    + apply sf_value, sv_scalar; try discriminate; vm_compute; reflexivity.
    + apply sf_list; [simpl; lia|]. repeat (apply Forall_cons; split; [apply Hstr; vm_compute; reflexivity|]). apply Forall_nil_2.
    + apply sf_value, sv_object; [discriminate|by_eval|]. apply Forall_singleton. split; [vm_compute; reflexivity|].
      apply sf_value, sv_scalar; try discriminate; vm_compute; reflexivity.
Defined.

(** The reader does not keep the text of a code with leading zeros. *)
Example soap_text_is_coerced :
  _xml_element_to_value (λ _, 0%float) (Elem "zip" (Some "01234") []) = VInt 1234.
Proof. vm_compute. reflexivity. Qed.

(** An optional positional parameter that is left out shifts the ones after it. *)
Example positional_parameter_shifts :
  jsonrpc_params (mk_jsonrpc "2.0" "find" "positional" ["query"; "limit"; "offset"] None)
    [("query", VStr "q"); ("offset", VInt 20)] = VList [VStr "q"; VInt 20].
Proof. vm_compute. reflexivity. Qed.

Definition json_response (v : pyval) : response :=
  mk_response 200 [("content-type", "application/json")] "" "" (Some v) None.

(** An error entry whose message is null ends in a [TypeError]. *)
Lemma graphql_null_message op : op_graphql op ≠ None →
  graphql_error_message (λ _, "") (λ _, "") (json_response (VDict [("errors", VList [VDict [("message", VNone)]])])) op =
    Raise join_error.
Proof. unfold graphql_error_message. by destruct (op_graphql op). Qed.
