(* ===== verification/RuntimeState.v ===== *)
(** * State and environment of the runtime ([apps/mcp_runtime/proxy.py],
      [observability.py], [proxy_utils.get_client])

    One [RuntimeProxy] and what it reaches: its circuit breakers, its token
    cache, its lazily built client, the webhook adapter, the metrics recorded so
    far, and the outside world.  Awaited calls run in [comp (runtime W)], so
    other invocations may change the whole state while one of them waits. *)

From S2P Require Export RuntimeProtocols SecretRefs PyFloat PyUrl WebhookAdapter CircuitBreaker.

(** ** Metrics *)

Inductive metric :=
| ToolCall (operation_id outcome : string)
| UpstreamError (operation_id error_type : string)
| BreakerState (operation_id : string) (is_open : bool)
| Latency (operation_id : string) (seconds : float)
| SlaBreach (operation_id : string).

Record runtime (W : Type) := mk_runtime {
  rt_breakers : dict CircuitBreaker;
  rt_tokens : dict (string * option float);
  rt_client : bool;
  rt_webhooks : WebhookAdapter;
  rt_metrics : list metric;
  rt_world : W;
}.
Arguments mk_runtime {W}.
Arguments rt_breakers {W}.
Arguments rt_tokens {W}.
Arguments rt_client {W}.
Arguments rt_webhooks {W}.
Arguments rt_metrics {W}.
Arguments rt_world {W}.

Section state.
Context {W : Type}.
Abbreviation rt := (runtime W).
Abbreviation M := (comp rt exn).

Definition set_breakers (b : dict CircuitBreaker) (s : rt) : rt :=
  mk_runtime b (rt_tokens s) (rt_client s) (rt_webhooks s) (rt_metrics s) (rt_world s).
Definition set_tokens (t : dict (string * option float)) (s : rt) : rt :=
  mk_runtime (rt_breakers s) t (rt_client s) (rt_webhooks s) (rt_metrics s) (rt_world s).
Definition set_client (c : bool) (s : rt) : rt :=
  mk_runtime (rt_breakers s) (rt_tokens s) c (rt_webhooks s) (rt_metrics s) (rt_world s).
Definition set_webhooks (w : WebhookAdapter) (s : rt) : rt :=
  mk_runtime (rt_breakers s) (rt_tokens s) (rt_client s) w (rt_metrics s) (rt_world s).
Definition add_metric (m : metric) (s : rt) : rt :=
  mk_runtime (rt_breakers s) (rt_tokens s) (rt_client s) (rt_webhooks s) (rt_metrics s ++ [m]) (rt_world s).
Definition set_world (w : W) (s : rt) : rt :=
  mk_runtime (rt_breakers s) (rt_tokens s) (rt_client s) (rt_webhooks s) (rt_metrics s) w.

(** An operation of the world alone *)
Definition in_world {A} (f : W → A * W) : M A := λ s, let '(a, w) := f (rt_world s) in (Ok a, set_world w s).

Definition lift_out {A} (o : outcome exn A) : M A := λ s, (o, s).

(** [try: m finally: f] *)
Definition finally {A} (m : M A) (f : M unit) : M A :=
  λ s, let '(o, s') := m s in
       match f s' with
       | (Ok _, s'') => (o, s'')
       | (Raise e, s'') => (Raise e, s'')
       end.

(** ** Observability *)

Definition record_tool_call (oid outcome : string) : M unit := modify (add_metric (ToolCall oid outcome)).
Definition record_upstream_error (oid kind : string) : M unit := modify (add_metric (UpstreamError oid kind)).
Definition set_circuit_breaker_state (oid : string) (is_open : bool) : M unit := modify (add_metric (BreakerState oid is_open)).
Definition record_latency (oid : string) (seconds : float) : M unit := modify (add_metric (Latency oid seconds)).

(** [check_sla] *)
Definition check_sla (oid : string) (latency_seconds : float) (budget_ms : Z) : M bool :=
  if float_gt_Z (PrimFloat.mul latency_seconds 1000) budget_ms
  then (modify (add_metric (SlaBreach oid)) ;;; ret true) else ret false.

(** ** Breakers *)

(** [self.breakers.setdefault(id, CircuitBreaker(...))] *)
Definition setdefault_breaker (oid : string) (failure_threshold : Z) : M unit :=
  modify (λ s, if dict_mem (rt_breakers s) oid then s
               else set_breakers (dict_set (rt_breakers s) oid (new_breaker oid failure_threshold)) s).

(** The breaker object of an operation; every invocation shares it. *)
Definition breaker_of (oid : string) (s : rt) : option CircuitBreaker := dict_get (rt_breakers s) oid.

Definition on_breaker (oid : string) (f : CircuitBreaker → CircuitBreaker) : M unit :=
  modify (λ s, match breaker_of oid s with
               | Some b => set_breakers (dict_set (rt_breakers s) oid (f b)) s
               | None => s
               end).

Definition is_open (oid : string) : M bool :=
  gets (λ s, match breaker_of oid s with Some b => cb_is_open b | None => false end).
End state.

(** ** The outside *)

(** The arguments of [client.request]; [build_request_kwargs] fills them in. *)
Record request_kwargs := mk_kwargs {
  rk_headers : dict string;
  rk_params : option (dict pyval);
  rk_timeout : float;
  rk_json : option pyval;
  rk_data : option (dict string);
  rk_files : option (dict (string * string * option string));
  rk_content : option string;
}.

(** Third-party code and the operating system, as the runtime uses them: clocks,
    the environment, the HTTP client, the native executors, and the pure library
    functions.  Their effects on the whole runtime are arbitrary. *)
Class Upstream (W : Type) := {
  time_time : W → float * W;
  time_monotonic : W → float * W;
  perf_counter : W → float * W;
  getenv : string → option string;
  uuid4_hex : W → string * W;
  (** [asyncio.Lock.acquire] and [release], [asyncio.sleep] *)
  acquire_lock : comp (runtime W) exn unit;
  release_lock : comp (runtime W) exn unit;
  sleep : float → comp (runtime W) exn unit;
  (** [client.request(method, url, follow_redirects=..., **kwargs)] *)
  client_request : string → string → bool → request_kwargs → comp (runtime W) exn response;
  (** [client.post] of a form followed by [raise_for_status] *)
  client_post_form : string → string → dict string → float → comp (runtime W) exn response;
  aclose : response → comp (runtime W) exn unit;
  repr : pyval → string;
  parse_float : string → float;
  b64encode : string → string;
  b64decode : string → option string;
  json_dumps : pyval → string;
  json_compact : pyval → string;
  parse_xml : string → option xml;
  print_xml : xml → string;
  hmac_sha256_hex : string → string → string;
  urljoin : string → string → string;
  (** the order in which Python iterates the set [{"body", "payload", "data"}] *)
  body_param_order : list string;
}.

(** ** A scripted environment

    Answers requests from a list, knows two secrets, and has a clock that passes
    every deadline after a given number of sleeps: the environment of the worked
    examples. *)
Record script := mk_script { sc_answers : list (outcome exn response); sc_sleeps : nat }.

Definition next_answer : comp (runtime script) exn response :=
  λ s, match sc_answers (rt_world s) with
       | [] => (Raise (mk_exn "TimeoutException" "timed out" []), s)
       | a :: rest => (a, set_world (mk_script rest (sc_sleeps (rt_world s))) s)
       end.

Definition one_sleep : comp (runtime script) exn unit :=
  modify (λ s, set_world (mk_script (sc_answers (rt_world s)) (sc_sleeps (rt_world s) - 1)) s).

Definition scripted : Upstream script := {|
  time_time := λ w, (1000%float, w);
  time_monotonic := λ w, (match sc_sleeps w with O => 1000%float | _ => 0%float end, w);
  perf_counter := λ w, (0%float, w);
  getenv := λ n, if bool_decide (n ∈ ["CLIENT_SECRET"; "API_TOKEN"]) then Some "s3cret" else None;
  uuid4_hex := λ w, ("0123456789abcdef0123456789abcdef", w);
  acquire_lock := ret tt;
  release_lock := ret tt;
  sleep := λ _, one_sleep;
  client_request := λ _ _ _ _, next_answer;
  client_post_form := λ _ _ _ _, next_answer;
  aclose := λ _, ret tt;
  repr := λ _, "<object>";
  parse_float := λ _, 0%float;
  b64encode := λ s, s;
  b64decode := Some;
  json_dumps := λ _, "{}";
  json_compact := λ _, "{}";
  parse_xml := λ _, None;
  print_xml := λ _, "<Envelope/>";
  hmac_sha256_hex := λ k m, k +:+ "|" +:+ m;
  urljoin := λ _ u, u;
  body_param_order := ["body"; "payload"; "data"];
|}.

Definition fresh_runtime (answers : list (outcome exn response)) : runtime script :=
  mk_runtime [] [] false (mk_webhooks None [] []) [] (mk_script answers 3).
