(* ===== verification/RuntimeAuth.v ===== *)
(** * Authentication of upstream calls ([apps/mcp_runtime/proxy_utils.py])

    The headers and query parameters that authenticate a call: secrets from the
    environment, OAuth2 client credentials with a shared token cache behind a
    lock, basic, API-key and custom-header schemes, and request signing. *)

From S2P Require Export RuntimeState.
From Stdlib Require Import Ascii.

Section auth.
Context {W : Type} `{!Upstream W}.
Abbreviation rt := (runtime W).
Abbreviation M := (comp rt exn).

(** ** Secrets *)

(** [resolve_secret_ref_for_operation]: a missing secret is a [ToolError], an
    unusable one stays a [ValueError]. *)
Definition resolve_secret_ref_for_operation (secret_ref operation_id purpose : string) : outcome exn string :=
  match resolve_secret_ref getenv secret_ref purpose ("operation " +:+ operation_id) with
  | Ok s => Ok s
  | Raise e =>
      if exn_is "MissingSecretReferenceError" e
      then Raise (tool_error ("Failed to resolve " +:+ purpose +:+ " secret for operation " +:+ operation_id +:+ "."))
      else Raise e
  end.

Definition resolve_secret_value (auth : AuthConfig) (operation_id : string) : outcome exn string :=
  match ac_runtime_secret_ref auth with
  | Some ref =>
      if str_truthy ref then resolve_secret_ref_for_operation ref operation_id "runtime auth secret"
      else Raise (tool_error ("Operation " +:+ operation_id +:+ " requires auth but runtime_secret_ref is not configured."))
  | None => Raise (tool_error ("Operation " +:+ operation_id +:+ " requires auth but runtime_secret_ref is not configured."))
  end.

(** ** The client *)

(** [get_client]: built at its first use, from the mTLS secrets. *)
Definition get_client (ir : ServiceIR) : M unit :=
  built <- gets rt_client ;;
  if built then ret tt
  else
    (match ac_mtls (ir_auth ir) with
     | None => ret tt
     | Some mtls =>
         lift_out (resolve_secret_ref_for_operation (ml_cert_ref mtls) "__runtime__" "mTLS client certificate") ;;;
         lift_out (resolve_secret_ref_for_operation (ml_key_ref mtls) "__runtime__" "mTLS client key") ;;;
         match ml_ca_ref mtls with
         | Some ca =>
             if str_truthy ca then
               (lift_out (resolve_secret_ref_for_operation ca "__runtime__" "mTLS CA bundle") ;;; ret tt)
             else ret tt
         | None => ret tt
         end
     end) ;;;
    modify (set_client true).

(** ** OAuth2 *)

Definition nul : string := String (ascii_of_N 0) "".

Definition cache_key (o : OAuth2ClientCredentialsConfig) : string :=
  join nul [oc_token_url o;
            str_or (default "" (oc_client_id o)) (default "" (oc_client_id_ref o));
            join "," (sorted_strings (oc_scopes o));
            default "" (oc_audience o)].

(** The cached token, when it is still good for 30 seconds. *)
Definition cached_token (cache : dict (string * option float)) (key : string) (now : float) : option string :=
  match dict_get cache key with
  | Some (token, None) => Some token
  | Some (token, Some expires_at) => if PrimFloat.ltb (PrimFloat.add now 30) expires_at then Some token else None
  | None => None
  end.

(** The form and the Authorization header of the token request *)
Definition token_form (o : OAuth2ClientCredentialsConfig) (client_id client_secret : string) : dict string * dict string :=
  let form := [("grant_type", "client_credentials")]
              ++ (match oc_scopes o with [] => [] | scopes => [("scope", join " " scopes)] end)
              ++ (if opt_truthy (oc_audience o) then [("audience", default "" (oc_audience o))] else []) in
  let headers := [("Content-Type", "application/x-www-form-urlencoded")] in
  if str_eqb (oc_client_auth_method o) "client_secret_basic"
  then (form, dict_set headers "Authorization" ("Basic " +:+ b64encode (client_id +:+ ":" +:+ client_secret)))
  else (dict_set (dict_set form "client_id" client_id) "client_secret" client_secret, headers).

(** The exception classes of [httpx] the code tells apart; each is a subclass of
    [HTTPError]. *)
Definition httpx_errors : list string := ["TimeoutException"; "ConnectError"; "HTTPStatusError"; "HTTPError"].

(** The [except] clauses around the token request *)
Definition token_request_error (operation_id : string) (o : OAuth2ClientCredentialsConfig) (e : exn) : exn :=
  if exn_is "TimeoutException" e then
    tool_error ("OAuth2 token request timed out for " +:+ operation_id +:+ " (endpoint: " +:+ oc_token_url o +:+ ").")
  else if exn_is "ConnectError" e then
    tool_error ("OAuth2 token endpoint unreachable for " +:+ operation_id +:+ " (endpoint: " +:+ oc_token_url o +:+ "): " +:+ exn_str e)
  else if exn_is "HTTPStatusError" e then
    tool_error ("OAuth2 token request failed for " +:+ operation_id +:+ " with status "
                +:+ py_str repr (default VNone (dict_get (exn_attrs e) "status_code"))
                +:+ " (endpoint: " +:+ oc_token_url o +:+ ").")
  else e.

(** The token and its lifetime in the endpoint's answer *)
Definition read_token (operation_id : string) (r : response) : outcome exn (string * pyval) :=
  match rsp_json r with
  | None => Raise (tool_error ("OAuth2 token endpoint returned non-JSON response for " +:+ operation_id +:+ "."))
  | Some (VDict payload) =>
      match get_or_none payload "access_token" with
      | VStr t =>
          if str_truthy t then Ok (t, get_or_none payload "expires_in")
          else Raise (tool_error ("OAuth2 token endpoint did not return an access_token for " +:+ operation_id +:+ "."))
      | _ => Raise (tool_error ("OAuth2 token endpoint did not return an access_token for " +:+ operation_id +:+ "."))
      end
  | Some _ => Raise (tool_error ("OAuth2 token endpoint returned non-object JSON for " +:+ operation_id +:+ "."))
  end.

(** [expires_in >= 0] for a number *)
Definition non_negative (v : pyval) : bool :=
  match v with
  | VInt z => 0 <=? z
  | VBool _ => true
  | VFloat f => PrimFloat.leb 0 f
  | _ => false
  end.

(** [expires_at]; [float] of a huge integer overflows. *)
Definition expiry (now : float) (expires_in : pyval) : outcome exn (option float) :=
  if non_negative expires_in then
    match as_float expires_in with
    | Some f => Ok (Some (PrimFloat.add now f))
    | None => Raise (mk_exn "OverflowError" "int too large to convert to float" [])
    end
  else Ok None.

(** What is done under the lock *)
Definition refresh_token (ir : ServiceIR) (operation_id : string) (o : OAuth2ClientCredentialsConfig) (timeout : float) : M string :=
  cache <- gets rt_tokens ;;
  now <- in_world time_time ;;
  match cached_token cache (cache_key o) now with
  | Some token => ret token
  | None =>
      client_id <- lift_out (match oc_client_id o with
                             | Some c => Ok c
                             | None => resolve_secret_ref_for_operation (default "" (oc_client_id_ref o)) operation_id "oauth2 client id"
                             end) ;;
      client_secret <- lift_out (resolve_secret_ref_for_operation (oc_client_secret_ref o) operation_id "oauth2 client secret") ;;
      let '(form, headers) := token_form o client_id client_secret in
      get_client ir ;;;
      r <- catch (client_post_form (oc_token_url o) (urlencode form) headers timeout)
                 (λ e, raise (token_request_error operation_id o e)) ;;
      tok <- lift_out (read_token operation_id r) ;;
      expires_at <- lift_out (expiry now tok.2) ;;
      modify (λ s, set_tokens (dict_set (rt_tokens s) (cache_key o) (tok.1, expires_at)) s) ;;;
      ret tok.1
  end.

(** [async with oauth_lock: m] *)
Definition with_lock {A} (m : M A) : M A := acquire_lock ;;; finally m release_lock.

Definition fetch_oauth2_access_token (ir : ServiceIR) (operation_id : string) (o : OAuth2ClientCredentialsConfig)
    (timeout : float) : M string :=
  cache <- gets rt_tokens ;;
  now <- in_world time_time ;;
  match cached_token cache (cache_key o) now with
  | Some token => ret token
  | None => with_lock (refresh_token ir operation_id o timeout)
  end.

(** ** Schemes *)

Definition header_name_or (a : AuthConfig) : string := str_or (default "" (ac_header_name a)) "Authorization".
Definition bearer_value (a : AuthConfig) (secret : string) : string :=
  strip (str_or (default "" (ac_header_prefix a)) "Bearer" +:+ " " +:+ secret).

Definition build_primary_auth (ir : ServiceIR) (operation_id : string) (timeout : float) : M (dict string * dict string) :=
  let auth := ir_auth ir in
  match ac_type auth with
  | no_auth => ret ([], [])
  | oauth2_auth =>
      match ac_oauth2 auth with
      | Some o =>
          token <- fetch_oauth2_access_token ir operation_id o timeout ;;
          ret ([(header_name_or auth, bearer_value auth token)], [])
      | None =>
          secret <- lift_out (resolve_secret_value auth operation_id) ;;
          ret ([(header_name_or auth, bearer_value auth secret)], [])
      end
  | bearer =>
      secret <- lift_out (resolve_secret_value auth operation_id) ;;
      ret ([(header_name_or auth, bearer_value auth secret)], [])
  | basic =>
      secret <- lift_out
        (if opt_truthy (ac_basic_username auth) && opt_truthy (ac_basic_password_ref auth) then
           obind (resolve_secret_ref_for_operation (default "" (ac_basic_password_ref auth)) operation_id "basic auth password")
             (λ password, Ok (default "" (ac_basic_username auth) +:+ ":" +:+ password))
         else resolve_secret_value auth operation_id) ;;
      ret ([("Authorization", "Basic " +:+ b64encode secret)], [])
  | api_key =>
      secret <- lift_out (resolve_secret_value auth operation_id) ;;
      let name := str_or (default "" (ac_api_key_param auth)) "api_key" in
      ret (if bool_decide (ac_api_key_location auth = Some "query") then ([], [(name, secret)]) else ([(name, secret)], []))
  | custom_header =>
      secret <- lift_out (resolve_secret_value auth operation_id) ;;
      if negb (opt_truthy (ac_header_name auth)) then
        raise (tool_error ("Operation " +:+ operation_id +:+ " uses custom_header auth without header_name."))
      else
        let name := default "" (ac_header_name auth) in
        if opt_truthy (ac_header_prefix auth)
        then ret ([(name, strip (default "" (ac_header_prefix auth) +:+ " " +:+ secret))], [])
        else ret ([(name, secret)], [])
  end.

(** ** Signing *)

(** [_normalize_query_value] *)
Definition _normalize_query_value (v : pyval) : string :=
  match v with
  | VNone => ""
  | VBool b => if b then "true" else "false"
  | _ => py_str repr v
  end.

Definition normalized_query (params : dict pyval) : string :=
  urlencode (sorted_pairs ((λ kv, (kv.1, _normalize_query_value kv.2)) <$> params)).

Definition newline : string := String (ascii_of_N 10) "".

(** [_build_signing_payload] *)
Definition _build_signing_payload (method url : string) (query_params : dict pyval) (body_for_signing : option pyval)
    (timestamp : string) : outcome exn string :=
  obind (urlsplit url) (λ u,
  let normalized_body := match body_for_signing with
                         | None | Some VNone => ""
                         | Some (VStr s) => s
                         | Some v => json_compact v
                         end in
  Ok (join newline [upper method; str_or (path u) "/"; normalized_query query_params; normalized_body; timestamp])).

(** [build_request_signing] *)
Definition build_request_signing (operation_id method url : string) (query_params : dict pyval)
    (body_for_signing : option pyval) (signing : option RequestSigningConfig) : M (dict string) :=
  match signing with
  | None => ret []
  | Some sg =>
      secret <- lift_out (resolve_secret_ref_for_operation (sg_secret_ref sg) operation_id "request signing secret") ;;
      now <- in_world time_time ;;
      seconds <- from_option_or (value_error "cannot convert float NaN to integer") (int_of_float now) ;;
      let timestamp := str_of_Z seconds in
      payload <- lift_out (_build_signing_payload method url query_params body_for_signing timestamp) ;;
      let headers := dict_of_list [(sg_signature_header_name sg, hmac_sha256_hex secret payload);
                                   (sg_timestamp_header_name sg, timestamp)] in
      ret (if opt_truthy (sg_key_id sg) && str_truthy (sg_key_id_header_name sg)
           then dict_set headers (sg_key_id_header_name sg) (default "" (sg_key_id sg)) else headers)
  end.

Definition str_values (d : dict string) : dict pyval := (λ kv, (kv.1, VStr kv.2)) <$> d.

(** [build_auth] *)
Definition build_auth (ir : ServiceIR) (operation_id method url : string) (query_params : dict pyval)
    (body_for_signing : option pyval) (timeout : float) : M (dict string * dict string) :=
  hq <- build_primary_auth ir operation_id timeout ;;
  let signed_query := dict_update query_params (str_values hq.2) in
  signature <- build_request_signing operation_id method url signed_query body_for_signing (ac_request_signing (ir_auth ir)) ;;
  ret (dict_update hq.1 signature, hq.2).
End auth.

(** ** The token cache *)

Section token_cache.
Context {W : Type} `{!Upstream W}.
Implicit Types s : runtime W.

(** The state after only the clock was read *)
Definition clock_read s : runtime W := set_world (time_time (rt_world s)).2 s.

Definition still_good s (expires_at : option float) : Prop :=
  match expires_at with
  | None => True
  | Some e => PrimFloat.ltb (PrimFloat.add (time_time (rt_world s)).1 30) e = true
  end.

Lemma cached_token_good cache key now token expires_at :
  dict_get cache key = Some (token, expires_at) →
  match expires_at with None => True | Some e => PrimFloat.ltb (PrimFloat.add now 30) e = true end →
  cached_token cache key now = Some token.
Proof. unfold cached_token. intros ->. destruct expires_at; [by intros ->|done]. Qed.

Lemma cached_token_entry cache key now token :
  cached_token cache key now = Some token → ∃ expires_at, dict_get cache key = Some (token, expires_at).
Proof.
  unfold cached_token. destruct (dict_get cache key) as [[t [e|]]|]; [|intros [= ->]; by exists None|done].
  destruct (PrimFloat.ltb _ e); [intros [= ->]; by exists (Some e)|done].
Qed.

Lemma refresh_cached ir oid o timeout s token :
  cached_token (rt_tokens s) (cache_key o) (time_time (rt_world s)).1 = Some token →
  refresh_token ir oid o timeout s = (Ok token, clock_read s) ∧
  fetch_oauth2_access_token ir oid o timeout s = (Ok token, clock_read s).
Proof.
  intros H. unfold refresh_token, fetch_oauth2_access_token, clock_read, bind, gets, in_world, ret.
  destruct (time_time (rt_world s)) as [now w]. simpl in H. by rewrite H.
Qed.

(** What a successful refresh leaves in the cache. *)
Lemma refresh_stores ir oid o timeout s token s' :
  refresh_token ir oid o timeout s = (Ok token, s') →
  ∃ expires_at, dict_get (rt_tokens s') (cache_key o) = Some (token, expires_at).
Proof.
  unfold refresh_token, bind at 1, gets, bind at 1, in_world. destruct (time_time (rt_world s)) as [now w].
  destruct (cached_token (rt_tokens s) (cache_key o) now) as [t|] eqn:Ec.
  { intros [= <- <-]. by apply cached_token_entry in Ec. }
  unfold bind, lift_out. repeat case_match; intros; simplify_eq; try done.
  all: match goal with H : modify _ _ = _ |- _ => unfold modify in H end.
  all: unfold ret in *; simplify_eq; simpl; rewrite dict_get_set_eq; by eexists.
Qed.
End token_cache.

(** The token cache is shared: once a caller holding the lock has returned a
    token, every caller whose configuration has the same key gets that token
    without any request, and without any effect but reading the clock, as long as
    the clock is more than 30 seconds before the expiry stored with it; this is so
    for a caller that waited for the lock as for one that finds the entry first. *)
Theorem oauth_token_shared {W} `{!Upstream W} ir oid o timeout (s s' : runtime W) token :
  refresh_token ir oid o timeout s = (Ok token, s') →
  ∃ expires_at, dict_get (rt_tokens s') (cache_key o) = Some (token, expires_at) ∧
    ∀ ir2 oid2 o2 timeout2 s2,
      cache_key o2 = cache_key o → dict_get (rt_tokens s2) (cache_key o) = Some (token, expires_at) →
      still_good s2 expires_at →
      refresh_token ir2 oid2 o2 timeout2 s2 = (Ok token, clock_read s2) ∧
      fetch_oauth2_access_token ir2 oid2 o2 timeout2 s2 = (Ok token, clock_read s2).
Proof.
  intros (expires_at & Hs)%refresh_stores. exists expires_at. split; [done|].
  intros ir2 oid2 o2 timeout2 s2 Hk Hs2 Hgood. apply refresh_cached. rewrite Hk.
  by eapply cached_token_good.
Qed.

Section failures.
Context {W : Type} `{!Upstream W}.
Implicit Types s : runtime W.

(** Whatever runs while the lock is held leaves the token cache alone: every other
    writer of the cache needs the lock. *)
Definition keeps_tokens {A} (m : comp (runtime W) exn A) : Prop := ∀ s, rt_tokens (m s).2 = rt_tokens s.

Lemma keeps_lift {A} (o : outcome exn A) : keeps_tokens (lift_out o).
Proof. done. Qed.
Lemma keeps_bind {A B} (m : comp (runtime W) exn A) (k : A → comp (runtime W) exn B) :
  keeps_tokens m → (∀ a, keeps_tokens (k a)) → keeps_tokens (bind m k).
Proof.
  intros Hm Hk s. unfold bind. specialize (Hm s). destruct (m s) as [[a|e] s']; simpl in *; [by rewrite (Hk a s')|done].
Qed.
Lemma keeps_get_client ir : keeps_tokens (get_client ir).
Proof.
  unfold get_client. apply keeps_bind; [done|]. intros []; [done|]. apply keeps_bind; [|by intros _ s].
  destruct (ac_mtls (ir_auth ir)) as [mtls|]; [|done]. apply keeps_bind; [done|]. intros _.
  apply keeps_bind; [done|]. intros _. destruct (ml_ca_ref mtls) as [ca|]; [|done].
  destruct (str_truthy ca); [by apply keeps_bind|done].
Qed.

(** A refresh that fails caches nothing, and one that succeeds writes the
    entry of its own key only. *)
Theorem refresh_writes_own_entry ir oid o timeout s :
  (∀ url body headers t, keeps_tokens (client_post_form url body headers t)) →
  match refresh_token ir oid o timeout s with
  | (Raise _, s') => rt_tokens s' = rt_tokens s
  | (Ok _, s') => rt_tokens s' = rt_tokens s ∨ ∃ entry, rt_tokens s' = dict_set (rt_tokens s) (cache_key o) entry
  end.
Proof.
  intros Hpost. unfold refresh_token, bind at 1, gets, bind at 1, in_world. destruct (time_time (rt_world s)) as [now w].
  destruct (cached_token (rt_tokens s) (cache_key o) now); [by left|]. set (s0 := set_world w s).
  change (rt_tokens s) with (rt_tokens s0). generalize s0. clear s s0. intros s.
  unfold bind at 1, lift_out. destruct (match oc_client_id o with Some _ => _ | None => _ end); [|done].
  unfold bind at 1. destruct (resolve_secret_ref_for_operation _ _ _); [|done].
  destruct (token_form o _ _) as [form headers].
  unfold bind at 1. pose proof (keeps_get_client ir s) as Hc. destruct (get_client ir s) as [[[]|e] s1]; simpl in Hc; [|done].
  rewrite <-Hc. unfold bind at 1, catch. pose proof (Hpost (oc_token_url o) (urlencode form) headers timeout s1) as Hp.
  destruct (client_post_form _ _ _ _ s1) as [[r|e] s2]; simpl in Hp; [|done]. rewrite <-Hp.
  unfold bind at 1. destruct (read_token oid r) as [tok|]; [|done].
  unfold bind at 1. destruct (expiry now tok.2) as [e|]; [|done]. right. by eexists.
Qed.
End failures.

(** ** Examples *)

Section examples.
#[local] Existing Instance scripted.

Definition demo_oauth : OAuth2ClientCredentialsConfig :=
  mk_oauth2 "https://auth/token" None (Some "client-1") "client-secret" ["read"; "write"] None "client_secret_post".
Definition token_answer (expires_in : pyval) : outcome exn response :=
  Ok (mk_response 200 [("content-type", "application/json")] "" ""
        (Some (VDict [("access_token", VStr "tok-1"); ("expires_in", expires_in)])) None).

(** The secret [client-secret] is read from [CLIENT_SECRET]. *)
Definition demo_start : runtime script := fresh_runtime [token_answer (VInt 3600)].
Definition demo_after : runtime script := (refresh_token demo_ir "op" demo_oauth 10 demo_start).2.

Lemma oauth_token_shared_witness :
  fetch_oauth2_access_token demo_ir "other" demo_oauth 10 demo_after = (Ok "tok-1", clock_read demo_after).
Proof.
  assert (refresh_token demo_ir "op" demo_oauth 10 demo_start = (Ok "tok-1", demo_after)) as Hrun by (vm_compute; reflexivity).
  destruct (oauth_token_shared demo_ir "op" demo_oauth 10%float demo_start demo_after "tok-1" Hrun) as (e & He & Hshare).
  assert (dict_get (rt_tokens demo_after) (cache_key demo_oauth) = Some ("tok-1", Some 4600%float)) as He' by (vm_compute; reflexivity).
  rewrite He' in He. injection He as <-.
  refine (proj2 (Hshare demo_ir "other" demo_oauth 10%float demo_after eq_refl He' _)). vm_compute. reflexivity.
Defined.

Lemma refresh_writes_own_entry_witness :
  rt_tokens (refresh_token demo_ir "op" demo_oauth 10 (fresh_runtime [])).2 = [].
Proof.
  assert (∀ url body headers t, keeps_tokens (client_post_form (W:=script) url body headers t)) as Hk.
  { intros url body headers t s. simpl. unfold next_answer. by destruct (sc_answers (rt_world s)). }
  pose proof (refresh_writes_own_entry demo_ir "op" demo_oauth 10%float (fresh_runtime []) Hk) as H.
  assert ((refresh_token demo_ir "op" demo_oauth 10 (fresh_runtime [])).1 =
    Raise (tool_error "OAuth2 token request timed out for op (endpoint: https://auth/token).")) as Hr by (vm_compute; reflexivity).
  destruct (refresh_token demo_ir "op" demo_oauth 10 (fresh_runtime [])) as [o s']. simpl in *. by subst o.
Defined.

(** A lifetime given as text, or a negative one, is taken for none at all: the
    token is then used for ever. *)
Example text_lifetime_never_expires :
  expiry 1000 (VStr "3600") = Ok None ∧ expiry 1000 (VInt (-1)) = Ok None.
Proof. split; reflexivity. Qed.
End examples.
