(* ===== verification/RuntimeRequest.v ===== *)
(** * Requests to the upstream service ([apps/mcp_runtime/proxy_http.py],
      [resolve_url] and [build_request_kwargs] of [proxy_utils.py])

    From a tool's arguments to the HTTP request: the path with its parameters,
    the split between query and body, the body builders, the request itself and
    the polling of asynchronous jobs. *)

From S2P Require Export RuntimeAuth.
From Stdlib Require Import Ascii.

Definition dquote : string := String (ascii_of_N 34) "".

(** ** Path parameters *)

(** [set(...)], in the order of first occurrence *)
Definition path_argument_names (raw_path : string) : list string :=
  foldl (λ acc n, if bool_decide (n ∈ acc) then acc else acc ++ [n]) [] (placeholders None raw_path).

Definition _WRITE_METHODS : list string := ["POST"; "PUT"; "PATCH"].
Definition _BODY_PARAM_NAMES : list string := ["body"; "payload"; "data"].

(** [{k: v for k, v in d.items() if k != name}] *)
Definition without (name : string) (d : dict pyval) : dict pyval := List.filter (λ kv, negb (str_eqb kv.1 name)) d.

Definition is_write (op : Operation) : bool := bool_decide (upper (default "" (op_method op)) ∈ _WRITE_METHODS).

Definition object_like (p : Param) : bool := one_of (pa_type p) ["object"; "array"].

(** [split_query_and_body] *)
Definition split_query_and_body (op : Operation) (remaining : dict pyval) : dict pyval * option pyval :=
  match remaining with
  | [] => ([], None)
  | _ =>
      if is_write op then
        let named := match op_body_param_name op with
                     | Some n => if str_truthy n then (λ v, (n, v)) <$> dict_get remaining n else None
                     | None => None
                     end in
        match named with
        | Some (n, v) => (without n remaining, Some v)
        | None =>
            match remaining with
            | [(key, value)] =>
                let is_object_like := match next_where (λ p, str_eqb (pa_name p) key) (op_params op) with
                                      | Some p => object_like p
                                      | None => false
                                      end in
                if bool_decide (key ∈ _BODY_PARAM_NAMES) || is_object_like then ([], Some value)
                else ([], Some (VDict remaining))
            | _ => ([], Some (VDict remaining))
            end
        end
      else (remaining, None)
  end.

Section request.
Context {W : Type} `{!Upstream W}.
Abbreviation rt := (runtime W).
Abbreviation M := (comp rt exn).
Abbreviation str := (py_str repr).

Definition fill_path (arguments : dict pyval) (resolved : outcome exn string) (name : string) : outcome exn string :=
  obind resolved (λ path,
    match get_or_none arguments name with
    | VNone => Raise (tool_error ("Missing path parameter " +:+ name +:+ "."))
    | v => Ok (str_replace ("{" +:+ name +:+ "}") (quote (str v)) path)
    end).

Definition resolve_path (raw_path : string) (names : list string) (arguments : dict pyval) : outcome exn string :=
  foldl (fill_path arguments) (Ok raw_path) names.

(** [resolve_url] *)
Definition resolve_url (raw_path : string) (arguments : dict pyval) (ir : ServiceIR) : outcome exn (string * list string) :=
  let names := path_argument_names raw_path in
  obind (resolve_path raw_path names arguments) (λ resolved_path,
  let original := ir_base_url ir in
  obind (urlsplit original) (λ base,
  obind (urlsplit (str_or resolved_path "/")) (λ resolved,
  Ok ((if one_of (path resolved) [""; "/"] then
         urlunsplit (mk_split (scheme base) (netloc base) (str_or (path base) "/")
                       (str_or (query resolved) (query base)) (fragment resolved))
       else
         let base_path := rstrip_char "/" (path base) in
         let suffix := if startswith "/" (path resolved) then path resolved else "/" +:+ path resolved in
         if str_eqb (path base) suffix && negb (str_truthy (query resolved)) && negb (str_truthy (fragment resolved))
         then original
         else urlunsplit (mk_split (scheme base) (netloc base) (base_path +:+ suffix) (query resolved) (fragment resolved))),
      names)))).

(** ** Bodies *)

(** [select_body_argument_name] *)
Definition select_body_argument_name (op : Operation) (remaining : dict pyval) : outcome exn string :=
  if opt_truthy (op_body_param_name op) then
    let n := default "" (op_body_param_name op) in
    if dict_mem remaining n then Ok n
    else Raise (tool_error ("Operation " +:+ op_id op +:+ " expects body parameter '" +:+ n +:+ "'."))
  else
    match next_where (dict_mem remaining) body_param_order with
    | Some candidate => Ok candidate
    | None =>
        match (pa_name <$> List.filter (λ p, dict_mem remaining (pa_name p) && object_like p) (op_params op)), remaining with
        | [n], _ => Ok n
        | _, [(n, _)] => Ok n
        | _, _ => Raise (tool_error ("Operation " +:+ op_id op +:+ " could not determine which argument should be used as the "
                                     +:+ body_mode_value (op_request_body_mode op) +:+ " request body."))
        end
    end.

(** [_normalize_form_value] *)
Definition _normalize_form_value (v : pyval) : string :=
  match v with
  | VBool b => if b then "true" else "false"
  | VNone => ""
  | VDict _ | VList _ => json_compact v
  | _ => str v
  end.

(** [_normalize_multipart_file_part] *)
Definition _normalize_multipart_file_part (operation_id field_name : string) (value : pyval)
    : outcome exn (string * string * option string) :=
  let complain what := Raise (tool_error ("Multipart file field '" +:+ field_name +:+ "' " +:+ what +:+ " for operation "
                                          +:+ operation_id +:+ ".")) in
  match value with
  | VStr s => Ok (field_name, s, Some "text/plain")
  | VDict d =>
      match (match get_or_none d "filename" with VNone => VStr field_name | v => v end) with
      | VStr filename =>
          if negb (str_truthy filename) then complain "has an invalid filename"
          else
            match get_or_none d "content_type" with
            | VNone | VStr _ =>
                let content_type := as_str (get_or_none d "content_type") in
                match dict_get d "content_base64" with
                | Some (VStr encoded) =>
                    match b64decode encoded with
                    | Some content => Ok (filename, content, content_type)
                    | None => complain "contains invalid base64"
                    end
                | Some _ => complain "has a non-string content_base64"
                | None =>
                    match get_or_none d "content" with
                    | VStr content => Ok (filename, content, Some (str_or (default "" content_type) "text/plain"))
                    | _ => complain "requires string content or content_base64"
                    end
                end
            | _ => complain "has an invalid content_type"
            end
      | _ => complain "has an invalid filename"
      end
  | _ => complain "must be a string or object"
  end.

Definition multipart := (dict string * dict (string * string * option string) * pyval)%type.

Definition add_file (operation_id : string) (acc : outcome exn (dict (string * string * option string) * dict pyval))
    (kv : string * pyval) : outcome exn (dict (string * string * option string) * dict pyval) :=
  obind acc (λ fs,
  obind (_normalize_multipart_file_part operation_id kv.1 kv.2) (λ part,
  let '(filename, content, content_type) := part in
  Ok (dict_set fs.1 kv.1 part,
      dict_set fs.2 kv.1 (VDict [("filename", VStr filename); ("content_base64", VStr (b64encode content));
                                 ("content_type", VStr (str_or (default "" content_type) "application/octet-stream"))])))).

(** [_build_multipart_request_body] *)
Definition _build_multipart_request_body (operation_id : string) (value : pyval) : outcome exn multipart :=
  match value with
  | VDict d =>
      match default (VDict []) (dict_get d "form"), default (VDict []) (dict_get d "files") with
      | VDict raw_form, VDict raw_files =>
          let form_data := (λ kv, (kv.1, _normalize_form_value kv.2)) <$> raw_form in
          obind (foldl (add_file operation_id) (Ok ([], [])) raw_files) (λ fs,
          Ok (form_data, fs.1, VDict [("form", VDict (str_values form_data)); ("files", VDict fs.2)]))
      | VDict _, _ => Raise (tool_error ("Multipart files payload must be an object for operation " +:+ operation_id +:+ "."))
      | _, _ => Raise (tool_error ("Multipart form payload must be an object for operation " +:+ operation_id +:+ "."))
      end
  | _ => Raise (tool_error ("Multipart operation " +:+ operation_id +:+ " requires an object payload with form/files."))
  end.

(** [_build_raw_request_body] *)
Definition _build_raw_request_body (operation_id : string) (value : pyval) : outcome exn (string * option string * pyval) :=
  let complain what := Raise (tool_error ("Raw-body operation " +:+ operation_id +:+ " " +:+ what +:+ ".")) in
  match value with
  | VStr s => Ok (s, None, value)
  | VDict d =>
      let content_type := get_or_none d "content_type" in
      match content_type with
      | VNone | VStr _ =>
          match dict_get d "content_base64" with
          | Some (VStr encoded) =>
              match b64decode encoded with
              | Some content => Ok (content, as_str content_type,
                                    VDict [("content_base64", VStr encoded); ("content_type", content_type)])
              | None => complain "received invalid base64 content"
              end
          | Some _ => complain "received a non-string content_base64"
          | None =>
              match get_or_none d "content" with
              | VStr content => Ok (content, as_str content_type,
                                    VDict [("content", VStr content); ("content_type", content_type)])
              | _ => complain "requires string content or content_base64"
              end
          end
      | _ => complain "received a non-string content_type"
      end
  | _ => complain "requires a string or object payload"
  end.

Definition not_empty {A} (l : list A) : option (list A) := match l with [] => None | _ => Some l end.

(** The arguments that are neither path parameters nor null *)
Definition is_remaining (names : list string) (k : string) (v : pyval) : bool :=
  negb (bool_decide (k ∈ names)) && match v with VNone => false | _ => true end.
Definition remaining_arguments (names : list string) (arguments : dict pyval) : dict pyval :=
  List.filter (λ kv, is_remaining names kv.1 kv.2) arguments.

(** [prepare_request_payload] *)
Definition prepare_request_payload (op : Operation) (arguments : dict pyval) (names : list string) (ir : ServiceIR)
    : outcome exn PreparedRequestPayload :=
  let remaining := remaining_arguments names arguments in
  match op_soap op, op_graphql op, op_jsonrpc op with
  | Some config, _, _ => Ok (prepare_soap_payload repr print_xml op config remaining)
  | None, Some config, _ => Ok (prepare_graphql_payload op config remaining)
  | None, None, Some config => Ok (prepare_jsonrpc_payload config remaining)
  | None, None, None =>
      if str_eqb (ir_protocol ir) "odata" then Ok (prepare_odata_payload split_query_and_body op remaining)
      else
        match remaining, op_request_body_mode op with
        | [], _ => Ok (mk_payload [] None None None None None None)
        | _, body_multipart =>
            obind (select_body_argument_name op remaining) (λ body_key,
            obind (_build_multipart_request_body (op_id op) (get_or_none remaining body_key)) (λ m,
            let '(form_data, files, signable_body) := m in
            Ok (mk_payload (without body_key remaining) None (not_empty form_data) (not_empty files) None None (Some signable_body))))
        | _, body_raw =>
            obind (select_body_argument_name op remaining) (λ body_key,
            obind (_build_raw_request_body (op_id op) (get_or_none remaining body_key)) (λ b,
            let '(raw_body, content_type, signable_body) := b in
            Ok (mk_payload (without body_key remaining) None None None (Some raw_body) content_type (Some signable_body))))
        | _, body_json =>
            let '(query_params, json_body) := split_query_and_body op remaining in
            Ok (mk_payload query_params json_body None None None None json_body)
        end
  end.

(** ** Sending *)

(** [build_request_kwargs] *)
Definition build_request_kwargs (headers : dict string) (params : option (dict pyval))
    (payload : option PreparedRequestPayload) (timeout : float) : request_kwargs :=
  match payload with
  | None => mk_kwargs headers params timeout None None None None
  | Some p =>
      let headers := if opt_truthy (pp_content_type p) && negb (dict_mem headers "Content-Type")
                     then dict_set headers "Content-Type" (default "" (pp_content_type p)) else headers in
      match pp_json_body p, pp_files p, pp_raw_body p, pp_form_data p with
      | Some json, _, _, _ => mk_kwargs headers params timeout (Some json) None None None
      | None, Some files, _, _ => mk_kwargs headers params timeout None (pp_form_data p) (Some files) None
      | None, None, Some raw, _ => mk_kwargs headers params timeout None None None (Some raw)
      | None, None, None, form => mk_kwargs headers params timeout None form None None
      end
  end.

Definition send_request (method url : string) (headers : dict string) (params : option (dict pyval))
    (payload : option PreparedRequestPayload) (follow_redirects : bool) (timeout : float) : M response :=
  client_request method url follow_redirects (build_request_kwargs headers params payload timeout).

(** [headers.setdefault(k, v)] *)
Definition setdefault_header (k v : string) (headers : dict string) : dict string :=
  if dict_mem headers k then headers else dict_set headers k v.

(** ** Asynchronous jobs *)

Definition invalid_json_error : exn := mk_exn "_InvalidJsonPayloadError" "Response declared JSON but body is not valid JSON" [].

(** [_maybe_parse_json_payload] *)
Definition _maybe_parse_json_payload (r : response) : outcome exn (option pyval) :=
  if str_contains "json" (lower (default "" (header r "content-type"))) then
    match rsp_json r with
    | Some VNone => Ok None
    | Some v => Ok (Some v)
    | None => Raise invalid_json_error
    end
  else Ok None.

(** [_extract_nested_value] *)
Definition _extract_nested_value (payload : pyval) (dotted_path : string) : option pyval :=
  value_at (split_on "."%char dotted_path) payload.

(** [_is_same_origin] *)
Definition _is_same_origin (base_url resolved_url : string) : outcome exn bool :=
  obind (urlsplit base_url) (λ base, obind (urlsplit resolved_url) (λ resolved,
  Ok (str_eqb (scheme base) (scheme resolved) && str_eqb (netloc base) (netloc resolved)))).

(** The tail both sources share: resolve against the request and block another
    origin. *)
Definition resolve_status_url (r : response) (target : string) : outcome exn (option string) :=
  let request_url := default "" (rsp_request_url r) in
  let resolved := urljoin request_url target in
  if str_truthy request_url then
    obind (_is_same_origin request_url resolved) (λ same, Ok (if same then Some resolved else None))
  else Ok (Some resolved).

(** [_extract_async_status_url] *)
Definition _extract_async_status_url (job : AsyncJobConfig) (r : response) : outcome exn (option string) :=
  match aj_status_url_source job with
  | location_header =>
      let target := str_or (default "" (header r "location")) (default "" (header r "content-location")) in
      if str_truthy target then resolve_status_url r target else Ok None
  | response_body =>
      obind (_maybe_parse_json_payload r) (λ payload,
      match payload, aj_status_url_field job with
      | Some p, Some field =>
          match _extract_nested_value p field with
          | Some (VStr target) => if str_truthy target then resolve_status_url r target else Ok None
          | _ => Ok None
          end
      | _, _ => Ok None
      end)
  end.

(** [_extract_async_status_value] *)
Definition _extract_async_status_value (job : AsyncJobConfig) (r : response) : outcome exn (option string) :=
  obind (_maybe_parse_json_payload r) (λ payload,
  Ok (match payload with Some p => _extract_nested_value p (aj_status_field job) ≫= as_str | None => None end)).

(** [_split_url_query] *)
Definition _split_url_query (url : string) : outcome exn (string * dict pyval) :=
  obind (urlsplit url) (λ u,
  Ok (urlunsplit (mk_split (scheme u) (netloc u) (path u) "" (fragment u)),
      str_values (dict_of_list (parse_qsl (query u))))).

(** [s in {value.lower() for value in values}] for an optional status *)
Definition in_states (status : option string) (values : list string) : bool :=
  match status with Some s => bool_decide (lower s ∈ (lower <$> values)) | None => false end.

(** The timeout of one poll *)
Definition poll_timeout (timeout deadline now : float) : float :=
  let left := PrimFloat.sub deadline now in
  let remaining := if PrimFloat.ltb left 1 then 1%float else left in
  if PrimFloat.ltb remaining timeout then remaining else timeout.

(** What the loop does with an answer: [None] is to sleep and ask again. *)
Definition poll_verdict (operation_id : string) (job : AsyncJobConfig) (r : response) : outcome exn (option response) :=
  match _extract_async_status_value job r with
  | Raise e =>
      Raise (if exn_is "_InvalidJsonPayloadError" e
             then tool_error ("Async poll for operation " +:+ operation_id +:+ " received invalid JSON (HTTP "
                              +:+ str_of_Z (rsp_status r) +:+ ").")
             else e)
  | Ok status =>
      if in_states status (aj_success_status_values job) then Ok (Some r)
      else if in_states status (aj_failure_status_values job) then
        Raise (tool_error ("Async job polling failed for operation " +:+ operation_id +:+ " with terminal status '"
                           +:+ default "" status +:+ "'."))
      else if bool_decide (rsp_status r ∈ aj_initial_status_codes job) || in_states status (aj_pending_status_values job)
      then Ok None else Ok (Some r)
  end.

Definition timed_out (operation_id : string) : exn :=
  tool_error ("Async job polling timed out for operation " +:+ operation_id +:+ ".").

(** One request of the loop, up to its answer *)
Definition poll_once (ir : ServiceIR) (operation_id status_url : string) (deadline timeout : float) : M response :=
  uq <- lift_out (_split_url_query status_url) ;;
  hq <- build_auth ir operation_id "GET" uq.1 uq.2 None timeout ;;
  now <- in_world time_monotonic ;;
  get_client ir ;;;
  client_request "GET" uq.1 true
    (build_request_kwargs hq.1 (not_empty (dict_update uq.2 (str_values hq.2))) None (poll_timeout timeout deadline now)).

(** The loop; [None] when the fuel ran out, which is no exit of the Python code. *)
Fixpoint poll_loop (fuel : nat) (ir : ServiceIR) (operation_id : string) (job : AsyncJobConfig) (status_url : string)
    (deadline timeout : float) : M (option response) :=
  match fuel with
  | O => ret None
  | S fuel' =>
      now <- in_world time_monotonic ;;
      if PrimFloat.ltb deadline now then raise (timed_out operation_id)
      else
        r <- poll_once ir operation_id status_url deadline timeout ;;
        match poll_verdict operation_id job r with
        | Ok (Some result) => ret (Some result)
        | Raise e => aclose r ;;; raise e
        | Ok None =>
            aclose r ;;; sleep (aj_poll_interval_seconds job) ;;;
            poll_loop fuel' ir operation_id job status_url deadline timeout
        end
  end.

(** [poll_async_job] *)
Definition poll_async_job (fuel : nat) (ir : ServiceIR) (operation_id : string) (r : response) (job : AsyncJobConfig)
    (timeout : float) : M (option response) :=
  if negb (bool_decide (rsp_status r ∈ aj_initial_status_codes job)) then ret (Some r)
  else
    match _extract_async_status_url job r with
    | Raise e =>
        if exn_is "_InvalidJsonPayloadError" e
        then (aclose r ;;; raise (tool_error ("Async kickoff for operation " +:+ operation_id +:+ " received invalid JSON: " +:+ exn_str e)))
        else raise e
    | Ok status_url =>
        if negb (opt_truthy status_url)
        then (aclose r ;;; raise (tool_error ("Async job operation " +:+ operation_id +:+ " did not provide a pollable status URL.")))
        else
          aclose r ;;;
          start <- in_world time_monotonic ;;
          poll_loop fuel ir operation_id job (default "" status_url) (PrimFloat.add start (aj_timeout_seconds job)) timeout
    end.

(** ** The request *)

(** [perform_request] *)
Definition perform_request (fuel : nat) (ir : ServiceIR) (timeout : float) (op : Operation) (arguments : dict pyval)
    : M (option response) :=
  if negb (opt_truthy (op_method op)) || negb (opt_truthy (op_path op)) then
    raise (tool_error ("Operation " +:+ op_id op +:+ " is missing method or path metadata."))
  else
    let method := upper (default "" (op_method op)) in
    un <- lift_out (resolve_url (default "" (op_path op)) arguments ir) ;;
    payload <- lift_out (prepare_request_payload op arguments un.2 ir) ;;
    hq <- build_auth ir (op_id op) method un.1 (pp_query_params payload) (pp_signable_body payload) timeout ;;
    let headers :=
      match op_soap op with
      | None => hq.1
      | Some s =>
          let headers := setdefault_header "Accept" "text/xml, application/xml" hq.1 in
          if opt_truthy (so_soap_action s)
          then setdefault_header "SOAPAction" (dquote +:+ default "" (so_soap_action s) +:+ dquote) headers
          else headers
      end in
    let query_params := dict_update (pp_query_params payload) (str_values hq.2) in
    get_client ir ;;;
    r <- send_request method un.1 headers (not_empty query_params) (Some payload) false timeout ;;
    match op_async_job op with
    | Some job => poll_async_job fuel ir (op_id op) r job timeout
    | None => ret (Some r)
    end.
End request.

(** ** Arguments reach the request *)

(** Where an argument is found in what is sent *)
Definition delivered (q : dict pyval) (body : option pyval) (k : string) (v : pyval) : Prop :=
  dict_get q k = Some v ∨ body = Some v ∨ ∃ d, body = Some (VDict d) ∧ dict_get d k = Some v.

Lemma get_without n d k : dict_get (without n d) k = if str_eqb k n then None else dict_get d k.
Proof.
  unfold without. induction d as [|[k' v'] d IH]; simpl; [by destruct (str_eqb k n)|].
  destruct (str_eqbP k' n) as [->|Hn]; simpl; [rewrite IH; by destruct (str_eqbP k n)|].
  rewrite IH. destruct (str_eqbP k k') as [->|]; [|done]. by rewrite (proj2 (str_eqb_neq k' n)).
Qed.

Lemma split_delivers op remaining k v : dict_get remaining k = Some v →
  let '(q, body) := split_query_and_body op remaining in delivered q body k v.
Proof.
  intros Hk. assert (delivered [] (Some (VDict remaining)) k v) as Hall by (right; right; by exists remaining).
  assert (∀ n w, dict_get remaining n = Some w → delivered (without n remaining) (Some w) k v) as Hnamed.
  { intros n w Hn. unfold delivered. rewrite get_without. destruct (str_eqbP k n) as [->|]; [|by left].
    right. left. congruence. }
  assert (∀ key value, remaining = [(key, value)] → delivered [] (Some value) k v) as Hone.
  { intros key value ->. right. left. simpl in Hk. destruct (str_eqb k key); congruence. }
  assert (delivered remaining None k v) as Hq by by left.
  unfold split_query_and_body. destruct remaining as [|kv0 rest] eqn:Er; [done|]. rewrite <-Er in Hnamed, Hall, Hq.
  destruct (is_write op); [|by rewrite <-Er].
  destruct (match op_body_param_name op with Some _ => _ | None => _ end) as [[n w]|] eqn:En.
  - rewrite <-Er in En |- *. apply Hnamed. destruct (op_body_param_name op) as [n'|]; [|done].
    destruct (str_truthy n'); [|done]. destruct (dict_get remaining n') eqn:Eg; simplify_eq/=. done.
  - destruct kv0 as [key value], rest as [|kv1 rest]; [|by rewrite <-Er].
    destruct (bool_decide (key ∈ _BODY_PARAM_NAMES) || _); [by eapply Hone|by rewrite <-Er].
Qed.

Lemma remaining_wf names arguments : dict_wf arguments → dict_wf (remaining_arguments names arguments).
Proof.
  apply (dict_wf_filterb (is_remaining names)).
Qed.

Lemma odata_delivers op remaining k v :
  dict_wf remaining → (∀ k', k' ∈ dict_keys remaining → "$" +:+ k' ∉ dict_keys remaining) →
  dict_get remaining k = Some v →
  let p := prepare_odata_payload split_query_and_body op remaining in
  delivered (pp_query_params p) (pp_json_body p) k v ∨ dict_get (pp_query_params p) ("$" +:+ k) = Some v.
Proof.
  intros Hwf Hdollar Hk. unfold prepare_odata_payload. set (dollar := omap _ (op_params op)).
  set (sys := List.filter (λ kv : string * pyval, is_system dollar kv.1) remaining).
  set (rest := List.filter _ remaining). set (oq := (λ kv : string * pyval, ("$" +:+ kv.1, kv.2)) <$> sys).
  assert (dict_wf sys) as Hsys by by apply (dict_wf_filterb (λ k _, is_system dollar k)).
  assert (dict_keys oq = (λ k, "$" +:+ k) <$> dict_keys sys) as Hkeys.
  { unfold oq, dict_keys. by rewrite <-!list_fmap_compose. }
  assert (dict_wf oq) as Hoq.
  { unfold dict_wf. rewrite Hkeys. apply NoDup_fmap_2; [|done]. intros a b. apply str_app_inj_l. }
  assert (dict_get sys k = if is_system dollar k then Some v else None) as Hgs.
  { unfold sys. rewrite (dict_get_filter (λ k _, is_system dollar k)) by done. by rewrite Hk. }
  destruct (split_query_and_body op rest) as [q b] eqn:Eq. cbn [pp_query_params pp_json_body].
  destruct (is_system dollar k) eqn:Hd.
  - right. rewrite dict_get_update by done. assert (dict_get oq ("$" +:+ k) = Some v) as ->; [|done].
    apply dict_get_elem; [done|]. apply list_elem_of_fmap. exists (k, v). split; [done|].
    by apply dict_get_Some_elem.
  - left. assert (dict_get rest k = Some v) as Hr.
    { unfold rest. rewrite (dict_get_filter (λ k _, negb (is_system dollar k))) by done.
      by rewrite Hk, Hd. }
    pose proof (split_delivers op rest k v Hr) as Hs. rewrite Eq in Hs.
    destruct Hs as [Hs|Hs]; [|by right]. left. rewrite dict_get_update by done.
    assert (dict_get oq k = None) as ->; [|done]. apply dict_get_None. rewrite Hkeys.
    intros (k' & -> & Hk')%list_elem_of_fmap. apply (Hdollar k').
    + apply list_elem_of_fmap in Hk' as ([k1 v1] & -> & [_ Hin]%elem_of_filterb). apply list_elem_of_fmap. by exists (k1, v1).
    + apply dict_get_is_Some. by rewrite Hk.
Qed.


(** ** Path templates *)

(** A template read as literal characters and named holes *)
Inductive token := Lit (c : ascii) | Hole (n : string).

Definition is_brace (c : ascii) : bool := bool_decide (c = "{"%char) || bool_decide (c = "}"%char).
Definition no_brace (s : string) : bool := str_all (λ c, negb (is_brace c)) s.

Definition token_ok (t : token) : Prop :=
  match t with Lit c => is_brace c = false | Hole n => n ≠ "" ∧ no_brace n = true end.

Fixpoint flat (toks : list token) : string :=
  match toks with
  | [] => ""
  | Lit c :: l => String c (flat l)
  | Hole n :: l => ("{" +:+ n +:+ "}") +:+ flat l
  end.

Definition fill_token (n q : string) (t : token) : list token :=
  match t with
  | Lit c => [t]
  | Hole m => if str_eqb m n then Lit <$> chars q else [t]
  end.
Definition fill_tokens (n q : string) (toks : list token) : list token := concat (fill_token n q <$> toks).

Lemma flat_app l k : flat (l ++ k) = flat l +:+ flat k.
Proof.
  induction l as [|[c|n] l IH]; simpl; [done| |]; rewrite IH; [done|]. by rewrite str_app_assoc.
Qed.
Lemma flat_lits s : flat (Lit <$> chars s) = s.
Proof. induction s as [|c s IH]; [done|]. change (String c (flat (Lit <$> chars s)) = String c s). by rewrite IH. Qed.

Lemma no_brace_chars s c : no_brace s = true → c ∈ chars s → is_brace c = false.
Proof.
  unfold no_brace, str_all. intros H Hc. rewrite forallb_forall in H. apply list_elem_of_In, H in Hc.
  by destruct (is_brace c).
Qed.

Lemma fill_tokens_ok n q toks : no_brace q = true → Forall token_ok toks → Forall token_ok (fill_tokens n q toks).
Proof.
  intros Hq. induction 1 as [|t toks Ht _ IH]; [constructor|]. unfold fill_tokens. rewrite fmap_cons. simpl.
  apply Forall_app. split; [|done]. destruct t as [c|m]; simpl; [by constructor|].
  case_match; [|by constructor]. apply Forall_fmap, Forall_forall. intros c Hc. simpl. by eapply no_brace_chars.
Qed.

(** [startswith "{n}"] on a template: only at a hole of that name. *)
Lemma prefix_cons a p c s : startswith (String a p) (String c s) = bool_decide (a = c) && startswith p s.
Proof.
  unfold startswith. simpl. destruct (ascii_dec a c) as [->|Hne]; [by rewrite bool_decide_eq_true_2|].
  by rewrite bool_decide_eq_false_2.
Qed.

Lemma no_brace_cons c s : no_brace (String c s) = negb (is_brace c) && no_brace s.
Proof. done. Qed.

Lemma app_cons c s t : String c s +:+ t = String c (s +:+ t).
Proof. done. Qed.

Lemma str_eqb_cons c d s t : str_eqb (String c s) (String d t) = bool_decide (c = d) && str_eqb s t.
Proof.
  unfold str_eqb. simpl. destruct (Ascii.eqb_spec c d) as [->|Hne]; [by rewrite bool_decide_eq_true_2|].
  by rewrite bool_decide_eq_false_2.
Qed.

Lemma prefix_hole n m s : no_brace n = true → no_brace m = true →
  startswith (n +:+ "}") (m +:+ ("}" +:+ s)) = str_eqb m n.
Proof.
  assert (∀ c, negb (is_brace c) = true → c ≠ "}"%char) as Hb by (by intros c Hc ->).
  revert m. induction n as [|c n IH]; intros m Hn Hm.
  - destruct m as [|d m]; [exact (startswith_app "}" s)|]. rewrite no_brace_cons in Hm. apply andb_true_iff in Hm as [Hd _].
    change ("" +:+ "}") with (String "}" ""). rewrite app_cons, prefix_cons. apply Hb in Hd.
    by rewrite bool_decide_eq_false_2 by congruence.
  - rewrite no_brace_cons in Hn. apply andb_true_iff in Hn as [Hc Hn]. rewrite app_cons. destruct m as [|d m].
    + change ("" +:+ ("}" +:+ s)) with (String "}" s). rewrite prefix_cons. by rewrite bool_decide_eq_false_2 by by apply Hb.
    + rewrite no_brace_cons in Hm. apply andb_true_iff in Hm as [Hd Hm].
      rewrite app_cons, prefix_cons, IH, str_eqb_cons by done. f_equal. apply bool_decide_ext. naive_solver.
Qed.

Definition hole (n : string) : string := "{" +:+ n +:+ "}".

Lemma prefix_flat n toks : no_brace n = true → Forall token_ok toks →
  startswith (hole n) (flat toks) = match toks with Hole m :: _ => str_eqb m n | _ => false end.
Proof.
  intros Hn Hok. unfold hole. change ("{" +:+ n +:+ "}") with (String "{" (n +:+ "}")).
  destruct Hok as [|t toks Ht _]; [done|]. destruct t as [c|m]; cbn [flat].
  - rewrite prefix_cons. simpl in Ht. rewrite bool_decide_eq_false_2; [done|]. by intros <-.
  - destruct Ht as [_ Hm]. change (("{" +:+ m +:+ "}") +:+ flat toks) with (String "{" ((m +:+ "}") +:+ flat toks)).
    rewrite prefix_cons, bool_decide_eq_true_2 by done. simpl andb. rewrite <-str_app_assoc. by apply prefix_hole.
Qed.

Lemma drop_str_app s t : drop_str (String.length s) (s +:+ t) = t.
Proof. induction s as [|c s IH]; [done|]. rewrite app_cons. apply IH. Qed.

Lemma prefix_hole_char n c s : c ≠ "{"%char → startswith (hole n) (String c s) = false.
Proof.
  intros Hc. unfold hole. change ("{" +:+ n +:+ "}") with (String "{" (n +:+ "}")). rewrite prefix_cons.
  by rewrite bool_decide_eq_false_2 by congruence.
Qed.

Lemma length_hole n : String.length (hole n) = (2 + String.length n)%nat.
Proof. unfold hole. rewrite !length_app_str. simpl. lia. Qed.

(** Characters of a passed-over hole start no hole. *)
Lemma replace_skip fuel n q s t : no_brace n = true → str_all (λ c, negb (bool_decide (c = "{"%char))) s = true →
  replace_fuel (String.length s + fuel) (hole n) q (s +:+ t) = s +:+ replace_fuel fuel (hole n) q t.
Proof.
  intros Hn. induction s as [|c s IH]; intros Hs; [done|].
  change (str_all ?p (String c s)) with (p c && str_all p s) in Hs.
  apply andb_true_iff in Hs as [Hc Hs]. rewrite !app_cons. cbn [String.length Nat.add replace_fuel].
  rewrite prefix_hole_char; [by rewrite IH|]. intros ->. done.
Qed.

Lemma replace_flat fuel n q toks : no_brace n = true → Forall token_ok toks → (String.length (flat toks) < fuel)%nat →
  replace_fuel fuel (hole n) q (flat toks) = flat (fill_tokens n q toks).
Proof.
  intros Hn Hok. revert fuel. induction Hok as [|t toks Ht Hok IH]; intros fuel Hf; [by destruct fuel|].
  destruct fuel as [|fuel]; [lia|]. pose proof (prefix_flat n (t :: toks) Hn ltac:(by constructor)) as Hp.
  unfold fill_tokens. rewrite fmap_cons. cbn [concat]. rewrite flat_app. fold (fill_tokens n q toks).
  destruct t as [c|m].
  - cbn [flat fill_token] in *. cbn [replace_fuel]. rewrite Hp. simpl in Hf. rewrite IH by lia. done.
  - assert (flat (Hole m :: toks) = hole m +:+ flat toks) as Hflat by done. rewrite Hflat in Hp, Hf |- *.
    rewrite length_app_str, length_hole in Hf. destruct Ht as [_ Hm]. cbn [fill_token]. destruct (str_eqbP m n) as [->|Hne].
    + destruct (hole n +:+ flat toks) as [|c s] eqn:Es; [done|]. cbn [replace_fuel]. rewrite Hp, <-Es.
      rewrite drop_str_app, IH by lia. by rewrite flat_lits.
    + change (hole m +:+ flat toks) with (String "{" ((m +:+ "}") +:+ flat toks)) in Hp |- *. cbn [replace_fuel]. rewrite Hp.
      replace fuel with (String.length (m +:+ "}") + (fuel - String.length (m +:+ "}")))%nat.
      * rewrite replace_skip; [|done|].
        -- rewrite IH by (rewrite length_app_str; simpl; lia).
           cbn [flat]. by rewrite str_app_empty.
        -- rewrite str_all_app. apply andb_true_iff. split; [|done]. clear -Hm. induction m as [|c m IH]; [done|].
           rewrite no_brace_cons in Hm. apply andb_true_iff in Hm as [Hc Hm].
           change (str_all ?p (String c m)) with (p c && str_all p m). rewrite IH by done. rewrite andb_true_r.
           unfold is_brace in Hc. by destruct (bool_decide (c = "{"%char)).
      * rewrite length_app_str. simpl. lia.
Qed.

Definition hole_names (toks : list token) : list string :=
  omap (λ t, match t with Hole n => Some n | Lit _ => None end) toks.

Lemma str_app_cons_r s c t : (s +:+ String c "") +:+ t = s +:+ String c t.
Proof. by rewrite <-str_app_assoc. Qed.

Lemma placeholders_name acc n s : no_brace n = true →
  placeholders (Some acc) (n +:+ String "}" s) =
    if str_truthy (acc +:+ n) then (acc +:+ n) :: placeholders None s else placeholders None s.
Proof.
  revert acc. induction n as [|c n IH]; intros acc Hn.
  - change ("" +:+ String "}" s) with (String "}" s). rewrite str_app_empty. done.
  - rewrite no_brace_cons in Hn. apply andb_true_iff in Hn as [Hc Hn]. rewrite app_cons. cbn [placeholders].
    unfold is_brace in Hc. destruct (bool_decide (c = "{"%char)), (bool_decide (c = "}"%char)); try done.
    cbn [fmap option_fmap option_map]. by rewrite IH, str_app_cons_r.
Qed.

Lemma placeholders_flat toks : Forall token_ok toks → placeholders None (flat toks) = hole_names toks.
Proof.
  induction 1 as [|t toks Ht _ IH]; [done|]. destruct t as [c|n].
  - cbn [flat placeholders hole_names omap list_omap]. simpl in Ht. unfold is_brace in Ht.
    destruct (bool_decide (c = "{"%char)), (bool_decide (c = "}"%char)); try done.
  - destruct Ht as [Hne Hn]. cbn [flat].
    assert (("{" +:+ n +:+ "}") +:+ flat toks = String "{" (n +:+ String "}" (flat toks))) as ->.
    { change ("{" +:+ n +:+ "}") with (String "{" (n +:+ "}")). rewrite app_cons. by rewrite <-str_app_assoc. }
    cbn [placeholders]. rewrite bool_decide_eq_true_2 by done. rewrite placeholders_name by done.
    change ("" +:+ n) with n. destruct n; [done|]. simpl str_truthy. cbv iota. by rewrite IH.
Qed.

Lemma dedup_elem (names acc : list string) n :
  n ∈ foldl (λ acc n, if bool_decide (n ∈ acc) then acc else acc ++ [n]) acc names ↔ n ∈ acc ∨ n ∈ names.
Proof.
  revert acc. induction names as [|m names IH]; intros acc; simpl; [set_solver|].
  rewrite IH. case_bool_decide; set_solver.
Qed.

Lemma path_names_holes toks n : Forall token_ok toks → n ∈ path_argument_names (flat toks) ↔ Hole n ∈ toks.
Proof.
  intros Hok. unfold path_argument_names. rewrite dedup_elem, placeholders_flat by done. unfold hole_names.
  rewrite list_elem_of_omap. split.
  - intros [H|([c|m] & Hm & [= <-])]; [by apply elem_of_nil in H|done].
  - intros H. right. by exists (Hole n).
Qed.

Section templates.
Context {W : Type} `{!Upstream W} (arguments : dict pyval).

(** The text put in for a hole *)
Definition filling (n : string) : string := quote (py_str repr (get_or_none arguments n)).

(** The template with every hole filled *)
Fixpoint rendered (toks : list token) : string :=
  match toks with
  | [] => ""
  | Lit c :: l => String c (rendered l)
  | Hole n :: l => filling n +:+ rendered l
  end.

Definition fill_among (names : list string) (t : token) : list token :=
  match t with
  | Hole m => if bool_decide (m ∈ names) then Lit <$> chars (filling m) else [t]
  | Lit _ => [t]
  end.

Lemma fill_among_lits names s : concat (fill_among names <$> (Lit <$> s)) = Lit <$> s.
Proof. induction s as [|c s IH]; [done|]. rewrite !fmap_cons. cbn [concat]. by rewrite IH. Qed.

Lemma filling_no_brace n : no_brace (filling n) = true.
Proof.
  unfold filling. pose proof (quote_chars (py_str repr (get_or_none arguments n))) as H.
  unfold no_brace, str_all in *. rewrite forallb_forall in *. intros c Hc. specialize (H c Hc).
  unfold quoted_char in H. destruct (is_brace c) eqn:E; [|done]. unfold is_brace in E.
  apply orb_true_iff in E as [->%bool_decide_eq_true| ->%bool_decide_eq_true]; by vm_compute in H.
Qed.

Lemma resolve_path_tokens names toks : Forall token_ok toks →
  (∀ n, n ∈ names → no_brace n = true ∧ get_or_none arguments n ≠ VNone) →
  resolve_path (flat toks) names arguments = Ok (flat (concat (fill_among names <$> toks))).
Proof.
  unfold resolve_path. revert toks. induction names as [|n names IH]; intros toks Hok Hn; cbn [foldl].
  - do 2 f_equal. clear Hok. induction toks as [|[c|m] toks IH]; [done| |]; rewrite fmap_cons; cbn [concat]; simpl; by rewrite <-IH.
  - destruct (Hn n) as [Hb Hv]; [left|].
    assert (str_replace ("{" +:+ n +:+ "}") (filling n) (flat toks) = flat (fill_tokens n (filling n) toks)) as Hr.
    { unfold str_replace. apply replace_flat; [done|done|lia]. }
    assert (fill_path arguments (Ok (flat toks)) n = Ok (flat (fill_tokens n (filling n) toks))) as ->.
    { unfold fill_path, obind. rewrite <-Hr. unfold filling. by destruct (get_or_none arguments n). }
    rewrite IH; [|by apply fill_tokens_ok; [apply filling_no_brace|]|by intros m Hm; apply Hn; right].
    do 2 f_equal; unfold fill_tokens; clear; induction toks as [|t toks IH]; [done|].
    rewrite !fmap_cons; cbn [concat]; rewrite fmap_app, concat_app, IH; f_equal.
    destruct t as [c|m]; simpl; [done|]; rewrite (bool_decide_ext (m ∈ n :: names) (m = n ∨ m ∈ names)) by apply elem_of_cons.
    destruct (str_eqbP m n) as [->|Hne]; [rewrite bool_decide_eq_true_2 by (by left); apply fill_among_lits|].
    simpl; rewrite app_nil_r; destruct (bool_decide_reflect (m ∈ names));
      [rewrite bool_decide_eq_true_2 by (by right)|rewrite bool_decide_eq_false_2 by tauto]; done.
Qed.

Lemma fill_all names toks : (∀ n, Hole n ∈ toks → n ∈ names) → flat (concat (fill_among names <$> toks)) = rendered toks.
Proof.
  induction toks as [|t toks IH]; intros Hn; [done|]. rewrite fmap_cons. cbn [concat]. rewrite flat_app, IH by set_solver.
  destruct t as [c|m]; simpl; [done|]. rewrite bool_decide_eq_true_2 by set_solver. by rewrite flat_lits.
Qed.

(** How often a character occurs *)
Definition occurs (c : ascii) (s : string) : nat := length (List.filter (λ x, bool_decide (x = c)) (chars s)).
Definition lit_occurs (c : ascii) (toks : list token) : nat :=
  length (List.filter (λ t, match t with Lit x => bool_decide (x = c) | Hole _ => false end) toks).

Lemma occurs_app c s t : occurs c (s +:+ t) = (occurs c s + occurs c t)%nat.
Proof. unfold occurs. by rewrite chars_app, List.filter_app, length_app. Qed.

Lemma filling_occurs c n : quoted_char c = false → occurs c (filling n) = 0%nat.
Proof.
  intros Hc. pose proof (quote_chars (py_str repr (get_or_none arguments n))) as H. unfold filling, occurs, str_all in *.
  rewrite forallb_forall in H. destruct (List.filter _ _) as [|x l] eqn:E; [done|]. exfalso.
  assert (x ∈ List.filter (λ x, bool_decide (x = c)) (chars (quote (py_str repr (get_or_none arguments n))))) as Hx by (rewrite E; left).
  apply elem_of_filterb in Hx as [->%bool_decide_eq_true Hx]. apply list_elem_of_In, H in Hx. congruence.
Qed.

Lemma rendered_occurs c toks : quoted_char c = false → occurs c (rendered toks) = lit_occurs c toks.
Proof.
  intros Hc. induction toks as [|[x|n] toks IH]; [done| |].
  - change (rendered (Lit x :: toks)) with (String x (rendered toks)).
    change (String x (rendered toks)) with (String x "" +:+ rendered toks). rewrite occurs_app, IH.
    unfold occurs, lit_occurs. simpl. by destruct (bool_decide (x = c)).
  - change (rendered (Hole n :: toks)) with (filling n +:+ rendered toks). by rewrite occurs_app, filling_occurs.
Qed.
End templates.

(** Path parameters are substituted once and cannot break out of their place.
    For a template of literal text and named holes, when every parameter has a
    value, the resolved path is the template with each hole replaced by the
    percent-encoded text of its value, in whatever order the names are visited;
    no value adds a slash, a question mark, a hash or any other reserved character
    to the path. *)
Theorem resolve_path_renders {W} `{!Upstream W} toks order arguments :
  Forall token_ok toks → order ≡ₚ path_argument_names (flat toks) →
  (∀ n, Hole n ∈ toks → get_or_none arguments n ≠ VNone) →
  resolve_path (flat toks) order arguments = Ok (rendered arguments toks) ∧
  ∀ c, quoted_char c = false → occurs c (rendered arguments toks) = lit_occurs c toks.
Proof.
  intros Hok Horder Hval. assert (∀ n, n ∈ order ↔ Hole n ∈ toks) as Hn.
  { intros n. by rewrite Horder, path_names_holes. }
  split; [|intros c Hc; by apply rendered_occurs].
  rewrite resolve_path_tokens; [by rewrite fill_all by (intros n; apply Hn)|done|].
  intros n Hin%Hn. split; [|by apply Hval]. rewrite Forall_forall in Hok. by apply (Hok _ Hin).
Qed.

(** ** Examples of paths *)

Section path_examples.
#[local] Existing Instance scripted.

Definition demo_template : list token :=
  (Lit <$> chars "/users/") ++ [Hole "id"] ++ (Lit <$> chars "/posts/") ++ [Hole "post"].
Definition demo_path_arguments : dict pyval := [("post", VInt 7); ("id", VStr "a/b?c")].

Lemma resolve_path_renders_witness :
  resolve_path "/users/{id}/posts/{post}" ["post"; "id"] demo_path_arguments = Ok "/users/a%2Fb%3Fc/posts/7".
Proof.
  assert (Forall token_ok demo_template) as Hok.
  { repeat (apply Forall_cons; split; [first [reflexivity | split; [discriminate|reflexivity]]|]). apply Forall_nil_2. }
  assert (["post"; "id"] ≡ₚ path_argument_names (flat demo_template)) as Hord by (vm_compute; constructor).
  assert (∀ n, Hole n ∈ demo_template → get_or_none demo_path_arguments n ≠ VNone) as Hval.
  { intros n Hn. apply path_names_holes in Hn; [|exact Hok]. assert (path_argument_names (flat demo_template) = ["id"; "post"]) as E
      by (vm_compute; reflexivity). rewrite E in Hn. apply elem_of_cons in Hn as [->|Hn]; [discriminate|].
    apply list_elem_of_singleton in Hn as ->. discriminate. }
  exact (proj1 (resolve_path_renders demo_template ["post"; "id"] demo_path_arguments Hok Hord Hval)).
Defined.

(** A value of two dots is a segment of its own: [.] is not escaped. *)
Example dot_segment_not_escaped :
  resolve_path "/users/{id}/posts" ["id"] [("id", VStr "..")] = Ok "/users/../posts".
Proof. vm_compute. reflexivity. Qed.

(** A system option that arrives under its own name goes into the body of a write. *)
Example odata_option_in_body op : op_method op = Some "POST" → op_body_param_name op = None → op_params op = [] →
  pp_json_body (prepare_odata_payload split_query_and_body op [("$select", VStr "Name"); ("Name", VStr "x")]) =
    Some (VDict [("$select", VStr "Name"); ("Name", VStr "x")]).
Proof. intros Hm Hb Hp. unfold prepare_odata_payload, split_query_and_body, is_write. by rewrite Hm, Hb, Hp. Qed.
End path_examples.

(** ** What a call may change

    [moves R m]: every run of [m] takes the state along [R].  A [frame] says that
    everything outside the proxy's own bookkeeping does: the writes of the token
    cache, the client and the webhook queues, the clocks, and whatever happens
    while a request, a lock or the closing of a response is awaited. *)

Create HintDb moves.

Section moves.
Context {W : Type} (R : relation (runtime W)) `{!PreOrder R}.
Definition moves {A} (m : comp (runtime W) exn A) : Prop := ∀ s, R s (m s).2.

Lemma moves_ret {A} (a : A) : moves (ret a).
Proof. by intros s. Qed.
Lemma moves_raise {A} e : moves (A:=A) (raise e).
Proof. by intros s. Qed.
Lemma moves_lift {A} (o : outcome exn A) : moves (lift_out o).
Proof. by intros s. Qed.
Lemma moves_gets {A} (f : runtime W → A) : moves (gets f).
Proof. by intros s. Qed.
Lemma moves_modify f : (∀ s, R s (f s)) → moves (modify f).
Proof. intros Hf s. apply Hf. Qed.
Lemma moves_bind {A B} (m : comp (runtime W) exn A) (k : A → comp (runtime W) exn B) :
  moves m → (∀ a, moves (k a)) → moves (bind m k).
Proof.
  intros Hm Hk s. unfold bind. specialize (Hm s). destruct (m s) as [[a|e] s']; simpl in *; [|done].
  etrans; [exact Hm|apply Hk].
Qed.
Lemma moves_catch {A} (m : comp (runtime W) exn A) h : moves m → (∀ e, moves (h e)) → moves (catch m h).
Proof.
  intros Hm Hk s. unfold catch. specialize (Hm s). destruct (m s) as [[a|e] s']; simpl in *; [done|].
  etrans; [exact Hm|apply Hk].
Qed.
Lemma moves_finally {A} (m : comp (runtime W) exn A) f : moves m → moves f → moves (finally m f).
Proof.
  intros Hm Hf s. unfold finally. specialize (Hm s). destruct (m s) as [o s']. simpl in *. specialize (Hf s').
  destruct (f s') as [[]]; simpl in *; by etrans.
Qed.
Lemma moves_in_world {A} (f : W → A * W) : (∀ s, R s (set_world (f (rt_world s)).2 s)) → moves (in_world f).
Proof. intros Hf s. unfold in_world. specialize (Hf s). by destruct (f (rt_world s)). Qed.
End moves.
#[export] Hint Resolve moves_ret moves_raise moves_lift moves_gets moves_bind moves_catch moves_finally : moves.

Record frame {W} `{!Upstream W} (R : relation (runtime W)) : Prop := {
  frame_pre : PreOrder R;
  frame_tokens t s : R s (set_tokens t s);
  frame_client c s : R s (set_client c s);
  frame_webhooks w s : R s (set_webhooks w s);
  frame_time s : R s (set_world (time_time (rt_world s)).2 s);
  frame_monotonic s : R s (set_world (time_monotonic (rt_world s)).2 s);
  frame_uuid s : R s (set_world (uuid4_hex (rt_world s)).2 s);
  frame_acquire : moves R acquire_lock;
  frame_release : moves R release_lock;
  frame_aclose r : moves R (aclose r);
  frame_request m u f k : moves R (client_request m u f k);
  frame_post u b h t : moves R (client_post_form u b h t);
}.
#[export] Hint Resolve frame_pre frame_acquire frame_release frame_aclose frame_request frame_post : moves.

(** A write of the proxy's own, or a look at a clock *)
Ltac own_step :=
  match goal with
  | HR : frame ?R |- _ =>
      intros; first [ apply (frame_tokens R HR) | apply (frame_client R HR) | apply (frame_webhooks R HR)
                    | apply (frame_time R HR) | apply (frame_monotonic R HR) | apply (frame_uuid R HR) ]
  end.

Ltac moves := repeat first [ progress eauto with moves | apply moves_bind; [eauto with moves| |intros]
  | apply moves_finally; [eauto with moves| |] | apply moves_catch; [eauto with moves| |intros]
  | apply moves_modify; own_step | apply moves_in_world; own_step | case_match ].

Section framed.
Context {W : Type} `{!Upstream W} (R : relation (runtime W)) (HR : frame R).

Lemma moves_get_client ir : moves R (get_client ir).
Proof. unfold get_client. moves. Qed.
Hint Resolve moves_get_client : moves.

Lemma moves_fetch ir oid o timeout : moves R (fetch_oauth2_access_token ir oid o timeout).
Proof. unfold fetch_oauth2_access_token, with_lock, refresh_token. moves. Qed.
Hint Resolve moves_fetch : moves.

Lemma moves_primary ir oid timeout : moves R (build_primary_auth ir oid timeout).
Proof. unfold build_primary_auth. destruct (ac_type (ir_auth ir)); moves. Qed.
Hint Resolve moves_primary : moves.

Lemma moves_signing oid m u q b sg : moves R (build_request_signing oid m u q b sg).
Proof. unfold build_request_signing, from_option_or. moves. Qed.
Hint Resolve moves_signing : moves.

Lemma moves_auth ir oid m u q b timeout : moves R (build_auth ir oid m u q b timeout).
Proof. unfold build_auth. moves. Qed.
Hint Resolve moves_auth : moves.

Lemma moves_poll_once ir oid url deadline timeout : moves R (poll_once ir oid url deadline timeout).
Proof. unfold poll_once. moves. Qed.
Hint Resolve moves_poll_once : moves.

Lemma moves_perform_request fuel ir timeout op args :
  (∀ d, moves R (sleep d)) → moves R (perform_request fuel ir timeout op args).
Proof.
  intros Hsleep. assert (∀ oid job url deadline, moves R (poll_loop fuel ir oid job url deadline timeout)) as Hloop.
  { intros oid job url deadline. induction fuel as [|fuel IH]; cbn [poll_loop]; moves. }
  unfold perform_request, poll_async_job, send_request. moves.
Qed.
End framed.
#[export] Hint Resolve moves_get_client moves_fetch moves_primary moves_signing moves_auth moves_poll_once : moves.

(** ** Polling ends *)

Section polling.
Context {W : Type} `{!Upstream W}.
Implicit Types s : runtime W.

(** Time passes only while the loop sleeps: [budget] counts the sleeps that may
    still happen before the clock is past the deadline. *)
Context (budget : W → nat).
Definition no_earlier : relation (runtime W) := λ s s', (budget (rt_world s') ≤ budget (rt_world s))%nat.
Context (Hframe : frame no_earlier).

Context (deadline : float) (Hdeadline : ∀ w, budget w = 0%nat → PrimFloat.ltb deadline (time_monotonic w).1 = true).
Context (Hsleep : ∀ d s, (budget (rt_world (sleep d s).2) ≤ budget (rt_world s) - 1)%nat).

(** C37. Polling ends.  If each sleep brings the clock nearer to the deadline, and
    no other call sets it back, the loop stops within one turn more than the sleeps
    that fit before the deadline: with an answer, or with an exception of one of
    its own calls, or because the deadline has passed. *)
Theorem poll_terminates ir oid job url timeout fuel s :
  (budget (rt_world s) < fuel)%nat → (poll_loop fuel ir oid job url deadline timeout s).1 ≠ Ok None.
Proof.
  revert s. induction fuel as [|fuel IH]; intros s Hs; [lia|]. cbn [poll_loop].
  unfold bind at 1. pose proof (Hdeadline (rt_world s)) as Hd. pose proof (frame_monotonic _ Hframe s) as Hm.
  unfold in_world. destruct (time_monotonic (rt_world s)) as [now w]. unfold no_earlier in Hm. simpl in Hd, Hm.
  destruct (PrimFloat.ltb deadline now); [done|].
  assert (budget (rt_world s) ≠ 0)%nat as Hpos by (intros H0; by discriminate (Hd H0)).
  unfold bind at 1. pose proof (moves_poll_once no_earlier Hframe ir oid url deadline timeout (set_world w s)) as Hp.
  destruct (poll_once _ _ _ _ _ _) as [[r|e] s1]; [|done]. unfold no_earlier in Hp. simpl in Hp.
  destruct (poll_verdict oid job r) as [[result|]|e]; [done| |].
  - unfold bind. pose proof (frame_aclose _ Hframe r s1) as Hc. destruct (aclose r s1) as [[[]|e] s2]; [|done].
    unfold no_earlier in Hc. simpl in Hc.
    pose proof (Hsleep (aj_poll_interval_seconds job) s2) as Hz.
    destruct (sleep (aj_poll_interval_seconds job) s2) as [[[]|e] s3]; [|done]. simpl in Hz. apply IH. lia.
  - unfold bind. by destruct (aclose r s1) as [[[]|e'] s2].
Qed.
End polling.

Definition demo_job : AsyncJobConfig :=
  mk_async_job [202] location_header None "status" ["running"] ["done"] ["failed"] 1 30.

Definition demo_slow_job : outcome exn (option response) :=
  (poll_loop (W:=script) (Upstream0:=scripted) 4 demo_ir "op" demo_job "http://api/jobs/1" 30 10
     (fresh_runtime (replicate 5 (Ok (mk_response 202 [] "" "" None None))))).1.

Lemma poll_terminates_witness : demo_slow_job ≠ Ok None ∧ demo_slow_job = Raise (timed_out "op").
Proof.
  split; [|vm_compute; reflexivity].
  apply (poll_terminates (Upstream0:=scripted) sc_sleeps).
  - split; try (by intros; unfold no_earlier); [split; [intros x; unfold no_earlier; lia|intros x y z; unfold no_earlier; lia]|..].
    all: intros; intros s1; unfold no_earlier; simpl; unfold next_answer; by destruct (sc_answers (rt_world s1)).
  - intros w Hw. simpl. by rewrite Hw.
  - by intros d s'.
  - simpl. lia.
Defined.

(** ** What a polled job returns *)

Section poll_results.
Context {W : Type} `{!Upstream W}.
Implicit Types s : runtime W.

(** An answer that ends the loop: a success state, or no state of the job at all. *)
Definition terminal (job : AsyncJobConfig) (r : response) : Prop :=
  ∃ status, _extract_async_status_value job r = Ok status ∧
    (in_states status (aj_success_status_values job) = true ∨
     in_states status (aj_failure_status_values job) = false ∧ in_states status (aj_pending_status_values job) = false ∧
     rsp_status r ∉ aj_initial_status_codes job).

Lemma poll_verdict_result oid job r result : poll_verdict oid job r = Ok (Some result) → result = r ∧ terminal job r.
Proof.
  unfold poll_verdict, terminal. destruct (_extract_async_status_value job r) as [status|e]; [|done].
  destruct (in_states status (aj_success_status_values job)) eqn:Es; [intros [= <-]; split; [done|]; exists status; auto|].
  destruct (in_states status (aj_failure_status_values job)) eqn:Ef; [done|].
  case_bool_decide as Hc; [done|]. destruct (in_states status (aj_pending_status_values job)) eqn:Ep; [done|].
  intros [= <-]. split; [done|]. exists status. auto 6.
Qed.

Lemma poll_loop_result fuel ir oid job url deadline timeout s result s' :
  poll_loop fuel ir oid job url deadline timeout s = (Ok (Some result), s') → terminal job result.
Proof.
  revert s. induction fuel as [|fuel IH]; intros s; [done|]. cbn [poll_loop].
  unfold bind at 1, in_world. destruct (time_monotonic (rt_world s)) as [now w]. destruct (PrimFloat.ltb deadline now); [done|].
  unfold bind at 1. destruct (poll_once _ _ _ _ _ _) as [[r|e] s1]; [|done].
  destruct (poll_verdict oid job r) as [[res|]|e] eqn:Ev.
  - intros [= <- _]. by apply poll_verdict_result in Ev as [-> ?].
  - unfold bind. destruct (aclose r s1) as [[[]|e] s2]; [|done].
    destruct (sleep _ s2) as [[[]|e] s3]; [|done]. apply IH.
  - unfold bind. by destruct (aclose r s1) as [[[]|e'] s2].
Qed.

Lemma status_url_origin job r url request_url :
  rsp_request_url r = Some request_url → request_url ≠ "" →
  _extract_async_status_url job r = Ok (Some url) →
  ∃ a b, urlsplit request_url = Ok a ∧ urlsplit url = Ok b ∧ scheme a = scheme b ∧ netloc a = netloc b.
Proof.
  intros Hreq Hne. assert (∀ target, resolve_status_url r target = Ok (Some url) → ∃ a b, urlsplit request_url = Ok a ∧
    urlsplit url = Ok b ∧ scheme a = scheme b ∧ netloc a = netloc b) as Hres.
  { intros target. unfold resolve_status_url. rewrite Hreq. simpl default.
    replace (str_truthy request_url) with true by (by destruct request_url). unfold _is_same_origin, obind.
    destruct (urlsplit request_url) as [a|] eqn:Ea; [|done]. destruct (urlsplit (urljoin request_url target)) as [b|] eqn:Eb; [|done].
    destruct (str_eqbP (scheme a) (scheme b)), (str_eqbP (netloc a) (netloc b)); try done. intros [= <-]. by exists a, b. }
  unfold _extract_async_status_url, obind. destruct (aj_status_url_source job).
  - by destruct (str_truthy _); [apply Hres|].
  - destruct (_maybe_parse_json_payload r) as [[p|]|]; try done. destruct (aj_status_url_field job); [|done].
    destruct (_extract_nested_value p _) as [[]|]; try done. by destruct (str_truthy _); [apply Hres|].
Qed.
End poll_results.

(** What an asynchronous job returns.  A response whose status is not one of
    the job's initial codes is returned as it is.  Otherwise the answer returned is
    one that ended the job: it reports a success state, or no pending or failed
    state and no initial code.  The URL polled is the one the first response named,
    and has the scheme and the host of the request. *)
Theorem poll_async_job_result {W} `{!Upstream W} fuel ir oid r job timeout (s s' : runtime W) result request_url :
  rsp_request_url r = Some request_url → request_url ≠ "" →
  poll_async_job fuel ir oid r job timeout s = (Ok (Some result), s') →
  if bool_decide (rsp_status r ∈ aj_initial_status_codes job) then
    terminal job result ∧ ∃ url a b, _extract_async_status_url job r = Ok (Some url) ∧
      urlsplit request_url = Ok a ∧ urlsplit url = Ok b ∧ scheme a = scheme b ∧ netloc a = netloc b
  else result = r ∧ s' = s.
Proof.
  intros Hreq Hne. unfold poll_async_job. case_bool_decide; simpl; [|by intros [= -> ->]].
  destruct (_extract_async_status_url job r) as [[url|]|e] eqn:Eu; simpl.
  - destruct (str_truthy url); simpl; [|unfold bind; by destruct (aclose r s) as [[]]].
    unfold bind at 1. destruct (aclose r s) as [[[]|e] s1]; [|done]. unfold bind at 1, in_world.
    destruct (time_monotonic (rt_world s1)) as [start w]. intros Hloop%poll_loop_result. split; [done|].
    destruct (status_url_origin job r url request_url Hreq Hne Eu) as (a & b & ?). by exists url, a, b.
  - unfold bind. by destruct (aclose r s) as [[]].
  - destruct (exn_is _ e); [|done]. unfold bind. by destruct (aclose r s) as [[]].
Qed.

Section request_examples.
#[local] Existing Instance scripted.

Definition demo_http_op : Operation :=
  mk_operation "createPet" "createPet" "" (Some "post") (Some "/pets") [] None (mk_error_schema [] None) [] (demo_risk safe)
    (mk_strategy None None None None trunc_none) body_json (Some "pet") (Some demo_job) None None None None None None None
    [] None src_extractor 1 None true.


Definition job_answer (status : Z) (state : string) : response :=
  mk_response status [("content-type", "application/json")] "" "" (Some (VDict [("status", VStr state)])) None.
Definition kickoff : response :=
  mk_response 202 [("location", "https://api/jobs/1")] "" "" None (Some "https://api/start").
Definition demo_polling : runtime script := fresh_runtime [Ok (job_answer 200 "RUNNING"); Ok (job_answer 200 "Done")].

Lemma poll_async_job_result_witness : terminal demo_job (job_answer 200 "Done").
Proof.
  assert (rsp_request_url kickoff = Some "https://api/start") as Hreq by reflexivity.
  assert ("https://api/start" ≠ "") as Hne by discriminate.
  set (run := poll_async_job 3 demo_ir "op" kickoff demo_job 10 demo_polling).
  assert (poll_async_job 3 demo_ir "op" kickoff demo_job 10 demo_polling = (Ok (Some (job_answer 200 "Done")), run.2)) as Hrun
    by (vm_compute; reflexivity).
  pose proof (poll_async_job_result 3 demo_ir "op" kickoff demo_job 10%float demo_polling run.2 (job_answer 200 "Done")
    "https://api/start" Hreq Hne Hrun) as H.
  rewrite bool_decide_eq_true_2 in H by (simpl; left). exact (proj1 H).
Defined.
End request_examples.
