(* ===== verification/RuntimeSql.v ===== *)
(** * Native SQL execution ([apps/mcp_runtime/sql.py])

    An operation's arguments become one statement on one reflected table.  The
    statement is data; SQLAlchemy and the database run it.  Values a driver
    returns beyond JSON's types are converted by the engine's side. *)

From S2P Require Export RuntimeRequest.
From Stdlib Require Import Ascii.

(** What [_reflect_table] finds *)
Record table := mk_table { tb_columns : list string; tb_primary_key : list string }.

Inductive condition := Equals (column : string) (value : pyval) | Among (column : string) (values : list pyval).
Definition condition_column (c : condition) : string := match c with Equals n _ | Among n _ => n end.

Inductive statement :=
| Select (conditions : list condition) (limit : Z)
| Insert (values : dict pyval) (returning : list string)
| Update (values : dict pyval) (conditions : list condition)
| Delete (conditions : list condition).

(** What is read of a SQLAlchemy result *)
Record sql_result := mk_result { sr_rows : list (dict pyval); sr_first : option (list pyval); sr_rowcount : option Z }.

(** The engine: reflection and execution in a transaction of their own *)
Class SqlEngine (W : Type) := {
  reflect_table : SqlOperationConfig → comp (runtime W) exn table;
  execute : SqlOperationConfig → statement → comp (runtime W) exn sql_result;
}.

Definition overflow_error : exn := mk_exn "OverflowError" "cannot convert float infinity to integer" [].

(** [_resolve_limit] *)
Definition _resolve_limit (raw_limit : pyval) (default_limit max_limit : Z) (operation_id : string) : outcome exn Z :=
  let refuse := Raise (tool_error ("SQL query operation " +:+ operation_id +:+ " requires an integer limit.")) in
  let accept (limit : Z) : outcome exn Z :=
    if limit <=? 0 then Raise (tool_error ("SQL query operation " +:+ operation_id +:+ " requires limit > 0."))
    else Ok (Z.min limit max_limit) in
  match raw_limit with
  | VNone => Ok default_limit
  | VBool _ => refuse
  | VInt z => accept z
  | VFloat f => match int_of_float f with
                | Some z => accept z
                | None => if PrimFloat.eqb f f then Raise overflow_error else refuse
                end
  | VStr s => match int_of_text s with Some z => accept z | None => refuse end
  | VList _ | VDict _ => refuse
  end.

(** [_required_primary_key_values] *)
Definition add_key (operation_id : string) (arguments : dict pyval) (acc : outcome exn (dict pyval)) (column : string)
    : outcome exn (dict pyval) :=
  obind acc (λ values,
    match get_or_none arguments column with
    | VNone => Raise (tool_error ("SQL operation " +:+ operation_id +:+ " requires primary key parameter " +:+ column +:+ "."))
    | v => Ok (dict_set values column v)
    end).
Definition _required_primary_key_values (operation_id : string) (arguments : dict pyval) (primary_key_columns : list string)
    : outcome exn (dict pyval) :=
  foldl (add_key operation_id arguments) (Ok []) primary_key_columns.

(** [{c: arguments[c] for c in columns if keep(c)}] *)
Definition pick (columns : list string) (arguments : dict pyval) (nulls : bool) : dict pyval :=
  foldl (λ acc c, match dict_get arguments c with
                  | Some VNone => if nulls then dict_set acc c VNone else acc
                  | Some v => dict_set acc c v
                  | None => acc
                  end) [] columns.

(** The [where] clauses of a primary key *)
Fixpoint key_conditions (action operation_id : string) (t : table) (values : dict pyval) : outcome exn (list condition) :=
  match values with
  | [] => Ok []
  | (c, v) :: rest =>
      if bool_decide (c ∈ tb_columns t) then obind (key_conditions action operation_id t rest) (λ l, Ok (Equals c v :: l))
      else Raise (tool_error ("SQL " +:+ action +:+ " operation " +:+ operation_id +:+ " references unknown column " +:+ c +:+ "."))
  end.

(** The [where] clauses of a query *)
Fixpoint query_conditions (operation_id : string) (config : SqlOperationConfig) (t : table) (arguments : dict pyval)
    (columns : list string) : outcome exn (list condition) :=
  match columns with
  | [] => Ok []
  | c :: rest =>
      match get_or_none arguments c with
      | VNone => query_conditions operation_id config t arguments rest
      | v =>
          if bool_decide (c ∈ tb_columns t) then
            match v with
            | VDict _ => Raise (tool_error ("SQL query operation " +:+ operation_id +:+ " does not support object filter values."))
            | VList l => obind (query_conditions operation_id config t arguments rest) (λ cs, Ok (Among c l :: cs))
            | _ => obind (query_conditions operation_id config t arguments rest) (λ cs, Ok (Equals c v :: cs))
            end
          else Raise (tool_error ("SQL query operation " +:+ operation_id +:+ " requested filter column '" +:+ c
                                  +:+ "' that is not present in relation " +:+ sq_relation_name config +:+ "."))
      end
  end.

(** The statement an operation runs, before anything is executed *)
Definition statement_of (op : Operation) (config : SqlOperationConfig) (t : table) (arguments : dict pyval) : outcome exn statement :=
  match sq_action config with
  | sql_query =>
      obind (_resolve_limit (get_or_none arguments "limit") (sq_default_limit config) (sq_max_limit config) (op_id op)) (λ limit,
      obind (query_conditions (op_id op) config t arguments (sq_filterable_columns config)) (λ cs, Ok (Select cs limit)))
  | sql_insert =>
      match pick (sq_insertable_columns config) arguments true with
      | [] => Raise (tool_error ("SQL insert operation " +:+ op_id op +:+ " requires at least one insertable value."))
      | values => Ok (Insert values (tb_primary_key t))
      end
  | sql_update =>
      obind (_required_primary_key_values (op_id op) arguments (sq_primary_key_columns config)) (λ keys,
      match pick (sq_updatable_columns config) arguments false with
      | [] => Raise (tool_error ("SQL update operation " +:+ op_id op +:+ " requires at least one updatable value."))
      | values => obind (key_conditions "update" (op_id op) t keys) (λ cs, Ok (Update values cs))
      end)
  | sql_delete =>
      obind (_required_primary_key_values (op_id op) arguments (sq_primary_key_columns config)) (λ keys,
      obind (key_conditions "delete" (op_id op) t keys) (λ cs, Ok (Delete cs)))
  end.

(** [_json_safe_row], on JSON's types *)
Definition _json_safe_row (row : dict pyval) : dict pyval := (λ kv, (kv.1, sanitize_json_floats kv.2)) <$> row.

(** [result.rowcount if it is known and not negative else fallback] *)
Definition row_count (fallback : Z) (r : sql_result) : Z :=
  match sr_rowcount r with Some n => if 0 <=? n then n else fallback | None => fallback end.

Definition sql_answer (op : Operation) (config : SqlOperationConfig) (arguments : dict pyval) (st : statement) (r : sql_result) : dict pyval :=
  let head := [("relation", VStr (sq_relation_name config)); ("action", VStr (sql_action_value (sq_action config)))] in
  let keys := match _required_primary_key_values (op_id op) arguments (sq_primary_key_columns config) with
              | Ok k => _json_safe_row k | Raise _ => [] end in
  match st with
  | Select _ limit =>
      head ++ [("limit", VInt limit); ("row_count", VInt (Z.of_nat (length (sr_rows r))));
               ("rows", VList ((λ row, VDict (_json_safe_row row)) <$> sr_rows r))]
  | Insert _ returning =>
      head ++ [("row_count", VInt (row_count 1 r));
               ("inserted_primary_key",
                match returning, sr_first r with
                | _ :: _, Some row => VList (sanitize_json_floats <$> row)
                | _, _ => VNone
                end)]
  | Update _ _ => head ++ [("row_count", VInt (row_count 0 r)); ("updated_primary_key", VDict keys)]
  | Delete _ => head ++ [("row_count", VInt (row_count 0 r)); ("deleted_primary_key", VDict keys)]
  end.

(** [SQLRuntimeExecutor.invoke]: the table, the statement, the execution, the answer.
    The reflected table is cached; [reflect_table] stands for [_get_table]. *)
Definition sql_invoke {W} `{!SqlEngine W} (op : Operation) (arguments : dict pyval) (config : SqlOperationConfig)
    : comp (runtime W) exn (dict pyval) :=
  t <- reflect_table config ;;
  st <- lift_out (statement_of op config t arguments) ;;
  r <- execute config st ;;
  ret (sql_answer op config arguments st r).

(** [s.replace(old, new, 1)] when [s] starts with [old] *)
Definition replace_prefix (old new s : string) : string := new +:+ drop_str (String.length old) s.

(** [_to_async_database_url] *)
Definition _to_async_database_url (url : string) : outcome exn string :=
  if startswith "postgresql+asyncpg://" url then Ok url
  else if startswith "postgresql+psycopg2://" url then Ok (replace_prefix "postgresql+psycopg2://" "postgresql+asyncpg://" url)
  else if startswith "postgresql://" url then Ok (replace_prefix "postgresql://" "postgresql+asyncpg://" url)
  else if startswith "postgres://" url then Ok (replace_prefix "postgres://" "postgresql+asyncpg://" url)
  else if startswith "sqlite+aiosqlite://" url then Ok url
  else if startswith "sqlite://" url then Ok (replace_prefix "sqlite://" "sqlite+aiosqlite://" url)
  else Raise (tool_error ("Unsupported SQL database URL: " +:+ url)).

(** ** Statements are bounded by the operation's contract *)

Lemma foldl_raise {A B} (f : outcome exn A → B → outcome exn A) e l :
  (∀ b, f (Raise e) b = Raise e) → foldl f (Raise e) l = Raise e.
Proof. intros Hf. induction l as [|b l IH]; simpl; [done|]. by rewrite Hf. Qed.

#[export] Instance is_none_dec (v : pyval) : Decision (v = VNone).
Proof. destruct v; by (left; done) || (right; done). Defined.

Lemma required_keys oid args cols acc values :
  foldl (add_key oid args) (Ok acc) cols = Ok values →
  (∀ c, c ∈ cols → ∃ v, dict_get values c = Some v ∧ get_or_none args c = v ∧ v ≠ VNone) ∧
  (∀ c v, dict_get acc c = Some v → c ∉ cols → dict_get values c = Some v).
Proof.
  revert acc. induction cols as [|c cols IH]; intros acc; simpl.
  { intros [= ->]. split; [by intros c ?%elem_of_nil|done]. }
  intros H. destruct (decide (get_or_none args c = VNone)) as [Hn|Hn].
  { rewrite Hn in H. by rewrite foldl_raise in H. }
  assert (foldl (add_key oid args) (Ok (dict_set acc c (get_or_none args c))) cols = Ok values) as H'
    by (destruct (get_or_none args c); done).
  apply IH in H' as [H1 H2]. split.
  - intros c' [->|Hc']%elem_of_cons; [|by apply H1]. destruct (decide (c ∈ cols)); [by apply H1|].
    exists (get_or_none args c). split_and!; [|done..]. apply H2; [apply dict_get_set_eq|done].
  - intros c' v Hv [Hne Hnot]%not_elem_of_cons. apply H2; [|done]. by rewrite dict_get_set_ne.
Qed.

Lemma key_conditions_ok action oid t values cs :
  key_conditions action oid t values = Ok cs →
  cs = (λ kv, Equals kv.1 kv.2) <$> values ∧ Forall (λ c, condition_column c ∈ tb_columns t) cs.
Proof.
  revert cs. induction values as [|[c v] values IH]; simpl; [by intros ? [= <-]|]. intros cs.
  case_bool_decide as Hc; [|done]. intros (l & Hl & [= <-])%obind_ok. apply IH in Hl as [-> Hl].
  split; [done|]. by constructor.
Qed.

Lemma query_conditions_ok oid config t args cols cs :
  query_conditions oid config t args cols = Ok cs →
  Forall (λ c, condition_column c ∈ cols ∧ condition_column c ∈ tb_columns t) cs.
Proof.
  revert cs. induction cols as [|c cols IH]; simpl; [intros ? [= <-]; constructor|]. intros cs.
  assert (∀ l, Forall (λ d, condition_column d ∈ cols ∧ condition_column d ∈ tb_columns t) l →
    Forall (λ d, condition_column d ∈ c :: cols ∧ condition_column d ∈ tb_columns t) l) as Hmono.
  { intros l Hl. eapply Forall_impl; [exact Hl|]. intros d [? ?]. split; [by right|done]. }
  destruct (get_or_none args c); [intros H; by apply Hmono, IH|..].
  all: destruct (bool_decide_reflect (c ∈ tb_columns t)); [|done]; try done.
  all: intros (cs' & Hl%IH & [= <-])%obind_ok; constructor; [split; [left|done]|by apply Hmono].
Qed.

Lemma pick_keys cols args nulls k v : dict_get (pick cols args nulls) k = Some v → k ∈ cols ∧ dict_get args k = Some v.
Proof.
  unfold pick. revert k v. apply (foldl_keeps (λ acc, ∀ k v, dict_get acc k = Some v → k ∈ cols ∧ dict_get args k = Some v)); [done|].
  intros acc c Hc Hacc k v. destruct (dict_get args c) as [w|] eqn:Ew; [|apply Hacc].
  assert (dict_get (dict_set acc c w) k = Some v → k ∈ cols ∧ dict_get args k = Some v) as Hset.
  { rewrite dict_get_set. case_eqb; [intros [= <-]; done|apply Hacc]. }
  destruct w; try done. destruct nulls; [done|apply Hacc].
Qed.

(** A complete key: one equality per primary-key column, with the argument's value *)
Definition keyed (config : SqlOperationConfig) (arguments : dict pyval) (cs : list condition) : Prop :=
  cs ≠ [] ∧ ∀ c, c ∈ sq_primary_key_columns config →
    ∃ v, Equals c v ∈ cs ∧ dict_get arguments c = Some v ∧ v ≠ VNone.

(** What a statement may do under a contract *)
Definition within (config : SqlOperationConfig) (t : table) (arguments : dict pyval) (st : statement) : Prop :=
  match st with
  | Select cs limit =>
      sq_action config = sql_query ∧ 0 < limit ≤ sq_max_limit config ∧
      Forall (λ c, condition_column c ∈ sq_filterable_columns config ∧ condition_column c ∈ tb_columns t) cs
  | Insert values _ =>
      sq_action config = sql_insert ∧ values ≠ [] ∧ ∀ k v, dict_get values k = Some v →
        k ∈ sq_insertable_columns config ∧ dict_get arguments k = Some v
  | Update values cs =>
      sq_action config = sql_update ∧ values ≠ [] ∧ keyed config arguments cs ∧
      (∀ k v, dict_get values k = Some v → k ∈ sq_updatable_columns config ∧ dict_get arguments k = Some v)
  | Delete cs => sq_action config = sql_delete ∧ keyed config arguments cs
  end.

Lemma raise_first_in l b m : raise_first l = Ok tt → (b, m) ∈ l → b = false.
Proof. intros H%raise_first_ok Hin. rewrite Forall_forall in H. apply (H _ Hin). Qed.

Lemma resolve_limit_bounds raw d m oid limit :
  0 < d ≤ m → 0 < m → _resolve_limit raw d m oid = Ok limit → 0 < limit ≤ m.
Proof.
  intros Hd Hm. unfold _resolve_limit.
  assert (∀ z (e : exn), (if z <=? 0 then Raise e else Ok (Z.min z m)) = Ok limit → 0 < limit ≤ m) as Hz.
  { intros z e. destruct (Z.leb_spec z 0); [done|]. intros [= <-]. lia. }
  destruct raw as [| |z|f|s| |]; try done; [by intros [= <-]|apply Hz| |].
  - destruct (int_of_float f); [apply Hz|by destruct (PrimFloat.eqb f f)].
  - destruct (int_of_text s); [apply Hz|done].
Qed.

Lemma keys_complete op config t args keys cs action :
  sq_primary_key_columns config ≠ [] →
  _required_primary_key_values (op_id op) args (sq_primary_key_columns config) = Ok keys →
  key_conditions action (op_id op) t keys = Ok cs → keyed config args cs.
Proof.
  intros Hne [Hk _]%required_keys [-> _]%key_conditions_ok.
  assert (∀ c, c ∈ sq_primary_key_columns config → ∃ v, Equals c v ∈ ((λ kv, Equals kv.1 kv.2) <$> keys) ∧
    dict_get args c = Some v ∧ v ≠ VNone) as Hall.
  { intros c (v & Hv & Ha & Hn)%Hk. exists v. split_and!; [|unfold get_or_none in Ha; destruct (dict_get args c); simpl in Ha; congruence|done].
    apply list_elem_of_fmap. exists (c, v). split; [done|]. by apply dict_get_Some_elem. }
  split; [|done]. destruct (sq_primary_key_columns config) as [|c cols]; [done|].
  destruct (Hall c) as (v & Hv & _); [left|]. by intros Heq; rewrite Heq in Hv; apply elem_of_nil in Hv.
Qed.

(** A native SQL tool stays inside its contract.  For every contract the
    validators accept, every statement built from any arguments has the contract's
    kind; a query is limited to between one row and the maximum and filters on
    declared, existing columns only; an insert or update writes declared columns
    only, with the caller's values; and an update or delete is always pinned by an
    equality on every primary-key column with a non-null argument, never on the
    whole table. *)
Theorem sql_statement_within_contract op config t arguments st :
  validate_SqlOperationConfig config = Ok tt → statement_of op config t arguments = Ok st →
  within config t arguments st.
Proof.
  unfold validate_SqlOperationConfig, build. destruct (_ && _) eqn:Ef; [|done]. intros Hcoh.
  rewrite !andb_true_iff, !Z.ltb_lt in Ef. destruct Ef as [[_ Hdef] Hmax].
  assert (∀ b m, (b, m) ∈ _ → b = false) as Hc by (intros b m; apply (raise_first_in _ b m Hcoh)).
  clear Hcoh. unfold statement_of. destruct (sq_action config) eqn:Ea.
  - intros (limit & Hl & (cs & Hcs & [= <-])%obind_ok)%obind_ok. simpl. split; [done|].
    assert ((sq_max_limit config <? sq_default_limit config) = false) as Hle.
    { eapply Hc. left. }
    apply Z.ltb_ge in Hle.
    split; [eapply resolve_limit_bounds; [|done|exact Hl]; lia|by eapply query_conditions_ok].
  - destruct (pick (sq_insertable_columns config) arguments true) as [|kv values] eqn:Ep; [done|]. intros [= <-].
    split_and!; [done|done|]. intros k v Hv. rewrite <-Ep in Hv. by apply pick_keys in Hv.
  - intros (keys & Hk & Hst)%obind_ok.
    destruct (pick (sq_updatable_columns config) arguments false) as [|kv values] eqn:Ep; [done|].
    apply obind_ok in Hst as (cs & Hcs & [= <-]). split_and!; [done|done| |].
    + eapply keys_complete; [|done..]. assert (no_items (sq_primary_key_columns config) = false) as Hn
        by (eapply Hc; right; right; left). by intros Hnil; rewrite Hnil in Hn.
    + intros k v Hv. rewrite <-Ep in Hv. by apply pick_keys in Hv.
  - intros (keys & Hk & (cs & Hcs & [= <-])%obind_ok)%obind_ok. split; [done|].
    eapply keys_complete; [|done..]. assert (no_items (sq_primary_key_columns config) = false) as Hn
      by (eapply Hc; right; right; left). by intros Hnil; rewrite Hnil in Hn.
Qed.

Definition demo_delete : SqlOperationConfig :=
  mk_sql "public" "pets" sql_table sql_delete [] [] [] ["tenant"; "id"] 50 200.

Lemma sql_statement_within_contract_witness :
  within demo_delete (mk_table ["id"; "tenant"; "name"] ["id"]) [("id", VInt 4); ("tenant", VStr "t")]
    (Delete [Equals "tenant" (VStr "t"); Equals "id" (VInt 4)]).
Proof.
  assert (validate_SqlOperationConfig demo_delete = Ok tt) as Hv by (vm_compute; reflexivity).
  apply (sql_statement_within_contract demo_http_op demo_delete (mk_table ["id"; "tenant"; "name"] ["id"])
           [("id", VInt 4); ("tenant", VStr "t")] _ Hv).
  vm_compute. reflexivity.
Defined.
