(* ===== verification/RuntimeStreams.v ===== *)
(** * Streaming calls ([apps/mcp_runtime/proxy_streaming.py])

    The choice of a stream descriptor, and the collection of a bounded number of
    server-sent events, websocket messages or gRPC messages.  What arrives on a
    connection is a list of occurrences: lines or messages, then what ended it. *)

From S2P Require Export RuntimeRequest.
From Stdlib Require Import Ascii.

Definition _STREAM_MESSAGE_PARAM_NAMES : list string := ["messages"; "payload"; "body"; "data"].
Definition _DEFAULT_STREAM_IDLE_TIMEOUT_SECONDS : float := 15%float.

(** ** Descriptors *)

Definition for_operation (op : Operation) (d : EventDescriptor) : bool := bool_decide (ed_operation_id d = Some (op_id op)).
Definition is_supported (d : EventDescriptor) : bool := match ed_support d with supported => true | _ => false end.

Definition dedup_sorted (l : list string) : list string :=
  foldr (λ s acc, match acc with x :: _ => if str_eqb s x then acc else s :: acc | [] => [s] end) [] (sorted_strings l).

(** [stream_descriptor_for_operation] *)
Definition stream_descriptor_for_operation (op : Operation) (descriptors : list EventDescriptor)
    : outcome exn (option EventDescriptor) :=
  match List.filter (for_operation op) descriptors with
  | [] => Ok None
  | ds =>
      match List.filter is_supported ds with
      | _ :: _ :: _ =>
          Raise (tool_error ("Operation " +:+ op_id op +:+ " has multiple streaming descriptors and cannot be invoked unambiguously."))
      | [] =>
          Raise (tool_error ("Streaming transport(s) " +:+ join ", " (dedup_sorted ((λ d, transport_value (ed_transport d)) <$> ds))
                             +:+ " for operation " +:+ op_id op +:+ " are declared but not enabled."))
      | [d] =>
          match ed_transport d with
          | grpc_stream_transport =>
              match ed_grpc_stream d with
              | None => Raise (tool_error ("Native grpc_stream transport for operation " +:+ op_id op
                                           +:+ " is missing grpc_stream runtime configuration."))
              | Some _ => Ok (Some d)
              end
          | sse | websocket => Ok (Some d)
          | t => Raise (tool_error ("Streaming transport " +:+ transport_value t +:+ " for operation " +:+ op_id op
                                    +:+ " is not supported by the runtime."))
          end
      end
  end.

(** [_descriptor_positive_int]: the value itself, which may be [True] *)
Definition _descriptor_positive_int (d : EventDescriptor) (key : string) (default_value : Z) : pyval :=
  match dict_get (ed_metadata d) key with
  | Some v => match as_int v with Some n => if 0 <? n then v else VInt default_value | None => VInt default_value end
  | None => VInt default_value
  end.

(** The number such a value compares as *)
Definition as_count (v : pyval) : Z := default 0 (as_int v).

(** [_descriptor_positive_float]; [float] of a huge integer overflows *)
Definition _descriptor_positive_float (d : EventDescriptor) (key : string) (default_value : float) : outcome exn float :=
  match dict_get (ed_metadata d) key with
  | Some (VInt _ as v) | Some (VBool _ as v) | Some (VFloat _ as v) =>
      match as_float v with
      | Some f => Ok (if PrimFloat.ltb 0 f then f else default_value)
      | None => Raise (mk_exn "OverflowError" "int too large to convert to float" [])
      end
  | _ => Ok default_value
  end.

(** ** Server-sent events *)

Section payloads.
(** [json.loads]; [None] when it raises *)
Context (json_loads : string → option pyval).

(** [_parse_stream_payload]: [None] when the text itself is returned *)
Definition _parse_stream_payload (payload : string) : option pyval :=
  match strip payload with
  | String c _ as stripped =>
      if bool_decide (c ∈ ["{"%char; "["%char]) then sanitize_json_floats <$> json_loads stripped else None
  | EmptyString => None
  end.

(** [_build_sse_event] *)
Definition _build_sse_event (event_type : string) (data_lines : list string) (event_id : option string) : option (dict pyval) :=
  match data_lines, event_id with
  | [], None => None
  | _, _ =>
      let payload := join newline data_lines in
      Some ([("event", VStr event_type); ("data", VStr payload)]
            ++ (match event_id with Some i => [("id", VStr i)] | None => [] end)
            ++ (match _parse_stream_payload payload with Some v => [("parsed_data", v)] | None => [] end))
  end.

(** The fields of the event being read *)
Record sse_state := mk_sse { ss_type : string; ss_data : list string; ss_id : option string }.
Definition sse_start : sse_state := mk_sse "message" [] None.

(** [line.partition(":")[2]] without one leading space *)
Definition field_value (line : string) : string :=
  let raw := match split_first ":"%char line with Some (_, r) => r | None => "" end in
  match raw with String " "%char r => r | _ => raw end.

(** A line that is not empty *)
Definition sse_line (st : sse_state) (line : string) : sse_state :=
  if startswith ":" line then st
  else if startswith "event:" line then mk_sse (str_or (field_value line) "message") (ss_data st) (ss_id st)
  else if startswith "data:" line then mk_sse (ss_type st) (ss_data st ++ [field_value line]) (ss_id st)
  else if startswith "id:" line then mk_sse (ss_type st) (ss_data st) (Some (field_value line))
  else st.

Definition sse_event (st : sse_state) : option (dict pyval) := _build_sse_event (ss_type st) (ss_data st) (ss_id st).

(** How a stream of lines ends *)
Inductive stream_end := EndOfStream | IdleTimeout | ConnectionError.

(** [_collect_sse_events] *)
Fixpoint collect_sse (max_events : Z) (st : sse_state) (events : list (dict pyval)) (lines : list string) (fin : stream_end)
    : list (dict pyval) * string :=
  let finish :=
    match sse_event st with
    | Some e =>
        if Z.of_nat (length events) <? max_events then
          (events ++ [e], if max_events <=? Z.of_nat (length (events ++ [e])) then "max_events" else "eof")
        else (events, "eof")
    | None => (events, "eof")
    end in
  if max_events <=? Z.of_nat (length events) then finish
  else
    match lines with
    | [] =>
        match fin with
        | EndOfStream => finish
        | IdleTimeout => (events, "idle_timeout")
        | ConnectionError => (events, "connection_error")
        end
    | line :: rest =>
        if str_eqb line "" then
          match sse_event st with
          | Some e =>
              if max_events <=? Z.of_nat (length (events ++ [e])) then (events ++ [e], "max_events")
              else collect_sse max_events sse_start (events ++ [e]) rest fin
          | None => collect_sse max_events sse_start events rest fin
          end
        else collect_sse max_events (sse_line st line) events rest fin
    end.
Definition _collect_sse_events (max_events : Z) (lines : list string) (fin : stream_end) : list (dict pyval) * string :=
  collect_sse max_events sse_start [] lines fin.

(** ** Websocket messages *)

Context (b64encode : string → string).

Inductive message := TextMessage (s : string) | BytesMessage (s : string).
Inductive socket_end := SocketIdle | SocketClosed.

Definition message_event (m : message) : dict pyval :=
  match m with
  | BytesMessage s => [("message_type", VStr "bytes"); ("content_base64", VStr (b64encode s));
                       ("size_bytes", VInt (Z.of_nat (String.length s)))]
  | TextMessage s => [("message_type", VStr "text"); ("text", VStr s)]
                     ++ (match _parse_stream_payload s with Some v => [("parsed_data", v)] | None => [] end)
  end.

(** [_collect_websocket_messages] *)
Fixpoint collect_messages (max_messages : Z) (events : list (dict pyval)) (messages : list message) (fin : socket_end)
    : list (dict pyval) * string :=
  if max_messages <=? Z.of_nat (length events) then (events, "connection_closed")
  else
    match messages with
    | [] => (events, match fin with SocketIdle => "idle_timeout" | SocketClosed => "connection_closed" end)
    | m :: rest =>
        let events := events ++ [message_event m] in
        if max_messages <=? Z.of_nat (length events) then (events, "max_messages")
        else collect_messages max_messages events rest fin
    end.
Definition _collect_websocket_messages (max_messages : Z) (messages : list message) (fin : socket_end) :=
  collect_messages max_messages [] messages fin.

(** [_normalize_websocket_message] *)
Context (b64decode : string → option string) (json_compact : pyval → string).

Definition _normalize_websocket_message (v : pyval) : outcome exn string :=
  match v with
  | VStr s => Ok s
  | VDict d =>
      match dict_get d "bytes_base64" with
      | Some (VStr encoded) =>
          match b64decode encoded with
          | Some b => Ok b
          | None => Raise (tool_error "WebSocket bytes_base64 contains invalid base64 data.")
          end
      | _ =>
          match dict_get d "text" with
          | Some (VStr s) => Ok s
          | _ => match dict_get d "json" with Some j => Ok (json_compact j) | None => Ok (json_compact v) end
          end
      end
  | _ => Ok (json_compact v)
  end.

Fixpoint map_out {A B} (f : A → outcome exn B) (l : list A) : outcome exn (list B) :=
  match l with
  | [] => Ok []
  | x :: l' => obind (f x) (λ y, obind (map_out f l') (λ ys, Ok (y :: ys)))
  end.

Definition _normalize_websocket_messages (v : pyval) : outcome exn (list string) :=
  match v with
  | VNone => Ok []
  | VList l => map_out _normalize_websocket_message l
  | _ => map_out _normalize_websocket_message [v]
  end.

(** [prepare_websocket_session] *)
Definition prepare_websocket_session (op : Operation) (arguments : dict pyval) (names : list string)
    : outcome exn (dict pyval * list string) :=
  match remaining_arguments names arguments with
  | [] => Ok ([], [])
  | remaining =>
      let named := match op_body_param_name op with
                   | Some n => if str_truthy n && dict_mem remaining n then Some n else None
                   | None => None
                   end in
      match (match named with Some n => Some n | None => next_where (dict_mem remaining) _STREAM_MESSAGE_PARAM_NAMES end) with
      | Some n => obind (_normalize_websocket_messages (get_or_none remaining n)) (λ ms, Ok (dict_del remaining n, ms))
      | None => Ok (remaining, [])
      end
  end.
End payloads.

(** ** Reference reading of an event stream

    The stream is cut at its empty lines; each block is read on its own. *)
Fixpoint blocks (current : list string) (lines : list string) : list (list string) * list string :=
  match lines with
  | [] => ([], current)
  | l :: rest =>
      if str_eqb l "" then let '(bs, t) := blocks [] rest in (current :: bs, t)
      else blocks (current ++ [l]) rest
  end.

Definition block_event (json_loads : string → option pyval) (block : list string) : option (dict pyval) :=
  sse_event json_loads (foldl sse_line sse_start block).

Definition sse_reference (json_loads : string → option pyval) (max_events : nat) (lines : list string) (fin : stream_end)
    : list (dict pyval) * string :=
  let '(bs, trailing) := blocks [] lines in
  let complete := omap (block_event json_loads) bs in
  if bool_decide (max_events ≤ length complete)%nat then (take max_events complete, "max_events")
  else match fin with
       | IdleTimeout => (complete, "idle_timeout")
       | ConnectionError => (complete, "connection_error")
       | EndOfStream =>
           match block_event json_loads trailing with
           | Some e => (complete ++ [e], if bool_decide (max_events ≤ S (length complete))%nat then "max_events" else "eof")
           | None => (complete, "eof")
           end
       end.

Lemma collect_sse_reference json_loads (max_events : nat) lines fin current events :
  (length events < max_events)%nat →
  collect_sse json_loads (Z.of_nat max_events) (foldl sse_line sse_start current) events lines fin =
    let '(bs, trailing) := blocks current lines in
    let complete := events ++ omap (block_event json_loads) bs in
    if bool_decide (max_events ≤ length complete)%nat then (take max_events complete, "max_events")
    else match fin with
         | IdleTimeout => (complete, "idle_timeout")
         | ConnectionError => (complete, "connection_error")
         | EndOfStream =>
             match block_event json_loads trailing with
             | Some e => (complete ++ [e], if bool_decide (max_events ≤ S (length complete))%nat then "max_events" else "eof")
             | None => (complete, "eof")
             end
         end.
Proof.
  revert current events. induction lines as [|l lines IH]; intros current events Hlen; cbn [collect_sse blocks];
    rewrite (proj2 (Z.leb_gt _ _)) by lia.
  - rewrite app_nil_r, bool_decide_eq_false_2 by lia. destruct fin; try done. fold (block_event json_loads current).
    destruct (block_event json_loads current) as [e|]; [|done]. rewrite (proj2 (Z.ltb_lt _ _)) by lia.
    f_equal. rewrite length_app. simpl. destruct (Z.leb_spec (Z.of_nat max_events) (Z.of_nat (length events + 1)));
      [rewrite bool_decide_eq_true_2 by lia|rewrite bool_decide_eq_false_2 by lia]; done.
  - destruct (str_eqb l "").
    + fold (block_event json_loads current). change sse_start with (foldl sse_line sse_start []) at 1 2.
      specialize (IH []). destruct (blocks [] lines) as [bs trailing]. cbn [omap list_omap].
      destruct (block_event json_loads current) as [e|]; [|by rewrite IH].
      rewrite length_app. simpl. destruct (Z.leb_spec (Z.of_nat max_events) (Z.of_nat (length events + 1))).
      * set (more := omap _ bs). assert (length (events ++ [e]) = max_events) as Hfull by (rewrite length_app; simpl; lia).
        assert (events ++ e :: more = (events ++ [e]) ++ more) as -> by by rewrite <-(assoc_L (++)).
        rewrite bool_decide_eq_true_2 by (rewrite length_app; lia). by rewrite <-Hfull, take_app_length.
      * rewrite IH by (rewrite length_app; simpl; lia). by rewrite <-(assoc_L (++)).
    + change (sse_line (foldl sse_line sse_start current) l) with (foldl sse_line (foldl sse_line sse_start current) [l]).
      rewrite <-foldl_app. by apply IH.
Qed.


