(* ===== verification/RuntimeProxy.v ===== *)
(** * The runtime proxy ([apps/mcp_runtime/proxy.py], [cli_executor.py],
      [obs_success], [obs_fail], [proto_fail] and [check_protocol_errors] of
      [proxy_utils.py], the sessions of [proxy_streaming.py])

    One invocation of a tool: the circuit breaker, the choice of transport, the
    call, the protocol's errors, the result, and what is recorded on each exit. *)

From S2P Require Export RuntimeSql RuntimeStreams.
From Stdlib Require Import Ascii.

(** ** Command lines *)

(** [[^\w@%+=:,./-]] *)
Definition shell_safe (c : ascii) : bool :=
  is_word c || bool_decide (c ∈ ["@"%char; "%"%char; "+"%char; "="%char; ":"%char; ","%char; "."%char; "/"%char; "-"%char]).

(** [shlex.quote] *)
Definition shlex_quote (s : string) : string :=
  if negb (str_truthy s) then "''"
  else if str_all shell_safe s then s
  else "'" +:+ str_replace "'" ("'" +:+ dquote +:+ "'" +:+ dquote +:+ "'") s +:+ "'".

(** [_make_flag] *)
Definition _make_flag (name style : string) : string :=
  let clean := map_str (λ c, if bool_decide (c = "_"%char) then "-"%char else c) name in
  if str_eqb style "posix" then "-" +:+ clean
  else if str_eqb style "windows" then "/" +:+ clean
  else "--" +:+ clean.

Section command_line.
Context (repr : pyval → string).

Definition argument_words (style : string) (kv : string * pyval) : list string :=
  match kv.2 with
  | VNone => []
  | VBool b => if b then [_make_flag kv.1 style] else []
  | v => [_make_flag kv.1 style; shlex_quote (py_str repr v)]
  end.

(** [_build_command] *)
Definition _build_command (config : CliOperationConfig) (arguments : dict pyval) : list string :=
  (cl_command config :: cl_subcommands config) ++ concat (argument_words (cl_args_style config) <$> arguments).
End command_line.

(** What becomes of a process; a return code may be unknown. *)
Inductive process :=
| NotFound
| NotStarted (error : string)
| TimedOut
| Exited (stdout stderr : string) (returncode : option Z).

(** The result of opening a stream *)
Record sse_response := mk_sse_response {
  sse_status : Z;
  sse_content_type : string;
  sse_lines : list string;
  sse_fin : stream_end;
  sse_overall_timeout : bool;
}.

(** The native executors and clients the proxy was built with.  [None] where none
    is configured. *)
Class Natives (W : Type) := {
  json_loads : string → option pyval;
  run_process : list string → option (dict string) → option string → Z → comp (runtime W) exn process;
  parse_output : string → string → pyval;
  sse_open : string → string → request_kwargs → comp (runtime W) exn sse_response;
  (** connect, send the messages, collect; [None] for the overall timeout *)
  ws_session : string → dict string → list string → Z → comp (runtime W) exn (option (list message * socket_end));
  grpc_unary : option (Operation → dict pyval → GrpcUnaryRuntimeConfig → comp (runtime W) exn pyval);
  grpc_stream : option (Operation → dict pyval → EventDescriptor → GrpcStreamRuntimeConfig → comp (runtime W) exn pyval);
  sql_configured : bool;
  event_publish : option (string → dict pyval → comp (runtime W) exn pyval);
  event_observe : string → pyval → pyval → comp (runtime W) exn pyval;
  webhooks_configured : bool;
}.

Section proxy.
Context {W : Type} `{!Upstream W} `{!SqlEngine W} `{!Natives W}.
Abbreviation rt := (runtime W).
Abbreviation M := (comp rt exn).
Context (ir : ServiceIR) (timeout : float) (failure_threshold : Z) (poll_fuel : nat).

Definition toolerror {A} (m : string) : M A := raise (tool_error m).

(** A result an executor must give as an object *)
Definition as_object {A} (m : string) (k : dict pyval → M A) (r : pyval) : M A :=
  match r with VDict d => k d | _ => toolerror m end.

(** ** Native transports *)

Definition execute_cli_tool (config : CliOperationConfig) (arguments : dict pyval) : M (pyval * Z * string) :=
  let cmd := _build_command repr config arguments in
  let env := match cl_env_vars config with [] => None | e => Some e end in
  p <- run_process cmd env (cl_working_dir config) (cl_timeout_seconds config) ;;
  ret (match p with
       | NotFound => (VNone, -1, "Command not found: " +:+ cl_command config)
       | NotStarted e => (VNone, -1, "Failed to start command: " +:+ e)
       | TimedOut => (VNone, -1, "Command timed out after " +:+ str_of_Z (cl_timeout_seconds config) +:+ "s")
       | Exited out err code => (parse_output out (cl_output_format config), default (-1) code, err)
       end).

Definition _perform_cli (op : Operation) (config : CliOperationConfig) (args : dict pyval) : M (dict pyval) :=
  r <- execute_cli_tool config args ;;
  let '(output, exit_code, stderr) := r in
  if exit_code =? 0 then ret [("output", output); ("exit_code", VInt exit_code); ("stderr", VStr stderr)]
  else toolerror ("CLI command for operation " +:+ op_id op +:+ " exited with code " +:+ str_of_Z exit_code +:+ ": " +:+ stderr).

Definition _perform_grpc_unary (op : Operation) (config : GrpcUnaryRuntimeConfig) (args : dict pyval) : M (dict pyval) :=
  match grpc_unary with
  | None => toolerror ("Native grpc unary transport for operation " +:+ op_id op +:+ " requires a configured grpc unary executor.")
  | Some invoke =>
      r <- invoke op args config ;;
      as_object ("Native grpc unary executor for operation " +:+ op_id op +:+ " returned a non-dict result.") ret r
  end.

Definition _perform_sql (op : Operation) (config : SqlOperationConfig) (args : dict pyval) : M (dict pyval) :=
  if sql_configured then sql_invoke op args config
  else toolerror ("Native SQL transport for operation " +:+ op_id op +:+ " requires a configured sql executor.").

(** [except ToolError: raise; except Exception as exc: raise ToolError(...)] *)
Definition wrap_errors {A} (prefix : string) (m : M A) : M A :=
  catch m (λ e, if exn_is "ToolError" e then raise e else toolerror (prefix +:+ exn_str e)).

Definition _perform_event_bridge (op : Operation) (args : dict pyval) (d : EventDescriptor) : M pyval :=
  match event_publish with
  | None => toolerror ("Event bridge operation " +:+ op_id op +:+ " requires a configured event bridge client.")
  | Some publish =>
      let topic := str_or (default "" (ed_channel d)) (str_or (default "" (ed_event_bridge d ≫= eb_topic)) (op_id op)) in
      wrap_errors ("Event bridge error for " +:+ op_id op +:+ " on topic " +:+ topic +:+ ": ")
        (match ed_direction d with
         | outbound | bidirectional => publish topic args
         | inbound =>
             ms <- event_observe topic (default (VInt 10) (dict_get args "max_messages"))
                     (default (VFloat 5) (dict_get args "timeout")) ;;
             ret (VDict [("messages", ms)])
         end)
  end.

(** [int(raw_max)] for a number *)
Definition webhook_count (raw_max : pyval) : outcome exn Z :=
  match raw_max with
  | VInt z => Ok z
  | VBool b => Ok (if b then 1 else 0)
  | VFloat f => match int_of_float f with
                | Some z => Ok z
                | None => Raise (if PrimFloat.eqb f f then overflow_error else value_error "cannot convert float NaN to integer")
                end
  | _ => Ok 10
  end.

Definition _perform_webhook (op : Operation) (args : dict pyval) (d : EventDescriptor) : M pyval :=
  if negb webhooks_configured then toolerror ("Webhook operation " +:+ op_id op +:+ " requires a configured webhook adapter.")
  else
    let channel := str_or (default "" (ed_channel d)) (op_id op) in
    let action := default (VStr "observe") (dict_get args "action") in
    let asks a := match action with VStr s => str_eqb s a | _ => false end in
    if asks "register" then
      id <- in_world uuid4_hex ;;
      w <- gets rt_webhooks ;;
      let '(registration, w') := register w (String.substring 0 12 id) channel (get_or_none args "target_url") in
      modify (set_webhooks w') ;;; ret registration
    else if asks "deregister" then
      w <- gets rt_webhooks ;;
      let '(answer, w') := deregister w channel in
      modify (set_webhooks w') ;;; ret answer
    else
      raw <- lift_out (webhook_count (default (VInt 10) (dict_get args "max_count"))) ;;
      w <- gets rt_webhooks ;;
      let '(payloads, w') := get_payloads w channel (Z.max 1 (Z.min raw 100)) in
      modify (set_webhooks w') ;;; ret (VDict [("payloads", VList payloads)]).

(** ** Streams *)

Definition consume_grpc_stream (op : Operation) (args : dict pyval) (d : EventDescriptor) : M (dict pyval) :=
  match ed_grpc_stream d, grpc_stream with
  | None, _ => toolerror ("Native grpc_stream transport for operation " +:+ op_id op +:+ " is missing grpc_stream runtime configuration.")
  | Some _, None => toolerror ("Native grpc_stream transport for operation " +:+ op_id op +:+ " requires a configured grpc stream executor.")
  | Some config, Some invoke =>
      r <- invoke op args d config ;;
      as_object ("Native grpc_stream executor for operation " +:+ op_id op +:+ " returned a non-dict result.") ret r
  end.

Definition consume_sse_stream (op : Operation) (args : dict pyval) (d : EventDescriptor) : M (dict pyval) :=
  if negb (opt_truthy (op_method op)) || negb (opt_truthy (op_path op)) then
    toolerror ("Operation " +:+ op_id op +:+ " is missing method or path metadata.")
  else
    let method := upper (default "" (op_method op)) in
    un <- lift_out (resolve_url (default "" (op_path op)) args ir) ;;
    payload <- lift_out (prepare_request_payload op args un.2 ir) ;;
    match pp_files payload with
    | Some _ => toolerror ("SSE streaming does not support multipart payloads for operation " +:+ op_id op +:+ ".")
    | None =>
        hq <- build_auth ir (op_id op) method un.1 (pp_query_params payload) (pp_signable_body payload) timeout ;;
        let headers := setdefault_header "Accept" "text/event-stream" hq.1 in
        let query_params := dict_update (pp_query_params payload) (str_values hq.2) in
        get_client ir ;;;
        r <- sse_open method un.1 (build_request_kwargs headers (not_empty query_params) (Some payload) timeout) ;;
        if 400 <=? sse_status r then
          toolerror ("Upstream SSE request failed for " +:+ op_id op +:+ " with status " +:+ str_of_Z (sse_status r) +:+ ".")
        else
          let content_type := lower (sse_content_type r) in
          if negb (str_contains "text/event-stream" content_type) then
            toolerror ("Upstream SSE request for " +:+ op_id op +:+ " returned unsupported content type "
                       +:+ str_or content_type "<missing>" +:+ ".")
          else
            let max_events := _descriptor_positive_int d "max_events" 10 in
            idle <- lift_out (_descriptor_positive_float d "idle_timeout_seconds" _DEFAULT_STREAM_IDLE_TIMEOUT_SECONDS) ;;
            let '(events, reason) := if sse_overall_timeout r then ([], "overall_timeout")
                                     else _collect_sse_events json_loads (as_count max_events) (sse_lines r) (sse_fin r) in
            ret [("transport", VStr (transport_value (ed_transport d))); ("upstream_status", VInt (sse_status r));
                 ("events", VList (VDict <$> events));
                 ("lifecycle", VDict [("termination_reason", VStr reason); ("events_collected", VInt (Z.of_nat (length events)));
                                      ("max_events", max_events); ("idle_timeout_seconds", VFloat idle)])]
    end.

(** [_to_websocket_url] *)
Definition _to_websocket_url (url : string) (query_params : dict pyval) : outcome exn string :=
  obind (urlsplit url) (λ u,
  Ok (urlunsplit (mk_split (if one_of (scheme u) ["https"; "wss"] then "wss" else "ws") (netloc u) (path u)
                    (normalized_query query_params) ""))).

Definition websocket_error (e : exn) : exn :=
  if exn_is "WebSocketException" e then tool_error ("WebSocket communication failed: " +:+ exn_str e)
  else if exn_is "OSError" e then tool_error ("WebSocket connection error: " +:+ exn_str e)
  else e.

Definition consume_websocket_stream (op : Operation) (args : dict pyval) (d : EventDescriptor) : M (dict pyval) :=
  if negb (opt_truthy (op_path op)) then toolerror ("Operation " +:+ op_id op +:+ " is missing path metadata.")
  else
    un <- lift_out (resolve_url (default "" (op_path op)) args ir) ;;
    qm <- lift_out (prepare_websocket_session b64decode json_compact op args un.2) ;;
    hq <- build_auth ir (op_id op) (upper (str_or (default "" (op_method op)) "GET")) un.1 qm.1
            (Some (VList (VStr <$> qm.2))) timeout ;;
    let query_params := dict_update qm.1 (str_values hq.2) in
    let max_messages := _descriptor_positive_int d "max_messages" 10 in
    idle <- lift_out (_descriptor_positive_float d "idle_timeout_seconds" _DEFAULT_STREAM_IDLE_TIMEOUT_SECONDS) ;;
    url <- lift_out (_to_websocket_url un.1 query_params) ;;
    session <- catch (ws_session url hq.1 qm.2 (as_count max_messages)) (λ e, raise (websocket_error e)) ;;
    let '(events, reason) := match session with
                             | None => ([], "overall_timeout")
                             | Some (ms, fin) => _collect_websocket_messages json_loads b64encode (as_count max_messages) ms fin
                             end in
    ret [("transport", VStr (transport_value (ed_transport d))); ("events", VList (VDict <$> events));
         ("lifecycle", VDict [("termination_reason", VStr reason); ("events_collected", VInt (Z.of_nat (length events)));
                              ("max_messages", max_messages); ("idle_timeout_seconds", VFloat idle);
                              ("messages_sent", VInt (Z.of_nat (length qm.2)))])].

(** [perform_stream_session] *)
Definition perform_stream_session (op : Operation) (args : dict pyval) (d : EventDescriptor) : M (dict pyval) :=
  match ed_transport d with
  | sse => consume_sse_stream op args d
  | websocket => consume_websocket_stream op args d
  | grpc_stream_transport => consume_grpc_stream op args d
  | t => toolerror ("Streaming transport " +:+ transport_value t +:+ " is not supported by the runtime.")
  end.

(** ** Dispatch *)

Definition ok_result (op : Operation) (extra : dict pyval) (r : pyval) : dict pyval :=
  [("status", VStr "ok"); ("operation_id", VStr (op_id op))] ++ extra ++ [("result", r); ("truncated", VBool false)].

Definition with_transport (d : EventDescriptor) : dict pyval := [("transport", VStr (transport_value (ed_transport d)))].

Definition is_broker (t : EventTransport) : bool :=
  match t with kafka | rabbitmq | mqtt | amqp | pulsar | async_event => true | _ => false end.
Definition is_webhook (t : EventTransport) : bool := match t with webhook | callback => true | _ => false end.
Definition is_unsupported (d : EventDescriptor) : bool := match ed_support d with unsupported => true | _ => false end.

Definition _find_event_descriptor_for_operation (op : Operation) : option EventDescriptor :=
  next_where (for_operation op) (ir_event_descriptors ir).

(** Logging a finished stream reads [sr["lifecycle"]["termination_reason"]], which a
    gRPC executor's result need not have. *)
Definition termination_reason (sr : dict pyval) : outcome exn unit :=
  match dict_get sr "lifecycle" with
  | None => Raise (key_error "'lifecycle'")
  | Some (VDict l) => if dict_mem l "termination_reason" then Ok tt else Raise (key_error "'termination_reason'")
  | Some _ => Raise (type_error "")
  end.

(** [_dispatch_native]: [None] when the operation goes over HTTP *)
Definition _dispatch_native (op : Operation) (args : dict pyval) : M (option (dict pyval)) :=
  match op_sql op, op_grpc_unary op, op_cli op with
  | Some config, _, _ => r <- _perform_sql op config args ;; ret (Some (ok_result op [] (VDict r)))
  | None, Some config, _ => r <- _perform_grpc_unary op config args ;; ret (Some (ok_result op [] (VDict r)))
  | None, None, Some config => r <- _perform_cli op config args ;; ret (Some (ok_result op [] (VDict r)))
  | None, None, None =>
      let stream :=
        sd <- lift_out (stream_descriptor_for_operation op (ir_event_descriptors ir)) ;;
        match sd with
        | Some d =>
            r <- perform_stream_session op args d ;; lift_out (termination_reason r) ;;;
            ret (Some (ok_result op (with_transport d) (VDict r)))
        | None => ret None
        end in
      match _find_event_descriptor_for_operation op with
      | Some d =>
          if is_unsupported d then stream
          else if is_broker (ed_transport d) then
            r <- _perform_event_bridge op args d ;; ret (Some (ok_result op (with_transport d) r))
          else if is_webhook (ed_transport d) then
            r <- _perform_webhook op args d ;; ret (Some (ok_result op (with_transport d) r))
          else stream
      | None => stream
      end
  end.

(** ** Recording *)

Definition obs_success (oid : string) : M unit :=
  on_breaker oid record_success ;;; record_tool_call oid "success" ;;; set_circuit_breaker_state oid false.

(** [breaker.record_failure()] and the metrics of a failed call *)
Definition count_failure (oid : string) (kind : option string) : M unit :=
  on_breaker oid record_failure ;;; record_tool_call oid "error" ;;;
  (match kind with Some k => record_upstream_error oid k | None => ret tt end) ;;;
  o <- is_open oid ;; set_circuit_breaker_state oid o.

Definition obs_fail (oid kind : string) : M unit := count_failure oid (Some kind).

Definition proto_fail {A} (oid kind msg : string) : M A := count_failure oid (Some kind) ;;; toolerror msg.

(** [check_protocol_errors] *)
Definition check_protocol_errors (r : response) (op : Operation) : M unit :=
  f <- lift_out (protocol_failure repr parse_float b64encode parse_xml r op (ir_protocol ir)) ;;
  match f with
  | Some (kind, _, msg) => proto_fail (op_id op) kind msg
  | None =>
      if is_error r then
        proto_fail (op_id op) "upstream_status"
          ("Upstream request failed for " +:+ op_id op +:+ " with status " +:+ str_of_Z (rsp_status r) +:+ ".")
      else ret tt
  end.

(** Is the exception one of [httpx]'s? *)
Definition is_http_error (e : exn) : bool := one_of (exn_type e) httpx_errors.

(** The status an [httpx] error carries, when it has a response *)
Definition error_status (e : exn) : string :=
  match dict_get (exn_attrs e) "status_code" with Some v => py_str repr v | None => "unknown" end.

(** The [except] clauses; [reached] is [_reached_http_path]. *)
Definition on_error {A} (oid : string) (reached : bool) (e : exn) : M A :=
  if exn_is "TimeoutException" e then
    obs_fail oid "timeout" ;;; toolerror ("Upstream timeout for operation " +:+ oid +:+ ".")
  else if is_http_error e then
    obs_fail oid "http_error" ;;; toolerror ("Upstream request failed for " +:+ oid +:+ " with status " +:+ error_status e +:+ ".")
  else if exn_is "ToolError" e then
    when (negb reached) (count_failure oid None) ;;; raise e
  else raise e.

(** The HTTP path up to the sanitised result *)
Definition http_result (op : Operation) (args : dict pyval) : M (dict pyval) :=
  answer <- perform_request poll_fuel ir timeout op args ;;
  match answer with
  | None => raise (mk_exn "OutOfFuel" "" [])
  | Some r =>
      check_protocol_errors r op ;;;
      rt <- lift_out (sanitize_response repr parse_float b64encode parse_xml json_dumps r op (ir_protocol ir)) ;;
      ret [("status", VStr "ok"); ("operation_id", VStr (op_id op)); ("upstream_status", VInt (rsp_status r));
           ("result", rt.1); ("truncated", VBool rt.2)]
  end.

(** The body of the [try] and its handlers *)
Definition invoke_admitted (op : Operation) (args : dict pyval) : M (dict pyval) :=
  early <- catch (_dispatch_native op args) (on_error (op_id op) false) ;;
  match early with
  | Some r => obs_success (op_id op) ;;; ret r
  | None =>
      r <- catch (http_result op args) (on_error (op_id op) true) ;;
      obs_success (op_id op) ;;; ret r
  end.

(** The [finally] block *)
Definition record_timing (op : Operation) (start : float) : M unit :=
  now <- in_world perf_counter ;;
  let elapsed := PrimFloat.sub now start in
  record_latency (op_id op) elapsed ;;;
  match op_sla op ≫= sl_latency_budget_ms with
  | Some budget => if budget =? 0 then ret tt else (check_sla (op_id op) elapsed budget ;;; ret tt)
  | None => ret tt
  end.

(** [RuntimeProxy.invoke] *)
Definition invoke (op : Operation) (args : dict pyval) : M (dict pyval) :=
  start <- in_world perf_counter ;;
  setdefault_breaker (op_id op) failure_threshold ;;;
  o <- is_open (op_id op) ;;
  if o then
    record_tool_call (op_id op) "error" ;;; set_circuit_breaker_state (op_id op) true ;;;
    toolerror (exn_str (open_error (op_id op)))
  else finally (invoke_admitted op args) (record_timing op start).
End proxy.

(** ** What one invocation does to the breakers *)

(** The native side of a frame *)
Record native_frame {W} `{!SqlEngine W} `{!Natives W} (R : relation (runtime W)) : Prop := {
  nf_reflect c : moves R (reflect_table c);
  nf_execute c st : moves R (execute c st);
  nf_process cmd env cwd t : moves R (run_process cmd env cwd t);
  nf_sse m u k : moves R (sse_open m u k);
  nf_ws u h ms n : moves R (ws_session u h ms n);
  nf_grpc f op args c : grpc_unary = Some f → moves R (f op args c);
  nf_grpc_stream f op args d c : grpc_stream = Some f → moves R (f op args d c);
  nf_publish f t a : event_publish = Some f → moves R (f t a);
  nf_observe t n w : moves R (event_observe t n w);
}.
#[export] Hint Resolve nf_reflect nf_execute nf_process nf_sse nf_ws nf_grpc nf_grpc_stream nf_publish nf_observe : moves.

Section invocation.
Context {W : Type} `{!Upstream W} `{!SqlEngine W} `{!Natives W}.
Context (ir : ServiceIR) (timeout : float) (failure_threshold : Z) (poll_fuel : nat).
Implicit Types s : runtime W.
Abbreviation M := (comp (runtime W) exn).

Section frames.
Context (R : relation (runtime W)) (HR : frame R) (HN : native_frame R).

Lemma moves_stream_session op args d : moves R (perform_stream_session ir timeout op args d).
Proof.
  unfold perform_stream_session, consume_sse_stream, consume_websocket_stream, consume_grpc_stream, as_object, toolerror.
  destruct (ed_transport d); moves.
Qed.
Hint Resolve moves_stream_session : moves.

Lemma moves_dispatch op args : moves R (_dispatch_native ir timeout op args).
Proof.
  unfold _dispatch_native, _perform_sql, _perform_grpc_unary, _perform_cli, execute_cli_tool, sql_invoke,
    _perform_event_bridge, _perform_webhook, wrap_errors, as_object, toolerror. moves.
Qed.
End frames.

(** No invocation of the operation overlaps this one: what the call awaits leaves
    the breakers alone. *)
Definition same_breakers : relation (runtime W) := λ s s', rt_breakers s' = rt_breakers s.

Definition update_breaker (oid : string) (f : CircuitBreaker → CircuitBreaker) (d : dict CircuitBreaker) : dict CircuitBreaker :=
  match dict_get d oid with Some b => dict_set d oid (f b) | None => d end.

Definition apply_ending (oid : string) (e : ending) (d : dict CircuitBreaker) : dict CircuitBreaker :=
  match e with Unrecorded => d | _ => update_breaker oid (record e) d end.

Lemma apply_ending_get oid e d b : dict_get d oid = Some b → dict_get (apply_ending oid e d) oid = Some (record e b).
Proof. intros H. unfold apply_ending, update_breaker. destruct e; rewrite ?H, ?dict_get_set_eq; done. Qed.

Lemma apply_ending_ne oid e d k : k ≠ oid → dict_get (apply_ending oid e d) k = dict_get d k.
Proof.
  intros Hne. unfold apply_ending, update_breaker. destruct e; destruct (dict_get d oid); rewrite ?dict_get_set_ne; done.
Qed.

Lemma obs_success_spec oid s : ∃ s', obs_success oid s = (Ok tt, s') ∧ rt_breakers s' = apply_ending oid Succeeded (rt_breakers s).
Proof.
  unfold obs_success, on_breaker, apply_ending, update_breaker, breaker_of. eexists. split; [done|]. simpl.
  by destruct (dict_get (rt_breakers s) oid).
Qed.

Lemma count_failure_spec oid kind s : ∃ s', count_failure oid kind s = (Ok tt, s') ∧ rt_breakers s' = apply_ending oid Failed (rt_breakers s).
Proof.
  unfold count_failure, on_breaker, apply_ending, update_breaker, breaker_of, bind, modify. destruct kind; eexists; (split; [done|]);
    simpl; by destruct (dict_get (rt_breakers s) oid).
Qed.

(** How an exception that leaves the call is recorded *)
Definition exception_ending (reached : bool) (e : exn) : ending :=
  if exn_is "TimeoutException" e || is_http_error e || (exn_is "ToolError" e && negb reached) then Failed else Unrecorded.

Lemma on_error_spec {A} oid reached e s : ∃ e' s',
  on_error (A:=A) oid reached e s = (Raise e', s') ∧ rt_breakers s' = apply_ending oid (exception_ending reached e) (rt_breakers s).
Proof.
  unfold on_error, exception_ending, obs_fail. destruct (exn_is "TimeoutException" e); simpl.
  { destruct (count_failure_spec oid (Some "timeout") s) as (s' & Hs & Hb). unfold bind. rewrite Hs. simpl. by eexists _, s'. }
  destruct (is_http_error e); simpl.
  { destruct (count_failure_spec oid (Some "http_error") s) as (s' & Hs & Hb). unfold bind. rewrite Hs. simpl. by eexists _, s'. }
  destruct (exn_is "ToolError" e); simpl; [|by eexists _, s].
  destruct reached; simpl; [by eexists _, s|].
  destruct (count_failure_spec oid None s) as (s' & Hs & Hb). unfold bind. rewrite Hs. simpl. by eexists _, s'.
Qed.

(** How the answer of the upstream service is recorded *)
Definition answer_ending (r : response) (op : Operation) : ending :=
  match protocol_failure repr parse_float b64encode parse_xml r op (ir_protocol ir) with
  | Raise e => exception_ending true e
  | Ok (Some _) => Failed
  | Ok None =>
      if is_error r then Failed
      else match sanitize_response repr parse_float b64encode parse_xml json_dumps r op (ir_protocol ir) with
           | Raise e => exception_ending true e
           | Ok _ => Succeeded
           end
  end.

(** How an admitted invocation is recorded, from the state it starts in *)
Definition invocation_ending (op : Operation) (args : dict pyval) s : ending :=
  match _dispatch_native ir timeout op args s with
  | (Raise e, _) => exception_ending false e
  | (Ok (Some _), _) => Succeeded
  | (Ok None, s') =>
      match perform_request poll_fuel ir timeout op args s' with
      | (Raise e, _) => exception_ending true e
      | (Ok None, _) => Unrecorded
      | (Ok (Some r), _) => answer_ending r op
      end
  end.

(** The state in which the [try] block starts *)
Definition entered (op : Operation) s : runtime W :=
  (setdefault_breaker (op_id op) failure_threshold (set_world (perf_counter (rt_world s)).2 s)).2.

Context (HR : frame same_breakers) (HN : native_frame same_breakers) (Hsleep : ∀ d, moves same_breakers (sleep d)).

Lemma answer_spec op r s : ∃ o s',
  (check_protocol_errors ir r op ;;;
   rt <- lift_out (sanitize_response repr parse_float b64encode parse_xml json_dumps r op (ir_protocol ir)) ;;
   ret [("status", VStr "ok"); ("operation_id", VStr (op_id op)); ("upstream_status", VInt (rsp_status r));
        ("result", rt.1); ("truncated", VBool rt.2)]) s = (o, s') ∧
  match o with
  | Ok _ => answer_ending r op = Succeeded ∧ rt_breakers s' = rt_breakers s
  | Raise e => (answer_ending r op = exception_ending true e ∧ rt_breakers s' = rt_breakers s) ∨
               (answer_ending r op = Failed ∧ exception_ending true e = Unrecorded ∧
                rt_breakers s' = apply_ending (op_id op) Failed (rt_breakers s))
  end.
Proof.
  unfold check_protocol_errors, answer_ending, proto_fail, toolerror. unfold bind at 1 2, lift_out at 1.
  destruct (protocol_failure _ _ _ _ _ _ _) as [[[[kind lbl] msg]|]|e].
  - destruct (count_failure_spec (op_id op) (Some kind) s) as (s' & Hs & Hb). unfold bind. rewrite Hs. simpl.
    eexists _, s'. split; [done|]. right. done.
  - destruct (is_error r).
    + destruct (count_failure_spec (op_id op) (Some "upstream_status") s) as (s' & Hs & Hb). unfold bind. rewrite Hs. simpl.
      eexists _, s'. split; [done|]. right. done.
    + simpl. unfold bind, lift_out. destruct (sanitize_response _ _ _ _ _ _ _ _) as [[v t]|e]; eexists _, s; (split; [done|]); [done|by left].
  - eexists _, s. split; [done|]. by left.
Qed.

Lemma invoke_admitted_spec op args s : ∃ o s',
  invoke_admitted ir timeout poll_fuel op args s = (o, s') ∧
  rt_breakers s' = apply_ending (op_id op) (invocation_ending op args s) (rt_breakers s) ∧
  (match o with Ok _ => True | Raise _ => False end ↔ invocation_ending op args s = Succeeded).
Proof.
  assert (∀ reached e, exception_ending reached e ≠ Succeeded) as Hns by (intros reached e; unfold exception_ending; by case_match).
  unfold invoke_admitted, invocation_ending. unfold bind at 1, catch at 1.
  pose proof (moves_dispatch _ HR HN op args s) as Hd. unfold same_breakers in Hd.
  destruct (_dispatch_native ir timeout op args s) as [[[r|]|e] s1]; simpl in Hd.
  - destruct (obs_success_spec (op_id op) s1) as (s' & Hs & Hb). unfold bind. rewrite Hs. simpl.
    eexists _, s'. split; [done|]. rewrite Hb, Hd. done.
  - unfold bind at 1, catch, http_result. unfold bind at 1.
    pose proof (moves_perform_request _ HR poll_fuel ir timeout op args Hsleep s1) as Hp. unfold same_breakers in Hp.
    destruct (perform_request poll_fuel ir timeout op args s1) as [[[r|]|e] s2]; simpl in Hp; rewrite <-Hd, <-Hp.
    + destruct (answer_spec op r s2) as (o & s3 & -> & Ho). destruct o as [res|e].
      * destruct Ho as [-> Hb]. destruct (obs_success_spec (op_id op) s3) as (s' & Hs & Hb'). unfold bind. rewrite Hs. simpl.
        eexists _, s'. split; [done|]. by rewrite Hb', Hb.
      * destruct (on_error_spec (A:=dict pyval) (op_id op) true e s3) as (e' & s' & -> & Hb'). eexists _, s'. split; [done|].
        destruct Ho as [[-> Hb]|(-> & Hu & Hb)]; rewrite Hb', Hb; [split; [done|]; split; [done|apply Hns]|].
        rewrite Hu. done.
    + eexists _, s2. split; [done|]. done.
    + destruct (on_error_spec (A:=dict pyval) (op_id op) true e s2) as (e' & s' & -> & Hb'). eexists _, s'. split; [done|].
      split; [done|]. split; [done|apply Hns].
  - destruct (on_error_spec (A:=option (dict pyval)) (op_id op) false e s1) as (e' & s' & -> & Hb'). eexists _, s'. split; [done|].
    rewrite <-Hd. split; [done|]. split; [done|apply Hns].
Qed.

Lemma record_timing_spec op start s : ∃ s', record_timing op start s = (Ok tt, s') ∧ rt_breakers s' = rt_breakers s.
Proof.
  unfold record_timing, bind at 1, in_world. destruct (perf_counter (rt_world s)) as [now w]. unfold bind at 1. simpl.
  destruct (op_sla op ≫= sl_latency_budget_ms) as [budget|]; [|by eexists].
  destruct (budget =? 0); [by eexists|]. unfold check_sla. destruct (float_gt_Z _ _); by eexists.
Qed.

Lemma entered_breaker op s :
  breaker_of (op_id op) (entered op s) = Some (default (new_breaker (op_id op) failure_threshold) (breaker_of (op_id op) s)) ∧
  ∀ k, k ≠ op_id op → breaker_of k (entered op s) = breaker_of k s.
Proof.
  unfold entered, setdefault_breaker, modify, breaker_of. simpl. rewrite dict_mem_get.
  destruct (dict_get (rt_breakers s) (op_id op)) as [b|] eqn:E; simpl; [by rewrite E|].
  rewrite dict_get_set_eq. split; [done|]. intros k Hk. by rewrite dict_get_set_ne.
Qed.

(** The breaker an invocation meets *)
Definition met_breaker (op : Operation) s : CircuitBreaker :=
  default (new_breaker (op_id op) failure_threshold) (breaker_of (op_id op) s).

Definition succeeds {A} (o : outcome exn A) : bool := match o with Ok _ => true | Raise _ => false end.

(** The caller of the breaker gets a result only from a call that was admitted and
    succeeded. *)
Definition is_success (r : option ending) : bool := match r with Some Succeeded => true | _ => false end.

(** The state a refused invocation leaves: a look at the clock, the breaker's
    entry, two metrics. *)
Definition refused (op : Operation) s : runtime W :=
  add_metric (BreakerState (op_id op) true) (add_metric (ToolCall (op_id op) "error") (entered op s)).

Lemma invoke_entered op args s :
  invoke ir timeout failure_threshold poll_fuel op args s =
    if cb_is_open (met_breaker op s) then
      (record_tool_call (op_id op) "error" ;;; set_circuit_breaker_state (op_id op) true ;;;
       toolerror (exn_str (open_error (op_id op)))) (entered op s)
    else finally (invoke_admitted ir timeout poll_fuel op args) (record_timing op (perf_counter (rt_world s)).1) (entered op s).
Proof.
  assert (is_open (op_id op) (entered op s) = (Ok (cb_is_open (met_breaker op s)), entered op s)) as Ho.
  { unfold is_open, gets. by rewrite (proj1 (entered_breaker op s)). }
  transitivity ((o <- is_open (op_id op) ;;
    if o then record_tool_call (op_id op) "error" ;;; set_circuit_breaker_state (op_id op) true ;;;
              toolerror (exn_str (open_error (op_id op)))
    else finally (invoke_admitted ir timeout poll_fuel op args) (record_timing op (perf_counter (rt_world s)).1)) (entered op s)).
  - unfold invoke, in_world, entered, bind at 1. destruct (perf_counter (rt_world s)) as [start w]. done.
  - unfold bind at 1. rewrite Ho. by destruct (cb_is_open _).
Qed.

Lemma finally_breakers {A} (m : M A) f s : (∀ s1, ∃ s2, f s1 = (Ok tt, s2) ∧ rt_breakers s2 = rt_breakers s1) →
  ∃ s', finally m f s = ((m s).1, s') ∧ rt_breakers s' = rt_breakers (m s).2.
Proof.
  intros Hf. unfold finally. destruct (m s) as [o s1]. destruct (Hf s1) as (s2 & -> & H). by exists s2.
Qed.

(** An invocation is one call through its operation's circuit breaker.  With [e] the way the call would end (succeeded; a timeout, an HTTP error, an error
    in the answer; or one of the errors the proxy does not count), the breaker
    afterwards is the breaker's own answer to [e]; the caller gets a result exactly
    when the breaker admitted a call that succeeded, and an error in every other
    case; the other operations' breakers do not move; and when the breaker is open
    nothing is sent: the state is the old one with the refusal recorded. *)
Lemma invoke_step op args s :
  let e := invocation_ending op args (entered op s) in
  let '(o, s') := invoke ir timeout failure_threshold poll_fuel op args s in
  breaker_of (op_id op) s' = Some (call (met_breaker op s) e).2 ∧
  succeeds o = is_success (call (met_breaker op s) e).1 ∧
  (∀ k, k ≠ op_id op → breaker_of k s' = breaker_of k s) ∧
  (cb_is_open (met_breaker op s) = true → s' = refused op s ∧ o = Raise (tool_error (exn_str (open_error (op_id op))))).
Proof.
  intros e. destruct (entered_breaker op s) as [Hb Hne]. unfold call, before_request.
  rewrite invoke_entered. destruct (cb_is_open (met_breaker op s)) eqn:Ho.
  { unfold breaker_of. simpl. split_and!; [done|done|done|done]. }
  destruct (invoke_admitted_spec op args (entered op s)) as (o & s1 & Hrun & Hbs & Hok).
  destruct (finally_breakers (invoke_admitted ir timeout poll_fuel op args) (record_timing op (perf_counter (rt_world s)).1)
    (entered op s) (record_timing_spec op _)) as (s2 & -> & Hb2).
  rewrite Hrun in Hb2 |- *. simpl in Hb2 |- *. unfold breaker_of at 1 2. rewrite Hb2, Hbs. split_and!; [|..|done].
  - by apply apply_ending_get.
  - unfold is_success. subst e. destruct o as [d|x]; simpl.
    + by rewrite (proj1 Hok I).
    + destruct (invocation_ending op args (entered op s)) eqn:E; [by destruct (proj2 Hok eq_refl)|done|done].
  - intros k Hk. rewrite apply_ending_ne by done. by apply Hne.
Qed.

(** ** Invocations one after another *)

Fixpoint invocations (op : Operation) (l : list (dict pyval)) s : list (outcome exn (dict pyval)) * runtime W :=
  match l with
  | [] => ([], s)
  | args :: l' =>
      let '(o, s1) := invoke ir timeout failure_threshold poll_fuel op args s in
      let '(os, s2) := invocations op l' s1 in (o :: os, s2)
  end.

(** How each of them ends, or would end if the breaker let it through *)
Fixpoint endings (op : Operation) (l : list (dict pyval)) s : list ending :=
  match l with
  | [] => []
  | args :: l' =>
      invocation_ending op args (entered op s) ::
      endings op l' (invoke ir timeout failure_threshold poll_fuel op args s).2
  end.

Lemma met_breaker_step op args s :
  met_breaker op (invoke ir timeout failure_threshold poll_fuel op args s).2 =
  (call (met_breaker op s) (invocation_ending op args (entered op s))).2.
Proof.
  pose proof (invoke_step op args s) as H. destruct (invoke _ _ _ _ op args s) as [o s']. destruct H as (H & _). simpl.
  by unfold met_breaker at 1; rewrite H.
Qed.

Lemma invocations_calls op l s :
  (succeeds <$> (invocations op l s).1) = is_success <$> (calls (met_breaker op s) (endings op l s)).1 ∧
  met_breaker op (invocations op l s).2 = (calls (met_breaker op s) (endings op l s)).2.
Proof.
  revert s. induction l as [|args l IH]; intros s; [done|]. cbn [invocations endings calls].
  pose proof (met_breaker_step op args s) as Hb. pose proof (invoke_step op args s) as Hs.
  destruct (invoke _ _ _ _ op args s) as [o s1]. simpl in Hb |- *. destruct Hs as (_ & Ho & _).
  destruct (call _ _) as [r b]. simpl in Hb, Ho. subst b. specialize (IH s1).
  destruct (invocations op l s1) as [os s2], (calls (met_breaker op s1) _) as [rs b]. simpl in IH |- *.
  destruct IH as [IH1 IH2]. split; [by f_equal|done].
Qed.

Lemma invocations_other op l s k : k ≠ op_id op → breaker_of k (invocations op l s).2 = breaker_of k s.
Proof.
  intros Hk. revert s. induction l as [|args l IH]; intros s; [done|]. cbn [invocations].
  pose proof (invoke_step op args s) as Hs. destruct (invoke _ _ _ _ op args s) as [o s1]. destruct Hs as (_ & _ & Ho & _).
  specialize (IH s1). destruct (invocations op l s1) as [os s2]. simpl in IH |- *. by rewrite IH, Ho.
Qed.

Lemma invocations_app op l1 l2 s :
  invocations op (l1 ++ l2) s =
    let '(os1, s1) := invocations op l1 s in let '(os2, s2) := invocations op l2 s1 in (os1 ++ os2, s2).
Proof.
  revert s. induction l1 as [|args l1 IH]; intros s; simpl; [by destruct (invocations op l2 s)|].
  destruct (invoke _ _ _ _ op args s) as [o s1]. rewrite IH. destruct (invocations op l1 s1) as [os1 s2].
  by destruct (invocations op l2 s2).
Qed.

Lemma endings_take op l s k : take k (endings op l s) = endings op (take k l) s.
Proof. revert l s. induction k as [|k IH]; intros [|args l] s; simpl; [done..|]. by rewrite IH. Qed.

Lemma endings_length op l s : length (endings op l s) = length l.
Proof. revert s. induction l as [|args l IH]; intros s; simpl; [done|]. by rewrite IH. Qed.

Lemma invocations_length op l s : length (invocations op l s).1 = length l.
Proof.
  revert s. induction l as [|args l IH]; intros s; simpl; [done|]. destruct (invoke _ _ _ _ op args s) as [o s1].
  specialize (IH s1). destruct (invocations op l s1) as [os s2]. simpl in *. by rewrite IH.
Qed.

Lemma invocations_open op l s : cb_is_open (met_breaker op s) = true →
  invocations op l s = (replicate (length l) (Raise (tool_error (exn_str (open_error (op_id op))))), Nat.iter (length l) (refused op) s).
Proof.
  revert s. induction l as [|args l IH]; intros s Ho; [done|]. cbn [invocations length replicate].
  pose proof (met_breaker_step op args s) as Hb. pose proof (invoke_step op args s) as Hs.
  unfold call, before_request in Hb. rewrite Ho in Hb. simpl in Hb.
  destruct (invoke _ _ _ _ op args s) as [o s1]. destruct Hs as (_ & _ & _ & Hs). destruct (Hs Ho) as [-> ->].
  simpl in Hb. rewrite IH by (by rewrite Hb). by rewrite Nat.iter_succ_r.
Qed.

End invocation.

(** ** Worked examples *)

(** No native executor is configured; a process reports the words it was given. *)
Definition scripted_sql : SqlEngine script := {|
  reflect_table := λ _, ret (mk_table [] []);
  execute := λ _ _, ret (mk_result [] None None);
|}.

Definition scripted_natives : Natives script := {|
  json_loads := λ _, None;
  run_process := λ cmd _ _ _, ret (Exited (join "|" cmd) "" (Some 0));
  parse_output := λ out _, VStr out;
  sse_open := λ _ _ _, raise (tool_error "no stream");
  ws_session := λ _ _ _ _, ret None;
  grpc_unary := None;
  grpc_stream := None;
  sql_configured := false;
  event_publish := None;
  event_observe := λ _ _ _, ret VNone;
  webhooks_configured := true;
|}.

Section proxy_examples.
#[local] Existing Instance scripted.
#[local] Existing Instance scripted_sql.
#[local] Existing Instance scripted_natives.

Definition demo_get_op : Operation :=
  mk_operation "listPets" "listPets" "" (Some "get") (Some "/pets") [] None (mk_error_schema [] None) [] (demo_risk safe)
    (mk_strategy None None None None trunc_none) body_json None None None None None None None None None
    [] None src_extractor 1 None true.

Lemma scripted_frame (R : relation (runtime script)) : PreOrder R →
  (∀ t s, R s (set_tokens t s)) → (∀ c s, R s (set_client c s)) → (∀ w s, R s (set_webhooks w s)) →
  (∀ w s, R s (set_world w s)) → frame R.
Proof.
  intros HR Ht Hc Hw Hs. assert (moves R next_answer) as Hn.
  { intros s. unfold next_answer. destruct (sc_answers (rt_world s)); simpl; [reflexivity|apply Hs]. }
  split; try done; intros; try apply Hs; intros s1; simpl; reflexivity.
Qed.

Lemma scripted_native_frame (R : relation (runtime script)) : PreOrder R → native_frame R.
Proof. intros HR. split; try done; intros; intros s1; simpl; reflexivity. Qed.

Lemma same_breakers_preorder {W} : PreOrder (same_breakers (W:=W)).
Proof. split; [by intros s|]. intros s1 s2 s3 H1 H2. unfold same_breakers in *. congruence. Qed.


(** Every CLI argument arrives at the program with shell quotes around it, as if a
    shell were going to remove them; none does. *)
Definition demo_grep : CliOperationConfig := mk_cli "grep" [] "posix" [] None 30 "local" "raw".

Example cli_argument_arrives_quoted :
  (execute_cli_tool demo_grep [("e", VStr "two words")] (fresh_runtime [])).1 =
    Ok (VStr "grep|-e|'two words'", 0, "").
Proof. vm_compute. reflexivity. Qed.
End proxy_examples.
