(* ===== verification/RuntimeContracts.v ===== *)
(** * Response contracts of the runtime ([libs/runtime_contracts.py])

    What the validators and the proof runner require of a tool listing and of a
    stream's result, and that the runtime's own streams meet it. *)

From S2P Require Export RuntimeProxy.

Definition required_event_fields (transport : string) : list string :=
  if str_eqb transport "sse" then ["event"; "data"] else if str_eqb transport "websocket" then ["message_type"] else [].

(** The text, integer and number fields of the lifecycle *)
Definition lifecycle_rules (transport : string) : list string * list string * list string :=
  if str_eqb transport "grpc_stream" then (["termination_reason"; "rpc_path"; "mode"], ["messages_collected"], [])
  else if str_eqb transport "sse" then (["termination_reason"], ["events_collected"; "max_events"], ["idle_timeout_seconds"])
  else if str_eqb transport "websocket" then
    (["termination_reason"], ["events_collected"; "max_messages"; "messages_sent"], ["idle_timeout_seconds"])
  else (["termination_reason"], [], []).

(** [value.strip()] of a text *)
Definition is_text (v : pyval) : bool := match v with VStr s => str_truthy (strip s) | _ => false end.
Definition is_integer (v : pyval) : bool := match v with VInt _ => true | _ => false end.
Definition is_number (v : pyval) : bool := match v with VInt _ | VFloat _ => true | _ => false end.

(** Why a check fails *)
Inductive failure :=
| NotAnObject
| NotALifecycle
| EventNotADict (index : nat) (type : string)
| EventFieldMissing (index : nat) (field : string)
| LifecycleFieldInvalid (field : string).

Fixpoint first_some {A B} (f : A → option B) (l : list A) : option B :=
  match l with [] => None | a :: l' => match f a with Some b => Some b | None => first_some f l' end end.

Fixpoint check_events (fields : list string) (index : nat) (events : list pyval) : option failure :=
  match events with
  | [] => None
  | VDict d :: rest =>
      match List.find (λ f, negb (dict_mem d f)) fields with
      | Some f => Some (EventFieldMissing index f)
      | None => check_events fields (S index) rest
      end
  | v :: _ => Some (EventNotADict index (type_name v))
  end.

Definition check_fields (ok : pyval → bool) (lifecycle : dict pyval) (fields : list string) : option failure :=
  LifecycleFieldInvalid <$> List.find (λ f, negb (ok (get_or_none lifecycle f))) fields.

(** [stream_result_failure_reason] *)
Definition stream_result_failure_reason (stream_result : pyval) (transport : option string) : option failure :=
  match stream_result with
  | VDict d =>
      match get_or_none d "events", get_or_none d "lifecycle" with
      | VList events, VDict lifecycle =>
          let t := default "" transport in
          let '(texts, integers, numbers) := lifecycle_rules t in
          match check_events (required_event_fields t) 0 events with
          | Some r => Some r
          | None => first_some id [check_fields is_text lifecycle texts; check_fields is_integer lifecycle integers;
                                   check_fields is_number lifecycle numbers]
          end
      | _, _ => Some NotALifecycle
      end
  | _ => Some NotAnObject
  end.

(** [validate_tool_listing_payload] *)
Fixpoint check_tools (context : string) (seen : list string) (index : nat) (tools : list pyval) : outcome exn (list (dict pyval)) :=
  match tools with
  | [] => Ok []
  | VDict tool :: rest =>
      match get_or_none tool "name" with
      | VStr name =>
          if negb (str_truthy (strip name)) then
            Raise (runtime_error (context +:+ " tools[" +:+ str_of_Z (Z.of_nat index) +:+ "] did not include a valid 'name' string."))
          else if bool_decide (name ∈ seen) then Raise (runtime_error (context +:+ " included duplicate tool name '" +:+ name +:+ "'."))
          else match check_tools context (name :: seen) (S index) rest with
               | Ok l => Ok (tool :: l)
               | Raise e => Raise e
               end
      | _ => Raise (runtime_error (context +:+ " tools[" +:+ str_of_Z (Z.of_nat index) +:+ "] did not include a valid 'name' string."))
      end
  | v :: _ => Raise (runtime_error (context +:+ " tools[" +:+ str_of_Z (Z.of_nat index) +:+ "] was " +:+ type_name v +:+ ", expected object."))
  end.

Definition validate_tool_listing_payload (payload : pyval) (context : string) : outcome exn (list (dict pyval)) :=
  match payload with
  | VDict d =>
      match dict_get d "tools" with
      | None => Raise (runtime_error (context +:+ " did not include required field 'tools'."))
      | Some (VList tools) => check_tools context [] 0 tools
      | Some _ => Raise (runtime_error (context +:+ " did not include a valid 'tools' array."))
      end
  | v => Raise (runtime_error (context +:+ " returned JSON " +:+ type_name v +:+ ", expected object."))
  end.

(** ** Tool listings *)

Definition tool_name (tool : dict pyval) : pyval := get_or_none tool "name".

Lemma check_tools_ok context seen index tools l : check_tools context seen index tools = Ok l →
  tools = VDict <$> l ∧ NoDup (tool_name <$> l) ∧ Forall (λ t, is_text (tool_name t) = true) l ∧
  (∀ n, n ∈ seen → VStr n ∉ tool_name <$> l).
Proof.
  revert seen index l. induction tools as [|v tools IH]; intros seen index l H; cbn [check_tools] in H.
  { injection H as <-. split_and!; try constructor. intros n _ Hn. by apply elem_of_nil in Hn. }
  destruct v as [| | | | | |tool]; try done. destruct (get_or_none tool "name") as [| | | |name| |] eqn:En; try done.
  destruct (negb (str_truthy (strip name))) eqn:Et; [done|]. case_bool_decide as Hseen; [done|].
  destruct (check_tools context (name :: seen) (S index) tools) as [l'|] eqn:E; [|done]. injection H as <-.
  destruct (IH _ _ _ E) as (-> & Hnd & Htext & Hfresh). split_and!.
  - done.
  - cbn [fmap list_fmap]. unfold tool_name at 1. rewrite En. constructor; [apply Hfresh; left|done].
  - constructor; [|done]. unfold tool_name. rewrite En. by apply negb_false_iff in Et.
  - intros n Hn. cbn [fmap list_fmap]. unfold tool_name at 1. rewrite En, not_elem_of_cons. split; [|apply Hfresh; by right].
    intros [= ->]. done.
Qed.

(** An accepted tool listing is usable: exactly the listed tools come back, in
    order, every one an object with a name that is not blank, and no name occurs
    twice. *)
Theorem validate_tool_listing_sound payload context l :
  validate_tool_listing_payload payload context = Ok l →
  (∃ d, payload = VDict d ∧ dict_get d "tools" = Some (VList (VDict <$> l))) ∧
  NoDup (tool_name <$> l) ∧ Forall (λ t, is_text (tool_name t) = true) l.
Proof.
  unfold validate_tool_listing_payload. destruct payload as [| | | | | |d]; try done.
  destruct (dict_get d "tools") as [[| | | | |tools|]|] eqn:E; try done.
  intros (-> & H1 & H2 & _)%check_tools_ok. split; [|done]. by exists d.
Qed.

Lemma validate_tool_listing_sound_witness : NoDup (tool_name <$> [[("name", VStr "a")]; [("name", VStr "b")]]).
Proof.
  refine (proj1 (proj2 (validate_tool_listing_sound
    (VDict [("tools", VList [VDict [("name", VStr "a")]; VDict [("name", VStr "b")]])]) "Runtime" _ _))).
  vm_compute. reflexivity.
Defined.

(** ** The runtime's streams *)

Lemma sse_event_fields json_loads st e : sse_event json_loads st = Some e → dict_mem e "event" = true ∧ dict_mem e "data" = true.
Proof.
  unfold sse_event, _build_sse_event. by destruct (ss_data st), (ss_id st); intros [= <-].
Qed.

Definition has_fields (fields : list string) (e : dict pyval) : Prop := Forall (λ f, dict_mem e f = true) fields.

Lemma check_events_ok fields index events : Forall (has_fields fields) events → check_events fields index (VDict <$> events) = None.
Proof.
  intros H. revert index. induction H as [|e events He _ IH]; intros index; [done|]. cbn [fmap list_fmap check_events].
  destruct (List.find _ fields) as [f|] eqn:E; [|apply IH]. apply List.find_some in E as [Hin Hf].
  apply list_elem_of_In in Hin. unfold has_fields in He. rewrite Forall_forall in He. by rewrite (He f Hin) in Hf.
Qed.

Lemma collect_sse_events json_loads n st events lines fin : Forall (has_fields ["event"; "data"]) events →
  let '(evs, reason) := collect_sse json_loads n st events lines fin in
  Forall (has_fields ["event"; "data"]) evs ∧ str_truthy (strip reason) = true.
Proof.
  assert (∀ st e, sse_event json_loads st = Some e → has_fields ["event"; "data"] e) as Hf.
  { intros st' e [H1 H2]%sse_event_fields. by repeat constructor. }
  assert (∀ events st e, Forall (has_fields ["event"; "data"]) events → sse_event json_loads st = Some e →
    Forall (has_fields ["event"; "data"]) (events ++ [e])) as Happ.
  { intros evs st' e H He. apply Forall_app. split; [done|]. apply Forall_singleton. by eapply Hf. }
  revert st events. induction lines as [|l lines IH]; intros st events H; cbn [collect_sse].
  - destruct (n <=? _), (sse_event json_loads st) as [e|] eqn:E, fin; try done;
      destruct (_ <? n); try done; (split; [by eapply Happ|by destruct (n <=? _)]).
  - destruct (n <=? Z.of_nat (length events)).
    { destruct (sse_event json_loads st) as [e|] eqn:E; [|done]. destruct (_ <? n); [|done].
      split; [by eapply Happ|by destruct (n <=? _)]. }
    destruct (str_eqb l ""); [|by apply IH]. destruct (sse_event json_loads st) as [e|] eqn:E; [|by apply IH].
    destruct (n <=? _); [split; [by eapply Happ|done]|]. apply IH. by eapply Happ.
Qed.

Lemma collect_messages_events json_loads b64 n events ms fin : Forall (has_fields ["message_type"]) events →
  let '(evs, reason) := collect_messages json_loads b64 n events ms fin in
  Forall (has_fields ["message_type"]) evs ∧ str_truthy (strip reason) = true.
Proof.
  revert events. induction ms as [|m ms IH]; intros events H; cbn [collect_messages]; destruct (n <=? Z.of_nat (length events)); try done.
  - by destruct fin.
  - assert (Forall (has_fields ["message_type"]) (events ++ [message_event json_loads b64 m])) as H'.
    { apply Forall_app. split; [done|]. apply Forall_singleton. constructor; [|constructor]. by destruct m. }
    destruct (n <=? _); [done|]. by apply IH.
Qed.

(** What every answer of a computation satisfies *)
Section returns.
Context {S E : Type}.

Definition returns {A} (Q : A → Prop) (m : comp S E A) : Prop := ∀ s a s', m s = (Ok a, s') → Q a.

Lemma returns_ret {A} (Q : A → Prop) a : Q a → returns Q (ret a).
Proof. by intros H s b s' [= <- _]. Qed.
Lemma returns_raise {A} (Q : A → Prop) e : returns Q (raise e).
Proof. by intros s b s'. Qed.
Lemma returns_bind {A B} (Q : B → Prop) (m : comp S E A) k : (∀ a, returns Q (k a)) → returns Q (bind m k).
Proof. intros H s b s'. unfold bind. destruct (m s) as [[a|e] s1]; [apply H|done]. Qed.
End returns.

Ltac returns := repeat first
  [ apply returns_raise | apply returns_bind; intros ?
  | match goal with |- returns _ (if ?b then _ else _) => destruct b | |- returns _ (match ?x with _ => _ end) => destruct x eqn:? end ].

Section streams_meet_contract.
Context {W : Type} `{!Upstream W} `{!SqlEngine W} `{!Natives W}.
Context (ir : ServiceIR) (timeout : float).

(** The declared limit is a number, if there is one: [true] passes for one in
    Python. *)
Definition numeric_limit (d : EventDescriptor) (key : string) : Prop := ∀ b, dict_get (ed_metadata d) key ≠ Some (VBool b).

Lemma limit_is_integer d key n : numeric_limit d key → is_integer (_descriptor_positive_int d key n) = true.
Proof.
  unfold numeric_limit, _descriptor_positive_int. destruct (dict_get (ed_metadata d) key) as [v|]; [|done]. intros H.
  destruct v as [|b|z| | | |]; simpl; try done; [by destruct (H b)|by destruct (0 <? z)].
Qed.

Definition meets_contract (transport : string) (r : dict pyval) : Prop := stream_result_failure_reason (VDict r) (Some transport) = None.

Lemma sse_result_contract t status events reason limit idle :
  Forall (has_fields ["event"; "data"]) events → str_truthy (strip reason) = true → is_integer limit = true →
  meets_contract "sse"
    [("transport", t); ("upstream_status", status); ("events", VList (VDict <$> events));
     ("lifecycle", VDict [("termination_reason", VStr reason); ("events_collected", VInt (Z.of_nat (length events)));
                          ("max_events", limit); ("idle_timeout_seconds", VFloat idle)])].
Proof.
  intros He Hr Hl. unfold meets_contract, stream_result_failure_reason. cbn -[check_fields check_events first_some].
  rewrite (check_events_ok ["event"; "data"] 0 events He). unfold check_fields. cbn. by rewrite Hr, Hl.
Qed.

Lemma websocket_result_contract t events reason limit idle sent :
  Forall (has_fields ["message_type"]) events → str_truthy (strip reason) = true → is_integer limit = true →
  meets_contract "websocket"
    [("transport", t); ("events", VList (VDict <$> events));
     ("lifecycle", VDict [("termination_reason", VStr reason); ("events_collected", VInt (Z.of_nat (length events)));
                          ("max_messages", limit); ("idle_timeout_seconds", VFloat idle); ("messages_sent", VInt sent)])].
Proof.
  intros He Hr Hl. unfold meets_contract, stream_result_failure_reason. cbn -[check_fields check_events first_some].
  rewrite (check_events_ok ["message_type"] 0 events He). unfold check_fields. cbn. by rewrite Hr, Hl.
Qed.

Lemma consume_sse_contract op args d : numeric_limit d "max_events" →
  returns (meets_contract "sse") (consume_sse_stream ir timeout op args d).
Proof.
  intros Hd. apply (limit_is_integer d "max_events" 10) in Hd. unfold consume_sse_stream, toolerror. returns.
  rename select (_ = (_, _)) into Hc. apply returns_ret.
  match goal with r : sse_response |- _ =>
    pose proof (collect_sse_events json_loads (as_count (_descriptor_positive_int d "max_events" 10)) sse_start [] (sse_lines r) (sse_fin r)
      (Forall_nil_2 _)) as He;
    destruct (sse_overall_timeout r); [|unfold _collect_sse_events in Hc; rewrite Hc in He] end.
  - injection Hc as <- <-. by apply (sse_result_contract _ _ []).
  - destruct He. by apply sse_result_contract.
Qed.

Lemma consume_websocket_contract op args d : numeric_limit d "max_messages" →
  returns (meets_contract "websocket") (consume_websocket_stream ir timeout op args d).
Proof.
  intros Hd. apply (limit_is_integer d "max_messages" 10) in Hd. unfold consume_websocket_stream, toolerror. returns.
  rename select (_ = (_, _)) into Hc. apply returns_ret.
  match goal with session : option (list message * socket_end) |- _ => destruct session as [[ms fin]|] end.
  - pose proof (collect_messages_events json_loads b64encode (as_count (_descriptor_positive_int d "max_messages" 10)) [] ms fin
      (Forall_nil_2 _)) as He. unfold _collect_websocket_messages in Hc. rewrite Hc in He.
    destruct He. by apply websocket_result_contract.
  - injection Hc as <- <-. by apply (websocket_result_contract _ []).
Qed.

(** What the runtime streams meets the contract its checkers demand.  Whatever
    an upstream service sends over server-sent events or a WebSocket, and however
    the session ends, a result of the stream session passes the contract check for
    its transport: every event carries the required fields, and the lifecycle has a
    reason that is not blank and the counts and timeout as numbers (for descriptors
    whose declared limit is not the boolean [true]). *)
Theorem runtime_streams_meet_contract op args d s r s' :
  ed_transport d = sse ∧ numeric_limit d "max_events" ∨ ed_transport d = websocket ∧ numeric_limit d "max_messages" →
  perform_stream_session ir timeout op args d s = (Ok r, s') →
  stream_result_failure_reason (VDict r) (Some (transport_value (ed_transport d))) = None.
Proof.
  unfold perform_stream_session. intros [[Ht Hd]|[Ht Hd]]; rewrite Ht; intros H.
  - by apply (consume_sse_contract op args d Hd s r s').
  - by apply (consume_websocket_contract op args d Hd s r s').
Qed.
End streams_meet_contract.

(** ** A worked stream *)

Section stream_example.
#[local] Existing Instance scripted.
#[local] Existing Instance scripted_sql.

Definition streaming_natives : Natives script := {|
  json_loads := λ _, None;
  run_process := λ _ _ _ _, ret NotFound;
  parse_output := λ out _, VStr out;
  sse_open := λ _ _ _, ret (mk_sse_response 200 "text/event-stream" ["data: a"; ""; "data: b"] IdleTimeout false);
  ws_session := λ _ _ _ _, ret None;
  grpc_unary := None;
  grpc_stream := None;
  sql_configured := false;
  event_publish := None;
  event_observe := λ _ _ _, ret VNone;
  webhooks_configured := false;
|}.
#[local] Existing Instance streaming_natives.

Definition demo_stream : EventDescriptor :=
  mk_event "pets" "pets" "" sse inbound supported None (Some "listPets") None None [].

Lemma runtime_streams_meet_contract_witness : ∃ r,
  (perform_stream_session demo_ir 10 demo_get_op [] demo_stream (fresh_runtime [])).1 = Ok r ∧
  stream_result_failure_reason (VDict r) (Some "sse") = None.
Proof.
  destruct (perform_stream_session demo_ir 10 demo_get_op [] demo_stream (fresh_runtime [])) as [[r|e] s'] eqn:E;
    [|vm_compute in E; discriminate E].
  exists r. split; [reflexivity|].
  refine (runtime_streams_meet_contract demo_ir 10%float demo_get_op [] demo_stream (fresh_runtime []) r s' _ E).
  left. split; [reflexivity|]. intros b. discriminate.
Defined.

(** A limit of [true] is answered as [true], which is no integer to the checker. *)
Example boolean_limit_breaks_contract : ∃ r,
  (perform_stream_session demo_ir 10 demo_get_op []
     (mk_event "pets" "pets" "" sse inbound supported None (Some "listPets") None None [("max_events", VBool true)])
     (fresh_runtime [])).1 = Ok r ∧
  stream_result_failure_reason (VDict r) (Some "sse") = Some (LifecycleFieldInvalid "max_events").
Proof. eexists. split; vm_compute; reflexivity. Qed.
End stream_example.
