(* ===== verification/RuntimeLoader.v ===== *)
(** * Loading a description and registering its tools
      ([apps/mcp_runtime/loader.py], [apps/mcp_runtime/main.py])

    From the file a runtime is given to the tools, resources and prompts its
    server offers, and from a call of one of these tools back to the proxy. *)

From S2P Require Export RuntimeProxy.
From Stdlib Require Import Ascii.

(** ** Parameter names *)

Fixpoint lstrip_char (c : ascii) (s : string) : string :=
  match s with
  | String a s' => if bool_decide (a = c) then lstrip_char c s' else s
  | EmptyString => ""
  end.

(** [[a-zA-Z0-9_]] *)
Definition word_char (c : ascii) : bool := is_alpha c || is_digit c || bool_decide (c = "_"%char).

(** [re.sub(r"[^a-zA-Z0-9_]", "_", name).strip("_")] *)
Definition word_name (name : string) : string :=
  rstrip_char "_" (lstrip_char "_" (map_str (λ c, if word_char c then c else "_"%char) name)).

(** [keyword.kwlist] *)
Definition kwlist : list string :=
  ["False"; "None"; "True"; "and"; "as"; "assert"; "async"; "await"; "break"; "class"; "continue"; "def"; "del"; "elif";
   "else"; "except"; "finally"; "for"; "from"; "global"; "if"; "import"; "in"; "is"; "lambda"; "nonlocal"; "not"; "or";
   "pass"; "raise"; "return"; "try"; "while"; "with"; "yield"].

Definition starts_with_digit (s : string) : bool := match s with String c _ => is_digit c | EmptyString => false end.

(** The candidate before it is made unique *)
Definition candidate_name (name : string) : string :=
  let candidate := word_name name in
  let candidate := if str_truthy candidate then candidate else "param" in
  let candidate := if starts_with_digit candidate then "param_" +:+ candidate else candidate in
  if bool_decide (candidate ∈ kwlist) then candidate +:+ "_" else candidate.

Definition suffixed (candidate : string) (suffix : Z) : string := candidate +:+ "_" +:+ str_of_Z suffix.

(** The loop of the suffixes; [None] when the fuel runs out *)
Fixpoint unused_name (fuel : nat) (candidate : string) (existing : list string) (unique_candidate : string) (suffix : Z) : option string :=
  if bool_decide (unique_candidate ∈ existing) then
    match fuel with
    | O => None
    | S fuel' => unused_name fuel' candidate existing (suffixed candidate suffix) (suffix + 1)
    end
  else Some unique_candidate.

(** [_python_parameter_name]; as many rounds as there are names are enough
    ([unused_name_found]). *)
Definition _python_parameter_name (name : string) (existing_names : list string) : string :=
  let candidate := candidate_name name in
  default candidate (unused_name (length existing_names) candidate existing_names candidate 2).

(** ** Tools *)

Definition is_none (v : pyval) : bool := match v with VNone => true | _ => false end.

(** [_build_signature_parameter]: [None] for a parameter without a default *)
Definition signature_default (p : Param) : option pyval :=
  if pa_required p && is_none (pa_default p) then None else Some (pa_default p).

(** The loop of [build_tool_function] over the parameters *)
Fixpoint name_params (m : dict string) (params : list Param) : dict string :=
  match params with
  | [] => m
  | p :: rest => name_params (dict_set m (_python_parameter_name (pa_name p) (dict_keys m)) (pa_name p)) rest
  end.

Definition param_name_map (o : Operation) : dict string := name_params [] (op_params o).

(** What the server passes for a parameter: a plain value, an instance of a
    generated model (by its [model_dump]), or a list of such values. *)
Inductive argument :=
| Plain (v : pyval)
| ModelInstance (dump : dict pyval)
| Items (l : list argument).

Fixpoint _unwrap_pydantic (a : argument) : pyval :=
  match a with
  | Plain v => v
  | ModelInstance d => VDict d
  | Items l => VList (map _unwrap_pydantic l)
  end.

(** The loop of [tool_impl] that restores the names of the description *)
Fixpoint restore_names (m : dict string) (original_kwargs : dict pyval) (kwargs : list (string * argument)) : outcome exn (dict pyval) :=
  match kwargs with
  | [] => Ok original_kwargs
  | (name, value) :: rest =>
      match dict_get m name with
      | None => Raise (key_error name)
      | Some ir_name =>
          let unwrapped := _unwrap_pydantic value in
          restore_names m
            (if dict_mem original_kwargs ir_name && is_none unwrapped then original_kwargs
             else dict_set original_kwargs ir_name unwrapped) rest
      end
  end.

(** [_default_tool_handler] *)
Definition _default_tool_handler (o : Operation) (arguments : dict pyval) : dict pyval :=
  [("status", VStr "not_implemented"); ("message", VStr "Upstream proxying is implemented by the runtime proxy.");
   ("operation_id", VStr (op_id o)); ("method", opt_str (op_method o)); ("path", opt_str (op_path o));
   ("arguments", VDict arguments)].

Section handlers.
Context {S : Type}.

Definition ToolHandler : Type := Operation → dict pyval → comp S exn (dict pyval).

Definition handle (tool_handler : option ToolHandler) (o : Operation) (arguments : dict pyval) : comp S exn (dict pyval) :=
  match tool_handler with
  | None => ret (_default_tool_handler o arguments)
  | Some h => h o arguments
  end.

(** [tool_impl] *)
Definition tool_impl (tool_handler : option ToolHandler) (o : Operation) (kwargs : list (string * argument)) : comp S exn (dict pyval) :=
  match restore_names (param_name_map o) [] kwargs with
  | Raise e => raise e
  | Ok original_kwargs => handle tool_handler o original_kwargs
  end.

(** What the server is told of a tool *)
Record Tool := mk_tool {
  tl_name : string;
  tl_title : string;
  tl_description : string;
  tl_param_name_map : dict string;
  tl_defaults : list (option pyval);
  tl_fn : list (string * argument) → comp S exn (dict pyval);
}.

Definition build_tool (tool_handler : option ToolHandler) (o : Operation) : Tool :=
  mk_tool (op_id o) (op_name o) (str_or (op_description o) (op_name o)) (param_name_map o)
    (signature_default <$> op_params o) (tool_impl tool_handler o).

(** [register_ir_tools]: the tools added, and the operations registered *)
Definition register_ir_tools (tool_handler : option ToolHandler) (ir : ServiceIR) : list Tool * dict Operation :=
  let enabled := List.filter op_enabled (ir_operations ir) in
  (build_tool tool_handler <$> enabled, foldl (λ registered o, dict_set registered (op_id o) o) [] enabled).

(** ** Resources *)

Definition runtime_load_error (m : string) : exn := mk_exn "RuntimeLoadError" m [].

(** [_dynamic_resource_arguments] *)
Definition _dynamic_resource_arguments (r : ResourceDefinition) (o : Operation) : outcome exn (dict pyval) :=
  match List.filter (λ p, pa_required p && is_none (pa_default p)) (op_params o) with
  | [] => Ok (foldl (λ arguments p, dict_set arguments (pa_name p) (pa_default p)) []
                (List.filter (λ p, negb (is_none (pa_default p))) (op_params o)))
  | _ => Raise (runtime_load_error ("Dynamic resource '" +:+ rd_id r +:+ "' references operation '" +:+ op_id o
                                    +:+ "' with required params."))
  end.

(** What reading a registered resource does *)
Inductive reader :=
| ReadStatic (content : string)
| ReadDynamic (o : Operation) (arguments : dict pyval).

(** [operations_by_id.get(id)]; of several operations with an id the last counts. *)
Definition enabled_operation (ir : ServiceIR) (id : string) : option Operation :=
  dict_get (dict_of_list ((λ o, (op_id o, o)) <$> List.filter op_enabled (ir_operations ir))) id.

(** One round of [register_ir_resources] *)
Definition resource_reader (ir : ServiceIR) (r : ResourceDefinition) : outcome exn reader :=
  if str_eqb (rd_content_type r) "dynamic" then
    match rd_operation_id r with
    | None => Raise (runtime_load_error ("Dynamic resource '" +:+ rd_id r +:+ "' is missing operation_id."))
    | Some i =>
        match enabled_operation ir i with
        | None => Raise (runtime_load_error ("Dynamic resource '" +:+ rd_id r +:+ "' references unavailable operation '" +:+ i +:+ "'."))
        | Some o =>
            match _dynamic_resource_arguments r o with
            | Ok arguments => Ok (ReadDynamic o arguments)
            | Raise e => Raise e
            end
        end
    end
  else Ok (ReadStatic (default "" (rd_content r))).

(** [register_ir_resources] *)
Definition register_ir_resources (ir : ServiceIR) : outcome exn (list (ResourceDefinition * reader)) :=
  traverse (λ r, match resource_reader ir r with Ok f => Ok (r, f) | Raise e => Raise e end) (ir_resource_definitions ir).

Context (json_dumps : pyval → outcome exn string).

(** [_resource_payload_to_text] *)
Definition _resource_payload_to_text (r : ResourceDefinition) (payload : dict pyval) : outcome exn string :=
  match default (VDict payload) (dict_get payload "result") with
  | VStr s => Ok s
  | v => match json_dumps v with
         | Ok s => Ok s
         | Raise e => if exn_is "TypeError" e then
                        Raise (runtime_load_error ("Dynamic resource '" +:+ rd_id r +:+ "' returned a non-serializable payload."))
                      else Raise e
         end
  end.

(** Reading a resource *)
Definition read_resource (tool_handler : option ToolHandler) (r : ResourceDefinition) (f : reader) : comp S exn string :=
  match f with
  | ReadStatic content => ret content
  | ReadDynamic o arguments =>
      result <- handle tool_handler o arguments ;;
      match _resource_payload_to_text r result with Ok s => ret s | Raise e => raise e end
  end.
End handlers.
Arguments ToolHandler : clear implicits.
Arguments Tool : clear implicits.

(** ** Prompts *)

Definition open_brace : string := "{".
Definition close_brace : string := "}".

(** [get_prompt]: one argument after the other is substituted *)
Definition get_prompt (template : string) (args : list PromptArgument) (kwargs : dict string) : string :=
  foldl (λ result a, match dict_get kwargs (pr_name a) with
                     | Some v => str_replace (open_brace +:+ pr_name a +:+ close_brace) v result
                     | None => result
                     end) template args.

Record Prompt := mk_server_prompt {
  sp_name : string;
  sp_description : string;
  sp_arguments : option (list (string * string * bool));
  sp_fn : dict string → string;
}.

Definition build_prompt (p : PromptDefinition) : Prompt :=
  let args := (λ a, (pr_name a, str_or (pr_description a) (pr_name a), pr_required a)) <$> pd_arguments p in
  mk_server_prompt (pd_name p) (str_or (pd_description p) (pd_name p)) (match args with [] => None | _ => Some args end)
    (get_prompt (pd_template p) (pd_arguments p)).

(** [register_ir_prompts] *)
Definition register_ir_prompts (ir : ServiceIR) : list Prompt := build_prompt <$> ir_prompt_definitions ir.

(** ** Reading a description *)

Section loading.
(** The file system, the decompressor, the UTF-8 decoder and the parser of the
    JSON form *)
Context (read_bytes : string → outcome exn string) (gunzip decode_utf8 : string → outcome exn string)
  (parse_ir : string → outcome exn ServiceIR).

(** [OSError] and the subclasses reading and decompressing raise *)
Definition os_errors : list string :=
  ["OSError"; "FileNotFoundError"; "PermissionError"; "IsADirectoryError"; "NotADirectoryError"; "BadGzipFile"].

Definition gzip_magic : string := String "031" (String "139" "").

(** [deserialize_ir]: parsing, then the validators *)
Definition deserialize_ir (payload : string) : outcome exn ServiceIR :=
  match parse_ir payload with
  | Ok ir => validate_ServiceIR ir
  | Raise e => Raise e
  end.

(** An exception the handler names becomes a [RuntimeLoadError]. *)
Definition as_load_error {A} (classes : list string) (message : string) (o : outcome exn A) : outcome exn A :=
  match o with
  | Ok a => Ok a
  | Raise e => if one_of (exn_type e) classes then Raise (runtime_load_error message) else Raise e
  end.

(** [load_service_ir] *)
Definition load_service_ir (path : string) : outcome exn ServiceIR :=
  match as_load_error os_errors ("Unable to read ServiceIR from " +:+ path) (read_bytes path) with
  | Raise e => Raise e
  | Ok payload =>
      let decoded :=
        match (if endswith ".gz" path || startswith gzip_magic payload then gunzip payload else Ok payload) with
        | Ok bytes => decode_utf8 bytes
        | Raise e => Raise e
        end in
      match as_load_error ("UnicodeDecodeError" :: os_errors) ("Unable to decode ServiceIR at " +:+ path) decoded with
      | Raise e => Raise e
      | Ok json_payload =>
          as_load_error ["ValidationError"; "ValueError"; "JSONDecodeError"] ("Invalid ServiceIR at " +:+ path) (deserialize_ir json_payload)
      end
  end.

End loading.

(** ** The state of a runtime *)

(** [configured in {"1", "true", "yes", "on"}] *)
Definition env_flag (value : string) : bool := one_of (lower (strip value)) ["1"; "true"; "yes"; "on"].

(** Is there an event of a kind of transport that is not unsupported? *)
Definition any_event (ir : ServiceIR) (p : EventTransport → bool) : bool :=
  existsb (λ d, negb (is_unsupported d) && p (ed_transport d)) (ir_event_descriptors ir).

Definition any_enabled (ir : ServiceIR) (p : Operation → bool) : bool :=
  existsb (λ o, op_enabled o && p o) (ir_operations ir).

Definition _native_grpc_stream_runtime_enabled (env : string) (ir : ServiceIR) : bool :=
  env_flag env
  && existsb (λ d, str_eqb (transport_value (ed_transport d)) "grpc_stream" && is_supported d) (ir_event_descriptors ir).
Definition _native_grpc_unary_runtime_enabled (env : string) (ir : ServiceIR) : bool :=
  env_flag env && any_enabled ir (λ o, given (op_grpc_unary o)).
Definition _native_sql_runtime_enabled (ir : ServiceIR) : bool := any_enabled ir (λ o, given (op_sql o)).
Definition _native_event_bridge_enabled (ir : ServiceIR) : bool := any_event ir is_broker.
Definition _native_webhook_enabled (ir : ServiceIR) : bool := any_event ir is_webhook.

(** [_dominant_event_transport] *)
Definition _dominant_event_transport (ir : ServiceIR) : EventTransport :=
  match List.find (λ d, negb (is_unsupported d)) (ir_event_descriptors ir) with
  | Some d => ed_transport d
  | None => async_event
  end.

(** The broker client [get_event_bridge_client] chooses when the broker packages
    are installed *)
Inductive broker_client := KafkaEventBridgeClient | RabbitMQEventBridgeClient | MqttEventBridgeClient | StubEventBridgeClient.
Definition get_event_bridge_client (t : EventTransport) : broker_client :=
  match t with
  | kafka => KafkaEventBridgeClient
  | rabbitmq | amqp => RabbitMQEventBridgeClient
  | mqtt => MqttEventBridgeClient
  | _ => StubEventBridgeClient
  end.

(** The secret references the runtime resolves *)
Definition runtime_secret_refs (a : AuthConfig) : list string :=
  List.filter str_truthy (omap id
    [ac_runtime_secret_ref a; ac_basic_password_ref a;
     o ← ac_oauth2 a; oc_client_id_ref o; o ← ac_oauth2 a; Some (oc_client_secret_ref o);
     m ← ac_mtls a; Some (ml_cert_ref m); m ← ac_mtls a; Some (ml_key_ref m); m ← ac_mtls a; ml_ca_ref m;
     r ← ac_request_signing a; Some (sg_secret_ref r)]).

(** What is built for a loaded description *)
Record RuntimeState (S : Type) := mk_runtime_state {
  rs_service_ir : option ServiceIR;
  rs_load_error : option string;
  rs_sql_executor : bool;
  rs_grpc_unary_executor : bool;
  rs_grpc_stream_executor : bool;
  rs_event_bridge : option broker_client;
  rs_webhook_adapter : bool;
  rs_tools : list (Tool S);
  rs_registered_operations : dict Operation;
  rs_resources : list (ResourceDefinition * reader);
  rs_prompts : list Prompt;
  rs_sla_budgets : list (string * Z);
}.
Arguments mk_runtime_state {S}.
Arguments rs_service_ir {S}.
Arguments rs_load_error {S}.
Arguments rs_tools {S}.
Arguments rs_registered_operations {S}.
Arguments rs_resources {S}.
Arguments rs_event_bridge {S}.

Definition not_loaded {S} (ir : option ServiceIR) (error : string) : RuntimeState S :=
  mk_runtime_state ir (Some error) false false false None false [] [] [] [] [].

(** [RuntimeState.is_loaded] *)
Definition is_loaded {S} (s : RuntimeState S) : bool := given (rs_service_ir s) && negb (given (rs_load_error s)).

Definition sla_budgets (registered : dict Operation) : list (string * Z) :=
  omap (λ kv, s ← op_sla kv.2; b ← sl_latency_budget_ms s; if b =? 0 then None else Some (kv.1, b)) registered.

Section building.
Context (read_bytes : string → outcome exn string) (gunzip decode_utf8 : string → outcome exn string)
  (parse_ir : string → outcome exn ServiceIR).

(** [build_runtime_state]; the executors a caller passes win over the ones it
    builds. *)
Definition build_runtime_state {S} (handler : ServiceIR → ToolHandler S) (service_ir_path : option string)
    (sql_given grpc_unary_given grpc_stream_given : bool) (grpc_unary_env grpc_stream_env : string) : outcome exn (RuntimeState S) :=
  match service_ir_path with
  | None => Ok (not_loaded None "SERVICE_IR_PATH is not configured.")
  | Some path =>
      match load_service_ir read_bytes gunzip decode_utf8 parse_ir path with
      | Raise e => if exn_is "RuntimeLoadError" e then Ok (not_loaded None (exn_str e)) else Raise e
      | Ok ir =>
          match ensure_no_secret_ref_name_collisions (runtime_secret_refs (ir_auth ir)) "runtime auth secret resolution" with
          | Raise e => Ok (not_loaded (Some ir) (exn_str e))
          | Ok _ =>
              let '(tools, registered) := register_ir_tools (Some (handler ir)) ir in
              match register_ir_resources ir with
              | Raise e => Raise e
              | Ok resources =>
                  Ok (mk_runtime_state (Some ir) None
                        (sql_given || _native_sql_runtime_enabled ir)
                        (grpc_unary_given || _native_grpc_unary_runtime_enabled grpc_unary_env ir)
                        (grpc_stream_given || _native_grpc_stream_runtime_enabled grpc_stream_env ir)
                        (if _native_event_bridge_enabled ir then Some (get_event_bridge_client (_dominant_event_transport ir)) else None)
                        (_native_webhook_enabled ir) tools registered resources (register_ir_prompts ir) (sla_budgets registered))
              end
          end
      end
  end.
End building.

(** ** Parameter names are usable *)

(** The candidates the suffix loop tries *)
Definition nth_name (candidate : string) (k : nat) : string :=
  match k with O => candidate | S k' => suffixed candidate (2 + Z.of_nat k') end.

Lemma length_str_app s t : String.length (s +:+ t) = (String.length s + String.length t)%nat.
Proof. induction s as [|c s IH]; [done|]. simpl. by f_equal. Qed.

Lemma suffixed_ne candidate suffix : suffixed candidate suffix ≠ candidate.
Proof. intros E%(f_equal String.length). unfold suffixed in E. rewrite length_str_app in E. simpl in E. lia. Qed.

Lemma nth_name_inj candidate : Inj (=) (=) (nth_name candidate).
Proof.
  intros [|j] [|k] H; simpl in H; try done.
  - symmetry in H. by apply suffixed_ne in H.
  - by apply suffixed_ne in H.
  - apply str_app_inj_l in H. injection H as H%str_of_Z_inj. f_equal. lia.
Qed.

Lemma unused_name_found candidate existing fuel k :
  (fuel + k = length existing)%nat → (∀ j, (j < k)%nat → nth_name candidate j ∈ existing) →
  is_Some (unused_name fuel candidate existing (nth_name candidate k) (2 + Z.of_nat k)).
Proof.
  revert k. induction fuel as [|fuel IH]; intros k Hk Hall; simpl; case_bool_decide as Hin; try by eexists.
  - exfalso. assert (length (nth_name candidate <$> seq 0 (S k)) ≤ length existing)%nat as Hlen.
    { apply submseteq_length, NoDup_submseteq; [apply NoDup_fmap; [apply nth_name_inj|apply NoDup_seq]|].
      intros x (j & -> & Hj%elem_of_seq)%list_elem_of_fmap. destruct (decide (j = k)) as [->|]; [done|]. apply Hall. lia. }
    rewrite length_fmap, length_seq in Hlen. lia.
  - replace (2 + Z.of_nat k + 1) with (2 + Z.of_nat (S k)) by lia.
    apply (IH (S k)); [lia|]. intros j Hj. destruct (decide (j = k)) as [->|]; [done|]. apply Hall. lia.
Qed.

Lemma unused_name_free fuel candidate existing unique suffix name :
  unused_name fuel candidate existing unique suffix = Some name → name ∉ existing.
Proof.
  revert unique suffix. induction fuel as [|fuel IH]; intros unique suffix; simpl; case_bool_decide; try done;
    try (by intros [= <-]); apply IH.
Qed.

Lemma unused_name_shape fuel candidate existing unique suffix name : 0 ≤ suffix →
  unused_name fuel candidate existing unique suffix = Some name →
  name = unique ∨ ∃ n, 0 ≤ n ∧ name = suffixed candidate n.
Proof.
  revert unique suffix. induction fuel as [|fuel IH]; intros unique suffix Hs; simpl; case_bool_decide; try done;
    try (intros [= <-]; by left). intros [->|(n & Hn & ->)]%IH; [right; by eexists|right; by eexists|lia].
Qed.

(** The name is always found: the default of the definition is never used. *)
Lemma parameter_name_found name existing :
  unused_name (length existing) (candidate_name name) existing (candidate_name name) 2
  = Some (_python_parameter_name name existing).
Proof.
  unfold _python_parameter_name.
  destruct (unused_name_found (candidate_name name) existing (length existing) 0) as [n E]; [lia|lia|].
  change (2 + Z.of_nat 0) with 2 in E. cbn [nth_name] in E. by rewrite E.
Qed.

Definition is_identifier (s : string) : bool :=
  match s with String c _ => is_alpha c && str_all word_char s | EmptyString => false end && negb (bool_decide (s ∈ kwlist)).

Lemma kwlist_alpha s : s ∈ kwlist → str_all is_alpha s = true.
Proof.
  assert (Forall (λ s, str_all is_alpha s = true) kwlist) as H by by_eval.
  rewrite Forall_forall in H. apply H.
Qed.

Lemma underscore_not_keyword s t : s +:+ "_" +:+ t ∉ kwlist.
Proof. intros H%kwlist_alpha. rewrite !str_all_app in H. simpl in H. by destruct (str_all is_alpha s). Qed.

Lemma pretty_digits n s : str_all word_char s = true → str_all word_char (pretty_N_go n s) = true.
Proof.
  revert s. induction (N.lt_wf_0 n) as [n _ IH]. intros s Hs. destruct (decide (n = 0)%N) as [->|Hn]; [done|].
  rewrite pretty_N_go_step by lia. apply IH; [apply N.div_lt; lia|]. unfold str_all in *. simpl. rewrite Hs, andb_true_r.
  unfold pretty_N_char. repeat case_match; done.
Qed.

Lemma str_of_Z_word n : 0 ≤ n → str_all word_char (str_of_Z n) = true.
Proof.
  intros Hn. unfold str_of_Z, pretty, pretty_Z. destruct n as [|p|p]; [done| |lia].
  change (str_all word_char (pretty (N.pos p)) = true). unfold pretty, pretty_N. case_decide; [done|]. by apply pretty_digits.
Qed.

Lemma map_word s : str_all word_char (map_str (λ c, if word_char c then c else "_"%char) s) = true.
Proof.
  induction s as [|c s IH]; [done|]. unfold str_all in *. simpl. rewrite IH, andb_true_r. by destruct (word_char c) eqn:E.
Qed.

Lemma lstrip_char_all p c s : str_all p s = true → str_all p (lstrip_char c s) = true.
Proof. unfold str_all. induction s as [|a s IH]; [done|]. simpl. case_bool_decide; [|done]. intros [_ Hs]%andb_true_iff. by apply IH. Qed.

Lemma lstrip_char_head c s a s' : lstrip_char c s = String a s' → a ≠ c.
Proof. induction s as [|b s IH]; [done|]. simpl. case_bool_decide; [done|]. by intros [= <- _]. Qed.

Lemma rstrip_char_all p c s : str_all p s = true → str_all p (rstrip_char c s) = true.
Proof.
  unfold str_all. induction s as [|a s IH]; [done|]. simpl. intros [Ha H]%andb_true_iff. specialize (IH H).
  destruct (rstrip_char c s) as [|b r]; [case_bool_decide; [done|simpl; by rewrite Ha]|]. simpl in *. by rewrite Ha, IH.
Qed.

Lemma rstrip_char_head c a s : a ≠ c → ∃ s', rstrip_char c (String a s) = String a s'.
Proof. intros H. simpl. destruct (rstrip_char c s); [rewrite bool_decide_false by done|]; by eexists. Qed.

Lemma word_name_shape name :
  word_name name = "" ∨ ∃ c s, word_name name = String c s ∧ (is_alpha c || is_digit c) = true ∧ str_all word_char s = true.
Proof.
  unfold word_name. set (m := map_str _ name). assert (str_all word_char (lstrip_char "_" m) = true) as Hall.
  { apply lstrip_char_all, map_word. }
  destruct (lstrip_char "_" m) as [|c s] eqn:E; [by left|]. right. pose proof (lstrip_char_head _ _ _ _ E) as Hc.
  destruct (rstrip_char_head "_" c s Hc) as [s' Es]. exists c, s'. split; [done|].
  apply (rstrip_char_all _ "_") in Hall. rewrite Es in Hall. unfold str_all in *. simpl in Hall.
  apply andb_true_iff in Hall as [Hw Hs]. split; [|done]. unfold word_char in Hw. rewrite bool_decide_false, orb_false_r in Hw by done.
  done.
Qed.

(** Names that start with a letter and go on with word characters *)
Definition word_start (s : string) : bool := match s with String c s' => is_alpha c && str_all word_char s' | EmptyString => false end.

Lemma word_start_app s t : word_start s = true → str_all word_char t = true → word_start (s +:+ t) = true.
Proof.
  destruct s as [|c s]; [done|]. simpl. intros [-> Hs]%andb_true_iff Ht. simpl. by rewrite str_all_app, Hs, Ht.
Qed.

Lemma is_identifier_start s : word_start s = true → s ∉ kwlist → is_identifier s = true.
Proof.
  intros Hs Hk. unfold is_identifier. rewrite bool_decide_false by done. rewrite andb_true_r. destruct s as [|c s]; [done|].
  simpl in Hs. apply andb_true_iff in Hs as [Ha Hs]. rewrite Ha. unfold str_all in *. simpl. rewrite Hs, andb_true_r.
  unfold word_char. by rewrite Ha.
Qed.

Lemma candidate_start name : word_start (candidate_name name) = true ∧ candidate_name name ∉ kwlist.
Proof.
  unfold candidate_name. set (c1 := if str_truthy (word_name name) then _ else _).
  set (c2 := if starts_with_digit c1 then _ else c1).
  assert (word_start c2 = true) as H2.
  { subst c2 c1. destruct (word_name_shape name) as [->|(c & s & -> & Hc & Hs)]; [done|]. simpl.
    destruct (is_digit c) eqn:Ed.
    - simpl. unfold str_all in *. simpl. rewrite Hs, andb_true_r. unfold word_char. by rewrite Ed, orb_true_r.
    - rewrite orb_false_r in Hc. simpl. by rewrite Hc, Hs. }
  case_bool_decide; [|done]. split; [by apply word_start_app|]. apply (underscore_not_keyword c2 "").
Qed.

Lemma parameter_name_identifier name existing : is_identifier (_python_parameter_name name existing) = true.
Proof.
  pose proof (parameter_name_found name existing) as E. destruct (candidate_start name) as [Hs Hk].
  apply unused_name_shape in E as [->|(n & Hn & ->)]; [by apply is_identifier_start| |lia].
  apply is_identifier_start; [|apply underscore_not_keyword]. apply word_start_app; [done|]. by rewrite str_all_app, str_of_Z_word.
Qed.

Lemma parameter_name_fresh name existing : _python_parameter_name name existing ∉ existing.
Proof. eapply unused_name_free, parameter_name_found. Qed.

Lemma name_params_app m params : ∃ m', name_params m params = m ++ m' ∧ m'.*2 = pa_name <$> params ∧
  (dict_wf m → dict_wf (m ++ m')) ∧ Forall (λ k, is_identifier k = true) (dict_keys m').
Proof.
  revert m. induction params as [|p params IH]; intros m; simpl.
  { exists []. rewrite app_nil_r. by split_and!. }
  pose proof (parameter_name_fresh (pa_name p) (dict_keys m)) as Hf.
  set (n := _python_parameter_name _ _) in *. destruct (IH (dict_set m n (pa_name p))) as (m' & -> & Hn & Hwf & Hid).
  rewrite (dict_set_fresh _ _ _ Hf) in *. exists ((n, pa_name p) :: m'). rewrite <-app_assoc in *. split_and!.
  - done.
  - cbn. by f_equal.
  - intros Hm. apply Hwf. rewrite <-(dict_set_fresh _ _ _ Hf). by apply dict_wf_set.
  - constructor; [apply parameter_name_identifier|done].
Qed.

Lemma param_name_map_names o : (param_name_map o).*2 = pa_name <$> op_params o.
Proof. unfold param_name_map. by destruct (name_params_app [] (op_params o)) as (m & -> & ? & _). Qed.

Lemma param_name_map_wf o : dict_wf (param_name_map o).
Proof. unfold param_name_map. destruct (name_params_app [] (op_params o)) as (m & -> & _ & H & _). apply H. constructor. Qed.

Lemma param_name_map_identifiers o : Forall (λ k, is_identifier k = true) (dict_keys (param_name_map o)).
Proof. unfold param_name_map. by destruct (name_params_app [] (op_params o)) as (m & -> & _ & _ & ?). Qed.

(** ** Arguments arrive under their own names *)

Definition keep_value (acc : dict pyval) (kv : string * pyval) : dict pyval :=
  if dict_mem acc kv.1 && is_none kv.2 then acc else dict_set acc kv.1 kv.2.

(** What a name stands for in a list of arguments: its last value that is not
    [None], or [None] when every value of it is. *)
Definition passed (l : list (string * pyval)) (n : string) : option pyval :=
  match List.filter (λ kv, str_eqb kv.1 n) l with
  | [] => None
  | vs => Some (default VNone (last (List.filter (λ v, negb (is_none v)) vs.*2)))
  end.

Lemma keep_value_wf l acc : dict_wf acc → dict_wf (foldl keep_value acc l).
Proof.
  revert acc. induction l as [|kv l IH]; intros acc Hacc; [done|]. apply IH. unfold keep_value.
  destruct (_ && _); [done|by apply dict_wf_set].
Qed.

Lemma keep_value_get l n : dict_get (foldl keep_value [] l) n = passed l n.
Proof.
  induction l as [|[k v] l IH] using rev_ind; [done|]. rewrite foldl_app. cbn [foldl].
  unfold keep_value at 1, passed. cbn [fst snd]. rewrite List.filter_app. cbn [List.filter fst].
  destruct (str_eqbP k n) as [->|Hne].
  - rewrite dict_mem_get. unfold passed in IH. rewrite IH. destruct (List.filter (λ kv, str_eqb kv.1 n) l) as [|p ps]; cbn [andb].
    + rewrite dict_get_set_eq. by destruct v.
    + cbn [app]. change (p :: ps ++ [(n, v)]) with ((p :: ps) ++ [(n, v)]). rewrite fmap_app, List.filter_app, last_app. destruct v; [exact IH|apply dict_get_set_eq..].
  - rewrite app_nil_r. destruct (_ && _); [by rewrite IH|]. rewrite dict_get_set_ne by done. by rewrite IH.
Qed.

Lemma restore_names_eq m ms acc values : dict_wf m → ms `suffix_of` m →
  length values = length ms →
  restore_names m acc (zip ms.*1 values) = Ok (foldl keep_value acc (zip ms.*2 (_unwrap_pydantic <$> values))).
Proof.
  intros Hm. revert acc values. induction ms as [|[k n] ms IH]; intros acc [|v values] Hs Hl; try done. cbn.
  rewrite (dict_get_elem m k n Hm).
  - rewrite IH; [done| |by injection Hl]. destruct Hs as [m0 ->]. exists (m0 ++ [(k, n)]). by rewrite <-app_assoc.
  - destruct Hs as [m0 ->]. apply elem_of_app. right. left.
Qed.

Section delivery.
Context {S : Type}.

(** C22. A tool's parameters are usable and its arguments arrive.  Whatever the
    parameters of an operation are called, the tool built for it has one parameter
    for each, in order, with pairwise different names that are Python identifiers
    and no keywords; the search for an unused name always ends.  Calling the tool
    with a value for each of them runs the handler on the operation with arguments
    under the description's names, where each name has the last value given for it
    that is not [None]. *)
Theorem tool_calls_delivered (h : ToolHandler S) o values :
  length values = length (op_params o) →
  let m := param_name_map o in
  m.*2 = pa_name <$> op_params o ∧ NoDup m.*1 ∧ Forall (λ k, is_identifier k = true) m.*1 ∧
  ∃ arguments, tool_impl (Some h) o (zip m.*1 values) = h o arguments ∧ dict_wf arguments ∧
    ∀ n, dict_get arguments n = passed (zip (pa_name <$> op_params o) (_unwrap_pydantic <$> values)) n.
Proof.
  intros Hl m. pose proof (param_name_map_names o) as Hn. split_and!; [done|apply param_name_map_wf|apply param_name_map_identifiers|].
  unfold tool_impl. fold m in Hn |- *. rewrite (restore_names_eq m m); [|apply param_name_map_wf|done|].
  - eexists. split; [done|]. rewrite <-Hn. split; [apply keep_value_wf; constructor|apply keep_value_get].
  - by rewrite Hl, <-(length_fmap pa_name), <-Hn, length_fmap.
Qed.
End delivery.

Definition demo_params : list Param :=
  [mk_param "user-id" "string" true "" VNone None src_extractor 1; mk_param "index" "integer" true "" VNone None src_extractor 1;
   mk_param "index" "integer" false "" VNone None src_extractor 1; mk_param "class" "string" false "" VNone None src_extractor 1].

Definition demo_tool_op : Operation :=
  mk_operation "getPet" "getPet" "" (Some "get") (Some "/pets") demo_params None (mk_error_schema [] None) [] (demo_risk safe)
    (mk_strategy None None None None trunc_none) body_json None None None None None None None None None [] None src_extractor 1 None true.

Lemma tool_calls_delivered_witness :
  dict_keys (param_name_map demo_tool_op) = ["user_id"; "index"; "index_2"; "class_"] ∧
  ∃ arguments : dict pyval,
    tool_impl (Some (λ _ args (s : unit), (Ok args, s))) demo_tool_op
      [("user_id", Plain (VStr "u")); ("index", Plain (VInt 7)); ("index_2", Plain VNone); ("class_", Plain (VStr "c"))] tt
    = (Ok arguments, tt) ∧
    dict_get arguments "user-id" = Some (VStr "u") ∧ dict_get arguments "index" = Some (VInt 7).
Proof.
  split; [vm_compute; reflexivity|].
  destruct (tool_calls_delivered (λ _ args (s : unit), (Ok args, s)) demo_tool_op
    [Plain (VStr "u"); Plain (VInt 7); Plain VNone; Plain (VStr "c")] eq_refl) as (_ & _ & _ & arguments & Hrun & _ & Hget).
  exists arguments. split; [|split].
  - exact (f_equal (λ m, m tt) Hrun).
  - exact (Hget "user-id").
  - exact (Hget "index").
Defined.

(** ** What a built state guarantees *)

Definition reader_sound (ir : ServiceIR) (rf : ResourceDefinition * reader) : Prop :=
  match rf.2 with
  | ReadStatic content => content = default "" (rd_content rf.1)
  | ReadDynamic o _ => o ∈ ir_operations ir ∧ op_enabled o = true ∧ rd_operation_id rf.1 = Some (op_id o)
  end.

Lemma registered_get l i o : NoDup (op_id <$> l) →
  dict_get (foldl (λ registered o, dict_set registered (op_id o) o) [] l) i = Some o ↔ o ∈ l ∧ op_id o = i.
Proof.
  intros Hnd. induction l as [|o' l IH] using rev_ind; simpl.
  { split; [done|]. intros [H _]. by apply elem_of_nil in H. }
  rewrite fmap_app in Hnd. apply NoDup_app in Hnd as (Hl & Hd & _). specialize (IH Hl).
  rewrite foldl_app. cbn [foldl]. rewrite dict_get_set, elem_of_app, list_elem_of_singleton.
  destruct (str_eqbP i (op_id o')) as [->|Hne].
  - split; [intros [= ->]; split; [by right|done]|]. intros [[Hin| ->] Ho]; [|done]. exfalso. apply (Hd (op_id o')).
    + rewrite <-Ho. by apply list_elem_of_fmap_2.
    + left.
  - rewrite IH. naive_solver.
Qed.

Lemma dict_of_list_unique {A} (f : A → string) l :
  dict_of_list ((λ a, (f a, a)) <$> l) = foldl (λ d a, dict_set d (f a) a) [] l.
Proof.
  unfold dict_of_list, dict_update. generalize (@nil (string * A)). induction l as [|a l IH]; intros d; [done|].
  cbn. apply IH.
Qed.

Section runtime_state.
Context (read_bytes : string → outcome exn string) (gunzip decode_utf8 : string → outcome exn string)
  (parse_ir : string → outcome exn ServiceIR).
Context {S : Type} (handler : ServiceIR → ToolHandler S).

Lemma load_service_ir_valid path ir :
  load_service_ir read_bytes gunzip decode_utf8 parse_ir path = Ok ir → service_wf ir ∧ Forall operation_wf (ir_operations ir).
Proof.
  unfold load_service_ir. destruct (as_load_error _ _ (read_bytes path)) as [payload|]; [|done].
  destruct (as_load_error ("UnicodeDecodeError" :: os_errors) _ _) as [json|]; [|done]. unfold deserialize_ir.
  destruct (parse_ir json) as [raw|e]; simpl; [|by destruct (one_of _ _)].
  destruct (validate_ServiceIR raw) as [ir'|e] eqn:E; simpl; [|by destruct (one_of _ _)]. intros [= ->]. by eapply validated_wf.
Qed.

Lemma enabled_operation_sound ir i o : NoDup (op_ids ir) → enabled_operation ir i = Some o →
  o ∈ ir_operations ir ∧ op_enabled o = true ∧ op_id o = i.
Proof.
  intros Hnd. unfold enabled_operation. rewrite (dict_of_list_unique op_id). intros H.
  apply registered_get in H as [[He Hin]%elem_of_filterb Ho]; [done|]. by apply NoDup_fmap_filterb.
Qed.

Lemma resources_sound ir resources : NoDup (op_ids ir) → register_ir_resources ir = Ok resources →
  resources.*1 = ir_resource_definitions ir ∧ Forall (reader_sound ir) resources.
Proof.
  intros Hnd. unfold register_ir_resources. intros H%traverse_ok. induction H as [|r rf rs rfs Hr _ [IH1 IH2]]; [done|].
  destruct (resource_reader ir r) as [f|e] eqn:E; [|done]. injection Hr as <-. split; [cbn; by f_equal|]. constructor; [|done].
  unfold resource_reader in E. unfold reader_sound. cbn [fst snd].
  destruct (str_eqb _ _); [|by injection E as <-]. destruct (rd_operation_id r) as [i|]; [|done].
  destruct (enabled_operation ir i) as [o|] eqn:Eo; [|done]. destruct (_dynamic_resource_arguments r o); [|done].
  injection E as <-. apply enabled_operation_sound in Eo as (Hin & He & <-); [done|done].
Qed.

(** A runtime either offers a valid service or says why not.  When the state of
    a runtime is built, it either carries a load error, is not loaded and offers no
    tool; or it holds a description that validation accepts, offers exactly one
    tool for each enabled operation, under that operation's id and in order, with
    the registered operations found under their ids, registers every resource of
    the description, the dynamic ones on enabled operations of the description,
    and no two secret references it resolves are mistaken for one another. *)
Theorem runtime_state_sound path sql_given grpc_unary_given grpc_stream_given unary_env stream_env s :
  build_runtime_state read_bytes gunzip decode_utf8 parse_ir handler path sql_given grpc_unary_given grpc_stream_given
    unary_env stream_env = Ok s →
  match rs_load_error s with
  | Some _ => is_loaded s = false ∧ rs_tools s = [] ∧ rs_registered_operations s = []
  | None =>
      ∃ ir, rs_service_ir s = Some ir ∧ service_wf ir ∧ Forall operation_wf (ir_operations ir) ∧
        tl_name <$> rs_tools s = op_id <$> List.filter op_enabled (ir_operations ir) ∧ NoDup (tl_name <$> rs_tools s) ∧
        (∀ i o, dict_get (rs_registered_operations s) i = Some o ↔ o ∈ ir_operations ir ∧ op_enabled o = true ∧ op_id o = i) ∧
        (rs_resources s).*1 = ir_resource_definitions ir ∧ Forall (reader_sound ir) (rs_resources s) ∧
        (∀ r t, r ∈ runtime_secret_refs (ir_auth ir) → t ∈ runtime_secret_refs (ir_auth ir) →
           normalized_secret_ref_name r = normalized_secret_ref_name t → r = t)
  end.
Proof.
  unfold build_runtime_state. destruct path as [path|]; [|by intros [= <-]].
  destruct (load_service_ir read_bytes gunzip decode_utf8 parse_ir path) as [ir|e] eqn:El.
  2: { destruct (exn_is _ e); [|done]. by intros [= <-]. }
  apply load_service_ir_valid in El as [Hwf Hops].
  destruct (ensure_no_secret_ref_name_collisions _ _) as [[]|e] eqn:Es; [|by intros [= <-]].
  destruct (register_ir_resources ir) as [resources|e] eqn:Er; [|done]. intros [= <-]. cbn. exists ir.
  pose proof (wf_op_ids _ Hwf) as Hnd. apply resources_sound in Er as [Hr1 Hr2]; [|done].
  assert (NoDup (op_id <$> List.filter op_enabled (ir_operations ir))) as Hf by by apply NoDup_fmap_filterb.
  assert (tl_name <$> (build_tool (Some (handler ir)) <$> List.filter op_enabled (ir_operations ir))
    = op_id <$> List.filter op_enabled (ir_operations ir)) as Ht by by rewrite <-list_fmap_compose.
  split_and!; try done.
  - by rewrite Ht.
  - intros i o. rewrite registered_get by done. rewrite elem_of_filterb. tauto.
  - by eapply ensure_ok_iff.
Qed.
End runtime_state.

Definition demo_state : outcome exn (RuntimeState unit) :=
  build_runtime_state (λ _, Ok "{}") Ok Ok (λ _, Ok demo_ir) (λ _ _ args s, (Ok args, s)) (Some "/etc/service.json") false false false "" "".

Lemma runtime_state_sound_witness : ∃ s, demo_state = Ok s ∧ is_loaded s = true ∧ NoDup (tl_name <$> rs_tools s).
Proof.
  destruct demo_state as [s|e] eqn:E; [|vm_compute in E; discriminate E]. exists s. split; [reflexivity|].
  pose proof (runtime_state_sound (λ _, Ok "{}") Ok Ok (λ _, Ok demo_ir) (λ _ _ args s, (Ok args, s)) (Some "/etc/service.json")
    false false false "" "" s E) as H.
  assert (rs_load_error s = None ∧ is_loaded s = true) as [Hl Hi] by (vm_compute in E; injection E as <-; vm_compute; by split).
  rewrite Hl in H. destruct H as (ir & _ & _ & _ & _ & Hnd & _). by split.
Defined.

(** ** Behaviours worth knowing *)

(** A compressed file that ends early raises [EOFError], which is not among the
    exceptions turned into a load error: the runtime does not start at all. *)
Example truncated_gzip_escapes :
  load_service_ir (λ _, Ok gzip_magic) (λ _, Raise (mk_exn "EOFError" "" [])) Ok (λ _, Ok demo_ir) "ir.json.gz"
  = Raise (mk_exn "EOFError" "" []).
Proof. vm_compute. reflexivity. Qed.

Definition demo_event (i : string) (t : EventTransport) : EventDescriptor := mk_event i i "" t inbound supported None None None None [].
Definition ir_with_events (ir : ServiceIR) (events : list EventDescriptor) : ServiceIR :=
  mk_ir (ir_version ir) (ir_compiler_version ir) (ir_source_url ir) (ir_source_hash ir) (ir_protocol ir)
    (ir_service_name ir) (ir_service_description ir) (ir_base_url ir) (ir_auth ir) (ir_operations ir) (ir_operation_chains ir)
    (ir_tool_grouping ir) events (ir_resource_definitions ir) (ir_prompt_definitions ir)
    (ir_metadata ir) (ir_created_at ir) (ir_tenant ir) (ir_environment ir).

(** The broker client is chosen by the first event whatever its transport: a
    service with a stream before its Kafka topic gets the stub. *)
Example stream_before_broker_gets_stub :
  let ir := ir_with_events demo_ir [demo_event "a" sse; demo_event "b" kafka] in
  _native_event_bridge_enabled ir = true ∧ get_event_bridge_client (_dominant_event_transport ir) = StubEventBridgeClient.
Proof. vm_compute. by split. Qed.

(** Arguments are substituted one after the other: braces in a value are taken for
    the next argument's placeholder. *)
Example prompt_value_is_substituted_again :
  get_prompt "{a} and {b}" [mk_prompt_argument "a" "" true None; mk_prompt_argument "b" "" true None]
    [("a", "{b}"); ("b", "secret")] = "secret and secret".
Proof. vm_compute. reflexivity. Qed.

(** A declared default takes no part in the substitution. *)
Example prompt_default_is_not_used :
  get_prompt "Explore {service_name}" [mk_prompt_argument "service_name" "" false (Some "pets")] [] = "Explore {service_name}".
Proof. vm_compute. reflexivity. Qed.
