(* ===== verification/CompileModels.v ===== *)
(** * Compilation models ([apps/compiler_worker/models.py])

    The stages, statuses and events of a compilation job, the request and its
    task payload, and the reserved option namespace in which the worker keeps
    its replay, checkpoint and rollback metadata. *)

From S2P Require Export PyExn.

(** ** Enumerations *)

Inductive CompilationStage :=
| DETECT | EXTRACT | ENHANCE | VALIDATE_IR | GENERATE | DEPLOY
| VALIDATE_RUNTIME | ROUTE | REGISTER.

Inductive CompilationStatus := PENDING | RUNNING | SUCCEEDED | FAILED | ROLLED_BACK.

Inductive CompilationEventType :=
| JOB_CREATED | JOB_STARTED | JOB_SUCCEEDED | JOB_FAILED | JOB_ROLLED_BACK
| STAGE_STARTED | STAGE_SUCCEEDED | STAGE_RETRYING | STAGE_FAILED
| ROLLBACK_STARTED | ROLLBACK_SUCCEEDED | ROLLBACK_FAILED.

#[global] Instance stage_eq_dec : EqDecision CompilationStage.
Proof. solve_decision. Defined.
#[global] Instance status_eq_dec : EqDecision CompilationStatus.
Proof. solve_decision. Defined.
#[global] Instance event_type_eq_dec : EqDecision CompilationEventType.
Proof. solve_decision. Defined.

Definition stage_value (s : CompilationStage) : string :=
  match s with
  | DETECT => "detect" | EXTRACT => "extract" | ENHANCE => "enhance"
  | VALIDATE_IR => "validate_ir" | GENERATE => "generate" | DEPLOY => "deploy"
  | VALIDATE_RUNTIME => "validate_runtime" | ROUTE => "route" | REGISTER => "register"
  end.

Definition status_value (s : CompilationStatus) : string :=
  match s with
  | PENDING => "pending" | RUNNING => "running" | SUCCEEDED => "succeeded"
  | FAILED => "failed" | ROLLED_BACK => "rolled_back"
  end.

Definition event_type_value (t : CompilationEventType) : string :=
  match t with
  | JOB_CREATED => "job.created" | JOB_STARTED => "job.started"
  | JOB_SUCCEEDED => "job.succeeded" | JOB_FAILED => "job.failed"
  | JOB_ROLLED_BACK => "job.rolled_back"
  | STAGE_STARTED => "stage.started" | STAGE_SUCCEEDED => "stage.succeeded"
  | STAGE_RETRYING => "stage.retrying" | STAGE_FAILED => "stage.failed"
  | ROLLBACK_STARTED => "rollback.started" | ROLLBACK_SUCCEEDED => "rollback.succeeded"
  | ROLLBACK_FAILED => "rollback.failed"
  end.

Definition all_stages : list CompilationStage :=
  [DETECT; EXTRACT; ENHANCE; VALIDATE_IR; GENERATE; DEPLOY; VALIDATE_RUNTIME; ROUTE; REGISTER].
Definition all_statuses : list CompilationStatus := [PENDING; RUNNING; SUCCEEDED; FAILED; ROLLED_BACK].

(** [CompilationStage(value)]: [None] where the enum raises [ValueError]. *)
Definition parse_stage (v : string) : option CompilationStage :=
  List.find (λ s, str_eqb (stage_value s) v) all_stages.

Definition parse_status (v : string) : option CompilationStatus :=
  List.find (λ s, str_eqb (status_value s) v) all_statuses.

Lemma parse_stage_value s : parse_stage (stage_value s) = Some s.
Proof. by destruct s. Qed.

Lemma parse_status_value s : parse_status (status_value s) = Some s.
Proof. by destruct s. Qed.

#[export] Hint Rewrite parse_stage_value parse_status_value : py.

(** ** Stage configuration *)

Record RetryPolicy := mk_retry_policy { max_attempts : Z }.

Definition default_retry_policy : RetryPolicy := mk_retry_policy 3.

Record StageDefinition := mk_stage_definition {
  sd_stage : CompilationStage;
  sd_retry_policy : RetryPolicy;
  sd_rollback_enabled : bool;
}.

(** ** Requests *)

Record CompilationRequest := mk_request {
  rq_source_url : option string;
  rq_source_content : option string;
  rq_source_hash : option string;
  rq_filename : option string;
  rq_created_by : option string;
  rq_service_id : option string;
  rq_service_name : option string;
  rq_options : dict pyval;
  rq_job_id : option uuid;
}.

Definition to_payload (r : CompilationRequest) : outcome exn (dict pyval) :=
  if negb (opt_truthy (rq_source_url r)) && negb (opt_truthy (rq_source_content r))
  then Raise (value_error "Either source_url or source_content must be provided.")
  else Ok [
    ("source_url", opt_str (rq_source_url r));
    ("source_content", opt_str (rq_source_content r));
    ("source_hash", opt_str (rq_source_hash r));
    ("filename", opt_str (rq_filename r));
    ("created_by", opt_str (rq_created_by r));
    ("service_id", opt_str (rq_service_id r));
    ("service_name", opt_str (rq_service_name r));
    ("options", VDict (rq_options r));
    ("job_id", match rq_job_id r with Some u => VStr (uuid_str u) | None => VNone end)
  ].

(** A payload entry read into a [str | None] field.  An entry of another type
    would break the dataclass's annotation: the outer [None] marks payloads
    outside the model. *)
Definition str_field (payload : dict pyval) (k : string) : option (option string) :=
  match get_or_none payload k with
  | VStr s => Some (Some s)
  | VNone => Some None
  | _ => None
  end.

Definition from_payload (repr : pyval → string) (payload : dict pyval)
    : option (outcome exn CompilationRequest) :=
  let job_id_value := get_or_none payload "job_id" in
  let options := get_or_none payload "options" in
  source_url ← str_field payload "source_url";
  source_content ← str_field payload "source_content";
  source_hash ← str_field payload "source_hash";
  filename ← str_field payload "filename";
  created_by ← str_field payload "created_by";
  service_id ← str_field payload "service_id";
  service_name ← str_field payload "service_name";
  let request job_id :=
    mk_request source_url source_content source_hash filename created_by service_id
      service_name (match options with VDict d => d | _ => [] end) job_id in
  Some (match job_id_value with
        | VNone => Ok (request None)
        | v =>
            match uuid_parse (py_str repr v) with
            | Some u => Ok (request (Some u))
            | None => Raise (value_error "badly formed hexadecimal UUID string")
            end
        end).

(** ** The reserved option namespace *)

Definition INTERNAL_OPTION_PREFIX : string := "__compiler_".
Definition REQUEST_REPLAY_OPTION_KEY : string := INTERNAL_OPTION_PREFIX +:+ "request_replay".
Definition RESUME_CHECKPOINT_OPTION_KEY : string := INTERNAL_OPTION_PREFIX +:+ "resume_checkpoint".
Definition ROLLBACK_REQUEST_OPTION_KEY : string := INTERNAL_OPTION_PREFIX +:+ "rollback_request".

Definition is_internal (k : string) : bool := startswith INTERNAL_OPTION_PREFIX k.

Definition split_compilation_options (options : option (dict pyval))
    : dict pyval * dict pyval :=
  match options with
  | None => ([], [])
  | Some d =>
      foldl (λ acc kv,
        if is_internal kv.1
        then (acc.1, dict_set acc.2 kv.1 kv.2)
        else (dict_set acc.1 kv.1 kv.2, acc.2)) ([], []) d
  end.

(** [d or None] *)
Definition dict_or_none (d : dict pyval) : option (dict pyval) :=
  match d with [] => None | _ => Some d end.

Definition set_opt (k : string) (o : option string) (d : dict pyval) : dict pyval :=
  match o with Some v => dict_set d k (VStr v) | None => d end.

Definition store_compilation_request_options (request : CompilationRequest)
    : option (dict pyval) :=
  let '(public_options, internal_options) :=
    split_compilation_options (Some (rq_options request)) in
  let request_replay :=
    set_opt "service_id" (rq_service_id request)
      (set_opt "filename" (rq_filename request)
        (set_opt "source_content" (rq_source_content request) [])) in
  let internal_options :=
    match request_replay with
    | [] => internal_options
    | _ => dict_set internal_options REQUEST_REPLAY_OPTION_KEY (VDict request_replay)
    end in
  dict_or_none (dict_update public_options internal_options).

Definition public_compilation_options (options : option (dict pyval)) : option (dict pyval) :=
  dict_or_none (split_compilation_options options).1.

Definition compilation_request_replay (options : option (dict pyval)) : dict pyval :=
  match dict_get (split_compilation_options options).2 REQUEST_REPLAY_OPTION_KEY with
  | Some (VDict replay) => replay
  | _ => []
  end.

Definition store_compilation_checkpoint (options : option (dict pyval))
    (payload : dict pyval) (protocol service_name : option string)
    (completed_stage : string) : dict pyval :=
  let '(public_options, internal_options) := split_compilation_options options in
  let internal_options :=
    dict_set internal_options RESUME_CHECKPOINT_OPTION_KEY
      (VDict [("payload", VDict payload);
              ("protocol", opt_str protocol);
              ("service_name", opt_str service_name);
              ("completed_stage", VStr completed_stage)]) in
  dict_update public_options internal_options.

Record checkpoint := mk_checkpoint {
  cp_payload : dict pyval;
  cp_protocol : option string;
  cp_service_name : option string;
  cp_completed_stage : string;
}.

Definition compilation_resume_checkpoint (options : option (dict pyval)) : option checkpoint :=
  match dict_get (split_compilation_options options).2 RESUME_CHECKPOINT_OPTION_KEY with
  | Some (VDict cp) =>
      match get_or_none cp "payload", get_or_none cp "completed_stage" with
      | VDict payload, VStr completed_stage =>
          Some (mk_checkpoint payload (as_str (get_or_none cp "protocol"))
                  (as_str (get_or_none cp "service_name")) completed_stage)
      | _, _ => None
      end
  | _ => None
  end.

Definition normalize_scope_value (value : pyval) : option string :=
  match value with
  | VStr s => let normalized := strip s in
              if str_truthy normalized then Some normalized else None
  | _ => None
  end.

Definition request_scope_from_options (options : option (dict pyval))
    : option string * option string :=
  match options with
  | None => (None, None)
  | Some d => (normalize_scope_value (get_or_none d "tenant"),
               normalize_scope_value (get_or_none d "environment"))
  end.

Definition store_compilation_rollback_request (options : option (dict pyval))
    (source_job_id : uuid) (service_id : string) (target_version : Z)
    (tenant environment : option string) : dict pyval :=
  let '(public_options, internal_options) := split_compilation_options options in
  let rollback_request :=
    set_opt "environment" environment
      (set_opt "tenant" tenant
        [("source_job_id", VStr (uuid_str source_job_id));
         ("service_id", VStr service_id);
         ("target_version", VInt target_version)]) in
  dict_update public_options
    (dict_set internal_options ROLLBACK_REQUEST_OPTION_KEY (VDict rollback_request)).

Record rollback_metadata := mk_rollback_metadata {
  rm_source_job_id : uuid;
  rm_service_id : string;
  rm_target_version : Z;
  rm_tenant : option string;
  rm_environment : option string;
}.

Definition compilation_rollback_request (options : option (dict pyval))
    : option rollback_metadata :=
  match dict_get (split_compilation_options options).2 ROLLBACK_REQUEST_OPTION_KEY with
  | Some (VDict rr) =>
      service_id ← as_str (get_or_none rr "service_id");
      source_job_id ← as_str (get_or_none rr "source_job_id");
      resolved ← uuid_parse source_job_id;
      target_version ← as_int (get_or_none rr "target_version");
      Some (mk_rollback_metadata resolved service_id target_version
              (normalize_scope_value (get_or_none rr "tenant"))
              (normalize_scope_value (get_or_none rr "environment")))
  | _ => None
  end.

(** ** Workflow records *)

Record StageExecutionResult := mk_stage_result {
  sr_context_updates : dict pyval;
  sr_event_detail : option (dict pyval);
  sr_rollback_payload : option (dict pyval);
  sr_protocol : option string;
  sr_service_name : option string;
}.

Record CompilationContext := mk_context {
  cx_job_id : uuid;
  cx_request : CompilationRequest;
  cx_payload : dict pyval;
  cx_protocol : option string;
  cx_service_name : option string;
  cx_stage_results : list (CompilationStage * StageExecutionResult);
}.

(** [context.stage_results.get(stage)] *)
Definition stage_result (cx : CompilationContext) (s : CompilationStage)
    : option StageExecutionResult :=
  snd <$> List.find (λ kv, bool_decide (kv.1 = s)) (cx_stage_results cx).

Record CompilationResult := mk_result {
  cr_job_id : uuid;
  cr_status : CompilationStatus;
  cr_final_stage : CompilationStage;
  cr_payload : dict pyval;
}.

(** ** The split and its laws *)

Definition external_part (d : dict pyval) : dict pyval :=
  List.filter (λ kv, negb (is_internal kv.1)) d.
Definition internal_part (d : dict pyval) : dict pyval :=
  List.filter (λ kv, is_internal kv.1) d.

Definition only_internal (d : dict pyval) : Prop := Forall (λ kv, is_internal kv.1 = true) d.
Definition only_public (d : dict pyval) : Prop := Forall (λ kv, is_internal kv.1 = false) d.

Lemma keys_filter_sub (P : string * pyval → bool) (d : dict pyval) k :
  k ∈ dict_keys (List.filter P d) → k ∈ dict_keys d.
Proof.
  unfold dict_keys. rewrite !list_elem_of_fmap. intros (kv & -> & Hin).
  exists kv. split; [done|]. apply list_elem_of_In, filter_In in Hin as [Hin _].
  by apply list_elem_of_In.
Qed.

Lemma dict_wf_filter (P : string * pyval → bool) (d : dict pyval) :
  dict_wf d → dict_wf (List.filter P d).
Proof.
  unfold dict_wf. induction d as [|kv d IH]; simpl; [done|].
  intros [Hk Hd]%NoDup_cons. destruct (P kv); simpl; [|auto].
  apply NoDup_cons. split; [|auto]. intros Hin. by apply Hk, (keys_filter_sub P).
Qed.

Lemma split_accumulates d p i :
  (∀ k, k ∈ dict_keys d → (k ∉ dict_keys p) ∧ (k ∉ dict_keys i)) → dict_wf d →
  foldl (λ acc kv, if is_internal kv.1 then (acc.1, dict_set acc.2 kv.1 kv.2)
                   else (dict_set acc.1 kv.1 kv.2, acc.2)) (p, i) d
  = (p ++ external_part d, i ++ internal_part d).
Proof.
  unfold dict_wf. revert p i. induction d as [|[k v] d IH]; intros p i Hfresh; simpl.
  { by rewrite !app_nil_r. }
  intros [Hk Hd]%NoDup_cons.
  destruct (Hfresh k) as [Hp Hi]; [left|].
  assert (∀ k', k' ∈ dict_keys d → k' ≠ k) as Hne by (intros k' Hk' ->; done).
  unfold external_part, internal_part. simpl.
  destruct (is_internal k); simpl; rewrite ?dict_set_fresh by done; rewrite IH; try done.
  1,3: f_equal; by rewrite <-(assoc_L (++)).
  all: intros k' Hk'; destruct (Hfresh k') as [??]; [by right|];
    unfold dict_keys; rewrite ?fmap_app, ?not_elem_of_app; simpl;
    pose proof (Hne k' Hk'); set_solver.
Qed.

Lemma split_wf d :
  dict_wf d → split_compilation_options (Some d) = (external_part d, internal_part d).
Proof. intros Hd. unfold split_compilation_options. rewrite split_accumulates; [done| |done]. set_solver. Qed.

Lemma external_public d : only_public (external_part d).
Proof.
  apply Forall_forall. intros kv Hin. apply list_elem_of_In, filter_In in Hin as [_ H].
  by apply negb_true_iff.
Qed.

Lemma internal_internal d : only_internal (internal_part d).
Proof. apply Forall_forall. intros kv Hin. by apply list_elem_of_In, filter_In in Hin as [_ H]. Qed.

Lemma only_internal_set d k v :
  only_internal d → is_internal k = true → only_internal (dict_set d k v).
Proof.
  unfold only_internal. induction 1 as [|[k' v'] d Hk Hd IH]; intros Hi; simpl.
  - by apply Forall_singleton.
  - case_eqb; (apply Forall_cons_2; [done|auto]).
Qed.

Lemma external_app d e : external_part (d ++ e) = external_part d ++ external_part e.
Proof. apply List.filter_app. Qed.
Lemma internal_app d e : internal_part (d ++ e) = internal_part d ++ internal_part e.
Proof. apply List.filter_app. Qed.

Lemma parts_of_public d : only_public d → external_part d = d ∧ internal_part d = [].
Proof.
  induction 1 as [|[k v] d Hk _ [IH1 IH2]]; [done|].
  unfold external_part, internal_part in *. simpl in *. rewrite Hk. simpl. by rewrite IH1.
Qed.
Lemma parts_of_internal d : only_internal d → external_part d = [] ∧ internal_part d = d.
Proof.
  induction 1 as [|[k v] d Hk _ [IH1 IH2]]; [done|].
  unfold external_part, internal_part in *. simpl in *. rewrite Hk. simpl. by rewrite IH2.
Qed.

(** The namespaces are disjoint, so joining and splitting are inverse. *)
Lemma merge_disjoint p i :
  only_public p → only_internal i → dict_wf i → dict_update p i = p ++ i.
Proof.
  intros Hp Hi Hwf. apply dict_update_fresh; [done|].
  intros k (kv & -> & Hkv)%list_elem_of_fmap (kv' & Heq & Hkv')%list_elem_of_fmap.
  unfold only_public, only_internal in *. rewrite Forall_forall in Hp, Hi.
  apply Hi in Hkv. apply Hp in Hkv'. congruence.
Qed.

Lemma dict_wf_app (d e : dict pyval) :
  dict_wf d → dict_wf e → (∀ k, k ∈ dict_keys d → k ∉ dict_keys e) → dict_wf (d ++ e).
Proof.
  intros Hd He Hdisj. unfold dict_wf, dict_keys. rewrite fmap_app. apply NoDup_app.
  split_and!; [done|exact Hdisj|done].
Qed.

Lemma split_merge p i :
  only_public p → only_internal i → dict_wf p → dict_wf i →
  split_compilation_options (Some (dict_update p i)) = (p, i).
Proof.
  intros Hp Hi Hwp Hwi. rewrite merge_disjoint by done. rewrite split_wf.
  - rewrite external_app, internal_app.
    destruct (parts_of_public p Hp) as [-> ->], (parts_of_internal i Hi) as [-> ->].
    by rewrite app_nil_r.
  - apply dict_wf_app; [done|done|].
    intros k (kv & -> & Hkv)%list_elem_of_fmap (kv' & Heq & Hkv')%list_elem_of_fmap.
    unfold only_public, only_internal in *. rewrite Forall_forall in Hp, Hi.
    apply Hp in Hkv. apply Hi in Hkv'. congruence.
Qed.

Definition options_wf (options : option (dict pyval)) : Prop :=
  match options with Some d => dict_wf d | None => True end.

Lemma split_parts options p i :
  options_wf options → split_compilation_options options = (p, i) →
  only_public p ∧ only_internal i ∧ dict_wf p ∧ dict_wf i.
Proof.
  destruct options as [d|]; intros Hwf Hs.
  - rewrite split_wf in Hs by exact Hwf. simplify_eq.
    split_and!; [apply external_public|apply internal_internal|by apply dict_wf_filter..].
  - cbn in Hs. simplify_eq. split_and!; constructor.
Qed.

(** Writing one reserved key leaves the public namespace alone and is read back. *)
Lemma split_after_internal_set options k v p i :
  options_wf options → is_internal k = true →
  split_compilation_options options = (p, i) →
  split_compilation_options (Some (dict_update p (dict_set i k v))) = (p, dict_set i k v).
Proof.
  intros Hwf Hk Hs. destruct (split_parts _ _ _ Hwf Hs) as (Hp & Hi & Hwp & Hwi).
  apply split_merge; [done|by apply only_internal_set|done|by apply dict_wf_set].
Qed.

(** ** Properties *)

(** C38. A checkpoint written by [store_compilation_checkpoint] is read back
    unchanged by [compilation_resume_checkpoint], whatever the options held
    before. *)
Theorem checkpoint_roundtrip options payload protocol service_name stage :
  options_wf options →
  compilation_resume_checkpoint
    (Some (store_compilation_checkpoint options payload protocol service_name stage))
  = Some (mk_checkpoint payload protocol service_name stage).
Proof.
  intros Hwf. unfold store_compilation_checkpoint.
  destruct (split_compilation_options options) as [p i] eqn:Hs.
  unfold compilation_resume_checkpoint. erewrite split_after_internal_set by done.
  cbn [snd]. rewrite dict_get_set_eq. by destruct protocol, service_name.
Qed.

Lemma checkpoint_roundtrip_witness :
  options_wf (Some [("a", VInt 1)]) ∧
  compilation_resume_checkpoint
    (Some (store_compilation_checkpoint (Some [("a", VInt 1)]) [("k", VNone)] None (Some "svc") "deploy"))
  = Some (mk_checkpoint [("k", VNone)] None (Some "svc") "deploy").
Proof.
  assert (options_wf (Some [("a", VInt 1)])) as H by (vm_compute; apply NoDup_singleton).
  split; [exact H|]. exact (checkpoint_roundtrip (Some [("a", VInt 1)]) [("k", VNone)] None (Some "svc") "deploy" H).
Defined.

(** Persisting a checkpoint does not disturb what else is stored in the
    options: the caller's public options, the replay fields and the rollback
    metadata read the same before and after. *)
Theorem checkpoint_preserves_other_options options payload protocol service_name stage :
  options_wf options →
  let options' := Some (store_compilation_checkpoint options payload protocol service_name stage) in
  public_compilation_options options' = public_compilation_options options
  ∧ compilation_request_replay options' = compilation_request_replay options
  ∧ compilation_rollback_request options' = compilation_rollback_request options.
Proof.
  intros Hwf options'.
  assert (∃ p i, split_compilation_options options = (p, i) ∧
    split_compilation_options options' =
      (p, dict_set i RESUME_CHECKPOINT_OPTION_KEY
        (VDict [("payload", VDict payload); ("protocol", opt_str protocol);
                ("service_name", opt_str service_name); ("completed_stage", VStr stage)])))
    as (p & i & Hs & Hs').
  { unfold options', store_compilation_checkpoint.
    destruct (split_compilation_options options) as [p i] eqn:Hs.
    exists p, i. split; [done|]. by eapply split_after_internal_set. }
  unfold public_compilation_options, compilation_request_replay, compilation_rollback_request.
  rewrite Hs, Hs'. cbn [fst snd].
  by rewrite !dict_get_set_ne.
Qed.

Lemma checkpoint_preserves_other_options_witness :
  options_wf None ∧
  let options' := Some (store_compilation_checkpoint None [] None None "detect") in
  public_compilation_options options' = public_compilation_options None
  ∧ compilation_request_replay options' = compilation_request_replay None
  ∧ compilation_rollback_request options' = compilation_rollback_request None.
Proof. split; [exact I|]. exact (checkpoint_preserves_other_options None [] None None "detect" I). Defined.

(** Rollback metadata stored for a queued job is parsed back: the source
    job's UUID, the service and the target version unchanged, the scope
    normalised. *)
Theorem rollback_request_roundtrip options source_job_id service_id target_version tenant environment :
  options_wf options → uuid_wf source_job_id →
  compilation_rollback_request
    (Some (store_compilation_rollback_request options source_job_id service_id target_version
             tenant environment))
  = Some (mk_rollback_metadata source_job_id service_id target_version
            (normalize_scope_value (opt_str tenant)) (normalize_scope_value (opt_str environment))).
Proof.
  intros Hwf Hu. unfold store_compilation_rollback_request.
  destruct (split_compilation_options options) as [p i] eqn:Hs.
  unfold compilation_rollback_request. erewrite split_after_internal_set by done.
  cbn [snd]. rewrite dict_get_set_eq. pose proof (uuid_parse_str _ Hu) as Hp.
  remember (uuid_str source_job_id) as us.
  by destruct tenant, environment; simpl; rewrite Hp.
Qed.

Lemma rollback_request_roundtrip_witness :
  options_wf None ∧ uuid_wf 7%N ∧
  compilation_rollback_request
    (Some (store_compilation_rollback_request None 7%N "svc" 3 (Some " acme ") None))
  = Some (mk_rollback_metadata 7%N "svc" 3
      (normalize_scope_value (opt_str (Some " acme "))) (normalize_scope_value (opt_str None))).
Proof.
  split; [exact I|]. split; [vm_compute; reflexivity|].
  exact (rollback_request_roundtrip None 7%N "svc" 3 (Some " acme ") None I eq_refl).
Defined.

Lemma str_field_opt payload k o : get_or_none payload k = opt_str o → str_field payload k = Some o.
Proof. unfold str_field. intros ->. by destruct o. Qed.

Definition job_id_wf (o : option uuid) : Prop :=
  match o with Some u => uuid_wf u | None => True end.

(** The task payload is lossless: a request that [to_payload] serialises is
    rebuilt by [from_payload]; a request with no source at all is refused. *)
Theorem request_payload_roundtrip repr r :
  job_id_wf (rq_job_id r) →
  match to_payload r with
  | Ok payload => from_payload repr payload = Some (Ok r)
  | Raise e => exn_type e = "ValueError"
               ∧ opt_truthy (rq_source_url r) = false ∧ opt_truthy (rq_source_content r) = false
  end.
Proof.
  intros Hj. destruct r as [url content hash fname by_ sid sname opts jid].
  unfold to_payload; cbn [rq_source_url rq_source_content rq_job_id] in *.
  destruct (negb (opt_truthy url) && negb (opt_truthy content)) eqn:E.
  { apply andb_true_iff in E as [E1%negb_true_iff E2%negb_true_iff]. done. }
  set (payload := (_ : dict pyval)).
  assert (get_or_none payload "options" = VDict opts) as Hopts by reflexivity.
  assert (get_or_none payload "job_id" =
    match jid with Some u => VStr (uuid_str u) | None => VNone end) as Hjob by reflexivity.
  unfold from_payload. rewrite Hopts, Hjob.
  rewrite (str_field_opt _ "source_url" url), (str_field_opt _ "source_content" content),
    (str_field_opt _ "source_hash" hash), (str_field_opt _ "filename" fname),
    (str_field_opt _ "created_by" by_), (str_field_opt _ "service_id" sid),
    (str_field_opt _ "service_name" sname) by reflexivity.
  cbn [mbind option_bind py_str]. destruct jid as [u|]; [|done].
  cbn [py_str]. by rewrite (uuid_parse_str u Hj).
Qed.

Lemma request_payload_roundtrip_witness :
  job_id_wf (Some 5%N) ∧
  let r := mk_request (Some "http://x") None None None None None None [] (Some 5%N) in
  match to_payload r with
  | Ok payload => from_payload (λ _, "") payload = Some (Ok r)
  | Raise e => exn_type e = "ValueError"
               ∧ opt_truthy (rq_source_url r) = false ∧ opt_truthy (rq_source_content r) = false
  end.
Proof.
  split; [vm_compute; reflexivity|].
  exact (request_payload_roundtrip (λ _, "")
    (mk_request (Some "http://x") None None None None None None [] (Some 5%N)) eq_refl).
Defined.

(** No option key of the reserved [__compiler_] namespace is ever reported
    as a caller-controlled option, and every other key is reported with the
    value it was stored with. *)
Theorem public_options_hide_internal request k :
  dict_wf (rq_options request) →
  let stored := store_compilation_request_options request in
  (public_compilation_options stored ≫= λ d, dict_get d k) =
    (if is_internal k then None else dict_get (rq_options request) k).
Proof.
  intros Hwf stored.
  assert ((split_compilation_options stored).1 = external_part (rq_options request)) as Hpub.
  { unfold stored, store_compilation_request_options.
    destruct (split_compilation_options (Some (rq_options request))) as [p i] eqn:Hs.
    pose proof (split_parts (Some (rq_options request)) p i Hwf Hs) as (Hp & Hi & Hwp & Hwi).
    rewrite split_wf in Hs by done. simplify_eq.
    set (i' := match set_opt _ _ _ with [] => _ | _ => _ end).
    assert (only_internal i' ∧ dict_wf i') as [Hi' Hwi'].
    { unfold i'. destruct (set_opt _ _ _); [done|].
      split; [by apply only_internal_set|by apply dict_wf_set]. }
    unfold dict_or_none. rewrite merge_disjoint by done.
    destruct (external_part _ ++ i') eqn:E; [by apply app_eq_nil in E as [-> _]|].
    rewrite <-E, <-(merge_disjoint _ i') by done. by rewrite split_merge. }
  unfold public_compilation_options. rewrite Hpub.
  assert (dict_get (external_part (rq_options request)) k =
    if is_internal k then None else dict_get (rq_options request) k) as <-.
  { clear. induction (rq_options request) as [|[k' v] d IH]; simpl; [by destruct (is_internal k)|].
    destruct (is_internal k') eqn:E; simpl; case_eqb; rewrite ?E; auto.
    rewrite IH. by rewrite E. }
  by destruct (external_part _).
Qed.

Lemma public_options_hide_internal_witness :
  let r := mk_request None None None (Some "f") None None None [("a", VInt 1); ("__compiler_x", VInt 2)] None in
  dict_wf (rq_options r) ∧
  (public_compilation_options (store_compilation_request_options r) ≫= λ d, dict_get d "__compiler_x")
    = (if is_internal "__compiler_x" then None else dict_get (rq_options r) "__compiler_x").
Proof.
  assert (dict_wf [("a", VInt 1); ("__compiler_x", VInt 2)]) as H by by_eval.
  split; [exact H|].
  exact (public_options_hide_internal
    (mk_request None None None (Some "f") None None None [("a", VInt 1); ("__compiler_x", VInt 2)] None)
    "__compiler_x" H).
Defined.
