(* ===== verification/JobStore.v ===== *)
(** * Compilation job persistence ([apps/compiler_worker/repository.py])

    The interface the workflow requires of its store, and the
    [SQLAlchemyCompilationJobStore] over the two tables of
    [libs/db_models.py] it uses.  Every operation runs in a session of its own;
    where the code reads and then writes, other sessions may commit in between:
    their commits are the explicit [others] queue of the state. *)

From S2P Require Export CompileModels.

(** ** Interface *)

(** [CompilationJobStore] of [compile_workflow.py]. *)
Class CompilationJobStore (S : Type) := {
  create_job : CompilationRequest → option uuid → comp S exn uuid;
  mark_job_running : uuid → CompilationStage →
    option string → option string → option string → comp S exn unit;
  mark_job_succeeded : uuid → CompilationStage →
    option string → option string → option string → comp S exn unit;
  mark_job_failed : uuid → CompilationStage → string → bool →
    option string → option string → option string → comp S exn unit;
  append_event : uuid → CompilationEventType → option CompilationStage → option Z →
    option (dict pyval) → option string → comp S exn unit;
  get_job_status : uuid → comp S exn (option CompilationStatus);
  update_checkpoint : uuid → dict pyval → option string → option string →
    CompilationStage → comp S exn unit;
}.

(** ** What a client may rely on *)

(** One line of a job's event stream, as persisted. *)
Definition log_entry : Type := string * option string * option Z.

Definition entry (t : CompilationEventType) (stage : option CompilationStage)
    (attempt : option Z) : log_entry :=
  (event_type_value t, stage_value <$> stage, attempt).

(** The client-visible state of one job. *)
Record job_view := mk_job_view {
  jv_status : CompilationStatus;
  jv_stage : option string;
  jv_log : list log_entry;
}.

Definition with_log (v : job_view) (e : log_entry) : job_view :=
  mk_job_view (jv_status v) (jv_stage v) (jv_log v ++ [e]).
Definition with_status (v : job_view) (st : CompilationStatus) (stage : CompilationStage) : job_view :=
  mk_job_view st (Some (stage_value stage)) (jv_log v).

(** [s'] differs from [s] at most in job [id], whose view is now [v]. *)
Definition views_to {S} (view : S → uuid → option job_view) (s s' : S) (id : uuid) (v : job_view) : Prop :=
  view s' id = Some v ∧ ∀ id', id' ≠ id → view s' id' = view s id'.

Definition same_views {S} (view : S → uuid → option job_view) (s s' : S) : Prop :=
  ∀ id, view s' id = view s id.

(** The promise of a job store to the workflow: on a job it knows, every
    operation returns and has exactly its documented effect on that job. *)
Class JobStoreLaws (S : Type) `{!CompilationJobStore S} (view : S → uuid → option job_view) : Prop := {
  law_get_status : ∀ s id v,
    view s id = Some v →
    wp (get_job_status id) (λ o s', s' = s ∧ o = Some (jv_status v)) (λ _ _, False) s;
  law_append_event : ∀ s id v t stage attempt detail err,
    view s id = Some v →
    wp (append_event id t stage attempt detail err)
      (λ _ s', views_to view s s' id (with_log v (entry t stage attempt))) (λ _ _, False) s;
  law_mark_running : ∀ s id v stage p n i,
    view s id = Some v →
    wp (mark_job_running id stage p n i)
      (λ _ s', views_to view s s' id (with_status v RUNNING stage)) (λ _ _, False) s;
  law_mark_succeeded : ∀ s id v stage p n i,
    view s id = Some v →
    wp (mark_job_succeeded id stage p n i)
      (λ _ s', views_to view s s' id (with_status v SUCCEEDED stage)) (λ _ _, False) s;
  law_mark_failed : ∀ s id v stage err (rolled_back : bool) p n i,
    view s id = Some v →
    wp (mark_job_failed id stage err rolled_back p n i)
      (λ _ s', views_to view s s' id (with_status v (if rolled_back then ROLLED_BACK else FAILED) stage))
      (λ _ _, False) s;
  law_update_checkpoint : ∀ s id v payload p n stage,
    view s id = Some v →
    wp (update_checkpoint id payload p n stage)
      (λ _ s', views_to view s s' id v) (λ _ _, False) s;
  law_create_job : ∀ s request id v,
    view s id = Some v →
    wp (create_job request (Some id)) (λ u s', u = id ∧ s' = s) (λ _ _, False) s;
}.

(** ** Tables *)

Module JobStore.

Record job_row := mk_job_row {
  j_source_url : option string;
  j_source_hash : option string;
  j_protocol : option string;
  j_status : string;
  j_current_stage : option string;
  j_error_detail : option string;
  j_options : option (dict pyval);
  j_created_by : option string;
  j_service_name : option string;
  j_service_id : option string;
  j_tenant : option string;
  j_environment : option string;
}.

Record event_row := mk_event_row {
  e_job_id : uuid;
  e_sequence_number : Z;
  e_stage : option string;
  e_event_type : string;
  e_attempt : option Z;
  e_detail : option (dict pyval);
  e_error_detail : option string;
}.

Record tables := mk_tables {
  jobs : gmap uuid job_row;
  events : list event_row;
}.

(** The committed tables, the commits of other sessions still to come (one per
    point where this session lets go between a read and a write), and the
    random UUIDs still to be drawn. *)
Record store := mk_store {
  db : tables;
  others : list (tables → tables);
  uuid4s : list uuid;
}.

Definition set_jobs (f : gmap uuid job_row → gmap uuid job_row) (t : tables) : tables :=
  mk_tables (f (jobs t)) (events t).
Definition set_events (f : list event_row → list event_row) (t : tables) : tables :=
  mk_tables (jobs t) (f (events t)).
Definition on_db (f : tables → tables) (s : store) : store :=
  mk_store (f (db s)) (others s) (uuid4s s).

(** Another session may commit here. *)
Definition interleave : comp store exn unit := λ s,
  match others s with
  | [] => (Ok tt, s)
  | f :: rest => (Ok tt, mk_store (f (db s)) rest (uuid4s s))
  end.

(** [uuid.uuid4()] *)
Definition uuid4 : comp store exn uuid := λ s,
  match uuid4s s with
  | [] => (Ok 0%N, s)
  | u :: rest => (Ok u, mk_store (db s) (others s) rest)
  end.

Definition get_job_row (job_id : uuid) : comp store exn (option job_row) :=
  gets (λ s, jobs (db s) !! job_id).

(** [str(uuid)] quoted, as in the message of the [KeyError]. *)
Definition require_job (job_id : uuid) : comp store exn job_row :=
  job <- get_job_row job_id ;;
  match job with
  | Some row => ret row
  | None => raise (key_error ("'Compilation job " +:+ uuid_str job_id +:+ " does not exist.'"))
  end.

Definition put_job (job_id : uuid) (row : job_row) : comp store exn unit :=
  modify (on_db (set_jobs <[job_id := row]>)).

Definition new_job_row (request : CompilationRequest) : job_row :=
  let '(tenant, environment) := request_scope_from_options (Some (rq_options request)) in
  mk_job_row (rq_source_url request) (rq_source_hash request) None
    (status_value PENDING) None None
    (store_compilation_request_options request) (rq_created_by request)
    (opt_or (rq_service_id request) (rq_service_name request))
    (rq_service_id request) tenant environment.

(** Commit of an inserted job: the primary key is unique. *)
Definition insert_job (job_id : uuid) (row : job_row) : comp store exn unit :=
  existing <- get_job_row job_id ;;
  match existing with
  | Some _ => raise (integrity_error "duplicate key value violates compilation_jobs_pkey")
  | None => put_job job_id row
  end.

Definition create_job (request : CompilationRequest) (job_id : option uuid)
    : comp store exn uuid :=
  let given := match job_id with Some u => Some u | None => rq_job_id request end in
  resolved_job_id <- match given with Some u => ret u | None => uuid4 end ;;
  let allow_existing := bool_decide (is_Some given) in
  existing <- (if allow_existing then get_job_row resolved_job_id else ret None) ;;
  match existing with
  | Some _ => ret resolved_job_id
  | None =>
      interleave ;;;
      catch (insert_job resolved_job_id (new_job_row request) ;;; ret resolved_job_id)
        (λ e,
          if negb (exn_is "IntegrityError" e) then raise e
          else if negb allow_existing then raise e
          else existing <- get_job_row resolved_job_id ;;
               match existing with
               | None => raise e
               | Some _ => ret resolved_job_id
               end)
  end.

Definition get_job_status (job_id : uuid) : comp store exn (option CompilationStatus) :=
  job <- get_job_row job_id ;;
  match job with
  | None => ret None
  | Some row =>
      match parse_status (j_status row) with
      | Some st => ret (Some st)
      | None => raise (value_error ("'" +:+ j_status row +:+ "' is not a valid CompilationStatus"))
      end
  end.

(** The assignments every [mark_job_*] shares: [None] leaves a column alone. *)
Definition marked (row : job_row) (st : CompilationStatus) (stage : CompilationStage)
    (error_detail : option string) (protocol service_name service_id : option string) : job_row :=
  mk_job_row (j_source_url row) (j_source_hash row)
    (match protocol with Some p => Some p | None => j_protocol row end)
    (status_value st) (Some (stage_value stage)) error_detail
    (j_options row) (j_created_by row)
    (match service_name with Some n => Some n | None => j_service_name row end)
    (match service_id with Some n => Some n | None => j_service_id row end)
    (j_tenant row) (j_environment row).

Definition mark_job_running (job_id : uuid) (stage : CompilationStage)
    (protocol service_name service_id : option string) : comp store exn unit :=
  row <- require_job job_id ;;
  put_job job_id (marked row RUNNING stage None protocol service_name service_id).

Definition mark_job_succeeded (job_id : uuid) (stage : CompilationStage)
    (protocol service_name service_id : option string) : comp store exn unit :=
  row <- require_job job_id ;;
  put_job job_id (marked row SUCCEEDED stage None protocol service_name service_id).

Definition mark_job_failed (job_id : uuid) (stage : CompilationStage) (error_detail : string)
    (rolled_back : bool) (protocol service_name service_id : option string) : comp store exn unit :=
  row <- require_job job_id ;;
  put_job job_id
    (marked row (if rolled_back then ROLLED_BACK else FAILED) stage (Some error_detail)
       protocol service_name service_id).

Definition job_events (job_id : uuid) (t : tables) : list event_row :=
  List.filter (λ e, bool_decide (e_job_id e = job_id)) (events t).

(** [max(sequence_number)] of the job's events, [NULL] when it has none. *)
Definition max_sequence (job_id : uuid) (t : tables) : option Z :=
  foldl (λ acc e, match acc with
                  | None => Some (e_sequence_number e)
                  | Some m => Some (Z.max m (e_sequence_number e))
                  end) None (job_events job_id t).

(** [int(existing_max or 0) + 1] *)
Definition next_sequence_number (job_id : uuid) : comp store exn Z :=
  gets (λ s, default 0 (max_sequence job_id (db s)) + 1).

(** Insertion under [uq_compilation_event_sequence]. *)
Definition insert_event (e : event_row) : comp store exn unit :=
  taken <- gets (λ s, existsb
    (λ e', bool_decide (e_job_id e' = e_job_id e) && (e_sequence_number e' =? e_sequence_number e))
    (events (db s))) ;;
  if (taken : bool)
  then raise (integrity_error "duplicate key value violates uq_compilation_event_sequence")
  else modify (on_db (set_events (λ l, l ++ [e]))).

Definition max_retries : nat := 3.

(** The retry loop; [left] counts the attempts still allowed after this one. *)
Fixpoint append_attempts (left : nat) (job_id : uuid) (mk : Z → event_row) : comp store exn unit :=
  catch
    (sequence_number <- next_sequence_number job_id ;;
     interleave ;;;
     insert_event (mk sequence_number))
    (λ e,
      if negb (exn_is "IntegrityError" e) then raise e
      else match left with
           | O => raise e
           | S left' => append_attempts left' job_id mk
           end).

Definition append_event (job_id : uuid) (event_type : CompilationEventType)
    (stage : option CompilationStage) (attempt : option Z)
    (detail : option (dict pyval)) (error_detail : option string) : comp store exn unit :=
  require_job job_id ;;;
  append_attempts (max_retries - 1) job_id
    (λ n, mk_event_row job_id n (stage_value <$> stage) (event_type_value event_type)
            attempt detail error_detail).

Section repr.
(** Python's [repr] of floats and containers inside [str(...)]. *)
Context (repr : pyval → string).

Definition with_checkpoint (row : job_row) (payload : dict pyval)
    (protocol service_name : option string) (completed_stage : CompilationStage) : job_row :=
  mk_job_row (j_source_url row)
    (match dict_get payload "source_hash" with
     | Some v => Some (py_str repr v)
     | None => j_source_hash row
     end)
    (j_protocol row) (j_status row) (j_current_stage row) (j_error_detail row)
    (Some (store_compilation_checkpoint (j_options row) payload protocol service_name
             (stage_value completed_stage)))
    (j_created_by row) (j_service_name row) (j_service_id row) (j_tenant row) (j_environment row).

Definition update_checkpoint (job_id : uuid) (payload : dict pyval)
    (protocol service_name : option string) (completed_stage : CompilationStage)
    : comp store exn unit :=
  row <- require_job job_id ;;
  put_job job_id (with_checkpoint row payload protocol service_name completed_stage).

#[global] Instance sql_job_store : CompilationJobStore store := {
  create_job := create_job;
  mark_job_running := mark_job_running;
  mark_job_succeeded := mark_job_succeeded;
  mark_job_failed := mark_job_failed;
  append_event := append_event;
  get_job_status := get_job_status;
  update_checkpoint := update_checkpoint;
}.
End repr.

(** [list_events]: the job's events by sequence number. *)
Fixpoint insert_by_sequence (e : event_row) (l : list event_row) : list event_row :=
  match l with
  | [] => [e]
  | e' :: l' => if e_sequence_number e <? e_sequence_number e' then e :: l
                else e' :: insert_by_sequence e l'
  end.

Definition list_events (job_id : uuid) (t : tables) : list event_row :=
  foldl (λ acc e, insert_by_sequence e acc) [] (job_events job_id t).

(** ** The store keeps the interface's promise *)

Definition event_entry (e : event_row) : log_entry := (e_event_type e, e_stage e, e_attempt e).

(** A job is visible when its status is one of the enum's values and no other
    session interferes. *)
Definition view (s : store) (id : uuid) : option job_view :=
  match others s with
  | [] =>
      row ← jobs (db s) !! id;
      st ← parse_status (j_status row);
      Some (mk_job_view st (j_current_stage row) (event_entry <$> job_events id (db s)))
  | _ => None
  end.

Lemma view_Some s id v :
  view s id = Some v →
  others s = [] ∧ ∃ row, jobs (db s) !! id = Some row ∧ parse_status (j_status row) = Some (jv_status v)
    ∧ jv_stage v = j_current_stage row ∧ jv_log v = event_entry <$> job_events id (db s).
Proof.
  unfold view. destruct (others s); [|done]. split; [done|].
  destruct (jobs (db s) !! id) as [row|] eqn:E; simpl in *; [|done].
  destruct (parse_status (j_status row)) eqn:E'; simpl in *; [|done]. simplify_eq. eauto.
Qed.

Lemma wp_require_job s id row (Q : job_row → store → Prop) R :
  jobs (db s) !! id = Some row → Q row s → wp (require_job id) Q R s.
Proof. intros Hrow HQ. unfold require_job, wp, bind, get_job_row, gets. by rewrite Hrow. Qed.

(** Replacing a row leaves the other jobs' views alone. *)
Lemma view_put_job s id row id' :
  view (on_db (set_jobs <[id := row]>) s) id' =
    if decide (id' = id) then
      match others s with
      | [] => st ← parse_status (j_status row);
              Some (mk_job_view st (j_current_stage row) (event_entry <$> job_events id (db s)))
      | _ => None
      end
    else view s id'.
Proof.
  unfold view. simpl. destruct (others s); [|by case_decide].
  case_decide; subst; by rewrite ?lookup_insert_eq, ?lookup_insert_ne.
Qed.

Lemma law_mark s id v st stage err p n i :
  view s id = Some v →
  wp (row <- require_job id ;; put_job id (marked row st stage err p n i))
    (λ _ s', views_to view s s' id (with_status v st stage)) (λ _ _, False) s.
Proof.
  intros (Ho & row & Hrow & Hst & Hstage & Hlog)%view_Some.
  apply wp_bind. eapply wp_require_job; [done|]. apply wp_modify. split.
  - rewrite view_put_job, decide_True by done. rewrite Ho. simpl.
    rewrite parse_status_value. simpl. unfold with_status. by rewrite Hlog.
  - intros id' Hne. by rewrite view_put_job, decide_False.
Qed.

Lemma max_sequence_bound id t e :
  e ∈ events t → e_job_id e = id → ∃ m, max_sequence id t = Some m ∧ e_sequence_number e ≤ m.
Proof.
  intros Hin Hid. unfold max_sequence.
  assert (e ∈ job_events id t) as Hin'.
  { apply list_elem_of_In, filter_In. split; [by apply list_elem_of_In|by apply bool_decide_eq_true]. }
  clear Hin. revert Hin'. generalize (job_events id t). intros l.
  set (f := λ acc e0, _).
  assert (∀ l acc m, acc = Some m → ∃ m', foldl f acc l = Some m' ∧ m ≤ m') as Hmono.
  { clear. intros l. induction l as [|x l IH]; intros acc m ->; simpl; [by eauto with lia|].
    destruct (IH (Some (Z.max m (e_sequence_number x))) _ eq_refl) as (m' & ? & ?). exists m'. split; [done|lia]. }
  generalize (@None Z) as acc. induction l as [|x l IH]; intros acc Hin; [by inv Hin|].
  apply elem_of_cons in Hin as [->|Hin]; simpl; [|by apply IH].
  destruct acc as [m|]; simpl;
    [destruct (Hmono l (Some (Z.max m (e_sequence_number x))) _ eq_refl) as (m' & ? & ?)
    |destruct (Hmono l (Some (e_sequence_number x)) _ eq_refl) as (m' & ? & ?)];
    exists m'; (split; [done|lia]).
Qed.

Lemma next_sequence_free id t :
  existsb (λ e', bool_decide (e_job_id e' = id) && (e_sequence_number e' =? default 0 (max_sequence id t) + 1))
    (events t) = false.
Proof.
  apply not_true_iff_false. intros (e & Hin & [Hid%bool_decide_eq_true Hn%Z.eqb_eq]%andb_true_iff)%existsb_exists.
  apply list_elem_of_In in Hin. destruct (max_sequence_bound id t e Hin Hid) as (m & Hm & Hle).
  rewrite Hm in Hn. simpl in Hn. lia.
Qed.

Lemma append_attempts_alone left s id mk :
  others s = [] → (∀ n, e_job_id (mk n) = id ∧ e_sequence_number (mk n) = n) →
  append_attempts left id mk s =
    (Ok tt, on_db (set_events (λ l, l ++ [mk (default 0 (max_sequence id (db s)) + 1)])) s).
Proof.
  intros Ho Hmk. destruct (Hmk (default 0 (max_sequence id (db s)) + 1)) as [Hid Hn].
  destruct left; simpl; unfold catch, bind, next_sequence_number, gets, interleave;
    rewrite Ho; unfold insert_event, bind, gets; rewrite Hid, Hn, next_sequence_free; done.
Qed.

Lemma job_events_snoc id t e :
  job_events id (set_events (λ l, l ++ [e]) t) =
    job_events id t ++ (if decide (e_job_id e = id) then [e] else []).
Proof.
  unfold job_events. simpl. rewrite List.filter_app. simpl.
  case_decide; [by rewrite bool_decide_true|by rewrite bool_decide_false].
Qed.

Lemma append_event_view s id v t stage attempt detail err :
  view s id = Some v →
  wp (append_event id t stage attempt detail err)
    (λ _ s', views_to view s s' id (with_log v (entry t stage attempt))) (λ _ _, False) s.
Proof.
  intros (Ho & row & Hrow & Hst & Hstage & Hlog)%view_Some.
  unfold append_event. apply wp_bind. eapply wp_require_job; [done|].
  unfold wp. rewrite (append_attempts_alone _ s id) by done.
  split.
  - unfold view. simpl. rewrite Ho, Hrow. simpl. rewrite Hst. simpl.
    rewrite job_events_snoc, decide_True by done. rewrite fmap_app. simpl.
    unfold with_log. by rewrite Hlog, Hstage.
  - intros id' Hne. unfold view. simpl. rewrite Ho.
    rewrite job_events_snoc, decide_False by done. by rewrite app_nil_r.
Qed.

Lemma update_checkpoint_view repr s id v payload p n stage :
  view s id = Some v →
  wp (update_checkpoint repr id payload p n stage)
    (λ _ s', views_to view s s' id v) (λ _ _, False) s.
Proof.
  intros (Ho & row & Hrow & Hst & Hstage & Hlog)%view_Some.
  unfold update_checkpoint. apply wp_bind. eapply wp_require_job; [done|]. apply wp_modify. split.
  - rewrite view_put_job, decide_True by done. rewrite Ho. simpl. rewrite Hst. simpl.
    rewrite <-Hlog, <-Hstage. by destruct v.
  - intros id' Hne. by rewrite view_put_job, decide_False.
Qed.

Lemma get_job_status_view s id v :
  view s id = Some v →
  wp (get_job_status id) (λ o s', s' = s ∧ o = Some (jv_status v)) (λ _ _, False) s.
Proof.
  intros (Ho & row & Hrow & Hst & Hstage & Hlog)%view_Some.
  unfold get_job_status. apply wp_bind, wp_gets. rewrite Hrow, Hst. by apply wp_ret.
Qed.

Lemma create_job_existing s request id v :
  view s id = Some v →
  wp (create_job request (Some id)) (λ u s', u = id ∧ s' = s) (λ _ _, False) s.
Proof.
  intros (Ho & row & Hrow & _)%view_Some. unfold create_job. apply wp_bind, wp_ret.
  rewrite bool_decide_eq_true_2 by eauto. apply wp_bind, wp_gets. rewrite Hrow. by apply wp_ret.
Qed.

#[export] Instance sql_job_store_laws repr : @JobStoreLaws store (sql_job_store repr) view.
Proof.
  split; simpl; intros.
  - by eapply get_job_status_view.
  - by eapply append_event_view.
  - by eapply law_mark.
  - by eapply law_mark.
  - by eapply law_mark.
  - by eapply update_checkpoint_view.
  - by eapply create_job_existing.
Qed.

(** ** Interleaved sessions *)

Definition sequence_key (e : event_row) : uuid * Z := (e_job_id e, e_sequence_number e).

(** [uq_compilation_event_sequence] *)
Definition unique_sequences (t : tables) : Prop := NoDup (sequence_key <$> events t).

Definition others_keep (P : tables → Prop) (s : store) : Prop :=
  Forall (λ f, ∀ t, P t → P (f t)) (others s).

(** The tables after the first [k] pending commits of other sessions. *)
Definition after_others (k : nat) (s : store) : tables :=
  foldl (λ t f, f t) (db s) (take k (others s)).

Lemma insert_event_cases e s :
  let key_taken := existsb (λ e', bool_decide (e_job_id e' = e_job_id e)
                                  && (e_sequence_number e' =? e_sequence_number e)) (events (db s)) in
  insert_event e s =
    if key_taken
    then (Raise (integrity_error "duplicate key value violates uq_compilation_event_sequence"), s)
    else (Ok tt, on_db (set_events (λ l, l ++ [e])) s).
Proof. unfold insert_event, bind, gets. by destruct (existsb _ _). Qed.

Lemma key_taken_spec e t :
  existsb (λ e', bool_decide (e_job_id e' = e_job_id e)
                 && (e_sequence_number e' =? e_sequence_number e)) (events t) = false →
  sequence_key e ∉ sequence_key <$> events t.
Proof.
  intros H (e' & Heq & Hin)%list_elem_of_fmap. unfold sequence_key in Heq.
  assert (existsb (λ e', bool_decide (e_job_id e' = e_job_id e)
                 && (e_sequence_number e' =? e_sequence_number e)) (events t) = true); [|congruence].
  apply existsb_exists. exists e'. split; [by apply list_elem_of_In|].
  simplify_eq. rewrite bool_decide_true by done. apply Z.eqb_eq. congruence.
Qed.

Lemma unique_snoc e t :
  unique_sequences t → sequence_key e ∉ sequence_key <$> events t →
  unique_sequences (set_events (λ l, l ++ [e]) t).
Proof.
  unfold unique_sequences. intros Ht He. simpl. rewrite fmap_app. apply NoDup_app.
  split_and!; [done| |apply NoDup_singleton]. intros k Hk ->%list_elem_of_singleton. done.
Qed.

Lemma interleave_keeps P s :
  P (db s) → others_keep P s → P (db (state_of interleave s)) ∧ others_keep P (state_of interleave s).
Proof.
  unfold state_of, interleave, others_keep. destruct (others s) as [|f rest] eqn:E; simpl; rewrite ?E.
  - done.
  - intros HP H. inv H. auto.
Qed.

Lemma append_attempts_keeps_unique left id mk s :
  unique_sequences (db s) → others_keep unique_sequences s →
  unique_sequences (db (state_of (append_attempts left id mk) s)).
Proof.
  revert s. induction left as [|left IH]; intros s Hu Ho; simpl;
    unfold state_of, catch, bind, next_sequence_number, gets;
    destruct (interleave s) as [oi s1] eqn:Ei;
    (assert (oi = Ok tt) as -> by (unfold interleave in Ei; destruct (others s); by simplify_eq));
    pose proof (interleave_keeps _ s Hu Ho) as [Hu1 Ho1]; unfold state_of in Hu1, Ho1;
    rewrite Ei in Hu1, Ho1; simpl in Hu1, Ho1;
    rewrite insert_event_cases;
    match goal with |- context [existsb ?P ?l] => destruct (existsb P l) eqn:Etaken end;
    simpl; try done; try (by apply unique_snoc; [|apply key_taken_spec]).
  apply (IH s1 Hu1 Ho1).
Qed.

(** Whatever other sessions commit between this session's read of the
    largest sequence number and its insert, and however [append_event] ends, no
    two events of a job ever share a sequence number. *)
Theorem append_event_sequences_unique id t stage attempt detail err s :
  unique_sequences (db s) → others_keep unique_sequences s →
  unique_sequences (db (state_of (append_event id t stage attempt detail err) s)).
Proof.
  intros Hu Ho. unfold append_event, state_of, bind, require_job, get_job_row, gets.
  unfold bind. destruct (jobs (db s) !! id); [|done]. cbn -[append_attempts].
  by apply append_attempts_keeps_unique.
Qed.

Definition demo_request : CompilationRequest :=
  mk_request (Some "http://x") None None None None None None [] (Some 1%N).
Definition demo_store (others : list (tables → tables)) : store :=
  mk_store (mk_tables {[ 1%N := new_job_row demo_request ]} []) others [].

(** Another session appends an event of the same job numbered [n]. *)
Definition rival_event (n : Z) (t : tables) : tables :=
  if existsb (λ e', bool_decide (e_job_id e' = 1%N) && (e_sequence_number e' =? n)) (events t) then t
  else set_events (λ l, l ++ [mk_event_row 1%N n None "job.created" None None None]) t.

Lemma rival_keeps n t : unique_sequences t → unique_sequences (rival_event n t).
Proof.
  unfold rival_event. destruct (existsb _ _) eqn:E; [done|]. intros Hu. apply unique_snoc; [done|].
  by apply key_taken_spec.
Qed.

Lemma append_event_sequences_unique_witness :
  let s := demo_store [rival_event 1; rival_event 2] in
  unique_sequences (db s) ∧ others_keep unique_sequences s ∧
  unique_sequences (db (state_of (append_event 1%N JOB_CREATED None None None None) s)).
Proof.
  intros s. assert (unique_sequences (db s)) as H1 by constructor.
  assert (others_keep unique_sequences s) as H2
    by (repeat constructor; intros; by apply rival_keeps).
  split; [exact H1|]. split; [exact H2|].
  exact (append_event_sequences_unique 1%N JOB_CREATED None None None None s H1 H2).
Defined.

Lemma interleave_step s :
  ∃ s1, interleave s = (Ok tt, s1) ∧ db s1 = after_others 1 s
    ∧ ∀ k, after_others k s1 = after_others (S k) s.
Proof.
  unfold interleave, after_others. destruct (others s) as [|f rest] eqn:E.
  - exists s. split_and!; [done|done|]. intros k. by rewrite E, !take_nil.
  - eexists. split_and!; [done|done|]. done.
Qed.

Lemma append_attempts_outcome left id mk s :
  (∀ n, e_job_id (mk n) = id ∧ e_sequence_number (mk n) = n) →
  match append_attempts left id mk s with
  | (Ok _, s') => ∃ k n, (1 ≤ k ≤ S left)%nat
      ∧ db s' = set_events (λ l, l ++ [mk n]) (after_others k s)
      ∧ sequence_key (mk n) ∉ sequence_key <$> events (after_others k s)
  | (Raise e, s') => exn_type e = "IntegrityError" ∧ db s' = after_others (S left) s
  end.
Proof.
  intros Hmk. revert s. induction left as [|left IH]; intros s;
    destruct (interleave_step s) as (s1 & Hi & Hdb & Hafter);
    simpl; unfold catch, bind, next_sequence_number, gets; rewrite Hi, insert_event_cases;
    set (n := default 0 (max_sequence id (db s)) + 1);
    match goal with |- context [existsb ?P ?l] => destruct (existsb P l) eqn:Etaken end; simpl.
  1: { by split. }
  2: { specialize (IH s1). destruct (append_attempts left id mk s1) as [[[]|e] s'].
       - destruct IH as (k & m & Hk & Hs' & Hkey). exists (S k), m.
         rewrite <-Hafter. split_and!; [lia|lia|done|done].
       - by rewrite <-Hafter. }
  all: exists 1%nat, n; rewrite Hdb in *; split_and!; [lia|lia|done|by apply key_taken_spec].
Qed.



(** Creating a job under a caller-supplied id is idempotent and safe against
    a concurrent creation: it always returns that id, never raises, and never
    overwrites a row that exists before the call or that another session
    commits first. *)
Theorem create_job_never_overwrites request u s :
  let rival := after_others 1 s in
  match jobs (db s) !! u with
  | Some _ => create_job request (Some u) s = (Ok u, s)
  | None => ∃ s', create_job request (Some u) s = (Ok u, s') ∧ events (db s') = events rival
      ∧ jobs (db s') = match jobs rival !! u with
                       | Some _ => jobs rival
                       | None => <[u := new_job_row request]> (jobs rival)
                       end
  end.
Proof.
  intros rival. unfold create_job, bind, ret.
  rewrite bool_decide_eq_true_2 by eauto. unfold get_job_row, gets.
  destruct (jobs (db s) !! u) as [row|] eqn:E; [done|].
  destruct (interleave_step s) as (s1 & -> & Hdb & _). fold rival in Hdb.
  unfold catch, bind, insert_job, get_job_row, gets, bind. rewrite Hdb.
  destruct (jobs rival !! u) as [row|] eqn:Er; simpl.
  - rewrite Hdb, Er. exists s1. by rewrite Hdb.
  - eexists. split; [done|]. simpl. by rewrite Hdb.
Qed.

End JobStore.
