(* ===== verification/CompileWorkflow.v ===== *)
(** * The compilation workflow ([apps/compiler_worker/workflows/compile_workflow.py])

    [CompilationWorkflow.run]: stages in order, retries, checkpoints, and the
    compensating rollback of what already ran.  The workflow is a client of the
    job store's interface and of the stage activities; both are effects on one
    state [S]. *)

From S2P Require Export JobStore.

(** ** Interfaces *)

(** [CompilationActivities].  Handlers receive the context and only read it; what
    they produce is the result. *)
Record CompilationActivities (S : Type) := mk_activities {
  run_stage : CompilationStage → CompilationContext → comp S exn StageExecutionResult;
  rollback_stage : CompilationStage → CompilationContext → StageExecutionResult → comp S exn unit;
}.
Arguments run_stage {S} _ _ _.
Arguments rollback_stage {S} _ _ _ _.

(** [CompilationObservability]: the counters the workflow bumps (durations are
    wall-clock and left out). *)
Record CompilationObservability (S : Type) := mk_observability {
  record_job : CompilationStatus → comp S exn unit;
  record_stage : CompilationStage → string → comp S exn unit;
  record_extractor_run : string → string → comp S exn unit;
  record_llm_token_usage : string → Z → Z → comp S exn unit;
}.
Arguments record_job {S} _ _.
Arguments record_stage {S} _ _ _.
Arguments record_extractor_run {S} _ _ _.
Arguments record_llm_token_usage {S} _ _ _ _.

(** ** Configuration *)

Definition is_terminal (st : CompilationStatus) : bool :=
  match st with SUCCEEDED | FAILED | ROLLED_BACK => true | _ => false end.

(** [_NON_REENTRANT_STATUSES] *)
Definition is_non_reentrant (st : CompilationStatus) : bool :=
  is_terminal st || match st with RUNNING => true | _ => false end.

Definition DEFAULT_STAGE_DEFINITIONS : list StageDefinition :=
  [mk_stage_definition DETECT default_retry_policy false;
   mk_stage_definition EXTRACT default_retry_policy false;
   mk_stage_definition ENHANCE default_retry_policy false;
   mk_stage_definition VALIDATE_IR default_retry_policy false;
   mk_stage_definition GENERATE default_retry_policy true;
   mk_stage_definition DEPLOY default_retry_policy true;
   mk_stage_definition VALIDATE_RUNTIME default_retry_policy false;
   mk_stage_definition ROUTE default_retry_policy true;
   mk_stage_definition REGISTER default_retry_policy false].

(** [tuple(stage_definitions or DEFAULT_STAGE_DEFINITIONS)] *)
Definition stage_definitions_or_default (defs : list StageDefinition) : list StageDefinition :=
  match defs with [] => DEFAULT_STAGE_DEFINITIONS | _ => defs end.

Definition compilation_workflow_error (job_id : uuid) (failed_stage : CompilationStage)
    (final_status : CompilationStatus) (message : string) : exn :=
  mk_exn "CompilationWorkflowError" message
    [("job_id", VStr (uuid_str job_id)); ("failed_stage", VStr (stage_value failed_stage));
     ("final_status", VStr (status_value final_status))].

Definition last_stage (defs : list StageDefinition) : option CompilationStage :=
  sd_stage <$> last defs.

(** ** Context updates *)

(** [context.stage_results[stage] = result; context.payload.update(...); ...] *)
Definition apply_result (cx : CompilationContext) (stage : CompilationStage)
    (r : StageExecutionResult) : CompilationContext :=
  mk_context (cx_job_id cx) (cx_request cx)
    (dict_update (cx_payload cx) (sr_context_updates r))
    (match sr_protocol r with Some p => Some p | None => cx_protocol cx end)
    (match sr_service_name r with Some n => Some n | None => cx_service_name cx end)
    ((stage, r) :: cx_stage_results cx).

Definition initial_context (job_id : uuid) (request : CompilationRequest) : CompilationContext :=
  mk_context job_id request
    [("source_url", opt_str (rq_source_url request));
     ("source_content", opt_str (rq_source_content request));
     ("source_hash", opt_str (rq_source_hash request));
     ("filename", opt_str (rq_filename request));
     ("options", VDict (rq_options request))]
    None
    (opt_or (rq_service_id request) (rq_service_name request))
    [].

(** [range(1, max_attempts + 1)] *)
Definition attempts_of (d : StageDefinition) : list Z :=
  seqZ 1 (max_attempts (sd_retry_policy d)).

Definition or_unknown (a b : option string) : string :=
  if opt_truthy a then default "" a else if opt_truthy b then default "" b else "unknown".

Section workflow.
Context {S : Type} {store_ops : CompilationJobStore S}.
Context (activities : CompilationActivities S).
Context (observability : option (CompilationObservability S)).
(** [self._stage_definitions] *)
Context (stage_definitions : list StageDefinition).

Definition record_terminal_job_metric (st : CompilationStatus) : comp S exn unit :=
  match observability with None => ret tt | Some o => record_job o st end.

Definition record_stage_metric (stage : CompilationStage) (outcome : string) : comp S exn unit :=
  match observability with None => ret tt | Some o => record_stage o stage outcome end.

Definition record_extractor_metric (protocol outcome : string) : comp S exn unit :=
  match observability with None => ret tt | Some o => record_extractor_run o protocol outcome end.

Definition record_llm_token_usage_metric (token_usage : pyval) : comp S exn unit :=
  match observability, token_usage with
  | Some o, VDict usage =>
      match get_or_none usage "model",
            as_int (get_or_none usage "input_tokens"),
            as_int (get_or_none usage "output_tokens") with
      | VStr model, Some input_tokens, Some output_tokens =>
          record_llm_token_usage o model input_tokens output_tokens
      | _, _, _ => ret tt
      end
  | _, _ => ret tt
  end.

(** [_rollback]: newest stage first, best effort. *)
Definition rollback_one (cx : CompilationContext) (acc : bool * list string)
    (d : StageDefinition) : comp S exn (bool * list string) :=
  if negb (sd_rollback_enabled d) then ret acc
  else
    let stage := sd_stage d in
    match stage_result cx stage with
    | None => ret acc
    | Some result =>
        append_event (cx_job_id cx) ROLLBACK_STARTED (Some stage) None None None ;;;
        o <- attempt (rollback_stage activities stage cx result) ;;
        match o with
        | Raise exc =>
            append_event (cx_job_id cx) ROLLBACK_FAILED (Some stage) None None (Some (exn_str exc)) ;;;
            ret (true, acc.2 ++ [stage_value stage +:+ ": " +:+ exn_str exc])
        | Ok _ =>
            append_event (cx_job_id cx) ROLLBACK_SUCCEEDED (Some stage) None None None ;;;
            ret (true, acc.2)
        end
    end.

Definition rollback (cx : CompilationContext) : comp S exn (bool * list string) :=
  acc <- fold_each (rollback_one cx) (false, []) (rev stage_definitions) ;;
  let '(rollback_executed, rollback_failures) := acc in
  match rollback_failures with
  | [] => ret (rollback_executed, [])
  | _ => ret (false, rollback_failures)
  end.

(** The handling of a stage's last failed attempt: always raises. *)
Definition fail_stage (cx : CompilationContext) (stage : CompilationStage) (attempt_no : Z)
    (error_detail : string) : comp S exn CompilationContext :=
  let job_id := cx_job_id cx in
  append_event job_id STAGE_FAILED (Some stage) (Some attempt_no) None (Some error_detail) ;;;
  rb <- rollback cx ;;
  let '(rolled_back, rollback_failures) := rb in
  mark_job_failed job_id stage error_detail rolled_back
    (cx_protocol cx) (cx_service_name cx) (cx_service_name cx) ;;;
  append_event job_id (if (rolled_back : bool) then JOB_ROLLED_BACK else JOB_FAILED) (Some stage) None
    (match rollback_failures with
     | [] => None
     | _ => Some [("rollback_failures", VList (VStr <$> rollback_failures))]
     end) (Some error_detail) ;;;
  record_terminal_job_metric (if rolled_back then ROLLED_BACK else FAILED) ;;;
  raise (compilation_workflow_error job_id stage (if rolled_back then ROLLED_BACK else FAILED)
           ("Compilation failed at stage " +:+ stage_value stage +:+ ": " +:+ error_detail)).

(** What follows a successful attempt, up to [break]. *)
Definition complete_stage (cx : CompilationContext) (stage : CompilationStage) (attempt_no : Z)
    (result : StageExecutionResult) : comp S exn CompilationContext :=
  let cx := apply_result cx stage result in
  let job_id := cx_job_id cx in
  update_checkpoint job_id (cx_payload cx) (cx_protocol cx) (cx_service_name cx) stage ;;;
  record_stage_metric stage "success" ;;;
  when (bool_decide (stage = EXTRACT))
    (record_extractor_metric (or_unknown (cx_protocol cx) (sr_protocol result)) "success") ;;;
  when (bool_decide (stage = ENHANCE))
    (record_llm_token_usage_metric (get_or_none (sr_context_updates result) "token_usage")) ;;;
  mark_job_running job_id stage (cx_protocol cx) (cx_service_name cx) (cx_service_name cx) ;;;
  append_event job_id STAGE_SUCCEEDED (Some stage) (Some attempt_no) (sr_event_detail result) None ;;;
  ret cx.

(** The attempt loop; an exhausted range falls through, as Python's [for] does. *)
Fixpoint run_attempts (d : StageDefinition) (cx : CompilationContext) (attempts : list Z)
    : comp S exn CompilationContext :=
  match attempts with
  | [] => ret cx
  | attempt_no :: rest =>
      let stage := sd_stage d in
      let job_id := cx_job_id cx in
      append_event job_id STAGE_STARTED (Some stage) (Some attempt_no) None None ;;;
      o <- attempt (run_stage activities stage cx) ;;
      match o with
      | Raise exc =>
          let error_detail := exn_str exc in
          record_stage_metric stage "error" ;;;
          when (bool_decide (stage = EXTRACT))
            (record_extractor_metric (or_unknown (cx_protocol cx) None) "error") ;;;
          if attempt_no <? max_attempts (sd_retry_policy d) then
            append_event job_id STAGE_RETRYING (Some stage) (Some attempt_no)
              (Some [("next_attempt", VInt (attempt_no + 1))]) (Some error_detail) ;;;
            run_attempts d cx rest
          else fail_stage cx stage attempt_no error_detail
      | Ok result => complete_stage cx stage attempt_no result
      end
  end.

Definition run_one_stage (cx : CompilationContext) (d : StageDefinition)
    : comp S exn CompilationContext :=
  mark_job_running (cx_job_id cx) (sd_stage d)
    (cx_protocol cx) (cx_service_name cx) (cx_service_name cx) ;;;
  run_attempts d cx (attempts_of d).

(** [{d.stage: index}]: for a stage listed twice the last index wins *)
Definition stage_index (stage : CompilationStage) : option nat :=
  foldl (λ acc id, if decide (sd_stage id.2 = stage) then Some id.1 else acc)
    None (imap pair stage_definitions).

Definition stage_of_value (v : string) : comp S exn CompilationStage :=
  from_option_or (value_error ("'" +:+ v +:+ "' is not a valid CompilationStage")) (parse_stage v).

Definition resolve_stage_definitions (request : CompilationRequest) (cx : CompilationContext)
    : comp S exn (list StageDefinition * CompilationContext) :=
  match dict_get (rq_options request) "from_stage" with
  | Some (VStr raw) =>
      if negb (str_truthy (strip raw)) then ret (stage_definitions, cx)
      else
        from_stage <- stage_of_value (strip raw) ;;
        start_index <- from_option_or (key_error (stage_value from_stage)) (stage_index from_stage) ;;
        if (start_index <=? 1)%nat then ret (drop start_index stage_definitions, cx)
        else
          match compilation_resume_checkpoint (Some (rq_options request)) with
          | None =>
              raise (runtime_error ("Retry from stage " +:+ stage_value from_stage
                       +:+ " requires a persisted checkpoint."))
          | Some cp =>
              expected <- from_option_or (runtime_error "unreachable: index in range")
                (sd_stage <$> stage_definitions !! (start_index - 1)%nat) ;;
              completed <- stage_of_value (cp_completed_stage cp) ;;
              if negb (bool_decide (completed = expected)) then
                raise (runtime_error
                  ("Retry checkpoint does not match the requested stage boundary: expected "
                   +:+ stage_value expected +:+ ", found " +:+ stage_value completed +:+ "."))
              else
                ret (drop start_index stage_definitions,
                     mk_context (cx_job_id cx) (cx_request cx) (cp_payload cp) (cp_protocol cp)
                       (cp_service_name cp) (cx_stage_results cx))
          end
  | _ => ret (stage_definitions, cx)
  end.

(** The stages of one execution, from the started job to its result. *)
Definition run_pipeline (cx : CompilationContext) (defs : list StageDefinition)
    : comp S exn CompilationResult :=
  let job_id := cx_job_id cx in
  append_event job_id JOB_CREATED None None None None ;;;
  append_event job_id JOB_STARTED None None None None ;;;
  cx <- fold_each run_one_stage cx defs ;;
  final_stage <- from_option_or (mk_exn "IndexError" "tuple index out of range" []) (last_stage defs) ;;
  mark_job_succeeded job_id final_stage
    (cx_protocol cx) (cx_service_name cx) (cx_service_name cx) ;;;
  append_event job_id JOB_SUCCEEDED (Some final_stage) None
    (Some [("protocol", opt_str (cx_protocol cx)); ("service_name", opt_str (cx_service_name cx))])
    None ;;;
  record_terminal_job_metric SUCCEEDED ;;;
  ret (mk_result job_id SUCCEEDED final_stage (cx_payload cx)).

Definition run (request : CompilationRequest) : comp S exn CompilationResult :=
  job_id <- create_job request (rq_job_id request) ;;
  existing_status <- get_job_status job_id ;;
  match existing_status with
  | Some st =>
      if is_non_reentrant st then
        final_stage <- from_option_or (mk_exn "IndexError" "tuple index out of range" [])
          (last_stage stage_definitions) ;;
        ret (mk_result job_id st final_stage [])
      else
        r <- resolve_stage_definitions request (initial_context job_id request) ;;
        run_pipeline r.2 r.1
  | None =>
      r <- resolve_stage_definitions request (initial_context job_id request) ;;
      run_pipeline r.2 r.1
  end.
End workflow.

(** ** The event stream of one execution *)

(** Attempt [n] of a stage: started, then ended by [t]. *)
Definition attempt_log (stage : CompilationStage) (t : CompilationEventType) (n : Z) : list log_entry :=
  [entry STAGE_STARTED (Some stage) (Some n); entry t (Some stage) (Some n)].

(** Attempts [from .. to-1] retried, attempt [to] ended by [t]. *)
Definition attempts_log (stage : CompilationStage) (t : CompilationEventType) (from to : Z) : list log_entry :=
  (seqZ from (to - from) ≫= attempt_log stage STAGE_RETRYING) ++ attempt_log stage t to.

Definition stage_log (t : CompilationEventType) (dn : StageDefinition * Z) : list log_entry :=
  attempts_log (sd_stage dn.1) t 1 dn.2.

(** Completed stages, each with the number of the attempt that succeeded. *)
Definition completed_log (done : list (StageDefinition * Z)) : list log_entry :=
  done ≫= stage_log STAGE_SUCCEEDED.

(** Rolled-back stages, each with whether its compensation succeeded. *)
Definition rollback_log (outs : list (CompilationStage * bool)) : list log_entry :=
  outs ≫= λ o, [entry ROLLBACK_STARTED (Some o.1) None;
                entry (if (o.2 : bool) then ROLLBACK_SUCCEEDED else ROLLBACK_FAILED) (Some o.1) None].

(** The terminal status of a failed execution. *)
Definition failure_status (outs : list (CompilationStage * bool)) : CompilationStatus :=
  match outs with
  | [] => FAILED
  | _ => if forallb snd outs then ROLLED_BACK else FAILED
  end.

Definition failure_event (st : CompilationStatus) : CompilationEventType :=
  match st with ROLLED_BACK => JOB_ROLLED_BACK | _ => JOB_FAILED end.

(** The stages to compensate when those of [completed] have run: the
    rollback-enabled ones, newest definition first. *)
Definition stages_to_roll_back (defs : list StageDefinition) (completed : list CompilationStage)
    : list CompilationStage :=
  sd_stage <$> List.filter
    (λ d, sd_rollback_enabled d && bool_decide (sd_stage d ∈ completed)) (rev defs).

Definition opening_log : list log_entry := [entry JOB_CREATED None None; entry JOB_STARTED None None].

Lemma attempts_log_last stage t n : attempts_log stage t n n = attempt_log stage t n.
Proof. unfold attempts_log. by rewrite Z.sub_diag. Qed.

Lemma attempts_log_cons stage t n m :
  n < m → attempts_log stage t n m = attempt_log stage STAGE_RETRYING n ++ attempts_log stage t (n + 1) m.
Proof.
  intros Hlt. unfold attempts_log. rewrite (seqZ_cons n) by lia. rewrite bind_cons, <-(assoc_L (++)).
  by replace (Z.pred (m - n)) with (m - (n + 1)) by lia.
Qed.

Lemma rollback_log_snoc outs o : rollback_log (outs ++ [o]) = rollback_log outs ++ rollback_log [o].
Proof. unfold rollback_log. by rewrite bind_app. Qed.

Lemma completed_log_snoc done dn :
  completed_log (done ++ [dn]) = completed_log done ++ stage_log STAGE_SUCCEEDED dn.
Proof. unfold completed_log. rewrite bind_app. simpl. by rewrite app_nil_r. Qed.

Lemma stage_result_is_Some cx stage :
  bool_decide (is_Some (stage_result cx stage)) = bool_decide (stage ∈ (cx_stage_results cx).*1).
Proof.
  apply bool_decide_ext. unfold stage_result. generalize (cx_stage_results cx). intros l.
  induction l as [|[st r] l IH]; simpl; [split; [by intros [? ?]|by inversion 1]|].
  destruct (decide (st = stage)) as [->|Hne].
  - rewrite bool_decide_true by done. split; [left|by eauto].
  - rewrite bool_decide_false by done. rewrite IH, elem_of_cons. naive_solver.
Qed.

(** ** Resuming from a checkpoint *)

Lemma parse_stage_Some v st : parse_stage v = Some st → v = stage_value st.
Proof.
  unfold parse_stage. intros [_ Heq]%List.find_some. by destruct (str_eqbP (stage_value st) v).
Qed.

Lemma stage_index_Some defs stage k :
  stage_index defs stage = Some k → ∃ d, defs !! k = Some d ∧ sd_stage d = stage.
Proof.
  unfold stage_index. set (f := λ acc id, _).
  enough (∀ l acc, (∀ id : nat * StageDefinition, id ∈ l → defs !! id.1 = Some id.2) →
    (∀ j, acc = Some j → ∃ d, defs !! j = Some d ∧ sd_stage d = stage) →
    ∀ j, foldl f acc l = Some j → ∃ d, defs !! j = Some d ∧ sd_stage d = stage) as Hgo.
  { apply Hgo; [|done]. intros [i d] Hin. by apply elem_of_lookup_imap in Hin as (i' & d' & [= -> ->] & ?). }
  induction l as [|id l IH]; intros acc Hl Hacc; simpl; [done|].
  apply IH; [intros; apply Hl; by right|]. intros j. unfold f.
  case_decide as Heq; [|by apply Hacc]. intros [= <-].
  exists id.2. split; [|done]. apply Hl. left.
Qed.

(** What an accepted resume request means: [k] is where the stages start. *)
Definition resumes_at (defs : list StageDefinition) (request : CompilationRequest)
    (cx : CompilationContext) (k : nat) (cx' : CompilationContext) : Prop :=
  (k < length defs)%nat
  ∧ (match dict_get (rq_options request) "from_stage" with
     | Some (VStr raw) =>
         str_truthy (strip raw) = true → stage_value <$> (sd_stage <$> defs !! k) = Some (strip raw)
     | _ => k = 0%nat
     end)
  ∧ match k with
    | O | 1%nat => cx' = cx
    | S j =>
        ∃ cp, compilation_resume_checkpoint (Some (rq_options request)) = Some cp
          ∧ stage_value <$> (sd_stage <$> defs !! j) = Some (cp_completed_stage cp)
          ∧ cx' = mk_context (cx_job_id cx) (cx_request cx) (cp_payload cp) (cp_protocol cp)
                    (cp_service_name cp) (cx_stage_results cx)
    end.

Lemma resolve_cases {St} (defs : list StageDefinition)
    (request : CompilationRequest) (cx : CompilationContext) (s : St) :
  defs ≠ [] →
  match resolve_stage_definitions defs request cx s with
  | (Ok (defs', cx'), s') => s' = s ∧ ∃ k, defs' = drop k defs ∧ resumes_at defs request cx k cx'
  | (Raise e, s') => s' = s ∧ exn_type e ∈ ["ValueError"; "KeyError"; "RuntimeError"]
  end.
Proof.
  intros Hne. assert (0 < length defs)%nat as Hlen by (destruct defs; simpl; [done|lia]).
  unfold resolve_stage_definitions, resumes_at.
  destruct (dict_get (rq_options request) "from_stage") as [[]|];
    try by (split; [done|]; exists 0%nat).
  rename s0 into raw. destruct (str_truthy (strip raw)) eqn:Hraw; simpl;
    [|by split; [done|]; exists 0%nat].
  unfold bind, stage_of_value.
  destruct (parse_stage (strip raw)) as [stage|] eqn:Hp; simpl; [|split; [done|]; by_eval].
  apply parse_stage_Some in Hp as Hraw'.
  destruct (stage_index defs stage) as [k|] eqn:Hk; simpl; [|split; [done|]; by_eval].
  apply stage_index_Some in Hk as (d & Hd & Hstage). pose proof (lookup_lt_Some _ _ _ Hd).
  destruct (Nat.leb_spec k 1) as [Hle|Hgt].
  { split; [done|]. exists k. rewrite Hd. simpl. rewrite Hstage, Hraw'.
    split; [done|]. split; [done|]. split; [done|]. destruct k as [|[]]; [done..|lia]. }
  destruct (compilation_resume_checkpoint _) as [cp|]; simpl; [|split; [done|]; by_eval].
  destruct k as [|[|k]]; [lia..|].
  replace (S (S k) - 1)%nat with (S k) by lia.
  destruct (lookup_lt_is_Some_2 defs (S k)) as [d' Hd']; [lia|]. rewrite Hd'. simpl.
  destruct (parse_stage (cp_completed_stage cp)) as [st|] eqn:Hcp; simpl; [|split; [done|]; by_eval].
  apply parse_stage_Some in Hcp. case_bool_decide as Heq; simpl; [|split; [done|]; by_eval].
  split; [done|]. exists (S (S k)). rewrite Hd. simpl. rewrite Hstage, Hraw'.
  split; [done|]. split; [done|]. split; [done|]. exists cp. rewrite Hd'. simpl. by rewrite Hcp, Heq.
Qed.

(** ** Correctness, against the interface only *)

(** An effect of the environment: it may change its own state and fail, never a
    job. [R] is what its failures tell. *)
Definition environmental {S A} (view : S → uuid → option job_view) (R : Prop) (m : comp S exn A) : Prop :=
  ∀ s, wp m (λ _ s', same_views view s s') (λ _ s', same_views view s s' ∧ R) s.

(** Observability counts and never raises. *)
Definition quiet_observability {S} (view : S → uuid → option job_view)
    (o : option (CompilationObservability S)) : Prop :=
  match o with
  | None => True
  | Some o =>
      (∀ st, environmental view False (record_job o st))
      ∧ (∀ st r, environmental view False (record_stage o st r))
      ∧ (∀ p r, environmental view False (record_extractor_run o p r))
      ∧ (∀ m i u, environmental view False (record_llm_token_usage o m i u))
  end.

Definition environmental_activities {S} (view : S → uuid → option job_view)
    (may_fail : CompilationStage → Prop) (a : CompilationActivities S) : Prop :=
  (∀ stage cx, environmental view (may_fail stage) (run_stage a stage cx))
  ∧ (∀ stage cx r, environmental view True (rollback_stage a stage cx r)).

(** *** The shape of an execution *)

(** Stage [dn.1] succeeded at attempt [dn.2]: within its budget, and past the
    first attempt only if its handler can raise. *)
Definition attempts_within (may_fail : CompilationStage → Prop) (dn : StageDefinition * Z) : Prop :=
  1 ≤ dn.2 ≤ max_attempts (sd_retry_policy dn.1) ∧ (dn.2 = 1 ∨ may_fail (sd_stage dn.1)).

(** The job after an execution in which every stage of [completed] succeeded. *)
Definition succeeded_view (L : list log_entry) (completed : list (StageDefinition * Z))
    (final : CompilationStage) : job_view :=
  mk_job_view SUCCEEDED (Some (stage_value final))
    (L ++ opening_log ++ completed_log completed ++ [entry JOB_SUCCEEDED (Some final) None]).

(** The job after [completed] succeeded, [d] used up its attempts and the
    compensations ended as [outs] says. *)
Definition failed_view (L : list log_entry) (completed : list (StageDefinition * Z))
    (d : StageDefinition) (outs : list (CompilationStage * bool)) : job_view :=
  let stage := sd_stage d in
  mk_job_view (failure_status outs) (Some (stage_value stage))
    (L ++ opening_log ++ completed_log completed
       ++ attempts_log stage STAGE_FAILED 1 (max_attempts (sd_retry_policy d))
       ++ rollback_log outs ++ [entry (failure_event (failure_status outs)) (Some stage) None]).

Section correctness.
Context {S : Type} {store_ops : CompilationJobStore S} (view : S → uuid → option job_view).
Context {laws : JobStoreLaws S view}.
Context (activities : CompilationActivities S).
Context (observability : option (CompilationObservability S)).
Context (stage_definitions : list StageDefinition).
(** The stages whose handlers may raise. *)
Context (may_fail : CompilationStage → Prop).
Context (activities_ok : environmental_activities view may_fail activities).
Context (observability_ok : quiet_observability view observability).

(** The job, and the state before the execution. *)
Context (id : uuid) (s0 : S).

Local Abbreviation at_view v s := (views_to view s0 s id v).

Lemma at_view_trans v v' s s' :
  at_view v s → views_to view s s' id v' → at_view v' s'.
Proof. intros [_ Hother] [Hv' Hother']. split; [done|]. intros id' Hne. rewrite Hother', Hother; done. Qed.

Lemma at_view_frame v s s' : at_view v s → same_views view s s' → at_view v s'.
Proof.
  intros [Hv Hother] Hsame. split; [by rewrite Hsame|]. intros id' Hne. rewrite Hsame. by apply Hother.
Qed.

(** Sequencing after a step that returns and moves the job's view. *)
Lemma wp_store_step {A B} (m : comp S exn A) (k : A → comp S exn B) v v' Q R s :
  at_view v s →
  wp m (λ _ s', views_to view s s' id v') (λ _ _, False) s →
  (∀ a s', at_view v' s' → wp (k a) Q R s') →
  wp (bind m k) Q R s.
Proof.
  intros Hs Hm Hk. apply wp_bind. eapply wp_mono; [exact Hm| |done].
  intros a s' Hs'. apply Hk. exact (at_view_trans v v' s s' Hs Hs').
Qed.

Lemma wp_append {B} (k : unit → comp S exn B) st sg l t stage n detail err Q R s :
  at_view (mk_job_view st sg l) s →
  (∀ s', at_view (mk_job_view st sg (l ++ [entry t stage n])) s' → wp (k tt) Q R s') →
  wp (bind (append_event id t stage n detail err) k) Q R s.
Proof.
  intros Hs Hk. eapply wp_store_step; [exact Hs| |intros []; exact Hk].
  apply (law_append_event (view:=view) s id _ t stage n detail err (proj1 Hs)).
Qed.

Lemma wp_mark_running {B} (k : unit → comp S exn B) st sg l stage p n i Q R s :
  at_view (mk_job_view st sg l) s →
  (∀ s', at_view (mk_job_view RUNNING (Some (stage_value stage)) l) s' → wp (k tt) Q R s') →
  wp (bind (mark_job_running id stage p n i) k) Q R s.
Proof.
  intros Hs Hk. eapply wp_store_step; [exact Hs| |intros []; exact Hk].
  apply (law_mark_running (view:=view) s id _ stage p n i (proj1 Hs)).
Qed.

Lemma wp_quiet {B} (m : comp S exn unit) (k : unit → comp S exn B) v Q R s :
  at_view v s → environmental view False m →
  (∀ s', at_view v s' → wp (k tt) Q R s') →
  wp (bind m k) Q R s.
Proof.
  intros Hs Hm Hk. apply wp_bind. eapply wp_mono; [apply Hm| |by intros ? ? []].
  intros [] s' Hsame. apply Hk. exact (at_view_frame v s s' Hs Hsame).
Qed.

Lemma quiet_ret : environmental view False (ret tt).
Proof. by intros s. Qed.

Lemma quiet_when b m : environmental view False m → environmental view False (when b m).
Proof. intros H. destruct b; simpl; [exact H|apply quiet_ret]. Qed.

Lemma quiet_job st : environmental view False (record_terminal_job_metric observability st).
Proof.
  unfold record_terminal_job_metric. unfold quiet_observability in observability_ok.
  destruct observability; [apply observability_ok|apply quiet_ret].
Qed.

Lemma quiet_stage st r : environmental view False (record_stage_metric observability st r).
Proof.
  unfold record_stage_metric. unfold quiet_observability in observability_ok.
  destruct observability; [apply observability_ok|apply quiet_ret].
Qed.

Lemma quiet_extractor p r : environmental view False (record_extractor_metric observability p r).
Proof.
  unfold record_extractor_metric. unfold quiet_observability in observability_ok.
  destruct observability; [apply observability_ok|apply quiet_ret].
Qed.

Lemma quiet_tokens u : environmental view False (record_llm_token_usage_metric observability u).
Proof.
  unfold record_llm_token_usage_metric. unfold quiet_observability in observability_ok.
  destruct observability; [|apply quiet_ret].
  repeat case_match; solve [apply quiet_ret | apply observability_ok].
Qed.

(** *** Rollback *)

Definition to_compensate (cx : CompilationContext) (d : StageDefinition) : bool :=
  sd_rollback_enabled d && bool_decide (sd_stage d ∈ (cx_stage_results cx).*1).

(** What the loop's accumulator says of the compensations so far. *)
Definition rollback_acc (outs : list (CompilationStage * bool)) (acc : bool * list string) : Prop :=
  acc.1 = negb (bool_decide (outs = [])) ∧ (acc.2 = [] ↔ forallb snd outs = true).

Lemma wp_rollback_one cx d st sg L outs acc s :
  cx_job_id cx = id → rollback_acc outs acc →
  at_view (mk_job_view st sg (L ++ rollback_log outs)) s →
  wp (rollback_one activities cx acc d)
    (λ acc' s', ∃ outs', rollback_acc outs' acc'
       ∧ outs'.*1 = outs.*1 ++ (if to_compensate cx d then [sd_stage d] else [])
       ∧ at_view (mk_job_view st sg (L ++ rollback_log outs')) s') (λ _ _, False) s.
Proof.
  intros Hid Hacc Hs. unfold rollback_one, to_compensate. rewrite Hid.
  destruct (sd_rollback_enabled d); simpl; [|apply wp_ret; exists outs; by rewrite app_nil_r].
  rewrite <-stage_result_is_Some.
  destruct (stage_result cx (sd_stage d)) as [r|];
    [rewrite bool_decide_true by eauto|rewrite bool_decide_false by (by intros [? ?]);
     apply wp_ret; exists outs; by rewrite app_nil_r].
  assert (Hgo : ∀ b, (outs ++ [(sd_stage d, b)]).*1 = outs.*1 ++ [sd_stage d]) by (intros; by rewrite fmap_app).
  assert (Hneg : ∀ b, negb (bool_decide (outs ++ [(sd_stage d, b)] = [])) = true)
    by (intros; rewrite bool_decide_false; [done|by destruct outs]).
  eapply wp_append; [done|]. intros s1 Hs1. apply wp_bind, wp_attempt.
  eapply wp_mono; [apply activities_ok| |].
  - intros [] s2 Hsame. pose proof (at_view_frame _ _ _ Hs1 Hsame) as Hs2.
    eapply wp_append; [done|]. intros s3 Hs3. apply wp_ret. exists (outs ++ [(sd_stage d, true)]).
    split; [split; simpl; [by rewrite Hneg|]|split; [done|]].
    + rewrite forallb_app, (proj2 Hacc). simpl. by rewrite andb_true_r.
    + rewrite rollback_log_snoc. by rewrite <-!(assoc_L (++)) in *.
  - intros exc s2 [Hsame _]. pose proof (at_view_frame _ _ _ Hs1 Hsame) as Hs2.
    eapply wp_append; [done|]. intros s3 Hs3. apply wp_ret. exists (outs ++ [(sd_stage d, false)]).
    split; [split; simpl; [by rewrite Hneg|]|split; [done|]].
    + rewrite forallb_app. simpl. rewrite andb_false_r. split; [by destruct acc.2|done].
    + rewrite rollback_log_snoc. by rewrite <-!(assoc_L (++)) in *.
Qed.

Lemma wp_rollback cx st sg L s :
  cx_job_id cx = id → at_view (mk_job_view st sg L) s →
  wp (rollback activities stage_definitions cx)
    (λ r s', ∃ outs, r.1 = bool_decide (failure_status outs = ROLLED_BACK)
       ∧ outs.*1 = stages_to_roll_back stage_definitions (cx_stage_results cx).*1
       ∧ at_view (mk_job_view st sg (L ++ rollback_log outs)) s') (λ _ _, False) s.
Proof.
  intros Hid Hs. unfold rollback. apply wp_bind. eapply wp_mono.
  - apply (wp_fold_each _ (λ pre acc s', ∃ outs, rollback_acc outs acc
       ∧ outs.*1 = sd_stage <$> List.filter (to_compensate cx) pre
       ∧ at_view (mk_job_view st sg (L ++ rollback_log outs)) s') (λ _ _, False)).
    + exists []. split; [done|]. split; [done|]. simpl. by rewrite app_nil_r.
    + intros pre d post acc s' _ (outs & Hacc & Houts & Hs').
      eapply wp_mono; [by eapply wp_rollback_one| |done].
      intros acc' s'' (outs' & Hacc' & Houts' & Hs''). exists outs'. split; [done|]. split; [|done].
      rewrite Houts', Houts, List.filter_app, fmap_app. simpl. by destruct (to_compensate cx d).
  - intros [ex fails] s' (outs & [Hex Hfails] & Houts & Hs'). simpl in *.
    destruct fails as [|f fs]; apply wp_ret; exists outs; (split; [|by split]); simpl.
    + rewrite Hex. unfold failure_status. rewrite (proj1 Hfails eq_refl). by destruct outs.
    + unfold failure_status. destruct (forallb snd outs); [by pose proof (proj2 Hfails eq_refl)|]. by destruct outs.
  - done.
Qed.

(** *** Stages *)

(** Two logs written with different groupings of the same appends. *)
Local Ltac by_log H := cbn [jv_log with_status] in H; rewrite <-?(assoc_L (++)) in H; rewrite <-?(assoc_L (++)); exact H.

Lemma wp_fail_stage cx st sg L stage n err s :
  cx_job_id cx = id → at_view (mk_job_view st sg L) s →
  wp (fail_stage activities observability stage_definitions cx stage n err) (λ _ _, False)
    (λ e s', ∃ outs,
       e = compilation_workflow_error id stage (failure_status outs)
             ("Compilation failed at stage " +:+ stage_value stage +:+ ": " +:+ err)
       ∧ outs.*1 = stages_to_roll_back stage_definitions (cx_stage_results cx).*1
       ∧ at_view (mk_job_view (failure_status outs) (Some (stage_value stage))
           (L ++ entry STAGE_FAILED (Some stage) (Some n) :: rollback_log outs
              ++ [entry (failure_event (failure_status outs)) (Some stage) None])) s') s.
Proof.
  intros Hid Hs. unfold fail_stage. rewrite Hid. eapply wp_append; [exact Hs|]. intros s1 Hs1.
  apply wp_bind. eapply wp_mono; [by eapply wp_rollback| |by intros ? ? []].
  intros [rb fails] s2 (outs & Hrb & Houts & Hs2). simpl in Hrb. subst rb.
  set (rb := bool_decide _).
  assert ((if rb then ROLLED_BACK else FAILED) = failure_status outs) as Hfinal.
  { subst rb. unfold failure_status. destruct outs; [done|]. destruct (forallb _ _); done. }
  assert ((if rb then JOB_ROLLED_BACK else JOB_FAILED) = failure_event (failure_status outs)) as Hev.
  { subst rb. unfold failure_status. destruct outs; [done|]. destruct (forallb _ _); done. }
  eapply wp_store_step; [exact Hs2|apply (law_mark_failed (view:=view) s2 id _ _ _ _ _ _ _ (proj1 Hs2))|].
  intros [] s3 Hs3. rewrite Hfinal in Hs3. rewrite Hfinal, Hev.
  eapply wp_append; [exact Hs3|]. intros s4 Hs4.
  eapply wp_quiet; [exact Hs4|apply quiet_job|]. intros s5 Hs5.
  apply wp_raise. exists outs. split; [done|]. split; [done|].
  by_log Hs5.
Qed.

Lemma wp_complete_stage cx st sg L stage n result s :
  cx_job_id cx = id → at_view (mk_job_view st sg L) s →
  wp (complete_stage observability cx stage n result)
    (λ cx' s', cx' = apply_result cx stage result
       ∧ at_view (mk_job_view RUNNING (Some (stage_value stage))
           (L ++ [entry STAGE_SUCCEEDED (Some stage) (Some n)])) s')
    (λ _ _, False) s.
Proof.
  intros Hid Hs. unfold complete_stage. simpl cx_job_id. rewrite Hid.
  eapply wp_store_step; [exact Hs|apply (law_update_checkpoint (view:=view) s id _ _ _ _ _ (proj1 Hs))|].
  intros [] s1 Hs1.
  eapply wp_quiet; [exact Hs1|apply quiet_stage|]. intros s2 Hs2.
  eapply wp_quiet; [exact Hs2|apply quiet_when, quiet_extractor|]. intros s3 Hs3.
  eapply wp_quiet; [exact Hs3|apply quiet_when, quiet_tokens|]. intros s4 Hs4.
  eapply wp_mark_running; [exact Hs4|]. intros s5 Hs5.
  eapply wp_append; [exact Hs5|]. intros s6 Hs6. by apply wp_ret.
Qed.

(** Why a stage may fail: its handler can raise. *)
Definition stage_failed (cx : CompilationContext) (L : list log_entry) (d : StageDefinition)
    (from : Z) (e : exn) (s : S) : Prop :=
  let stage := sd_stage d in
  may_fail stage ∧ ∃ outs err,
    e = compilation_workflow_error id stage (failure_status outs)
          ("Compilation failed at stage " +:+ stage_value stage +:+ ": " +:+ err)
    ∧ outs.*1 = stages_to_roll_back stage_definitions (cx_stage_results cx).*1
    ∧ at_view (mk_job_view (failure_status outs) (Some (stage_value stage))
        (L ++ attempts_log stage STAGE_FAILED from (max_attempts (sd_retry_policy d))
           ++ rollback_log outs ++ [entry (failure_event (failure_status outs)) (Some stage) None])) s.

Definition stage_succeeded (cx : CompilationContext) (L : list log_entry) (d : StageDefinition)
    (from : Z) (cx' : CompilationContext) (s : S) : Prop :=
  let stage := sd_stage d in
  ∃ n result, from ≤ n ≤ max_attempts (sd_retry_policy d) ∧ (n = from ∨ may_fail stage)
    ∧ cx' = apply_result cx stage result
    ∧ at_view (mk_job_view RUNNING (Some (stage_value stage))
        (L ++ attempts_log stage STAGE_SUCCEEDED from n)) s.

Lemma wp_run_attempts d cx : cx_job_id cx = id →
  ∀ attempts from L sg s,
  let m := max_attempts (sd_retry_policy d) in
  attempts = seqZ from (m - from + 1) → from ≤ m →
  at_view (mk_job_view RUNNING sg L) s →
  wp (run_attempts activities observability stage_definitions d cx attempts)
    (stage_succeeded cx L d from) (stage_failed cx L d from) s.
Proof.
  intros Hid attempts. induction attempts as [|n rest IH]; intros from L sg s m Hatt Hle Hs.
  { rewrite seqZ_cons in Hatt by lia. done. }
  rewrite seqZ_cons in Hatt by lia. injection Hatt as -> Hrest.
  cbn [run_attempts]. rewrite Hid.
  eapply wp_append; [exact Hs|]. intros s1 Hs1. apply wp_bind, wp_attempt.
  eapply wp_mono; [apply activities_ok| |].
  - intros result s2 Hsame. pose proof (at_view_frame _ _ _ Hs1 Hsame) as Hs2.
    eapply wp_mono; [by eapply wp_complete_stage| |by intros ? ? []].
    intros cx' s3 [-> Hs3]. exists from, result. split; [lia|]. split; [by left|]. split; [done|].
    rewrite attempts_log_last. by_log Hs3.
  - intros exc s2 [Hsame Hmay]. pose proof (at_view_frame _ _ _ Hs1 Hsame) as Hs2.
    cbn zeta. eapply wp_quiet; [exact Hs2|apply quiet_stage|]. intros s3 Hs3.
    eapply wp_quiet; [exact Hs3|apply quiet_when, quiet_extractor|]. intros s4 Hs4.
    destruct (Z.ltb_spec from (max_attempts (sd_retry_policy d))) as [Hlt|Hge].
    + eapply wp_append; [exact Hs4|]. intros s5 Hs5.
      eapply wp_mono; [eapply (IH (from + 1)); [|subst m; lia|exact Hs5]| |].
      * rewrite Hrest. f_equal; subst m; lia.
      * intros cx' s6 (k & result & Hk & _ & -> & Hs6). exists k, result.
        split; [lia|]. split; [by right|]. split; [done|].
        rewrite (attempts_log_cons _ _ from k) by lia. by_log Hs6.
      * intros e s6 (_ & outs & err & -> & Houts & Hs6). split; [done|]. exists outs, err.
        split; [done|]. split; [done|].
        rewrite (attempts_log_cons _ _ from _) by done. by_log Hs6.
    + eapply wp_mono; [by eapply wp_fail_stage|by intros ? ? []|].
      intros e s5 (outs & -> & Houts & Hs5). split; [done|]. exists outs, (exn_str exc).
      split; [done|]. split; [done|].
      replace (max_attempts (sd_retry_policy d)) with from by (subst m; lia).
      rewrite attempts_log_last. by_log Hs5.
Qed.

Lemma wp_run_one_stage d cx st sg L s :
  cx_job_id cx = id → 1 ≤ max_attempts (sd_retry_policy d) →
  at_view (mk_job_view st sg L) s →
  wp (run_one_stage activities observability stage_definitions cx d)
    (stage_succeeded cx L d 1) (stage_failed cx L d 1) s.
Proof.
  intros Hid Hmax Hs. unfold run_one_stage. rewrite Hid. eapply wp_mark_running; [exact Hs|].
  intros s1 Hs1. unfold attempts_of.
  eapply wp_run_attempts; [done| |done|exact Hs1]. f_equal. lia.
Qed.

(** *** The whole execution *)

Lemma stages_to_roll_back_perm l l' :
  (∀ x, x ∈ l ↔ x ∈ l') →
  stages_to_roll_back stage_definitions l = stages_to_roll_back stage_definitions l'.
Proof.
  intros Hl. unfold stages_to_roll_back. f_equal. apply List.filter_ext. intros d. f_equal.
  by apply bool_decide_ext.
Qed.

(** The state of the stage loop after the definitions in [pre]. *)
Definition loop_inv (L : list log_entry) (pre : list StageDefinition)
    (cx : CompilationContext) (s : S) : Prop :=
  cx_job_id cx = id ∧ (cx_stage_results cx).*1 = rev (sd_stage <$> pre)
  ∧ ∃ completed st sg, completed.*1 = pre ∧ Forall (attempts_within may_fail) completed
    ∧ at_view (mk_job_view st sg (L ++ opening_log ++ completed_log completed)) s.

(** How an execution of [defs] fails. *)
Definition run_failed (L : list log_entry) (defs : list StageDefinition) (e : exn) (s : S) : Prop :=
  ∃ completed d post outs err,
    defs = completed.*1 ++ d :: post
    ∧ Forall (attempts_within may_fail) completed ∧ may_fail (sd_stage d)
    ∧ outs.*1 = stages_to_roll_back stage_definitions (sd_stage <$> completed.*1)
    ∧ e = compilation_workflow_error id (sd_stage d) (failure_status outs)
            ("Compilation failed at stage " +:+ stage_value (sd_stage d) +:+ ": " +:+ err)
    ∧ at_view (failed_view L completed d outs) s.

(** How it succeeds. *)
Definition run_succeeded (L : list log_entry) (defs : list StageDefinition)
    (r : CompilationResult) (s : S) : Prop :=
  ∃ completed final,
    completed.*1 = defs ∧ Forall (attempts_within may_fail) completed
    ∧ last_stage defs = Some final
    ∧ cr_job_id r = id ∧ cr_status r = SUCCEEDED ∧ cr_final_stage r = final
    ∧ at_view (succeeded_view L completed final) s.

Lemma wp_loop_step L defs pre d post cx s :
  defs = pre ++ d :: post → 1 ≤ max_attempts (sd_retry_policy d) → loop_inv L pre cx s →
  wp (run_one_stage activities observability stage_definitions cx d)
    (λ cx' s', loop_inv L (pre ++ [d]) cx' s') (run_failed L defs) s.
Proof.
  intros -> Hmax (Hid & Hres & completed & st & sg & Hpre & Hall & Hs).
  eapply wp_mono; [eapply (wp_run_one_stage d cx st sg _ s Hid Hmax Hs)| |].
  - intros cx' s' (n & result & Hn & Hwhy & -> & Hs'). split_and!; [done| |].
    { rewrite fmap_app, rev_app_distr, <-Hres. done. }
    exists (completed ++ [(d, n)]), RUNNING, (Some (stage_value (sd_stage d))).
    rewrite fmap_app, Hpre. split; [done|]. split.
    + apply Forall_app. split; [done|]. apply Forall_singleton. by split.
    + rewrite completed_log_snoc. by_log Hs'.
  - intros e s' (Hmay & outs & err & -> & Houts & Hs').
    exists completed, d, post, outs, err. rewrite Hpre. split_and!; try done.
    + rewrite Houts, Hres. apply stages_to_roll_back_perm. intros x.
      by rewrite !list_elem_of_In, <-in_rev.
    + unfold failed_view. by_log Hs'.
Qed.

Lemma wp_run_pipeline cx defs st sg L s :
  cx_job_id cx = id → cx_stage_results cx = [] → defs ≠ [] →
  Forall (λ d, 1 ≤ max_attempts (sd_retry_policy d)) defs →
  at_view (mk_job_view st sg L) s →
  wp (run_pipeline activities observability stage_definitions cx defs)
    (run_succeeded L defs) (run_failed L defs) s.
Proof.
  intros Hid Hres Hne Hmax Hs. unfold run_pipeline. rewrite Hid.
  eapply wp_append; [exact Hs|]. intros s1 Hs1. eapply wp_append; [exact Hs1|]. intros s2 Hs2.
  apply wp_bind. eapply wp_mono; [apply (wp_fold_each _ (loop_inv L) (run_failed L defs))| |done].
  - split_and!; [done|by rewrite Hres|]. exists [], st, sg. split_and!; [done..|].
    unfold completed_log. simpl. by_log Hs2.
  - intros pre d post cx' s' Hdefs Hinv. eapply wp_loop_step; [done| |done].
    rewrite Forall_forall in Hmax. apply Hmax. rewrite Hdefs. apply elem_of_app. right. left.
  - intros cx' s3 (Hid' & _ & completed & st' & sg' & Hdefs & Hall & Hs3).
    destruct (last defs) as [d|] eqn:Hlast; [|by apply last_None in Hlast].
    assert (last_stage defs = Some (sd_stage d)) as Hfinal by (unfold last_stage; by rewrite Hlast).
    rewrite Hfinal. apply wp_bind, wp_ret.
    eapply wp_store_step; [exact Hs3|apply (law_mark_succeeded (view:=view) s3 id _ _ _ _ _ (proj1 Hs3))|].
    intros [] s4 Hs4. eapply wp_append; [exact Hs4|]. intros s5 Hs5.
    eapply wp_quiet; [exact Hs5|apply quiet_job|]. intros s6 Hs6. apply wp_ret.
    exists completed, (sd_stage d). split_and!; try done. unfold succeeded_view. by_log Hs6.
Qed.

Lemma wp_run_prefix {B} request v (k : uuid → comp S exn B) Q R :
  view s0 id = Some v → rq_job_id request = Some id →
  wp (k id) Q R s0 → wp (bind (create_job request (rq_job_id request)) k) Q R s0.
Proof.
  intros Hv Hid Hk. rewrite Hid. apply wp_bind.
  eapply wp_mono; [apply (law_create_job (view:=view) s0 request id v Hv)| |done].
  by intros u s' [-> ->].
Qed.

Lemma wp_get_status v {B} (k : option CompilationStatus → comp S exn B) Q R :
  view s0 id = Some v → wp (k (Some (jv_status v))) Q R s0 →
  wp (bind (get_job_status id) k) Q R s0.
Proof.
  intros Hv Hk. apply wp_bind.
  eapply wp_mono; [apply (law_get_status (view:=view) s0 id v Hv)| |done].
  by intros o s' [-> ->].
Qed.


(** A job that is running or already ended is not executed again: the
    workflow returns its status and touches nothing. *)
Theorem run_skips_non_reentrant request v final :
  view s0 id = Some v → rq_job_id request = Some id →
  is_non_reentrant (jv_status v) = true → last_stage stage_definitions = Some final →
  run activities observability stage_definitions request s0
    = (Ok (mk_result id (jv_status v) final []), s0).
Proof.
  intros Hv Hid Hst Hlast.
  assert (wp (run activities observability stage_definitions request)
    (λ r s', r = mk_result id (jv_status v) final [] ∧ s' = s0) (λ _ _, False) s0) as Hwp.
  { unfold run. eapply wp_run_prefix; [exact Hv|exact Hid|]. eapply wp_get_status; [exact Hv|].
    rewrite Hst, Hlast. apply wp_bind, wp_ret. by apply wp_ret. }
  unfold wp in Hwp. destruct (run _ _ _ _ s0) as [[r|e] s']; [|done]. by destruct Hwp as [-> ->].
Qed.

End correctness.

(** ** Concrete executions *)

Definition no_repr : pyval → string := λ _, "".

(** Handlers of which only [failing] raises; compensations succeed unless
    [bad_rollback] raises. *)
Definition demo_activities (failing bad_rollback : CompilationStage)
    : CompilationActivities JobStore.store :=
  mk_activities _
    (λ stage _, if decide (stage = failing) then raise (runtime_error "boom")
                else ret (mk_stage_result [] None None None None))
    (λ stage _ _, if decide (stage = bad_rollback) then raise (runtime_error "stuck") else ret tt).

Lemma demo_activities_ok failing bad :
  environmental_activities JobStore.view (λ st, st = failing) (demo_activities failing bad).
Proof. by split; intros; simpl; case_decide; intros s. Qed.

Definition demo_run (failing bad : CompilationStage) : outcome exn CompilationResult * JobStore.store :=
  @run _ (JobStore.sql_job_store no_repr) (demo_activities failing bad) None DEFAULT_STAGE_DEFINITIONS
    JobStore.demo_request (JobStore.demo_store []).

(** A failed ROUTE stage takes back DEPLOY and GENERATE. *)
Example demo_rolled_back :
  (jv_status <$> JobStore.view (demo_run ROUTE REGISTER).2 1%N) = Some ROLLED_BACK.
Proof. vm_compute. reflexivity. Qed.

(** It ends FAILED when a compensation fails. *)
Example demo_failed :
  (jv_status <$> JobStore.view (demo_run ROUTE GENERATE).2 1%N) = Some FAILED.
Proof. vm_compute. reflexivity. Qed.


Definition demo_running_store : JobStore.store :=
  JobStore.mk_store (JobStore.mk_tables
    {[ 1%N := JobStore.marked (JobStore.new_job_row JobStore.demo_request) RUNNING DETECT
                None None None None ]} []) [] [].

Lemma run_skips_non_reentrant_witness :
  let s := demo_running_store in
  let v := mk_job_view RUNNING (Some "detect") [] in
  JobStore.view s 1%N = Some v ∧
  @run _ (JobStore.sql_job_store no_repr) (demo_activities ROUTE GENERATE) None
    DEFAULT_STAGE_DEFINITIONS JobStore.demo_request s
    = (Ok (mk_result 1%N RUNNING REGISTER []), s).
Proof.
  intros s v. assert (JobStore.view s 1%N = Some v) as Hv by (vm_compute; reflexivity).
  split; [exact Hv|].
  exact (run_skips_non_reentrant JobStore.view (laws := JobStore.sql_job_store_laws no_repr)
    (demo_activities ROUTE GENERATE) None DEFAULT_STAGE_DEFINITIONS 1%N s JobStore.demo_request
    v REGISTER Hv eq_refl eq_refl eq_refl).
Defined.

(** Choosing the stages touches no state.  When it returns, the execution
    starts exactly at the requested stage, and it skips more than the first
    stage only with a persisted checkpoint whose completed stage is the one
    right before it, whose payload then replaces the context's. *)
Theorem resolve_stage_definitions_spec {St} (defs : list StageDefinition)
    (request : CompilationRequest) (cx : CompilationContext) (s : St) :
  defs ≠ [] →
  match resolve_stage_definitions defs request cx s with
  | (Ok (defs', cx'), s') => s' = s ∧ ∃ k, defs' = drop k defs ∧ resumes_at defs request cx k cx'
  | (Raise e, s') => s' = s ∧ exn_type e ∈ ["ValueError"; "KeyError"; "RuntimeError"]
  end.
Proof. apply resolve_cases. Qed.

Definition demo_resume_request : CompilationRequest :=
  mk_request (Some "http://x") None None None None None None
    [("from_stage", VStr "generate");
     (RESUME_CHECKPOINT_OPTION_KEY,
      VDict [("payload", VDict [("ir", VStr "x")]); ("completed_stage", VStr "validate_ir")])] (Some 1%N).

Lemma resolve_stage_definitions_spec_witness :
  DEFAULT_STAGE_DEFINITIONS ≠ [] ∧
  match resolve_stage_definitions DEFAULT_STAGE_DEFINITIONS demo_resume_request
          (initial_context 1%N demo_resume_request) tt with
  | (Ok (defs', cx'), s') => s' = tt ∧ ∃ k, defs' = drop k DEFAULT_STAGE_DEFINITIONS
      ∧ resumes_at DEFAULT_STAGE_DEFINITIONS demo_resume_request
          (initial_context 1%N demo_resume_request) k cx'
  | (Raise e, s') => s' = tt ∧ exn_type e ∈ ["ValueError"; "KeyError"; "RuntimeError"]
  end.
Proof.
  split; [done|]. apply resolve_stage_definitions_spec. done.
Defined.
