(* ===== verification/Registry.v ===== *)
(** * The artifact registry ([apps/compiler_api/repository.py])

    [ArtifactRegistryRepository] over the tables [service_versions] and
    [artifact_records] of [libs/db_models.py]: one database session, with the
    unique indexes checked when changes are flushed and the last committed
    tables kept beside the working ones.  Validation and normalisation of IR
    documents ([ServiceIR.model_validate(..).model_dump(..)], pydantic's work) is
    a parameter. *)

From S2P Require Export PyExn.

(** ** Rows *)

Record ArtifactRecordPayload := mk_artifact {
  ap_artifact_type : string;
  ap_content_hash : string;
  ap_storage_path : option string;
  ap_metadata_json : option (dict pyval);
}.

Record ServiceVersion := mk_version {
  vr_id : uuid;
  vr_service_id : string;
  vr_version_number : Z;
  vr_is_active : bool;
  vr_ir_json : dict pyval;
  vr_raw_ir_json : option (dict pyval);
  vr_compiler_version : string;
  vr_source_url : option string;
  vr_source_hash : option string;
  vr_protocol : option string;
  vr_validation_report : option (dict pyval);
  vr_deployment_revision : option string;
  vr_route_config : option (dict pyval);
  vr_tenant : option string;
  vr_environment : option string;
}.

Record ArtifactVersionCreate := mk_create {
  vc_service_id : string;
  vc_version_number : Z;
  vc_ir_json : dict pyval;
  vc_raw_ir_json : option (dict pyval);
  vc_compiler_version : string;
  vc_source_url : option string;
  vc_source_hash : option string;
  vc_protocol : option string;
  vc_validation_report : option (dict pyval);
  vc_deployment_revision : option string;
  vc_route_config : option (dict pyval);
  vc_tenant : option string;
  vc_environment : option string;
  vc_is_active : option bool;
  vc_artifacts : list ArtifactRecordPayload;
}.

Record ArtifactVersionUpdate := mk_update {
  vu_ir_json : option (dict pyval);
  vu_raw_ir_json : option (dict pyval);
  vu_compiler_version : option string;
  vu_source_url : option string;
  vu_source_hash : option string;
  vu_protocol : option string;
  vu_validation_report : option (dict pyval);
  vu_deployment_revision : option string;
  vu_route_config : option (dict pyval);
  vu_tenant : option string;
  vu_environment : option string;
  vu_artifacts : option (list ArtifactRecordPayload);
}.

(** A stored version with its artifacts, as [_to_response] reads it. *)
Record ArtifactVersionResponse := mk_response {
  rs_version : ServiceVersion;
  rs_artifacts : list ArtifactRecordPayload;
}.

Definition with_active (b : bool) (r : ServiceVersion) : ServiceVersion :=
  mk_version (vr_id r) (vr_service_id r) (vr_version_number r) b (vr_ir_json r) (vr_raw_ir_json r)
    (vr_compiler_version r) (vr_source_url r) (vr_source_hash r) (vr_protocol r)
    (vr_validation_report r) (vr_deployment_revision r) (vr_route_config r)
    (vr_tenant r) (vr_environment r).

(** ** The session *)

Record tables := mk_tables {
  versions : list ServiceVersion;
  artifacts : list (uuid * ArtifactRecordPayload);
}.

Record session := mk_session {
  working : tables;
  committed : tables;
  uuid4s : list uuid;
}.

Definition on_working (f : tables → tables) (s : session) : session :=
  mk_session (f (working s)) (committed s) (uuid4s s).
Definition set_versions (f : list ServiceVersion → list ServiceVersion) (t : tables) : tables :=
  mk_tables (f (versions t)) (artifacts t).
Definition set_artifacts (f : list (uuid * ArtifactRecordPayload) → list (uuid * ArtifactRecordPayload))
    (t : tables) : tables :=
  mk_tables (versions t) (f (artifacts t)).

(** [coalesce(column, '')] *)
Definition coalesce_empty (o : option string) : string := default "" o.

(** The keys of [uq_service_version] and [uq_service_versions_one_active]. *)
Definition version_key (r : ServiceVersion) : string * Z * string * string :=
  (vr_service_id r, vr_version_number r, coalesce_empty (vr_tenant r), coalesce_empty (vr_environment r)).
Definition active_key (r : ServiceVersion) : string * string * string :=
  (vr_service_id r, coalesce_empty (vr_tenant r), coalesce_empty (vr_environment r)).

Definition active_rows (l : list ServiceVersion) : list ServiceVersion := List.filter vr_is_active l.

(** Primary key and the two unique indexes of [service_versions]. *)
Definition unique_versions (l : list ServiceVersion) : Prop :=
  NoDup (vr_id <$> l) ∧ NoDup (version_key <$> l) ∧ NoDup (active_key <$> active_rows l).

#[global] Instance unique_versions_dec l : Decision (unique_versions l).
Proof. unfold unique_versions. apply _. Defined.

Definition rollback_session : comp session exn unit :=
  modify (λ s, mk_session (committed s) (committed s) (uuid4s s)).

(** [session.flush()]: a violated index aborts the transaction. *)
Definition flush : comp session exn unit :=
  ok <- gets (λ s, bool_decide (unique_versions (versions (working s)))) ;;
  if (ok : bool) then ret tt
  else rollback_session ;;; raise (integrity_error "duplicate key value violates unique constraint").

Definition commit_session : comp session exn unit :=
  flush ;;; modify (λ s, mk_session (working s) (working s) (uuid4s s)).

Definition uuid4 : comp session exn uuid := λ s,
  match uuid4s s with
  | [] => (Ok 0%N, s)
  | u :: rest => (Ok u, mk_session (working s) (committed s) rest)
  end.

(** ** Queries *)

(** [if value is not None: query.where(column == value)] *)
Definition matches_filter (wanted column : option string) : bool :=
  match wanted with None => true | Some _ => bool_decide (column = wanted) end.

(** [column == value], or [column IS NULL] without one. *)
Definition matches_scope (wanted column : option string) : bool := bool_decide (column = wanted).

(** [_version_query] *)
Definition version_query (service_id : string) (tenant environment : option string)
    (r : ServiceVersion) : bool :=
  str_eqb (vr_service_id r) service_id
  && matches_filter tenant (vr_tenant r) && matches_filter environment (vr_environment r).

(** The rows of exactly this service and scope. *)
Definition in_scope (service_id : string) (tenant environment : option string)
    (r : ServiceVersion) : bool :=
  str_eqb (vr_service_id r) service_id
  && matches_scope tenant (vr_tenant r) && matches_scope environment (vr_environment r).

Definition select_versions (q : ServiceVersion → bool) : comp session exn (list ServiceVersion) :=
  gets (λ s, List.filter q (versions (working s))).

(** [order_by(desc(version_number))]: a stable insertion sort. *)
Fixpoint insert_desc (r : ServiceVersion) (l : list ServiceVersion) : list ServiceVersion :=
  match l with
  | [] => [r]
  | r' :: l' => if vr_version_number r' <? vr_version_number r then r :: l else r' :: insert_desc r l'
  end.
Definition sort_desc (l : list ServiceVersion) : list ServiceVersion := foldl (λ acc r, insert_desc r acc) [] l.

Definition artifacts_of (id : uuid) (t : tables) : list ArtifactRecordPayload :=
  snd <$> List.filter (λ a, bool_decide (a.1 = id)) (artifacts t).

Definition to_response (r : ServiceVersion) : comp session exn ArtifactVersionResponse :=
  gets (λ s, mk_response r (artifacts_of (vr_id r) (working s))).

(** [AmbiguousServiceVersionError]; [repr] of the scope is left out of the text. *)
Definition ambiguous_error (service_id : string) : exn :=
  mk_exn "AmbiguousServiceVersionError"
    ("Registry lookup for " +:+ service_id +:+ " matched multiple service versions.")
    [("service_id", VStr service_id)].

Definition require_unique_version_record (service_id : string) (q : ServiceVersion → bool)
    : comp session exn (option ServiceVersion) :=
  records <- select_versions q ;;
  match records with
  | [] => ret None
  | [r] => ret (Some r)
  | _ => raise (ambiguous_error service_id)
  end.

Definition get_version_record (service_id : string) (version_number : Z)
    (tenant environment : option string) : comp session exn (option ServiceVersion) :=
  require_unique_version_record service_id
    (λ r, version_query service_id tenant environment r && (vr_version_number r =? version_number)).

Definition get_version (service_id : string) (version_number : Z) (tenant environment : option string)
    : comp session exn (option ArtifactVersionResponse) :=
  record <- get_version_record service_id version_number tenant environment ;;
  match record with
  | None => ret None
  | Some r => resp <- to_response r ;; ret (Some resp)
  end.

Definition get_active_version (service_id : string) (tenant environment : option string)
    : comp session exn (option ArtifactVersionResponse) :=
  record <- require_unique_version_record service_id
    (λ r, version_query service_id tenant environment r && vr_is_active r) ;;
  match record with
  | None => ret None
  | Some r => resp <- to_response r ;; ret (Some resp)
  end.

Definition list_versions (service_id : string) (tenant environment : option string)
    : comp session exn (list ArtifactVersionResponse) :=
  records <- select_versions (version_query service_id tenant environment) ;;
  gets (λ s, (λ r, mk_response r (artifacts_of (vr_id r) (working s))) <$> sort_desc records).

(** ** Changes *)

(** The UPDATE of [_deactivate_service_versions]. *)
Definition deactivate (service_id : string) (tenant environment : option string)
    (l : list ServiceVersion) : list ServiceVersion :=
  (λ r, if in_scope service_id tenant environment r then with_active false r else r) <$> l.

Definition deactivate_service_versions (service_id : string) (tenant environment : option string)
    : comp session exn unit :=
  modify (on_working (set_versions (deactivate service_id tenant environment))).

Definition replace_artifacts (id : uuid) (new : list ArtifactRecordPayload) : comp session exn unit :=
  modify (on_working (set_artifacts (λ l,
    List.filter (λ a, negb (bool_decide (a.1 = id))) l ++ ((λ a, (id, a)) <$> new)))).

(** Assignments to the ORM object of row [id]. *)
Definition update_row (id : uuid) (f : ServiceVersion → ServiceVersion) (l : list ServiceVersion)
    : list ServiceVersion :=
  (λ r, if bool_decide (vr_id r = id) then f r else r) <$> l.

Definition assign (id : uuid) (f : ServiceVersion → ServiceVersion) : comp session exn unit :=
  modify (on_working (set_versions (update_row id f))).

(** [session.delete(record)]: the artifacts go with their version. *)
Definition delete_row (id : uuid) : comp session exn unit :=
  modify (on_working (λ t,
    mk_tables (List.filter (λ r, negb (bool_decide (vr_id r = id))) (versions t))
              (List.filter (λ a, negb (bool_decide (a.1 = id))) (artifacts t)))).

(** [session.refresh(record)] and [_to_response]. *)
Definition refreshed (id : uuid) : comp session exn ArtifactVersionResponse :=
  r <- gets (λ s, List.find (λ r, bool_decide (vr_id r = id)) (versions (working s))) ;;
  row <- from_option_or (mk_exn "InvalidRequestError" "Could not refresh instance" []) r ;;
  to_response row.

Section registry.
(** [ServiceIR.model_validate(payload).model_dump(mode="json")] *)
Context (normalize_ir_json : dict pyval → outcome exn (dict pyval)).

Definition normalized (payload : dict pyval) : comp session exn (dict pyval) :=
  match normalize_ir_json payload with Ok d => ret d | Raise e => raise e end.

Definition normalized_opt (payload : option (dict pyval)) : comp session exn (option (dict pyval)) :=
  match payload with
  | None => ret None
  | Some p => d <- normalized p ;; ret (Some d)
  end.

Definition create_version (payload : ArtifactVersionCreate) (commit : bool)
    : comp session exn ArtifactVersionResponse :=
  let service_id := vc_service_id payload in
  let tenant := vc_tenant payload in
  let environment := vc_environment payload in
  existing_versions <- list_versions service_id tenant environment ;;
  let is_active := match vc_is_active payload with
                   | Some b => b
                   | None => bool_decide (existing_versions = [])
                   end in
  when is_active (deactivate_service_versions service_id tenant environment) ;;;
  ir_json <- normalized (vc_ir_json payload) ;;
  raw_ir_json <- normalized_opt (vc_raw_ir_json payload) ;;
  id <- uuid4 ;;
  let version := mk_version id service_id (vc_version_number payload) is_active ir_json raw_ir_json
    (vc_compiler_version payload) (vc_source_url payload) (vc_source_hash payload)
    (vc_protocol payload) (vc_validation_report payload) (vc_deployment_revision payload)
    (vc_route_config payload) tenant environment in
  modify (on_working (set_versions (λ l, l ++ [version]))) ;;;
  flush ;;;
  replace_artifacts id (vc_artifacts payload) ;;;
  when commit commit_session ;;;
  record <- get_version service_id (vc_version_number payload) tenant environment ;;
  from_option_or (runtime_error "Artifact version disappeared after commit.") record.

Definition or_keep {A} (new : option A) (old : A) : A := default old new.
Definition or_keep_opt {A} (new old : option A) : option A :=
  match new with Some v => Some v | None => old end.

(** [record.ir_json = ...], before the raw document is looked at. *)
Definition with_ir (ir : option (dict pyval)) (r : ServiceVersion) : ServiceVersion :=
  mk_version (vr_id r) (vr_service_id r) (vr_version_number r) (vr_is_active r)
    (or_keep ir (vr_ir_json r)) (vr_raw_ir_json r)
    (vr_compiler_version r) (vr_source_url r) (vr_source_hash r) (vr_protocol r)
    (vr_validation_report r) (vr_deployment_revision r) (vr_route_config r)
    (vr_tenant r) (vr_environment r).

Definition updated_row (payload : ArtifactVersionUpdate) (raw : option (dict pyval))
    (r : ServiceVersion) : ServiceVersion :=
  mk_version (vr_id r) (vr_service_id r) (vr_version_number r) (vr_is_active r)
    (vr_ir_json r)
    (or_keep_opt raw (vr_raw_ir_json r))
    (or_keep (vu_compiler_version payload) (vr_compiler_version r))
    (or_keep_opt (vu_source_url payload) (vr_source_url r))
    (or_keep_opt (vu_source_hash payload) (vr_source_hash r))
    (or_keep_opt (vu_protocol payload) (vr_protocol r))
    (or_keep_opt (vu_validation_report payload) (vr_validation_report r))
    (or_keep_opt (vu_deployment_revision payload) (vr_deployment_revision r))
    (or_keep_opt (vu_route_config payload) (vr_route_config r))
    (or_keep_opt (vu_tenant payload) (vr_tenant r))
    (or_keep_opt (vu_environment payload) (vr_environment r)).

Definition update_version (service_id : string) (version_number : Z) (payload : ArtifactVersionUpdate)
    (tenant environment : option string) (commit : bool)
    : comp session exn (option ArtifactVersionResponse) :=
  record <- get_version_record service_id version_number tenant environment ;;
  match record with
  | None => ret None
  | Some r =>
      ir <- normalized_opt (vu_ir_json payload) ;;
      assign (vr_id r) (with_ir ir) ;;;
      raw <- normalized_opt (vu_raw_ir_json payload) ;;
      assign (vr_id r) (updated_row payload raw) ;;;
      match vu_artifacts payload with
      | Some new => replace_artifacts (vr_id r) new
      | None => ret tt
      end ;;;
      flush ;;;
      when commit commit_session ;;;
      resp <- refreshed (vr_id r) ;; ret (Some resp)
  end.

Definition activate_version (service_id : string) (version_number : Z)
    (tenant environment : option string) (commit : bool)
    : comp session exn (option ArtifactVersionResponse) :=
  record <- get_version_record service_id version_number tenant environment ;;
  match record with
  | None => ret None
  | Some r =>
      deactivate_service_versions service_id (vr_tenant r) (vr_environment r) ;;;
      assign (vr_id r) (with_active true) ;;;
      flush ;;;
      when commit commit_session ;;;
      resp <- refreshed (vr_id r) ;; ret (Some resp)
  end.

Definition delete_version (service_id : string) (version_number : Z)
    (tenant environment : option string) (commit : bool) : comp session exn bool :=
  record <- get_version_record service_id version_number tenant environment ;;
  match record with
  | None => ret false
  | Some r =>
      delete_row (vr_id r) ;;;
      flush ;;;
      when (vr_is_active r)
        (candidates <- select_versions (in_scope service_id (vr_tenant r) (vr_environment r)) ;;
         match sort_desc candidates with
         | [] => ret tt
         | replacement :: _ => assign (vr_id replacement) (with_active true)
         end) ;;;
      when commit commit_session ;;;
      ret true
  end.

Definition delete_service (service_id : string) (tenant environment : option string) (commit : bool)
    : comp session exn nat :=
  doomed <- select_versions (version_query service_id tenant environment) ;;
  match doomed with
  | [] => ret 0%nat
  | _ =>
      for_each doomed (λ r, delete_row (vr_id r)) ;;;
      flush ;;;
      when commit commit_session ;;;
      ret (length doomed)
  end.
End registry.

(** ** Invariants *)

Definition tables_ok (t : tables) : Prop :=
  unique_versions (versions t) ∧ Forall (λ a, a.1 ∈ vr_id <$> versions t) (artifacts t).

Definition session_ok (s : session) : Prop := tables_ok (working s) ∧ tables_ok (committed s).

(** No scope is the empty string, which the indexes confuse with none. *)
Definition proper_scope (r : ServiceVersion) : Prop :=
  vr_tenant r ≠ Some "" ∧ vr_environment r ≠ Some "".

(** The indexes, pointwise. *)
Lemma unique_versions_iff l :
  unique_versions l ↔
    NoDup (vr_id <$> l)
    ∧ (∀ x y, x ∈ l → y ∈ l → version_key x = version_key y → x = y)
    ∧ (∀ x y, x ∈ l → y ∈ l → vr_is_active x = true → vr_is_active y = true →
         active_key x = active_key y → x = y).
Proof.
  unfold unique_versions. split; intros (Hid & H1 & H2); pose proof (NoDup_fmap_1 _ _ Hid) as Hl;
    (split; [done|]).
  - rewrite NoDup_fmap_iff in H1 by done. split; [done|].
    unfold active_rows in H2. rewrite NoDup_fmap_iff in H2 by (by apply NoDup_filterb).
    intros x y Hx Hy Hax Hay. apply H2; by apply elem_of_filterb.
  - rewrite NoDup_fmap_iff by done. split; [done|].
    unfold active_rows. rewrite NoDup_fmap_iff by (by apply NoDup_filterb).
    intros x y [Hax Hx]%elem_of_filterb [Hay Hy]%elem_of_filterb. by apply H2.
Qed.

Lemma unique_id l x y :
  unique_versions l → x ∈ l → y ∈ l → vr_id x = vr_id y → x = y.
Proof.
  intros [Hid _]%unique_versions_iff. revert x y.
  rewrite <-NoDup_fmap_iff; [done|by apply (NoDup_fmap_1 vr_id)].
Qed.

(** Reassigning rows in place. *)
Lemma unique_map (g : ServiceVersion → ServiceVersion) l :
  (∀ x, vr_id (g x) = vr_id x) → (∀ x, version_key (g x) = version_key x) →
  unique_versions l →
  (∀ x y, x ∈ l → y ∈ l → vr_is_active (g x) = true → vr_is_active (g y) = true →
     active_key (g x) = active_key (g y) → x = y) →
  unique_versions (g <$> l).
Proof.
  intros Hid Hkey (H1 & H2 & H3)%unique_versions_iff Hact. apply unique_versions_iff. split_and!.
  - rewrite <-list_fmap_compose. by rewrite (list_fmap_ext _ vr_id l) by (intros; apply Hid).
  - intros ? ? (x & -> & Hx)%list_elem_of_fmap (y & -> & Hy)%list_elem_of_fmap.
    rewrite !Hkey. intros. f_equal. by apply H2.
  - intros ? ? (x & -> & Hx)%list_elem_of_fmap (y & -> & Hy)%list_elem_of_fmap.
    intros. f_equal. by apply Hact.
Qed.

Lemma unique_filter (P : ServiceVersion → bool) l :
  unique_versions l → unique_versions (List.filter P l).
Proof.
  intros Hu. pose proof Hu as (H1 & H2 & H3)%unique_versions_iff. apply unique_versions_iff. split_and!.
  - pose proof (NoDup_fmap_1 _ _ H1) as Hl. rewrite NoDup_fmap_iff by (by apply NoDup_filterb).
    intros x y [_ Hx]%elem_of_filterb [_ Hy]%elem_of_filterb. by eapply unique_id.
  - intros x y [_ Hx]%elem_of_filterb [_ Hy]%elem_of_filterb. by apply H2.
  - intros x y [_ Hx]%elem_of_filterb [_ Hy]%elem_of_filterb. by apply H3.
Qed.

Lemma in_scope_spec sid tenant env r :
  in_scope sid tenant env r = true ↔
    vr_service_id r = sid ∧ vr_tenant r = tenant ∧ vr_environment r = env.
Proof.
  unfold in_scope, matches_scope. rewrite !andb_true_iff, !bool_decide_eq_true, str_eqb_eq. tauto.
Qed.

Lemma deactivate_unique sid tenant env l :
  unique_versions l → unique_versions (deactivate sid tenant env l).
Proof.
  intros Hu. pose proof Hu as (_ & _ & H3)%unique_versions_iff. unfold deactivate.
  apply unique_map; [by intros x; case_match|by intros x; case_match|done|].
  intros x y Hx Hy. destruct (in_scope _ _ _ x), (in_scope _ _ _ y); simpl; try done. by apply H3.
Qed.

(** The rows when [r] becomes the active one of its scope. *)
Definition activated (r : ServiceVersion) (l : list ServiceVersion) : list ServiceVersion :=
  update_row (vr_id r) (with_active true)
    (deactivate (vr_service_id r) (vr_tenant r) (vr_environment r) l).

Lemma activated_map r l :
  activated r l = (λ x,
    if bool_decide (vr_id x = vr_id r) then with_active true x
    else if in_scope (vr_service_id r) (vr_tenant r) (vr_environment r) x then with_active false x
    else x) <$> l.
Proof.
  unfold activated, update_row, deactivate. rewrite <-list_fmap_compose.
  apply list_fmap_ext. intros _ x _. simpl.
  destruct (in_scope _ _ _ x); simpl; by case_bool_decide.
Qed.

Lemma proper_active_key x r :
  proper_scope x → proper_scope r → active_key x = active_key r →
  in_scope (vr_service_id r) (vr_tenant r) (vr_environment r) x = true.
Proof.
  intros [Hxt Hxe] [Hrt Hre] [= Hs Ht He]. apply in_scope_spec.
  unfold coalesce_empty in Ht, He.
  destruct (vr_tenant x), (vr_tenant r), (vr_environment x), (vr_environment r);
    simpl in *; subst; naive_solver.
Qed.

Lemma activated_unique r l :
  unique_versions l → r ∈ l → Forall proper_scope l → unique_versions (activated r l).
Proof.
  intros Hu Hr Hproper. pose proof Hu as (_ & _ & H3)%unique_versions_iff.
  rewrite Forall_forall in Hproper. rewrite activated_map.
  set (g := λ x, _).
  assert (∀ x, x ∈ l → vr_is_active (g x) = true →
    x = r ∨ (vr_is_active x = true ∧ active_key x ≠ active_key r)) as Hact.
  { intros x Hx. unfold g. case_bool_decide as Hid; [intros _; left; by eapply unique_id|].
    destruct (in_scope _ _ _ x) eqn:Es; [done|]. intros Ha. right. split; [done|].
    intros Hk%proper_active_key; [congruence|by apply Hproper..]. }
  assert (∀ x, active_key (g x) = active_key x) as Hkey by (intros x; unfold g; by repeat case_match).
  apply unique_map; [by intros x; unfold g; repeat case_match|by intros x; unfold g; repeat case_match|done|].
  intros x y Hx Hy Hax Hay. rewrite !Hkey.
  destruct (Hact x Hx Hax) as [->|[Hax' Hkx]], (Hact y Hy Hay) as [->|[Hay' Hky]];
    [done|congruence|congruence|by apply H3].
Qed.

(** ** Every operation keeps both the working and the committed tables sound *)

(** Changes made since the last flush may still break an index. *)
Definition pending_ok (s : session) : Prop :=
  Forall (λ a, a.1 ∈ vr_id <$> versions (working s)) (artifacts (working s)) ∧ tables_ok (committed s).

Lemma session_pending s : session_ok s → pending_ok s.
Proof. intros [[_ ?] ?]. by split. Qed.

Lemma wp_flush Q (R : exn → session → Prop) s :
  pending_ok s →
  (session_ok s → Q tt s) →
  (∀ e, exn_type e = "IntegrityError" →
    session_ok (mk_session (committed s) (committed s) (uuid4s s)) →
    R e (mk_session (committed s) (committed s) (uuid4s s))) →
  wp flush Q R s.
Proof.
  intros [Hfk Hc] HQ HR. unfold flush. apply wp_bind, wp_gets. case_bool_decide as Hu.
  - apply wp_ret, HQ. by repeat split; try apply Hu; try apply Hc.
  - apply wp_bind, wp_modify, wp_raise, HR; [done|by split].
Qed.

Lemma preserves_flush : preserves session_ok flush.
Proof. intros s Hs. apply wp_flush; [by apply session_pending|done..]. Qed.

Lemma preserves_commit : preserves session_ok commit_session.
Proof.
  apply preserves_bind; [apply preserves_flush|]. intros _.
  apply preserves_modify. intros s [Hw Hc]. by split.
Qed.

Lemma preserves_uuid4 : preserves session_ok uuid4.
Proof. intros s Hs. unfold wp, uuid4. by destruct (uuid4s s). Qed.

Lemma preserves_update_working f :
  (∀ t, tables_ok t → tables_ok (f t)) → preserves (E:=exn) session_ok (modify (on_working f)).
Proof. intros Hf. apply preserves_modify. intros s [Hw Hc]. split; [by apply Hf|done]. Qed.

Lemma ids_update_row id f l : (∀ x, vr_id (f x) = vr_id x) → vr_id <$> update_row id f l = vr_id <$> l.
Proof.
  intros Hf. unfold update_row. rewrite <-list_fmap_compose. apply list_fmap_ext.
  intros _ x _. simpl. case_bool_decide; [apply Hf|done].
Qed.

Lemma ids_deactivate sid t e l : vr_id <$> deactivate sid t e l = vr_id <$> l.
Proof.
  unfold deactivate. rewrite <-list_fmap_compose. apply list_fmap_ext. intros _ x _. simpl. by case_match.
Qed.

Lemma preserves_deactivate sid t e : preserves session_ok (deactivate_service_versions sid t e).
Proof.
  apply preserves_update_working. intros tb [Hu Hfk]. split; simpl; [by apply deactivate_unique|].
  by rewrite ids_deactivate.
Qed.

Lemma delete_row_fk id t :
  Forall (λ a, a.1 ∈ vr_id <$> versions t) (artifacts t) →
  Forall (λ a : uuid * ArtifactRecordPayload,
    a.1 ∈ vr_id <$> List.filter (λ r, negb (bool_decide (vr_id r = id))) (versions t))
    (List.filter (λ a, negb (bool_decide (a.1 = id))) (artifacts t)).
Proof.
  rewrite !Forall_forall. intros Hfk a [Hne Ha]%elem_of_filterb.
  apply Hfk, list_elem_of_fmap in Ha as (r & Hr & Hin). apply list_elem_of_fmap. exists r.
  split; [done|]. apply elem_of_filterb. by rewrite <-Hr.
Qed.

Lemma preserves_delete_row id : preserves session_ok (delete_row id).
Proof.
  apply preserves_update_working. intros tb [Hu Hfk]. split; [by apply unique_filter|by apply delete_row_fk].
Qed.

Lemma preserves_replace_artifacts s id new (P : session → Prop) :
  session_ok s → id ∈ vr_id <$> versions (working s) →
  wp (replace_artifacts id new) (λ _ s', session_ok s' ∧ versions (working s') = versions (working s)) (λ _ _, False) s.
Proof.
  intros [[Hu Hfk] Hc] Hid. apply wp_modify. split; [|done]. split; [|done]. split; [done|]. simpl.
  apply Forall_app. split.
  - rewrite !Forall_forall in *. intros a [_ Ha]%elem_of_filterb. by apply Hfk.
  - rewrite Forall_fmap, Forall_forall. by intros.
Qed.

(** Read-only computations. *)
Definition reads {A} (m : comp session exn A) : Prop := ∀ s, state_of m s = s.

Lemma reads_preserves {A} (m : comp session exn A) I : reads m → preserves I m.
Proof. intros Hm s Hs. specialize (Hm s). unfold state_of in Hm. unfold wp. destruct (m s) as [[] ?]; simpl in *; by subst. Qed.

Lemma reads_bind {A B} (m : comp session exn A) (k : A → comp session exn B) :
  reads m → (∀ a, reads (k a)) → reads (bind m k).
Proof.
  intros Hm Hk s. unfold state_of, bind. specialize (Hm s). unfold state_of in Hm.
  destruct (m s) as [[a|e] s']; simpl in *; subst; [apply Hk|done].
Qed.
Lemma reads_ret {A} (a : A) : reads (ret a). Proof. done. Qed.
Lemma reads_raise {A} e : reads (A:=A) (raise e). Proof. done. Qed.
Lemma reads_gets {A} (f : session → A) : reads (gets f). Proof. done. Qed.
Lemma reads_from_option {A} e (o : option A) : reads (from_option_or e o).
Proof. by destruct o. Qed.

Create HintDb reads.
#[export] Hint Resolve reads_bind reads_ret reads_raise reads_gets reads_from_option : reads.
Ltac solve_reads := repeat (intros; first [ solve [eauto with reads] | apply reads_bind | case_match ]).

Lemma reads_get_version_record sid n t e : reads (get_version_record sid n t e).
Proof. unfold get_version_record, require_unique_version_record, select_versions. solve_reads. Qed.
Lemma reads_get_version sid n t e : reads (get_version sid n t e).
Proof. unfold get_version, to_response. pose proof reads_get_version_record. solve_reads. Qed.
Lemma reads_get_active_version sid t e : reads (get_active_version sid t e).
Proof.
  unfold get_active_version. apply reads_bind.
  - unfold require_unique_version_record, select_versions. solve_reads.
  - unfold to_response. solve_reads.
Qed.
Lemma reads_list_versions sid t e : reads (list_versions sid t e).
Proof. unfold list_versions, select_versions. solve_reads. Qed.
Lemma reads_refreshed id : reads (refreshed id).
Proof. unfold refreshed, to_response. solve_reads. Qed.
Lemma reads_normalized nf p : reads (normalized nf p).
Proof. unfold normalized. solve_reads. Qed.
Lemma reads_normalized_opt nf p : reads (normalized_opt nf p).
Proof. unfold normalized_opt. pose proof reads_normalized. solve_reads. Qed.
#[export] Hint Resolve reads_get_version_record reads_get_version reads_list_versions reads_refreshed
  reads_normalized reads_normalized_opt : reads.

(** *** The row a lookup finds *)

Definition version_match (sid : string) (n : Z) (t e : option string) (r : ServiceVersion) : bool :=
  version_query sid t e r && (vr_version_number r =? n).

Definition matching (sid : string) (n : Z) (t e : option string) (s : session) : list ServiceVersion :=
  List.filter (version_match sid n t e) (versions (working s)).

Lemma get_version_record_eq sid n t e s :
  get_version_record sid n t e s =
    (match matching sid n t e s with
     | [] => Ok None
     | [r] => Ok (Some r)
     | _ => Raise (ambiguous_error sid)
     end, s).
Proof.
  unfold get_version_record, require_unique_version_record, select_versions, bind, gets.
  fold (version_match sid n t e). fold (matching sid n t e s).
  by destruct (matching sid n t e s) as [|? []].
Qed.

Lemma matching_found sid n t e s r :
  r ∈ matching sid n t e s →
  r ∈ versions (working s) ∧ vr_service_id r = sid ∧ vr_version_number r = n
    ∧ (t = None ∨ vr_tenant r = t) ∧ (e = None ∨ vr_environment r = e).
Proof.
  unfold matching, version_match, version_query, matches_filter.
  rewrite elem_of_filterb, !andb_true_iff, str_eqb_eq, Z.eqb_eq.
  intros [[[[Hs Ht] He] Hn] Hin]. split_and!; [done|done|done| |].
  - destruct t; [right; by apply bool_decide_eq_true in Ht|by left].
  - destruct e; [right; by apply bool_decide_eq_true in He|by left].
Qed.

(** A change of one known row's attributes, up to the flush. *)
Lemma pending_assign s id f :
  pending_ok s → (∀ x, vr_id (f x) = vr_id x) → wp (assign id f)
    (λ _ s', pending_ok s' ∧ vr_id <$> versions (working s') = vr_id <$> versions (working s)
       ∧ committed s' = committed s) (λ _ _, False) s.
Proof.
  intros [Hfk Hc] Hf. apply wp_modify. unfold pending_ok. simpl. by rewrite ids_update_row.
Qed.

Lemma pending_replace_artifacts s id new :
  pending_ok s → id ∈ vr_id <$> versions (working s) →
  wp (replace_artifacts id new)
    (λ _ s', pending_ok s' ∧ versions (working s') = versions (working s)
       ∧ committed s' = committed s) (λ _ _, False) s.
Proof.
  intros [Hfk Hc] Hid. apply wp_modify. split; [|done]. split; [|done]. simpl.
  apply Forall_app. split.
  - rewrite !Forall_forall in *. intros a [_ Ha]%elem_of_filterb. by apply Hfk.
  - rewrite Forall_fmap, Forall_forall. by intros.
Qed.

Lemma wp_reads {A} (m : comp session exn A) (Q : A → session → Prop) (R : exn → session → Prop) s :
  reads m → (∀ a, Q a s) → (∀ e, R e s) → wp m Q R s.
Proof.
  intros Hm HQ HR. specialize (Hm s). unfold state_of in Hm. unfold wp.
  destruct (m s) as [[] ?]; simpl in Hm; subst; auto.
Qed.

(** Sequencing after a computation that only reads. *)
Lemma preserves_reads_bind {A B} (m : comp session exn A) (k : A → comp session exn B) :
  reads m → (∀ a, preserves session_ok (k a)) → preserves session_ok (bind m k).
Proof. intros Hm Hk. apply preserves_bind; [by apply reads_preserves|done]. Qed.

Lemma preserves_flush_commit {A} commit (k : comp session exn A) :
  preserves session_ok k → preserves session_ok (when commit commit_session ;;; k).
Proof.
  intros Hk. apply preserves_bind; [|done]. apply preserves_when, preserves_commit.
Qed.

Section operations.
Context (nf : dict pyval → outcome exn (dict pyval)).

Lemma create_version_preserves payload commit : preserves session_ok (create_version nf payload commit).
Proof.
  unfold create_version. apply preserves_reads_bind; [auto with reads|]. intros existing.
  apply preserves_bind; [apply preserves_when, preserves_deactivate|]. intros _.
  apply preserves_reads_bind; [auto with reads|]. intros ir.
  apply preserves_reads_bind; [auto with reads|]. intros raw.
  apply preserves_bind; [apply preserves_uuid4|]. intros id s Hs.
  apply wp_bind, wp_modify, wp_bind. pose proof (session_pending s Hs) as [Hfk Hc].
  set (v := mk_version _ _ _ _ _ _ _ _ _ _ _ _ _ _ _).
  apply wp_flush; [|intros Hs'|by intros].
  - split; [|done]. simpl. rewrite fmap_app. eapply Forall_impl; [exact Hfk|].
    intros a Ha. by apply elem_of_app; left.
  - apply wp_bind. eapply wp_mono; [apply preserves_replace_artifacts| |done]; [exact (λ _, True)|done| |].
    + simpl. rewrite fmap_app. apply elem_of_app. right. left.
    + intros [] s'' [Hs'' _]. revert s'' Hs''. apply preserves_flush_commit.
      apply preserves_reads_bind; [auto with reads|]. intros. apply preserves_from_option.
Qed.

Lemma assign_keeps f s id :
  (∀ x, vr_id (f x) = vr_id x) → (∀ x, version_key (f x) = version_key x) →
  (∀ x, active_key (f x) = active_key x ∧ vr_is_active (f x) = vr_is_active x) →
  session_ok s →
  wp (assign id f) (λ _ s', session_ok s' ∧ vr_id <$> versions (working s') = vr_id <$> versions (working s))
    (λ _ _, False) s.
Proof.
  intros Hid Hkey Hact [[Hu Hfk] Hc]. apply wp_modify. split; [|by simpl; rewrite ids_update_row].
  split; [|done]. split; simpl; [|by rewrite ids_update_row].
  pose proof Hu as (_ & _ & H3)%unique_versions_iff. unfold update_row.
  assert (∀ x, let y := if bool_decide (vr_id x = id) then f x else x in
    vr_is_active y = vr_is_active x ∧ active_key y = active_key x) as Hg.
  { intros x. simpl. case_bool_decide; [|done]. by destruct (Hact x). }
  apply unique_map; [intros x; by case_bool_decide|intros x; by case_bool_decide|done|].
  intros x y Hx Hy. destruct (Hg x) as [-> ->], (Hg y) as [-> ->]. by apply H3.
Qed.

(** The end of every changing operation. *)
Lemma wp_finish {A} commit (k : comp session exn A) s :
  preserves session_ok k → pending_ok s →
  wp (flush ;;; when commit commit_session ;;; k) (λ _ s', session_ok s') (λ _ s', session_ok s') s.
Proof.
  intros Hk Hs. apply wp_bind, wp_flush; [done| |done].
  apply preserves_flush_commit. done.
Qed.

Lemma preserves_respond id : preserves session_ok (resp <- refreshed id ;; ret (Some resp)).
Proof. apply preserves_reads_bind; [auto with reads|]. intros. apply preserves_ret. Qed.

Lemma update_version_preserves sid n payload t e commit :
  preserves session_ok (update_version nf sid n payload t e commit).
Proof.
  unfold update_version. intros s Hs. apply wp_bind. unfold wp at 1. rewrite get_version_record_eq.
  destruct (matching sid n t e s) as [|r [|]] eqn:Em; [by apply wp_ret| |done].
  assert (r ∈ matching sid n t e s) as [Hr _]%matching_found by (rewrite Em; left).
  apply (list_elem_of_fmap_2 vr_id) in Hr. clear Em.
  apply wp_bind, wp_reads; [auto with reads| |done]. intros ir.
  apply wp_bind. eapply wp_mono; [by apply assign_keeps| |done].
  intros [] s1 [Hs1 Hids1]. rewrite <-Hids1 in Hr. clear Hids1.
  apply wp_bind, wp_reads; [auto with reads| |done]. intros raw.
  apply wp_bind. eapply wp_mono; [by apply (pending_assign s1); [apply session_pending|]| |done].
  intros [] s2 (Hp2 & Hids2 & Hc2). rewrite <-Hids2 in Hr. clear Hids2.
  apply wp_bind. destruct (vu_artifacts payload) as [new|].
  - eapply wp_mono; [by apply pending_replace_artifacts| |done].
    intros [] s3 (Hp3 & _ & Hc3). by apply wp_finish; [apply preserves_respond|].
  - apply wp_ret. by apply wp_finish; [apply preserves_respond|].
Qed.

Lemma activate_version_preserves sid n t e commit :
  preserves session_ok (activate_version sid n t e commit).
Proof.
  unfold activate_version. intros s Hs. apply wp_bind. unfold wp at 1. rewrite get_version_record_eq.
  destruct (matching sid n t e s) as [|r [|]] eqn:Em; [by apply wp_ret| |done].
  apply wp_bind. eapply wp_mono; [by apply preserves_deactivate| |done]. intros [] s1 Hs1.
  apply wp_bind. eapply wp_mono; [by apply (pending_assign s1); [apply session_pending|]| |done].
  intros [] s2 (Hp2 & _ & _). by apply wp_finish; [apply preserves_respond|].
Qed.

(** The index admits the replacement of a deleted active version. *)
Lemma replacement_unique r c l :
  unique_versions l → r ∈ l → vr_is_active r = true →
  c ∈ l → vr_id c ≠ vr_id r → active_key c = active_key r →
  unique_versions (update_row (vr_id c) (with_active true)
    (List.filter (λ x, negb (bool_decide (vr_id x = vr_id r))) l)).
Proof.
  intros Hu Hr Har Hc Hne Hk. pose proof Hu as (_ & _ & H3)%unique_versions_iff.
  unfold update_row. apply unique_map; [intros x; by case_bool_decide|intros x; by case_bool_decide|by apply unique_filter|].
  intros x y [Hxr Hx]%elem_of_filterb [Hyr Hy]%elem_of_filterb.
  apply negb_true_iff, bool_decide_eq_false in Hxr, Hyr.
  assert (∀ z, z ∈ l → vr_id z ≠ vr_id r → vr_is_active z = true → active_key z ≠ active_key r) as Hother.
  { intros z Hz Hzr Haz Hkz. by rewrite (H3 z r) in Hzr. }
  case_bool_decide as Hxc; case_bool_decide as Hyc; intros Hax Hay Hkey.
  - eapply unique_id; [done..|congruence].
  - rewrite (unique_id l x c) in Hkey by done. destruct (Hother y); [done..|].
    change (active_key c = active_key y) in Hkey. congruence.
  - rewrite (unique_id l y c) in Hkey by done. destruct (Hother x); [done..|].
    change (active_key x = active_key c) in Hkey. congruence.
  - by apply H3.
Qed.

Lemma insert_desc_perm r l : insert_desc r l ≡ₚ r :: l.
Proof.
  induction l as [|r' l IH]; simpl; [done|]. case_match; [done|]. rewrite IH. constructor.
Qed.

Lemma sort_desc_perm l : sort_desc l ≡ₚ l.
Proof.
  unfold sort_desc. enough (∀ acc, foldl (λ acc r, insert_desc r acc) acc l ≡ₚ l ++ acc) as H
    by (by rewrite H, app_nil_r).
  induction l as [|r l IH]; intros acc; simpl; [done|].
  rewrite IH, insert_desc_perm. symmetry. apply Permutation_middle.
Qed.

Definition newest_first (l : list ServiceVersion) : Prop :=
  match l with
  | [] => True
  | r :: l' => Forall (λ r', vr_version_number r' ≤ vr_version_number r) l'
  end.

Lemma sort_desc_head l : newest_first (sort_desc l).
Proof.
  unfold sort_desc. enough (∀ acc, newest_first acc →
    newest_first (foldl (λ acc r, insert_desc r acc) acc l)) as H by (by apply H).
  induction l as [|r l IH]; intros acc Hacc; simpl; [done|]. apply IH.
  destruct acc as [|r' acc]; simpl; [constructor|].
  destruct (Z.ltb_spec (vr_version_number r') (vr_version_number r)); simpl.
  - constructor; [lia|]. eapply Forall_impl; [exact Hacc|]. simpl. lia.
  - rewrite insert_desc_perm. constructor; [lia|done].
Qed.

Lemma sort_desc_nil l : sort_desc l = [] ↔ l = [].
Proof.
  split; [|by intros ->]. intros Hs. pose proof (sort_desc_perm l) as H. rewrite Hs in H.
  by apply Permutation_nil_l in H.
Qed.

Lemma in_scope_active_key sid r c :
  vr_service_id r = sid → in_scope sid (vr_tenant r) (vr_environment r) c = true →
  active_key c = active_key r.
Proof. intros Hs (Hsc & Ht & He)%in_scope_spec. unfold active_key. by rewrite Hsc, Ht, He, Hs. Qed.

Lemma delete_version_preserves sid n t e commit :
  preserves session_ok (delete_version sid n t e commit).
Proof.
  unfold delete_version. intros s Hs. apply wp_bind. unfold wp at 1. rewrite get_version_record_eq.
  destruct (matching sid n t e s) as [|r [|]] eqn:Em; [by apply wp_ret| |done].
  assert (r ∈ matching sid n t e s) as (Hr & Hsid & _)%matching_found by (rewrite Em; left). clear Em.
  destruct Hs as [[Hu Hfk] Hc].
  assert (session_ok (on_working (λ tb,
    mk_tables (List.filter (λ r', negb (bool_decide (vr_id r' = vr_id r))) (versions tb))
      (List.filter (λ a, negb (bool_decide (a.1 = vr_id r))) (artifacts tb))) s)) as Hs1.
  { split; [|done]. split; [by apply unique_filter|by apply delete_row_fk]. }
  apply wp_bind, wp_modify, wp_bind, wp_flush; [by apply session_pending| |done]. intros _.
  assert (Hend : preserves session_ok (when commit commit_session ;;; ret true))
    by apply preserves_flush_commit, preserves_ret.
  apply wp_bind. destruct (vr_is_active r) eqn:Ha; simpl; [|by apply wp_ret, Hend].
  apply wp_bind, wp_gets. destruct (sort_desc _) as [|c rest] eqn:Esort; [by apply wp_ret, Hend|].
  assert (c ∈ c :: rest) as Hin by left.
  rewrite <-Esort, sort_desc_perm in Hin. simpl in Hin. rewrite !elem_of_filterb in Hin.
  destruct Hin as (Hscope & Hne & Hc'). apply negb_true_iff, bool_decide_eq_false in Hne.
  apply wp_modify, Hend. split; [|done]. split; simpl.
  - apply replacement_unique; [done..|]. by eapply in_scope_active_key.
  - rewrite ids_update_row by done. apply Hs1.
Qed.

Lemma delete_service_preserves sid t e commit : preserves session_ok (delete_service sid t e commit).
Proof.
  unfold delete_service. apply preserves_bind; [apply preserves_gets|]. intros doomed.
  destruct doomed as [|r doomed]; [apply preserves_ret|].
  apply preserves_bind; [apply preserves_for_each; intros; apply preserves_delete_row|]. intros _.
  apply preserves_bind; [apply preserves_flush|]. intros _.
  apply preserves_flush_commit, preserves_ret.
Qed.
End operations.

(** C4. Whatever the scope arguments, however the operation ends and whether
    or not it commits, no registry operation ever leaves two versions of a service with
    the same number in a scope, two active versions in a scope, or an artifact
    without its version, in the working tables or in the committed ones. *)
Theorem registry_operations_sound nf s :
  session_ok s →
  (∀ payload commit, session_ok (state_of (create_version nf payload commit) s))
  ∧ (∀ sid n payload t e commit, session_ok (state_of (update_version nf sid n payload t e commit) s))
  ∧ (∀ sid n t e commit, session_ok (state_of (activate_version sid n t e commit) s))
  ∧ (∀ sid n t e commit, session_ok (state_of (delete_version sid n t e commit) s))
  ∧ (∀ sid t e commit, session_ok (state_of (delete_service sid t e commit) s)).
Proof.
  intros Hs.
  assert (∀ A (m : comp session exn A), preserves session_ok m → session_ok (state_of m s)) as Hgo.
  { intros A m Hm. specialize (Hm s Hs). unfold wp in Hm. unfold state_of. by destruct (m s) as [[] ?]. }
  split_and!; intros; apply Hgo.
  - apply create_version_preserves.
  - apply update_version_preserves.
  - apply activate_version_preserves.
  - apply delete_version_preserves.
  - apply delete_service_preserves.
Qed.

(** ** Functional behaviour *)

Lemma flush_unique s : unique_versions (versions (working s)) → flush s = (Ok tt, s).
Proof. intros Hu. unfold flush, bind, gets. by rewrite bool_decide_eq_true_2. Qed.

Lemma flush_conflict s :
  ¬ unique_versions (versions (working s)) →
  flush s = (Raise (integrity_error "duplicate key value violates unique constraint"),
             mk_session (committed s) (committed s) (uuid4s s)).
Proof. intros Hu. unfold flush, bind, gets. by rewrite bool_decide_eq_false_2. Qed.

(** The session after a flushed change, committed or not. *)
Definition after (commit : bool) (t : tables) (s : session) : session :=
  mk_session t (if commit then t else committed s) (uuid4s s).

Lemma finish_commit commit s :
  unique_versions (versions (working s)) →
  when commit commit_session s = (Ok tt, after commit (working s) s).
Proof.
  intros Hu. destruct commit; simpl; [|by destruct s].
  unfold commit_session, bind, modify. by rewrite flush_unique.
Qed.

Lemma find_by_id r l :
  unique_versions l → r ∈ l → List.find (λ x, bool_decide (vr_id x = vr_id r)) l = Some r.
Proof.
  intros Hu Hr. destruct (List.find _ l) as [x|] eqn:Ef.
  - apply List.find_some in Ef as [Hx Hid%bool_decide_eq_true]. f_equal.
    eapply unique_id; [done|by apply list_elem_of_In|done|done].
  - eapply List.find_none in Ef; [|by apply list_elem_of_In]. by rewrite bool_decide_eq_true_2 in Ef.
Qed.

Lemma refreshed_eq r s :
  unique_versions (versions (working s)) → r ∈ versions (working s) →
  refreshed (vr_id r) s = (Ok (mk_response r (artifacts_of (vr_id r) (working s))), s).
Proof. intros Hu Hr. unfold refreshed, to_response, bind, gets. by rewrite find_by_id. Qed.

Lemma activate_version_eq sid n t e commit s r :
  session_ok s → Forall proper_scope (versions (working s)) → matching sid n t e s = [r] →
  let rows := activated r (versions (working s)) in
  let s' := after commit (mk_tables rows (artifacts (working s))) s in
  activate_version sid n t e commit s =
    (Ok (Some (mk_response (with_active true r) (artifacts_of (vr_id r) (working s)))), s')
  ∧ List.filter (λ x, vr_is_active x && in_scope sid (vr_tenant r) (vr_environment r) x) rows
      = [with_active true r]
  ∧ (∀ x, x ∈ versions (working s) → in_scope sid (vr_tenant r) (vr_environment r) x = false → x ∈ rows).
Proof.
  intros [[Hu _] _] Hproper Hm rows s'.
  assert (r ∈ matching sid n t e s) as (Hr & Hsid & _)%matching_found by (rewrite Hm; left).
  assert (unique_versions rows) as Hurows by by apply activated_unique.
  assert (in_scope sid (vr_tenant r) (vr_environment r) r = true) as Hself
    by by apply in_scope_spec; rewrite Hsid.
  assert (with_active true r ∈ rows) as Hrin.
  { unfold rows. rewrite activated_map. apply list_elem_of_fmap. exists r.
    by rewrite bool_decide_eq_true_2. }
  split_and!.
  - unfold activate_version, bind. rewrite get_version_record_eq, Hm.
    unfold deactivate_service_versions, assign, modify, on_working. simpl.
    rewrite <-Hsid. fold (activated r (versions (working s))). fold rows.
    rewrite flush_unique by done. rewrite finish_commit by done. simpl.
    change (vr_id r) with (vr_id (with_active true r)) at 1. by rewrite refreshed_eq.
  - apply NoDup_singleton_iff.
    { apply NoDup_filterb. apply (NoDup_fmap_1 vr_id). exact (proj1 Hurows). }
    intros x. rewrite elem_of_filterb, andb_true_iff. split.
    + intros [[Hax Hsx] Hx]. pose proof Hurows as (_ & _ & H3)%unique_versions_iff.
      apply H3; [done..|]. rewrite (in_scope_active_key sid r x) by done. done.
    + intros ->. split; [|done]. split; [done|]. exact Hself.
  - intros x Hx Hsx. unfold rows. rewrite activated_map. apply list_elem_of_fmap. exists x. split; [|done].
    rewrite bool_decide_eq_false_2; [by rewrite Hsid, Hsx|].
    intros Hid. rewrite (unique_id _ x r Hu Hx Hr Hid), Hself in Hsx. done.
Qed.

(** Activating the one version a lookup finds succeeds, makes it active,
    turns off every other version of its own service and scope, and changes
    nothing else; the change is committed exactly when asked. *)
Theorem activate_version_spec sid n t e commit s r :
  session_ok s → Forall proper_scope (versions (working s)) → matching sid n t e s = [r] →
  let rows := activated r (versions (working s)) in
  let s' := after commit (mk_tables rows (artifacts (working s))) s in
  activate_version sid n t e commit s =
    (Ok (Some (mk_response (with_active true r) (artifacts_of (vr_id r) (working s)))), s')
  ∧ List.filter (λ x, vr_is_active x && in_scope sid (vr_tenant r) (vr_environment r) x) rows
      = [with_active true r]
  ∧ (∀ x, x ∈ versions (working s) → in_scope sid (vr_tenant r) (vr_environment r) x = false → x ∈ rows).
Proof. apply activate_version_eq. Qed.

Lemma filter_nil_iff {A} (P : A → bool) l : List.filter P l = [] ↔ ∀ x, x ∈ l → P x = false.
Proof.
  split.
  - intros Hnil x Hx. apply not_true_iff_false. intros HP.
    assert (x ∈ List.filter P l) as Hin by by apply elem_of_filterb. rewrite Hnil in Hin. inv Hin.
  - intros H. destruct (List.filter P l) as [|x l'] eqn:E; [done|].
    assert (x ∈ List.filter P l) as [HP Hx]%elem_of_filterb by (rewrite E; left).
    by rewrite H in HP.
Qed.

(** The rows and artifacts without version [r]. *)
Definition without (r : ServiceVersion) (l : list ServiceVersion) : list ServiceVersion :=
  List.filter (λ x, negb (bool_decide (vr_id x = vr_id r))) l.

(** Deleting the one version a lookup finds succeeds and removes exactly it.
    If it was active and its service has other versions in the same scope, the
    one with the largest number becomes active; otherwise nothing else changes. *)
Theorem delete_version_spec sid n t e commit s r :
  session_ok s → matching sid n t e s = [r] →
  let rest := without r (versions (working s)) in
  let siblings := List.filter (in_scope sid (vr_tenant r) (vr_environment r)) rest in
  ∃ rows arts, delete_version sid n t e commit s = (Ok true, after commit (mk_tables rows arts) s)
    ∧ ((vr_is_active r = false ∨ siblings = []) → rows = rest)
    ∧ (vr_is_active r = true → siblings ≠ [] →
        ∃ top, top ∈ siblings ∧ Forall (λ c, vr_version_number c ≤ vr_version_number top) siblings
          ∧ rows = update_row (vr_id top) (with_active true) rest).
Proof.
  intros [[Hu Hfk] Hc] Hm rest siblings.
  assert (r ∈ matching sid n t e s) as (Hr & Hsid & _)%matching_found by (rewrite Hm; left).
  assert (unique_versions rest) as Hurest by by apply unique_filter.
  unfold delete_version, bind. rewrite get_version_record_eq, Hm.
  unfold delete_row, modify, on_working. simpl. fold (without r (versions (working s))). fold rest.
  rewrite flush_unique by done.
  destruct (vr_is_active r) eqn:Ha; simpl.
  - unfold bind, select_versions, gets. simpl. fold siblings.
    pose proof (sort_desc_head siblings) as Hhead. pose proof (sort_desc_perm siblings) as Hperm.
    destruct (sort_desc siblings) as [|top others] eqn:Esort.
    + apply (proj1 (sort_desc_nil _)) in Esort. simpl. rewrite finish_commit by done.
      eexists _, _. split_and!; [done|done|by rewrite Esort].
    + assert (top ∈ siblings) as Htop by (rewrite <-Hperm; left).
      pose proof Htop as [Hscope [Hne Hin]%elem_of_filterb]%elem_of_filterb.
      apply negb_true_iff, bool_decide_eq_false in Hne.
      unfold assign, modify, on_working. simpl.
      rewrite finish_commit by (apply replacement_unique; [done..|by eapply in_scope_active_key]).
      eexists _, _. split_and!; [done|intros [?|Hnil]; [done|by rewrite Hnil in Htop; inv Htop]|].
      intros _ _. exists top. split_and!; [done| |done].
      rewrite <-Hperm. constructor; [lia|exact Hhead].
  - rewrite finish_commit by done. eexists _, _. by split_and!.
Qed.

Lemma unique_versions_snoc row l :
  unique_versions l → vr_id row ∉ vr_id <$> l → version_key row ∉ version_key <$> l →
  (vr_is_active row = true → ∀ x, x ∈ l → vr_is_active x = true → active_key x ≠ active_key row) →
  unique_versions (l ++ [row]).
Proof.
  intros (H1 & H2 & H3) Hid Hkey Hact. unfold unique_versions, active_rows in *.
  rewrite List.filter_app, !fmap_app. split_and!; apply NoDup_app; (split; [done|]).
  - split; [|apply NoDup_singleton]. by intros k Hk ->%list_elem_of_singleton.
  - split; [|apply NoDup_singleton]. by intros k Hk ->%list_elem_of_singleton.
  - simpl. destruct (vr_is_active row) eqn:Ea; simpl; [|split; [set_solver|constructor]].
    split; [|apply NoDup_singleton]. intros k (x & -> & [Hax Hx]%elem_of_filterb)%list_elem_of_fmap Hk.
    apply list_elem_of_singleton in Hk. by apply (Hact eq_refl x).
Qed.

Lemma version_keys_deactivate sid t e l : version_key <$> deactivate sid t e l = version_key <$> l.
Proof.
  unfold deactivate. rewrite <-list_fmap_compose. apply list_fmap_ext. intros _ x _. simpl. by case_match.
Qed.

Lemma matching_deactivate sid n t e sid' t' e' l :
  List.filter (version_match sid n t e) (deactivate sid' t' e' l) = [] ↔
  List.filter (version_match sid n t e) l = [].
Proof.
  unfold deactivate. induction l as [|x l IH]; simpl; [done|].
  destruct (in_scope sid' t' e' x); simpl;
    [change (version_match sid n t e (with_active false x)) with (version_match sid n t e x)|];
    by destruct (version_match sid n t e x).
Qed.

Lemma artifacts_fresh id t new :
  tables_ok t → id ∉ vr_id <$> versions t →
  artifacts_of id (set_artifacts (λ l,
    List.filter (λ a, negb (bool_decide (a.1 = id))) l ++ ((λ a, (id, a)) <$> new)) t) = new.
Proof.
  intros [_ Hfk] Hid. unfold artifacts_of. simpl. rewrite List.filter_app, fmap_app.
  replace (List.filter (λ a, bool_decide (a.1 = id)) (List.filter (λ a, negb (bool_decide (a.1 = id))) (artifacts t)))
    with (@nil (uuid * ArtifactRecordPayload)).
  - simpl. induction new as [|a new IH]; simpl; [done|]. rewrite bool_decide_eq_true_2 by done. simpl. by f_equal.
  - symmetry. apply filter_nil_iff. intros a [Ha _]%elem_of_filterb. by apply negb_true_iff in Ha.
Qed.

(** The row [create_version] inserts. *)
Definition created_row (id : uuid) (payload : ArtifactVersionCreate) (is_active : bool)
    (ir : dict pyval) (raw : option (dict pyval)) : ServiceVersion :=
  mk_version id (vc_service_id payload) (vc_version_number payload) is_active ir raw
    (vc_compiler_version payload) (vc_source_url payload) (vc_source_hash payload)
    (vc_protocol payload) (vc_validation_report payload) (vc_deployment_revision payload)
    (vc_route_config payload) (vc_tenant payload) (vc_environment payload).

Section create.
Context (nf : dict pyval → outcome exn (dict pyval)) (payload : ArtifactVersionCreate) (commit : bool).
Context (s : session) (id : uuid) (ids : list uuid) (ir : dict pyval) (raw : option (dict pyval)).
Context (Hs : session_ok s) (Hids : uuid4s s = id :: ids).
Context (Hir : nf (vc_ir_json payload) = Ok ir).
Context (Hraw : match vc_raw_ir_json payload with
                | None => raw = None
                | Some p => ∃ d, nf p = Ok d ∧ raw = Some d
                end).

Local Abbreviation sid := (vc_service_id payload).
Local Abbreviation tenant := (vc_tenant payload).
Local Abbreviation environment := (vc_environment payload).
Local Abbreviation rows := (versions (working s)).

(** Active unless told otherwise exactly when the lookup sees no version yet. *)
Definition becomes_active : bool :=
  default (bool_decide (List.filter (version_query sid tenant environment) rows = [])) (vc_is_active payload).

Definition created_rows : list ServiceVersion :=
  (if becomes_active then deactivate sid tenant environment rows else rows)
  ++ [created_row id payload becomes_active ir raw].

Definition created_tables : tables :=
  mk_tables created_rows
    (List.filter (λ a, negb (bool_decide (a.1 = id))) (artifacts (working s))
     ++ ((λ a, (id, a)) <$> vc_artifacts payload)).

Lemma fmap_nil_iff {A B} (f : A → B) (l : list A) :
  bool_decide (f <$> l = []) = bool_decide (l = []).
Proof. apply bool_decide_ext. by destruct l. Qed.

Lemma create_prefix {A} (k : dict pyval → option (dict pyval) → comp session exn A) s' :
  bind (normalized nf (vc_ir_json payload)) (λ i,
    bind (normalized_opt nf (vc_raw_ir_json payload)) (λ r, k i r)) s' = k ir raw s'.
Proof.
  unfold bind, normalized at 1. rewrite Hir. simpl. unfold normalized_opt.
  destruct (vc_raw_ir_json payload) as [p|]; [|by subst].
  destruct Hraw as (d & Hd & ->). unfold bind, normalized. by rewrite Hd.
Qed.

Lemma create_version_eq :
  unique_versions created_rows → id ∉ vr_id <$> rows →
  create_version nf payload commit s =
    (match List.filter (version_match sid (vc_version_number payload) tenant environment) rows with
     | [] => Ok (mk_response (created_row id payload becomes_active ir raw) (vc_artifacts payload))
     | _ => Raise (ambiguous_error sid)
     end, mk_session created_tables (if commit then created_tables else committed s) ids).
Proof.
  intros Hu Hfresh. unfold create_version, bind at 1.
  unfold list_versions, select_versions, bind at 1, gets.
  assert ((match vc_is_active payload with
           | Some b => b
           | None => bool_decide ((λ r, mk_response r (artifacts_of (vr_id r) (working s))) <$>
               sort_desc (List.filter (version_query sid tenant environment) rows) = [])
           end) = becomes_active) as ->.
  { unfold becomes_active. destruct (vc_is_active payload); [done|]. simpl. rewrite fmap_nil_iff.
    apply bool_decide_ext, sort_desc_nil. }
  set (s1 := on_working (set_versions (λ l, if becomes_active then deactivate sid tenant environment l else l)) s).
  unfold bind at 1.
  replace (when becomes_active (deactivate_service_versions sid tenant environment) s)
    with ((Ok tt, s1) : outcome exn unit * session)
    by (unfold s1; destruct becomes_active; [done|by destruct s as [[] ? ?]]).
  rewrite create_prefix. unfold bind at 1, uuid4. unfold s1. simpl. rewrite Hids.
  unfold bind at 1, modify. unfold bind at 1.
  match goal with |- context [flush ?x] => set (s2 := x) end.
  assert (versions (working s2) = created_rows) as Hrows2 by done.
  rewrite flush_unique by (by rewrite Hrows2). unfold bind at 1, replace_artifacts, modify.
  set (s3 := on_working (set_artifacts _) s2).
  assert (working s3 = created_tables) as Hw3 by done.
  unfold bind at 1. rewrite finish_commit by (by rewrite Hw3).
  unfold after. rewrite Hw3. change (committed s3) with (committed s). change (uuid4s s3) with ids.
  set (s4 := mk_session _ _ _).
  unfold get_version, bind. rewrite get_version_record_eq.
  assert (matching sid (vc_version_number payload) tenant environment s4 =
    List.filter (version_match sid (vc_version_number payload) tenant environment)
      (if becomes_active then deactivate sid tenant environment rows else rows)
    ++ [created_row id payload becomes_active ir raw]) as ->.
  { unfold matching. simpl. unfold created_rows. rewrite List.filter_app. f_equal. simpl.
    assert (version_match sid (vc_version_number payload) tenant environment
      (created_row id payload becomes_active ir raw) = true) as ->; [|done].
    unfold version_match, version_query, matches_filter. simpl.
    rewrite str_eqb_refl, Z.eqb_refl. by destruct tenant, environment; simpl; rewrite ?bool_decide_eq_true_2. }
  assert (∀ l, (l = [] ↔ List.filter (version_match sid (vc_version_number payload) tenant environment) rows = []) →
    match l ++ [created_row id payload becomes_active ir raw] with
    | [] => Ok None
    | [r] => Ok (Some r)
    | _ => Raise (ambiguous_error sid)
    end = match List.filter (version_match sid (vc_version_number payload) tenant environment) rows with
          | [] => Ok (Some (created_row id payload becomes_active ir raw))
          | _ => Raise (ambiguous_error sid)
          end) as Hm.
  { intros [|x [|y l]] Hl; simpl; destruct (List.filter _ rows); naive_solver. }
  rewrite Hm by (destruct becomes_active; [apply matching_deactivate|done]).
  destruct (List.filter _ rows); [|done]. unfold to_response, gets, from_option_or, ret.
  repeat f_equal. apply artifacts_fresh; [apply Hs|done].
Qed.
End create.

Lemma created_rows_unique payload s id ir raw :
  session_ok s → Forall proper_scope (versions (working s)) →
  proper_scope (created_row id payload false ir raw) →
  id ∉ vr_id <$> versions (working s) →
  version_key (created_row id payload false ir raw) ∉ version_key <$> versions (working s) →
  unique_versions (created_rows payload s id ir raw).
Proof.
  intros [[Hu _] _] Hproper Hnew Hid Hkey. unfold created_rows.
  rewrite Forall_forall in Hproper.
  destruct (becomes_active payload s); (apply unique_versions_snoc; [|try by rewrite ?ids_deactivate..|]).
  - by apply deactivate_unique.
  - by rewrite version_keys_deactivate.
  - intros _ x (y & -> & Hy)%list_elem_of_fmap Hax Hk.
    destruct (in_scope _ _ _ y) eqn:Es; [done|].
    assert (in_scope (vc_service_id payload) (vc_tenant payload) (vc_environment payload) y = true); [|congruence].
    apply (proper_active_key y (created_row id payload false ir raw)); [by apply Hproper|done|exact Hk].
  - done.
  - done.
Qed.

Lemma deactivate_empty sid t e l :
  (∀ r, r ∈ l → in_scope sid t e r = false) → deactivate sid t e l = l.
Proof.
  intros Hl. unfold deactivate. induction l as [|r l IH]; simpl; [done|].
  rewrite Hl by left. f_equal. apply IH. intros. apply Hl. by right.
Qed.

(** Creating a version whose number is taken in its scope raises
    [IntegrityError] and rolls the session back.  Otherwise the row and its
    artifacts are stored, active unless told otherwise exactly when the service
    had no version the scope filter sees, and the versions it displaces are
    turned off.  The stored version is returned, except that a version of the same
    number in another scope that the filter also sees (the filter has no tenant or
    no environment) makes the call raise although the row has been stored, and
    committed when that was asked. *)
Theorem create_version_spec nf payload commit s id ids ir raw :
  session_ok s → Forall proper_scope (versions (working s)) →
  proper_scope (created_row id payload false ir raw) →
  uuid4s s = id :: ids → id ∉ vr_id <$> versions (working s) →
  nf (vc_ir_json payload) = Ok ir →
  match vc_raw_ir_json payload with
  | None => raw = None
  | Some p => ∃ d, nf p = Ok d ∧ raw = Some d
  end →
  create_version nf payload commit s =
    (if decide (version_key (created_row id payload false ir raw) ∈ version_key <$> versions (working s))
     then (Raise (integrity_error "duplicate key value violates unique constraint"),
           mk_session (committed s) (committed s) ids)
     else
       (match List.filter (version_match (vc_service_id payload) (vc_version_number payload)
                             (vc_tenant payload) (vc_environment payload)) (versions (working s)) with
        | [] => Ok (mk_response (created_row id payload (becomes_active payload s) ir raw) (vc_artifacts payload))
        | _ => Raise (ambiguous_error (vc_service_id payload))
        end,
        let t := created_tables payload s id ir raw in
        mk_session t (if commit then t else committed s) ids)).
Proof.
  intros Hs Hproper Hnew Hids Hid Hir Hraw. case_decide as Hkey.
  - unfold create_version, bind at 1, list_versions, select_versions, bind at 1, gets.
    set (active := match vc_is_active payload with Some b => b | None => _ end).
    set (s1 := on_working (set_versions (λ l,
      if active then deactivate (vc_service_id payload) (vc_tenant payload) (vc_environment payload) l else l)) s).
    unfold bind at 1.
    match goal with |- context [when active ?m s] => replace (when active m s)
      with ((Ok tt, s1) : outcome exn unit * session)
      by (unfold s1; destruct active; [done|by destruct s as [[] ? ?]]) end.
    rewrite (create_prefix nf payload ir raw Hir Hraw).
    unfold bind at 1, uuid4, s1. simpl. rewrite Hids. unfold bind at 1, modify. unfold bind at 1.
    match goal with |- context [flush ?x] => set (s2 := x) end.
    rewrite flush_conflict; [done|]. intros (_ & Hdup & _).
    unfold s2 in Hdup. simpl in Hdup. rewrite fmap_app in Hdup. apply NoDup_app in Hdup as (_ & Hdup & _).
    apply (Hdup (version_key (created_row id payload false ir raw))); [|left].
    destruct active; [by rewrite version_keys_deactivate|done].
  - apply create_version_eq; [done..|by apply created_rows_unique|done].
Qed.

(** An update that touches neither documents, artifacts nor scope. *)
Lemma update_version_eq nf sid n payload t e commit s r :
  session_ok s → matching sid n t e s = [r] →
  vu_ir_json payload = None → vu_raw_ir_json payload = None → vu_artifacts payload = None →
  vu_tenant payload = None → vu_environment payload = None →
  let rows := update_row (vr_id r) (updated_row payload None) (versions (working s)) in
  update_version nf sid n payload t e commit s =
    (Ok (Some (mk_response (updated_row payload None r) (artifacts_of (vr_id r) (working s)))),
     after commit (mk_tables rows (artifacts (working s))) s).
Proof.
  intros [[Hu _] _] Hm Hir Hraw Harts Ht He rows.
  assert (r ∈ matching sid n t e s) as (Hr & _)%matching_found by (rewrite Hm; left).
  assert (∀ x, version_key (updated_row payload None x) = version_key x
    ∧ active_key (updated_row payload None x) = active_key x) as Hkeys
    by (intros x; unfold version_key, active_key; simpl; by rewrite Ht, He).
  assert (unique_versions rows) as Hurows.
  { pose proof Hu as (_ & _ & H3)%unique_versions_iff. apply unique_map.
    - intros x. by case_bool_decide.
    - intros x. case_bool_decide; [apply Hkeys|done].
    - done.
    - intros x y Hx Hy. destruct (Hkeys x) as [_ Hkx], (Hkeys y) as [_ Hky].
      case_bool_decide; case_bool_decide; rewrite ?Hkx, ?Hky; simpl; by apply H3. }
  assert (update_row (vr_id r) (with_ir None) (versions (working s)) = versions (working s)) as Hsame.
  { unfold update_row. rewrite <-(list_fmap_id (versions (working s))) at 2. apply list_fmap_ext.
    intros _ x _. case_bool_decide; [by destruct x|done]. }
  unfold update_version, bind. rewrite get_version_record_eq, Hm, Hir, Hraw, Harts. simpl.
  unfold assign, modify, on_working, set_versions. simpl. rewrite Hsame. fold rows.
  rewrite flush_unique by done. rewrite finish_commit by done. simpl.
  change (vr_id r) with (vr_id (updated_row payload None r)) at 1.
  rewrite refreshed_eq; [done|done|]. simpl. unfold rows, update_row. apply list_elem_of_fmap.
  exists r. by rewrite bool_decide_eq_true_2.
Qed.

(** ** Concrete sessions *)

Definition demo_ir : dict pyval := [("service_name", VStr "billing")].
Definition accept_ir (d : dict pyval) : outcome exn (dict pyval) := Ok d.

Definition demo_version (id : uuid) (n : Z) (active : bool) (tenant : option string) : ServiceVersion :=
  mk_version id "billing" n active demo_ir None "0.1.0" None None None None None None tenant None.

Definition demo_create (n : Z) (tenant : option string) : ArtifactVersionCreate :=
  mk_create "billing" n demo_ir None "0.1.0" None None None None None None tenant None None
    [mk_artifact "image" "sha256:1" None None].

Definition demo_session : session :=
  let t := mk_tables [demo_version 1%N 1 false (Some "acme"); demo_version 2%N 2 true (Some "acme");
                      demo_version 3%N 3 false (Some "acme")] [] in
  mk_session t t [9%N].

Lemma demo_session_ok : session_ok demo_session.
Proof. split; (split; [by_eval|constructor]). Qed.

Lemma demo_session_proper : Forall proper_scope (versions (working demo_session)).
Proof. by repeat constructor. Qed.

(** Storing version 2 without a tenant while tenant [acme] has a version 2:
    the row is committed, inactive, and the call raises. *)
Example create_unscoped_version_raises_after_commit :
  let '(o, s') := create_version accept_ir (demo_create 2 None) true demo_session in
  match o with Raise e => exn_type e = "AmbiguousServiceVersionError" | Ok _ => False end
  ∧ (λ r, (vr_version_number r, vr_tenant r, vr_is_active r)) <$> versions (committed s')
    = [(1, Some "acme", false); (2, Some "acme", true); (3, Some "acme", false); (2, None, false)].
Proof. vm_compute. split; reflexivity. Qed.

Lemma registry_operations_sound_witness :
  session_ok demo_session ∧
  session_ok (state_of (delete_version "billing" 2 None None true) demo_session).
Proof.
  split; [exact demo_session_ok|].
  apply (registry_operations_sound accept_ir demo_session demo_session_ok).
Defined.

Lemma activate_version_spec_witness :
  let r := demo_version 1%N 1 false (Some "acme") in
  matching "billing" 1 None None demo_session = [r] ∧
  activate_version "billing" 1 None None true demo_session =
    (Ok (Some (mk_response (with_active true r) [])),
     after true (mk_tables (activated r (versions (working demo_session))) []) demo_session).
Proof.
  intros r. assert (matching "billing" 1 None None demo_session = [r]) as Hm by (vm_compute; reflexivity).
  split; [exact Hm|].
  apply (activate_version_spec "billing" 1 None None true demo_session r demo_session_ok
    demo_session_proper Hm).
Defined.

Lemma delete_version_spec_witness :
  let r := demo_version 2%N 2 true (Some "acme") in
  matching "billing" 2 None None demo_session = [r] ∧
  ∃ rows arts,
    delete_version "billing" 2 None None true demo_session = (Ok true, after true (mk_tables rows arts) demo_session).
Proof.
  intros r. assert (matching "billing" 2 None None demo_session = [r]) as Hm by (vm_compute; reflexivity).
  split; [exact Hm|].
  destruct (delete_version_spec "billing" 2 None None true demo_session r demo_session_ok Hm)
    as (rows & arts & H & _). exists rows, arts. exact H.
Defined.

Lemma create_version_spec_witness :
  let payload := demo_create 4 (Some "acme") in
  session_ok demo_session ∧
  create_version accept_ir payload true demo_session =
    (Ok (mk_response (created_row 9%N payload false demo_ir None) (vc_artifacts payload)),
     let t := created_tables payload demo_session 9%N demo_ir None in mk_session t t []).
Proof.
  intros payload. split; [exact demo_session_ok|].
  assert (proper_scope (created_row 9%N payload false demo_ir None)) as Hp by done.
  assert (9%N ∉ vr_id <$> versions (working demo_session)) as Hid by by_eval.
  exact (create_version_spec accept_ir payload true demo_session 9%N [] demo_ir None
    demo_session_ok demo_session_proper Hp eq_refl Hid eq_refl eq_refl).
Defined.
