(* ===== verification/RollbackWorkflow.v ===== *)
(** * Rolling a service back ([apps/compiler_worker/workflows/rollback_workflow.py],
    [apps/compiler_worker/executor.py])

    [RollbackWorkflow.run] redeploys a stored version, validates it, moves the
    routes and the registry to it, and restores the previous active version when a
    late step fails; [_execute_rollback_request] runs it as a compilation job.
    Registry, deployer, validator and publisher are the interfaces the code
    declares as protocols. *)

From S2P Require Export CompileWorkflow.
From S2P Require Registry.

Export Registry (ArtifactVersionResponse, ArtifactVersionUpdate, rs_version, rs_artifacts,
  mk_update, vr_version_number).

(** ** Interfaces *)

Record RollbackRequest := mk_rollback_request {
  rr_service_id : string;
  rr_target_version : Z;
  rr_tenant : option string;
  rr_environment : option string;
}.

Record RollbackResult := mk_rollback_result {
  rres_service_id : string;
  rres_previous_active_version : option Z;
  rres_target_version : Z;
  rres_deployment_revision : string;
  rres_validation_report : dict pyval;
  rres_protocol : option string;
}.

(** [RollbackVersionStore] *)
Class RollbackVersionStore (S : Type) := {
  get_version : string → Z → option string → option string →
    comp S exn (option ArtifactVersionResponse);
  get_active_version : string → option string → option string →
    comp S exn (option ArtifactVersionResponse);
  update_version : string → Z → ArtifactVersionUpdate → option string → option string →
    comp S exn (option ArtifactVersionResponse);
  activate_version : string → Z → option string → option string →
    comp S exn (option ArtifactVersionResponse);
}.

(** [RollbackDeployer], [RollbackValidator] and, when there is one,
    [RollbackPublisher]. *)
Record RollbackPlant (S : Type) := mk_plant {
  apply_version : ArtifactVersionResponse → comp S exn string;
  wait_for_rollout : string → comp S exn unit;
  validate : ArtifactVersionResponse → comp S exn (dict pyval);
  publisher : option (ArtifactVersionResponse → comp S exn unit);
}.
Arguments apply_version {S} _ _.
Arguments wait_for_rollout {S} _ _.
Arguments validate {S} _ _.
Arguments publisher {S} _.

Definition version_number (v : ArtifactVersionResponse) : Z := vr_version_number (rs_version v).

(** [_version_protocol] *)
Definition version_protocol (v : ArtifactVersionResponse) : option string :=
  if opt_truthy (Registry.vr_protocol (rs_version v)) then Registry.vr_protocol (rs_version v)
  else match get_or_none (Registry.vr_ir_json (rs_version v)) "protocol" with
       | VStr p => if str_truthy p then Some p else None
       | _ => None
       end.

(** [bool(report.get("overall_passed", False))] *)
Definition overall_passed (report : dict pyval) : bool :=
  match dict_get report "overall_passed" with Some v => truthy v | None => false end.

Definition rollback_update (revision : string) (report : dict pyval) : ArtifactVersionUpdate :=
  mk_update None None None None None None (Some report) (Some revision) None None None None.

Section workflow.
Context {S : Type} {store : RollbackVersionStore S} (plant : RollbackPlant S).

(** [await self._publisher.publish(v)], when there is a publisher *)
Definition publish (v : ArtifactVersionResponse) : comp S exn unit :=
  match publisher plant with None => ret tt | Some p => p v end.

(** [_restore_current_active] *)
Definition restore_current_active (current_active : option ArtifactVersionResponse)
    (request : RollbackRequest) (restore_routes : bool) : comp S exn unit :=
  match current_active with
  | None => ret tt
  | Some current =>
      fresh_active <- get_active_version (rr_service_id request) (rr_tenant request) (rr_environment request) ;;
      let unchanged := match fresh_active with
                       | None => false
                       | Some fresh => version_number fresh =? version_number current
                       end in
      if negb unchanged then ret tt
      else
        restore_revision <- apply_version plant current ;;
        wait_for_rollout plant restore_revision ;;;
        when restore_routes (publish current) ;;;
        restored <- activate_version (rr_service_id request) (version_number current)
          (rr_tenant request) (rr_environment request) ;;
        match restored with
        | Some _ => ret tt
        | None => raise (runtime_error ("Rollback restore failed for " +:+ rr_service_id request
                           +:+ " v" +:+ str_of_Z (version_number current) +:+ "."))
        end
  end.

Definition target_name (request : RollbackRequest) : string :=
  rr_service_id request +:+ " v" +:+ str_of_Z (rr_target_version request).

(** The steps after validation; both failures of the inner [try] restore. *)
Definition switch_over (request : RollbackRequest) (current_active : option ArtifactVersionResponse)
    (target_version : ArtifactVersionResponse) (deployment_revision : string)
    (validation_report : dict pyval) : comp S exn RollbackResult :=
  update_version (rr_service_id request) (rr_target_version request)
    (rollback_update deployment_revision validation_report) (rr_tenant request) (rr_environment request) ;;;
  activated <- catch
    (publish target_version ;;;
     activate_version (rr_service_id request) (rr_target_version request)
       (rr_tenant request) (rr_environment request))
    (λ e, restore_current_active current_active request true ;;; raise e) ;;
  match activated with
  | None =>
      restore_current_active current_active request true ;;;
      raise (runtime_error ("Rollback activation failed for " +:+ target_name request +:+ "."))
  | Some v =>
      ret (mk_rollback_result (rr_service_id request) (version_number <$> current_active)
             (version_number v) deployment_revision validation_report (version_protocol v))
  end.

(** [RollbackWorkflow.run] *)
Definition run_rollback (request : RollbackRequest) : comp S exn RollbackResult :=
  current_active <- get_active_version (rr_service_id request) (rr_tenant request) (rr_environment request) ;;
  target <- get_version (rr_service_id request) (rr_target_version request)
    (rr_tenant request) (rr_environment request) ;;
  match target with
  | None => raise (value_error ("Rollback target " +:+ target_name request +:+ " was not found."))
  | Some target_version =>
      deployment_revision <- apply_version plant target_version ;;
      wait_for_rollout plant deployment_revision ;;;
      validation_report <- validate plant target_version ;;
      if negb (overall_passed validation_report) then
        restored <- attempt (restore_current_active current_active request false) ;;
        let message := "Rollback validation failed for " +:+ target_name request +:+ "." in
        match restored with
        | Raise restore_error =>
            raise (runtime_error (message +:+ " Restore attempt also failed: " +:+ exn_str restore_error))
        | Ok _ => raise (runtime_error message)
        end
      else switch_over request current_active target_version deployment_revision validation_report
  end.
End workflow.

(** ** What the workflow relies on *)

(** What can be seen of the service whose versions the request is about: the
    registry's active version, the version last applied and the one the routes
    lead to. *)
Record service_view := mk_service_view {
  sv_active : option Z;
  sv_deployed : option Z;
  sv_routed : option Z;
}.

(** The registry's promise for one service and scope.  An activation that
    raises may or may not have been committed. *)
Class RollbackStoreLaws (S : Type) `{!RollbackVersionStore S} (I : S → Prop)
    (seen : S → service_view) (sid : string) (tenant environment : option string) : Prop := {
  law_get_active : ∀ s, I s →
    wp (get_active_version sid tenant environment)
      (λ o s', s' = s ∧ version_number <$> o = sv_active (seen s)) (λ _ _, False) s;
  law_get_version : ∀ s n, I s →
    wp (get_version sid n tenant environment)
      (λ o s', s' = s ∧ ∀ v, o = Some v → version_number v = n) (λ _ s', s' = s) s;
  law_update : ∀ s n revision report, I s →
    wp (update_version sid n (rollback_update revision report) tenant environment)
      (λ _ s', I s' ∧ seen s' = seen s) (λ _ s', I s' ∧ seen s' = seen s) s;
  law_activate : ∀ s n, I s →
    let moved := mk_service_view (Some n) (sv_deployed (seen s)) (sv_routed (seen s)) in
    wp (activate_version sid n tenant environment)
      (λ o s', I s' ∧ match o with
                      | Some v => seen s' = moved ∧ version_number v = n
                      | None => seen s' = seen s ∧ sv_active (seen s) ≠ Some n
                      end)
      (λ _ s', I s' ∧ (seen s' = seen s ∨ seen s' = moved)) s;
}.

(** The plant's promise; [k] is a version known to redeploy and publish. *)
Record PlantLaws {S : Type} (I : S → Prop) (seen : S → service_view) (k : Z) (plant : RollbackPlant S) : Prop := {
  plant_apply : ∀ s v, I s →
    wp (apply_version plant v)
      (λ _ s', I s' ∧ seen s' = mk_service_view (sv_active (seen s)) (Some (version_number v)) (sv_routed (seen s)))
      (λ _ s', I s' ∧ sv_active (seen s') = sv_active (seen s) ∧ sv_routed (seen s') = sv_routed (seen s)) s;
  plant_wait : ∀ s revision, I s →
    wp (wait_for_rollout plant revision) (λ _ s', I s' ∧ seen s' = seen s) (λ _ s', I s' ∧ seen s' = seen s) s;
  plant_validate : ∀ s v, I s →
    wp (validate plant v) (λ _ s', I s' ∧ seen s' = seen s) (λ _ s', I s' ∧ seen s' = seen s) s;
  plant_publish : ∀ p s v, publisher plant = Some p → I s →
    wp (p v)
      (λ _ s', I s' ∧ seen s' = mk_service_view (sv_active (seen s)) (sv_deployed (seen s)) (Some (version_number v)))
      (λ _ s', I s' ∧ sv_active (seen s') = sv_active (seen s)) s;
  plant_redeploy : ∀ s v, I s → version_number v = k →
    wp (revision <- apply_version plant v ;; wait_for_rollout plant revision) (λ _ _, True) (λ _ _, False) s;
  plant_republish : ∀ p s v, publisher plant = Some p → I s → version_number v = k →
    wp (p v) (λ _ _, True) (λ _ _, False) s;
}.

Section correctness.
Context {S : Type} {store : RollbackVersionStore S} (I : S → Prop) (seen : S → service_view).
Context (request : RollbackRequest).
Context {laws : RollbackStoreLaws S I seen (rr_service_id request) (rr_tenant request) (rr_environment request)}.
Context (plant : RollbackPlant S) (k : Z) (plant_laws : PlantLaws I seen k plant).
Context (p : ArtifactVersionResponse → comp S exn unit) (Hp : publisher plant = Some p).

Local Abbreviation n := (rr_target_version request).

(** Registry and routes name the same version. *)
Definition consistent (v : service_view) : Prop := sv_active v = sv_routed v.

(** Redeploying the version that was active cannot fail. *)
Lemma wp_redeploy {B} v s (c : unit → comp S exn B) Q R :
  I s → version_number v = k →
  (∀ s', I s' → seen s' = mk_service_view (sv_active (seen s)) (Some k) (sv_routed (seen s)) → wp (c tt) Q R s') →
  wp (revision <- apply_version plant v ;; wait_for_rollout plant revision ;;; c tt) Q R s.
Proof.
  intros HI Hv Hc.
  assert (wp (revision <- apply_version plant v ;; wait_for_rollout plant revision)
    (λ _ s', I s' ∧ seen s' = mk_service_view (sv_active (seen s)) (Some k) (sv_routed (seen s)))
    (λ _ _, False) s) as Hwp.
  { pose proof (plant_redeploy _ _ _ _ plant_laws s v HI Hv) as Hok. apply wp_bind_inv in Hok.
    apply wp_bind. eapply wp_mono; [apply (wp_conj _ _ _ _ _ _ Hok (plant_apply _ _ _ _ plant_laws s v HI))| |by intros ? ? []].
    intros revision s1 (Hok1 & HI1 & Hs1).
    eapply wp_mono; [apply (wp_conj _ _ _ _ _ _ Hok1 (plant_wait _ _ _ _ plant_laws s1 revision HI1))| |by intros ? ? []].
    intros [] s2 (_ & HI2 & Hs2). split; [done|]. by rewrite Hs2, Hs1, Hv. }
  apply wp_bind_inv in Hwp. apply wp_bind. eapply wp_mono; [exact Hwp| |done].
  intros revision s1 Hs1. cbn beta in Hs1. apply wp_bind. eapply wp_mono; [exact Hs1| |done].
  intros [] s2 [HI2 Hs2]. by apply Hc.
Qed.

Lemma wp_republish v s :
  I s → version_number v = k →
  wp (publish plant v)
    (λ _ s', I s' ∧ seen s' = mk_service_view (sv_active (seen s)) (sv_deployed (seen s)) (Some k)) (λ _ _, False) s.
Proof.
  intros HI Hv. unfold publish. rewrite Hp.
  eapply wp_mono; [apply (wp_conj _ _ _ _ _ _ (plant_republish _ _ _ _ plant_laws p s v Hp HI Hv)
    (plant_publish _ _ _ _ plant_laws p s v Hp HI))| |by intros ? ? []].
  intros [] s' (_ & HI' & Hs'). by rewrite Hs', Hv.
Qed.

(** Restoring: nothing if another version became active, else the version that
    was active is active again, deployed, and routed to when asked. *)
Definition restored (routes : bool) (v v' : service_view) : Prop :=
  v' = mk_service_view (Some k) (Some k) (if routes then Some k else sv_routed v).

Definition maybe_restored (routes : bool) (v v' : service_view) : Prop :=
  (sv_active v = Some k ∧ restored routes v v') ∨ (sv_active v ≠ Some k ∧ v' = v).

Lemma wp_restore current routes s :
  I s → version_number current = k →
  wp (restore_current_active plant (Some current) request routes)
    (λ _ s', I s' ∧ maybe_restored routes (seen s) (seen s'))
    (λ _ s', I s' ∧ sv_active (seen s) = Some k ∧ restored routes (seen s) (seen s')) s.
Proof.
  intros HI Hk. unfold restore_current_active. apply wp_bind.
  eapply wp_mono; [apply law_get_active, HI| |done].
  intros fresh s' [-> Hfresh].
  assert ((match fresh with None => false | Some f => version_number f =? version_number current end)
    = bool_decide (sv_active (seen s) = Some k)) as ->.
  { rewrite Hk. destruct fresh as [f|]; cbn in Hfresh; rewrite <-Hfresh.
    - destruct (Z.eqb_spec (version_number f) k) as [->|Hne];
        [by rewrite bool_decide_eq_true_2|rewrite bool_decide_eq_false_2; congruence].
    - by rewrite bool_decide_eq_false_2. }
  case_bool_decide as Ha; cbn [negb]; [|by apply wp_ret; split; [|right]].
  apply (wp_redeploy current s (λ _, _)); [done|done|]. intros s1 HI1 Hs1.
  rewrite Ha in Hs1.
  apply wp_bind. eapply (wp_mono _ (λ _ s2, I s2 ∧ restored routes (seen s) (seen s2)) _ (λ _ _, False)).
  - apply wp_when; intros ->; [|by split].
    eapply wp_mono; [by apply wp_republish| |by intros ? ? []].
    intros [] s2 [HI2 Hs2]. split; [done|]. by rewrite Hs2, Hs1.
  - intros [] s2 [HI2 Hs2]. apply wp_bind. rewrite Hk.
    eapply wp_mono; [apply (law_activate (seen:=seen) s2 k HI2)| |].
    + intros [v|] s3 [HI3 Hs3].
      * apply wp_ret. split; [done|]. left. split; [done|]. destruct Hs3 as [Hs3 _].
        unfold restored in *. by rewrite Hs3, Hs2.
      * destruct Hs3 as [_ []]. by rewrite Hs2.
    + intros e s3 [HI3 Hs3]. split; [done|]. split; [done|]. unfold restored in *.
      destruct Hs3 as [->| ->]; by rewrite Hs2.
  - done.
Qed.

(** How a rollback ends. *)
Definition rolled_back (r : RollbackResult) (s' : S) : Prop :=
  seen s' = mk_service_view (Some n) (Some n) (Some n)
  ∧ rres_target_version r = n ∧ rres_previous_active_version r = Some k
  ∧ overall_passed (rres_validation_report r) = true.

Definition not_rolled_back (s' : S) : Prop :=
  consistent (seen s') ∧ (sv_active (seen s') = Some k ∨ sv_active (seen s') = Some n).

Lemma wp_restore_and_raise current v e s :
  I s → version_number current = k →
  sv_active (seen s) = Some k ∨ (sv_active (seen s) = Some n ∧ sv_routed (seen s) = Some n) →
  wp (restore_current_active plant (Some current) request true ;;; raise (A:=v) e)
    (λ _ _, False) (λ _ s', not_rolled_back s') s.
Proof.
  intros HI Hk Hs. apply wp_bind. eapply wp_mono; [by apply wp_restore| |].
  - intros [] s' [HI' [[_ Hr]|[Hne Hsame]]]; apply wp_raise; unfold not_rolled_back, consistent, restored in *.
    + rewrite Hr. simpl. auto.
    + rewrite Hsame. destruct Hs as [?|[-> ->]]; [done|]. auto.
  - intros e' s' (_ & _ & Hr). unfold not_rolled_back, consistent, restored in *. rewrite Hr. simpl. auto.
Qed.

Lemma wp_switch_over current target revision report s :
  I s → version_number current = k → version_number target = n → overall_passed report = true →
  seen s = mk_service_view (Some k) (Some n) (Some k) →
  wp (switch_over plant request (Some current) target revision report)
    rolled_back (λ _ s', not_rolled_back s') s.
Proof.
  intros HI Hk Hn Hpass Hs. unfold switch_over. apply wp_bind.
  eapply wp_mono; [apply (law_update (seen:=seen) s n revision report HI)| |];
    [intros _ s1 [HI1 Hs1]|intros e s1 [HI1 Hs1]; rewrite Hs in Hs1; unfold not_rolled_back, consistent; rewrite Hs1; simpl; auto].
  rewrite Hs in Hs1. apply wp_bind, wp_catch, wp_bind. unfold publish. rewrite Hp.
  eapply wp_mono; [apply (plant_publish _ _ _ _ plant_laws p s1 target Hp HI1)| |].
  2: { intros e s2 [HI2 Hs2]. rewrite Hs1 in Hs2.
       eapply wp_mono; [apply wp_restore_and_raise; [done..|by left]|by intros ? ? []|done]. }
  intros [] s2 [HI2 Hs2]. rewrite Hs1, Hn in Hs2. simpl in Hs2.
  eapply wp_mono; [apply (law_activate (seen:=seen) s2 n HI2)| |].
  2: { intros e s3 [HI3 Hs3]. rewrite Hs2 in Hs3. simpl in Hs3.
       eapply wp_mono; [apply wp_restore_and_raise; [done..|]|by intros ? ? []|done].
       destruct Hs3 as [-> | ->]; simpl; auto. }
  intros [v|] s3 [HI3 Hs3]; rewrite Hs2 in Hs3; simpl in Hs3.
  - destruct Hs3 as [Hs3 Hv]. apply wp_ret. split_and!; [done|done|by simpl; rewrite Hk|done].
  - destruct Hs3 as [Hs3 _]. eapply wp_mono; [apply wp_restore_and_raise; [done..|]|by intros ? ? []|done].
    rewrite Hs3. by left.
Qed.

End correctness.

(** ** The registry keeps the promise

    [ArtifactRegistryRollbackStore]: every call in a session of its own, which
    commits or, when it raises, is discarded. *)

Module RegistryStore.

Record plant_state := mk_plant_state {
  ps_registry : Registry.session;
  ps_deployed : option Z;
  ps_routed : option Z;
}.

(** [async with self.session_factory() as session] *)
Definition in_session {A} (m : comp Registry.session exn A) : comp plant_state exn A := λ s,
  let '(o, r) := m (ps_registry s) in
  (o, mk_plant_state
        (Registry.mk_session (Registry.committed r) (Registry.committed r) (Registry.uuid4s r))
        (ps_deployed s) (ps_routed s)).

Section store.
Context (nf : dict pyval → outcome exn (dict pyval)).
Context (sid : string) (tenant environment : option string).

#[global] Instance registry_rollback_store : RollbackVersionStore plant_state := {
  get_version sid n t e := in_session (Registry.get_version sid n t e);
  get_active_version sid t e := in_session (Registry.get_active_version sid t e);
  update_version sid n payload t e := in_session (Registry.update_version nf sid n payload t e true);
  activate_version sid n t e := in_session (Registry.activate_version sid n t e true);
}.

Local Abbreviation rows s := (Registry.versions (Registry.working (ps_registry s))).
Local Abbreviation query := (Registry.version_query sid tenant environment).

(** The request's scope names one scope of the service only. *)
Definition single_scope (l : list Registry.ServiceVersion) : Prop :=
  ∀ x y, x ∈ l → y ∈ l → query x = true → query y = true →
    Registry.vr_tenant x = Registry.vr_tenant y ∧ Registry.vr_environment x = Registry.vr_environment y.

Definition store_ok (s : plant_state) : Prop :=
  Registry.session_ok (ps_registry s)
  ∧ Registry.working (ps_registry s) = Registry.committed (ps_registry s)
  ∧ Forall Registry.proper_scope (rows s) ∧ single_scope (rows s).

Definition active_of (l : list Registry.ServiceVersion) : option Z :=
  vr_version_number <$> head (List.filter (λ r, query r && Registry.vr_is_active r) l).

Definition seen (s : plant_state) : service_view :=
  mk_service_view (active_of (rows s)) (ps_deployed s) (ps_routed s).

Lemma query_service r : query r = true → Registry.vr_service_id r = sid.
Proof. unfold Registry.version_query. rewrite !andb_true_iff, str_eqb_eq. tauto. Qed.

Lemma single_active s : store_ok s → ∀ x y,
  x ∈ List.filter (λ r, query r && Registry.vr_is_active r) (rows s) →
  y ∈ List.filter (λ r, query r && Registry.vr_is_active r) (rows s) → x = y.
Proof.
  intros ([[Hu _] _] & _ & _ & Hscope) x y [[Hqx Hax]%andb_true_iff Hx]%elem_of_filterb
    [[Hqy Hay]%andb_true_iff Hy]%elem_of_filterb.
  pose proof Hu as (_ & _ & H3)%Registry.unique_versions_iff. apply H3; [done..|].
  unfold Registry.active_key. destruct (Hscope x y Hx Hy Hqx Hqy) as [-> ->].
  by rewrite (query_service x Hqx), (query_service y Hqy).
Qed.

Lemma active_filter s : store_ok s →
  List.filter (λ r, query r && Registry.vr_is_active r) (rows s)
    = [] ∨ ∃ r, List.filter (λ r, query r && Registry.vr_is_active r) (rows s) = [r].
Proof.
  intros Hs. pose proof (single_active s Hs) as Hone.
  assert (NoDup (List.filter (λ r, query r && Registry.vr_is_active r) (rows s))) as Hnd.
  { destruct Hs as ([[Hu _] _] & _). apply NoDup_filterb, (NoDup_fmap_1 Registry.vr_id), Hu. }
  destruct (List.filter _ _) as [|r l]; [by left|right; exists r].
  apply NoDup_singleton_iff; [done|]. intros x. split; [|by intros ->; left].
  intros Hx. apply Hone; [done|left].
Qed.

Lemma session_reset s : store_ok s →
  Registry.mk_session (Registry.committed (ps_registry s)) (Registry.committed (ps_registry s))
    (Registry.uuid4s (ps_registry s)) = ps_registry s.
Proof. intros (_ & Heq & _). rewrite <-Heq at 1. by destruct (ps_registry s). Qed.

Lemma in_session_reads {A} (m : comp Registry.session exn A) s :
  store_ok s → Registry.reads m → in_session m s = (outcome_of m (ps_registry s), s).
Proof.
  intros Hs Hm. specialize (Hm (ps_registry s)). unfold state_of in Hm. unfold in_session, outcome_of.
  destruct (m (ps_registry s)) as [o r]. simpl in Hm. subst r. rewrite session_reset by done. by destruct s.
Qed.

Lemma get_active_law s : store_ok s →
  wp (in_session (Registry.get_active_version sid tenant environment))
    (λ o s', s' = s ∧ version_number <$> o = sv_active (seen s)) (λ _ _, False) s.
Proof.
  intros Hs. unfold wp. rewrite in_session_reads; [|done|apply Registry.reads_get_active_version].
  unfold outcome_of, Registry.get_active_version, Registry.require_unique_version_record,
    Registry.select_versions, bind, gets, seen, active_of. simpl.
  destruct (active_filter s Hs) as [-> |[r ->]]; done.
Qed.

Lemma get_version_law s n : store_ok s →
  wp (in_session (Registry.get_version sid n tenant environment))
    (λ o s', s' = s ∧ ∀ v, o = Some v → version_number v = n) (λ _ s', s' = s) s.
Proof.
  intros Hs. unfold wp. rewrite in_session_reads; [|done|apply Registry.reads_get_version].
  unfold outcome_of, Registry.get_version, bind. rewrite Registry.get_version_record_eq.
  destruct (Registry.matching sid n tenant environment (ps_registry s)) as [|r [|]] eqn:Em; [done| |done].
  split; [done|]. intros v [= <-].
  assert (r ∈ Registry.matching sid n tenant environment (ps_registry s)) as (_ & _ & Hn & _)%Registry.matching_found
    by (rewrite Em; left). done.
Qed.

(** Reassigning rows without touching what lookups see. *)
Lemma store_ok_map s g :
  store_ok s →
  (∀ x, query (g x) = query x ∧ Registry.vr_tenant (g x) = Registry.vr_tenant x
     ∧ Registry.vr_environment (g x) = Registry.vr_environment x) →
  Forall Registry.proper_scope (g <$> rows s) ∧ single_scope (g <$> rows s).
Proof.
  intros (_ & _ & Hp & Hscope) Hg. split.
  - rewrite Forall_fmap. eapply Forall_impl; [exact Hp|]. intros x. unfold Registry.proper_scope. simpl.
    by destruct (Hg x) as (_ & -> & ->).
  - intros ? ? (x & -> & Hx)%list_elem_of_fmap (y & -> & Hy)%list_elem_of_fmap.
    destruct (Hg x) as (-> & -> & ->), (Hg y) as (-> & -> & ->). by apply Hscope.
Qed.

Lemma filter_fmap_comm {A} (P : A → bool) (g : A → A) l :
  (∀ x, P (g x) = P x) → List.filter P (g <$> l) = g <$> List.filter P l.
Proof. intros Hg. induction l as [|x l IH]; simpl; [done|]. rewrite Hg. destruct (P x); simpl; [by f_equal|done]. Qed.

(** A lookup that finds no single row leaves the store as it was. *)
Lemma in_session_unchanged {A} (m : comp Registry.session exn A) s o :
  store_ok s → m (ps_registry s) = (o, ps_registry s) → in_session m s = (o, s).
Proof. intros Hs Hm. unfold in_session. rewrite Hm, session_reset by done. by destruct s. Qed.

Lemma in_session_after {A} (m : comp Registry.session exn A) s o t :
  m (ps_registry s) = (o, Registry.after true t (ps_registry s)) →
  in_session m s = (o, mk_plant_state (Registry.mk_session t t (Registry.uuid4s (ps_registry s)))
                         (ps_deployed s) (ps_routed s)).
Proof. intros Hm. unfold in_session. by rewrite Hm. Qed.

Lemma update_law s n revision report : store_ok s →
  wp (in_session (Registry.update_version nf sid n (rollback_update revision report) tenant environment true))
    (λ _ s', store_ok s' ∧ seen s' = seen s) (λ _ s', store_ok s' ∧ seen s' = seen s) s.
Proof.
  intros Hs. pose proof Hs as (Hok & Heq & _).
  pose proof (Registry.update_version_preserves nf sid n (rollback_update revision report)
    tenant environment true _ Hok) as Hkeep.
  unfold wp. destruct (Registry.matching sid n tenant environment (ps_registry s)) as [|r [|r' l]] eqn:Em.
  - rewrite (in_session_unchanged _ s (Ok None)); [done|done|].
    unfold Registry.update_version, bind. by rewrite Registry.get_version_record_eq, Em.
  - pose proof (Registry.update_version_eq nf sid n (rollback_update revision report) tenant environment
      true _ r Hok Em eq_refl eq_refl eq_refl eq_refl eq_refl) as Hrun.
    rewrite (in_session_after _ s _ _ Hrun). unfold wp in Hkeep. rewrite Hrun in Hkeep.
    set (g := λ x, if bool_decide (Registry.vr_id x = Registry.vr_id r)
                   then Registry.updated_row (rollback_update revision report) None x else x).
    assert (∀ x, query (g x) = query x ∧ Registry.vr_tenant (g x) = Registry.vr_tenant x
      ∧ Registry.vr_environment (g x) = Registry.vr_environment x) as Hg by (intros x; unfold g; by case_bool_decide).
    destruct (store_ok_map s g Hs Hg) as [Hp' Hscope'].
    split; [by split_and!|]. unfold seen, active_of. simpl. f_equal.
    unfold Registry.update_row. fold g. rewrite filter_fmap_comm.
    + destruct (List.filter _ _) as [|x l]; [done|]. simpl. unfold g. by case_bool_decide.
    + intros x. unfold g. by case_bool_decide.
  - rewrite (in_session_unchanged _ s (Raise (Registry.ambiguous_error sid))); [done|done|].
    unfold Registry.update_version, bind. by rewrite Registry.get_version_record_eq, Em.
Qed.

(** What an activation makes active is what lookups in the scope then see. *)
Lemma active_of_activated s r :
  store_ok s → r ∈ rows s → query r = true →
  List.filter (λ x, Registry.vr_is_active x
      && Registry.in_scope sid (Registry.vr_tenant r) (Registry.vr_environment r) x) (Registry.activated r (rows s))
    = [Registry.with_active true r] →
  active_of (Registry.activated r (rows s)) = Some (vr_version_number r).
Proof.
  intros (_ & _ & _ & Hscope) Hr Hq Hone. unfold active_of.
  assert (List.filter (λ x, query x && Registry.vr_is_active x) (Registry.activated r (rows s))
    = [Registry.with_active true r]) as ->; [|done].
  rewrite <-Hone. apply filter_ext_in. intros x Hx%list_elem_of_In. rewrite andb_comm. f_equal.
  rewrite Registry.activated_map in Hx. apply list_elem_of_fmap in Hx as (y & -> & Hy).
  assert (query y = Registry.in_scope sid (Registry.vr_tenant r) (Registry.vr_environment r) y) as Hqy.
  { apply eq_true_iff_eq. rewrite Registry.in_scope_spec. split.
    - intros Hqy. destruct (Hscope y r Hy Hr Hqy Hq). split_and!; [by apply query_service|done..].
    - intros (Hs & Ht & He). pose proof Hq as Hqr. unfold Registry.version_query in *.
      by rewrite Ht, He, Hs; rewrite (query_service r Hq) in Hqr. }
  repeat case_match; exact Hqy.
Qed.

Lemma activate_law s n : store_ok s →
  let moved := mk_service_view (Some n) (sv_deployed (seen s)) (sv_routed (seen s)) in
  wp (in_session (Registry.activate_version sid n tenant environment true))
    (λ o s', store_ok s' ∧ match o with
                           | Some v => seen s' = moved ∧ version_number v = n
                           | None => seen s' = seen s ∧ sv_active (seen s) ≠ Some n
                           end)
    (λ _ s', store_ok s' ∧ (seen s' = seen s ∨ seen s' = moved)) s.
Proof.
  intros Hs moved. pose proof Hs as (Hok & Heq & Hproper & Hscope).
  pose proof (Registry.activate_version_preserves sid n tenant environment true _ Hok) as Hkeep.
  unfold wp. destruct (Registry.matching sid n tenant environment (ps_registry s)) as [|r [|r' l]] eqn:Em.
  - rewrite (in_session_unchanged _ s (Ok None)); [|done|].
    2: { unfold Registry.activate_version, bind. by rewrite Registry.get_version_record_eq, Em. }
    split; [done|]. split; [done|]. simpl. unfold active_of.
    intros (x & Hx%head_Some_elem_of & Hn)%fmap_Some. apply elem_of_filterb in Hx as [[Hq _]%andb_true_iff Hx].
    unfold Registry.matching in Em. rewrite Registry.filter_nil_iff in Em. specialize (Em x Hx).
    unfold Registry.version_match in Em. by rewrite Hq, Hn, Z.eqb_refl in Em.
  - destruct (Registry.activate_version_eq sid n tenant environment true _ r Hok Hproper Em) as (Hrun & Hone & _).
    rewrite (in_session_after _ s _ _ Hrun). unfold wp in Hkeep. rewrite Hrun in Hkeep.
    assert (r ∈ Registry.matching sid n tenant environment (ps_registry s)) as Hr by (rewrite Em; left).
    pose proof (Registry.matching_found _ _ _ _ _ _ Hr) as (Hin & _ & Hn & _).
    assert (query r = true) as Hq.
    { unfold Registry.matching in Hr. apply elem_of_filterb in Hr as [Hr _]. by apply andb_true_iff in Hr as [? _]. }
    set (g := λ x, if bool_decide (Registry.vr_id x = Registry.vr_id r) then Registry.with_active true x
      else if Registry.in_scope (Registry.vr_service_id r) (Registry.vr_tenant r) (Registry.vr_environment r) x
           then Registry.with_active false x else x).
    assert (∀ x, query (g x) = query x ∧ Registry.vr_tenant (g x) = Registry.vr_tenant x
      ∧ Registry.vr_environment (g x) = Registry.vr_environment x) as Hg
      by (intros x; unfold g; by repeat case_match).
    destruct (store_ok_map s g Hs Hg) as [Hp' Hscope'].
    assert (Registry.activated r (rows s) = g <$> rows s) as Hmap by apply Registry.activated_map.
    split; [rewrite Hmap in *; by split_and!|]. split; [|done].
    unfold seen, moved. simpl. f_equal. rewrite <-Hn. by apply active_of_activated.
  - rewrite (in_session_unchanged _ s (Raise (Registry.ambiguous_error sid))); [by auto|done|].
    unfold Registry.activate_version, bind. by rewrite Registry.get_version_record_eq, Em.
Qed.

#[export] Instance registry_rollback_laws :
  @RollbackStoreLaws plant_state registry_rollback_store store_ok seen sid tenant environment.
Proof.
  split; simpl.
  - by apply get_active_law.
  - intros s n. apply get_version_law.
  - intros s n revision report. apply update_law.
  - intros s n. apply activate_law.
Qed.
End store.
End RegistryStore.

(** ** Running a rollback as a job ([_execute_rollback_request]) *)

Section executor.
Context {S : Type} {job_store : CompilationJobStore S}.
(** The workflow [create_default_rollback_workflow] builds. *)
Context (workflow : RollbackRequest → comp S exn RollbackResult).

Definition rollback_detail (m : rollback_metadata) : dict pyval :=
  [("original_job_id", VStr (uuid_str (rm_source_job_id m)));
   ("service_id", VStr (rm_service_id m)); ("target_version", VInt (rm_target_version m))].

Definition opt_int (o : option Z) : pyval := match o with Some n => VInt n | None => VNone end.

(** [str(exc).strip() or exc.__class__.__name__] *)
Definition error_text (e : exn) : string :=
  if str_truthy (strip (exn_str e)) then strip (exn_str e) else exn_type e.

Definition execute_rollback_request (request : CompilationRequest) (m : rollback_metadata) : comp S exn unit :=
  job_id <- create_job request (rq_job_id request) ;;
  append_event job_id JOB_CREATED None None None None ;;;
  append_event job_id JOB_STARTED None None None None ;;;
  mark_job_running job_id DEPLOY None (Some (rm_service_id m)) None ;;;
  append_event job_id ROLLBACK_STARTED (Some DEPLOY) None (Some (rollback_detail m)) None ;;;
  o <- attempt (workflow (mk_rollback_request (rm_service_id m) (rm_target_version m)
                            (rm_tenant m) (rm_environment m))) ;;
  match o with
  | Raise exc =>
      let error_detail := error_text exc in
      mark_job_failed job_id DEPLOY error_detail false None (Some (rm_service_id m)) None ;;;
      append_event job_id ROLLBACK_FAILED (Some DEPLOY) None (Some (rollback_detail m)) (Some error_detail) ;;;
      append_event job_id JOB_FAILED (Some DEPLOY) None
        (Some (("mode", VStr "rollback") :: rollback_detail m)) (Some error_detail) ;;;
      raise exc
  | Ok result =>
      mark_job_succeeded job_id REGISTER (rres_protocol result) (Some (rres_service_id result)) None ;;;
      append_event job_id ROLLBACK_SUCCEEDED (Some REGISTER) None
        (Some [("original_job_id", VStr (uuid_str (rm_source_job_id m)));
               ("service_id", VStr (rres_service_id result));
               ("target_version", VInt (rres_target_version result));
               ("previous_active_version", opt_int (rres_previous_active_version result));
               ("deployment_revision", VStr (rres_deployment_revision result))]) None ;;;
      append_event job_id JOB_SUCCEEDED (Some REGISTER) None
        (Some [("mode", VStr "rollback");
               ("protocol", opt_str (rres_protocol result));
               ("service_name", VStr (rres_service_id result));
               ("target_version", VInt (rres_target_version result));
               ("previous_active_version", opt_int (rres_previous_active_version result))]) None
  end.
End executor.

(** The events every rollback job starts with. *)
Definition rollback_opening : list log_entry :=
  opening_log ++ [entry ROLLBACK_STARTED (Some DEPLOY) None].

(** A rollback job ends SUCCEEDED when the rollback returns and FAILED
    when it raises, with exactly the corresponding events appended, and re-raises
    the rollback's own exception; no other job is affected. *)
Theorem execute_rollback_request_correct {S} {job_store : CompilationJobStore S}
    (view : S → uuid → option job_view) {laws : JobStoreLaws S view}
    (workflow : RollbackRequest → comp S exn RollbackResult) (fails : exn → Prop)
    (request : CompilationRequest) (m : rollback_metadata) id st sg L s :
  (∀ rr s1, wp (workflow rr) (λ _ s', same_views view s1 s') (λ e s', same_views view s1 s' ∧ fails e) s1) →
  view s id = Some (mk_job_view st sg L) → rq_job_id request = Some id →
  wp (execute_rollback_request workflow request m)
    (λ _ s', views_to view s s' id
       (mk_job_view SUCCEEDED (Some "register")
          (L ++ rollback_opening ++ [entry ROLLBACK_SUCCEEDED (Some REGISTER) None;
                                     entry JOB_SUCCEEDED (Some REGISTER) None])))
    (λ e s', fails e ∧ views_to view s s' id
       (mk_job_view FAILED (Some "deploy")
          (L ++ rollback_opening ++ [entry ROLLBACK_FAILED (Some DEPLOY) None;
                                     entry JOB_FAILED (Some DEPLOY) None]))) s.
Proof.
  intros Hw Hv Hid. unfold execute_rollback_request. eapply (wp_run_prefix view id s); [exact Hv|exact Hid|].
  assert (views_to view s s id (mk_job_view st sg L)) as Hs by by split.
  eapply (wp_append view id s); [exact Hs|]. intros s1 Hs1.
  eapply (wp_append view id s); [exact Hs1|]. intros s2 Hs2.
  eapply (wp_mark_running view id s); [exact Hs2|]. intros s3 Hs3.
  eapply (wp_append view id s); [exact Hs3|]. intros s4 Hs4.
  apply wp_bind, wp_attempt. eapply wp_mono; [apply Hw| |].
  - intros result s5 Hsame. pose proof (at_view_frame view id s _ _ _ Hs4 Hsame) as Hs5.
    eapply (wp_store_step view id s); [exact Hs5|apply (law_mark_succeeded (view:=view) s5 id _ _ _ _ _ (proj1 Hs5))|].
    intros [] s6 Hs6. eapply (wp_append view id s); [exact Hs6|]. intros s7 Hs7.
    eapply wp_mono; [apply (law_append_event (view:=view) s7 id _ _ _ _ _ _ (proj1 Hs7))| |by intros ? ? []].
    intros [] s8 Hs8. pose proof (at_view_trans view id s _ _ _ _ Hs7 Hs8) as Hend.
    unfold with_log in Hend. cbn [jv_log with_status jv_status jv_stage] in Hend. rewrite <-!(assoc_L (++)) in Hend. exact Hend.
  - intros exc s5 [Hsame Hf]. pose proof (at_view_frame view id s _ _ _ Hs4 Hsame) as Hs5.
    eapply (wp_store_step view id s); [exact Hs5|apply (law_mark_failed (view:=view) s5 id _ _ _ _ _ _ _ (proj1 Hs5))|].
    intros [] s6 Hs6. eapply (wp_append view id s); [exact Hs6|]. intros s7 Hs7.
    eapply (wp_append view id s); [exact Hs7|]. intros s8 Hs8. apply wp_raise. split; [done|].
    cbn [jv_log with_status] in Hs8. rewrite <-!(assoc_L (++)) in Hs8. exact Hs8.
Qed.

(** ** Concrete runs *)

Import RegistryStore.

Definition set_deployed (n : Z) (s : plant_state) : plant_state :=
  mk_plant_state (ps_registry s) (Some n) (ps_routed s).
Definition set_routed (n : Z) (s : plant_state) : plant_state :=
  mk_plant_state (ps_registry s) (ps_deployed s) (Some n).

(** A plant whose validation passes only for the versions of [good]. *)
Definition demo_plant (good : list Z) : RollbackPlant plant_state :=
  mk_plant _
    (λ v, modify (set_deployed (version_number v)) ;;; ret "rev-1")
    (λ _, ret tt)
    (λ v, ret [("overall_passed", VBool (bool_decide (version_number v ∈ good)))])
    (Some (λ v, modify (set_routed (version_number v)))).

Definition demo_rollback : RollbackRequest := mk_rollback_request "billing" 1 (Some "acme") None.
Definition demo_plant_state : plant_state := mk_plant_state Registry.demo_session (Some 2) (Some 2).

Lemma demo_plant_laws good : PlantLaws (store_ok "billing" (Some "acme") None)
  (seen "billing" (Some "acme") None) 2 (demo_plant good).
Proof. split; simpl; try done; intros; simplify_eq/=; done. Qed.

Lemma demo_store_ok : store_ok "billing" (Some "acme") None demo_plant_state.
Proof.
  split_and!; [exact Registry.demo_session_ok|done|exact Registry.demo_session_proper|].
  assert (Forall (λ r, Registry.vr_tenant r = Some "acme" ∧ Registry.vr_environment r = None)
    (Registry.versions (Registry.working (ps_registry demo_plant_state)))) as Hall by by repeat constructor.
  rewrite Forall_forall in Hall. intros x y Hx%Hall Hy%Hall _ _. by destruct Hx as [-> ->], Hy as [-> ->].
Qed.

Example demo_rollback_succeeds :
  seen "billing" (Some "acme") None
    (@run_rollback _ (registry_rollback_store Registry.accept_ir) (demo_plant [1]) demo_rollback demo_plant_state).2
  = mk_service_view (Some 1) (Some 1) (Some 1).
Proof. vm_compute. reflexivity. Qed.

Example demo_rollback_restores :
  seen "billing" (Some "acme") None
    (@run_rollback _ (registry_rollback_store Registry.accept_ir) (demo_plant []) demo_rollback demo_plant_state).2
  = mk_service_view (Some 2) (Some 2) (Some 2).
Proof. vm_compute. reflexivity. Qed.


Definition demo_metadata : rollback_metadata := mk_rollback_metadata 7%N "billing" 1 (Some "acme") None.

Lemma execute_rollback_request_correct_witness :
  let s := JobStore.demo_store [] in
  let workflow : RollbackRequest → comp JobStore.store exn RollbackResult :=
    λ rr, raise (value_error "Rollback target billing v1 was not found.") in
  JobStore.view s 1%N = Some (mk_job_view PENDING None []) ∧
  @wp JobStore.store exn _
    (@execute_rollback_request _ (JobStore.sql_job_store no_repr) workflow JobStore.demo_request demo_metadata)
    (λ _ s', views_to JobStore.view s s' 1%N
       (mk_job_view SUCCEEDED (Some "register")
          ([] ++ rollback_opening ++ [entry ROLLBACK_SUCCEEDED (Some REGISTER) None;
                                      entry JOB_SUCCEEDED (Some REGISTER) None])))
    (λ e s', exn_type e = "ValueError" ∧ views_to JobStore.view s s' 1%N
       (mk_job_view FAILED (Some "deploy")
          ([] ++ rollback_opening ++ [entry ROLLBACK_FAILED (Some DEPLOY) None;
                                      entry JOB_FAILED (Some DEPLOY) None]))) s.
Proof.
  intros s workflow.
  assert (JobStore.view s 1%N = Some (mk_job_view PENDING None [])) as Hv by (vm_compute; reflexivity).
  split; [exact Hv|].
  refine (execute_rollback_request_correct JobStore.view (laws := JobStore.sql_job_store_laws no_repr)
    workflow (λ e, exn_type e = "ValueError") JobStore.demo_request demo_metadata 1%N PENDING None [] s _ Hv eq_refl).
  intros rr s1. split; [by intros id'|reflexivity].
Defined.
