(* ===== verification/Authz.v ===== *)
(** * Authorization policies ([apps/access_control/authz/service.py])

    The policy table's operations and the evaluation of a request against it:
    which policies match, which of them is the most specific, and the decision. *)

From S2P Require Export PyExn Glob IRModels.

(** ** Data *)

(** [_RISK_ORDER] *)
Definition risk_order (r : RiskLevel) : Z :=
  match r with safe => 0 | cautious => 1 | dangerous => 2 | unknown => 3 end.

(** [_DECISION_PRIORITY.get(decision, 0)] *)
Definition decision_priority (d : string) : Z :=
  if str_eqb d "deny" then 3 else if str_eqb d "require_approval" then 2
  else if str_eqb d "allow" then 1 else 0.

Record Policy := mk_policy {
  p_id : uuid;
  p_subject_type : string;
  p_subject_id : string;
  p_resource_id : string;
  p_action_pattern : string;
  p_risk_threshold : string;
  p_decision : string;
  p_created_by : option string;
  p_created_at : Z;
}.

Record PolicyCreateRequest := mk_policy_create {
  pc_subject_type : string;
  pc_subject_id : string;
  pc_resource_id : string;
  pc_action_pattern : string;
  pc_risk_threshold : RiskLevel;
  pc_decision : string;
  pc_created_by : option string;
}.

Record PolicyUpdateRequest := mk_policy_update {
  pu_resource_id : option string;
  pu_action_pattern : option string;
  pu_risk_threshold : option RiskLevel;
  pu_decision : option string;
}.

Record PolicyEvaluationRequest := mk_evaluation {
  pe_subject_type : string;
  pe_subject_id : string;
  pe_resource_id : string;
  pe_action : string;
  pe_risk_level : RiskLevel;
}.

Record PolicyEvaluationResponse := mk_evaluation_response {
  er_decision : string;
  er_matched_policy_id : option uuid;
  er_reason : string;
}.

(** The session: working and committed tables (in insertion order), the clock
    of [created_at], and the UUIDs still to be drawn. *)
Record store := mk_store {
  policies : list Policy;
  committed : list Policy;
  clock : Z;
  uuid4s : list uuid;
}.

Definition on_policies (f : list Policy → list Policy) (s : store) : store :=
  mk_store (f (policies s)) (committed s) (clock s) (uuid4s s).
Definition commit_session : comp store exn unit :=
  modify (λ s, mk_store (policies s) (policies s) (clock s) (uuid4s s)).

(** A fresh identifier and the time of the insertion. *)
Definition stamp : comp store exn (uuid * Z) := λ s,
  match uuid4s s with
  | [] => (Ok (0%N, clock s), s)
  | u :: rest => (Ok (u, clock s), mk_store (policies s) (committed s) (clock s + 1) rest)
  end.

(** ** Operations *)

(** [_to_response]: reading a row back re-validates its threshold. *)
Definition to_response (p : Policy) : comp store exn Policy :=
  match parse_risk (p_risk_threshold p) with
  | Some _ => ret p
  | None => raise (value_error ("'" +:+ p_risk_threshold p +:+ "' is not a valid RiskLevel"))
  end.

Definition find_policy (id : uuid) : comp store exn (option Policy) :=
  gets (λ s, List.find (λ p, bool_decide (p_id p = id)) (policies s)).

Definition create_policy (payload : PolicyCreateRequest) (commit : bool) : comp store exn Policy :=
  st <- stamp ;;
  let policy := mk_policy st.1 (pc_subject_type payload) (pc_subject_id payload) (pc_resource_id payload)
    (pc_action_pattern payload) (risk_value (pc_risk_threshold payload)) (pc_decision payload)
    (pc_created_by payload) st.2 in
  modify (on_policies (λ l, l ++ [policy])) ;;;
  when commit commit_session ;;;
  to_response policy.

Definition matches_opt (wanted : option string) (v : string) : bool :=
  match wanted with None => true | Some w => str_eqb v w end.

(** [order_by(created_at.desc())] *)
Fixpoint insert_newest (p : Policy) (l : list Policy) : list Policy :=
  match l with
  | [] => [p]
  | q :: l' => if p_created_at q <? p_created_at p then p :: l else q :: insert_newest p l'
  end.

Definition list_policies (subject_type subject_id resource_id : option string)
    : comp store exn (list Policy) :=
  rows <- gets (λ s, take 1000 (foldl (λ acc p, insert_newest p acc) []
    (List.filter (λ p, matches_opt subject_type (p_subject_type p)
       && matches_opt subject_id (p_subject_id p) && matches_opt resource_id (p_resource_id p))
       (policies s)))) ;;
  fold_each (λ acc p, r <- to_response p ;; ret (acc ++ [r])) [] rows.

Definition get_policy (id : uuid) : comp store exn (option Policy) :=
  policy <- find_policy id ;;
  match policy with
  | None => ret None
  | Some p => r <- to_response p ;; ret (Some r)
  end.

Definition or_keep {A} (new : option A) (old : A) : A := default old new.

Definition updated_policy (payload : PolicyUpdateRequest) (p : Policy) : Policy :=
  mk_policy (p_id p) (p_subject_type p) (p_subject_id p)
    (or_keep (pu_resource_id payload) (p_resource_id p))
    (or_keep (pu_action_pattern payload) (p_action_pattern p))
    (or_keep (risk_value <$> pu_risk_threshold payload) (p_risk_threshold p))
    (or_keep (pu_decision payload) (p_decision p))
    (p_created_by p) (p_created_at p).

Definition update_policy (id : uuid) (payload : PolicyUpdateRequest) (commit : bool)
    : comp store exn (option Policy) :=
  policy <- find_policy id ;;
  match policy with
  | None => ret None
  | Some p =>
      let p' := updated_policy payload p in
      modify (on_policies (λ l, (λ q, if bool_decide (p_id q = id) then p' else q) <$> l)) ;;;
      when commit commit_session ;;;
      r <- to_response p' ;; ret (Some r)
  end.

Definition delete_policy (id : uuid) (commit : bool) : comp store exn (option Policy) :=
  policy <- find_policy id ;;
  match policy with
  | None => ret None
  | Some p =>
      modify (on_policies (List.filter (λ q, negb (bool_decide (p_id q = id))))) ;;;
      when commit commit_session ;;;
      ret (Some p)
  end.

(** ** Evaluation *)

(** [_matches] *)
Definition matches (policy : Policy) (payload : PolicyEvaluationRequest) : bool :=
  if negb (fnmatchcase (pe_resource_id payload) (p_resource_id policy)) then false
  else if negb (fnmatchcase (pe_action payload) (p_action_pattern policy)) then false
  else match parse_risk (p_risk_threshold policy) with
       | None => false
       | Some threshold => risk_order (pe_risk_level payload) <=? risk_order threshold
       end.

(** [_specificity] *)
Definition specificity (policy : Policy) (payload : PolicyEvaluationRequest) : Z :=
  (if str_eqb (p_subject_id policy) (pe_subject_id payload) then 4 else 0)
  + (if str_eqb (p_resource_id policy) (pe_resource_id payload) then 2
     else if negb (str_eqb (p_resource_id policy) "*")
             && fnmatchcase (pe_resource_id payload) (p_resource_id policy) then 1 else 0)
  + (if str_eqb (p_action_pattern policy) (pe_action payload) then 1
     else if negb (str_eqb (p_action_pattern policy) "*")
             && fnmatchcase (pe_action payload) (p_action_pattern policy) then 1 else 0).

(** The rows the query selects, [order_by(Policy.id)]. *)
Definition is_candidate (payload : PolicyEvaluationRequest) (p : Policy) : bool :=
  str_eqb (p_subject_type p) (pe_subject_type payload)
  && (str_eqb (p_subject_id p) (pe_subject_id payload) || str_eqb (p_subject_id p) "*").

Fixpoint insert_by_id (p : Policy) (l : list Policy) : list Policy :=
  match l with
  | [] => [p]
  | q :: l' => if (p_id p <? p_id q)%N then p :: l else q :: insert_by_id p l'
  end.

Definition candidates (payload : PolicyEvaluationRequest) (rows : list Policy) : list Policy :=
  foldl (λ acc p, insert_by_id p acc) [] (List.filter (is_candidate payload) rows).

Definition matched (payload : PolicyEvaluationRequest) (rows : list Policy) : list (Policy * Z) :=
  (λ p, (p, specificity p payload)) <$> List.filter (λ p, matches p payload) (candidates payload rows).

(** The sort key, compared lexicographically. *)
Definition match_key (m : Policy * Z) : Z * Z := (m.2, decision_priority (p_decision m.1)).
Definition key_lt (a b : Z * Z) : bool := (a.1 <? b.1) || ((a.1 =? b.1) && (a.2 <? b.2)).

(** [matches.sort(key=..., reverse=True)] is stable: equal keys keep their order. *)
Fixpoint insert_match (m : Policy * Z) (l : list (Policy * Z)) : list (Policy * Z) :=
  match l with
  | [] => [m]
  | m' :: l' => if key_lt (match_key m') (match_key m) then m :: l else m' :: insert_match m l'
  end.
Definition sort_matches (l : list (Policy * Z)) : list (Policy * Z) :=
  foldl (λ acc m, insert_match m acc) [] l.

Definition evaluate_rows (payload : PolicyEvaluationRequest) (rows : list Policy) : PolicyEvaluationResponse :=
  let sorted := sort_matches (matched payload rows) in
  let top_matches := match sorted with
                     | [] => []
                     | first :: _ => List.filter (λ m, m.2 =? first.2) sorted
                     end in
  match top_matches with
  | [] => mk_evaluation_response "deny" None "No matching policy. Default deny applied."
  | chosen :: _ =>
      mk_evaluation_response (p_decision chosen.1) (Some (p_id chosen.1))
        ("Matched policy for subject=" +:+ pe_subject_id payload +:+ ", resource="
         +:+ pe_resource_id payload +:+ ", action=" +:+ pe_action payload +:+ ".")
  end.

Definition evaluate (payload : PolicyEvaluationRequest) : comp store exn PolicyEvaluationResponse :=
  gets (λ s, evaluate_rows payload (policies s)).

(** ** Sorting *)

Definition key_le (a b : Z * Z) : Prop := a.1 < b.1 ∨ (a.1 = b.1 ∧ a.2 ≤ b.2).

Lemma key_lt_spec a b : reflect (¬ key_le b a) (key_lt a b).
Proof.
  apply iff_reflect. unfold key_le, key_lt. rewrite orb_true_iff, andb_true_iff, !Z.ltb_lt, Z.eqb_eq. lia.
Qed.

Lemma key_le_refl a : key_le a a.
Proof. unfold key_le. lia. Qed.
Lemma key_le_trans a b c : key_le a b → key_le b c → key_le a c.
Proof. unfold key_le. lia. Qed.
Lemma key_le_total a b : key_le a b ∨ key_le b a.
Proof. unfold key_le. lia. Qed.

Lemma insert_match_perm m l : insert_match m l ≡ₚ m :: l.
Proof. induction l as [|m' l IH]; simpl; [done|]. case_match; [done|]. rewrite IH. constructor. Qed.

Lemma sort_matches_perm l : sort_matches l ≡ₚ l.
Proof.
  unfold sort_matches. enough (∀ acc, foldl (λ acc m, insert_match m acc) acc l ≡ₚ l ++ acc) as H
    by (by rewrite H, app_nil_r).
  induction l as [|m l IH]; intros acc; simpl; [done|].
  rewrite IH, insert_match_perm. symmetry. apply Permutation_middle.
Qed.

Definition greatest_first (l : list (Policy * Z)) : Prop :=
  match l with [] => True | m :: l' => Forall (λ m', key_le (match_key m') (match_key m)) l' end.

Lemma sort_matches_head l : greatest_first (sort_matches l).
Proof.
  unfold sort_matches. enough (∀ acc, greatest_first acc →
    greatest_first (foldl (λ acc m, insert_match m acc) acc l)) as H by by apply H.
  induction l as [|m l IH]; intros acc Hacc; simpl; [done|]. apply IH.
  destruct acc as [|m' acc]; simpl; [constructor|].
  destruct (key_lt_spec (match_key m') (match_key m)) as [Hlt|Hlt]; simpl.
  - assert (key_le (match_key m') (match_key m)) as Hle
      by (destruct (key_le_total (match_key m') (match_key m)); [done|by destruct Hlt]).
    constructor; [done|]. eapply Forall_impl; [exact Hacc|].
    intros x Hx. exact (key_le_trans _ _ _ Hx Hle).
  - rewrite insert_match_perm. constructor; [|done].
    unfold key_le in *. lia.
Qed.

Lemma insert_by_id_perm p l : insert_by_id p l ≡ₚ p :: l.
Proof. induction l as [|q l IH]; simpl; [done|]. case_match; [done|]. rewrite IH. constructor. Qed.

Lemma sort_by_id_perm l acc : foldl (λ acc p, insert_by_id p acc) acc l ≡ₚ l ++ acc.
Proof.
  revert acc. induction l as [|p l IH]; intros acc; simpl; [done|].
  rewrite IH, insert_by_id_perm. symmetry. apply Permutation_middle.
Qed.

Lemma insert_by_id_comm p q l :
  p_id p ≠ p_id q → insert_by_id p (insert_by_id q l) = insert_by_id q (insert_by_id p l).
Proof.
  intros Hne. induction l as [|x l IH]; simpl.
  - destruct (N.ltb_spec (p_id p) (p_id q)), (N.ltb_spec (p_id q) (p_id p)); try done; lia.
  - repeat (first [case_match; simplify_eq/= | progress rewrite N.ltb_lt in * | progress rewrite N.ltb_ge in *]);
      try lia; try done; by rewrite ?IH.
Qed.

(** Rows with distinct ids come out in one order however the table holds them. *)
Lemma sort_by_id_unique l l' acc :
  l ≡ₚ l' → NoDup (p_id <$> l) →
  foldl (λ acc p, insert_by_id p acc) acc l = foldl (λ acc p, insert_by_id p acc) acc l'.
Proof.
  intros Hp. revert acc. induction Hp as [|x l l' Hp IH|x y l|l1 l2 l3 H1 IH1 H2 IH2]; intros acc Hnd; simpl.
  - done.
  - apply IH. rewrite fmap_cons in Hnd. by apply NoDup_cons in Hnd as [_ ?].
  - rewrite !fmap_cons, !NoDup_cons, not_elem_of_cons in Hnd. f_equal. apply insert_by_id_comm. naive_solver.
  - rewrite IH1 by done. apply IH2. by rewrite <-H1.
Qed.

(** ** What a decision means *)

(** The policies that apply to a request. *)
Definition applies (payload : PolicyEvaluationRequest) (p : Policy) : bool :=
  is_candidate payload p && matches p payload.

Lemma matched_elem payload rows m :
  m ∈ matched payload rows ↔ m.1 ∈ rows ∧ applies payload m.1 = true ∧ m.2 = specificity m.1 payload.
Proof.
  unfold matched, candidates, applies. rewrite list_elem_of_fmap. split.
  - intros (p & -> & [Hm Hp]%elem_of_filterb). simpl.
    rewrite sort_by_id_perm, app_nil_r, elem_of_filterb in Hp. destruct Hp as [Hc Hp]. by rewrite Hc, Hm.
  - destruct m as [p n]. simpl. intros (Hp & [Hc Hm]%andb_true_iff & ->). exists p. split; [done|].
    apply elem_of_filterb. split; [done|]. by rewrite sort_by_id_perm, app_nil_r, elem_of_filterb.
Qed.

Lemma evaluate_cases payload rows :
  let r := evaluate_rows payload rows in
  match er_matched_policy_id r with
  | None => er_decision r = "deny" ∧ ∀ p, p ∈ rows → applies payload p = false
  | Some id => ∃ p, p ∈ rows ∧ applies payload p = true ∧ p_id p = id ∧ p_decision p = er_decision r
      ∧ ∀ q, q ∈ rows → applies payload q = true →
          key_le (specificity q payload, decision_priority (p_decision q))
                 (specificity p payload, decision_priority (p_decision p))
  end.
Proof.
  intros r. unfold r, evaluate_rows.
  pose proof (sort_matches_perm (matched payload rows)) as Hperm.
  pose proof (sort_matches_head (matched payload rows)) as Hhead.
  destruct (sort_matches (matched payload rows)) as [|m l]; simpl.
  - split; [done|]. intros p Hp. apply not_true_iff_false. intros Ha.
    assert ((p, specificity p payload) ∈ matched payload rows) as Hin by by apply matched_elem.
    rewrite <-Hperm in Hin. inv Hin.
  - rewrite Z.eqb_refl. simpl.
    assert (m ∈ matched payload rows) as (Hp & Ha & Hs)%matched_elem by (rewrite <-Hperm; left).
    exists m.1. split_and!; try done. intros q Hq Haq.
    assert ((q, specificity q payload) ∈ m :: l) as Hin by (rewrite Hperm; by apply matched_elem).
    rewrite <-Hs. apply elem_of_cons in Hin as [<-|Hin]; [apply key_le_refl|].
    simpl in Hhead. rewrite Forall_forall in Hhead. by apply (Hhead _ Hin).
Qed.


(** The order in which the table returns its rows never matters. *)
Theorem evaluate_order_independent payload rows rows' :
  rows ≡ₚ rows' → NoDup (p_id <$> rows) → evaluate_rows payload rows = evaluate_rows payload rows'.
Proof.
  intros Hp Hnd. unfold evaluate_rows, matched, candidates.
  rewrite (sort_by_id_unique (List.filter (is_candidate payload) rows)
    (List.filter (is_candidate payload) rows') []); [done| |].
  - clear Hnd. induction Hp; simpl; repeat case_match; eauto using Permutation.
  - clear Hp. induction rows as [|p rows IH]; simpl; [done|].
    rewrite fmap_cons, NoDup_cons in Hnd. destruct Hnd as [Hp Hnd].
    case_match; [|by apply IH]. rewrite fmap_cons, NoDup_cons. split; [|by apply IH].
    intros (q & Heq & [_ Hq]%elem_of_filterb)%list_elem_of_fmap. apply Hp. rewrite Heq.
    by apply list_elem_of_fmap_2.
Qed.

Lemma applies_iff payload p :
  applies payload p = true ↔
    p_subject_type p = pe_subject_type payload
    ∧ (p_subject_id p = pe_subject_id payload ∨ p_subject_id p = "*")
    ∧ fnmatchcase (pe_resource_id payload) (p_resource_id p) = true
    ∧ fnmatchcase (pe_action payload) (p_action_pattern p) = true
    ∧ ∃ threshold, parse_risk (p_risk_threshold p) = Some threshold
        ∧ risk_order (pe_risk_level payload) ≤ risk_order threshold.
Proof.
  unfold applies, is_candidate, matches. rewrite !andb_true_iff, orb_true_iff, !str_eqb_eq.
  destruct (fnmatchcase (pe_resource_id payload) (p_resource_id p)); simpl; [|naive_solver].
  destruct (fnmatchcase (pe_action payload) (p_action_pattern p)); simpl; [|naive_solver].
  destruct (parse_risk (p_risk_threshold p)); rewrite ?Z.leb_le; naive_solver.
Qed.

(** A request is allowed only by a policy that says so, that is of the request's
    subject type, names its subject or any, matches its resource and action and
    tolerates its risk; and every policy that applies and would deny or ask for
    approval is strictly less specific. *)
Theorem allow_is_justified payload rows :
  er_decision (evaluate_rows payload rows) = "allow" →
  ∃ p, p ∈ rows ∧ p_decision p = "allow"
    ∧ p_subject_type p = pe_subject_type payload
    ∧ (p_subject_id p = pe_subject_id payload ∨ p_subject_id p = "*")
    ∧ fnmatchcase (pe_resource_id payload) (p_resource_id p) = true
    ∧ fnmatchcase (pe_action payload) (p_action_pattern p) = true
    ∧ (∃ threshold, parse_risk (p_risk_threshold p) = Some threshold
        ∧ risk_order (pe_risk_level payload) ≤ risk_order threshold)
    ∧ ∀ q, q ∈ rows → applies payload q = true → p_decision q ∈ ["deny"; "require_approval"] →
        specificity q payload < specificity p payload.
Proof.
  intros Hallow. pose proof (evaluate_cases payload rows) as Hcases. cbn zeta in Hcases.
  destruct (er_matched_policy_id (evaluate_rows payload rows)) as [id|];
    [|destruct Hcases as [Hd _]; by rewrite Hallow in Hd].
  destruct Hcases as (p & Hp & Ha & _ & Hd & Hbest). rewrite Hallow in Hd.
  apply applies_iff in Ha as (? & ? & ? & ? & ?). exists p. split_and!; try done.
  intros q Hq Haq Hdq. specialize (Hbest q Hq Haq). unfold key_le in Hbest. rewrite Hd in Hbest.
  simpl in Hbest. apply elem_of_cons in Hdq as [Hdq|Hdq%list_elem_of_singleton];
    rewrite Hdq in Hbest; unfold decision_priority in Hbest; simpl in Hbest; lia.
Qed.

(** Raising the risk of a request can only make policies stop applying: a
    policy that applies to a riskier request applies to the safer one. *)
Theorem applies_risk_antitone st sid rid act lower higher p :
  risk_order lower ≤ risk_order higher →
  applies (mk_evaluation st sid rid act higher) p = true →
  applies (mk_evaluation st sid rid act lower) p = true.
Proof.
  intros Hle. rewrite !applies_iff. simpl. intros (? & ? & ? & ? & t & ? & ?).
  split_and!; try done. exists t. split; [done|lia].
Qed.

(** ** Concrete policies *)

Definition demo_policy (id : uuid) (subject resource action decision : string) : Policy :=
  mk_policy id "user" subject resource action "dangerous" decision None 0.
Definition demo_request : PolicyEvaluationRequest :=
  mk_evaluation "user" "alice" "petstore" "delete_pet" dangerous.

(** The deny rule for everybody loses to a more specific allow rule. *)
Example specific_allow_beats_general_deny :
  er_decision (evaluate_rows demo_request
    [demo_policy 1%N "*" "petstore" "*" "deny"; demo_policy 2%N "alice" "*" "*" "allow"]) = "allow".
Proof. vm_compute. reflexivity. Qed.

(** At equal specificity denial wins, also over an exactly named action. *)
Example deny_wins_ties :
  er_decision (evaluate_rows demo_request
    [demo_policy 1%N "alice" "petstore" "delete_pet" "allow";
     demo_policy 2%N "alice" "petstore" "delete_*" "deny"]) = "deny".
Proof. vm_compute. reflexivity. Qed.

Lemma evaluate_order_independent_witness :
  let p := demo_policy 1%N "alice" "petstore" "*" "allow" in
  let q := demo_policy 2%N "alice" "petstore" "*" "allow" in
  [p; q] ≡ₚ [q; p] ∧ evaluate_rows demo_request [p; q] = evaluate_rows demo_request [q; p].
Proof.
  intros p q. assert ([p; q] ≡ₚ [q; p]) as Hp by apply perm_swap.
  assert (NoDup (p_id <$> [p; q])) as Hnd by by_eval.
  split; [exact Hp|]. exact (evaluate_order_independent demo_request [p; q] [q; p] Hp Hnd).
Defined.

Lemma allow_is_justified_witness :
  let rows := [demo_policy 1%N "*" "petstore" "*" "deny"; demo_policy 2%N "alice" "*" "*" "allow"] in
  er_decision (evaluate_rows demo_request rows) = "allow" ∧ ∃ p, p ∈ rows ∧ p_decision p = "allow".
Proof.
  intros rows. assert (er_decision (evaluate_rows demo_request rows) = "allow") as H by (vm_compute; reflexivity).
  split; [exact H|]. destruct (allow_is_justified demo_request rows H) as (p & Hp & Hd & _).
  exists p. split; [exact Hp|exact Hd].
Defined.

Lemma applies_risk_antitone_witness :
  applies demo_request (demo_policy 2%N "alice" "pet*" "delete_*" "allow") = true ∧
  applies (mk_evaluation "user" "alice" "petstore" "delete_pet" safe)
    (demo_policy 2%N "alice" "pet*" "delete_*" "allow") = true.
Proof.
  assert (applies demo_request (demo_policy 2%N "alice" "pet*" "delete_*" "allow") = true) as H
    by (vm_compute; reflexivity).
  split; [exact H|]. apply (applies_risk_antitone "user" "alice" "petstore" "delete_pet" safe dangerous);
    [vm_compute; discriminate|exact H].
Defined.
