(* ===== verification/Security.v ===== *)
(** * Authentication and access checks ([apps/access_control/authn/service.py],
    [apps/access_control/security.py])

    Token validation (HS256 JWTs and personal access tokens), the PAT lifecycle
    over the tables [users] and [pats], role normalisation and the scope check.
    SHA-256, HMAC, base64, the JSON codec and the random token source are
    parameters. *)

From S2P Require Export PyExn.
From Stdlib Require Import Ascii PrimFloat FloatOps SpecFloat.

(** ** Roles *)

Definition role_text (v : pyval) : option string :=
  match v with
  | VStr s => let role := lower (strip s) in if str_truthy role then Some role else None
  | _ => None
  end.

(** [_normalized_roles]: lowercased, blank and repeated entries dropped, in order *)
Fixpoint roles_from (seen : list string) (values : list pyval) : list string :=
  match values with
  | [] => []
  | v :: rest =>
      match role_text v with
      | None => roles_from seen rest
      | Some role =>
          if bool_decide (role ∈ seen) then roles_from seen rest
          else role :: roles_from (role :: seen) rest
      end
  end.

Definition role_values (raw : pyval) : list pyval :=
  match raw with VStr s => [VStr s] | VList l => l | _ => [] end.

Definition normalized_roles (raw_roles : pyval) : list string := roles_from [] (role_values raw_roles).

Record TokenPrincipalResponse := mk_principal {
  tp_subject : string;
  tp_username : option string;
  tp_token_type : string;
  tp_claims : dict pyval;
}.

(** [caller_roles]: a set, as a list *)
Definition caller_roles (caller : TokenPrincipalResponse) : list string :=
  omap role_text (role_values (get_or_none (tp_claims caller) "roles")).

(** [roles & wanted] is not empty *)
Definition has_role (roles wanted : list string) : bool :=
  existsb (λ r, bool_decide (r ∈ wanted)) roles.

Definition ADMIN_ROLES : list string := ["admin"; "administrator"; "superuser"].

Definition caller_is_admin (caller : TokenPrincipalResponse) : bool :=
  has_role (caller_roles caller) ADMIN_ROLES.

Definition actor (caller : TokenPrincipalResponse) : string :=
  if opt_truthy (tp_username caller) then default "" (tp_username caller) else tp_subject caller.

(** ** The Authorization header *)

Fixpoint first_word (s : string) : string :=
  match s with
  | EmptyString => ""
  | String c s' => if is_space c then "" else String c (first_word s')
  end.

(** [_extract_bearer_token]; [split(None, 1)] of the stripped header *)
Definition extract_bearer_token (auth_header : string) : option string :=
  let h := strip auth_header in
  let scheme := first_word h in
  let token := strip (drop_str (String.length scheme) h) in
  if negb (str_truthy token) then None
  else if negb (str_eqb (lower scheme) "bearer") then None
  else Some token.

(** ** Scope access *)

Definition forbidden (detail : string) : exn := http_error 403 detail.

(** [wanted in value] for a string [wanted]: membership of a list, substring of
    a string, key of a dict; other values raise [TypeError]. *)
Definition py_contains (value : pyval) (wanted : string) : outcome exn bool :=
  match value with
  | VList l => Ok (existsb (λ v, py_eq v (VStr wanted)) l)
  | VStr s => Ok (str_contains wanted s)
  | VDict d => Ok (dict_mem d wanted)
  | _ => Raise (type_error "argument is not iterable")
  end.

(** One of the two scope dimensions: [claim] the single value, [claims] the list. *)
Definition check_scope (what : string) (claim claims : pyval) (wanted : option string) : outcome exn unit :=
  match wanted with
  | None => Ok tt
  | Some w =>
      let refused := Raise (forbidden ("Not authorized for " +:+ what +:+ " '" +:+ w +:+ "'")) in
      if truthy claim && negb (py_eq claim (VStr w)) then refused
      else match claims with
           | VNone => Ok tt
           | _ => match py_contains claims w with
                  | Raise e => Raise e
                  | Ok true => Ok tt
                  | Ok false => refused
                  end
           end
  end.

Definition require_scope_access (caller : TokenPrincipalResponse) (tenant environment : option string)
    : outcome exn unit :=
  if caller_is_admin caller then Ok tt
  else
    let claims := tp_claims caller in
    match check_scope "tenant" (get_or_none claims "tenant") (get_or_none claims "tenants") tenant with
    | Raise e => Raise e
    | Ok _ => check_scope "environment" (get_or_none claims "environment")
                (get_or_none claims "environments") environment
    end.

Definition require_self_or_admin (caller : TokenPrincipalResponse) (username : string)
    : outcome exn TokenPrincipalResponse :=
  if str_eqb (actor caller) username || caller_is_admin caller then Ok caller
  else Raise (forbidden "Caller is not allowed to manage another user's PATs.").

Definition require_admin_principal (caller : TokenPrincipalResponse) : outcome exn TokenPrincipalResponse :=
  if caller_is_admin caller then Ok caller else Raise (forbidden "Admin role required.").

(** ** JWT *)

Record JWTSettings := mk_jwt_settings {
  js_secret : string;
  js_issuer : option string;
  js_audience : option string;
}.

Definition authentication_error (m : string) : exn := mk_exn "AuthenticationError" m [].

(** [float(n)] *)
Definition float_of_Z (n : Z) : outcome exn float :=
  let f := SF2Prim (binary_normalize FloatOps.prec FloatOps.emax n 0 false) in
  if PrimFloat.is_infinity f
  then Raise (mk_exn "OverflowError" "int too large to convert to float" []) else Ok f.

(** [_numeric_date] *)
Definition numeric_date (value : pyval) : outcome exn (option float) :=
  match value with
  | VInt n => match float_of_Z n with Ok f => Ok (Some f) | Raise e => Raise e end
  | VFloat f => Ok (Some f)
  | _ => Ok None
  end.

Definition USERNAME_CLAIM_KEYS : list string :=
  ["preferred_username"; "username"; "cognito:username"; "login"].

Definition nonempty_text (v : pyval) : option string :=
  match v with VStr s => if str_truthy s then Some s else None | _ => None end.

Definition jwt_username (claims : dict pyval) : option string :=
  head (omap (λ k, nonempty_text (get_or_none claims k)) USERNAME_CLAIM_KEYS).

Definition audience_matches (value : pyval) (expected : string) : bool :=
  match value with
  | VStr s => str_eqb s expected
  | VList l => existsb (λ v, py_eq v (VStr expected)) l
  | _ => false
  end.

Section jwt.
(** [hmac.new(secret, input, sha256).digest()] *)
Context (hmac_sha256 : string → string → string).
(** [urlsafe_b64decode] of a segment, [None] where it raises *)
Context (b64decode_bytes : string → option string).
(** [json.loads] of a decoded segment, [None] where decoding or parsing raises *)
Context (decode_json : string → option pyval).
(** [_b64encode_json] and [urlsafe_b64encode(..).rstrip("=")] *)
Context (b64encode_json : dict pyval → string) (b64encode_bytes : string → string).

Definition fail {A} (m : string) : outcome exn A := Raise (authentication_error m).

(** The checks on the claims, at time [now_ts]. *)
Definition check_claims (settings : JWTSettings) (now_ts : float) (claims : dict pyval)
    : outcome exn TokenPrincipalResponse :=
  match numeric_date (get_or_none claims "exp") with
  | Raise e => Raise e
  | Ok exp =>
      let expired := match exp with None => true | Some t => PrimFloat.leb t now_ts end in
      if expired then fail "JWT is expired."
      else match numeric_date (get_or_none claims "nbf") with
      | Raise e => Raise e
      | Ok nbf =>
          let early := match nbf with None => false | Some t => PrimFloat.ltb now_ts t end in
          if early then fail "JWT is not active yet."
          else if opt_truthy (js_issuer settings)
                  && negb (py_eq (get_or_none claims "iss") (opt_str (js_issuer settings)))
          then fail "JWT issuer is invalid."
          else if opt_truthy (js_audience settings)
                  && negb (audience_matches (get_or_none claims "aud") (default "" (js_audience settings)))
          then fail "JWT audience is invalid."
          else match nonempty_text (get_or_none claims "sub") with
               | None => fail "JWT subject is missing."
               | Some subject => Ok (mk_principal subject (jwt_username claims) "jwt" claims)
               end
      end
  end.

Definition validate_jwt (settings : JWTSettings) (now_ts : float) (token : string)
    : outcome exn TokenPrincipalResponse :=
  match split_on "."%char token with
  | [header_segment; payload_segment; signature_segment] =>
      match decode_json header_segment with
      | Some (VDict header) =>
          if negb (py_eq (get_or_none header "alg") (VStr "HS256")) then fail "Unsupported JWT algorithm."
          else
            let expected := hmac_sha256 (js_secret settings) (header_segment +:+ "." +:+ payload_segment) in
            match b64decode_bytes signature_segment with
            | None => fail "Malformed JWT signature encoding."
            | Some provided =>
                if negb (str_eqb expected provided) then fail "JWT signature is invalid."
                else match decode_json payload_segment with
                     | Some (VDict claims) => check_claims settings now_ts claims
                     | _ => fail "Malformed JWT payload."
                     end
            end
      | _ => fail "Malformed JWT header."
      end
  | _ => fail "JWT must contain three segments."
  end.

Definition set_claim (k : string) (o : option string) (d : dict pyval) : dict pyval :=
  match o with None => d | Some v => dict_set d k (VStr v) end.

(** [build_service_jwt]; [now_s] is [int(now.timestamp())] *)
Definition service_claims (subject : string) (roles : list string) (settings : JWTSettings)
    (now_s lifetime_seconds : Z) : dict pyval :=
  set_claim "aud" (js_audience settings) (set_claim "iss" (js_issuer settings)
    [("sub", VStr subject); ("iat", VInt now_s); ("exp", VInt (now_s + lifetime_seconds));
     ("roles", VList (VStr <$> match roles with [] => ["admin"] | _ => roles end))]).

Definition build_service_jwt (subject : string) (roles : list string) (settings : JWTSettings)
    (now_s lifetime_seconds : Z) : string :=
  let header_segment := b64encode_json [("alg", VStr "HS256"); ("typ", VStr "JWT")] in
  let payload_segment := b64encode_json (service_claims subject roles settings now_s lifetime_seconds) in
  let signature := hmac_sha256 (js_secret settings) (header_segment +:+ "." +:+ payload_segment) in
  header_segment +:+ "." +:+ payload_segment +:+ "." +:+ b64encode_bytes signature.
End jwt.

(** ** Personal access tokens *)

Record User := mk_user {
  u_id : uuid;
  u_username : string;
  u_roles : pyval;
  u_is_active : bool;
}.

Record PersonalAccessToken := mk_pat {
  pat_id : uuid;
  pat_user_id : uuid;
  pat_token_hash : string;
  pat_name : string;
  pat_created_at : Z;
  pat_revoked_at : option Z;
}.

Record auth_tables := mk_auth_tables {
  users : list User;
  pats : list PersonalAccessToken;
}.

(** Working and committed tables, the clock, and the random values still to be
    drawn: primary keys and [secrets.token_urlsafe(32)]. *)
Record auth_store := mk_auth_store {
  working : auth_tables;
  committed : auth_tables;
  clock : Z;
  uuid4s : list uuid;
  token_urlsafes : list string;
}.

Definition on_users (f : list User → list User) (s : auth_store) : auth_store :=
  mk_auth_store (mk_auth_tables (f (users (working s))) (pats (working s))) (committed s)
    (clock s) (uuid4s s) (token_urlsafes s).
Definition on_pats (f : list PersonalAccessToken → list PersonalAccessToken) (s : auth_store) : auth_store :=
  mk_auth_store (mk_auth_tables (users (working s)) (f (pats (working s)))) (committed s)
    (clock s) (uuid4s s) (token_urlsafes s).
Definition commit_session : comp auth_store exn unit :=
  modify (λ s, mk_auth_store (working s) (working s) (clock s) (uuid4s s) (token_urlsafes s)).

(** The draws of one insertion: identifier, token and time. *)
Definition draw : comp auth_store exn (uuid * string * Z) := λ s,
  (Ok (default 0%N (head (uuid4s s)), default "" (head (token_urlsafes s)), clock s),
   mk_auth_store (working s) (committed s) (clock s + 1) (tail (uuid4s s)) (tail (token_urlsafes s))).

Definition PAT_PREFIX : string := "pat_".

Record PATResponse := mk_pat_response {
  pr_id : uuid;
  pr_username : string;
  pr_name : string;
  pr_created_at : Z;
  pr_revoked_at : option Z;
}.

Definition pat_response (pat : PersonalAccessToken) (user : User) : PATResponse :=
  mk_pat_response (pat_id pat) (u_username user) (pat_name pat) (pat_created_at pat) (pat_revoked_at pat).

(** [select(PAT, User).join(User, ...)]: the rows satisfying [q]. *)
Definition join_rows (q : PersonalAccessToken → User → bool) (t : auth_tables)
    : list (PersonalAccessToken * User) :=
  pats t ≫= λ p, omap (λ u, if bool_decide (pat_user_id p = u_id u) && q p u then Some (p, u) else None) (users t).

Section pat.
(** [_hash_token]: the SHA-256 of the token, in hexadecimal *)
Context (hash_token : string → string).

Definition get_existing_user (username : string) : comp auth_store exn User :=
  user <- gets (λ s, List.find (λ u, str_eqb (u_username u) username) (users (working s))) ;;
  from_option_or (mk_exn "UserNotFoundError" ("User '" +:+ username +:+ "' not found.") []) user.

(** The unique index on [token_hash], at the flush. *)
Definition insert_pat (pat : PersonalAccessToken) : comp auth_store exn unit :=
  taken <- gets (λ s, existsb (λ p, str_eqb (pat_token_hash p) (pat_token_hash pat)) (pats (working s))) ;;
  if (taken : bool)
  then modify (λ s, mk_auth_store (committed s) (committed s) (clock s) (uuid4s s) (token_urlsafes s)) ;;;
       raise (integrity_error "duplicate key value violates ix_pats_token_hash")
  else modify (on_pats (λ l, l ++ [pat])).

Definition create_pat (username name : string) (commit : bool) : comp auth_store exn (PATResponse * string) :=
  user <- get_existing_user username ;;
  d <- draw ;;
  let '(id, random, now) := d in
  let plaintext_token := PAT_PREFIX +:+ random in
  let record := mk_pat id (u_id user) (hash_token plaintext_token) name now None in
  insert_pat record ;;;
  when commit commit_session ;;;
  ret (pat_response record user, plaintext_token).

Definition get_pat (id : uuid) : comp auth_store exn (option PATResponse) :=
  row <- gets (λ s, head (join_rows (λ p _, bool_decide (pat_id p = id)) (working s))) ;;
  ret ((λ r, pat_response r.1 r.2) <$> row).

Definition revoked_at (now : Z) (p : PersonalAccessToken) : PersonalAccessToken :=
  mk_pat (pat_id p) (pat_user_id p) (pat_token_hash p) (pat_name p) (pat_created_at p) (Some now).

Definition revoke_pat (id : uuid) (commit : bool) : comp auth_store exn (option PATResponse) :=
  row <- gets (λ s, head (join_rows (λ p _, bool_decide (pat_id p = id)) (working s))) ;;
  match row with
  | None => ret None
  | Some (pat, user) =>
      match pat_revoked_at pat with
      | Some _ => ret (Some (pat_response pat user))
      | None =>
          now <- gets clock ;;
          modify (on_pats (λ l, (λ p, if bool_decide (pat_id p = id) then revoked_at now p else p) <$> l)) ;;;
          when commit commit_session ;;;
          ret (Some (pat_response (revoked_at now pat) user))
      end
  end.

(** [_validate_pat] *)
Definition validate_pat (token : string) : comp auth_store exn TokenPrincipalResponse :=
  row <- gets (λ s, head (join_rows (λ p _, str_eqb (pat_token_hash p) (hash_token token)) (working s))) ;;
  match row with
  | None => raise (authentication_error "PAT is invalid.")
  | Some (pat, user) =>
      if bool_decide (is_Some (pat_revoked_at pat)) then raise (authentication_error "PAT has been revoked.")
      else if negb (u_is_active user) then raise (authentication_error "PAT owner is inactive.")
      else ret (mk_principal (u_username user) (Some (u_username user)) "pat"
             [("sub", VStr (u_username user)); ("pat_id", VStr (uuid_str (pat_id pat)));
              ("name", VStr (pat_name pat));
              ("roles", VList (VStr <$> normalized_roles (u_roles user)))])
  end.

(** [validate_token]: the prefix decides which kind of token it is. *)
Definition validate_token (jwt : string → outcome exn TokenPrincipalResponse) (token : string)
    : comp auth_store exn TokenPrincipalResponse :=
  if startswith PAT_PREFIX token then validate_pat token
  else match jwt token with Ok p => ret p | Raise e => raise e end.

Definition sync_jwt_user_roles (principal : TokenPrincipalResponse) (commit : bool) : comp auth_store exn unit :=
  if negb (str_eqb (tp_token_type principal) "jwt") then ret tt
  else
    let username := actor principal in
    user <- gets (λ s, List.find (λ u, str_eqb (u_username u) username) (users (working s))) ;;
    match user with
    | None => ret tt
    | Some u =>
        let roles := normalized_roles (get_or_none (tp_claims principal) "roles") in
        if bool_decide (normalized_roles (u_roles u) = roles) then ret tt
        else
          modify (on_users (λ l, (λ v, if str_eqb (u_username v) username
             then mk_user (u_id v) (u_username v) (VList (VStr <$> roles)) (u_is_active v) else v) <$> l)) ;;;
          when commit commit_session
    end.
End pat.

(** ** Listing *)

(** [order_by(created_at.desc(), id.desc())] *)
Definition pat_before (a b : PersonalAccessToken * User) : bool :=
  (pat_created_at b.1 <? pat_created_at a.1)
  || ((pat_created_at a.1 =? pat_created_at b.1) && (pat_id b.1 <? pat_id a.1)%N).
Fixpoint insert_pat_row (r : PersonalAccessToken * User) (l : list (PersonalAccessToken * User))
    : list (PersonalAccessToken * User) :=
  match l with
  | [] => [r]
  | r' :: l' => if pat_before r r' then r :: l else r' :: insert_pat_row r l'
  end.

Definition user_pats (username : string) (t : auth_tables) : list PATResponse :=
  (λ r, pat_response r.1 r.2) <$>
    foldl (λ acc r, insert_pat_row r acc) [] (join_rows (λ _ u, str_eqb (u_username u) username) t).

Record PATListResponse := mk_pat_list {
  pl_items : list PATResponse;
  pl_total : Z;
  pl_page : Z;
  pl_page_size : Z;
}.

Definition total_pages (total page_size : Z) : Z := Z.max 1 ((total + page_size - 1) / page_size).

(** [rows.limit(limit).offset(offset)] *)
Definition limit_offset {A} (limit offset : Z) (l : list A) : list A :=
  take (Z.to_nat limit) (drop (Z.to_nat offset) l).

Definition list_pats (username : string) (page page_size : Z) : comp auth_store exn PATListResponse :=
  let page := Z.max page 1 in
  let page_size := Z.max page_size 1 in
  rows <- gets (λ s, user_pats username (working s)) ;;
  let total := Z.of_nat (length rows) in
  let effective_page := Z.min page (total_pages total page_size) in
  let offset := (effective_page - 1) * page_size in
  ret (mk_pat_list (limit_offset page_size offset rows) total effective_page page_size).

(** ** Roles *)

Lemma roles_from_elem seen values role :
  role ∈ roles_from seen values ↔ role ∈ omap role_text values ∧ role ∉ seen.
Proof.
  revert seen. induction values as [|v values IH]; intros seen; simpl; [set_solver|].
  destruct (role_text v) as [r|]; [|apply IH].
  case_bool_decide as Hr; rewrite ?elem_of_cons, IH, ?elem_of_cons, ?not_elem_of_cons.
  - split; [naive_solver|]. intros [[->|?] ?]; done.
  - destruct (decide (role = r)) as [->|]; naive_solver.
Qed.

Lemma roles_from_NoDup seen values : NoDup (roles_from seen values).
Proof.
  revert seen. induction values as [|v values IH]; intros seen; simpl; [constructor|].
  destruct (role_text v) as [r|]; [|apply IH]. case_bool_decide; [apply IH|].
  constructor; [|apply IH]. rewrite roles_from_elem, not_elem_of_cons. naive_solver.
Qed.

Definition role_normal (r : string) : Prop := str_truthy r = true ∧ lower (strip r) = r.

Lemma role_text_normal v r : role_text v = Some r → role_normal r.
Proof.
  destruct v; simpl; try done. destruct (str_truthy _) eqn:E; [|done]. intros [= <-].
  split; [done|]. rewrite strip_lower. by autorewrite with py.
Qed.

Lemma role_text_str r : role_normal r → role_text (VStr r) = Some r.
Proof. intros [Ht Hr]. simpl. by rewrite Hr, Ht. Qed.

Lemma roles_from_fix seen l :
  NoDup l → Forall role_normal l → (∀ r, r ∈ l → r ∉ seen) → roles_from seen (VStr <$> l) = l.
Proof.
  intros Hl Hn. revert seen. induction Hl as [|r l Hr Hl IH]; intros seen Hseen; [done|].
  inv Hn. rewrite fmap_cons. cbn [roles_from]. rewrite role_text_str by done.
  rewrite bool_decide_eq_false_2 by (apply Hseen; left). f_equal. apply IH; [done|].
  intros x Hx. rewrite not_elem_of_cons. split; [by intros ->|]. apply Hseen. by right.
Qed.

Lemma normalized_roles_normal raw : Forall role_normal (normalized_roles raw).
Proof.
  apply Forall_forall. intros r [Hr _]%roles_from_elem.
  apply list_elem_of_omap in Hr as (v & _ & Hv). by eapply role_text_normal.
Qed.

(** Stored roles are the caller's roles: no repetition, every one trimmed,
    lowercased and not blank, exactly the roles the scope checks read from the
    same claim, and normalising again changes nothing. *)
Theorem normalized_roles_spec raw :
  let roles := normalized_roles raw in
  NoDup roles ∧ Forall role_normal roles
  ∧ (∀ p r, get_or_none (tp_claims p) "roles" = raw → r ∈ roles ↔ r ∈ caller_roles p)
  ∧ normalized_roles (VList (VStr <$> roles)) = roles.
Proof.
  intros roles. pose proof (normalized_roles_normal raw) as Hn.
  pose proof (roles_from_NoDup [] (role_values raw)) as Hnd. split_and!; [done|done| |].
  - intros p r <-. unfold roles, normalized_roles, caller_roles. rewrite roles_from_elem. set_solver.
  - unfold normalized_roles at 1. simpl. apply roles_from_fix; [done|done|set_solver].
Qed.

(** ** Scope checks *)

(** What [check_scope] grants. *)
Definition scope_granted (claim claims : pyval) (w : string) : Prop :=
  (truthy claim = true → py_eq claim (VStr w) = true)
  ∧ (claims = VNone ∨ py_contains claims w = Ok true).

Lemma check_scope_ok what claim claims wanted :
  check_scope what claim claims wanted = Ok tt ↔ ∀ w, wanted = Some w → scope_granted claim claims w.
Proof.
  destruct wanted as [w|]; simpl; [|split; [done|]; intros _; done]. split.
  - intros Hok w' [= <-]. unfold scope_granted.
    destruct (truthy claim), (py_eq claim (VStr w)); simpl in *; try done;
      destruct claims; try (by auto); split; try done; right;
      destruct (py_contains _ w) as [[]|]; done.
  - intros H. destruct (H w eq_refl) as [H1 H2].
    destruct (truthy claim); simpl; [rewrite H1 by done|]; simpl;
      (destruct H2 as [->|H2]; [done|]); destruct claims; try done; by rewrite H2.
Qed.

(** A non-admin caller passes the scope check exactly when every requested
    dimension is granted by its claims; an admin always passes, and a request that
    names no scope is never refused. *)
Theorem require_scope_access_spec caller tenant environment :
  require_scope_access caller tenant environment = Ok tt ↔
    caller_is_admin caller = true
    ∨ (∀ t, tenant = Some t →
         scope_granted (get_or_none (tp_claims caller) "tenant") (get_or_none (tp_claims caller) "tenants") t)
      ∧ (∀ e, environment = Some e →
         scope_granted (get_or_none (tp_claims caller) "environment")
           (get_or_none (tp_claims caller) "environments") e).
Proof.
  unfold require_scope_access. destruct (caller_is_admin caller); [by split; auto|].
  rewrite <-(check_scope_ok "tenant"), <-(check_scope_ok "environment").
  destruct (check_scope "tenant" _ _ _) as [[]|e]; split; naive_solver.
Qed.

(** A caller whose token claims no scope at all reaches every scope. *)
Example unclaimed_caller_reaches_every_scope tenant environment :
  require_scope_access (mk_principal "mallory" None "pat" [("sub", VStr "mallory")]) tenant environment = Ok tt.
Proof. by destruct tenant, environment. Qed.

(** A string where the list of tenants is expected is searched for substrings. *)
Example tenants_claim_substring :
  require_scope_access (mk_principal "bob" None "jwt" [("tenants", VStr "acme-prod")]) (Some "acme") None = Ok tt.
Proof. vm_compute. reflexivity. Qed.

(** ** Paging *)

Lemma limit_offset_pages {A} (l : list A) (ps : Z) (n : nat) :
  1 ≤ ps →
  (seqZ 1 (Z.of_nat n) ≫= λ p, limit_offset ps ((p - 1) * ps) l) = take (n * Z.to_nat ps) l.
Proof.
  intros Hps. induction n as [|n IH]; [done|].
  rewrite seqZ_S, bind_app, IH. simpl. rewrite app_nil_r.
  unfold limit_offset. replace (Z.to_nat ((1 + Z.of_nat n - 1) * ps)) with (n * Z.to_nat ps)%nat by lia.
  replace (Z.to_nat ps + n * Z.to_nat ps)%nat with (n * Z.to_nat ps + Z.to_nat ps)%nat by lia.
  by rewrite take_take_drop.
Qed.

Lemma bind_ext_in {A B} (f g : A → list B) l : (∀ x, x ∈ l → f x = g x) → l ≫= f = l ≫= g.
Proof.
  intros Hfg. induction l as [|x l IH]; [done|]. rewrite !bind_cons, Hfg by left. f_equal.
  apply IH. intros. apply Hfg. by right.
Qed.

(** The pages [1 .. total_pages] of a listing, one after the other, are the
    user's tokens, newest first, each exactly once; every other page number is
    answered with the first or the last page, and no page exceeds its size. *)
Theorem list_pats_pages username page_size s :
  1 ≤ page_size →
  let rows := user_pats username (working s) in
  let pages := total_pages (Z.of_nat (length rows)) page_size in
  let items page := match list_pats username page page_size s with
                    | (Ok r, _) => pl_items r
                    | _ => []
                    end in
  (seqZ 1 pages ≫= items) = rows
  ∧ (∀ page, (length (items page) ≤ Z.to_nat page_size)%nat)
  ∧ (∀ page, page ≤ 1 → items page = items 1)
  ∧ (∀ page, pages ≤ page → items page = items pages).
Proof.
  intros Hps rows pages items.
  assert (1 ≤ pages) as Hpages by (unfold pages, total_pages; lia).
  assert (∀ page, items page = limit_offset page_size ((Z.min (Z.max page 1) pages - 1) * page_size) rows) as Hitems.
  { intros page. unfold items, list_pats, bind, gets, ret. simpl. by rewrite !(Z.max_l page_size 1) by lia. }
  split_and!.
  - transitivity (seqZ 1 pages ≫= λ p, limit_offset page_size ((p - 1) * page_size) rows).
    + apply bind_ext_in. intros p Hp%elem_of_seqZ. rewrite Hitems.
      do 3 f_equal. lia.
    + replace pages with (Z.of_nat (Z.to_nat pages)) by lia. rewrite limit_offset_pages by done.
      apply take_ge. unfold pages, total_pages.
      set (n := Z.of_nat (length rows)).
      assert (n ≤ (n + page_size - 1) / page_size * page_size) as Hdiv.
      { pose proof (Z.div_mod (n + page_size - 1) page_size ltac:(lia)).
        pose proof (Z.mod_pos_bound (n + page_size - 1) page_size ltac:(lia)). nia. }
      assert (length rows = Z.to_nat n) as -> by lia.
      rewrite <-Z2Nat.inj_mul by lia. apply Z2Nat.inj_le; nia.
  - intros page. rewrite Hitems. unfold limit_offset. rewrite length_take. lia.
  - intros page Hp. rewrite !Hitems. do 3 f_equal. lia.
  - intros page Hp. rewrite !Hitems. do 3 f_equal. lia.
Qed.

(** ** JSON web tokens *)

Lemma split_on_dot a b : "."%char ∉ chars a → split_on "."%char (a +:+ "." +:+ b) = a :: split_on "."%char b.
Proof. apply split_on_app. Qed.

(** A token the validator accepts, taken apart. *)
Definition jwt_segments (token header payload signature : string) : Prop :=
  token = header +:+ "." +:+ payload +:+ "." +:+ signature.

(** Every JWT the validator accepts consists of three segments whose header
    names HS256, whose signature is the HMAC of header and payload under the
    configured secret, and whose claims carry a numeric expiry still ahead, no
    start time ahead, the configured issuer and audience, and a subject; the
    principal is that subject with exactly these claims. *)
Theorem validate_jwt_sound hmac_sha256 b64decode_bytes decode_json settings now_ts token p :
  validate_jwt hmac_sha256 b64decode_bytes decode_json settings now_ts token = Ok p →
  ∃ h c sg header signature,
    jwt_segments token h c sg
    ∧ decode_json h = Some (VDict header) ∧ py_eq (get_or_none header "alg") (VStr "HS256") = true
    ∧ b64decode_bytes sg = Some signature
    ∧ signature = hmac_sha256 (js_secret settings) (h +:+ "." +:+ c)
    ∧ decode_json c = Some (VDict (tp_claims p))
    ∧ (∃ exp, numeric_date (get_or_none (tp_claims p) "exp") = Ok (Some exp) ∧ PrimFloat.leb exp now_ts = false)
    ∧ (∀ nbf, numeric_date (get_or_none (tp_claims p) "nbf") = Ok (Some nbf) → PrimFloat.ltb now_ts nbf = false)
    ∧ (∀ i, js_issuer settings = Some i → str_truthy i = true →
         py_eq (get_or_none (tp_claims p) "iss") (VStr i) = true)
    ∧ (∀ a, js_audience settings = Some a → str_truthy a = true →
         audience_matches (get_or_none (tp_claims p) "aud") a = true)
    ∧ get_or_none (tp_claims p) "sub" = VStr (tp_subject p) ∧ str_truthy (tp_subject p) = true
    ∧ tp_token_type p = "jwt".
Proof.
  unfold validate_jwt. pose proof (split_on_join "."%char token) as Hjoin.
  destruct (split_on "."%char token) as [|h [|c [|sg [|]]]] eqn:Es; try done. simpl in Hjoin.
  destruct (decode_json h) as [[| | | | | |header]|] eqn:Eh; try done.
  destruct (py_eq _ _) eqn:Ealg; [|done]. cbn [negb].
  destruct (b64decode_bytes sg) as [signature|] eqn:Esg; [|done].
  destruct (str_eqbP (hmac_sha256 (js_secret settings) (h +:+ "." +:+ c)) signature) as [Hsig|]; [|done].
  cbn [negb]. destruct (decode_json c) as [[| | | | | |claims]|] eqn:Ec; try done.
  unfold check_claims. destruct (numeric_date (get_or_none claims "exp")) as [[exp|]|] eqn:Eexp; try done.
  destruct (PrimFloat.leb exp now_ts) eqn:Elive; [done|].
  destruct (numeric_date (get_or_none claims "nbf")) as [nbf|] eqn:Enbf; [|done].
  destruct (match nbf with None => false | Some t => PrimFloat.ltb now_ts t end) eqn:Eearly; [done|].
  destruct (opt_truthy (js_issuer settings) && _) eqn:Eiss; [done|].
  destruct (opt_truthy (js_audience settings) && _) eqn:Eaud; [done|].
  destruct (nonempty_text (get_or_none claims "sub")) as [subject|] eqn:Esub; [|done].
  intros [= <-]. simpl. exists h, c, sg, header, signature. split_and!; try done.
  - by exists exp.
  - intros nbf' Hnbf. rewrite Enbf in Hnbf. by injection Hnbf as ->.
  - intros i Hi Ht. rewrite Hi in Eiss. simpl in Eiss. rewrite Ht in Eiss. by apply negb_false_iff in Eiss.
  - intros a Ha Ht. rewrite Ha in Eaud. simpl in Eaud. rewrite Ht in Eaud. by apply negb_false_iff in Eaud.
  - destruct (get_or_none claims "sub"); try done. simpl in Esub. destruct (str_truthy _) eqn:Et; [|done].
    by injection Esub as ->.
  - destruct (get_or_none claims "sub"); try done. simpl in Esub. destruct (str_truthy _) eqn:Et; [|done].
    by injection Esub as <-.
Qed.

Lemma set_claim_get k o d k' :
  dict_get (set_claim k o d) k' =
    match o with
    | Some v => if str_eqb k' k then Some (VStr v) else dict_get d k'
    | None => dict_get d k'
    end.
Proof. destruct o; simpl; [apply dict_get_set|done]. Qed.

Definition jwt_header : dict pyval := [("alg", VStr "HS256"); ("typ", VStr "JWT")].

(** A service token the control plane mints is accepted, with its subject
    and claims, by a validator with the same settings until it expires; minted
    without roles it is an admin's. *)
Theorem service_jwt_roundtrip hmac_sha256 b64decode_bytes decode_json b64encode_json b64encode_bytes
    subject roles settings now_s lifetime now_ts exp :
  let claims := service_claims subject roles settings now_s lifetime in
  (∀ d, d ∈ [jwt_header; claims] →
     decode_json (b64encode_json d) = Some (VDict d) ∧ "."%char ∉ chars (b64encode_json d)) →
  (∀ m, b64decode_bytes (b64encode_bytes m) = Some m ∧ "."%char ∉ chars (b64encode_bytes m)) →
  str_truthy subject = true →
  float_of_Z (now_s + lifetime) = Ok exp → PrimFloat.leb exp now_ts = false →
  let p := mk_principal subject None "jwt" claims in
  validate_jwt hmac_sha256 b64decode_bytes decode_json settings now_ts
    (build_service_jwt hmac_sha256 b64encode_json b64encode_bytes subject roles settings now_s lifetime) = Ok p
  ∧ (roles = [] → caller_is_admin p = true).
Proof.
  intros claims Hjson Hbytes Hsub Hexp Hlive p.
  destruct (Hjson jwt_header) as [Hh Hhd]; [left|]. destruct (Hjson claims) as [Hc Hcd]; [right; left|].
  assert (∀ k, dict_get claims k =
    if str_eqb k "aud" then match js_audience settings with Some a => Some (VStr a) | None => None end
    else if str_eqb k "iss" then match js_issuer settings with Some i => Some (VStr i) | None => None end
    else dict_get [("sub", VStr subject); ("iat", VInt now_s); ("exp", VInt (now_s + lifetime));
                   ("roles", VList (VStr <$> match roles with [] => ["admin"] | _ => roles end))] k) as Hget.
  { intros k. unfold claims, service_claims. rewrite !set_claim_get.
    destruct (str_eqbP k "aud") as [->|]; [by destruct (js_audience settings), (js_issuer settings)|].
    destruct (str_eqbP k "iss") as [->|]; by destruct (js_audience settings), (js_issuer settings). }
  split.
  - unfold validate_jwt, build_service_jwt. fold jwt_header. fold claims.
    rewrite !split_on_dot by done.
    rewrite split_on_none by apply Hbytes. rewrite Hh. simpl.
    rewrite (proj1 (Hbytes _)), str_eqb_refl. simpl. rewrite Hc.
    unfold check_claims, get_or_none. rewrite !Hget. simpl. rewrite Hexp, Hlive, Hsub.
    assert (opt_truthy (js_issuer settings) && negb (py_eq
      (default VNone match js_issuer settings with Some i => Some (VStr i) | None => None end)
      (opt_str (js_issuer settings))) = false) as ->.
    { destruct (js_issuer settings); simpl; [|done]. by rewrite str_eqb_refl, andb_false_r. }
    assert (opt_truthy (js_audience settings) && negb (audience_matches
      (default VNone match js_audience settings with Some i => Some (VStr i) | None => None end)
      (default "" (js_audience settings))) = false) as ->.
    { destruct (js_audience settings); simpl; [|done]. by rewrite str_eqb_refl, andb_false_r. }
    unfold p, jwt_username. do 2 f_equal. simpl. unfold get_or_none. by rewrite !Hget.
  - intros ->. unfold caller_is_admin, caller_roles, p. simpl. unfold get_or_none. by rewrite Hget.
Qed.

(** ** The life of a personal access token *)

(** The unique keys of [users] and [pats], and the foreign key between them. *)
Definition auth_ok (t : auth_tables) : Prop :=
  NoDup (u_id <$> users t) ∧ NoDup (pat_id <$> pats t) ∧ NoDup (pat_token_hash <$> pats t).

Lemma omap_none {A B} (f : A → option B) l : (∀ x, x ∈ l → f x = None) → omap f l = [].
Proof. induction l as [|x l IH]; intros H; simpl; [done|]. rewrite H by left. apply IH. intros. apply H. by right. Qed.

Lemma bind_none {A B} (f : A → list B) l : (∀ x, x ∈ l → f x = []) → l ≫= f = [].
Proof. induction l as [|x l IH]; intros H; simpl; [done|]. rewrite H by left. apply IH. intros. apply H. by right. Qed.

Lemma join_rows_one (q : PersonalAccessToken → bool) t p u :
  NoDup (u_id <$> users t) → u ∈ users t → pat_user_id p = u_id u →
  p ∈ pats t → NoDup (pats t) → (∀ p', p' ∈ pats t → q p' = true ↔ p' = p) →
  join_rows (λ p' _, q p') t = [(p, u)].
Proof.
  intros Hu Hin Hfk Hp Hnd Hq. unfold join_rows.
  apply list_elem_of_split in Hp as (l1 & l2 & Hl). rewrite Hl in *.
  apply NoDup_app in Hnd as (_ & Hd1 & [Hd2 _]%NoDup_cons).
  assert (∀ p', p' ∈ l1 ∨ p' ∈ l2 → q p' = false) as Hqf.
  { intros p' Hp'. apply not_true_iff_false. intros Hqp. apply Hq in Hqp as ->;
      [|rewrite elem_of_app, elem_of_cons; tauto].
    destruct Hp' as [Hp'|Hp']; [|done]. apply (Hd1 p Hp'). left. }
  assert (q p = true) as Hqp by (apply Hq; [apply elem_of_app; right; left|done]).
  rewrite bind_app, bind_cons. rewrite !(bind_none _ l1), !(bind_none _ l2).
  - rewrite app_nil_r. simpl. rewrite Hqp.
    apply list_elem_of_split in Hin as (k1 & k2 & Hk). rewrite Hk in *.
    rewrite fmap_app in Hu. apply NoDup_app in Hu as (_ & Hu1 & Hu2). rewrite fmap_cons in Hu2.
    apply NoDup_cons in Hu2 as [Hu2 _].
    rewrite omap_app. simpl. rewrite bool_decide_eq_true_2 by done. simpl.
    rewrite !omap_none; [done| |].
    + intros x Hx. rewrite bool_decide_eq_false_2; [done|]. rewrite Hfk. intros Heq. apply Hu2.
      rewrite Heq. by apply list_elem_of_fmap_2.
    + intros x Hx. rewrite bool_decide_eq_false_2; [done|]. rewrite Hfk. intros Heq.
      apply (Hu1 (u_id x)); [by apply list_elem_of_fmap_2|]. rewrite <-Heq. left.
  - intros x Hx. apply omap_none. intros v _. by rewrite (Hqf x) by auto; rewrite andb_false_r.
  - intros x Hx. apply omap_none. intros v _. by rewrite (Hqf x) by auto; rewrite andb_false_r.
Qed.

Section lifecycle.
Context (hash_token : string → string).

Definition pat_principal (user : User) (p : PersonalAccessToken) : TokenPrincipalResponse :=
  mk_principal (u_username user) (Some (u_username user)) "pat"
    [("sub", VStr (u_username user)); ("pat_id", VStr (uuid_str (pat_id p)));
     ("name", VStr (pat_name p)); ("roles", VList (VStr <$> normalized_roles (u_roles user)))].

Lemma validate_pat_eq token t s u p :
  working s = t → auth_ok t → u ∈ users t → p ∈ pats t →
  pat_user_id p = u_id u → pat_token_hash p = hash_token token →
  validate_pat hash_token token s =
    (match pat_revoked_at p with
     | Some _ => Raise (authentication_error "PAT has been revoked.")
     | None => if u_is_active u then Ok (pat_principal u p)
               else Raise (authentication_error "PAT owner is inactive.")
     end, s).
Proof.
  intros Hw (Hu & _ & Hhash) Hin Hp Hfk Hh. unfold validate_pat, bind, gets. rewrite Hw.
  rewrite (join_rows_one (λ p', str_eqb (pat_token_hash p') (hash_token token)) t p u); try done.
  - simpl. destruct (pat_revoked_at p); simpl; [done|]. by destruct (u_is_active u).
  - by apply (NoDup_fmap_1 pat_token_hash).
  - intros p' Hp'. rewrite str_eqb_eq, <-Hh.
    rewrite NoDup_fmap_iff in Hhash by by apply (NoDup_fmap_1 pat_token_hash).
    split; [by apply Hhash|by intros ->].
Qed.

Lemma create_pat_inv username name commit s resp token s1 :
  create_pat hash_token username name commit s = (Ok (resp, token), s1) →
  ∃ u p, u ∈ users (working s) ∧ u_username u = username
    ∧ p = mk_pat (default 0%N (head (uuid4s s))) (u_id u) (hash_token token) name (clock s) None
    ∧ pr_id resp = pat_id p ∧ startswith PAT_PREFIX token = true
    ∧ (pat_token_hash p ∉ pat_token_hash <$> pats (working s))
    ∧ working s1 = mk_auth_tables (users (working s)) (pats (working s) ++ [p]).
Proof.
  unfold create_pat, get_existing_user, bind, gets, draw. simpl.
  destruct (List.find _ (users (working s))) as [u|] eqn:Ef; simpl; [|done].
  apply List.find_some in Ef as [Hin Hname].
  unfold insert_pat, bind, gets. simpl.
  destruct (existsb _ (pats (working s))) eqn:Et; simpl; [done|].
  intros Hrun. assert (working s1 = mk_auth_tables (users (working s)) (pats (working s) ++
        [mk_pat (default 0%N (head (uuid4s s))) (u_id u)
           (hash_token (PAT_PREFIX +:+ default "" (head (token_urlsafes s)))) name (clock s) None])
    ∧ token = PAT_PREFIX +:+ default "" (head (token_urlsafes s))
    ∧ pr_id resp = default 0%N (head (uuid4s s))) as (Hw & -> & Hid).
  { destruct commit; simpl in Hrun; by injection Hrun as <- <- <-. }
  exists u, (mk_pat (default 0%N (head (uuid4s s))) (u_id u)
    (hash_token (PAT_PREFIX +:+ default "" (head (token_urlsafes s)))) name (clock s) None).
  split_and!; [by apply list_elem_of_In|by apply str_eqb_eq|done|done|apply startswith_app| |done].
  simpl. intros (p & Hp & Hin')%list_elem_of_fmap. apply not_true_iff_false in Et. apply Et.
  apply existsb_exists. exists p. split; [by apply list_elem_of_In|]. apply str_eqb_eq. congruence.
Qed.

(** C18. A token just created authenticates its owner as long as the owner is
    active, and once revoked, and however often it is revoked again, it is refused as revoked. *)
Theorem pat_lifecycle username name commit s resp token s1 :
  auth_ok (working s) → default 0%N (head (uuid4s s)) ∉ pat_id <$> pats (working s) →
  create_pat hash_token username name commit s = (Ok (resp, token), s1) →
  startswith PAT_PREFIX token = true
  ∧ ∃ u p, u ∈ users (working s) ∧ u_username u = username ∧ pat_id p = pr_id resp
    ∧ validate_pat hash_token token s1 =
        (if u_is_active u then Ok (pat_principal u p)
         else Raise (authentication_error "PAT owner is inactive."), s1)
    ∧ ∀ commit', let s2 := state_of (revoke_pat (pr_id resp) commit') s1 in
        validate_pat hash_token token s2 = (Raise (authentication_error "PAT has been revoked."), s2)
        ∧ working (state_of (revoke_pat (pr_id resp) commit') s2) = working s2.
Proof.
  intros (Hu & Hids & Hhash) Hfresh Hrun.
  destruct (create_pat_inv username name commit s resp token s1 Hrun)
    as (u & p & Hin & Hname & Hp & Hid & Hpre & Hnew & Hw1). split; [done|]. exists u, p.
  assert (pat_id p ∉ pat_id <$> pats (working s)) as Hfresh' by by subst p.
  assert (auth_ok (working s1)) as Hok1.
  { rewrite Hw1. unfold auth_ok. simpl. rewrite !fmap_app. split_and!; [done| |];
      apply NoDup_app; (split; [done|split; [|apply NoDup_singleton]]).
    - by intros x Hx ->%list_elem_of_singleton.
    - by intros x Hx ->%list_elem_of_singleton. }
  assert (p ∈ pats (working s1)) as Hpin by (rewrite Hw1; apply elem_of_app; right; left).
  assert (u ∈ users (working s1)) as Huin by by rewrite Hw1.
  split_and!; [done..| |].
  { rewrite (validate_pat_eq token (working s1) s1 u p) by (try done; by subst p). by subst p. }
  assert (∀ s3 p', working s3 = mk_auth_tables (users (working s)) (pats (working s) ++ [p']) →
    pat_id p' = pat_id p → pat_token_hash p' = pat_token_hash p → auth_ok (working s3)
    ∧ p' ∈ pats (working s3)) as Hok3.
  { intros s3 p' Hw3 Hid' Hh'. rewrite Hw3. destruct Hok1 as (H1 & H2 & H3). rewrite Hw1 in *.
    unfold auth_ok in *. simpl in *. rewrite !fmap_app in *. simpl in *. rewrite Hid', Hh'.
    split; [done|]. apply elem_of_app. right. left. }
  assert (∀ s3 p', working s3 = mk_auth_tables (users (working s)) (pats (working s) ++ [p']) →
    pat_id p' = pat_id p → pat_token_hash p' = pat_token_hash p → pat_user_id p' = u_id u →
    head (join_rows (λ p0 _, bool_decide (pat_id p0 = pr_id resp)) (working s3)) = Some (p', u)) as Hfind.
  { intros s3 p' Hw3 Hid' Hh' Hfk. destruct (Hok3 s3 p' Hw3 Hid' Hh') as [(Ha & Hb & _) Hp'].
    rewrite (join_rows_one _ _ p' u); try done.
    - by rewrite Hw3.
    - by apply (NoDup_fmap_1 pat_id).
    - intros p0 Hp0. rewrite bool_decide_eq_true, Hid, <-Hid'.
      rewrite NoDup_fmap_iff in Hb by by apply (NoDup_fmap_1 pat_id). split; [by apply Hb|by intros ->]. }
  intros commit' s2.
  set (p2 := revoked_at (clock s1) p).
  assert (working s2 = mk_auth_tables (users (working s)) (pats (working s) ++ [p2])) as Hw2.
  { unfold s2, revoke_pat, state_of, bind, gets. rewrite (Hfind s1 p Hw1) by (by subst p).
    assert (pat_revoked_at p = None) as -> by by subst p. unfold modify.
    assert ((λ x, if bool_decide (pat_id x = pr_id resp) then revoked_at (clock s1) x else x)
      <$> (pats (working s1)) = pats (working s) ++ [p2]) as Hmap.
    { rewrite Hw1. simpl. rewrite fmap_app. simpl. rewrite bool_decide_eq_true_2 by done. f_equal.
      rewrite <-(list_fmap_id (pats (working s))) at 2. apply list_fmap_ext. intros i x Hx.
      rewrite bool_decide_eq_false_2; [done|]. rewrite Hid. intros Heq. apply Hfresh'. rewrite <-Heq.
      apply list_elem_of_fmap_2. by eapply list_elem_of_lookup_2. }
    destruct commit'; simpl; by rewrite Hmap, Hw1. }
  destruct (Hok3 s2 p2 Hw2) as [Hok2 Hp2]; [done..|]. split.
  - rewrite (validate_pat_eq token (working s2) s2 u p2); try done; [by rewrite Hw2|by subst p..].
  - unfold state_of at 1, revoke_pat, bind, gets. by rewrite (Hfind s2 p2 Hw2) by (by subst p).
Qed.
End lifecycle.

(** ** Concrete tokens *)

Definition demo_hash (token : string) : string := "sha256:" +:+ token.
Definition demo_user : User := mk_user 1%N "alice" (VList [VStr " Admin "; VStr "admin"; VStr "dev"]) true.
Definition demo_auth : auth_store :=
  let t := mk_auth_tables [demo_user]
    [mk_pat 10%N 1%N "h1" "ci" 5 None; mk_pat 11%N 1%N "h2" "old" 3 (Some 4); mk_pat 12%N 1%N "h3" "new" 9 None] in
  mk_auth_store t t 100 [7%N] ["r4nd0m"].

Lemma list_pats_pages_witness :
  1 ≤ 2 ∧
  (seqZ 1 2 ≫= λ page, match list_pats "alice" page 2 demo_auth with (Ok r, _) => pl_items r | _ => [] end)
    = user_pats "alice" (working demo_auth)
  ∧ pr_name <$> user_pats "alice" (working demo_auth) = ["new"; "ci"; "old"].
Proof.
  assert (1 ≤ 2) as H by lia. split; [exact H|]. split; [|vm_compute; reflexivity].
  exact (proj1 (list_pats_pages "alice" 2 demo_auth H)).
Defined.

(** A toy codec for the two documents of one token. *)
Definition demo_settings : JWTSettings := mk_jwt_settings "s3cret" (Some "cp") None.
Definition demo_claims : dict pyval := service_claims "control-plane" [] demo_settings 1000 300.
Definition demo_encode_json (d : dict pyval) : string :=
  match d with ("alg", _) :: _ => "HEAD" | _ => "BODY" end.
Definition demo_decode_json (s : string) : option pyval :=
  if str_eqb s "HEAD" then Some (VDict jwt_header)
  else if str_eqb s "BODY" then Some (VDict demo_claims) else None.
Definition demo_hmac (key message : string) : string := key.
(** Hexadecimal digits, two per byte. *)
Fixpoint hex_encode (s : string) : string :=
  match s with
  | EmptyString => ""
  | String c s' => String (hex_digit (ord c / 16)) (String (hex_digit (ord c mod 16)) (hex_encode s'))
  end.
Fixpoint hex_decode (s : string) : option string :=
  match s with
  | EmptyString => Some ""
  | String a (String b s') =>
      x ← hex_value a; y ← hex_value b; r ← hex_decode s'; Some (String (ascii_of_N (16 * x + y)) r)
  | _ => None
  end.

Lemma hex_roundtrip m : hex_decode (hex_encode m) = Some m ∧ "."%char ∉ chars (hex_encode m).
Proof.
  assert (∀ c : ascii, hex_value (hex_digit (ord c / 16)) = Some (ord c / 16)%N
    ∧ hex_value (hex_digit (ord c mod 16)) = Some (ord c mod 16)%N
    ∧ ascii_of_N (16 * (ord c / 16) + ord c mod 16) = c
    ∧ "."%char ≠ hex_digit (ord c / 16) ∧ "."%char ≠ hex_digit (ord c mod 16)) as Hc.
  { intros c. by destruct c as [[] [] [] [] [] [] [] []]. }
  induction m as [|c m [IH1 IH2]]; simpl; [split; [done|set_solver]|].
  destruct (Hc c) as (H1 & H2 & H3 & H4 & H5). rewrite H1, H2. simpl. rewrite IH1. simpl. rewrite H3.
  split; [done|]. rewrite !not_elem_of_cons. done.
Qed.

Definition demo_exp : float := match float_of_Z 1300 with Ok f => f | Raise _ => PrimFloat.zero end.
Definition demo_now : float := match float_of_Z 1299 with Ok f => f | Raise _ => PrimFloat.zero end.

Definition demo_token : string :=
  build_service_jwt demo_hmac demo_encode_json hex_encode "control-plane" [] demo_settings 1000 300.

Lemma service_jwt_roundtrip_witness :
  validate_jwt demo_hmac hex_decode demo_decode_json demo_settings demo_now demo_token
    = Ok (mk_principal "control-plane" None "jwt" demo_claims)
  ∧ (@nil string = [] → caller_is_admin (mk_principal "control-plane" None "jwt" demo_claims) = true).
Proof.
  apply (service_jwt_roundtrip demo_hmac hex_decode demo_decode_json demo_encode_json hex_encode
    "control-plane" [] demo_settings 1000 300 demo_now demo_exp).
  - intros d [->|[->|Hd]%elem_of_cons]%elem_of_cons; [split; [reflexivity|by_eval]..|inv Hd].
  - exact hex_roundtrip.
  - reflexivity.
  - vm_compute. reflexivity.
  - vm_compute. reflexivity.
Defined.

Lemma validate_jwt_sound_witness :
  let p := mk_principal "control-plane" None "jwt" demo_claims in
  validate_jwt demo_hmac hex_decode demo_decode_json demo_settings demo_now demo_token = Ok p
  ∧ ∃ h c sg, jwt_segments demo_token h c sg ∧ demo_decode_json c = Some (VDict (tp_claims p)).
Proof.
  intros p. assert (validate_jwt demo_hmac hex_decode demo_decode_json demo_settings demo_now demo_token = Ok p)
    as H by (vm_compute; reflexivity).
  split; [exact H|].
  destruct (validate_jwt_sound demo_hmac hex_decode demo_decode_json demo_settings demo_now demo_token p H)
    as (h & c & sg & header & signature & Hseg & _ & _ & _ & _ & Hc & _).
  exists h, c, sg. split; [exact Hseg|exact Hc].
Defined.

Lemma pat_lifecycle_witness :
  match create_pat demo_hash "alice" "laptop" true demo_auth with
  | (Ok (resp, token), s1) =>
      token = "pat_r4nd0m" ∧ pr_id resp = 7%N
      ∧ validate_pat demo_hash token (state_of (revoke_pat (pr_id resp) true) s1)
        = (Raise (authentication_error "PAT has been revoked."), state_of (revoke_pat (pr_id resp) true) s1)
  | _ => False
  end.
Proof.
  destruct (create_pat demo_hash "alice" "laptop" true demo_auth) as [[[resp token]|e] s1] eqn:Hrun;
    [|vm_compute in Hrun; discriminate].
  assert (auth_ok (working demo_auth)) as Hok by (split; [|split]; by_eval).
  assert (default 0%N (head (uuid4s demo_auth)) ∉ (pat_id <$> pats (working demo_auth))) as Hfresh by by_eval.
  destruct (pat_lifecycle demo_hash "alice" "laptop" true demo_auth resp token s1 Hok Hfresh Hrun)
    as (_ & u & p & _ & _ & _ & _ & Hrevoked).
  assert (token = "pat_r4nd0m" ∧ pr_id resp = 7%N) as [Ht Hid]
    by (vm_compute in Hrun; injection Hrun as <- <- _; split; reflexivity).
  split; [exact Ht|]. split; [exact Hid|]. exact (proj1 (Hrevoked true)).
Defined.
