(* ===== verification/ReviewWorkflow.v ===== *)
(** * Review of service versions ([apps/compiler_api/routes/workflows.py])

    The approval workflow of a stored version: its states and transitions, the
    roles some of them require, and the four request handlers over the table
    [review_workflows].  A request works in one database session: it commits, or it
    raises and what it did is discarded. *)

From S2P Require Export Security.
From S2P Require Registry.

(** ** States *)

Definition VALID_STATES : list string :=
  ["draft"; "submitted"; "in_review"; "approved"; "rejected"; "published"; "deployed"].

(** [VALID_TRANSITIONS.get(state, [])] *)
Definition valid_transitions (state : string) : list string :=
  default [] (dict_get [("draft", ["submitted"]); ("submitted", ["in_review"]);
    ("in_review", ["approved"; "rejected"]); ("approved", ["published"]);
    ("rejected", ["draft"]); ("published", ["deployed"]); ("deployed", [])] state).

(** [_TRANSITION_REQUIRED_ROLES.get((state, to))] *)
Definition required_roles (state to : string) : option (list string) :=
  if str_eqb state "in_review" && str_eqb to "approved" then Some ["reviewer"; "admin"]
  else if str_eqb state "approved" && str_eqb to "published" then Some ["publisher"; "admin"]
  else if str_eqb state "published" && str_eqb to "deployed" then Some ["deployer"; "admin"]
  else None.

(** ** Data *)

Record WorkflowHistoryEntry := mk_history_entry {
  he_from : string;
  he_to : string;
  he_actor : string;
  he_comment : option string;
  he_timestamp : string;
}.

(** The workflow a row belongs to: service, version, tenant and environment. *)
Record workflow_key := mk_workflow_key {
  wk_service_id : string;
  wk_version_number : Z;
  wk_tenant : option string;
  wk_environment : option string;
}.

#[global] Instance workflow_key_eq_dec : EqDecision workflow_key.
Proof. solve_decision. Defined.

Record ReviewWorkflow := mk_workflow {
  rw_id : uuid;
  rw_key : workflow_key;
  rw_state : string;
  rw_review_notes : option (dict pyval);
  rw_history : list WorkflowHistoryEntry;
}.

Record ReviewNotesUpdate := mk_notes {
  rn_notes : dict pyval;
  rn_overall_note : option string;
  rn_reviewed_operations : list string;
}.

Record session := mk_session {
  workflows : list ReviewWorkflow;
  committed : list ReviewWorkflow;
  versions : list Registry.ServiceVersion;
  uuid4s : list uuid;
  now : string;
}.

Definition on_workflows (f : list ReviewWorkflow → list ReviewWorkflow) (s : session) : session :=
  mk_session (f (workflows s)) (committed s) (versions s) (uuid4s s) (now s).

Definition commit_session : comp session exn unit :=
  modify (λ s, mk_session (workflows s) (workflows s) (versions s) (uuid4s s) (now s)).

Definition uuid4 : comp session exn uuid := λ s,
  (Ok (default 0%N (head (uuid4s s))),
   mk_session (workflows s) (committed s) (versions s) (tail (uuid4s s)) (now s)).

(** The session of a request closes: what was not committed is gone. *)
Definition in_request {A} (m : comp session exn A) : comp session exn A := λ s,
  let '(o, s') := m s in
  (o, mk_session (committed s') (committed s') (versions s') (uuid4s s') (now s')).

(** ** Helpers *)

Definition is_key (k : workflow_key) (r : ReviewWorkflow) : bool := bool_decide (rw_key r = k).

Definition get_or_create (k : workflow_key) : comp session exn ReviewWorkflow :=
  record <- gets (λ s, List.find (is_key k) (workflows s)) ;;
  match record with
  | Some r => ret r
  | None =>
      id <- uuid4 ;;
      let r := mk_workflow id k "draft" None [] in
      modify (on_workflows (λ l, l ++ [r])) ;;;
      ret r
  end.

Definition is_version_of (k : workflow_key) (v : Registry.ServiceVersion) : bool :=
  str_eqb (Registry.vr_service_id v) (wk_service_id k)
  && (Registry.vr_version_number v =? wk_version_number k)
  && bool_decide (Registry.vr_tenant v = wk_tenant k)
  && bool_decide (Registry.vr_environment v = wk_environment k).

(** The [repr] of the scope is left out of the message. *)
Definition require_existing_service_version (k : workflow_key) : comp session exn unit :=
  if wk_version_number k <? 1 then raise (http_error 422 "Version number must be greater than zero.")
  else
    found <- gets (λ s, existsb (is_version_of k) (versions s)) ;;
    if (found : bool) then ret tt
    else raise (http_error 404 ("Service version '" +:+ wk_service_id k +:+ "' v"
                  +:+ str_of_Z (wk_version_number k) +:+ " was not found.")).

(** Assignments to the row's ORM object, written by the commit. *)
Definition assign (id : uuid) (f : ReviewWorkflow → ReviewWorkflow) : comp session exn unit :=
  modify (on_workflows (λ l, (λ r, if bool_decide (rw_id r = id) then f r else r) <$> l)).

(** ** Handlers *)

Definition get_workflow (k : workflow_key) : comp session exn ReviewWorkflow :=
  in_request
    (require_existing_service_version k ;;;
     record <- get_or_create k ;;
     commit_session ;;;
     ret record).

Definition moved (to actor_name : string) (comment : option string) (timestamp : string)
    (r : ReviewWorkflow) : ReviewWorkflow :=
  mk_workflow (rw_id r) (rw_key r) to (rw_review_notes r)
    (mk_history_entry (rw_state r) to actor_name comment timestamp :: rw_history r).

Definition transition_workflow (k : workflow_key) (to : string) (comment : option string)
    (caller : TokenPrincipalResponse) : comp session exn ReviewWorkflow :=
  in_request
    (require_existing_service_version k ;;;
     record <- get_or_create k ;;
     if negb (bool_decide (to ∈ valid_transitions (rw_state record))) then
       raise (http_error 409 ("Transition from '" +:+ rw_state record +:+ "' to '" +:+ to
                              +:+ "' is not allowed."))
     else if match required_roles (rw_state record) to with
             | Some required => negb (has_role (caller_roles caller) required)
             | None => false
             end
     then raise (http_error 403 ("Transition from '" +:+ rw_state record +:+ "' to '" +:+ to
                                 +:+ "' requires a role."))
     else
       timestamp <- gets now ;;
       let f := moved to (actor caller) comment timestamp in
       assign (rw_id record) f ;;;
       commit_session ;;;
       ret (f record)).

Definition with_notes (payload : ReviewNotesUpdate) (r : ReviewWorkflow) : ReviewWorkflow :=
  mk_workflow (rw_id r) (rw_key r) (rw_state r)
    (Some [("operation_notes", VDict (rn_notes payload));
           ("overall_note", opt_str (rn_overall_note payload));
           ("reviewed_operations", VList (VStr <$> rn_reviewed_operations payload))])
    (rw_history r).

Definition save_review_notes (k : workflow_key) (payload : ReviewNotesUpdate)
    : comp session exn ReviewWorkflow :=
  in_request
    (require_existing_service_version k ;;;
     record <- get_or_create k ;;
     assign (rw_id record) (with_notes payload) ;;;
     commit_session ;;;
     ret (with_notes payload record)).

Definition get_workflow_history (k : workflow_key) : comp session exn (list WorkflowHistoryEntry) :=
  in_request
    (require_existing_service_version k ;;;
     record <- get_or_create k ;;
     commit_session ;;;
     ret (rw_history record)).

(** ** The audit trail *)

(** A history, newest first, that leads from "draft" to [state] by valid moves. *)
Fixpoint trail_to (state : string) (h : list WorkflowHistoryEntry) : Prop :=
  match h with
  | [] => state = "draft"
  | e :: h' => he_to e = state ∧ state ∈ valid_transitions (he_from e) ∧ trail_to (he_from e) h'
  end.

Definition workflow_ok (r : ReviewWorkflow) : Prop := trail_to (rw_state r) (rw_history r).

(** Rows have distinct ids and keys, and sound trails. *)
Definition workflows_ok (l : list ReviewWorkflow) : Prop :=
  NoDup (rw_id <$> l) ∧ NoDup (rw_key <$> l) ∧ Forall workflow_ok l.

(** Between requests nothing is pending, and the ids still to be drawn are fresh. *)
Definition session_ok (s : session) : Prop :=
  workflows s = committed s ∧ workflows_ok (workflows s)
  ∧ NoDup (uuid4s s) ∧ ∀ u, u ∈ uuid4s s → u ∉ (rw_id <$> workflows s).

(** The row of a workflow, or the draft a request would create. *)
Definition current (k : workflow_key) (s : session) : ReviewWorkflow :=
  default (mk_workflow (default 0%N (head (uuid4s s))) k "draft" None [])
    (List.find (is_key k) (workflows s)).

(** The rows once the workflow exists. *)
Definition with_current (k : workflow_key) (s : session) : list ReviewWorkflow :=
  match List.find (is_key k) (workflows s) with
  | Some _ => workflows s
  | None => workflows s ++ [current k s]
  end.

Lemma find_key_Some k l r : List.find (is_key k) l = Some r → r ∈ l ∧ rw_key r = k.
Proof.
  intros [Hin Hk]%List.find_some. split; [by apply list_elem_of_In|by apply bool_decide_eq_true in Hk].
Qed.

Lemma find_key_None k l : List.find (is_key k) l = None → k ∉ (rw_key <$> l).
Proof.
  intros Hf (r & -> & Hin)%list_elem_of_fmap.
  eapply List.find_none in Hf; [|by apply list_elem_of_In].
  unfold is_key in Hf. by rewrite bool_decide_eq_true_2 in Hf.
Qed.

Lemma find_key_unique l r : NoDup (rw_key <$> l) → r ∈ l → List.find (is_key (rw_key r)) l = Some r.
Proof.
  intros Hnd Hr. rewrite NoDup_fmap_iff in Hnd by by apply (NoDup_fmap_1 rw_key).
  destruct (List.find _ l) as [r'|] eqn:Ef.
  - apply find_key_Some in Ef as [Hr' Hk]. f_equal. by apply Hnd.
  - apply find_key_None in Ef. destruct Ef. by apply list_elem_of_fmap_2.
Qed.

Lemma current_key k s : rw_key (current k s) = k.
Proof.
  unfold current. destruct (List.find _ _) as [r|] eqn:E; simpl; [|done]. by apply find_key_Some in E as [_ ?].
Qed.

Lemma current_in k s : current k s ∈ with_current k s.
Proof.
  unfold with_current. destruct (List.find _ _) as [r|] eqn:E; [|apply elem_of_app; right; left].
  unfold current. rewrite E. simpl. by apply find_key_Some in E as [? _].
Qed.

Lemma with_current_ok k s : session_ok s → uuid4s s ≠ [] → workflows_ok (with_current k s).
Proof.
  intros (_ & (Hid & Hkey & Hok) & _ & Hfresh) Hne. unfold with_current.
  destruct (List.find _ _) as [r|] eqn:E; [by split|].
  assert (head (uuid4s s) ∈ Some <$> uuid4s s ∧ is_Some (head (uuid4s s))) as [Hhead [u Hu]]
    by (destruct (uuid4s s); simpl; [done|split; [left|by eauto]]).
  unfold current. rewrite E, Hu. simpl. unfold workflows_ok. rewrite !fmap_app. split_and!.
  - apply NoDup_app. split; [done|]. split; [|apply NoDup_singleton].
    intros x Hx ->%list_elem_of_singleton. apply (Hfresh u); [|done]. rewrite Hu in Hhead.
    by apply list_elem_of_fmap in Hhead as (? & [= <-] & ?).
  - apply NoDup_app. split; [done|]. split; [|apply NoDup_singleton].
    intros x Hx ->%list_elem_of_singleton. by apply find_key_None in E.
  - apply Forall_app. split; [done|]. apply Forall_singleton. done.
Qed.

(** The session after the row was found or created. *)
Definition created_session (k : workflow_key) (s : session) : session :=
  mk_session (with_current k s) (committed s) (versions s)
    (match List.find (is_key k) (workflows s) with Some _ => uuid4s s | None => tail (uuid4s s) end) (now s).

Lemma get_or_create_eq k s : get_or_create k s = (Ok (current k s), created_session k s).
Proof.
  unfold get_or_create, bind, gets, created_session, with_current, current.
  destruct (List.find _ _) as [r|] eqn:E; simpl; [by destruct s|done].
Qed.

(** The rows when the current row of [k] is replaced by its image. *)
Definition replaced (k : workflow_key) (f : ReviewWorkflow → ReviewWorkflow) (s : session)
    : list ReviewWorkflow :=
  (λ r, if bool_decide (rw_id r = rw_id (current k s)) then f r else r) <$> with_current k s.

(** Replacing touches the current row only. *)
Lemma replaced_elem k f s r :
  session_ok s → uuid4s s ≠ [] →
  r ∈ replaced k f s ↔ r = f (current k s) ∨ (r ∈ with_current k s ∧ r ≠ current k s).
Proof.
  intros Hs Hne. destruct (with_current_ok k s Hs Hne) as (Hid & _ & _).
  rewrite NoDup_fmap_iff in Hid by by apply (NoDup_fmap_1 rw_id).
  pose proof (current_in k s) as Hcur. unfold replaced. rewrite list_elem_of_fmap. split.
  - intros (r' & -> & Hr'). case_bool_decide as Heq.
    + left. f_equal. by apply Hid.
    + right. split; [done|]. by intros ->.
  - intros [->|[Hr Hnc]].
    + exists (current k s). by rewrite bool_decide_eq_true_2.
    + exists r. split; [|done]. rewrite bool_decide_eq_false_2; [done|]. intros Heq. apply Hnc. by apply Hid.
Qed.

Lemma replaced_ok k f s :
  session_ok s → uuid4s s ≠ [] →
  (∀ r, rw_id (f r) = rw_id r ∧ rw_key (f r) = rw_key r) →
  workflow_ok (f (current k s)) → workflows_ok (replaced k f s).
Proof.
  intros Hs Hne Hf Hcur. destruct (with_current_ok k s Hs Hne) as (Hid & Hkey & Hok). split_and!.
  - unfold replaced. rewrite <-list_fmap_compose.
    rewrite (list_fmap_ext _ rw_id (with_current k s)); [done|].
    intros _ r _. simpl. case_bool_decide; [apply Hf|done].
  - unfold replaced. rewrite <-list_fmap_compose.
    rewrite (list_fmap_ext _ rw_key (with_current k s)); [done|].
    intros _ r _. simpl. case_bool_decide; [apply Hf|done].
  - apply Forall_forall. intros r [->|[Hr _]]%replaced_elem; [done| |done|done].
    rewrite Forall_forall in Hok. by apply Hok.
Qed.

(** A committed change leaves a sound session. *)
Lemma session_ok_committed k s l :
  session_ok s → uuid4s s ≠ [] → workflows_ok l → rw_id <$> l = rw_id <$> with_current k s →
  session_ok (mk_session l l (versions s) (uuid4s (created_session k s)) (now s)).
Proof.
  intros (_ & _ & Hnd & Hfresh) Hne Hl Hids. split_and!; [done|done| |]; simpl.
  - destruct (List.find _ _); [done|]. by destruct (uuid4s s); [|inv Hnd].
  - rewrite Hids. unfold with_current, current. destruct (List.find _ _); [done|].
    destruct (uuid4s s) as [|u us]; [done|]. simpl. intros x Hx. rewrite fmap_app, not_elem_of_app.
    split; [apply Hfresh; by right|]. simpl. intros ->%list_elem_of_singleton. by inv Hnd.
Qed.

Lemma ids_replaced k f s :
  (∀ r, rw_id (f r) = rw_id r) → rw_id <$> replaced k f s = rw_id <$> with_current k s.
Proof.
  intros Hf. unfold replaced. rewrite <-list_fmap_compose. apply list_fmap_ext.
  intros _ r _. simpl. case_bool_decide; [apply Hf|done].
Qed.

(** The session after a request: [l] was committed, or nothing was. *)
Definition session_with (l : list ReviewWorkflow) (ids : list uuid) (s : session) : session :=
  mk_session l l (versions s) ids (now s).

Definition known_version (k : workflow_key) (s : session) : bool :=
  negb (wk_version_number k <? 1) && existsb (is_version_of k) (versions s).

Lemma require_version_eq k s :
  require_existing_service_version k s =
    (if known_version k s then Ok tt
     else if wk_version_number k <? 1 then Raise (http_error 422 "Version number must be greater than zero.")
     else Raise (http_error 404 ("Service version '" +:+ wk_service_id k +:+ "' v"
                   +:+ str_of_Z (wk_version_number k) +:+ " was not found.")), s).
Proof.
  unfold require_existing_service_version, known_version. destruct (_ <? 1); [done|].
  unfold bind, gets. simpl. by destruct (existsb _ _).
Qed.

(** A request on an unknown version changes nothing. *)
Lemma in_request_unknown {A} k (m : comp session exn A) s :
  session_ok s → known_version k s = false →
  ∃ e, in_request (require_existing_service_version k ;;; m) s = (Raise e, s)
    ∧ (http_status e = Some 422 ∨ http_status e = Some 404).
Proof.
  intros [Heq _] Hk. unfold in_request, bind. rewrite require_version_eq, Hk.
  destruct (_ <? 1); eexists; (split; [destruct s; simpl in *; by subst|by auto]).
Qed.

(** A request whose change [f] of the current row is committed. *)
Lemma in_request_change {A} k f (a : A) s :
  known_version k s = true → (∀ r, rw_id (f r) = rw_id r) →
  in_request
    (require_existing_service_version k ;;;
     record <- get_or_create k ;;
     assign (rw_id record) f ;;;
     commit_session ;;;
     ret a) s
  = (Ok a, session_with (replaced k f s) (uuid4s (created_session k s)) s).
Proof.
  intros Hk Hf. unfold in_request, bind. rewrite require_version_eq, Hk, get_or_create_eq. done.
Qed.

Lemma in_request_read {A} k (g : ReviewWorkflow → A) s :
  known_version k s = true →
  in_request
    (require_existing_service_version k ;;;
     record <- get_or_create k ;;
     commit_session ;;;
     ret (g record)) s
  = (Ok (g (current k s)), session_with (with_current k s) (uuid4s (created_session k s)) s).
Proof.
  intros Hk. unfold in_request, bind. rewrite require_version_eq, Hk, get_or_create_eq. done.
Qed.

Definition allowed_role (caller : TokenPrincipalResponse) (state to : string) : bool :=
  match required_roles state to with
  | Some required => has_role (caller_roles caller) required
  | None => true
  end.

Lemma transition_eq k to comment caller s :
  known_version k s = true →
  let cur := current k s in
  let f := moved to (actor caller) comment (now s) in
  if bool_decide (to ∈ valid_transitions (rw_state cur)) && allowed_role caller (rw_state cur) to
  then transition_workflow k to comment caller s
         = (Ok (f cur), session_with (replaced k f s) (uuid4s (created_session k s)) s)
  else ∃ e, transition_workflow k to comment caller s
              = (Raise e, session_with (committed s) (uuid4s (created_session k s)) s)
         ∧ http_status e = Some (if bool_decide (to ∈ valid_transitions (rw_state cur)) then 403 else 409).
Proof.
  intros Hk cur f. unfold transition_workflow, in_request, bind.
  rewrite require_version_eq, Hk, get_or_create_eq. fold cur. unfold allowed_role.
  destruct (bool_decide (to ∈ valid_transitions (rw_state cur))); simpl; [|by eexists].
  destruct (required_roles (rw_state cur) to) as [req|]; simpl; [|done].
  destruct (has_role (caller_roles caller) req); simpl; [done|by eexists].
Qed.

Lemma session_ok_discarded k s :
  session_ok s → uuid4s s ≠ [] →
  session_ok (session_with (committed s) (uuid4s (created_session k s)) s).
Proof.
  intros (Heq & Hok & Hnd & Hfresh) Hne. unfold session_with. rewrite <-Heq. split_and!; [done|done| |]; simpl.
  - destruct (List.find _ _); [done|]. by destruct (uuid4s s); [|inv Hnd].
  - intros u Hu. apply Hfresh. destruct (List.find _ _); [done|]. destruct (uuid4s s); [done|by right].
Qed.

Lemma moved_ok to a c t r :
  to ∈ valid_transitions (rw_state r) → workflow_ok r → workflow_ok (moved to a c t r).
Proof. done. Qed.

(** Every request, accepted or refused, leaves at most one workflow per
    service version and scope, each with a history that leads from "draft" to its
    state through valid transitions only. *)
Theorem review_requests_sound k s :
  session_ok s → uuid4s s ≠ [] →
  session_ok (state_of (get_workflow k) s)
  ∧ (∀ to comment caller, session_ok (state_of (transition_workflow k to comment caller) s))
  ∧ (∀ payload, session_ok (state_of (save_review_notes k payload) s))
  ∧ session_ok (state_of (get_workflow_history k) s).
Proof.
  intros Hs Hne. pose proof (with_current_ok k s Hs Hne) as Hwc.
  assert (workflow_ok (current k s)) as Hcur.
  { destruct Hwc as (_ & _ & Hall). rewrite Forall_forall in Hall. apply Hall, current_in. }
  unfold state_of. destruct (known_version k s) eqn:Hk.
  - split_and!.
    + unfold get_workflow. rewrite (in_request_read k id) by done. simpl. by apply (session_ok_committed k).
    + intros to comment caller. pose proof (transition_eq k to comment caller s Hk) as Ht. simpl in Ht.
      destruct (bool_decide (to ∈ valid_transitions (rw_state (current k s)))) eqn:Hv; simpl in Ht.
      * destruct (allowed_role _ _ _).
        -- rewrite Ht. apply (session_ok_committed k); [done|done| |by apply ids_replaced].
           apply replaced_ok; [done..|]. apply moved_ok; [by apply bool_decide_eq_true in Hv|done].
        -- destruct Ht as (e & -> & _). by apply session_ok_discarded.
      * destruct Ht as (e & -> & _). by apply session_ok_discarded.
    + intros payload. unfold save_review_notes.
      assert (∀ a : ReviewWorkflow, ∀ l ids, l = replaced k (with_notes payload) s → ids = uuid4s (created_session k s) →
        session_ok (session_with l ids s)) as Hgo.
      { intros _ l ids -> ->. apply (session_ok_committed k); [done|done| |by apply ids_replaced].
        by apply replaced_ok. }
      unfold in_request, bind. rewrite require_version_eq, Hk, get_or_create_eq. simpl.
      by apply (Hgo (current k s)).
    + unfold get_workflow_history. rewrite (in_request_read k rw_history) by done.
      by apply (session_ok_committed k).
  - split_and!; intros.
    + destruct (in_request_unknown k (record <- get_or_create k ;; commit_session ;;; ret record) s Hs Hk)
        as (e & He & _). unfold get_workflow. by rewrite He.
    + unfold transition_workflow.
      match goal with |- context [in_request (require_existing_service_version k ;;; ?m)] =>
        destruct (in_request_unknown k m s Hs Hk) as (e & He & _) end. by rewrite He.
    + unfold save_review_notes.
      match goal with |- context [in_request (require_existing_service_version k ;;; ?m)] =>
        destruct (in_request_unknown k m s Hs Hk) as (e & He & _) end. by rewrite He.
    + unfold get_workflow_history.
      match goal with |- context [in_request (require_existing_service_version k ;;; ?m)] =>
        destruct (in_request_unknown k m s Hs Hk) as (e & He & _) end. by rewrite He.
Qed.

(** A transition request succeeds exactly when the version exists, the move is
    one of the current state's and the caller holds a role the move requires;
    then it moves the workflow, adds one history entry naming the authenticated
    caller, and touches no other workflow.  Otherwise it fails with 404 or 422, 409 or 403, in
    this order, and changes no workflow. *)
Theorem transition_workflow_spec k to comment caller s :
  session_ok s → uuid4s s ≠ [] →
  let cur := current k s in
  match transition_workflow k to comment caller s with
  | (Ok r, s') =>
      known_version k s = true ∧ to ∈ valid_transitions (rw_state cur)
      ∧ allowed_role caller (rw_state cur) to = true
      ∧ r = moved to (actor caller) comment (now s) cur
      ∧ ∀ r', r' ∈ workflows s' ↔ r' = r ∨ (r' ∈ workflows s ∧ rw_key r' ≠ k)
  | (Raise e, s') =>
      workflows s' = workflows s
      ∧ if known_version k s
        then http_status e = Some (if bool_decide (to ∈ valid_transitions (rw_state cur)) then 403 else 409)
        else http_status e = Some 422 ∨ http_status e = Some 404
  end.
Proof.
  intros Hs Hne cur. pose proof Hs as (Heq & (_ & Hkeys & _) & _).
  destruct (known_version k s) eqn:Hk.
  - pose proof (transition_eq k to comment caller s Hk) as Ht. simpl in Ht. fold cur in Ht.
    destruct (bool_decide (to ∈ valid_transitions (rw_state cur))) eqn:Hv; simpl in Ht;
      [|destruct Ht as (e & -> & He); by rewrite <-Heq].
    destruct (allowed_role caller (rw_state cur) to) eqn:Ha;
      [|destruct Ht as (e & -> & He); by rewrite <-Heq].
    rewrite Ht. split_and!; [done|by apply bool_decide_eq_true in Hv|done|done|].
    intros r'. simpl. rewrite replaced_elem by done. fold cur.
    assert (r' ∈ with_current k s ∧ r' ≠ cur ↔ r' ∈ workflows s ∧ rw_key r' ≠ k) as Hiff; [|by rewrite Hiff].
    unfold with_current, cur, current. destruct (List.find _ _) as [r|] eqn:Ef; simpl.
    + apply find_key_Some in Ef as [Hr Hrk].
      rewrite NoDup_fmap_iff in Hkeys by by apply (NoDup_fmap_1 rw_key).
      split; intros [Hr' Hne']; (split; [done|]).
      * intros Heq'. apply Hne'. apply Hkeys; [done..|congruence].
      * by intros ->.
    + apply find_key_None in Ef. rewrite elem_of_app, list_elem_of_singleton. split.
      * intros [[Hr'|Hr'] Hne']; [|done]. split; [done|]. intros <-. apply Ef. by apply list_elem_of_fmap_2.
      * intros [Hr' Hne']. split; [by left|]. intros ->. done.
  - unfold transition_workflow.
    match goal with |- context [in_request (require_existing_service_version k ;;; ?m)] =>
      destruct (in_request_unknown k m s Hs Hk) as (e & He & Hst) end. by rewrite He.
Qed.

(** The moves there are. *)
Lemma valid_transitions_inv f t :
  t ∈ valid_transitions f →
  (f, t) ∈ [("draft", "submitted"); ("submitted", "in_review"); ("in_review", "approved");
            ("in_review", "rejected"); ("approved", "published"); ("rejected", "draft");
            ("published", "deployed")].
Proof.
  unfold valid_transitions, dict_get.
  repeat match goal with |- context [str_eqb f ?c] => destruct (str_eqbP f c) as [->|_]; cbn end;
    rewrite ?elem_of_cons; intros H; repeat (destruct H as [->|H]; [by_eval|]); by inv H.
Qed.

(** The last move of a trail, when only one move leads to its state. *)
Lemma trail_last state from h :
  (∀ f, state ∈ valid_transitions f → f = from) → state ≠ "draft" → trail_to state h →
  ∃ e h', h = e :: h' ∧ he_from e = from ∧ he_to e = state ∧ trail_to from h'.
Proof.
  intros Honly Hne. destruct h as [|e h']; simpl; [done|]. intros (Hto & Hv & Ht).
  pose proof (Honly _ Hv) as Hf. exists e, h'. split_and!; [done|done|done|]. congruence.
Qed.

Ltac only_move := intros f H; apply valid_transitions_inv in H; rewrite ?elem_of_cons in H;
  repeat (destruct H as [H|H]; [by simplify_eq|]); by inv H.

Lemma approved_trail h :
  trail_to "approved" h →
  [("in_review", "approved"); ("submitted", "in_review"); ("draft", "submitted")]
    `prefix_of` ((λ e, (he_from e, he_to e)) <$> h).
Proof.
  intros Ht. apply (trail_last "approved" "in_review") in Ht as (e1 & h1 & -> & Hf1 & Ht1 & Ht); [|only_move|done].
  apply (trail_last "in_review" "submitted") in Ht as (e2 & h2 & -> & Hf2 & Ht2 & Ht); [|only_move|done].
  apply (trail_last "submitted" "draft") in Ht as (e3 & h3 & -> & Hf3 & Ht3 & Ht); [|only_move|done].
  exists ((λ e, (he_from e, he_to e)) <$> h3). simpl. by rewrite Hf1, Ht1, Hf2, Ht2, Hf3, Ht3.
Qed.

Lemma published_trail h :
  trail_to "published" h →
  [("approved", "published"); ("in_review", "approved"); ("submitted", "in_review"); ("draft", "submitted")]
    `prefix_of` ((λ e, (he_from e, he_to e)) <$> h).
Proof.
  intros Ht. apply (trail_last "published" "approved") in Ht as (e & h1 & -> & Hf & Hto & Ht); [|only_move|done].
  simpl. rewrite Hf, Hto. by apply prefix_cons, approved_trail.
Qed.


(** ** Concrete requests *)

Definition demo_key : workflow_key := mk_workflow_key "billing" 2 (Some "acme") None.
Definition demo_session : session :=
  mk_session [] [] (Registry.versions (Registry.working Registry.demo_session)) [21%N; 22%N] "2026-01-01T00:00:00+00:00".
Definition demo_caller (roles : list pyval) : TokenPrincipalResponse :=
  mk_principal "alice" None "jwt" [("roles", VList roles)].

Lemma demo_review_ok : session_ok demo_session.
Proof.
  split; [done|]. split; [by split; [constructor|split; constructor]|].
  split; [by_eval|]. intros u _. by_eval.
Qed.

Definition demo_move (to : string) (s : session) : session :=
  state_of (transition_workflow demo_key to None (demo_caller [VStr "Admin"])) s.

Definition demo_deployed : session :=
  demo_move "deployed" (demo_move "published" (demo_move "approved" (demo_move "in_review"
    (demo_move "submitted" demo_session)))).

(** An approval by somebody without the role is refused. *)
Example demo_unauthorised_approval :
  (let s := demo_move "in_review" (demo_move "submitted" demo_session) in
   match transition_workflow demo_key "approved" None (demo_caller [VStr "dev"]) s with
   | (Raise e, s') => (http_status e, rw_state <$> workflows s')
   | (Ok r, s') => (None, [])
   end) = (Some 403, ["in_review"]).
Proof. vm_compute. reflexivity. Qed.

Lemma review_requests_sound_witness :
  session_ok demo_session ∧ session_ok (demo_move "submitted" demo_session).
Proof.
  split; [exact demo_review_ok|].
  assert (uuid4s demo_session ≠ []) as Hne by done.
  exact (proj1 (proj2 (review_requests_sound demo_key demo_session demo_review_ok Hne))
    "submitted" None (demo_caller [VStr "Admin"])).
Defined.

Lemma transition_workflow_spec_witness :
  match transition_workflow demo_key "published" None (demo_caller []) demo_session with
  | (Ok _, _) => False
  | (Raise e, s') => workflows s' = [] ∧ http_status e = Some 409
  end.
Proof.
  assert (uuid4s demo_session ≠ []) as Hne by done.
  pose proof (transition_workflow_spec demo_key "published" None (demo_caller []) demo_session
    demo_review_ok Hne) as H. cbn zeta in H.
  destruct (transition_workflow demo_key "published" None (demo_caller []) demo_session) as [[r|e] s'].
  - destruct H as (_ & Hv & _). exfalso. revert Hv. by_eval.
  - destruct H as [Hw He]. split; [exact Hw|]. rewrite He. vm_compute. reflexivity.
Defined.

Definition demo_deployed_row : ReviewWorkflow :=
  let h from to := mk_history_entry from to "alice" None "t" in
  mk_workflow 1%N demo_key "deployed" None
    [h "published" "deployed"; h "approved" "published"; h "in_review" "approved";
     h "submitted" "in_review"; h "draft" "submitted"].
Definition demo_deployed_session : session := session_with [demo_deployed_row] [22%N] demo_session.

Lemma demo_deployed_session_ok : session_ok demo_deployed_session.
Proof.
  split; [done|]. split; [split; [by_eval|split; [by_eval|]]|split; [by_eval|]].
  - apply Forall_singleton. repeat (split; [reflexivity|]; split; [by_eval|]). reflexivity.
  - intros u [->|Hu]%elem_of_cons; [by_eval|inv Hu].
Qed.

