(* ===== verification/RouteConfig.v ===== *)
(** * Route configurations ([libs/route_config.py])

    The validation every published route configuration goes through: required
    names, two optional route definitions with their target services, unknown
    fields kept, absent and null fields dropped. *)

From S2P Require Export PyExn.

(** What pydantic supplies: its lax reading of an [int] field, and the text of a
    [ValidationError]. *)
Record pydantic := mk_pydantic {
  parse_int : pyval → option Z;
  describe : dict pyval → string;
}.

Section validation.
Context (P : pydantic).

(** [f: str = Field(min_length=1)] *)
Definition required_str (v : pyval) : option string :=
  match v with VStr s => if str_truthy s then Some s else None | _ => None end.

(** [f: str | None = None] *)
Definition optional_str (v : pyval) : option (option string) :=
  match v with VNone => Some None | VStr s => Some (Some s) | _ => None end.

(** [f: int | None = None] *)
Definition optional_int (v : pyval) : option (option Z) :=
  match v with VNone => Some None | _ => Some <$> parse_int P v end.

(** [f: dict[str, Any] | None = None] *)
Definition optional_dict (v : pyval) : option (option (dict pyval)) :=
  match v with VNone => Some None | VDict d => Some (Some d) | _ => None end.

(** The fields pydantic keeps beside the declared ones, those that are not null. *)
Definition extras (declared : list string) (d : dict pyval) : dict pyval :=
  List.filter (λ kv, negb (bool_decide (kv.1 ∈ declared))
                     && match kv.2 with VNone => false | _ => true end) d.

Definition present (k : string) (o : option pyval) : dict pyval :=
  match o with Some v => [(k, v)] | None => [] end.

Definition TargetService (v : pyval) : option (dict pyval) :=
  match v with
  | VDict d =>
      let key := if dict_mem d "host" then "host" else "name" in
      host ← required_str (get_or_none d key);
      port ← parse_int P (get_or_none d "port");
      if 1 <=? port
      then Some ([("host", VStr host); ("port", VInt port)] ++ extras [key; "port"] d)
      else None
  | _ => None
  end.

Definition GatewayRouteDefinition (v : pyval) : option (dict pyval) :=
  match v with
  | VDict d =>
      route_id ← required_str (get_or_none d "route_id");
      target_service ← TargetService (get_or_none d "target_service");
      switch_strategy ← optional_str (get_or_none d "switch_strategy");
      mtch ← optional_dict (get_or_none d "match");
      Some ([("route_id", VStr route_id); ("target_service", VDict target_service)]
            ++ present "switch_strategy" (VStr <$> switch_strategy)
            ++ present "match" (VDict <$> mtch)
            ++ extras ["route_id"; "target_service"; "switch_strategy"; "match"] d)
  | _ => None
  end.

Definition optional_route (v : pyval) : option (option (dict pyval)) :=
  match v with VNone => Some None | _ => Some <$> GatewayRouteDefinition v end.

Definition config_fields : list string :=
  ["service_id"; "service_name"; "namespace"; "version_number"; "default_route"; "version_route";
   "tenant"; "environment"].

(** [GatewayRouteConfig.model_validate(...).model_dump(exclude_none=True)] *)
Definition GatewayRouteConfig (d : dict pyval) : option (dict pyval) :=
  service_id ← required_str (get_or_none d "service_id");
  service_name ← required_str (get_or_none d "service_name");
  namespace ← required_str (get_or_none d "namespace");
  version_number ← optional_int (get_or_none d "version_number");
  default_route ← optional_route (get_or_none d "default_route");
  version_route ← optional_route (get_or_none d "version_route");
  tenant ← optional_str (get_or_none d "tenant");
  environment ← optional_str (get_or_none d "environment");
  match version_route, version_number with
  | Some _, None => None
  | _, _ =>
      Some ([("service_id", VStr service_id); ("service_name", VStr service_name); ("namespace", VStr namespace)]
            ++ present "version_number" (VInt <$> version_number)
            ++ present "default_route" (VDict <$> default_route)
            ++ present "version_route" (VDict <$> version_route)
            ++ present "tenant" (VStr <$> tenant)
            ++ present "environment" (VStr <$> environment)
            ++ extras config_fields d)
  end.

(** [_validated_route_config] around [validate_route_config] *)
Definition validate_route_config (route_config : dict pyval) : outcome exn (dict pyval) :=
  match GatewayRouteConfig route_config with
  | Some v => Ok v
  | None => Raise (runtime_error ("Invalid gateway route configuration: " +:+ describe P route_config))
  end.
End validation.

(** ** Facts *)

Lemma get_app {V} (d e : dict V) k :
  dict_get (d ++ e) k = match dict_get d k with Some v => Some v | None => dict_get e k end.
Proof. induction d as [|[k' v] d IH]; simpl; [done|]. by case_eqb. Qed.

Lemma get_present k o k' : dict_get (present k o) k' = if str_eqb k' k then o else None.
Proof. destruct o; simpl; by case_eqb. Qed.

Lemma get_extras declared d k : k ∈ declared → dict_get (extras declared d) k = None.
Proof.
  intros Hk. apply dict_get_None. intros ([k' v] & -> & Hin)%list_elem_of_fmap.
  apply elem_of_filterb in Hin as [Hin _]. simpl in Hin. by rewrite bool_decide_eq_true_2 in Hin.
Qed.

Lemma optional_str_same v o : optional_str v = Some o → default VNone (VStr <$> o) = v.
Proof. destruct v; intros [= <-]; done. Qed.

(** A validated configuration names its service and namespace, and validation
    changes neither the service nor its scope. *)
Lemma validate_keeps P rc v :
  validate_route_config P rc = Ok v →
  (∀ f, f ∈ ["service_id"; "service_name"; "namespace"] →
     ∃ s, get_or_none v f = VStr s ∧ str_truthy s = true)
  ∧ (∀ f, f ∈ ["service_id"; "tenant"; "environment"] → get_or_none v f = get_or_none rc f).
Proof.
  unfold validate_route_config, GatewayRouteConfig.
  destruct (required_str (get_or_none rc "service_id")) as [sid|] eqn:E1; simpl; [|done].
  destruct (required_str (get_or_none rc "service_name")) as [name|] eqn:E2; simpl; [|done].
  destruct (required_str (get_or_none rc "namespace")) as [ns|] eqn:E3; simpl; [|done].
  destruct (optional_int _ _) as [ver|]; simpl; [|done].
  destruct (optional_route _ (get_or_none rc "default_route")) as [def|]; simpl; [|done].
  destruct (optional_route _ (get_or_none rc "version_route")) as [vr|]; simpl; [|done].
  destruct (optional_str (get_or_none rc "tenant")) as [t|] eqn:E4; simpl; [|done].
  destruct (optional_str (get_or_none rc "environment")) as [e|] eqn:E5; simpl; [|done].
  destruct (match vr with Some _ => _ | None => _ end) as [w|] eqn:E; [|done]. intros [= <-].
  assert (∀ x s, required_str x = Some s → x = VStr s ∧ str_truthy s = true) as Hreq.
  { intros [] s0; try done. simpl. destruct (str_truthy _) eqn:Et; [|done]. by intros [= <-]. }
  apply Hreq in E1 as [E1 ?], E2 as [E2 ?], E3 as [E3 ?].
  apply optional_str_same in E4, E5. clear Hreq.
  assert (w = [("service_id", VStr sid); ("service_name", VStr name); ("namespace", VStr ns)]
            ++ present "version_number" (VInt <$> ver) ++ present "default_route" (VDict <$> def)
            ++ present "version_route" (VDict <$> vr) ++ present "tenant" (VStr <$> t)
            ++ present "environment" (VStr <$> e) ++ extras config_fields rc) as ->
    by (destruct vr, ver; first [discriminate E|injection E as <-; done]).
  clear E. split.
  - intros f Hf. rewrite !elem_of_cons in Hf. destruct Hf as [->|[->|[->|Hf]]]; [by eexists..|inv Hf].
  - intros f Hf. rewrite !elem_of_cons in Hf.
    destruct Hf as [->|[->|[->|Hf]]]; [|rewrite <-E4|rewrite <-E5|inv Hf]; unfold get_or_none at 1.
    + by rewrite E1.
    + rewrite !get_app, !get_present, get_extras by by_eval. simpl. by destruct t.
    + rewrite !get_app, !get_present, get_extras by by_eval. simpl. by destruct e.
Qed.

(** Declared fields followed by the extra ones have distinct keys. *)
Lemma fields_wf declared (l d : dict pyval) :
  dict_keys l `sublist_of` declared → NoDup declared → dict_wf d → dict_wf (l ++ extras declared d).
Proof.
  intros Hl Hd Hwf. unfold dict_wf, dict_keys. rewrite fmap_app. apply NoDup_app. split_and!.
  - by eapply (sublist_NoDup _ declared).
  - intros k Hk (kv & -> & Hin)%list_elem_of_fmap. apply elem_of_filterb in Hin as [Hin _].
    apply andb_true_iff in Hin as [Hin _]. apply negb_true_iff, bool_decide_eq_false in Hin.
    apply Hin. by eapply elem_of_sublist.
  - unfold extras, dict_wf, dict_keys in *. clear Hl Hd l. revert Hwf. induction d as [|kv d IH]; simpl; [done|].
    intros [Hk Hd']%NoDup_cons. destruct (negb _ && _); simpl; [|by apply IH]. apply NoDup_cons. split; [|by apply IH].
    intros (kv' & Heq & [_ Hin]%elem_of_filterb)%list_elem_of_fmap. apply Hk. rewrite Heq.
    by apply list_elem_of_fmap_2.
Qed.

Definition json_fields (l : dict pyval) : Prop := Forall (λ kv, json_wf kv.2) l.

Lemma extras_json declared d : json_fields d → json_fields (extras declared d).
Proof.
  intros H. unfold json_fields in *. rewrite Forall_forall in *. intros kv [_ Hin]%elem_of_filterb. by apply H.
Qed.

Lemma present_json k o : (∀ v, o = Some v → json_wf v) → json_fields (present k o).
Proof. destruct o; intros H; repeat constructor. by apply H. Qed.

Lemma get_json d k : json_fields d → json_wf (get_or_none d k).
Proof.
  intros H. unfold get_or_none. destruct (dict_get d k) as [v|] eqn:E; [|constructor].
  apply dict_get_Some_elem in E. unfold json_fields in H. rewrite Forall_forall in H. by apply (H (k, v)).
Qed.

Lemma present_sublist k o : dict_keys (present k o) `sublist_of` [k].
Proof. destruct o; [done|]. apply sublist_nil_l. Qed.

Lemma TargetService_json P v t : json_wf v → TargetService P v = Some t → json_wf (VDict t).
Proof.
  intros Hv. destruct v as [| | | | | |d]; try done. inv Hv.
  unfold TargetService. destruct (required_str _) as [h|]; simpl; [|done].
  destruct (parse_int _ _) as [p|]; simpl; [|done]. destruct (1 <=? p); [|done]. intros [= <-].
  constructor.
  - destruct (dict_mem d "host") eqn:Em.
    + by apply (fields_wf ["host"; "port"] [("host", VStr h); ("port", VInt p)]); [simpl|by_eval|].
    + change (dict_wf ([("host", VStr h)] ++ ([("port", VInt p)] ++ extras ["name"; "port"] d))).
      apply NoDup_cons. split; [|apply (fields_wf _ [("port", VInt p)])].
      * intros [Hbad|(kv & Hk & [_ Hin]%elem_of_filterb)%list_elem_of_fmap]%elem_of_cons; [done|].
        assert (is_Some (dict_get d "host")) as Hh.
        { apply dict_get_is_Some. change "host" with (("host", VStr h).1). rewrite Hk. by apply list_elem_of_fmap_2. }
        unfold dict_mem in Em. by rewrite bool_decide_eq_true_2 in Em.
      * apply sublist_cons. done.
      * by_eval.
      * done.
  - do 2 (constructor; [constructor|]). by apply extras_json.
Qed.

Lemma GatewayRouteDefinition_json P v r : json_wf v → GatewayRouteDefinition P v = Some r → json_wf (VDict r).
Proof.
  intros Hv. destruct v as [| | | | | |d]; try done. inv Hv. rename select (Forall _ d) into Hd.
  unfold GatewayRouteDefinition. destruct (required_str _) as [h|]; cbn [mbind option_bind]; [|done].
  destruct (TargetService _ _) as [t|] eqn:Et; cbn [mbind option_bind]; [|done].
  apply TargetService_json in Et; [|by apply get_json].
  destruct (optional_str _) as [s|]; cbn [mbind option_bind]; [|done].
  destruct (optional_dict _) as [m|] eqn:Em; cbn [mbind option_bind]; [|done]. intros <-%(inj Some).
  assert (∀ x, VDict <$> m = Some x → json_wf x) as Hm.
  { intros x Hx. pose proof (get_json d "match" Hd) as Hj. destruct m as [m|]; [|done]. injection Hx as <-.
    destruct (get_or_none d "match"); simplify_eq/=; done. }
  constructor.
  - rewrite (assoc_L (++) (present _ _)), (assoc_L (++) [_; _]). apply fields_wf; [|by_eval|done].
    unfold dict_keys. rewrite !fmap_app. apply (sublist_app _ ["route_id"; "target_service"]); [done|].
    apply (sublist_app _ ["switch_strategy"] _ ["match"]); apply present_sublist.
  - rewrite !Forall_app. split_and!; [constructor; [constructor|by constructor; [|constructor]]|apply present_json|apply present_json; done|by apply extras_json].
    intros x Hx. destruct s; [|done]. injection Hx as <-. constructor.
Qed.

Lemma validate_json P rc v :
  json_wf (VDict rc) → validate_route_config P rc = Ok v → json_wf (VDict v).
Proof.
  intros Hrc. inv Hrc. rename select (Forall _ rc) into Hd.
  unfold validate_route_config, GatewayRouteConfig.
  destruct (required_str (get_or_none rc "service_id")) as [sid|]; cbn [mbind option_bind]; [|done].
  destruct (required_str (get_or_none rc "service_name")) as [name|]; cbn [mbind option_bind]; [|done].
  destruct (required_str (get_or_none rc "namespace")) as [ns|]; cbn [mbind option_bind]; [|done].
  destruct (optional_int _ _) as [ver|]; cbn [mbind option_bind]; [|done].
  destruct (optional_route _ (get_or_none rc "default_route")) as [def|] eqn:Edef; cbn [mbind option_bind]; [|done].
  destruct (optional_route _ (get_or_none rc "version_route")) as [vr|] eqn:Evr; cbn [mbind option_bind]; [|done].
  destruct (optional_str (get_or_none rc "tenant")) as [t|]; cbn [mbind option_bind]; [|done].
  destruct (optional_str (get_or_none rc "environment")) as [e|]; cbn [mbind option_bind]; [|done].
  assert (∀ x o, json_wf x → optional_route P x = Some o → ∀ v, VDict <$> o = Some v → json_wf v) as Hroute.
  { intros x o Hx Ho v' Hv. destruct o as [d|]; [|done]. injection Hv as <-.
    apply (GatewayRouteDefinition_json P x); [done|]. revert Ho. unfold optional_route.
    destruct x; [done|..]; destruct (GatewayRouteDefinition P _); simpl; congruence. }
  set (w := [("service_id", VStr sid); _; _] ++ _).
  assert (json_wf (VDict w)) as Hw.
  { constructor.
    - unfold w. rewrite !(assoc_L (++)). apply fields_wf; [|by_eval|done].
      unfold dict_keys. rewrite !fmap_app.
      apply (sublist_app _ (take 7 config_fields) _ ["environment"]); [|apply present_sublist].
      apply (sublist_app _ (take 6 config_fields) _ ["tenant"]); [|apply present_sublist].
      apply (sublist_app _ (take 5 config_fields) _ ["version_route"]); [|apply present_sublist].
      apply (sublist_app _ (take 4 config_fields) _ ["default_route"]); [|apply present_sublist].
      by apply (sublist_app _ (take 3 config_fields) _ ["version_number"]); [|apply present_sublist].
    - unfold w. rewrite !Forall_app. split_and!; [by repeat (constructor; [constructor|])|apply present_json..|by apply extras_json];
        try (eapply Hroute; [|eassumption]; by apply get_json); intros x Hx;
        match goal with H : _ <$> ?o = Some _ |- _ => destruct o; [|done]; injection H as <- end; constructor. }
  destruct vr, ver; intros [= <-]; done.
Qed.
