(* ===== verification/GatewayBinding.v ===== *)
(** * Gateway binding ([apps/access_control/gateway_binding/service.py])

    Publishing, withdrawing and rolling back a service's gateway routes, and the
    reconciliation of consumers, policy bindings and routes with the control
    plane's tables.  The gateway is the in-memory admin client of
    [gateway_binding/client.py]: three dictionaries.  Route configurations are
    validated by [RouteConfig]. *)

From S2P Require Import PyUrl.
From S2P Require Export PyExn RouteConfig.
From Stdlib Require Import Ascii.
From S2P Require IRModels Security Authz Registry.

(** ** The gateway ([InMemoryAPISIXAdminClient]) *)

Record GatewayConsumer := mk_consumer {
  gc_username : string;
  gc_credential : string;
  gc_metadata : dict pyval;
}.

Record gateway := mk_gateway {
  consumers : dict GatewayConsumer;
  policy_bindings : dict (dict pyval);
  routes : dict (dict pyval);
}.

Definition on_consumers f (g : gateway) : gateway := mk_gateway (f (consumers g)) (policy_bindings g) (routes g).
Definition on_bindings f (g : gateway) : gateway := mk_gateway (consumers g) (f (policy_bindings g)) (routes g).
Definition on_routes f (g : gateway) : gateway := mk_gateway (consumers g) (policy_bindings g) (f (routes g)).

Definition upsert_consumer (id : string) (c : GatewayConsumer) : comp gateway exn unit :=
  modify (on_consumers (λ d, dict_set d id c)).
Definition delete_consumer (id : string) : comp gateway exn unit := modify (on_consumers (λ d, dict_del d id)).
Definition upsert_policy_binding (id : string) (document : dict pyval) : comp gateway exn unit :=
  modify (on_bindings (λ d, dict_set d id document)).
Definition delete_policy_binding (id : string) : comp gateway exn unit :=
  modify (on_bindings (λ d, dict_del d id)).
Definition upsert_route (id : string) (document : dict pyval) : comp gateway exn unit :=
  modify (on_routes (λ d, dict_set d id document)).
Definition delete_route (id : string) : comp gateway exn unit := modify (on_routes (λ d, dict_del d id)).

(** ** Identifiers *)

Definition consumer_id (pat_id : uuid) : string := "pat-" +:+ uuid_str pat_id.
Definition policy_binding_id (policy_id : uuid) : string := "policy-" +:+ uuid_str policy_id.
Definition is_managed_consumer_id (id : string) : bool := startswith "pat-" id.
Definition is_managed_policy_binding_id (id : string) : bool := startswith "policy-" id.

(** [_normalize_scope_value] *)
Definition normalize_scope_value (v : pyval) : option string :=
  match v with
  | VStr s => let normalized := strip s in if str_truthy normalized then Some normalized else None
  | _ => None
  end.

Definition sanitize_route_component (value : string) : string :=
  let normalized := rstrip_dashes (drop_dashes (slug_chars false (chars (lower value)))) in
  match normalized with
  | [] => "service"
  | _ => of_chars (rstrip_dashes (take 63 normalized))
  end.

Definition route_identity_base (service_id : string) (tenant environment : option string) : string :=
  join "-" ([sanitize_route_component service_id]
    ++ match tenant with Some t => ["tenant"; sanitize_route_component t] | None => [] end
    ++ match environment with Some e => ["env"; sanitize_route_component e] | None => [] end).

Definition default_route_id (service_id : string) (tenant environment : option string) : string :=
  route_identity_base service_id tenant environment +:+ "-active".

Section service.
(** [repr], [datetime.isoformat], and pydantic's part of the validation *)
Context (repr : pyval → string) (isoformat : Z → string).
Context (P : pydantic).

Definition version_route_id (service_id : string) (version_number : pyval)
    (tenant environment : option string) : outcome exn string :=
  if negb (is_int version_number)
  then Raise (runtime_error "Version route configuration is missing a valid version_number.")
  else Ok (route_identity_base service_id tenant environment +:+ "-v" +:+ py_str repr version_number).

(** ** Route documents *)

(** Whom a route belongs to: service, tenant and environment. *)
Definition identity : Type := string * option string * option string.

Definition route_service_identity (route_config : dict pyval) : identity :=
  (py_str repr (get_or_none route_config "service_id"),
   normalize_scope_value (get_or_none route_config "tenant"),
   normalize_scope_value (get_or_none route_config "environment")).

Definition route_belongs_to_service (document : dict pyval) (i : identity) : bool :=
  let '(service_id, tenant, environment) := i in
  py_eq (get_or_none document "service_id") (VStr service_id)
  && bool_decide (normalize_scope_value (get_or_none document "tenant") = tenant)
  && bool_decide (normalize_scope_value (get_or_none document "environment") = environment).

Definition nonempty_str (v : pyval) : bool := match v with VStr s => str_truthy s | _ => false end.

Definition is_managed_route_document (route_id : string) (document : dict pyval) : bool :=
  py_eq (get_or_none document "route_id") (VStr route_id)
  && (py_eq (get_or_none document "route_type") (VStr "default")
      || py_eq (get_or_none document "route_type") (VStr "version"))
  && forallb (λ f, nonempty_str (get_or_none document f)) ["service_id"; "service_name"; "namespace"]
  && forallb (λ f, match get_or_none document f with
                   | VNone => true
                   | v => bool_decide (is_Some (normalize_scope_value v))
                   end) ["tenant"; "environment"]
  && is_dict (get_or_none document "target_service").

Definition set_some (k : string) (o : option pyval) (d : dict pyval) : dict pyval :=
  match o with Some v => dict_set d k v | None => d end.

(** [dict(value)] of a nested dictionary. *)
Definition as_dict_copy (v : pyval) : outcome exn pyval :=
  match v with VDict d => Ok (VDict d) | _ => Raise (type_error "value is not a mapping") end.

Definition route_document (route_id route_type service_id service_name namespace : string)
    (version_number : pyval) (tenant environment : option string) (route_definition : dict pyval)
    : outcome exn (dict pyval) :=
  match as_dict_copy (get_or_none route_definition "target_service"),
        match dict_get route_definition "match" with
        | None => Ok None
        | Some m => match as_dict_copy m with Ok d => Ok (Some d) | Raise e => Raise e end
        end with
  | Ok target, Ok mtch =>
      Ok (set_some "version_number" (match version_number with VNone => None | v => Some v end)
           (set_some "match" mtch
             (set_some "switch_strategy" (dict_get route_definition "switch_strategy")
               (set_some "environment" (VStr <$> environment)
                 (set_some "tenant" (VStr <$> tenant)
                   [("route_id", VStr route_id); ("route_type", VStr route_type);
                    ("service_id", VStr service_id); ("service_name", VStr service_name);
                    ("namespace", VStr namespace); ("target_service", target)])))))
  | Raise e, _ => Raise e
  | _, Raise e => Raise e
  end.

Definition lift {A} (o : outcome exn A) : comp gateway exn A :=
  match o with Ok a => ret a | Raise e => raise e end.

Definition service_route_documents (route_config : dict pyval) (include_default include_version : bool)
    : comp gateway exn (dict (dict pyval)) :=
  rc <- lift (validate_route_config P route_config) ;;
  let service_id := py_str repr (get_or_none rc "service_id") in
  let service_name := py_str repr (get_or_none rc "service_name") in
  let namespace := py_str repr (get_or_none rc "namespace") in
  let version_number := get_or_none rc "version_number" in
  let tenant := normalize_scope_value (get_or_none rc "tenant") in
  let environment := normalize_scope_value (get_or_none rc "environment") in
  documents <- match include_default, get_or_none rc "default_route" with
               | true, VDict default_route =>
                   let route_id := default_route_id service_id tenant environment in
                   doc <- lift (route_document route_id "default" service_id service_name namespace
                                  version_number tenant environment default_route) ;;
                   ret [(route_id, doc)]
               | _, _ => ret []
               end ;;
  match include_version, get_or_none rc "version_route" with
  | true, VDict version_route =>
      route_id <- lift (version_route_id service_id version_number tenant environment) ;;
      doc <- lift (route_document route_id "version" service_id service_name namespace
                     version_number tenant environment version_route) ;;
      ret (dict_set documents route_id doc)
  | _, _ => ret documents
  end.

(** [_matching_route_documents] *)
Definition matching_route_documents (previous : dict (dict pyval)) (i : identity) : dict (dict pyval) :=
  List.filter (λ kv, is_managed_route_document kv.1 kv.2 && route_belongs_to_service kv.2 i) previous.

Definition is_unmanaged (d : dict (dict pyval)) (route_id : string) : bool :=
  match dict_get d route_id with
  | Some document => negb (is_managed_route_document route_id document)
  | None => false
  end.

(** The entries of [d] under the given keys. *)
Fixpoint restrict {V} (d : dict V) (ids : list string) : dict V :=
  match ids with
  | [] => []
  | id :: ids' =>
      match dict_get d id with Some v => (id, v) :: restrict d ids' | None => restrict d ids' end
  end.

(** ** Route operations *)

Record route_sync := mk_route_sync {
  rs_route_ids : list string;
  rs_synced : nat;
  rs_deleted : nat;
  rs_previous_routes : dict (dict pyval);
}.

Definition refuse (what route_id : string) : exn :=
  runtime_error ("Refusing to " +:+ what +:+ " unmanaged gateway route " +:+ route_id +:+ ".").

(** The routes of the service that the new configuration no longer has;
    [matching_previous] may name more of them (they pass the same test). *)
Definition stale_routes (existing documents matching_previous : dict (dict pyval)) (i : identity) : list string :=
  let stale id := match dict_get existing id with
                  | Some document => negb (dict_mem documents id)
                      && is_managed_route_document id document && route_belongs_to_service document i
                  | None => false
                  end in
  let first := List.filter stale (dict_keys existing) in
  first ++ List.filter (λ id, stale id && negb (bool_decide (id ∈ first))) (dict_keys matching_previous).

Definition sync_service_routes (route_config : dict pyval) (previous_routes : dict (dict pyval))
    : comp gateway exn route_sync :=
  route_documents <- service_route_documents route_config true true ;;
  existing_routes <- gets routes ;;
  let service_identity := route_service_identity route_config in
  let matching_previous := matching_route_documents previous_routes service_identity in
  for_each (dict_keys route_documents) (λ id,
    when (is_unmanaged existing_routes id) (raise (refuse "overwrite" id))) ;;;
  let stale := stale_routes existing_routes route_documents matching_previous service_identity in
  let previous := dict_update (restrict existing_routes (dict_keys route_documents))
                    (restrict existing_routes stale) in
  for_each stale delete_route ;;;
  for_each route_documents (λ kv, upsert_route kv.1 kv.2) ;;;
  ret (mk_route_sync (dict_keys route_documents) (length route_documents) (length stale) previous).

Definition delete_service_routes (route_config : dict pyval) : comp gateway exn route_sync :=
  route_documents <- service_route_documents route_config true true ;;
  existing_routes <- gets routes ;;
  for_each (dict_keys route_documents) (λ id,
    when (is_unmanaged existing_routes id) (raise (refuse "delete" id)) ;;;
    delete_route id) ;;;
  ret (mk_route_sync (dict_keys route_documents) 0 (length route_documents)
         (restrict existing_routes (dict_keys route_documents))).

Definition rollback_service_routes (route_config : dict pyval) (previous_routes : dict (dict pyval))
    : comp gateway exn route_sync :=
  route_documents <- service_route_documents route_config true true ;;
  existing_routes <- gets routes ;;
  let matching_previous := matching_route_documents previous_routes (route_service_identity route_config) in
  let to_delete := List.filter (λ id, negb (dict_mem matching_previous id)) (dict_keys route_documents) in
  for_each to_delete (λ id,
    when (is_unmanaged existing_routes id) (raise (refuse "delete" id)) ;;;
    delete_route id) ;;;
  for_each matching_previous (λ kv, upsert_route kv.1 kv.2) ;;;
  ret (mk_route_sync (dict_keys route_documents) (length matching_previous) (length to_delete) []).

(** ** Reconciliation *)

(** [_policy_document] of a stored row *)
Definition policy_document (p : Authz.Policy) : outcome exn (dict pyval) :=
  match IRModels.parse_risk (Authz.p_risk_threshold p) with
  | None => Raise (value_error ("'" +:+ Authz.p_risk_threshold p +:+ "' is not a valid RiskLevel"))
  | Some r => Ok [
      ("id", VStr (uuid_str (Authz.p_id p)));
      ("subject_type", VStr (Authz.p_subject_type p));
      ("subject_id", VStr (Authz.p_subject_id p));
      ("resource_id", VStr (Authz.p_resource_id p));
      ("action_pattern", VStr (Authz.p_action_pattern p));
      ("risk_threshold", VStr (IRModels.risk_value r));
      ("decision", VStr (Authz.p_decision p));
      ("created_by", opt_str (Authz.p_created_by p));
      ("created_at", VStr (isoformat (Authz.p_created_at p)))]
  end.

Definition pat_consumer (username name token_hash : string) (created_at : Z) : GatewayConsumer :=
  mk_consumer username token_hash
    [("username", VStr username); ("pat_name", VStr name); ("created_at", VStr (isoformat created_at))].

(** The tokens that must work at the gateway: not revoked, of an active user. *)
Definition expected_consumers (t : Security.auth_tables) : dict GatewayConsumer :=
  dict_of_list ((λ r, (consumer_id (Security.pat_id r.1),
      pat_consumer (Security.u_username r.2) (Security.pat_name r.1)
        (Security.pat_token_hash r.1) (Security.pat_created_at r.1))) <$>
    Security.join_rows (λ p u, bool_decide (Security.pat_revoked_at p = None) && Security.u_is_active u) t).

Definition expected_policy_bindings (policies : list Authz.Policy) : comp gateway exn (dict (dict pyval)) :=
  fold_each (λ acc p, doc <- lift (policy_document p) ;;
                      ret (dict_set acc (policy_binding_id (Authz.p_id p)) doc)) [] policies.

(** [_route_config_with_scope] *)
Definition route_config_with_scope (route_config : dict pyval) (tenant environment : option string) : dict pyval :=
  let t := normalize_scope_value (opt_str tenant) in
  let e := normalize_scope_value (opt_str environment) in
  set_some "environment" (VStr <$> e) (set_some "tenant" (VStr <$> t) route_config).

Definition expected_routes (versions : list Registry.ServiceVersion) : comp gateway exn (dict (dict pyval)) :=
  fold_each (λ acc v,
    match Registry.vr_route_config v with
    | None => ret acc
    | Some rc =>
        docs <- service_route_documents
          (route_config_with_scope rc (Registry.vr_tenant v) (Registry.vr_environment v))
          (Registry.vr_is_active v) true ;;
        ret (dict_update acc docs)
    end) [] versions.

Definition consumer_requires_sync (existing : option GatewayConsumer) (expected : GatewayConsumer) : bool :=
  match existing with
  | None => true
  | Some c =>
      negb (str_eqb (gc_username c) (gc_username expected))
      || negb (str_eqb (gc_credential c) (gc_credential expected))
      || negb (py_eq (VDict (gc_metadata c)) (VDict (gc_metadata expected)))
  end.

Definition document_differs (existing : option (dict pyval)) (expected : dict pyval) : bool :=
  match existing with None => true | Some d => negb (py_eq (VDict d) (VDict expected)) end.

(** One loop of [reconcile] over what is expected: upsert where [needs] says so. *)
Definition sync_expected {V} (needs : string → V → bool) (upsert : string → V → comp gateway exn unit)
    (expected : dict V) : comp gateway exn nat :=
  fold_each (λ n kv, if needs kv.1 kv.2 then upsert kv.1 kv.2 ;;; ret (S n) else ret n) 0%nat expected.

(** The loop after it: delete the managed entries nothing expects. *)
Definition delete_unexpected {V W} (delete : string → comp gateway exn unit)
    (managed : dict V) (expected : dict W) : comp gateway exn nat :=
  let doomed := List.filter (λ id, negb (dict_mem expected id)) (dict_keys managed) in
  for_each doomed delete ;;;
  ret (length doomed).

Definition managed_part {V} (is_managed : string → V → bool) (d : dict V) : dict V :=
  List.filter (λ kv, is_managed kv.1 kv.2) d.

Record reconciliation := mk_reconciliation {
  rc_consumers_synced : nat;
  rc_consumers_deleted : nat;
  rc_policy_bindings_synced : nat;
  rc_policy_bindings_deleted : nat;
  rc_service_routes_synced : nat;
  rc_service_routes_deleted : nat;
}.

Definition reconcile (auth : Security.auth_tables) (policies : list Authz.Policy)
    (versions : list Registry.ServiceVersion) : comp gateway exn reconciliation :=
  let consumers_wanted := expected_consumers auth in
  bindings_wanted <- expected_policy_bindings policies ;;
  routes_wanted <- expected_routes versions ;;
  g <- gets id ;;
  let managed_consumers := managed_part (λ id _, is_managed_consumer_id id) (consumers g) in
  let managed_bindings := managed_part (λ id _, is_managed_policy_binding_id id) (policy_bindings g) in
  let existing_routes := routes g in
  let managed_routes := managed_part is_managed_route_document existing_routes in
  cs <- sync_expected (λ id c, consumer_requires_sync (dict_get managed_consumers id) c)
          upsert_consumer consumers_wanted ;;
  cd <- delete_unexpected delete_consumer managed_consumers consumers_wanted ;;
  ps <- sync_expected (λ id d, document_differs (dict_get managed_bindings id) d)
          upsert_policy_binding bindings_wanted ;;
  pd <- delete_unexpected delete_policy_binding managed_bindings bindings_wanted ;;
  rs <- fold_each (λ n kv,
          when (dict_mem existing_routes kv.1 && negb (dict_mem managed_routes kv.1))
            (raise (refuse "overwrite" kv.1)) ;;;
          if document_differs (dict_get managed_routes kv.1) kv.2
          then upsert_route kv.1 kv.2 ;;; ret (S n) else ret n) 0%nat routes_wanted ;;
  rd <- delete_unexpected delete_route managed_routes routes_wanted ;;
  ret (mk_reconciliation cs cd ps pd rs rd).

(** The per-mutation synchronisation. *)
Definition sync_pat_creation (id : uuid) (username name token_hash : string) (created_at : Z)
    : comp gateway exn unit :=
  upsert_consumer (consumer_id id) (pat_consumer username name token_hash created_at).
Definition sync_pat_revocation (id : uuid) : comp gateway exn unit := delete_consumer (consumer_id id).
Definition sync_policy (p : Authz.Policy) : comp gateway exn unit :=
  doc <- lift (policy_document p) ;; upsert_policy_binding (policy_binding_id (Authz.p_id p)) doc.
Definition delete_policy (id : uuid) : comp gateway exn unit := delete_policy_binding (policy_binding_id id).
End service.

(** ** Dictionaries changed in bulk *)

Section bulk.
Context {V : Type}.
Implicit Types d e : dict V.

Definition del_all (ids : list string) d : dict V := foldl dict_del d ids.

Lemma dict_wf_del_all ids d : dict_wf d → dict_wf (del_all ids d).
Proof. revert d. induction ids as [|i ids IH]; intros d Hd; simpl; [done|]. by apply IH, dict_wf_del. Qed.

Lemma dict_get_del_all ids d k :
  dict_wf d → dict_get (del_all ids d) k = if bool_decide (k ∈ ids) then None else dict_get d k.
Proof.
  revert d. induction ids as [|i ids IH]; intros d Hd; simpl; [done|].
  rewrite IH by by apply dict_wf_del. rewrite dict_get_del by done.
  destruct (decide (k ∈ ids)).
  { rewrite (bool_decide_eq_true_2 (k ∈ ids)) by done. rewrite (bool_decide_eq_true_2 (k ∈ i :: ids)); [done|by right]. }
  rewrite (bool_decide_eq_false_2 (k ∈ ids)) by done. destruct (str_eqbP k i) as [->|].
  - by rewrite bool_decide_eq_true_2 by left.
  - rewrite bool_decide_eq_false_2; [done|]. rewrite not_elem_of_cons. done.
Qed.

Lemma dict_get_restrict d ids k :
  dict_get (restrict d ids) k = if bool_decide (k ∈ ids) then dict_get d k else None.
Proof.
  induction ids as [|i ids IH]; [done|].
  rewrite (bool_decide_ext (k ∈ i :: ids) (k = i ∨ k ∈ ids)) by apply elem_of_cons.
  destruct (decide (k = i)) as [->|Hne].
  - rewrite bool_decide_eq_true_2 by by left. simpl.
    destruct (dict_get d i) as [v|] eqn:E; simpl; [by rewrite str_eqb_refl|].
    rewrite IH. by destruct (bool_decide _).
  - rewrite (bool_decide_ext (k = i ∨ k ∈ ids) (k ∈ ids)) by naive_solver. rewrite <-IH. simpl.
    destruct (dict_get d i); simpl; [|done]. by destruct (str_eqbP k i).
Qed.

Lemma dict_wf_restrict d ids : NoDup ids → dict_wf (restrict d ids).
Proof.
  unfold dict_wf. induction 1 as [|i ids Hi Hids IH]; simpl; [constructor|].
  destruct (dict_get d i) as [v|]; simpl; [|done]. apply NoDup_cons. split; [|done].
  rewrite <-dict_get_is_Some, dict_get_restrict, bool_decide_eq_false_2 by done. by intros [? ?].
Qed.

End bulk.

Lemma delete_routes_eq ids g :
  for_each ids delete_route g = (Ok tt, on_routes (del_all ids) g).
Proof.
  revert g. induction ids as [|i ids IH]; intros g; simpl; [by destruct g|].
  unfold bind, delete_route, modify at 1. by rewrite IH.
Qed.

Lemma upsert_routes_eq docs g :
  for_each docs (λ kv, upsert_route kv.1 kv.2) g = (Ok tt, on_routes (λ d, dict_update d docs) g).
Proof.
  revert g. induction docs as [|[k v] docs IH]; intros g; simpl; [by destruct g|].
  unfold bind, upsert_route, modify at 1. by rewrite IH.
Qed.

Lemma refuse_all_eq what (unmanaged : string → bool) ids (g : gateway) :
  for_each ids (λ id, when (unmanaged id) (raise (refuse what id))) g =
    (match List.find unmanaged ids with Some id => Raise (refuse what id) | None => Ok tt end, g).
Proof.
  induction ids as [|i ids IH]; simpl; [done|]. unfold bind. destruct (unmanaged i); simpl; [done|]. apply IH.
Qed.

(** Deleting one by one, none of them refused. *)
Lemma checked_deletes_eq what (unmanaged : string → bool) ids g :
  (∀ id, id ∈ ids → unmanaged id = false) →
  for_each ids (λ id, when (unmanaged id) (raise (refuse what id)) ;;; delete_route id) g
    = (Ok tt, on_routes (del_all ids) g).
Proof.
  revert g. induction ids as [|i ids IH]; intros g H; simpl; [by destruct g|].
  unfold bind at 1 2. rewrite H by left. simpl. unfold delete_route, modify. rewrite IH; [done|].
  intros. apply H. by right.
Qed.

(** ** Documents *)

Section documents.
Context (repr : pyval → string) (isoformat : Z → string).
Context (P : pydantic).
(** The documents of a configuration do not depend on the gateway. *)
Definition documents_of (route_config : dict pyval) (d v : bool) : outcome exn (dict (dict pyval)) :=
  outcome_of (service_route_documents repr P route_config d v) (mk_gateway [] [] []).

Definition pure {A} (m : comp gateway exn A) : Prop := ∀ s s', m s = (outcome_of m s', s).

Lemma pure_ret {A} (a : A) : pure (ret a). Proof. done. Qed.
Lemma pure_lift {A} (o : outcome exn A) : pure (lift o). Proof. by destruct o. Qed.
Lemma pure_bind {A B} (m : comp gateway exn A) (k : A → comp gateway exn B) :
  pure m → (∀ a, pure (k a)) → pure (bind m k).
Proof.
  intros Hm Hk s s'. unfold bind, outcome_of. rewrite (Hm s s'), (Hm s' s').
  destruct (outcome_of m s'); [apply Hk|done].
Qed.

Lemma documents_pure rc d v : pure (service_route_documents repr P rc d v).
Proof.
  unfold service_route_documents.
  repeat (intros; first [apply pure_ret | apply pure_lift | apply pure_bind | case_match]).
Qed.

Lemma documents_eq rc d v g :
  service_route_documents repr P rc d v g = (documents_of rc d v, g).
Proof. apply documents_pure. Qed.

Lemma set_some_get k o d k' :
  dict_get (set_some k o d) k' = match o with
                                 | Some v => if str_eqb k' k then Some v else dict_get d k'
                                 | None => dict_get d k'
                                 end.
Proof. destruct o; simpl; [apply dict_get_set|done]. Qed.

Lemma set_some_ne k o d k' : k' ≠ k → dict_get (set_some k o d) k' = dict_get d k'.
Proof. intros. rewrite set_some_get. destruct o; [|done]. by case_eqb. Qed.

Lemma normalize_some v s :
  normalize_scope_value v = Some s → normalize_scope_value (VStr s) = Some s.
Proof.
  destruct v; simpl; try done. destruct (str_truthy _) eqn:E; [|done]. intros [= <-].
  simpl. autorewrite with py. by rewrite E.
Qed.

(** A generated document is recognised, under its id and for its service. *)
Lemma route_document_managed id ty sid name ns ver tenant env def doc :
  ty = "default" ∨ ty = "version" →
  str_truthy sid = true → str_truthy name = true → str_truthy ns = true →
  (∀ t, tenant = Some t → normalize_scope_value (VStr t) = Some t) →
  (∀ e, env = Some e → normalize_scope_value (VStr e) = Some e) →
  route_document id ty sid name ns ver tenant env def = Ok doc →
  is_managed_route_document id doc = true ∧ route_belongs_to_service doc (sid, tenant, env) = true.
Proof.
  intros Hty Hsid Hname Hns Ht He. unfold route_document.
  destruct (as_dict_copy (get_or_none def "target_service")) as [target|] eqn:Etarget;
    [|by destruct (dict_get def "match") as [m|]; [destruct (as_dict_copy m)|]].
  assert (∃ d, target = VDict d) as [d ->].
  { unfold as_dict_copy in Etarget. destruct (get_or_none def "target_service"); simplify_eq. by eexists. }
  destruct (match dict_get def "match" with None => _ | Some m => _ end) as [mtch|]; [|done].
  intros [= <-]. set (base := [("route_id", VStr id); _; _; _; _; _]).
  set (doc := set_some "version_number" _ _).
  assert (∀ f, f ∈ ["route_id"; "route_type"; "service_id"; "service_name"; "namespace"; "target_service"] →
    dict_get doc f = dict_get base f) as Hbase.
  { intros f Hf. unfold doc. rewrite !elem_of_cons in Hf.
    repeat (destruct Hf as [->|Hf]; [by rewrite !set_some_ne|]). inv Hf. }
  assert (dict_get doc "tenant" = VStr <$> tenant) as Htenant.
  { unfold doc. rewrite !set_some_ne by done. rewrite set_some_get. by destruct tenant. }
  assert (dict_get doc "environment" = VStr <$> env) as Henv.
  { unfold doc. rewrite !set_some_ne by done. rewrite set_some_get. destruct env; [done|]. simpl.
    rewrite set_some_get. by destruct tenant. }
  assert (∀ o, (∀ t, o = Some t → normalize_scope_value (VStr t) = Some t) →
    normalize_scope_value (default VNone (VStr <$> o)) = o
    ∧ (match default VNone (VStr <$> o) with
       | VNone => true
       | v => bool_decide (is_Some (normalize_scope_value v))
       end) = true) as Hscope.
  { intros [t|] Hn; [|done]. change (default VNone (VStr <$> Some t)) with (VStr t). cbv iota beta.
    rewrite (Hn t eq_refl). by rewrite bool_decide_eq_true_2 by eauto. }
  destruct (Hscope tenant Ht) as [Ht1 Ht2], (Hscope env He) as [He1 He2].
  unfold is_managed_route_document, route_belongs_to_service, get_or_none. cbn [forallb].
  rewrite Htenant, Henv, Ht1, Ht2, He1, He2. rewrite !Hbase by by_eval. simpl.
  rewrite !str_eqb_refl, Hsid, Hname, Hns, !bool_decide_eq_true_2 by done.
  split; [|done]. by destruct Hty as [-> | ->].
Qed.

(** Whom a validated configuration's routes belong to. *)
Lemma documents_managed rc d v docs :
  documents_of rc d v = Ok docs →
  dict_wf docs ∧ ∀ id doc, dict_get docs id = Some doc →
    is_managed_route_document id doc = true
    ∧ route_belongs_to_service doc (route_service_identity repr rc) = true.
Proof.
  remember (route_service_identity repr rc) as i eqn:Hi.
  unfold documents_of, outcome_of, service_route_documents, bind.
  destruct (validate_route_config P rc) as [val|] eqn:Ev; simpl; [|done].
  destruct (validate_keeps P rc val Ev) as [Hne Hsame].
  assert (∀ f, f ∈ ["service_id"; "service_name"; "namespace"] →
    str_truthy (py_str repr (get_or_none val f)) = true) as Hstr.
  { intros f Hf. by destruct (Hne f Hf) as (x & -> & Hx). }
  assert (∀ f t, normalize_scope_value (get_or_none val f) = Some t → normalize_scope_value (VStr t) = Some t)
    as Hnorm by (intros; by eapply normalize_some).
  assert (i = (py_str repr (get_or_none val "service_id"),
    normalize_scope_value (get_or_none val "tenant"), normalize_scope_value (get_or_none val "environment"))) as ->.
  { rewrite Hi. unfold route_service_identity. by rewrite !Hsame by by_eval. }
  clear Hi.
  set (sid := py_str repr (get_or_none val "service_id")) in *.
  set (t := normalize_scope_value (get_or_none val "tenant")) in *.
  set (e := normalize_scope_value (get_or_none val "environment")) in *.
  assert (∀ id ty def doc, ty = "default" ∨ ty = "version" →
    route_document id ty sid (py_str repr (get_or_none val "service_name"))
      (py_str repr (get_or_none val "namespace")) (get_or_none val "version_number") t e def = Ok doc →
    is_managed_route_document id doc = true ∧ route_belongs_to_service doc (sid, t, e) = true) as Hdoc.
  { intros id ty def doc Hty. apply route_document_managed; try done;
      [apply Hstr; by_eval..|intros x Hx; by eapply Hnorm|intros x Hx; by eapply Hnorm]. }
  set (first := match d, get_or_none val "default_route" with true, VDict _ => _ | _, _ => _ end).
  assert (∀ g, match first g with
    | (Ok l, g') => g' = g ∧ (l = [] ∨ ∃ id doc, l = [(id, doc)]
        ∧ is_managed_route_document id doc = true ∧ route_belongs_to_service doc (sid, t, e) = true)
    | _ => True
    end) as Hfirst.
  { intros g. unfold first. destruct d; [|by split; [|left]].
    destruct (get_or_none val "default_route"); try by split; [|left].
    unfold bind. destruct (route_document _ _ _ _ _ _ _ _ _) as [doc|] eqn:Ed; simpl; [|done].
    split; [done|]. right. eexists _, _. split; [done|]. eapply Hdoc; [|exact Ed]. by left. }
  specialize (Hfirst (mk_gateway [] [] [])). destruct (first _) as [[l|] g'] eqn:Ef; [|done].
  destruct Hfirst as [_ Hl].
  assert (dict_wf l ∧ ∀ id doc, dict_get l id = Some doc →
    is_managed_route_document id doc = true ∧ route_belongs_to_service doc (sid, t, e) = true) as [Hwf Hall].
  { destruct Hl as [->|(id & doc & -> & Hm)]; [by split; [constructor|]|].
    split; [apply NoDup_singleton|]. intros id' doc'. simpl. destruct (str_eqbP id' id); [|done].
    intros [= <-]. by subst. }
  destruct v; [|by intros [= <-]].
  destruct (get_or_none val "version_route") as [| | | | | |def]; try by intros [= <-].
  destruct (version_route_id _ _ _ _ _) as [rid|]; simpl; [|done].
  destruct (route_document _ _ _ _ _ _ _ _ _) as [doc|] eqn:Ed; simpl; [|done].
  intros [= <-]. split; [by apply dict_wf_set|]. intros id doc'. rewrite dict_get_set.
  destruct (str_eqbP id rid) as [->|]; [|apply Hall]. intros [= <-]. eapply Hdoc; [|exact Ed]. by right.
Qed.
End documents.

(** ** Publishing and rolling back routes *)

Section route_operations.
Context (repr : pyval → string).
Context (P : pydantic).

Local Abbreviation documents rc := (documents_of repr P rc true true).
Local Abbreviation sync := (sync_service_routes repr P).
Local Abbreviation rollback := (rollback_service_routes repr P).

(** The routes a new configuration makes stale. *)
Definition is_stale (existing docs : dict (dict pyval)) (i : identity) (id : string) : bool :=
  match dict_get existing id with
  | Some document => negb (dict_mem docs id)
      && is_managed_route_document id document && route_belongs_to_service document i
  | None => false
  end.

Lemma stale_routes_eq existing docs matching i :
  stale_routes existing docs matching i = List.filter (is_stale existing docs i) (dict_keys existing).
Proof.
  change (stale_routes existing docs matching i) with
    (List.filter (is_stale existing docs i) (dict_keys existing)
     ++ List.filter (λ id, is_stale existing docs i id
          && negb (bool_decide (id ∈ List.filter (is_stale existing docs i) (dict_keys existing))))
          (dict_keys matching)).
  assert (List.filter (λ id, is_stale existing docs i id
    && negb (bool_decide (id ∈ List.filter (is_stale existing docs i) (dict_keys existing))))
    (dict_keys matching) = []) as ->; [|by rewrite app_nil_r].
  induction (dict_keys matching) as [|k ks IH]; simpl; [done|].
  destruct (is_stale existing docs i k) eqn:E; simpl; [|done].
  rewrite bool_decide_eq_true_2; [done|]. apply elem_of_filterb. split; [done|].
  apply dict_get_is_Some. unfold is_stale in E. destruct (dict_get existing k); [eauto|done].
Qed.

Definition stale_of rc docs g : list string :=
  List.filter (is_stale (routes g) docs (route_service_identity repr rc)) (dict_keys (routes g)).

Lemma elem_stale rc docs g k :
  k ∈ stale_of rc docs g ↔ is_stale (routes g) docs (route_service_identity repr rc) k = true.
Proof.
  unfold stale_of. rewrite elem_of_filterb. split; [by intros []|]. intros H. split; [done|].
  apply dict_get_is_Some. unfold is_stale in H. destruct (dict_get (routes g) k); [eauto|done].
Qed.

(** What the gateway held at the routes the synchronisation replaces or deletes. *)
Definition previous_of rc docs g : dict (dict pyval) :=
  dict_update (restrict (routes g) (dict_keys docs)) (restrict (routes g) (stale_of rc docs g)).

Definition synced rc docs g : gateway :=
  on_routes (λ d, dict_update (del_all (stale_of rc docs g) d) docs) g.

Lemma sync_eq rc previous g :
  sync rc previous g =
    match documents rc with
    | Raise e => (Raise e, g)
    | Ok docs =>
        match List.find (is_unmanaged (routes g)) (dict_keys docs) with
        | Some id => (Raise (refuse "overwrite" id), g)
        | None => (Ok (mk_route_sync (dict_keys docs) (length docs) (length (stale_of rc docs g))
                         (previous_of rc docs g)), synced rc docs g)
        end
    end.
Proof.
  unfold sync_service_routes, bind at 1. rewrite documents_eq.
  destruct (documents rc) as [docs|e]; [|done].
  unfold bind at 1, gets. rewrite stale_routes_eq. unfold bind at 1. rewrite refuse_all_eq.
  destruct (List.find _ _); [done|]. unfold bind. rewrite delete_routes_eq, upsert_routes_eq. done.
Qed.

Lemma find_none_unmanaged d (docs : dict (dict pyval)) :
  List.find (is_unmanaged d) (dict_keys docs) = None →
  ∀ k doc, dict_get d k = Some doc → is_Some (dict_get docs k) → is_managed_route_document k doc = true.
Proof.
  intros Hf k doc Hd Hk. apply dict_get_is_Some in Hk. eapply List.find_none in Hf; [|by apply list_elem_of_In].
  unfold is_unmanaged in Hf. rewrite Hd in Hf. by apply negb_false_iff in Hf.
Qed.

Lemma synced_get rc docs g k :
  dict_wf (routes g) → dict_wf docs →
  dict_get (routes (synced rc docs g)) k =
    match dict_get docs k with
    | Some doc => Some doc
    | None => if is_stale (routes g) docs (route_service_identity repr rc) k then None else dict_get (routes g) k
    end.
Proof.
  intros Hg Hdocs. unfold synced. simpl. rewrite dict_get_update by done.
  destruct (dict_get docs k); [done|]. rewrite dict_get_del_all by done.
  assert (bool_decide (k ∈ stale_of rc docs g) = is_stale (routes g) docs (route_service_identity repr rc) k) as ->; [|done].
  apply eq_true_iff_eq. rewrite bool_decide_eq_true. apply elem_stale.
Qed.

(** Publishing a configuration refuses, and then changes nothing, when it
    would overwrite a route it does not manage.  Otherwise the gateway holds
    exactly the configuration's documents for this service and scope: they are
    installed, the service's other managed routes are deleted, and every other
    route, every unmanaged one in particular, is untouched. *)
Theorem sync_service_routes_spec rc previous g :
  dict_wf (routes g) →
  match sync rc previous g with
  | (Raise _, g') => g' = g
  | (Ok r, g') =>
      consumers g' = consumers g ∧ policy_bindings g' = policy_bindings g
      ∧ ∃ docs, documents rc = Ok docs ∧ rs_route_ids r = dict_keys docs
        ∧ ∀ k, dict_get (routes g') k =
            match dict_get docs k, dict_get (routes g) k with
            | Some doc, _ => Some doc
            | None, Some old =>
                if is_managed_route_document k old
                   && route_belongs_to_service old (route_service_identity repr rc)
                then None else Some old
            | None, None => None
            end
        ∧ ∀ old, dict_get (routes g) k = Some old → is_managed_route_document k old = false →
            dict_get (routes g') k = Some old
  end.
Proof.
  intros Hg. rewrite sync_eq. destruct (documents rc) as [docs|e] eqn:Edocs; [|done].
  destruct (documents_managed repr P rc true true docs Edocs) as [Hwf Hman].
  destruct (List.find _ _) as [id|] eqn:Ef; [done|]. split; [done|]. split; [done|].
  exists docs. split; [done|]. split; [done|]. intros k. rewrite synced_get by done.
  unfold is_stale. rewrite dict_mem_get. split.
  - destruct (dict_get docs k) as [doc|], (dict_get (routes g) k) as [old|]; done.
  - intros old Hold Hun. rewrite Hold. destruct (dict_get docs k) as [doc|] eqn:Ek; [|by rewrite Hun].
    rewrite (find_none_unmanaged _ _ Ef k old Hold) in Hun; [done|by rewrite Ek].
Qed.

Lemma previous_get rc docs g k :
  dict_wf (routes g) → dict_wf docs →
  dict_get (previous_of rc docs g) k =
    if bool_decide (is_Some (dict_get docs k)) || is_stale (routes g) docs (route_service_identity repr rc) k
    then dict_get (routes g) k else None.
Proof.
  intros Hg Hdocs. unfold previous_of.
  rewrite dict_get_update by (apply dict_wf_restrict, NoDup_filterb; exact Hg).
  rewrite !dict_get_restrict. destruct (is_stale _ _ _ k) eqn:Es.
  - rewrite bool_decide_eq_true_2 by by apply elem_stale. rewrite orb_true_r.
    destruct (dict_get (routes g) k); [done|]. by destruct (bool_decide _).
  - rewrite bool_decide_eq_false_2 by by rewrite elem_stale, Es. rewrite orb_false_r.
    by rewrite (bool_decide_ext _ (is_Some (dict_get docs k))) by by rewrite dict_get_is_Some.
Qed.

(** Rolling back a publication with the documents it reported as previous
    restores every route of the gateway, provided the routes it replaced were the
    service's own. *)
Theorem route_rollback_restores rc previous g r g1 :
  dict_wf (routes g) → sync rc previous g = (Ok r, g1) →
  (∀ k old, k ∈ rs_route_ids r → dict_get (routes g) k = Some old →
     route_belongs_to_service old (route_service_identity repr rc) = true) →
  ∃ r' g2, rollback rc (rs_previous_routes r) g1 = (Ok r', g2)
    ∧ consumers g2 = consumers g ∧ policy_bindings g2 = policy_bindings g
    ∧ ∀ k, dict_get (routes g2) k = dict_get (routes g) k.
Proof.
  intros Hg Hsync Hown. rewrite sync_eq in Hsync. destruct (documents rc) as [docs|e] eqn:Edocs; [|done].
  destruct (documents_managed repr P rc true true docs Edocs) as [Hwf Hman].
  destruct (List.find _ _) as [id|] eqn:Ef; [done|]. injection Hsync as <- <-.
  simpl in Hown. cbn [rs_previous_routes].
  set (i := route_service_identity repr rc) in *. set (prev := previous_of rc docs g).
  assert (∀ k doc, dict_get prev k = Some doc →
    is_managed_route_document k doc && route_belongs_to_service doc i = true) as Hprev.
  { intros k doc. unfold prev. rewrite previous_get by done. fold i.
    destruct (bool_decide _) eqn:Ek; simpl.
    - intros Hk. apply bool_decide_eq_true in Ek. apply andb_true_iff. split.
      + by eapply find_none_unmanaged.
      + apply (Hown k); [by apply dict_get_is_Some|done].
    - unfold is_stale. destruct (dict_get (routes g) k) as [old|]; [|done].
      destruct (dict_mem docs k); simpl; [done|].
      destruct (is_managed_route_document k old && _) eqn:Em; [|done]. by intros [= <-]. }
  assert (dict_wf prev) as Hprevwf.
  { apply dict_wf_update, dict_wf_restrict. exact Hwf. }
  assert (∀ k, dict_get (matching_route_documents prev i) k = dict_get prev k) as Hmatch.
  { intros k. unfold matching_route_documents.
    rewrite (dict_get_filter (λ k d, is_managed_route_document k d && route_belongs_to_service d i)) by done.
    destruct (dict_get prev k) as [doc|] eqn:Ek; [|done]. by rewrite Hprev. }
  unfold rollback_service_routes, bind at 1. rewrite documents_eq, Edocs.
  unfold bind at 1, gets. fold i. unfold bind at 1.
  set (doomed := List.filter (λ id, negb (dict_mem (matching_route_documents prev i) id)) (dict_keys docs)).
  rewrite checked_deletes_eq.
  2: { intros k [_ Hk]%elem_of_filterb. apply dict_get_is_Some in Hk as [doc Hk]. unfold is_unmanaged.
       rewrite synced_get, Hk by done. apply negb_false_iff. by apply Hman. }
  unfold bind. rewrite upsert_routes_eq. eexists _, _. split; [done|]. split; [done|]. split; [done|].
  intros k. change (dict_get (dict_update (del_all doomed (routes (synced rc docs g)))
    (matching_route_documents prev i)) k = dict_get (routes g) k). rewrite dict_get_update.
  2: { apply (dict_wf_filterb (λ k d, is_managed_route_document k d && route_belongs_to_service d i)). done. }
  rewrite Hmatch. assert (dict_wf (routes (synced rc docs g))) as Hsw.
  { unfold synced. simpl. by apply dict_wf_update, dict_wf_del_all. }
  rewrite dict_get_del_all by done. rewrite synced_get by done. fold i.
  assert (bool_decide (k ∈ doomed) = bool_decide (is_Some (dict_get docs k)) && negb (bool_decide (is_Some (dict_get prev k)))) as ->.
  { apply eq_true_iff_eq. rewrite bool_decide_eq_true, andb_true_iff. unfold doomed.
    rewrite elem_of_filterb, dict_mem_get, Hmatch, <-dict_get_is_Some, bool_decide_eq_true.
    destruct (dict_get prev k) as [x|];
      [rewrite (bool_decide_eq_true_2 (is_Some (Some x))) by eauto|rewrite bool_decide_eq_false_2 by by intros [? ?]];
      naive_solver. }
  destruct (dict_get prev k) as [doc|] eqn:Ep; unfold prev in Ep; rewrite previous_get in Ep by done; fold i in Ep.
  - destruct (bool_decide _ || _); [by rewrite Ep|done].
  - destruct (dict_get docs k) as [d|] eqn:Ek.
    + assert (bool_decide (is_Some (Some d)) = true) as Hd by done. rewrite Hd in *. simpl in *. by rewrite Ep.
    + assert (bool_decide (is_Some (@None (dict pyval))) = false) as Hd by done. rewrite Hd in *. simpl in *.
      by destruct (is_stale (routes g) docs i k).
Qed.
End route_operations.

(** ** Reconciliation *)

(** One of the gateway's dictionaries, as a lens whose updates compose. *)
Record gateway_lens (V : Type) := mk_lens {
  gl_get : gateway → dict V;
  gl_on : (dict V → dict V) → gateway → gateway;
  gl_get_on : ∀ f g, gl_get (gl_on f g) = f (gl_get g);
  gl_on_on : ∀ f h g, gl_on f (gl_on h g) = gl_on (λ d, f (h d)) g;
  gl_on_id : ∀ g, gl_on (λ d, d) g = g;
}.
Arguments gl_get {V} _ _.
Arguments gl_on {V} _ _ _.
Arguments gl_on_on {V} _ _ _ _.
Arguments gl_on_id {V} _ _.

Program Definition consumers_lens : gateway_lens GatewayConsumer := mk_lens _ consumers on_consumers _ _ _.
Solve Obligations with by (try done; intros []).
Program Definition bindings_lens : gateway_lens (dict pyval) := mk_lens _ policy_bindings on_bindings _ _ _.
Solve Obligations with by (try done; intros []).
Program Definition routes_lens : gateway_lens (dict pyval) := mk_lens _ routes on_routes _ _ _.
Solve Obligations with by (try done; intros []).

Section converge.
Context {V : Type} (L : gateway_lens V).
Context (upsert : string → V → comp gateway exn unit) (delete : string → comp gateway exn unit).
Context (Hupsert : ∀ k v, upsert k v = modify (gl_on L (λ d, dict_set d k v))).
Context (Hdelete : ∀ k, delete k = modify (gl_on L (λ d, dict_del d k))).
Context (is_managed : string → V → bool) (needs : option V → V → bool).

(** The entries one pass installs, and the ids it deletes. *)
Definition installs (expected existing : dict V) : dict V :=
  List.filter (λ kv, needs (dict_get (managed_part is_managed existing) kv.1) kv.2) expected.
Definition removes {W} (expected : dict W) (existing : dict V) : list string :=
  List.filter (λ id, negb (dict_mem expected id)) (dict_keys (managed_part is_managed existing)).

Lemma sync_expected_eq expected existing g :
  sync_expected (λ k v, needs (dict_get (managed_part is_managed existing) k) v) upsert expected g
  = (Ok (length (installs expected existing)), gl_on L (λ d, dict_update d (installs expected existing)) g).
Proof.
  unfold sync_expected. enough (∀ n g,
    fold_each (λ n kv, if needs (dict_get (managed_part is_managed existing) kv.1) kv.2
      then upsert kv.1 kv.2 ;;; ret (S n) else ret n) n expected g
    = (Ok (n + length (installs expected existing))%nat,
       gl_on L (λ d, dict_update d (installs expected existing)) g)) as H by apply H.
  clear g. unfold installs. set (P := λ kv : string * V, needs (dict_get (managed_part is_managed existing) kv.1) kv.2).
  induction expected as [|kv e IH]; intros n g; cbn [fold_each List.filter].
  { cbn. rewrite Nat.add_0_r. by rewrite (gl_on_id L). }
  unfold bind at 1. fold (P kv). destruct (P kv) eqn:E.
  - rewrite Hupsert. unfold bind at 1, modify. cbn [ret]. unfold ret. rewrite IH. destruct kv as [k v]. simpl.
    rewrite (gl_on_on L). by rewrite Nat.add_succ_r.
  - unfold ret. by rewrite IH.
Qed.

Lemma delete_unexpected_eq {W} (expected : dict W) existing g :
  delete_unexpected delete (managed_part is_managed existing) expected g
  = (Ok (length (removes expected existing)), gl_on L (del_all (removes expected existing)) g).
Proof.
  unfold delete_unexpected. fold (removes expected existing). unfold bind.
  enough (∀ ids g, for_each ids delete g = (Ok tt, gl_on L (del_all ids) g)) as ->; [done|].
  clear g. induction ids as [|i ids IH]; intros g; simpl.
  { by rewrite (gl_on_id L). }
  unfold bind. rewrite Hdelete. unfold modify. rewrite IH, (gl_on_on L). done.
Qed.

(** A dictionary brought in line with what is expected: every expected entry
    is there, managed and in no need of another update; no other managed entry is
    left; every unmanaged one is as it was. *)
Definition settled (expected d d' : dict V) : Prop := ∀ k,
  match dict_get expected k with
  | Some v => ∃ v', dict_get d' k = Some v' ∧ is_managed k v' = true ∧ needs (Some v') v = false
  | None => dict_get d' k = match dict_get d k with
                            | Some w => if is_managed k w then None else Some w
                            | None => None
                            end
  end.

Definition converged (expected d : dict V) : dict V :=
  del_all (removes expected d) (dict_update d (installs expected d)).

Context (Hnone : ∀ v, needs None v = true).

Lemma converged_settled expected d :
  dict_wf expected → dict_wf d →
  (∀ k v, dict_get expected k = Some v → is_managed k v = true ∧ needs (Some v) v = false) →
  settled expected d (converged expected d).
Proof.
  intros He Hd Hexp k. unfold converged.
  assert (dict_wf (installs expected d)) as Hi.
  { apply (dict_wf_filterb (λ k v, needs (dict_get (managed_part is_managed d) k) v)). done. }
  rewrite dict_get_del_all by by apply dict_wf_update. rewrite dict_get_update by done.
  unfold installs.
  rewrite (dict_get_filter (λ k v, needs (dict_get (managed_part is_managed d) k) v)) by done.
  unfold managed_part.
  assert (bool_decide (k ∈ removes expected d) =
    match dict_get expected k, dict_get d k with None, Some w => is_managed k w | _, _ => false end) as ->.
  { apply eq_true_iff_eq. rewrite bool_decide_eq_true. unfold removes.
    rewrite elem_of_filterb, dict_mem_get, <-dict_get_is_Some. unfold managed_part.
    rewrite (dict_get_filter is_managed) by done.
    destruct (dict_get expected k), (dict_get d k) as [w|]; simpl; try (split; [intros [? [? ?]]|]; done).
    destruct (is_managed k w); split; [done|by eauto|by intros [_ [? ?]]|done]. }
  destruct (dict_get expected k) as [v|] eqn:Ek; [destruct (Hexp k v Ek) as [Hm Hs]|];
    destruct (dict_get d k) as [w|] eqn:Ew.
  - rewrite (dict_get_filter is_managed), Ew by done. destruct (is_managed k w) eqn:Ewm; [|rewrite Hnone; by eauto].
    destruct (needs (Some w) v) eqn:En; by eauto.
  - rewrite (dict_get_filter is_managed), Ew by done. rewrite Hnone. by eauto.
  - by destruct (is_managed k w).
  - done.
Qed.

(** A second pass over a settled dictionary finds nothing to do. *)
Lemma settled_stable expected d d' :
  dict_wf expected → dict_wf d' → settled expected d d' →
  installs expected d' = [] ∧ removes expected d' = [].
Proof.
  intros He Hd' Hs. unfold installs, removes. rewrite !Registry.filter_nil_iff. split.
  - intros [k v] Hin. simpl. apply dict_get_elem in Hin as Hk; [|done].
    specialize (Hs k). rewrite Hk in Hs. destruct Hs as (v' & Hv' & Hm & Hn).
    unfold managed_part. rewrite (dict_get_filter is_managed), Hv', Hm by done. done.
  - intros k Hk. apply dict_get_is_Some in Hk as [w Hw]. unfold managed_part in Hw.
    rewrite (dict_get_filter is_managed) in Hw by done. specialize (Hs k).
    rewrite dict_mem_get. destruct (dict_get expected k); [done|]. exfalso.
    destruct (dict_get d' k) as [w'|] eqn:Ew; [|done]. destruct (is_managed k w') eqn:Em; [|done].
    destruct (dict_get d k) as [w0|]; [|done]. destruct (is_managed k w0) eqn:Em0; [done|]. congruence.
Qed.

Lemma converged_wf expected d : dict_wf d → dict_wf (converged expected d).
Proof. intros. by apply dict_wf_del_all, dict_wf_update. Qed.
End converge.

(** ** What is expected is managed, and equal to itself *)

Lemma set_some_json k o d : json_wf (VDict d) → (∀ v, o = Some v → json_wf v) → json_wf (VDict (set_some k o d)).
Proof.
  intros Hd Ho. destruct o as [v|]; [|done]. specialize (Ho v eq_refl). inv Hd. simpl.
  constructor; [by apply dict_wf_set|]. rewrite Forall_forall. intros [k' v'] Hin.
  apply dict_get_elem in Hin; [|by apply dict_wf_set]. rewrite dict_get_set in Hin. simpl.
  destruct (str_eqb k' k); [by injection Hin as <-|]. apply dict_get_Some_elem in Hin.
  rename select (Forall _ d) into Hall. rewrite Forall_forall in Hall. by apply (Hall (k', v')).
Qed.

Lemma dict_get_json d k v : json_wf (VDict d) → dict_get d k = Some v → json_wf v.
Proof.
  intros Hd Hv. inv Hd. apply dict_get_Some_elem in Hv. rename select (Forall _ d) into Hall.
  rewrite Forall_forall in Hall. by apply (Hall (k, v)).
Qed.

Lemma scope_json (o : option string) v : VStr <$> o = Some v → json_wf v.
Proof. destruct o; [|done]. intros [= <-]. constructor. Qed.

Lemma route_document_json id ty sid name ns ver tenant env def doc :
  json_wf ver → json_wf (VDict def) →
  route_document id ty sid name ns ver tenant env def = Ok doc → json_wf (VDict doc).
Proof.
  intros Hver Hdef. unfold route_document.
  destruct (as_dict_copy (get_or_none def "target_service")) as [t|] eqn:Et;
    [|by destruct (dict_get def "match") as [m|]; [destruct (as_dict_copy m)|]].
  assert (json_wf t) as Ht.
  { assert (json_wf (get_or_none def "target_service")) as Hj.
    { unfold get_or_none. destruct (dict_get def _) eqn:E; [by eapply dict_get_json|constructor]. }
    unfold as_dict_copy in Et. destruct (get_or_none def "target_service"); simplify_eq. done. }
  destruct (match dict_get def "match" with None => _ | Some m => _ end) as [mtch|] eqn:Em; [|done].
  assert (∀ v, mtch = Some v → json_wf v) as Hm.
  { intros v ->. destruct (dict_get def "match") as [m|] eqn:E; [|done].
    apply (dict_get_json def) in E; [|done]. destruct m; simplify_eq/=. done. }
  intros [= <-].
  repeat (apply set_some_json; [|first [apply scope_json|done|intros v Hv; by eapply dict_get_json|idtac]]).
  - constructor; [by_eval|]. repeat (constructor; [first [done|constructor]|]). constructor.
  - by destruct ver; intros v Hv; simplify_eq.
Qed.

Section expected.
Context (repr : pyval → string) (isoformat : Z → string) (P : pydantic).

Lemma documents_json rc d v docs :
  json_wf (VDict rc) → documents_of repr P rc d v = Ok docs →
  ∀ id doc, dict_get docs id = Some doc → json_wf (VDict doc).
Proof.
  intros Hrc. unfold documents_of, outcome_of, service_route_documents, bind.
  destruct (validate_route_config P rc) as [val|] eqn:Ev; simpl; [|done].
  apply validate_json in Ev; [|done].
  assert (∀ f, json_wf (get_or_none val f)) as Hget.
  { intros f. unfold get_or_none. destruct (dict_get val f) eqn:E; [by eapply dict_get_json|constructor]. }
  set (sid := py_str repr (get_or_none val "service_id")).
  set (name := py_str repr (get_or_none val "service_name")).
  set (ns := py_str repr (get_or_none val "namespace")).
  pose proof (Hget "version_number") as Hver. pose proof (Hget "default_route") as Hdef.
  pose proof (Hget "version_route") as Hvr. clear Hget.
  assert (∀ (m : comp gateway exn (dict (dict pyval))) l g',
    m = match d, get_or_none val "default_route" with
        | true, VDict default_route =>
            doc <- lift (route_document (default_route_id sid (normalize_scope_value (get_or_none val "tenant"))
                           (normalize_scope_value (get_or_none val "environment"))) "default" sid name ns
                          (get_or_none val "version_number") (normalize_scope_value (get_or_none val "tenant"))
                          (normalize_scope_value (get_or_none val "environment")) default_route) ;;
            ret [(default_route_id sid (normalize_scope_value (get_or_none val "tenant"))
                    (normalize_scope_value (get_or_none val "environment")), doc)]
        | _, _ => ret []
        end → m (mk_gateway [] [] []) = (Ok l, g') →
    ∀ id doc, dict_get l id = Some doc → json_wf (VDict doc)) as Hfirst.
  { intros m l g' ->. destruct d; [|by intros [= <- <-]].
    destruct (get_or_none val "default_route"); try by intros [= <- <-].
    unfold bind. destruct (route_document _ _ _ _ _ _ _ _ _) as [doc|] eqn:Ed; simpl; [|done].
    intros [= <- <-] id doc' Hid. simpl in Hid. destruct (str_eqb _ _); simplify_eq.
    by eapply route_document_json, Ed. }
  set (first := match d, get_or_none val "default_route" with true, VDict _ => _ | _, _ => _ end).
  specialize (Hfirst first). destruct (first _) as [[l|] g'] eqn:Ef; [|done].
  specialize (Hfirst l g' eq_refl eq_refl). destruct v; [|by intros [= <-]].
  destruct (get_or_none val "version_route") as [| | | | | |def]; try by intros [= <-].
  destruct (version_route_id _ _ _ _ _) as [rid|]; simpl; [|done].
  destruct (route_document _ _ _ _ _ _ _ _ _) as [doc|] eqn:Ed; simpl; [|done].
  intros [= <-] id doc'. rewrite dict_get_set. destruct (str_eqb _ _); [|apply Hfirst].
  intros [= <-]. by eapply route_document_json, Ed.
Qed.

(** Invariants of a dictionary built entry by entry. *)
Definition all_entries {V} (Q : string → V → Prop) (d : dict V) : Prop :=
  dict_wf d ∧ ∀ k v, dict_get d k = Some v → Q k v.

Lemma all_entries_set {V} (Q : string → V → Prop) d k v :
  all_entries Q d → Q k v → all_entries Q (dict_set d k v).
Proof.
  intros [Hd HQ] Hv. split; [by apply dict_wf_set|]. intros k' v'. rewrite dict_get_set.
  destruct (str_eqbP k' k) as [->|]; [by intros [= <-]|apply HQ].
Qed.

Lemma all_entries_update {V} (Q : string → V → Prop) d e :
  all_entries Q d → all_entries Q e → all_entries Q (dict_update d e).
Proof.
  intros [Hd HQ] [He HQe]. split; [by apply dict_wf_update|]. intros k v. rewrite dict_get_update by done.
  destruct (dict_get e k) eqn:E; [|apply HQ]. intros [= <-]. by apply HQe.
Qed.

Lemma all_entries_list {V} (Q : string → V → Prop) (l : list (string * V)) :
  (∀ kv, kv ∈ l → Q kv.1 kv.2) → all_entries Q (dict_of_list l).
Proof.
  unfold dict_of_list, dict_update. assert (all_entries Q []) as H0 by (split; [constructor|done]).
  revert H0. generalize (@nil (string * V)). induction l as [|[k v] l IH]; intros d Hd Hl; simpl; [done|].
  apply IH; [|by intros; apply Hl; right]. apply all_entries_set; [done|]. apply (Hl (k, v)). left.
Qed.

Lemma document_self d : json_wf (VDict d) → document_differs (Some d) d = false.
Proof. intros. unfold document_differs. by rewrite py_eq_refl. Qed.

Lemma expected_consumers_ok auth :
  all_entries (λ k c, is_managed_consumer_id k = true ∧ consumer_requires_sync (Some c) c = false)
    (expected_consumers isoformat auth).
Proof.
  apply all_entries_list. intros kv ([p u] & -> & _)%list_elem_of_fmap. simpl. split; [done|].
  by rewrite !str_eqb_refl.
Qed.

Lemma expected_policy_bindings_ok policies g B g' :
  expected_policy_bindings isoformat policies g = (Ok B, g') →
  g' = g ∧ all_entries (λ k d, is_managed_policy_binding_id k = true ∧ document_differs (Some d) d = false) B.
Proof.
  intros Heq. unfold expected_policy_bindings in Heq.
  pose proof (wp_fold_each (λ acc p, doc <- lift (policy_document isoformat p) ;;
                      ret (dict_set acc (policy_binding_id (Authz.p_id p)) doc))
    (λ _ acc (s : gateway), s = g ∧ all_entries (λ k d, is_managed_policy_binding_id k = true
       ∧ document_differs (Some d) d = false) acc) (λ _ _, True) policies [] g) as H.
  unfold wp in H at 2. rewrite Heq in H. apply H; [by split; [|split; [constructor|]]|].
  intros pre p post acc s _ [-> Hacc]. unfold policy_document, wp, bind.
  destruct (IRModels.parse_risk _) as [r|]; simpl; [|done]. split; [done|]. apply all_entries_set; [done|].
  split; [done|]. apply document_self. constructor; [by_eval|]. repeat (constructor; [first [constructor|destruct (Authz.p_created_by p); constructor]|]).
  constructor.
Qed.

Lemma expected_routes_ok versions g R g' :
  (∀ v rc, v ∈ versions → Registry.vr_route_config v = Some rc → json_wf (VDict rc)) →
  expected_routes repr P versions g = (Ok R, g') →
  g' = g ∧ all_entries (λ k d, is_managed_route_document k d = true ∧ document_differs (Some d) d = false) R.
Proof.
  intros Hjson Heq. unfold expected_routes in Heq.
  set (step := λ acc v, _) in Heq.
  pose proof (wp_fold_each step (λ _ acc (s : gateway), s = g
     ∧ all_entries (λ k d, is_managed_route_document k d = true ∧ document_differs (Some d) d = false) acc)
     (λ _ _, True) versions [] g) as H.
  unfold wp in H at 2. rewrite Heq in H. apply H; [by split; [|split; [constructor|]]|].
  intros pre v post acc s Hv [-> Hacc]. unfold step, wp.
  destruct (Registry.vr_route_config v) as [rc|] eqn:Erc; [|done].
  assert (json_wf (VDict (route_config_with_scope rc (Registry.vr_tenant v) (Registry.vr_environment v)))) as Hrc.
  { unfold route_config_with_scope. repeat (apply set_some_json; [|apply scope_json]).
    apply (Hjson v); [|done]. rewrite Hv. set_solver. }
  unfold bind. rewrite documents_eq. destruct (documents_of _ _ _ _ _) as [docs|] eqn:Ed; [|done]. simpl.
  split; [done|]. apply all_entries_update; [done|].
  destruct (documents_managed repr P _ _ _ _ Ed) as [Hwf Hm]. split; [done|]. intros k d Hk. split; [by eapply Hm|].
  apply document_self. by eapply documents_json.
Qed.
End expected.

(** ** Reconciliation brings the gateway in line with the tables *)

Lemma pure_fold_each {A B} (f : B → A → comp gateway exn B) b l :
  (∀ b x, pure (f b x)) → pure (fold_each f b l).
Proof.
  intros Hf. revert b. induction l as [|x l IH]; intros b; simpl; [apply pure_ret|].
  apply pure_bind; [apply Hf|intros; apply IH].
Qed.

Section reconciliation.
Context (repr : pyval → string) (isoformat : Z → string) (P : pydantic).
Context (auth : Security.auth_tables) (policies : list Authz.Policy) (versions : list Registry.ServiceVersion).

Local Abbreviation rec := (reconcile repr isoformat P auth policies versions).
Local Abbreviation wanted_bindings := (expected_policy_bindings isoformat policies).
Local Abbreviation wanted_routes := (expected_routes repr P versions).

Lemma wanted_bindings_pure : pure wanted_bindings.
Proof.
  apply pure_fold_each. intros. apply pure_bind; [apply pure_lift|intros; apply pure_ret].
Qed.

Lemma wanted_routes_pure : pure wanted_routes.
Proof.
  apply pure_fold_each. intros d v. destruct (Registry.vr_route_config v); [|apply pure_ret].
  apply pure_bind; [apply documents_pure|intros; apply pure_ret].
Qed.

Definition managed_consumer : string → GatewayConsumer → bool := λ id _, is_managed_consumer_id id.
Definition managed_binding : string → dict pyval → bool := λ id _, is_managed_policy_binding_id id.

(** The route loop refuses an unmanaged collision and is the plain loop otherwise. *)
Definition route_refused (d : dict (dict pyval)) (kv : string * dict pyval) : bool :=
  dict_mem d kv.1 && negb (dict_mem (managed_part is_managed_route_document d) kv.1).

Definition route_loop (d : dict (dict pyval)) : nat → string * dict pyval → comp gateway exn nat := λ n kv,
  when (dict_mem d kv.1 && negb (dict_mem (managed_part is_managed_route_document d) kv.1))
    (raise (refuse "overwrite" kv.1)) ;;;
  if document_differs (dict_get (managed_part is_managed_route_document d) kv.1) kv.2
  then upsert_route kv.1 kv.2 ;;; ret (S n) else ret n.

Definition plain_loop (d : dict (dict pyval)) : nat → string * dict pyval → comp gateway exn nat := λ n kv,
  if document_differs (dict_get (managed_part is_managed_route_document d) kv.1) kv.2
  then upsert_route kv.1 kv.2 ;;; ret (S n) else ret n.

Lemma route_loop_plain d R n g :
  Forall (λ kv, route_refused d kv = false) R →
  fold_each (route_loop d) n R g = fold_each (plain_loop d) n R g.
Proof.
  intros HR. revert n g. induction HR as [|kv R Hkv _ IH]; intros n g; [done|].
  cbn [fold_each]. unfold bind at 1 2. unfold route_loop at 1. fold (route_refused d kv). rewrite Hkv.
  unfold when, bind at 1, ret at 1. fold (plain_loop d n kv). destruct (plain_loop d n kv g) as [[]]; [apply IH|done].
Qed.

Lemma route_loop_ok d R n g m g' :
  fold_each (route_loop d) n R g = (Ok m, g') → Forall (λ kv, route_refused d kv = false) R.
Proof.
  revert n g. induction R as [|kv R IH]; intros n g; [constructor|].
  cbn [fold_each]. unfold bind at 1. unfold route_loop at 1. fold (route_refused d kv).
  destruct (route_refused d kv) eqn:E; [done|]. unfold when, bind at 1, ret at 1. fold (plain_loop d n kv).
  destruct (plain_loop d n kv g) as [[]]; [|done]. intros H. constructor; [done|]. by eapply IH.
Qed.

(** The state a pass leaves, when it finishes. *)
Definition reconciled (B R : dict (dict pyval)) (g : gateway) : gateway :=
  mk_gateway
    (converged managed_consumer consumer_requires_sync (expected_consumers isoformat auth) (consumers g))
    (converged managed_binding document_differs B (policy_bindings g))
    (converged is_managed_route_document document_differs R (routes g)).

Definition pass_counters (B R : dict (dict pyval)) (g : gateway) : reconciliation :=
  let C := expected_consumers isoformat auth in
  mk_reconciliation
    (length (installs managed_consumer consumer_requires_sync C (consumers g)))
    (length (removes managed_consumer C (consumers g)))
    (length (installs managed_binding document_differs B (policy_bindings g)))
    (length (removes managed_binding B (policy_bindings g)))
    (length (installs is_managed_route_document document_differs R (routes g)))
    (length (removes is_managed_route_document R (routes g))).

Lemma reconcile_plain B R g :
  wanted_bindings g = (Ok B, g) → wanted_routes g = (Ok R, g) →
  Forall (λ kv, route_refused (routes g) kv = false) R →
  rec g = (Ok (pass_counters B R g), reconciled B R g).
Proof.
  intros HB HR Href. unfold reconcile. unfold bind at 1. rewrite HB. unfold bind at 1. rewrite HR.
  unfold bind at 1, gets, id. unfold bind at 1.
  rewrite (sync_expected_eq consumers_lens upsert_consumer ltac:(done) managed_consumer consumer_requires_sync).
  unfold bind at 1. rewrite (delete_unexpected_eq consumers_lens delete_consumer ltac:(done) managed_consumer).
  unfold bind at 1.
  rewrite (sync_expected_eq bindings_lens upsert_policy_binding ltac:(done) managed_binding document_differs).
  unfold bind at 1. rewrite (delete_unexpected_eq bindings_lens delete_policy_binding ltac:(done) managed_binding).
  unfold bind at 1. fold (route_loop (routes g)). rewrite route_loop_plain by done.
  change (fold_each (plain_loop (routes g)) 0%nat R) with
    (sync_expected (λ k v, document_differs (dict_get (managed_part is_managed_route_document (routes g)) k) v) upsert_route R).
  rewrite (sync_expected_eq routes_lens upsert_route ltac:(done) is_managed_route_document document_differs).
  unfold bind at 1. rewrite (delete_unexpected_eq routes_lens delete_route ltac:(done) is_managed_route_document).
  done.
Qed.

Lemma reconcile_ok g r g' :
  rec g = (Ok r, g') →
  ∃ B R, wanted_bindings g = (Ok B, g) ∧ wanted_routes g = (Ok R, g)
    ∧ Forall (λ kv, route_refused (routes g) kv = false) R
    ∧ r = pass_counters B R g ∧ g' = reconciled B R g.
Proof.
  intros Hrec. pose proof (wanted_bindings_pure g g) as HB. pose proof (wanted_routes_pure g g) as HR.
  unfold reconcile in Hrec. unfold bind at 1 in Hrec. rewrite HB in Hrec.
  destruct (outcome_of wanted_bindings g) as [B|]; [|done]. unfold bind at 1 in Hrec. rewrite HR in Hrec.
  destruct (outcome_of wanted_routes g) as [R|]; [|done]. exists B, R.
  unfold bind at 1, gets, id in Hrec. unfold bind at 1 in Hrec.
  rewrite (sync_expected_eq consumers_lens upsert_consumer ltac:(done) managed_consumer consumer_requires_sync) in Hrec.
  unfold bind at 1 in Hrec.
  rewrite (delete_unexpected_eq consumers_lens delete_consumer ltac:(done) managed_consumer) in Hrec.
  unfold bind at 1 in Hrec.
  rewrite (sync_expected_eq bindings_lens upsert_policy_binding ltac:(done) managed_binding document_differs) in Hrec.
  unfold bind at 1 in Hrec.
  rewrite (delete_unexpected_eq bindings_lens delete_policy_binding ltac:(done) managed_binding) in Hrec.
  unfold bind at 1 in Hrec. fold (route_loop (routes g)) in Hrec.
  destruct (fold_each (route_loop (routes g)) 0%nat R _) as [[m|] g2] eqn:El; [|done].
  pose proof (route_loop_ok _ _ _ _ _ _ El) as Href.
  rewrite route_loop_plain in El by done.
  change (fold_each (plain_loop (routes g)) 0%nat R) with
    (sync_expected (λ k v, document_differs (dict_get (managed_part is_managed_route_document (routes g)) k) v) upsert_route R) in El.
  rewrite (sync_expected_eq routes_lens upsert_route ltac:(done) is_managed_route_document document_differs) in El.
  injection El as <- <-. unfold bind at 1 in Hrec.
  rewrite (delete_unexpected_eq routes_lens delete_route ltac:(done) is_managed_route_document) in Hrec.
  injection Hrec as <- <-. done.
Qed.

Definition gateway_wf (g : gateway) : Prop :=
  dict_wf (consumers g) ∧ dict_wf (policy_bindings g) ∧ dict_wf (routes g).

(** The stored route configurations are JSON. *)
Definition configs_json : Prop :=
  ∀ v rc, v ∈ versions → Registry.vr_route_config v = Some rc → json_wf (VDict rc).

(** What a gateway in line with the tables holds, entry by entry. *)
Definition in_line (B R : dict (dict pyval)) (g g' : gateway) : Prop :=
  settled managed_consumer consumer_requires_sync (expected_consumers isoformat auth) (consumers g) (consumers g')
  ∧ settled managed_binding document_differs B (policy_bindings g) (policy_bindings g')
  ∧ settled is_managed_route_document document_differs R (routes g) (routes g').

Lemma reconciled_in_line B R g :
  configs_json → gateway_wf g → wanted_bindings g = (Ok B, g) → wanted_routes g = (Ok R, g) →
  in_line B R g (reconciled B R g) ∧ gateway_wf (reconciled B R g)
  ∧ dict_wf (expected_consumers isoformat auth) ∧ dict_wf B ∧ dict_wf R.
Proof.
  intros Hjson (Hc & Hb & Hr) HB HR.
  destruct (expected_consumers_ok isoformat auth) as [HCwf HC].
  destruct (expected_policy_bindings_ok isoformat policies g B g HB) as [_ [HBwf HBok]].
  destruct (expected_routes_ok repr P versions g R g Hjson HR) as [_ [HRwf HRok]].
  unfold in_line, gateway_wf. split_and!; try done; try by apply converged_wf.
  - by apply converged_settled.
  - by apply converged_settled.
  - by apply converged_settled.
Qed.

(** C13. A reconciliation that succeeds leaves the gateway in line with the
    control plane's tables: every active token, stored policy and published route
    is present, managed and equal to what the tables ask for; every other managed
    entry is gone; what the control plane does not manage is exactly as it was. *)
Theorem reconcile_converges g r g' :
  configs_json → gateway_wf g → rec g = (Ok r, g') →
  ∃ B R, wanted_bindings g = (Ok B, g) ∧ wanted_routes g = (Ok R, g) ∧ in_line B R g g'.
Proof.
  intros Hjson Hg (B & R & HB & HR & _ & -> & ->)%reconcile_ok. exists B, R.
  split; [done|]. split; [done|]. by apply reconciled_in_line.
Qed.

(** Reconciling again finds nothing to do: the second pass succeeds, reports
    no change, and changes nothing. *)
Theorem reconcile_idempotent g r g' :
  configs_json → gateway_wf g → rec g = (Ok r, g') →
  rec g' = (Ok (mk_reconciliation 0 0 0 0 0 0), g').
Proof.
  intros Hjson Hg (B & R & HB & HR & _ & -> & ->)%reconcile_ok.
  destruct (reconciled_in_line B R g Hjson Hg HB HR) as ((Lc & Lb & Lr) & (Wc & Wb & Wr) & HC & HBw & HRw).
  set (g' := reconciled B R g) in *.
  assert (wanted_bindings g' = (Ok B, g')) as HB'.
  { rewrite (wanted_bindings_pure g' g). unfold outcome_of. by rewrite HB. }
  assert (wanted_routes g' = (Ok R, g')) as HR'.
  { rewrite (wanted_routes_pure g' g). unfold outcome_of. by rewrite HR. }
  destruct (settled_stable _ _ _ _ _ HC Wc Lc) as [Ec Ec'].
  destruct (settled_stable _ _ _ _ _ HBw Wb Lb) as [Eb Eb'].
  destruct (settled_stable _ _ _ _ _ HRw Wr Lr) as [Er Er'].
  rewrite (reconcile_plain B R g' HB' HR').
  - unfold pass_counters, reconciled, converged. rewrite Ec, Ec', Eb, Eb', Er, Er'. by destruct g'.
  - rewrite Forall_forall. intros [k v] Hin. unfold route_refused. apply dict_get_elem in Hin; [|done].
    specialize (Lr k). rewrite Hin in Lr. destruct Lr as (v' & Hv' & Hm & _). rewrite !dict_mem_get. cbn [fst].
    unfold managed_part. rewrite (dict_get_filter is_managed_route_document), Hv' by done. by rewrite Hm.
Qed.
End reconciliation.

(** ** Witnesses *)

Definition demo_repr (_ : pyval) : string := "<value>".
Definition demo_iso (t : Z) : string := str_of_Z t.
Definition demo_pydantic : pydantic := mk_pydantic as_int (λ _, "1 validation error").

Definition demo_route (service : string) (v : Z) : dict pyval :=
  [("service_id", VStr service); ("service_name", VStr service); ("namespace", VStr "runtime");
   ("version_number", VInt v);
   ("default_route", VDict [("route_id", VStr "d"); ("target_service", VDict [("name", VStr service); ("port", VInt 8003)])]);
   ("version_route", VDict [("route_id", VStr "v"); ("target_service", VDict [("name", VStr service); ("port", VInt 8003)])])].

Definition demo_gateway : gateway := mk_gateway
  [("pat-stale", mk_consumer "bob" "h0" []); ("ops", mk_consumer "ops" "h1" [])] []
  [("hand-made", [("uri", VStr "/x")])].

(** Version 1 of the service, published. *)
Definition demo_published : gateway :=
  state_of (sync_service_routes demo_repr demo_pydantic (demo_route "billing" 1) []) demo_gateway.
Definition demo_republish :=
  sync_service_routes demo_repr demo_pydantic (demo_route "billing" 2) [] demo_published.
Definition demo_sync : route_sync :=
  match demo_republish.1 with Ok r => r | Raise _ => mk_route_sync [] 0 0 [] end.

Example demo_published_routes :
  dict_keys (routes demo_published) = ["hand-made"; "billing-active"; "billing-v1"]
  ∧ dict_keys (routes demo_republish.2) = ["hand-made"; "billing-active"; "billing-v2"]
  ∧ dict_keys (rs_previous_routes demo_sync) = ["billing-active"; "billing-v1"].
Proof. vm_compute. done. Qed.

Lemma sync_service_routes_spec_witness :
  dict_wf (routes demo_published)
  ∧ ∃ docs, documents_of demo_repr demo_pydantic (demo_route "billing" 2) true true = Ok docs
      ∧ rs_route_ids demo_sync = dict_keys docs.
Proof.
  assert (dict_wf (routes demo_published)) as Hwf by by_eval. split; [exact Hwf|].
  pose proof (sync_service_routes_spec demo_repr demo_pydantic (demo_route "billing" 2) [] demo_published Hwf) as H.
  assert (sync_service_routes demo_repr demo_pydantic (demo_route "billing" 2) [] demo_published
    = (Ok demo_sync, demo_republish.2)) as Hs by (vm_compute; reflexivity).
  rewrite Hs in H. destruct H as (_ & _ & docs & Hd & Hids & _). exists docs. split; [exact Hd|exact Hids].
Defined.

Lemma route_rollback_restores_witness :
  ∃ r' g2, rollback_service_routes demo_repr demo_pydantic (demo_route "billing" 2)
             (rs_previous_routes demo_sync) demo_republish.2 = (Ok r', g2)
    ∧ ∀ k, dict_get (routes g2) k = dict_get (routes demo_published) k.
Proof.
  assert (dict_wf (routes demo_published)) as Hwf by by_eval.
  assert (sync_service_routes demo_repr demo_pydantic (demo_route "billing" 2) [] demo_published
    = (Ok demo_sync, demo_republish.2)) as Hs by (vm_compute; reflexivity).
  destruct (route_rollback_restores demo_repr demo_pydantic _ _ _ _ _ Hwf Hs) as (r' & g2 & H1 & _ & _ & H2).
  - assert (rs_route_ids demo_sync = ["billing-active"; "billing-v2"]) as -> by (vm_compute; reflexivity).
    assert (Forall (λ k, match dict_get (routes demo_published) k with
      | Some old => route_belongs_to_service old (route_service_identity demo_repr (demo_route "billing" 2)) = true
      | None => True end) ["billing-active"; "billing-v2"]) as Hall.
    { repeat (constructor; [vm_compute; first [reflexivity|exact I]|]). constructor. }
    intros k old Hk Hold. rewrite Forall_forall in Hall. specialize (Hall k Hk). rewrite Hold in Hall. exact Hall.
  - exists r', g2. split; [exact H1|exact H2].
Defined.

Definition demo_version : Registry.ServiceVersion :=
  Registry.mk_version 1%N "billing" 1 true [] None "1.0" None None None None None (Some (demo_route "billing" 1)) None None.
Definition demo_auth : Security.auth_tables :=
  Security.mk_auth_tables [Security.mk_user 7%N "ann" VNone true] [Security.mk_pat 9%N 7%N "h9" "ci" 100 None].
Definition demo_reconcile :=
  reconcile demo_repr demo_iso demo_pydantic demo_auth [] [demo_version] demo_gateway.

Lemma demo_configs_json : configs_json [demo_version].
Proof.
  intros v rc ->%list_elem_of_singleton [= <-].
  repeat first [ constructor | by_eval | apply wf_dict | progress simpl ].
Qed.

Lemma reconcile_converges_witness :
  ∃ B R, expected_policy_bindings demo_iso [] demo_gateway = (Ok B, demo_gateway)
    ∧ expected_routes demo_repr demo_pydantic [demo_version] demo_gateway = (Ok R, demo_gateway)
    ∧ in_line demo_iso demo_auth B R demo_gateway demo_reconcile.2.
Proof.
  apply (reconcile_converges demo_repr demo_iso demo_pydantic demo_auth [] [demo_version] demo_gateway
    (mk_reconciliation 1 1 0 0 2 0)).
  - exact demo_configs_json.
  - split; [|split]; by_eval.
  - vm_compute. reflexivity.
Defined.

Lemma reconcile_idempotent_witness :
  reconcile demo_repr demo_iso demo_pydantic demo_auth [] [demo_version] demo_reconcile.2
    = (Ok (mk_reconciliation 0 0 0 0 0 0), demo_reconcile.2).
Proof.
  apply (reconcile_idempotent demo_repr demo_iso demo_pydantic demo_auth [] [demo_version] demo_gateway
    (mk_reconciliation 1 1 0 0 2 0)).
  - exact demo_configs_json.
  - split; [|split]; by_eval.
  - vm_compute. reflexivity.
Defined.

(** Distinct services whose identifiers slug alike share their routes: publishing
    [b.c] replaces the live routes of [b-c], and rolling that back deletes them. *)
Example route_ids_collide :
  let g := state_of (sync_service_routes demo_repr demo_pydantic (demo_route "b-c" 1) []) demo_gateway in
  let g1 := sync_service_routes demo_repr demo_pydantic (demo_route "b.c" 1) [] g in
  let previous := match g1.1 with Ok r => rs_previous_routes r | Raise _ => [] end in
  let g2 := state_of (rollback_service_routes demo_repr demo_pydantic (demo_route "b.c" 1) previous) g1.2 in
  dict_keys (routes g) = ["hand-made"; "b-c-active"; "b-c-v1"]
  ∧ dict_keys (routes g1.2) = ["hand-made"; "b-c-active"; "b-c-v1"]
  ∧ dict_keys (routes g2) = ["hand-made"].
Proof. vm_compute. done. Qed.
