(* ===== verification/Generator.v ===== *)
(** * Kubernetes manifests of a service ([libs/generator/generic_mode.py],
      [libs/generator/codegen_mode.py], [libs/generator/templates])

    The names, labels, route metadata and secret wiring of a generated runtime, and
    the text of its four manifests.  [yaml.safe_dump] and [yaml.safe_load], gzip
    with base64, SHA-256 and the serialised description are parameters.  Text is
    ASCII: [str.isalnum] of other letters is true in Python. *)

From S2P Require Export IRModels RouteConfig SecretRefs PyUrl.
From Stdlib Require Import Ascii.

Definition DEFAULT_SERVICE_IR_PATH : string := "/config/service-ir.json.gz".
Definition _MAX_RESOURCE_NAME_LENGTH : nat := 63.
Definition _RESERVED_SELECTOR_LABELS : list string := ["app.kubernetes.io/name"; "app.kubernetes.io/instance"].

Record GenericManifestConfig := mk_manifest_config {
  mc_runtime_image : string;
  mc_service_id : option string;
  mc_version_number : option Z;
  mc_namespace : string;
  mc_replicas : Z;
  mc_container_port : Z;
  mc_service_port : Z;
  mc_name_suffix : option string;
  mc_image_pull_policy : string;
  mc_runtime_secret_name : option string;
  mc_labels : dict string;
  mc_image_pull_secrets : list string;
  mc_node_selector : dict string;
}.

Definition blank (s : string) : bool := negb (str_truthy (strip s)).
Definition opt_holds {A} (p : A → bool) (o : option A) : bool := match o with Some a => p a | None => false end.

(** [__post_init__]: the first condition that holds is reported. *)
Fixpoint reject (checks : list (bool * string)) : outcome exn unit :=
  match checks with
  | [] => Ok tt
  | (b, m) :: rest => if b then Raise (value_error m) else reject rest
  end.

Definition check_config (c : GenericManifestConfig) : outcome exn unit :=
  let reserved := sorted_strings (List.filter (λ k, dict_mem (mc_labels c) k) _RESERVED_SELECTOR_LABELS) in
  reject [
    (blank (mc_runtime_image c), "runtime_image must not be empty.");
    (blank (mc_namespace c), "namespace must not be empty.");
    (mc_replicas c <? 1, "replicas must be >= 1.");
    ((mc_container_port c <? 1) || (65535 <? mc_container_port c), "container_port must be between 1 and 65535.");
    ((mc_service_port c <? 1) || (65535 <? mc_service_port c), "service_port must be between 1 and 65535.");
    (opt_holds blank (mc_service_id c), "service_id must not be empty when provided.");
    (opt_holds (λ v, v <? 1) (mc_version_number c), "version_number must be >= 1 when provided.");
    (opt_holds blank (mc_runtime_secret_name c), "runtime_secret_name must not be empty when provided.");
    (match reserved with [] => false | _ => true end,
     "labels must not override reserved selector labels: " +:+ join ", " reserved +:+ ".")].

(** ** Names *)

(** [s[:n]] and [s.rstrip("-")] *)
Definition str_take (n : nat) (s : string) : string := of_chars (take n (chars s)).
Definition rstrip_dash (s : string) : string := of_chars (rstrip_dashes (chars s)).

(** [_sanitize_dns_label]: runs of other characters become one dash. *)
Definition _sanitize_dns_label (value : string) : string :=
  let label := of_chars (rstrip_dashes (drop_dashes (slug_chars false (chars (lower value))))) in
  rstrip_dash (str_take _MAX_RESOURCE_NAME_LENGTH (if str_truthy label then label else "service")).

(** [_suffixed_resource_name]; natural-number subtraction is [max(... , 0)]. *)
Definition _suffixed_resource_name (base_name suffix : string) : string :=
  let trimmed_base := _sanitize_dns_label base_name in
  let trimmed_suffix := _sanitize_dns_label suffix in
  let max_base_length := (_MAX_RESOURCE_NAME_LENGTH - String.length trimmed_suffix - 1)%nat in
  let trimmed_base := rstrip_dash (str_take max_base_length trimmed_base) in
  let trimmed_base := if str_truthy trimmed_base then trimmed_base else "service" in
  let max_suffix_length := (_MAX_RESOURCE_NAME_LENGTH - String.length trimmed_base - 1)%nat in
  let trimmed_suffix := rstrip_dash (str_take max_suffix_length trimmed_suffix) in
  if str_truthy trimmed_suffix then trimmed_base +:+ "-" +:+ trimmed_suffix
  else let name := rstrip_dash (str_take _MAX_RESOURCE_NAME_LENGTH trimmed_base) in
       if str_truthy name then name else "service".

Definition _resource_name (service_name : string) (suffix : option string) : string :=
  let base_name := _sanitize_dns_label service_name in
  if opt_truthy suffix then _suffixed_resource_name base_name (default "" suffix) else base_name.

Definition version_text (v : Z) : string := "v" +:+ str_of_Z v.

Definition _versioned_resource_name (base_name : string) (version_number : option Z) : string :=
  match version_number with
  | None => base_name
  | Some v => _suffixed_resource_name base_name (version_text v)
  end.

Definition runtime_service_name (service_name : string) (version_number : option Z) (name_suffix : option string) : string :=
  _versioned_resource_name (_resource_name service_name name_suffix) version_number.

(** ** Upstream ports *)

(** The part of a network location after the last [@] *)
Fixpoint after_last (c : ascii) (s : string) : string :=
  match s with
  | EmptyString => ""
  | String a s' =>
      match split_first c s' with
      | Some _ => after_last c s'
      | None => if bool_decide (a = c) then s' else s
      end
  end.

(** [SplitResult.port] *)
Definition port_text (netloc : string) : string :=
  let hostinfo := after_last "@"%char netloc in
  let from := match split_first "["%char hostinfo with
              | Some (_, bracketed) => default "" (snd <$> split_first "]"%char bracketed)
              | None => hostinfo
              end in
  default "" (snd <$> split_first ":"%char from).

Definition url_port (u : SplitResult) : outcome exn (option Z) :=
  let text := port_text (netloc u) in
  if negb (str_truthy text) then Ok None
  else match (if str_all is_digit text then int_of_text text else None) with
       | Some p => if p <=? 65535 then Ok (Some p) else Raise (value_error "Port out of range 0-65535")
       | None => Raise (value_error ("Port could not be cast to integer value as " +:+ text))
       end.

Definition scheme_default_ports : dict Z :=
  [("http", 80); ("https", 443); ("grpc", 50051); ("grpcs", 443); ("ws", 80); ("wss", 443)].

(** [_upstream_port] *)
Definition _upstream_port (base_url : string) : outcome exn Z :=
  let! u := urlsplit base_url in
  let! port := url_port u in
  Ok (match port with Some p => p | None => default 443 (dict_get scheme_default_ports (scheme u)) end).

(** [_egress_ports] *)
Definition _egress_ports (ir : ServiceIR) : outcome exn (list Z) :=
  let! port := _upstream_port (ir_base_url ir) in
  match ac_oauth2 (ir_auth ir) with
  | None => Ok [port]
  | Some o => let! token_port := _upstream_port (oc_token_url o) in
              Ok (if bool_decide (token_port ∈ [port]) then [port] else [port; token_port])
  end.

(** ** Hosts, transports *)

Definition append_new (l : list string) (x : string) : list string := if bool_decide (x ∈ l) then l else l ++ [x].

Definition _runtime_allowed_hosts (resource_name namespace : string) : list string :=
  let ns := resource_name +:+ "." +:+ namespace in
  foldl (λ hosts host, append_new (append_new hosts host) (host +:+ ":*")) []
    [resource_name; ns; ns +:+ ".svc"; ns +:+ ".svc.cluster.local"].

Definition _has_supported_native_grpc_stream (ir : ServiceIR) : bool :=
  existsb (λ d, match ed_transport d, ed_support d, ed_grpc_stream d with
                | grpc_stream_transport, supported, Some g => str_eqb (stream_mode_value (gs_mode g)) "server"
                | _, _, _ => false
                end) (ir_event_descriptors ir).

Definition _has_native_grpc_unary (ir : ServiceIR) : bool :=
  existsb (λ o, op_enabled o && given (op_grpc_unary o)) (ir_operations ir).

(** ** Secrets *)

Definition add_ref (refs : list string) (secret_ref : option string) : list string :=
  match secret_ref with
  | Some r => if str_truthy r then append_new refs r else refs
  | None => refs
  end.

(** [_runtime_secret_refs] *)
Definition _runtime_secret_refs (auth : AuthConfig) : list string :=
  let oauth2 := ac_oauth2 auth in let mtls := ac_mtls auth in
  foldl add_ref []
    [ac_runtime_secret_ref auth; ac_basic_password_ref auth;
     oauth2 ≫= oc_client_id_ref; oc_client_secret_ref <$> oauth2;
     ml_cert_ref <$> mtls; ml_key_ref <$> mtls; mtls ≫= ml_ca_ref;
     sg_secret_ref <$> ac_request_signing auth].

Record secret_env := mk_secret_env { se_env_name : string; se_secret_name : string; se_secret_key : string }.

(** [_runtime_secret_envs] *)
Definition _runtime_secret_envs (auth : AuthConfig) (runtime_secret_name : option string) : list secret_env :=
  match runtime_secret_name with
  | None => []
  | Some name =>
      (λ r, mk_secret_env (normalized_secret_ref_name r) name (kubernetes_secret_key_name r)) <$> _runtime_secret_refs auth
  end.

(** [_validate_runtime_secret_configuration] *)
Definition _validate_runtime_secret_configuration (auth : AuthConfig) (runtime_secret_name : option string) : outcome exn unit :=
  let secret_refs := _runtime_secret_refs auth in
  match secret_refs, runtime_secret_name with
  | _ :: _, None =>
      Raise (value_error ("runtime_secret_name must be configured when auth requires runtime secret refs: "
                          +:+ join ", " secret_refs +:+ "."))
  | _, _ => ensure_no_secret_ref_name_collisions secret_refs "generic manifest runtime secret wiring"
  end.

(** ** Route metadata *)

(** A manifest set: four documents, the route configuration, the text *)
Record GeneratedManifestSet := mk_manifest_set {
  gm_config_map : dict pyval;
  gm_deployment : dict pyval;
  gm_service : dict pyval;
  gm_network_policy : dict pyval;
  gm_route_config : dict pyval;
  gm_yaml : string;
}.

Definition line_feed : string := String (ascii_of_N 10) "".
Definition vstr_pairs (d : dict string) : dict pyval := (λ kv, (kv.1, VStr kv.2)) <$> d.

Section generator.
(** [hashlib.sha256(s.encode()).hexdigest()], [yaml.safe_dump(mapping,
    sort_keys=True, default_flow_style=False)], [yaml.safe_load] of a rendered
    template, [serialize_ir], and gzip followed by base64 *)
Context (sha256_hex : string → string) (safe_dump : dict string → string) (safe_load : string → outcome exn pyval)
        (serialize_ir : ServiceIR → string) (gzip_base64 : string → string).

(** [_route_base_name] *)
Definition _route_base_name (ir : ServiceIR) (c : GenericManifestConfig) : string :=
  let original := default (ir_service_name ir) (mc_service_id c) in
  _sanitize_dns_label (_sanitize_dns_label original +:+ "-" +:+ str_take 8 (sha256_hex original)).

(** [_route_identity_base] *)
Definition _route_identity_base (ir : ServiceIR) (c : GenericManifestConfig) : string :=
  join "-" ([_route_base_name ir c]
    ++ (if opt_truthy (ir_tenant ir) then ["tenant"; _sanitize_dns_label (default "" (ir_tenant ir))] else [])
    ++ (if opt_truthy (ir_environment ir) then ["env"; _sanitize_dns_label (default "" (ir_environment ir))] else [])).

Definition scope_entry (k : string) (o : option string) : dict pyval :=
  if opt_truthy o then [(k, VStr (default "" o))] else [].

(** [build_route_config] *)
Definition build_route_config (ir : ServiceIR) (c : GenericManifestConfig) (resource_name route_base_name : option string) : dict pyval :=
  let resource_name := if opt_truthy resource_name then default "" resource_name
                       else runtime_service_name (ir_service_name ir) (mc_version_number c) (mc_name_suffix c) in
  let route_base := if opt_truthy route_base_name then default "" route_base_name else _route_identity_base ir c in
  let target_service := VDict [("host", VStr resource_name); ("namespace", VStr (mc_namespace c)); ("port", VInt (mc_service_port c))] in
  [("service_id", VStr (_route_base_name ir c)); ("service_name", VStr resource_name); ("namespace", VStr (mc_namespace c));
   ("default_route", VDict [("route_id", VStr (route_base +:+ "-active")); ("target_service", target_service);
                            ("switch_strategy", VStr "atomic-upstream-swap")])]
  ++ scope_entry "tenant" (ir_tenant ir) ++ scope_entry "environment" (ir_environment ir)
  ++ match mc_version_number c with
     | Some v =>
         [("version_number", VInt v);
          ("version_route", VDict [("route_id", VStr (route_base +:+ "-v" +:+ str_of_Z v));
             ("match", VDict [("headers", VDict [("x-tool-compiler-version", VStr (str_of_Z v))])]);
             ("target_service", target_service)])]
     | None => [("version_route", VNone)]
     end.

(** ** Labels, annotations and text *)

Definition _annotations_for (ir : ServiceIR) : dict string :=
  [("tool-compiler-v2/base-url", ir_base_url ir); ("tool-compiler-v2/compiler-version", ir_compiler_version ir);
   ("tool-compiler-v2/ir-version", ir_version ir); ("tool-compiler-v2/protocol", ir_protocol ir);
   ("tool-compiler-v2/service-name", ir_service_name ir); ("tool-compiler-v2/source-hash", ir_source_hash ir)]
  ++ (if opt_truthy (ir_environment ir) then [("tool-compiler-v2/environment", default "" (ir_environment ir))] else [])
  ++ (if opt_truthy (ir_tenant ir) then [("tool-compiler-v2/tenant", default "" (ir_tenant ir))] else []).

Definition selector_labels (resource_name : string) : dict string :=
  [("app.kubernetes.io/name", resource_name); ("app.kubernetes.io/instance", resource_name)].

Definition labels_for (ir : ServiceIR) (c : GenericManifestConfig) (resource_name : string) : dict string :=
  let labels := dict_update (selector_labels resource_name ++
    [("app.kubernetes.io/component", "generic-mcp-runtime"); ("app.kubernetes.io/managed-by", "tool-compiler-v2");
     ("app.kubernetes.io/part-of", "tool-compiler-v2"); ("tool-compiler-v2/service-id", _route_base_name ir c)]) (mc_labels c) in
  match mc_version_number c with
  | Some v => dict_set labels "tool-compiler-v2/version" (str_of_Z v)
  | None => labels
  end.

Fixpoint spaces (n : nat) : string := match n with O => "" | S n' => String " " (spaces n') end.

(** [_yaml_block]; the dumped text breaks its lines with line feeds. *)
Definition _yaml_block (indent : nat) (mapping : dict string) : string :=
  join line_feed ((λ l, spaces indent +:+ l) <$> split_on (ascii_of_N 10) (rstrip (safe_dump mapping))).

(** A rendered template: its lines, stripped at both ends *)
Definition template (lines : list string) : string := strip (join line_feed lines).

Definition header (api_version kind name namespace labels annotations : string) : list string :=
  ["apiVersion: " +:+ api_version; "kind: " +:+ kind; "metadata:"; "  name: " +:+ name; "  namespace: " +:+ namespace;
   "  labels:"; labels; "  annotations:"; annotations].

Definition quoted (s : string) : string := let q := String (ascii_of_N 34) "" in q +:+ s +:+ q.

(** [configmap.yaml.j2] *)
Definition config_map_yaml (name namespace labels annotations payload : string) : string :=
  template (header "v1" "ConfigMap" name namespace labels annotations ++
    ["binaryData:"; "  service-ir.json.gz: " +:+ quoted payload]).

(** [deployment.yaml.j2]; [unary] and [stream] enable the native gRPC transports. *)
Definition deployment_yaml (c : GenericManifestConfig) (name config_map_name allowed_hosts labels4 annotations4 selector6 labels8
    annotations8 : string) (unary stream : bool) (secret_envs : list secret_env) : string :=
  let port := str_of_Z (mc_container_port c) in
  let flag b var := if b : bool then ["            - name: " +:+ var; "              value: " +:+ quoted "true"] else [] in
  template (header "apps/v1" "Deployment" name (mc_namespace c) labels4 annotations4 ++
    ["spec:"; "  replicas: " +:+ str_of_Z (mc_replicas c); "  selector:"; "    matchLabels:"; selector6;
     "  template:"; "    metadata:"; "      labels:"; labels8; "      annotations:"; annotations8;
     "    spec:"; "      automountServiceAccountToken: false"] ++
    (match mc_image_pull_secrets c with
     | [] => []
     | l => "      imagePullSecrets:" :: ((λ s, "        - name: " +:+ s) <$> l)
     end) ++
    (match mc_node_selector c with
     | [] => []
     | d => "      nodeSelector:" :: ((λ kv, "        " +:+ kv.1 +:+ ": " +:+ kv.2) <$> d)
     end) ++
    ["      securityContext:"; "        runAsNonRoot: true"; "        runAsUser: 10001"; "        runAsGroup: 10001";
     "        seccompProfile:"; "          type: RuntimeDefault";
     "      containers:"; "        - name: runtime"; "          image: " +:+ mc_runtime_image c;
     "          imagePullPolicy: " +:+ mc_image_pull_policy c; "          env:";
     "            - name: SERVICE_IR_PATH"; "              value: " +:+ DEFAULT_SERVICE_IR_PATH;
     "            - name: APP_PORT"; "              value: " +:+ quoted port;
     "            - name: TMPDIR"; "              value: /tmp";
     "            - name: MCP_ALLOWED_HOSTS"; "              value: " +:+ allowed_hosts] ++
    flag unary "ENABLE_NATIVE_GRPC_UNARY" ++ flag stream "ENABLE_NATIVE_GRPC_STREAM" ++
    concat ((λ e, ["            - name: " +:+ se_env_name e; "              valueFrom:"; "                secretKeyRef:";
                   "                  name: " +:+ se_secret_name e; "                  key: " +:+ se_secret_key e]) <$> secret_envs) ++
    ["          ports:"; "            - name: http"; "              containerPort: " +:+ port; "              protocol: TCP";
     "          livenessProbe:"; "            httpGet:"; "              path: /healthz"; "              port: http";
     "            initialDelaySeconds: 5"; "            timeoutSeconds: 3";
     "          readinessProbe:"; "            httpGet:"; "              path: /readyz"; "              port: http";
     "            initialDelaySeconds: 10"; "            timeoutSeconds: 10"; "            periodSeconds: 15";
     "          securityContext:"; "            allowPrivilegeEscalation: false"; "            capabilities:"; "              drop:";
     "                - ALL"; "            readOnlyRootFilesystem: true";
     "          volumeMounts:"; "            - name: service-ir"; "              mountPath: /config"; "              readOnly: true";
     "            - name: tmp"; "              mountPath: /tmp";
     "      volumes:"; "        - name: service-ir"; "          configMap:"; "            name: " +:+ config_map_name;
     "            items:"; "              - key: service-ir.json.gz"; "                path: service-ir.json.gz";
     "        - name: tmp"; "          emptyDir:"; "            sizeLimit: 256Mi"]).

(** [service.yaml.j2] *)
Definition service_yaml (c : GenericManifestConfig) (name labels annotations selector : string) : string :=
  template (header "v1" "Service" name (mc_namespace c) labels annotations ++
    ["spec:"; "  type: ClusterIP"; "  selector:"; selector; "  ports:"; "    - name: http";
     "      port: " +:+ str_of_Z (mc_service_port c); "      targetPort: http"; "      protocol: TCP"]).

(** [networkpolicy.yaml.j2] *)
Definition network_policy_yaml (c : GenericManifestConfig) (name labels annotations selector : string) (egress_ports : list Z) : string :=
  let anywhere := ["    - to:"; "        - ipBlock:"; "            cidr: 0.0.0.0/0"; "      ports:"] in
  template (header "networking.k8s.io/v1" "NetworkPolicy" name (mc_namespace c) labels annotations ++
    ["spec:"; "  podSelector:"; "    matchLabels:"; selector; "  policyTypes:"; "    - Egress"; "  egress:"] ++
    concat ((λ p, anywhere ++ ["        - protocol: TCP"; "          port: " +:+ str_of_Z p]) <$> egress_ports) ++
    anywhere ++ ["        - protocol: UDP"; "          port: 53"; "        - protocol: TCP"; "          port: 53"]).

(** [_parse_manifest] *)
Definition _parse_manifest (rendered : string) : outcome exn (dict pyval) :=
  let! document := safe_load rendered in
  match document with
  | VDict d => Ok d
  | _ => Raise (value_error "Rendered manifest is not a YAML mapping.")
  end.

(** [generate_generic_manifests] *)
Definition generate_generic_manifests (ir : ServiceIR) (c : GenericManifestConfig) : outcome exn GeneratedManifestSet :=
  let! _ := _validate_runtime_secret_configuration (ir_auth ir) (mc_runtime_secret_name c) in
  let name := runtime_service_name (ir_service_name ir) (mc_version_number c) (mc_name_suffix c) in
  let labels := labels_for ir c name in
  let annotations := _annotations_for ir in
  let route_config := build_route_config ir c (Some name) (Some (_route_identity_base ir c)) in
  let secret_envs := _runtime_secret_envs (ir_auth ir) (mc_runtime_secret_name c) in
  let config_map_name := _suffixed_resource_name name "ir" in
  let! egress_ports := _egress_ports ir in
  let labels4 := _yaml_block 4 labels in
  let annotations4 := _yaml_block 4 annotations in
  let selector := selector_labels name in
  let texts :=
    [config_map_yaml config_map_name (mc_namespace c) labels4 annotations4 (gzip_base64 (serialize_ir ir));
     deployment_yaml c name config_map_name (join "," (_runtime_allowed_hosts name (mc_namespace c))) labels4 annotations4
       (_yaml_block 6 selector) (_yaml_block 8 labels) (_yaml_block 8 annotations)
       (_has_native_grpc_unary ir) (_has_supported_native_grpc_stream ir) secret_envs;
     service_yaml c name labels4 annotations4 (_yaml_block 4 selector);
     network_policy_yaml c name labels4 annotations4 (_yaml_block 6 selector) egress_ports] in
  let! config_map := _parse_manifest (texts !!! 0%nat) in
  let! deployment := _parse_manifest (texts !!! 1%nat) in
  let! service := _parse_manifest (texts !!! 2%nat) in
  let! network_policy := _parse_manifest (texts !!! 3%nat) in
  Ok (mk_manifest_set config_map deployment service network_policy route_config
        (join (line_feed +:+ "---" +:+ line_feed) texts +:+ line_feed)).

(** [generate_codegen_manifests]; its image, when there is none of its own, is the
    runtime's. *)
Definition codegen_config (c : GenericManifestConfig) (codegen_image : option string) : GenericManifestConfig :=
  mk_manifest_config (if opt_truthy codegen_image then default "" codegen_image else mc_runtime_image c)
    (mc_service_id c) (mc_version_number c) (mc_namespace c) (mc_replicas c) (mc_container_port c) (mc_service_port c)
    (mc_name_suffix c) (mc_image_pull_policy c) (mc_runtime_secret_name c)
    (dict_set (mc_labels c) "tool-compiler-v2/runtime-mode" "codegen") (mc_image_pull_secrets c) (mc_node_selector c).

(** [dict(d.get(k, {}))]; an entry is a mapping or nothing dict() reads. *)
Definition as_dict_or_empty (v : option pyval) : outcome exn (dict pyval) :=
  match v with
  | None => Ok []
  | Some (VDict d) => Ok d
  | Some _ => Raise (type_error "value is not a mapping")
  end.

Definition generate_codegen_manifests (ir : ServiceIR) (c : GenericManifestConfig) (codegen_image : option string)
    : outcome exn GeneratedManifestSet :=
  let generic := codegen_config c codegen_image in
  let! _ := check_config generic in
  let! g := generate_generic_manifests ir generic in
  let! metadata := as_dict_or_empty (dict_get (gm_deployment g) "metadata") in
  let! annotations := as_dict_or_empty (dict_get metadata "annotations") in
  let annotations := dict_set annotations "tool-compiler-v2/runtime-mode" (VStr "codegen") in
  let deployment := dict_set (gm_deployment g) "metadata" (VDict (dict_set metadata "annotations" (VDict annotations))) in
  Ok (mk_manifest_set (gm_config_map g) deployment (gm_service g) (gm_network_policy g) (gm_route_config g) (gm_yaml g)).
End generator.

(** [build_capability_manifest] *)
Definition build_capability_manifest (ir : ServiceIR) : dict pyval :=
  let tool o := VDict [("id", VStr (op_id o)); ("name", VStr (op_name o)); ("description", VStr (op_description o));
                       ("method", opt_str (op_method o)); ("path", opt_str (op_path o))] in
  let resource r := VDict [("uri", VStr (rd_uri r)); ("name", VStr (rd_name r)); ("description", VStr (rd_description r));
                           ("mime_type", VStr (rd_mime_type r))] in
  let argument a := VDict [("name", VStr (pr_name a)); ("description", VStr (pr_description a)); ("required", VBool (pr_required a))] in
  let prompt p := VDict [("name", VStr (pd_name p)); ("description", VStr (pd_description p));
                         ("arguments", VList (argument <$> pd_arguments p))] in
  [("tools", VList (tool <$> List.filter op_enabled (ir_operations ir)));
   ("resources", VList (resource <$> ir_resource_definitions ir));
   ("prompts", VList (prompt <$> ir_prompt_definitions ir))].

(** ** Labels of names

    A clean label has no dash at its start ([clean true]) or its end and no two
    dashes in a row; these are the fixed points of [_sanitize_dns_label]. *)

Fixpoint clean (in_run : bool) (l : list ascii) : bool :=
  match l with
  | [] => true
  | c :: l' => if is_slug_char c then clean false l' else bool_decide (c = "-"%char) && negb in_run && clean true l'
  end.

Definition label (l : list ascii) : Prop := clean true l = true ∧ last l ≠ Some "-"%char.

Lemma slug_chars_clean b l : clean b (slug_chars b l) = true.
Proof.
  revert b. induction l as [|c l IH]; intros b; simpl; [done|]. destruct (is_slug_char c) eqn:E; simpl; [by rewrite E|].
  destruct b; [apply IH|]. simpl. apply IH.
Qed.

Lemma clean_slug b l : clean b l = true → slug_chars b l = l.
Proof.
  revert b. induction l as [|c l IH]; intros b; simpl; [done|]. destruct (is_slug_char c); [by intros ->%IH|].
  rewrite !andb_true_iff, bool_decide_eq_true, negb_true_iff. intros [[-> ->] ->%IH]. done.
Qed.

Lemma clean_weaken b l : clean true l = true → clean b l = true.
Proof. destruct b, l as [|c l]; simpl; [done..|]. destruct (is_slug_char c); [done|]. by rewrite andb_false_r. Qed.

Lemma clean_take n b l : clean b l = true → clean b (take n l) = true.
Proof.
  revert n b. induction l as [|c l IH]; intros [|n] b; simpl; try done. destruct (is_slug_char c); [apply IH|].
  rewrite !andb_true_iff. intros [? ?]. split; [done|]. by apply IH.
Qed.

Lemma drop_dashes_clean l : clean false l = true → clean true (drop_dashes l) = true.
Proof.
  destruct l as [|c l]; [done|]. simpl. destruct (is_slug_char c) eqn:E.
  - intros H. rewrite bool_decide_eq_false_2; [simpl; by rewrite E|]. intros ->. by vm_compute in E.
  - rewrite !andb_true_iff, bool_decide_eq_true. intros [[-> _] H]. rewrite bool_decide_eq_true_2 by done.
    destruct l as [|d l]; [done|]. simpl in H |- *. destruct (is_slug_char d) eqn:Ed; [|by rewrite andb_false_r in H].
    rewrite bool_decide_eq_false_2; [simpl; by rewrite Ed|]. intros ->. by vm_compute in Ed.
Qed.

Lemma rstrip_dashes_snoc l c : rstrip_dashes (l ++ [c]) = if bool_decide (c = "-"%char) then rstrip_dashes l else l ++ [c].
Proof.
  unfold rstrip_dashes. rewrite rev_app_distr. simpl. case_bool_decide; [done|]. simpl. by rewrite rev_involutive.
Qed.

Lemma rstrip_dashes_prefix l : rstrip_dashes l `prefix_of` l ∧ last (rstrip_dashes l) ≠ Some "-"%char.
Proof.
  induction l as [|c l IH] using rev_ind; [by split; [apply prefix_nil|]|]. rewrite rstrip_dashes_snoc. case_bool_decide as Hc.
  - destruct IH as [Hp Hl]. split; [|done]. by apply prefix_app_r.
  - rewrite last_snoc. split; [done|]. by intros [= ?].
Qed.

Lemma rstrip_dashes_id l : last l ≠ Some "-"%char → rstrip_dashes l = l.
Proof.
  destruct l as [|c l _] using rev_ind; [done|]. rewrite last_snoc, rstrip_dashes_snoc. intros H.
  rewrite bool_decide_eq_false_2; [done|]. intros ->. by apply H.
Qed.

Lemma label_rstrip l : clean true l = true → label (rstrip_dashes l).
Proof.
  intros H. destruct (rstrip_dashes_prefix l) as [[k Hk] Hl]. split; [|done].
  rewrite Hk in H. rewrite <-(take_app_length (rstrip_dashes l) k). by apply clean_take.
Qed.

Lemma rstrip_dashes_nonempty c l : is_slug_char c = true → rstrip_dashes (c :: l) ≠ [].
Proof.
  intros Hc. induction l as [|d l IH] using rev_ind.
  - unfold rstrip_dashes. simpl. rewrite bool_decide_eq_false_2; [done|]. intros ->. by vm_compute in Hc.
  - change (c :: (l ++ [d])) with ((c :: l) ++ [d]). rewrite rstrip_dashes_snoc. by case_bool_decide.
Qed.

Lemma clean_true_cons c l : clean true (c :: l) = true → is_slug_char c = true.
Proof. simpl. destruct (is_slug_char c); [done|]. by rewrite andb_false_r. Qed.

Lemma clean_app b l m : clean b l = true → (∀ b', clean b' m = true) → clean b (l ++ m) = true.
Proof.
  intros Hl Hm. revert b Hl. induction l as [|c l IH]; intros b; simpl; [intros; apply Hm|].
  destruct (is_slug_char c); [apply IH|]. rewrite !andb_true_iff. intros [? ?]. split; [done|]. by apply IH.
Qed.

Definition valid_label (s : string) : Prop := label (chars s) ∧ s ≠ "" ∧ (String.length s ≤ 63)%nat.

Lemma lower_char_slug c : is_slug_char c = true ∨ c = "-"%char → lower_char c = c.
Proof. destruct c as [[] [] [] [] [] [] [] []]; intros [|]; done. Qed.

Lemma lower_clean b s : clean b (chars s) = true → lower s = s.
Proof.
  revert b. induction s as [|c s IH]; intros b; [done|]. cbn [String.list_ascii_of_string clean].
  change (lower (String c s)) with (String (lower_char c) (lower s)).
  destruct (is_slug_char c) eqn:E.
  - intros H%IH. by rewrite H, lower_char_slug by auto.
  - rewrite !andb_true_iff, bool_decide_eq_true. intros [[-> _] H%IH]. by rewrite H.
Qed.

(** Trimming a clean label that is not empty leaves one, no longer than asked. *)
Lemma trim_valid n s : valid_label s → (0 < n)%nat →
  valid_label (rstrip_dash (str_take n s)) ∧ (String.length (rstrip_dash (str_take n s)) ≤ n)%nat.
Proof.
  intros ([Hc _] & Hne & H63) Hn. unfold rstrip_dash, str_take. rewrite chars_of.
  assert (String.length (of_chars (rstrip_dashes (take n (chars s)))) ≤ n ∧
          String.length (of_chars (rstrip_dashes (take n (chars s)))) ≤ String.length s)%nat as [H1 H2].
  { rewrite length_of_chars. destruct (rstrip_dashes_prefix (take n (chars s))) as [Hp%prefix_length _].
    rewrite length_take, length_chars in Hp. lia. }
  split; [|done]. split; [|split; [|lia]].
  - rewrite chars_of. by apply label_rstrip, clean_take.
  - apply chars_nonempty. rewrite chars_of. destruct s as [|c s]; [done|]. destruct n as [|n]; [lia|].
    apply rstrip_dashes_nonempty. by apply clean_true_cons in Hc.
Qed.

Lemma trim_id n s : valid_label s → (String.length s ≤ n)%nat → rstrip_dash (str_take n s) = s.
Proof.
  intros ([_ Hl] & _) Hn. unfold rstrip_dash, str_take. rewrite chars_of, take_ge by (rewrite length_chars; lia).
  by rewrite rstrip_dashes_id, of_chars_chars.
Qed.

Lemma sanitize_valid v : valid_label (_sanitize_dns_label v).
Proof.
  unfold _sanitize_dns_label. set (l := rstrip_dashes _).
  assert (label l) as Hl by apply label_rstrip, drop_dashes_clean, slug_chars_clean.
  set (s := if str_truthy (of_chars l) then of_chars l else "service").
  assert (label (chars s) ∧ s ≠ "") as [Hs Hne].
  { unfold s. destruct l as [|c l']; [split; [by split|done]|]. simpl. split; [by rewrite chars_of|done]. }
  unfold rstrip_dash, str_take. rewrite chars_of. split_and!.
  - rewrite chars_of. apply label_rstrip, clean_take, Hs.
  - apply chars_nonempty. rewrite chars_of. destruct s as [|c s']; [done|].
    apply (rstrip_dashes_nonempty c (take 62 (chars s'))). destruct Hs as [Hc _]. by apply clean_true_cons in Hc.
  - rewrite length_of_chars. destruct (rstrip_dashes_prefix (take _MAX_RESOURCE_NAME_LENGTH (chars s))) as [Hp%prefix_length _].
    rewrite length_take in Hp. unfold _MAX_RESOURCE_NAME_LENGTH in *. lia.
Qed.

Lemma drop_dashes_id l : clean true l = true → drop_dashes l = l.
Proof.
  destruct l as [|c l]; [done|]. intros H%clean_true_cons. simpl. rewrite bool_decide_eq_false_2; [done|].
  intros ->. by vm_compute in H.
Qed.

(** Labels are the fixed points of the sanitizer. *)
Lemma sanitize_id s : valid_label s → _sanitize_dns_label s = s.
Proof.
  intros Hv. pose proof Hv as ([Hc Hl] & Hne & Hlen). unfold _sanitize_dns_label.
  rewrite (lower_clean true), clean_slug, drop_dashes_id, rstrip_dashes_id, of_chars_chars by auto using clean_weaken.
  assert (str_truthy s = true) as -> by (by destruct s). by apply trim_id.
Qed.

Lemma clean_dash b l m : clean b l = true → last l ≠ Some "-"%char → l ≠ [] → clean true m = true → clean b (l ++ "-"%char :: m) = true.
Proof.
  revert b. induction l as [|c l IH]; intros b Hl Hll Hne Hm; [done|]. simpl in Hl |- *.
  destruct l as [|d l].
  - destruct (is_slug_char c) eqn:Ec; [done|]. rewrite !andb_true_iff, bool_decide_eq_true in Hl. destruct Hl as [[-> _] _]. by destruct Hll.
  - change (last (c :: d :: l)) with (last (d :: l)) in Hll. destruct (is_slug_char c); [by apply IH|].
    rewrite !andb_true_iff in *. destruct Hl as [? ?]. split; [done|]. by apply IH.
Qed.

Lemma label_app l m : label l → l ≠ [] → label m → m ≠ [] → label (l ++ "-"%char :: m).
Proof.
  intros [Hl Hll] Hne [Hm Hml] Hne'. split; [by apply clean_dash|].
  rewrite last_app. destruct m as [|c m]; [done|]. change (last ("-"%char :: c :: m)) with (last (c :: m)).
  destruct (last (c :: m)) eqn:E; [done|]. by apply last_None in E.
Qed.

Lemma chars_dash s t : chars (s +:+ "-" +:+ t) = chars s ++ "-"%char :: chars t.
Proof. by rewrite !chars_app. Qed.

(** A suffixed name: the trimmed base, a dash and the whole suffix, when the suffix
    is shorter than 61 characters. *)
Lemma suffixed_eq base suffix :
  (String.length (_sanitize_dns_label suffix) < 62)%nat →
  ∃ b, valid_label b ∧ _suffixed_resource_name base suffix = b +:+ "-" +:+ _sanitize_dns_label suffix ∧
       (String.length b + String.length (_sanitize_dns_label suffix) < 63)%nat.
Proof.
  intros Hlt. pose proof (sanitize_valid suffix) as Hs. unfold _suffixed_resource_name, _MAX_RESOURCE_NAME_LENGTH.
  set (s := _sanitize_dns_label suffix) in *.
  destruct (trim_valid (63 - String.length s - 1) _ (sanitize_valid base)) as [Hb Hbl]; [lia|].
  set (b := rstrip_dash _) in *. exists b. split; [done|].
  assert (str_truthy b = true) as -> by (destruct Hb as (_ & Hne & _); by destruct b).
  rewrite (trim_id (63 - String.length b - 1) s) by (done || lia).
  assert (str_truthy s = true) as -> by (destruct Hs as (_ & Hne & _); by destruct s). split; [done|lia].
Qed.

Lemma suffixed_valid base suffix :
  (String.length (_sanitize_dns_label suffix) < 62)%nat → valid_label (_suffixed_resource_name base suffix).
Proof.
  intros Hlt. destruct (suffixed_eq base suffix Hlt) as (b & (Hb & Hbn & _) & -> & Hlen).
  destruct (sanitize_valid suffix) as (Hs & Hsn & _). split_and!.
  - rewrite chars_dash. apply label_app; try done; by apply chars_nonempty.
  - by destruct b.
  - rewrite !length_app_str. change (String.length "-") with 1%nat. lia.
Qed.

(** ** Versions *)

Lemma pretty_N_digits k x s : (x < 10 ^ N.of_nat k)%N →
  ∃ p, pretty_N_go x s = p +:+ s ∧ str_all is_digit p = true ∧ (String.length p ≤ k)%nat.
Proof.
  revert x s. induction k as [|k IH]; intros x s Hx.
  { assert (x = 0%N) as -> by (change (N.of_nat 0) with 0%N in Hx; rewrite N.pow_0_r in Hx; lia). exists "". by rewrite pretty_N_go_0. }
  destruct (decide (x = 0%N)) as [->|]; [exists ""; rewrite pretty_N_go_0; by split_and!; [| |simpl; lia]|].
  rewrite pretty_N_go_step by lia. rewrite Nat2N.inj_succ, N.pow_succ_r' in Hx.
  destruct (IH (x / 10)%N (String (pretty_N_char (x mod 10)) s)) as (p & -> & Hp & Hl).
  { apply N.Div0.div_lt_upper_bound. lia. }
  exists (p +:+ String (pretty_N_char (x mod 10)) ""). split_and!.
  - by rewrite <-str_app_assoc.
  - rewrite str_all_app, Hp. unfold str_all, pretty_N_char. simpl. by repeat case_match.
  - rewrite length_app_str. simpl. lia.
Qed.

Lemma slug_label s : str_all is_slug_char s = true → s ≠ "" → (String.length s ≤ 63)%nat → valid_label s.
Proof.
  intros Hs Hne Hl. split_and!; [|done..]. unfold str_all in Hs. rewrite forallb_forall in Hs. split.
  - clear Hne Hl. generalize true at 1. revert Hs. induction (chars s) as [|c l IH]; intros Hs b; [done|]. simpl.
    rewrite (Hs c) by (by left). apply IH. intros x Hx. apply Hs. by right.
  - intros Hlast. apply last_Some in Hlast as [l Hl']. assert (is_slug_char "-"%char = true) as E; [|by vm_compute in E].
    apply Hs. rewrite Hl'. apply list_elem_of_In. set_solver.
Qed.

(** A version is a 32-bit column: at most eleven characters with its [v]. *)
Lemma version_text_label v : 1 ≤ v < 2 ^ 31 →
  valid_label (version_text v) ∧ (String.length (version_text v) ≤ 11)%nat ∧ str_all is_slug_char (version_text v) = true.
Proof.
  intros Hv. unfold version_text, str_of_Z. destruct v as [|p|p]; [lia| |lia].
  change (pretty (Z.pos p)) with (pretty (N.pos p)). unfold pretty, pretty_N. rewrite decide_False by done.
  destruct (pretty_N_digits 10 (N.pos p) "") as (q & -> & Hq & Hl).
  { change (10 ^ N.of_nat 10)%N with 10000000000%N. lia. }
  rewrite str_app_empty.
  assert (str_all is_slug_char ("v" +:+ q) = true) as Hs.
  { rewrite str_all_app. change (str_all is_slug_char "v") with true. simpl. revert Hq. unfold str_all.
    rewrite !forallb_forall. intros Hq c Hc%Hq. unfold is_digit in Hc. unfold is_slug_char. by rewrite Hc, orb_true_r. }
  split_and!; [apply slug_label; [done|done|] | |done]; rewrite length_app_str; change (String.length "v") with 1%nat; lia.
Qed.

(** No dash in a text of slug characters: the last dash of a joined name marks the suffix. *)
Lemma suffix_unique a b s t :
  str_all is_slug_char s = true → str_all is_slug_char t = true → a +:+ "-" +:+ s = b +:+ "-" +:+ t → s = t.
Proof.
  intros Hs Ht H%(f_equal chars). rewrite !chars_dash in H.
  assert (∀ x, str_all is_slug_char x = true → "-"%char ∉ chars x) as Hd.
  { unfold str_all. intros x Hx Hin%list_elem_of_In. rewrite forallb_forall in Hx. apply Hx in Hin. by vm_compute in Hin. }
  rewrite <-(of_chars_chars s), <-(of_chars_chars t). f_equal. apply Hd in Hs, Ht. clear Hd. revert Hs Ht H.
  generalize (chars s), (chars t), (chars b), (chars a). clear s t a b. intros s t m l Hs Ht. revert m.
  induction l as [|x l IH]; intros [|y m] H; simpl in H.
  - by injection H.
  - injection H as _ H. destruct Hs. rewrite H. apply elem_of_app. right. left.
  - injection H as _ H. destruct Ht. rewrite <-H. apply elem_of_app. right. left.
  - injection H as _ H. by apply (IH m).
Qed.

(** ** Names the cluster accepts *)

(** A DNS label: 1 to 63 lower-case letters, digits and dashes, with no dash at
    either end *)
Definition dns_label (s : string) : bool :=
  let l := chars s in
  (0 <? length l)%nat && (length l <=? 63)%nat
  && forallb (λ c, is_slug_char c || bool_decide (c = "-"%char)) l
  && bool_decide (head l ≠ Some "-"%char) && bool_decide (last l ≠ Some "-"%char).

Lemma clean_chars b l : clean b l = true → forallb (λ c, is_slug_char c || bool_decide (c = "-"%char)) l = true.
Proof.
  revert b. induction l as [|c l IH]; intros b; [done|]. simpl. destruct (is_slug_char c); [apply IH|].
  rewrite !andb_true_iff. intros [[-> _] H]. split; [done|by apply (IH true)].
Qed.

Lemma valid_label_dns s : valid_label s → dns_label s = true.
Proof.
  intros ([Hc Hl] & Hne & Hlen). unfold dns_label. rewrite length_chars, !andb_true_iff, !bool_decide_eq_true, Nat.ltb_lt, Nat.leb_le.
  split_and!; [destruct s; simpl; [done|lia]|done|by apply (clean_chars true)| |done].
  destruct (chars s) as [|c l]; [done|]. apply clean_true_cons in Hc. intros [= ->]. by vm_compute in Hc.
Qed.

Definition int32_version (v : Z) : Prop := 1 ≤ v < 2 ^ 31.

Lemma versioned_name base v : int32_version v →
  ∃ b, valid_label b ∧ _versioned_resource_name base (Some v) = b +:+ "-" +:+ version_text v ∧ valid_label (b +:+ "-" +:+ version_text v).
Proof.
  intros (Hl & Hlen & _)%version_text_label. simpl. pose proof (sanitize_id _ Hl) as Hid.
  destruct (suffixed_eq base (version_text v)) as (b & Hb & Heq & _); [rewrite Hid; lia|]. rewrite Hid in Heq.
  exists b. split_and!; [done..|]. rewrite <-Heq. apply suffixed_valid. rewrite Hid. lia.
Qed.

Lemma config_map_label name : valid_label (_suffixed_resource_name name "ir").
Proof. apply suffixed_valid. by_eval. Qed.



(** Services whose names differ only in punctuation share every resource name: the
    second deployment overwrites the first. *)
Example services_that_slug_alike_share_names :
  runtime_service_name "billing_api" (Some 1) None = runtime_service_name "Billing API" (Some 1) None.
Proof. vm_compute. reflexivity. Qed.

(** A name that starts with a digit: Kubernetes requires a letter at the start of a
    Service's name. *)
Example name_may_start_with_digit : runtime_service_name "3scale" (Some 1) None = "3scale-v1".
Proof. vm_compute. reflexivity. Qed.

Definition demo_config (service_id : string) (version : option Z) : GenericManifestConfig :=
  mk_manifest_config "registry/runtime:1" (Some service_id) version "prod" 1 8003 8003 None "IfNotPresent"
    (Some "tool-compiler-runtime-secrets") [] [] [].

(** The hash that tells long service identifiers apart is cut off: with the text read
    backwards in the place of SHA-256, two identifiers of one tenant share their
    routes though their hashes differ. *)
Example hash_is_truncated :
  let backwards s := of_chars (rev (chars s)) in
  let north := "a-service-identifier-of-more-than-sixty-three-characters-in-all-north" in
  let south := "a-service-identifier-of-more-than-sixty-three-characters-in-all-south" in
  str_take 8 (backwards north) ≠ str_take 8 (backwards south) ∧
  _route_identity_base backwards demo_ir (demo_config north (Some 1)) = _route_identity_base backwards demo_ir (demo_config south (Some 1)).
Proof. vm_compute. done. Qed.

Definition with_scope (ir : ServiceIR) (tenant environment : option string) : ServiceIR :=
  mk_ir (ir_version ir) (ir_compiler_version ir) (ir_source_url ir) (ir_source_hash ir) (ir_protocol ir) (ir_service_name ir)
    (ir_service_description ir) (ir_base_url ir) (ir_auth ir) (ir_operations ir) (ir_operation_chains ir)
    (ir_tool_grouping ir) (ir_event_descriptors ir) (ir_resource_definitions ir) (ir_prompt_definitions ir) (ir_metadata ir)
    (ir_created_at ir) tenant environment.

(** Scopes run together: a tenant whose name spells an environment. *)
Example scopes_run_together :
  _route_identity_base (λ s, "0123456789abcdef") (with_scope demo_ir (Some "acme-env-prod") None) (demo_config "pets" (Some 1))
  = _route_identity_base (λ s, "0123456789abcdef") (with_scope demo_ir (Some "acme") (Some "prod")) (demo_config "pets" (Some 1)).
Proof. vm_compute. reflexivity. Qed.

(** A node selector of [gpu=true] is rendered without quotes, so YAML reads a boolean. *)
Example node_selector_is_not_quoted :
  str_contains (line_feed +:+ "        gpu: true" +:+ line_feed)
    (deployment_yaml (mk_manifest_config "image" None (Some 1) "prod" 1 8003 8003 None "Always" None [] [] [("gpu", "true")])
       "pets" "pets-ir" "pets" "" "" "" "" "" false false []) = true.
Proof. vm_compute. reflexivity. Qed.
