(* ===== verification/Deployment.v ===== *)
(** * From the manifests to the running service

    The generated route configuration as the gateway publishes it, and the secrets a
    deployed runtime reads through the environment its manifests wire: the
    composition of the generator with the gateway and the runtime. *)

From S2P Require Export Generator GatewayBinding RuntimeAuth.
From Stdlib Require Import Ascii.

(** ** Routes *)

Lemma sanitize_route_same v : valid_label v → sanitize_route_component v = v.
Proof.
  intros Hv. pose proof Hv as ([Hc Hl] & Hne & Hlen). unfold sanitize_route_component.
  rewrite (lower_clean true), clean_slug, drop_dashes_id, rstrip_dashes_id by auto using clean_weaken.
  destruct (chars v) as [|a l] eqn:E; [by destruct v|]. rewrite <-E, take_ge by (rewrite length_chars; lia).
  rewrite rstrip_dashes_id by (by rewrite E). apply of_chars_chars.
Qed.

(** The generator and the gateway sanitize alike. *)
Lemma sanitize_agree v : sanitize_route_component v = _sanitize_dns_label v.
Proof.
  unfold sanitize_route_component, _sanitize_dns_label. destruct (rstrip_dashes _) as [|a l]; [by vm_compute|].
  unfold rstrip_dash, str_take, _MAX_RESOURCE_NAME_LENGTH. change (str_truthy (of_chars (a :: l))) with true. cbn iota.
  by rewrite !chars_of.
Qed.

(** A route configuration of the generator's shape *)
Definition plain_route_config (sid name ns rid vrid : string) (port v : Z) (vtext : string) (tenant environment : option string) : dict pyval :=
  let target := VDict [("host", VStr name); ("namespace", VStr ns); ("port", VInt port)] in
  [("service_id", VStr sid); ("service_name", VStr name); ("namespace", VStr ns);
   ("default_route", VDict [("route_id", VStr rid); ("target_service", target); ("switch_strategy", VStr "atomic-upstream-swap")])]
  ++ scope_entry "tenant" tenant ++ scope_entry "environment" environment
  ++ [("version_number", VInt v);
      ("version_route", VDict [("route_id", VStr vrid);
         ("match", VDict [("headers", VDict [("x-tool-compiler-version", VStr vtext)])]); ("target_service", target)])].

Definition scope_text (o : option string) : option pyval := if opt_truthy o then VStr <$> o else None.

(** The gateway's document of one of its routes *)
Definition target_of (name ns : string) (port : Z) : pyval :=
  VDict [("host", VStr name); ("port", VInt port); ("namespace", VStr ns)].

Section routes.
#[local] Arguments Z.leb : simpl never.
#[local] Arguments normalize_scope_value : simpl never.
#[local] Arguments default_route_id : simpl never.
#[local] Arguments route_identity_base : simpl never.
Context (repr : pyval → string) (P : pydantic).
Hypothesis parse_int_int : ∀ z, parse_int P (VInt z) = Some z.

Lemma validate_plain sid name ns rid vrid port v vtext tenant environment :
  str_truthy sid = true → str_truthy name = true → str_truthy ns = true → str_truthy rid = true → str_truthy vrid = true → 1 ≤ port →
  validate_route_config P (plain_route_config sid name ns rid vrid port v vtext tenant environment) =
  Ok ([("service_id", VStr sid); ("service_name", VStr name); ("namespace", VStr ns); ("version_number", VInt v);
       ("default_route", VDict [("route_id", VStr rid); ("target_service", target_of name ns port);
                                ("switch_strategy", VStr "atomic-upstream-swap")]);
       ("version_route", VDict [("route_id", VStr vrid); ("target_service", target_of name ns port);
                                ("match", VDict [("headers", VDict [("x-tool-compiler-version", VStr vtext)])])])]
      ++ present "tenant" (scope_text tenant) ++ present "environment" (scope_text environment)).
Proof.
  intros Hsid Hname Hns Hrid Hvrid Hport. unfold validate_route_config, GatewayRouteConfig, optional_route, optional_int, plain_route_config,
    scope_entry, scope_text, get_or_none.
  destruct tenant as [[|]|], environment as [[|]|];
    repeat (simpl; unfold get_or_none; simpl; rewrite ?Hsid, ?Hname, ?Hns, ?Hrid, ?Hvrid, ?parse_int_int, ?(proj2 (Z.leb_le 1 port) Hport)); done.
Qed.

(** What the gateway stores under one of the two routes *)
Definition published (rid kind sid name ns : string) (port v : Z) (tenant environment : option string)
    (extra : string) (value : pyval) : dict pyval :=
  [("route_id", VStr rid); ("route_type", VStr kind); ("service_id", VStr sid); ("service_name", VStr name); ("namespace", VStr ns);
   ("target_service", target_of name ns port)]
  ++ present "tenant" (scope_text tenant) ++ present "environment" (scope_text environment)
  ++ [(extra, value); ("version_number", VInt v)].

(** A scope without white space around it *)
Definition trimmed (o : option string) : Prop := ∀ t, o = Some t → strip t = t.

Lemma normalize_trimmed o : trimmed o → normalize_scope_value (default VNone (scope_text o)) = if opt_truthy o then o else None.
Proof.
  unfold scope_text. destruct o as [[|a t]|]; simpl; [done| |done]. intros H. unfold normalize_scope_value. by rewrite (H (String a t) eq_refl).
Qed.

Lemma documents_plain sid name ns rid vrid port v vtext tenant environment :
  str_truthy sid = true → str_truthy name = true → str_truthy ns = true → str_truthy rid = true → str_truthy vrid = true → 1 ≤ port →
  trimmed tenant → trimmed environment →
  let t := if opt_truthy tenant then tenant else None in
  let e := if opt_truthy environment then environment else None in
  let active := default_route_id sid t e in
  let pinned := route_identity_base sid t e +:+ "-v" +:+ str_of_Z v in
  active ≠ pinned →
  documents_of repr P (plain_route_config sid name ns rid vrid port v vtext tenant environment) true true =
  Ok [(active, published active "default" sid name ns port v tenant environment "switch_strategy" (VStr "atomic-upstream-swap"));
      (pinned, published pinned "version" sid name ns port v tenant environment "match"
                 (VDict [("headers", VDict [("x-tool-compiler-version", VStr vtext)])]))].
Proof.
  intros Hsid Hname Hns Hrid Hvrid Hport Ht He t e active pinned Hne. unfold documents_of, outcome_of, service_route_documents, bind.
  rewrite validate_plain by done. cbn [lift ret]. subst active pinned t e.
  apply normalize_trimmed in Ht, He. revert Hne Ht He. unfold version_route_id, published, scope_text.
  destruct tenant as [[|a tt]|], environment as [[|b ee]|]; cbn [opt_truthy str_truthy fmap option_fmap option_map default from_option id present app];
    intros Hne Ht He; repeat (unfold get_or_none; cbn; rewrite ?Ht, ?He); 
    (match goal with |- context [if str_eqb ?x ?y then _ else _] => destruct (str_eqbP x y) as [Heq|_] end; [by destruct Hne|done]).
Qed.

Context (sha256_hex : string → string) (safe_dump : dict string → string) (safe_load : string → outcome exn pyval)
        (serialize_ir : ServiceIR → string) (gzip_base64 : string → string).
Local Abbreviation generate := (generate_generic_manifests sha256_hex safe_dump safe_load serialize_ir gzip_base64).
Local Abbreviation base_name := (_route_base_name sha256_hex).

Lemma identity_base_agrees ir c :
  _route_identity_base sha256_hex ir c =
  route_identity_base (base_name ir c) (if opt_truthy (ir_tenant ir) then ir_tenant ir else None)
    (if opt_truthy (ir_environment ir) then ir_environment ir else None).
Proof.
  unfold _route_identity_base, route_identity_base. rewrite sanitize_route_same by apply sanitize_valid.
  destruct (ir_tenant ir) as [[|a t]|], (ir_environment ir) as [[|b e]|]; cbn [opt_truthy str_truthy default from_option id];
    by rewrite ?sanitize_agree.
Qed.

Lemma identity_base_truthy ir c : str_truthy (_route_identity_base sha256_hex ir c) = true.
Proof.
  unfold _route_identity_base. destruct (sanitize_valid (_sanitize_dns_label (default (ir_service_name ir) (mc_service_id c)) +:+ "-"
    +:+ str_take 8 (sha256_hex (default (ir_service_name ir) (mc_service_id c))))) as (_ & Hne & _).
  change (base_name ir c ≠ "") in Hne. destruct (base_name ir c) as [|a s]; [done|]. simpl. by destruct (_ ++ _).
Qed.

Lemma str_truthy_app s t : str_truthy s = true → str_truthy (s +:+ t) = true.
Proof. by destruct s. Qed.

Lemma generated_route_config ir c g v :
  generate ir c = Ok g → mc_version_number c = Some v → int32_version v →
  let name := runtime_service_name (ir_service_name ir) (Some v) (mc_name_suffix c) in
  let base := _route_identity_base sha256_hex ir c in
  str_truthy name = true ∧
  gm_route_config g = plain_route_config (base_name ir c) name (mc_namespace c) (base +:+ "-active") (base +:+ "-v" +:+ str_of_Z v)
                        (mc_service_port c) v (str_of_Z v) (ir_tenant ir) (ir_environment ir).
Proof.
  intros Hg Hv Hr name base. unfold generate_generic_manifests in Hg. obinds Hg. injection Hg as <-. rewrite Hv in *. fold name base.
  destruct (versioned_name (_resource_name (ir_service_name ir) (mc_name_suffix c)) v Hr) as (b & _ & Hb & (_ & Hne & _)).
  assert (str_truthy name = true) as Hname.
  { unfold name, runtime_service_name. rewrite Hb. by destruct (b +:+ "-" +:+ version_text v). }
  split; [done|]. cbn [gm_route_config]. unfold build_route_config. rewrite Hv. cbn [opt_truthy].
  rewrite Hname. unfold base. rewrite identity_base_truthy. done.
Qed.

(** The route identifier a configuration announces *)
Definition announced (route_config : dict pyval) (route : string) : pyval :=
  match get_or_none route_config route with VDict d => get_or_none d "route_id" | _ => VNone end.

End routes.

(** ** A worked example *)

Definition demo_dump (d : dict string) : string := join line_feed ((λ kv, kv.1 +:+ ": " +:+ kv.2) <$> d).
Definition demo_load (text : string) : outcome exn pyval := Ok (VDict [("text", VStr text)]).
Definition demo_generate (ir : ServiceIR) (c : GenericManifestConfig) : outcome exn GeneratedManifestSet :=
  generate_generic_manifests (λ _, "0123456789abcdef") demo_dump demo_load (λ _, "ir") (λ s, s) ir c.
Definition manifests_or_none (o : outcome exn GeneratedManifestSet) : GeneratedManifestSet :=
  match o with Ok g => g | Raise _ => mk_manifest_set [] [] [] [] [] "" end.
Definition demo_manifests : GeneratedManifestSet := manifests_or_none (demo_generate demo_ir (demo_config "pets" (Some 2))).


(** ** Secrets *)

Section secrets.
Context {W : Type} `{!Upstream W}.

(** The variables of the container in the order of the manifest, before the secrets *)
Definition fixed_env (c : GenericManifestConfig) (ir : ServiceIR) (name : string) : dict string :=
  [("SERVICE_IR_PATH", DEFAULT_SERVICE_IR_PATH); ("APP_PORT", str_of_Z (mc_container_port c)); ("TMPDIR", "/tmp");
   ("MCP_ALLOWED_HOSTS", join "," (_runtime_allowed_hosts name (mc_namespace c)))]
  ++ (if _has_native_grpc_unary ir then [("ENABLE_NATIVE_GRPC_UNARY", "true")] else [])
  ++ (if _has_supported_native_grpc_stream ir then [("ENABLE_NATIVE_GRPC_STREAM", "true")] else []).

(** The environment of a container Kubernetes starts from the manifest: the last
    definition of a variable counts, and the image's own variables come first.
    [secret] gives the values stored in the named Secret. *)
Definition container_env (image : string → option string) (fixed : dict string) (envs : list secret_env)
    (secret : string → option string) (n : string) : option string :=
  match List.find (λ e, str_eqb (se_env_name e) n) (rev envs) with
  | Some e => secret (se_secret_key e)
  | None => match dict_get (rev fixed) n with Some v => Some v | None => image n end
  end.

(** A stored secret the runtime can use *)
Definition stored (secret : string → option string) (r v : string) : Prop :=
  secret (kubernetes_secret_key_name r) = Some v ∧ str_truthy (strip v) = true ∧ has_illegal v = false.
End secrets.

Lemma elem_of_add_ref l o r : r ∈ add_ref l o ↔ r ∈ l ∨ (o = Some r ∧ str_truthy r = true).
Proof.
  unfold add_ref, append_new. destruct o as [x|]; [|naive_solver]. destruct (str_truthy x) eqn:E; [|split; [by left|by intros [|[[= <-] ?]]; [|congruence]]].
  case_bool_decide as Hx; [split; [by left|by intros [|[[= <-] _]]]|]. rewrite elem_of_app, list_elem_of_singleton. split; intros [|]; simplify_eq; eauto; destruct_and?; simplify_eq; eauto.
Qed.

Lemma elem_of_refs auth r :
  r ∈ _runtime_secret_refs auth ↔
  str_truthy r = true ∧
  (ac_runtime_secret_ref auth = Some r ∨ ac_basic_password_ref auth = Some r ∨
   (∃ o, ac_oauth2 auth = Some o ∧ (oc_client_id_ref o = Some r ∨ oc_client_secret_ref o = r)) ∨
   (∃ m, ac_mtls auth = Some m ∧ (ml_cert_ref m = r ∨ ml_key_ref m = r ∨ ml_ca_ref m = Some r)) ∨
   (∃ g, ac_request_signing auth = Some g ∧ sg_secret_ref g = r)).
Proof.
  unfold _runtime_secret_refs. simpl. rewrite !elem_of_add_ref, elem_of_nil.
  assert (∀ (A : Type) (o : option A) (P : A → Prop), (∃ a, o = Some a ∧ P a) ↔ match o with Some a => P a | None => False end) as Hex.
  { intros A o Q. destruct o; naive_solver. }
  rewrite !Hex. destruct (ac_oauth2 auth), (ac_mtls auth), (ac_request_signing auth); simpl;
    (split; [intros Hr|intros [Ht Hr]]); repeat (destruct Hr as [Hr|Hr]); intuition congruence.
Qed.

Section wiring.
Context {W : Type} `{!Upstream W}.
Context (sha256_hex : string → string) (safe_dump : dict string → string) (safe_load : string → outcome exn pyval)
        (serialize_ir : ServiceIR → string) (gzip_base64 : string → string).
Local Abbreviation generate := (generate_generic_manifests sha256_hex safe_dump safe_load serialize_ir gzip_base64).

Lemma generate_checks_secrets ir c g : generate ir c = Ok g →
  (∀ s t, s ∈ _runtime_secret_refs (ir_auth ir) → t ∈ _runtime_secret_refs (ir_auth ir) →
     normalized_secret_ref_name s = normalized_secret_ref_name t → s = t) ∧
  (_runtime_secret_refs (ir_auth ir) ≠ [] → is_Some (mc_runtime_secret_name c)).
Proof.
  intros Hg. unfold generate_generic_manifests in Hg. apply obind_ok in Hg as ([] & Hg & _). revert Hg.
  unfold _validate_runtime_secret_configuration. destruct (_runtime_secret_refs (ir_auth ir)) as [|r l].
  { intros _. split; [intros s t []%elem_of_nil|done]. }
  destruct (mc_runtime_secret_name c); [|done]. intros H. split; [exact (proj1 (ensure_ok_iff _ _) H)|by eexists].
Qed.

(** The variable a secret's normalised name is bound to is its own. *)
Lemma wired_lookup image fixed secret refs name r n :
  (∀ s t, s ∈ refs → t ∈ refs → normalized_secret_ref_name s = normalized_secret_ref_name t → s = t) →
  r ∈ refs → n ∈ candidate_env_names r → (n = normalized_secret_ref_name r ∨ dict_get (rev fixed) n = None ∧ image n = None) →
  let envs := (λ r, mk_secret_env (normalized_secret_ref_name r) name (kubernetes_secret_key_name r)) <$> refs in
  container_env image fixed envs secret n =
  if bool_decide (n = normalized_secret_ref_name r) then secret (kubernetes_secret_key_name r) else None.
Proof.
  intros Hinj Hr Hn Hfix envs. unfold container_env. pose proof (candidate_normalized r n Hn) as Hnn.
  destruct (List.find _ (rev envs)) as [e|] eqn:E.
  - apply List.find_some in E as [Hin He]. apply in_rev, list_elem_of_In, list_elem_of_fmap in Hin as (r' & -> & Hr').
    apply str_eqb_eq in He. simpl in He |- *.
    assert (normalized_secret_ref_name r' = normalized_secret_ref_name r) as Hsame by (by rewrite <-Hnn, <-He, normalized_idemp).
    rewrite (Hinj r' r) in He |- * by done. by rewrite bool_decide_eq_true_2.
  - case_bool_decide as Hc.
    + exfalso. eapply List.find_none in E; [|apply in_rev; rewrite rev_involutive; apply list_elem_of_In, (list_elem_of_fmap_2 _ refs r); exact Hr].
      simpl in E. subst n. by rewrite str_eqb_refl in E.
    + destruct Hfix as [|[-> ->]]; done.
Qed.

(** The fixed variables are named the normalised way. *)
Lemma fixed_env_raw c ir name r : r ≠ normalized_secret_ref_name r → dict_get (rev (fixed_env c ir name)) r = None.
Proof.
  intros Hne. apply dict_get_None. intros Hin. apply Hne. symmetry. apply normalize_id. revert Hin. unfold dict_keys.
  change ((rev (fixed_env c ir name)).*1) with (List.map fst (rev (fixed_env c ir name))). rewrite List.map_rev. intros Hin%list_elem_of_In%in_rev%list_elem_of_In. unfold fixed_env in Hin. rewrite !fmap_app, !elem_of_app in Hin.
  destruct Hin as [Hin|[Hin|Hin]].
  - simpl in Hin. rewrite !elem_of_cons in Hin. repeat (destruct Hin as [->|Hin]; [reflexivity|]). by apply elem_of_nil in Hin.
  - destruct (_has_native_grpc_unary ir); [|by apply elem_of_nil in Hin]. by apply list_elem_of_singleton in Hin as ->.
  - destruct (_has_supported_native_grpc_stream ir); [|by apply elem_of_nil in Hin]. by apply list_elem_of_singleton in Hin as ->.
Qed.

End wiring.

Definition with_auth (ir : ServiceIR) (auth : AuthConfig) : ServiceIR :=
  mk_ir (ir_version ir) (ir_compiler_version ir) (ir_source_url ir) (ir_source_hash ir) (ir_protocol ir) (ir_service_name ir)
    (ir_service_description ir) (ir_base_url ir) auth (ir_operations ir) (ir_operation_chains ir)
    (ir_tool_grouping ir) (ir_event_descriptors ir) (ir_resource_definitions ir) (ir_prompt_definitions ir) (ir_metadata ir)
    (ir_created_at ir) (ir_tenant ir) (ir_environment ir).

Definition demo_bearer : AuthConfig :=
  mk_auth bearer None None None None None None None (Some "pets/api token") None None None None None.
Definition demo_bearer_ir : ServiceIR := with_auth demo_ir demo_bearer.
Definition demo_secret (key : string) : option string := if str_eqb key "PETS_API_TOKEN" then Some "t0ken" else None.
Definition demo_container : string → option string :=
  container_env (λ _, None) (fixed_env (demo_config "pets" (Some 2)) demo_bearer_ir "pets-v2")
    (_runtime_secret_envs demo_bearer (Some "tool-compiler-runtime-secrets")) demo_secret.

(** The scripted environment inside the container *)
Definition in_container : Upstream script :=
  let u := scripted in {|
    time_time := @time_time _ u; time_monotonic := @time_monotonic _ u; perf_counter := @perf_counter _ u;
    getenv := demo_container; uuid4_hex := @uuid4_hex _ u; acquire_lock := @acquire_lock _ u; release_lock := @release_lock _ u;
    sleep := @sleep _ u; client_request := @client_request _ u; client_post_form := @client_post_form _ u; aclose := @aclose _ u;
    repr := @RuntimeState.repr _ u; parse_float := @parse_float _ u; b64encode := @b64encode _ u; b64decode := @b64decode _ u;
    json_dumps := @json_dumps _ u; json_compact := @json_compact _ u; parse_xml := @parse_xml _ u; print_xml := @print_xml _ u;
    hmac_sha256_hex := @hmac_sha256_hex _ u; urljoin := @urljoin _ u; body_param_order := @body_param_order _ u |}.

