(* ===== verification/Kubernetes.v ===== *)
(** * Deploying manifests ([KubernetesManifestDeployer] and the readiness check of
      [apps/compiler_worker/activities/production.py])

    The four manifests of a runtime are applied one after the other; a failure on
    the way deletes what was applied.  Then the deployment's rollout, and later the
    runtime's readiness, are polled until a deadline.  The HTTP client of the
    Kubernetes API, the event loop's clock and sleeping are effects on a world [W]. *)

From S2P Require Export Generator PyFloat.
From Stdlib Require Import Ascii.

(** ** The outside *)

Record kresponse := mk_kresponse { kr_status : Z; kr_json : option pyval; kr_text : string; kr_reason : string }.

Class Cluster (W : Type) := {
  (** [client.patch] as a merge patch, [client.post], [client.delete], [client.get] *)
  kube_patch : string → dict pyval → comp W exn kresponse;
  kube_post : string → dict pyval → comp W exn kresponse;
  kube_delete : string → comp W exn kresponse;
  kube_get : string → comp W exn kresponse;
  kube_close : comp W exn unit;
  (** [asyncio.get_running_loop().time()] and [asyncio.sleep] *)
  loop_time : W → float * W;
  async_sleep : float → comp W exn unit;
  krepr : pyval → string;
}.

(** ** Integers of a status *)

Definition int_error : exn := value_error "invalid literal for int() with base 10".

(** [int(v)] *)
Definition to_int (v : pyval) : outcome exn Z :=
  match v with
  | VInt z => Ok z
  | VBool b => Ok (if b then 1 else 0)
  | VStr s => match int_of_text s with Some z => Ok z | None => Raise int_error end
  | VFloat f => match int_of_float f with
                | Some z => Ok z
                | None => Raise (if PrimFloat.eqb f f then mk_exn "OverflowError" "cannot convert float infinity to integer" []
                                 else value_error "cannot convert float NaN to integer")
                end
  | _ => Raise (type_error "int() argument must be a string, a bytes-like object or a real number")
  end.

(** A resource as the deployer keeps it: plural, API version, name *)
Abbreviation resource := (string * string * string)%type.

Section deployer.
Context {W : Type} `{!Cluster W}.
Abbreviation M := (comp W exn).

Definition lifted {A} (o : outcome exn A) : M A := λ w, (o, w).
Definition now : M float := λ w, let '(t, w') := loop_time w in (Ok t, w').

(** [response.is_error] and [response.raise_for_status()] *)
Definition is_error (r : kresponse) : bool := (400 <=? kr_status r) && (kr_status r <=? 599).
Definition raise_for_status (r : kresponse) : M unit :=
  if (200 <=? kr_status r) && (kr_status r <=? 299) then ret tt
  else raise (mk_exn "HTTPStatusError" ("HTTP status " +:+ str_of_Z (kr_status r)) []).

(** [_summarize_k8s_error] *)
Definition _summarize_k8s_error (r : kresponse) : string :=
  match kr_json r with
  | Some (VDict d) =>
      match get_or_none d "message" with
      | VStr m => if str_truthy m then m else krepr (VDict d)
      | _ => krepr (VDict d)
      end
  | Some (VStr s) => if str_truthy s then s else kr_reason r
  | Some _ => kr_reason r
  | None => if str_truthy (kr_text r) then kr_text r else kr_reason r
  end.

(** [_response_json_object] *)
Definition _response_json_object (r : kresponse) : outcome exn (dict pyval) :=
  match kr_json r with
  | None => Raise (runtime_error "K8s API returned non-JSON response")
  | Some (VDict d) => Ok d
  | Some _ => Raise (runtime_error "K8s API returned non-object response.")
  end.

(** [_resource_paths] *)
Definition _resource_paths (namespace plural api_version name : string) : string * string :=
  let base :=
    match split_first "/"%char api_version with
    | Some (group, version) => "/apis/" +:+ group +:+ "/" +:+ version +:+ "/namespaces/" +:+ namespace +:+ "/" +:+ plural
    | None => "/api/" +:+ api_version +:+ "/namespaces/" +:+ namespace +:+ "/" +:+ plural
    end in
  (base +:+ "/" +:+ name, base).

(** [str(manifest["metadata"]["name"])] *)
Definition manifest_name (manifest : dict pyval) : outcome exn string :=
  match dict_get manifest "metadata" with
  | None => Raise (key_error "'metadata'")
  | Some (VDict m) => match dict_get m "name" with
                      | Some n => Ok (py_str krepr n)
                      | None => Raise (key_error "'name'")
                      end
  | Some _ => Raise (type_error "metadata is not subscriptable by text")
  end.

(** ** Applying and deleting *)

Definition path_of (namespace : string) (r : resource) : string := (_resource_paths namespace r.1.1 r.1.2 r.2).1.
Definition shown (r : resource) : string := r.1.1 +:+ "/" +:+ r.2.

(** [_apply_manifest] *)
Definition _apply_manifest (namespace plural api_version : string) (manifest : dict pyval) : M (dict pyval) :=
  name <- lifted (manifest_name manifest) ;;
  let '(named_path, collection_path) := _resource_paths namespace plural api_version name in
  response <- kube_patch named_path manifest ;;
  response <- (if kr_status response =? 404 then
                 response <- kube_post collection_path manifest ;;
                 if kr_status response =? 409 then kube_patch named_path manifest else ret response
               else ret response) ;;
  if is_error response then
    raise (runtime_error ("K8s apply failed for " +:+ plural +:+ "/" +:+ name +:+ ": " +:+ str_of_Z (kr_status response)
                          +:+ " " +:+ _summarize_k8s_error response))
  else lifted (_response_json_object response).

(** [_delete_manifest] *)
Definition _delete_manifest (namespace : string) (r : resource) : M unit :=
  response <- kube_delete (path_of namespace r) ;;
  if bool_decide (kr_status response ∈ [200; 202; 404]) then ret tt else raise_for_status response.

(** [_delete_manifests_best_effort]: in the reverse order, errors collected *)
Definition _delete_manifests_best_effort (namespace : string) (manifests : list resource) : M (list string) :=
  fold_each (λ errors r,
    o <- attempt (_delete_manifest namespace r) ;;
    ret (match o with Ok _ => errors | Raise e => errors ++ [shown r +:+ ": " +:+ exn_str e] end)) [] (rev manifests).

(** ** Polling until a deadline *)

(** What a loop ended with; [OutOfFuel] is no exit of the Python code. *)
Inductive polled (A : Type) :=
| Found (a : A)
| TimedOut (last_error : option string)
| OutOfFuel.
Arguments Found {A} a.
Arguments TimedOut {A} last_error.
Arguments OutOfFuel {A}.

(** The loops of [_wait_for_rollout] and [_wait_for_runtime_http_ready]: [probe]
    finds what is waited for or says why not yet; the second loop also ends when
    there is nothing left to sleep. *)
Fixpoint poll_until {A} (fuel : nat) (stop_on_zero : bool) (deadline poll_seconds : float) (probe : M (A + string))
    (last_error : option string) : M (polled A) :=
  match fuel with
  | O => ret OutOfFuel
  | S fuel' =>
      t <- now ;;
      if PrimFloat.leb deadline t then ret (TimedOut last_error)
      else
        r <- probe ;;
        match r with
        | inl a => ret (Found a)
        | inr e =>
            t <- now ;;
            let remaining := PrimFloat.sub deadline t in
            if PrimFloat.leb remaining 0 then ret (TimedOut (Some e))
            else
              let seconds := if PrimFloat.ltb remaining poll_seconds then remaining else poll_seconds in
              if stop_on_zero && PrimFloat.leb seconds 0 then ret (TimedOut (Some e))
              else async_sleep seconds ;;; poll_until fuel' stop_on_zero deadline poll_seconds probe (Some e)
        end
  end.

(** The replica counts of a deployment; numbers that cannot be read count as zero. *)
Definition int_or_zero (d : dict pyval) (k : string) : outcome exn Z := to_int (value_or (get_default d k (VInt 0)) (VInt 0)).

Definition rollout_counts (metadata status : dict pyval) : outcome exn (Z * Z * Z * option Z) :=
  let raw_updated := get_or_none status "updatedReplicas" in
  let counts :=
    let! observed := int_or_zero status "observedGeneration" in
    let! generation := int_or_zero metadata "generation" in
    let! available := int_or_zero status "availableReplicas" in
    let! updated := match raw_updated with
                    | VNone => Ok None
                    | v => let! n := to_int (value_or v (VInt 0)) in Ok (Some n)
                    end in
    Ok (observed, generation, available, updated) in
  match counts with
  | Ok c => Ok c
  | Raise e =>
      if exn_is "ValueError" e || exn_is "TypeError" e
      then Ok (0, 0, 0, match raw_updated with VNone => None | _ => Some 0 end)
      else Raise e
  end.

(** One look at the rollout *)
Definition rollout_probe (namespace deployment_name : string) (expected_replicas : Z) : M (Z + string) :=
  response <- kube_get (path_of namespace ("deployments", "apps/v1", deployment_name)) ;;
  raise_for_status response ;;;
  deployment <- lifted (_response_json_object response) ;;
  metadata <- lifted (as_mapping (get_default deployment "metadata" (VDict []))) ;;
  status <- lifted (as_mapping (get_default deployment "status" (VDict []))) ;;
  counts <- lifted (rollout_counts metadata status) ;;
  let '(observed, generation, available, updated) := counts in
  ret (if (generation <=? observed) && (expected_replicas <=? available)
          && match updated with Some u => expected_replicas <=? u | None => true end
       then inl observed else inr "rollout in progress").

(** [_wait_for_rollout] *)
Definition _wait_for_rollout (fuel : nat) (namespace deployment_name : string) (timeout poll : float) (expected_replicas : Z)
    : M (polled Z) :=
  t <- now ;;
  r <- poll_until fuel false (PrimFloat.add t timeout) poll (rollout_probe namespace deployment_name expected_replicas) None ;;
  match r with
  | TimedOut _ => raise (runtime_error ("Timed out waiting for Kubernetes rollout of deployment " +:+ deployment_name +:+ "."))
  | r => ret r
  end.

(** ** Deploying *)

Record DeploymentResult := mk_deployment_result {
  dp_deployment_revision : string;
  dp_runtime_base_url : string;
  dp_manifest_storage_path : string;
}.

Record KubernetesManifestDeployer := mk_deployer {
  kd_namespace : string;
  kd_owns_api_client : bool;
  kd_rollout_poll_seconds : float;
  kd_rollout_timeout_seconds : float;
}.

(** The body of [deploy] runs on the list of what was created and the world. *)
Definition created_so_far : Type := list resource * W.
Definition in_w {A} (m : M A) : comp created_so_far exn A := λ s, let '(o, w) := m s.2 in (o, (s.1, w)).

Definition apply_one (namespace : string) (plural api_version : string) (manifest : dict pyval) : comp created_so_far exn (dict pyval) :=
  response <- in_w (_apply_manifest namespace plural api_version manifest) ;;
  name <- in_w (lifted (manifest_name manifest)) ;;
  modify (λ s, (s.1 ++ [(plural, api_version, name)], s.2)) ;;;
  ret response.

(** [int(svc_ports[0]["port"]) if svc_ports else 8080] *)
Definition service_port (ports : pyval) : outcome exn Z :=
  if negb (truthy ports) then Ok 8080
  else match ports with
       | VList (VDict d :: _) => match dict_get d "port" with Some v => to_int v | None => Raise (key_error "'port'") end
       | VDict _ => Raise (key_error "0")
       | _ => Raise (type_error "ports")
       end.

(** What follows the four manifests *)
Definition finish_deploy (fuel : nat) (k : KubernetesManifestDeployer) (g : GeneratedManifestSet) (deployment_response : dict pyval)
    : M (option DeploymentResult) :=
  deploy_meta <- lifted (as_mapping (get_default (gm_deployment g) "metadata" (VDict []))) ;;
  let deploy_spec := get_default (gm_deployment g) "spec" (VDict []) in
  svc_meta <- lifted (as_mapping (get_default (gm_service g) "metadata" (VDict []))) ;;
  svc_spec <- lifted (as_mapping (get_default (gm_service g) "spec" (VDict []))) ;;
  let svc_ports := get_default svc_spec "ports" (VList []) in
  deploy_spec <- lifted (as_mapping deploy_spec) ;;
  replicas <- lifted (to_int (get_default deploy_spec "replicas" (VInt 1))) ;;
  let deployment_name := py_str krepr (get_default deploy_meta "name" (VStr "unknown")) in
  rollout <- _wait_for_rollout fuel (kd_namespace k) deployment_name (kd_rollout_timeout_seconds k) (kd_rollout_poll_seconds k) replicas ;;
  match rollout with
  | Found observed_generation =>
      let service_name := py_str krepr (get_default svc_meta "name" (VStr "unknown")) in
      port <- lifted (service_port svc_ports) ;;
      response_meta <- lifted (as_mapping (get_default deployment_response "metadata" (VDict []))) ;;
      let resource_version := py_str krepr (get_default response_meta "resourceVersion" (VStr "unknown")) in
      ret (Some (mk_deployment_result
        (deployment_name +:+ "@g" +:+ str_of_Z observed_generation +:+ "-rv" +:+ resource_version)
        ("http://" +:+ service_name +:+ "." +:+ kd_namespace k +:+ ".svc.cluster.local:" +:+ str_of_Z port)
        ("k8s://" +:+ kd_namespace k +:+ "/deployments/" +:+ deployment_name)))
  | _ => ret None
  end.

Definition deploy_body (fuel : nat) (k : KubernetesManifestDeployer) (g : GeneratedManifestSet)
    : comp created_so_far exn (option DeploymentResult) :=
  apply_one (kd_namespace k) "configmaps" "v1" (gm_config_map g) ;;;
  response <- apply_one (kd_namespace k) "deployments" "apps/v1" (gm_deployment g) ;;
  apply_one (kd_namespace k) "services" "v1" (gm_service g) ;;;
  apply_one (kd_namespace k) "networkpolicies" "networking.k8s.io/v1" (gm_network_policy g) ;;;
  in_w (finish_deploy fuel k g response).

(** [try: m finally: close] *)
Definition closing {A} (k : KubernetesManifestDeployer) (m : M A) : M A :=
  o <- attempt m ;;
  when (kd_owns_api_client k) kube_close ;;;
  lifted o.

Definition cleanup_failed (errors : list string) : exn :=
  runtime_error ("Kubernetes deployment cleanup failed after partial apply: " +:+ join "; " errors).

(** [deploy]; [None] when the fuel ran out while waiting for the rollout *)
Definition deploy (fuel : nat) (k : KubernetesManifestDeployer) (g : GeneratedManifestSet) : M (option DeploymentResult) :=
  closing k (λ w,
    match deploy_body fuel k g ([], w) with
    | (Ok r, (_, w')) => (Ok r, w')
    | (Raise e, (created, w')) =>
        (errors <- _delete_manifests_best_effort (kd_namespace k) created ;;
         match errors with [] => raise e | _ => raise (cleanup_failed errors) end) w'
    end).

(** The resources of a manifest set *)
Definition resources_of (g : GeneratedManifestSet) : outcome exn (list resource) :=
  let! config_map := manifest_name (gm_config_map g) in
  let! deployment := manifest_name (gm_deployment g) in
  let! service := manifest_name (gm_service g) in
  let! network_policy := manifest_name (gm_network_policy g) in
  Ok [("configmaps", "v1", config_map); ("deployments", "apps/v1", deployment); ("services", "v1", service);
      ("networkpolicies", "networking.k8s.io/v1", network_policy)].

(** [rollback] *)
Definition rollback (k : KubernetesManifestDeployer) (g : GeneratedManifestSet) : M unit :=
  closing k (
    resources <- lifted (resources_of g) ;;
    errors <- _delete_manifests_best_effort (kd_namespace k) resources ;;
    match errors with
    | [] => ret tt
    | _ => raise (runtime_error ("Kubernetes rollback left undeleted resources: " +:+ join "; " errors))
    end).

(** ** Waiting for the runtime *)

Record http_answers := mk_answers { ha_health : Z; ha_ready : Z }.

(** One look at [/healthz] and [/readyz]: [fetch] makes a client and sends the two
    requests, [close] closes the client if one was made. *)
Definition readiness_probe (fetch : M http_answers) (close : M unit) : M (unit + string) :=
  o <- attempt fetch ;;
  close ;;;
  ret (match o with
       | Ok a => if (ha_health a =? 200) && (ha_ready a =? 200) then inl tt
                 else inr ("healthz=" +:+ str_of_Z (ha_health a) +:+ ", readyz=" +:+ str_of_Z (ha_ready a))
       | Raise e => inr (if is_request_error e then exn_str e else exn_type e +:+ ": " +:+ exn_str e)
       end).

(** [_wait_for_runtime_http_ready]; [show_seconds] formats the timeout. *)
Definition _wait_for_runtime_http_ready (show_seconds : float → string) (fuel : nat) (fetch : M http_answers) (close : M unit)
    (timeout poll : float) : M (polled unit) :=
  t <- now ;;
  r <- poll_until fuel true (PrimFloat.add t timeout) poll (readiness_probe fetch close) None ;;
  match r with
  | TimedOut last_error =>
      raise (runtime_error ("Runtime readiness check timed out after " +:+ show_seconds timeout +:+ "s: "
                            +:+ default "runtime did not become reachable" last_error))
  | r => ret r
  end.
End deployer.
Arguments Found {A} a.
Arguments TimedOut {A} last_error.
Arguments OutOfFuel {A}.

(** ** What a deployment leaves in the cluster *)

(** The documented behaviour of the API, for a view of the stored objects by path.
    What other clients do to these objects in the meantime is not considered. *)
Class ClusterLaws (W : Type) `{!Cluster W} (objects : W → string → option (dict pyval)) := {
  law_patch p m w :
    (∀ q, q ≠ p → objects (kube_patch p m w).2 q = objects w q) ∧
    ∀ r, (kube_patch p m w).1 = Ok r → if is_error r then objects (kube_patch p m w).2 p = objects w p else is_Some (objects (kube_patch p m w).2 p);
  law_post collection m w name :
    manifest_name m = Ok name →
    let p := collection +:+ "/" +:+ name in
    (∀ q, q ≠ p → objects (kube_post collection m w).2 q = objects w q) ∧
    ∀ r, (kube_post collection m w).1 = Ok r →
      if is_error r then objects (kube_post collection m w).2 p = objects w p else is_Some (objects (kube_post collection m w).2 p);
  law_delete p w :
    (∀ q, q ≠ p → objects (kube_delete p w).2 q = objects w q) ∧
    ∀ r, (kube_delete p w).1 = Ok r → 200 ≤ kr_status r ≤ 299 ∨ kr_status r = 404 → objects (kube_delete p w).2 p = None;
  law_get p w q : objects (kube_get p w).2 q = objects w q;
  law_time w q : objects (loop_time w).2 q = objects w q;
  law_sleep d w q : objects (async_sleep d w).2 q = objects w q;
  law_close w : (kube_close w).1 = Ok tt ∧ ∀ q, objects (kube_close w).2 q = objects w q;
}.

Section effects.
Context {W : Type} `{!Cluster W} (objects : W → string → option (dict pyval)) `{!ClusterLaws W objects}.

(** Everything outside the paths [ps] is as in [w]. *)
Definition same_outside (ps : list string) (w w' : W) : Prop := ∀ q, q ∉ ps → objects w' q = objects w q.

Lemma same_refl ps w : same_outside ps w w. Proof. by intros q _. Qed.
Lemma same_trans ps w w' w'' : same_outside ps w w' → same_outside ps w' w'' → same_outside ps w w''.
Proof. intros H1 H2 q Hq. by rewrite H2, H1. Qed.
Lemma same_mono ps qs w w' : ps ⊆ qs → same_outside ps w w' → same_outside qs w w'.
Proof. intros Hs H q Hq. apply H. set_solver. Qed.

(** A computation that changes no object *)
Definition unchanging {A} (m : comp W exn A) : Prop := ∀ w, same_outside [] w (m w).2.

Lemma unchanging_ret {A} (a : A) : unchanging (ret a). Proof. by intros w q _. Qed.
Lemma unchanging_raise {A} e : unchanging (raise e : comp W exn A). Proof. by intros w q _. Qed.
Lemma unchanging_lifted {A} (o : outcome exn A) : unchanging (lifted o). Proof. by intros w q _. Qed.
Lemma unchanging_bind {A B} (m : comp W exn A) (f : A → comp W exn B) : unchanging m → (∀ a, unchanging (f a)) → unchanging (bind m f).
Proof.
  intros Hm Hf w. unfold bind. specialize (Hm w). destruct (m w) as [[a|e] w1]; [|done].
  eapply same_trans; [exact Hm|]. apply Hf.
Qed.
Lemma unchanging_get p : unchanging (kube_get p). Proof. intros w q _. apply law_get. Qed.
Lemma unchanging_sleep d : unchanging (async_sleep d). Proof. intros w q _. apply law_sleep. Qed.
Lemma unchanging_now : unchanging now. Proof. intros w q _. unfold now. pose proof (law_time w q). by destruct (loop_time w). Qed.
Lemma unchanging_status r : unchanging (raise_for_status r).
Proof. unfold raise_for_status. destruct (_ && _); [apply unchanging_ret|apply unchanging_raise]. Qed.

Lemma unchanging_poll {A} fuel stop deadline poll (probe : comp W exn (A + string)) last :
  unchanging probe → unchanging (poll_until fuel stop deadline poll probe last).
Proof.
  intros Hp. revert last. induction fuel as [|fuel IH]; intros last; cbn [poll_until]; [apply unchanging_ret|].
  apply unchanging_bind; [apply unchanging_now|intros t]. destruct (PrimFloat.leb _ _); [apply unchanging_ret|].
  apply unchanging_bind; [done|intros [a|e]]; [apply unchanging_ret|]. apply unchanging_bind; [apply unchanging_now|intros t'].
  destruct (PrimFloat.leb _ _); [apply unchanging_ret|]. destruct (_ && _); [apply unchanging_ret|].
  apply unchanging_bind; [apply unchanging_sleep|intros _; apply IH].
Qed.

Ltac quiets :=
  repeat first
    [ apply unchanging_ret | apply unchanging_raise | apply unchanging_lifted | apply unchanging_get | apply unchanging_now | apply unchanging_status
    | apply unchanging_poll | apply unchanging_bind; [|intros ?] | progress case_match ].

Lemma unchanging_finish fuel k g response : unchanging (finish_deploy fuel k g response).
Proof. unfold finish_deploy, _wait_for_rollout, rollout_probe. quiets. Qed.

Lemma is_error_404 r : kr_status r = 404 → is_error r = true.
Proof. unfold is_error. intros ->. done. Qed.
Lemma is_error_409 r : kr_status r = 409 → is_error r = true.
Proof. unfold is_error. intros ->. done. Qed.

(** Applying a manifest touches its own path only, and an application that succeeds
    leaves the object there. *)
Lemma apply_spec ns plural api m name w :
  manifest_name m = Ok name →
  let p := path_of ns (plural, api, name) in
  wp (_apply_manifest ns plural api m) (λ _ w', is_Some (objects w' p) ∧ same_outside [p] w w')
     (λ _ w', same_outside [p] w w') w.
Proof.
  intros Hname p. unfold _apply_manifest. apply wp_bind. unfold lifted at 1. rewrite Hname. unfold wp at 1.
  unfold p, path_of. cbn [fst snd]. destruct (_resource_paths ns plural api name) as [named collection] eqn:Ep. cbn [fst].
  assert (named = collection +:+ "/" +:+ name) as Hn.
  { unfold _resource_paths in Ep. destruct (split_first _ _) as [[? ?]|]; by injection Ep as <- <-. }
  assert (∀ w0 r, same_outside [named] w w0 → (is_error r = false → is_Some (objects w0 named)) →
    wp (if is_error r then raise (runtime_error ("K8s apply failed for " +:+ plural +:+ "/" +:+ name +:+ ": " +:+ str_of_Z (kr_status r)
           +:+ " " +:+ _summarize_k8s_error r)) else lifted (_response_json_object r))
       (λ _ w', is_Some (objects w' named) ∧ same_outside [named] w w') (λ _ w', same_outside [named] w w') w0) as Hend.
  { intros w0 r Hs Hr. destruct (is_error r); [by apply wp_raise|]. unfold wp, lifted. destruct (_response_json_object r); [|done].
    split; [by apply Hr|done]. }
  assert (∀ w0, same_outside [named] w w0 →
    wp (kube_patch named m) (λ r w', same_outside [named] w w' ∧ (is_error r = false → is_Some (objects w' named)))
       (λ _ w', same_outside [named] w w') w0) as Hpatch.
  { intros w0 Hs. destruct (law_patch (objects:=objects) named m w0) as [Ho Hr]. unfold wp.
    destruct (kube_patch named m w0) as [[r|e] w1]; cbn [fst snd] in *.
    - split; [|intros He; specialize (Hr r eq_refl); by rewrite He in Hr].
      eapply same_trans; [exact Hs|]. intros q Hq. apply Ho. set_solver.
    - eapply same_trans; [exact Hs|]. intros q Hq. apply Ho. set_solver. }
  apply wp_bind. eapply wp_mono; [apply Hpatch, same_refl| |done]. intros r w1 [Hs Hr]. apply wp_bind.
  destruct (kr_status r =? 404) eqn:E404; [|by apply wp_ret, Hend].
  apply wp_bind. destruct (law_post (objects:=objects) collection m w1 name Hname) as [Ho Hp]. rewrite <-Hn in Ho, Hp.
  unfold wp at 1. destruct (kube_post collection m w1) as [[r2|e] w2]; cbn [fst snd] in *.
  - assert (same_outside [named] w w2) as Hs2.
    { eapply same_trans; [exact Hs|]. intros q Hq. apply Ho. set_solver. }
    destruct (kr_status r2 =? 409); [|apply wp_ret, Hend; [done|]].
    + eapply wp_mono; [by apply Hpatch| |done]. intros r3 w3 [Hs3 Hr3]. by apply Hend.
    + intros He. specialize (Hp r2 eq_refl). by rewrite He in Hp.
  - eapply same_trans; [exact Hs|]. intros q Hq. apply Ho. set_solver.
Qed.

(** Deletion in reverse order: when no error was collected, nothing of it is left. *)
Lemma delete_spec ns rs w :
  wp (_delete_manifests_best_effort ns rs)
     (λ errors w', same_outside (path_of ns <$> rs) w w' ∧ (errors = [] → ∀ r, r ∈ rs → objects w' (path_of ns r) = None))
     (λ _ _, False) w.
Proof.
  unfold _delete_manifests_best_effort.
  eapply wp_mono; [apply (wp_fold_each _ (λ done errors w', same_outside (path_of ns <$> rs) w w' ∧
     (errors = [] → ∀ r, r ∈ done → objects w' (path_of ns r) = None)) (λ _ _, False))| |done].
  - split; [apply same_refl|]. intros _ r []%elem_of_nil.
  - intros pre r post errors w1 Hl [Hs He]. apply wp_bind, wp_attempt.
    assert (r ∈ rs) as Hr by (apply list_elem_of_In, in_rev; rewrite Hl; apply list_elem_of_In, elem_of_app; right; left).
    unfold _delete_manifest. apply wp_bind. destruct (law_delete (objects:=objects) (path_of ns r) w1) as [Ho Hd].
    assert (∀ w2, (∀ q, q ≠ path_of ns r → objects w2 q = objects w1 q) → same_outside (path_of ns <$> rs) w w2) as Hs2.
    { intros w2 H. eapply same_trans; [exact Hs|]. intros q Hq. apply H. intros ->. apply Hq. by apply list_elem_of_fmap_2. }
    unfold wp at 1. destruct (kube_delete (path_of ns r) w1) as [[rsp|e] w2]; cbn [fst snd] in *.
    + assert (200 ≤ kr_status rsp ≤ 299 ∨ kr_status rsp = 404 →
        same_outside (path_of ns <$> rs) w w2 ∧ (errors = [] → ∀ r', r' ∈ pre ++ [r] → objects w2 (path_of ns r') = None)) as Hgone.
      { intros Hst. split; [by apply Hs2|]. intros -> r' Hr'. destruct (decide (path_of ns r' = path_of ns r)) as [->|Hne]; [by apply (Hd rsp)|].
        apply elem_of_app in Hr' as [Hr'| ->%list_elem_of_singleton]; [|done]. rewrite Ho by done. by apply He. }
      case_bool_decide as Hst.
      * apply wp_ret, wp_ret, Hgone. rewrite !elem_of_cons, elem_of_nil in Hst. lia.
      * unfold raise_for_status. destruct (_ && _) eqn:E2; [|apply wp_raise, wp_ret; split; [by apply Hs2|by destruct errors]].
        apply wp_ret, wp_ret, Hgone. lia.
    + apply wp_ret. split; [by apply Hs2|]. by destruct errors.
  - intros errors w' [Hs He]. split; [done|]. intros Hn r Hr. apply He; [done|]. apply list_elem_of_In. rewrite <-in_rev. by apply list_elem_of_In.
Qed.

(** The paths of a manifest set are distinct, whatever its objects are called. *)
Lemma path_core ns plural name :
  path_of ns (plural, "v1", name) = "/api/v1/namespaces/" +:+ (ns +:+ ("/" +:+ (plural +:+ ("/" +:+ name)))).
Proof. unfold path_of, _resource_paths. simpl fst. by rewrite <-!str_app_assoc. Qed.
Lemma path_apps ns plural name :
  path_of ns (plural, "apps/v1", name) = "/apis/apps/v1/namespaces/" +:+ (ns +:+ ("/" +:+ (plural +:+ ("/" +:+ name)))).
Proof. unfold path_of, _resource_paths. simpl fst. by rewrite <-!str_app_assoc. Qed.
Lemma path_networking ns plural name :
  path_of ns (plural, "networking.k8s.io/v1", name) =
  "/apis/networking.k8s.io/v1/namespaces/" +:+ (ns +:+ ("/" +:+ (plural +:+ ("/" +:+ name)))).
Proof. unfold path_of, _resource_paths. simpl fst. by rewrite <-!str_app_assoc. Qed.

Lemma paths_distinct ns g rs : resources_of g = Ok rs → NoDup (path_of ns <$> rs).
Proof.
  unfold resources_of. intros H. obinds H. injection H as <-. cbn [fmap list_fmap].
  rewrite !path_core, path_apps, path_networking. repeat (rewrite NoDup_cons, ?elem_of_cons, ?elem_of_nil).
  split_and!; try (apply NoDup_nil_2); intros Hin; repeat (destruct Hin as [Hin|Hin]); try done; try discriminate Hin.
  apply str_app_inj_l, str_app_inj_l in Hin. discriminate Hin.
Qed.

Section steps.
Context (ns : string) (rs : list resource) (w : W).
Hypothesis distinct : NoDup (path_of ns <$> rs).

(** The first [n] resources are applied and recorded. *)
Definition applied (n : nat) (s : created_so_far) : Prop :=
  s.1 = take n rs ∧ (∀ r, r ∈ take n rs → is_Some (objects s.2 (path_of ns r))) ∧ same_outside (path_of ns <$> take n rs) w s.2.

(** Resource [n] failed. *)
Definition stuck (n : nat) (s : created_so_far) : Prop :=
  s.1 = take n rs ∧ same_outside (path_of ns <$> take (S n) rs) w s.2.

Lemma apply_one_spec n plural api name m s :
  rs !! n = Some (plural, api, name) → manifest_name m = Ok name → applied n s →
  wp (apply_one ns plural api m) (λ _ s', applied (S n) s') (λ _ s', stuck n s') s.
Proof.
  intros Hn Hm (Hc & Hp & Hs). unfold apply_one. apply wp_bind. unfold in_w. pose proof (apply_spec ns plural api m name s.2 Hm) as Ha.
  set (p := path_of ns (plural, api, name)) in *.
  assert (∀ w', same_outside [p] s.2 w' → same_outside (path_of ns <$> take (S n) rs) w w') as Hout.
  { intros w' H. rewrite (take_S_r _ _ _ Hn), fmap_app. eapply same_trans; [eapply same_mono, Hs|eapply same_mono, H].
    - set_solver.
    - unfold p. set_solver. }
  unfold wp in Ha |- *. destruct (_apply_manifest ns plural api m s.2) as [[resp|e] w1].
  - destruct Ha as [Hsome Ho]. unfold bind, lifted, modify. rewrite Hm. cbn [fst snd]. split_and!; cbn [fst snd].
    + by rewrite Hc, (take_S_r _ _ _ Hn).
    + intros r. rewrite (take_S_r _ _ _ Hn). intros [Hr| ->%list_elem_of_singleton]%elem_of_app; [|done]. rewrite Ho; [by apply Hp|].
      intros Hq%list_elem_of_singleton. rewrite <-(take_drop_middle _ _ _ Hn), fmap_app, fmap_cons in distinct.
      apply NoDup_app in distinct as (_ & Hd & _). apply (Hd (path_of ns r)); [by apply list_elem_of_fmap_2|]. rewrite Hq. left.
    + by apply Hout.
  - cbn [fst snd]. split; [done|]. by apply Hout.
Qed.

Lemma finish_spec fuel k g response s : length rs = 4%nat → applied 4 s →
  wp (in_w (finish_deploy fuel k g response)) (λ _ s', applied 4 s') (λ _ s', stuck 4 s') s.
Proof.
  intros Hl (Hc & Hp & Hs). unfold wp, in_w. pose proof (unchanging_finish fuel k g response s.2) as Hq.
  assert (take 4 rs = rs ∧ take 5 rs = rs) as [E4 E5] by (split; apply take_ge; lia). unfold applied, stuck. rewrite E4, E5 in *.
  destruct (finish_deploy fuel k g response s.2) as [[o|e] w1]; cbn [fst snd] in *.
  - split_and!; [done| |eapply same_trans; [exact Hs|eapply same_mono, Hq; set_solver]].
    intros r Hr. rewrite Hq; [by apply Hp|]. apply not_elem_of_nil.
  - split; [done|]. eapply same_trans; [exact Hs|]. eapply same_mono, Hq. set_solver.
Qed.
End steps.

Lemma body_spec fuel k g rs w : resources_of g = Ok rs →
  wp (deploy_body fuel k g) (λ _ s, applied (kd_namespace k) rs w 4 s) (λ _ s, ∃ n, (n ≤ 4)%nat ∧ stuck (kd_namespace k) rs w n s) ([], w).
Proof.
  intros Hrs. pose proof (paths_distinct (kd_namespace k) g rs Hrs) as Hd. revert Hrs Hd. unfold resources_of. intros Hrs Hd.
  apply obind_ok in Hrs as (n1 & H1 & Hrs). apply obind_ok in Hrs as (n2 & H2 & Hrs). apply obind_ok in Hrs as (n3 & H3 & Hrs).
  apply obind_ok in Hrs as (n4 & H4 & Hrs). injection Hrs as Hrs. set (ns := kd_namespace k) in *.
  assert (∀ n plural api name m, (n < 4)%nat → rs !! n = Some (plural, api, name) → manifest_name m = Ok name → ∀ s, applied ns rs w n s →
    wp (apply_one ns plural api m) (λ _ s', applied ns rs w (S n) s') (λ _ s', ∃ n, (n ≤ 4)%nat ∧ stuck ns rs w n s') s) as Hstep.
  { intros n plural api name m Hn Hr Hm s Hs. eapply wp_mono; [by apply (apply_one_spec ns rs w Hd n plural api name)|done|].
    intros e s' H. exists n. split; [lia|done]. }
  unfold deploy_body. fold ns. subst rs.
  apply wp_bind. eapply wp_mono; [eapply (Hstep 0%nat); [lia|done|exact H1|split_and!; [done|by intros r []%elem_of_nil|apply same_refl]]| |done].
  intros d1 s1 Hs1. apply wp_bind. eapply wp_mono; [eapply (Hstep 1%nat); [lia|done|exact H2|done]| |done].
  intros response s2 Hs2. apply wp_bind. eapply wp_mono; [eapply (Hstep 2%nat); [lia|done|exact H3|done]| |done].
  intros d3 s3 Hs3. apply wp_bind. eapply wp_mono; [eapply (Hstep 3%nat); [lia|done|exact H4|done]| |done].
  intros d4 s4 Hs4. eapply wp_mono; [apply (finish_spec _ _ w Hd fuel k g response s4 eq_refl Hs4)|done|]. intros e s5 H5. by exists 4%nat.
Qed.

End effects.

(** ** Deleting a deployment *)

Section deletion.
Context {W : Type} `{!Cluster W} (objects : W → string → option (dict pyval)) `{!ClusterLaws W objects}.

(** A rollback that returns has deleted the four objects and touched nothing else. *)
Lemma rollback_deletes k g rs w w' : resources_of g = Ok rs → rollback k g w = (Ok tt, w') →
  (∀ r, r ∈ rs → objects w' (path_of (kd_namespace k) r) = None) ∧ same_outside objects (path_of (kd_namespace k) <$> rs) w w'.
Proof.
  intros Hrs. unfold rollback, closing, bind, attempt, when, lifted. rewrite Hrs.
  pose proof (delete_spec objects (kd_namespace k) rs w) as Hd. unfold wp in Hd.
  destruct (_delete_manifests_best_effort (kd_namespace k) rs w) as [[errors|] w1]; [|done]. destruct Hd as [Hs Hgone].
  destruct errors as [|err errors]; cbn [raise ret].
  - specialize (Hgone eq_refl). destruct (kd_owns_api_client k); [|by intros [= <-]].
    destruct (law_close (objects:=objects) w1) as [Hok Hq]. destruct (kube_close w1) as [[[]|e] w2]; [|done]. intros [= <-].
    split; [intros r Hr; rewrite Hq; by apply Hgone|]. eapply same_trans; [exact Hs|]. intros q _. apply Hq.
  - destruct (kd_owns_api_client k); [|done]. by destruct (kube_close w1) as [[[]|e] w2].
Qed.
End deletion.

(** ** Waiting ends *)

Section waiting.
Context {W : Type} `{!Cluster W}.

(** Time passes only while a loop sleeps: [budget] counts the sleeps that may still
    happen before the clock has reached the deadline. *)
Context (budget : W → nat) (deadline : float).
Context (Hdeadline : ∀ w, budget w = 0%nat → PrimFloat.leb deadline (loop_time w).1 = true)
        (Htime : ∀ w, (budget (loop_time w).2 ≤ budget w)%nat)
        (Hsleep : ∀ d w, (budget (async_sleep d w).2 ≤ budget w - 1)%nat).

Lemma poll_until_ends {A} fuel stop poll (probe : comp W exn (A + string)) last w :
  (∀ w, (budget (probe w).2 ≤ budget w)%nat) → (budget w < fuel)%nat →
  (poll_until fuel stop deadline poll probe last w).1 ≠ Ok OutOfFuel.
Proof.
  intros Hprobe. revert last w. induction fuel as [|fuel IH]; intros last w Hw; [lia|]. cbn [poll_until]. unfold bind, now.
  pose proof (Hdeadline w) as Hd. pose proof (Htime w) as Ht. destruct (loop_time w) as [t w1]. cbn [fst snd] in Hd, Ht.
  destruct (PrimFloat.leb deadline t) eqn:El; [done|]. assert (budget w ≠ 0)%nat as Hpos by (intros H0; by discriminate (Hd H0)).
  specialize (Hprobe w1). destruct (probe w1) as [[[a|e]|e] w2]; [done| |done]. cbn [fst snd] in Hprobe.
  pose proof (Htime w2) as Ht2. destruct (loop_time w2) as [t2 w3]. cbn [fst snd] in Ht2.
  destruct (PrimFloat.leb _ 0); [done|]. destruct (_ && _); [done|].
  match goal with |- context [async_sleep ?d w3] => pose proof (Hsleep d w3) as Hs; destruct (async_sleep d w3) as [[[]|e2] w4] end; [|done].
  cbn [snd] in Hs. apply IH. lia.
Qed.
End waiting.

(** Waiting for a deployment ends.  When every sleep brings the event loop's
    clock nearer to the deadline and nothing sets it back, [_wait_for_rollout] stops
    within one turn more than the sleeps that fit before its deadline: with the
    observed generation, or with an exception. *)
Theorem wait_for_rollout_ends {W : Type} `{!Cluster W} (budget : W → nat) fuel namespace name timeout poll replicas w :
  (∀ w', budget w' = 0%nat → PrimFloat.leb (PrimFloat.add (loop_time w).1 timeout) (loop_time w').1 = true) →
  (∀ w', (budget (loop_time w').2 ≤ budget w')%nat) →
  (∀ d w', (budget (async_sleep d w').2 ≤ budget w' - 1)%nat) →
  (∀ p w', (budget (kube_get p w').2 ≤ budget w')%nat) →
  (budget w < fuel)%nat →
  match (_wait_for_rollout fuel namespace name timeout poll replicas w).1 with
  | Ok (Found _) | Raise _ => True
  | _ => False
  end.
Proof.
  intros Hd Ht Hs Hg Hw. unfold _wait_for_rollout, bind, now. pose proof (Ht w) as Hle. destruct (loop_time w) as [t w1]. cbn [fst snd] in Hd, Hle.
  assert (∀ w', (budget (rollout_probe namespace name replicas w').2 ≤ budget w')%nat) as Hprobe.
  { intros w'. unfold rollout_probe, bind, lifted. specialize (Hg (path_of namespace ("deployments", "apps/v1", name)) w').
    destruct (kube_get _ w') as [[r|e] w2]; [|done]. cbn [snd] in Hg. unfold raise_for_status. destruct (_ && _); [|done]. cbn [ret].
    destruct (_response_json_object r); [|done]. destruct (as_mapping _); [|done]. destruct (as_mapping _); [|done].
    destruct (rollout_counts _ _) as [[[[? ?] ?] ?]|]; done. }
  pose proof (poll_until_ends budget _ Hd Ht Hs fuel false poll (rollout_probe namespace name replicas) None w1 Hprobe) as He.
  destruct (poll_until _ _ _ _ _ _ w1) as [[[a|l|]|e] w2]; try done. cbn [fst] in He. apply He; [lia|done].
Qed.

(** ** A small cluster *)

Record fake := mk_fake { fk_objects : dict (dict pyval); fk_sleeps : nat; fk_ready : bool; fk_broken : list string }.
Definition with_objects (d : dict (dict pyval)) (w : fake) : fake := mk_fake d (fk_sleeps w) (fk_ready w) (fk_broken w).
Definition answer (status : Z) (v : dict pyval) : kresponse := mk_kresponse status (Some (VDict v)) "" "".

Definition fake_status (w : fake) : dict pyval :=
  [("metadata", VDict [("generation", VInt 1)]);
   ("status", VDict [("observedGeneration", VInt 1); ("availableReplicas", VInt (if fk_ready w then 1 else 0))])].

Definition fake_name (m : dict pyval) : string :=
  match get_or_none m "metadata" with VDict d => py_str (λ _, "<object>") (get_or_none d "name") | _ => "" end.

#[export] Instance fake_cluster : Cluster fake := {
  kube_patch := λ p m w,
    if bool_decide (p ∈ fk_broken w) then (Ok (answer 500 []), w)
    else match dict_get (fk_objects w) p with
         | Some old => (Ok (answer 200 m), with_objects (dict_set (fk_objects w) p (dict_update old m)) w)
         | None => (Ok (answer 404 []), w)
         end;
  kube_post := λ c m w,
    let p := c +:+ "/" +:+ fake_name m in
    match dict_get (fk_objects w) p with
    | Some _ => (Ok (answer 409 []), w)
    | None => (Ok (answer 201 m), with_objects (dict_set (fk_objects w) p m) w)
    end;
  kube_delete := λ p w,
    match dict_get (fk_objects w) p with
    | Some _ => (Ok (answer 200 []), with_objects (List.filter (λ kv, negb (str_eqb kv.1 p)) (fk_objects w)) w)
    | None => (Ok (answer 404 []), w)
    end;
  kube_get := λ p w, (Ok (answer 200 (fake_status w)), w);
  kube_close := ret tt;
  loop_time := λ w, (match fk_sleeps w with O => 1000%float | _ => 0%float end, w);
  async_sleep := λ _ w, (Ok tt, mk_fake (fk_objects w) (fk_sleeps w - 1) (fk_ready w) (fk_broken w));
  krepr := λ _, "<object>";
}.

Definition fake_objects (w : fake) (p : string) : option (dict pyval) := dict_get (fk_objects w) p.

Lemma get_filtered_key {V} (d : dict V) p q :
  dict_get (List.filter (λ kv, negb (str_eqb kv.1 p)) d) q = if str_eqb q p then None else dict_get d q.
Proof.
  induction d as [|[k v] d IH]; simpl; [by case_eqb|]. destruct (str_eqbP k p) as [->|Hk]; simpl; rewrite ?IH.
  - by case_eqb.
  - destruct (str_eqbP q k) as [->|]; [|done]. by rewrite (proj2 (str_eqb_neq k p)).
Qed.

#[export] Instance fake_cluster_laws : ClusterLaws fake fake_objects.
Proof.
  split; unfold fake_objects; simpl.
  - intros p m w. case_bool_decide; [split; [done|]; by intros r [= <-]|]. destruct (dict_get (fk_objects w) p) as [old|] eqn:E; simpl.
    + split; [intros q Hq; by apply dict_get_set_ne|]. intros r [= <-]. simpl. rewrite dict_get_set_eq. by eexists.
    + split; [done|]. by intros r [= <-].
  - intros c m w name Hname. assert (fake_name m = name) as ->.
    { revert Hname. unfold manifest_name, fake_name, get_or_none. destruct (dict_get m "metadata") as [[| | | | | |d]|]; try done.
      simpl. destruct (dict_get d "name"); [|done]. by intros [= <-]. }
    destruct (dict_get (fk_objects w) (c +:+ "/" +:+ name)) as [old|] eqn:E; simpl.
    + split; [done|]. by intros r [= <-].
    + split; [intros q Hq; by apply dict_get_set_ne|]. intros r [= <-]. simpl. rewrite dict_get_set_eq. by eexists.
  - intros p w. destruct (dict_get (fk_objects w) p) as [old|] eqn:E; simpl.
    + split; [intros q Hq|intros r _ _]; rewrite get_filtered_key; by case_eqb.
    + split; [done|]. intros r [= <-] _. done.
  - done.
  - done.
  - done.
  - by intros w.
Qed.

Definition demo_manifest (kind name : string) : dict pyval := [("kind", VStr kind); ("metadata", VDict [("name", VStr name)])].
Definition demo_set : GeneratedManifestSet :=
  mk_manifest_set (demo_manifest "ConfigMap" "pets-v1-ir") (demo_manifest "Deployment" "pets-v1") (demo_manifest "Service" "pets-v1")
    (demo_manifest "NetworkPolicy" "pets-v1") [] "".
Definition demo_deployer : KubernetesManifestDeployer := mk_deployer "prod" true 0.5 60.
Definition demo_resources : list resource :=
  [("configmaps", "v1", "pets-v1-ir"); ("deployments", "apps/v1", "pets-v1"); ("services", "v1", "pets-v1");
   ("networkpolicies", "networking.k8s.io/v1", "pets-v1")].


Lemma wait_for_rollout_ends_witness :
  (_wait_for_rollout 4 "prod" "pets-v1" 60 0.5 1 (mk_fake [] 3 false [])).1 =
    Raise (runtime_error "Timed out waiting for Kubernetes rollout of deployment pets-v1.") ∧
  match (_wait_for_rollout 4 "prod" "pets-v1" 60 0.5 1 (mk_fake [] 3 false [])).1 with Ok (Found _) | Raise _ => True | _ => False end.
Proof.
  split; [vm_compute; reflexivity|].
  apply (wait_for_rollout_ends fk_sleeps); [|by intros|by intros|by intros|simpl; lia].
  intros w' Hw. simpl. by rewrite Hw.
Defined.

(** Redeploying objects that already run: when the rollout fails, cleaning up deletes
    the deployment that was running before. *)
Example failed_redeploy_removes_running_deployment :
  let w := (deploy 5 demo_deployer demo_set (mk_fake [] 3 true [])).2 in
  let again := (deploy 5 demo_deployer demo_set (mk_fake (fk_objects w) 3 false [])).2 in
  length (fk_objects w) = 4%nat ∧ fk_objects again = [].
Proof. vm_compute. done. Qed.
