(* ===== verification/Samples.v ===== *)
(** * Sample invocations ([apps/compiler_worker/activities/production.py])

    Arguments invented for every enabled operation, with which a freshly deployed
    runtime is tried out.  Unless the description gives a default, a placeholder
    of a path gets one of the marked values of [libs/sample_placeholders.py]. *)

From S2P Require Export RuntimeSql Validators.
From Stdlib Require Import Ascii.

Definition PATH_PLACEHOLDER_NUMBER_SAMPLE : float := 2147483647%float.

Definition is_None (v : pyval) : bool := match v with VNone => true | _ => false end.
Definition has_default (p : Param) : bool := negb (is_None (pa_default p)).

(** [_sample_value] *)
Definition _sample_value (p : Param) : pyval :=
  if has_default p then pa_default p
  else if str_eqb (lower (pa_name p)) "status" then VStr "available"
  else if str_eqb (pa_type p) "integer" then VInt 1
  else if str_eqb (pa_type p) "number" then VFloat 1
  else if str_eqb (pa_type p) "boolean" then VBool true
  else if str_eqb (pa_type p) "array" then VList [VStr "sample"]
  else if str_eqb (pa_type p) "object" then VDict [("name", VStr "sample")]
  else if endswith "id" (lower (pa_name p)) then VStr "1"
  else VStr "sample".

(** [_sample_path_value] *)
Definition _sample_path_value (p : Param) : pyval :=
  if has_default p then pa_default p
  else if str_eqb (pa_type p) "integer" then VInt PATH_PLACEHOLDER_INT_SAMPLE
  else if str_eqb (pa_type p) "number" then VFloat PATH_PLACEHOLDER_NUMBER_SAMPLE
  else if str_eqb (pa_type p) "array" then VList [VStr PATH_PLACEHOLDER_STRING_SAMPLE]
  else if str_eqb (pa_type p) "object" then VDict [("name", VStr PATH_PLACEHOLDER_STRING_SAMPLE)]
  else if endswith "id" (lower (pa_name p)) then VStr PATH_PLACEHOLDER_ID_SAMPLE
  else VStr PATH_PLACEHOLDER_STRING_SAMPLE.

(** [{p.name: f(p) for p in params if keep(p)}] *)
Definition sample_each (f : Param → pyval) (keep : Param → bool) (params : list Param) : dict pyval :=
  dict_of_list ((λ p, (pa_name p, f p)) <$> List.filter keep params).

(** [p.required or p.default is not None] *)
Definition expected (p : Param) : bool := pa_required p || has_default p.

(** [_is_safe_optional_grpc_sample_param] *)
Definition _is_safe_optional_grpc_sample_param (p : Param) : bool :=
  endswith "id" (lower (pa_name p))
  || one_of (lower (pa_name p))
       ["cursor"; "limit"; "location"; "location_id"; "offset"; "page"; "page_size"; "page_token"; "q"; "query"; "search"; "sku"; "term"].

(** [_sample_grpc_arguments] *)
Definition _sample_grpc_arguments (o : Operation) : dict pyval :=
  foldl (λ arguments p,
    if dict_mem arguments (pa_name p) then arguments
    else if one_of (pa_type p) ["array"; "object"] then arguments
    else if _is_safe_optional_grpc_sample_param p then dict_set arguments (pa_name p) (_sample_value p)
    else arguments) (sample_each _sample_value expected (op_params o)) (op_params o).

(** [_sample_graphql_arguments] *)
Definition _sample_graphql_arguments (o : Operation) : dict pyval :=
  match op_graphql o with
  | None => sample_each _sample_value (λ _, true) (op_params o)
  | Some g =>
      let arguments := sample_each _sample_value expected (op_params o) in
      if negb (no_items arguments) then arguments
      else match gq_operation_type g with
           | gql_query => []
           | _ => sample_each _sample_value (λ _, true) (op_params o)
           end
  end.

(** The first updatable column without a value gets one. *)
Fixpoint add_one_update (columns : list string) (arguments : dict pyval) (params : list Param) : dict pyval :=
  match params with
  | [] => arguments
  | p :: rest =>
      if dict_mem arguments (pa_name p) || negb (bool_decide (pa_name p ∈ columns)) then add_one_update columns arguments rest
      else dict_set arguments (pa_name p) (_sample_value p)
  end.

(** [_sample_sql_arguments] *)
Definition _sample_sql_arguments (o : Operation) : dict pyval :=
  match op_sql o with
  | None => sample_each _sample_value (λ _, true) (op_params o)
  | Some s =>
      match sq_action s with
      | sql_query =>
          sample_each (λ p, if str_eqb (pa_name p) "limit" then (if has_default p then pa_default p else VInt 1) else _sample_value p)
            (λ p, str_eqb (pa_name p) "limit" || pa_required p) (op_params o)
      | sql_update =>
          add_one_update (sq_updatable_columns s) (sample_each _sample_value pa_required (op_params o)) (op_params o)
      | _ => sample_each _sample_value pa_required (op_params o)
      end
  end.

Definition path_placeholders (o : Operation) : list string := placeholders None (default "" (op_path o)).
Definition in_path (o : Operation) (p : Param) : bool := bool_decide (pa_name p ∈ path_placeholders o).

(** [_sample_arguments_for_operation] *)
Definition _sample_arguments_for_operation (ir : ServiceIR) (o : Operation) : dict pyval :=
  if given (op_sql o) then _sample_sql_arguments o
  else if given (op_graphql o) then _sample_graphql_arguments o
  else if str_eqb (ir_protocol ir) "grpc" then _sample_grpc_arguments o
  else sample_each (λ p, if in_path o p then _sample_path_value p else _sample_value p)
         (λ p, expected p || in_path o p) (op_params o).

(** [build_sample_invocations] *)
Definition build_sample_invocations (ir : ServiceIR) : dict (dict pyval) :=
  dict_of_list ((λ o, (op_id o, _sample_arguments_for_operation ir o)) <$> List.filter op_enabled (ir_operations ir)).

(** [_sample_invocation_overrides]: tool names of a dictionary are texts. *)
Definition _sample_invocation_overrides (options : dict pyval) : dict (dict pyval) :=
  match get_or_none options "sample_invocation_overrides" with
  | VDict d => dict_of_list (omap (λ kv, match kv.2 with VDict arguments => Some (kv.1, arguments) | _ => None end) d)
  | _ => []
  end.

(** [_preferred_smoke_tool_ids] *)
Definition _preferred_smoke_tool_ids (options : dict pyval) : list string :=
  match get_or_none options "preferred_smoke_tool_ids" with
  | VList l => omap (λ v, match v with VStr s => if str_truthy s then Some s else None | _ => None end) l
  | _ => []
  end.

(** The samples a runtime is tried out with *)
Definition sample_invocations (ir : ServiceIR) (options : dict pyval) : dict (dict pyval) :=
  dict_update (build_sample_invocations ir) (_sample_invocation_overrides options).

(** ** What the samples contain *)

Lemma has_default_value p : has_default p = true → pa_default p ≠ VNone.
Proof. unfold has_default. intros H E. by rewrite E in H. Qed.

Lemma sample_value_given p : _sample_value p ≠ VNone.
Proof. unfold _sample_value. destruct (has_default p) eqn:E; [by apply has_default_value|]. repeat case_match; discriminate. Qed.

Lemma sample_path_value_given p : _sample_path_value p ≠ VNone.
Proof. unfold _sample_path_value. destruct (has_default p) eqn:E; [by apply has_default_value|]. repeat case_match; discriminate. Qed.

Lemma dict_of_list_key {V} (l : list (string * V)) k : k ∈ l.*1 → is_Some (dict_get (dict_of_list l) k).
Proof.
  unfold dict_of_list, dict_update. induction l as [|[k' v'] l IH] using rev_ind; intros Hk; [by apply elem_of_nil in Hk|].
  rewrite fmap_app, elem_of_app in Hk. rewrite foldl_app. cbn [foldl fst snd]. rewrite dict_get_set.
  destruct (str_eqbP k k') as [->|Hne]; [by eexists|].
  destruct Hk as [Hk|Hk%list_elem_of_singleton]; [by apply IH|done].
Qed.

Lemma sample_each_get f keep params n v :
  dict_get (sample_each f keep params) n = Some v → ∃ p, p ∈ params ∧ keep p = true ∧ pa_name p = n ∧ v = f p.
Proof.
  intros H%dict_of_list_elem. apply list_elem_of_fmap in H as (p & [= -> ->] & [Hk Hp]%elem_of_filterb). by exists p.
Qed.

Lemma sample_each_key f keep params p :
  p ∈ params → keep p = true → is_Some (dict_get (sample_each f keep params) (pa_name p)).
Proof.
  intros Hp Hk. apply dict_of_list_key. rewrite <-list_fmap_compose. apply (list_elem_of_fmap_2 (fst ∘ λ p, (pa_name p, f p))).
  by apply elem_of_filterb.
Qed.

Lemma built_sample ir o : service_wf ir → o ∈ ir_operations ir → op_enabled o = true →
  dict_get (build_sample_invocations ir) (op_id o) = Some (_sample_arguments_for_operation ir o).
Proof.
  intros Hwf Ho He. unfold build_sample_invocations.
  assert (NoDup (op_id <$> List.filter op_enabled (ir_operations ir))) as Hnd by (apply NoDup_fmap_filterb, (wf_op_ids _ Hwf)).
  rewrite dict_of_list_wf_id.
  - apply dict_get_elem.
    + unfold dict_wf, dict_keys. by rewrite <-list_fmap_compose.
    + apply (list_elem_of_fmap_2 (λ o, (op_id o, _sample_arguments_for_operation ir o))). by apply elem_of_filterb.
  - unfold dict_wf, dict_keys. by rewrite <-list_fmap_compose.
Qed.

(** The branch of [_sample_arguments_for_operation] the samples of plain requests come from *)
Definition plain (ir : ServiceIR) (o : Operation) : Prop :=
  op_sql o = None ∧ op_graphql o = None ∧ str_eqb (ir_protocol ir) "grpc" = false.

Lemma plain_sample ir o : plain ir o →
  _sample_arguments_for_operation ir o =
    sample_each (λ p, if in_path o p then _sample_path_value p else _sample_value p) (λ p, expected p || in_path o p) (op_params o).
Proof. intros (Hs & Hg & Hp). unfold _sample_arguments_for_operation. by rewrite Hs, Hg, Hp. Qed.

Section paths.
Context {W : Type} `{!Upstream W}.

Lemma dedup_in {A} `{EqDecision A} (l acc : list A) x :
  x ∈ foldl (λ acc n, if bool_decide (n ∈ acc) then acc else acc ++ [n]) acc l → x ∈ acc ∨ x ∈ l.
Proof.
  revert acc. induction l as [|y l IH]; intros acc; simpl; [by left|]. intros [H|H]%IH; [|right; by right].
  case_bool_decide; [by left|]. apply elem_of_app in H as [H|H%list_elem_of_singleton]; [by left|right; subst; left].
Qed.

Lemma resolve_path_total raw names arguments :
  (∀ n, n ∈ names → get_or_none arguments n ≠ VNone) → ∃ path, resolve_path raw names arguments = Ok path.
Proof.
  unfold resolve_path. revert raw. induction names as [|n names IH]; intros raw Hn; [by eexists|]. cbn [foldl].
  assert (fill_path arguments (Ok raw) n =
    Ok (str_replace ("{" +:+ n +:+ "}") (quote (py_str repr (get_or_none arguments n))) raw)) as ->.
  { unfold fill_path, obind. specialize (Hn n (list_elem_of_here _ _)). by destruct (get_or_none arguments n). }
  apply IH. intros m Hm. apply Hn. by right.
Qed.

(** The invented arguments are complete.  For every enabled operation of a valid
    description that is sent as a plain request and whose path only mentions
    parameters it declares, the samples have an entry; it gives every required
    parameter a value, contains nothing but declared parameters, none of them None,
    and with it the path of the request resolves. *)
Theorem samples_complete ir o raw_path :
  service_wf ir → o ∈ ir_operations ir → op_enabled o = true → plain ir o → op_path o = Some raw_path →
  (∀ n, n ∈ placeholders None raw_path → n ∈ pa_name <$> op_params o) →
  ∃ arguments, dict_get (build_sample_invocations ir) (op_id o) = Some arguments ∧
    (∀ p, p ∈ op_params o → pa_required p = true → dict_mem arguments (pa_name p) = true) ∧
    (∀ n v, dict_get arguments n = Some v → v ≠ VNone ∧ n ∈ pa_name <$> op_params o) ∧
    ∃ path, resolve_path raw_path (path_argument_names raw_path) arguments = Ok path.
Proof.
  intros Hwf Ho He Hplain Hpath Hholes. exists (_sample_arguments_for_operation ir o). split; [by apply built_sample|].
  rewrite plain_sample by done. set (f := λ p, if in_path o p then _ else _). set (keep := λ p, expected p || in_path o p).
  assert (∀ n v, dict_get (sample_each f keep (op_params o)) n = Some v → v ≠ VNone ∧ n ∈ pa_name <$> op_params o) as Hval.
  { intros n v (p & Hp & _ & <- & ->)%sample_each_get. split; [|by apply list_elem_of_fmap_2].
    unfold f. destruct (in_path o p); [apply sample_path_value_given|apply sample_value_given]. }
  split_and!; [| |apply resolve_path_total].
  - intros p Hp Hr. unfold dict_mem. apply bool_decide_eq_true, sample_each_key; [done|]. unfold keep, expected. by rewrite Hr.
  - exact Hval.
  - intros n Hn. assert (n ∈ placeholders None raw_path) as Hh.
    { unfold path_argument_names in Hn. by apply dedup_in in Hn as [Hn%elem_of_nil|]. }
    destruct (list_elem_of_fmap pa_name (op_params o) n) as [Hx _]. destruct (Hx (Hholes n Hh)) as (p & -> & Hp).
    destruct (sample_each_key f keep (op_params o) p Hp) as [v Hv].
    { unfold keep, in_path, path_placeholders. rewrite Hpath. simpl. rewrite bool_decide_eq_true_2 by done. apply orb_true_r. }
    unfold get_or_none. rewrite Hv. by apply (Hval (pa_name p)).
Qed.
End paths.

(** ** A description to try out *)

Definition demo_param (name type : string) (required : bool) : Param := mk_param name type required "" VNone None src_extractor 1.
Definition demo_read (id path : string) (params : list Param) : Operation :=
  mk_operation id id "" (Some "GET") (Some path) params None (mk_error_schema [] None) []
    (mk_risk (Some false) (Some false) (Some false) (Some true) safe 1 src_extractor)
    (mk_strategy None None None None trunc_none) body_json None None None None None None None None None [] None src_extractor 1 None true.
Definition demo_rest_ir : ServiceIR :=
  mk_ir IR_VERSION "0.1.0" None "h" "openapi" "pets" "" "http://pets" demo_no_auth
    [demo_read "pet" "/pets/{petId}" [demo_param "petId" "string" true; demo_param "fields" "string" false];
     demo_read "pets" "/pets" [demo_param "status" "string" true]]
    [] [] [] [] [] [] 0 None None.

Lemma demo_rest_wf : service_wf demo_rest_ir.
Proof. eapply (validated_wf demo_rest_ir demo_rest_ir). by vm_compute. Qed.

Example demo_samples :
  build_sample_invocations demo_rest_ir =
    [("pet", [("petId", VStr PATH_PLACEHOLDER_ID_SAMPLE)]); ("pets", [("status", VStr "available")])].
Proof. vm_compute. reflexivity. Qed.

Lemma samples_complete_witness :
  ∃ path, resolve_path (Upstream0:=scripted) "/pets/{petId}" (path_argument_names "/pets/{petId}") [("petId", VStr PATH_PLACEHOLDER_ID_SAMPLE)] = Ok path.
Proof.
  destruct (samples_complete (Upstream0:=scripted) demo_rest_ir
    (demo_read "pet" "/pets/{petId}" [demo_param "petId" "string" true; demo_param "fields" "string" false]) "/pets/{petId}" demo_rest_wf)
    as (arguments & Ha & _ & _ & Hp); [left|reflexivity|by split_and!|reflexivity| |].
  - intros n Hn. vm_compute in Hn. vm_compute. apply elem_of_cons in Hn as [->|Hn]; [left|by apply elem_of_nil in Hn].
  - assert (arguments = [("petId", VStr PATH_PLACEHOLDER_ID_SAMPLE)]) as <-; [|exact Hp]. vm_compute in Ha. by injection Ha as <-.
Defined.

(** An insert whose columns may all be left out is tried without any value, which the
    runtime refuses. *)
Definition demo_insert : Operation :=
  mk_operation "insert_pets" "insert_pets" "" (Some "POST") (Some "/sql/pets") [demo_param "name" "string" false] None
    (mk_error_schema [] None) [] (demo_risk cautious) (mk_strategy None None None None trunc_none) body_json None None None
    (Some (mk_sql "public" "pets" sql_table sql_insert [] ["name"] [] ["id"] 50 200)) None None None None None [] None src_extractor 1 None true.

Example insert_is_tried_without_values :
  _sample_sql_arguments demo_insert = [] ∧
  match op_sql demo_insert with
  | Some s => statement_of demo_insert s (mk_table ["id"; "name"] ["id"]) (_sample_sql_arguments demo_insert) =
      Raise (tool_error "SQL insert operation insert_pets requires at least one insertable value.")
  | None => False
  end.
Proof. by vm_compute. Qed.
