(* ===== verification/PreDeploy.v ===== *)
(** * Checks before a deployment ([libs/validator/pre_deploy.py])

    A description is deployed only if it is one, its events use transports the
    runtime supports, and its authentication works: the secrets it names resolve
    and the token endpoint answers.  The HTTP client is an effect on a world [W];
    the environment, base64 and pydantic's reading of fields are parameters.
    Durations and the report's timestamp are left out. *)

From S2P Require Export RuntimeAuth Validators.

(** ** Reports *)

Record ValidationResult := mk_vresult { vr_stage : string; vr_passed : bool; vr_details : string }.
Record ValidationReport := mk_vreport {
  vp_results : list ValidationResult;
  vp_overall_passed : bool;
  vp_audit_summary : option ToolAuditSummary;
}.

(** [get_result] *)
Definition get_result (r : ValidationReport) (stage : string) : outcome exn ValidationResult :=
  match next_where (λ x, str_eqb (vr_stage x) stage) (vp_results r) with
  | Some x => Ok x
  | None => Raise (key_error ("Validation stage '" +:+ stage +:+ "' not present in report."))
  end.

Definition all_passed (l : list ValidationResult) : bool := forallb vr_passed l.

(** ** Events *)

Inductive verdict := Unsupported (id : string) | Invalid (problem : string) | Supported (label : string).

(** One round of the loop over the event descriptors *)
Definition event_verdict (allow_native_grpc_stream : bool) (d : EventDescriptor) : verdict :=
  match ed_support d with
  | unsupported => Unsupported (ed_id d)
  | planned => Invalid (ed_id d +:+ "=planned")
  | supported =>
      let label := ed_id d +:+ "(" +:+ transport_value (ed_transport d) +:+ ")" in
      match ed_transport d with
      | sse | websocket =>
          match ed_operation_id d with None => Invalid (ed_id d +:+ "=missing_operation_id") | Some _ => Supported label end
      | grpc_stream_transport =>
          match ed_operation_id d, ed_grpc_stream d with
          | None, _ => Invalid (ed_id d +:+ "=missing_operation_id")
          | _, None => Invalid (ed_id d +:+ "=missing_grpc_stream")
          | _, Some g =>
              if negb allow_native_grpc_stream then Invalid (ed_id d +:+ "=grpc_stream_disabled")
              else match gs_mode g with
                   | stream_server => Supported label
                   | m => Invalid (ed_id d +:+ "=grpc_stream_mode_" +:+ stream_mode_value m)
                   end
          end
      | t => Invalid (ed_id d +:+ "=" +:+ transport_value t)
      end
  end.

(** One round of the loop over the operations; [None] without a unary contract *)
Definition unary_verdict (allow_native_grpc_unary : bool) (o : Operation) : option verdict :=
  if given (op_grpc_unary o) then
    Some (if allow_native_grpc_unary then Supported (op_id o +:+ "(grpc_unary)") else Invalid (op_id o +:+ "=grpc_unary_disabled"))
  else None.

Definition invalid_of (v : verdict) : option string := match v with Invalid p => Some p | _ => None end.
Definition supported_of (v : verdict) : option string := match v with Supported l => Some l | _ => None end.
Definition unsupported_of (v : verdict) : option string := match v with Unsupported i => Some i | _ => None end.

(** A part of the details, when there is something to list *)
Definition listed (prefix : string) (l : list string) : list string :=
  match l with [] => [] | _ => [prefix +:+ join ", " l] end.

(** [_validate_event_support] *)
Definition _validate_event_support (allow_native_grpc_stream allow_native_grpc_unary : bool) (ir : ServiceIR) : ValidationResult :=
  let events := event_verdict allow_native_grpc_stream <$> ir_event_descriptors ir in
  let unary := omap (unary_verdict allow_native_grpc_unary) (ir_operations ir) in
  let invalid_descriptors := omap invalid_of events ++ omap invalid_of unary in
  match invalid_descriptors with
  | [] =>
      let parts := listed "Approved streaming transports configured: " (omap supported_of events)
                   ++ listed "Approved native unary transports configured: " (omap supported_of unary)
                   ++ listed "Explicit unsupported descriptors recorded: " (omap unsupported_of events) in
      mk_vresult "event_support" true
        (join " " (match parts with [] => ["No streaming/event descriptors or native grpc_unary operations present."] | _ => parts end))
  | _ =>
      mk_vresult "event_support" false
        ("Streaming/event descriptors and native grpc_unary operations must either stay unsupported, use approved HTTP-native transports with an operation reference, or use grpc_stream/grpc_unary with explicit native runtime enablement: "
         +:+ join ", " invalid_descriptors)
  end.

(** ** Authentication *)

Section checks.
Context {W : Type} (getenv : string → option string) (b64encode : string → string).
(** [client.post(url, content=..., headers=..., follow_redirects=False)] *)
Context (client_post : string → string → dict string → comp W exn response).
(** [ServiceIR.model_validate] up to the validators *)
Context (read_fields : dict pyval → outcome exn ServiceIR).
Abbreviation M := (comp W exn).

Definition auth_context : string := "pre-deploy auth smoke".
Definition auth_failed (details : string) : ValidationResult := mk_vresult "auth_smoke" false details.
Definition auth_passed (details : string) : ValidationResult := mk_vresult "auth_smoke" true details.

Definition resolved (secret_ref purpose : string) : outcome exn string := resolve_secret_ref getenv secret_ref purpose auth_context.

(** [try: o except MissingSecretReferenceError as exc: failed(str(exc))] *)
Definition or_missing {A} (o : outcome exn A) : outcome exn (A + ValidationResult) :=
  match o with
  | Ok a => Ok (inl a)
  | Raise e => if exn_is "MissingSecretReferenceError" e then Ok (inr (auth_failed (exn_str e))) else Raise e
  end.

(** [_has_primary_auth_reference] *)
Definition _has_primary_auth_reference (a : AuthConfig) : bool :=
  opt_truthy (ac_compile_time_secret_ref a) || opt_truthy (ac_runtime_secret_ref a) || opt_truthy (ac_basic_password_ref a).

(** The secrets of the mTLS configuration *)
Definition mtls_secrets (m : MTLSConfig) : outcome exn unit :=
  let! _ := resolved (ml_cert_ref m) "mTLS client certificate" in
  let! _ := resolved (ml_key_ref m) "mTLS client key" in
  match ml_ca_ref m with
  | Some ca => if str_truthy ca then (let! _ := resolved ca "mTLS CA bundle" in Ok tt) else Ok tt
  | None => Ok tt
  end.

(** The client id and secret of a client-credentials configuration *)
Definition client_credentials (o : OAuth2ClientCredentialsConfig) : outcome exn (string * string) :=
  let! client_id := match oc_client_id o with
                    | Some c => Ok c
                    | None => resolved (default "" (oc_client_id_ref o)) "oauth2 client id"
                    end in
  let! client_secret := resolved (oc_client_secret_ref o) "oauth2 client secret" in
  Ok (client_id, client_secret).

(** The form and the headers of the token request *)
Definition token_request (o : OAuth2ClientCredentialsConfig) (client_id client_secret : string) : dict string * dict string :=
  let form := [("grant_type", "client_credentials")]
              ++ (match oc_scopes o with [] => [] | scopes => [("scope", join " " scopes)] end)
              ++ (if opt_truthy (oc_audience o) then [("audience", default "" (oc_audience o))] else []) in
  let headers := [("Content-Type", "application/x-www-form-urlencoded")] in
  if str_eqb (oc_client_auth_method o) "client_secret_basic"
  then (form, dict_set headers "Authorization" ("Basic " +:+ b64encode (client_id +:+ ":" +:+ client_secret)))
  else (dict_set (dict_set form "client_id" client_id) "client_secret" client_secret, headers).

(** [isinstance(payload, dict) and isinstance(payload.get("access_token"), str)] *)
Definition has_access_token (payload : pyval) : bool :=
  match payload with VDict d => is_str (get_or_none d "access_token") | _ => false end.

(** The request to the token endpoint and the reading of its answer *)
Definition probe_token_endpoint (auth : AuthConfig) (token_url request_content : string) (headers : dict string)
    (details_prefix : string) : M ValidationResult :=
  o <- attempt (client_post token_url request_content headers) ;;
  match o with
  | Raise e =>
      if is_request_error e then ret (auth_failed ("Auth smoke test could not reach token endpoint: " +:+ exn_str e)) else raise e
  | Ok response =>
      let status := "HTTP " +:+ str_of_Z (rsp_status response) in
      if negb ((200 <=? rsp_status response) && (rsp_status response <=? 299)) then
        ret (auth_failed ("Auth smoke test received an unhealthy response from token endpoint: " +:+ status))
      else if given (ac_oauth2 auth) then
        match rsp_json response with
        | None => ret (auth_failed ("Auth smoke test received a non-JSON response from token endpoint: " +:+ status))
        | Some payload =>
            if has_access_token payload then ret (auth_passed (details_prefix +:+ ": " +:+ status +:+ "."))
            else ret (auth_failed ("Auth smoke test did not receive an access_token from token endpoint: " +:+ status))
        end
      else ret (auth_passed (details_prefix +:+ ": " +:+ status +:+ "."))
  end.

Definition form_headers : dict string := [("Content-Type", "application/x-www-form-urlencoded")].

(** What follows the two ways to a token URL *)
Definition check_token_url (auth : AuthConfig) (token_url : option string) (request_content : string) (headers : dict string)
    (details_prefix : string) : M ValidationResult :=
  if negb (opt_truthy token_url) then
    ret (auth_failed "OAuth2 auth requires oauth2 client credentials config or oauth2_token_url.")
  else if negb (given (ac_oauth2 auth)) && negb (opt_truthy (ac_compile_time_secret_ref auth)) && negb (opt_truthy (ac_runtime_secret_ref auth)) then
    ret (auth_failed "OAuth2 auth requires a compile_time_secret_ref or runtime_secret_ref.")
  else probe_token_endpoint auth (default "" token_url) request_content headers details_prefix.

(** [_validate_oauth2_endpoint] *)
Definition _validate_oauth2_endpoint (ir : ServiceIR) : M ValidationResult :=
  let auth := ir_auth ir in
  match ac_oauth2 auth with
  | Some oauth2 =>
      credentials <- (λ w, (or_missing (client_credentials oauth2), w)) ;;
      match credentials with
      | inr failed => ret failed
      | inl (client_id, client_secret) =>
          let '(form_payload, headers) := token_request oauth2 client_id client_secret in
          check_token_url auth (Some (oc_token_url oauth2)) (urlencode form_payload) headers
            "OAuth2 client credentials token exchange succeeded"
      end
  | None =>
      check_token_url auth (ac_oauth2_token_url auth) (urlencode [("grant_type", "client_credentials")]) form_headers
        "Auth token endpoint accepted POST probe"
  end.

(** The mTLS and signing secrets, and what the details say of them *)
Definition secret_checks (auth : AuthConfig) : outcome exn (list string + ValidationResult) :=
  let! mtls := match ac_mtls auth with
               | None => Ok (inl [])
               | Some m => let! r := or_missing (mtls_secrets m) in
                           Ok (match r with inl _ => inl ["mTLS secret references resolved."] | inr failed => inr failed end)
               end in
  match mtls with
  | inr failed => Ok (inr failed)
  | inl details =>
      match ac_request_signing auth with
      | None => Ok (inl details)
      | Some s => let! r := or_missing (resolved (sg_secret_ref s) "request signing secret") in
                  Ok (match r with inl _ => inl (details ++ ["Request signing secret resolved."]) | inr failed => inr failed end)
      end
  end.

(** The end of [_validate_auth_smoke] *)
Definition auth_details (auth : AuthConfig) (details : list string) : ValidationResult :=
  auth_passed (join " " (details ++ (if given (ac_mtls auth) then ["mTLS configuration present."] else [])
                                 ++ (if given (ac_request_signing auth) then ["Request signing configuration present."] else []))).

(** [_validate_auth_smoke] *)
Definition _validate_auth_smoke (ir : ServiceIR) : M ValidationResult :=
  let auth := ir_auth ir in
  if auth_is no_auth auth && unset (ac_mtls auth) && unset (ac_request_signing auth) then
    ret (auth_passed "No auth smoke test required for auth.type=none.")
  else
    checked <- (λ w, (secret_checks auth, w)) ;;
    match checked with
    | inr failed => ret failed
    | inl details =>
        match ac_type auth with
        | oauth2_auth =>
            oauth_result <- _validate_oauth2_endpoint ir ;;
            if negb (vr_passed oauth_result) then ret oauth_result
            else ret (auth_details auth (details ++ [vr_details oauth_result]))
        | no_auth => ret (auth_details auth details)
        | _ =>
            if _has_primary_auth_reference auth then
              ret (auth_details auth (details ++ ["Primary auth configuration includes a secret reference."]))
            else ret (auth_failed "Auth configuration requires a compile_time_secret_ref or runtime_secret_ref (or basic_password_ref for basic auth).")
        end
    end.

(** ** The report *)

(** [ServiceIR.model_validate]: what a validator raises becomes a [ValidationError]. *)
Definition model_validate (d : dict pyval) : outcome exn ServiceIR :=
  match obind (read_fields d) validate_ServiceIR with
  | Ok ir => Ok ir
  | Raise e => Raise (if exn_is "ValueError" e then mk_exn "ValidationError" (exn_str e) [] else e)
  end.

(** [isinstance(payload, ServiceIR)], or the document [model_validate] reads *)
Definition ir_of (payload : ServiceIR + dict pyval) : outcome exn ServiceIR :=
  match payload with inl ir => Ok ir | inr d => model_validate d end.

(** [_validate_schema] *)
Definition _validate_schema (payload : ServiceIR + dict pyval) : outcome exn (ValidationResult * option ServiceIR) :=
  match ir_of payload with
  | Ok ir => Ok (mk_vresult "schema" true "IR schema validation passed.", Some ir)
  | Raise e =>
      if one_of (exn_type e) ["ValidationError"; "TypeError"; "ValueError"]
      then Ok (mk_vresult "schema" false ("IR schema validation failed: " +:+ exn_str e), None)
      else Raise e
  end.

Definition report_of (results : list ValidationResult) : ValidationReport := mk_vreport results (all_passed results) None.

(** [PreDeployValidator.validate] *)
Definition validate (allow_native_grpc_stream allow_native_grpc_unary : bool) (payload : ServiceIR + dict pyval) : M ValidationReport :=
  schema <- (λ w, (_validate_schema payload, w)) ;;
  match schema with
  | (schema_result, None) =>
      ret (report_of [schema_result; mk_vresult "event_support" false "Skipped because IR schema validation failed.";
                      mk_vresult "auth_smoke" false "Skipped because IR schema validation failed."])
  | (schema_result, Some ir) =>
      auth_result <- _validate_auth_smoke ir ;;
      ret (report_of [schema_result; _validate_event_support allow_native_grpc_stream allow_native_grpc_unary ir; auth_result])
  end.
End checks.

(** ** What a passed report promises *)

(** Secrets resolve whatever they are asked for. *)
Lemma resolve_any_purpose env ref p1 c1 p2 c2 s : resolve_secret_ref env ref p1 c1 = Ok s → resolve_secret_ref env ref p2 c2 = Ok s.
Proof.
  unfold resolve_secret_ref. induction (candidate_env_names ref) as [|n l IH]; simpl; [done|].
  destruct (env n) as [v|]; [|done]. destruct (_ && _); [|done]. simpl. by destruct (has_illegal v).
Qed.

(** An event the runtime can serve *)
Definition runnable (allow_native_grpc_stream : bool) (d : EventDescriptor) : Prop :=
  ed_support d = supported ∧ is_Some (ed_operation_id d) ∧
  match ed_transport d with
  | sse | websocket => True
  | grpc_stream_transport => allow_native_grpc_stream = true ∧ ∃ g, ed_grpc_stream d = Some g ∧ gs_mode g = stream_server
  | _ => False
  end.

Lemma event_support_sound stream unary ir : vr_passed (_validate_event_support stream unary ir) = true →
  (∀ d, d ∈ ir_event_descriptors ir → ed_support d = unsupported ∨ runnable stream d) ∧
  (∀ o, o ∈ ir_operations ir → op_grpc_unary o = None ∨ unary = true).
Proof.
  unfold _validate_event_support. destruct (omap invalid_of _ ++ _) eqn:E; [|done]. intros _. apply app_nil in E as [E1 E2]. split.
  - intros d Hd. assert (invalid_of (event_verdict stream d) = None) as Hv.
    { apply (proj1 (omap_nil _ _) E1). by apply list_elem_of_fmap_2. }
    clear E1 E2. unfold event_verdict in Hv. unfold runnable. destruct (ed_support d); [by left|done|right].
    destruct (ed_transport d), (ed_operation_id d); try done; try (by split_and!).
    destruct (ed_grpc_stream d) as [g|]; [|done]. destruct stream; [|done]. cbn in Hv. destruct (gs_mode g) eqn:Eg; try done.
    split_and!; try done. by exists g.
  - intros o Ho. destruct (op_grpc_unary o) as [g|] eqn:Eo; [right|by left]. destruct unary; [done|].
    assert (invalid_of (Invalid (op_id o +:+ "=grpc_unary_disabled")) = None) as Hv; [|done].
    apply (proj1 (omap_nil _ _) E2). apply list_elem_of_omap. exists o. split; [done|]. unfold unary_verdict. by rewrite Eo.
Qed.

Section promises.
Context {W V : Type} `{!Upstream V}.
Context (client_post : string → string → dict string → comp W exn response) (read_fields : dict pyval → outcome exn ServiceIR).

Lemma or_missing_inl {A} (o : outcome exn A) a : or_missing o = Ok (inl a) → o = Ok a.
Proof. unfold or_missing. destruct o as [b|e]; [by intros [= ->]|]. by destruct (exn_is _ e). Qed.

Lemma or_missing_inr {A} (o : outcome exn A) r : or_missing o = Ok (inr r) → vr_passed r = false.
Proof. unfold or_missing. destruct o as [b|e]; [done|]. destruct (exn_is _ e); [by intros [= <-]|done]. Qed.

(** The runtime reads the secret the check resolved. *)
Lemma runtime_resolves ref p1 s oid p2 : resolved getenv ref p1 = Ok s → resolve_secret_ref_for_operation ref oid p2 = Ok s.
Proof.
  intros H. unfold resolve_secret_ref_for_operation. by erewrite resolve_any_purpose.
Qed.

Lemma mtls_client ir (s : runtime V) : (∀ m, ac_mtls (ir_auth ir) = Some m → mtls_secrets getenv m = Ok tt) → (get_client ir s).1 = Ok tt.
Proof.
  intros Hm. unfold get_client, bind, gets, ret. destruct (rt_client s); [done|]. destruct (ac_mtls (ir_auth ir)) as [m|]; [|done].
  specialize (Hm m eq_refl). unfold mtls_secrets in Hm. apply obind_ok in Hm as (c & Hc & Hm). apply obind_ok in Hm as (k & Hk & Hm).
  unfold lift_out. rewrite (runtime_resolves _ _ c) by exact Hc. rewrite (runtime_resolves _ _ k) by exact Hk.
  destruct (ml_ca_ref m) as [ca|]; [|done]. destruct (str_truthy ca); [|done]. apply obind_ok in Hm as (a & Ha & _).
  by rewrite (runtime_resolves _ _ a) by exact Ha.
Qed.

Lemma secret_checks_sound auth details : secret_checks getenv auth = Ok (inl details) →
  (∀ m, ac_mtls auth = Some m → mtls_secrets getenv m = Ok tt) ∧
  (∀ s, ac_request_signing auth = Some s → ∃ secret, resolved getenv (sg_secret_ref s) "request signing secret" = Ok secret).
Proof.
  unfold secret_checks. intros H. apply obind_ok in H as ([d1|failed] & H1 & H2); [|done]. split.
  - intros m Em. rewrite Em in H1. apply obind_ok in H1 as (r & Hr & H1). destruct r as [[]|]; [|done]. by apply or_missing_inl in Hr.
  - intros s Es. rewrite Es in H2. apply obind_ok in H2 as (r & Hr & H2). destruct r as [secret|]; [|done]. apply or_missing_inl in Hr. by exists secret.
Qed.

Lemma secret_checks_failed auth r : secret_checks getenv auth = Ok (inr r) → vr_passed r = false.
Proof.
  unfold secret_checks. intros H. apply obind_ok in H as ([d1|failed] & H1 & H2).
  - destruct (ac_request_signing auth) as [s|]; [|done]. apply obind_ok in H2 as (x & Hx & H2). destruct x; [done|].
    injection H2 as <-. by eapply or_missing_inr.
  - injection H2 as <-. destruct (ac_mtls auth) as [m|]; [|done]. apply obind_ok in H1 as (x & Hx & H1). destruct x; [done|].
    injection H1 as <-. by eapply or_missing_inr.
Qed.

(** A token request that was made and answered with a token *)
Definition token_obtained (o : OAuth2ClientCredentialsConfig) : Prop :=
  ∃ client_id client_secret w r payload,
    (client_post (oc_token_url o) (urlencode (token_form o client_id client_secret).1) (token_form o client_id client_secret).2 w).1 = Ok r ∧
    200 ≤ rsp_status r ≤ 299 ∧ rsp_json r = Some payload ∧ has_access_token payload = true ∧
    (∀ oid, resolve_secret_ref_for_operation (oc_client_secret_ref o) oid "oauth2 client secret" = Ok client_secret) ∧
    (∀ oid, match oc_client_id o with
            | Some c => client_id = c
            | None => resolve_secret_ref_for_operation (default "" (oc_client_id_ref o)) oid "oauth2 client id" = Ok client_id
            end).

Lemma oauth2_sound ir o w r w' : ac_oauth2 (ir_auth ir) = Some o →
  _validate_oauth2_endpoint getenv b64encode client_post ir w = (Ok r, w') → vr_passed r = true → token_obtained o.
Proof.
  intros Ho. unfold _validate_oauth2_endpoint. rewrite Ho. unfold bind at 1.
  destruct (or_missing _) as [[[id secret]|failed]|e] eqn:Ec; [| |done].
  2: { apply or_missing_inr in Ec. intros [= <- <-]. by rewrite Ec. }
  apply or_missing_inl in Ec. unfold client_credentials in Ec. apply obind_ok in Ec as (i & Hi & Ec). apply obind_ok in Ec as (s & Hs & [= -> ->]).
  destruct (token_request b64encode o id secret) as [form headers] eqn:Ef. unfold check_token_url. rewrite Ho. cbn [given unset negb andb].
  destruct (negb (opt_truthy _)); [by intros [= <- <-]|]. unfold probe_token_endpoint, bind, attempt. rewrite Ho. change (default "" (Some (oc_token_url o))) with (oc_token_url o).
  destruct (client_post (oc_token_url o) (urlencode form) headers w) as [[rsp|e] w1] eqn:Ep; [|by destruct (is_request_error e); [intros [= <- <-]|]].
  destruct (negb _) eqn:Est; [by intros [= <- <-]|]. cbn [given unset negb]. destruct (rsp_json rsp) as [payload|] eqn:Ej; [|by intros [= <- <-]].
  destruct (has_access_token payload) eqn:Et; [|by intros [= <- <-]]. intros _ _.
  exists id, secret, w, rsp, payload. change (token_form o id secret) with (token_request b64encode o id secret). rewrite Ef. cbn [fst snd].
  split_and!; try done; try lia.
  - by rewrite Ep.
  - intros oid. by eapply runtime_resolves.
  - intros oid. destruct (oc_client_id o); [by injection Hi|]. by eapply runtime_resolves.
Qed.

(** A description that passes the checks before deployment can be served.  Every
    event it declares is either marked unsupported or one the runtime can serve, and
    unary gRPC contracts occur only where they are enabled.  In the environment of
    the check, every runtime can build its HTTP client from the mTLS secrets, signs
    requests with a secret that resolves, and, under OAuth2 client credentials, the
    very token request the runtime makes was answered with a token. *)
Theorem pre_deploy_covers_runtime stream unary ir w report w' :
  validate getenv b64encode client_post read_fields stream unary (inl ir) w = (Ok report, w') →
  vp_overall_passed report = true →
  (∀ d, d ∈ ir_event_descriptors ir → ed_support d = unsupported ∨ runnable stream d) ∧
  (∀ o, o ∈ ir_operations ir → op_grpc_unary o = None ∨ unary = true) ∧
  (∀ s : runtime V, (get_client ir s).1 = Ok tt) ∧
  (∀ s oid, ac_request_signing (ir_auth ir) = Some s →
     ∃ secret, resolve_secret_ref_for_operation (sg_secret_ref s) oid "request signing secret" = Ok secret) ∧
  (ac_type (ir_auth ir) = oauth2_auth → ∀ o, ac_oauth2 (ir_auth ir) = Some o → token_obtained o).
Proof.
  unfold validate, _validate_schema. cbn [ir_of]. unfold bind at 1. unfold bind at 1.
  destruct (_validate_auth_smoke getenv b64encode client_post ir w) as [[auth|e] w1] eqn:Ea; [|done]. intros [= <- <-].
  cbn [report_of vp_overall_passed all_passed forallb vr_passed andb]. rewrite andb_true_r. intros [Hev Hauth]%andb_true_iff.
  apply event_support_sound in Hev as [Hev Hun]. split; [done|]. split; [done|].
  unfold _validate_auth_smoke in Ea. destruct (_ && _) eqn:En.
  { rewrite !andb_true_iff, !unset_iff in En. destruct En as [[Ht Hm] Hs]. unfold auth_is in Ht. apply bool_decide_eq_true in Ht. split_and!.
    - intros s. apply mtls_client. by rewrite Hm.
    - by rewrite Hs.
    - by rewrite Ht. }
  unfold bind at 1 in Ea. destruct (secret_checks getenv (ir_auth ir)) as [[details|failed]|e] eqn:Es; [| |done].
  2: { injection Ea as <- <-. apply secret_checks_failed in Es. by rewrite Es in Hauth. }
  apply secret_checks_sound in Es as [Hm Hs]. split_and!.
  - intros s. by apply mtls_client.
  - intros s oid Hsig. destruct (Hs s Hsig) as [secret Hx]. exists secret. by eapply runtime_resolves.
  - intros Ht o Ho. rewrite Ht in Ea. unfold bind in Ea.
    destruct (_validate_oauth2_endpoint getenv b64encode client_post ir w) as [[r|e] w2] eqn:Er; [|done].
    eapply oauth2_sound; [exact Ho|exact Er|]. destruct (vr_passed r) eqn:Ep; [done|]. cbn in Ea. injection Ea as <- <-. by rewrite Ep in Hauth.
Qed.
End promises.

(** ** Worked checks *)

Section examples.
#[local] Existing Instance scripted.

(** A service that signs its requests and authenticates with client credentials *)
Definition demo_secured : AuthConfig :=
  mk_auth oauth2_auth None None None None None None None None None None (Some demo_oauth) None
    (Some (mk_signing "hmac-sha256" "api token" "X-Signature" "X-Timestamp" None "X-Key-Id")).
Definition with_auth (a : AuthConfig) (ir : ServiceIR) : ServiceIR :=
  mk_ir (ir_version ir) (ir_compiler_version ir) (ir_source_url ir) (ir_source_hash ir) (ir_protocol ir) (ir_service_name ir)
    (ir_service_description ir) (ir_base_url ir) a (ir_operations ir) (ir_operation_chains ir) (ir_tool_grouping ir)
    (ir_event_descriptors ir) (ir_resource_definitions ir) (ir_prompt_definitions ir) (ir_metadata ir) (ir_created_at ir)
    (ir_tenant ir) (ir_environment ir).

(** A token endpoint that answers every request with [r] *)
Definition answering (r : outcome exn response) : string → string → dict string → comp unit exn response := λ _ _ _ w, (r, w).
Definition demo_validate (a : AuthConfig) (r : outcome exn response) : outcome exn ValidationReport :=
  (validate getenv b64encode (answering r) (λ _, Ok demo_ir) false false (inl (with_auth a demo_ir_validated)) tt).1.

Lemma pre_deploy_covers_runtime_witness :
  (∃ report, demo_validate demo_secured (token_answer VNone) = Ok report ∧ vp_overall_passed report = true) ∧
  (get_client (with_auth demo_secured demo_ir_validated) (fresh_runtime [])).1 = Ok tt ∧
  token_obtained (answering (token_answer VNone)) demo_oauth.
Proof.
  set (run := validate getenv b64encode (answering (token_answer VNone)) (λ _, Ok demo_ir) false false
    (inl (with_auth demo_secured demo_ir_validated)) tt).
  assert (∃ report w', run = (Ok report, w') ∧ vp_overall_passed report = true) as (report & w' & Hrun & Hpass)
    by (vm_compute; eexists _, _; split; reflexivity).
  split; [exists report; split; [unfold demo_validate; fold run; by rewrite Hrun|exact Hpass]|].
  destruct (pre_deploy_covers_runtime (answering (token_answer VNone)) (λ _, Ok demo_ir) false false
    (with_auth demo_secured demo_ir_validated) tt report w' Hrun Hpass) as (_ & _ & Hc & _ & Ht).
  split; [apply Hc|apply Ht; reflexivity].
Defined.

(** A bearer token named for compilation only is accepted; the runtime reads the
    runtime's reference and refuses every call. *)
Example compile_time_secret_is_enough :
  let a := mk_auth bearer None None None None None None (Some "api token") None None None None None None in
  (∃ report, demo_validate a (token_answer VNone) = Ok report ∧ vp_overall_passed report = true) ∧
  resolve_secret_value a "list" = Raise (tool_error "Operation list requires auth but runtime_secret_ref is not configured.").
Proof. vm_compute. split; [by eexists|done]. Qed.

(** An empty token passes here and is refused by the runtime. *)
Example empty_token_passes :
  let r := mk_response 200 [] "" "" (Some (VDict [("access_token", VStr "")])) None in
  (∃ report, demo_validate demo_secured (Ok r) = Ok report ∧ vp_overall_passed report = true) ∧
  read_token "list" r = Raise (tool_error "OAuth2 token endpoint did not return an access_token for list.").
Proof. vm_compute. split; [by eexists|done]. Qed.

(** A secret with a line break raises out of the check instead of failing it. *)
Example line_break_escapes :
  let env := λ _ : string, Some ("s3cret" +:+ String (Ascii.ascii_of_nat 10) "") in
  exn_type <$> match (validate env (λ s, s) (answering (token_answer VNone)) (λ _, Ok demo_ir) false false
    (inl (with_auth demo_secured demo_ir_validated)) tt).1 with Raise e => Some e | Ok _ => None end = Some "ValueError".
Proof. vm_compute. done. Qed.
End examples.
