(* ===== verification/RuntimeApp.v ===== *)
(** * The HTTP endpoints of a runtime ([apps/mcp_runtime/main.py])

    What [/healthz], [/readyz] and [/tools] answer in a given state: a status code
    and a JSON object.  Probing the upstream of a loaded runtime is an effect; the
    input schema of a tool and the metrics' text are left to the server library. *)

From S2P Require Export RuntimeLoader.

Section endpoints.
Context {S W : Type} (state : RuntimeState S) (service_ir_path : option string).
(** [client.head(base_url)]: the status code *)
Context (head : string → comp W exn Z).
(** [tool.inputSchema] *)
Context (input_schema : Tool S → pyval).
Abbreviation M := (comp W exn).

Definition answer : Type := Z * dict pyval.

(** [healthz] *)
Definition healthz : answer := (200, [("status", VStr "ok")]).

(** The classes of [httpx.HTTPError] *)
Definition is_http_error (e : exn) : bool := is_request_error e || one_of (exn_type e) ["HTTPError"; "HTTPStatusError"].

Definition service_name_of : pyval := vopt (λ ir, VStr (ir_service_name ir)) (rs_service_ir state).

(** What probing the upstream reports *)
Definition upstream_problems : M (list string) :=
  match rs_service_ir state with
  | None => ret []
  | Some ir =>
      let base_url := ir_base_url ir in
      if negb (one_of (ir_protocol ir) ["sql"; "grpc"]) && str_truthy base_url then
        o <- attempt (head base_url) ;;
        match o with
        | Ok code => ret (if 500 <=? code then ["upstream " +:+ base_url +:+ " returned " +:+ str_of_Z code] else [])
        | Raise e => if is_http_error e then ret ["upstream " +:+ base_url +:+ " is unreachable"] else raise e
        end
      else ret []
  end.

(** [_runtime_status], the answer of [/readyz] *)
Definition _runtime_status : M answer :=
  if is_loaded state then
    problems <- upstream_problems ;;
    ret (200, [("status", VStr "ok"); ("service_name", service_name_of);
               ("tool_count", VInt (Z.of_nat (length (rs_registered_operations state)))); ("service_ir_path", opt_str service_ir_path)]
              ++ match problems with [] => [] | _ => [("upstream_problems", vstrs problems)] end)
  else ret (503, [("status", VStr "not_ready"); ("error", opt_str (rs_load_error state)); ("service_ir_path", opt_str service_ir_path)]).

(** [list_tools] *)
Definition tool_document (t : Tool S) : dict pyval :=
  [("name", VStr (tl_name t)); ("description", VStr (tl_description t)); ("input_schema", input_schema t)].
Definition list_tools : answer :=
  if is_loaded state then
    (200, [("status", VStr "ready"); ("service_name", service_name_of); ("tool_count", VInt (Z.of_nat (length (rs_tools state))));
           ("tools", VList ((λ t, VDict (tool_document t)) <$> rs_tools state))])
  else (503, [("status", VStr "not_ready"); ("error", opt_str (rs_load_error state)); ("tool_count", VInt 0); ("tools", VList [])]).

(** A client's view of an answer; [print] is the JSON printer of the server. *)
Definition as_response (print : dict pyval → string) (a : answer) : response :=
  mk_response a.1 [("content-type", "application/json")] (print a.2) (print a.2) (Some (VDict a.2)) None.

(** The application, as far as these paths go *)
Definition serve (print : dict pyval → string) (base_url url : string) : M response :=
  let at_path p := str_eqb url (base_url +:+ p) in
  if at_path "/healthz" then ret (as_response print healthz)
  else if at_path "/readyz" then (a <- _runtime_status ;; ret (as_response print a))
  else if at_path "/tools" then ret (as_response print list_tools)
  else ret (mk_response 404 [] "" "" None None).
End endpoints.

(** ** A loaded runtime *)

Lemma built_tools {S} read_bytes gunzip decode_utf8 parse_ir (handler : ServiceIR → ToolHandler S) path sql unary stream ue se s :
  build_runtime_state read_bytes gunzip decode_utf8 parse_ir handler path sql unary stream ue se = Ok s → rs_load_error s = None →
  ∃ ir, rs_service_ir s = Some ir ∧ service_wf ir ∧ tl_name <$> rs_tools s = op_id <$> List.filter op_enabled (ir_operations ir).
Proof.
  unfold build_runtime_state. destruct path as [path|]; [|by intros [= <-]].
  destruct (load_service_ir read_bytes gunzip decode_utf8 parse_ir path) as [ir|e] eqn:El.
  2: { destruct (exn_is _ e); [|done]. by intros [= <-]. }
  apply load_service_ir_valid in El as [Hwf _].
  destruct (ensure_no_secret_ref_name_collisions _ _) as [[]|e]; [|by intros [= <-]].
  destruct (register_ir_resources ir) as [resources|e]; [|done]. intros [= <-] _. exists ir. cbn. split_and!; [done|done|].
  by rewrite <-list_fmap_compose.
Qed.

Section served.
Context {S W : Type} (state : RuntimeState S) (path : option string) (head : string → comp W exn Z) (input_schema : Tool S → pyval)
  (print : dict pyval → string) (base_url : string).
(** What a failing probe raises are httpx's errors. *)
Context (head_fails : ∀ u w e w', head u w = (Raise e, w') → is_http_error e = true).

Lemma status_served w : is_loaded state = true →
  ∃ d w', _runtime_status state path head w = (Ok (200, ("status", VStr "ok") :: d), w').
Proof.
  intros Hl. unfold _runtime_status. rewrite Hl. unfold bind.
  assert (∃ l w', upstream_problems state head w = (Ok l, w')) as (l & w' & ->); [|by eexists _, _].
  unfold upstream_problems. destruct (rs_service_ir state) as [ir|]; [|by eexists _, _].
  destruct (_ && _); [|by eexists _, _]. unfold bind, attempt. destruct (head (ir_base_url ir) w) as [[code|e] w1] eqn:E; [by eexists _, _|].
  rewrite (head_fails _ _ _ _ E). by eexists _, _.
Qed.

Lemma path_ne a b : a ≠ b → str_eqb (base_url +:+ a) (base_url +:+ b) = false.
Proof. intros H. apply str_eqb_neq. by intros E%str_app_inj_l. Qed.

Lemma serve_healthz w : serve state path head input_schema print base_url (base_url +:+ "/healthz") w = (Ok (as_response print healthz), w).
Proof. unfold serve. by rewrite str_eqb_refl. Qed.

Lemma serve_readyz w : is_loaded state = true →
  ∃ d w', serve state path head input_schema print base_url (base_url +:+ "/readyz") w
    = (Ok (as_response print (200, ("status", VStr "ok") :: d)), w').
Proof.
  intros Hl. destruct (status_served w Hl) as (d & w' & H). exists d, w'. unfold serve; cbv zeta. rewrite (path_ne "/readyz" "/healthz"), str_eqb_refl by done.
  unfold bind. by rewrite H.
Qed.

Lemma serve_tools w : is_loaded state = true →
  serve state path head input_schema print base_url (base_url +:+ "/tools") w = (Ok (as_response print (list_tools state input_schema)), w).
Proof. intros Hl. unfold serve; cbv zeta. by rewrite (path_ne "/tools" "/healthz"), (path_ne "/tools" "/readyz"), str_eqb_refl by done. Qed.
End served.
