(* ===== verification/PostDeploy.v ===== *)
(** * Checks after a deployment ([libs/validator/post_deploy.py])

    A deployed runtime must report itself ready, list exactly the enabled
    operations as tools, and answer one call; an audit calls every tool a policy
    allows.  The HTTP client and the tool invoker are effects on a world [W]. *)

From S2P Require Export Samples PreDeploy RuntimeContracts RuntimeApp.
From Stdlib Require Import Ascii.

(** ** Results of a call *)

Inductive tool_failure :=
| UnexpectedStatus (status : pyval)
| NoPayload
| SeveralDescriptors (operation_id : string)
| WrongTransport (transport : pyval) (expected : string)
| BadStream (f : failure).

Definition stream_failure_text (f : failure) : string :=
  match f with
  | NotAnObject => "Invocation returned a non-object stream payload."
  | NotALifecycle => "Invocation did not return the expected streaming lifecycle structure."
  | EventNotADict i t => "events[" +:+ str_of_Z (Z.of_nat i) +:+ "] is " +:+ t +:+ ", expected dict."
  | EventFieldMissing i f => "events[" +:+ str_of_Z (Z.of_nat i) +:+ "] missing required '" +:+ f +:+ "' field."
  | LifecycleFieldInvalid f => "Invocation returned streaming lifecycle without valid '" +:+ f +:+ "'."
  end.

Definition several_descriptors (operation_id : string) : exn :=
  value_error ("Post-deploy validation does not support multiple descriptors for " +:+ operation_id +:+ ".").

(** [_supported_descriptor_for_operation] *)
Definition _supported_descriptor_for_operation (ir : ServiceIR) (operation_id : string) : outcome exn (option EventDescriptor) :=
  match List.filter (λ d, bool_decide (ed_operation_id d = Some operation_id)
                          && match ed_support d with supported => true | _ => false end) (ir_event_descriptors ir) with
  | [] => Ok None
  | [d] => Ok (Some d)
  | _ => Raise (several_descriptors operation_id)
  end.

(** [_tool_result_failure_reason] *)
Definition _tool_result_failure_reason (ir : ServiceIR) (operation_id : string) (result : dict pyval) : option tool_failure :=
  match get_or_none result "status" with
  | VStr "upstream_error" => None
  | VStr "ok" =>
      if negb (dict_mem result "result") then Some NoPayload
      else match _supported_descriptor_for_operation ir operation_id with
           | Raise _ => Some (SeveralDescriptors operation_id)
           | Ok None => None
           | Ok (Some d) =>
               let expected := transport_value (ed_transport d) in
               if py_eq (get_or_none result "transport") (VStr expected)
               then BadStream <$> stream_result_failure_reason (get_or_none result "result") (Some expected)
               else Some (WrongTransport (get_or_none result "transport") expected)
           end
  | status => Some (UnexpectedStatus status)
  end.

(** ** The operation to try *)

(** [_uses_default_placeholder_path_samples] *)
Definition _uses_default_placeholder_path_samples (o : Operation) (sample_invocations : dict (dict pyval)) : bool :=
  _has_synthetic_path_placeholder_samples o (default [] (dict_get sample_invocations (op_id o))) true.

Definition state_changing (o : Operation) : bool := opt_flag (rm_writes_state (op_risk o)) || opt_flag (rm_destructive (op_risk o)).

(** [_is_default_safe_smoke_candidate] *)
Definition _is_default_safe_smoke_candidate (o : Operation) (sample_invocations : dict (dict pyval)) : bool :=
  if _uses_default_placeholder_path_samples o sample_invocations then false else negb (state_changing o).

(** [_smoke_operation_priority] *)
Definition method_category (method : string) : Z :=
  if one_of method ["GET"; "HEAD"] then 1
  else if str_eqb method "POST" then 5
  else if one_of method ["PUT"; "PATCH"] then 7
  else if str_eqb method "DELETE" then 8
  else 6.

Definition category (ir : ServiceIR) (o : Operation) : Z :=
  match op_sql o with
  | Some s => match sq_action s with sql_query => 0 | _ => 8 end
  | None =>
      match op_graphql o with
      | Some g => match gq_operation_type g with gql_query => 1 | _ => 7 end
      | None =>
          if given (op_grpc_unary o) then 2
          else if match _supported_descriptor_for_operation ir (op_id o) with
                  | Ok (Some d) => match ed_transport d with grpc_stream_transport => true | _ => false end
                  | _ => false
                  end then 3
          else if given (op_soap o) then 4
          else method_category (upper (default "" (op_method o)))
      end
  end.

Definition risk_penalty (o : Operation) : Z :=
  (if opt_flag (rm_external_side_effect (op_risk o)) then 1 else 0)
  + (if opt_flag (rm_writes_state (op_risk o)) then 2 else 0) + (if opt_flag (rm_destructive (op_risk o)) then 4 else 0).

Definition priority : Type := Z * Z * Z * string.
Definition _smoke_operation_priority (ir : ServiceIR) (o : Operation) : priority :=
  (category ir o, risk_penalty o, Z.of_nat (length (List.filter pa_required (op_params o))), op_id o).

(** [a < b] of two such tuples *)
Definition priority_ltb (a b : priority) : bool :=
  let '(a1, a2, a3, a4) := a in
  let '(b1, b2, b3, b4) := b in
  if a1 =? b1 then if a2 =? b2 then if a3 =? b3 then String.ltb a4 b4 else a3 <? b3 else a2 <? b2 else a1 <? b1.

(** [min(l, key=f)]: the first of the least *)
Definition min_by {A K} (ltb : K → K → bool) (f : A → K) (l : list A) : option A :=
  match l with
  | [] => None
  | x :: l' => Some (foldl (λ best y, if ltb (f y) (f best) then y else best) x l')
  end.

(** The loop over the preferred tools *)
Fixpoint first_preferred (candidates : list Operation) (sample_invocations : dict (dict pyval)) (preferred : list string) : option Operation :=
  match preferred with
  | [] => None
  | i :: rest =>
      match dict_get (by_key op_id candidates) i with
      | Some o => if _uses_default_placeholder_path_samples o sample_invocations
                  then first_preferred candidates sample_invocations rest else Some o
      | None => first_preferred candidates sample_invocations rest
      end
  end.

(** [_select_smoke_operation] *)
Definition _select_smoke_operation (ir : ServiceIR) (enabled_operations : list Operation) (available_tools : dict (dict pyval))
    (sample_invocations : dict (dict pyval)) (preferred_tool_ids : list string) : option Operation :=
  let candidates := List.filter (λ o, dict_mem available_tools (op_id o) && dict_mem sample_invocations (op_id o)) enabled_operations in
  match first_preferred candidates sample_invocations preferred_tool_ids with
  | Some o => Some o
  | None =>
      min_by priority_ltb (_smoke_operation_priority ir)
        (List.filter (λ o, _is_default_safe_smoke_candidate o sample_invocations) candidates)
  end.

(** [_default_smoke_rejection_details] *)
Definition _default_smoke_rejection_details (operations : list Operation) (sample_invocations : dict (dict pyval)) : option string :=
  let placeholder_blocked := op_id <$> List.filter (λ o, _uses_default_placeholder_path_samples o sample_invocations) operations in
  let risk_blocked := List.filter (λ o, negb (bool_decide (op_id o ∈ placeholder_blocked)) && state_changing o) operations in
  let reasons :=
    (match risk_blocked with [] => [] | _ => ["remaining tools are state-mutating or destructive"] end)
    ++ (match placeholder_blocked with [] => [] | _ => ["remaining sample invocations still use synthetic placeholder path values"] end) in
  match reasons with
  | [] => None
  | _ => Some ("No safe runtime tool is available for invocation smoke validation because " +:+ join " and " reasons +:+ ".")
  end.

(** ** Trying the runtime *)

Inductive audit_outcome := audit_passed | audit_failed | audit_skipped.
Record ToolAuditResult := mk_audit_result {
  ta_tool_name : string;
  ta_outcome : audit_outcome;
  ta_reason : string;
  ta_arguments : option (dict pyval);
  ta_result : option (dict pyval);
}.

Section checks.
Context {W : Type} (repr : pyval → string).
(** [client.get(url)] *)
Context (client_get : string → comp W exn response).
(** [self._tool_invoker] *)
Context (tool_invoker : option (string → dict pyval → comp W exn pyval)).
Context (read_fields : dict pyval → outcome exn ServiceIR).
(** The texts of an audit policy's reasons *)
Context (skip_text : skip_reason → string).
Abbreviation M := (comp W exn).

Definition failure_text (f : tool_failure) : string :=
  match f with
  | UnexpectedStatus v => "Invocation returned unexpected status: " +:+ repr v +:+ "."
  | NoPayload => "Invocation returned ok status without a result payload."
  | SeveralDescriptors oid => exn_str (several_descriptors oid)
  | WrongTransport v expected => "Invocation returned transport " +:+ repr v +:+ ", expected '" +:+ expected +:+ "'."
  | BadStream f => stream_failure_text f
  end.

(** [_validate_schema] *)
Definition _validate_schema (payload : ServiceIR + dict pyval) : outcome exn (ValidationResult * option ServiceIR) :=
  match ir_of read_fields payload with
  | Ok ir => Ok (mk_vresult "schema" true "Expected IR schema is valid.", Some ir)
  | Raise e =>
      if exn_is "ValidationError" e
      then Ok (mk_vresult "schema" false ("Expected IR schema validation failed: " +:+ exn_str e), None) else Raise e
  end.

(** [_health_endpoint_failure_detail] *)
Definition _health_endpoint_failure_detail (endpoint : string) (r : response) : option string :=
  if negb (rsp_status r =? 200) then Some (endpoint +:+ "=" +:+ str_of_Z (rsp_status r))
  else if negb (str_truthy (rsp_content r)) then None
  else match rsp_json r with
       | None => Some (endpoint +:+ " returned invalid JSON payload.")
       | Some (VDict d) =>
           match dict_get d "status" with
           | None => Some (endpoint +:+ " response missing 'status' field")
           | Some v => if py_eq v (VStr "ok") then None else Some (endpoint +:+ " reported status " +:+ repr v)
           end
       | Some v => Some (endpoint +:+ " returned JSON " +:+ type_name v +:+ ", expected object.")
       end.

Definition url_of (base_url path : string) : string := rstrip_char "/"%char base_url +:+ path.

Definition the_some {A} (o : option A) : list A := match o with Some a => [a] | None => [] end.

(** [_validate_health] *)
Definition _validate_health (base_url : string) : M ValidationResult :=
  o <- attempt (health_response <- client_get (url_of base_url "/healthz") ;;
                ready_response <- client_get (url_of base_url "/readyz") ;;
                ret (health_response, ready_response)) ;;
  match o with
  | Raise e =>
      if is_request_error e then ret (mk_vresult "health" false ("Runtime health check failed: " +:+ exn_str e)) else raise e
  | Ok (health_response, ready_response) =>
      ret (match the_some (_health_endpoint_failure_detail "healthz" health_response)
                 ++ the_some (_health_endpoint_failure_detail "readyz" ready_response) with
           | [] => mk_vresult "health" true "Runtime health endpoints are ready."
           | failures => mk_vresult "health" false
                           ("Runtime health endpoints returned unexpected readiness state: " +:+ join "; " failures)
           end)
  end.

(** [{tool["name"]: tool for tool in tools}] *)
Definition listed_tools (tools : list (dict pyval)) : dict (dict pyval) :=
  dict_of_list (omap (λ t, match get_or_none t "name" with VStr n => Some (n, t) | _ => None end) tools).

Definition expected_tools (ir : ServiceIR) : list string := op_id <$> List.filter op_enabled (ir_operations ir).

(** [set(a) == set(b)] *)
Definition same_set (a b : list string) : bool :=
  forallb (λ x, bool_decide (x ∈ b)) a && forallb (λ x, bool_decide (x ∈ a)) b.

(** [sorted(set)], as the messages show it *)
Definition show_names (l : list string) : string := repr (VList (VStr <$> sorted_strings (remove_dups l))).

Definition listing_failed (details : string) : ValidationResult * dict (dict pyval) := (mk_vresult "tool_listing" false details, []).

(** [_validate_tool_listing] *)
Definition _validate_tool_listing (base_url : string) (ir : ServiceIR) : M (ValidationResult * dict (dict pyval)) :=
  o <- attempt (client_get (url_of base_url "/tools")) ;;
  match o with
  | Raise e => if is_request_error e then ret (listing_failed ("Runtime tool listing failed: " +:+ exn_str e)) else raise e
  | Ok response =>
      if negb (rsp_status response =? 200) then
        ret (listing_failed ("Runtime tool listing returned HTTP " +:+ str_of_Z (rsp_status response) +:+ "."))
      else
        match rsp_json response with
        | None => ret (listing_failed "Runtime tool listing returned non-JSON response.")
        | Some payload =>
            match validate_tool_listing_payload payload "Runtime tool listing" with
            | Raise e => ret (listing_failed (exn_str e))
            | Ok tools =>
                let listed := listed_tools tools in
                if same_set (dict_keys listed) (expected_tools ir)
                then ret (mk_vresult "tool_listing" true ("Runtime exposes expected tools: " +:+ show_names (expected_tools ir) +:+ "."), listed)
                else ret (mk_vresult "tool_listing" false
                            ("Runtime tool listing mismatch. expected=" +:+ show_names (expected_tools ir) +:+ ", actual="
                             +:+ show_names (dict_keys listed)), listed)
            end
        end
  end.

Definition smoke_failed (details : string) : ValidationResult := mk_vresult "invocation_smoke" false details.

(** Why no operation could be chosen *)
Definition no_smoke_operation (enabled_operations : list Operation) (available_tools sample_invocations : dict (dict pyval)) : string :=
  let available_operations := List.filter (λ o, dict_mem available_tools (op_id o)) enabled_operations in
  match available_operations with
  | [] => "No enabled runtime tool is available for invocation smoke validation."
  | first :: _ =>
      match List.filter (λ o, dict_mem sample_invocations (op_id o)) available_operations with
      | [] => "No sample invocation provided for available tool " +:+ op_id first +:+ "."
      | sampled => default "No safe runtime tool is available for invocation smoke validation."
                     (_default_smoke_rejection_details sampled sample_invocations)
      end
  end.

(** The call, and the judgement of its result *)
Definition smoke_call (ir : ServiceIR) (invoke : string → dict pyval → M pyval) (o : Operation) (arguments : dict pyval) : M ValidationResult :=
  out <- attempt (invoke (op_id o) arguments) ;;
  match out with
  | Raise e => ret (smoke_failed ("Invocation smoke test failed for " +:+ op_id o +:+ ": " +:+ exn_str e))
  | Ok (VDict result) =>
      match _tool_result_failure_reason ir (op_id o) result with
      | Some f => ret (smoke_failed ("Invocation smoke test for " +:+ op_id o +:+ " failed: " +:+ failure_text f))
      | None =>
          match _supported_descriptor_for_operation ir (op_id o) with
          | Raise e => raise e
          | Ok d => ret (mk_vresult "invocation_smoke" true
                      ("Invocation smoke test succeeded for " +:+ op_id o
                       +:+ match d with Some d => " using " +:+ transport_value (ed_transport d) +:+ "." | None => "." end))
          end
      end
  | Ok _ => ret (smoke_failed ("Invocation smoke test for " +:+ op_id o +:+ " returned non-dict result."))
  end.

(** [_validate_invocation_smoke] *)
Definition _validate_invocation_smoke (ir : ServiceIR) (available_tools sample_invocations : dict (dict pyval))
    (preferred_smoke_tool_ids : list string) (health_passed tool_listing_passed : bool) : M ValidationResult :=
  if negb health_passed then ret (smoke_failed "Skipped because runtime health validation failed.")
  else if negb tool_listing_passed then ret (smoke_failed "Skipped because runtime tool listing validation failed.")
  else
    match tool_invoker with
    | None => ret (smoke_failed "No tool invoker configured for invocation smoke validation.")
    | Some invoke =>
        match List.filter op_enabled (ir_operations ir) with
        | [] => ret (smoke_failed "No enabled operations available for invocation smoke validation.")
        | enabled_operations =>
            match _select_smoke_operation ir enabled_operations available_tools sample_invocations preferred_smoke_tool_ids with
            | None => ret (smoke_failed (no_smoke_operation enabled_operations available_tools sample_invocations))
            | Some o => smoke_call ir invoke o (default [] (dict_get sample_invocations (op_id o)))
            end
        end
    end.

Definition schema_skipped : string := "Skipped because expected IR schema validation failed.".
Definition unchecked (schema_result : ValidationResult) : list ValidationResult :=
  [schema_result; mk_vresult "health" false schema_skipped; mk_vresult "tool_listing" false schema_skipped;
   mk_vresult "invocation_smoke" false schema_skipped].

(** Health, listing and one call *)
Definition standard_checks (base_url : string) (ir : ServiceIR) (sample_invocations : dict (dict pyval)) (preferred : list string)
    : M (list ValidationResult * dict (dict pyval)) :=
  health_result <- _validate_health base_url ;;
  listing <- _validate_tool_listing base_url ir ;;
  let '(tool_listing_result, available_tools) := listing in
  invocation_result <- _validate_invocation_smoke ir available_tools sample_invocations preferred
    (vr_passed health_result) (vr_passed tool_listing_result) ;;
  ret ([health_result; tool_listing_result; invocation_result], available_tools).

(** [PostDeployValidator.validate] *)
Definition validate (base_url : string) (payload : ServiceIR + dict pyval) (sample_invocations : dict (dict pyval))
    (preferred_smoke_tool_ids : list string) : M ValidationReport :=
  schema <- (λ w, (_validate_schema payload, w)) ;;
  match schema with
  | (schema_result, None) => ret (mk_vreport (unchecked schema_result) false None)
  | (schema_result, Some ir) =>
      checked <- standard_checks base_url ir sample_invocations preferred_smoke_tool_ids ;;
      ret (report_of (schema_result :: checked.1))
  end.

(** ** The audit *)

Definition leb_id (a b : Operation) : bool := String.leb (op_id a) (op_id b).

(** What became of a call *)
Definition call_verdict (ir : ServiceIR) (o : Operation) (arguments : dict pyval) (out : outcome exn pyval) : ToolAuditResult :=
  let shown := match out with
               | Ok (VDict result) => Some result
               | Ok v => Some [("raw", VStr (py_str repr v))]
               | Raise _ => None
               end in
  let failure :=
    match out with
    | Raise e => Some ("Invocation raised: " +:+ exn_str e)
    | Ok (VDict result) => failure_text <$> _tool_result_failure_reason ir (op_id o) result
    | Ok _ => Some "Invocation returned non-dict result."
    end in
  match failure with
  | None => mk_audit_result (op_id o) audit_passed "Invocation succeeded." (Some arguments) shown
  | Some reason =>
      match failure_skip_reason o arguments with
      | Some r => mk_audit_result (op_id o) audit_skipped (skip_text r) (Some arguments) shown
      | None => mk_audit_result (op_id o) audit_failed reason (Some arguments) shown
      end
  end.

(** One round of the audit's loop *)
Definition audit_one (ir : ServiceIR) (available_tools sample_invocations : dict (dict pyval)) (audit_policy : AuditPolicy)
    (runtime_ok : bool) (o : Operation) : M ToolAuditResult :=
  if negb (dict_mem available_tools (op_id o)) then
    ret (mk_audit_result (op_id o) audit_failed "Runtime /tools listing does not expose this generated tool." None None)
  else
    match skip_reason_for audit_policy o sample_invocations with
    | Some r => ret (mk_audit_result (op_id o) audit_skipped (skip_text r) None None)
    | None =>
        match tool_invoker with
        | Some invoke =>
            if runtime_ok then
              let arguments := default [] (dict_get sample_invocations (op_id o)) in
              out <- attempt (invoke (op_id o) arguments) ;;
              ret (call_verdict ir o arguments out)
            else ret (mk_audit_result (op_id o) audit_failed "Cannot invoke tool: runtime health check failed or no invoker." None None)
        | None => ret (mk_audit_result (op_id o) audit_failed "Cannot invoke tool: runtime health check failed or no invoker." None None)
        end
    end.

Definition count_outcome (p : audit_outcome → bool) (l : list ToolAuditResult) : Z := Z.of_nat (length (List.filter (p ∘ ta_outcome) l)).
Definition is_passed (o : audit_outcome) : bool := match o with audit_passed => true | _ => false end.
Definition is_failed (o : audit_outcome) : bool := match o with audit_failed => true | _ => false end.
Definition is_skipped (o : audit_outcome) : bool := match o with audit_skipped => true | _ => false end.

Definition summarize (discovered generated : Z) (l : list ToolAuditResult) : ToolAuditSummary :=
  mk_summary discovered generated (count_outcome is_passed l + count_outcome is_failed l)
    (count_outcome is_passed l) (count_outcome is_failed l) (count_outcome is_skipped l).

(** [_audit_all_enabled_operations]: the summary and its results *)
Definition _audit_all_enabled_operations (ir : ServiceIR) (available_tools sample_invocations : dict (dict pyval))
    (audit_policy : AuditPolicy) (runtime_ok : bool) : M (ToolAuditSummary * list ToolAuditResult) :=
  let enabled_operations := sorted_by leb_id (List.filter op_enabled (ir_operations ir)) in
  audit_results <- fold_each (λ acc o,
      r <- audit_one ir available_tools sample_invocations audit_policy runtime_ok o ;; ret (acc ++ [r])) [] enabled_operations ;;
  ret (summarize (Z.of_nat (length enabled_operations)) (Z.of_nat (length available_tools)) audit_results, audit_results).

(** [validate_with_audit] *)
Definition validate_with_audit (base_url : string) (payload : ServiceIR + dict pyval) (sample_invocations : dict (dict pyval))
    (audit_policy : option AuditPolicy) (preferred_smoke_tool_ids : list string)
    : M (ValidationReport * (ToolAuditSummary * list ToolAuditResult)) :=
  schema <- (λ w, (_validate_schema payload, w)) ;;
  match schema with
  | (schema_result, None) =>
      let nothing := mk_summary 0 0 0 0 0 0 in
      ret (mk_vreport (unchecked schema_result) false (Some nothing), (nothing, []))
  | (schema_result, Some ir) =>
      checked <- standard_checks base_url ir sample_invocations preferred_smoke_tool_ids ;;
      let results := schema_result :: checked.1 in
      let runtime_ok := match checked.1 with h :: t :: _ => vr_passed h && vr_passed t | _ => false end in
      audit <- _audit_all_enabled_operations ir checked.2 sample_invocations (default default_policy audit_policy) runtime_ok ;;
      ret (mk_vreport results (all_passed results && (ts_failed audit.1 =? 0)) (Some audit.1), audit)
  end.
End checks.

(** ** The choice of the operation to try *)

Lemma min_by_in {A K} (ltb : K → K → bool) (f : A → K) l x : min_by ltb f l = Some x → x ∈ l.
Proof.
  destruct l as [|y l]; [done|]. simpl. intros [= <-].
  enough (∀ b, foldl (λ best y, if ltb (f y) (f best) then y else best) b l ∈ b :: l) as H by apply H.
  induction l as [|z l IH]; intros b; simpl; [left|]. destruct (ltb (f z) (f b)).
  - right. apply IH.
  - specialize (IH b). apply elem_of_cons in IH as [->|IH]; [left|right; by right].
Qed.

Lemma first_preferred_sound candidates samples preferred o : first_preferred candidates samples preferred = Some o →
  o ∈ candidates ∧ op_id o ∈ preferred ∧ _uses_default_placeholder_path_samples o samples = false.
Proof.
  induction preferred as [|i rest IH]; [done|]. cbn [first_preferred]. intros H.
  assert (o ∈ candidates ∧ op_id o ∈ rest ∧ _uses_default_placeholder_path_samples o samples = false →
    o ∈ candidates ∧ op_id o ∈ i :: rest ∧ _uses_default_placeholder_path_samples o samples = false) as Hgo.
  { intros (? & ? & ?). split_and!; try done. by right. }
  destruct (dict_get (by_key op_id candidates) i) as [c|] eqn:E; [|by apply Hgo, IH].
  destruct (_uses_default_placeholder_path_samples c samples) eqn:Eu; [by apply Hgo, IH|]. injection H as ->.
  apply dict_of_list_elem in E. apply list_elem_of_fmap in E as (c & [= -> ->] & Hc). split_and!; [done|left|done].
Qed.

(** What is tried is listed, has a sample that is not made up, and changes nothing
    unless the caller asked for it by name. *)
Lemma select_sound ir enabled tools samples preferred o : _select_smoke_operation ir enabled tools samples preferred = Some o →
  o ∈ enabled ∧ dict_mem tools (op_id o) = true ∧ dict_mem samples (op_id o) = true ∧
  _uses_default_placeholder_path_samples o samples = false ∧ (op_id o ∈ preferred ∨ state_changing o = false).
Proof.
  unfold _select_smoke_operation. set (candidates := List.filter _ enabled).
  assert (∀ o, o ∈ candidates → o ∈ enabled ∧ dict_mem tools (op_id o) = true ∧ dict_mem samples (op_id o) = true) as Hc.
  { intros c [[H1 H2]%andb_true_iff H]%elem_of_filterb. done. }
  destruct (first_preferred candidates samples preferred) as [c|] eqn:E.
  - intros [= ->]. apply first_preferred_sound in E as (Hin & Hp & Hu). destruct (Hc o Hin) as (? & ? & ?). split_and!; try done. by left.
  - intros [Hs Hin]%min_by_in%elem_of_filterb. destruct (Hc o Hin) as (? & ? & ?). unfold _is_default_safe_smoke_candidate in Hs.
    destruct (_uses_default_placeholder_path_samples o samples) eqn:Eu; [done|]. apply negb_true_iff in Hs. split_and!; try done. by right.
Qed.

Lemma same_set_true a b : same_set a b = true ↔ ∀ x, x ∈ a ↔ x ∈ b.
Proof.
  unfold same_set. rewrite andb_true_iff, !forallb_forall. split.
  - intros [H1 H2] x. rewrite !list_elem_of_In. split; intros Hx.
    + specialize (H1 x Hx). apply bool_decide_eq_true in H1. by apply list_elem_of_In.
    + specialize (H2 x Hx). apply bool_decide_eq_true in H2. by apply list_elem_of_In.
  - intros H. split; intros x Hx%list_elem_of_In; apply bool_decide_eq_true; by apply H.
Qed.

Lemma listed_keys tools i : Forall (λ t, is_text (tool_name t) = true) tools →
  i ∈ dict_keys (listed_tools tools) ↔ VStr i ∈ tool_name <$> tools.
Proof.
  intros Ht. unfold listed_tools. set (l := omap _ tools).
  assert (∀ k, k ∈ l.*1 ↔ VStr k ∈ tool_name <$> tools) as Hl.
  { intros k. unfold l. clear l. induction Ht as [|t tools Hx _ IH]; [split; by intros []%elem_of_nil|].
    rewrite fmap_cons, elem_of_cons, <-IH. unfold tool_name, is_text in *. cbn [omap list_omap].
    destruct (get_or_none t "name"); try done. rewrite fmap_cons, elem_of_cons. naive_solver. }
  rewrite <-Hl. rewrite <-dict_get_is_Some. split.
  - intros [v Hv%dict_of_list_elem]. apply list_elem_of_fmap. by exists (i, v).
  - apply dict_of_list_key.
Qed.

(** ** What a passed report means *)

Section soundness.
Context {W : Type} (repr : pyval → string) (client_get : string → comp W exn response)
  (tool_invoker : option (string → dict pyval → comp W exn pyval)) (read_fields : dict pyval → outcome exn ServiceIR).

(** An endpoint that reports itself ready *)
Definition ready (r : response) : Prop :=
  rsp_status r = 200 ∧ (rsp_content r = "" ∨ ∃ d v, rsp_json r = Some (VDict d) ∧ dict_get d "status" = Some v ∧ py_eq v (VStr "ok") = true).

Lemma health_detail_sound endpoint r : _health_endpoint_failure_detail repr endpoint r = None → ready r.
Proof.
  unfold _health_endpoint_failure_detail, ready. destruct (rsp_status r =? 200) eqn:E; [|done]. apply Z.eqb_eq in E. cbn [negb].
  destruct (rsp_content r) as [|c s]; [by split; [|left]|]. cbn [str_truthy negb].
  destruct (rsp_json r) as [[| | | | | |d]|]; try done. destruct (dict_get d "status") as [v|] eqn:Ev; [|done].
  destruct (py_eq v (VStr "ok")) eqn:Eq; [|done]. intros _. split; [done|]. right. by exists d, v.
Qed.

Lemma health_sound base_url w r w' : _validate_health repr client_get base_url w = (Ok r, w') → vr_passed r = true →
  ∃ health readyz w1, client_get (url_of base_url "/healthz") w = (Ok health, w1) ∧
    client_get (url_of base_url "/readyz") w1 = (Ok readyz, w') ∧ ready health ∧ ready readyz.
Proof.
  unfold _validate_health, bind, attempt. destruct (client_get (url_of base_url "/healthz") w) as [[h|e] w1] eqn:Eh.
  2: { destruct (is_request_error e); [by intros [= <- <-]|done]. }
  destruct (client_get (url_of base_url "/readyz") w1) as [[rd|e] w2] eqn:Er; cbn [ret].
  2: { destruct (is_request_error e); [by intros [= <- <-]|done]. }
  intros [= <- <-]. destruct (_health_endpoint_failure_detail repr "healthz" h) eqn:E1; [done|].
  destruct (_health_endpoint_failure_detail repr "readyz" rd) eqn:E2; [done|]. intros _.
  exists h, rd, w1. split_and!; [done|done|by eapply health_detail_sound|by eapply health_detail_sound].
Qed.

(** The answer lists exactly the enabled operations. *)
Definition lists_exactly (r : response) (ir : ServiceIR) : Prop :=
  rsp_status r = 200 ∧ ∃ d tools, rsp_json r = Some (VDict d) ∧ dict_get d "tools" = Some (VList (VDict <$> tools)) ∧
    NoDup (tool_name <$> tools) ∧ ∀ i, VStr i ∈ tool_name <$> tools ↔ i ∈ expected_tools ir.

Lemma listing_sound base_url ir w r tools w' : _validate_tool_listing repr client_get base_url ir w = (Ok (r, tools), w') → vr_passed r = true →
  ∃ listing, client_get (url_of base_url "/tools") w = (Ok listing, w') ∧ lists_exactly listing ir ∧
    (∀ i, dict_mem tools i = true ↔ i ∈ expected_tools ir).
Proof.
  unfold _validate_tool_listing, bind, attempt. destruct (client_get (url_of base_url "/tools") w) as [[rsp|e] w1] eqn:Eg.
  2: { destruct (is_request_error e); [by intros [= <- <- <-]|done]. }
  destruct (rsp_status rsp =? 200) eqn:Es; cbn [negb]; [|by intros [= <- <- <-]]. apply Z.eqb_eq in Es.
  destruct (rsp_json rsp) as [payload|] eqn:Ej; [|by intros [= <- <- <-]].
  destruct (validate_tool_listing_payload payload _) as [l|e] eqn:Ev; [|by intros [= <- <- <-]].
  destruct (same_set _ _) eqn:Ess; [|by intros [= <- <- <-]]. intros [= <- <- <-] _. rewrite same_set_true in Ess.
  unfold validate_tool_listing_payload in Ev. destruct payload as [| | | | | |d]; try done.
  destruct (dict_get d "tools") as [[| | | | |ts|]|] eqn:Et; try done. apply check_tools_ok in Ev as (-> & Hnd & Htext & _).
  exists rsp. split; [done|]. split.
  - split; [done|]. exists d, l. split_and!; [done|done|done|]. intros i. by rewrite <-listed_keys, Ess.
  - intros i. unfold dict_mem. rewrite bool_decide_eq_true, dict_get_is_Some. apply Ess.
Qed.

(** A deployment that passes really works.  When the report passes, the runtime
    answered on both health endpoints as ready, its listing names every enabled
    operation once and nothing else, and one enabled operation was called with its
    sample and answered acceptably; the sample holds no made-up path value, and
    the operation changes no state unless the caller named it. *)
Theorem post_deploy_means_working base_url ir samples preferred w report w' :
  validate repr client_get tool_invoker read_fields base_url (inl ir) samples preferred w = (Ok report, w') →
  vp_overall_passed report = true →
  ∃ health readyz listing invoke o arguments result w1 w2 w3,
    client_get (url_of base_url "/healthz") w = (Ok health, w1) ∧ ready health ∧
    client_get (url_of base_url "/readyz") w1 = (Ok readyz, w2) ∧ ready readyz ∧
    client_get (url_of base_url "/tools") w2 = (Ok listing, w3) ∧ lists_exactly listing ir ∧
    tool_invoker = Some invoke ∧ o ∈ ir_operations ir ∧ op_enabled o = true ∧ dict_get samples (op_id o) = Some arguments ∧
    invoke (op_id o) arguments w3 = (Ok (VDict result), w') ∧ _tool_result_failure_reason ir (op_id o) result = None ∧
    _has_synthetic_path_placeholder_samples o arguments true = false ∧ (op_id o ∈ preferred ∨ state_changing o = false).
Proof.
  unfold validate, _validate_schema. cbn [ir_of]. unfold bind at 1. unfold bind at 1. unfold standard_checks. unfold bind at 1.
  destruct (_validate_health repr client_get base_url w) as [[h|e] w2] eqn:Eh; [|done]. unfold bind at 1.
  destruct (_validate_tool_listing repr client_get base_url ir w2) as [[[t tools]|e] w3] eqn:Et; [|done]. unfold bind at 1.
  destruct (_validate_invocation_smoke repr tool_invoker ir tools samples preferred (vr_passed h) (vr_passed t) w3) as [[i|e] w4] eqn:Ei; [|done].
  intros [= <- <-]. cbn [report_of vp_overall_passed all_passed forallb vr_passed andb fst].
  rewrite andb_true_r, !andb_true_iff. intros (Hh & Ht & Hi). rewrite Hh, Ht in Ei.
  destruct (health_sound _ _ _ _ Eh Hh) as (health & readyz & w1 & H1 & H2 & Hr1 & Hr2).
  destruct (listing_sound _ _ _ _ _ _ Et Ht) as (listing & H3 & Hl & Hmem).
  unfold _validate_invocation_smoke in Ei. cbn [negb] in Ei. destruct tool_invoker as [invoke|]; [|by injection Ei as <- <-].
  destruct (List.filter op_enabled (ir_operations ir)) as [|o0 os] eqn:Eo; [by injection Ei as <- <-|]. rewrite <-Eo in Ei.
  destruct (_select_smoke_operation _ _ _ _ _) as [o|] eqn:Esel; [|by injection Ei as <- <-].
  apply select_sound in Esel as ([He Ho]%elem_of_filterb & _ & Hsample & Hsyn & Hsafe).
  unfold dict_mem in Hsample. apply bool_decide_eq_true in Hsample as [arguments Ha]. rewrite Ha in Ei.
  unfold _uses_default_placeholder_path_samples in Hsyn. rewrite Ha in Hsyn. cbn [default from_option] in Hsyn.
  change (default [] (Some arguments)) with arguments in Ei. change (default [] (Some arguments)) with arguments in Hsyn.
  unfold smoke_call, bind, attempt in Ei.
  destruct (invoke (op_id o) arguments w3) as [[v|e] w5] eqn:Einv; [|by injection Ei as <- <-].
  destruct v as [| | | | | |result]; try by injection Ei as <- <-.
  destruct (_tool_result_failure_reason ir (op_id o) result) eqn:Ef; [by injection Ei as <- <-|].
  destruct (_supported_descriptor_for_operation ir (op_id o)); [|done]. injection Ei as <- <-.
  exists health, readyz, listing, invoke, o, arguments, result, w1, w2, w3. by split_and!.
Qed.
End soundness.

(** ** A good deployment passes *)

Section completeness.
Context {W : Type} (repr : pyval → string) (read_fields : dict pyval → outcome exn ServiceIR).
Context {S : Type} (state : RuntimeState S) (path : option string) (head : string → comp W exn Z) (input_schema : Tool S → pyval)
  (print : dict pyval → string) (base_url : string).
Context (head_fails : ∀ u w e w', head u w = (Raise e, w') → is_http_error e = true).
Context (no_slash : rstrip_char "/"%char base_url = base_url) (loaded : is_loaded state = true).
Abbreviation get := (serve state path head input_schema print base_url).

Lemma health_passes w : ∃ d w', _validate_health repr get base_url w = (Ok (mk_vresult "health" true d), w').
Proof.
  unfold _validate_health, url_of, bind, attempt. rewrite no_slash, serve_healthz.
  destruct (serve_readyz state path head input_schema print base_url head_fails w loaded) as (d & w' & ->). cbn [ret].
  assert (∀ e a, a.1 = 200 → dict_get a.2 "status" = Some (VStr "ok") → _health_endpoint_failure_detail repr e (as_response print a) = None) as Hok.
  { intros e a H1 H2. unfold _health_endpoint_failure_detail, as_response. cbn [rsp_status rsp_content rsp_json]. rewrite H1, H2. by destruct (str_truthy _). }
  rewrite !Hok by done. cbn. by eexists _, _.
Qed.

Lemma tool_names_check context seen i (tools : list (Tool S)) :
  NoDup (tl_name <$> tools) → Forall (λ t, str_truthy (strip (tl_name t)) = true) tools → (∀ n, n ∈ seen → n ∉ tl_name <$> tools) →
  check_tools context seen i ((λ t, VDict (tool_document input_schema t)) <$> tools) = Ok (tool_document input_schema <$> tools).
Proof.
  revert seen i. induction tools as [|t tools IH]; intros seen i Hnd Ht Hs; [done|]. rewrite fmap_cons in Hnd. apply NoDup_cons in Hnd as [Hn Hnd].
  apply Forall_cons in Ht as [Ht Hts]. rewrite !fmap_cons. cbn [check_tools].
  change (get_or_none (tool_document input_schema t) "name") with (VStr (tl_name t)). cbv iota. rewrite Ht. cbn [negb]. rewrite bool_decide_eq_false_2 by (intros H; apply (Hs _ H); rewrite fmap_cons; left).
  rewrite IH; [done|done|done|]. intros n [->|H]%elem_of_cons; [done|]. intros H2. apply (Hs n H). rewrite fmap_cons. by right.
Qed.

Lemma listing_passes ir w : tl_name <$> rs_tools state = expected_tools ir → NoDup (expected_tools ir) →
  Forall (λ i, str_truthy (strip i) = true) (expected_tools ir) →
  ∃ d tools, _validate_tool_listing repr get base_url ir w = (Ok (mk_vresult "tool_listing" true d, tools), w) ∧
    ∀ i, i ∈ expected_tools ir → dict_mem tools i = true.
Proof.
  intros Hn Hnd Ht. unfold _validate_tool_listing, url_of, bind, attempt. rewrite no_slash, serve_tools by done.
  unfold as_response, list_tools. rewrite loaded. cbn [fst snd rsp_status rsp_json Z.eqb Pos.eqb negb].
  rewrite <-Hn in Hnd, Ht. match goal with |- context [validate_tool_listing_payload ?p ?c] =>
    change (validate_tool_listing_payload p c) with
      (check_tools c [] 0 ((λ t, VDict (tool_document input_schema t)) <$> rs_tools state)) end.
  rewrite tool_names_check; [|done|by rewrite Forall_fmap in Ht|by intros n []%elem_of_nil]. cbn zeta.
  set (docs := tool_document input_schema <$> rs_tools state).
  assert (∀ i, i ∈ dict_keys (listed_tools docs) ↔ i ∈ expected_tools ir) as Hkeys.
  { intros i. assert (tool_name <$> docs = VStr <$> expected_tools ir) as Hd.
    { unfold docs. rewrite <-Hn, <-!list_fmap_compose. by apply list_fmap_ext. }
    rewrite listed_keys, Hd.
    - split; [intros (j & [= ->] & Hj)%list_elem_of_fmap; done|]. apply (list_elem_of_fmap_2 VStr).
    - rewrite Forall_forall. intros t Hin. assert (tool_name t ∈ tool_name <$> docs) as Hx by by apply list_elem_of_fmap_2.
      rewrite Hd in Hx. apply list_elem_of_fmap in Hx as (j & -> & Hj). cbn. rewrite <-Hn in Hj. rewrite Forall_forall in Ht. by apply Ht. }
  assert (same_set (dict_keys (listed_tools docs)) (expected_tools ir) = true) as -> by by apply same_set_true.
  eexists _, _. split; [done|]. intros i Hi. unfold dict_mem. apply bool_decide_eq_true, dict_get_is_Some. by apply Hkeys.
Qed.

Lemma select_finds ir enabled tools samples preferred o :
  o ∈ enabled → dict_mem tools (op_id o) = true → dict_mem samples (op_id o) = true → _is_default_safe_smoke_candidate o samples = true →
  ∃ o', _select_smoke_operation ir enabled tools samples preferred = Some o'.
Proof.
  intros Ho Ht Hs Hc. unfold _select_smoke_operation. destruct (first_preferred _ _ _); [by eexists|].
  assert (o ∈ List.filter (λ o, _is_default_safe_smoke_candidate o samples)
    (List.filter (λ o, dict_mem tools (op_id o) && dict_mem samples (op_id o)) enabled)) as Hin.
  { apply elem_of_filterb. split; [done|]. apply elem_of_filterb. by rewrite Ht, Hs. }
  destruct (List.filter _ (List.filter _ enabled)) as [|x l]; [by apply elem_of_nil in Hin|]. by eexists.
Qed.

(** A working runtime is not rejected.  For the runtime this development models,
    loaded with the description that was deployed, whose operation ids are not
    blank, the report passes as soon as one enabled operation can be tried safely
    and every call with a sample is answered acceptably, whatever the upstream
    probe says. *)
Theorem working_runtime_passes ir samples preferred invoke w :
  service_wf ir → tl_name <$> rs_tools state = expected_tools ir → Forall (λ i, str_truthy (strip i) = true) (expected_tools ir) →
  (∃ o, o ∈ ir_operations ir ∧ op_enabled o = true ∧ dict_mem samples (op_id o) = true ∧ _is_default_safe_smoke_candidate o samples = true) →
  (∀ o arguments w, o ∈ ir_operations ir → op_enabled o = true → dict_get samples (op_id o) = Some arguments →
     ∃ result w', invoke (op_id o) arguments w = (Ok (VDict result), w') ∧ _tool_result_failure_reason ir (op_id o) result = None) →
  (∀ o, o ∈ ir_operations ir → ∃ d, _supported_descriptor_for_operation ir (op_id o) = Ok d) →
  ∃ report w', validate repr get (Some invoke) read_fields base_url (inl ir) samples preferred w = (Ok report, w') ∧
    vp_overall_passed report = true.
Proof.
  intros Hwf Hn Hblank (o & Ho & He & Hs & Hc) Hinv Hd.
  assert (NoDup (expected_tools ir)) as Hnd by (apply NoDup_fmap_filterb, (wf_op_ids _ Hwf)).
  unfold validate, _validate_schema. cbn [ir_of]. unfold bind at 1. unfold bind at 1. unfold standard_checks. unfold bind at 1.
  destruct (health_passes w) as (d1 & w1 & ->). unfold bind at 1. destruct (listing_passes ir w1 Hn Hnd Hblank) as (d2 & tools & -> & Htools).
  unfold bind at 1. cbn [vr_passed]. unfold _validate_invocation_smoke. cbn [negb].
  assert (o ∈ List.filter op_enabled (ir_operations ir)) as Hoe by by apply elem_of_filterb.
  destruct (List.filter op_enabled (ir_operations ir)) as [|x l] eqn:El; [by apply elem_of_nil in Hoe|]. rewrite <-El in *.
  destruct (select_finds ir (List.filter op_enabled (ir_operations ir)) tools samples preferred o) as [o' Hsel]; try done.
  { apply Htools, list_elem_of_fmap_2. by rewrite El in Hoe |- *. }
  rewrite Hsel. apply select_sound in Hsel as ([He' Ho']%elem_of_filterb & _ & Hsample & _).
  unfold dict_mem in Hsample. apply bool_decide_eq_true in Hsample as [arguments Ha].
  destruct (Hinv o' arguments w1 Ho' He' Ha) as (result & w2 & Hrun & Hreason). destruct (Hd o' Ho') as [dsc Hdsc].
  unfold smoke_call, bind, attempt. rewrite Ha. change (default [] (Some arguments)) with arguments. rewrite Hrun, Hreason, Hdsc.
  by eexists _, _.
Qed.
End completeness.

(** ** Audits *)

Lemma counts_add_up l : count_outcome is_passed l + count_outcome is_failed l + count_outcome is_skipped l = Z.of_nat (length l).
Proof.
  unfold count_outcome. induction l as [|r l IH]; [done|]. simpl. unfold compose in *. destruct (ta_outcome r); simpl; lia.
Qed.

Section audits.
Context {W : Type} (repr : pyval → string) (invoke : string → dict pyval → comp W exn pyval) (skip_text : skip_reason → string).
Context (I : W → Prop) (ir : ServiceIR) (tools samples : dict (dict pyval)) (policy : AuditPolicy) (runtime_ok : bool).

(** The operations the policy lets an audit call *)
Definition callable (o : Operation) : Prop :=
  o ∈ ir_operations ir ∧ op_enabled o = true ∧ dict_mem tools (op_id o) = true ∧ skip_reason_for policy o samples = None.

Context (calls_preserve : ∀ o arguments w, callable o → dict_get samples (op_id o) = Some arguments → I w → I (invoke (op_id o) arguments w).2).

(** What one result says *)
Definition audit_says (o : Operation) (r : ToolAuditResult) : Prop :=
  ta_tool_name r = op_id o ∧
  (ta_outcome r = audit_passed → callable o ∧ ∃ arguments result w w', ta_arguments r = Some arguments ∧
     dict_get samples (op_id o) = Some arguments ∧ invoke (op_id o) arguments w = (Ok (VDict result), w') ∧
     _tool_result_failure_reason ir (op_id o) result = None).

Lemma audit_one_sound o w : o ∈ ir_operations ir → op_enabled o = true → I w →
  ∃ r w', audit_one repr (Some invoke) skip_text ir tools samples policy runtime_ok o w = (Ok r, w') ∧ I w' ∧ audit_says o r.
Proof.
  intros Ho He Hi. unfold audit_one. destruct (dict_mem tools (op_id o)) eqn:Et; cbn [negb]; [|by eexists _, _].
  destruct (skip_reason_for policy o samples) as [r|] eqn:Es; [by eexists _, _|].
  destruct runtime_ok; [|by eexists _, _].
  assert (∃ arguments, dict_get samples (op_id o) = Some arguments) as [arguments Ha].
  { unfold skip_reason_for in Es. destruct (dict_get samples (op_id o)); [by eexists|done]. }
  assert (callable o) as Hc by by split_and!. specialize (calls_preserve o arguments w Hc Ha Hi).
  rewrite Ha. change (default [] (Some arguments)) with arguments. unfold bind, attempt.
  destruct (invoke (op_id o) arguments w) as [out w'] eqn:Er. eexists _, w'. split; [done|]. split; [done|].
  unfold call_verdict, audit_says. set (failure := match out with Ok _ => _ | Raise _ => _ end). destruct failure as [reason|] eqn:Ef.
  { by destruct (failure_skip_reason o arguments). }
  split; [done|]. intros _. split; [done|]. destruct out as [v|e]; [|done]. destruct v as [| | | | | |result]; try done.
  exists arguments, result, w, w'. split_and!; try done. unfold failure in Ef. by destruct (_tool_result_failure_reason ir (op_id o) result).
Qed.

(** An audit accounts for every tool and only calls what its policy allows.  It
    always ends with one result for each enabled operation, sorted by their ids;
    the passed, failed and skipped add up to them; and what every call of an allowed
    operation preserves holds afterwards.  A tool reported as passed was allowed,
    was called with its sample and answered acceptably. *)
Theorem audit_sound w : I w →
  ∃ summary results w',
    _audit_all_enabled_operations repr (Some invoke) skip_text ir tools samples policy runtime_ok w = (Ok (summary, results), w') ∧
    I w' ∧ Forall2 audit_says (sorted_by leb_id (List.filter op_enabled (ir_operations ir))) results ∧
    sorted_by leb_id (List.filter op_enabled (ir_operations ir)) ≡ₚ List.filter op_enabled (ir_operations ir) ∧
    ts_passed summary + ts_failed summary + ts_skipped summary = Z.of_nat (length (List.filter op_enabled (ir_operations ir))) ∧
    ts_audited_tools summary = ts_passed summary + ts_failed summary.
Proof.
  intros Hi. unfold _audit_all_enabled_operations. set (ops := sorted_by leb_id _).
  assert (ops ≡ₚ List.filter op_enabled (ir_operations ir)) as Hperm by apply sorted_by_perm.
  assert (∀ o, o ∈ ops → o ∈ ir_operations ir ∧ op_enabled o = true) as Hops.
  { intros o. rewrite Hperm. intros [? ?]%elem_of_filterb. done. }
  assert (wp (fold_each (λ acc o, r <- audit_one repr (Some invoke) skip_text ir tools samples policy runtime_ok o ;; ret (acc ++ [r])) [] ops)
    (λ results w', I w' ∧ Forall2 audit_says ops results) (λ _ _, False) w) as Hwp.
  { apply (wp_fold_each _ (λ done results w', I w' ∧ Forall2 audit_says done results) (λ _ _, False)); [by split|].
    intros pre o post acc w1 Hl [Hi1 Hacc]. apply wp_bind. destruct (Hops o) as [Ho He]; [rewrite Hl; set_solver|].
    destruct (audit_one_sound o w1 Ho He Hi1) as (r & w2 & Hr & Hi2 & Hs). unfold wp at 1. rewrite Hr. apply wp_ret. split; [done|].
    apply Forall2_app; [done|]. by constructor. }
  unfold wp in Hwp. unfold bind. destruct (fold_each _ [] ops w) as [[results|e] w']; [|done]. destruct Hwp as [Hi' Hres].
  eexists _, results, w'. split; [done|]. split_and!; [done|done|done| |done].
  cbn [summarize ts_passed ts_failed ts_skipped]. rewrite counts_add_up. rewrite <-(Forall2_length _ _ _ Hres). by rewrite Hperm.
Qed.
End audits.

(** ** Samples and the smoke test *)

(** A made-up path value is recognised as one. *)
Lemma path_sample_is_synthetic p : has_default p = false → _contains_synthetic_placeholder_sample true (_sample_path_value p) = true.
Proof.
  intros Hd. unfold _sample_path_value. rewrite Hd. destruct (str_eqb (pa_type p) "integer"); [by vm_compute|].
  destruct (str_eqb (pa_type p) "number"); [by vm_compute|]. destruct (str_eqb (pa_type p) "array"); [by vm_compute|].
  destruct (str_eqb (pa_type p) "object"); [by vm_compute|]. by destruct (endswith "id" (lower (pa_name p))); vm_compute.
Qed.

(** The smoke test never guesses a path.  With the samples the compiler makes up
    and no overrides, an operation chosen for a plain request either has no
    parameter in its path or gives each of them a default value; and unless it was
    asked for by name it is neither state-changing nor destructive. *)
Theorem smoke_never_guesses_paths ir tools preferred o p :
  service_wf ir →
  _select_smoke_operation ir (List.filter op_enabled (ir_operations ir)) tools (sample_invocations ir []) preferred = Some o →
  plain ir o → NoDup (pa_name <$> op_params o) → p ∈ op_params o → in_path o p = true →
  has_default p = true ∧ (op_id o ∈ preferred ∨ state_changing o = false).
Proof.
  intros Hwf ([He Ho]%elem_of_filterb & _ & _ & Hsyn & Hsafe)%select_sound Hplain Hnd Hp Hpath. split; [|done].
  change (sample_invocations ir []) with (build_sample_invocations ir) in Hsyn.
  unfold _uses_default_placeholder_path_samples in Hsyn. rewrite built_sample in Hsyn by done. rewrite plain_sample in Hsyn by done.
  destruct (has_default p) eqn:Ed; [done|]. exfalso. apply not_true_iff_false in Hsyn. apply Hsyn.
  unfold in_path in Hpath. apply bool_decide_eq_true in Hpath. apply existsb_exists. exists (pa_name p).
  split; [by apply list_elem_of_In|]. set (f := λ q, if in_path o q then _ else _). set (keep := λ q, expected q || in_path o q).
  change (default [] (Some (sample_each f keep (op_params o)))) with (sample_each f keep (op_params o)).
  assert (in_path o p = true) as Hin by (unfold in_path; by apply bool_decide_eq_true).
  destruct (sample_each_key f keep (op_params o) p Hp) as [v Hv]; [unfold keep; rewrite Hin; apply orb_true_r|]. rewrite Hv.
  apply sample_each_get in Hv as (q & Hq & _ & Hname & ->).
  assert (q = p) as ->. { clear -Hnd Hp Hq Hname. induction (op_params o) as [|x l IH]; [by apply elem_of_nil in Hp|].
    rewrite fmap_cons in Hnd. apply NoDup_cons in Hnd as [Hx Hnd].
    apply elem_of_cons in Hp as [->|Hp]; apply elem_of_cons in Hq as [->|Hq]; [done| | |by apply IH].
    - destruct Hx. rewrite <-Hname. by apply list_elem_of_fmap_2.
    - destruct Hx. rewrite Hname. by apply list_elem_of_fmap_2. }
  rewrite by_key_get by done. unfold f. rewrite Hin. unfold has_default, is_None in Ed. destruct (pa_default p) eqn:Edef; try done.
  apply path_sample_is_synthetic. unfold has_default, is_None. by rewrite Edef.
Qed.

(** ** A runtime to check *)

Definition rest_state : option (RuntimeState unit) :=
  match build_runtime_state (λ _, Ok "{}") Ok Ok (λ _, Ok demo_rest_ir) (λ _ _ args s, (Ok args, s)) (Some "/etc/service.json")
          false false false "" "" with Ok s => Some s | Raise _ => None end.
Definition empty_state : RuntimeState unit := not_loaded None "".
Definition the_state : RuntimeState unit := default empty_state rest_state.
Definition demo_head : string → comp unit exn Z := λ _ w, (Ok 200, w).
Definition demo_get : string → comp unit exn response := serve the_state None demo_head (λ _, VDict []) (λ _, "{}") "http://pets-v1:8003".
Definition demo_invoke : string → dict pyval → comp unit exn pyval := λ _ _ w, (Ok (VDict [("status", VStr "ok"); ("result", VList [])]), w).
Definition no_repr : pyval → string := λ _, "<object>".

Example demo_report :
  match (validate no_repr demo_get (Some demo_invoke) (λ _, Ok demo_rest_ir) "http://pets-v1:8003" (inl demo_rest_ir)
           (sample_invocations demo_rest_ir []) [] tt).1 with
  | Ok r => vr_details <$> vp_results r =
      ["Expected IR schema is valid."; "Runtime health endpoints are ready."; "Runtime exposes expected tools: <object>.";
       "Invocation smoke test succeeded for pets."]
  | Raise _ => False
  end.
Proof. vm_compute. reflexivity. Qed.

Lemma post_deploy_means_working_witness :
  ∃ o, o ∈ ir_operations demo_rest_ir ∧ state_changing o = false.
Proof.
  set (run := validate no_repr demo_get (Some demo_invoke) (λ _, Ok demo_rest_ir) "http://pets-v1:8003" (inl demo_rest_ir)
    (sample_invocations demo_rest_ir []) [] tt).
  assert (∃ report w', run = (Ok report, w') ∧ vp_overall_passed report = true) as (report & w' & Hrun & Hp)
    by (vm_compute; eexists _, _; split; reflexivity).
  destruct (post_deploy_means_working no_repr demo_get (Some demo_invoke) (λ _, Ok demo_rest_ir) "http://pets-v1:8003" demo_rest_ir
    (sample_invocations demo_rest_ir []) [] tt report w' Hrun Hp) as (?&?&?&?&o&?&?&?&?&?&?&?&?&?&?&?&?&Ho&?&?&?&?&?&[Hx|Hs]);
    [by apply elem_of_nil in Hx|exists o; split; [exact Ho|exact Hs]].
Defined.

Lemma working_runtime_passes_witness :
  ∃ report w', validate no_repr (serve the_state None demo_head (λ _, VDict []) (λ _, "{}") "http://pets-v1:8003") (Some demo_invoke)
    (λ _, Ok demo_rest_ir) "http://pets-v1:8003" (inl demo_rest_ir) (sample_invocations demo_rest_ir []) [] tt = (Ok report, w') ∧
    vp_overall_passed report = true.
Proof.
  apply (working_runtime_passes no_repr (λ _, Ok demo_rest_ir) the_state None demo_head (λ _, VDict []) (λ _, "{}") "http://pets-v1:8003").
  - discriminate.
  - vm_compute. reflexivity.
  - vm_compute. reflexivity.
  - apply demo_rest_wf.
  - vm_compute. reflexivity.
  - vm_compute. repeat (apply Forall_cons; split; [reflexivity|]). apply Forall_nil_2.
  - exists (demo_read "pets" "/pets" [demo_param "status" "string" true]). split; [right; left|]. by vm_compute.
  - intros o arguments w Ho _ _. eexists _, _. split; [reflexivity|].
    apply elem_of_cons in Ho as [->|Ho]; [vm_compute; reflexivity|]. apply list_elem_of_singleton in Ho as ->. vm_compute. reflexivity.
  - intros o Ho. exists None. apply elem_of_cons in Ho as [->|Ho]; [vm_compute; reflexivity|].
    apply list_elem_of_singleton in Ho as ->. vm_compute. reflexivity.
Defined.

Lemma audit_sound_witness :
  ∃ summary results w', _audit_all_enabled_operations no_repr (Some demo_invoke) (λ _, "skipped") demo_rest_ir
    [("pet", []); ("pets", [])] (sample_invocations demo_rest_ir []) default_policy true tt = (Ok (summary, results), w') ∧
    ts_passed summary + ts_failed summary + ts_skipped summary = 2.
Proof.
  destruct (audit_sound no_repr demo_invoke (λ _, "skipped") (λ _, True) demo_rest_ir [("pet", []); ("pets", [])]
    (sample_invocations demo_rest_ir []) default_policy true (λ _ _ _ _ _ _, I) tt I) as (summary & results & w' & Hrun & _ & _ & _ & Hsum & _).
  exists summary, results, w'. split; [exact Hrun|exact Hsum].
Defined.

Lemma smoke_never_guesses_paths_witness :
  state_changing (demo_read "pet" "/pets/{petId}" [mk_param "petId" "string" true "" (VStr "7") None src_extractor 1]) = false ∧
  has_default (mk_param "petId" "string" true "" (VStr "7") None src_extractor 1) = true.
Proof.
  set (p := mk_param "petId" "string" true "" (VStr "7") None src_extractor 1). set (o := demo_read "pet" "/pets/{petId}" [p]).
  set (ir := ir_with_operations demo_rest_ir [o]).
  assert (service_wf ir) as Hwf by (apply (validated_wf ir ir); vm_compute; reflexivity).
  assert (_select_smoke_operation ir (List.filter op_enabled (ir_operations ir)) [("pet", [])] (sample_invocations ir []) [] = Some o) as Hsel
    by (vm_compute; reflexivity).
  destruct (smoke_never_guesses_paths ir [("pet", [])] [] o p Hwf Hsel) as [Hd [Hx|Hs]].
  - by split_and!.
  - apply NoDup_singleton.
  - left.
  - by vm_compute.
  - by apply elem_of_nil in Hx.
  - split; [exact Hs|exact Hd].
Defined.

(** An operation with two supported descriptors whose upstream answers with an error:
    the message of the successful test looks the descriptor up again and raises. *)
Example second_descriptor_escapes :
  let d i := mk_event i i "" sse inbound supported None (Some "pets") None None [] in
  let ir := mk_ir IR_VERSION "0.1.0" None "h" "openapi" "pets" "" "http://pets" demo_no_auth (ir_operations demo_rest_ir)
              [] [] [d "a"; d "b"] [] [] [] 0 None None in
  let upstream_error : string → dict pyval → comp unit exn pyval := λ _ _ w, (Ok (VDict [("status", VStr "upstream_error")]), w) in
  (validate no_repr demo_get (Some upstream_error) (λ _, Ok ir) "http://pets-v1:8003" (inl ir) (sample_invocations ir []) [] tt).1
  = Raise (several_descriptors "pets").
Proof. vm_compute. reflexivity. Qed.
