(* ===== verification/Enhancer.v ===== *)
(** * Descriptions from a language model ([libs/enhancer/enhancer.py])

    Operations with poor descriptions are sent to a language model in batches; what
    it answers replaces descriptions and nothing else.  The model's clients and the
    JSON parser and printer are parameters; concurrent batches are a step relation
    over the state they share. *)

From S2P Require Export Enhancement.
From Stdlib Require Import Ascii.

(** ** Configuration *)

Inductive LLMProvider := anthropic | deepseek | openai | vertexai.

(** [LLMProvider(text)] *)
Definition provider_of (s : string) : outcome exn LLMProvider :=
  if str_eqb s "anthropic" then Ok anthropic
  else if str_eqb s "deepseek" then Ok deepseek
  else if str_eqb s "openai" then Ok openai
  else if str_eqb s "vertexai" then Ok vertexai
  else Raise (value_error ("'" +:+ s +:+ "' is not a valid LLMProvider")).

Record EnhancerConfig := mk_enhancer_config {
  en_provider : LLMProvider;
  en_model : string;
  en_api_key : option string;
  en_api_base_url : option string;
  en_vertex_project : option string;
  en_vertex_location : string;
  en_max_tokens_per_job : Z;
  en_temperature : float;
  en_batch_size : Z;
  en_max_concurrent_batches : Z;
  en_skip_if_description_exists : bool;
}.

Definition _default_model_for_provider (p : LLMProvider) : string :=
  match p with
  | anthropic => "claude-sonnet-4-20250514"
  | deepseek => "deepseek-chat"
  | vertexai => "gemini-2.0-flash"
  | openai => "gpt-4o-mini"
  end.

Definition _default_api_base_url_for_provider (p : LLMProvider) : option string :=
  match p with deepseek => Some "https://api.deepseek.com" | _ => None end.

Definition default_enhancer_config : EnhancerConfig :=
  mk_enhancer_config openai "gpt-4o-mini" None None None "us-central1" 50000 0x1.3333333333333p-2 10 5 true.

Section environment.
(** [os.environ.get] *)
Context (environ : string → option string).

(** [_getenv_stripped] *)
Definition _getenv_stripped (name : string) (fallback : option string) : option string :=
  match environ name with
  | None => fallback
  | Some value => if str_truthy (strip value) then Some (strip value) else fallback
  end.

(** [_getenv_bool] *)
Definition _getenv_bool (name : string) (fallback : bool) : bool :=
  match _getenv_stripped name None with
  | None => fallback
  | Some value =>
      if one_of (lower value) ["1"; "true"; "yes"; "on"] then true
      else if one_of (lower value) ["0"; "false"; "no"; "off"] then false
      else fallback
  end.

(** [int(_getenv_stripped(name) or fallback)] *)
Definition getenv_int (name : string) (fallback : Z) : outcome exn Z :=
  match _getenv_stripped name None with
  | None => Ok fallback
  | Some s => match int_of_text s with
              | Some z => Ok z
              | None => Raise (value_error ("invalid literal for int() with base 10: '" +:+ s +:+ "'"))
              end
  end.

(** [EnhancerConfig.from_env] *)
Definition from_env : outcome exn EnhancerConfig :=
  let! provider := provider_of (default "openai" (_getenv_stripped "LLM_PROVIDER" None)) in
  let model := default (_default_model_for_provider provider) (_getenv_stripped "LLM_MODEL" None) in
  let api_base_url := _getenv_stripped "LLM_API_BASE_URL" None in
  let api_base_url :=
    match provider, api_base_url with
    | deepseek, None => _getenv_stripped "DEEPSEEK_API_BASE_URL" (_default_api_base_url_for_provider provider)
    | _, _ => api_base_url
    end in
  let vertex_location := default "us-central1" (_getenv_stripped "VERTEX_LOCATION" None) in
  let! max_tokens_per_job := getenv_int "LLM_MAX_TOKENS_PER_JOB" 50000 in
  let! max_concurrent_batches := getenv_int "LLM_MAX_CONCURRENT_BATCHES" 5 in
  Ok (mk_enhancer_config provider model (_getenv_stripped "LLM_API_KEY" None) api_base_url
        (_getenv_stripped "VERTEX_PROJECT_ID" None) vertex_location max_tokens_per_job 0x1.3333333333333p-2 10 max_concurrent_batches
        (_getenv_bool "LLM_SKIP_IF_DESCRIPTION_EXISTS" true)).
End environment.

(** ** Clients *)

Inductive llm_client :=
| AnthropicLLMClient (api_key model : string)
| OpenAILLMClient (api_key model : string) (base_url : option string)
| VertexAILLMClient (model : string) (project : option string) (location : string).

(** [create_llm_client]; an empty base URL counts as none. *)
Definition create_llm_client (c : EnhancerConfig) : outcome exn llm_client :=
  match en_provider c with
  | vertexai => Ok (VertexAILLMClient (en_model c) (en_vertex_project c) (en_vertex_location c))
  | p =>
      if negb (opt_truthy (en_api_key c)) then Raise (value_error "LLM_API_KEY is required for enhancement")
      else
        let api_key := default "" (en_api_key c) in
        match p with
        | anthropic => Ok (AnthropicLLMClient api_key (en_model c))
        | deepseek => Ok (OpenAILLMClient api_key (en_model c)
                            (if opt_truthy (en_api_base_url c) then en_api_base_url c else _default_api_base_url_for_provider p))
        | _ => Ok (OpenAILLMClient api_key (en_model c) (en_api_base_url c))
        end
  end.

Record LLMResponse := mk_llm_response { lr_content : string; lr_input_tokens : Z; lr_output_tokens : Z }.

Record TokenUsage := mk_usage { tu_input_tokens : Z; tu_output_tokens : Z; tu_model : string; tu_total_calls : Z }.
Definition total_tokens (u : TokenUsage) : Z := tu_input_tokens u + tu_output_tokens u.
Definition no_usage (model : string) : TokenUsage := mk_usage 0 0 model 0.

(** [TokenUsage.add] *)
Definition usage_add (u : TokenUsage) (r : LLMResponse) : TokenUsage :=
  mk_usage (tu_input_tokens u + lr_input_tokens r) (tu_output_tokens u + lr_output_tokens r) (tu_model u) (tu_total_calls u + 1).

(** ** Prompts *)

(** [re.sub(r"[\n\r\x00-\x1f]", " ", value)[:max_length]] *)
Definition _sanitize_for_prompt (value : string) (max_length : nat) : string :=
  String.substring 0 max_length (map_str (λ c, if (ord c <=? 31)%N then " "%char else c) value).

(** Text written with back quotes for double quotes *)
Definition requote (s : string) : string := map_str (λ c, if bool_decide (c = "`"%char) then "034"%char else c) s.
Definition text_lines (l : list string) : string := join newline_str (requote <$> l) +:+ newline_str.

(** [ENHANCE_PROMPT_TEMPLATE] before, between and after its fields *)
Definition template_head : string := text_lines [
  "You are an API documentation expert. Given the following API operations, improve their descriptions to be clear, concise, and useful for an AI agent that needs to decide which tool to call.";
  "";
  "Rules:";
  "1. Keep descriptions factual — describe what the operation DOES, not what it IS.";
  "2. For parameters, explain what values are expected and their effect.";
  "3. Return ONLY valid JSON matching the schema below. No markdown, no explanation.";
  "4. Include a `confidence` field (0.0-1.0) for each description indicating your certainty.";
  "5. Do NOT change operation IDs, parameter names, or parameter types.";
  ""].
Definition template_tail : string := text_lines [
  "";
  "Return JSON array:";
  "[";
  "  {";
  "    `operation_id`: `<id>`,";
  "    `description`: `<improved description>`,";
  "    `confidence`: 0.85,";
  "    `params`: [";
  "      {";
  "        `name`: `<param_name>`,";
  "        `description`: `<improved param description>`,";
  "        `confidence`: 0.8";
  "      }";
  "    ]";
  "  }";
  "]"].

Definition format_prompt (service_name protocol base_url operations_json : string) : string :=
  template_head +:+ "Service: " +:+ service_name +:+ " (" +:+ protocol +:+ ")" +:+ newline_str
  +:+ "Base URL: " +:+ base_url +:+ newline_str +:+ newline_str
  +:+ "Operations to enhance:" +:+ newline_str +:+ operations_json +:+ newline_str +:+ template_tail.

(** What the prompt says of an operation *)
Definition prompt_operation (o : Operation) : pyval :=
  VDict [("operation_id", VStr (op_id o)); ("name", VStr (op_name o)); ("description", VStr (op_description o));
         ("method", opt_str (op_method o)); ("path", opt_str (op_path o));
         ("params", VList ((λ p, VDict [("name", VStr (pa_name p)); ("type", VStr (pa_type p)); ("description", VStr (pa_description p))])
                             <$> op_params o))].

(** ** The batches *)

(** [_select_operations] *)
Definition needs_enhancement (o : Operation) : bool :=
  (String.length (op_description o) <? 20)%nat || existsb (λ p, (String.length (pa_description p) <? 10)%nat) (op_params o).
Definition _select_operations (c : EnhancerConfig) (ir : ServiceIR) : list Operation :=
  if en_skip_if_description_exists c then List.filter needs_enhancement (ir_operations ir) else ir_operations ir.

(** [[l[i:i+n] for i in range(0, len(l), n)]]; [fuel] of the list's length is
    enough ([batches_concat]). *)
Fixpoint slices {A} (fuel n : nat) (l : list A) : list (list A) :=
  match fuel, l with
  | S fuel', _ :: _ => take n l :: slices fuel' n (drop n l)
  | _, _ => []
  end.

(** [_batch_operations] *)
Definition _batch_operations (c : EnhancerConfig) (operations : list Operation) : list (list Operation) :=
  slices (length operations) (Z.to_nat (Z.max (en_batch_size c) 1)) operations.

(** ** Reading an answer *)

(** The text after the first occurrence of [sub], and the text before it *)
Fixpoint split_at (fuel : nat) (sub s : string) : option (string * string) :=
  match fuel with
  | O => None
  | S fuel' =>
      if startswith sub s then Some ("", drop_str (String.length sub) s)
      else match s with
           | EmptyString => None
           | String c s' => match split_at fuel' sub s' with Some (a, b) => Some (String c a, b) | None => None end
           end
  end.
Definition split_text (sub s : string) : option (string * string) := split_at (S (String.length s)) sub s.

(** The text from the last line break of the leading white space on; [None]
    without one ([\s*\n], greedy) *)
Fixpoint after_blank_lines (found : option string) (s : string) : option string :=
  match s with
  | String c s' =>
      if bool_decide (c = newline_char) then after_blank_lines (Some s') s'
      else if is_space c then after_blank_lines found s' else found
  | EmptyString => found
  end.

(** [re.search(fence + r"(?:json)?\s*\n([\s\S]*?)" + fence, text)] *)
Fixpoint fenced (fuel : nat) (fence s : string) : option string :=
  match fuel with
  | O => None
  | S fuel' =>
      let here :=
        if startswith fence s then
          let rest := drop_str (String.length fence) s in
          let rest := if startswith "json" rest then drop_str 4 rest else rest in
          match after_blank_lines None rest with
          | Some body => fst <$> split_text fence body
          | None => None
          end
        else None in
      match here, s with
      | Some body, _ => Some body
      | None, String _ s' => fenced fuel' fence s'
      | None, EmptyString => None
      end
  end.
Definition search_fence (fence s : string) : option string := fenced (S (String.length s)) fence s.

(** [text[text.find("["):text.rfind("]") + 1]], if the brackets are in order *)
Fixpoint upto_last (c : ascii) (s : string) : option string :=
  match s with
  | EmptyString => None
  | String a s' =>
      match upto_last c s' with
      | Some t => Some (String a t)
      | None => if bool_decide (a = c) then Some (String a "") else None
      end
  end.
Fixpoint from_first (c : ascii) (s : string) : option string :=
  match s with EmptyString => None | String a s' => if bool_decide (a = c) then Some s else from_first c s' end.
Definition bracketed (s : string) : option string := from_first "["%char s ≫= upto_last "]"%char.

(** The candidates for JSON in a text, best first *)
Definition candidates (text : string) : list string :=
  (if str_contains "```" text || str_contains "~~~" text then
     match (match search_fence "```" text with Some b => Some b | None => search_fence "~~~" text end) with
     | Some body => [strip body]
     | None => []
     end
   else [])
  ++ match bracketed text with Some t => [t] | None => [] end
  ++ [text].

(** Answers by operation id, as a dictionary whose keys are whatever the model gave *)
Definition enhancement_map : Type := list (pyval * dict pyval).
Fixpoint put (k : pyval) (v : dict pyval) (m : enhancement_map) : enhancement_map :=
  match m with
  | [] => [(k, v)]
  | (k', v') :: m' => if py_eq k' k then (k', v) :: m' else (k', v') :: put k v m'
  end.
Fixpoint find_key (k : string) (m : enhancement_map) : option (dict pyval) :=
  match m with
  | [] => None
  | (k', v) :: m' => match k' with VStr s => if str_eqb s k then Some v else find_key k m' | _ => find_key k m' end
  end.
(** [m.update(m')] *)
Definition update_map (m m' : enhancement_map) : enhancement_map := foldl (λ acc kv, put kv.1 kv.2 acc) m m'.

Definition is_container (v : pyval) : bool := match v with VList _ | VDict _ => true | _ => false end.

(** The loop over the entries; an id that cannot be a key is a [TypeError]. *)
Fixpoint read_items (acc : enhancement_map) (data : list pyval) : outcome exn enhancement_map :=
  match data with
  | [] => Ok acc
  | VDict d :: rest =>
      let op_id := get_or_none d "operation_id" in
      if truthy op_id then
        if is_container op_id then Raise (type_error "unhashable type") else read_items (put op_id d acc) rest
      else read_items acc rest
  | _ :: rest => read_items acc rest
  end.

Section parsing.
(** [json.loads] ([None] for a [JSONDecodeError]), [json.dumps(..., indent=2)] and
    [float] of a text *)
Context (json_loads : string → option pyval) (json_indent : pyval → string) (parse_float : string → option float).

(** The loop over the candidates *)
Fixpoint first_parsed (l : list string) : enhancement_map :=
  match l with
  | [] => []
  | candidate :: rest =>
      match json_loads candidate with
      | Some (VList data) =>
          match read_items [] data with
          | Ok [] | Raise _ => first_parsed rest
          | Ok result => result
          end
      | _ => first_parsed rest
      end
  end.

(** [_parse_llm_response] *)
Definition _parse_llm_response (content : string) : enhancement_map := first_parsed (candidates (strip content)).

(** [_build_batch_prompt] *)
Definition _build_batch_prompt (ir : ServiceIR) (batch : list Operation) : string :=
  format_prompt (_sanitize_for_prompt (ir_service_name ir) 200) (_sanitize_for_prompt (ir_protocol ir) 200)
    (_sanitize_for_prompt (ir_base_url ir) 200) (json_indent (VList (prompt_operation <$> batch))).

(** ** Applying answers *)

(** [float(d.get("confidence", 0.7))], 0.7 when it is no number; [float] of a huge
    integer still raises. *)
Definition confidence_of (d : dict pyval) : outcome exn float :=
  match to_float parse_float (get_default d "confidence" (VFloat 0x1.6666666666666p-1)) with
  | Ok f => Ok f
  | Raise e => if one_of (exn_type e) ["ValueError"; "TypeError"] then Ok 0x1.6666666666666p-1%float else Raise e
  end.

(** ["name" in p] followed by [p["name"]] as a key: [None] when it is skipped *)
Definition param_key (p : pyval) : outcome exn (option (pyval * dict pyval)) :=
  match p with
  | VDict d => match dict_get d "name" with
               | None => Ok None
               | Some k => if is_container k then Raise (type_error "unhashable type") else Ok (Some (k, d))
               end
  | VList l => if existsb (λ v, py_eq v (VStr "name")) l then Raise (type_error "list indices must be integers") else Ok None
  | VStr s => if str_contains "name" s then Raise (type_error "string indices must be integers") else Ok None
  | _ => Raise (type_error "argument is not iterable")
  end.

(** [{p["name"]: p for p in enh.get("params", []) if "name" in p}] *)
Fixpoint param_enhancements (acc : enhancement_map) (l : list pyval) : outcome exn enhancement_map :=
  match l with
  | [] => Ok acc
  | p :: rest =>
      let! k := param_key p in
      param_enhancements (match k with Some (k, d) => put k d acc | None => acc end) rest
  end.

Definition param_described (p : Param) (description : string) (confidence : float) : Param :=
  mk_param (pa_name p) (pa_type p) (pa_required p) description (pa_default p) (pa_json_schema p) src_llm confidence.

(** One parameter; [None] when the description is no text, which leaves the types
    of the description *)
Definition enhance_param (answers : enhancement_map) (p : Param) : outcome exn (option Param) :=
  match find_key (pa_name p) answers with
  | None => Ok (Some p)
  | Some pe =>
      let! c := confidence_of pe in
      Ok (match get_default pe "description" (VStr (pa_description p)) with
          | VStr d => Some (param_described p d c)
          | _ => None
          end)
  end.

Definition op_described (o : Operation) (description : string) (params : list Param) (confidence : float) : Operation :=
  mk_operation (op_id o) (op_name o) description (op_method o) (op_path o) params
    (op_response_schema o) (op_error_schema o) (op_response_examples o) (op_risk o) (op_response_strategy o)
    (op_request_body_mode o) (op_body_param_name o) (op_async_job o) (op_graphql o) (op_sql o)
    (op_grpc_unary o) (op_soap o) (op_jsonrpc o) (op_cli o) (op_pagination o) (op_tags o) (op_tool_intent o)
    src_llm confidence (op_sla o) (op_enabled o).

(** All of a list, if none of them left the types *)
Definition all_typed {A} (l : list (option A)) : option (list A) := mapM id l.

(** One operation of [_apply_enhancements] *)
Definition enhance_operation (enhancements : enhancement_map) (o : Operation) : outcome exn (option Operation) :=
  match find_key (op_id o) enhancements with
  | None => Ok (Some o)
  | Some enh =>
      let! c := confidence_of enh in
      let! l := iterate (get_default enh "params" (VList [])) in
      let! answers := param_enhancements [] l in
      let! params := traverse (enhance_param answers) (op_params o) in
      Ok (match get_default enh "description" (VStr (op_description o)), all_typed params with
          | VStr d, Some params => Some (op_described o d params c)
          | _, _ => None
          end)
  end.

(** [_apply_enhancements] *)
Definition _apply_enhancements (ir : ServiceIR) (enhancements : enhancement_map) : outcome exn (option ServiceIR) :=
  let! ops := traverse (enhance_operation enhancements) (ir_operations ir) in
  Ok (ir_with_operations ir <$> all_typed ops).
End parsing.

(** ** Enhancing *)

Record EnhancementResult := mk_enhancement {
  eh_enhanced_ir : option ServiceIR;
  eh_token_usage : TokenUsage;
  eh_operations_enhanced : Z;
  eh_operations_skipped : Z;
}.

Section enhancing.
Context (json_loads : string → option pyval) (json_indent : pyval → string) (parse_float : string → option float).
Context (config : EnhancerConfig) (ir : ServiceIR).

Definition exhausted (u : TokenUsage) : bool := en_max_tokens_per_job config <=? total_tokens u.

(** Nothing to enhance, or nothing came of it *)
Definition not_enhanced (u : TokenUsage) : EnhancementResult := mk_enhancement (Some ir) u 0 (Z.of_nat (length (ir_operations ir))).

(** The end of both ways *)
Definition finish (u : TokenUsage) (enhancements : enhancement_map) : outcome exn EnhancementResult :=
  match enhancements with
  | [] => Ok (not_enhanced u)
  | _ =>
      let! enhanced := _apply_enhancements parse_float ir enhancements in
      let n := Z.of_nat (length enhancements) in
      Ok (mk_enhancement enhanced u n (Z.of_nat (length (ir_operations ir)) - n))
  end.

Section sync.
Context {W : Type} (complete : string → comp W exn LLMResponse).

(** [_enhance_batch], with the usage it leaves *)
Definition _enhance_batch (u : TokenUsage) (batch : list Operation) : comp W exn (TokenUsage * enhancement_map) :=
  if exhausted u then ret (u, [])
  else
    response <- complete (_build_batch_prompt json_indent ir batch) ;;
    ret (usage_add u response, _parse_llm_response json_loads (lr_content response)).

(** [IREnhancer.enhance]: a batch whose call fails counts for nothing. *)
Definition enhance : comp W exn EnhancementResult :=
  match _select_operations config ir with
  | [] => ret (not_enhanced (no_usage (en_model config)))
  | ops_to_enhance =>
      acc <- fold_each (λ acc batch,
          o <- attempt (_enhance_batch acc.1 batch) ;;
          ret (match o with Ok (u, r) => (u, update_map acc.2 r) | Raise _ => acc end))
        (no_usage (en_model config), []) (_batch_operations config ops_to_enhance) ;;
      (λ w, (finish acc.1 acc.2, w))
  end.
End sync.

(** ** Concurrent batches

    [asyncio.gather] starts the batches in order behind a fair semaphore; a batch
    runs without interruption up to the call of the model and from its answer on. *)

Record tasks := mk_tasks {
  tk_next : nat;
  tk_running : list nat;
  tk_results : list (nat * enhancement_map);
  tk_usage : TokenUsage;
}.

Definition concurrency : nat := Z.to_nat (Z.max (en_max_concurrent_batches config) 1).
Definition batches : list (list Operation) := _batch_operations config (_select_operations config ir).

Definition start_tasks : tasks := mk_tasks 0 [] [] (no_usage (en_model config)).

(** What a call of the model came to *)
Definition settle (i : nat) (answer : outcome exn LLMResponse) (t : tasks) : tasks :=
  let running := List.filter (λ j, negb (j =? i)%nat) (tk_running t) in
  match answer with
  | Ok r => mk_tasks (tk_next t) running ((i, _parse_llm_response json_loads (lr_content r)) :: tk_results t) (usage_add (tk_usage t) r)
  | Raise _ => mk_tasks (tk_next t) running ((i, []) :: tk_results t) (tk_usage t)
  end.

(** One step of the event loop.  [may_answer] says what the model may answer. *)
Inductive task_step (may_answer : string → outcome exn LLMResponse → Prop) : tasks → tasks → Prop :=
| step_skip t : (tk_next t < length batches)%nat → (length (tk_running t) < concurrency)%nat → exhausted (tk_usage t) = true →
    task_step may_answer t (mk_tasks (S (tk_next t)) (tk_running t) ((tk_next t, []) :: tk_results t) (tk_usage t))
| step_call t : (tk_next t < length batches)%nat → (length (tk_running t) < concurrency)%nat → exhausted (tk_usage t) = false →
    task_step may_answer t (mk_tasks (S (tk_next t)) (tk_next t :: tk_running t) (tk_results t) (tk_usage t))
| step_answer t i batch answer : i ∈ tk_running t → batches !! i = Some batch → may_answer (_build_batch_prompt json_indent ir batch) answer →
    task_step may_answer t (settle i answer t).

Definition all_done (t : tasks) : Prop := tk_next t = length batches ∧ tk_running t = [].

(** [gather]'s list of results, in the order of the batches *)
Definition result_of (t : tasks) (i : nat) : enhancement_map := default [] (snd <$> List.find (λ r, (r.1 =? i)%nat) (tk_results t)).
Definition gathered (t : tasks) : list enhancement_map := result_of t <$> seq 0 (length batches).

(** [IREnhancer.enhance_async], for the state its batches end in *)
Definition enhance_async (t : tasks) : outcome exn EnhancementResult :=
  match _select_operations config ir with
  | [] => Ok (not_enhanced (no_usage (en_model config)))
  | _ => finish (tk_usage t) (foldl update_map [] (gathered t))
  end.
End enhancing.

(** ** Batches *)

Lemma slices_concat {A} fuel n (l : list A) : (length l ≤ fuel)%nat → (0 < n)%nat → concat (slices fuel n l) = l.
Proof.
  revert l. induction fuel as [|fuel IH]; intros l Hl Hn; [by destruct l; [|simpl in Hl; lia]|]. destruct l as [|x l]; [done|]. cbn [slices concat].
  rewrite IH; [apply take_drop| |done]. rewrite length_drop. simpl in *. lia.
Qed.

Lemma slices_length {A} fuel n (l b : list A) : b ∈ slices fuel n l → (length b ≤ n)%nat.
Proof.
  revert l. induction fuel as [|fuel IH]; intros l; [by intros []%elem_of_nil|]. destruct l as [|x l]; [by intros []%elem_of_nil|].
  cbn [slices]. intros [->|Hb]%elem_of_cons; [rewrite length_take; lia|by eapply IH].
Qed.

(** The batches are the selected operations, in order. *)
Lemma batches_concat c ops : concat (_batch_operations c ops) = ops.
Proof. unfold _batch_operations. apply slices_concat; lia. Qed.

(** ** Structure *)

(** What an enhancement must not touch: all of an operation but its description, the
    parameters (compared one by one) and where the text came from *)
Definition frame (o : Operation) : Operation :=
  mk_operation (op_id o) (op_name o) "" (op_method o) (op_path o) []
    (op_response_schema o) (op_error_schema o) (op_response_examples o) (op_risk o) (op_response_strategy o)
    (op_request_body_mode o) (op_body_param_name o) (op_async_job o) (op_graphql o) (op_sql o)
    (op_grpc_unary o) (op_soap o) (op_jsonrpc o) (op_cli o) (op_pagination o) (op_tags o) (op_tool_intent o)
    src_extractor 0 (op_sla o) (op_enabled o).

Definition param_kept (p p' : Param) : Prop :=
  pa_name p' = pa_name p ∧ pa_type p' = pa_type p ∧ pa_required p' = pa_required p ∧
  pa_default p' = pa_default p ∧ pa_json_schema p' = pa_json_schema p.
Definition operation_kept (o o' : Operation) : Prop :=
  frame o' = frame o ∧ Forall2 param_kept (op_params o) (op_params o').

Lemma param_kept_refl p : param_kept p p.
Proof. done. Qed.
Lemma operation_kept_refl o : operation_kept o o.
Proof. split; [done|]. induction (op_params o); constructor; [apply param_kept_refl|done]. Qed.

Lemma all_typed_some {A} (l : list (option A)) l' : all_typed l = Some l' → l = Some <$> l'.
Proof.
  unfold all_typed. intros H%mapM_Some. induction H as [|x y l l' Hx Hl IH]; [done|]. cbn in Hx. rewrite fmap_cons. by rewrite Hx, IH.
Qed.

Lemma kept_wf o o' : operation_kept o o' → op_id o' = op_id o ∧ (operation_wf o → operation_wf o').
Proof.
  intros [Hf _]. destruct o, o'. injection Hf. intros. subst. split; [done|]. intros [Hu Hc Hm Hr]. by split.
Qed.

Section structure.
Context (parse_float : string → option float).

Lemma enhance_param_kept answers p p' : enhance_param parse_float answers p = Ok (Some p') → param_kept p p'.
Proof.
  unfold enhance_param. destruct (find_key (pa_name p) answers) as [pe|]; [|intros [= <-]; apply param_kept_refl].
  intros (c & _ & H)%obind_ok. destruct (get_default pe "description" _); try done. injection H as <-. done.
Qed.

Lemma enhance_operation_kept enhancements o o' : enhance_operation parse_float enhancements o = Ok (Some o') → operation_kept o o'.
Proof.
  unfold enhance_operation. destruct (find_key (op_id o) enhancements) as [enh|]; [|intros [= <-]; apply operation_kept_refl].
  intros (c & _ & H)%obind_ok. apply obind_ok in H as (l & _ & H). apply obind_ok in H as (answers & _ & H).
  apply obind_ok in H as (params & Hp & H). destruct (get_default enh "description" _) as [| | | |d| |]; try done.
  destruct (all_typed params) as [ps|] eqn:Eps; [|done]. injection H as <-. split; [done|].
  apply all_typed_some in Eps as ->. apply traverse_ok in Hp. apply Forall2_fmap_r in Hp.
  eapply Forall2_impl; [exact Hp|]. intros p p'. apply enhance_param_kept.
Qed.

(** What the applied answers look like: the same operations in the same order *)
Lemma apply_kept ir enhancements ir' : _apply_enhancements parse_float ir enhancements = Ok (Some ir') →
  ∃ ops, ir' = ir_with_operations ir ops ∧ Forall2 operation_kept (ir_operations ir) ops.
Proof.
  unfold _apply_enhancements. intros (l & Hl & H)%obind_ok. destruct (all_typed l) as [ops|] eqn:El; [|done]. injection H as <-.
  exists ops. split; [done|]. apply all_typed_some in El as ->. apply traverse_ok, Forall2_fmap_r in Hl.
  eapply Forall2_impl; [exact Hl|]. intros o o'. apply enhance_operation_kept.
Qed.

Lemma finish_kept ir u enhancements r ir' : service_wf ir → Forall operation_wf (ir_operations ir) →
  finish parse_float ir u enhancements = Ok r → eh_enhanced_ir r = Some ir' →
  service_wf ir' ∧ Forall operation_wf (ir_operations ir') ∧
  ∃ ops, ir' = ir_with_operations ir ops ∧ Forall2 operation_kept (ir_operations ir) ops.
Proof.
  intros Hwf Hops H Hir.
  assert (∃ ops, ir' = ir_with_operations ir ops ∧ Forall2 operation_kept (ir_operations ir) ops) as (ops & -> & Hk).
  { unfold finish in H. destruct enhancements as [|e es].
    - injection H as <-. injection Hir as <-. exists (ir_operations ir). split; [by destruct ir|].
      apply Forall_Forall2_diag, Forall_true. intros o. apply operation_kept_refl.
    - apply obind_ok in H as (x & Hx & [= <-]). cbn [eh_enhanced_ir] in Hir. subst x. by apply apply_kept in Hx. }
  assert (op_id <$> ops = op_ids ir ∧ Forall operation_wf ops) as [Hids Hwfs].
  { clear -Hk Hops. unfold op_ids. induction Hk as [|o o' l l' Ho _ IH]; [done|]. apply Forall_cons in Hops as [Hw Hops].
    apply kept_wf in Ho as [Hid Hx]. destruct (IH Hops) as [E F]. split; [rewrite !fmap_cons; congruence|]. constructor; auto. }
  split_and!; [|done|by exists ops]. apply service_wf_operations; [apply Hwf|exact Hids|done].
Qed.
End structure.

(** ** Concurrency *)

Section schedule.
Context (json_loads : string → option pyval) (json_indent : pyval → string) (parse_float : string → option float).
Context (config : EnhancerConfig) (ir : ServiceIR).
Context (may_answer : string → outcome exn LLMResponse → Prop).
Abbreviation step := (task_step json_loads json_indent config ir may_answer).
Abbreviation total := (batches config ir).

(** What every reachable state satisfies *)
Record tasks_ok (t : tasks) : Prop := {
  ok_next : (tk_next t ≤ length total)%nat;
  ok_parallel : (length (tk_running t) ≤ concurrency config)%nat;
  ok_split : tk_running t ++ (tk_results t).*1 ≡ₚ seq 0 (tk_next t);
}.

Lemma remove_index (i : nat) (l : list nat) : NoDup l → i ∈ l → i :: List.filter (λ j, negb (j =? i)%nat) l ≡ₚ l.
Proof.
  induction 1 as [|j l Hj Hnd IH]; [by intros []%elem_of_nil|]. intros [->|Hi]%elem_of_cons; simpl.
  - rewrite Nat.eqb_refl. simpl. f_equiv. rewrite filter_true; [done|]. apply Forall_forall. intros k Hk.
    apply negb_true_iff, Nat.eqb_neq. by intros ->.
  - assert ((j =? i)%nat = false) as -> by (apply Nat.eqb_neq; by intros ->). simpl. rewrite <-(IH Hi) at 2. by rewrite Permutation_swap.
Qed.

Lemma ok_nodup t : tasks_ok t → NoDup (tk_running t ++ (tk_results t).*1).
Proof. intros H. rewrite (ok_split _ H). apply NoDup_seq. Qed.

Lemma settle_split i answer t : tasks_ok t → i ∈ tk_running t →
  tk_running (settle json_loads i answer t) ++ (tk_results (settle json_loads i answer t)).*1 ≡ₚ tk_running t ++ (tk_results t).*1 ∧
  S (length (tk_running (settle json_loads i answer t))) = length (tk_running t) ∧ tk_next (settle json_loads i answer t) = tk_next t.
Proof.
  intros Hok Hi. pose proof (ok_nodup t Hok) as Hnd. apply NoDup_app in Hnd as (Hnd & _ & _). pose proof (remove_index i _ Hnd Hi) as Hr.
  assert (∀ r, List.filter (λ j, negb (j =? i)%nat) (tk_running t) ++ ((i, r) :: tk_results t).*1 ≡ₚ tk_running t ++ (tk_results t).*1) as Hp.
  { intros r. rewrite fmap_cons. rewrite <-Hr at 2. cbn [fst app]. by rewrite <-Permutation_middle. }
  assert (S (length (List.filter (λ j, negb (j =? i)%nat) (tk_running t))) = length (tk_running t)) as Hlen
    by by rewrite <-(Permutation_length Hr).
  unfold settle. destruct answer; cbn [tk_running tk_results tk_next]; by split_and!.
Qed.

Lemma step_ok t t' : tasks_ok t → step t t' → tasks_ok t'.
Proof.
  intros Hok Hs. destruct Hs as [t Hn Hp He|t Hn Hp He|t i b a Hi Hb Ha].
  - split; cbn [tk_next tk_running tk_results]; [lia|apply Hok|]. rewrite fmap_cons. cbn [fst].
    rewrite <-Permutation_middle, (ok_split _ Hok), seq_S, Permutation_cons_append. done.
  - split; cbn [tk_next tk_running tk_results length]; [lia|lia|]. cbn [app].
    rewrite (ok_split _ Hok), seq_S, Permutation_cons_append. done.
  - destruct (settle_split i a t Hok Hi) as (Hsp & Hl & Hnx). split; [rewrite Hnx; apply Hok| |by rewrite Hsp, Hnx, (ok_split _ Hok)].
    pose proof (ok_parallel _ Hok). lia.
Qed.

Lemma start_ok : tasks_ok (start_tasks config).
Proof. split; cbn; [lia|lia|done]. Qed.

Lemma reachable_ok t : rtc step (start_tasks config) t → tasks_ok t.
Proof.
  intros H. remember (start_tasks config) as s eqn:Es. assert (tasks_ok s) as Hs by (rewrite Es; apply start_ok). clear Es.
  induction H as [|s s' t Hstep _ IH]; [done|]. apply IH. by eapply step_ok.
Qed.

(** Steps left *)
Definition steps_left (t : tasks) : nat := 2 * (length total - tk_next t) + length (tk_running t).

Lemma step_decreases t t' : tasks_ok t → step t t' → (steps_left t' < steps_left t)%nat.
Proof.
  intros Hok Hs. unfold steps_left. destruct Hs as [t Hn Hp He|t Hn Hp He|t i b a Hi Hb Ha]; cbn [tk_next tk_running length]; [lia|lia|].
  destruct (settle_split i a t Hok Hi) as (_ & Hl & ->). lia.
Qed.

Lemma step_possible t : (∀ p, ∃ a, may_answer p a) → tasks_ok t → ¬ all_done config ir t → ∃ t', step t t'.
Proof.
  intros Hans Hok Hnd. destruct (tk_running t) as [|i running] eqn:Er.
  - assert (tk_next t < length total)%nat as Hn.
    { destruct (decide (tk_next t = length total)) as [E|]; [by destruct Hnd|]. pose proof (ok_next _ Hok). lia. }
    assert (length (tk_running t) < concurrency config)%nat as Hp by (rewrite Er; unfold concurrency; simpl; lia).
    destruct (exhausted config (tk_usage t)) eqn:Ee; eexists; [by apply step_skip|by apply step_call].
  - assert (i ∈ tk_running t) as Hi by (rewrite Er; left).
    assert (i < tk_next t)%nat as Hlt.
    { assert (i ∈ seq 0 (tk_next t)) as Hin by (rewrite <-(ok_split _ Hok); apply elem_of_app; by left). apply elem_of_seq in Hin. lia. }
    destruct (lookup_lt_is_Some_2 total i) as [b Hb]; [pose proof (ok_next _ Hok); lia|].
    destruct (Hans (_build_batch_prompt json_indent ir b)) as [a Ha]. eexists. by eapply step_answer.
Qed.

(** The concurrent batches come to an end and each of them is accounted for.
    From the start, in whatever order the model answers, no more batches wait for it
    than configured; every step uses up one of finitely many; until all batches are
    done another step is possible; and when they are, each has exactly one result. *)
Theorem batches_settle t : (∀ p, ∃ a, may_answer p a) → rtc step (start_tasks config) t →
  (length (tk_running t) ≤ concurrency config)%nat ∧
  (∀ t', step t t' → (steps_left t' < steps_left t)%nat) ∧
  (¬ all_done config ir t → ∃ t', step t t') ∧
  (all_done config ir t → (tk_results t).*1 ≡ₚ seq 0 (length total)).
Proof.
  intros Hans Ht%reachable_ok. split_and!; [apply Ht|intros t'; by apply step_decreases|by apply step_possible|].
  intros [Hn Hr]. pose proof (ok_split _ Ht) as H. by rewrite Hn, Hr in H.
Qed.

(** The token budget is kept up to the calls under way.  If no answer costs more
    than [k] tokens, then whatever the schedule, the job never uses more than its
    budget plus [k] for each call that may run at the same time. *)
Theorem token_budget_bounds (k : Z) t :
  (∀ p r, may_answer p (Ok r) → 0 ≤ lr_input_tokens r + lr_output_tokens r ≤ k) → 0 ≤ k →
  rtc step (start_tasks config) t →
  total_tokens (tk_usage t) ≤ Z.max 0 (en_max_tokens_per_job config - 1) + k * Z.of_nat (concurrency config).
Proof.
  intros Hk Hk0 Hreach.
  set (B := Z.max 0 (en_max_tokens_per_job config - 1) + k * Z.of_nat (concurrency config)).
  assert (∀ t, tasks_ok t → total_tokens (tk_usage t) + k * Z.of_nat (length (tk_running t)) ≤ B →
    ∀ t', step t t' → total_tokens (tk_usage t') + k * Z.of_nat (length (tk_running t')) ≤ B) as Hstep.
  { clear t Hreach. intros t Hok Hle t' Hs. destruct Hs as [t Hn Hp He|t Hn Hp He|t i b a Hi Hb Ha].
    - exact Hle.
    - unfold exhausted in He. apply Z.leb_gt in He. cbn [tk_usage tk_running length]. unfold B.
      assert (k * Z.of_nat (S (length (tk_running t))) ≤ k * Z.of_nat (concurrency config)) by (apply Z.mul_le_mono_nonneg_l; lia). lia.
    - destruct (settle_split i a t Hok Hi) as (_ & Hl & _).
      assert (total_tokens (tk_usage (settle json_loads i a t)) ≤ total_tokens (tk_usage t) + k) as Hu.
      { unfold settle. destruct a as [r|e]; cbn [tk_usage]; [|lia]. specialize (Hk _ _ Ha). unfold total_tokens, usage_add. simpl. lia. }
      assert (Z.of_nat (length (tk_running t)) = Z.of_nat (length (tk_running (settle json_loads i a t))) + 1) as E by lia.
      rewrite E, Z.mul_add_distr_l in Hle. lia. }
  assert (total_tokens (tk_usage t) + k * Z.of_nat (length (tk_running t)) ≤ B) as Hall.
  2: { assert (0 ≤ k * Z.of_nat (length (tk_running t))) by (apply Z.mul_nonneg_nonneg; lia). lia. }
  remember (start_tasks config) as s eqn:Es.
  assert (tasks_ok s ∧ total_tokens (tk_usage s) + k * Z.of_nat (length (tk_running s)) ≤ B) as [Hok Hle].
  { rewrite Es. split; [apply start_ok|]. change (total_tokens (tk_usage (start_tasks config))) with 0. change (length (tk_running (start_tasks config))) with 0%nat. unfold B.
    assert (0 ≤ k * Z.of_nat (concurrency config)) by (apply Z.mul_nonneg_nonneg; lia). lia. }
  clear Es. induction Hreach as [|s s' t Hs _ IH]; [done|]. apply IH; [by eapply step_ok|by eapply Hstep].
Qed.

(** C35. Enhancing never touches the structure of a description.  Whatever the model
    answers and in whatever order, if the result is a description at all, it has the
    same operations in the same order with the same identities, contracts, paths,
    risks and parameters: only descriptions, sources and confidences differ.  A valid
    description keeps its integrity. *)
Theorem enhancement_keeps_structure t r ir' :
  service_wf ir → Forall operation_wf (ir_operations ir) →
  enhance_async parse_float config ir t = Ok r → eh_enhanced_ir r = Some ir' →
  service_wf ir' ∧ Forall operation_wf (ir_operations ir') ∧
  ∃ ops, ir' = ir_with_operations ir ops ∧ Forall2 operation_kept (ir_operations ir) ops.
Proof.
  intros Hwf Hops H Hir. unfold enhance_async in H. destruct (_select_operations config ir) eqn:E; [|by eapply finish_kept].
  apply (finish_kept parse_float ir (no_usage (en_model config)) [] r ir' Hwf Hops); [exact H|exact Hir].
Qed.
End schedule.

(** ** A job *)

Definition demo_config : EnhancerConfig := mk_enhancer_config openai "gpt-4o-mini" (Some "key") None None "us-central1" 10 0x1.3333333333333p-2 1 2 true.
Definition demo_answer (v : pyval) : string → option pyval := λ s, if str_eqb s "[answer]" then Some v else None.
Definition demo_response : LLMResponse := mk_llm_response "Here it is: [answer]." 4 4.
Definition answers_so (p : string) (a : outcome exn LLMResponse) : Prop := a = Ok demo_response.
Definition described (op d : string) (confidence : pyval) : pyval :=
  VList [VDict [("operation_id", VStr op); ("description", VStr d); ("confidence", confidence); ("params", VList [])]].
Definition demo_loads : string → option pyval := demo_answer (described "list" "Lists the pets." (VFloat 0.75)).
Abbreviation demo_step := (task_step demo_loads (λ _, "[]") demo_config demo_ir_validated answers_so).

(** Both batches are called before the first answer arrives. *)
Definition demo_end : tasks :=
  settle demo_loads 1 (Ok demo_response) (settle demo_loads 0 (Ok demo_response) (mk_tasks 2 [1%nat; 0%nat] [] (no_usage "gpt-4o-mini"))).

Lemma demo_run : rtc demo_step (start_tasks demo_config) demo_end.
Proof.
  eapply rtc_l; [apply step_call; vm_compute; (lia || done)|]. eapply rtc_l; [apply step_call; vm_compute; (lia || done)|].
  eapply rtc_l; [eapply (step_answer _ _ _ _ _ _ 0%nat); [vm_compute; right; left|vm_compute; reflexivity|vm_compute; reflexivity]|].
  eapply rtc_l; [eapply (step_answer _ _ _ _ _ _ 1%nat); [vm_compute; left|vm_compute; reflexivity|vm_compute; reflexivity]|].
  apply rtc_refl.
Qed.

Lemma batches_settle_witness :
  all_done demo_config demo_ir_validated demo_end ∧ (tk_results demo_end).*1 ≡ₚ seq 0 2.
Proof.
  assert (∀ p, ∃ a, answers_so p a) as Hans by (intros p; by eexists).
  destruct (batches_settle demo_loads (λ _, "[]") demo_config demo_ir_validated answers_so demo_end Hans demo_run) as (_ & _ & _ & H).
  assert (all_done demo_config demo_ir_validated demo_end) as Hd by (split; vm_compute; reflexivity).
  split; [exact Hd|]. exact (H Hd).
Defined.

Lemma token_budget_bounds_witness : total_tokens (tk_usage demo_end) = 16 ∧ total_tokens (tk_usage demo_end) ≤ 9 + 8 * 2.
Proof.
  split; [vm_compute; reflexivity|].
  apply (token_budget_bounds demo_loads (λ _, "[]") demo_config demo_ir_validated answers_so 8 demo_end); [|lia|exact demo_run].
  intros p r Hr. injection Hr as ->. simpl. lia.
Defined.

Definition demo_enhanced : outcome exn EnhancementResult := enhance_async (λ _, None) demo_config demo_ir_validated demo_end.

Lemma enhancement_keeps_structure_witness :
  ∃ r ir', demo_enhanced = Ok r ∧ eh_enhanced_ir r = Some ir' ∧ service_wf ir' ∧
    op_description <$> ir_operations ir' = ["Lists the pets."; ""].
Proof.
  destruct demo_enhanced as [r|] eqn:E; [|vm_compute in E; discriminate E].
  assert (∃ ir', eh_enhanced_ir r = Some ir' ∧ op_description <$> ir_operations ir' = ["Lists the pets."; ""]) as (ir' & Hir & Hd)
    by (vm_compute in E; injection E as <-; eexists; split; reflexivity).
  exists r, ir'. split; [reflexivity|]. split; [exact Hir|]. split; [|exact Hd]. destruct demo_ir_valid as [Hwf Hops].
  exact (proj1 (enhancement_keeps_structure (λ _, None) demo_config demo_ir_validated demo_end r ir' Hwf Hops E Hir)).
Defined.

(** A confidence outside of its range is copied as it is; the next stage then refuses
    the whole description. *)
Example confidence_breaks_description :
  match _parse_llm_response (demo_answer (described "list" "Lists the pets." (VInt 5))) "[answer]" with
  | [] => False
  | answers =>
      match _apply_enhancements (λ _, None) demo_ir_validated answers with
      | Ok (Some ir') => validate_ServiceIR ir' = Raise (field_error "Operation")
      | _ => False
      end
  end.
Proof. vm_compute. reflexivity. Qed.

(** Answers are applied outside of any handler: parameters given as null raise. *)
Example null_parameters_escape :
  _apply_enhancements (λ _, None) demo_ir_validated [(VStr "list", [("operation_id", VStr "list"); ("params", VNone)])]
  = Raise (type_error "not iterable").
Proof. vm_compute. reflexivity. Qed.

(** Answers for operations the service does not have are counted as enhancements. *)
Example unknown_operations_are_counted :
  match finish (λ _, None) demo_ir_validated (no_usage "") [(VStr "a", []); (VStr "b", []); (VStr "c", [])] with
  | Ok r => eh_operations_enhanced r = 3 ∧ eh_operations_skipped r = -1
  | Raise _ => False
  end.
Proof. vm_compute. split; reflexivity. Qed.

(** Fenced answers, with and without the language tag, and bare lists are found. *)
Example fenced_answers :
  let fence := "```" in
  let nl := newline_str in
  candidates ("Sure!" +:+ nl +:+ fence +:+ "json" +:+ nl +:+ "[1]" +:+ nl +:+ fence) =
    ["[1]"; "[1]"; "Sure!" +:+ nl +:+ fence +:+ "json" +:+ nl +:+ "[1]" +:+ nl +:+ fence] ∧
  candidates "the list [1, [2]] is" = ["[1, [2]]"; "the list [1, [2]] is"].
Proof. vm_compute. split; reflexivity. Qed.
