(* ===== verification/Sources.v ===== *)
(** * Sources and the choice of an extractor ([libs/extractors/base.py],
      [libs/extractors/utils.py], [libs/extractors/llm_seed_mutation.py])

    Where a specification comes from, how its text is fetched, which extractor
    takes it, and the paths a language model suggests for REST discovery.
    Extractors, the HTTP client, the file system and the model are parameters. *)

From S2P Require Export Enhancer RuntimeProtocols.
From Stdlib Require Import Ascii.

(** ** Sources *)

Record SourceConfig := mk_source {
  sc_url : option string;
  sc_file_path : option string;
  sc_file_content : option string;
  sc_auth_header : option string;
  sc_auth_token : option string;
  sc_hints : dict string;
}.

(** [SourceConfig.__post_init__] *)
Definition check_source (s : SourceConfig) : outcome exn SourceConfig :=
  if negb (opt_truthy (sc_url s)) && negb (opt_truthy (sc_file_path s)) && negb (opt_truthy (sc_file_content s))
  then Raise (value_error "SourceConfig requires at least one of: url, file_path, file_content")
  else Ok s.

Definition get_auth_headers (s : SourceConfig) : dict string :=
  match opt_truthy (sc_auth_header s), opt_truthy (sc_auth_token s) with
  | true, true => [(default "" (sc_auth_header s), default "" (sc_auth_token s))]
  | true, false => [("Authorization", default "" (sc_auth_header s))]
  | false, true => [("Authorization", "Bearer " +:+ default "" (sc_auth_token s))]
  | false, false => []
  end.

(** [url.split("://", 1)[0].lower() if "://" in url else ""] *)
Definition url_scheme (url : string) : string :=
  match split_text "://" url with Some (s, _) => lower s | None => "" end.

(** [httpx.HTTPError] and [OSError] with their subclasses *)
Definition fetch_failures : list string :=
  request_errors ++ ["HTTPError"; "HTTPStatusError"; "OSError"; "ConnectionError"; "TimeoutError"; "FileNotFoundError"; "PermissionError"].

Section fetching.
Context {W : Type}.
(** [Path(p).read_text] and [httpx.get(url, headers=...)] *)
Context (read_text : string → comp W exn string) (httpx_get : string → dict string → comp W exn response).

Definition raise_for_status (r : response) : comp W exn unit :=
  if (200 <=? rsp_status r) && (rsp_status r <=? 299) then ret tt
  else raise (mk_exn "HTTPStatusError" ("HTTP status " +:+ str_of_Z (rsp_status r)) []).

Definition get_content (s : SourceConfig) : comp W exn (option string) :=
  if opt_truthy (sc_file_content s) then ret (sc_file_content s)
  else if opt_truthy (sc_file_path s) then t <- read_text (default "" (sc_file_path s)) ;; ret (Some t)
  else if opt_truthy (sc_url s) then
    let url := default "" (sc_url s) in
    if one_of (url_scheme url) ["grpc"; "grpcs"] then ret None
    else catch (r <- httpx_get url (get_auth_headers s) ;; raise_for_status r ;;; ret (Some (rsp_text r)))
           (λ e, if one_of (exn_type e) fetch_failures then ret None else raise e)
  else ret None.
End fetching.

(** [compute_content_hash]: the digest of the text's bytes *)
Definition compute_content_hash (sha256_hex : string → string) (content : string) : string := sha256_hex content.

(** ** Detection *)

Record ExtractorProtocol (W : Type) := mk_extractor {
  ex_protocol_name : string;
  ex_detect : SourceConfig → comp W exn float;
  ex_extract : SourceConfig → comp W exn ServiceIR;
  ex_close : option (comp W exn unit);
}.
Arguments mk_extractor {W} _ _ _ _.
Arguments ex_protocol_name {W} _.
Arguments ex_detect {W} _ _ _.
Arguments ex_extract {W} _ _ _.
Arguments ex_close {W} _.

Record DetectionResult (W : Type) := mk_detection {
  dr_extractor : ExtractorProtocol W;
  dr_confidence : float;
  dr_protocol_name : string;
}.
Arguments mk_detection {W} _ _ _.
Arguments dr_extractor {W} _.
Arguments dr_confidence {W} _.
Arguments dr_protocol_name {W} _.

(** [results.sort(key=lambda r: r.confidence, reverse=True)]: equal ones keep their order *)
Definition by_confidence {A} (confidence : A → float) : list A → list A :=
  sorted_by (λ a b, PrimFloat.leb (confidence b) (confidence a)).

Section detection.
Context {W : Type} (repr : pyval → string).
Abbreviation M := (comp W exn).

(** What one extractor's answer adds to the candidates in [detect] *)
Definition candidate (ea : ExtractorProtocol W * outcome exn float) : option (DetectionResult W) :=
  match ea.2 with
  | Ok c => let c := clamp_unit c in if PrimFloat.ltb 0 c then Some (mk_detection ea.1 c (ex_protocol_name ea.1)) else None
  | Raise _ => None
  end.

(** Each extractor is asked in turn; one that fails is passed over. *)
Fixpoint probe_each (keep : ExtractorProtocol W * outcome exn float → option (DetectionResult W)) (source : SourceConfig)
    (l : list (ExtractorProtocol W)) : M (list (DetectionResult W)) :=
  match l with
  | [] => ret []
  | e :: l' =>
      a <- attempt (ex_detect e source) ;;
      rest <- probe_each keep source l' ;;
      ret (match keep (e, a) with Some d => d :: rest | None => rest end)
  end.

(** [TypeDetector.detect] *)
Definition detect (extractors : list (ExtractorProtocol W)) (source : SourceConfig) : M (DetectionResult W) :=
  match extractors with
  | [] => raise (value_error "No extractors registered")
  | _ =>
      results <- probe_each candidate source extractors ;;
      match by_confidence dr_confidence results with
      | best :: _ => ret best
      | [] => raise (value_error ("No extractor could handle the source (tried: " +:+ repr (VList (VStr ∘ ex_protocol_name <$> extractors)) +:+ ")"))
      end
  end.

(** What an answer adds in [detect_all], which compares before it clamps *)
Definition candidate_of_all (ea : ExtractorProtocol W * outcome exn float) : option (DetectionResult W) :=
  match ea.2 with
  | Ok c => if PrimFloat.ltb 0 c then Some (mk_detection ea.1 (clamp_unit c) (ex_protocol_name ea.1)) else None
  | Raise _ => None
  end.

(** [TypeDetector.detect_all] *)
Definition detect_all (extractors : list (ExtractorProtocol W)) (source : SourceConfig) : M (list (DetectionResult W)) :=
  results <- probe_each candidate_of_all source extractors ;; ret (by_confidence dr_confidence results).
End detection.

(** ** Seeds *)

Record SeedCandidate := mk_seed { seed_path : string; seed_methods : list string; seed_rationale : pyval; seed_confidence : float }.

Definition seed_head : string := text_lines [
  "You are an API endpoint discovery expert. Given the following discovered REST API endpoints, generate additional endpoint paths that likely exist based on common REST API patterns and naming conventions.";
  "";
  "Rules:";
  "1. Analyze the naming patterns, resource hierarchy, and HTTP methods of discovered endpoints.";
  "2. Generate plausible NEW endpoints that follow the same conventions.";
  "3. Consider: CRUD completions, sub-resources, search/filter endpoints, bulk operations,    status endpoints, and admin/config paths.";
  "4. Do NOT repeat endpoints that are already discovered.";
  "5. Return ONLY valid JSON. No markdown, no explanation.";
  "6. Each candidate should have a confidence score (0.0-1.0) based on how likely it exists.";
  ""].
Definition seed_tail : string := text_lines [
  "";
  "Return JSON array:";
  "[";
  "  {";
  "    `path`: `/api/example/new-path`,";
  "    `methods`: [`GET`, `POST`],";
  "    `rationale`: `Brief explanation of why this endpoint likely exists`,";
  "    `confidence`: 0.75";
  "  }";
  "]"].
(** [SEED_MUTATION_PROMPT.format(...)] *)
Definition seed_prompt (base_url discovered_json : string) : string :=
  seed_head +:+ "Base URL: " +:+ base_url +:+ newline_str +:+ newline_str +:+ "Discovered endpoints:" +:+ newline_str
  +:+ discovered_json +:+ newline_str +:+ seed_tail.

Section seeds.
Context (json_indent : pyval → string) (json_loads : string → option pyval) (parse_float : string → option float).

(** One element of the answer; [None] when it is skipped *)
Definition seed_of (item : pyval) : outcome exn (option SeedCandidate) :=
  match item with
  | VDict d =>
      match get_default d "path" (VStr "") with
      | VStr path =>
          if str_truthy path then
            let! l := iterate (get_default d "methods" (VList [VStr "GET"])) in
            let methods := upper <$> omap as_str l in
            let! c := to_float parse_float (get_default d "confidence" (VFloat 0x1p-1)) in
            Ok (Some (mk_seed path (match methods with [] => ["GET"] | _ => methods end)
                        (get_default d "rationale" (VStr "")) c))
          else Ok None
      | _ => Ok None
      end
  | _ => Raise (attribute_error "get")
  end.

Definition seed_failures : list string := ["JSONDecodeError"; "KeyError"; "TypeError"; "ValueError"].

Definition _parse_seed_response (content : string) : outcome exn (list SeedCandidate) :=
  match json_loads (unfence content) with
  | Some (VList data) =>
      match traverse seed_of data with
      | Ok l => Ok (omap id l)
      | Raise e => if one_of (exn_type e) seed_failures then Ok [] else Raise e
      end
  | _ => Ok []
  end.

(** [generate_seed_candidates]; the order of candidates is that of confidences
    that are numbers. *)
Definition generate_seed_candidates {W} (complete : string → comp W exn string) (base_url : string)
    (discovered : list (string * list string)) (max_candidates : nat) : comp W exn (list SeedCandidate) :=
  match discovered with
  | [] => ret []
  | _ =>
      let shown := (λ p, VDict [("path", VStr p.1); ("methods", VList (VStr <$> p.2))]) <$> discovered in
      answer <- attempt (complete (seed_prompt base_url (json_indent (VList shown)))) ;;
      match answer with
      | Raise _ => ret []
      | Ok content =>
          match _parse_seed_response content with
          | Raise e => raise e
          | Ok l =>
              let fresh := List.filter (λ c, negb (one_of (seed_path c) discovered.*1)) l in
              ret (take max_candidates (by_confidence seed_confidence fresh))
          end
      end
  end.
End seeds.

(** ** The best answer *)

Section best.
Context {W : Type} (repr : pyval → string) (source : SourceConfig).

(** Each extractor is asked once, in order, in the state the ones before it left. *)
Inductive asked : list (ExtractorProtocol W) → list (outcome exn float) → W → W → Prop :=
| asked_nil w : asked [] [] w w
| asked_cons e l a answers w w1 w2 :
    ex_detect e source w = (a, w1) → asked l answers w1 w2 → asked (e :: l) (a :: answers) w w2.

Lemma probe_each_asks keep l w : ∃ answers w', asked l answers w w' ∧ probe_each keep source l w = (Ok (omap keep (zip l answers)), w').
Proof.
  induction l as [|e l IH] in w |- *; [by exists [], w; split; [constructor|]|].
  destruct (ex_detect e source w) as [a w1] eqn:E. destruct (IH w1) as (answers & w' & Ha & Hp).
  exists (a :: answers), w'. split; [by econstructor|]. cbn [probe_each]. unfold bind, attempt. rewrite E, Hp. done.
Qed.

Lemma asked_length l answers w w' : asked l answers w w' → length l = length answers.
Proof. induction 1; cbn; congruence. Qed.

(** The confidence an answer counts with *)
Definition counts_as (a : outcome exn float) (c : float) : Prop := ∃ c0, a = Ok c0 ∧ c = clamp_unit c0 ∧ PrimFloat.ltb 0 c = true.

Lemma candidate_spec (ea : ExtractorProtocol W * outcome exn float) d :
  candidate ea = Some d ↔ counts_as ea.2 (dr_confidence d) ∧ d = mk_detection ea.1 (dr_confidence d) (ex_protocol_name ea.1).
Proof.
  unfold counts_as, candidate. destruct ea as [e [c|x]]; cbn; [|split; [done|by intros [(c0 & ? & _) _]]].
  destruct (PrimFloat.ltb 0 (clamp_unit c)) eqn:E.
  - split; [intros [= <-]; cbn; by eauto|]. by intros [(c0 & [= <-] & Hc & _) ->]; cbn in *; rewrite Hc.
  - split; [done|]. intros [(c0 & [= <-] & Hc & Hpos) _]. by rewrite Hc, E in Hpos.
Qed.

Lemma candidate_number (ea : ExtractorProtocol W * outcome exn float) d : candidate ea = Some d → is_number (dr_confidence d).
Proof. intros [(c & _ & _ & H) _]%candidate_spec. apply (float_ltb_number _ _ H). Qed.

Lemma omap_split {A B} (f : A → option B) l pre d post : omap f l = pre ++ d :: post →
  ∃ l1 x l2, l = l1 ++ x :: l2 ∧ f x = Some d ∧ omap f l1 = pre ∧ omap f l2 = post.
Proof.
  induction l as [|x l IH] in pre |- *; [by destruct pre|]. cbn. destruct (f x) as [b|] eqn:E.
  - destruct pre as [|p pre]; cbn; intros [= -> H].
    + exists [], x, l. done.
    + destruct (IH pre H) as (l1 & y & l2 & -> & Hy & <- & <-). exists (x :: l1), y, l2. cbn. by rewrite E.
  - intros H. destruct (IH pre H) as (l1 & y & l2 & -> & Hy & <- & <-). exists (x :: l1), y, l2. cbn. by rewrite E.
Qed.

(** What is detected is one of the extractors, under its own name. *)
Lemma detected_among (extractors : list (ExtractorProtocol W)) w d w' : detect repr extractors source w = (Ok d, w') →
  dr_extractor d ∈ extractors ∧ dr_protocol_name d = ex_protocol_name (dr_extractor d).
Proof.
  unfold detect. destruct extractors as [|e0 l0]; [done|]. intros H. mbind H results w1 Hr.
  destruct (probe_each_asks candidate (e0 :: l0) w) as (answers & w2 & _ & Hp).
  remember (omap candidate (zip (e0 :: l0) answers)) as rs eqn:Ers. rewrite Hp in Hr. injection Hr as <- _.
  destruct (by_confidence dr_confidence _) as [|b bs] eqn:Es; [done|]. injection H as <- _.
  assert (b ∈ rs) as Hb.
  { unfold by_confidence in Es. rewrite <-(sorted_by_perm (λ a b : DetectionResult W, PrimFloat.leb (dr_confidence b) (dr_confidence a))). rewrite Es. left. }
  subst rs. apply list_elem_of_omap in Hb as ([e a] & Hin & [_ ->]%candidate_spec). cbn. split; [|done].
  apply list_elem_of_lookup in Hin as [i (e' & a' & [= <- <-] & He & _)%lookup_zip_with_Some]. by eapply list_elem_of_lookup_2.
Qed.

(** Whatever the extractors answer, the one the detector picks is the first of the
    most confident: those asked before it are strictly less sure (answers clamped
    to the unit interval, failures and zeros passed over), those after it no surer.
    The source is refused only when no extractor is sure of anything. *)
Theorem detect_picks_best extractors w :
  ∃ answers w', asked extractors answers w w' ∧
    match detect repr extractors source w with
    | (Ok d, w1) => w1 = w' ∧ ∃ before a after,
        zip extractors answers = before ++ (dr_extractor d, a) :: after ∧
        dr_protocol_name d = ex_protocol_name (dr_extractor d) ∧ counts_as a (dr_confidence d) ∧
        (∀ e' a' c', (e', a') ∈ before → counts_as a' c' → PrimFloat.ltb c' (dr_confidence d) = true) ∧
        (∀ e' a' c', (e', a') ∈ after → counts_as a' c' → PrimFloat.leb c' (dr_confidence d) = true)
    | (Raise e, w1) => w1 = w' ∧ exn_type e = "ValueError" ∧ ∀ a c, a ∈ answers → ¬ counts_as a c
    end.
Proof.
  destruct (probe_each_asks candidate extractors w) as (answers & w' & Hasked & Hp). exists answers, w'. split; [exact Hasked|].
  destruct extractors as [|e0 l0]; [inversion Hasked; subst; split_and!; [done..|by intros ? ? []%elem_of_nil]|].
  unfold detect, bind. rewrite Hp. set (zs := zip (e0 :: l0) answers).
  assert (Forall (λ d : DetectionResult W, is_number (dr_confidence d)) (omap candidate zs)) as Hnum.
  { apply Forall_forall. intros d (ea & _ & Hea)%list_elem_of_omap. by apply candidate_number in Hea. }
  destruct (by_confidence dr_confidence (omap candidate zs)) as [|d ds] eqn:Es.
  - split_and!; [done..|]. intros a c Ha Hc. assert (omap candidate zs = []) as Hnil.
    { apply Permutation_nil_r. rewrite <-Es. symmetry. apply sorted_by_perm. }
    assert (∃ e, (e, a) ∈ zs) as [e Hin].
    { apply list_elem_of_lookup in Ha as [i Hi]. apply asked_length in Hasked.
      destruct (lookup_lt_is_Some_2 (e0 :: l0) i) as [e He]; [rewrite Hasked; by eapply lookup_lt_Some|].
      exists e. apply list_elem_of_lookup. exists i. apply lookup_zip_with_Some. by exists e, a. }
    assert (mk_detection e c (ex_protocol_name e) ∈ omap candidate zs) as Hbad.
    { apply list_elem_of_omap. exists (e, a). split; [done|]. by apply candidate_spec. }
    rewrite Hnil in Hbad. by apply elem_of_nil in Hbad.
  - split; [done|]. destruct (sorted_by_head (λ a b : DetectionResult W, PrimFloat.leb (dr_confidence b) (dr_confidence a))
      (λ d : DetectionResult W, is_number (dr_confidence d))) with (l := omap candidate zs) (x := d) as (pre & post & Hsplit & Hpre & Hall).
    { intros x y Hx Hy. rewrite float_leb_total by done. intros H%negb_false_iff. by apply float_ltb_leb. }
    { intros x y z Hxy Hyz. by eapply float_leb_trans. }
    { exact Hnum. }
    { unfold by_confidence in Es. by rewrite Es. }
    apply omap_split in Hsplit as (before & [e a] & after & Hzs & Hd & <- & <-).
    pose proof (candidate_number _ _ Hd) as Hdn. apply candidate_spec in Hd as [Hc Hd]. cbn in Hc, Hd.
    exists before, a, after. rewrite Hd. cbn [dr_extractor dr_protocol_name dr_confidence].
    apply Forall_app in Hall as [_ Hafter]. rewrite Forall_forall in Hpre, Hafter. split_and!; [exact Hzs|done|exact Hc| |].
    + intros e' a' c' Hin Hc'. specialize (Hpre (mk_detection e' c' (ex_protocol_name e'))). rewrite float_leb_total in Hpre; [|done|].
      * apply negb_false_iff, Hpre, list_elem_of_omap. exists (e', a'). split; [done|]. by apply candidate_spec.
      * destruct Hc' as (? & _ & _ & H). apply (float_ltb_number _ _ H).
    + intros e' a' c' Hin Hc'. apply (Hafter (mk_detection e' c' (ex_protocol_name e'))), list_elem_of_omap.
      exists (e', a'). split; [done|]. by apply candidate_spec.
Qed.
End best.

(** ** Suggested paths *)

Section suggestions.
Context (json_indent : pyval → string) (json_loads : string → option pyval) (parse_float : string → option float).

Lemma traverse_in {A B} (f : A → outcome exn B) l l' y : traverse f l = Ok l' → y ∈ l' → ∃ x, x ∈ l ∧ f x = Ok y.
Proof.
  intros H%traverse_ok Hy. apply list_elem_of_lookup in Hy as [i Hi]. apply Forall2_lookup_r with (i := i) (y := y) in H; [|done].
  destruct H as (x & Hx & Hf). exists x. split; [by eapply list_elem_of_lookup_2|exact Hf].
Qed.

(** Every suggested path is a non-empty text with at least one method. *)
Lemma seed_of_ok item c : seed_of parse_float item = Ok (Some c) → seed_path c ≠ "" ∧ seed_methods c ≠ [].
Proof.
  destruct item as [| | | | |?|d]; try done. unfold seed_of. destruct (get_default d "path" _) as [| | | |p| |]; try done.
  destruct (str_truthy p) eqn:Ep; [|done]. intros (l & _ & H)%obind_ok. apply obind_ok in H as (f & _ & [= <-]). cbn.
  split; [by intros ->|]. by destruct (omap as_str l).
Qed.

(** Suggestions are new, few and usable, whatever the model answers; a model that
    fails, or that does not answer with JSON, suggests nothing. *)
Theorem seeds_are_new {W} (complete : string → comp W exn string) base_url discovered n w l w' :
  generate_seed_candidates json_indent json_loads parse_float complete base_url discovered n w = (Ok l, w') →
  (length l ≤ n)%nat ∧ Forall (λ c, ¬ (seed_path c ∈ discovered.*1) ∧ seed_path c ≠ "" ∧ seed_methods c ≠ []) l.
Proof.
  unfold generate_seed_candidates. destruct discovered as [|p ps]; [intros [= <- <-]; split; [cbn; lia|constructor]|].
  set (prompt := seed_prompt _ _). unfold bind, attempt. destruct (complete prompt w) as [[content|e] w1]; [|intros [= <- <-]; split; [cbn; lia|constructor]].
  destruct (_parse_seed_response json_loads parse_float content) as [cs|e] eqn:E; [|done]. intros [= <- <-].
  split; [rewrite length_take; lia|]. apply Forall_forall. intros c Hc.
  assert (c ∈ by_confidence seed_confidence (List.filter (λ c, negb (one_of (seed_path c) ((p :: ps).*1))) cs)) as Hin.
  { apply elem_of_take in Hc as (i & Hi & _). by eapply list_elem_of_lookup_2. }
  unfold by_confidence in Hin. rewrite sorted_by_perm in Hin. apply elem_of_filterb in Hin as [Hnew Hin].
  split; [unfold one_of in Hnew; by apply negb_true_iff, bool_decide_eq_false in Hnew|].
  unfold _parse_seed_response in E. destruct (json_loads (unfence content)) as [[| | | | |data|]|]; try (injection E as <-; by apply elem_of_nil in Hin).
  destruct (traverse (seed_of parse_float) data) as [os|e] eqn:Et.
  - injection E as <-. apply list_elem_of_omap in Hin as (o & Ho & Heq). cbn in Heq. subst o.
    destruct (traverse_in _ _ _ _ Et Ho) as (x & _ & Hx). by apply seed_of_ok in Hx.
  - destruct (one_of _ _); [injection E as <-; by apply elem_of_nil in Hin|discriminate].
Qed.
End suggestions.

(** ** Examples *)

Definition sure (name : string) (c : outcome exn float) : ExtractorProtocol unit :=
  mk_extractor name (λ _ w, (c, w)) (λ _, raise (value_error "not extracted")) None.
Definition demo_source : SourceConfig := mk_source (Some "https://api.example/spec") None None None (Some "t0ken") [].

Definition chosen (l : list (ExtractorProtocol unit)) : option string :=
  match (detect (λ _, "") l demo_source tt).1 with Ok d => Some (dr_protocol_name d) | Raise _ => None end.

Example first_of_the_surest :
  chosen [sure "openapi" (Ok 0.5%float); sure "graphql" (Raise (value_error "")); sure "soap" (Ok 3%float); sure "rest" (Ok 1%float)] = Some "soap".
Proof. vm_compute. reflexivity. Qed.

Definition demo_complete (prompt : string) : comp unit exn string := ret "[...]".
Definition demo_seed (d : dict pyval) : pyval := VDict (("path", VStr "/pets/{id}") :: d).

Definition suggested (l : list pyval) : outcome exn (list SeedCandidate) :=
  (generate_seed_candidates (λ _, "") (λ _, Some (VList l)) (λ _, None) demo_complete "https://api.example" [("/pets", ["GET"])] 30 tt).1.

Example one_suggestion : suggested [demo_seed [("confidence", VInt 1)]; VDict [("path", VStr "/pets")]] =
  Ok [mk_seed "/pets/{id}" ["GET"] (VStr "") 1].
Proof. vm_compute. reflexivity. Qed.

(** An element of the answer that is no object raises an error the handler does not
    list, so it reaches the extractor instead of costing the suggestions. *)
Example bad_suggestion_raises : suggested [demo_seed []; VStr "/pets/{id}"] = Raise (attribute_error "get").
Proof. vm_compute. reflexivity. Qed.

Lemma seeds_are_new_witness : ∃ l, suggested [demo_seed []] = Ok l ∧ (length l ≤ 30)%nat ∧ l ≠ [].
Proof.
  eexists. split; [vm_compute; reflexivity|]. split; [|discriminate].
  exact (proj1 (seeds_are_new (λ _, "") (λ _, Some (VList [demo_seed []])) (λ _, None) demo_complete "https://api.example" [("/pets", ["GET"])] 30 tt _ tt eq_refl)).
Defined.
