(* ===== verification/Publishers.v ===== *)
(** * Settings, route publishers and tool calls
      ([apps/compiler_worker/activities/production.py])

    What the production activities are configured with, the two ways a route is
    published, and the client that calls a deployed runtime's tools.  The
    environment, HTTP clients and the MCP session are parameters. *)

From S2P Require Export Kubernetes Sources.
From Stdlib Require Import Ascii.

(** ** Settings *)

Definition _DEFAULT_RUNTIME_IMAGE : string := "tool-compiler/mcp-runtime:latest".
Definition _DEFAULT_IMAGE_PULL_POLICY : string := "IfNotPresent".
Definition _DEFERRED_ROUTE_PUBLISH_MODE : string := "deferred".

Record ProductionActivitySettings := mk_settings {
  ps_runtime_image : string;
  ps_namespace : string;
  ps_image_pull_policy : string;
  ps_image_pull_secrets : list string;
  ps_node_selector : dict string;
  ps_route_publish_mode : option string;
  ps_access_control_url : option string;
  ps_proxy_timeout_seconds : float;
  ps_route_publish_timeout_seconds : float;
  ps_runtime_startup_timeout_seconds : float;
  ps_runtime_startup_poll_seconds : float;
}.

Definition default_settings : ProductionActivitySettings :=
  mk_settings _DEFAULT_RUNTIME_IMAGE "default" _DEFAULT_IMAGE_PULL_POLICY [] [] None None 10 10 10 1.

Section environment.
(** [os.getenv], [float] of a text, and the text of the service account's namespace
    file, when there is one *)
Context (environ : string → option string) (parse_float : string → option float) (namespace_file : option string).

Definition _float_env (key : string) (fallback : float) : float :=
  match environ key with
  | None => fallback
  | Some raw => default fallback (parse_float raw)
  end.

Definition _read_service_account_namespace : option string :=
  match namespace_file with
  | Some text => let namespace := strip text in if str_truthy namespace then Some namespace else None
  | None => None
  end.

(** [[s.strip() for s in raw.split(",") if s.strip()]] *)
Definition comma_list (raw : string) : list string :=
  List.filter str_truthy (strip <$> split_on ","%char raw).

(** Comma-separated [key=value] pairs; pairs without [=] are passed over. *)
Definition node_selector_of (raw : string) : dict string :=
  dict_of_list (omap (λ pair, match split_first "="%char (strip pair) with
                              | Some (k, v) => Some (strip k, strip v)
                              | None => None
                              end) (split_on ","%char raw)).

Definition from_env : ProductionActivitySettings :=
  mk_settings
    (default _DEFAULT_RUNTIME_IMAGE (opt_or (environ "MCP_RUNTIME_IMAGE") (opt_or (environ "COMPILER_RUNTIME_IMAGE") (Some _DEFAULT_RUNTIME_IMAGE))))
    (default "default" (opt_or (environ "COMPILER_TARGET_NAMESPACE") (opt_or _read_service_account_namespace (Some "default"))))
    (default _DEFAULT_IMAGE_PULL_POLICY (environ "MCP_RUNTIME_IMAGE_PULL_POLICY"))
    (comma_list (default "" (environ "MCP_RUNTIME_IMAGE_PULL_SECRETS")))
    (node_selector_of (default "" (environ "MCP_RUNTIME_NODE_SELECTOR")))
    (let mode := strip (default "" (environ "ROUTE_PUBLISH_MODE")) in if str_truthy mode then Some mode else None)
    (environ "ACCESS_CONTROL_URL")
    (_float_env "COMPILER_PROXY_TIMEOUT_SECONDS" 10)
    (_float_env "COMPILER_ROUTE_PUBLISH_TIMEOUT_SECONDS" 10)
    (_float_env "COMPILER_RUNTIME_STARTUP_TIMEOUT_SECONDS" 10)
    (_float_env "COMPILER_RUNTIME_STARTUP_POLL_SECONDS" 1).
End environment.

(** ** Publishers *)

(** [RoutePublisher] *)
Record RoutePublisher (W : Type) := mk_publisher {
  rp_publish : dict pyval → comp W exn (option (dict pyval));
  rp_rollback : dict pyval → option (dict pyval) → comp W exn unit;
}.
Arguments mk_publisher {W} _ _.
Arguments rp_publish {W} _ _.
Arguments rp_rollback {W} _ _ _.

(** [d.get(k)] when [d] is a dictionary, and [None] *)
Definition route_id_of (route : pyval) : pyval :=
  match route with VDict d => get_or_none d "route_id" | _ => VNone end.

(** [DeferredRoutePublisher]: nothing but a note *)
Definition deferred_publication (mode : string) (route_config : dict pyval) : dict pyval :=
  [("mode", VStr mode);
   ("default_route_id", route_id_of (get_or_none route_config "default_route"));
   ("version_route_id", route_id_of (get_or_none route_config "version_route"))].
Definition DeferredRoutePublisher {W} (mode : string) : RoutePublisher W :=
  mk_publisher (λ route_config, ret (Some (deferred_publication mode route_config))) (λ _ _, ret tt).

Section access_control.
Context {W : Type}.
Abbreviation M := (comp W exn).
(** [client.post(path, json=..., headers=...)] on the publisher's own client or on
    one made for the call, the closing of the latter, and [build_service_jwt()] *)
Context (post : string → dict pyval → dict string → M response) (close : M unit) (build_service_jwt : M string).
Context (auth_token : option string).

Definition _headers : M (dict string) :=
  token <- (if opt_truthy auth_token then ret (default "" auth_token) else build_service_jwt) ;;
  ret [("Authorization", "Bearer " +:+ token)].

(** [_post], once there is a client *)
Definition post_body (path : string) (route_config : dict pyval) (previous_routes : dict pyval) : M (dict pyval) :=
  headers <- _headers ;;
  r <- post path [("route_config", VDict route_config); ("previous_routes", VDict previous_routes)] headers ;;
  if 400 <=? rsp_status r then
    raise (runtime_error ("Access control route publisher returned " +:+ str_of_Z (rsp_status r) +:+ " for " +:+ path +:+ ": "
           +:+ (if str_truthy (rsp_text r) then str_take 500 (rsp_text r) else "(empty)")))
  else match rsp_json r with
       | None => raise (runtime_error "Access control route publisher returned non-JSON response")
       | Some (VDict payload) => ret payload
       | Some _ => raise (runtime_error "Access control route publisher returned a non-object response.")
       end.

Definition _post (path : string) (route_config : dict pyval) (previous_routes : dict pyval) : M (dict pyval) :=
  o <- attempt (post_body path route_config previous_routes) ;;
  close ;;;
  lifted o.

Definition sync_path : string := "/api/v1/gateway-binding/service-routes/sync".
Definition rollback_path : string := "/api/v1/gateway-binding/service-routes/rollback".

Definition publish (route_config : dict pyval) : M (option (dict pyval)) :=
  payload <- _post sync_path route_config [] ;;
  ret (Some (dict_set payload "mode" (VStr "access-control"))).

(** The routes an earlier publication replaced; a publication is an object here. *)
Definition previous_routes_of (publication : option (dict pyval)) : outcome exn (dict pyval) :=
  match publication with
  | None => Ok []
  | Some p => match get_default p "previous_routes" (VDict []) with
              | VDict d => Ok d
              | _ => Raise (runtime_error "Access control route rollback previous_routes must be an object.")
              end
  end.

Definition rollback (route_config : dict pyval) (publication : option (dict pyval)) : M unit :=
  previous_routes <- lifted (previous_routes_of publication) ;;
  _post rollback_path route_config previous_routes ;;;
  ret tt.

Definition AccessControlRoutePublisher : RoutePublisher W := mk_publisher publish rollback.
End access_control.

(** [_resolve_route_publisher]; [access_control url timeout] is the publisher for
    an access-control service. *)
Definition _resolve_route_publisher {W} (access_control : string → float → RoutePublisher W) (s : ProductionActivitySettings)
    (route_publisher : option (RoutePublisher W)) : outcome exn (RoutePublisher W) :=
  match route_publisher with
  | Some p => Ok p
  | None =>
      let mode := strip (default "" (ps_route_publish_mode s)) in
      if negb (str_truthy mode) then Raise (runtime_error "ROUTE_PUBLISH_MODE must be explicitly set to a supported publisher mode.")
      else if str_eqb mode _DEFERRED_ROUTE_PUBLISH_MODE then Ok (DeferredRoutePublisher _DEFERRED_ROUTE_PUBLISH_MODE)
      else if str_eqb mode "access-control" then
        if negb (opt_truthy (ps_access_control_url s)) then Raise (runtime_error "ROUTE_PUBLISH_MODE=access-control requires ACCESS_CONTROL_URL.")
        else Ok (access_control (default "" (ps_access_control_url s)) (ps_route_publish_timeout_seconds s))
      else Raise (runtime_error ("Unsupported ROUTE_PUBLISH_MODE: " +:+ mode +:+ "."))
  end.

(** ** Calling tools *)

(** What [session.call_tool] answers *)
Record CallToolResult := mk_call_result { ct_is_error : bool; ct_content : pyval; ct_structured : pyval }.

(** What the invoker makes of it *)
Definition tool_answer (r : CallToolResult) : dict pyval :=
  if ct_is_error r then [("status", VStr "upstream_error"); ("error", ct_content r)]
  else match ct_structured r with
       | VDict d => d
       | v => [("status", VStr "ok"); ("result", v)]
       end.

(** The errors that are tried again: those of the connection, [OSError] and its
    subclasses, and the groups the client's task group raises *)
Definition transient (e : exn) : bool :=
  one_of (exn_type e) ["ConnectError"; "ReadError"; "WriteError"; "ExceptionGroup"; "OSError"; "ConnectionError"; "ConnectionRefusedError";
                       "ConnectionResetError"; "BrokenPipeError"; "TimeoutError"; "gaierror"].

Section invoker.
Context {W : Type}.
(** One session with the runtime: connect, initialise, call the tool; and
    [asyncio.sleep] *)
Context (call_once : string → dict pyval → comp W exn CallToolResult) (sleep : float → comp W exn unit).

(** [invoke] of [build_streamable_http_tool_invoker], at attempt [n] with [retries] left *)
Fixpoint invoke (retries : nat) (n : Z) (tool_name : string) (arguments : dict pyval) : comp W exn pyval :=
  o <- attempt (call_once tool_name arguments) ;;
  match o with
  | Ok r => ret (VDict (tool_answer r))
  | Raise e =>
      if transient e then
        match retries with
        | O => raise e
        | S k => sleep (PrimFloat.mul 0x1p-1 (default infinity (float_of_Z (n + 1)))) ;;; invoke k (n + 1) tool_name arguments
        end
      else raise e
  end.

Definition build_streamable_http_tool_invoker (max_retries : nat) : string → dict pyval → comp W exn pyval := invoke max_retries 0.

(** ** What the invoker promises *)

(** [k] calls that fail for a moment, each followed by a pause *)
Inductive failed_calls (tool_name : string) (arguments : dict pyval) : nat → Z → W → W → Prop :=
| failed_none n w : failed_calls tool_name arguments 0 n w w
| failed_one k n e w w1 w2 w3 :
    call_once tool_name arguments w = (Raise e, w1) → transient e = true →
    sleep (PrimFloat.mul 0x1p-1 (default infinity (float_of_Z (n + 1)))) w1 = (Ok tt, w2) →
    failed_calls tool_name arguments k (n + 1) w2 w3 → failed_calls tool_name arguments (S k) n w w3.

(** An answer is that of the first call that got through; an error is the first that
    is not transient, or the last after all retries. *)
Lemma invoke_spec retries n tool_name arguments w :
  (∀ d w, ∃ w', sleep d w = (Ok tt, w')) →
  ∃ k w1, (k ≤ retries)%nat ∧ failed_calls tool_name arguments k n w w1 ∧
    match call_once tool_name arguments w1 with
    | (Ok r, w2) => invoke retries n tool_name arguments w = (Ok (VDict (tool_answer r)), w2)
    | (Raise e, w2) => invoke retries n tool_name arguments w = (Raise e, w2) ∧ (transient e = true → k = retries)
    end.
Proof.
  intros Hsleep. induction retries as [|retries IH] in n, w |- *.
  - exists 0%nat, w. split_and!; [lia|constructor|]. cbn [invoke]. unfold bind, attempt.
    destruct (call_once tool_name arguments w) as [[r|e] w2]; [done|]. split; [|done]. by destruct (transient e).
  - destruct (call_once tool_name arguments w) as [[r|e] w2] eqn:E.
    + exists 0%nat, w. split_and!; [lia|constructor|]. rewrite E. cbn [invoke]. unfold bind, attempt. by rewrite E.
    + destruct (transient e) eqn:Et.
      * destruct (Hsleep (PrimFloat.mul 0x1p-1 (default infinity (float_of_Z (n + 1)))) w2) as [w3 Hw3].
        destruct (IH (n + 1) w3) as (k & w4 & Hk & Hf & Hc). exists (S k), w4. split_and!; [lia|by econstructor|].
        assert (invoke (S retries) n tool_name arguments w = invoke retries (n + 1) tool_name arguments w3) as ->.
        { cbn [invoke]. unfold bind, attempt. by rewrite E, Et, Hw3. }
        destruct (call_once tool_name arguments w4) as [[r|e'] w5]; [done|]. destruct Hc as [Hc Hlast]. split; [done|]. intros H. by rewrite Hlast.
      * exists 0%nat, w. split_and!; [lia|constructor|]. rewrite E. cbn [invoke]. unfold bind, attempt. rewrite E, Et. by split.
Qed.
End invoker.

(** ** Publishing through the access-control service *)

Section rolled_back.
Context {W : Type} (post : string → dict pyval → dict string → comp W exn response) (close build : comp W exn unit).
Context (jwt : comp W exn string) (auth_token : option string).

(** What a rollback asks the service to restore is what the publication replaced. *)
Lemma rollback_restores_replaced route_config publication previous w :
  dict_get publication "previous_routes" = Some (VDict previous) →
  rollback post close jwt auth_token route_config (Some publication) w =
  (_post post close jwt auth_token rollback_path route_config previous ;;; ret tt) w.
Proof. intros H. unfold rollback, bind, lifted, previous_routes_of, get_default. by rewrite H. Qed.

Lemma publish_keeps_replaced route_config publication w w' :
  publish post close jwt auth_token route_config w = (Ok (Some publication), w') →
  ∃ payload, _post post close jwt auth_token sync_path route_config [] w = (Ok payload, w') ∧
    dict_get publication "previous_routes" = dict_get payload "previous_routes" ∧ get_or_none publication "mode" = VStr "access-control".
Proof.
  unfold publish, bind. destruct (_post _ _ _ _ _ _ _ w) as [[payload|e] w1]; [|done]. intros [= <- <-]. exists payload.
  split_and!; [done| |].
  - by rewrite dict_get_set_ne.
  - unfold get_or_none. by rewrite dict_get_set_eq.
Qed.
End rolled_back.

(** ** Examples *)

Definition demo_env (k : string) : option string :=
  dict_get [("MCP_RUNTIME_NODE_SELECTOR", "disk=ssd, zone = eu=1,broken"); ("MCP_RUNTIME_IMAGE_PULL_SECRETS", " a,, b ");
            ("ROUTE_PUBLISH_MODE", " deferred "); ("COMPILER_PROXY_TIMEOUT_SECONDS", "soon")] k.

Example settings_read :
  let s := from_env demo_env (λ _, None) (Some "prod ") in
  (ps_namespace s, ps_node_selector s, ps_image_pull_secrets s, ps_route_publish_mode s, ps_proxy_timeout_seconds s)
  = ("prod", [("disk", "ssd"); ("zone", "eu=1")], ["a"; "b"], Some "deferred", 10%float).
Proof. vm_compute. reflexivity. Qed.
