(* ===== verification/Stages.v ===== *)
(** * The production activities ([apps/compiler_worker/activities/production.py],
      [activities/pipeline.py])

    The nine stage handlers of the compilation workflow and its two compensations,
    put together from the components they call: detection and extraction,
    enhancement, the checks before and after deployment, generation, deployment,
    publication and registration.  What lies outside the program - extractors'
    parsing, HTTP clients, the cluster, pydantic's reading and dumping of
    descriptions - comes through one interface. *)

From S2P Require Export Publishers Samples PreDeploy PostDeploy Generator CompileWorkflow.
From S2P Require Registry.
From Stdlib Require Import Ascii.

(** ** The outside *)

(** [ManifestDeployer] *)
Record ManifestDeployer (W : Type) := mk_manifest_deployer {
  md_deploy : GeneratedManifestSet → comp W exn DeploymentResult;
  md_rollback : GeneratedManifestSet → DeploymentResult → comp W exn unit;
}.
Arguments mk_manifest_deployer {W} _ _.
Arguments md_deploy {W} _ _.
Arguments md_rollback {W} _ _ _.

Class Worker (W : Type) := {
  worker_cluster :: Cluster W;
  (** the environment, [repr], [float] of a text, SHA-256 in hexadecimal, base64,
      [json.dumps(indent=2)], [json.loads] *)
  environ : string → option string;
  repr : pyval → string;
  parse_float : string → option float;
  sha256_hex : string → string;
  b64encode : string → string;
  json_indent : pyval → string;
  json_loads : string → option pyval;
  coerce_int : pyval → option Z;
  (** pydantic: [ServiceIR.model_validate] and [AuthConfig.model_validate] up to the
      validators, [model_dump(mode="json")], [model_dump_json(indent=2)] *)
  read_fields : dict pyval → outcome exn ServiceIR;
  read_auth_fields : dict pyval → outcome exn AuthConfig;
  dump_ir : ServiceIR → dict pyval;
  serialize_ir : ServiceIR → string;
  (** YAML, and gzip followed by base64 *)
  safe_dump : dict string → string;
  safe_load : string → outcome exn pyval;
  gzip_base64 : string → string;
  (** the extractor classes, given REST's model client *)
  construct : string → option llm_client → ExtractorProtocol W;
  (** a session of the registry's database, opened and closed *)
  in_session : ∀ A, comp Registry.session exn A → comp W exn A;
  normalize_ir_json : dict pyval → outcome exn (dict pyval);
  (** the language model: how the concurrent batches of an enhancement end, one
      completion, and the prompts of grouping and examples *)
  run_batches : EnhancerConfig → ServiceIR → comp W exn tasks;
  complete : string → comp W exn string;
  grouping_prompt : ServiceIR → list Operation → string;
  examples_prompt : Operation → string → string;
  (** HTTP clients: the OAuth2 token probe; for a runtime's base address, the two
      readiness requests with the closing of their client, the validator's requests
      with the closing of theirs, and one MCP session *)
  client_post : string → string → dict string → comp W exn response;
  fetch_ready : string → comp W exn http_answers;
  close_ready : string → comp W exn unit;
  client_get : string → string → comp W exn response;
  client_close : string → comp W exn unit;
  call_tool : string → string → dict pyval → comp W exn CallToolResult;
  show_seconds : float → string;
  (** what was configured: settings, the deployer's factory, the route publisher *)
  settings : ProductionActivitySettings;
  deployer_factory : comp W exn (ManifestDeployer W);
  access_control : string → float → RoutePublisher W;
  route_publisher : option (RoutePublisher W);
  (** how often a loop may look at the clock *)
  poll_fuel : nat;
}.

(** [KubernetesManifestDeployer] as a deployer; running out of fuel is no exit of the
    Python code (Kubernetes.wait_for_rollout_ends). *)
Definition out_of_fuel : exn := runtime_error "out of fuel".
Definition kubernetes_manifest_deployer {W} `{!Cluster W} (fuel : nat) (k : KubernetesManifestDeployer) : ManifestDeployer W :=
  mk_manifest_deployer (λ g, r <- Kubernetes.deploy fuel k g ;; from_option_or out_of_fuel r) (λ g _, Kubernetes.rollback k g).

(** ** Records in the payload *)

(** [_stage_result] *)
Definition _stage_result (context_updates event_detail : dict pyval) (rollback_payload : option (dict pyval))
    (protocol service_name : option string) : StageExecutionResult :=
  mk_stage_result context_updates (Some event_detail) rollback_payload protocol service_name.

Definition _serialize_manifest_set (g : GeneratedManifestSet) : dict pyval :=
  [("config_map", VDict (gm_config_map g)); ("deployment", VDict (gm_deployment g)); ("service", VDict (gm_service g));
   ("network_policy", VDict (gm_network_policy g)); ("route_config", VDict (gm_route_config g)); ("yaml", VStr (gm_yaml g))].

Definition _required_payload_object (payload : dict pyval) (field_name payload_name : string) : outcome exn (dict pyval) :=
  match get_or_none payload field_name with
  | VDict d => Ok d
  | _ => Raise (runtime_error (payload_name +:+ " field '" +:+ field_name +:+ "' must be an object."))
  end.

Definition _required_payload_string (payload : dict pyval) (field_name payload_name : string) : outcome exn string :=
  match get_or_none payload field_name with
  | VStr s => Ok s
  | _ => Raise (runtime_error (payload_name +:+ " field '" +:+ field_name +:+ "' must be a string."))
  end.

Definition _deserialize_manifest_set (payload : dict pyval) : outcome exn GeneratedManifestSet :=
  let! config_map := _required_payload_object payload "config_map" "Manifest set" in
  let! deployment := _required_payload_object payload "deployment" "Manifest set" in
  let! service := _required_payload_object payload "service" "Manifest set" in
  let! network_policy := _required_payload_object payload "network_policy" "Manifest set" in
  let! route_config := _required_payload_object payload "route_config" "Manifest set" in
  let! yaml := _required_payload_string payload "yaml" "Manifest set" in
  Ok (mk_manifest_set config_map deployment service network_policy route_config yaml).

(** The deployment's entry in the rollback payload *)
Definition deployment_document (d : DeploymentResult) : dict pyval :=
  [("deployment_revision", VStr (dp_deployment_revision d)); ("runtime_base_url", VStr (dp_runtime_base_url d));
   ("manifest_storage_path", VStr (dp_manifest_storage_path d))].

Definition _deserialize_deployment_result (payload : dict pyval) : outcome exn DeploymentResult :=
  let! deployment_revision := _required_payload_string payload "deployment_revision" "Deployment rollback" in
  let! runtime_base_url := _required_payload_string payload "runtime_base_url" "Deployment rollback" in
  let! manifest_storage_path := _required_payload_string payload "manifest_storage_path" "Deployment rollback" in
  Ok (mk_deployment_result deployment_revision runtime_base_url manifest_storage_path).

Definition _manifest_set_from_context (cx : CompilationContext) : outcome exn GeneratedManifestSet :=
  match get_or_none (cx_payload cx) "generated_manifest_set" with
  | VDict serialized => _deserialize_manifest_set serialized
  | _ => Raise (runtime_error "Generated manifest set missing from workflow context.")
  end.

(** [_validation_failure_message] *)
Definition _validation_failure_message (prefix : string) (report : ValidationReport) : string :=
  match (λ r, vr_stage r +:+ ": " +:+ vr_details r) <$> List.filter (λ r, negb (vr_passed r)) (vp_results report) with
  | [] => prefix
  | failed_results => prefix +:+ ": " +:+ join "; " failed_results
  end.

(** [report.model_dump(mode="json")], without durations and the timestamp *)
Definition report_document (r : ValidationReport) : dict pyval :=
  [("results", VList ((λ x, VDict [("stage", VStr (vr_stage x)); ("passed", VBool (vr_passed x)); ("details", VStr (vr_details x))]) <$> vp_results r));
   ("overall_passed", VBool (vp_overall_passed r)); ("audit_summary", VNone)].

(** [context.payload[key]] *)
Definition required (cx : CompilationContext) (key : string) : outcome exn pyval :=
  match dict_get (cx_payload cx) key with Some v => Ok v | None => Raise (key_error ("'" +:+ key +:+ "'")) end.

(** [context.payload.get("service_id")], a text since the extraction *)
Definition service_id_of (cx : CompilationContext) : option string := as_str (get_or_none (cx_payload cx) "service_id").

Section activities.
Context {W : Type} `{!Worker W}.
Abbreviation M := (comp W exn).

(** ** The source of a request *)

(** [_source_config_from_context] *)
Definition hints_of (options : dict pyval) : dict string :=
  match get_default options "hints" (VDict []) with
  | VDict d => (λ kv, (kv.1, py_str repr kv.2)) <$> d
  | _ => []
  end.

Definition nonempty_str (v : pyval) : option string :=
  match v with VStr s => if str_truthy s then Some s else None | _ => None end.

Definition protocol_hint (options : dict pyval) : option string :=
  match nonempty_str (get_or_none options "force_protocol") with
  | Some p => Some p
  | None => nonempty_str (get_or_none options "protocol")
  end.

(** [hints.setdefault(key, value)] *)
Definition setdefault (d : dict string) (key value : string) : dict string := if dict_mem d key then d else dict_set d key value.

Definition _source_config_from_context (cx : CompilationContext) : outcome exn SourceConfig :=
  let request := cx_request cx in
  let options := rq_options request in
  let hints := hints_of options in
  let hints := match protocol_hint options with Some p => setdefault hints "protocol" p | None => hints end in
  check_source (mk_source (rq_source_url request) (as_str (get_or_none options "source_file_path")) (rq_source_content request)
                  (as_str (get_or_none options "auth_header")) (as_str (get_or_none options "auth_token")) hints).

(** ** Extractors *)

Definition _truthy_hint (v : option string) : bool :=
  match v with Some s => one_of (lower (strip s)) ["1"; "true"; "yes"; "on"] | None => false end.

Definition extractor_classes : list string :=
  ["OpenAPIExtractor"; "GraphQLExtractor"; "GrpcProtoExtractor"; "SOAPWSDLExtractor"; "ODataExtractor"; "SCIMExtractor";
   "JsonRpcExtractor"; "AsyncAPIExtractor"; "SQLExtractor"; "CLIExtractor"; "RESTExtractor"].

Definition _build_extractors (source : option SourceConfig) : outcome exn (list (ExtractorProtocol W)) :=
  let! rest_llm_client :=
    match source with
    | Some s => if _truthy_hint (dict_get (sc_hints s) "llm_seed_mutation")
                then let! c := Enhancer.from_env environ in let! client := create_llm_client c in Ok (Some client)
                else Ok None
    | None => Ok None
    end in
  Ok ((λ name, construct name (if str_eqb name "RESTExtractor" then rest_llm_client else None)) <$> extractor_classes).

(** [source.hints.get("protocol") or context.protocol], when there is one *)
Definition known_protocol (cx : CompilationContext) (source : SourceConfig) : option string :=
  match opt_or (dict_get (sc_hints source) "protocol") (cx_protocol cx) with
  | Some p => if str_truthy p then Some p else None
  | None => None
  end.

Definition _resolve_extractor (cx : CompilationContext) (source : SourceConfig) (extractors : list (ExtractorProtocol W)) : M (ExtractorProtocol W) :=
  match known_protocol cx source ≫= λ p, List.find (λ e, str_eqb (ex_protocol_name e) p) extractors with
  | Some e => ret e
  | None => detection <- detect repr extractors source ;; ret (dr_extractor detection)
  end.

Definition _close_extractors (extractors : list (ExtractorProtocol W)) : M unit :=
  for_each extractors (λ e, match ex_close e with Some close => close | None => ret tt end).

(** [try: m finally: close] *)
Definition finally {A} (m : M A) (close : M unit) : M A := o <- attempt m ;; close ;;; lifted o.

(** ** Overrides *)

Definition set_text (key : string) (value : pyval) (d : dict pyval) : dict pyval :=
  match nonempty_str value with Some s => dict_set d key (VStr s) | None => d end.

Definition runtime_ref_default (auth : dict pyval) : dict pyval :=
  match nonempty_str (get_or_none auth "compile_time_secret_ref") with
  | Some s => if is_str (get_or_none auth "runtime_secret_ref") then auth else dict_set auth "runtime_secret_ref" (VStr s)
  | None => auth
  end.

Definition without (keys : list string) (d : dict pyval) : dict pyval := foldl dict_del d keys.

Definition basic_entries (auth : dict pyval) : dict pyval :=
  set_text "basic_password_ref" (get_or_none auth "password_secret_ref")
    (set_text "basic_username" (get_or_none auth "username") (without ["username"; "password_secret_ref"] auth)).

Definition api_key_entries (auth : dict pyval) : dict pyval :=
  let rest := without ["header_name"] auth in
  let named := match nonempty_str (get_or_none auth "header_name") with
               | Some s => if dict_mem rest "api_key_param" then rest else dict_set rest "api_key_param" (VStr s)
               | None => rest
               end in
  if dict_mem named "api_key_location" then named else dict_set named "api_key_location" (VStr "header").

Definition oauth2_keys : list string := ["token_url"; "client_id"; "client_id_ref"; "client_secret_ref"].
Definition oauth2_entries (auth : dict pyval) : dict pyval :=
  if is_dict (get_or_none auth "oauth2") then auth
  else
    let rest := without oauth2_keys auth in
    match omap (λ k, (λ s, (k, VStr s)) <$> nonempty_str (get_or_none auth k)) oauth2_keys with
    | [] => rest
    | entries => dict_set rest "oauth2" (VDict entries)
    end.

(** [_normalize_auth_override]; the [type] is none of the entries it moves. *)
Definition _normalize_auth_override (auth : dict pyval) : dict pyval :=
  let auth_type := get_or_none auth "type" in
  let auth := runtime_ref_default auth in
  let is_type t := match auth_type with VStr s => str_eqb s t | _ => false end in
  if is_type "basic" then basic_entries auth
  else if is_type "api_key" then api_key_entries auth
  else if is_type "oauth2" then oauth2_entries auth
  else auth.

(** [model_copy(update={...})] of name, authentication and scope *)
Definition ir_updated (ir : ServiceIR) (name : string) (auth : AuthConfig) (tenant environment : option string) : ServiceIR :=
  mk_ir (ir_version ir) (ir_compiler_version ir) (ir_source_url ir) (ir_source_hash ir) (ir_protocol ir)
    name (ir_service_description ir) (ir_base_url ir) auth (ir_operations ir) (ir_operation_chains ir)
    (ir_tool_grouping ir) (ir_event_descriptors ir) (ir_resource_definitions ir) (ir_prompt_definitions ir)
    (ir_metadata ir) (ir_created_at ir) tenant environment.

(** [AuthConfig.model_validate] *)
Definition auth_of (d : dict pyval) : outcome exn AuthConfig :=
  let! a := read_auth_fields d in let! _ := validate_AuthConfig a in Ok a.

Definition raw_auth (options : dict pyval) : option (dict pyval) :=
  match get_or_none options "auth" with
  | VDict d => Some d
  | _ => as_dict (get_or_none options "auth_config")
  end.

Definition _apply_auth_override (ir : ServiceIR) (options : dict pyval) : outcome exn ServiceIR :=
  match raw_auth options with
  | None => Ok ir
  | Some raw =>
      match _normalize_auth_override raw with
      | [] => Ok ir
      | payload => let! auth := auth_of payload in Ok (ir_updated ir (ir_service_name ir) auth (ir_tenant ir) (ir_environment ir))
      end
  end.

Definition stripped_str (v : pyval) : option string := match v with VStr s => nonempty_str (VStr (strip s)) | _ => None end.

Definition _apply_scope_override (ir : ServiceIR) (options : dict pyval) : ServiceIR :=
  let scope new old := match new with Some s => Some s | None => old end in
  ir_updated ir (ir_service_name ir) (ir_auth ir)
    (scope (stripped_str (get_or_none options "tenant")) (ir_tenant ir))
    (scope (stripped_str (get_or_none options "environment")) (ir_environment ir)).

(** ** Versions *)

(** [select max(version_number) where service_id = ...], over what is committed *)
Definition max_version (service_id : string) : comp Registry.session exn (option Z) :=
  rows <- Registry.select_versions (λ r, str_eqb (Registry.vr_service_id r) service_id) ;;
  ret (match Registry.vr_version_number <$> rows with [] => None | n :: l => Some (foldl Z.max n l) end).

Definition _next_version_number (service_id : string) : M Z :=
  current_max <- in_session _ (max_version service_id) ;;
  ret (default 0 current_max + 1).

(** ** Detection and extraction *)

Definition detect_stage (cx : CompilationContext) : M StageExecutionResult :=
  source <- lifted (_source_config_from_context cx) ;;
  extractors <- lifted (_build_extractors None) ;;
  finally
    (match nonempty_str (opt_str (dict_get (sc_hints source) "protocol")) with
     | Some forced =>
         ret (_stage_result [("detection_confidence", VFloat 1)] [("confidence", VFloat 1); ("forced", VBool true)] None (Some forced) None)
     | None =>
         detection <- detect repr extractors source ;;
         ret (_stage_result [("detection_confidence", VFloat (dr_confidence detection))] [("confidence", VFloat (dr_confidence detection))]
                None (Some (dr_protocol_name detection)) None)
     end)
    (_close_extractors extractors).

(** The description an extractor gave, with what the request overrides *)
Definition overridden (request : CompilationRequest) (ir : ServiceIR) : outcome exn ServiceIR :=
  let! ir := _apply_auth_override ir (rq_options request) in
  let ir := _apply_scope_override ir (rq_options request) in
  Ok (if opt_truthy (rq_service_name request)
      then ir_updated ir (default "" (rq_service_name request)) (ir_auth ir) (ir_tenant ir) (ir_environment ir) else ir).

(** The service a description is compiled as *)
Definition compiled_id (request : CompilationRequest) (ir : ServiceIR) : string :=
  default (ir_service_name ir) (opt_or (rq_service_id request) (opt_or (rq_service_name request) (Some (ir_service_name ir)))).

Definition extract_stage (cx : CompilationContext) : M StageExecutionResult :=
  source <- lifted (_source_config_from_context cx) ;;
  extractors <- lifted (_build_extractors (Some source)) ;;
  finally
    (extractor <- _resolve_extractor cx source extractors ;;
     extracted <- ex_extract extractor source ;;
     service_ir <- lifted (overridden (cx_request cx) extracted) ;;
     let service_id := compiled_id (cx_request cx) service_ir in
     version_number <- _next_version_number service_id ;;
     ret (_stage_result
            [("service_id", VStr service_id); ("service_ir", VDict (dump_ir service_ir)); ("source_hash", VStr (ir_source_hash service_ir));
             ("version_number", VInt version_number)]
            [("operation_count", VInt (Z.of_nat (length (ir_operations service_ir))))] None (Some (ir_protocol service_ir)) (Some service_id)))
    (_close_extractors extractors).

(** ** Enhancement *)

(** [os.getenv(name, "").lower() in {"1", "true", "yes"}] *)
Definition switched_on (name : string) : bool := one_of (lower (default "" (environ name))) ["1"; "true"; "yes"].
Definition _enhancement_enabled (options : dict pyval) : bool :=
  match get_or_none options "skip_enhancement" with
  | VBool true => false
  | _ => switched_on "WORKER_ENABLE_LLM_ENHANCEMENT" || opt_truthy (environ "LLM_API_KEY") || opt_truthy (environ "VERTEX_PROJECT_ID")
  end.
Definition _tool_grouping_enabled : bool := switched_on "WORKER_ENABLE_TOOL_GROUPING".

(** [ExamplesGenerator.generate_async]: every eligible operation is asked about, here
    in order, even when an earlier question failed. *)
Fixpoint ask_examples (service_name : string) (l : list Operation) : M (list (outcome exn Operation)) :=
  match l with
  | [] => ret []
  | o :: l' =>
      o' <- (if _needs_examples o then
               attempt (examples <- _generate_for_operation json_loads coerce_int complete examples_prompt o service_name ;;
                        ret (match examples with [] => o | _ => op_with_examples o examples end))
             else ret (Ok o)) ;;
      rest <- ask_examples service_name l' ;;
      ret (o' :: rest)
  end.

Definition generate_async (ir : ServiceIR) : M ServiceIR :=
  answers <- ask_examples (ir_service_name ir) (ir_operations ir) ;;
  ops <- lifted (traverse id answers) ;;
  ret (ir_with_operations ir ops).

(** [_apply_post_enhancement_async], with a client *)
Definition _apply_post_enhancement_async (ir : ServiceIR) : M ServiceIR :=
  let ir := bifurcate_descriptions (derive_tool_intents ir) in
  ir <- (if _tool_grouping_enabled
         then catch (r <- group json_loads parse_float complete grouping_prompt ir ;; ret (apply_grouping ir r)) (λ _, ret ir)
         else ret ir) ;;
  let ir := normalize_error_schemas ir in
  let ir := ir_with_parts ir (ir_tool_grouping ir) (or_generated (ir_resource_definitions ir) (generate_resources json_indent ir)) (ir_prompt_definitions ir) in
  let ir := ir_with_parts ir (ir_tool_grouping ir) (ir_resource_definitions ir) (or_generated (ir_prompt_definitions ir) (generate_prompts ir)) in
  catch (generate_async ir) (λ _, ret ir).

(** [ServiceIR.model_validate(context.payload["service_ir"])] *)
Definition service_ir_of (cx : CompilationContext) : outcome exn ServiceIR :=
  let! v := required cx "service_ir" in
  match v with
  | VDict d => PreDeploy.model_validate read_fields d
  | _ => Raise (mk_exn "ValidationError" "ServiceIR" [])
  end.

Definition usage_document (model : string) (input_tokens output_tokens total_calls : Z) : pyval :=
  VDict [("model", VStr model); ("input_tokens", VInt input_tokens); ("output_tokens", VInt output_tokens); ("total_calls", VInt total_calls)].

(** A description an answer left without text has no string methods, so the intents
    derived next fail on it; the parameters' descriptions are not looked at again,
    and are taken to be texts. *)
Definition described_in_text (r : EnhancementResult) : outcome exn ServiceIR :=
  match eh_enhanced_ir r with Some ir => Ok ir | None => Raise (attribute_error "startswith") end.

Definition enhance_stage (cx : CompilationContext) : M StageExecutionResult :=
  service_ir <- lifted (service_ir_of cx) ;;
  if negb (_enhancement_enabled (rq_options (cx_request cx))) then
    service_ir <- _apply_post_enhancement json_indent json_loads parse_float coerce_int complete grouping_prompt examples_prompt
                    _tool_grouping_enabled false service_ir ;;
    ret (_stage_result [("service_ir", VDict (dump_ir service_ir)); ("token_usage", usage_document "disabled" 0 0 0)]
           [("mode", VStr "passthrough")] None (Some (ir_protocol service_ir)) (service_id_of cx))
  else
    config <- lifted (Enhancer.from_env environ) ;;
    lifted (create_llm_client config) ;;;
    batches <- run_batches config service_ir ;;
    result <- lifted (enhance_async parse_float config service_ir batches) ;;
    described <- lifted (described_in_text result) ;;
    enhanced_ir <- _apply_post_enhancement_async described ;;
    let usage := eh_token_usage result in
    ret (_stage_result
           [("service_ir", VDict (dump_ir enhanced_ir));
            ("token_usage", usage_document (tu_model usage) (tu_input_tokens usage) (tu_output_tokens usage) (tu_total_calls usage))]
           [("operations_enhanced", VInt (eh_operations_enhanced result)); ("operations_skipped", VInt (eh_operations_skipped result));
            ("model", VStr (tu_model usage))] None (Some (ir_protocol enhanced_ir)) (service_id_of cx)).

(** ** Checks *)

(** [_has_supported_native_grpc_stream] and [_has_native_grpc_unary] *)
Definition _has_supported_native_grpc_stream (ir : ServiceIR) : bool :=
  existsb (λ d, match ed_transport d, ed_support d with grpc_stream_transport, supported => true | _, _ => false end) (ir_event_descriptors ir).
Definition _has_native_grpc_unary (ir : ServiceIR) : bool :=
  existsb (λ o, op_enabled o && given (op_grpc_unary o)) (ir_operations ir).

(** The checks before deployment, run on a description *)
Definition pre_deploy_report (ir : ServiceIR) : M ValidationReport :=
  PreDeploy.validate environ b64encode client_post read_fields (_has_supported_native_grpc_stream ir) (_has_native_grpc_unary ir) (inl ir).

Definition validate_ir_stage (cx : CompilationContext) : M StageExecutionResult :=
  service_ir <- lifted (service_ir_of cx) ;;
  report <- pre_deploy_report service_ir ;;
  if vp_overall_passed report then
    ret (_stage_result [("pre_validation_report", VDict (report_document report))] [("overall_passed", VBool true)] None
           (cx_protocol cx) (service_id_of cx))
  else raise (runtime_error (_validation_failure_message "Pre-deploy validation failed" report)).

(** ** Generation and deployment *)

(** The generators' configuration, the rest of whose fields keep their defaults *)
Definition manifest_config (service_id : string) (version_number : Z) : GenericManifestConfig :=
  mk_manifest_config (ps_runtime_image settings) (Some service_id) (Some version_number) (ps_namespace settings) 1 8003 8003 None
    (ps_image_pull_policy settings) (Some "tool-compiler-runtime-secrets") [] (ps_image_pull_secrets settings) (ps_node_selector settings).

Definition is_codegen (options : dict pyval) : bool :=
  match get_default options "runtime_mode" (VStr "generic") with VStr m => str_eqb m "codegen" | _ => false end.

(** Either mode, for a description, a service and a version *)
Definition generate_manifests (codegen : bool) (ir : ServiceIR) (service_id : string) (version_number : Z) : outcome exn GeneratedManifestSet :=
  let c := manifest_config service_id version_number in
  if codegen then generate_codegen_manifests sha256_hex safe_dump safe_load serialize_ir gzip_base64 ir c None
  else let! _ := check_config c in generate_generic_manifests sha256_hex safe_dump safe_load serialize_ir gzip_base64 ir c.

Definition generate_stage (cx : CompilationContext) : M StageExecutionResult :=
  service_ir <- lifted (service_ir_of cx) ;;
  id <- lifted (required cx "service_id") ;;
  v <- lifted (required cx "version_number") ;;
  version_number <- lifted (to_int v) ;;
  manifest_set <- lifted (generate_manifests (is_codegen (rq_options (cx_request cx))) service_ir (py_str repr id) version_number) ;;
  metadata <- lifted (match dict_get (gm_deployment manifest_set) "metadata" with
                      | Some m => as_mapping m
                      | None => Raise (key_error "'metadata'")
                      end) ;;
  name <- lifted (match dict_get metadata "name" with Some n => Ok n | None => Raise (key_error "'name'") end) ;;
  ret (_stage_result
         [("manifest_yaml", VStr (gm_yaml manifest_set)); ("route_config", VDict (gm_route_config manifest_set));
          ("generated_manifest_set", VDict (_serialize_manifest_set manifest_set))]
         [("deployment_name", name)]
         (Some [("manifest_set", VDict (_serialize_manifest_set manifest_set))]) (Some (ir_protocol service_ir)) (service_id_of cx)).

Definition deploy_stage (cx : CompilationContext) : M StageExecutionResult :=
  manifest_set <- lifted (_manifest_set_from_context cx) ;;
  deployer <- deployer_factory ;;
  deployment_result <- md_deploy deployer manifest_set ;;
  ret (_stage_result (deployment_document deployment_result)
         [("deployment_revision", VStr (dp_deployment_revision deployment_result)); ("runtime_base_url", VStr (dp_runtime_base_url deployment_result))]
         (Some [("manifest_set", VDict (_serialize_manifest_set manifest_set)); ("deployment", VDict (deployment_document deployment_result))])
         (cx_protocol cx) (service_id_of cx)).

(** The order in which a runtime is waited for and tried out *)
Definition post_deploy_report (runtime_base_url : string) (ir : ServiceIR) (options : dict pyval) : M ValidationReport :=
  ready <- _wait_for_runtime_http_ready show_seconds poll_fuel (fetch_ready runtime_base_url) (close_ready runtime_base_url)
             (ps_runtime_startup_timeout_seconds settings) (ps_runtime_startup_poll_seconds settings) ;;
  match ready with
  | Found _ =>
      finally (PostDeploy.validate repr (client_get runtime_base_url) (Some (build_streamable_http_tool_invoker (call_tool runtime_base_url) async_sleep 2))
                 read_fields runtime_base_url (inl ir) (sample_invocations ir options) (_preferred_smoke_tool_ids options))
        (client_close runtime_base_url)
  | _ => raise out_of_fuel
  end.

Definition validate_runtime_stage (cx : CompilationContext) : M StageExecutionResult :=
  service_ir <- lifted (service_ir_of cx) ;;
  url <- lifted (required cx "runtime_base_url") ;;
  let runtime_base_url := py_str repr url in
  let options := rq_options (cx_request cx) in
  report <- post_deploy_report runtime_base_url service_ir options ;;
  if vp_overall_passed report then
    ret (_stage_result
           [("post_validation_report", VDict (report_document report));
            ("sample_invocations", VDict ((λ kv, (kv.1, VDict kv.2)) <$> sample_invocations service_ir options))]
           [("overall_passed", VBool true)] None (Some (ir_protocol service_ir)) (service_id_of cx))
  else raise (runtime_error (_validation_failure_message "Post-deploy validation failed" report)).

(** ** Publication and registration *)

(** The payload's route configuration, an object since the generation *)
Definition the_publisher : outcome exn (RoutePublisher W) := _resolve_route_publisher access_control settings route_publisher.

Definition publication_mode (publication : option (dict pyval)) : pyval :=
  match publication with
  | Some p => match get_or_none p "mode" with VStr m => VStr m | _ => opt_str (ps_route_publish_mode settings) end
  | None => opt_str (ps_route_publish_mode settings)
  end.

Definition route_stage (cx : CompilationContext) : M StageExecutionResult :=
  v <- lifted (required cx "route_config") ;;
  publisher <- lifted the_publisher ;;
  route_config <- lifted (as_mapping v) ;;
  publication <- rp_publish publisher route_config ;;
  default_route <- lifted (as_mapping (get_default route_config "default_route" (VDict []))) ;;
  ret (_stage_result [("route_publication", opt_dict publication)]
         [("route_id", get_or_none default_route "route_id"); ("publication_mode", publication_mode publication)]
         (Some [("route_config", VDict route_config); ("publication", opt_dict publication)]) (cx_protocol cx) (service_id_of cx)).

(** A field of [ArtifactVersionCreate] that pydantic checks *)
Definition str_or_none (v : pyval) : outcome exn (option string) :=
  match v with VStr s => Ok (Some s) | VNone => Ok None | _ => Raise (mk_exn "ValidationError" "ArtifactVersionCreate" []) end.
Definition dict_or_missing (v : pyval) : outcome exn (option (dict pyval)) :=
  match v with VDict d => Ok (Some d) | VNone => Ok None | _ => Raise (mk_exn "ValidationError" "ArtifactVersionCreate" []) end.

(** What is registered *)
Definition artifact_payload (cx : CompilationContext) (ir : ServiceIR) (service_id : string) (version_number : Z) (manifest_yaml : string)
    : outcome exn Registry.ArtifactVersionCreate :=
  let storage := py_str repr (get_default (cx_payload cx) "manifest_storage_path" (VStr ("inline://generated/" +:+ uuid_str (cx_job_id cx)))) in
  let! validation_report := dict_or_missing (get_or_none (cx_payload cx) "post_validation_report") in
  let! deployment_revision := str_or_none (get_or_none (cx_payload cx) "deployment_revision") in
  let! route_config := dict_or_missing (get_or_none (cx_payload cx) "route_config") in
  Ok (Registry.mk_create service_id version_number (dump_ir ir) None (ir_compiler_version ir) (ir_source_url ir) (Some (ir_source_hash ir))
    (Some (ir_protocol ir)) validation_report deployment_revision route_config (ir_tenant ir) (ir_environment ir) (Some true)
    [Registry.mk_artifact "manifest" (sha256_hex manifest_yaml) (Some storage) None;
     Registry.mk_artifact "service_ir" (sha256_hex (serialize_ir ir))
       (Some ("inline://service-ir/" +:+ service_id +:+ "/v" +:+ str_of_Z version_number)) None]).

Definition register_stage (cx : CompilationContext) : M StageExecutionResult :=
  service_ir <- lifted (service_ir_of cx) ;;
  id <- lifted (required cx "service_id") ;;
  v <- lifted (required cx "version_number") ;;
  version_number <- lifted (to_int v) ;;
  y <- lifted (required cx "manifest_yaml") ;;
  let service_id := py_str repr id in
  payload <- lifted (artifact_payload cx service_ir service_id version_number (py_str repr y)) ;;
  created <- in_session _ (Registry.create_version normalize_ir_json payload true) ;;
  let row := Registry.rs_version created in
  ret (_stage_result [("registered_version", VInt (Registry.vr_version_number row))]
         [("service_id", VStr (Registry.vr_service_id row)); ("version_number", VInt (Registry.vr_version_number row))]
         None (Some (ir_protocol service_ir)) (Some service_id)).

(** ** Compensation *)

(** A payload that does not hold what a deployment left is passed over. *)
Definition deploy_rollback (cx : CompilationContext) (result : StageExecutionResult) : M unit :=
  let rollback_payload := default [] (sr_rollback_payload result) in
  match get_or_none rollback_payload "manifest_set", get_or_none rollback_payload "deployment" with
  | VDict manifest_payload, VDict deployment_payload =>
      match (let! g := _deserialize_manifest_set manifest_payload in
             let! d := _deserialize_deployment_result deployment_payload in Ok (g, d)) with
      | Ok (manifest_set, deployment) => deployer <- deployer_factory ;; md_rollback deployer manifest_set deployment
      | Raise _ => ret tt
      end
  | _, _ => ret tt
  end.

Definition route_rollback (cx : CompilationContext) (result : StageExecutionResult) : M unit :=
  let rollback_payload := default [] (sr_rollback_payload result) in
  match get_or_none rollback_payload "route_config", dict_get rollback_payload "publication" with
  | VDict route_config, (None | Some VNone) => publisher <- lifted the_publisher ;; rp_rollback publisher route_config None
  | VDict route_config, Some (VDict publication) => publisher <- lifted the_publisher ;; rp_rollback publisher route_config (Some publication)
  | _, _ => ret tt
  end.

(** ** The registry of activities *)

Record ActivityRegistry := mk_registry {
  stage_handlers : list (CompilationStage * (CompilationContext → M StageExecutionResult));
  rollback_handlers : list (CompilationStage * (CompilationContext → StageExecutionResult → M unit));
}.

Definition handler {H} (stage : CompilationStage) (handlers : list (CompilationStage * H)) : option H :=
  snd <$> List.find (λ kv, bool_decide (kv.1 = stage)) handlers.

(** [ActivityRegistry.run_stage] and [rollback_stage] *)
Definition registry_run_stage (r : ActivityRegistry) (stage : CompilationStage) (cx : CompilationContext) : M StageExecutionResult :=
  match handler stage (stage_handlers r) with
  | Some h => h cx
  | None => raise (key_error ("No activity handler registered for stage " +:+ stage_value stage +:+ "."))
  end.
Definition registry_rollback_stage (r : ActivityRegistry) (stage : CompilationStage) (cx : CompilationContext) (result : StageExecutionResult) : M unit :=
  match handler stage (rollback_handlers r) with
  | Some h => h cx result
  | None => ret tt
  end.

Definition create_default_activity_registry : ActivityRegistry :=
  mk_registry
    [(DETECT, detect_stage); (EXTRACT, extract_stage); (ENHANCE, enhance_stage); (VALIDATE_IR, validate_ir_stage); (GENERATE, generate_stage);
     (DEPLOY, deploy_stage); (VALIDATE_RUNTIME, validate_runtime_stage); (ROUTE, route_stage); (REGISTER, register_stage)]
    [(DEPLOY, deploy_rollback); (ROUTE, route_rollback)].

(** The registry as the workflow's activities *)
Definition default_activities : CompilationActivities W :=
  mk_activities W (registry_run_stage create_default_activity_registry) (registry_rollback_stage create_default_activity_registry).
End activities.

(** ** What each stage did, when it returned *)

Section stages.
Context {W : Type} `{!Worker W}.

Lemma lifted_ok {A} (o : outcome exn A) (w w' : W) a : lifted o w = (Ok a, w') ↔ o = Ok a ∧ w' = w.
Proof. unfold lifted. naive_solver. Qed.

Lemma validate_ir_inv cx (w w' : W) r : validate_ir_stage cx w = (Ok r, w') →
  ∃ ir report, service_ir_of cx = Ok ir ∧ pre_deploy_report ir w = (Ok report, w') ∧ vp_overall_passed report = true ∧
    sr_context_updates r = [("pre_validation_report", VDict (report_document report))].
Proof.
  unfold validate_ir_stage. intros H. mbind H ir w1 H1. apply lifted_ok in H1 as [H1 ->]. mbind H report w2 H2.
  destruct (vp_overall_passed report) eqn:E; [|done]. injection H as <- <-. by exists ir, report.
Qed.

Lemma generate_inv cx (w w' : W) r : generate_stage cx w = (Ok r, w') →
  ∃ ir sid v n g, service_ir_of cx = Ok ir ∧ required cx "service_id" = Ok sid ∧ required cx "version_number" = Ok v ∧ to_int v = Ok n ∧
    generate_manifests (is_codegen (rq_options (cx_request cx))) ir (py_str repr sid) n = Ok g ∧ w' = w ∧
    sr_context_updates r = [("manifest_yaml", VStr (gm_yaml g)); ("route_config", VDict (gm_route_config g));
                            ("generated_manifest_set", VDict (_serialize_manifest_set g))].
Proof.
  unfold generate_stage. intros H. mbind H ir w1 H1. apply lifted_ok in H1 as [H1 ->]. mbind H sid w1 H2. apply lifted_ok in H2 as [H2 ->].
  mbind H v w1 H3. apply lifted_ok in H3 as [H3 ->]. mbind H n w1 H4. apply lifted_ok in H4 as [H4 ->].
  mbind H g w1 H5. apply lifted_ok in H5 as [H5 ->]. mbind H m w1 H6. apply lifted_ok in H6 as [_ ->].
  mbind H name w1 H7. apply lifted_ok in H7 as [_ ->]. injection H as <- <-. by exists ir, sid, v, n, g.
Qed.

(** The manifest set comes back from the payload as it went in. *)
Lemma manifest_set_roundtrip g : _deserialize_manifest_set (_serialize_manifest_set g) = Ok g.
Proof. by destruct g. Qed.
Lemma deployment_roundtrip d : _deserialize_deployment_result (deployment_document d) = Ok d.
Proof. by destruct d. Qed.

Lemma deploy_inv cx (w w' : W) r : deploy_stage cx w = (Ok r, w') →
  ∃ g deployer d w1, _manifest_set_from_context cx = Ok g ∧ deployer_factory w = (Ok deployer, w1) ∧ md_deploy deployer g w1 = (Ok d, w') ∧
    sr_context_updates r = deployment_document d ∧
    sr_rollback_payload r = Some [("manifest_set", VDict (_serialize_manifest_set g)); ("deployment", VDict (deployment_document d))].
Proof.
  unfold deploy_stage. intros H. mbind H g w1 H1. apply lifted_ok in H1 as [H1 ->]. mbind H deployer w1 H2. mbind H d w2 H3.
  injection H as <- <-. by exists g, deployer, d, w1.
Qed.

Lemma validate_runtime_inv cx (w w' : W) r : validate_runtime_stage cx w = (Ok r, w') →
  ∃ ir url report, service_ir_of cx = Ok ir ∧ required cx "runtime_base_url" = Ok url ∧
    post_deploy_report (py_str repr url) ir (rq_options (cx_request cx)) w = (Ok report, w') ∧ vp_overall_passed report = true ∧
    ∃ samples, sr_context_updates r = [("post_validation_report", VDict (report_document report)); ("sample_invocations", samples)].
Proof.
  unfold validate_runtime_stage. intros H. mbind H ir w1 H1. apply lifted_ok in H1 as [H1 ->]. mbind H url w1 H2. apply lifted_ok in H2 as [H2 ->].
  mbind H report w1 H3. destruct (vp_overall_passed report) eqn:E; [|done]. injection H as <- <-. exists ir, url, report. split_and!; [done..|by eexists].
Qed.

Lemma route_inv cx (w w' : W) r : route_stage cx w = (Ok r, w') →
  ∃ v rc publisher publication, required cx "route_config" = Ok v ∧ as_mapping v = Ok rc ∧ the_publisher = Ok publisher ∧
    rp_publish publisher rc w = (Ok publication, w') ∧ sr_context_updates r = [("route_publication", opt_dict publication)] ∧
    sr_rollback_payload r = Some [("route_config", VDict rc); ("publication", opt_dict publication)].
Proof.
  unfold route_stage. intros H. mbind H v w1 H1. apply lifted_ok in H1 as [H1 ->]. mbind H publisher w1 H2. apply lifted_ok in H2 as [H2 ->].
  mbind H rc w1 H3. apply lifted_ok in H3 as [H3 ->]. mbind H publication w1 H4. mbind H route w2 H5. apply lifted_ok in H5 as [_ ->].
  injection H as <- <-. by exists v, rc, publisher, publication.
Qed.

Lemma register_inv cx (w w' : W) r : register_stage cx w = (Ok r, w') →
  ∃ ir sid v n y payload created, service_ir_of cx = Ok ir ∧ required cx "service_id" = Ok sid ∧ required cx "version_number" = Ok v ∧ to_int v = Ok n ∧
    required cx "manifest_yaml" = Ok y ∧ artifact_payload cx ir (py_str repr sid) n (py_str repr y) = Ok payload ∧
    in_session _ (Registry.create_version normalize_ir_json payload true) w = (Ok created, w') ∧
    ∃ m, sr_context_updates r = [("registered_version", m)].
Proof.
  unfold register_stage. intros H. mbind H ir w1 H1. apply lifted_ok in H1 as [H1 ->]. mbind H sid w1 H2. apply lifted_ok in H2 as [H2 ->].
  mbind H v w1 H3. apply lifted_ok in H3 as [H3 ->]. mbind H n w1 H4. apply lifted_ok in H4 as [H4 ->]. mbind H y w1 H5. apply lifted_ok in H5 as [H5 ->].
  mbind H payload w1 H6. apply lifted_ok in H6 as [H6 ->]. mbind H created w1 H7. injection H as <- <-. exists ir, sid, v, n, y, payload, created. split_and!; [done..|by eexists].
Qed.

(** ** From a checked description to a registered service *)

(** The stages in order, as [run] goes through them when none of them fails *)
Definition advance (stages : list CompilationStage) (cx : CompilationContext) : comp W exn CompilationContext :=
  fold_each (λ cx stage, r <- run_stage default_activities stage cx ;; ret (apply_result cx stage r)) cx stages.

Lemma advance_cons stage stages cx w cx' w' : advance (stage :: stages) cx w = (Ok cx', w') →
  ∃ r w1, run_stage default_activities stage cx w = (Ok r, w1) ∧ advance stages (apply_result cx stage r) w1 = (Ok cx', w').
Proof.
  unfold advance. cbn [fold_each]. intros H. mbind H cx1 w1 H1. mbind H1 r w2 H2. injection H1 as <- <-. by exists r, w2.
Qed.

(** One compilation's results *)
Record delivery := mk_delivery {
  dl_ir : ServiceIR;
  dl_service_id : string;
  dl_version : Z;
  dl_checked : ValidationReport;
  dl_manifests : GeneratedManifestSet;
  dl_deployment : DeploymentResult;
  dl_tried : ValidationReport;
  dl_publication : option (dict pyval);
}.

(** What the registry is given for them *)
Definition registration (x : delivery) : Registry.ArtifactVersionCreate :=
  let ir := dl_ir x in
  Registry.mk_create (dl_service_id x) (dl_version x) (dump_ir ir) None (ir_compiler_version ir) (ir_source_url ir) (Some (ir_source_hash ir))
    (Some (ir_protocol ir)) (Some (report_document (dl_tried x))) (Some (dp_deployment_revision (dl_deployment x)))
    (Some (gm_route_config (dl_manifests x))) (ir_tenant ir) (ir_environment ir) (Some true)
    [Registry.mk_artifact "manifest" (sha256_hex (gm_yaml (dl_manifests x))) (Some (dp_manifest_storage_path (dl_deployment x))) None;
     Registry.mk_artifact "service_ir" (sha256_hex (serialize_ir ir))
       (Some ("inline://service-ir/" +:+ dl_service_id x +:+ "/v" +:+ str_of_Z (dl_version x))) None].

(** The same description is checked, turned into manifests, deployed, tried out,
    published and registered, each step in the state the one before it left. *)
Definition delivers (options : dict pyval) (x : delivery) (w w' : W) : Prop :=
  ∃ w1 w2 w3 w4 w5 deployer publisher created,
    pre_deploy_report (dl_ir x) w = (Ok (dl_checked x), w1) ∧ vp_overall_passed (dl_checked x) = true ∧
    generate_manifests (is_codegen options) (dl_ir x) (dl_service_id x) (dl_version x) = Ok (dl_manifests x) ∧
    deployer_factory w1 = (Ok deployer, w2) ∧ md_deploy deployer (dl_manifests x) w2 = (Ok (dl_deployment x), w3) ∧
    post_deploy_report (dp_runtime_base_url (dl_deployment x)) (dl_ir x) options w3 = (Ok (dl_tried x), w4) ∧ vp_overall_passed (dl_tried x) = true ∧
    the_publisher = Ok publisher ∧ rp_publish publisher (gm_route_config (dl_manifests x)) w4 = (Ok (dl_publication x), w5) ∧
    in_session _ (Registry.create_version normalize_ir_json (registration x) true) w5 = (Ok created, w').

Abbreviation payload cx k := (dict_get (cx_payload cx) k).

Lemma payload_kept cx stage r k : dict_wf (sr_context_updates r) → k ∉ dict_keys (sr_context_updates r) →
  payload (apply_result cx stage r) k = payload cx k.
Proof. intros Hwf Hk. cbn. rewrite dict_get_update by done. apply dict_get_None in Hk. by rewrite Hk. Qed.

Lemma payload_set cx stage r k v : dict_wf (sr_context_updates r) → dict_get (sr_context_updates r) k = Some v →
  payload (apply_result cx stage r) k = Some v.
Proof. intros Hwf Hk. cbn. rewrite dict_get_update by done. by rewrite Hk. Qed.

Lemma required_same cx cx' k : payload cx' k = payload cx k → required cx' k = required cx k.
Proof. unfold required. by intros ->. Qed.
Lemma service_ir_same cx cx' : payload cx' "service_ir" = payload cx "service_ir" → service_ir_of cx' = service_ir_of cx.
Proof. intros H. unfold service_ir_of. by rewrite (required_same cx cx'). Qed.

Lemma required_get cx k v : payload cx k = Some v → required cx k = Ok v.
Proof. unfold required. by intros ->. Qed.

Definition delivery_stages : list CompilationStage := [VALIDATE_IR; GENERATE; DEPLOY; VALIDATE_RUNTIME; ROUTE; REGISTER].

(** The identity of a compilation, which none of these stages touches *)
Definition same_identity (cx cx' : CompilationContext) : Prop :=
  (∀ k, k ∈ ["service_ir"; "service_id"; "version_number"] → payload cx' k = payload cx k) ∧ cx_request cx' = cx_request cx ∧ cx_job_id cx' = cx_job_id cx.

Lemma identity_kept cx cx' stage r : same_identity cx cx' → dict_wf (sr_context_updates r) →
  (∀ k, k ∈ ["service_ir"; "service_id"; "version_number"] → k ∉ dict_keys (sr_context_updates r)) → same_identity cx (apply_result cx' stage r).
Proof. intros (Hp & Hr & Hj) Hwf Hk. split_and!; [|done..]. intros k Hin. rewrite payload_kept by auto. by apply Hp. Qed.

Ltac wf_keys Hu := unfold dict_wf; rewrite Hu; by_eval.
Ltac untouched Hu := let k := fresh in let Hk := fresh in
  intros k Hk; unfold dict_keys; rewrite Hu; revert k Hk; apply Forall_forall; by_eval.
Ltac outside Hu := unfold dict_keys; rewrite Hu; by_eval.

Lemma artifact_payload_of cx ir sid n g d post pre publication : let x := mk_delivery ir sid n pre g d post publication in
  payload cx "post_validation_report" = Some (VDict (report_document post)) → payload cx "deployment_revision" = Some (VStr (dp_deployment_revision d)) →
  payload cx "route_config" = Some (VDict (gm_route_config g)) → payload cx "manifest_storage_path" = Some (VStr (dp_manifest_storage_path d)) →
  artifact_payload cx ir sid n (gm_yaml g) = Ok (registration x).
Proof. intros x Q1 Q2 Q3 Q4. unfold artifact_payload, get_or_none, get_default. by rewrite Q1, Q2, Q3, Q4. Qed.

Ltac look_up := cbn [cx_payload apply_result];
  repeat match goal with U : sr_context_updates ?r = _ |- context [sr_context_updates ?r] => rewrite U end;
  unfold deployment_document; rewrite ?dict_get_update by (unfold dict_wf; by_eval); reflexivity.

(** C2. What a compilation registers is what it checked: if the stages from the
    pre-deployment check to the registration all return, then one description went
    through all of them - it passed the checks, its manifests were the ones
    deployed, the runtime they gave answered the smoke tests at the address the
    deployer reported, their routes were the ones published - and the registered
    version names that description, that deployment's revision, those routes and
    that passed report. *)
Theorem delivery_refines cx w cx' w' : advance delivery_stages cx w = (Ok cx', w') →
  ∃ x sid v, service_ir_of cx = Ok (dl_ir x) ∧ required cx "service_id" = Ok sid ∧ dl_service_id x = py_str repr sid ∧
    required cx "version_number" = Ok v ∧ to_int v = Ok (dl_version x) ∧ delivers (rq_options (cx_request cx)) x w w'.
Proof.
  unfold delivery_stages. intros H. assert (same_identity cx cx) as I0 by by split_and!.
  apply advance_cons in H as (r1 & w1 & H1 & H). apply validate_ir_inv in H1 as (ir & pre & Hir & Hpre & Hpassed & U1).
  apply (identity_kept _ _ VALIDATE_IR r1) in I0 as I1; [|wf_keys U1|untouched U1].
  apply advance_cons in H as (r2 & w2 & H2 & H). apply generate_inv in H2 as (ir2 & sid & v & n & g & Hir2 & Hsid & Hv & Hn & Hg & -> & U2).
  apply (identity_kept _ _ GENERATE r2) in I1 as I2; [|wf_keys U2|untouched U2].
  apply advance_cons in H as (r3 & w3 & H3 & H). apply deploy_inv in H3 as (g3 & deployer & d & w2 & Hg3 & Hdep & Hd & U3 & _).
  apply (identity_kept _ _ DEPLOY r3) in I2 as I3; [|wf_keys U3|untouched U3].
  apply advance_cons in H as (r4 & w4 & H4 & H). apply validate_runtime_inv in H4 as (ir4 & url & post & Hir4 & Hurl & Hpost & Hok & samples & U4).
  apply (identity_kept _ _ VALIDATE_RUNTIME r4) in I3 as I4; [|wf_keys U4|untouched U4].
  apply advance_cons in H as (r5 & w5 & H5 & H). apply route_inv in H5 as (rcv & rc & publisher & publication & Hrcv & Hrc & Hpub & Hroute & U5 & _).
  apply (identity_kept _ _ ROUTE r5) in I4 as I5; [|wf_keys U5|untouched U5].
  apply advance_cons in H as (r6 & w6 & H6 & H). apply register_inv in H6 as (ir6 & sid6 & v6 & n6 & y & p & created & Hir6 & Hsid6 & Hv6 & Hn6 & Hy & Hp & Hcreate & _).
  injection H as <- <-.
  destruct I1 as (P1 & R1 & J1), I2 as (P2 & R2 & J2), I3 as (P3 & R3 & J3), I4 as (P4 & R4 & J4), I5 as (P5 & R5 & J5).
  assert (∀ c, (∀ k, k ∈ ["service_ir"; "service_id"; "version_number"] → payload c k = payload cx k) →
    service_ir_of c = service_ir_of cx ∧ required c "service_id" = required cx "service_id" ∧ required c "version_number" = required cx "version_number") as Hsame.
  { intros c Hc. split_and!; [apply service_ir_same|apply required_same|apply required_same]; apply Hc; by_eval. }
  destruct (Hsame _ P1) as (E1 & F1 & G1), (Hsame _ P3) as (E3 & _ & _), (Hsame _ P5) as (E5 & F5 & G5).
  rewrite E1, Hir in Hir2. injection Hir2 as <-. rewrite E3, Hir in Hir4. injection Hir4 as <-. rewrite E5, Hir in Hir6. injection Hir6 as <-.
  rewrite F1 in Hsid. rewrite G1 in Hv. rewrite F5, Hsid in Hsid6. injection Hsid6 as <-. rewrite G5, Hv in Hv6. injection Hv6 as <-.
  rewrite Hn in Hn6. injection Hn6 as <-.
  assert (g3 = g) as ->.
  { unfold _manifest_set_from_context in Hg3.
    assert (get_or_none (cx_payload (apply_result (apply_result cx VALIDATE_IR r1) GENERATE r2)) "generated_manifest_set"
            = VDict (_serialize_manifest_set g)) as Hget by (unfold get_or_none; look_up).
    rewrite Hget, manifest_set_roundtrip in Hg3. by injection Hg3. }
  set (c2 := apply_result _ GENERATE r2) in *. set (c3 := apply_result c2 DEPLOY r3) in *. set (c4 := apply_result c3 VALIDATE_RUNTIME r4) in *.
  set (c5 := apply_result c4 ROUTE r5) in *.
  rewrite (required_get c3 "runtime_base_url" (VStr (dp_runtime_base_url d))) in Hurl by (subst c3 c2; look_up). injection Hurl as <-.
  rewrite (required_get c4 "route_config" (VDict (gm_route_config g))) in Hrcv by (subst c4 c3 c2; look_up). injection Hrcv as <-.
  injection Hrc as <-.
  rewrite (required_get c5 "manifest_yaml" (VStr (gm_yaml g))) in Hy by (subst c5 c4 c3 c2; look_up). injection Hy as <-.
  exists (mk_delivery ir (py_str repr sid) n pre g d post publication), sid, v. split_and!; [done..|].
  cbn [py_str] in Hp. rewrite (artifact_payload_of c5 ir (py_str repr sid) n g d post pre publication) in Hp by (subst c5 c4 c3 c2; look_up).
  injection Hp as <-.
  exists w1, w2, w3, w4, w5, deployer, publisher, created. split_and!; try done.
Qed.

(** ** Compensation *)

(** C3. Compensating undoes exactly what the stage did: rolling back a stage that
    returned asks the deployer to remove the manifest set it deployed, with the
    deployment it reported, and the publisher to withdraw the routes it published,
    with what that publication replaced; every other stage has nothing to undo. *)
Theorem compensation_matches stage cx w r w' : run_stage default_activities stage cx w = (Ok r, w') →
  ∀ cx1 w1,
  match stage with
  | DEPLOY => ∃ g deployer d w0, deployer_factory w = (Ok deployer, w0) ∧ md_deploy deployer g w0 = (Ok d, w') ∧
      rollback_stage default_activities DEPLOY cx1 r w1 = (deployer1 <- deployer_factory ;; md_rollback deployer1 g d) w1
  | ROUTE => ∃ publisher rc publication, the_publisher = Ok publisher ∧ rp_publish publisher rc w = (Ok publication, w') ∧
      rollback_stage default_activities ROUTE cx1 r w1 = rp_rollback publisher rc publication w1
  | _ => rollback_stage default_activities stage cx1 r w1 = (Ok tt, w1)
  end.
Proof.
  intros H cx1 w1. destruct stage; try done.
  - apply deploy_inv in H as (g & deployer & d & w0 & _ & Hf & Hd & _ & Hr). exists g, deployer, d, w0. split_and!; [done..|].
    change (rollback_stage default_activities DEPLOY cx1 r) with (deploy_rollback cx1 r). unfold deploy_rollback. rewrite Hr.
    cbn [default get_or_none]. change (get_or_none _ "manifest_set") with (VDict (_serialize_manifest_set g)).
    change (get_or_none _ "deployment") with (VDict (deployment_document d)). cbv beta iota.
    by rewrite manifest_set_roundtrip, deployment_roundtrip.
  - apply route_inv in H as (v & rc & publisher & publication & _ & _ & Hp & Hpub & _ & Hr). exists publisher, rc, publication. split_and!; [done..|].
    change (rollback_stage default_activities ROUTE cx1 r) with (route_rollback cx1 r). unfold route_rollback. rewrite Hr. rewrite Hp.
    by destruct publication.
Qed.

(** ** Inputs and outputs *)

(** What each stage reads of the payload, and what it adds *)
Definition inputs_of (stage : CompilationStage) : list string :=
  match stage with
  | DETECT | EXTRACT => []
  | ENHANCE | VALIDATE_IR => ["service_ir"]
  | GENERATE => ["service_ir"; "service_id"; "version_number"]
  | DEPLOY => ["generated_manifest_set"]
  | VALIDATE_RUNTIME => ["service_ir"; "runtime_base_url"]
  | ROUTE => ["route_config"]
  | REGISTER => ["service_ir"; "service_id"; "version_number"; "manifest_yaml"; "post_validation_report"; "deployment_revision"; "route_config"; "manifest_storage_path"]
  end.
Definition outputs_of (stage : CompilationStage) : list string :=
  match stage with
  | DETECT => ["detection_confidence"]
  | EXTRACT => ["service_id"; "service_ir"; "source_hash"; "version_number"]
  | ENHANCE => ["service_ir"; "token_usage"]
  | VALIDATE_IR => ["pre_validation_report"]
  | GENERATE => ["manifest_yaml"; "route_config"; "generated_manifest_set"]
  | DEPLOY => ["deployment_revision"; "runtime_base_url"; "manifest_storage_path"]
  | VALIDATE_RUNTIME => ["post_validation_report"; "sample_invocations"]
  | ROUTE => ["route_publication"]
  | REGISTER => ["registered_version"]
  end.

Lemma finally_ok {A} (m : comp W exn A) close w a w' : finally m close w = (Ok a, w') → ∃ w1, m w = (Ok a, w1) ∧ close w1 = (Ok tt, w').
Proof.
  unfold finally. intros H. mbind H o w1 H1. mbind H u w2 H2. apply lifted_ok in H as [-> ->]. destruct u.
  unfold attempt in H1. destruct (m w) as [o w3]. injection H1 as -> ->. by exists w1.
Qed.

Lemma stage_outputs stage cx w r w' : run_stage default_activities stage cx w = (Ok r, w') → dict_keys (sr_context_updates r) = outputs_of stage.
Proof.
  destruct stage; intros H.
  - change (detect_stage cx w = (Ok r, w')) in H. unfold detect_stage in H. mbind H source w1 H1. mbind H exts w2 H2.
    apply finally_ok in H as (w3 & H & _). destruct (nonempty_str _); [by injection H as <- _|]. mbind H d w4 H4. by injection H as <- _.
  - change (extract_stage cx w = (Ok r, w')) in H. unfold extract_stage in H. mbind H source w1 H1. mbind H exts w2 H2.
    apply finally_ok in H as (w3 & H & _). mbind H e w4 H4. mbind H ir w5 H5. mbind H ir2 w6 H6. mbind H n w7 H7. by injection H as <- _.
  - change (enhance_stage cx w = (Ok r, w')) in H. unfold enhance_stage in H. mbind H ir w1 H1. destruct (negb _).
    + mbind H ir2 w2 H2. by injection H as <- _.
    + mbind H c w2 H2. mbind H u w3 H3. mbind H b w4 H4. mbind H e w5 H5. mbind H d w6 H6. mbind H ir2 w7 H7. by injection H as <- _.
  - apply validate_ir_inv in H as (ir & report & _ & _ & _ & U). by rewrite U.
  - apply generate_inv in H as (ir & sid & v & n & g & _ & _ & _ & _ & _ & _ & U). by rewrite U.
  - apply deploy_inv in H as (g & deployer & d & w1 & _ & _ & _ & U & _). by rewrite U.
  - apply validate_runtime_inv in H as (ir & url & report & _ & _ & _ & _ & samples & U). by rewrite U.
  - apply route_inv in H as (v & rc & publisher & publication & _ & _ & _ & _ & U & _). by rewrite U.
  - apply register_inv in H as (ir & sid & v & n & y & p & created & _ & _ & _ & _ & _ & _ & _ & m & U). by rewrite U.
Qed.

Lemma advance_outputs stages cx w cx' w' : advance stages cx w = (Ok cx', w') →
  ∀ k, k ∈ (stages ≫= outputs_of) → is_Some (payload cx' k).
Proof.
  assert (∀ stages cx w cx' w', advance stages cx w = (Ok cx', w') → ∀ k, is_Some (payload cx k) ∨ k ∈ (stages ≫= outputs_of) → is_Some (payload cx' k)) as Hgen.
  { clear. induction stages as [|st l IH]; intros cx w cx' w' H k Hk; [injection H as <- _; destruct Hk as [?|[]%elem_of_nil]; done|].
    apply advance_cons in H as (r & w1 & Hr & H). pose proof (stage_outputs _ _ _ _ _ Hr) as Hout. apply (IH _ _ _ _ H).
    assert (dict_wf (sr_context_updates r)) as Hwf by (unfold dict_wf; rewrite Hout; destruct st; by_eval).
    cbn [mbind list_bind] in Hk. rewrite elem_of_app in Hk. cbn [cx_payload apply_result]. rewrite dict_get_update by exact Hwf.
    destruct (dict_get (sr_context_updates r) k) eqn:E; [left; by eexists|]. apply dict_get_None in E. rewrite Hout in E.
    destruct Hk as [?|[?|?]]; [by left|done|by right]. }
  intros H k Hk. eapply Hgen; [exact H|by right].
Qed.

(** Contexts that a stage cannot tell apart *)
Definition alike (stage : CompilationStage) (cx cx' : CompilationContext) : Prop :=
  cx_request cx' = cx_request cx ∧ cx_job_id cx' = cx_job_id cx ∧ cx_protocol cx' = cx_protocol cx ∧
  ∀ k, k ∈ "service_id" :: inputs_of stage → payload cx' k = payload cx k.

Lemma stage_reads stage cx cx' w : alike stage cx cx' → run_stage default_activities stage cx' w = run_stage default_activities stage cx w.
Proof.
  intros (Hrq & Hid & Hpr & Hk).
  assert (service_id_of cx' = service_id_of cx) as Hs by (unfold service_id_of, get_or_none; rewrite (Hk "service_id") by left; done).
  assert (∀ k, k ∈ inputs_of stage → required cx' k = required cx k) as Hreq by (intros k Hin; apply required_same, Hk; by right).
  assert (_source_config_from_context cx' = _source_config_from_context cx) as Hsrc by (unfold _source_config_from_context; by rewrite Hrq).
  assert ("service_ir" ∈ inputs_of stage → service_ir_of cx' = service_ir_of cx) as Hir by (intros Hin; apply service_ir_same, Hk; by right).
  destruct stage.
  - change (detect_stage cx' w = detect_stage cx w). unfold detect_stage. by rewrite Hsrc.
  - change (extract_stage cx' w = extract_stage cx w). unfold extract_stage, _resolve_extractor, known_protocol. by rewrite Hsrc, Hrq, Hpr.
  - change (enhance_stage cx' w = enhance_stage cx w). unfold enhance_stage. rewrite Hir by by_eval. by rewrite Hrq, Hs.
  - change (validate_ir_stage cx' w = validate_ir_stage cx w). unfold validate_ir_stage. rewrite Hir by by_eval. by rewrite Hpr, Hs.
  - change (generate_stage cx' w = generate_stage cx w). unfold generate_stage. rewrite Hir by by_eval. rewrite !Hreq by by_eval. by rewrite Hrq, Hs.
  - change (deploy_stage cx' w = deploy_stage cx w). unfold deploy_stage, _manifest_set_from_context, get_or_none. rewrite Hk by by_eval. by rewrite Hpr, Hs.
  - change (validate_runtime_stage cx' w = validate_runtime_stage cx w). unfold validate_runtime_stage. rewrite Hir by by_eval.
    rewrite Hreq by by_eval. by rewrite Hrq, Hs.
  - change (route_stage cx' w = route_stage cx w). unfold route_stage. rewrite Hreq by by_eval. by rewrite Hpr, Hs.
  - change (register_stage cx' w = register_stage cx w). unfold register_stage, artifact_payload, get_or_none, get_default.
    rewrite Hir by by_eval. rewrite !Hreq by by_eval. rewrite Hid.
    rewrite !(Hk "manifest_storage_path"), !(Hk "post_validation_report"), !(Hk "deployment_revision"), !(Hk "route_config") by by_eval. done.
Qed.

(** Every stage finds in the payload what it reads: nothing but the request, the
    protocol and the keys listed for it decide what a stage does, and in a
    compilation that got as far as a stage the ones before it have put each of those
    keys there. *)
Theorem stages_find_inputs before stage after job_id request w cx w' :
  all_stages = before ++ stage :: after → advance before (initial_context job_id request) w = (Ok cx, w') →
  (∀ k, k ∈ inputs_of stage → ∃ v, required cx k = Ok v) ∧
  (∀ cx1 w1, alike stage cx cx1 → run_stage default_activities stage cx1 w1 = run_stage default_activities stage cx w1).
Proof.
  intros Hsplit H. split; [|intros cx1 w1; apply stage_reads]. intros k Hk.
  destruct (advance_outputs _ _ _ _ _ H k) as [v Hv]; [|exists v; by apply required_get].
  revert k Hk. apply Forall_forall. clear H. unfold all_stages in Hsplit.
  do 9 (destruct before as [|? before]; cbn [app] in Hsplit; [injection Hsplit as <- _; by_eval|injection Hsplit as <- Hsplit]).
  by destruct before.
Qed.

(** ** The extractor a compilation uses *)

(** The name of a class does not depend on the client it is given. *)
Context (names_fixed : ∀ name c c', ex_protocol_name (construct name c) = ex_protocol_name (construct (W:=W) name c')).

Lemma extractors_names source source' exts exts' : _build_extractors (W:=W) source = Ok exts → _build_extractors source' = Ok exts' →
  ex_protocol_name <$> exts = ex_protocol_name <$> exts'.
Proof.
  unfold _build_extractors. intros (c & _ & [= <-])%obind_ok. intros (c' & _ & [= <-])%obind_ok. cbn.
  by rewrite (names_fixed "RESTExtractor" c c').
Qed.

Lemma find_named (l : list (ExtractorProtocol W)) p : p ∈ ex_protocol_name <$> l →
  ∃ e, List.find (λ e, str_eqb (ex_protocol_name e) p) l = Some e ∧ ex_protocol_name e = p.
Proof.
  induction l as [|e l IH]; [by intros []%elem_of_nil|]. cbn [fmap list_fmap List.find]. intros [->|Hp]%elem_of_cons.
  - exists e. by rewrite str_eqb_refl.
  - destruct (str_eqbP (ex_protocol_name e) p) as [<-|_]; [by exists e|by apply IH].
Qed.

(** A detected source is extracted by an extractor of the detected protocol, without
    asking the extractors again. *)
Lemma extraction_follows_detection cx w r w1 source exts : detect_stage cx w = (Ok r, w1) →
  _source_config_from_context cx = Ok source → dict_get (sc_hints source) "protocol" = None → _build_extractors (Some source) = Ok exts →
  ∃ p e, sr_protocol r = Some p ∧ ex_protocol_name e = p ∧
    (p ≠ "" → ∀ w2, _resolve_extractor (apply_result cx DETECT r) source exts w2 = (Ok e, w2)).
Proof.
  intros H Hsrc Hhint Hexts. unfold detect_stage in H. mbind H s w2 H1. apply lifted_ok in H1 as [H1 ->]. rewrite Hsrc in H1. injection H1 as <-.
  mbind H l w2 H2. apply lifted_ok in H2 as [Hl ->]. apply finally_ok in H as (w2 & H & _). rewrite Hhint in H. cbn in H. mbind H d w3 Hd. injection H as <- _.
  assert (dr_protocol_name d ∈ ex_protocol_name <$> exts) as Hin.
  { rewrite (extractors_names _ _ _ _ Hexts Hl). destruct (detected_among _ _ _ _ _ _ Hd) as [Hin ->]. by apply list_elem_of_fmap_2. }
  destruct (find_named exts _ Hin) as (e & He & Hname). exists (dr_protocol_name d), e. split_and!; [done|done|]. intros Hne w4.
  unfold _resolve_extractor, known_protocol. rewrite Hhint. cbn [apply_result cx_protocol _stage_result sr_protocol opt_or opt_truthy].
  destruct (dr_protocol_name d) as [|c p] eqn:Ep; [done|]. cbn [str_truthy]. cbn -[List.find]. by rewrite He.
Qed.
End stages.

(** ** Compensation in the cluster *)

Section cluster.
Context {W : Type} `{!Worker W} (objects : W → string → option (dict pyval)) `{!ClusterLaws W objects}.

(** With Kubernetes underneath, a deployment whose compensation returned has left
    nothing behind, and the compensation touched nothing else. *)
Lemma compensated_deployment_is_gone fuel k cx w r w' cx1 w1 w2 :
  (∀ w, deployer_factory w = (Ok (kubernetes_manifest_deployer fuel k), w)) →
  run_stage default_activities DEPLOY cx w = (Ok r, w') → rollback_stage default_activities DEPLOY cx1 r w1 = (Ok tt, w2) →
  ∃ g rs, _manifest_set_from_context cx = Ok g ∧ resources_of (Cluster0 := worker_cluster) g = Ok rs ∧
    (∀ x, x ∈ rs → objects w2 (path_of (kd_namespace k) x) = None) ∧ same_outside objects (path_of (kd_namespace k) <$> rs) w1 w2.
Proof.
  intros Hf Hd Hr. apply deploy_inv in Hd as (g & deployer & d & w0 & Hg & _ & _ & _ & Hp).
  change (deploy_rollback cx1 r w1 = (Ok tt, w2)) in Hr. unfold deploy_rollback in Hr. rewrite Hp in Hr. cbn [default] in Hr.
  change (get_or_none _ "manifest_set") with (VDict (_serialize_manifest_set g)) in Hr.
  change (get_or_none _ "deployment") with (VDict (deployment_document d)) in Hr. cbv beta iota in Hr.
  rewrite manifest_set_roundtrip, deployment_roundtrip in Hr. cbn [obind] in Hr. mbind Hr dep w3 Hw. rewrite Hf in Hw. injection Hw as <- <-.
  cbn [md_rollback kubernetes_manifest_deployer] in Hr. destruct (resources_of (Cluster0 := worker_cluster) g) as [rs|e] eqn:Ers.
  - exists g, rs. split_and!; [done|done|..]; by apply (rollback_deletes objects k g rs w1 w2 Ers).
  - exfalso. unfold Kubernetes.rollback, closing, bind, attempt, lifted, when in Hr. rewrite Ers in Hr.
    destruct (kd_owns_api_client k); [|done]. by destruct (kube_close w1) as [[[]|] ?].
Qed.
End cluster.

(** ** Version numbers *)

(** The next version is larger than any the service has, whatever scope it is in. *)
Lemma max_version_spec service_id s : ∃ m, max_version service_id s = (Ok m, s) ∧
  ∀ r, r ∈ Registry.versions (Registry.working s) → Registry.vr_service_id r = service_id → Registry.vr_version_number r ≤ default 0 m.
Proof.
  unfold max_version, Registry.select_versions, bind, gets, ret. eexists. split; [reflexivity|]. intros r Hr Hid.
  set (rows := List.filter _ (Registry.versions (Registry.working s))).
  assert (Registry.vr_version_number r ∈ Registry.vr_version_number <$> rows) as Hin.
  { apply list_elem_of_fmap_2, elem_of_filterb. split; [|done]. by apply str_eqb_eq. }
  revert Hin. generalize (Registry.vr_version_number <$> rows), (Registry.vr_version_number r). clear. intros l n.
  destruct l as [|x l]; [by intros []%elem_of_nil|]. cbn [default].
  assert (∀ l x n, n ≤ x ∨ n ∈ l → n ≤ foldl Z.max x l) as Hmax; [|intros [->|Hn]%elem_of_cons; apply Hmax; [left; lia|by right]].
  clear. induction l as [|y l IH]; intros x n; cbn; [by intros [?|[]%elem_of_nil]|]. intros [H|[->|H]%elem_of_cons]; apply IH; [left; lia|left; lia|by right].
Qed.

(** ** What counts as a working tool *)

(** Any answer the runtime marks as an error passes the smoke test, whatever went
    wrong: the invoker reports it as an upstream's error, which counts as proof of
    connectivity. *)
Lemma error_results_pass ir operation_id r : ct_is_error r = true → _tool_result_failure_reason ir operation_id (tool_answer r) = None.
Proof. intros H. unfold tool_answer. by rewrite H. Qed.

(** ** A worker to try out *)

Definition demo_rest_document : dict pyval := [("service_name", VStr "pets")].
Definition demo_extractor {W} (name : string) : ExtractorProtocol W :=
  mk_extractor name (λ _ w, (Ok (if str_eqb name "RESTExtractor" then 1%float else 0%float), w)) (λ _, ret demo_rest_ir) None.
Definition demo_deployer : ManifestDeployer Registry.session :=
  mk_manifest_deployer (λ _, ret (mk_deployment_result "pets-v1@g1-rv7" "http://pets-v1:8003" "k8s://default/deployments/pets-v1")) (λ _ _, ret tt).
Definition demo_clock {W} : Cluster W := {|
  kube_patch _ _ := raise (runtime_error "no cluster"); kube_post _ _ := raise (runtime_error "no cluster");
  kube_delete _ := raise (runtime_error "no cluster"); kube_get _ := raise (runtime_error "no cluster"); kube_close := ret tt;
  loop_time w := (0%float, w); async_sleep _ := ret tt; krepr := no_repr |}.

Definition demo_worker_with {W} (run : ∀ A, comp Registry.session exn A → comp W exn A) (deployer : ManifestDeployer W) (publisher : RoutePublisher W)
    (call : CallToolResult) : Worker W := {|
  worker_cluster := demo_clock;
  environ _ := None; repr := no_repr; parse_float _ := None; sha256_hex s := s; b64encode s := s; json_indent := no_repr;
  json_loads _ := None; coerce_int _ := None;
  read_fields d := if bool_decide (dict_keys d = ["service_name"]) then Ok demo_rest_ir else Raise (field_error "ServiceIR");
  read_auth_fields _ := Raise (field_error "AuthConfig"); dump_ir _ := demo_rest_document; serialize_ir _ := "{}";
  safe_dump _ := ""; safe_load _ := Ok (VDict [("metadata", VDict [("name", VStr "pets-v1")])]); gzip_base64 s := s;
  construct name _ := demo_extractor name; in_session := run; normalize_ir_json d := Ok d;
  run_batches _ _ := raise (runtime_error "no model"); complete _ := raise (runtime_error "no model");
  grouping_prompt _ _ := ""; examples_prompt _ _ := "";
  client_post _ _ _ := raise (runtime_error "no client"); fetch_ready _ := ret (mk_answers 200 200); close_ready _ := ret tt;
  client_get _ := serve the_state None (λ _, ret 200) (λ _, VDict []) (λ _, "{}") "http://pets-v1:8003"; client_close _ := ret tt;
  call_tool _ _ _ := ret call; show_seconds _ := "";
  settings := default_settings; deployer_factory := ret deployer; access_control _ _ := publisher; route_publisher := Some publisher; poll_fuel := 1 |}.
Definition demo_worker : CallToolResult → Worker Registry.session := demo_worker_with (λ _ m, m) demo_deployer (DeferredRoutePublisher "deferred").

Definition demo_call_ok : CallToolResult := mk_call_result false VNone (VDict [("status", VStr "ok"); ("result", VList [])]).
Definition demo_stage_request : CompilationRequest :=
  mk_request (Some "http://pets") None None None None (Some "pets") None [] None.
Definition empty_session : Registry.session := Registry.mk_session (Registry.mk_tables [] []) (Registry.mk_tables [] []) [1%N; 2%N].

Definition demo_advance (call : CallToolResult) (stages : list CompilationStage) : outcome exn CompilationContext * Registry.session :=
  advance (Worker0 := demo_worker call) stages (initial_context 7%N demo_stage_request) empty_session.

Example compiled_and_registered :
  match demo_advance demo_call_ok all_stages with
  | (Ok cx, s) => cx_protocol cx = Some "openapi" ∧
      (λ r, (Registry.vr_service_id r, Registry.vr_version_number r, Registry.vr_is_active r, Registry.vr_deployment_revision r))
        <$> Registry.versions (Registry.committed s) = [("pets", 1, true, Some "pets-v1@g1-rv7")]
  | _ => False
  end.
Proof. vm_compute. split; reflexivity. Qed.

(** A service none of whose tools work is registered as well: every call's error is
    taken for the upstream's. *)
Example broken_service_registered :
  match demo_advance (mk_call_result true (VStr "Error executing tool pets: secret PETS_API_TOKEN is not set") VNone) all_stages with
  | (Ok _, s) => length (Registry.versions (Registry.committed s)) = 1%nat
  | _ => False
  end.
Proof. vm_compute. reflexivity. Qed.

Definition demo_context (stages : list CompilationStage) : CompilationContext :=
  match (demo_advance demo_call_ok stages).1 with Ok cx => cx | Raise _ => initial_context 7%N demo_stage_request end.

Lemma delivery_refines_witness : ∃ x, dl_service_id x = "pets" ∧ dl_version x = 1 ∧ vp_overall_passed (dl_tried x) = true.
Proof.
  pose (cx := demo_context [DETECT; EXTRACT; ENHANCE]).
  assert (∃ cx' w', advance (Worker0 := demo_worker demo_call_ok) delivery_stages cx empty_session = (Ok cx', w')) as (cx' & w' & H)
    by (vm_compute; eexists _, _; reflexivity).
  destruct (delivery_refines (Worker0 := demo_worker demo_call_ok) cx empty_session cx' w' H)
    as (x & sid & v & _ & Hsid & Hx & Hv & Hn & w1 & w2 & w3 & w4 & w5 & dep & pub & created & _ & _ & _ & _ & _ & _ & Hok & _).
  exists x. split; [|split; [|exact Hok]].
  - rewrite Hx. assert (required cx "service_id" = Ok (VStr "pets")) as E by (vm_compute; reflexivity). rewrite E in Hsid. by injection Hsid as <-.
  - assert (required cx "version_number" = Ok (VInt 1)) as E by (vm_compute; reflexivity). rewrite E in Hv. injection Hv as <-.
    cbn in Hn. by injection Hn as <-.
Defined.

Lemma compensation_matches_witness :
  let cx := demo_context [DETECT; EXTRACT; ENHANCE; VALIDATE_IR; GENERATE] in
  ∃ r w' g d, run_stage (default_activities (Worker0 := demo_worker demo_call_ok)) DEPLOY cx empty_session = (Ok r, w') ∧
    rollback_stage (default_activities (Worker0 := demo_worker demo_call_ok)) DEPLOY cx r w' =
      (deployer <- deployer_factory (Worker := demo_worker demo_call_ok) ;; md_rollback deployer g d) w'.
Proof.
  intros cx.
  assert (∃ r w', run_stage (default_activities (Worker0 := demo_worker demo_call_ok)) DEPLOY cx empty_session = (Ok r, w'))
    as (r & w' & H) by (vm_compute; eexists _, _; reflexivity).
  destruct (compensation_matches (Worker0 := demo_worker demo_call_ok) DEPLOY cx empty_session r w' H cx w')
    as (g & deployer & d & w0 & _ & _ & Hr).
  exists r, w', g, d. split; [exact H|exact Hr].
Defined.

Lemma stages_find_inputs_witness :
  ∃ v, required (demo_context [DETECT; EXTRACT; ENHANCE; VALIDATE_IR]) "version_number" = Ok v.
Proof.
  pose (before := [DETECT; EXTRACT; ENHANCE; VALIDATE_IR]).
  assert (∃ w', advance (Worker0 := demo_worker demo_call_ok) before (initial_context 7%N demo_stage_request) empty_session = (Ok (demo_context before), w'))
    as (w' & H) by (vm_compute; eexists; reflexivity).
  destruct (stages_find_inputs (Worker0 := demo_worker demo_call_ok) before GENERATE [DEPLOY; VALIDATE_RUNTIME; ROUTE; REGISTER] 7%N demo_stage_request
    empty_session (demo_context before) w' eq_refl H) as [Hin _]. apply (Hin "version_number"). by_eval.
Defined.

(** Two compilations of one service that overlap take the same version number: the
    second deploys over the first one's resources, cannot register, and its
    compensation then removes the resources the registered version runs on. *)
Example overlapping_compilations_share_resources :
  let second := demo_context [DETECT; EXTRACT; ENHANCE; VALIDATE_IR; GENERATE; DEPLOY; VALIDATE_RUNTIME; ROUTE] in
  match demo_advance demo_call_ok all_stages with
  | (Ok first, s) =>
      dict_get (cx_payload first) "generated_manifest_set" = dict_get (cx_payload second) "generated_manifest_set" ∧
      match (register_stage (Worker0 := demo_worker demo_call_ok) second s).1 with
      | Raise e => exn_type e = "IntegrityError"
      | Ok _ => False
      end
  | _ => False
  end.
Proof. vm_compute. split; reflexivity. Qed.

(** A forced protocol no extractor has is reported as detected with full confidence,
    and then replaced by whatever detection finds. *)
Definition forced_request : CompilationRequest :=
  mk_request (Some "http://pets") None None None None (Some "pets") None [("force_protocol", VStr "cobol")] None.
Example unknown_forced_protocol_is_dropped :
  match (advance (Worker0 := demo_worker demo_call_ok) [DETECT] (initial_context 7%N forced_request) empty_session).1 with
  | Ok cx => cx_protocol cx = Some "cobol" ∧
      match (advance (Worker0 := demo_worker demo_call_ok) [EXTRACT] cx empty_session).1 with
      | Ok cx => cx_protocol cx = Some "openapi"
      | Raise _ => False
      end
  | Raise _ => False
  end.
Proof. vm_compute. split; reflexivity. Qed.

(** A description whose only native gRPC operation is disabled is refused: the stage
    asks about enabled operations, the validator judges all of them. *)
Definition demo_unary : Operation :=
  mk_operation "lookup" "lookup" "" (Some "POST") (Some "/pets.Pets/Lookup") [] None (mk_error_schema [] None) []
    (mk_risk None None None None unknown 1 src_extractor) (mk_strategy None None None None trunc_none) body_json None None None None
    (Some (mk_grpc_unary "/pets.Pets/Lookup" 10)) None None None None [] None src_extractor 1 None false.
Example disabled_unary_is_refused :
  let ir := ir_with_operations demo_rest_ir (demo_unary :: ir_operations demo_rest_ir) in
  (_has_native_grpc_unary ir, vr_passed (_validate_event_support false (_has_native_grpc_unary ir) ir)) = (false, false).
Proof. vm_compute. reflexivity. Qed.
