(* ===== verification/ProductionRollback.v ===== *)
(** * Rolling back in production ([apps/compiler_worker/activities/production.py])

    The deployer, validator and publisher [create_default_rollback_workflow] gives
    the rollback workflow: stored descriptions are turned into manifests again,
    deployed, waited for and tried out, and stored routes published again.  Its store
    is the artifact registry (RollbackWorkflow.RegistryStore). *)

From S2P Require Export Stages RollbackWorkflow.
From S2P Require Registry.

Section rollback.
Context {W : Type} `{!Worker W}.
(** [request_options] of the rollback's request *)
Context (request_options : dict pyval).

(** The workflow runs on the world and on [_latest_result], the deployer's memory. *)
Abbreviation memory := (W * option DeploymentResult)%type.
Definition in_world {A} (m : comp W exn A) : comp memory exn A := λ s, let '(o, w) := m s.1 in (o, (w, s.2)).

Definition version_name (v : ArtifactVersionResponse) : string :=
  Registry.vr_service_id (rs_version v) +:+ " v" +:+ str_of_Z (version_number v).

(** [_generate_manifest_set_for_version] *)
Definition _generate_manifest_set_for_version (v : ArtifactVersionResponse) : outcome exn GeneratedManifestSet :=
  let! service_ir := PreDeploy.model_validate read_fields (Registry.vr_ir_json (rs_version v)) in
  generate_manifests (is_codegen request_options) service_ir (Registry.vr_service_id (rs_version v)) (version_number v).

(** [GeneratedManifestRollbackDeployer] *)
Definition deployer_apply_version (v : ArtifactVersionResponse) : comp memory exn string :=
  manifest_set <- in_world (lifted (_generate_manifest_set_for_version v)) ;;
  deployer <- in_world deployer_factory ;;
  deployment_result <- in_world (md_deploy deployer manifest_set) ;;
  modify (λ s, (s.1, Some deployment_result)) ;;;
  ret (dp_deployment_revision deployment_result).

Definition deployer_wait_for_rollout (deployment_revision : string) : comp memory exn unit :=
  latest <- gets snd ;;
  match latest with
  | Some d => if str_eqb (dp_deployment_revision d) deployment_revision then ret tt
              else raise (runtime_error ("Rollback deployment revision " +:+ deployment_revision +:+ " is not available for validation."))
  | None => raise (runtime_error ("Rollback deployment revision " +:+ deployment_revision +:+ " is not available for validation."))
  end.

(** The property [runtime_base_url] *)
Definition runtime_base_url (s : memory) : option string := dp_runtime_base_url <$> s.2.

(** [VersionRouteRollbackPublisher.publish] *)
Definition publish_version (publisher : RoutePublisher W) (v : ArtifactVersionResponse) : comp memory exn unit :=
  match Registry.vr_route_config (rs_version v) with
  | Some route_config => in_world (rp_publish publisher route_config) ;;; ret tt
  | None => raise (runtime_error ("Rollback target " +:+ version_name v +:+ " is missing route_config."))
  end.

(** [RuntimeRollbackValidator.validate] *)
Definition validate_version (v : ArtifactVersionResponse) : comp memory exn (dict pyval) :=
  url <- gets runtime_base_url ;;
  match url with
  | None => raise (runtime_error ("Rollback target " +:+ version_name v +:+ " has no deployed runtime URL."))
  | Some url =>
      service_ir <- in_world (lifted (PreDeploy.model_validate read_fields (Registry.vr_ir_json (rs_version v)))) ;;
      report <- in_world (post_deploy_report url service_ir request_options) ;;
      ret (report_document report)
  end.

(** [create_default_rollback_workflow]: the publisher is resolved first, and the
    workflow starts without a deployment. *)
Definition create_default_rollback_workflow : outcome exn (RollbackPlant memory) :=
  let! publisher := the_publisher in
  Ok (mk_plant memory deployer_apply_version deployer_wait_for_rollout validate_version (Some (publish_version publisher))).

Definition start (w : W) : memory := (w, None).

(** ** What a rollback deploys and checks *)

Lemma in_world_ok {A} (m : comp W exn A) s a s' : in_world m s = (Ok a, s') ↔ m s.1 = (Ok a, s'.1) ∧ s'.2 = s.2.
Proof. unfold in_world. destruct s as [w d], s' as [w' d']. cbn. destruct (m w) as [o w1]. naive_solver. Qed.

(** The report a validator's document says passed *)
Lemma document_passed r : overall_passed (report_document r) = vp_overall_passed r.
Proof. done. Qed.

(** C25. The rollback's parts agree on one deployment: applying a stored version
    deploys the manifests generated from the stored description, the revision it
    returns is one that waiting accepts, and the validation that follows checks
    that description at the address of that deployment and of no other. *)
Theorem rollback_checks_what_it_deployed v s revision s1 : deployer_apply_version v s = (Ok revision, s1) →
  ∃ ir g deployer d w1,
    PreDeploy.model_validate read_fields (Registry.vr_ir_json (rs_version v)) = Ok ir ∧
    generate_manifests (is_codegen request_options) ir (Registry.vr_service_id (rs_version v)) (version_number v) = Ok g ∧
    deployer_factory s.1 = (Ok deployer, w1) ∧ md_deploy deployer g w1 = (Ok d, s1.1) ∧
    revision = dp_deployment_revision d ∧ deployer_wait_for_rollout revision s1 = (Ok tt, s1) ∧
    ∀ report s2, validate_version v s1 = (Ok report, s2) → ∃ r,
      post_deploy_report (dp_runtime_base_url d) ir request_options s1.1 = (Ok r, s2.1) ∧ overall_passed report = vp_overall_passed r.
Proof.
  unfold deployer_apply_version. intros H. mbind H g s2 H1. apply in_world_ok in H1 as [H1 E2]. unfold lifted in H1. injection H1 as Hg E1.
  unfold _generate_manifest_set_for_version in Hg. apply obind_ok in Hg as (ir & Hir & Hg). mbind H deployer s3 H2. apply in_world_ok in H2 as [H2 E3].
  mbind H d s4 H3. apply in_world_ok in H3 as [H3 E4]. injection H as <- <-. exists ir, g, deployer, d, s3.1. cbn [fst]. rewrite E1.
  split_and!; [done..| |].
  - unfold deployer_wait_for_rollout, bind, gets. cbn [snd]. by rewrite str_eqb_refl.
  - intros report s5 Hv. unfold validate_version in Hv. mbind Hv url s6 Hu. unfold gets in Hu. injection Hu as <- <-.
    change (runtime_base_url _) with (Some (dp_runtime_base_url d)) in Hv. cbv beta iota in Hv.
    mbind Hv ir' s7 Hi. apply in_world_ok in Hi as [Hi E7]. unfold lifted in Hi. rewrite Hir in Hi. injection Hi as <- E8.
    mbind Hv r s8 Hr. apply in_world_ok in Hr as [Hr E9]. injection Hv as <- <-. exists r. rewrite <-E8 in Hr. split; [exact Hr|done].
Qed.

(** A version registered by a compilation is redeployed with the manifests the
    compilation deployed, in the compilation's mode and settings, when reading what
    was dumped gives the description back. *)
Lemma rollback_regenerates x v : let row := rs_version v in
  Registry.vr_service_id row = Registry.vc_service_id (registration x) → Registry.vr_version_number row = Registry.vc_version_number (registration x) →
  Registry.vr_ir_json row = Registry.vc_ir_json (registration x) → PreDeploy.model_validate read_fields (dump_ir (dl_ir x)) = Ok (dl_ir x) →
  _generate_manifest_set_for_version v = generate_manifests (is_codegen request_options) (dl_ir x) (dl_service_id x) (dl_version x).
Proof. intros row Hs Hn Hir Hread. unfold _generate_manifest_set_for_version, version_number. fold row. rewrite Hs, Hn, Hir. cbn. by rewrite Hread. Qed.
End rollback.

(** ** Production rollbacks *)

Definition rollback_worker : Worker Registry.session := demo_worker demo_call_ok.
Definition stored_version : ArtifactVersionResponse :=
  Registry.mk_response (Registry.mk_version 1%N "pets" 1 true demo_rest_document None "0.1.0" None None None None None (Some [("service_id", VStr "pets")]) None None) [].

Example rolled_back_to_version_1 :
  match create_default_rollback_workflow (Worker0 := rollback_worker) [] with
  | Ok plant =>
      match (revision <- apply_version plant stored_version ;; wait_for_rollout plant revision ;;; validate plant stored_version) (start empty_session) with
      | (Ok report, (_, Some d)) => overall_passed report = true ∧ dp_runtime_base_url d = "http://pets-v1:8003"
      | _ => False
      end
  | Raise _ => False
  end.
Proof. vm_compute. split; reflexivity. Qed.

(** The mode of the manifests is the rollback request's, which replays the job that
    is rolled back, and not the stored version's. *)
Definition deployment_of (options : dict pyval) : outcome exn (dict pyval) :=
  let! g := _generate_manifest_set_for_version (Worker0 := rollback_worker) options stored_version in Ok (gm_deployment g).
Example mode_follows_the_request : deployment_of [] ≠ deployment_of [("runtime_mode", VStr "codegen")].
Proof. vm_compute. discriminate. Qed.

Lemma rollback_checks_what_it_deployed_witness :
  ∃ s1, deployer_apply_version (Worker0 := rollback_worker) [] stored_version (start empty_session) = (Ok "pets-v1@g1-rv7", s1) ∧
    deployer_wait_for_rollout "pets-v1@g1-rv7" s1 = (Ok tt, s1).
Proof.
  assert (∃ s1, deployer_apply_version (Worker0 := rollback_worker) [] stored_version (start empty_session) = (Ok "pets-v1@g1-rv7", s1)) as [s1 H]
    by (vm_compute; eexists; reflexivity).
  exists s1. split; [exact H|].
  destruct (rollback_checks_what_it_deployed (Worker0 := rollback_worker) [] stored_version (start empty_session) "pets-v1@g1-rv7" s1 H)
    as (ir & g & deployer & d & w1 & _ & _ & _ & _ & _ & Hw & _). exact Hw.
Defined.
