(* ===== verification/ExtractorKit.v ===== *)
(** * What the extractors share ([libs/extractors/utils.py], and the models'
      defaults as the extractors use them)

    XML documents as element trees, identifiers made of CamelCase names, the
    operations and descriptions an extractor builds with the models' defaults,
    and the contract every extractor keeps: what it returns is a valid
    description of its own protocol. *)

From S2P Require Export OpenApi Sources RuntimeRequest.
From Stdlib Require Import Ascii.

(** ** XML *)

(** [xml.etree.ElementTree.Element]: the tag is [{namespace}local]. *)
Inductive element := Element (tag : string) (attrib : dict string) (text : option string) (children : list element).

Definition el_tag (x : element) : string := let 'Element t _ _ _ := x in t.
Definition el_attrib (x : element) : dict string := let 'Element _ a _ _ := x in a.
Definition el_text (x : element) : option string := let 'Element _ _ t _ := x in t.
Definition el_children (x : element) : list element := let 'Element _ _ _ c := x in c.

(** [elem.attrib.get(name)] and [elem.attrib.get(name, default)] *)
Definition attr (x : element) (name : string) : option string := dict_get (el_attrib x) name.
Definition attr_or (x : element) (name dflt : string) : string := default dflt (attr x name).

(** [elem.findall("prefix:name", ns)] and [elem.find(...)] *)
Definition findall (tag : string) (x : element) : list element := List.filter (λ c, str_eqb (el_tag c) tag) (el_children x).
Definition find_child (tag : string) (x : element) : option element := head (findall tag x).

(** A name that is there and not empty *)
Definition named (o : option string) : option string :=
  match o with Some n => if str_truthy n then Some n else None | None => None end.

(** ** Identifiers *)

Definition is_upper (c : ascii) : bool := ((65 <=? ord c) && (ord c <=? 90))%N.

(** [re.sub(r"(?<!^)(?=[A-Z])", sep, s)] *)
Fixpoint split_capitals (sep : string) (first : bool) (s : string) : string :=
  match s with
  | EmptyString => EmptyString
  | String c s' =>
      if is_upper c && negb first then sep +:+ String c (split_capitals sep false s')
      else String c (split_capitals sep false s')
  end.

(** [slugify(text, camel_case=True)] *)
Definition slugify_camel (text : string) : string := slugify (split_capitals "-" true text).

(** [re.sub(r"[^a-z0-9]+", "_", s).strip("_")] *)
Definition underscored (s : string) : string :=
  map_str (λ c, if bool_decide (c = "-"%char) then "_"%char else c)
    (of_chars (rstrip_dashes (drop_dashes (slug_chars false (chars s))))).

(** [_humanize_identifier] *)
Definition humanize_identifier (value : string) : string := strip (split_capitals " " true value).

(** A qualified name without its namespace: after the last closing brace, else
    after the first colon *)
Definition local_name (tag : string) : string :=
  if str_contains "}" tag then default "" (last (split_on "}"%char tag))
  else match split_first ":"%char tag with Some (_, local) => local | None => tag end.

(** ** Operations and descriptions with the models' defaults *)

Definition plain_strategy : ResponseStrategy := mk_strategy None None None None trunc_none.

(** [Operation(id=..., name=..., ...)] without any protocol's contract *)
Definition plain_operation (id name description : string) (method path : option string) (params : list Param)
    (errors : ErrorSchema) (risk : RiskMetadata) (tags : list string) (confidence : float) : Operation :=
  mk_operation id name description method path params None errors [] risk plain_strategy body_json None
    None None None None None None None None tags None src_extractor confidence None true.

(** [Param(name=..., type=..., ...)] *)
Definition plain_param (name type : string) (required : bool) (description : string) : Param :=
  extracted name type required description VNone None 1.

Definition default_error (schema : dict pyval) : ErrorSchema := mk_error_schema [] (Some schema).
Definition coded_error (code description : string) (body : option (dict pyval)) : ErrorResponse :=
  mk_error_response None (Some code) description body.

(** A schema [{"type": t}], and one of an object with the given properties *)
Definition typed_schema (t : string) : pyval := VDict [("type", VStr t)].
Definition object_of (props : dict pyval) : dict pyval := [("type", VStr "object"); ("properties", VDict props)].

(** [ServiceIR(...)]: [now] is the time the description is made. *)
Definition describe (protocol name description base_url : string) (auth : AuthConfig) (source_url : option string)
    (source_hash : string) (operations : list Operation) (events : list EventDescriptor) (metadata : dict pyval) (now : Z)
    : outcome exn ServiceIR :=
  validate_ServiceIR
    (mk_ir IR_VERSION "0.1.0" source_url source_hash protocol name description base_url auth operations [] [] events
       [] [] metadata now None None).

(** The answer of code that only fails, in a computation with effects *)
Definition answer {W A} (o : outcome exn A) : comp W exn A := λ w, (o, w).

(** ** Addresses *)

Definition uses_params : list string :=
  [""; "ftp"; "hdl"; "prospero"; "http"; "https"; "shttp"; "rtsp"; "rtsps"; "rtspu"; "sip"; "sips"; "mms"; "sftp"; "tel"].

(** [urlparse(url)]: the parameters after a semicolon are cut from the last segment. *)
Definition cut_params (path : string) : string :=
  let parts := split_on "/"%char path in
  let cut s := match split_first ";"%char s with Some (a, _) => a | None => s end in
  match last parts with Some s => join "/" (removelast parts ++ [cut s]) | None => path end.
Definition urlparse (url : string) : outcome exn SplitResult :=
  let! u := urlsplit url in
  Ok (if one_of (scheme u) uses_params then mk_split (scheme u) (netloc u) (cut_params (path u)) (query u) (fragment u) else u).

(** [urlsplit(...).hostname], empty for [None] *)
Definition url_hostname (u : SplitResult) : string :=
  let info := default "" (last (split_on "@"%char (netloc u))) in
  lower match split_first "["%char info with
        | Some (_, bracketed) => match split_first "]"%char bracketed with Some (h, _) => h | None => bracketed end
        | None => match split_first ":"%char info with Some (h, _) => h | None => info end
        end.

(** ** Values that must be hashed, and fields pydantic converts *)

Definition unhashable (v : pyval) : bool := is_list v || is_dict v.

(** [v in {"a", ...}] *)
Definition member_of (v : pyval) (l : list string) : outcome exn bool :=
  if unhashable v then Raise (type_error "unhashable type") else Ok (match v with VStr s => one_of s l | _ => false end).

(** [table.get(v, default)] *)
Definition table_get (table : dict string) (v : pyval) (dflt : string) : outcome exn string :=
  if unhashable v then Raise (type_error "unhashable type")
  else Ok (match v with VStr s => default dflt (dict_get table s) | _ => dflt end).

(** A [bool] field *)
Definition bool_field (model : string) (v : pyval) : outcome exn bool :=
  match v with
  | VBool b => Ok b
  | VInt 0 => Ok false
  | VInt 1 => Ok true
  | VFloat f => if PrimFloat.eqb f 0 then Ok false else if PrimFloat.eqb f 1 then Ok true else Raise (field_error model)
  | VStr s =>
      if one_of (lower s) ["0"; "off"; "f"; "false"; "n"; "no"] then Ok false
      else if one_of (lower s) ["1"; "on"; "t"; "true"; "y"; "yes"] then Ok true
      else Raise (field_error model)
  | _ => Raise (field_error model)
  end.

(** A [dict[str, Any] | None] field *)
Definition dict_field (model : string) (v : pyval) : outcome exn (option (dict pyval)) :=
  match v with VNone => Ok None | VDict d => Ok (Some d) | _ => Raise (field_error model) end.

(** [v[k]] *)
Definition item (d : dict pyval) (k : string) : outcome exn pyval :=
  match dict_get d k with Some v => Ok v | None => Raise (key_error k) end.

Definition json_decode_error : exn := mk_exn "JSONDecodeError" "" [].

(** ** What every extractor promises *)

Definition valid_description (protocol : string) (ir : ServiceIR) : Prop :=
  ir_protocol ir = protocol ∧ service_wf ir ∧ Forall operation_wf (ir_operations ir).

Class Extracts {W} (ex : ExtractorProtocol W) : Prop :=
  extracts_valid : ∀ source w ir w', ex_extract ex source w = (Ok ir, w') → valid_description (ex_protocol_name ex) ir.

(** ** Lemmas *)

Lemma ir_with_protocol ir ops : ir_protocol (ir_with_operations ir ops) = ir_protocol ir.
Proof. done. Qed.

Lemma answer_ok {W A} (o : outcome exn A) (w w' : W) a : answer o w = (Ok a, w') ↔ o = Ok a ∧ w' = w.
Proof. unfold answer. naive_solver. Qed.

Lemma describe_valid protocol name description url auth source_url hash ops events metadata now ir :
  describe protocol name description url auth source_url hash ops events metadata now = Ok ir → valid_description protocol ir.
Proof.
  unfold describe. intros H. split; [|by apply validated_wf in H].
  apply validate_service_eq in H as (ops' & _ & _ & -> & _). done.
Qed.

(** An operation of a classified risk is kept as it was built. *)
Lemma described_operations protocol name description url auth source_url hash ops events metadata now ir :
  describe protocol name description url auth source_url hash ops events metadata now = Ok ir →
  Forall (λ o, rm_risk_level (op_risk o) ≠ unknown) ops → ir_operations ir = ops ∧ NoDup (op_id <$> ops).
Proof.
  unfold describe. intros H Hk. pose proof (validated_wf _ _ H) as [Hwf _].
  apply validate_service_eq in H as (ops' & _ & Hops & -> & _). cbn [ir_operations ir_with_operations ir_with] in *.
  assert (ops' = ops) as ->.
  { clear Hwf. revert Hk. induction Hops as [|o o' l l' Ho _ IH]; intros Hk; [done|].
    apply Forall_cons in Hk as [Hr Hk]. rewrite (IH Hk). f_equal.
    apply validate_operation_eq in Ho as (-> & _). unfold unknown_risk_must_be_disabled.
    by destruct (rm_risk_level (op_risk o)). }
  split; [done|]. apply Hwf.
Qed.

Lemma str_truthy_iff s : str_truthy s = true ↔ s ≠ "".
Proof. by destruct s. Qed.

Lemma slugify_nonempty text : slugify text ≠ "".
Proof. unfold slugify. destruct (str_truthy _) eqn:E; [by apply str_truthy_iff|done]. Qed.

(** Work that succeeds for every element succeeds for all. *)
Lemma traverse_total {A B} (P : A → B → Prop) (f : A → outcome exn B) l :
  Forall (λ x, ∃ y, f x = Ok y ∧ P x y) l → ∃ l', traverse f l = Ok l' ∧ Forall2 P l l'.
Proof.
  induction 1 as [|x l (y & Hy & Hp) _ (l' & Hl & Hps)]; [by exists []|]. exists (y :: l'). cbn [traverse]. rewrite Hy. cbn [obind].
  rewrite Hl. cbn [obind]. split; [done|by constructor].
Qed.

(** A property of the values of a dictionary *)
Lemma values_set {V} (P : V → Prop) (d : dict V) k v : Forall (λ kv, P kv.2) d → P v → Forall (λ kv, P kv.2) (dict_set d k v).
Proof.
  intros Hd Hv. induction Hd as [|[k' v'] d Hk Hd IH]; [by apply Forall_singleton|]. cbn. destruct (str_eqb k k'); by constructor.
Qed.
Lemma values_get {V} (P : V → Prop) (d : dict V) k v : Forall (λ kv, P kv.2) d → dict_get d k = Some v → P v.
Proof. intros Hd H%dict_get_Some_elem. rewrite Forall_forall in Hd. by apply (Hd _ H). Qed.
Lemma values_of_list {V} (P : V → Prop) (l : list (string * V)) : Forall (λ kv, P kv.2) l → Forall (λ kv, P kv.2) (dict_of_list l).
Proof.
  unfold dict_of_list, dict_update. intros Hl. assert (Forall (λ kv : string * V, P kv.2) []) as Hd by done. revert Hd. generalize (@nil (string * V)).
  induction Hl as [|kv l Hkv _ IH]; intros d Hd; [done|]. cbn. apply IH. by apply values_set.
Qed.

Lemma dict_mem_key {V} (d : dict V) k : dict_mem d k = true → k ∈ dict_keys d.
Proof. intros H. apply dict_get_is_Some. unfold dict_mem in H. by destruct (dict_get d k). Qed.

(** The names not seen yet: the measure of a traversal that marks what it visits *)
Definition unseen (all seen : list string) : nat := length (filter (λ k, k ∉ seen) all).

Lemma unseen_mono all seen seen' : seen ⊆ seen' → (unseen all seen' ≤ unseen all seen)%nat.
Proof.
  intros Hs. unfold unseen. induction all as [|k l IH]; [done|]. rewrite !filter_cons.
  destruct (decide (k ∉ seen')), (decide (k ∉ seen)); cbn; try lia. exfalso. naive_solver.
Qed.

Lemma unseen_fewer all seen k : k ∈ all → k ∉ seen → (unseen all (k :: seen) < unseen all seen)%nat.
Proof.
  intros Hin Hn. unfold unseen. induction all as [|k' l IH]; [by apply elem_of_nil in Hin|].
  pose proof (unseen_mono l seen (k :: seen) ltac:(set_solver)) as Hle. unfold unseen in Hle.
  rewrite !filter_cons. apply elem_of_cons in Hin as [<-|Hin].
  - destruct (decide (k ∉ k :: seen)); [set_solver|]. destruct (decide (k ∉ seen)); [cbn; lia|done].
  - specialize (IH Hin). destruct (decide (k' ∉ k :: seen)), (decide (k' ∉ seen)); cbn; try lia. set_solver.
Qed.

Lemma unseen_all all seen : (unseen all seen ≤ length all)%nat.
Proof. apply length_filter. Qed.

Lemma findall_tag tag x c : c ∈ findall tag x → el_tag c = tag.
Proof. unfold findall. by intros [->%str_eqb_eq _]%elem_of_filterb. Qed.

(** ** Path templates *)

Lemma no_brace_app s t : no_brace (s +:+ t) = no_brace s && no_brace t.
Proof. apply str_all_app. Qed.

Lemma holes_text s t : no_brace s = true → placeholders None (s +:+ t) = placeholders None t.
Proof.
  induction s as [|c s IH]; [done|]. rewrite no_brace_cons. intros [Hc Hs]%andb_true_iff. rewrite app_cons. cbn [placeholders].
  unfold is_brace in Hc. destruct (bool_decide (c = "{"%char)), (bool_decide (c = "}"%char)); try done. by apply IH.
Qed.

Lemma holes_none s : no_brace s = true → placeholders None s = [].
Proof. intros Hs. rewrite <-(str_app_empty s). by rewrite holes_text. Qed.

Lemma holes_name n t : n ≠ "" → no_brace n = true → placeholders None ("{" +:+ n +:+ "}" +:+ t) = n :: placeholders None t.
Proof.
  intros Hn Hb. change ("{" +:+ n +:+ "}" +:+ t) with (String "{" (n +:+ String "}" t)). cbn [placeholders].
  rewrite bool_decide_eq_true_2 by done. rewrite placeholders_name by done. change ("" +:+ n) with n. by destruct n.
Qed.

(** Every hole of an operation's path is filled from a required parameter. *)
Definition addressed (o : Operation) : Prop :=
  ∀ n, n ∈ placeholders None (default "" (op_path o)) → ∃ p, p ∈ op_params o ∧ pa_name p = n ∧ pa_required p = true.

(** ** Documents without braces *)

Fixpoint plain_attributes (x : element) : bool :=
  match x with Element _ a _ c => forallb (λ kv, no_brace kv.2) a && forallb plain_attributes c end.

Lemma plain_attr x n v : plain_attributes x = true → attr x n = Some v → no_brace v = true.
Proof.
  destruct x as [t a s c]. cbn [plain_attributes]. intros [Ha _]%andb_true_iff H%dict_get_Some_elem.
  rewrite forallb_forall in Ha. by apply list_elem_of_In, Ha in H.
Qed.
Lemma plain_child x c : plain_attributes x = true → c ∈ el_children x → plain_attributes c = true.
Proof.
  destruct x as [t a s cs]. cbn [plain_attributes]. intros [_ Hc]%andb_true_iff H.
  rewrite forallb_forall in Hc. by apply list_elem_of_In, Hc in H.
Qed.
Lemma plain_findall tag x c : plain_attributes x = true → c ∈ findall tag x → plain_attributes c = true.
Proof. unfold findall. intros Hx [_ Hc]%elem_of_filterb. by eapply plain_child. Qed.
Lemma plain_found tag x c : plain_attributes x = true → find_child tag x = Some c → plain_attributes c = true.
Proof. unfold find_child. intros Hx Hc%head_Some_elem_of. by eapply plain_findall. Qed.

Lemma named_Some o n : named o = Some n → o = Some n ∧ n ≠ "".
Proof. destruct o as [s|]; [|done]. cbn. by destruct s; intros [= <-]. Qed.
Lemma plain_named x k n : plain_attributes x = true → named (attr x k) = Some n → n ≠ "" ∧ no_brace n = true.
Proof. intros Hx [Hn Hne]%named_Some. split; [done|]. by eapply plain_attr. Qed.

(** A dictionary built of pairs holds some of them. *)
Lemma dict_of_list_sound {V} (l : list (string * V)) k v : (k, v) ∈ dict_of_list l → (k, v) ∈ l.
Proof.
  unfold dict_of_list, dict_update. assert (∀ d, (k, v) ∈ foldl (λ acc kv, dict_set acc kv.1 kv.2) d l → (k, v) ∈ d ∨ (k, v) ∈ l) as H.
  { induction l as [|[k' v'] l IH]; intros d Hd; [by left|]. cbn in Hd. apply IH in Hd as [Hd|Hd]; [|right; by right].
    clear IH. induction d as [|[k2 v2] d IH]; cbn in Hd.
    - apply list_elem_of_singleton in Hd as [= -> ->]. right. by left.
    - destruct (str_eqb k' k2) eqn:E.
      + apply elem_of_cons in Hd as [[= -> ->]|Hd]; [right; apply str_eqb_eq in E as <-; by left|left; by right].
      + apply elem_of_cons in Hd as [[= -> ->]|Hd]; [left; by left|]. apply IH in Hd as [Hd|Hd]; [left; by right|by right]. }
  intros Hd. apply H in Hd as [Hd|Hd]; [by apply elem_of_nil in Hd|done].
Qed.

Lemma elem_of_concat_map {A B} (f : A → list B) l b : b ∈ concat (f <$> l) ↔ ∃ a, a ∈ l ∧ b ∈ f a.
Proof.
  induction l as [|a l IH]; cbn [fmap list_fmap concat].
  { split; [by intros ?%elem_of_nil|]. by intros (a & Ha%elem_of_nil & _). }
  rewrite elem_of_app, IH. split.
  - intros [Hb|(a' & Ha & Hb)]; [exists a; split; [by left|done]|exists a'; split; [by right|done]].
  - intros (a' & [->|Ha]%elem_of_cons & Hb); [by left|right; by exists a'].
Qed.

(** A named description of operations that are valid and have identifiers of
    their own, and of valid events that refer to them, is one. *)
Lemma describe_total_events protocol name description url source_url hash ops events metadata now :
  name ≠ "" → Forall (λ o, validate_Operation o = Ok o) ops → NoDup (op_id <$> ops) →
  Forall (λ e, validate_EventDescriptor e = Ok tt ∧ ∀ i, ed_operation_id e = Some i → i ∈ op_id <$> ops) events →
  ∃ ir, describe protocol name description url (plain_auth no_auth) source_url hash ops events metadata now = Ok ir ∧ ir_operations ir = ops ∧ ir_base_url ir = url.
Proof.
  intros Hn Hops Hnd Hev. eexists. split; [|shelve]. unfold describe. apply validate_service_eq. exists ops. split_and!.
  - unfold service_parts. apply in_order_ok. apply Forall_cons. split; [done|]. cbn [ir_event_descriptors ir_resource_definitions map app].
    apply Forall_app. split; [|by apply Forall_singleton]. apply Forall_map. eapply Forall_impl; [exact Hev|]. by intros e [? _].
  - cbn [ir_operations]. clear Hnd Hev. induction Hops; by constructor.
  - reflexivity.
  - split; cbn; try (by constructor); try (by intros ? ? ?%elem_of_nil); try done; [by destruct name|].
    intros e i He. rewrite Forall_forall in Hev. by apply (Hev e He).
  Unshelve. done.
Qed.

Lemma describe_total protocol name description url source_url hash ops metadata now :
  name ≠ "" → Forall (λ o, validate_Operation o = Ok o) ops → NoDup (op_id <$> ops) →
  ∃ ir, describe protocol name description url (plain_auth no_auth) source_url hash ops [] metadata now = Ok ir ∧ ir_operations ir = ops ∧ ir_base_url ir = url.
Proof. intros. by apply describe_total_events; [..|by constructor]. Qed.

Lemma describe_validated protocol name description url auth source_url hash ops events metadata now ir :
  describe protocol name description url auth source_url hash ops events metadata now = Ok ir →
  Forall (λ o, validate_Operation o = Ok o) (ir_operations ir).
Proof.
  unfold describe. intros (ops' & _ & Hops & -> & _)%validate_service_eq. apply validated_operations in Hops.
  eapply Forall_impl; [exact Hops|]. by intros o [_ Ho].
Qed.

Lemma validated_sql o s : validate_Operation o = Ok o → op_sql o = Some s → validate_SqlOperationConfig s = Ok tt.
Proof.
  intros (_ & Hp & _)%validate_operation_eq Hs. unfold operation_parts in Hp. apply in_order_ok in Hp.
  rewrite Forall_app in Hp. destruct Hp as [_ Hp]. rewrite Hs in Hp. by inv Hp as [|? ? _ Hp']; inv Hp'.
Qed.

Lemma describe_fields protocol name description url auth source_url hash ops events metadata now ir :
  describe protocol name description url auth source_url hash ops events metadata now = Ok ir →
  ir_event_descriptors ir = events ∧ ir_base_url ir = url ∧ ir_service_name ir = name ∧ ir_auth ir = auth ∧ ir_metadata ir = metadata.
Proof. unfold describe. by intros (ops' & _ & _ & -> & _)%validate_service_eq. Qed.
