(* ===== verification/ODataExtractor.v ===== *)
(** * The OData extractor ([libs/extractors/odata.py])

    A metadata document becomes five operations for each entity set and one for
    each function and action import.  The XML parser and the HTTP client are
    parameters; a document is the element tree the parser gives. *)

From S2P Require Export ExtractorKit RuntimeRequest.
From Stdlib Require Import Ascii.

Definition edmx_tag (name : string) : string := "{http://docs.oasis-open.org/odata/ns/edmx}" +:+ name.
Definition edm_tag (name : string) : string := "{http://docs.oasis-open.org/odata/ns/edm}" +:+ name.

(** [EDM_TYPE_MAP.get(t, "string")] *)
Definition EDM_TYPE_MAP : dict string := [
  ("Edm.String", "string"); ("Edm.Int32", "integer"); ("Edm.Int64", "integer"); ("Edm.Int16", "integer");
  ("Edm.Byte", "integer"); ("Edm.Decimal", "number"); ("Edm.Double", "number"); ("Edm.Single", "number");
  ("Edm.Boolean", "boolean"); ("Edm.DateTimeOffset", "string"); ("Edm.Date", "string"); ("Edm.TimeOfDay", "string");
  ("Edm.Guid", "string")].
Definition _edm_to_json_type (t : string) : string := default "string" (dict_get EDM_TYPE_MAP t).

Definition ODATA_ERROR_SCHEMA : dict pyval :=
  object_of [("error", VDict (object_of [("code", typed_schema "string"); ("message", typed_schema "string")]
                              ++ [("required", vstrs ["code"; "message"])]))]
  ++ [("required", vstrs ["error"])].

(** ** The document *)

Record EntityProperty := mk_property { ep_name : string; ep_type_name : string; ep_nullable : bool; ep_is_key : bool }.
Record EntityTypeInfo := mk_entity_type { et_name : string; et_properties : list EntityProperty }.

Definition key_properties (e : EntityTypeInfo) : list EntityProperty := List.filter ep_is_key (et_properties e).
Definition non_key_properties (e : EntityTypeInfo) : list EntityProperty := List.filter (λ p, negb (ep_is_key p)) (et_properties e).

Definition _strip_namespace (qualified namespace : string) : string :=
  let prefix := namespace +:+ "." in
  if startswith prefix qualified then drop_str (String.length prefix) qualified else qualified.

Definition _local_name : string → string := local_name.
Definition _humanize_identifier : string → string := humanize_identifier.
Definition _snake_case (value : string) : string := underscored (lower (split_capitals "_" true value)).

(** A [Property] element of an entity type with the given key *)
Definition parse_property (key_names : list string) (prop : element) : option EntityProperty :=
  match named (attr prop "Name") with
  | Some n => Some (mk_property n (attr_or prop "Type" "Edm.String")
                      (negb (str_eqb (lower (attr_or prop "Nullable" "true")) "false")) (one_of n key_names))
  | None => None
  end.

(** An [EntityType] element: the key is that of its first [Key]. *)
Definition parse_entity_type (e : element) : option EntityTypeInfo :=
  match named (attr e "Name") with
  | Some n =>
      let key_names := match find_child (edm_tag "Key") e with
                       | Some k => omap (λ r, named (attr r "Name")) (findall (edm_tag "PropertyRef") k)
                       | None => []
                       end in
      Some (mk_entity_type n (omap (parse_property key_names) (findall (edm_tag "Property") e)))
  | None => None
  end.
Definition _parse_entity_types (schema : element) : list EntityTypeInfo := omap parse_entity_type (findall (edm_tag "EntityType") schema).

Definition _parse_entity_sets (container : element) : dict string :=
  dict_of_list (omap (λ e, match named (attr e "Name"), named (attr e "EntityType") with
                           | Some n, Some t => Some (n, t)
                           | _, _ => None
                           end) (findall (edm_tag "EntitySet") container)).

Definition _parse_function_imports (container : element) : list string :=
  omap (λ e, attr e "Name") (findall (edm_tag "FunctionImport") container).
Definition _parse_action_imports (container : element) : list string :=
  omap (λ e, attr e "Name") (findall (edm_tag "ActionImport") container).

(** The [Function] or [Action] elements: the names and types of their parameters *)
Definition parse_callables (tag : string) (schema : element) : dict (list (string * string)) :=
  dict_of_list (omap (λ e, match named (attr e "Name") with
    | Some n => Some (n, omap (λ p, match named (attr p "Name") with
                                    | Some q => Some (q, attr_or p "Type" "Edm.String")
                                    | None => None
                                    end) (findall (edm_tag "Parameter") e))
    | None => None
    end) (findall (edm_tag tag) schema)).
Definition _parse_functions : element → dict (list (string * string)) := parse_callables "Function".
Definition _parse_actions : element → dict (list (string * string)) := parse_callables "Action".

(** ** Operations *)

Definition odata_risk (writes destructive side_effect idempotent : bool) (level : RiskLevel) : RiskMetadata :=
  mk_risk (Some writes) (Some destructive) (Some side_effect) (Some idempotent) level high src_extractor.
Definition _risk_safe : RiskMetadata := odata_risk false false false true safe.
Definition _risk_cautious : RiskMetadata := odata_risk true false true false cautious.
Definition _risk_dangerous : RiskMetadata := odata_risk true true true false dangerous.

Definition odata_operation (id name description method path : string) (params : list Param) (risk : RiskMetadata)
    (tags : list string) : Operation :=
  plain_operation id name description (Some method) (Some path) params (default_error ODATA_ERROR_SCHEMA) risk tags 1.

(** The segment that names an entity by its key, and the parameters of the key *)
Definition key_path_segment (keys : list EntityProperty) : string :=
  match keys with
  | [] => "{id}"
  | [k] => "{" +:+ ep_name k +:+ "}"
  | _ => join "," ((λ k, ep_name k +:+ "={" +:+ ep_name k +:+ "}") <$> keys)
  end.
Definition key_params (keys : list EntityProperty) : list Param :=
  match keys with
  | [] => [plain_param "id" "integer" true "Key property id"]
  | _ => (λ k, plain_param (ep_name k) (_edm_to_json_type (ep_type_name k)) true ("Key property " +:+ ep_name k)) <$> keys
  end.

Definition odata_query_params : list Param := [
  plain_param "$filter" "string" false "OData filter expression";
  plain_param "$select" "string" false "Comma-separated list of properties to include";
  plain_param "$top" "integer" false "Maximum number of items to return";
  plain_param "$skip" "integer" false "Number of items to skip";
  plain_param "$orderby" "string" false "Comma-separated list of properties to sort by"].

(** A property as a field of a request *)
Definition property_param (required : EntityProperty → bool) (p : EntityProperty) : Param :=
  plain_param (ep_name p) (_edm_to_json_type (ep_type_name p)) (required p) ("Property " +:+ ep_name p).

Definition _build_entity_set_operations (es : string) (info : EntityTypeInfo) : list Operation :=
  let l := lower es in
  let keys := key_properties info in
  let by_key := "/" +:+ es +:+ "(" +:+ key_path_segment keys +:+ ")" in
  let op id name description method path params risk := odata_operation id name description method path params risk ["odata"; es] in
  [op ("list_" +:+ l) ("List " +:+ es) ("List entities from " +:+ es +:+ " with OData query options.") "GET" ("/" +:+ es)
      odata_query_params _risk_safe;
   op ("get_" +:+ l +:+ "_by_key") ("Get " +:+ es +:+ " by key") ("Get a single entity from " +:+ es +:+ " by its key.") "GET" by_key
      (key_params keys) _risk_safe;
   op ("create_" +:+ l) ("Create " +:+ es) ("Create a new entity in " +:+ es +:+ ".") "POST" ("/" +:+ es)
      (property_param (λ p, negb (ep_nullable p)) <$> non_key_properties info) _risk_cautious;
   op ("update_" +:+ l) ("Update " +:+ es) ("Update an entity in " +:+ es +:+ " (partial update).") "PATCH" by_key
      (key_params keys ++ (property_param (λ _, false) <$> non_key_properties info)) _risk_cautious;
   op ("delete_" +:+ l) ("Delete " +:+ es) ("Delete an entity from " +:+ es +:+ ".") "DELETE" by_key
      (key_params keys) _risk_dangerous].

(** The parameters of an imported function or action *)
Definition import_params (params : list (string * string)) : list Param :=
  (λ p, plain_param p.1 (_edm_to_json_type p.2) true ("Parameter " +:+ p.1)) <$> params.

Definition _build_function_import_path (name : string) (params : list (string * string)) : string :=
  match params with
  | [] => "/" +:+ name +:+ "()"
  | _ => "/" +:+ name +:+ "(" +:+ join "," ((λ p, p.1 +:+ "={" +:+ p.1 +:+ "}") <$> params) +:+ ")"
  end.
Definition _build_function_import_operation (name : string) (params : list (string * string)) : Operation :=
  odata_operation ("func_" +:+ _snake_case name) (_humanize_identifier name) ("OData function: " +:+ name +:+ ".") "GET"
    (_build_function_import_path name params) (import_params params) _risk_safe ["odata"; "function"].
Definition _build_action_import_operation (name : string) (params : list (string * string)) : Operation :=
  odata_operation ("action_" +:+ _snake_case name) (_humanize_identifier name) ("OData action: " +:+ name +:+ ".") "POST"
    ("/" +:+ name) (import_params params) _risk_cautious ["odata"; "action"].

(** The operations of a container, in the order of its elements *)
Definition entity_set_operations (types : list EntityTypeInfo) (namespace : string) (es : string * string) : list Operation :=
  match dict_get (dict_of_list ((λ t, (et_name t, t)) <$> types)) (_strip_namespace es.2 namespace) with
  | Some info => _build_entity_set_operations es.1 info
  | None => []
  end.
Definition container_operations (schema container : element) : list Operation :=
  concat (entity_set_operations (_parse_entity_types schema) (attr_or schema "Namespace" "") <$> _parse_entity_sets container)
  ++ ((λ n, _build_function_import_operation n (default [] (dict_get (_parse_functions schema) n))) <$> _parse_function_imports container)
  ++ ((λ n, _build_action_import_operation n (default [] (dict_get (_parse_actions schema) n))) <$> _parse_action_imports container).

(** The suffix the metadata document adds to the service's address *)
Definition odata_base_url (url : option string) : string :=
  let u := if opt_truthy url then default "" url else "https://odata-service" in
  if endswith "/$metadata" u then String.substring 0 (String.length u - 10) u
  else if endswith "$metadata" u then String.substring 0 (String.length u - 9) u else u.

(** The first schema of the document's data services *)
Definition first_schema (root : element) : option element :=
  head (concat (findall (edm_tag "Schema") <$> findall (edmx_tag "DataServices") root)).

(** [extract] after the content is read and parsed *)
Definition odata_description (root : element) (url : option string) (source_hash : string) (now : Z) : outcome exn ServiceIR :=
  if negb (str_eqb (_local_name (el_tag root)) "Edmx") then Raise (value_error "OData extractor requires an EDMX metadata document.")
  else match first_schema root with
  | None => Raise (value_error "No Schema element found in EDMX document.")
  | Some schema =>
      match find_child (edm_tag "EntityContainer") schema with
      | None => Raise (value_error "No EntityContainer found in EDMX schema.")
      | Some container =>
          describe "odata" (slugify_camel (attr_or container "Name" "odata-service"))
            "OData v4 service extracted from EDMX metadata." (odata_base_url url) (plain_auth no_auth) url source_hash
            (container_operations schema container) []
            [("odata_version", VStr (attr_or root "Version" "4.0")); ("schema_namespace", VStr (attr_or schema "Namespace" ""));
             ("entity_types", vstrs (et_name <$> _parse_entity_types schema));
             ("entity_sets", vstrs (dict_keys (_parse_entity_sets container)))] now
      end
  end.

Section extractor.
Context {W : Type} (read_text : string → comp W exn string) (httpx_get : string → dict string → comp W exn response).
(** [ET.fromstring]: nothing for a malformed document; [sha256_hex] and the clock *)
Context (parse_xml : string → option element) (sha256_hex : string → string) (now : W → Z).

Definition odata_extract (source : SourceConfig) : comp W exn ServiceIR :=
  content <- get_content read_text httpx_get source ;;
  match content with
  | None => raise (value_error "Could not read source content")
  | Some text =>
      match parse_xml text with
      | None => raise (value_error "Malformed XML in OData metadata document")
      | Some root => t <- gets now ;; answer (odata_description root (sc_url source) (compute_content_hash sha256_hex text) t)
      end
  end.

(** [detect]: a live service may answer at its metadata document. *)
Definition odata_detect (source : SourceConfig) : comp W exn float :=
  if bool_decide (dict_get (sc_hints source) "protocol" = Some "odata") then ret 1%float
  else
    let path_or_url := if opt_truthy (sc_file_path source) then default "" (sc_file_path source)
                       else if opt_truthy (sc_url source) then default "" (sc_url source) else "" in
    if endswith "$metadata" path_or_url then ret 0x1.e666666666666p-1%float
    else
      content <- get_content read_text httpx_get source ;;
      if match content with Some c => str_truthy c && str_contains "<edmx:Edmx" c | None => false end then ret 0x1.ccccccccccccdp-1%float
      else if opt_truthy (sc_url source) then
        found <- catch (r <- httpx_get (rstrip_char "/"%char (default "" (sc_url source)) +:+ "/$metadata") (get_auth_headers source) ;;
                        ret ((rsp_status r =? 200) && str_contains "<edmx:Edmx" (rsp_text r)))
                   (λ _, ret false) ;;
        ret (if found : bool then 0x1.b333333333333p-1%float else 0%float)
      else ret 0%float.

Definition ODataExtractor : ExtractorProtocol W := mk_extractor "odata" odata_detect odata_extract None.
End extractor.

(** ** What an extracted description holds *)

(** A name a path can hold *)
Definition plain_name (n : string) : Prop := n ≠ "" ∧ no_brace n = true.

Lemma holes_assignments ns t : Forall plain_name ns →
  placeholders None (join "," ((λ n, n +:+ "={" +:+ n +:+ "}") <$> ns) +:+ t) = ns ++ placeholders None t.
Proof.
  assert (∀ n u, plain_name n → placeholders None ((n +:+ "={" +:+ n +:+ "}") +:+ u) = n :: placeholders None u) as Hone.
  { intros n u [Hne Hb]. rewrite <-!str_app_assoc, holes_text by done.
    change ("={" +:+ (n +:+ ("}" +:+ u))) with ("=" +:+ ("{" +:+ n +:+ "}" +:+ u)).
    rewrite holes_text by done. by apply holes_name. }
  induction 1 as [|n ns Hn Hns IH]; [done|]. destruct ns as [|m ns].
  - by apply Hone.
  - change (join "," ((λ k, k +:+ "={" +:+ k +:+ "}") <$> n :: m :: ns))
      with ((n +:+ "={" +:+ n +:+ "}") +:+ "," +:+ join "," ((λ k, k +:+ "={" +:+ k +:+ "}") <$> m :: ns)).
    rewrite <-str_app_assoc, Hone, <-str_app_assoc by done. f_equal.
    rewrite (holes_text ","), IH by done. done.
Qed.

(** The names a key's segment has holes for *)
Definition key_names (keys : list EntityProperty) : list string := match keys with [] => ["id"] | _ => ep_name <$> keys end.

Lemma key_params_names keys : pa_name <$> key_params keys = key_names keys.
Proof. destruct keys as [|k ks]; [done|]. unfold key_params, key_names. by rewrite <-list_fmap_compose. Qed.
Lemma key_params_required keys p : p ∈ key_params keys → pa_required p = true.
Proof.
  destruct keys as [|k ks]; [by intros ->%list_elem_of_singleton|]. by intros (k' & -> & _)%list_elem_of_fmap.
Qed.

Lemma key_segment_holes keys t : Forall plain_name (ep_name <$> keys) →
  placeholders None (key_path_segment keys +:+ t) = key_names keys ++ placeholders None t.
Proof.
  destruct keys as [|k [|k' ks]]; intros Hk.
  - by apply (holes_name "id").
  - apply Forall_singleton in Hk as [Hne Hb]. unfold key_path_segment. rewrite <-!str_app_assoc. by apply holes_name.
  - pose proof (holes_assignments (ep_name <$> k :: k' :: ks) t Hk) as H. by rewrite <-list_fmap_compose in H.
Qed.

Lemma filter_names_sub (f : EntityProperty → bool) l : Forall plain_name (ep_name <$> l) → Forall plain_name (ep_name <$> List.filter f l).
Proof.
  rewrite !Forall_fmap. intros H. apply Forall_forall. intros p [_ Hp]%elem_of_filterb. rewrite Forall_forall in H. by apply H.
Qed.

(** What the extractor promises of an entity set *)
Record crud (es : string) (info : EntityTypeInfo) (ops : list Operation) : Prop := {
  cr_ids : op_id <$> ops = ["list_" +:+ lower es; "get_" +:+ lower es +:+ "_by_key"; "create_" +:+ lower es;
                            "update_" +:+ lower es; "delete_" +:+ lower es];
  cr_methods : op_method <$> ops = Some <$> ["GET"; "GET"; "POST"; "PATCH"; "DELETE"];
  cr_risks : (λ o, rm_risk_level (op_risk o)) <$> ops = [safe; safe; cautious; cautious; dangerous];
  cr_holes : (λ o, placeholders None (default "" (op_path o))) <$> ops
             = [[]; key_names (key_properties info); []; key_names (key_properties info); key_names (key_properties info)];
  cr_create : ∀ o, ops !! 2%nat = Some o → pa_name <$> op_params o = ep_name <$> non_key_properties info;
  cr_update : ∀ o, ops !! 3%nat = Some o → key_properties info ≠ [] → pa_name <$> op_params o ≡ₚ ep_name <$> et_properties info;
  cr_addressed : Forall addressed ops;
}.

Lemma key_split info : ep_name <$> key_properties info ++ non_key_properties info ≡ₚ ep_name <$> et_properties info.
Proof.
  apply fmap_Permutation. unfold key_properties, non_key_properties. induction (et_properties info) as [|p l IH]; [done|].
  cbn [List.filter]. destruct (ep_is_key p); cbn [negb app]; [by rewrite IH|]. by rewrite <-Permutation_middle, IH.
Qed.

Lemma no_holes_addressed o : placeholders None (default "" (op_path o)) = [] → addressed o.
Proof. intros E n Hn. rewrite E in Hn. by apply elem_of_nil in Hn. Qed.

(** An operation whose parameters start with those of the key it has holes for *)
Lemma keyed_addressed o keys rest : placeholders None (default "" (op_path o)) = key_names keys →
  op_params o = key_params keys ++ rest → addressed o.
Proof.
  intros Eh Ep n Hn. rewrite Eh, <-key_params_names in Hn. apply list_elem_of_fmap in Hn as (p & -> & Hp).
  exists p. rewrite Ep. split_and!; [by apply elem_of_app; left|done|by eapply key_params_required].
Qed.

Lemma entity_set_crud es info : no_brace es = true → Forall plain_name (ep_name <$> et_properties info) →
  crud es info (_build_entity_set_operations es info).
Proof.
  intros Hes Hp. pose proof (filter_names_sub ep_is_key _ Hp) as Hk. fold (key_properties info) in Hk.
  assert (placeholders None ("/" +:+ es) = []) as Hl by (rewrite holes_text by done; by apply holes_none).
  assert (placeholders None ("/" +:+ es +:+ "(" +:+ key_path_segment (key_properties info) +:+ ")") = key_names (key_properties info)) as Hb.
  { rewrite holes_text, holes_text, (holes_text "("), key_segment_holes by done. apply app_nil_r. }
  split; try done.
  - set (by_key := "/" +:+ es +:+ "(" +:+ key_path_segment (key_properties info) +:+ ")") in Hb.
    change (placeholders None <$> ["/" +:+ es; by_key; "/" +:+ es; by_key; by_key]
            = [[]; key_names (key_properties info); []; key_names (key_properties info); key_names (key_properties info)]).
    cbn [fmap list_fmap]. by rewrite Hl, Hb.
  - intros o [= <-]. cbn [op_params odata_operation plain_operation]. by rewrite <-list_fmap_compose.
  - intros o [= <-] Hne. cbn [op_params odata_operation plain_operation]. rewrite fmap_app, key_params_names, <-list_fmap_compose.
    rewrite <-key_split, fmap_app. unfold key_names. by destruct (key_properties info).
  - repeat (apply Forall_cons; split); [by apply no_holes_addressed| |by apply no_holes_addressed| | |by constructor].
    + apply (keyed_addressed _ (key_properties info) []); [exact Hb|by rewrite app_nil_r].
    + by eapply (keyed_addressed _ (key_properties info)); [exact Hb|].
    + apply (keyed_addressed _ (key_properties info) []); [exact Hb|by rewrite app_nil_r].
Qed.

(** The names of a plain document *)
Lemma plain_entity_types schema info : plain_attributes schema = true → info ∈ _parse_entity_types schema →
  Forall plain_name (ep_name <$> et_properties info).
Proof.
  intros Hs (e & He & Hi)%list_elem_of_omap. unfold parse_entity_type in Hi. destruct (named (attr e "Name")) as [n|]; [|done].
  injection Hi as <-. cbn [et_properties]. rewrite Forall_fmap. apply Forall_forall. intros p (x & Hx & Hp)%list_elem_of_omap.
  unfold parse_property in Hp. destruct (named (attr x "Name")) as [m|] eqn:Em; [|done]. injection Hp as <-.
  by eapply plain_named, Em; eapply plain_findall, Hx; eapply plain_findall, He.
Qed.

Lemma plain_callables tag schema n params : plain_attributes schema = true → dict_get (parse_callables tag schema) n = Some params →
  Forall plain_name (params.*1).
Proof.
  intros Hs H%dict_get_Some_elem%dict_of_list_sound. apply list_elem_of_omap in H as (e & He & H).
  destruct (named (attr e "Name")) as [m|]; [|done]. injection H as <- <-. rewrite Forall_fmap. apply Forall_forall.
  intros p (x & Hx & Hp)%list_elem_of_omap. destruct (named (attr x "Name")) as [q|] eqn:Eq; [|done]. injection Hp as <-.
  by eapply plain_named, Eq; eapply plain_findall, Hx; eapply plain_findall, He.
Qed.

Lemma import_addressed params names path o : op_params o = import_params params → op_path o = Some path →
  placeholders None path = names → names ⊆ params.*1 → addressed o.
Proof.
  intros Ep Eo Eh Hsub n Hn. rewrite Eo in Hn. change (default "" (Some path)) with path in Hn. rewrite Eh in Hn.
  apply Hsub in Hn. apply list_elem_of_fmap in Hn as (p & -> & Hp). rewrite Ep.
  eexists. split_and!; [apply list_elem_of_fmap_2; exact Hp|done|done].
Qed.

Lemma function_addressed n params : no_brace n = true → Forall plain_name (params.*1) →
  addressed (_build_function_import_operation n params).
Proof.
  intros Hn Hp. eapply import_addressed; [done|done|done|]. unfold _build_function_import_path.
  destruct params as [|p ps].
  - rewrite holes_text, holes_text, holes_none by done. done.
  - rewrite holes_text, holes_text, (holes_text "(") by done.
    pose proof (holes_assignments _ ")" Hp) as H. rewrite <-list_fmap_compose in H. unfold compose in H. rewrite H, app_nil_r. done.
Qed.

Lemma action_addressed n params : no_brace n = true → addressed (_build_action_import_operation n params).
Proof. intros Hn. apply no_holes_addressed. change (placeholders None ("/" +:+ n) = []). rewrite holes_text by done. by apply holes_none. Qed.

Lemma entity_sets_plain container es t : plain_attributes container = true → (es, t) ∈ _parse_entity_sets container → no_brace es = true.
Proof.
  intros Hc H%dict_of_list_sound. apply list_elem_of_omap in H as (e & He & H).
  destruct (named (attr e "Name")) as [n|] eqn:En; [|done]. destruct (named (attr e "EntityType")); [|done]. injection H as <- _.
  by eapply plain_named, En; eapply plain_findall, He.
Qed.

Lemma entity_type_found types k info : dict_get (dict_of_list ((λ t, (et_name t, t)) <$> types)) k = Some info → info ∈ types.
Proof. intros H%dict_get_Some_elem%dict_of_list_sound. by apply list_elem_of_fmap in H as (t & [= _ ->] & Ht). Qed.

Lemma set_operations_crud schema es : plain_attributes schema = true → no_brace es.1 = true →
  entity_set_operations (_parse_entity_types schema) (attr_or schema "Namespace" "") es = [] ∨
  ∃ info, info ∈ _parse_entity_types schema ∧
    crud es.1 info (entity_set_operations (_parse_entity_types schema) (attr_or schema "Namespace" "") es).
Proof.
  intros Hs Hes. unfold entity_set_operations. destruct (dict_get _ _) as [info|] eqn:E; [|by left]. right.
  apply entity_type_found in E. exists info. split; [done|]. apply entity_set_crud; [done|]. by eapply plain_entity_types.
Qed.

Lemma container_addressed schema container : plain_attributes schema = true → plain_attributes container = true →
  Forall addressed (container_operations schema container).
Proof.
  intros Hs Hc. unfold container_operations. rewrite !Forall_app. split_and!.
  - apply Forall_concat, Forall_fmap, Forall_forall. intros [es t] Hes. unfold compose.
    destruct (set_operations_crud schema (es, t) Hs (entity_sets_plain _ _ _ Hc Hes)) as [->|(info & _ & H)]; [constructor|by destruct H].
  - apply Forall_fmap, Forall_forall. intros n (e & He & Hn)%list_elem_of_omap. apply function_addressed.
    + by eapply plain_attr, Hn; eapply plain_findall, He.
    + destruct (dict_get (_parse_functions schema) n) as [ps|] eqn:Ep; [|cbn; by apply Forall_nil]. exact (plain_callables _ _ _ _ Hs Ep).
  - apply Forall_fmap, Forall_forall. intros n (e & He & Hn)%list_elem_of_omap. apply action_addressed.
    by eapply plain_attr, Hn; eapply plain_findall, He.
Qed.

Lemma entity_set_known es info : Forall (λ o, rm_risk_level (op_risk o) ≠ unknown) (_build_entity_set_operations es info).
Proof. by repeat constructor. Qed.

Lemma container_known schema container : Forall (λ o, rm_risk_level (op_risk o) ≠ unknown) (container_operations schema container).
Proof.
  unfold container_operations. rewrite !Forall_app. split_and!.
  - apply Forall_concat, Forall_fmap, Forall_forall. intros [es t] _. cbn. unfold entity_set_operations.
    destruct (dict_get _ _); [apply entity_set_known|constructor].
  - by apply Forall_fmap, Forall_forall.
  - by apply Forall_fmap, Forall_forall.
Qed.

(** An OData service becomes the operations of its entity sets.  A description
    made of a metadata document without braces in its names is valid; every hole
    of an operation's path is filled from a required parameter; and for each
    entity set whose type is declared it has five operations, listing, reading,
    creating, updating and deleting, classified by what they do, with the entity
    addressed by exactly its key, created from the properties outside the key and
    updated from all of them. *)
Theorem odata_extraction root url source_hash now ir :
  odata_description root url source_hash now = Ok ir → plain_attributes root = true →
  valid_description "odata" ir ∧ Forall addressed (ir_operations ir) ∧
  ∃ schema container, first_schema root = Some schema ∧ find_child (edm_tag "EntityContainer") schema = Some container ∧
  ∀ es t info, dict_get (_parse_entity_sets container) es = Some t →
    dict_get (dict_of_list ((λ t, (et_name t, t)) <$> _parse_entity_types schema))
      (_strip_namespace t (attr_or schema "Namespace" "")) = Some info →
    ∃ before ops after, ir_operations ir = before ++ ops ++ after ∧ crud es info ops.
Proof.
  unfold odata_description. intros H Hroot. destruct (negb _); [done|].
  destruct (first_schema root) as [schema|] eqn:Es; [|done].
  destruct (find_child (edm_tag "EntityContainer") schema) as [container|] eqn:Ec; [|done].
  assert (plain_attributes schema = true) as Hs.
  { unfold first_schema in Es. apply head_Some_elem_of, elem_of_concat_map in Es as (d & Hd & Hin). eapply plain_findall, Hin. by eapply plain_findall. }
  pose proof (plain_found _ _ _ Hs Ec) as Hc. split; [by eapply describe_valid|].
  apply described_operations in H as [-> _]; [|apply container_known].
  split; [by apply container_addressed|]. exists schema, container. split_and!; [done|done|]. intros es t info Ht Hi.
  pose proof (dict_get_Some_elem _ _ _ Ht) as Hin. apply list_elem_of_split in Hin as (l1 & l2 & El).
  unfold container_operations. rewrite El.
  set (f := entity_set_operations (_parse_entity_types schema) (attr_or schema "Namespace" "")).
  rewrite fmap_app, concat_app, <-app_assoc. exists (concat (f <$> l1)), (f (es, t)). eexists. split.
  { f_equal. rewrite fmap_cons. cbn [concat]. rewrite <-app_assoc. reflexivity. }
  unfold f, entity_set_operations. cbn [fst snd]. rewrite Hi. apply entity_set_crud.
  - exact (entity_sets_plain _ _ _ Hc (dict_get_Some_elem _ _ _ Ht)).
  - exact (plain_entity_types _ _ Hs (entity_type_found _ _ _ Hi)).
Qed.

#[global] Instance odata_extracts {W} read_text httpx_get parse_xml sha256_hex (now : W → Z) :
  Extracts (ODataExtractor read_text httpx_get parse_xml sha256_hex now).
Proof.
  intros source w ir w' H. cbn in H. unfold odata_extract in H. mbind H content w1 Hc. destruct content as [text|]; [|done].
  destruct (parse_xml text) as [root|]; [|done]. mbind H t w2 Ht. apply answer_ok in H as [H _]. unfold odata_description in H.
  destruct (negb _); [done|]. destruct (first_schema root); [|done]. destruct (find_child _ _); [|done]. by eapply describe_valid.
Qed.

(** ** A worked document *)

Definition edm (name : string) (attrs : dict string) (children : list element) : element := Element (edm_tag name) attrs None children.

Definition shop_document : element :=
  Element (edmx_tag "Edmx") [("Version", "4.0")] None [Element (edmx_tag "DataServices") [] None [
    edm "Schema" [("Namespace", "Shop")] [
      edm "EntityType" [("Name", "Line")] [
        edm "Key" [] [edm "PropertyRef" [("Name", "OrderID")] []; edm "PropertyRef" [("Name", "LineNo")] []];
        edm "Property" [("Name", "OrderID"); ("Type", "Edm.Int32")] [];
        edm "Property" [("Name", "Price"); ("Type", "Edm.Decimal"); ("Nullable", "false")] [];
        edm "Property" [("Name", "LineNo"); ("Type", "Edm.Int32")] []];
      edm "Function" [("Name", "TopLines")] [edm "Parameter" [("Name", "count"); ("Type", "Edm.Int32")] []];
      edm "EntityContainer" [("Name", "ShopContainer")] [
        edm "EntitySet" [("Name", "Lines"); ("EntityType", "Shop.Line")] [];
        edm "FunctionImport" [("Name", "TopLines")] [];
        edm "ActionImport" [("Name", "ResetAll")] []]]]].

Definition shop_run : outcome exn ServiceIR := odata_description shop_document (Some "http://shop/$metadata") "hash" 0.

Lemma odata_extraction_witness : ∃ ir, shop_run = Ok ir ∧ Forall addressed (ir_operations ir) ∧
  ir_base_url ir = "http://shop" ∧ ir_service_name ir = "shop-container" ∧
  op_path <$> ir_operations ir = Some <$> ["/Lines"; "/Lines(OrderID={OrderID},LineNo={LineNo})"; "/Lines";
     "/Lines(OrderID={OrderID},LineNo={LineNo})"; "/Lines(OrderID={OrderID},LineNo={LineNo})"; "/TopLines(count={count})"; "/ResetAll"].
Proof.
  destruct shop_run as [ir|e] eqn:E; [|vm_compute in E; discriminate E]. exists ir. split; [reflexivity|].
  split; [exact (proj1 (proj2 (odata_extraction shop_document _ _ _ ir E eq_refl)))|].
  vm_compute in E. injection E as <-. by vm_compute.
Defined.

(** Two entity sets whose names differ only in case share identifiers: the whole
    extraction fails. *)
Example odata_sets_that_differ_in_case :
  match odata_description (Element (edmx_tag "Edmx") [] None [Element (edmx_tag "DataServices") [] None [
    edm "Schema" [("Namespace", "N")] [edm "EntityType" [("Name", "T")] [];
      edm "EntityContainer" [] [edm "EntitySet" [("Name", "Items"); ("EntityType", "N.T")] [];
                                edm "EntitySet" [("Name", "items"); ("EntityType", "N.T")] []]]]]) None "h" 0 with
  | Raise e => exn_type e = "ValueError" | Ok _ => False end.
Proof. vm_compute. reflexivity. Qed.

(** A type that inherits its key is addressed by an identifier it does not have. *)
Example odata_inherited_key_is_lost :
  match odata_description (Element (edmx_tag "Edmx") [] None [Element (edmx_tag "DataServices") [] None [
    edm "Schema" [("Namespace", "N")] [
      edm "EntityType" [("Name", "Base")] [edm "Key" [] [edm "PropertyRef" [("Name", "Code")] []]; edm "Property" [("Name", "Code")] []];
      edm "EntityType" [("Name", "T"); ("BaseType", "N.Base")] [edm "Property" [("Name", "Title")] []];
      edm "EntityContainer" [] [edm "EntitySet" [("Name", "Items"); ("EntityType", "N.T")] []]]]]) None "h" 0 with
  | Ok ir => (λ o, pa_name <$> op_params o) <$> ir_operations ir
             = [["$filter"; "$select"; "$top"; "$skip"; "$orderby"]; ["id"]; ["Title"]; ["id"; "Title"]; ["id"]]
  | Raise _ => False end.
Proof. vm_compute. reflexivity. Qed.
