(* ===== verification/ScimExtractor.v ===== *)
(** * The SCIM extractor ([libs/extractors/scim.py])

    The schemas a SCIM service publishes become the operations on its resources.
    The JSON parser, the HTTP client and the file system are parameters. *)

From S2P Require Export ExtractorKit.
From Stdlib Require Import Ascii.

(** [_pluralize] *)
Definition is_vowel (c : ascii) : bool := bool_decide (c ∈ chars "aeiou").
Definition _pluralize (name : string) : string :=
  let l := lower name in
  if existsb (λ e, endswith e l) ["s"; "x"; "z"; "sh"; "ch"] then name +:+ "es"
  else match rev (chars l) with
       | "y"%char :: before :: _ => if is_vowel before then name +:+ "s" else String.substring 0 (String.length name - 1) name +:+ "ies"
       | _ => name +:+ "s"
       end.

Definition SCIM_TYPE_MAP : dict string := [
  ("string", "string"); ("boolean", "boolean"); ("decimal", "number"); ("integer", "integer"); ("dateTime", "string");
  ("complex", "object"); ("reference", "string")].

Definition SCIM_ERROR_SCHEMA : dict pyval :=
  object_of [("schemas", VDict [("type", VStr "array"); ("items", typed_schema "string")]); ("detail", typed_schema "string");
             ("status", typed_schema "string"); ("scimType", typed_schema "string")].

(** An attribute of a schema *)
Definition standard_attribute (name type mutability : string) (required multi : bool) (description : string) : pyval :=
  VDict [("name", VStr name); ("type", VStr type); ("mutability", VStr mutability); ("required", VBool required);
         ("multiValued", VBool multi); ("description", VStr description)].
Definition _STANDARD_SCIM_RESOURCES : list (dict pyval) := [
  [("id", VStr "urn:ietf:params:scim:schemas:core:2.0:User"); ("name", VStr "User"); ("description", VStr "User Account");
   ("attributes", VList [
      standard_attribute "userName" "string" "readWrite" true false "Unique identifier for the user";
      standard_attribute "name" "complex" "readWrite" false false "Name of the user";
      standard_attribute "emails" "complex" "readWrite" false true "Email addresses";
      standard_attribute "active" "boolean" "readWrite" false false "Active status";
      standard_attribute "id" "string" "readOnly" false false "Unique identifier";
      standard_attribute "meta" "complex" "readOnly" false false "Resource metadata"])];
  [("id", VStr "urn:ietf:params:scim:schemas:core:2.0:Group"); ("name", VStr "Group"); ("description", VStr "Group");
   ("attributes", VList [
      standard_attribute "displayName" "string" "readWrite" true false "Display name for the group";
      standard_attribute "members" "complex" "readWrite" false true "Group members";
      standard_attribute "id" "string" "readOnly" false false "Unique identifier";
      standard_attribute "meta" "complex" "readOnly" false false "Resource metadata"])]].

(** ** Reading the discovery document *)

(** Does an item look like a schema? *)
Definition schema_definition (v : pyval) : option (dict pyval) :=
  match v with
  | VDict d => if is_str (get_or_none d "name") && is_list (get_or_none d "attributes") then Some d else None
  | _ => None
  end.

Definition _extract_resources (data : dict pyval) : list (dict pyval) :=
  let definitions := match get_or_none data "Resources" with VList l => omap schema_definition l | _ => [] end in
  match definitions with
  | _ :: _ => definitions
  | [] => match get_default data "schemas" (VDict []) with
          | VDict section => match get_default section "Resources" (VList []) with VList l => omap as_dict l | _ => [] end
          | _ => []
          end
  end.

Definition _extract_service_provider_config (data : dict pyval) : dict pyval :=
  match get_default data "service_provider_config" (VDict []) with VDict d => d | _ => [] end.

Definition list_response : pyval := VStr "urn:ietf:params:scim:api:messages:2.0:ListResponse".

Definition _fallback_resources (url : option string) (data : dict pyval) : outcome exn (list (dict pyval)) :=
  let! u := urlparse (default "" url) in
  let url_path := rstrip_char "/"%char (path u) in
  Ok (if endswith "/Users" url_path || endswith "/Groups" url_path
         || match get_or_none data "schemas" with VList l => existsb (py_eq list_response) l | _ => false end
      then _STANDARD_SCIM_RESOURCES else []).

(** The first suffix that fits is cut. *)
Fixpoint cut_suffix (suffixes : list string) (url : string) : string :=
  match suffixes with
  | [] => url
  | s :: l => if endswith s url then String.substring 0 (String.length url - String.length s) url else cut_suffix l url
  end.
Definition scim_base_url (url : option string) : string :=
  if opt_truthy url then cut_suffix ["/Schemas"; "/ServiceProviderConfig"; "/ResourceTypes"; "/Users"; "/Groups"] (default "" url)
  else "https://scim.example.com".

(** ** Attributes *)

Section scim.
Context (repr : pyval → string).

Definition is_word (v : pyval) (s : string) : bool := match v with VStr t => str_eqb t s | _ => false end.

Definition scim_map_type (a : dict pyval) : outcome exn string :=
  let t := get_default a "type" (VStr "string") in
  if is_word t "complex" && truthy (get_default a "multiValued" (VBool false)) then Ok "array"
  else table_get SCIM_TYPE_MAP t "string".

(** Attributes a request may carry: those whose mutability is not listed *)
Definition writable (barred : list string) (attrs : list pyval) : outcome exn (list (dict pyval)) :=
  let! l := traverse as_mapping attrs in
  Ok (List.filter (λ a, negb (match get_or_none a "mutability" with VStr m => one_of m barred | _ => false end)) l).
Definition _writable_for_create : list pyval → outcome exn (list (dict pyval)) := writable ["readOnly"].
Definition _writable_for_update : list pyval → outcome exn (list (dict pyval)) := writable ["readOnly"; "immutable"].

(** One sub-attribute: the entries so far and the names required *)
Definition add_sub_attribute (acc : dict pyval * list string) (sa : pyval) : outcome exn (dict pyval * list string) :=
  match sa with
  | VDict sa =>
      let sa_name := get_default sa "name" (VStr "") in
      if negb (truthy sa_name) then Ok acc
      else
        let! t := table_get SCIM_TYPE_MAP (get_default sa "type" (VStr "string")) "string" in
        let description := get_or_none sa "description" in
        let entry := ("type", VStr t) :: (if truthy description then [("description", VStr (py_str repr description))] else []) in
        if unhashable sa_name then Raise (type_error "unhashable type")
        else
          let! n := text_field "Param" sa_name in
          Ok (dict_set acc.1 n (VDict entry), if truthy (get_default sa "required" (VBool false)) then acc.2 ++ [n] else acc.2)
  | _ => Ok acc
  end.

Definition _build_complex_json_schema (a : dict pyval) : outcome exn (option (dict pyval)) :=
  let sub_attrs := get_default a "subAttributes" (VList []) in
  if negb (is_word (get_default a "type" (VStr "string")) "complex") || negb (truthy sub_attrs) then Ok None
  else
    let! l := iterate sub_attrs in
    let! '(properties, required) := fold_outcome add_sub_attribute ([], []) l in
    match properties with
    | [] => Ok None
    | _ =>
        let obj_schema := object_of properties ++ match required with [] => [] | _ => [("required", vstrs required)] end in
        Ok (Some (if truthy (get_default a "multiValued" (VBool false))
                  then [("type", VStr "array"); ("items", VDict obj_schema)] else obj_schema))
    end.

Definition attr_to_param (a : dict pyval) : outcome exn Param :=
  let! name := item a "name" in
  let! t := scim_map_type a in
  let! schema := _build_complex_json_schema a in
  let! n := text_field "Param" name in
  let! required := bool_field "Param" (get_default a "required" (VBool false)) in
  let! description := text_field "Param" (get_default a "description" (VStr "")) in
  Ok (extracted n t required description VNone schema 1).
Definition _attrs_to_params : list (dict pyval) → outcome exn (list Param) := traverse attr_to_param.

(** ** Operations *)

Definition _error_schema : ErrorSchema :=
  mk_error_schema ((λ sd, mk_error_response (Some sd.1) None sd.2 None) <$>
    [(400, "Bad request"); (401, "Unauthorized"); (404, "Resource not found"); (409, "Conflict")]) (Some SCIM_ERROR_SCHEMA).

Definition scim_risk (level : RiskLevel) (writes destructive idempotent : option bool) : RiskMetadata :=
  mk_risk writes destructive None idempotent level 1 src_extractor.
Definition scim_operation (id description method path : string) (params : list Param) (risk : RiskMetadata) : Operation :=
  plain_operation id id description (Some method) (Some path) params _error_schema risk [] 1.

Definition id_param (l : string) : Param := plain_param "id" "string" true (l +:+ " identifier").

(** Does the provider support a feature? *)
Definition supports (spc : dict pyval) (feature : string) : outcome exn bool :=
  let! d := as_mapping (get_default spc feature (VDict [])) in Ok (truthy (get_or_none d "supported")).

Definition _build_resource_operations (l plural : string) (attributes : pyval) (spc : dict pyval) : outcome exn (list Operation) :=
  let collection := "/" +:+ plural in
  let entity := "/" +:+ plural +:+ "/{id}" in
  let! attrs := iterate attributes in
  let! create_attrs := _writable_for_create attrs in
  let! create_params := _attrs_to_params create_attrs in
  let! update_attrs := _writable_for_update attrs in
  let! update_params := _attrs_to_params update_attrs in
  let! patch := supports spc "patch" in
  Ok ([scim_operation ("list_" +:+ l +:+ "s") ("List " +:+ plural +:+ " with optional filtering") "GET" collection
         [plain_param "filter" "string" false "SCIM filter expression"; plain_param "startIndex" "integer" false "1-based start index";
          plain_param "count" "integer" false "Number of results to return"] (scim_risk safe None None None);
       scim_operation ("get_" +:+ l) ("Get a single " +:+ l +:+ " by ID") "GET" entity [id_param l] (scim_risk safe None None None);
       scim_operation ("create_" +:+ l) ("Create a new " +:+ l) "POST" collection create_params (scim_risk cautious (Some true) None None);
       scim_operation ("update_" +:+ l) ("Replace an existing " +:+ l) "PUT" entity (id_param l :: update_params)
         (scim_risk cautious (Some true) None (Some true))]
      ++ (if patch : bool then
            [scim_operation ("patch_" +:+ l) ("Partially update a " +:+ l) "PATCH" entity
               [id_param l; plain_param "Operations" "array" true "SCIM patch operations"] (scim_risk cautious (Some true) None None)]
          else [])
      ++ [scim_operation ("delete_" +:+ l) ("Delete a " +:+ l) "DELETE" entity [id_param l] (scim_risk dangerous (Some true) (Some true) None)]).

Definition _change_password_op : Operation :=
  scim_operation "change_password" "Change the authenticated user's password" "POST" "/Me/ChangePassword"
    [plain_param "oldPassword" "string" true "Current password"; plain_param "newPassword" "string" true "New password"]
    (scim_risk cautious (Some true) None None).
Definition _bulk_op : Operation :=
  scim_operation "bulk_operation" "Execute bulk SCIM operations" "POST" "/Bulk"
    [plain_param "Operations" "array" true "List of bulk operations"] (scim_risk dangerous (Some true) None None).

(** The name of a resource, when it has one *)
Definition resource_name (resource : dict pyval) : option string := named (as_str (get_default resource "name" (VStr ""))).

(** The operations of one resource; none without a name *)
Definition resource_operations (spc : dict pyval) (resource : dict pyval) : outcome exn (list Operation) :=
  match resource_name resource with
  | Some name => _build_resource_operations (lower name) (_pluralize name) (get_default resource "attributes" (VList [])) spc
  | None => Ok []
  end.

(** The resources: those published, else the standard ones for an address or a list of records *)
Definition resources_of (data : dict pyval) (url : option string) : outcome exn (list (dict pyval)) :=
  match _extract_resources data with [] => _fallback_resources url data | l => Ok l end.

(** [extract] after the document is read and parsed *)
Definition scim_description (data : dict pyval) (url : option string) (source_hash : string) (now : Z) : outcome exn ServiceIR :=
  let! resources := resources_of data url in
  let spc := _extract_service_provider_config data in
  let! ops := traverse (resource_operations spc) resources in
  let! password := supports spc "changePassword" in
  let! bulk := supports spc "bulk" in
  describe "scim" "SCIM Service" "SCIM 2.0 provisioning service" (scim_base_url url) (plain_auth no_auth) url source_hash
    (concat ops ++ (if password : bool then [_change_password_op] else []) ++ (if bulk : bool then [_bulk_op] else [])) []
    [("scim_version", VStr "2.0"); ("resource_types", vstrs (omap resource_name resources));
     ("service_provider_config", VDict (List.filter (λ kv, is_dict kv.2) spc))] now.

Section extractor.
Context {W : Type} (read_text : string → comp W exn string) (httpx_get : string → dict string → comp W exn response).
Context (json_loads : string → option pyval) (sha256_hex : string → string) (now : W → Z).

(** [_raw_content]: a status that is an error leaves no content; other failures are raised. *)
Definition _raw_content (source : SourceConfig) : comp W exn string :=
  if opt_truthy (sc_file_content source) then ret (default "" (sc_file_content source))
  else if opt_truthy (sc_file_path source) then read_text (default "" (sc_file_path source))
  else if opt_truthy (sc_url source) then
    catch (r <- httpx_get (default "" (sc_url source)) (get_auth_headers source) ;; raise_for_status r ;;; ret (rsp_text r))
      (λ e, if exn_is "HTTPStatusError" e then ret "" else raise e)
  else ret "".

(** The discovery endpoints are tried in order until one answers with text. *)
Fixpoint try_endpoints (base : string) (headers : dict string) (endpoints : list string) : comp W exn string :=
  match endpoints with
  | [] => ret ""
  | e :: l =>
      a <- attempt (httpx_get (base +:+ e) headers) ;;
      match a with
      | Ok r => if (rsp_status r =? 200) && str_truthy (strip (rsp_text r)) then ret (rsp_text r) else try_endpoints base headers l
      | Raise x => if one_of (exn_type x) fetch_failures then try_endpoints base headers l else raise x
      end
  end.
Definition _try_discovery_endpoints (source : SourceConfig) : comp W exn string :=
  if opt_truthy (sc_url source) then
    try_endpoints (rstrip_char "/"%char (default "" (sc_url source))) (get_auth_headers source)
      ["/ServiceProviderConfig"; "/ResourceTypes"; "/Schemas"]
  else ret "".

Definition scim_extract (source : SourceConfig) : comp W exn ServiceIR :=
  raw <- _raw_content source ;;
  raw <- (if str_truthy raw then ret raw else _try_discovery_endpoints source) ;;
  if str_truthy raw then
    match json_loads raw with
    | None => raise json_decode_error
    | Some v => t <- gets now ;;
                answer (let! data := as_mapping v in scim_description data (sc_url source) (compute_content_hash sha256_hex raw) t)
    end
  else raise (value_error "No content available for extraction").

Definition scim_detect (source : SourceConfig) : comp W exn float :=
  if bool_decide (dict_get (sc_hints source) "protocol" = Some "scim") then ret 1%float
  else
    let url := default "" (sc_url source) in
    if str_contains "/scim/v2" url || str_contains "/scim/" url then ret 0x1.b333333333333p-1%float
    else
      content <- _raw_content source ;;
      ret (if str_truthy content && str_contains (requote "`schemas`") content && str_contains "urn:ietf:params:scim:schemas:" content
           then 0x1.ccccccccccccdp-1%float else 0%float).

Definition SCIMExtractor : ExtractorProtocol W := mk_extractor "scim" scim_detect scim_extract None.
End extractor.
End scim.

(** ** What an extracted description holds *)

Section soundness.
Context (repr : pyval → string).

(** The names of the attributes whose mutability is not barred *)
Definition attribute_names (barred : list string) (attrs : list pyval) : list string :=
  omap (λ a, match a with
             | VDict d => if match get_or_none d "mutability" with VStr m => one_of m barred | _ => false end then None
                          else as_str (get_or_none d "name")
             | _ => None
             end) attrs.

Lemma attr_to_param_name a p : attr_to_param repr a = Ok p → as_str (get_or_none a "name") = Some (pa_name p).
Proof.
  unfold attr_to_param. intros H. apply obind_ok in H as (v & Hv & H). unfold item in Hv. unfold get_or_none.
  destruct (dict_get a "name") as [v'|]; [|done]. injection Hv as ->. obinds H. injection H as <-. cbn [pa_name extracted].
  destruct v; simplify_eq/=; done.
Qed.

Lemma writable_names barred attrs l params : writable barred attrs = Ok l → _attrs_to_params repr l = Ok params →
  pa_name <$> params = attribute_names barred attrs.
Proof.
  unfold writable, _attrs_to_params. intros H Hp. apply obind_ok in H as (ds & Hds & H). injection H as <-.
  apply traverse_ok in Hds. revert params Hp.
  induction Hds as [|v d vs ds Hvd _ IH]; intros params Hp; cbn [List.filter] in Hp; [by injection Hp as <-|].
  destruct v as [| | | | | |d']; try done. injection Hvd as ->. unfold attribute_names. cbn [omap list_omap].
  destruct (match get_or_none d "mutability" with VStr m => one_of m barred | _ => false end); cbn [negb] in Hp; [by apply IH|].
  apply traverse_ok, Forall2_cons_inv_l in Hp as (p & ps & Ha & Hps & ->). apply attr_to_param_name in Ha. rewrite Ha.
  cbn. f_equal. apply IH. by apply traverse_ok.
Qed.

(** What the extractor promises of a resource *)
Record managed (spc : dict pyval) (resource : dict pyval) (name : string) (ops : list Operation) : Prop := {
  mn_ids : op_id <$> ops = (λ p, p.1 +:+ lower name +:+ p.2) <$>
    ([("list_", "s"); ("get_", ""); ("create_", ""); ("update_", "")]
     ++ match supports spc "patch" with Ok true => [("patch_", "")] | _ => [] end ++ [("delete_", "")]);
  mn_create : ∃ o attrs, ops !! 2%nat = Some o ∧ iterate (get_default resource "attributes" (VList [])) = Ok attrs ∧
    pa_name <$> op_params o = attribute_names ["readOnly"] attrs;
  mn_update : ∃ o attrs, ops !! 3%nat = Some o ∧ iterate (get_default resource "attributes" (VList [])) = Ok attrs ∧
    pa_name <$> op_params o = "id" :: attribute_names ["readOnly"; "immutable"] attrs;
  mn_addressed : no_brace name = true → Forall addressed ops;
}.

Lemma no_brace_substring name n : no_brace name = true → no_brace (String.substring 0 n name) = true.
Proof.
  revert n. induction name as [|c s IH]; intros [|n]; try done. rewrite no_brace_cons. intros [Hc Hs]%andb_true_iff.
  change (no_brace (String c (String.substring 0 n s)) = true). rewrite no_brace_cons, Hc. by apply IH.
Qed.

Lemma pluralize_plain name : no_brace name = true → no_brace (_pluralize name) = true.
Proof.
  intros Hn. unfold _pluralize. destruct (existsb _ _); [by rewrite no_brace_app, Hn|].
  assert (no_brace (name +:+ "s") = true) by (by rewrite no_brace_app, Hn).
  destruct (rev _) as [|c [|c' l]]; [done| |].
  - by destruct c as [[] [] [] [] [] [] [] []].
  - destruct c as [[] [] [] [] [] [] [] []]; try done. destruct (is_vowel c'); [done|].
    by rewrite no_brace_app, no_brace_substring.
Qed.

Lemma entity_holes plural : no_brace plural = true → placeholders None ("/" +:+ plural +:+ "/{id}") = ["id"].
Proof. intros Hp. rewrite holes_text, holes_text by done. apply (holes_text "/" "{id}" eq_refl). Qed.

Lemma by_id_addressed o plural l rest : no_brace plural = true → op_path o = Some ("/" +:+ plural +:+ "/{id}") →
  op_params o = id_param l :: rest → addressed o.
Proof.
  intros Hp Eo Ep n. rewrite Eo. change (default "" (Some ?p)) with p. rewrite entity_holes, Ep by done.
  intros ->%list_elem_of_singleton. exists (id_param l). split_and!; [by left|done|done].
Qed.

Lemma collection_addressed o plural : no_brace plural = true → op_path o = Some ("/" +:+ plural) → addressed o.
Proof.
  intros Hp Eo n. rewrite Eo. change (default "" (Some ?p)) with p. rewrite holes_text, holes_none by done.
  by intros ?%elem_of_nil.
Qed.

Lemma resource_managed spc resource name ops : resource_name resource = Some name → resource_operations repr spc resource = Ok ops →
  managed spc resource name ops.
Proof.
  unfold resource_operations. intros -> H. unfold _build_resource_operations in H.
  apply obind_ok in H as (attrs & Ha & H). apply obind_ok in H as (ca & Hca & H). apply obind_ok in H as (cp & Hcp & H).
  apply obind_ok in H as (ua & Hua & H). apply obind_ok in H as (up & Hup & H). apply obind_ok in H as (patch & Hpatch & H).
  injection H as <-. split.
  - rewrite Hpatch. destruct patch; cbn; by rewrite !str_app_empty.
  - eexists _, attrs. split_and!; [done|done|]. by eapply writable_names.
  - eexists _, attrs. split_and!; [done|done|]. cbn. f_equal. by eapply writable_names.
  - intros Hn%pluralize_plain. cbn [app]. repeat apply Forall_cons_2.
    1,3: by eapply collection_addressed. 1-2: by eapply by_id_addressed.
    destruct patch; cbn [app]; repeat apply Forall_cons_2; try constructor; by eapply by_id_addressed.
Qed.

Lemma resource_known spc resource ops : resource_operations repr spc resource = Ok ops →
  Forall (λ o, rm_risk_level (op_risk o) ≠ unknown ∧ op_id o ≠ "change_password" ∧ op_id o ≠ "bulk_operation") ops.
Proof.
  unfold resource_operations. destruct (resource_name resource) as [name|]; [|by intros [= <-]].
  unfold _build_resource_operations. intros H. obinds H. injection H as <-.
  match goal with |- context [if ?b then _ else []] => destruct b end; repeat constructor; done.
Qed.

(** A SCIM service becomes operations that respect its schema.  A description
    made of a discovery document is valid; each resource that has a name gets its
    operations, the partial update only when the provider supports patching; a
    creation carries exactly the attributes that are not read-only, a replacement
    exactly those that are neither read-only nor immutable next to the identifier;
    the identifier in a path is a required parameter; and the password and bulk
    operations are there exactly when the provider supports them. *)
Theorem scim_extraction data url source_hash now ir :
  scim_description repr data url source_hash now = Ok ir →
  let spc := _extract_service_provider_config data in
  valid_description "scim" ir ∧
  (∃ resources, resources_of data url = Ok resources ∧ ∀ r name, r ∈ resources → resource_name r = Some name →
     ∃ before ops after, ir_operations ir = before ++ ops ++ after ∧ managed spc r name ops) ∧
  ("change_password" ∈ op_ids ir ↔ supports spc "changePassword" = Ok true) ∧
  ("bulk_operation" ∈ op_ids ir ↔ supports spc "bulk" = Ok true).
Proof.
  intros H spc. unfold scim_description in H. fold spc in H. apply obind_ok in H as (resources & Hr & H).
  apply obind_ok in H as (opss & Ho & H). apply obind_ok in H as (pw & Hpw & H). apply obind_ok in H as (bulk & Hbulk & H).
  apply traverse_ok in Ho.
  assert (Forall (λ o, rm_risk_level (op_risk o) ≠ unknown ∧ op_id o ≠ "change_password" ∧ op_id o ≠ "bulk_operation") (concat opss)) as Hk.
  { apply Forall_concat. clear -Ho. induction Ho as [|r ops rs opss Hro _ IH]; constructor; [by eapply resource_known|done]. }
  split; [by eapply describe_valid|]. apply described_operations in H as [Eops _].
  2: { rewrite !Forall_app. split_and!; [|by destruct pw; repeat constructor|by destruct bulk; repeat constructor].
       eapply Forall_impl; [exact Hk|]. by intros o [? _]. }
  assert (∀ id, (id = "change_password" ∨ id = "bulk_operation") → id ∉ op_id <$> concat opss) as Hfresh.
  { intros id Hid (o & Eo & Hin)%list_elem_of_fmap. rewrite Forall_forall in Hk. destruct (Hk o Hin) as (_ & H1 & H2).
    destruct Hid; congruence. }
  split_and!.
  - exists resources. split; [done|]. intros r name Hin Hn. apply list_elem_of_split in Hin as (l1 & l2 & ->).
    apply Forall2_app_inv_l in Ho as (o1 & o2 & _ & Ho & ->). apply Forall2_cons_inv_l in Ho as (ops & o3 & Hro & _ & ->).
    rewrite Eops, concat_app. cbn [concat]. rewrite <-!app_assoc. eexists _, ops, _. split; [reflexivity|]. by eapply resource_managed.
  - unfold op_ids. rewrite Eops, !fmap_app, !elem_of_app, Hpw. pose proof (Hfresh "change_password" (or_introl eq_refl)).
    destruct pw, bulk; cbn; rewrite ?list_elem_of_singleton, ?elem_of_nil; naive_solver.
  - unfold op_ids. rewrite Eops, !fmap_app, !elem_of_app, Hbulk. pose proof (Hfresh "bulk_operation" (or_intror eq_refl)).
    destruct pw, bulk; cbn; rewrite ?list_elem_of_singleton, ?elem_of_nil; naive_solver.
Qed.
End soundness.

#[global] Instance scim_extracts {W} repr read_text httpx_get json_loads sha256_hex (now : W → Z) :
  Extracts (SCIMExtractor repr read_text httpx_get json_loads sha256_hex now).
Proof.
  intros source w ir w' H. cbn in H. unfold scim_extract in H. mbind H raw w1 H1. mbind H raw' w2 H2.
  destruct (str_truthy raw'); [|done]. destruct (json_loads raw') as [v|]; [|done]. mbind H t w3 H3.
  apply answer_ok in H as [H _]. apply obind_ok in H as (data & _ & H). unfold scim_description in H.
  do 4 (apply obind_ok in H as (? & _ & H)). by eapply describe_valid.
Qed.

(** ** Worked documents *)

Definition scim_attribute (name mutability : string) : pyval := VDict [("name", VStr name); ("type", VStr "string"); ("mutability", VStr mutability)].
Definition scim_document : dict pyval := [
  ("Resources", VList [VDict [("name", VStr "User"); ("attributes", VList [scim_attribute "userName" "readWrite"; scim_attribute "id" "readOnly";
                                                                           scim_attribute "origin" "immutable"])]]);
  ("service_provider_config", VDict [("patch", VDict [("supported", VBool true)]); ("bulk", VDict [("supported", VBool false)])])].

Lemma scim_extraction_witness : ∃ ir, scim_description (λ _, "") scim_document (Some "http://idp/scim/v2/Schemas") "h" 0 = Ok ir ∧
  ¬ ("bulk_operation" ∈ op_ids ir) ∧
  op_ids ir = ["list_users"; "get_user"; "create_user"; "update_user"; "patch_user"; "delete_user"] ∧
  (λ o, pa_name <$> op_params o) <$> ir_operations ir
  = [["filter"; "startIndex"; "count"]; ["id"]; ["userName"; "origin"]; ["id"; "userName"]; ["id"; "Operations"]; ["id"]].
Proof.
  destruct (scim_description (λ _, "") scim_document (Some "http://idp/scim/v2/Schemas") "h" 0) as [ir|e] eqn:E; [|vm_compute in E; discriminate E].
  exists ir. split; [reflexivity|]. split.
  - intros Hb. apply (scim_extraction (λ _, "") scim_document _ _ _ ir E) in Hb. vm_compute in Hb. discriminate Hb.
  - vm_compute in E. injection E as <-. by vm_compute.
Defined.

(** An attribute called [id] that may be written is in the replacement twice. *)
Example scim_writable_id :
  match scim_description (λ _, "") [("Resources", VList [VDict [("name", VStr "T"); ("attributes", VList [scim_attribute "id" "readWrite"])]])] None "h" 0 with
  | Ok ir => (λ o, pa_name <$> op_params o) <$> ir_operations ir !! 3%nat = Some ["id"; "id"]
  | Raise _ => False end.
Proof. vm_compute. reflexivity. Qed.
