(* ===== verification/JsonRpcExtractor.v ===== *)
(** * The JSON-RPC extractor ([libs/extractors/jsonrpc.py])

    An OpenRPC document, a hand-written definition or the answer of a live
    endpoint to [system.listMethods] becomes one operation for each method.  The
    JSON codec, the HTTP client and the file system are parameters. *)

From S2P Require Export ExtractorKit.
From Stdlib Require Import Ascii.

Definition _SAFE_PREFIXES : list string := ["get"; "list"; "query"; "fetch"; "describe"; "find"; "search"; "count"].
Definition _DANGEROUS_PREFIXES : list string := ["delete"; "remove"; "purge"; "drop"].

Definition jsonrpc_types : list string := ["string"; "integer"; "number"; "boolean"; "array"; "object"].
(** [_JSON_SCHEMA_TYPE_MAP], which keeps the types it knows *)
Definition _JSON_SCHEMA_TYPE_MAP : dict string := (λ t, (t, t)) <$> jsonrpc_types.

Definition _JSONRPC_ERROR_SCHEMA : ErrorSchema :=
  mk_error_schema
    ((λ cd, coded_error cd.1 cd.2 None) <$>
       [("-32700", "Parse error"); ("-32600", "Invalid Request"); ("-32601", "Method not found"); ("-32602", "Invalid params");
        ("-32603", "Internal error")])
    (Some (object_of [
       ("jsonrpc", VDict [("type", VStr "string"); ("const", VStr "2.0")]);
       ("error", VDict (object_of [("code", typed_schema "integer"); ("message", typed_schema "string"); ("data", VDict [])]
                        ++ [("required", vstrs ["code"; "message"])]));
       ("id", VDict [])])).

(** The part of a dotted name after the last dot, in lower case *)
Definition last_segment (method_name : string) : string := lower (default "" (last (split_on "."%char method_name))).

Definition _classify_risk (method_name : string) : RiskMetadata :=
  let starts l := existsb (λ p, startswith p (last_segment method_name)) l in
  if starts _SAFE_PREFIXES then mk_risk (Some false) (Some false) None None safe low src_extractor
  else if starts _DANGEROUS_PREFIXES then mk_risk (Some true) (Some true) None None dangerous low src_extractor
  else mk_risk (Some true) (Some false) None None cautious 0x1.3333333333333p-1 src_extractor.

Definition _map_type (schema : dict pyval) : outcome exn string :=
  table_get _JSON_SCHEMA_TYPE_MAP (get_default schema "type" (VStr "object")) "object".

Definition _json_schema_for_param (schema : dict pyval) (ir_type : string) : option (dict pyval) :=
  if str_eqb ir_type "object" then
    let properties := get_or_none schema "properties" in
    let required := get_or_none schema "required" in
    if truthy properties
    then Some ([("type", VStr "object"); ("properties", properties)] ++ (if truthy required then [("required", required)] else []))
    else None
  else if str_eqb ir_type "array" then
    let items := get_default schema "items" (VDict []) in
    Some [("type", VStr "array"); ("items", if truthy items then items else typed_schema "string")]
  else None.

(** ** Methods *)

Inductive params_style := positional | named_style.
#[global] Instance params_style_eq_dec : EqDecision params_style.
Proof. solve_decision. Defined.
Definition style_value (s : params_style) : string := match s with positional => "positional" | named_style => "named" end.
Definition parse_style (s : string) : option params_style :=
  if str_eqb s "positional" then Some positional else if str_eqb s "named" then Some named_style else None.

(** [v in {"named", "positional"}], as the style itself *)
Definition style_of (v : pyval) : outcome exn (option params_style) :=
  if unhashable v then Raise (type_error "unhashable type") else Ok (match v with VStr s => parse_style s | _ => None end).

Definition _resolve_params_type (method : dict pyval) : outcome exn params_style :=
  let! declared := style_of (get_or_none method "params_type") in
  match declared with
  | Some s => Ok s
  | None =>
      match get_or_none method "paramStructure" with
      | VStr s => Ok (if str_eqb s "by-position" then positional else named_style)
      | v => if unhashable v then Raise (type_error "unhashable type") else Ok named_style
      end
  end.

(** One parameter; none without a name *)
Definition method_param (v : pyval) : outcome exn (option Param) :=
  let! p := as_mapping v in
  let p_name := get_or_none p "name" in
  if negb (truthy p_name) then Ok None
  else
    let! p_schema := as_mapping (get_default p "schema" (VDict [("type", VStr "object")])) in
    let! p_type := _map_type p_schema in
    let json_schema := _json_schema_for_param p_schema p_type in
    let! name := text_field "Param" p_name in
    let! required := bool_field "Param" (get_default p "required" (VBool false)) in
    let! description := text_field "Param" (get_default p "description" (VStr "")) in
    Ok (Some (extracted name p_type required description (get_default p "default" (get_or_none p_schema "default")) json_schema 1)).

(** The operation of a method; none without a name *)
Definition _method_to_operation (endpoint_path : string) (v : pyval) : outcome exn (option Operation) :=
  let! method := as_mapping v in
  match get_or_none method "name" with
  | VStr name =>
      if str_truthy name then
        let! style := _resolve_params_type method in
        let! raw := iterate (get_default method "params" (VList [])) in
        let! found := traverse method_param raw in
        let params := omap id found in
        let result := get_default method "result" (VDict []) in
        let! result_schema := if truthy result then let! r := as_mapping result in Ok (get_or_none r "schema") else Ok VNone in
        let desc := value_or (get_default method "description" (VStr "")) (get_default method "summary" (VStr "")) in
        let! schema := dict_field "JsonRpcOperationConfig" result_schema in
        let! description := text_field "Operation" desc in
        Ok (Some (mk_operation (str_replace "." "_" name) name description (Some "POST") (Some endpoint_path) params None
                    _JSONRPC_ERROR_SCHEMA [] (_classify_risk name) plain_strategy body_json None None None None None None
                    (Some (mk_jsonrpc "2.0" name (style_value style) (pa_name <$> params) schema)) None None [] None src_extractor 1 None true))
      else Ok None
  | v => if truthy v then Raise (attribute_error "replace") else Ok None
  end.

(** ** Where the service is *)

Definition _default_service_title (source : SourceConfig) : outcome exn string :=
  match named (dict_get (sc_hints source) "service_name") with
  | Some n => Ok n
  | None =>
      if opt_truthy (sc_url source) then
        let! u := urlparse (default "" (sc_url source)) in
        let host := url_hostname u in
        Ok (str_replace "." "-" (if str_truthy host then host else "jsonrpc-service"))
      else Ok "JSON-RPC Service"
  end.

(** The endpoint next to an OpenRPC document *)
Definition _default_openrpc_endpoint (source_url : string) : outcome exn string :=
  let! u := urlparse source_url in
  Ok (match List.find (λ s, endswith s (path u)) ["/openrpc.json"; "/openrpc.yaml"; "/openrpc.yml"] with
      | Some suffix =>
          urlunsplit (mk_split (scheme u) (netloc u) (String.substring 0 (String.length (path u) - String.length suffix) (path u) +:+ "/rpc") "" "")
      | None => source_url
      end).

Section jsonrpc.
Context (repr : pyval → string).

Definition _resolve_base_url (data : dict pyval) (source : SourceConfig) (is_openrpc : bool) : outcome exn string :=
  let! declared :=
    if is_openrpc then
      let servers := get_default data "servers" (VList []) in
      if truthy servers then
        let! first := first_item servers in
        Ok (match first with VDict s => get_or_none s "url" | _ => VNone end)
      else Ok VNone
    else Ok (get_or_none data "endpoint") in
  if truthy declared then Ok (py_str repr declared)
  else if opt_truthy (sc_url source) then
    if is_openrpc then _default_openrpc_endpoint (default "" (sc_url source)) else Ok (default "" (sc_url source))
  else Ok "http://localhost:8080/rpc".

(** [extract] after the definition is loaded *)
Definition jsonrpc_description (source : SourceConfig) (data : dict pyval) (source_hash : string) (discovery : dict pyval) (now : Z)
    : outcome exn ServiceIR :=
  let is_openrpc := dict_mem data "openrpc" in
  let! info := as_mapping (get_default data "info" (VDict [])) in
  let! title := if truthy (get_or_none info "title") then Ok (get_or_none info "title")
                else let! t := _default_service_title source in Ok (VStr t) in
  let! base_url := _resolve_base_url data source is_openrpc in
  let! endpoint := urlparse base_url in
  let endpoint_path := if str_truthy (path endpoint) then path endpoint else "/" in
  let! methods := iterate (get_default data "methods" (VList [])) in
  let! found := traverse (_method_to_operation endpoint_path) methods in
  let operations := omap id found in
  let metadata := dict_update
    ([("service_version", get_default info "version" (VStr "0.0.0")); ("method_count", VInt (Z.of_nat (length operations)))]
     ++ (if is_openrpc then [("openrpc_version", get_or_none data "openrpc")] else [])) discovery in
  let! service_name := match title with VStr t => Ok (str_replace " " "-" (lower t)) | _ => Raise (attribute_error "lower") end in
  let! description := text_field "ServiceIR" (get_default info "description" (VStr "")) in
  describe "jsonrpc" service_name description base_url (plain_auth no_auth) (sc_url source) source_hash operations [] metadata now.

(** ** Discovery *)

Definition _truthy_hint (v : option string) : bool :=
  match v with Some s => one_of (lower (strip s)) ["1"; "true"; "yes"; "on"] | None => false end.

Definition hint (source : SourceConfig) (k : string) : option string := dict_get (sc_hints source) k.

(** The style the hints name *)
Definition hinted_style (source : SourceConfig) : option string :=
  opt_or (hint source "jsonrpc_fallback_params_type") (hint source "jsonrpc_params_type").
Definition _fallback_params_type (source : SourceConfig) : params_style :=
  default positional (hinted_style source ≫= parse_style).

Definition auth_param_name (source : SourceConfig) : string := default "token" (named (hint source "jsonrpc_auth_param_name")).

Definition _discovery_params (source : SourceConfig) (style : params_style) : option pyval :=
  if negb (_truthy_hint (hint source "jsonrpc_auth_in_params")) || negb (opt_truthy (sc_auth_token source)) then None
  else
    let token := VStr (default "" (sc_auth_token source)) in
    Some (match style with positional => VList [token] | named_style => VDict [(auth_param_name source, token)] end).

Definition _fallback_method_definition (source : SourceConfig) (style : params_style) (method_name : string) : pyval :=
  VDict [
    ("name", VStr method_name); ("description", VStr "Discovered via system.listMethods.");
    ("params_type", VStr (style_value style));
    ("params", VList (
       (if _truthy_hint (hint source "jsonrpc_auth_in_params") then
          [VDict [("name", VStr (auth_param_name source)); ("required", VBool false);
                  ("description", VStr "JSON-RPC auth token injected into params when required.");
                  ("schema", VDict [("type", VStr "string"); ("default", opt_str (sc_auth_token source))])]]
        else [])
       ++ [VDict [("name", VStr "payload"); ("required", VBool false);
                  ("description", VStr "Fallback argument container for methods discovered via system.listMethods.");
                  ("schema", VDict [("type", VStr (match style with positional => "array" | named_style => "object" end))])]]))].

Section extractor.
Context {W : Type} (read_text : string → comp W exn string) (httpx_get : string → dict string → comp W exn response)
        (httpx_post : string → pyval → dict string → comp W exn response).
Context (json_loads : string → option pyval) (json_sorted : pyval → string) (sha256_hex : string → string) (now : W → Z).

(** A call of [system.listMethods] *)
Definition list_methods (params : option pyval) : pyval :=
  VDict ([("jsonrpc", VStr "2.0"); ("method", VStr "system.listMethods"); ("id", VInt 1)]
         ++ match params with Some p => [("params", p)] | None => [] end).

(** [response.json()] *)
Definition response_json (r : response) : comp W exn pyval :=
  match rsp_json r with Some v => ret v | None => raise json_decode_error end.

(** Each style is tried, the current one first. *)
Fixpoint try_styles (url : string) (headers : dict string) (current : params_style) (styles : list params_style) : comp W exn params_style :=
  match styles with
  | [] => ret current
  | s :: l =>
      works <- catch (r <- httpx_post url (list_methods (Some (match s with positional => VList [] | named_style => VDict [] end))) headers ;;
                      if rsp_status r =? 200 then
                        v <- response_json r ;; body <- answer (as_mapping v) ;; ret (is_list (get_or_none body "result"))
                      else ret false)
                 (λ _, ret false) ;;
      if works : bool then ret s else try_styles url headers current l
  end.
Definition _probe_params_type (source : SourceConfig) (current : params_style) : comp W exn params_style :=
  if opt_truthy (sc_url source) then
    try_styles (default "" (sc_url source)) (get_auth_headers source) current
      (match current with positional => [positional; named_style] | named_style => [named_style; positional] end)
  else ret current.

(** The names of the methods a live endpoint lists: texts that are not empty *)
Definition method_names (v : pyval) : list string :=
  match v with VList l => omap (λ m, named (as_str m)) l | _ => [] end.

Definition _discover_methods (source : SourceConfig) : comp W exn (list pyval) :=
  if negb (opt_truthy (sc_url source)) then ret []
  else
    let style := _fallback_params_type source in
    answered <- catch (r <- httpx_post (default "" (sc_url source)) (list_methods (_discovery_params source style)) (get_auth_headers source) ;;
                       raise_for_status r ;;; v <- response_json r ;; ret (Some v))
                  (λ _, ret None) ;;
    match answered with
    | None => ret []
    | Some payload =>
        d <- answer (as_mapping payload) ;;
        let names := get_or_none d "result" in
        if is_list names then
          style <- (if opt_truthy (hint source "jsonrpc_fallback_params_type") || opt_truthy (hint source "jsonrpc_params_type")
                    then ret style else _probe_params_type source style) ;;
          ret (_fallback_method_definition source style <$> method_names names)
        else ret []
    end.

(** [d.get("jsonrpc_service") is True] *)
Definition declares_service (d : dict pyval) : bool := match get_or_none d "jsonrpc_service" with VBool true => true | _ => false end.

(** Is the content a definition of the service? *)
Definition is_definition (d : dict pyval) : bool :=
  dict_mem d "openrpc" || declares_service d || is_list (get_or_none d "methods").

(** The content as a definition *)
Definition definition_of (content : option string) : option (string * dict pyval) :=
  match content with
  | Some text => match json_loads text with Some (VDict d) => if is_definition d then Some (text, d) else None | _ => None end
  | None => None
  end.

(** The definition made of discovered methods *)
Definition discovered_payload (source : SourceConfig) (title : string) (methods : list pyval) : dict pyval := [
  ("jsonrpc_service", VBool true);
  ("info", VDict [("title", VStr title); ("description", VStr "Discovered from a live JSON-RPC endpoint via system.listMethods.");
                  ("version", VStr "discovered")]);
  ("endpoint", opt_str (sc_url source)); ("methods", VList methods)].

Definition _load_definition (source : SourceConfig) : comp W exn (dict pyval * string * dict pyval) :=
  content <- get_content read_text httpx_get source ;;
  match definition_of content with
  | Some (text, d) => ret (d, sha256_hex text, [])
  | None =>
      methods <- _discover_methods source ;;
      match methods with
      | [] => raise (value_error "Could not read source content or discover JSON-RPC methods")
      | _ =>
          title <- answer (_default_service_title source) ;;
          let payload := discovered_payload source title methods in
          ret (payload, sha256_hex (json_sorted (VDict payload)), [("discovery_mode", VStr "system.listMethods")])
      end
  end.

Definition jsonrpc_extract (source : SourceConfig) : comp W exn ServiceIR :=
  loaded <- _load_definition source ;;
  t <- gets now ;;
  answer (jsonrpc_description source loaded.1.1 loaded.1.2 loaded.2 t).

(** The answer of a live endpoint to the probe *)
Definition probe_score (v : pyval) : outcome exn float :=
  let! payload := as_mapping v in
  Ok (if is_list (get_or_none payload "result") then 0x1.b333333333333p-1%float
      else if is_dict (get_or_none payload "error") && dict_mem payload "jsonrpc" then 0x1.3333333333333p-1%float else 0%float).

(** What the content says; nothing when it says nothing *)
Definition content_score (content : option string) : option float :=
  match content with
  | Some text =>
      match json_loads text with
      | Some (VDict data) =>
          if dict_mem data "openrpc" then Some 0x1.e666666666666p-1%float
          else if declares_service data then Some 0x1.ccccccccccccdp-1%float
          else match get_or_none data "methods" with
               | VList l => if existsb (λ m, match m with VDict d => dict_mem d "params" | _ => false end) l
                            then Some 0x1.6666666666666p-1%float else None
               | _ => None
               end
      | _ => None
      end
  | None => None
  end.

Definition jsonrpc_detect (source : SourceConfig) : comp W exn float :=
  if bool_decide (hint source "protocol" = Some "jsonrpc") then ret 1%float
  else
    content <- get_content read_text httpx_get source ;;
    match content_score content with
    | Some score => ret score
    | None =>
        if opt_truthy (sc_url source) then
          catch (r <- httpx_post (default "" (sc_url source)) (list_methods None) (get_auth_headers source) ;;
                 if rsp_status r =? 200 then v <- response_json r ;; answer (probe_score v) else ret 0%float)
            (λ _, ret 0%float)
        else ret 0%float
    end.

Definition JsonRpcExtractor : ExtractorProtocol W := mk_extractor "jsonrpc" jsonrpc_detect jsonrpc_extract None.
End extractor.
End jsonrpc.

(** ** What an extracted description holds *)

(** What the extractor promises of a method's operation *)
Record calls (endpoint_path : string) (method : pyval) (o : Operation) : Prop := {
  cl_name : ∃ d, method = VDict d ∧ get_or_none d "name" = VStr (op_name o);
  cl_id : op_id o = str_replace "." "_" (op_name o);
  cl_post : op_method o = Some "POST" ∧ op_path o = Some endpoint_path;
  cl_call : ∃ c, op_jsonrpc o = Some c ∧ jr_method_name c = op_name o ∧ jr_params_names c = pa_name <$> op_params o ∧
            (jr_params_type c = "positional" ∨ jr_params_type c = "named");
  cl_risk : op_risk o = _classify_risk (op_name o);
}.

Lemma method_calls endpoint v o : _method_to_operation endpoint v = Ok (Some o) → calls endpoint v o.
Proof.
  unfold _method_to_operation. intros H. apply obind_ok in H as (d & Hd & H). destruct v as [| | | | | |d']; try done. injection Hd as ->.
  destruct (get_or_none d "name") as [|b|z|f|name|l|d0] eqn:En; try (by repeat case_match).
  destruct (str_truthy name); [|done]. do 6 (apply obind_ok in H as (? & _ & H)). injection H as <-. split; try done.
  - by exists d.
  - eexists. split_and!; [done|done|done|]. cbn. destruct x; [by left|by right].
Qed.

(** The methods that have a name *)
Definition names_of (methods : list pyval) : list string :=
  omap (λ m, match m with VDict d => named (as_str (get_or_none d "name")) | _ => None end) methods.

Lemma method_names_kept endpoint methods found : traverse (_method_to_operation endpoint) methods = Ok found →
  op_name <$> omap id found = names_of methods ∧ Forall (λ o, ∃ v, v ∈ methods ∧ calls endpoint v o) (omap id found).
Proof.
  intros H%traverse_ok. induction H as [|v r methods found Hv _ [IHn IHf]]; [done|].
  assert (Forall (λ o, ∃ v', v' ∈ v :: methods ∧ calls endpoint v' o) (omap id found)) as IHf'.
  { eapply Forall_impl; [exact IHf|]. intros o (v' & Hin & Hc). exists v'. split; [by right|done]. }
  destruct r as [o|]; cbn [omap list_omap id].
  - pose proof (method_calls _ _ _ Hv) as Hc. split.
    + cbn [fmap list_fmap]. rewrite IHn. destruct (cl_name _ _ _ Hc) as (d & -> & En). unfold names_of. cbn [omap list_omap].
      rewrite En. cbn [as_str]. unfold _method_to_operation in Hv. cbn [as_mapping obind] in Hv. rewrite En in Hv. cbn [named].
      destruct (str_truthy (op_name o)); done.
    + constructor; [|done]. exists v. split; [by left|done].
  - split; [|done]. rewrite IHn. unfold names_of. cbn [omap list_omap]. destruct v as [| | | | | |d]; try done.
    unfold _method_to_operation in Hv. cbn [as_mapping obind] in Hv. destruct (get_or_none d "name") as [| | | |name| |]; try done.
    cbn [as_str named]. destruct (str_truthy name); [|done]. exfalso. do 6 (apply obind_ok in Hv as (? & _ & Hv)). done.
Qed.

Lemma classified name : rm_risk_level (_classify_risk name) ≠ unknown.
Proof. unfold _classify_risk. by repeat case_match. Qed.

Lemma found_known endpoint methods found : traverse (_method_to_operation endpoint) methods = Ok found →
  Forall (λ o, rm_risk_level (op_risk o) ≠ unknown) (omap id found).
Proof.
  intros [_ H]%method_names_kept. eapply Forall_impl; [exact H|]. intros o (v & _ & Hc). rewrite (cl_risk _ _ _ Hc).
  apply classified.
Qed.

(** A JSON-RPC service becomes one call for each method it names.  A
    description made of a definition is valid; its operations are those of the
    methods that have a name, in order; each posts to the one endpoint, calls its
    method by the name it was given, passes exactly the parameters it declares, and
    is classified by the last segment of the name. *)
Theorem jsonrpc_extraction repr source data source_hash discovery now ir :
  jsonrpc_description repr source data source_hash discovery now = Ok ir →
  valid_description "jsonrpc" ir ∧ ∃ methods endpoint, iterate (get_default data "methods" (VList [])) = Ok methods ∧
    op_name <$> ir_operations ir = names_of methods ∧
    Forall (λ o, ∃ v, v ∈ methods ∧ calls endpoint v o) (ir_operations ir).
Proof.
  unfold jsonrpc_description. intros H. do 4 (apply obind_ok in H as (? & _ & H)).
  apply obind_ok in H as (methods & Hm & H). apply obind_ok in H as (found & Hf & H). do 2 (apply obind_ok in H as (? & _ & H)).
  split; [by eapply describe_valid|]. apply described_operations in H as [-> _]; [|by eapply found_known].
  apply method_names_kept in Hf as [Hn Hc]. by eexists methods, _.
Qed.

#[global] Instance jsonrpc_extracts {W} repr read_text httpx_get httpx_post json_loads json_sorted sha256_hex (now : W → Z) :
  Extracts (JsonRpcExtractor repr read_text httpx_get httpx_post json_loads json_sorted sha256_hex now).
Proof.
  intros source w ir w' H. cbn in H. unfold jsonrpc_extract in H. mbind H loaded w1 Hl. mbind H t w2 Ht.
  apply answer_ok in H as [H _]. unfold jsonrpc_description in H. do 8 (apply obind_ok in H as (? & _ & H)). by eapply describe_valid.
Qed.

(** ** Discovered methods *)

Lemma replace_nonempty fuel old new s : new ≠ "" → s ≠ "" → (0 < fuel)%nat → replace_fuel fuel old new s ≠ "".
Proof.
  intros Hn Hs Hf. destruct fuel as [|fuel]; [lia|]. destruct s as [|c s]; [done|]. cbn [replace_fuel].
  destruct (startswith old (String c s)); [|done]. by destruct new.
Qed.

Lemma str_replace_nonempty old new s : new ≠ "" → s ≠ "" → str_replace old new s ≠ "".
Proof. intros ??. apply replace_nonempty; [done|done|lia]. Qed.

(** The operation a discovered method becomes *)
Definition discovered_params (source : SourceConfig) (style : params_style) : list Param :=
  (if _truthy_hint (hint source "jsonrpc_auth_in_params")
   then [extracted (auth_param_name source) "string" false "JSON-RPC auth token injected into params when required."
           (opt_str (sc_auth_token source)) None 1] else [])
  ++ [extracted "payload" (match style with positional => "array" | named_style => "object" end) false
        "Fallback argument container for methods discovered via system.listMethods." VNone
        (match style with positional => Some [("type", VStr "array"); ("items", typed_schema "string")] | named_style => None end) 1].

Definition discovered_operation (source : SourceConfig) (style : params_style) (endpoint name : string) : Operation :=
  mk_operation (str_replace "." "_" name) name "Discovered via system.listMethods." (Some "POST") (Some endpoint)
    (discovered_params source style) None _JSONRPC_ERROR_SCHEMA [] (_classify_risk name) plain_strategy body_json None None None None None None
    (Some (mk_jsonrpc "2.0" name (style_value style) (pa_name <$> discovered_params source style) None)) None None [] None src_extractor 1 None true.

Lemma auth_param_name_nonempty source : auth_param_name source ≠ "".
Proof. unfold auth_param_name. destruct (named _) as [n|] eqn:E; [by apply named_Some in E as [_ ?]|done]. Qed.

Lemma discovered_method source style endpoint name : name ≠ "" →
  _method_to_operation endpoint (_fallback_method_definition source style name) = Ok (Some (discovered_operation source style endpoint name)).
Proof.
  intros Hn%str_truthy_iff. pose proof (auth_param_name_nonempty source) as Ha%str_truthy_iff.
  unfold discovered_operation, discovered_params, _method_to_operation, _fallback_method_definition.
  destruct (_truthy_hint _), style; cbn -[str_truthy auth_param_name]; rewrite Hn; cbn -[str_truthy auth_param_name];
    rewrite ?Ha; cbn -[str_truthy auth_param_name]; reflexivity.
Qed.

Lemma discovered_valid source style endpoint name : name ≠ "" →
  validate_Operation (discovered_operation source style endpoint name) = Ok (discovered_operation source style endpoint name).
Proof.
  intros Hn. pose proof (str_replace_nonempty "." "_" name ltac:(done) Hn) as Hid. apply str_truthy_iff in Hn, Hid.
  pose proof (auth_param_name_nonempty source) as Ha%str_truthy_iff.
  apply validate_operation_eq.
  assert (unknown_risk_must_be_disabled (discovered_operation source style endpoint name) = discovered_operation source style endpoint name) as ->.
  { unfold unknown_risk_must_be_disabled. cbn [op_risk discovered_operation]. pose proof (classified name).
    by destruct (rm_risk_level (_classify_risk name)). }
  split_and!; [done| |done]. unfold operation_parts, Operation_fields, discovered_operation. cbn [op_id op_name op_jsonrpc op_risk op_params
    op_async_job op_sql op_confidence op_response_examples op_response_strategy op_graphql op_grpc_unary op_soap op_cli op_pagination op_sla].
  assert (RiskMetadata_fields (_classify_risk name) = true) as -> by (unfold _classify_risk; by repeat case_match).
  rewrite Hid, Hn. unfold discovered_params. unfold JsonRpcOperationConfig_fields. cbn [opt_all jr_method_name jr_jsonrpc_version jr_params_type]. rewrite Hn.
  destruct (_truthy_hint _), style; cbn [map app]; unfold validate_Param at 1, Param_fields at 1; cbn [pa_name extracted]; rewrite ?Ha; reflexivity.
Qed.

Lemma default_title_nonempty source title : _default_service_title source = Ok title → title ≠ "".
Proof.
  unfold _default_service_title. destruct (named _) as [n|] eqn:En; [intros [= <-]; by apply named_Some in En as [_ ?]|].
  destruct (opt_truthy _); [|by intros [= <-]]. intros H. apply obind_ok in H as (u & _ & H). injection H as <-.
  apply str_replace_nonempty; [done|]. destruct (str_truthy (url_hostname u)) eqn:E; [by apply str_truthy_iff|done].
Qed.

Lemma lower_nonempty s : s ≠ "" → lower s ≠ "".
Proof. by destruct s. Qed.

Lemma omap_id_Some {A} (l : list A) : omap id (Some <$> l) = l.
Proof. induction l as [|a l IH]; [done|]. cbn [fmap list_fmap omap list_omap id]. by f_equal. Qed.

(** A live endpoint that lists its methods is always described.  When the
    methods discovered have names that stay distinct once their dots are replaced,
    and the endpoint's address can be parsed, the definition made of them gives a
    description with exactly one operation for each, in order. *)
Theorem discovery_described repr source style title url u names source_hash discovery now :
  sc_url source = Some url → url ≠ "" → urlparse url = Ok u → _default_service_title source = Ok title →
  Forall (λ n, n ≠ "") names → NoDup (str_replace "." "_" <$> names) →
  ∃ ir, jsonrpc_description repr source
          (discovered_payload source title (_fallback_method_definition source style <$> names)) source_hash discovery now = Ok ir ∧
    op_name <$> ir_operations ir = names ∧ ir_base_url ir = url.
Proof.
  intros Hs Hu Hp Ht Hne Hnd. pose proof (default_title_nonempty _ _ Ht) as Htn.
  set (endpoint := if str_truthy (path u) then path u else "/").
  set (ops := discovered_operation source style endpoint <$> names).
  set (methods := _fallback_method_definition source style <$> names).
  assert (traverse (_method_to_operation endpoint) methods = Ok (Some <$> ops)) as Hm.
  { apply traverse_ok. unfold methods, ops. rewrite <-list_fmap_compose. apply Forall2_fmap_2. clear -Hne.
    induction Hne; constructor; [by apply discovered_method|done]. }
  assert (omap id (Some <$> ops) = ops) as Ho by apply omap_id_Some.
  assert (_resolve_base_url repr (discovered_payload source title methods) source false = Ok url) as Hb.
  { unfold _resolve_base_url, discovered_payload. rewrite Hs. cbn. by apply str_truthy_iff in Hu as ->. }
  apply str_truthy_iff in Htn as Htn'.
  assert (∀ nm md, nm ≠ "" → ∃ ir, describe "jsonrpc" nm "Discovered from a live JSON-RPC endpoint via system.listMethods." url (plain_auth no_auth)
    (sc_url source) source_hash ops [] md now = Ok ir ∧ ir_operations ir = ops ∧ ir_base_url ir = url) as Hd.
  { intros nm md Hnm. apply describe_total; [done| |].
    - unfold ops. apply Forall_fmap. eapply Forall_impl; [exact Hne|]. intros n. apply discovered_valid.
    - unfold ops. rewrite <-list_fmap_compose. exact Hnd. }
  assert (∃ nm md, nm ≠ "" ∧ jsonrpc_description repr source (discovered_payload source title methods) source_hash discovery now
    = describe "jsonrpc" nm "Discovered from a live JSON-RPC endpoint via system.listMethods." url (plain_auth no_auth)
        (sc_url source) source_hash ops [] md now) as (nm & md & Hnm & ->).
  { eexists _, _. split; [|unfold jsonrpc_description].
    2: { change (dict_mem (discovered_payload source title methods) "openrpc") with false. rewrite Hb.
         change (get_default (discovered_payload source title methods) "methods" (VList [])) with (VList methods).
         cbn [get_default discovered_payload dict_get str_eqb default from_option as_mapping obind get_or_none truthy iterate].
         cbn -[str_truthy describe urlparse traverse]. rewrite Htn', Hp. cbn -[str_truthy describe urlparse traverse].
         fold endpoint. rewrite Hm. cbn -[describe]. rewrite Ho. reflexivity. }
    by apply str_replace_nonempty, lower_nonempty. }
  destruct (Hd nm md Hnm) as (ir & -> & Eops & Eurl). exists ir. split_and!; [done| |done].
  rewrite Eops. unfold ops. rewrite <-list_fmap_compose. apply list_fmap_id.
Qed.

(** ** Worked definitions *)

Definition rpc_source (hints : dict string) : SourceConfig := mk_source (Some "http://node:6800/jsonrpc") None None None (Some "secret") hints.

Lemma discovery_described_witness : ∃ ir,
  jsonrpc_description (λ _, "") (rpc_source [("jsonrpc_auth_in_params", "yes")])
    (discovered_payload (rpc_source [("jsonrpc_auth_in_params", "yes")]) "node"
       (_fallback_method_definition (rpc_source [("jsonrpc_auth_in_params", "yes")]) positional <$> ["aria2.getStatus"; "aria2.remove"]))
    "h" [] 0 = Ok ir ∧
  op_name <$> ir_operations ir = ["aria2.getStatus"; "aria2.remove"] ∧
  op_ids ir = ["aria2_getStatus"; "aria2_remove"] ∧
  (λ o, rm_risk_level (op_risk o)) <$> ir_operations ir = [safe; dangerous] ∧
  (λ o, pa_name <$> op_params o) <$> ir_operations ir = [["token"; "payload"]; ["token"; "payload"]].
Proof.
  destruct (discovery_described (λ _, "") (rpc_source [("jsonrpc_auth_in_params", "yes")]) positional "node" "http://node:6800/jsonrpc"
    (mk_split "http" "node:6800" "/jsonrpc" "" "") ["aria2.getStatus"; "aria2.remove"] "h" [] 0) as (ir & E & Hn & _).
  - reflexivity.
  - discriminate.
  - vm_compute. reflexivity.
  - vm_compute. reflexivity.
  - repeat constructor; discriminate.
  - apply (bool_decide_eq_true_1 _). vm_compute. reflexivity.
  - exists ir. split; [exact E|]. split; [exact Hn|]. vm_compute in E. injection E as <-. by vm_compute.
Defined.

(** Dots and underscores are one in an identifier: two such methods fail the
    whole extraction. *)
Example jsonrpc_dots_and_underscores_clash :
  match jsonrpc_description (λ _, "") (rpc_source [])
          [("methods", VList [VDict [("name", VStr "a.b")]; VDict [("name", VStr "a_b")]])] "h" [] 0 with
  | Raise e => exn_type e = "ValueError" | Ok _ => False end.
Proof. vm_compute. reflexivity. Qed.

(** A method is safe by how its name starts: one that gets and deletes is, too. *)
Example jsonrpc_prefix_decides : rm_risk_level (_classify_risk "queue.getAndDelete") = safe.
Proof. reflexivity. Qed.

(** A parameter of several types, a list, fails the whole extraction. *)
Example jsonrpc_list_type_fails :
  match jsonrpc_description (λ _, "") (rpc_source [])
          [("methods", VList [VDict [("name", VStr "m"); ("params", VList [VDict [("name", VStr "p");
             ("schema", VDict [("type", VList [VStr "string"; VStr "null"])])]])]])] "h" [] 0 with
  | Raise e => exn_type e = "TypeError" | Ok _ => False end.
Proof. vm_compute. reflexivity. Qed.
