(* ===== verification/SqlExtractor.v ===== *)
(** * The SQL extractor ([libs/extractors/sql.py])

    The tables and views of a database become the operations on their rows.  The
    engine and its inspector are parameters: what they report is the data of the
    model.  The thread that runs the coroutine is not modelled. *)

From S2P Require Export ExtractorKit RuntimeSql.
From Stdlib Require Import Ascii.

Definition _DATABASE_SCHEMES : list string := ["postgres"; "postgresql"; "mysql"; "mariadb"; "sqlite"].

Record ReflectedColumn := mk_column {
  col_name : string;
  col_ir_type : string;
  col_nullable : bool;
  col_description : string;
  col_has_default : bool;
  col_autoincrement : bool;
  col_primary_key : bool;
  col_insertable : bool;
  col_updatable : bool;
}.
Record ReflectedRelation := mk_relation { rel_name : string; rel_kind : SqlRelationKind; rel_columns : list ReflectedColumn }.
Record ReflectedDatabase := mk_database { db_schema : string; db_relations : list ReflectedRelation }.

(** ** Reflection *)

Section reflection.
(** SQLAlchemy's types, the classes they are instances of, and their Python type,
    which some do not have *)
Context (T : Type) (isinstance : T → string → bool) (python_type : T → outcome exn string).

(** [_map_column_type]: [getattr] with a default catches [AttributeError] only. *)
Definition is_a (t : T) (classes : list string) : bool := existsb (isinstance t) classes.
Definition _map_column_type (t : T) : outcome exn string :=
  if is_a t ["ARRAY"] then Ok "array"
  else if is_a t ["Boolean"] then Ok "boolean"
  else if is_a t ["Integer"] then Ok "integer"
  else if is_a t ["Numeric"; "Float"] then Ok "number"
  else if is_a t ["JSON"] then Ok "object"
  else if is_a t ["Date"; "DateTime"; "Time"; "Uuid"] then Ok "string"
  else if is_a t ["String"] then Ok "string"
  else match python_type t with
       | Raise e => if exn_is "AttributeError" e then Ok "string" else Raise e
       | Ok p =>
           Ok (if str_eqb p "bool" then "boolean" else if str_eqb p "int" then "integer" else if str_eqb p "float" then "number"
               else if str_eqb p "dict" then "object" else if str_eqb p "list" then "array" else "string")
       end.

(** What the inspector reports of a column and of a foreign key *)
Record RawColumn := mk_raw_column {
  rc_name : string;
  rc_type : T;
  rc_comment : option string;
  rc_default : option string;
  rc_server_default : option string;
  rc_identity : option (dict pyval);
  rc_autoincrement : pyval;
  rc_nullable : option bool;
}.
Record ForeignKey := mk_foreign_key { fk_constrained : list string; fk_table : string; fk_referred : list string }.

Record Inspector := mk_inspector {
  default_schema_name : option string;
  get_table_names : string → outcome exn (list string);
  get_view_names : string → outcome exn (list string);
  get_columns : string → string → outcome exn (list RawColumn);
  get_pk_columns : string → string → outcome exn (list string);
  get_foreign_keys : string → string → outcome exn (list ForeignKey);
}.

Definition _foreign_key_descriptions (keys : list ForeignKey) : dict string :=
  dict_of_list (concat ((λ k, (λ cr : string * string, (cr.1, "References " +:+ fk_table k +:+ "." +:+ cr.2 +:+ "."))
                                <$> zip (fk_constrained k) (fk_referred k)) <$> keys)).

(** One column of a relation *)
Definition reflect_column (kind : SqlRelationKind) (primary_key : list string) (descriptions : dict string) (c : RawColumn)
    : outcome exn ReflectedColumn :=
  let! ir_type := _map_column_type (rc_type c) in
  let comment := strip (default "" (rc_comment c)) in
  let parts := comment :: match named (dict_get descriptions (rc_name c)) with Some d => [d] | None => [] end in
  let has_default := given (rc_default c) || given (rc_server_default c) || given (rc_identity c) in
  let pk := one_of (rc_name c) primary_key in
  let autoincrement := truthy (rc_autoincrement c) && pk in
  Ok (mk_column (rc_name c) ir_type (default true (rc_nullable c)) (join " " (List.filter str_truthy parts)) has_default autoincrement pk
        (is_table kind && negb (pk && (autoincrement || has_default))) (is_table kind && negb pk && negb autoincrement)).

Definition _reflect_relation (i : Inspector) (schema : string) (kind : SqlRelationKind) (name : string) : outcome exn ReflectedRelation :=
  let! columns := get_columns i name schema in
  let! primary_key := get_pk_columns i name schema in
  let! keys := get_foreign_keys i name schema in
  let! reflected := traverse (reflect_column kind primary_key (_foreign_key_descriptions keys)) columns in
  Ok (mk_relation name kind reflected).

Definition relation_leb (a b : ReflectedRelation) : bool :=
  pair_leb (relation_kind_value (rel_kind a), rel_name a) (relation_kind_value (rel_kind b), rel_name b).

Definition _reflect_sync (i : Inspector) (schema_name : string) : outcome exn ReflectedDatabase :=
  let schema := if str_truthy schema_name then schema_name else default "public" (named (default_schema_name i)) in
  let! tables := get_table_names i schema in
  let! tables := traverse (_reflect_relation i schema sql_table) tables in
  let! views := get_view_names i schema in
  let! views := traverse (_reflect_relation i schema sql_view) views in
  Ok (mk_database schema (sorted_by relation_leb (tables ++ views))).
End reflection.

(** ** Operations *)

Definition sql_confidence : float := 0x1.e666666666666p-1.
Definition column_param (required : bool) (description : string) (c : ReflectedColumn) : Param :=
  extracted (col_name c) (col_ir_type c) required description VNone None sql_confidence.

Definition sql_risk (writes destructive idempotent : bool) (level : RiskLevel) : RiskMetadata :=
  mk_risk (Some writes) (Some destructive) (Some writes) (Some idempotent) level sql_confidence src_extractor.

(** [SqlOperationConfig(...)] with the default limits *)
Definition sql_config (schema : string) (r : ReflectedRelation) (action : SqlOperationType) (insertable updatable keys : list string)
    : SqlOperationConfig :=
  mk_sql schema (rel_name r) (rel_kind r) action (col_name <$> rel_columns r) insertable updatable keys 50 200.

Definition sql_operation (schema : string) (r : ReflectedRelation) (id name description method : string) (params : list Param)
    (risk : RiskMetadata) (config : SqlOperationConfig) (tags : list string) (errors : list (string * string)) : Operation :=
  mk_operation id name description (Some method) (Some ("/sql/" +:+ schema +:+ "/" +:+ rel_name r)) params None
    (mk_error_schema ((λ cd, coded_error cd.1 cd.2 None) <$> errors) None) [] risk plain_strategy body_json None
    None None (Some config) None None None None None ("sql" :: tags) None src_extractor sql_confidence None true.

Definition primary_key_columns (r : ReflectedRelation) : list ReflectedColumn := List.filter col_primary_key (rel_columns r).
Definition updatable_columns (r : ReflectedRelation) : list ReflectedColumn := List.filter col_updatable (rel_columns r).
Definition insertable_columns (r : ReflectedRelation) : list ReflectedColumn := List.filter col_insertable (rel_columns r).

Definition limit_param : Param := extracted "limit" "integer" false "Maximum rows to return." (VInt 50) None sql_confidence.
Definition _build_query_operation (schema : string) (r : ReflectedRelation) : Operation :=
  let kind := relation_kind_value (rel_kind r) in
  sql_operation schema r ("query_" +:+ rel_name r) ("Query " +:+ rel_name r) ("Query rows from " +:+ kind +:+ " " +:+ rel_name r +:+ ".") "GET"
    (((λ c, column_param false (col_description c) c) <$> rel_columns r) ++ [limit_param])
    (sql_risk false false true safe) (sql_config schema r sql_query [] [] []) [kind]
    [("SYNTAX_ERROR", "SQL syntax error in generated query."); ("TIMEOUT", "Query execution exceeded timeout.")].

Definition _build_insert_operation (schema : string) (r : ReflectedRelation) : Operation :=
  let cols := insertable_columns r in
  sql_operation schema r ("insert_" +:+ rel_name r) ("Insert " +:+ rel_name r) ("Insert a row into table " +:+ rel_name r +:+ ".") "POST"
    ((λ c, column_param (negb (col_nullable c) && negb (col_has_default c) && negb (col_autoincrement c)) (col_description c) c) <$> cols)
    (sql_risk true false false cautious) (sql_config schema r sql_insert (col_name <$> cols) [] []) ["table"; "insert"]
    [("CONSTRAINT_VIOLATION", "Insert violates a database constraint."); ("SYNTAX_ERROR", "SQL syntax error in generated statement.");
     ("TIMEOUT", "Insert execution exceeded timeout.")].

Definition key_param (c : ReflectedColumn) : Param := column_param true ("Primary key filter for " +:+ col_name c +:+ ".") c.

Definition _build_update_operation (schema : string) (r : ReflectedRelation) : option Operation :=
  let keys := primary_key_columns r in
  let cols := updatable_columns r in
  if no_items keys || no_items cols then None
  else Some (sql_operation schema r ("update_" +:+ rel_name r) ("Update " +:+ rel_name r)
    ("Update rows in table " +:+ rel_name r +:+ " by primary key.") "POST"
    ((key_param <$> keys) ++ ((λ c, column_param false (col_description c) c) <$> cols))
    (sql_risk true false true cautious) (sql_config schema r sql_update [] (col_name <$> cols) (col_name <$> keys)) ["table"; "update"]
    [("CONSTRAINT_VIOLATION", "Update violates a database constraint."); ("TIMEOUT", "Update execution exceeded timeout.")]).

Definition _build_delete_operation (schema : string) (r : ReflectedRelation) : option Operation :=
  let keys := primary_key_columns r in
  if no_items keys then None
  else Some (sql_operation schema r ("delete_" +:+ rel_name r) ("Delete " +:+ rel_name r)
    ("Delete rows from table " +:+ rel_name r +:+ " by primary key.") "POST" (key_param <$> keys)
    (sql_risk true true true dangerous) (sql_config schema r sql_delete [] [] (col_name <$> keys)) ["table"; "delete"]
    [("CONSTRAINT_VIOLATION", "Delete violates a database constraint."); ("TIMEOUT", "Delete execution exceeded timeout.")]).

Definition relation_operations (schema : string) (r : ReflectedRelation) : list Operation :=
  _build_query_operation schema r ::
  (if is_table (rel_kind r)
   then _build_insert_operation schema r :: option_list (_build_update_operation schema r) ++ option_list (_build_delete_operation schema r)
   else []).
Definition _build_operations (db : ReflectedDatabase) : list Operation := concat (relation_operations (db_schema db) <$> db_relations db).

(** ** The service *)

Definition _resolve_database_url (source : SourceConfig) : option string :=
  if opt_truthy (sc_url source) then sc_url source
  else match sc_file_content source with
       | Some c => if str_contains "://" c then Some (strip c) else None
       | None => None
       end.

Definition sql_slugify (value : string) : string :=
  let slug := of_chars (rstrip_dashes (drop_dashes (slug_chars false (chars (lower value))))) in
  if str_truthy slug then slug else "sql-service".

(** [path.rsplit("/", 1)[-1].strip("/") or hostname or "sql-service"] *)
Definition _derive_service_name (source : SourceConfig) (database_url : string) : outcome exn string :=
  match named (dict_get (sc_hints source) "service_name") with
  | Some n => Ok (sql_slugify n)
  | None =>
      let! u := urlparse database_url in
      let database := default "" (last (split_on "/"%char (path u))) in
      Ok (sql_slugify (if str_truthy database then database else if str_truthy (url_hostname u) then url_hostname u else "sql-service"))
  end.

(** [_schema_fingerprint]: what is hashed *)
Definition column_fingerprint (c : ReflectedColumn) : pyval :=
  VDict [("name", VStr (col_name c)); ("type", VStr (col_ir_type c)); ("nullable", VBool (col_nullable c));
         ("insertable", VBool (col_insertable c)); ("updatable", VBool (col_updatable c)); ("primary_key", VBool (col_primary_key c));
         ("description", VStr (col_description c))].
Definition schema_payload (database_url : string) (db : ReflectedDatabase) : pyval :=
  VDict [("database_url", VStr database_url); ("schema", VStr (db_schema db));
         ("relations", VList ((λ r, VDict [("name", VStr (rel_name r)); ("kind", VStr (relation_kind_value (rel_kind r)));
                                          ("columns", VList (column_fingerprint <$> rel_columns r))]) <$> db_relations db))].

Definition async_urls : list (string * string) := [
  ("postgresql+asyncpg://", "postgresql+asyncpg://"); ("postgresql+psycopg2://", "postgresql+asyncpg://");
  ("postgresql://", "postgresql+asyncpg://"); ("postgres://", "postgresql+asyncpg://");
  ("sqlite+aiosqlite://", "sqlite+aiosqlite://"); ("sqlite://", "sqlite+aiosqlite://");
  ("mysql+aiomysql://", "mysql+aiomysql://"); ("mysql+pymysql://", "mysql+aiomysql://"); ("mysql://", "mysql+aiomysql://");
  ("mariadb://", "mysql+aiomysql://")].
Definition _to_async_url (url : string) : outcome exn string :=
  match List.find (λ p, startswith p.1 url) async_urls with
  | Some (old, new) => Ok (replace_prefix old new url)
  | None => Raise (value_error ("Unsupported SQL database URL: " +:+ url))
  end.

Definition names_of_kind (kind : SqlRelationKind) (db : ReflectedDatabase) : list string :=
  omap (λ r, if Bool.eqb (is_table (rel_kind r)) (is_table kind) then Some (rel_name r) else None) (db_relations db).

(** [extract] after reflection *)
Definition sql_description (source : SourceConfig) (database_url : string) (db : ReflectedDatabase) (fingerprint : pyval → string) (now : Z)
    : outcome exn ServiceIR :=
  let! service_name := _derive_service_name source database_url in
  describe "sql" service_name ("SQL schema reflection for " +:+ service_name) database_url (plain_auth no_auth) (Some database_url)
    (fingerprint (schema_payload database_url db)) (_build_operations db) []
    [("database_schema", VStr (db_schema db)); ("tables", vstrs (names_of_kind sql_table db)); ("views", vstrs (names_of_kind sql_view db))] now.

Section extractor.
Context {W : Type} (T : Type) (isinstance : T → string → bool) (python_type : T → outcome exn string).
(** Connecting to the database, and disposing of the engine *)
Context (connect : string → comp W exn (Inspector T)) (dispose : string → comp W exn unit) (is_sqlalchemy_error : exn → bool).
Context (fingerprint : pyval → string) (now : W → Z).

Definition _reflect_database (database_url schema_name : string) : comp W exn ReflectedDatabase :=
  url <- answer (_to_async_url database_url) ;;
  r <- attempt (catch (i <- connect url ;; answer (_reflect_sync T isinstance python_type i schema_name))
                  (λ e, if is_sqlalchemy_error e then raise (value_error "Failed to inspect database schema") else raise e)) ;;
  dispose url ;;;
  answer r.

Definition sql_extract (source : SourceConfig) : comp W exn ServiceIR :=
  match _resolve_database_url source with
  | None => raise (value_error "SQLExtractor requires a database URL in source.url or source.file_content")
  | Some database_url =>
      db <- _reflect_database database_url (default "" (dict_get (sc_hints source) "schema")) ;;
      t <- gets now ;;
      answer (sql_description source database_url db fingerprint t)
  end.

Definition sql_detect (source : SourceConfig) : comp W exn float :=
  if bool_decide (dict_get (sc_hints source) "protocol" = Some "sql") then ret 1%float
  else match _resolve_database_url source with
       | None => ret 0%float
       | Some url =>
           u <- answer (urlparse url) ;;
           let s := match split_first "+"%char (scheme u) with Some (a, _) => a | None => scheme u end in
           ret (if one_of s _DATABASE_SCHEMES then 0x1.e666666666666p-1%float else 0%float)
       end.

Definition SQLExtractor : ExtractorProtocol W := mk_extractor "sql" sql_detect sql_extract None.
End extractor.

(** ** From the schema to the statement *)

Definition columns_where (P : ReflectedColumn → bool) (r : ReflectedRelation) : list string := col_name <$> List.filter P (rel_columns r).

(** The conditions pin the relation's whole primary key. *)
Definition pinned (r : ReflectedRelation) (cs : list condition) : Prop :=
  cs ≠ [] ∧ ∀ c, c ∈ columns_where col_primary_key r → ∃ v, Equals c v ∈ cs ∧ v ≠ VNone.

(** What a statement may do to a relation *)
Definition respects (r : ReflectedRelation) (st : statement) : Prop :=
  match st with
  | Select cs limit => 0 < limit ≤ 200 ∧ Forall (λ c, condition_column c ∈ col_name <$> rel_columns r) cs
  | Insert values _ => rel_kind r = sql_table ∧ ∀ k, k ∈ dict_keys values → k ∈ columns_where col_insertable r
  | Update values cs => rel_kind r = sql_table ∧ pinned r cs ∧ ∀ k, k ∈ dict_keys values → k ∈ columns_where col_updatable r
  | Delete cs => rel_kind r = sql_table ∧ pinned r cs
  end.

Definition reads_only (st : statement) : bool := match st with Select _ _ => true | _ => false end.

(** An operation of a relation, as its builders make it *)
Inductive built (schema : string) (r : ReflectedRelation) (o : Operation) : Prop :=
| built_query : o = _build_query_operation schema r → built schema r o
| built_insert : rel_kind r = sql_table → o = _build_insert_operation schema r → built schema r o
| built_update : rel_kind r = sql_table → _build_update_operation schema r = Some o → built schema r o
| built_delete : rel_kind r = sql_table → _build_delete_operation schema r = Some o → built schema r o.

Lemma relation_built schema r o : o ∈ relation_operations schema r → built schema r o.
Proof.
  unfold relation_operations. intros [->|Ho]%elem_of_cons; [by apply built_query|]. destruct (rel_kind r) eqn:Ek; [|by apply elem_of_nil in Ho].
  cbn [is_table] in Ho. apply elem_of_cons in Ho as [->|[Ho|Ho]%elem_of_app]; [by apply built_insert|apply built_update|apply built_delete]; try done.
  all: match type of Ho with _ ∈ option_list ?x => destruct x; [apply list_elem_of_singleton in Ho as ->; done|by apply elem_of_nil in Ho] end.
Qed.

Lemma build_known schema r o : built schema r o → rm_risk_level (op_risk o) ≠ unknown.
Proof.
  intros [->|_ ->|_ H|_ H]; try done; unfold _build_update_operation, _build_delete_operation in H; case_match; by simplify_eq.
Qed.

(** The contract of a built operation *)
Lemma built_contract schema r o : built schema r o → ∃ s, op_sql o = Some s ∧ sq_schema_name s = schema ∧ sq_relation_name s = rel_name r ∧
  sq_filterable_columns s = col_name <$> rel_columns r ∧ sq_max_limit s = 200 ∧
  match sq_action s with
  | sql_query => rm_risk_level (op_risk o) = safe
  | sql_insert => rel_kind r = sql_table ∧ sq_insertable_columns s = columns_where col_insertable r ∧ rm_risk_level (op_risk o) = cautious
  | sql_update => rel_kind r = sql_table ∧ sq_primary_key_columns s = columns_where col_primary_key r ∧
                  sq_updatable_columns s = columns_where col_updatable r ∧ rm_risk_level (op_risk o) = cautious
  | sql_delete => rel_kind r = sql_table ∧ sq_primary_key_columns s = columns_where col_primary_key r ∧ rm_risk_level (op_risk o) = dangerous
  end.
Proof.
  intros [->|Hk ->|Hk H|Hk H].
  - by eexists.
  - by eexists.
  - unfold _build_update_operation in H. case_match; [done|]. simplify_eq. by eexists.
  - unfold _build_delete_operation in H. case_match; [done|]. simplify_eq. by eexists.
Qed.

Lemma keyed_pinned config r args cs : sq_primary_key_columns config = columns_where col_primary_key r → keyed config args cs → pinned r cs.
Proof. intros E [Hne H]. split; [done|]. intros c Hc. rewrite <-E in Hc. destruct (H c Hc) as (v & Hv & _ & Hn). by exists v. Qed.

Lemma dict_keys_get {V} (d : dict V) k : k ∈ dict_keys d → ∃ v, dict_get d k = Some v.
Proof. intros H%dict_get_is_Some. by destruct H as [v Hv]; exists v. Qed.

Lemma built_respects schema r o s t args st : built schema r o → op_sql o = Some s → validate_Operation o = Ok o →
  statement_of o s t args = Ok st → respects r st ∧ (rm_risk_level (op_risk o) = safe ↔ reads_only st = true).
Proof.
  intros Hb Hs Hv Hst. pose proof (sql_statement_within_contract _ _ _ _ _ (validated_sql _ _ Hv Hs) Hst) as Hw.
  destruct (built_contract _ _ _ Hb) as (s' & Hs' & _ & _ & Hf & Hm & Ha). rewrite Hs in Hs'. injection Hs' as <-.
  destruct st as [cs limit|values ret|values cs|cs]; cbn [within] in Hw; destruct Hw as [Eact Hw]; rewrite Eact in Ha; cbn [respects reads_only].
  - destruct Hw as [Hl Hcs]. rewrite Hm in Hl. split; [|done]. split; [done|]. eapply Forall_impl; [exact Hcs|]. intros c [Hc _]. by rewrite <-Hf.
  - destruct Ha as (Hk & Hi & Hr), Hw as [_ Hw]. split; [|by rewrite Hr]. split; [done|]. intros k (v & Hkv)%dict_keys_get.
    rewrite <-Hi. by eapply Hw.
  - destruct Ha as (Hk & Hp & Hu & Hr), Hw as (_ & Hkey & Hw). split; [|by rewrite Hr]. split; [done|]. split; [by eapply keyed_pinned|].
    intros k (v & Hkv)%dict_keys_get. rewrite <-Hu. by eapply Hw.
  - destruct Ha as (Hk & Hp & Hr). split; [|by rewrite Hr]. split; [done|]. by eapply keyed_pinned.
Qed.

(** Filled in by the database: a key column that counts itself or has a default *)
Definition generated (c : ReflectedColumn) : bool := col_primary_key c && (col_autoincrement c || col_has_default c).

Section reflected.
Context (T : Type) (isinstance : T → string → bool) (python_type : T → outcome exn string).

(** What reflection makes of the columns of a relation *)
Definition sound_columns (r : ReflectedRelation) : Prop :=
  ∃ key, Forall (λ c, col_primary_key c = one_of (col_name c) key ∧ (col_updatable c = true → col_primary_key c = false) ∧
                      (col_insertable c = true → generated c = false)) (rel_columns r).

Lemma reflect_relation_sound i schema kind name r : _reflect_relation T isinstance python_type i schema kind name = Ok r → sound_columns r.
Proof.
  unfold _reflect_relation. intros H. apply obind_ok in H as (cols & _ & H). apply obind_ok in H as (key & _ & H).
  apply obind_ok in H as (fks & _ & H). apply obind_ok in H as (cs & Hcs & H). injection H as <-. exists key. cbn [rel_columns].
  apply traverse_ok in Hcs. induction Hcs as [|raw c raws cs Hc _ IH]; constructor; [|done].
  unfold reflect_column in Hc. apply obind_ok in Hc as (t & _ & Hc). injection Hc as <-. unfold generated.
  cbn [col_primary_key col_name col_updatable col_insertable col_autoincrement col_has_default].
  destruct (is_table kind), (one_of _ key), (truthy _), (given _ || given _ || given _); done.
Qed.

Lemma reflect_sound i schema db : _reflect_sync T isinstance python_type i schema = Ok db → Forall sound_columns (db_relations db).
Proof.
  unfold _reflect_sync. intros H. apply obind_ok in H as (tn & _ & H). apply obind_ok in H as (ts & Ht & H).
  apply obind_ok in H as (vn & _ & H). apply obind_ok in H as (vs & Hv & H). injection H as <-. cbn [db_relations].
  assert (∀ kind ns rs, traverse (_reflect_relation T isinstance python_type i
    (if str_truthy schema then schema else default "public" (named (default_schema_name T i))) kind) ns = Ok rs → Forall sound_columns rs) as Hall.
  { intros kind ns rs Hr%traverse_ok. induction Hr; constructor; [by eapply reflect_relation_sound|done]. }
  apply Forall_forall. intros r Hr. rewrite sorted_by_perm in Hr. apply elem_of_app in Hr as [Hr|Hr].
  - specialize (Hall _ _ _ Ht). rewrite Forall_forall in Hall. by apply Hall.
  - specialize (Hall _ _ _ Hv). rewrite Forall_forall in Hall. by apply Hall.
Qed.

Lemma where_elem P r k : k ∈ columns_where P r ↔ ∃ c, c ∈ rel_columns r ∧ col_name c = k ∧ P c = true.
Proof.
  unfold columns_where. rewrite list_elem_of_fmap. split.
  - intros (c & -> & [Hp Hc]%elem_of_filterb). by exists c.
  - intros (c & Hc & <- & Hp). exists c. split; [done|]. by apply elem_of_filterb.
Qed.

Lemma updatable_not_key r k : sound_columns r → k ∈ columns_where col_updatable r → k ∉ columns_where col_primary_key r.
Proof.
  intros [key Hs] (c & Hc & <- & Hu)%where_elem (c' & Hc' & En & Hk)%where_elem. rewrite Forall_forall in Hs.
  destruct (Hs c Hc) as (E & Hn & _), (Hs c' Hc') as (E' & _). rewrite Hk, En in E'. rewrite <-E in E'. rewrite Hn in E' by done. done.
Qed.


(** A table has to have a column an insertion can set. *)
Lemma described_tables_insertable source database_url db fingerprint now ir r :
  sql_description source database_url db fingerprint now = Ok ir → r ∈ db_relations db → rel_kind r = sql_table →
  columns_where col_insertable r ≠ [].
Proof.
  unfold sql_description. intros H Hr Hk. apply obind_ok in H as (name & _ & H).
  pose proof (describe_validated _ _ _ _ _ _ _ _ _ _ _ _ H) as Hv.
  apply described_operations in H as [Eops _].
  2: { apply Forall_concat, Forall_fmap, Forall_forall. intros r' _. apply Forall_forall. intros o' Ho'. by eapply build_known, relation_built. }
  rewrite Forall_forall in Hv. specialize (Hv (_build_insert_operation (db_schema db) r)). rewrite Eops in Hv.
  assert (validate_Operation (_build_insert_operation (db_schema db) r) = Ok (_build_insert_operation (db_schema db) r)) as Ho.
  { apply Hv, elem_of_concat_map. exists r. split; [done|]. unfold relation_operations. rewrite Hk. right. by left. }
  pose proof (validated_sql _ _ Ho eq_refl) as Hs. intros E. unfold columns_where in E.
  unfold validate_SqlOperationConfig in Hs. apply build_ok in Hs as [_ Hs]. unfold sql_contract_must_be_coherent in Hs.
  apply raise_first_ok in Hs. cbn [sq_action sql_config sq_insertable_columns] in Hs. unfold insertable_columns in Hs. rewrite E in Hs.
  apply Forall_cons in Hs as [_ Hs]. apply Forall_cons in Hs as [_ Hs]. apply Forall_cons in Hs as [Hs _]. done.
Qed.
End reflected.

#[global] Instance sql_extracts {W} T isinstance python_type connect dispose is_sqlalchemy_error fingerprint (now : W → Z) :
  Extracts (SQLExtractor T isinstance python_type connect dispose is_sqlalchemy_error fingerprint now).
Proof.
  intros source w ir w' H. cbn in H. unfold sql_extract in H. destruct (_resolve_database_url source) as [url|]; [|done].
  mbind H db w1 Hd. mbind H t w2 Ht. apply answer_ok in H as [H _]. unfold sql_description in H. apply obind_ok in H as (name & _ & H).
  by eapply describe_valid.
Qed.

(** ** A worked database *)

Section demo_sql.

(** A type is the name of its class; the network address has no Python type. *)
Definition demo_isinstance (t : string) (c : string) : bool := str_eqb t c.
Definition demo_python_type (t : string) : outcome exn string :=
  if str_eqb t "INET" then Raise (mk_exn "NotImplementedError" "" []) else Ok "bytes".

Definition demo_column (name type : string) (auto nullable : bool) : RawColumn string :=
  mk_raw_column string name type None None None None (VBool auto) (Some nullable).

Definition demo_inspector (tables views : list (string * list (RawColumn string))) : Inspector string :=
  mk_inspector string (Some "public") (λ _, Ok (tables.*1)) (λ _, Ok (views.*1))
    (λ n _, Ok (default [] (dict_get (tables ++ views) n))) (λ _ _, Ok ["id"]) (λ n _, Ok (if str_eqb n "pets" then [mk_foreign_key ["owner"] "people" ["id"]] else [])).

Definition demo_reflected (tables views : list (string * list (RawColumn string))) : outcome exn ReflectedDatabase :=
  _reflect_sync string demo_isinstance demo_python_type (demo_inspector tables views) "".

Definition pets : string * list (RawColumn string) :=
  ("pets", [demo_column "id" "Integer" true false; demo_column "name" "String" false false; demo_column "owner" "Integer" false true]).

Definition run_sql (url : string) (tables views : list (string * list (RawColumn string))) : outcome exn ServiceIR :=
  let! db := demo_reflected tables views in
  sql_description (mk_source (Some url) None None None None []) url db (λ _, "hash") 0.

Definition pets_database : ReflectedDatabase := Eval vm_compute in
  match demo_reflected [pets] [("adults", [demo_column "id" "Integer" false true])] with Ok d => d | Raise _ => mk_database "" [] end.


(** One table with nothing but a counted key fails the whole extraction. *)
Example sql_generated_table_fails :
  match run_sql "postgresql://db/shop" [pets; ("ids", [demo_column "id" "Integer" true false])] [] with
  | Raise e => exn_type e = "ValueError" | Ok _ => False end.
Proof. vm_compute. reflexivity. Qed.

(** A column whose type has no Python type fails it, too. *)
Example sql_untyped_column_fails :
  match run_sql "postgresql://db/shop" [("hosts", [demo_column "addr" "INET" false true])] [] with
  | Raise e => exn_type e = "NotImplementedError" | Ok _ => False end.
Proof. vm_compute. reflexivity. Qed.

(** A MySQL database is described, and no call of its tools can connect. *)
Example sql_mysql_extracted_not_served :
  match run_sql "mysql://db/shop" [pets] [] with
  | Ok ir => ir_base_url ir = "mysql://db/shop" ∧ _to_async_url (ir_base_url ir) = Ok "mysql+aiomysql://db/shop" ∧
             match _to_async_database_url (ir_base_url ir) with Raise e => exn_type e = "ToolError" | Ok _ => False end
  | Raise _ => False end.
Proof. vm_compute. by repeat split. Qed.

(** A column called [limit] shares its parameter with the limit of a query. *)
Example sql_column_called_limit :
  match run_sql "sqlite://shop" [("rules", [demo_column "limit" "Integer" false true])] [] with
  | Ok ir => (λ o, pa_name <$> op_params o) <$> ir_operations ir !! 0%nat = Some ["limit"; "limit"]
  | Raise _ => False end.
Proof. vm_compute. reflexivity. Qed.
End demo_sql.
