(* ===== verification/AsyncApiExtractor.v ===== *)
(** * The AsyncAPI extractor ([libs/extractors/asyncapi.py])

    The channels of an AsyncAPI document of version 2 or 3 become operations that
    observe or publish, and event descriptors.  The YAML parser, the HTTP client
    and the file system are parameters; documents have text keys. *)

From S2P Require Export JsonRpcExtractor PreDeploy.
From Stdlib Require Import Ascii.

Definition _PROTOCOL_TRANSPORT_MAP : list (string * EventTransport) := [
  ("kafka", kafka); ("amqp", amqp); ("amqps", amqp); ("mqtt", mqtt); ("mqtts", mqtt); ("nats", nats); ("pulsar", pulsar);
  ("rabbitmq", rabbitmq); ("ws", websocket); ("wss", websocket); ("http", webhook); ("https", webhook); ("sse", sse)].

Definition _resolve_transport (protocol : pyval) : outcome exn EventTransport :=
  match protocol with
  | VNone => Ok async_event
  | VStr p => Ok (default async_event (dict_get _PROTOCOL_TRANSPORT_MAP (lower p)))
  | _ => Raise (attribute_error "lower")
  end.

(** The types and schemas of parameters, as the JSON-RPC extractor has them *)
Definition payload_type : dict pyval → outcome exn string := _map_type.
Definition payload_schema : dict pyval → string → option (dict pyval) := _json_schema_for_param.

(** A property of a payload *)
Definition payload_property (required : list pyval) (kv : string * pyval) : outcome exn (option Param) :=
  match kv.2 with
  | VDict schema =>
      let! t := payload_type schema in
      let! description := text_field "Param" (get_default schema "description" (VStr "")) in
      Ok (Some (extracted kv.1 t (existsb (py_eq (VStr kv.1)) required) description (get_or_none schema "default")
                  (payload_schema schema t) 1))
  | _ => Ok None
  end.
Definition _params_from_payload (payload : dict pyval) : outcome exn (list Param) :=
  if negb (match get_or_none payload "type" with VStr t => str_eqb t "object" | _ => false end) then Ok []
  else match get_default payload "properties" (VDict []) with
       | VDict properties =>
           let! required := as_set (get_default payload "required" (VList [])) in
           let! found := traverse (payload_property required) properties in
           Ok (omap id found)
       | _ => Ok []
       end.

(** ** Operations *)

Definition broker_error (code description : string) (fields : list (string * string)) : ErrorResponse :=
  coded_error code description (Some (object_of ((λ f, (f.1, typed_schema f.2)) <$> fields))).
Definition broker_unavailable : ErrorResponse :=
  broker_error "broker_unavailable" "Message broker is unavailable or connection failed" [("error", "string"); ("broker_url", "string")].
Definition observation_timeout : ErrorResponse :=
  broker_error "timeout" "Observation timed out waiting for messages" [("error", "string"); ("timeout_seconds", "number")].
Definition publish_failed : ErrorResponse :=
  broker_error "publish_failed" "Message could not be delivered to the broker" [("error", "string"); ("topic", "string")].
Definition broker_errors (responses : list ErrorResponse) : ErrorSchema :=
  mk_error_schema responses (Some (object_of [("error", typed_schema "string"); ("_stub", typed_schema "boolean")])).

Definition _build_observe_operation (service_name slug channel : string) (payload : dict pyval) : outcome exn Operation :=
  let! params := _params_from_payload payload in
  Ok (plain_operation (service_name +:+ "_observe_" +:+ slug) ("observe_" +:+ slug) ("Observe events on channel " +:+ channel) None None params
        (broker_errors [broker_unavailable; observation_timeout]) (mk_risk (Some false) (Some false) None None safe high src_extractor)
        ["asyncapi"; "observe"; slug] 1).
Definition _build_publish_operation (service_name slug channel : string) (payload : dict pyval) : outcome exn Operation :=
  let! params := _params_from_payload payload in
  Ok (plain_operation (service_name +:+ "_publish_" +:+ slug) ("publish_" +:+ slug) ("Publish event to channel " +:+ channel) None None params
        (broker_errors [broker_unavailable; observation_timeout; publish_failed])
        (mk_risk (Some true) (Some false) None None cautious high src_extractor) ["asyncapi"; "publish"; slug] 1).

(** ** The document *)

Section asyncapi.
Context (repr : pyval → string).

(** [_resolve_server]: the protocol and the broker's address *)
Definition _resolve_server (servers : pyval) (is_v3 : bool) : pyval * pyval :=
  match servers with
  | VDict ((_, VDict server) :: _) =>
      let protocol := get_or_none server "protocol" in
      (protocol,
       if is_v3
       then VStr (py_str repr (value_or protocol (VStr "tcp")) +:+ "://" +:+ py_str repr (get_default server "host" (VStr "localhost"))
                  +:+ py_str repr (get_default server "pathname" (VStr "")))
       else get_default server "url" (VStr "localhost"))
  | _ => (VNone, VStr "localhost")
  end.

Definition _extract_v2_message_payload (operation_def : dict pyval) : dict pyval :=
  match get_default operation_def "message" (VDict []) with
  | VDict message => match get_default message "payload" (VDict []) with VDict p => p | _ => [] end
  | _ => []
  end.

(** An [str | None] field *)
Definition opt_text_field (model : string) (v : pyval) : outcome exn (option string) :=
  match v with VNone => Ok None | VStr s => Ok (Some s) | _ => Raise (field_error model) end.

(** What the operations of a channel need to know of the service *)
Record broker := mk_broker { bk_service : string; bk_transport : EventTransport; bk_url : pyval; bk_protocol : pyval }.

Definition channel_event (b : broker) (slug channel : string) (description : pyval) (direction : EventDirection) : outcome exn EventDescriptor :=
  let! url := text_field "EventBridgeConfig" (bk_url b) in
  let! protocol := opt_text_field "EventBridgeConfig" (bk_protocol b) in
  let! description := text_field "EventDescriptor" description in
  Ok (mk_event (bk_service b +:+ "_event_" +:+ slug) channel description (bk_transport b) direction planned (Some channel) None None
        (Some (mk_event_bridge url (Some channel) None None None protocol [])) []).

Definition v2_direction (subscribes publishes : bool) : EventDirection :=
  if subscribes && publishes then bidirectional else if subscribes then inbound else outbound.

(** One channel of version 2: its operations and its event *)
Definition v2_channel (b : broker) (kv : string * pyval) : outcome exn (list Operation * list EventDescriptor) :=
  match kv.2 with
  | VDict channel_def =>
      let slug := slugify kv.1 in
      let side k (build : string → string → string → dict pyval → outcome exn Operation) :=
        match dict_get channel_def k with
        | Some v => let! d := as_mapping v in let! o := build (bk_service b) slug kv.1 (_extract_v2_message_payload d) in Ok [o]
        | None => Ok []
        end in
      let! observed := side "subscribe" _build_observe_operation in
      let! published := side "publish" _build_publish_operation in
      let! e := channel_event b slug kv.1 (get_default channel_def "description" (VStr ""))
                  (v2_direction (dict_mem channel_def "subscribe") (dict_mem channel_def "publish")) in
      Ok (observed ++ published, [e])
  | _ => Ok ([], [])
  end.

Definition _extract_v2 (b : broker) (data : dict pyval) : outcome exn (list Operation * list EventDescriptor) :=
  match get_default data "channels" (VDict []) with
  | VDict channels => let! l := traverse (v2_channel b) channels in Ok (concat l.*1, concat l.*2)
  | _ => Ok ([], [])
  end.

(** The channel an operation of version 3 refers to *)
Definition _resolve_v3_channel_ref (channel_ref : pyval) (channels : dict pyval) : option string :=
  match channel_ref with
  | VDict d => match get_default d "$ref" (VStr "") with
               | VStr ref => if startswith "#/channels/" ref then last (split_on "/"%char ref) else None
               | _ => None
               end
  | VStr c => if dict_mem channels c then Some c else None
  | _ => None
  end.

(** [channel_addresses.get(name, name)] *)
Definition channel_address (channels : dict pyval) (name : string) : string :=
  match dict_get channels name with
  | Some (VDict d) => match get_default d "address" (VStr name) with VStr a => a | _ => name end
  | _ => name
  end.

(** The payload of a channel's first message *)
Definition channel_payload (channels : dict pyval) (name : string) : dict pyval :=
  match dict_get channels name with
  | Some (VDict d) =>
      match get_default d "messages" (VDict []) with
      | VDict msgs => match head (omap (λ m, as_dict m.2) msgs) with
                      | Some msg => match get_default msg "payload" (VDict []) with VDict p => p | _ => [] end
                      | None => []
                      end
      | _ => []
      end
  | _ => []
  end.

(** The action and the channel of an operation that has both *)
Inductive v3_action := receives | sends.
Definition v3_operation (channels : dict pyval) (v : pyval) : option (v3_action * string) :=
  match v with
  | VDict d =>
      match _resolve_v3_channel_ref (get_default d "channel" (VDict [])) channels, get_default d "action" (VStr "") with
      | Some c, VStr a => if str_eqb a "receive" then Some (receives, c) else if str_eqb a "send" then Some (sends, c) else None
      | _, _ => None
      end
  | _ => None
  end.

Definition build_v3 (service_name : string) (channels : dict pyval) (ac : v3_action * string) : outcome exn Operation :=
  let address := channel_address channels ac.2 in
  (match ac.1 with receives => _build_observe_operation | sends => _build_publish_operation end)
    service_name (slugify address) address (channel_payload channels ac.2).

Definition v3_direction (receiving sending : bool) : EventDirection :=
  if receiving && sending then bidirectional else if receiving then inbound else if sending then outbound else inbound.

(** The event of one channel, given the operations found *)
Definition v3_event (b : broker) (channels : dict pyval) (found : list (v3_action * string)) (kv : string * pyval)
    : outcome exn (option EventDescriptor) :=
  match kv.2 with
  | VDict channel_def =>
      let address := default kv.1 (named (Some (channel_address channels kv.1))) in
      let description := match get_default channel_def "description" (VStr "") with VStr s => s | _ => "" end in
      let has a := existsb (λ ac, match ac.1, a with receives, receives | sends, sends => str_eqb ac.2 kv.1 | _, _ => false end) found in
      let! e := channel_event b (slugify address) address (VStr description) (v3_direction (has receives) (has sends)) in
      Ok (Some e)
  | _ => Ok None
  end.

Definition dict_or_empty (v : pyval) : dict pyval := match v with VDict d => d | _ => [] end.

Definition _extract_v3 (b : broker) (data : dict pyval) : outcome exn (list Operation * list EventDescriptor) :=
  let channels := dict_or_empty (get_default data "channels" (VDict [])) in
  let ops := dict_or_empty (get_default data "operations" (VDict [])) in
  let found := omap (λ kv, v3_operation channels kv.2) ops in
  let! operations := traverse (build_v3 (bk_service b) channels) found in
  let! events := traverse (v3_event b channels found) channels in
  Ok (operations, omap id events).

(** [extract] after the document is read and parsed *)
Definition asyncapi_description (v : pyval) (source_url : option string) (source_hash : string) (now : Z) : outcome exn ServiceIR :=
  let invalid := Raise (value_error "AsyncAPI extractor: content is not a valid AsyncAPI document") in
  match v with
  | VDict data =>
      if negb (dict_mem data "asyncapi") then invalid
      else
        let spec_version := py_str repr (get_default data "asyncapi" (VStr "")) in
        let is_v3 := startswith "3." spec_version in
        let! info := as_mapping (get_default data "info" (VDict [])) in
        let! service_name := match get_default info "title" (VStr "AsyncAPI Service") with
                             | VStr t => Ok (slugify_camel t)
                             | _ => Raise (type_error "expected string or bytes-like object")
                             end in
        let '(protocol, broker_url) := _resolve_server (get_default data "servers" (VDict [])) is_v3 in
        let! transport := _resolve_transport protocol in
        let! '(operations, events) := (if is_v3 then _extract_v3 else _extract_v2) (mk_broker service_name transport broker_url protocol) data in
        let metadata := [("asyncapi_version", VStr spec_version); ("service_version", get_default info "version" (VStr "0.0.0"));
                         ("channel_count", VInt (Z.of_nat (length events))); ("operation_count", VInt (Z.of_nat (length operations)))]
                        ++ (if truthy protocol then [("broker_protocol", protocol)] else []) in
        let! description := text_field "ServiceIR" (get_default info "description" (VStr "")) in
        let! base_url := text_field "ServiceIR" broker_url in
        describe "asyncapi" service_name description base_url (plain_auth no_auth) source_url source_hash operations events metadata now
  | _ => invalid
  end.

Section extractor.
Context {W : Type} (read_text : string → comp W exn string) (httpx_get : string → dict string → comp W exn response).
Context (yaml_load : string → outcome exn pyval) (sha256_hex : string → string) (now : W → Z).

Definition asyncapi_extract (source : SourceConfig) : comp W exn ServiceIR :=
  content <- get_content read_text httpx_get source ;;
  match content with
  | None => raise (value_error "AsyncAPI extractor: could not read source content")
  | Some text =>
      v <- answer (yaml_load text) ;;
      t <- gets now ;;
      answer (asyncapi_description v (sc_url source) (sha256_hex text) t)
  end.

Definition asyncapi_name (o : option string) : bool :=
  match o with
  | Some p => existsb (λ e, endswith e (lower p)) [".asyncapi.yaml"; ".asyncapi.json"; ".asyncapi.yml"]
  | None => false
  end.

Definition asyncapi_detect (source : SourceConfig) : comp W exn float :=
  if bool_decide (dict_get (sc_hints source) "protocol" = Some "asyncapi") then ret 0x1.e666666666666p-1%float
  else if asyncapi_name (sc_file_path source) || asyncapi_name (sc_url source) then ret 0x1.c28f5c28f5c29p-1%float
  else
    content <- get_content read_text httpx_get source ;;
    ret (match content with
         | Some text => match yaml_load text with
                        | Ok (VDict d) => if dict_mem d "asyncapi" then 0x1.d70a3d70a3d71p-1%float else 0%float
                        | _ => 0%float
                        end
         | None => 0%float
         end).

Definition AsyncAPIExtractor : ExtractorProtocol W := mk_extractor "asyncapi" asyncapi_detect asyncapi_extract None.
End extractor.
End asyncapi.

(** ** What an extracted description holds *)

Section soundness.
Context (repr : pyval → string).

(** An operation on a channel: observing is safe, publishing is not, and neither
    has a method or a path *)
Definition channel_operation (o : Operation) : Prop :=
  op_method o = None ∧ op_path o = None ∧
  (rm_risk_level (op_risk o) = safe ∧ rm_writes_state (op_risk o) = Some false ∨
   rm_risk_level (op_risk o) = cautious ∧ rm_writes_state (op_risk o) = Some true).

(** The event of a channel, over the service's broker *)
Definition planned_event (b : broker) (e : EventDescriptor) : Prop :=
  ed_support e = planned ∧ ed_operation_id e = None ∧ ∃ g, ed_event_bridge e = Some g ∧ VStr (eb_broker_url g) = bk_url b ∧
  eb_topic g = ed_channel e.

Lemma observe_channel n s c p o : _build_observe_operation n s c p = Ok o → channel_operation o.
Proof. unfold _build_observe_operation. intros H. obinds H. injection H as <-. split_and!; [done|done|by left]. Qed.
Lemma publish_channel n s c p o : _build_publish_operation n s c p = Ok o → channel_operation o.
Proof. unfold _build_publish_operation. intros H. obinds H. injection H as <-. split_and!; [done|done|by right]. Qed.

Lemma channel_event_planned b slug channel d dir e : channel_event b slug channel d dir = Ok e → planned_event b e ∧ ed_direction e = dir.
Proof.
  unfold channel_event. intros H. apply obind_ok in H as (url & Hu & H). apply obind_ok in H as (p & _ & H). apply obind_ok in H as (ds & _ & H).
  injection H as <-. split; [|done]. split; [done|]. split; [done|]. eexists. split_and!; [done| |done]. cbn.
  destruct (bk_url b); try done. by injection Hu as ->.
Qed.

Lemma v2_sound b data ops events : _extract_v2 b data = Ok (ops, events) → Forall channel_operation ops ∧ Forall (planned_event b) events.
Proof.
  unfold _extract_v2. destruct (get_default data "channels" _) as [| | | | | |channels]; try by intros [= <- <-].
  intros H. apply obind_ok in H as (l & Hl & H). injection H as <- <-. apply traverse_ok in Hl.
  induction Hl as [|kv [os es] kvs l Hkv _ [IHo IHe]]; [by split|]. cbn [fmap list_fmap concat fst snd]. rewrite !Forall_app.
  unfold v2_channel in Hkv. destruct kv.2 as [| | | | | |d]; try (by injection Hkv as <- <-).
  apply obind_ok in Hkv as (o1 & H1 & Hkv). apply obind_ok in Hkv as (o2 & H2 & Hkv). apply obind_ok in Hkv as (e & He & Hkv).
  injection Hkv as <- <-. rewrite Forall_app. split_and!; try done.
  - destruct (dict_get d "subscribe"); [|by injection H1 as <-]. obinds H1. injection H1 as <-. constructor; [by eapply observe_channel|done].
  - destruct (dict_get d "publish"); [|by injection H2 as <-]. obinds H2. injection H2 as <-. constructor; [by eapply publish_channel|done].
  - constructor; [by eapply channel_event_planned|done].
Qed.

Lemma v3_sound b data ops events : _extract_v3 b data = Ok (ops, events) → Forall channel_operation ops ∧ Forall (planned_event b) events.
Proof.
  unfold _extract_v3. intros H. apply obind_ok in H as (os & Ho & H). apply obind_ok in H as (es & He & H). injection H as <- <-.
  apply traverse_ok in Ho, He. split.
  - clear He. induction Ho as [|[[] c] o acs os Ho _ IH]; [done| |]; (constructor; [|done]); [exact (observe_channel _ _ _ _ _ Ho)|exact (publish_channel _ _ _ _ _ Ho)].
  - clear Ho. induction He as [|kv e kvs es He _ IH]; [done|]. unfold v3_event in He.
    destruct kv.2 as [| | | | | |d]; try (by injection He as <-). apply obind_ok in He as (e' & He & H). injection H as <-.
    cbn [omap list_omap id]. constructor; [by eapply channel_event_planned|done].
Qed.

(** An event-driven service is described and never deployed.  A description
    made of an AsyncAPI document is valid; its operations observe, classified as
    safe, or publish, classified as cautious; and each of its events is planned over
    the broker that is the service's address.  The check before a deployment,
    however it is configured, refuses every such description that has a channel. *)
Theorem asyncapi_never_deploys v source_url source_hash now ir :
  asyncapi_description repr v source_url source_hash now = Ok ir →
  valid_description "asyncapi" ir ∧ Forall channel_operation (ir_operations ir) ∧
  (∀ e, e ∈ ir_event_descriptors ir → ed_support e = planned ∧ ∃ g, ed_event_bridge e = Some g ∧ eb_broker_url g = ir_base_url ir) ∧
  (ir_event_descriptors ir ≠ [] → ∀ stream unary, vr_passed (_validate_event_support stream unary ir) = false).
Proof.
  unfold asyncapi_description. destruct v as [| | | | | |data]; try done. destruct (negb _); [done|]. intros H.
  apply obind_ok in H as (info & _ & H). apply obind_ok in H as (name & _ & H).
  destruct (_resolve_server repr _ _) as [protocol broker_url]. apply obind_ok in H as (transport & _ & H).
  apply obind_ok in H as ([ops events] & Hx & H). apply obind_ok in H as (description & _ & H). apply obind_ok in H as (url & Hurl & H).
  assert (Forall channel_operation ops ∧ Forall (planned_event (mk_broker name transport broker_url protocol)) events) as [Ho He].
  { destruct (startswith _ _); [by eapply v3_sound|by eapply v2_sound]. }
  destruct (describe_fields _ _ _ _ _ _ _ _ _ _ _ _ H) as (Eev & Eu & _). split; [by eapply describe_valid|].
  assert (∀ e, e ∈ ir_event_descriptors ir → ed_support e = planned ∧ ∃ g, ed_event_bridge e = Some g ∧ eb_broker_url g = ir_base_url ir) as Hplan.
  { rewrite Eev, Eu. intros e Hin. rewrite Forall_forall in He. destruct (He e Hin) as (Hp & _ & g & Hg & Hu & _).
    split; [done|]. exists g. split; [done|]. cbn [bk_url] in Hu. rewrite <-Hu in Hurl. by injection Hurl as ->. }
  split_and!.
  - apply described_operations in H as [-> _]; [done|]. eapply Forall_impl; [exact Ho|]. intros o (_ & _ & [[-> _]|[-> _]]); done.
  - done.
  - intros Hne stream unary. destruct (vr_passed _) eqn:Ep; [|done]. apply event_support_sound in Ep as [Hev _].
    destruct (ir_event_descriptors ir) as [|e l] eqn:E; [done|]. destruct (Hplan e) as [Hp _]; [left|].
    destruct (Hev e) as [Hs|Hs]; [left|congruence|]. unfold runnable in Hs. destruct Hs as [Hs _]. congruence.
Qed.
End soundness.

#[global] Instance asyncapi_extracts {W} repr read_text httpx_get yaml_load sha256_hex (now : W → Z) :
  Extracts (AsyncAPIExtractor repr read_text httpx_get yaml_load sha256_hex now).
Proof.
  intros source w ir w' H. cbn in H. unfold asyncapi_extract in H. mbind H content w1 Hc. destruct content as [text|]; [|done].
  mbind H v w2 Hv. mbind H t w3 Ht. apply answer_ok in H as [H _]. unfold asyncapi_description in H.
  destruct v as [| | | | | |data]; try done. destruct (negb _); [done|].
  do 2 (apply obind_ok in H as (? & _ & H)). destruct (_resolve_server repr _ _). apply obind_ok in H as (? & _ & H).
  apply obind_ok in H as ([ops events] & _ & H). do 2 (apply obind_ok in H as (? & _ & H)). by eapply describe_valid.
Qed.

(** ** Worked documents *)

Definition asyncapi_document (version : string) (fields : dict pyval) : pyval :=
  VDict ([("asyncapi", VStr version); ("info", VDict [("title", VStr "Orders")]);
          ("servers", VDict [("main", VDict [("protocol", VStr "kafka"); ("url", VStr "kafka.local"); ("host", VStr "kafka.local")])])] ++ fields).

Definition orders_v2 : pyval :=
  asyncapi_document "2.6.0" [("channels", VDict [
    ("orders/created", VDict [("subscribe", VDict [("message", VDict [("payload", VDict [("type", VStr "object");
       ("properties", VDict [("id", typed_schema "integer")]); ("required", VList [VStr "id"])])])]); ("publish", VDict [])]);
    ("idle", VDict [])])].

Lemma asyncapi_never_deploys_witness : ∃ ir, asyncapi_description (λ _, "") orders_v2 None "h" 0 = Ok ir ∧
  (∀ stream unary, vr_passed (_validate_event_support stream unary ir) = false) ∧
  op_ids ir = ["orders_observe_orders-created"; "orders_publish_orders-created"] ∧
  ed_direction <$> ir_event_descriptors ir = [bidirectional; outbound] ∧ ir_base_url ir = "kafka.local".
Proof.
  destruct (asyncapi_description (λ _, "") orders_v2 None "h" 0) as [ir|e] eqn:E; [|vm_compute in E; discriminate E].
  exists ir. split; [reflexivity|]. split.
  - apply (asyncapi_never_deploys (λ _, "") orders_v2 _ _ _ ir E). vm_compute in E. injection E as <-. discriminate.
  - vm_compute in E. injection E as <-. by vm_compute.
Defined.

(** A channel without operations is outbound in version 2 and inbound in version 3. *)
Example asyncapi_idle_channel :
  match asyncapi_description (λ _, "") (asyncapi_document "3.0.0" [("channels", VDict [("idle", VDict [])])]) None "h" 0 with
  | Ok ir => ed_direction <$> ir_event_descriptors ir = [inbound] | Raise _ => False end.
Proof. vm_compute. reflexivity. Qed.

(** The identifier an author gives an operation is read and dropped. *)
Example asyncapi_operation_id_dropped :
  match asyncapi_description (λ _, "") (asyncapi_document "2.6.0" [("channels", VDict [("c", VDict [("subscribe", VDict [("operationId", VStr "onCreated")])])])]) None "h" 0 with
  | Ok ir => op_ids ir = ["orders_observe_c"] | Raise _ => False end.
Proof. vm_compute. reflexivity. Qed.

(** Two operations of version 3 on one channel share an identifier. *)
Example asyncapi_two_receivers_fail :
  let receive := VDict [("action", VStr "receive"); ("channel", VDict [("$ref", VStr "#/channels/c")])] in
  match asyncapi_description (λ _, "") (asyncapi_document "3.0.0" [("channels", VDict [("c", VDict [])]); ("operations", VDict [("a", receive); ("b", receive)])]) None "h" 0 with
  | Raise e => exn_type e = "ValueError" | Ok _ => False end.
Proof. vm_compute. reflexivity. Qed.
