(* ===== verification/GraphQLExtractor.v ===== *)
(** * The GraphQL extractor ([libs/extractors/graphql.py])

    An introspected schema becomes one operation for each field of its query and
    mutation types, with the document that calls it: its variables, their types and
    a selection of at most three levels.  JSON, HTTP and the file system are
    parameters; a reference to a type is a finite value, as JSON has it. *)

From S2P Require Export ExtractorKit Enhancement.
From Stdlib Require Import Ascii.

Definition type_reference : string := "{ kind name ofType { kind name ofType { kind name ofType { kind name } } } }".
Definition _INTROSPECTION_QUERY : string := join newline_str [
  "query IntrospectionQuery {"; "  __schema {"; "    description"; "    queryType { name }"; "    mutationType { name }"; "    types {";
  "      kind"; "      name"; "      description"; "      fields {"; "        name"; "        description"; "        args {"; "          name";
  "          description"; "          defaultValue"; "          type " +:+ type_reference; "        }"; "        type " +:+ type_reference;
  "      }"; "      inputFields {"; "        name"; "        description"; "        defaultValue"; "        type " +:+ type_reference;
  "      }"; "      enumValues { name }"; "    }"; "  }"; "}"].

Definition _SCALAR_TYPE_MAP : dict string := [
  ("Int", "integer"); ("Float", "number"); ("Boolean", "boolean"); ("ID", "string"); ("String", "string");
  ("DateTime", "string"); ("Date", "string"); ("Time", "string"); ("Timestamp", "string"); ("JSON", "object");
  ("JSONObject", "object"); ("JSONString", "string"); ("Upload", "string"); ("File", "string"); ("Email", "string");
  ("URL", "string"); ("URI", "string"); ("UUID", "string"); ("GUID", "string"); ("BigInt", "integer"); ("Long", "integer");
  ("Decimal", "number"); ("BigDecimal", "number"); ("Byte", "integer"); ("Short", "integer"); ("PositiveInt", "integer");
  ("NegativeInt", "integer"); ("NonNegativeInt", "integer"); ("NonPositiveInt", "integer"); ("PositiveFloat", "number");
  ("NegativeFloat", "number"); ("NonNegativeFloat", "number"); ("NonPositiveFloat", "number"); ("Void", "string")].

Definition _infer_scalar_type (name : string) : string :=
  let l := lower name in
  let any := existsb (λ kw, str_contains kw l) in
  if any ["json"; "object"; "map"; "dict"] then "object"
  else if any ["float"; "double"; "decimal"; "price"; "amount"; "rate"; "percent"] then "number"
  else if any ["int"; "long"; "count"; "size"; "port"] then "integer"
  else if any ["bool"; "flag"; "enabled"; "active"] then "boolean"
  else "string".

(** ** References to types *)

(** The dictionaries met by following [ofType] *)
Fixpoint type_chain (v : pyval) : list (dict pyval) :=
  match v with
  | VDict d =>
      d :: (fix inner (l : list (string * pyval)) : list (dict pyval) :=
              match l with
              | [] => []
              | (k, w) :: l' => if str_eqb "ofType" k then type_chain w else inner l'
              end) d
  | _ => []
  end.

(** [d.get("kind") == k] *)
Definition kind_is (k : string) (d : dict pyval) : bool := match get_or_none d "kind" with VStr s => str_eqb s k | _ => false end.
Definition has_name (d : dict pyval) : bool := match get_or_none d "name" with VNone => false | _ => true end.

Definition _contains_kind (t : pyval) (k : string) : bool := existsb (kind_is k) (type_chain t).

(** The first dictionary with a name, else the last one *)
Definition _unwrap_named_type (t : pyval) : dict pyval :=
  match List.find has_name (type_chain t) with Some d => d | None => default [] (last (type_chain t)) end.

Definition _is_required (t : pyval) : bool := match t with VDict d => kind_is "NON_NULL" d | _ => false end.

(** [_graphql_type_literal], along the chain *)
Fixpoint chain_literal (l : list (dict pyval)) : string :=
  match l with
  | [] => "String"
  | d :: l' =>
      if kind_is "NON_NULL" d then chain_literal l' +:+ "!"
      else if kind_is "LIST" d then "[" +:+ chain_literal l' +:+ "]"
      else match named (as_str (get_or_none d "name")) with Some n => n | None => chain_literal l' end
  end.
Definition _graphql_type_literal (t : pyval) : string := chain_literal (type_chain t).

Section graphql.
Context (repr : pyval → string) (json_loads : string → option pyval).

(** [str(d.get(k, default))] *)
Definition str_get (d : dict pyval) (k dflt : string) : string := py_str repr (get_default d k (VStr dflt)).

(** ** Schemas *)

Definition _parse_schema (content : string) : outcome exn (dict pyval) :=
  match json_loads content with
  | None => Raise json_decode_error
  | Some (VDict payload) =>
      match get_or_none payload "__schema" with
      | VDict s => Ok s
      | _ => match get_or_none payload "data" with
             | VDict data => match get_or_none data "__schema" with
                             | VDict s => Ok s
                             | _ => Raise (value_error "Payload is not a GraphQL introspection response")
                             end
             | _ => Raise (value_error "Payload is not a GraphQL introspection response")
             end
      end
  | Some (VStr s) => Raise (if str_contains "__schema" s then type_error "string indices must be integers" else attribute_error "get")
  | Some (VList l) => Raise (if existsb (py_eq (VStr "__schema")) l then type_error "list indices must be integers" else attribute_error "get")
  | Some _ => Raise (type_error "argument is not iterable")
  end.

Definition type_index := dict (dict pyval).
Definition index_of (schema : dict pyval) : outcome exn type_index :=
  let! types := iterate (get_default schema "types" (VList [])) in
  Ok (dict_of_list (omap (λ t, match t with
                               | VDict d => match get_or_none d "name" with VStr n => Some (n, d) | _ => None end
                               | _ => None
                               end) types)).

Definition _root_type_name (schema : dict pyval) (key : string) : option string :=
  match get_or_none schema key with VDict d => as_str (get_or_none d "name") | _ => None end.

(** The fields of a type: named ones; none when they are no list *)
Definition named_fields (d : dict pyval) : list (string * dict pyval) :=
  match get_default d "fields" (VList []) with
  | VList l => omap (λ f, match f with
                          | VDict fd => match get_or_none fd "name" with VStr n => Some (n, fd) | _ => None end
                          | _ => None
                          end) l
  | _ => []
  end.

Section types.
Context (index : type_index).

Definition _map_type (t : pyval) : string :=
  if _contains_kind t "LIST" then "array"
  else
    let d := _unwrap_named_type t in
    let kind := str_get d "kind" "SCALAR" in
    let name := str_get d "name" "String" in
    if str_eqb kind "SCALAR" then default (_infer_scalar_type name) (dict_get _SCALAR_TYPE_MAP name)
    else if str_eqb kind "ENUM" then "string"
    else if one_of kind ["INPUT_OBJECT"; "OBJECT"] then "object"
    else match dict_get index name with
         | Some r => if kind_is "ENUM" r then "string" else if kind_is "INPUT_OBJECT" r then "object" else "string"
         | None => "string"
         end.

Definition _JSON_SCHEMA_MAX_DEPTH : nat := 4.

(** The names of an enumeration *)
Definition enum_schema (typedef : dict pyval) : outcome exn (option (dict pyval)) :=
  let values := get_default typedef "enumValues" (VList []) in
  if truthy values then
    let! l := iterate values in
    let! names := traverse (λ d, item d "name") (omap as_dict l) in
    Ok (Some [("type", VStr "string"); ("enum", VList names)])
  else Ok None.

(** One input field: the properties so far and the names required *)
Definition add_input_field (child : pyval → outcome exn (option (dict pyval))) (acc : dict pyval * list string) (v : pyval)
    : outcome exn (dict pyval * list string) :=
  match v with
  | VDict field =>
      let fname := str_get field "name" "" in
      if negb (str_truthy fname) then Ok acc
      else
        let t := get_or_none field "type" in
        let required := if _is_required t then acc.2 ++ [fname] else acc.2 in
        let mapped := _map_type t in
        let! nested := if str_eqb mapped "object" then child t else Ok None in
        match nested with
        | Some s => Ok (dict_set acc.1 fname (VDict s), required)
        | None =>
            let description := get_or_none field "description" in
            let entry := ("type", VStr mapped) :: (if truthy description then [("description", VStr (py_str repr description))] else []) in
            Ok (dict_set acc.1 fname (VDict entry), required)
        end
  | _ => Ok acc
  end.

(** [_build_json_schema]; [levels] counts down to the greatest depth. *)
Fixpoint input_schema (levels : nat) (t : pyval) : outcome exn (option (dict pyval)) :=
  match levels, t with
  | S levels', VDict _ =>
      let d := _unwrap_named_type t in
      match dict_get index (str_get d "name" "") with
      | None => Ok None
      | Some typedef =>
          let actual := get_default typedef "kind" (VStr (str_get d "kind" "")) in
          if match actual with VStr k => str_eqb k "ENUM" | _ => false end then enum_schema typedef
          else if negb (match actual with VStr k => str_eqb k "INPUT_OBJECT" | _ => false end) then Ok None
          else
            let fields := get_default typedef "inputFields" (VList []) in
            if negb (truthy fields) then Ok None
            else
              let! l := iterate fields in
              let! '(properties, required) := fold_outcome (add_input_field (input_schema levels')) ([], []) l in
              Ok (match properties with
                  | [] => None
                  | _ => Some (object_of properties ++ match required with [] => [] | _ => [("required", vstrs required)] end)
                  end)
      end
  | _, _ => Ok None
  end.
Definition _build_json_schema : pyval → outcome exn (option (dict pyval)) := input_schema (S _JSON_SCHEMA_MAX_DEPTH).

(** The first dictionary of the chain that wraps nothing *)
Definition unwrapped (t : pyval) : option (dict pyval) :=
  List.find (λ d, negb (kind_is "NON_NULL" d || kind_is "LIST" d)) (type_chain t).

Definition _build_array_json_schema (t : pyval) : outcome exn (option (dict pyval)) :=
  match unwrapped t with
  | None => Ok None
  | Some inner =>
      let mapped := _map_type (VDict inner) in
      let! nested := if str_eqb mapped "object" then _build_json_schema (VDict inner) else Ok None in
      Ok (Some [("type", VStr "array"); ("items", match nested with Some s => VDict s | None => typed_schema mapped end)])
  end.

(** ** Selections *)

(** [kind in {"SCALAR", "ENUM"}], of the kind as text *)
Definition leaf_kind (d : dict pyval) : bool := one_of (str_get d "kind" "SCALAR") ["SCALAR"; "ENUM"].

Definition _is_leaf_output_type (t : pyval) : bool :=
  let d := _unwrap_named_type t in
  leaf_kind d
  || match get_or_none d "name" with
     | VStr n => match dict_get index n with Some r => kind_is "ENUM" r | None => false end
     | _ => false
     end.

Definition typename_only : string := "{ __typename }".

(** The object or interface a reference names *)
Definition composite (t : pyval) : outcome exn (option (string * dict pyval)) :=
  let d := _unwrap_named_type t in
  if leaf_kind d then Ok None
  else match named (as_str (get_or_none d "name")) with
       | None => Ok None
       | Some n =>
           match dict_get index n with
           | None => Ok None
           | Some r => let! known := member_of (get_or_none r "kind") ["OBJECT"; "INTERFACE"] in
                       Ok (if known : bool then Some (n, r) else None)
           end
       end.

(** What a child field adds to a selection *)
Definition child_selection (deeper : pyval → outcome exn (option string)) (f : string * dict pyval) : outcome exn (option string) :=
  let t := get_or_none f.2 "type" in
  if _is_leaf_output_type t then Ok (Some f.1)
  else let! sub := deeper t in Ok (match sub with Some s => Some (f.1 +:+ " " +:+ s) | None => None end).

(** [_selection_set_for_type]; [levels] is how much deeper it may go. *)
Fixpoint selection_set (levels : nat) (visited : list string) (t : pyval) : outcome exn (option string) :=
  let! found := composite t in
  match found with
  | None => Ok None
  | Some (n, r) =>
      if one_of n visited then Ok (Some typename_only)
      else if negb (is_list (get_default r "fields" (VList []))) then Ok (Some typename_only)
      else
        let deeper u := match levels with O => Ok None | S levels' => selection_set levels' (visited ++ [n]) u end in
        let! selections := traverse (child_selection deeper) (named_fields r) in
        Ok (Some (match omap id selections with [] => typename_only | l => "{ " +:+ join " " l +:+ " }" end))
  end.
Definition _selection_set_for_type : pyval → outcome exn (option string) := selection_set 2 [].

(** ** Operations *)

Inductive operation_kind := query_kind | mutation_kind.
Definition kind_value (k : operation_kind) : string := match k with query_kind => "query" | mutation_kind => "mutation" end.
Definition is_mutation (k : operation_kind) : bool := match k with mutation_kind => true | query_kind => false end.

(** The arguments that have a name, with their types *)
Definition named_arguments (args : list pyval) : list (string * pyval) :=
  omap (λ a, match a with
             | VDict d => match get_or_none d "name" with VStr n => Some (n, get_or_none d "type") | _ => None end
             | _ => None
             end) args.

Definition parenthesised (l : list string) : string := match l with [] => "" | _ => "(" +:+ join ", " l +:+ ")" end.

Definition _build_graphql_operation_config (name : string) (kind : operation_kind) (args : list pyval) (field : dict pyval)
    : outcome exn GraphQLOperationConfig :=
  let named := named_arguments args in
  let variables := parenthesised ((λ a, "$" +:+ a.1 +:+ ": " +:+ _graphql_type_literal a.2) <$> named) in
  let bindings := parenthesised ((λ a, a.1 +:+ ": $" +:+ a.1) <$> named) in
  let! selection := _selection_set_for_type (get_or_none field "type") in
  let invocation := name +:+ bindings +:+ match selection with Some s => " " +:+ s | None => "" end in
  Ok (mk_graphql (if is_mutation kind then gql_mutation else gql_query) name
        (kind_value kind +:+ " " +:+ name +:+ variables +:+ " {" +:+ newline_str +:+ "  " +:+ invocation +:+ newline_str +:+ "}") (named.*1)).

Fixpoint drop_quotes (l : list ascii) : list ascii :=
  match l with c :: l' => if bool_decide (c = "034"%char) then drop_quotes l' else l | [] => [] end.

(** [_parse_default_value]: text that is no JSON loses the quotes around it. *)
Definition _parse_default_value (v : pyval) : pyval :=
  match v with
  | VStr s => match json_loads s with Some j => j | None => VStr (of_chars (rev (drop_quotes (rev (drop_quotes (chars s)))))) end
  | _ => v
  end.

Definition _param_from_argument (argument : dict pyval) : outcome exn Param :=
  let t := get_or_none argument "type" in
  let param_type := _map_type t in
  let! schema := if str_eqb param_type "object" then _build_json_schema t
                 else if str_eqb param_type "array" then _build_array_json_schema t else Ok None in
  Ok (extracted (str_get argument "name" "arg") param_type (_is_required t) (str_get argument "description" "")
        (_parse_default_value (get_or_none argument "defaultValue")) schema 0x1.e666666666666p-1).

Definition graphql_error_schema : dict pyval :=
  object_of [("errors", VDict [("type", VStr "array"); ("items", VDict (object_of [
    ("message", typed_schema "string"); ("locations", typed_schema "array"); ("path", typed_schema "array")]
    ++ [("required", vstrs ["message"])]))])].

Definition field_operation (graphql_path : string) (kind : operation_kind) (f : string * dict pyval) : outcome exn Operation :=
  let! args := iterate (get_default f.2 "args" (VList [])) in
  let! params := traverse _param_from_argument (omap as_dict args) in
  let! config := _build_graphql_operation_config f.1 kind args f.2 in
  let writes := is_mutation kind in
  Ok (mk_operation f.1 f.1 (str_get f.2 "description" "") (Some "POST") (Some graphql_path) params None
        (default_error graphql_error_schema) []
        (mk_risk (Some writes) (Some false) (Some writes) (Some (negb writes)) (if writes then cautious else safe) 0x1.e666666666666p-1 src_extractor)
        plain_strategy body_json None None (Some config) None None None None None None ["graphql"; kind_value kind] None src_extractor
        0x1.e666666666666p-1 None true).

Definition _extract_root_operations (graphql_path : string) (root : option string) (kind : operation_kind) : outcome exn (list Operation) :=
  match root with
  | None => Ok []
  | Some n => match dict_get index n with
              | None => Ok []
              | Some r => traverse (field_operation graphql_path kind) (named_fields r)
              end
  end.

Definition _subscription_field_names (schema : dict pyval) : list string :=
  match _root_type_name schema "subscriptionType" with
  | None => []
  | Some n => match dict_get index n with Some r => sorted_strings ((named_fields r).*1) | None => [] end
  end.
End types.

(** ** The service *)

Definition _graphql_path (source : SourceConfig) : outcome exn string :=
  let! u := urlparse (default "" (sc_url source)) in
  Ok (default (if str_truthy (path u) then path u else "/graphql") (dict_get (sc_hints source) "graphql_path")).

Definition _graphql_base_url (source : SourceConfig) : outcome exn string :=
  match named (dict_get (sc_hints source) "base_url") with
  | Some u => Ok u
  | None =>
      if opt_truthy (sc_url source) then
        let! u := urlparse (default "" (sc_url source)) in
        Ok (if str_truthy (scheme u) && str_truthy (netloc u) then urlunsplit (mk_split (scheme u) (netloc u) "" "" "") else "http://localhost")
      else Ok "http://localhost"
  end.

(** [Path(p).stem] *)
Definition path_stem (p : string) : string :=
  let name := default "" (last (List.filter (λ s, str_truthy s && negb (str_eqb s ".")) (split_on "/"%char p))) in
  match rev (split_on "."%char name) with
  | suffix :: ((_ :: _) as before) =>
      let stem := join "." (rev before) in if str_truthy suffix && str_truthy stem then stem else name
  | _ => name
  end.

Definition graphql_service_name (source : SourceConfig) : outcome exn string :=
  match named (dict_get (sc_hints source) "service_name") with
  | Some n => Ok (slugify n)
  | None =>
      if opt_truthy (sc_file_path source) then Ok (slugify (path_stem (default "" (sc_file_path source))))
      else if opt_truthy (sc_url source) then
        let! u := urlparse (default "" (sc_url source)) in
        Ok (if str_truthy (netloc u) then slugify (hd "" (split_on ":"%char (netloc u))) else "graphql-service")
      else Ok "graphql-service"
  end.

Definition _derive_auth (source : SourceConfig) : AuthConfig :=
  if opt_truthy (sc_auth_header source) || opt_truthy (sc_auth_token source)
  then auth_of bearer (Some "Authorization") (Some "Bearer") None None None None else plain_auth no_auth.

(** [extract] after the schema is parsed *)
Definition graphql_description (source : SourceConfig) (schema : dict pyval) (source_hash : string) (now : Z) : outcome exn ServiceIR :=
  let! index := index_of schema in
  let root := _root_type_name schema in
  let! graphql_path := _graphql_path source in
  let! queries := _extract_root_operations index graphql_path (root "queryType") query_kind in
  let! mutations := _extract_root_operations index graphql_path (root "mutationType") mutation_kind in
  let! service_name := graphql_service_name source in
  let subscriptions := _subscription_field_names index schema in
  let! base_url := _graphql_base_url source in
  describe "graphql" service_name (str_get schema "description" "") base_url (_derive_auth source) (sc_url source) source_hash
    (queries ++ mutations)
    ((λ n, mk_event n n "" graphql_subscription inbound unsupported (Some graphql_path) None None None []) <$> subscriptions)
    ([("query_type", opt_str (root "queryType")); ("mutation_type", opt_str (root "mutationType"));
      ("subscription_type", opt_str (root "subscriptionType")); ("source_format", VStr "introspection_json")]
     ++ names_entry "ignored_subscriptions" subscriptions) now.

Section extractor.
Context {W : Type} (read_text : string → comp W exn string) (httpx_post : string → pyval → dict string → comp W exn response).
Context (sha256_hex : string → string) (now : W → Z).

(** A source that is an address is sent the introspection query. *)
Definition _get_content (source : SourceConfig) : comp W exn (option string) :=
  if opt_truthy (sc_file_content source) then ret (sc_file_content source)
  else if opt_truthy (sc_file_path source) then t <- read_text (default "" (sc_file_path source)) ;; ret (Some t)
  else if opt_truthy (sc_url source) then
    r <- httpx_post (default "" (sc_url source)) (VDict [("query", VStr _INTROSPECTION_QUERY)]) (get_auth_headers source) ;; raise_for_status r ;;; ret (Some (rsp_text r))
  else ret None.

Definition graphql_extract (source : SourceConfig) : comp W exn ServiceIR :=
  content <- _get_content source ;;
  match content with
  | None => raise (value_error "Could not read GraphQL schema source")
  | Some text =>
      schema <- answer (_parse_schema text) ;;
      t <- gets now ;;
      answer (graphql_description source schema (compute_content_hash sha256_hex text) t)
  end.

Definition schema_failures : list string := ["JSONDecodeError"; "ValueError"; "KeyError"; "TypeError"].
Definition graphql_detect (source : SourceConfig) : comp W exn float :=
  if opt_truthy (sc_file_content source) || opt_truthy (sc_file_path source) then
    content <- _get_content source ;;
    match content with
    | None => ret 0%float
    | Some text =>
        match _parse_schema text with
        | Ok s => ret (match s with [] => 0%float | _ => 0x1.e666666666666p-1%float end)
        | Raise e => if one_of (exn_type e) schema_failures then ret 0%float else raise e
        end
    end
  else ret (if opt_truthy (sc_url source) && str_contains "graphql" (lower (default "" (sc_url source))) then 0x1.999999999999ap-2%float else 0%float).

Definition GraphQLExtractor : ExtractorProtocol W := mk_extractor "graphql" graphql_detect graphql_extract None.
End extractor.
End graphql.

(** ** What an extracted description holds *)

Lemma type_chain_cons d : type_chain (VDict d) = d :: type_chain (get_or_none d "ofType").
Proof.
  cbn [type_chain]. f_equal. unfold get_or_none. induction d as [|[k v] d IH]; [done|]. cbn [dict_get].
  destruct (str_eqb "ofType" k); [done|]. exact IH.
Qed.

Lemma required_literal t : _is_required t = true → ∃ s, _graphql_type_literal t = s +:+ "!".
Proof.
  unfold _is_required, _graphql_type_literal. destruct t as [| | | | | |d]; try done. intros Hk. rewrite type_chain_cons. cbn [chain_literal].
  rewrite Hk. by eexists.
Qed.

Section soundness.
Context (repr : pyval → string) (json_loads : string → option pyval).

Section types.
Context (index : type_index).

(** A selection of a type: each field it names is one of the type's; a field whose
    type has fields of its own comes with a selection of these, and no other. *)
Inductive selects : pyval → string → Prop :=
| selects_typename t n r : composite repr index t = Ok (Some (n, r)) → selects t typename_only
| selects_fields t n r l : composite repr index t = Ok (Some (n, r)) → l ≠ [] →
    Forall (λ s, ∃ f, f ∈ named_fields r ∧
      (_is_leaf_output_type repr index (get_or_none f.2 "type") = true ∧ s = f.1 ∨
       _is_leaf_output_type repr index (get_or_none f.2 "type") = false ∧
         ∃ sub, selects (get_or_none f.2 "type") sub ∧ s = f.1 +:+ " " +:+ sub)) l →
    selects t ("{ " +:+ join " " l +:+ " }").

(** What may stand in a selection of the given fields *)
Definition selected (fields : list (string * dict pyval)) (s : string) : Prop :=
  ∃ f, f ∈ fields ∧
    (_is_leaf_output_type repr index (get_or_none f.2 "type") = true ∧ s = f.1 ∨
     _is_leaf_output_type repr index (get_or_none f.2 "type") = false ∧
       ∃ sub, selects (get_or_none f.2 "type") sub ∧ s = f.1 +:+ " " +:+ sub).

Lemma children_selected deeper fields selections : (∀ u s, deeper u = Ok (Some s) → selects u s) →
  traverse (child_selection repr index deeper) fields = Ok selections → Forall (selected fields) (omap id selections).
Proof.
  intros Hd Hs%traverse_ok. apply Forall_forall. intros s (o & Ho & Es)%list_elem_of_omap. cbn in Es. subst o.
  apply list_elem_of_lookup in Ho as [i Ho]. destruct (Forall2_lookup_r _ _ _ _ _ Hs Ho) as (f & Hf & Hc).
  exists f. split; [by eapply list_elem_of_lookup_2|]. unfold child_selection in Hc.
  destruct (_is_leaf_output_type _ _ _); [simplify_eq; by left|]. right. split; [done|].
  apply obind_ok in Hc as ([sub|] & Hsub & Hc); simplify_eq. exists sub. split; [by apply Hd|done].
Qed.

Lemma selection_sound levels visited t s : selection_set repr index levels visited t = Ok (Some s) → selects t s.
Proof.
  revert visited t s. induction levels as [|levels IH]; intros visited t s H; cbn [selection_set] in H;
    apply obind_ok in H as ([[n r]|] & Hc & H); try done.
  all: destruct (one_of n visited); [injection H as <-; by eapply selects_typename|].
  all: destruct (negb _); [injection H as <-; by eapply selects_typename|].
  all: apply obind_ok in H as (selections & Hs & H); injection H as <-.
  all: apply children_selected in Hs; [|first [by intros u sub | intros u sub; apply IH]].
  all: destruct (omap id selections) as [|x l]; [by eapply selects_typename|].
  all: change (selects t ("{ " +:+ join " " (x :: l) +:+ " }")); by eapply selects_fields; [exact Hc|done|].
Qed.

(** What the extractor promises of a field's operation *)
Record gql_call (kind : operation_kind) (f : string * dict pyval) (o : Operation) : Prop := {
  gc_name : op_id o = f.1 ∧ op_name o = f.1 ∧ op_method o = Some "POST";
  gc_risk : rm_risk_level (op_risk o) = if is_mutation kind then cautious else safe;
  gc_config : ∃ c args selection, op_graphql o = Some c ∧ gq_operation_name c = f.1 ∧
    gq_operation_type c = (if is_mutation kind then gql_mutation else gql_query) ∧
    iterate (get_default f.2 "args" (VList [])) = Ok args ∧ gq_variable_names c = (named_arguments args).*1 ∧
    (∀ n, n ∈ gq_variable_names c → n ∈ pa_name <$> op_params o) ∧
    (∀ sub, selection = Some sub → selects (get_or_none f.2 "type") sub) ∧
    gq_document c =
      kind_value kind +:+ " " +:+ f.1 +:+ parenthesised ((λ a, "$" +:+ a.1 +:+ ": " +:+ _graphql_type_literal a.2) <$> named_arguments args)
      +:+ " {" +:+ newline_str +:+ "  " +:+ (f.1 +:+ parenthesised ((λ a, a.1 +:+ ": $" +:+ a.1) <$> named_arguments args)
      +:+ match selection with Some s => " " +:+ s | None => "" end) +:+ newline_str +:+ "}";
}.

Lemma argument_param a p n : _param_from_argument repr json_loads index a = Ok p → get_or_none a "name" = VStr n → pa_name p = n.
Proof.
  unfold _param_from_argument. intros H Hn. apply obind_ok in H as (schema & _ & H). injection H as <-. cbn [pa_name extracted].
  unfold str_get, get_default. unfold get_or_none in Hn. by destruct (dict_get a "name"); [cbn in Hn |- *; subst|].
Qed.

Lemma variables_are_params args params : traverse (_param_from_argument repr json_loads index) (omap as_dict args) = Ok params →
  ∀ n, n ∈ (named_arguments args).*1 → n ∈ pa_name <$> params.
Proof.
  intros Hp%traverse_ok n ([n' t] & -> & (a & Ha & H)%list_elem_of_omap)%list_elem_of_fmap. cbn.
  destruct a as [| | | | | |d]; try done. destruct (get_or_none d "name") as [| | | |m| |] eqn:En; try done. injection H as <- _.
  assert (d ∈ omap as_dict args) as Hd by (apply list_elem_of_omap; by exists (VDict d)).
  apply list_elem_of_lookup in Hd as [i Hi]. destruct (Forall2_lookup_l _ _ _ _ _ Hp Hi) as (p & Hpi & Hpar).
  rewrite <-(argument_param _ _ _ Hpar En). apply list_elem_of_fmap_2. by eapply list_elem_of_lookup_2.
Qed.

Lemma field_call path kind f o : field_operation repr json_loads index path kind f = Ok o → gql_call kind f o.
Proof.
  unfold field_operation. intros H. apply obind_ok in H as (args & Ha & H). apply obind_ok in H as (params & Hp & H).
  apply obind_ok in H as (c & Hc & H). injection H as <-. unfold _build_graphql_operation_config in Hc.
  apply obind_ok in Hc as (selection & Hs & Hc). injection Hc as <-. split.
  - done.
  - done.
  - eexists _, args, selection. split_and!; try done.
    + by apply variables_are_params.
    + intros sub ->. by eapply selection_sound.
Qed.

(** The fields of a root type, with the kind of operation they become *)
Definition root_fields (root : option string) (kind : operation_kind) : list (operation_kind * (string * dict pyval)) :=
  match root with
  | None => []
  | Some n => match dict_get index n with Some r => (λ f, (kind, f)) <$> named_fields r | None => [] end
  end.

Lemma root_calls path root kind ops : _extract_root_operations repr json_loads index path root kind = Ok ops →
  Forall2 (λ kf o, gql_call kf.1 kf.2 o) (root_fields root kind) ops.
Proof.
  unfold _extract_root_operations, root_fields. destruct root as [n|]; [|by intros [= <-]]. destruct (dict_get index n); [|by intros [= <-]].
  intros H%traverse_ok. apply Forall2_fmap_l. eapply Forall2_impl; [exact H|]. intros f o. apply field_call.
Qed.
End types.

End soundness.

#[global] Instance graphql_extracts {W} repr json_loads read_text httpx_post sha256_hex (now : W → Z) :
  Extracts (GraphQLExtractor repr json_loads read_text httpx_post sha256_hex now).
Proof.
  intros source w ir w' H. cbn in H. unfold graphql_extract in H. mbind H content w1 Hc. destruct content as [text|]; [|done].
  mbind H schema w2 Hs. mbind H t w3 Ht. apply answer_ok in H as [H _]. unfold graphql_description in H.
  do 6 (apply obind_ok in H as (? & _ & H)). by eapply describe_valid.
Qed.

(** ** A worked schema *)

Definition named_type (kind name : string) : pyval := VDict [("kind", VStr kind); ("name", VStr name)].
Definition non_null (t : pyval) : pyval := VDict [("kind", VStr "NON_NULL"); ("name", VNone); ("ofType", t)].
Definition list_of (t : pyval) : pyval := VDict [("kind", VStr "LIST"); ("name", VNone); ("ofType", t)].
Definition gql_field (name : string) (args : list pyval) (t : pyval) : pyval :=
  VDict [("name", VStr name); ("description", VNone); ("args", VList args); ("type", t)].
Definition gql_argument (name : string) (t : pyval) : pyval := VDict [("name", VStr name); ("type", t)].
Definition object_type (name : string) (fields : list pyval) : pyval :=
  VDict [("kind", VStr "OBJECT"); ("name", VStr name); ("fields", VList fields)].

Definition book_schema : dict pyval := [
  ("queryType", VDict [("name", VStr "Query")]); ("mutationType", VDict [("name", VStr "Mutation")]);
  ("types", VList [
     object_type "Query" [gql_field "book" [gql_argument "id" (non_null (named_type "SCALAR" "ID"))] (named_type "OBJECT" "Book")];
     object_type "Mutation" [gql_field "touch" [] (named_type "SCALAR" "Boolean")];
     object_type "Book" [gql_field "title" [] (named_type "SCALAR" "String"); gql_field "authors" [] (list_of (named_type "OBJECT" "Author"))];
     object_type "Author" [gql_field "name" [] (named_type "SCALAR" "String"); gql_field "books" [] (list_of (named_type "OBJECT" "Book"))]])].

Definition run_graphql (schema : dict pyval) : outcome exn ServiceIR :=
  graphql_description (λ _, "?") (λ _, None) (mk_source (Some "http://books/graphql") None None None None []) schema "h" 0.

Definition documents (ir : ServiceIR) : list string := omap (λ o, gq_document <$> op_graphql o) (ir_operations ir).


(** A field of a union type is called without a selection, which no server accepts. *)
Example graphql_union_without_selection :
  match run_graphql [("queryType", VDict [("name", VStr "Query")]);
    ("types", VList [object_type "Query" [gql_field "search" [] (named_type "UNION" "Result")];
                     VDict [("kind", VStr "UNION"); ("name", VStr "Result"); ("fields", VNone)]])] with
  | Ok ir => documents ir = ["query search {" +:+ newline_str +:+ "  search" +:+ newline_str +:+ "}"] | Raise _ => False end.
Proof. vm_compute. reflexivity. Qed.

(** Fields are selected without the arguments they require. *)
Example graphql_required_argument_left_out :
  match run_graphql [("queryType", VDict [("name", VStr "Query")]);
    ("types", VList [object_type "Query" [gql_field "me" [] (named_type "OBJECT" "User")];
                     object_type "User" [gql_field "avatar" [gql_argument "size" (non_null (named_type "SCALAR" "Int"))] (named_type "SCALAR" "String")]])] with
  | Ok ir => documents ir = ["query me {" +:+ newline_str +:+ "  me { avatar }" +:+ newline_str +:+ "}"] | Raise _ => False end.
Proof. vm_compute. reflexivity. Qed.

(** A query and a mutation of one name fail the whole extraction. *)
Example graphql_shared_name_fails :
  match run_graphql [("queryType", VDict [("name", VStr "Q")]); ("mutationType", VDict [("name", VStr "M")]);
    ("types", VList [object_type "Q" [gql_field "node" [] (named_type "SCALAR" "ID")]; object_type "M" [gql_field "node" [] (named_type "SCALAR" "ID")]])] with
  | Raise e => exn_type e = "ValueError" | Ok _ => False end.
Proof. vm_compute. reflexivity. Qed.

(** A missing description is the text of None. *)
Example graphql_missing_description :
  match run_graphql book_schema with
  | Ok ir => op_description <$> ir_operations ir = ["None"; "None"] | Raise _ => False end.
Proof. vm_compute. reflexivity. Qed.

(** Subscriptions are recorded, and the query sent to a server does not ask for them. *)
Example graphql_subscriptions_not_asked : str_contains "subscriptionType" _INTROSPECTION_QUERY = false.
Proof. vm_compute. reflexivity. Qed.
