(* ===== verification/SoapExtractor.v ===== *)
(** * The SOAP extractor ([libs/extractors/soap.py])

    A WSDL 1.1 document becomes one operation for each operation of the port type
    that its first service is bound to, with the fields of the request's type as
    parameters and the binding's contract.  The XML parser is a parameter; a
    document is the element tree the parser gives. *)

From S2P Require Export ExtractorKit RuntimeProtocols.

Definition WSDL_NS : string := "http://schemas.xmlsoap.org/wsdl/".
Definition wsdl (name : string) : string := "{" +:+ WSDL_NS +:+ "}" +:+ name.
Definition soap (name : string) : string := "{http://schemas.xmlsoap.org/wsdl/soap/}" +:+ name.
Definition xsd (name : string) : string := "{http://www.w3.org/2001/XMLSchema}" +:+ name.

Definition XSD_TYPE_MAP : dict string := [
  ("string", "string"); ("boolean", "boolean"); ("int", "integer"); ("integer", "integer"); ("long", "integer");
  ("short", "integer"); ("decimal", "number"); ("float", "number"); ("double", "number"); ("date", "string");
  ("dateTime", "string")].
Definition SAFE_OPERATION_PREFIXES : list string := ["Get"; "List"; "Read"; "Fetch"; "Lookup"; "Describe"].
Definition DANGEROUS_OPERATION_PREFIXES : list string := ["Delete"; "Remove"; "Cancel"; "Purge"].

Definition _qname_local : string → string := local_name.

(** [elem.findall("a/b")] *)
Definition findall2 (tag1 tag2 : string) (x : element) : list element := concat (findall tag2 <$> findall tag1 x).

(** The first name that is there and not empty *)
Definition named_or (o o' : option string) : option string := match named o with Some n => Some n | None => named o' end.

(** ** Messages *)

Record XSDField := mk_field { xf_name : string; xf_type_name : string; xf_required : bool; xf_repeated : bool }.

Definition parse_message (m : element) : option (string * string) :=
  match named (attr m "name"), find_child (wsdl "part") m with
  | Some n, Some part => match named_or (attr part "element") (attr part "type") with
                         | Some q => Some (n, _qname_local q)
                         | None => None
                         end
  | _, _ => None
  end.
Definition _parse_messages (root : element) : dict string := dict_of_list (omap parse_message (findall (wsdl "message") root)).

Definition parse_part (part : element) : option XSDField :=
  match named (attr part "name"), named_or (attr part "type") (attr part "element") with
  | Some n, Some q => Some (mk_field n (_qname_local q) true false)
  | _, _ => None
  end.
Definition _parse_rpc_message_parts (root : element) : dict (list XSDField) :=
  dict_of_list (omap (λ m, match named (attr m "name") with
                           | Some n => Some (n, omap parse_part (findall (wsdl "part") m))
                           | None => None
                           end) (findall (wsdl "message") root)).

(** ** Schema types *)

Definition _schema_child_element_form (schema : element) : string :=
  if str_eqb (lower (attr_or schema "elementFormDefault" "unqualified")) "qualified" then "qualified" else "unqualified".

Definition parse_field (e : element) : option XSDField :=
  match named (attr e "name") with
  | Some n => Some (mk_field n (_qname_local (attr_or e "type" "xsd:string"))
                      (negb (str_eqb (attr_or e "minOccurs" "1") "0") && negb (dict_mem (el_attrib e) "default"))
                      (match attr e "maxOccurs" with Some m => negb (str_eqb m "1") | None => false end))
  | None => None
  end.
Definition _extract_xsd_fields (container : element) : list XSDField :=
  match find_child (xsd "sequence") container with
  | Some sequence => omap parse_field (findall (xsd "element") sequence)
  | None => []
  end.

(** What [_parse_schema_types] collects *)
Record schema_types := mk_types {
  st_elements : dict (list XSDField);
  st_complex : dict (list XSDField);
  st_forms : dict string;
  st_simple : dict string;
  st_enums : dict (list string);
}.

Definition add_simple_type (t : schema_types) (e : element) : schema_types :=
  match named (attr e "name"), find_child (xsd "restriction") e with
  | Some n, Some r =>
      let values := omap (λ v, attr v "value") (findall (xsd "enumeration") r) in
      mk_types (st_elements t) (st_complex t) (st_forms t) (dict_set (st_simple t) n (_qname_local (attr_or r "base" "string")))
        (match values with [] => st_enums t | _ => dict_set (st_enums t) n values end)
  | _, _ => t
  end.

Definition add_complex_type (form : string) (t : schema_types) (e : element) : schema_types :=
  match named (attr e "name") with
  | Some n => mk_types (st_elements t) (dict_set (st_complex t) n (_extract_xsd_fields e)) (dict_set (st_forms t) n form)
                (st_simple t) (st_enums t)
  | None => t
  end.

(** An element has the fields of its named type if that is known already, else of
    its own complex type. *)
Definition element_fields (t : schema_types) (e : element) : option (list XSDField) :=
  let type_name := _qname_local (attr_or e "type" "") in
  match (if str_truthy type_name then dict_get (st_complex t) type_name else None) with
  | Some fields => Some fields
  | None => _extract_xsd_fields <$> find_child (xsd "complexType") e
  end.
Definition add_element (form : string) (t : schema_types) (e : element) : schema_types :=
  match named (attr e "name") with
  | Some n => mk_types (match element_fields t e with Some fields => dict_set (st_elements t) n fields | None => st_elements t end)
                (st_complex t) (dict_set (st_forms t) n form) (st_simple t) (st_enums t)
  | None => t
  end.

Definition add_schema (t : schema_types) (schema : element) : schema_types :=
  let form := _schema_child_element_form schema in
  let t1 := foldl add_simple_type t (findall (xsd "simpleType") schema) in
  let t2 := foldl (add_complex_type form) t1 (findall (xsd "complexType") schema) in
  foldl (add_element form) t2 (findall (xsd "element") schema).
Definition _parse_schema_types (root : element) : schema_types :=
  foldl add_schema (mk_types [] [] [] [] []) (findall2 (wsdl "types") (xsd "schema") root).

(** ** Bindings *)

(** The named operations of a binding *)
Definition binding_operations (binding : element) : list (string * element) :=
  omap (λ o, match named (attr o "name") with Some n => Some (n, o) | None => None end) (findall (wsdl "operation") binding).

Definition _parse_soap_actions (binding : element) : dict string :=
  dict_of_list (omap (λ no, match find_child (soap "operation") no.2 with
                            | Some s => (λ a, (no.1, a)) <$> named (attr s "soapAction")
                            | None => None
                            end) (binding_operations binding)).

Definition _binding_style (binding : element) : string :=
  match find_child (soap "binding") binding with Some b => lower (attr_or b "style" "document") | None => "document" end.

Definition body_use (operation : element) : string :=
  match head (findall2 (wsdl "input") (soap "body") operation ++ findall2 (wsdl "output") (soap "body") operation) with
  | Some body => lower (attr_or body "use" "literal")
  | None => "literal"
  end.
Definition _parse_body_uses (binding : element) : dict string :=
  dict_of_list ((λ no, (no.1, body_use no.2)) <$> binding_operations binding).

(** ** Types and schemas of fields *)

Section types.
Context (t : schema_types).

Definition _ir_type_for_xsd (type_name : string) : string :=
  match dict_get XSD_TYPE_MAP type_name with
  | Some ty => ty
  | None => match dict_get (st_simple t) type_name with
            | Some base => default "string" (dict_get XSD_TYPE_MAP base)
            | None => "object"
            end
  end.

(** The schema of a type restricted to listed values *)
Definition enum_schema (type_name : string) (values : list string) : dict pyval :=
  let base := default "string" (dict_get (st_simple t) type_name) in
  [("type", VStr (default "string" (dict_get [("string", "string"); ("integer", "integer"); ("int", "integer")] base)));
   ("enum", vstrs values)].
Definition array_schema (items : pyval) : dict pyval := [("type", VStr "array"); ("items", items)].
Definition bare_object : dict pyval := [("type", VStr "object")].

Definition object_schema (properties : dict pyval) (required : list string) : dict pyval :=
  object_of properties ++ (match required with [] => [] | _ => [("required", vstrs required)] end).

(** One pass of the loop over the fields: [rec] is the call for a nested type, and
    the set of the types seen goes through every call. *)
Definition field_schema (rec : list string → string → outcome exn (list string * dict pyval))
    (seen : list string) (f : XSDField) : outcome exn (list string * dict pyval) :=
  let complex := dict_mem (st_complex t) (xf_type_name f) in
  let plain := [("type", VStr (_ir_type_for_xsd (xf_type_name f)))] in
  let! '(seen1, prop) :=
    match dict_get (st_enums t) (xf_type_name f) with
    | Some values => Ok (seen, enum_schema (xf_type_name f) values)
    | None => if complex then rec seen (xf_type_name f) else Ok (seen, plain)
    end in
  if xf_repeated f then
    if complex then let! '(seen2, items) := rec seen1 (xf_type_name f) in Ok (seen2, array_schema (VDict items))
    else Ok (seen1, array_schema (VDict plain))
  else Ok (seen1, prop).

Definition add_field_schema (rec : list string → string → outcome exn (list string * dict pyval))
    (acc : list string * dict pyval) (f : XSDField) : outcome exn (list string * dict pyval) :=
  let! '(seen, prop) := field_schema rec acc.1 f in Ok (seen, dict_set acc.2 (xf_name f) (VDict prop)).

Definition required_names (fields : list XSDField) : list string := xf_name <$> List.filter xf_required fields.

Fixpoint _complex_type_to_schema (fuel : nat) (seen : list string) (type_name : string) : outcome exn (list string * dict pyval) :=
  match fuel with
  | O => Raise (mk_exn "RecursionError" "maximum recursion depth exceeded" [])
  | S fuel =>
      if one_of type_name seen then Ok (seen, bare_object)
      else
        let fields := default [] (dict_get (st_complex t) type_name) in
        let! '(seen', properties) := fold_outcome (add_field_schema (_complex_type_to_schema fuel)) (type_name :: seen, []) fields in
        Ok (seen', object_schema properties (required_names fields))
  end.

(** Every nested call sees a type that was not seen. *)
Definition schema_of_type (type_name : string) : outcome exn (dict pyval) :=
  let! r := _complex_type_to_schema (S (length (st_complex t))) [] type_name in Ok r.2.

Definition _json_schema_for_field (f : XSDField) : outcome exn (option (dict pyval)) :=
  match dict_get (st_enums t) (xf_type_name f) with
  | Some values => Ok (Some (enum_schema (xf_type_name f) values))
  | None =>
      let item_type := _ir_type_for_xsd (xf_type_name f) in
      if xf_repeated f then
        if str_eqb item_type "object" && dict_mem (st_complex t) (xf_type_name f)
        then let! items := schema_of_type (xf_type_name f) in Ok (Some (array_schema (VDict items)))
        else Ok (Some (array_schema (typed_schema item_type)))
      else if dict_mem (st_complex t) (xf_type_name f) then let! s := schema_of_type (xf_type_name f) in Ok (Some s)
      else Ok None
  end.

Definition response_property (f : XSDField) : dict pyval :=
  let plain := typed_schema (_ir_type_for_xsd (xf_type_name f)) in
  if xf_repeated f then array_schema plain else [("type", VStr (_ir_type_for_xsd (xf_type_name f)))].
Definition _response_schema (fields : list XSDField) : option (dict pyval) :=
  match fields with
  | [] => None
  | _ => Some (object_schema (dict_of_list ((λ f, (xf_name f, VDict (response_property f))) <$> fields)) (required_names fields))
  end.

Definition _resolve_wsdl_fields (name : string) : list XSDField :=
  match dict_get (st_elements t) name with
  | Some fields => fields
  | None => default [] (dict_get (st_complex t) name)
  end.
End types.

(** ** Operations *)

Definition soap_risk (writes destructive : bool) (level : RiskLevel) (confidence : float) : RiskMetadata :=
  mk_risk (Some writes) (Some destructive) (Some writes) (Some (negb writes)) level confidence src_extractor.
Definition has_prefix (prefixes : list string) (s : string) : bool := existsb (λ p, startswith p s) prefixes.
Definition _risk_for_operation (operation_name : string) : RiskMetadata :=
  if has_prefix SAFE_OPERATION_PREFIXES operation_name then soap_risk false false safe high
  else if has_prefix DANGEROUS_OPERATION_PREFIXES operation_name then soap_risk true true dangerous high
  else soap_risk true false cautious 0x1.b333333333333p-1.

Definition _endpoint_path (base_url : string) : outcome exn string :=
  let! u := urlparse base_url in Ok (if str_truthy (path u) then path u else "/").

Definition SOAP_FAULT_SCHEMA : dict pyval :=
  object_of [("faultcode", typed_schema "string"); ("faultstring", typed_schema "string"); ("detail", typed_schema "object")]
  ++ [("required", vstrs ["faultcode"; "faultstring"])].

(** What [extract] gathers before it builds the operations *)
Record wsdl_service := mk_wsdl {
  ws_messages : dict string;
  ws_rpc_parts : dict (list XSDField);
  ws_types : schema_types;
  ws_actions : dict string;
  ws_body_uses : dict string;
  ws_namespace : string;
  ws_style : string;
}.

(** The fields of the message with the given name, and the name of its element *)
Definition message_element (w : wsdl_service) (message : string) : string :=
  if str_truthy message then default "" (dict_get (ws_messages w) message) else "".
Definition message_fields (w : wsdl_service) (message : string) : list XSDField :=
  if str_eqb (ws_style w) "rpc" then (if str_truthy message then default [] (dict_get (ws_rpc_parts w) message) else [])
  else let name := message_element w message in if str_truthy name then _resolve_wsdl_fields (ws_types w) name else [].
Definition request_element (w : wsdl_service) (operation_name message : string) : string :=
  if str_eqb (ws_style w) "rpc" then operation_name
  else let name := message_element w message in if str_truthy name then name else operation_name.

Definition field_param (t : schema_types) (f : XSDField) : outcome exn Param :=
  let! schema := _json_schema_for_field t f in
  Ok (extracted (xf_name f) (if xf_repeated f then "array" else _ir_type_for_xsd t (xf_type_name f)) (xf_required f) "" VNone schema 1).

(** The local name of the message of an operation's input or output *)
Definition message_of (tag : element) : string := _qname_local (attr_or tag "message" "").

Definition _build_operation (w : wsdl_service) (endpoint_path : string) (operation : element) : outcome exn Operation :=
  match named (attr operation "name") with
  | None => Raise (value_error "Encountered WSDL operation without a name.")
  | Some n =>
      match find_child (wsdl "input") operation with
      | None => Raise (value_error ("WSDL operation '" +:+ n +:+ "' has no <wsdl:input> child element."))
      | Some input =>
          let output := match find_child (wsdl "output") operation with Some o => message_of o | None => "" end in
          let output_element := message_element w output in
          let request := request_element w n (message_of input) in
          let action := dict_get (ws_actions w) n in
          let! params := traverse (field_param (ws_types w)) (message_fields w (message_of input)) in
          let contract := mk_soap (ws_namespace w) request (if str_truthy output_element then Some output_element else None) action "1.1"
                            (ws_style w) (default "literal" (dict_get (ws_body_uses w) n))
                            (default "qualified" (dict_get (st_forms (ws_types w)) request)) in
          Ok (mk_operation n (humanize_identifier n) ("SOAP operation " +:+ n +:+ ".") (Some "POST") (Some endpoint_path) params
                (_response_schema (ws_types w) (message_fields w output)) (default_error SOAP_FAULT_SCHEMA) [] (_risk_for_operation n)
                plain_strategy body_json None None None None None (Some contract) None None None ["soap"; "wsdl"; default "" action] None
                src_extractor 1 None true)
      end
  end.

(** The first service of a document, its port, binding and port type *)
Record wsdl_binding := mk_binding {
  wb_service : string;
  wb_port : element;
  wb_binding_name : string;
  wb_binding : element;
  wb_port_type_name : string;
  wb_port_type : element;
}.

(** The elements with a name, by name: the last one counts. *)
Definition by_name (l : list element) : dict element :=
  dict_of_list (omap (λ e, (λ n, (n, e)) <$> attr e "name") l).

Definition find_binding (root : element) : outcome exn wsdl_binding :=
  match findall (wsdl "service") root with
  | [] => Raise (value_error "No wsdl:service definitions found.")
  | service :: _ =>
      match find_child (wsdl "port") service with
      | None => Raise (value_error "WSDL service is missing a port definition.")
      | Some port =>
          let binding_name := _qname_local (attr_or port "binding" "") in
          match dict_get (by_name (findall (wsdl "binding") root)) binding_name with
          | None => Raise (value_error ("WSDL binding '" +:+ binding_name +:+ "' not found."))
          | Some binding =>
              let port_type_name := _qname_local (attr_or binding "type" "") in
              match dict_get (by_name (findall (wsdl "portType") root)) port_type_name with
              | None => Raise (value_error ("WSDL portType '" +:+ port_type_name +:+ "' not found."))
              | Some port_type =>
                  Ok (mk_binding (attr_or service "name" (attr_or root "name" "soap-service")) port binding_name binding
                        port_type_name port_type)
              end
          end
      end
  end.

Definition soap_base_url (b : wsdl_binding) (source_url : option string) : string :=
  match named_or (match find_child (soap "address") (wb_port b) with Some a => attr a "location" | None => None end) source_url with
  | Some url => url
  | None => "https://" +:+ slugify_camel (wb_service b)
  end.

Definition gather (root : element) (b : wsdl_binding) : outcome exn wsdl_service :=
  let style := _binding_style (wb_binding b) in
  if one_of style ["document"; "rpc"] then
    Ok (mk_wsdl (_parse_messages root) (if str_eqb style "rpc" then _parse_rpc_message_parts root else []) (_parse_schema_types root)
          (_parse_soap_actions (wb_binding b)) (_parse_body_uses (wb_binding b)) (attr_or root "targetNamespace" "") style)
  else Raise (value_error ("Unsupported SOAP binding style: '" +:+ style +:+ "'")).

(** [extract] after the content is read and parsed *)
Definition soap_description (root : element) (source_url : option string) (source_hash : string) (now : Z) : outcome exn ServiceIR :=
  if negb (str_eqb (local_name (el_tag root)) "definitions")
  then Raise (value_error "SOAP extractor requires a WSDL definitions document.")
  else
    let! b := find_binding root in
    let! w := gather root b in
    let! operations := traverse (λ o, let! p := _endpoint_path (soap_base_url b source_url) in _build_operation w p o)
                         (findall (wsdl "operation") (wb_port_type b)) in
    describe "soap" (slugify_camel (wb_service b)) ("SOAP service extracted from WSDL service " +:+ wb_service b +:+ ".")
      (soap_base_url b source_url) (plain_auth no_auth) source_url source_hash operations []
      [("wsdl_target_namespace", VStr (ws_namespace w)); ("wsdl_service", VStr (wb_service b));
       ("wsdl_port", VStr (attr_or (wb_port b) "name" "")); ("wsdl_port_type", VStr (wb_port_type_name b));
       ("wsdl_binding", VStr (wb_binding_name b)); ("soap_actions", VDict ((λ kv, (kv.1, VStr kv.2)) <$> ws_actions w))] now.

Section extractor.
Context {W : Type} (read_text : string → comp W exn string) (httpx_get : string → dict string → comp W exn response).
(** [ET.fromstring]: nothing for a malformed document; [sha256_hex] and the clock *)
Context (parse_xml : string → option element) (sha256_hex : string → string) (now : W → Z).

Definition soap_extract (source : SourceConfig) : comp W exn ServiceIR :=
  content <- get_content read_text httpx_get source ;;
  match content with
  | None => raise (value_error "Could not read source content")
  | Some text =>
      match parse_xml text with
      | None => raise (mk_exn "ParseError" "" [])
      | Some root => t <- gets now ;; answer (soap_description root (sc_url source) (compute_content_hash sha256_hex text) t)
      end
  end.

Definition _looks_like_wsdl (content : string) : bool :=
  match parse_xml content with
  | None => false
  | Some root =>
      str_eqb (local_name (el_tag root)) "definitions"
      && ((str_contains WSDL_NS (el_tag root) || existsb (λ kv, str_eqb kv.2 WSDL_NS) (el_attrib root))
          || (match find_child (wsdl "message") root, find_child (wsdl "service") root with Some _, Some _ => true | _, _ => false end))
  end.

Definition soap_detect (source : SourceConfig) : comp W exn float :=
  content <- get_content read_text httpx_get source ;;
  ret match content with
      | None => 0%float
      | Some text =>
          let path := lower (default "" (named_or (sc_file_path source) (sc_url source))) in
          if endswith ".wsdl" path && _looks_like_wsdl text then 0x1.f5c28f5c28f5cp-1%float
          else if _looks_like_wsdl text then 0x1.e666666666666p-1%float
          else if str_contains "soap:address" text && str_contains "wsdl:definitions" text then 0x1.6666666666666p-1%float
          else 0%float
      end.

Definition SOAPWSDLExtractor : ExtractorProtocol W := mk_extractor "soap" soap_detect soap_extract None.
End extractor.

(** ** Schemas of complex types *)

Section schemas.
Context (t : schema_types).
Abbreviation to_schema := (_complex_type_to_schema t).
Abbreviation types := (dict_keys (st_complex t)).
Implicit Types (rec : list string → string → outcome exn (list string * dict pyval)).

(** A call that answers and forgets nothing it has seen *)
Definition answers rec (n : nat) : Prop :=
  ∀ seen k, dict_mem (st_complex t) k = true → (unseen types seen < n)%nat → ∃ seen' s, rec seen k = Ok (seen', s) ∧ seen ⊆ seen'.

Lemma field_answers rec n seen f : answers rec n → (unseen types seen < n)%nat →
  ∃ seen' s, field_schema t rec seen f = Ok (seen', s) ∧ seen ⊆ seen'.
Proof.
  intros Hr Hn. unfold field_schema.
  assert (∃ seen1 p, match dict_get (st_enums t) (xf_type_name f) with
    | Some values => Ok (seen, enum_schema t (xf_type_name f) values)
    | None => if dict_mem (st_complex t) (xf_type_name f) then rec seen (xf_type_name f)
              else Ok (seen, [("type", VStr (_ir_type_for_xsd t (xf_type_name f)))])
    end = Ok (seen1, p) ∧ seen ⊆ seen1) as (seen1 & p & -> & H1).
  { destruct (dict_get (st_enums t) _); [by eexists _, _|]. destruct (dict_mem _ _) eqn:E; [by apply Hr|by eexists _, _]. }
  cbn [obind]. destruct (xf_repeated f); [|by eexists _, _]. destruct (dict_mem _ _) eqn:E; [|by eexists _, _].
  destruct (Hr seen1 _ E) as (seen2 & s & -> & H2); [apply (unseen_mono types) in H1; lia|]. eexists _, _. split; [done|set_solver].
Qed.

Lemma fields_answer rec n fields seen props : answers rec n → (unseen types seen < n)%nat →
  ∃ seen' s, fold_outcome (add_field_schema t rec) (seen, props) fields = Ok (seen', s) ∧ seen ⊆ seen'.
Proof.
  intros Hr. revert seen props. induction fields as [|f fields IH]; intros seen props Hn; [by eexists _, _|].
  cbn [fold_outcome]. unfold add_field_schema at 1. cbn [fst snd]. destruct (field_answers rec n seen f Hr Hn) as (seen1 & s & -> & H1).
  cbn [obind]. destruct (IH seen1 (dict_set props (xf_name f) (VDict s))) as (seen2 & s2 & -> & H2); [apply (unseen_mono types) in H1; lia|].
  eexists _, _. split; [done|set_solver].
Qed.

Lemma to_schema_answers fuel : answers (to_schema fuel) fuel.
Proof.
  induction fuel as [|fuel IH]; intros seen k Hk Hn; [lia|]. cbn [_complex_type_to_schema]. unfold one_of.
  case_bool_decide as Hs; [by eexists _, _|].
  pose proof (unseen_fewer types seen k (dict_mem_key _ _ Hk) Hs) as Hless.
  destruct (fields_answer (to_schema fuel) fuel (default [] (dict_get (st_complex t) k)) (k :: seen) []) as (seen' & s & -> & Hsub);
    [done|lia|]. eexists _, _. split; [done|set_solver].
Qed.

Lemma schema_of_type_total k : dict_mem (st_complex t) k = true → ∃ s, schema_of_type t k = Ok s.
Proof.
  intros Hk. unfold schema_of_type. destruct (to_schema_answers (S (length (st_complex t))) [] k Hk) as (seen' & s & -> & _).
  { pose proof (unseen_all types []) as H. unfold dict_keys in H at 2. rewrite length_fmap in H. lia. } by exists s.
Qed.

Lemma json_schema_total f : ∃ s, _json_schema_for_field t f = Ok s.
Proof.
  unfold _json_schema_for_field. destruct (dict_get (st_enums t) _); [by eexists|].
  destruct (xf_repeated f), (dict_mem (st_complex t) (xf_type_name f)) eqn:E; rewrite ?andb_true_r, ?andb_false_r;
    try destruct (str_eqb _ _); try by eexists.
  all: destruct (schema_of_type_total _ E) as [s ->]; by eexists.
Qed.
End schemas.

(** ** What a schema says of a type *)

Section described.
Context (t : schema_types).
Abbreviation fields_of := (λ k, default [] (dict_get (st_complex t) k)).

(** A type is described by the fields it has, in their order, or, where it was
    described before, as a bare object; a field by its listed values, its scalar
    type or its own complex type, and a repeated one by an array of them. *)
Inductive described_type : string → dict pyval → Prop :=
| dt_bare k : described_type k bare_object
| dt_fields k l : Forall2 (λ f kv, kv.1 = xf_name f ∧ ∃ s, kv.2 = VDict s ∧ described_field f s) (fields_of k) l →
    described_type k (object_schema (dict_of_list l) (required_names (fields_of k)))
with described_field : XSDField → dict pyval → Prop :=
| df_one f s : xf_repeated f = false → described_value (xf_type_name f) s → described_field f s
| df_many f s : xf_repeated f = true → described_value (xf_type_name f) s → described_field f (array_schema (VDict s))
with described_value : string → dict pyval → Prop :=
| dv_listed k values : dict_get (st_enums t) k = Some values → described_value k (enum_schema t k values)
| dv_scalar k : dict_mem (st_complex t) k = false → described_value k [("type", VStr (_ir_type_for_xsd t k))]
| dv_complex k s : dict_mem (st_complex t) k = true → described_type k s → described_value k s.

(** Described by its fields *)
Definition spelled_out (k : string) (s : dict pyval) : Prop :=
  ∃ l, Forall2 (λ f kv, kv.1 = xf_name f ∧ ∃ s, kv.2 = VDict s ∧ described_field f s) (fields_of k) l ∧
    s = object_schema (dict_of_list l) (required_names (fields_of k)).

Lemma spelled_described k s : spelled_out k s → described_type k s.
Proof. intros (l & Hl & ->). by constructor. Qed.

Definition describing (rec : list string → string → outcome exn (list string * dict pyval)) : Prop :=
  ∀ seen k seen' s, rec seen k = Ok (seen', s) → described_type k s.

Lemma field_described rec seen f seen' s : describing rec → field_schema t rec seen f = Ok (seen', s) → described_field f s.
Proof.
  intros Hr H. unfold field_schema in H. apply obind_ok in H as ([seen1 p] & H1 & H2).
  destruct (xf_repeated f) eqn:Er.
  - clear H1. destruct (dict_mem _ _) eqn:Ec.
    + apply obind_ok in H2 as ([seen2 s2] & H2 & H). injection H as <- <-. apply df_many; [done|]. apply dv_complex; [done|]. by eapply Hr.
    + injection H2 as <- <-. apply df_many; [done|]. by apply dv_scalar.
  - injection H2 as <- <-. apply df_one; [done|]. destruct (dict_get _ _) as [values|] eqn:Ee; [injection H1 as <- <-; by apply dv_listed|].
    destruct (dict_mem _ _) eqn:Ec; [apply dv_complex; [done|]; by eapply Hr|]. injection H1 as <- <-. by apply dv_scalar.
Qed.

Lemma fields_described rec fields seen props seen' props' : describing rec →
  fold_outcome (add_field_schema t rec) (seen, props) fields = Ok (seen', props') →
  ∃ l, Forall2 (λ f kv, kv.1 = xf_name f ∧ ∃ s, kv.2 = VDict s ∧ described_field f s) fields l ∧ props' = dict_update props l.
Proof.
  intros Hr. revert seen props. induction fields as [|f fields IH]; intros seen props H.
  - injection H as <- <-. exists []. by split.
  - cbn [fold_outcome] in H. apply obind_ok in H as ([seen1 props1] & H1 & H). unfold add_field_schema in H1.
    apply obind_ok in H1 as ([seen2 s] & Hs & H1). injection H1 as <- <-. apply IH in H as (l & Hl & ->).
    exists ((xf_name f, VDict s) :: l). split; [|done]. constructor; [|done]. split; [done|]. exists s. split; [done|].
    by eapply field_described.
Qed.

Lemma to_schema_describes fuel seen k seen' s : _complex_type_to_schema t fuel seen k = Ok (seen', s) →
  described_type k s ∧ (k ∉ seen → spelled_out k s).
Proof.
  revert seen k seen' s. induction fuel as [|fuel IH]; intros seen k seen' s H; [done|]. cbn [_complex_type_to_schema] in H.
  unfold one_of in H. case_bool_decide as Hs.
  - injection H as <- <-. split; [constructor|done].
  - apply obind_ok in H as ([seen1 props] & Hf & H). injection H as <- <-.
    apply fields_described in Hf as (l & Hl & ->); [|intros ???? Hk; by apply IH in Hk as [? _]].
    assert (spelled_out k (object_schema (dict_update [] l) (required_names (fields_of k)))) as Hk by by exists l.
    split; [by apply spelled_described|done].
Qed.

Lemma schema_of_type_spelled k s : schema_of_type t k = Ok s → spelled_out k s.
Proof.
  intros H. apply obind_ok in H as ([seen' s'] & H & E). injection E as <-. apply to_schema_describes in H as [_ H].
  apply H. by intros ?%elem_of_nil.
Qed.

(** What a parameter says of the field it is made of *)
Record param_of (f : XSDField) (p : Param) : Prop := {
  po_name : pa_name p = xf_name f;
  po_required : pa_required p = xf_required f;
  po_type : pa_type p = if xf_repeated f then "array" else _ir_type_for_xsd t (xf_type_name f);
  po_listed : ∀ values, dict_get (st_enums t) (xf_type_name f) = Some values →
    ∃ s, pa_json_schema p = Some s ∧ dict_get s "enum" = Some (vstrs values);
  po_complex : dict_get (st_enums t) (xf_type_name f) = None → dict_mem (st_complex t) (xf_type_name f) = true →
    _ir_type_for_xsd t (xf_type_name f) = "object" →
    ∃ s, spelled_out (xf_type_name f) s ∧ pa_json_schema p = Some (if xf_repeated f then array_schema (VDict s) else s);
}.

Lemma field_param_of f p : field_param t f = Ok p → param_of f p.
Proof.
  unfold field_param. intros H. apply obind_ok in H as (schema & Hs & H). injection H as <-.
  split; [done|done|done| |]; cbn [pa_json_schema extracted]; unfold _json_schema_for_field in Hs.
  - intros values Hv. rewrite Hv in Hs. injection Hs as <-. by eexists.
  - intros Hn Hc Ho. rewrite Hn, Hc, Ho in Hs. cbn [andb] in Hs.
    destruct (xf_repeated f); apply obind_ok in Hs as (s & Hs & E); injection E as <-; exists s;
      (split; [by apply schema_of_type_spelled|done]).
Qed.

Lemma field_param_total f : ∃ p, field_param t f = Ok p.
Proof. unfold field_param. destruct (json_schema_total t f) as [s ->]. by eexists. Qed.
End described.

(** ** What an operation says *)

(** The element of a request holds exactly the arguments. *)
Lemma envelope_carries repr parse_float c args : args ≠ [] → dict_wf args →
  Forall (λ kv, xml_name kv.1 ∧ soap_field repr parse_float kv.2) args →
  ∃ body request, _soap_body_element (soap_envelope repr c args) = Some body ∧ xml_children body = [request] ∧
    xml_tag request = "{" +:+ so_target_namespace c +:+ "}" +:+ _sanitize_xml_name (so_request_element c) ∧
    _xml_element_to_value parse_float request = VDict args.
Proof.
  intros Hne Hwf Hf. unfold soap_envelope. set (ns := if str_eqb (so_child_element_form c) "qualified" then _ else _).
  eexists _, _. split; [reflexivity|]. split; [reflexivity|]. split; [reflexivity|].
  apply (object_decodes repr parse_float ns); [done|done|done|]. apply Forall_forall. intros kv _. apply value_reads_back.
Qed.

Lemma prefixes_disjoint n : has_prefix SAFE_OPERATION_PREFIXES n = true → has_prefix DANGEROUS_OPERATION_PREFIXES n = false.
Proof.
  unfold has_prefix. rewrite existsb_exists. intros (p & Hp & (s & ->)%startswith_true). apply list_elem_of_In in Hp.
  unfold SAFE_OPERATION_PREFIXES in Hp. rewrite !elem_of_cons, elem_of_nil in Hp.
  destruct Hp as [->|[->|[->|[->|[->|[->|[]]]]]]]; reflexivity.
Qed.

Section operation.
Context (w : wsdl_service) (endpoint : string).

(** The operation made of a WSDL operation *)
Record soap_call (el : element) (o : Operation) : Prop := {
  sc_named : named (attr el "name") = Some (op_id o);
  sc_posted : op_method o = Some "POST" ∧ op_path o = Some endpoint;
  sc_params : ∃ input, find_child (wsdl "input") el = Some input ∧
    Forall2 (param_of (ws_types w)) (message_fields w (message_of input)) (op_params o);
  sc_risk : (rm_writes_state (op_risk o) = Some false ↔ has_prefix SAFE_OPERATION_PREFIXES (op_id o) = true) ∧
    (rm_destructive (op_risk o) = Some true ↔ has_prefix DANGEROUS_OPERATION_PREFIXES (op_id o) = true) ∧
    rm_risk_level (op_risk o) ≠ unknown;
  sc_contract : ∃ c, op_soap o = Some c ∧ so_target_namespace c = ws_namespace w ∧ so_binding_style c = ws_style w ∧
    so_soap_action c = dict_get (ws_actions w) (op_id o) ∧
    (ws_style w = "rpc" → so_request_element c = op_id o);
}.

Lemma build_operation_call el o : _build_operation w endpoint el = Ok o → soap_call el o.
Proof.
  unfold _build_operation. destruct (named (attr el "name")) as [n|] eqn:En; [|done].
  destruct (find_child (wsdl "input") el) as [input|] eqn:Ei; [|done]. intros H. apply obind_ok in H as (params & Hp & H).
  injection H as <-. cbn. split; cbn [op_id op_method op_path op_params op_risk op_soap].
  - done.
  - done.
  - exists input. split; [done|]. apply traverse_ok in Hp. eapply Forall2_impl; [exact Hp|]. intros f p. apply field_param_of.
  - pose proof (prefixes_disjoint n). unfold _risk_for_operation. destruct (has_prefix SAFE_OPERATION_PREFIXES n) eqn:Es.
    + rewrite H by done. cbn. naive_solver.
    + destruct (has_prefix DANGEROUS_OPERATION_PREFIXES n); cbn; naive_solver.
  - eexists. split; [done|]. split_and!; [done|done|done|]. intros Hs. cbn. unfold request_element. by rewrite Hs.
Qed.
End operation.

(** ** Well-formed documents are described *)

Definition named_fields (fields : list XSDField) : Prop := Forall (λ f, xf_name f ≠ "") fields.
Definition known_form (form : string) : Prop := one_of form ["qualified"; "unqualified"] = true.

Lemma parse_field_named e f : parse_field e = Some f → xf_name f ≠ "".
Proof. unfold parse_field. destruct (named _) as [n|] eqn:E; [|done]. intros [= <-]. by apply named_Some in E as [_ ?]. Qed.
Lemma parse_part_named e f : parse_part e = Some f → xf_name f ≠ "".
Proof.
  unfold parse_part. destruct (named (attr e "name")) as [n|] eqn:E; [|done]. destruct (named_or _ _); [|done].
  intros [= <-]. by apply named_Some in E as [_ ?].
Qed.

Lemma omap_named (parse : element → option XSDField) l : (∀ e f, parse e = Some f → xf_name f ≠ "") → named_fields (omap parse l).
Proof. intros Hp. apply Forall_forall. intros f (e & _ & He)%list_elem_of_omap. by eapply Hp. Qed.

Lemma xsd_fields_named e : named_fields (_extract_xsd_fields e).
Proof. unfold _extract_xsd_fields. destruct (find_child _ e); [apply omap_named, parse_field_named|by constructor]. Qed.

(** What the parsed types always hold *)
Record types_wf (t : schema_types) : Prop := {
  tw_elements : Forall (λ kv, named_fields kv.2) (st_elements t);
  tw_complex : Forall (λ kv, named_fields kv.2) (st_complex t);
  tw_forms : Forall (λ kv, known_form kv.2) (st_forms t);
}.

Lemma simple_type_wf t e : types_wf t → types_wf (add_simple_type t e).
Proof. intros [He Hc Hf]. unfold add_simple_type. by repeat case_match. Qed.
Lemma complex_type_wf form t e : known_form form → types_wf t → types_wf (add_complex_type form t e).
Proof.
  intros Hform [He Hc Hf]. unfold add_complex_type. destruct (named _); [|done].
  split; cbn; [done|by apply values_set, xsd_fields_named|by apply values_set].
Qed.
Lemma element_fields_named t e fields : types_wf t → element_fields t e = Some fields → named_fields fields.
Proof.
  intros [_ Hc _]. unfold element_fields. destruct (if str_truthy _ then _ else _) as [fs|] eqn:E.
  - intros [= <-]. destruct (str_truthy _); [by eapply (values_get named_fields)|done].
  - destruct (find_child _ e); [|done]. intros [= <-]. apply xsd_fields_named.
Qed.
Lemma element_wf form t e : known_form form → types_wf t → types_wf (add_element form t e).
Proof.
  intros Hform Ht. pose proof Ht as [He Hc Hf]. unfold add_element. destruct (named _); [|done]. split; cbn; [|done|by apply values_set].
  destruct (element_fields t e) eqn:E; [|done]. apply values_set; [done|]. by eapply element_fields_named.
Qed.

Lemma schema_types_wf root : types_wf (_parse_schema_types root).
Proof.
  unfold _parse_schema_types. apply foldl_keeps; [by split|]. intros t schema _ Ht. unfold add_schema.
  assert (known_form (_schema_child_element_form schema)) as Hform by (unfold _schema_child_element_form; by case_match).
  repeat (apply foldl_keeps); [done|..]; intros t' e _; [apply simple_type_wf|by apply complex_type_wf|by apply element_wf].
Qed.

Record service_gathered (w : wsdl_service) : Prop := {
  sg_types : types_wf (ws_types w);
  sg_parts : Forall (λ kv, named_fields kv.2) (ws_rpc_parts w);
  sg_style : one_of (ws_style w) ["document"; "rpc"] = true;
}.

Lemma gathered root b w : gather root b = Ok w → service_gathered w.
Proof.
  unfold gather. destruct (one_of _ _) eqn:Es; [|done]. intros [= <-]. split; cbn [ws_types ws_rpc_parts ws_style].
  - apply schema_types_wf.
  - destruct (str_eqb _ _); [|by constructor]. apply values_of_list, Forall_forall. intros kv (m & _ & Hm)%list_elem_of_omap.
    destruct (named _); [|done]. injection Hm as <-. apply omap_named, parse_part_named.
  - done.
Qed.

Lemma message_fields_named w m : service_gathered w → named_fields (message_fields w m).
Proof.
  intros [[He Hc _] Hp _]. unfold message_fields, _resolve_wsdl_fields. destruct (str_eqb _ _); destruct (str_truthy _); try by constructor.
  - destruct (dict_get (ws_rpc_parts w) m) eqn:E; [exact (values_get named_fields _ _ _ Hp E)|by constructor].
  - destruct (dict_get (st_elements _) _) eqn:E; [exact (values_get named_fields _ _ _ He E)|].
    destruct (dict_get (st_complex _) _) eqn:E'; [exact (values_get named_fields _ _ _ Hc E')|by constructor].
Qed.

(** An operation the extractor accepts *)
Record acceptable (w : wsdl_service) (el : element) : Prop := {
  ac_name : ∃ n, named (attr el "name") = Some n ∧ humanize_identifier n ≠ "" ∧
    one_of (default "literal" (dict_get (ws_body_uses w) n)) ["literal"; "encoded"] = true;
  ac_input : is_Some (find_child (wsdl "input") el);
}.

Lemma request_element_nonempty w n m : n ≠ "" → request_element w n m ≠ "".
Proof.
  intros Hn. unfold request_element. destruct (str_eqb _ _); [done|]. destruct (str_truthy _) eqn:E; [by apply str_truthy_iff|done].
Qed.

Lemma acceptable_built w endpoint el : service_gathered w → ws_namespace w ≠ "" → acceptable w el →
  ∃ o, _build_operation w endpoint el = Ok o ∧ validate_Operation o = Ok o ∧ attr el "name" = Some (op_id o).
Proof.
  intros Hw Hns [(n & En & Hh & Hu) [input Hi]]. unfold _build_operation. rewrite En, Hi.
  destruct (traverse_total (λ f p, param_of (ws_types w) f p ∧ validate_Param p = Ok tt) (field_param (ws_types w))
              (message_fields w (message_of input))) as (params & -> & Hp).
  { eapply Forall_impl; [by apply message_fields_named|]. intros f Hf. destruct (field_param_total (ws_types w) f) as [p Hp].
    exists p. split; [done|]. split; [by apply field_param_of|]. unfold field_param in Hp. apply obind_ok in Hp as (s & _ & H). injection H as <-.
    apply str_truthy_iff in Hf. unfold validate_Param, Param_fields, build. cbn [pa_name pa_confidence extracted]. by rewrite Hf. }
  eexists. split; [reflexivity|]. apply named_Some in En as [En Hn]. split; [|by rewrite En]. apply validate_operation_eq.
  set (o := mk_operation _ _ _ _ _ _ _ _ _ _ _ _ _ _ _ _ _ _ _ _ _ _ _ _ _ _ _).
  assert (unknown_risk_must_be_disabled o = o) as ->.
  { unfold unknown_risk_must_be_disabled, o. cbn [op_risk]. unfold _risk_for_operation. by repeat case_match. }
  split_and!; [done| |done]. unfold operation_parts. apply in_order_ok, Forall_app. split.
  - apply Forall_map. unfold o. cbn [op_params]. clear -Hp. induction Hp as [|f p fs ps [_ Hp] _ IH]; by constructor.
  - repeat (apply Forall_cons; split; [done|]); apply Forall_singleton.
    assert (Operation_fields o = true) as Hf; [|unfold build; by rewrite Hf].
    unfold Operation_fields, o. cbn [op_id op_name op_confidence op_response_examples op_risk op_response_strategy op_graphql
      op_grpc_unary op_soap op_jsonrpc op_cli op_pagination op_sla opt_all]. unfold SoapOperationConfig_fields.
    cbn [so_target_namespace so_request_element so_soap_version so_binding_style so_body_use so_child_element_form].
    assert (RiskMetadata_fields (_risk_for_operation n) = true) as -> by (unfold _risk_for_operation; by repeat case_match).
    pose proof (request_element_nonempty w n (message_of input) Hn) as Hr. destruct Hw as [[_ _ Hforms] _ Hs].
    assert (known_form (default "qualified" (dict_get (st_forms (ws_types w)) (request_element w n (message_of input))))) as Hform.
    { destruct (dict_get (st_forms _) _) eqn:E; [by eapply (values_get known_form)|done]. }
    unfold known_form in Hform. apply str_truthy_iff in Hn, Hns, Hr, Hh. rewrite Hn, Hns, Hr, Hh, Hu, Hs, Hform. reflexivity.
Qed.

(** A document the extractor describes *)
Definition well_formed_wsdl (root : element) (source_url : option string) : Prop :=
  local_name (el_tag root) = "definitions" ∧
  ∃ b w u, find_binding root = Ok b ∧ gather root b = Ok w ∧ ws_namespace w ≠ "" ∧ urlparse (soap_base_url b source_url) = Ok u ∧
    Forall (acceptable w) (findall (wsdl "operation") (wb_port_type b)) ∧
    NoDup ((λ el, attr el "name") <$> findall (wsdl "operation") (wb_port_type b)).

Lemma soap_described root source_url source_hash now : well_formed_wsdl root source_url →
  ∃ ir, soap_description root source_url source_hash now = Ok ir.
Proof.
  intros (Ht & b & w & u & Hb & Hw & Hns & Hu & Hops & Hnd). unfold soap_description. rewrite Ht, Hb. cbn [negb str_eqb obind].
  rewrite str_eqb_refl. cbn [negb obind]. rewrite Hw. cbn [obind]. pose proof (gathered _ _ _ Hw) as Hg.
  set (endpoint := if str_truthy (path u) then path u else "/").
  assert (_endpoint_path (soap_base_url b source_url) = Ok endpoint) as He by (unfold _endpoint_path; by rewrite Hu).
  destruct (traverse_total (λ el o, validate_Operation o = Ok o ∧ attr el "name" = Some (op_id o))
    (λ o, let! p := _endpoint_path (soap_base_url b source_url) in _build_operation w p o)
    (findall (wsdl "operation") (wb_port_type b))) as (ops & -> & Ho).
  { eapply Forall_impl; [exact Hops|]. intros el Hel. rewrite He. by apply acceptable_built. }
  cbn [obind]. edestruct describe_total as (ir & H & _); [apply slugify_nonempty| | |exists ir; exact H].
  - clear -Ho. induction Ho as [|el o els os [Hv _] _ IH]; by constructor.
  - assert ((λ el, attr el "name") <$> findall (wsdl "operation") (wb_port_type b) = Some <$> (op_id <$> ops)) as E.
    { clear -Ho. induction Ho as [|el o els os [_ Hn] _ IH]; [done|]. cbn [fmap list_fmap]. by rewrite Hn, IH. }
    rewrite E in Hnd. by apply NoDup_fmap in Hnd; [|intros ?? [=]].
Qed.

(** A SOAP service becomes the operations of its binding.  A description made of
    a WSDL document is valid and has exactly one operation for each operation of
    the port type its first service is bound to, in order: posted to the service's
    endpoint under the document's namespace with the binding's style and action,
    with the fields of its request as parameters and complex types spelled out,
    writing unless its name says that it reads, and destructive only if its name
    says so.  The element of a request that the runtime makes for such an operation
    holds exactly the call's arguments.  Every well-formed document, recursive types
    included, is described. *)
Theorem soap_extraction root source_url source_hash now :
  (∀ ir, soap_description root source_url source_hash now = Ok ir →
    valid_description "soap" ir ∧
    ∃ b w endpoint, find_binding root = Ok b ∧ gather root b = Ok w ∧ ir_base_url ir = soap_base_url b source_url ∧
      Forall2 (soap_call w endpoint) (findall (wsdl "operation") (wb_port_type b)) (ir_operations ir) ∧
      ∀ o c repr parse_float args, o ∈ ir_operations ir → op_soap o = Some c → args ≠ [] → dict_wf args →
        Forall (λ kv, xml_name kv.1 ∧ soap_field repr parse_float kv.2) args →
        ∃ body request, _soap_body_element (soap_envelope repr c args) = Some body ∧ xml_children body = [request] ∧
          xml_tag request = "{" +:+ ws_namespace w +:+ "}" +:+ _sanitize_xml_name (so_request_element c) ∧
          _xml_element_to_value parse_float request = VDict args)
  ∧ (well_formed_wsdl root source_url → ∃ ir, soap_description root source_url source_hash now = Ok ir).
Proof.
  split; [|by apply soap_described]. intros ir H. unfold soap_description in H. destruct (negb _); [done|].
  apply obind_ok in H as (b & Hb & H). apply obind_ok in H as (w & Hw & H). apply obind_ok in H as (ops & Ho & H).
  split; [by eapply describe_valid|]. pose proof (describe_fields _ _ _ _ _ _ _ _ _ _ _ _ H) as (_ & Hurl & _).
  assert (∃ endpoint, Forall2 (soap_call w endpoint) (findall (wsdl "operation") (wb_port_type b)) ops) as [endpoint Hc].
  { apply traverse_ok in Ho. unfold _endpoint_path in Ho. destruct (urlparse (soap_base_url b source_url)) as [u|e].
    - exists (if str_truthy (path u) then path u else "/"). eapply Forall2_impl; [exact Ho|]. intros el o. apply build_operation_call.
    - exists "". destruct Ho; [by constructor|done]. }
  assert (Forall (λ o, rm_risk_level (op_risk o) ≠ unknown) ops) as Hk.
  { clear -Hc. induction Hc as [|el o els os [_ _ _ (_ & _ & Hr) _] _ IH]; by constructor. }
  destruct (described_operations _ _ _ _ _ _ _ _ _ _ _ _ H Hk) as [Eops _]. exists b, w, endpoint. rewrite Eops. split_and!; [done..|].
  intros o c repr parse_float args Hin Hs Hne Hwf Hf. destruct (envelope_carries repr parse_float c args Hne Hwf Hf) as (body & rq & Hbody & Hch & Ht & Hd).
  exists body, rq. split_and!; [done|done| |done]. rewrite Ht. apply list_elem_of_lookup in Hin as [i Hi].
  destruct (Forall2_lookup_r _ _ _ _ _ Hc Hi) as (el & _ & [_ _ _ _ (c' & Hc' & Hn & _)]). rewrite Hs in Hc'. injection Hc' as <-. by rewrite Hn.
Qed.

#[global] Instance soap_extracts {W} read_text httpx_get parse_xml sha256_hex (now : W → Z) :
  Extracts (SOAPWSDLExtractor read_text httpx_get parse_xml sha256_hex now).
Proof.
  intros source w ir w' H. cbn in H. unfold soap_extract in H. mbind H raw w1 H1. destruct raw as [text|]; [|done].
  destruct (parse_xml text) as [root|]; [|done]. mbind H t w3 H3.
  apply answer_ok in H as [H _]. unfold soap_description in H. destruct (negb _); [done|].
  do 3 (apply obind_ok in H as (? & _ & H)). by eapply describe_valid.
Qed.

(** ** Worked documents *)

Definition node (tag : string) (attrib : dict string) (children : list element) : element := Element tag attrib None children.
Definition field_node (name type max : string) : element :=
  node (xsd "element") [("name", name); ("type", type); ("maxOccurs", max)] [].
Definition complex_node (name : string) (fields : list element) : element :=
  node (xsd "complexType") [("name", name)] [node (xsd "sequence") [] fields].

(** Orders hold lines; a line holds its parts, which are lines, and a priority. *)
Definition order_schema (types elements : list element) : element :=
  node (xsd "schema") [("elementFormDefault", "qualified")] (types ++ elements).
Definition order_types : list element := [
  node (xsd "simpleType") [("name", "Priority")] [node (xsd "restriction") [("base", "xsd:string")]
    [node (xsd "enumeration") [("value", "high")] []; node (xsd "enumeration") [("value", "low")] []]];
  complex_node "Line" [field_node "sku" "xsd:string" "1"; field_node "parts" "tns:Line" "unbounded"; field_node "priority" "tns:Priority" "1"];
  complex_node "Order" [field_node "lines" "tns:Line" "unbounded"; field_node "main" "tns:Line" "1"; field_node "urgent" "tns:Priority" "unbounded"]].
Definition order_elements : list element := [node (xsd "element") [("name", "PlaceOrder"); ("type", "tns:Order")] []].

Definition orders_wsdl (style : string) (schemas : list element) (operations : list string) : element :=
  node (wsdl "definitions") [("targetNamespace", "urn:orders")] [
    node (wsdl "types") [] schemas;
    node (wsdl "message") [("name", "PlaceOrderIn")] [node (wsdl "part") [("name", "parameters"); ("element", "tns:PlaceOrder")] []];
    node (wsdl "portType") [("name", "Orders")]
      ((λ n, node (wsdl "operation") [("name", n)] [node (wsdl "input") [("message", "tns:PlaceOrderIn")] []]) <$> operations);
    node (wsdl "binding") [("name", "OrdersBinding"); ("type", "tns:Orders")] (node (soap "binding") [("style", style)] [] ::
      ((λ n, node (wsdl "operation") [("name", n)] [node (soap "operation") [("soapAction", "urn:orders#" +:+ n)] []]) <$> operations));
    node (wsdl "service") [("name", "OrderService")] [node (wsdl "port") [("name", "p"); ("binding", "tns:OrdersBinding")]
      [node (soap "address") [("location", "https://orders.example/soap")] []]]].

Definition orders_document : element := orders_wsdl "document" [order_schema order_types order_elements] ["PlaceOrder"; "GetOrder"; "CancelOrder"].

Definition described_params (root : element) : option (list (list (string * string))) :=
  match soap_description root None "h" 0 with
  | Ok ir => Some ((λ o, (λ p, (pa_name p, pa_type p)) <$> op_params o) <$> ir_operations ir)
  | Raise _ => None
  end.

(** A repeated nested field loses its items, and so does a second field of a type:
    the set of the types seen, meant to stop recursion, is shared by the calls. *)
Example nested_items_are_bare : schema_of_type (_parse_schema_types (orders_wsdl "document" [order_schema order_types []] [])) "Order"
  = Ok (object_schema [("lines", VDict (array_schema (VDict bare_object))); ("main", VDict bare_object);
                       ("urgent", VDict (array_schema (typed_schema "string")))] ["lines"; "main"; "urgent"]).
Proof. vm_compute. reflexivity. Qed.

(** A repeated field of listed values is an array whose schema is that of one value. *)
Example repeated_listed_value :
  let t := _parse_schema_types orders_document in
  (λ p, (pa_type p, pa_json_schema p)) <$> match field_param t (mk_field "urgent" "Priority" true true) with Ok p => Some p | _ => None end
  = Some ("array", Some [("type", VStr "string"); ("enum", vstrs ["high"; "low"])]).
Proof. vm_compute. reflexivity. Qed.

(** An element whose type is declared in a later schema has no fields. *)
Example later_schema_not_seen :
  described_params (orders_wsdl "document" [order_schema [] order_elements; order_schema order_types []] ["PlaceOrder"]) = Some [[]]
  ∧ described_params (orders_wsdl "document" [order_schema order_types []; order_schema [] order_elements] ["PlaceOrder"])
    = Some [[("lines", "array"); ("main", "object"); ("urgent", "array")]].
Proof. split; vm_compute; reflexivity. Qed.

(** Overloaded operations, which WSDL 1.1 allows, are refused. *)
Example overloads_refused : described_params (orders_wsdl "document" [] ["GetOrder"; "GetOrder"]) = None
  ∧ described_params (orders_wsdl "document" [] ["GetOrder"]) = Some [[]].
Proof. split; vm_compute; reflexivity. Qed.

Lemma soap_extraction_witness : ∃ ir, soap_description orders_document None "h" 0 = Ok ir ∧ valid_description "soap" ir ∧
  op_ids ir = ["PlaceOrder"; "GetOrder"; "CancelOrder"] ∧ (λ o, rm_risk_level (op_risk o)) <$> ir_operations ir = [cautious; safe; dangerous].
Proof.
  destruct (soap_extraction orders_document None "h" 0) as [Hsound Htotal].
  destruct Htotal as [ir H].
  - split; [vm_compute; reflexivity|]. 
    destruct (find_binding orders_document) as [b|e] eqn:Eb; [|vm_compute in Eb; discriminate Eb].
    destruct (gather orders_document b) as [w|e] eqn:Ew; [|vm_compute in Eb; injection Eb as <-; vm_compute in Ew; discriminate Ew].
    vm_compute in Eb. injection Eb as <-. vm_compute in Ew. injection Ew as <-.
    eexists _, _, _. split; [vm_compute; reflexivity|]. split; [vm_compute; reflexivity|]. split; [discriminate|].
    split; [vm_compute; reflexivity|]. split.
    + repeat (apply Forall_cons; split; [split; [eexists; split_and!; [vm_compute; reflexivity|discriminate|vm_compute; reflexivity]|by eexists]|]).
      by constructor.
    + apply (bool_decide_unpack _). vm_compute. exact I.
  - exists ir. split; [exact H|]. split; [exact (proj1 (Hsound ir H))|]. vm_compute in H. injection H as <-. split; reflexivity.
Defined.
