(* ===== verification/Scan.v ===== *)
(** * Scanners for the source's regular expressions

    The pieces the patterns of the gRPC extractor and of the CLI output parser are
    made of, as functions that give what they match and the rest of the text, and
    the string methods that cut texts into lines and words. *)

From S2P Require Export ExtractorKit SecretRefs RuntimeProtocols.
From Stdlib Require Import Ascii.

(** ** Patterns *)

(** [[\w.]] *)
Definition is_dotted (c : ascii) : bool := is_word c || bool_decide (c = "."%char).

(** [\s*] *)
Definition spaces (s : string) : string := lstrip s.
(** [\s+] *)
Definition spaces1 (s : string) : option string :=
  match s with String c s' => if is_space c then Some (lstrip s') else None | EmptyString => None end.

Fixpoint take_while (p : ascii → bool) (s : string) : string * string :=
  match s with
  | EmptyString => ("", "")
  | String c s' => if p c then let '(a, r) := take_while p s' in (String c a, r) else ("", s)
  end.
(** [p+] *)
Definition take1 (p : ascii → bool) (s : string) : option (string * string) :=
  let '(a, r) := take_while p s in if str_truthy a then Some (a, r) else None.
Definition expect (lit s : string) : option string := if startswith lit s then Some (drop_str (String.length lit) s) else None.

(** [pattern.finditer(s)] for a pattern that consumes: [skip] characters belong to
    the match before. *)
Fixpoint finditer {A} (m : string → option (A * string)) (skip : nat) (s : string) : list A :=
  match s with
  | EmptyString => []
  | String _ s' =>
      match skip with
      | S k => finditer m k s'
      | O => match m s with
             | Some (a, rest) => a :: finditer m (String.length s' - String.length rest) s'
             | None => finditer m 0 s'
             end
      end
  end.

(** [pattern.search(s)] for a pattern that starts with [^], over lines *)
Fixpoint search_line {A} (m : string → option A) (start : bool) (s : string) : option A :=
  match (if start then m s else None) with
  | Some a => Some a
  | None => match s with String c s' => search_line m (bool_decide (ord c = 10%N)) s' | EmptyString => None end
  end.

(** A double quote, and a line feed *)
Definition double_quote : string := String (ascii_of_N 34) "".
Definition newline : string := String (ascii_of_N 10) "".

(** ** Lines and words *)

(** [str.splitlines()] *)
Definition is_break (c : ascii) : bool := let n := ord c in ((10 <=? n) && (n <=? 13) || (28 <=? n) && (n <=? 30))%N.
Fixpoint splitlines (s : string) : list string :=
  match s with
  | EmptyString => []
  | String c s' =>
      if is_break c then
        "" :: match s' with
              | String d s'' => if bool_decide (ord c = 13%N) && bool_decide (ord d = 10%N) then splitlines s'' else splitlines s'
              | EmptyString => []
              end
      else match s' with
           | EmptyString => [String c ""]
           | String _ _ => match splitlines s' with p :: ps => String c p :: ps | [] => [String c ""] end
           end
  end.

(** [str.split()] *)
Fixpoint split_space (s : string) : list string :=
  match s with
  | EmptyString => []
  | String c s' =>
      if is_space c then split_space s'
      else match s' with
           | EmptyString => [String c ""]
           | String d _ =>
               if is_space d then String c "" :: split_space s'
               else match split_space s' with p :: ps => String c p :: ps | [] => [String c ""] end
           end
  end.

(** ** Lemmas *)

Lemma take_while_head p s a r : take_while p s = (a, r) → a ≠ "" → ∃ c s', a = String c s' ∧ p c = true.
Proof.
  destruct s as [|c s]; cbn; [by intros [= <- <-]|]. destruct (p c) eqn:Ep; [|by intros [= <- <-]].
  destruct (take_while p s) as [a' r']. intros [= <- <-] _. by eexists _, _.
Qed.

Lemma take1_head p s a r : take1 p s = Some (a, r) → ∃ c s', a = String c s' ∧ p c = true.
Proof.
  unfold take1. destruct (take_while p s) as [a' r'] eqn:E. destruct (str_truthy a') eqn:Et; [|done]. intros [= <- <-].
  apply (take_while_head _ _ _ _ E). by apply str_truthy_iff.
Qed.

Lemma word_not_space c : is_word c = true → is_space c = false.
Proof. destruct c as [[] [] [] [] [] [] [] []]; vm_compute; congruence. Qed.

Lemma finditer_in {A} (f : string → option (A * string)) k s a : a ∈ finditer f k s → ∃ s' r, f s' = Some (a, r).
Proof.
  revert k. induction s as [|c s IH]; intros k; [by intros ?%elem_of_nil|]. cbn [finditer].
  destruct k; [|apply IH]. destruct (f (String c s)) as [[b r]|] eqn:E; [|apply IH].
  intros [->|H]%elem_of_cons; [by eexists _, _|by eapply IH].
Qed.

Lemma split_space_nonempty s : Forall (λ t, t ≠ "") (split_space s).
Proof.
  induction s as [|c s IH]; [by constructor|]. cbn [split_space]. destruct (is_space c); [done|]. destruct s as [|d s]; [by repeat constructor|].
  destruct (is_space d); [by constructor|]. destruct (split_space (String d s)); [by repeat constructor|].
  apply Forall_cons in IH as [_ IH]. by constructor.
Qed.
