(* ===== verification/GrpcExtractor.v ===== *)
(** * The gRPC extractor ([libs/extractors/grpc.py])

    The text of a Protocol Buffers definition, read with the source's regular
    expressions written out as scanners, or the descriptors of a live server become
    one operation for each RPC the runtime can call and one event descriptor for
    each RPC that streams.  The grpc library is a parameter: the descriptors are
    records of what the code reads of them. *)

From S2P Require Export PreDeploy Scan.
From Stdlib Require Import Ascii.

(** ** Patterns *)

(** [_SYNTAX_PATTERN] *)
Definition _SYNTAX_PATTERN (s : string) : option string :=
  s ← expect "syntax" (spaces s); s ← expect "=" (spaces s); s ← expect double_quote (spaces s);
  '(syntax, s) ← take1 (λ c, negb (bool_decide (ord c = 34%N))) s; s ← expect double_quote s;
  _ ← expect ";" (spaces s); Some syntax.

(** [_PACKAGE_PATTERN] *)
Definition _PACKAGE_PATTERN (s : string) : option string :=
  s ← expect "package" (spaces s); s ← spaces1 s; '(package, s) ← take1 is_dotted s; _ ← expect ";" (spaces s); Some package.

Record ProtoField := mk_pfield { pf_name : string; pf_type_name : string; pf_repeated : bool; pf_required : bool }.
Record ProtoRpc := mk_rpc {
  rpc_name : string;
  rpc_request_type : string;
  rpc_response_type : string;
  rpc_client_streaming : bool;
  rpc_server_streaming : bool;
}.
Record ProtoService := mk_pservice { ps_name : string; ps_rpcs : list ProtoRpc }.

(** [\(\s*(stream\s+)?([\w.]+)\s*\)]: without the optional group where the rest
    does not follow it, as for a type named stream *)
Definition match_type (s : string) : option (bool * string * string) :=
  let named_type s := '(t, s) ← take1 is_dotted s; s ← expect ")" (spaces s); Some (t, s) in
  s ← expect "(" s;
  match (s' ← expect "stream" (spaces s); s' ← spaces1 s'; named_type s') with
  | Some (t, r) => Some (true, t, r)
  | None => '(t, r) ← named_type (spaces s); Some (false, t, r)
  end.

(** [_RPC_PATTERN] *)
Definition _RPC_PATTERN (s : string) : option (ProtoRpc * string) :=
  s ← expect "rpc" s; s ← spaces1 s; '(name, s) ← take1 is_word s;
  '(client, request, s) ← match_type (spaces s);
  s ← expect "returns" (spaces s);
  '(server, response, s) ← match_type (spaces s);
  let rest := spaces s in
  rest ← match expect ";" rest with
         | Some r => Some r
         | None => r ← expect "{" rest; expect "}" (take_while (λ c, negb (bool_decide (c = "}"%char))) r).2
         end;
  Some (mk_rpc name request response client server, rest).

(** The header of a block: the keyword, a name and the opening brace *)
Definition match_block (keyword s : string) : option ((string * string) * string) :=
  s ← expect keyword s; s ← spaces1 s; '(name, s) ← take1 is_word s; s ← expect "{" (spaces s); Some ((name, s), s).

(** The text up to the closing brace, [depth] braces inside *)
Fixpoint block_body (depth : nat) (s : string) : option string :=
  match s with
  | EmptyString => None
  | String c s' =>
      if bool_decide (c = "{"%char) then String c <$> block_body (S depth) s'
      else if bool_decide (c = "}"%char) then
        match depth with O => Some "" | S d => String c <$> block_body d s' end
      else String c <$> block_body depth s'
  end.

(** [_find_blocks] *)
Definition _find_blocks (keyword text : string) : list (string * string) :=
  omap (λ b, (λ body, (b.1, body)) <$> block_body 0 b.2) (finditer (match_block keyword) 0 text).

(** ** Definitions *)

Definition _parse_services (content : string) : list ProtoService :=
  (λ b, mk_pservice b.1 (finditer _RPC_PATTERN 0 b.2)) <$> _find_blocks "service" content.

(** [line.split("//", 1)[0]] *)
Fixpoint before_comment (s : string) : string :=
  match s with
  | EmptyString => ""
  | String c s' => if startswith "//" s then "" else String c (before_comment s')
  end.

(** The labels before a type: whether the field is repeated, and required *)
Fixpoint strip_labels (tokens : list string) (repeated required : bool) : list string * bool * bool :=
  match tokens with
  | t :: ts =>
      if str_eqb t "repeated" then strip_labels ts true required
      else if str_eqb t "required" then strip_labels ts repeated true
      else if str_eqb t "optional" then strip_labels ts repeated required
      else (tokens, repeated, required)
  | [] => ([], repeated, required)
  end.

(** What comes before the first equals sign *)
Fixpoint before_equals (tokens : list string) : option (list string) :=
  match tokens with
  | [] => None
  | t :: ts => if str_eqb t "=" then Some [] else cons t <$> before_equals ts
  end.

Definition parse_field_line (raw_line : string) : option ProtoField :=
  let line := strip (before_comment raw_line) in
  if existsb (λ p, startswith p line) ["option "; "reserved "; "oneof "] then None
  else
    let line := if endswith ";" line then String.substring 0 (String.length line - 1) line else line in
    tokens ← before_equals (split_space (str_replace "=" " = " line));
    name ← last tokens;
    let '(type_tokens, repeated, required) := strip_labels (removelast tokens) false false in
    match removelast tokens, type_tokens with
    | _ :: _, _ :: _ => Some (mk_pfield name (join " " type_tokens) repeated required)
    | _, _ => None
    end.
Definition _parse_fields (body : string) : list ProtoField := omap parse_field_line (splitlines body).

Definition _parse_messages (content : string) : dict (list ProtoField) :=
  dict_of_list ((λ b, (b.1, _parse_fields b.2)) <$> _find_blocks "message" content).
Definition _parse_enums (content : string) : list string := fst <$> _find_blocks "enum" content.

(** [_extract_pattern_value] *)
Definition _extract_pattern_value (pattern : string → option string) (content dflt : string) : string :=
  default dflt (search_line pattern true content).

(** [type_name.rsplit(".", 1)[-1]] *)
Definition _strip_qualification (type_name : string) : string := default "" (last (split_on "."%char type_name)).

(** ** Types of fields *)

Definition _PROTO_TYPE_MAP : dict string := [
  ("string", "string"); ("bool", "boolean"); ("bytes", "string"); ("double", "number"); ("float", "number");
  ("int32", "integer"); ("int64", "integer"); ("uint32", "integer"); ("uint64", "integer"); ("sint32", "integer");
  ("sint64", "integer"); ("fixed32", "integer"); ("fixed64", "integer"); ("sfixed32", "integer"); ("sfixed64", "integer")].
Definition _SAFE_RPC_PREFIXES : list string := ["Get"; "List"; "Search"; "Read"; "Fetch"; "Describe"; "Lookup"; "Count"].
Definition _DANGEROUS_RPC_PREFIXES : list string := ["Delete"; "Remove"; "Destroy"; "Drop"; "Purge"; "Truncate"].

(** What both sources of a model give *)
Record proto_model := mk_model {
  pm_package : string;
  pm_messages : dict (list ProtoField);
  pm_enums : list string;
  pm_services : list ProtoService;
}.

Section model.
Context (m : proto_model).

(** The type of a value of the named type *)
Definition item_type (type_name : string) : string :=
  match dict_get _PROTO_TYPE_MAP type_name with
  | Some t => t
  | None => if one_of type_name (pm_enums m) then "string" else "object"
  end.
Definition _ir_type_for_proto_field (f : ProtoField) : string :=
  if pf_repeated f then "array" else item_type (_strip_qualification (pf_type_name f)).

Definition _response_schema_for_fields (fields : list ProtoField) : option (dict pyval) :=
  match fields with
  | [] => None
  | _ =>
      let required := pf_name <$> List.filter pf_required fields in
      Some (object_of (dict_of_list ((λ f, (pf_name f, typed_schema (_ir_type_for_proto_field f))) <$> fields))
            ++ match required with [] => [] | _ => [("required", vstrs required)] end)
  end.

Definition _json_schema_for_proto_field (f : ProtoField) : option (dict pyval) :=
  let type_name := _strip_qualification (pf_type_name f) in
  let structure := dict_get (pm_messages m) type_name ≫= _response_schema_for_fields in
  if pf_repeated f then
    let items := match (if str_eqb (item_type type_name) "object" then structure else None) with
                 | Some s => VDict s
                 | None => typed_schema (item_type type_name)
                 end in
    Some [("type", VStr "array"); ("items", items)]
  else structure.

Definition field_param (f : ProtoField) : Param :=
  extracted (pf_name f) (_ir_type_for_proto_field f) (pf_required f) "" VNone (_json_schema_for_proto_field f) 1.
Definition fields_of (type_name : string) : list ProtoField := default [] (dict_get (pm_messages m) (_strip_qualification type_name)).

(** ** Operations *)

Definition rpc_risk (writes destructive : bool) (level : RiskLevel) (confidence : float) : RiskMetadata :=
  mk_risk (Some writes) (Some destructive) (Some writes) (Some (negb writes)) level confidence src_extractor.
Definition has_rpc_prefix (prefixes : list string) (s : string) : bool := existsb (λ p, startswith p s) prefixes.
Definition _risk_for_rpc_name (name : string) : RiskMetadata :=
  if has_rpc_prefix _SAFE_RPC_PREFIXES name then rpc_risk false false safe high
  else if has_rpc_prefix _DANGEROUS_RPC_PREFIXES name then rpc_risk true true dangerous high
  else rpc_risk true false cautious 0x1.b333333333333p-1.

Definition _rpc_path (service_name name : string) : string :=
  "/" +:+ (if str_truthy (pm_package m) then pm_package m +:+ "." else "") +:+ service_name +:+ "/" +:+ name.

Definition rpc_errors : ErrorSchema :=
  mk_error_schema [coded_error "INVALID_ARGUMENT" "Client specified an invalid argument." None;
                   coded_error "NOT_FOUND" "Requested entity was not found." None;
                   coded_error "PERMISSION_DENIED" "Caller does not have permission." None;
                   coded_error "INTERNAL" "Internal server error." None;
                   coded_error "UNAVAILABLE" "Service is currently unavailable." None] None.

Definition rpc_operation (unary : bool) (service_name : string) (r : ProtoRpc) : Operation :=
  let path := _rpc_path service_name (rpc_name r) in
  mk_operation (rpc_name r) (humanize_identifier (rpc_name r))
    ((if unary then "Unary gRPC call " else "Native gRPC stream ") +:+ rpc_name r +:+ " exposed from " +:+ service_name +:+ ".")
    (Some "POST") (Some path) (field_param <$> fields_of (rpc_request_type r))
    (if unary then _response_schema_for_fields (fields_of (rpc_response_type r)) else None) rpc_errors []
    (_risk_for_rpc_name (rpc_name r)) plain_strategy body_json None None None None
    (if unary then Some (mk_grpc_unary path 10) else None) None None None None
    (["grpc"; service_name] ++ (if unary then [] else ["stream"])) None src_extractor 1 None true.
Definition _rpc_to_operation : string → ProtoRpc → Operation := rpc_operation true.
Definition _stream_rpc_to_operation : string → ProtoRpc → Operation := rpc_operation false.

Definition streams (r : ProtoRpc) : bool := rpc_client_streaming r || rpc_server_streaming r.
Definition _grpc_stream_mode_for_rpc (r : ProtoRpc) : GrpcStreamMode :=
  if rpc_client_streaming r && rpc_server_streaming r then stream_bidirectional
  else if rpc_client_streaming r then stream_client else stream_server.
Definition _event_direction_for_rpc (r : ProtoRpc) : EventDirection :=
  if rpc_client_streaming r && rpc_server_streaming r then bidirectional
  else if rpc_client_streaming r then outbound else inbound.

(** The two switches of [extract] *)
Context (disable_server_stream enable_client_stream : bool).

(** A stream that is described as an operation *)
Definition supported_native_stream (r : ProtoRpc) : bool :=
  match _grpc_stream_mode_for_rpc r with
  | stream_server => negb disable_server_stream
  | stream_client => enable_client_stream
  | stream_bidirectional => false
  end.

Definition stream_event (service_name : string) (r : ProtoRpc) : EventDescriptor :=
  let path := _rpc_path service_name (rpc_name r) in
  let native := supported_native_stream r in
  mk_event (rpc_name r) (rpc_name r) "" grpc_stream_transport (_event_direction_for_rpc r) (if native then supported else unsupported)
    (Some path) (if native then Some (rpc_name r) else None) (Some (mk_grpc_stream path (_grpc_stream_mode_for_rpc r) 50 15)) None
    [("client_streaming", VBool (rpc_client_streaming r)); ("server_streaming", VBool (rpc_server_streaming r))].

(** One round of the loop over the RPCs: operations, names left out, events *)
Definition described_rpc (service_name : string) (r : ProtoRpc) : list Operation * list string * list EventDescriptor :=
  if streams r then
    (if supported_native_stream r then [_stream_rpc_to_operation service_name r] else [],
     if supported_native_stream r then [] else [rpc_name r],
     [stream_event service_name r])
  else ([_rpc_to_operation service_name r], [], []).

(** The RPCs of all the services, each with the name of its service *)
Definition all_rpcs : list (string * ProtoRpc) := concat ((λ s, (λ r, (ps_name s, r)) <$> ps_rpcs s) <$> pm_services m).

(** [event_descriptors.sort(key=lambda descriptor: descriptor.id)] *)
Fixpoint insert_event (e : EventDescriptor) (l : list EventDescriptor) : list EventDescriptor :=
  match l with
  | [] => [e]
  | x :: l' => if String.ltb (ed_id e) (ed_id x) then e :: l else x :: insert_event e l'
  end.
Definition sort_events (l : list EventDescriptor) : list EventDescriptor := foldl (λ acc e, insert_event e acc) [] l.

(** [extract] from the model on *)
Definition grpc_description (source_url : option string) (source_hash proto_syntax : string) (metadata : dict pyval) (now : Z)
    : outcome exn ServiceIR :=
  match pm_services m with
  | [] => Raise (value_error "No gRPC service definitions found in proto source.")
  | primary :: _ =>
      let found := (λ sr, described_rpc sr.1 sr.2) <$> all_rpcs in
      let operations := concat ((λ t, t.1.1) <$> found) in
      let slug_name := slugify_camel (join " " (List.filter str_truthy [pm_package m; ps_name primary])) in
      match operations with
      | [] => Raise (value_error "No unary RPC methods found in proto source.")
      | _ =>
          describe "grpc" slug_name ("gRPC service extracted from " +:+ ps_name primary +:+ ".")
            (match named source_url with Some u => u | None => "grpc://" +:+ slug_name end) (plain_auth no_auth) source_url source_hash
            operations (sort_events (concat (snd <$> found)))
            (dict_update [("proto_syntax", VStr proto_syntax); ("proto_package", VStr (pm_package m)); ("proto_service", VStr (ps_name primary));
                          ("proto_services", vstrs (ps_name <$> pm_services m));
                          ("ignored_streaming_rpcs", vstrs (concat ((λ t, t.1.2) <$> found)))] metadata) now
      end
  end.
End model.

(** ** Reflection *)

Inductive scalar_type :=
  t_double | t_float | t_int64 | t_uint64 | t_int32 | t_fixed64 | t_fixed32 | t_bool | t_string | t_bytes | t_uint32
  | t_sfixed32 | t_sfixed64 | t_sint32 | t_sint64 | t_group.
Record EnumDescriptor := mk_enum_descriptor { en_name : string; en_full_name : string }.
Inductive field_type := of_message (full_name : string) (map_entry : bool) | of_enum (e : EnumDescriptor) | of_scalar (t : scalar_type).
Record FieldDescriptor := mk_field_descriptor { fd_name : string; fd_type : field_type; fd_repeated : bool; fd_required : bool }.
(** Message types are referred to by their full names. *)
Record Descriptor := mk_descriptor {
  de_full_name : string;
  de_fields : list FieldDescriptor;
  de_enum_types : list EnumDescriptor;
  de_nested_types : list string;
}.
Record MethodDescriptor := mk_method_descriptor {
  me_name : string;
  me_input_type : string;
  me_output_type : string;
  me_client_streaming : bool;
  me_server_streaming : bool;
}.
Record ServiceDescriptor := mk_service_descriptor { sd_name : string; sd_package : string; sd_methods : list MethodDescriptor }.
(** What a server's reflection database answers *)
Record reflection := mk_reflection {
  rf_services : list string;
  rf_service : dict ServiceDescriptor;
  rf_messages : dict Descriptor;
}.

Definition _FIELD_DESCRIPTOR_TYPE_NAMES (t : scalar_type) : string :=
  match t with
  | t_double => "double" | t_float => "float" | t_int64 => "int64" | t_uint64 => "uint64" | t_int32 => "int32"
  | t_fixed64 => "fixed64" | t_fixed32 => "fixed32" | t_bool => "bool" | t_string => "string" | t_bytes => "bytes"
  | t_uint32 => "uint32" | t_sfixed32 => "sfixed32" | t_sfixed64 => "sfixed64" | t_sint32 => "sint32" | t_sint64 => "sint64"
  | t_group => "string"
  end.
Definition _IGNORED_REFLECTION_SERVICES : list string :=
  ["grpc.health.v1.Health"; "grpc.reflection.v1.ServerReflection"; "grpc.reflection.v1alpha.ServerReflection"].

Definition _service_from_descriptor (s : ServiceDescriptor) : ProtoService :=
  mk_pservice (sd_name s) ((λ d, mk_rpc (me_name d) (me_input_type d) (me_output_type d) (me_client_streaming d) (me_server_streaming d)) <$> sd_methods s).

Definition _is_map_field (f : FieldDescriptor) : bool := match fd_type f with of_message _ b => b | _ => false end.
Definition _field_type_name (f : FieldDescriptor) : string :=
  match fd_type f with
  | of_message full map_entry => if map_entry then "map<string, object>" else full
  | of_enum e => en_full_name e
  | of_scalar t => _FIELD_DESCRIPTOR_TYPE_NAMES t
  end.
Definition field_of_descriptor (f : FieldDescriptor) : ProtoField :=
  mk_pfield (fd_name f) (_field_type_name f) (fd_repeated f && negb (_is_map_field f)) (fd_required f).

(** The messages and enums collected so far *)
Definition collected : Type := dict (list ProtoField) * list string.
Definition _collect_enum_descriptor (st : collected) (e : EnumDescriptor) : collected := (st.1, st.2 ++ [en_name e; en_full_name e]).

Section reflect.
Context (pool : dict Descriptor).

(** What a field refers to; [rec] is the call for a message. *)
Definition collect_field (rec : collected → string → outcome exn collected) (st : collected) (f : FieldDescriptor) : outcome exn collected :=
  match fd_type f with
  | of_message full _ => rec st full
  | of_enum e => Ok (_collect_enum_descriptor st e)
  | of_scalar _ => Ok st
  end.

Fixpoint _collect_message_descriptor (fuel : nat) (st : collected) (full_name : string) : outcome exn collected :=
  match fuel with
  | O => Raise (mk_exn "RecursionError" "maximum recursion depth exceeded" [])
  | S fuel =>
      match dict_get pool full_name with
      | None => Raise (key_error full_name)
      | Some d =>
          let stripped_name := _strip_qualification (de_full_name d) in
          if dict_mem st.1 stripped_name then Ok st
          else
            let st1 := foldl _collect_enum_descriptor (dict_set st.1 stripped_name (field_of_descriptor <$> de_fields d), st.2) (de_enum_types d) in
            let! st2 := fold_outcome (collect_field (_collect_message_descriptor fuel)) st1 (de_fields d) in
            fold_outcome (_collect_message_descriptor fuel) st2 (de_nested_types d)
      end
  end.

(** Every nested call adds a message of the pool. *)
Definition collect_message (st : collected) (full_name : string) : outcome exn collected :=
  _collect_message_descriptor (S (length pool)) st full_name.
Definition collect_method (st : collected) (d : MethodDescriptor) : outcome exn collected :=
  let! st1 := collect_message st (me_input_type d) in collect_message st1 (me_output_type d).
Definition _collect_descriptor_types (st : collected) (s : ServiceDescriptor) : outcome exn collected :=
  fold_outcome collect_method st (sd_methods s).
End reflect.

(** [sorted(names)] *)
Fixpoint insert_name (n : string) (l : list string) : list string :=
  match l with
  | [] => [n]
  | x :: l' => if String.ltb n x then n :: l else x :: insert_name n l'
  end.
Definition sort_names (l : list string) : list string := foldl (λ acc n, insert_name n acc) [] l.

(** One round of the loop over the services *)
Definition reflect_service (r : reflection) (acc : string * list ProtoService * collected) (full_name : string)
    : outcome exn (string * list ProtoService * collected) :=
  let '(package, services, st) := acc in
  match dict_get (rf_service r) full_name with
  | None => Raise (key_error full_name)
  | Some s =>
      let! st' := _collect_descriptor_types (rf_messages r) st s in
      Ok (if str_truthy package then package else sd_package s, services ++ [_service_from_descriptor s], st')
  end.

Definition reflected_model (r : reflection) : outcome exn proto_model :=
  let service_names := List.filter (λ n, negb (one_of n _IGNORED_REFLECTION_SERVICES)) (rf_services r) in
  let! '(package, services, (messages, enums)) := fold_outcome (reflect_service r) ("", [], ([], [])) (sort_names service_names) in
  match services with
  | [] => Raise (value_error "No gRPC services discovered from server reflection.")
  | _ => Ok (mk_model package messages enums services)
  end.

(** What the hash of a reflected model is taken of *)
Definition fingerprint_payload (m : proto_model) : pyval :=
  VDict [("package", VStr (pm_package m));
         ("services", VList ((λ s, VDict [("name", VStr (ps_name s)); ("rpcs", VList ((λ r, VDict [
             ("name", VStr (rpc_name r)); ("request_type", VStr (rpc_request_type r)); ("response_type", VStr (rpc_response_type r));
             ("client_streaming", VBool (rpc_client_streaming r)); ("server_streaming", VBool (rpc_server_streaming r))]) <$> ps_rpcs s))]) <$> pm_services m))].

(** ** The extractor *)

Definition _hint_enabled (source : SourceConfig) (name : string) : bool :=
  match dict_get (sc_hints source) name with
  | Some value => one_of (lower (strip value)) ["1"; "true"; "yes"; "on"]
  | None => false
  end.

Definition server_stream_disabled (source : SourceConfig) : bool :=
  if dict_mem (sc_hints source) "enable_native_grpc_stream" && negb (_hint_enabled source "enable_native_grpc_stream") then true
  else _hint_enabled source "disable_grpc_server_stream".

Definition text_model (content : string) : proto_model :=
  mk_model (_extract_pattern_value _PACKAGE_PATTERN content "") (_parse_messages content) (_parse_enums content) (_parse_services content).

Section extractor.
Context {W : Type} (read_text : string → comp W exn string) (httpx_get : string → dict string → comp W exn response).
(** A channel, secure or not, to a target, and what reflection answers over it *)
Context (reflect : bool → string → comp W exn reflection).
Context (repr : pyval → string) (sha256_hex : string → string) (now : W → Z).

(** [_build_grpc_channel]: whether it is secure, and its target *)
Definition _build_grpc_channel (target_url : string) : outcome exn (bool * string) :=
  let! u := urlsplit target_url in
  let target := if str_truthy (netloc u) then netloc u else path u in
  if negb (str_truthy target) then Raise (value_error "not a valid grpc target")
  else if str_eqb (scheme u) "grpcs" then Ok (true, target)
  else if str_eqb (scheme u) "grpc" then Ok (false, target)
  else Raise (value_error "Unsupported gRPC source_url scheme").

Definition _reflect_from_server (source : SourceConfig) : comp W exn (proto_model * string) :=
  match named (sc_url source) with
  | None => raise (value_error "gRPC reflection extraction requires source.url when no proto source exists.")
  | Some url =>
      c <- answer (_build_grpc_channel url) ;;
      r <- reflect c.1 c.2 ;;
      m <- answer (reflected_model r) ;;
      ret (m, sha256_hex (repr (fingerprint_payload m)))
  end.

Definition grpc_extract (source : SourceConfig) : comp W exn ServiceIR :=
  content <- get_content read_text httpx_get source ;;
  found <- match content with
           | None =>
               u <- answer (urlsplit (default "" (sc_url source))) ;;
               if negb (one_of (scheme u) ["grpc"; "grpcs"]) then raise (value_error "Could not read source content")
               else mh <- _reflect_from_server source ;; ret (mh, "proto3", [("discovery_mode", VStr "reflection")])
           | Some text =>
               ret ((text_model text, compute_content_hash sha256_hex text),
                    _extract_pattern_value _SYNTAX_PATTERN text "proto3", [])
           end ;;
  let '((m, source_hash), proto_syntax, metadata) := found : (proto_model * string) * string * dict pyval in
  t <- gets now ;;
  answer (grpc_description m (server_stream_disabled source) (_hint_enabled source "enable_grpc_client_stream") (sc_url source)
            source_hash proto_syntax metadata t).

Definition grpc_detect (source : SourceConfig) : comp W exn float :=
  if bool_decide (dict_get (sc_hints source) "protocol" = Some "grpc") then ret 1%float
  else
    content <- get_content read_text httpx_get source ;;
    match content with
    | None =>
        match named (sc_url source) with
        | Some url => u <- answer (urlsplit url) ;; ret (if one_of (scheme u) ["grpc"; "grpcs"] then 0x1.6666666666666p-1%float else 0%float)
        | None => ret 0%float
        end
    | Some text =>
        let syntax := match search_line _SYNTAX_PATTERN true text with Some _ => true | None => false end in
        let rpcs := (0 <? length (finditer _RPC_PATTERN 0 text))%nat in
        ret (if endswith ".proto" (lower (default "" (sc_file_path source))) && syntax && rpcs then 0x1.f5c28f5c28f5cp-1%float
             else if syntax && (0 <? length (_find_blocks "service" text))%nat && rpcs then 0x1.e666666666666p-1%float
             else if str_contains "service " text && str_contains " rpc " (" " +:+ text +:+ " ") then 0x1.3333333333333p-1%float
             else 0%float)
    end.

Definition GrpcProtoExtractor : ExtractorProtocol W := mk_extractor "grpc" grpc_detect grpc_extract None.
End extractor.

(** ** Reflection ends *)

Section collected.
Context (pool : dict Descriptor).

(** Every type a descriptor refers to is in the pool, under its own name. *)
Definition closed_pool : Prop := ∀ k d, dict_get pool k = Some d → de_full_name d = k ∧
  Forall (λ f, match fd_type f with of_message t _ => is_Some (dict_get pool t) | _ => True end) (de_fields d) ∧
  Forall (λ n, is_Some (dict_get pool n)) (de_nested_types d).

Abbreviation names := (_strip_qualification <$> dict_keys pool).
Abbreviation known st := (dict_keys (st : collected).1).

Definition adds (rec : collected → string → outcome exn collected) (n : nat) : Prop :=
  ∀ st full, is_Some (dict_get pool full) → (unseen names (known st) < n)%nat →
    ∃ st', rec st full = Ok st' ∧ known st ⊆ known st' ∧ _strip_qualification full ∈ known st'.

Lemma fold_adds {A} (f : collected → A → outcome exn collected) (P : A → Prop) n l st :
  (∀ st a, P a → (unseen names (known st) < n)%nat → ∃ st', f st a = Ok st' ∧ known st ⊆ known st') →
  Forall P l → (unseen names (known st) < n)%nat → ∃ st', fold_outcome f st l = Ok st' ∧ known st ⊆ known st'.
Proof.
  intros Hf Hl. revert st. induction Hl as [|a l Ha _ IH]; intros st Hn; [by exists st|]. cbn [fold_outcome].
  destruct (Hf st a Ha Hn) as (st1 & -> & H1). cbn [obind]. destruct (IH st1) as (st2 & -> & H2).
  { pose proof (unseen_mono names _ _ H1). lia. } exists st2. split; [done|set_solver].
Qed.

Lemma enums_known l st : (foldl _collect_enum_descriptor st l).1 = st.1.
Proof. revert st. induction l as [|e l IH]; intros st; [done|]. cbn. by rewrite IH. Qed.

Lemma collect_adds fuel : closed_pool → adds (_collect_message_descriptor pool fuel) fuel.
Proof.
  intros Hpool. induction fuel as [|fuel IH]; intros st full [d Hd] Hn; [lia|]. cbn [_collect_message_descriptor]. rewrite Hd.
  destruct (Hpool _ _ Hd) as (Hname & Hfields & Hnested). rewrite Hname.
  destruct (dict_mem st.1 (_strip_qualification full)) eqn:Em; [exists st; split_and!; [done..|by apply dict_mem_key]|].
  set (st1 := foldl _collect_enum_descriptor _ _).
  assert (known st1 = dict_keys (dict_set st.1 (_strip_qualification full) (field_of_descriptor <$> de_fields d))) as Hk1.
  { unfold st1. by rewrite enums_known. }
  assert (_strip_qualification full :: known st ⊆ known st1) as Hsub.
  { rewrite Hk1. intros k. rewrite dict_keys_set, elem_of_cons. naive_solver. }
  assert (unseen names (known st1) < fuel)%nat as Hn1.
  { assert (_strip_qualification full ∉ known st) as Hnew.
    { intros Hin%dict_get_is_Some. unfold dict_mem in Em. destruct Hin as [v Hv]. by rewrite Hv in Em. }
    assert (_strip_qualification full ∈ names) as Hin.
    { apply list_elem_of_fmap_2, dict_get_is_Some. by exists d. }
    pose proof (unseen_fewer names _ _ Hin Hnew). pose proof (unseen_mono names _ _ Hsub). lia. }
  destruct (fold_adds (collect_field (_collect_message_descriptor pool fuel))
              (λ f, match fd_type f with of_message t _ => is_Some (dict_get pool t) | _ => True end) fuel (de_fields d) st1) as (st2 & -> & H2);
    [|done|done|].
  { intros s f Hf Hs. unfold collect_field. destruct (fd_type f) as [t b|e|t]; [|by eexists|by eexists].
    destruct (IH s t Hf Hs) as (s' & ? & ? & _). by exists s'. }
  cbn [obind]. destruct (fold_adds (_collect_message_descriptor pool fuel) (λ n, is_Some (dict_get pool n)) fuel (de_nested_types d) st2) as (st3 & -> & H3);
    [|done| |].
  { intros s f Hf Hs. destruct (IH s f Hf Hs) as (s' & ? & ? & _). by exists s'. }
  { pose proof (unseen_mono names _ _ H2). lia. }
  exists st3. split; [done|]. set_solver.
Qed.

(** A service whose methods' types are in the pool is collected, however its types
    refer to each other. *)
Lemma service_collected st s : closed_pool →
  Forall (λ d, is_Some (dict_get pool (me_input_type d)) ∧ is_Some (dict_get pool (me_output_type d))) (sd_methods s) →
  ∃ st', _collect_descriptor_types pool st s = Ok st' ∧ known st ⊆ known st'.
Proof.
  intros Hpool Hm. unfold _collect_descriptor_types.
  assert (∀ st, unseen names (known st) < S (length pool))%nat as Hall.
  { intros st0. pose proof (unseen_all names (known st0)).
    assert (length names = length pool) by (unfold dict_keys; by rewrite !length_fmap). lia. }
  eapply (fold_adds _ _ (S (length pool))); [|exact Hm|apply Hall]. intros s1 d [Hi Ho] _. unfold collect_method, collect_message.
  destruct (collect_adds (S (length pool)) Hpool s1 _ Hi (Hall _)) as (s2 & -> & H2 & _). cbn [obind].
  destruct (collect_adds (S (length pool)) Hpool s2 _ Ho (Hall _)) as (s3 & -> & H3 & _). exists s3. split; [done|set_solver].
Qed.
End collected.

(** ** What a description says of the RPCs *)

Lemma insert_event_perm e l : insert_event e l ≡ₚ e :: l.
Proof. induction l as [|x l IH]; [done|]. cbn. destruct (String.ltb _ _); [done|]. rewrite IH. apply Permutation_swap. Qed.
Lemma sort_events_perm l : sort_events l ≡ₚ l.
Proof.
  unfold sort_events. rewrite <-(app_nil_r l) at 2. generalize (@nil EventDescriptor). induction l as [|e l IH]; intros acc; [done|].
  cbn. rewrite IH, insert_event_perm. symmetry. apply Permutation_middle.
Qed.

Lemma concat_singles {A B} (p : A → bool) (f : A → B) l : concat ((λ a, if p a then [f a] else []) <$> l) = f <$> List.filter p l.
Proof. induction l as [|a l IH]; [done|]. cbn. destruct (p a); cbn; by rewrite IH. Qed.

Section described.
Context (m : proto_model) (disable enable : bool).
Abbreviation native := (supported_native_stream disable enable).

(** An RPC that is called: a unary one, or a stream the switches allow *)
Definition callable (r : ProtoRpc) : bool := negb (streams r) || native r.
Definition operation_of (sr : string * ProtoRpc) : Operation := rpc_operation m (negb (streams sr.2)) sr.1 sr.2.
Definition event_of (sr : string * ProtoRpc) : EventDescriptor := stream_event m disable enable sr.1 sr.2.

Lemma described_operations_are : concat ((λ t, t.1.1) <$> ((λ sr, described_rpc m disable enable sr.1 sr.2) <$> all_rpcs m))
  = operation_of <$> List.filter (λ sr, callable sr.2) (all_rpcs m).
Proof.
  rewrite <-concat_singles, <-list_fmap_compose. f_equal. apply list_fmap_ext. intros _ [s r] _.
  unfold compose, described_rpc, callable, operation_of, _stream_rpc_to_operation, _rpc_to_operation. cbn [fst snd].
  by destruct (streams r), (native r).
Qed.

Lemma described_events_are : concat (snd <$> ((λ sr, described_rpc m disable enable sr.1 sr.2) <$> all_rpcs m))
  = event_of <$> List.filter (λ sr, streams sr.2) (all_rpcs m).
Proof.
  rewrite <-concat_singles, <-list_fmap_compose. f_equal. apply list_fmap_ext. intros _ [s r] _.
  unfold compose, described_rpc. cbn [fst snd]. by destruct (streams r).
Qed.

Lemma rpc_known n : rm_risk_level (_risk_for_rpc_name n) ≠ unknown.
Proof. unfold _risk_for_rpc_name. by repeat case_match. Qed.

Lemma grpc_parts source_url hash syntax md now ir : grpc_description m disable enable source_url hash syntax md now = Ok ir →
  valid_description "grpc" ir ∧ ir_operations ir = operation_of <$> List.filter (λ sr, callable sr.2) (all_rpcs m) ∧
  ir_event_descriptors ir ≡ₚ event_of <$> List.filter (λ sr, streams sr.2) (all_rpcs m).
Proof.
  unfold grpc_description. rewrite described_operations_are, described_events_are.
  destruct (pm_services m) as [|primary rest]; [done|]. set (ops := operation_of <$> _). intros H.
  assert (Forall (λ o, rm_risk_level (op_risk o) ≠ unknown) ops) as Hk.
  { unfold ops. apply Forall_fmap, Forall_forall. intros sr _. apply rpc_known. }
  destruct ops as [|o ops']; [done|]. split; [by eapply describe_valid|].
  pose proof (described_operations _ _ _ _ _ _ _ _ _ _ _ _ H Hk) as [-> _]. split; [done|].
  destruct (describe_fields _ _ _ _ _ _ _ _ _ _ _ _ H) as (-> & _). apply sort_events_perm.
Qed.

(** An RPC of a service that may be deployed on a runtime with the given switches *)
Definition deployable (stream unary : bool) (r : ProtoRpc) : bool :=
  match rpc_client_streaming r, rpc_server_streaming r with
  | false, false => unary
  | false, true => disable || stream
  | true, false => negb enable
  | true, true => true
  end.

Lemma event_support_passes stream unary ir : vr_passed (_validate_event_support stream unary ir) = true ↔
  Forall (λ d, invalid_of (event_verdict stream d) = None) (ir_event_descriptors ir) ∧
  Forall (λ o, unary_verdict unary o ≫= invalid_of = None) (ir_operations ir).
Proof.
  assert (vr_passed (_validate_event_support stream unary ir) = true ↔
    omap invalid_of (event_verdict stream <$> ir_event_descriptors ir) ++ omap invalid_of (omap (unary_verdict unary) (ir_operations ir)) = []) as ->.
  { unfold _validate_event_support. by destruct (_ ++ _). }
  split.
  - intros [E1 E2]%app_nil. split; apply Forall_forall.
    + intros d Hd. apply (proj1 (omap_nil _ _) E1). by apply list_elem_of_fmap_2.
    + intros o Ho. destruct (unary_verdict unary o) as [v|] eqn:Ev; [|done]. apply (proj1 (omap_nil _ _) E2). apply list_elem_of_omap. by exists o.
  - rewrite !Forall_forall. intros [H1 H2]. apply app_nil. split; apply omap_nil.
    + intros v (d & -> & Hd)%list_elem_of_fmap. by apply H1.
    + intros v (o & Ho & Hv)%list_elem_of_omap. specialize (H2 o Ho). by rewrite Hv in H2.
Qed.

Lemma rpc_deployable stream unary sr :
  (streams sr.2 = true → invalid_of (event_verdict stream (event_of sr)) = None) ∧
  (callable sr.2 = true → unary_verdict unary (operation_of sr) ≫= invalid_of = None) ↔ deployable stream unary sr.2 = true.
Proof.
  destruct sr as [s [n q p cs ss]]. unfold deployable, callable, operation_of, event_of, unary_verdict, event_verdict, stream_event,
    supported_native_stream, _grpc_stream_mode_for_rpc, streams. cbn [rpc_client_streaming rpc_server_streaming fst snd].
  destruct cs, ss, disable, enable, stream, unary; cbn; intuition congruence.
Qed.

(** C28. A gRPC service is described completely, and deployed exactly when it can
    be served.  A description made of a service definition is valid; its
    operations are those of the unary RPCs and of the streams the switches allow,
    in order, each posted to its own RPC's path; its events are those of the RPCs
    that stream, and one is supported exactly when it refers to its operation.
    The check before a deployment passes exactly when every unary RPC and every
    server stream described has its executor enabled and no client stream was
    switched on: a client stream that is described as callable is never deployed. *)
Theorem grpc_deployable source_url hash syntax md now ir stream unary :
  grpc_description m disable enable source_url hash syntax md now = Ok ir →
  valid_description "grpc" ir ∧
  Forall2 (λ sr o, op_id o = rpc_name sr.2 ∧ op_path o = Some (_rpc_path m sr.1 (rpc_name sr.2)) ∧
             pa_name <$> op_params o = pf_name <$> fields_of m (rpc_request_type sr.2) ∧
             (given (op_grpc_unary o) = negb (streams sr.2)))
    (List.filter (λ sr, callable sr.2) (all_rpcs m)) (ir_operations ir) ∧
  ed_id <$> ir_event_descriptors ir ≡ₚ rpc_name ∘ snd <$> List.filter (λ sr, streams sr.2) (all_rpcs m) ∧
  (∀ e, e ∈ ir_event_descriptors ir → ed_support e = supported ↔ ed_operation_id e = Some (ed_id e)) ∧
  (∀ e i, e ∈ ir_event_descriptors ir → ed_operation_id e = Some i → i ∈ op_ids ir) ∧
  (vr_passed (_validate_event_support stream unary ir) = true ↔ ∀ sr, sr ∈ all_rpcs m → deployable stream unary sr.2 = true).
Proof.
  intros H. apply grpc_parts in H as (Hv & Hops & Hev). split; [done|]. split_and!.
  - rewrite Hops. apply Forall2_fmap_r. apply Forall_Forall2_diag, Forall_forall. intros sr _. split_and!; [done|done| |].
    + unfold operation_of, rpc_operation. cbn [op_params]. by rewrite <-list_fmap_compose.
    + unfold operation_of, rpc_operation. cbn [op_grpc_unary]. by destruct (streams sr.2).
  - rewrite Hev. by rewrite <-list_fmap_compose.
  - intros e He. rewrite Hev in He. apply list_elem_of_fmap in He as (sr & -> & _). unfold event_of, stream_event. cbn. by destruct (native _).
  - intros e i. apply wf_events, Hv.
  - rewrite event_support_passes, Hops, Forall_fmap, !Forall_forall. setoid_rewrite <-rpc_deployable.
    assert (∀ P : EventDescriptor → Prop, (∀ e, e ∈ ir_event_descriptors ir → P e) ↔ ∀ sr, sr ∈ all_rpcs m → streams sr.2 = true → P (event_of sr)) as ->.
    { intros P. setoid_rewrite Hev. setoid_rewrite list_elem_of_fmap. setoid_rewrite elem_of_filterb. naive_solver. }
    setoid_rewrite elem_of_filterb. unfold compose. naive_solver.
Qed.
End described.

(** ** What is read of a text is named *)

Lemma humanize_word c s : is_word c = true → humanize_identifier (String c s) ≠ "".
Proof.
  intros Hc%word_not_space. unfold humanize_identifier, strip. cbn [split_capitals]. rewrite andb_false_r.
  rewrite lstrip_nonspace by done. destruct (rstrip_cons_nonspace c (split_capitals " " false s) Hc) as [s' ->]. done.
Qed.

Lemma rpc_named s r rest : _RPC_PATTERN s = Some (r, rest) → rpc_name r ≠ "" ∧ humanize_identifier (rpc_name r) ≠ "".
Proof.
  unfold _RPC_PATTERN. intros H. apply bind_Some in H as (s1 & _ & H). apply bind_Some in H as (s2 & _ & H).
  apply bind_Some in H as ([n s3] & Hn & H). apply bind_Some in H as ([[b1 q] s4] & _ & H). apply bind_Some in H as (s5 & _ & H).
  apply bind_Some in H as ([[b2 p] s6] & _ & H). cbn zeta in H. apply bind_Some in H as (s7 & _ & H). injection H as <- _.
  apply take1_head in Hn as (c & n' & -> & Hc). cbn [rpc_name]. split; [done|by apply humanize_word].
Qed.

Lemma before_equals_sub tokens l : before_equals tokens = Some l → l ⊆ tokens.
Proof.
  revert l. induction tokens as [|t ts IH]; intros l; [done|]. cbn. destruct (str_eqb t "="); [intros [= <-]; set_solver|].
  intros (l' & H & ->)%fmap_Some. apply IH in H. set_solver.
Qed.

Lemma field_line_named line f : parse_field_line line = Some f → pf_name f ≠ "".
Proof.
  unfold parse_field_line. destruct (existsb _ _); [done|]. cbn zeta. intros H. apply bind_Some in H as (tokens & Ht & H).
  apply bind_Some in H as (n & Hn & H). destruct (strip_labels _ _ _) as [[tt' rep] req]. destruct (removelast tokens), tt'; try done.
  injection H as <-. cbn [pf_name]. apply before_equals_sub in Ht. apply last_Some_elem_of in Hn. apply Ht in Hn.
  match type of Hn with _ ∈ split_space ?s => pose proof (split_space_nonempty s) as Hs end. rewrite Forall_forall in Hs. by apply Hs.
Qed.

(** A model whose RPCs and fields have names *)
Record model_named (m : proto_model) : Prop := {
  mn_rpcs : ∀ sr, sr ∈ all_rpcs m → rpc_name sr.2 ≠ "" ∧ humanize_identifier (rpc_name sr.2) ≠ "";
  mn_fields : Forall (λ kv, Forall (λ f, pf_name f ≠ "") kv.2) (pm_messages m);
}.

Lemma text_model_named content : model_named (text_model content).
Proof.
  split.
  - unfold all_rpcs, text_model, _parse_services. cbn [pm_services]. intros [s r] (s' & (b & -> & _)%list_elem_of_fmap & Hr)%elem_of_concat_map.
    cbn [ps_rpcs] in Hr. apply list_elem_of_fmap in Hr as (r' & [= _ <-] & Hr). apply finditer_in in Hr as (s1 & s2 & Hr). by apply rpc_named in Hr.
  - cbn [text_model pm_messages]. apply (values_of_list (Forall (λ f, pf_name f ≠ ""))), Forall_fmap, Forall_forall. intros b _. apply Forall_forall.
    intros f (line & _ & Hf)%list_elem_of_omap. by eapply field_line_named.
Qed.

Lemma rpc_operation_valid m sr unary : model_named m → sr ∈ all_rpcs m →
  validate_Operation (rpc_operation m unary sr.1 sr.2) = Ok (rpc_operation m unary sr.1 sr.2).
Proof.
  intros [Hr Hf] Hin. destruct (Hr _ Hin) as [Hn Hh]. destruct sr as [s r]. cbn [fst snd] in *. apply validate_operation_eq.
  assert (unknown_risk_must_be_disabled (rpc_operation m unary s r) = rpc_operation m unary s r) as ->.
  { unfold unknown_risk_must_be_disabled. cbn [op_risk rpc_operation]. pose proof (rpc_known (rpc_name r)).
    by destruct (rm_risk_level (_risk_for_rpc_name (rpc_name r))). }
  split_and!; [done| |].
  - unfold operation_parts. apply in_order_ok, Forall_app. split.
    + apply Forall_map. unfold rpc_operation. cbn [op_params]. apply Forall_fmap. unfold fields_of.
      destruct (dict_get (pm_messages m) _) as [fields|] eqn:E; [|by constructor]. apply (values_get _ _ _ _ Hf) in E.
      eapply Forall_impl; [exact E|]. intros f Hfn%str_truthy_iff. unfold compose, validate_Param, Param_fields, build. cbn [pa_name pa_confidence extracted field_param].
      by rewrite Hfn.
    + repeat (apply Forall_cons; split; [done|]). apply Forall_singleton.
      assert (Operation_fields (rpc_operation m unary s r) = true) as Hof; [|unfold build; by rewrite Hof].
      unfold Operation_fields, rpc_operation. cbn [op_id op_name op_confidence op_response_examples op_risk op_response_strategy op_graphql
        op_grpc_unary op_soap op_jsonrpc op_cli op_pagination op_sla opt_all].
      assert (RiskMetadata_fields (_risk_for_rpc_name (rpc_name r)) = true) as -> by (unfold _risk_for_rpc_name; by repeat case_match).
      apply str_truthy_iff in Hn, Hh. rewrite Hn, Hh. by destruct unary.
  - apply in_order_ok. unfold contract_validators. repeat (apply Forall_cons; split; [|]); [|done..|by constructor].
    unfold grpc_unary_contract_must_be_coherent, rpc_operation. cbn. destruct unary; [|done]. cbn. by rewrite str_eqb_refl.
Qed.

Lemma stream_event_valid m disable enable sr : rpc_name sr.2 ≠ "" → validate_EventDescriptor (event_of m disable enable sr) = Ok tt.
Proof.
  intros Hn%str_truthy_iff. destruct sr as [s r]. unfold validate_EventDescriptor, event_of, stream_event, build. cbn [ed_id ed_name fst snd ed_grpc_stream ed_event_bridge].
  cbn [snd] in Hn. rewrite Hn. cbn. by rewrite str_eqb_refl.
Qed.

(** Every definition read from a text is described: it needs a service, an RPC that
    is called, and names of its own for those. *)
Theorem proto_text_described content disable enable source_url hash syntax md now :
  List.filter (λ sr, callable disable enable sr.2) (all_rpcs (text_model content)) ≠ [] →
  NoDup (rpc_name ∘ snd <$> List.filter (λ sr, callable disable enable sr.2) (all_rpcs (text_model content))) →
  ∃ ir, grpc_description (text_model content) disable enable source_url hash syntax md now = Ok ir.
Proof.
  set (m := text_model content). pose proof (text_model_named content) as Hm. fold m in Hm. intros Hne Hnd.
  unfold grpc_description. rewrite described_operations_are, described_events_are.
  destruct (pm_services m) as [|primary rest] eqn:Es; [unfold all_rpcs in Hne; by rewrite Es in Hne|].
  set (called := List.filter _ _) in *. assert (operation_of m <$> called ≠ []) as Hops by by destruct called.
  destruct (operation_of m <$> called) as [|o ops] eqn:Eo; [done|]. rewrite <-Eo.
  edestruct (describe_total_events "grpc") as (ir & H & _); [apply slugify_nonempty| | | |exists ir; exact H].
  - apply Forall_fmap, Forall_forall. intros sr [_ Hsr]%elem_of_filterb. by apply rpc_operation_valid.
  - by rewrite <-list_fmap_compose.
  - apply Forall_forall. intros e He. rewrite sort_events_perm in He. apply list_elem_of_fmap in He as (sr & -> & [Hs Hsr]%elem_of_filterb). split.
    { apply stream_event_valid. by apply (mn_rpcs _ Hm). }
    intros i Hi. unfold event_of, stream_event in Hi. cbn [ed_operation_id] in Hi. destruct (supported_native_stream _ _ _) eqn:En; [|done].
    injection Hi as <-. rewrite <-list_fmap_compose. apply list_elem_of_fmap. exists sr. split; [done|]. apply elem_of_filterb. split; [|done].
    unfold callable. by rewrite En, orb_true_r.
Qed.

#[global] Instance grpc_extracts {W} read_text httpx_get reflect repr sha256_hex (now : W → Z) :
  Extracts (GrpcProtoExtractor read_text httpx_get reflect repr sha256_hex now).
Proof.
  intros source w ir w' H. cbn in H. unfold grpc_extract in H. mbind H content w1 H1. mbind H found w2 H2.
  destruct found as [[[m hash] syntax] md]. mbind H t w3 H3. apply answer_ok in H as [H _]. by apply grpc_parts in H as [? _].
Qed.

(** ** Worked definitions *)

Definition proto_text (lines : list string) : string := join newline (("syntax = " +:+ double_quote +:+ "proto3" +:+ double_quote +:+ ";") :: "package shop;" :: lines).

Definition orders_proto : string := proto_text [
  "message Item { string sku = 1; int32 count = 2; }";
  "enum Status { OPEN = 0; }";
  "message Order {";
  "  string id = 1; // the key";
  "  repeated Item items = 2;";
  "  Status status = 3;";
  "  message Note {";
  "    string text = 1;";
  "  }";
  "}";
  "service Orders {";
  "  rpc GetOrder (Order) returns (Order);";
  "  rpc WatchOrders (Order) returns (stream Order) { option deadline = 5; }";
  "  rpc UploadOrders (stream Order) returns (Order) {}";
  "  rpc Chat (stream Order) returns (stream Order);";
  "}"].

Example orders_read : _extract_pattern_value _SYNTAX_PATTERN orders_proto "" = "proto3"
  ∧ pm_package (text_model orders_proto) = "shop" ∧ pm_enums (text_model orders_proto) = ["Status"]
  ∧ (λ s, (ps_name s, (λ r, (rpc_name r, rpc_client_streaming r, rpc_server_streaming r)) <$> ps_rpcs s)) <$> pm_services (text_model orders_proto)
    = [("Orders", [("GetOrder", false, false); ("WatchOrders", false, true); ("UploadOrders", true, false); ("Chat", true, true)])].
Proof. split_and!; vm_compute; reflexivity. Qed.

(** The fields of a nested message are also read as fields of the outer one, and of
    several fields on one line only the first is read. *)
Example nested_fields_leak :
  map (λ kv, (kv.1, map pf_name kv.2)) (pm_messages (text_model orders_proto))
  = [("Item", ["sku"]); ("Order", ["id"; "items"; "status"; "text"]); ("Note", ["text"])].
Proof. vm_compute. reflexivity. Qed.

(** Comments are not removed before services are read. *)
Example commented_rpc_described :
  (λ sr, rpc_name sr.2) <$> all_rpcs (text_model (proto_text ["service S {"; "  // rpc DropAll (A) returns (A);"; "  rpc GetAll (A) returns (A);"; "}"]))
  = ["DropAll"; "GetAll"].
Proof. vm_compute. reflexivity. Qed.

(** Identifiers are the names of RPCs, which services have of their own. *)
Example shared_rpc_name_fails :
  match grpc_description (text_model (proto_text ["service A { rpc Get (X) returns (X); }"; "service B { rpc Get (X) returns (X); }"]))
    false false None "h" "proto3" [] 0 with Ok _ => false | Raise _ => true end = true.
Proof. vm_compute. reflexivity. Qed.

(** Of two reflected messages with one short name, the second keeps the first's fields. *)
Definition shadow_pool : dict Descriptor := [
  ("a.Key", mk_descriptor "a.Key" [mk_field_descriptor "id" (of_scalar t_int32) false false; mk_field_descriptor "next" (of_message "a.Key" false) false false] [] []);
  ("b.Key", mk_descriptor "b.Key" [mk_field_descriptor "name" (of_scalar t_string) false false] [] [])].
Example second_message_lost :
  match _collect_descriptor_types shadow_pool ([], []) (mk_service_descriptor "S" "a" [mk_method_descriptor "Get" "a.Key" "b.Key" false false]) with
  | Ok st => map (λ kv, (kv.1, map pf_name kv.2)) st.1
  | Raise _ => []
  end = [("Key", ["id"; "next"])].
Proof. vm_compute. reflexivity. Qed.

Definition orders_description (enable_client : bool) : outcome exn ServiceIR :=
  grpc_description (text_model orders_proto) false enable_client None "h" "proto3" [] 0.

(** With native streams and unary calls enabled the service is deployed, unless its
    client stream was switched on. *)
Lemma grpc_deployable_witness : ∃ ir ir', orders_description false = Ok ir ∧ orders_description true = Ok ir' ∧
  op_ids ir = ["GetOrder"; "WatchOrders"] ∧ op_ids ir' = ["GetOrder"; "WatchOrders"; "UploadOrders"] ∧
  vr_passed (_validate_event_support true true ir) = true ∧ vr_passed (_validate_event_support true true ir') = false.
Proof.
  unfold orders_description.
  destruct (grpc_description (text_model orders_proto) false false None "h" "proto3" [] 0) as [ir|e] eqn:E; [|vm_compute in E; discriminate E].
  destruct (grpc_description (text_model orders_proto) false true None "h" "proto3" [] 0) as [ir'|e] eqn:E'; [|vm_compute in E'; discriminate E'].
  exists ir, ir'. pose proof (grpc_deployable _ _ _ _ _ _ _ _ _ true true E) as (_ & _ & _ & _ & _ & Hd).
  pose proof (grpc_deployable _ _ _ _ _ _ _ _ _ true true E') as (_ & _ & _ & _ & _ & Hd').
  split; [reflexivity|]. split; [reflexivity|]. split; [vm_compute in E; injection E as <-; reflexivity|].
  split; [vm_compute in E'; injection E' as <-; reflexivity|]. split.
  - apply Hd. assert (forallb (λ sr, deployable false false true true sr.2) (all_rpcs (text_model orders_proto)) = true) as Hall by (vm_compute; reflexivity).
    rewrite forallb_forall in Hall. intros sr Hsr. apply Hall, list_elem_of_In, Hsr.
  - apply not_true_is_false. intros Ht. rewrite Hd' in Ht.
    specialize (Ht ("Orders", mk_rpc "UploadOrders" "Order" "Order" true false)). assert (false = true) as F; [|discriminate F].
    apply Ht. vm_compute. do 2 right. left.
Defined.

Lemma proto_text_described_witness : ∃ ir, grpc_description (text_model orders_proto) true false None "h" "proto3" [] 0 = Ok ir ∧
  op_ids ir = ["GetOrder"].
Proof.
  destruct (proto_text_described orders_proto true false None "h" "proto3" [] 0) as [ir E].
  - vm_compute. discriminate.
  - vm_compute. repeat constructor; set_solver.
  - exists ir. split; [exact E|]. vm_compute in E. injection E as <-. reflexivity.
Defined.
