(* ===== verification/CliOutput.v ===== *)
(** * The CLI output parser ([libs/extractors/cli_output_parser.py])

    The output of a command becomes data: JSON or YAML as their parsers read it, a
    table as one dictionary for each row, and anything else as its text.  The JSON
    and YAML parsers are parameters. *)

From S2P Require Export Scan.
From Stdlib Require Import Ascii.

(** The run of white space a text starts with separates columns: two characters or
    more, or a single tab. *)
Definition separates (s : string) : bool :=
  let run := (take_while is_space s).1 in
  (2 <=? String.length run)%nat || str_eqb run (String (ascii_of_N 9) "").

(** [re.split(r"\s{2,}|\t+", s)]: [skip] characters belong to a separator. *)
Fixpoint split_columns (skip : nat) (s : string) : list string :=
  match s with
  | EmptyString => [""]
  | String c s' =>
      match skip with
      | S k => split_columns k s'
      | O => if is_space c && separates s then "" :: split_columns (String.length (take_while is_space s).1 - 1) s'
             else match split_columns 0 s' with p :: ps => String c p :: ps | [] => [String c ""] end
      end
  end.
Definition columns (line : string) : list string := split_columns 0 line.

(** [re.search(r"^\w[\w\s]*:\s+\S", s, re.MULTILINE)] *)
Definition key_value (s : string) : option unit :=
  match s with
  | String c s' =>
      if is_word c then
        s ← expect ":" (take_while (λ c, is_word c || is_space c) s').2; s ← spaces1 s;
        if str_truthy s then Some tt else None
      else None
  | EmptyString => None
  end.

Definition is_table_line (line : string) : bool := (2 <=? length (columns (strip line)))%nat.
Definition is_separator (stripped : string) : bool := str_all (λ c, bool_decide (c ∈ ["-"%char; "="%char; "+"%char; "|"%char])) stripped.

Section parser.
(** [json.loads] and [yaml.safe_load]: nothing for what they refuse *)
Context (json_loads yaml_load : string → option pyval) (repr : pyval → string).

Definition is_container (v : pyval) : bool := is_dict v || is_list v.

(** [detect_format] *)
Definition detect_format (output : string) : string :=
  let stripped := strip output in
  let lines := splitlines stripped in
  if negb (str_truthy stripped) then "text"
  else if (startswith "{" stripped || startswith "[" stripped) && bool_decide (is_Some (json_loads stripped)) then "json"
  else if bool_decide (is_Some (search_line key_value true stripped))
          && match yaml_load stripped with Some v => is_container v | None => false end then "yaml"
  else match lines with
       | header :: ((_ :: _) as body) => if is_table_line header && existsb is_table_line body then "table" else "text"
       | _ => "text"
       end.

Definition _parse_json (output : string) : pyval :=
  match json_loads (strip output) with
  | Some v => if is_container v then v else VStr (py_str repr v)
  | None => VStr output
  end.

Definition _parse_yaml (output : string) : pyval :=
  match yaml_load (strip output) with
  | Some VNone | None => VStr output
  | Some v => if is_container v then v else VStr (py_str repr v)
  end.

Definition table_headers (line : string) : list string :=
  (λ h, str_replace " " "_" (lower (strip h))) <$> List.filter (λ h, str_truthy (strip h)) (columns (strip line)).

Definition table_row (headers : list string) (line : string) : option pyval :=
  let stripped := strip line in
  if negb (str_truthy stripped) || is_separator stripped then None
  else
    let values := columns stripped in
    Some (VDict (dict_of_list (imap (λ i h, (h, VStr match values !! i with Some v => strip v | None => "" end)) headers))).

Definition _parse_table (output : string) : list pyval :=
  match splitlines (strip output) with
  | header :: ((_ :: _) as rows) => omap (table_row (table_headers header)) rows
  | lines => (λ line, VDict [("line", VStr line)]) <$> lines
  end.

(** [parse_output] *)
Definition parse_output (output fmt : string) : pyval :=
  let fmt := if str_eqb fmt "auto" then detect_format output else fmt in
  if str_eqb fmt "json" then _parse_json output
  else if str_eqb fmt "yaml" then _parse_yaml output
  else if str_eqb fmt "table" then VList (_parse_table output)
  else VStr output.
End parser.

(** ** Tables are read back *)

(** A cell: words with one space between them *)
Definition is_wordy (w : string) : Prop := w ≠ "" ∧ Forall (λ c, is_space c = false) (chars w).
Definition is_cell (s : string) : Prop := ∃ w ws, Forall is_wordy (w :: ws) ∧ s = join " " (w :: ws).

Fixpoint blanks (n : nat) : string := match n with O => "" | S n => String " " (blanks n) end.
(** A line of cells, each but the first after two spaces or more *)
Definition row_text (first : string) (rest : list (nat * string)) : string :=
  foldr (λ nc t, nc +:+ t) "" (first :: ((λ nc, blanks (2 + nc.1) +:+ nc.2) <$> rest)).

Definition prepend (s : string) (l : list string) : list string := match l with p :: ps => (s +:+ p) :: ps | [] => [s] end.

Lemma columns_cons s : ∃ p ps, columns s = p :: ps.
Proof.
  unfold columns. assert (∀ k, ∃ p ps, split_columns k s = p :: ps) as H; [|apply H]. induction s as [|c s IH]; intros k; [by eexists _, _|].
  cbn. destruct k; [|apply IH]. destruct (_ && _); [by eexists _, _|]. destruct (IH O) as (p & ps & ->). by eexists _, _.
Qed.

Lemma wordy_columns w t : is_wordy w → columns (w +:+ t) = prepend w (columns t).
Proof.
  intros [_ Hw]. induction w as [|c w IH]; cbn [chars] in Hw.
  - by destruct (columns_cons t) as (p & ps & E); rewrite E.
  - apply Forall_cons in Hw as [Hc Hw]. rewrite app_cons. unfold columns in *. cbn [split_columns]. rewrite Hc. cbn [andb].
    rewrite (IH Hw). by destruct (split_columns 0 t).
Qed.

Lemma prepend_prepend a b l : prepend a (prepend b l) = prepend (a +:+ b) l.
Proof. destruct l; cbn; [done|]. by rewrite str_app_assoc. Qed.

(** A text that does not start with white space *)
Definition starts_text (t : string) : Prop := match t with String c _ => is_space c = false | EmptyString => False end.

Lemma take_blanks n t : starts_text t → take_while is_space (blanks n +:+ t) = (blanks n, t).
Proof.
  intros Ht. induction n as [|n IH].
  - destruct t as [|c t]; [done|]. change (blanks 0 +:+ String c t) with (String c t). cbn [take_while]. unfold starts_text in Ht. by rewrite Ht.
  - change (blanks (S n) +:+ t) with (String " " (blanks n +:+ t)). cbn [take_while]. change (is_space " ") with true. by rewrite IH.
Qed.

Lemma blanks_length n : String.length (blanks n) = n.
Proof. induction n as [|n IH]; [done|]. cbn. by rewrite IH. Qed.

Lemma skip_columns u t : split_columns (String.length u) (u +:+ t) = split_columns 0 t.
Proof. induction u as [|c u IH]; [done|]. rewrite app_cons. cbn. done. Qed.

Lemma one_space_columns t : starts_text t → columns (" " +:+ t) = prepend " " (columns t).
Proof.
  intros Ht. unfold columns. change (" " +:+ t) with (String " " t). cbn [split_columns]. unfold separates.
  change (String " " t) with (blanks 1 +:+ t). rewrite take_blanks by done. cbn. by destruct (split_columns 0 t).
Qed.

Lemma gap_columns n t : starts_text t → columns (blanks (2 + n) +:+ t) = "" :: columns t.
Proof.
  intros Ht. unfold columns. change (blanks (2 + n) +:+ t) with (String " " (blanks (S n) +:+ t)). cbn [split_columns].
  change (String " " (blanks (S n) +:+ t)) with (blanks (2 + n) +:+ t). unfold separates. rewrite take_blanks by done. cbn [fst].
  rewrite blanks_length. change (2 + n - 1)%nat with (S n - 0)%nat. rewrite Nat.sub_0_r.
  change (is_space " ") with true. change (2 <=? 2 + n)%nat with true. cbn [andb orb]. f_equal.
  change (String " " (blanks n +:+ t)) with (blanks (S n) +:+ t). rewrite <-(blanks_length (S n)) at 1. apply skip_columns.
Qed.

Lemma wordy_starts w t : is_wordy w → starts_text (w +:+ t).
Proof. intros [Hne Hw]. destruct w as [|c w]; [done|]. cbn. by apply Forall_cons in Hw as [? _]. Qed.

Lemma cell_columns s t : is_cell s → columns (s +:+ t) = prepend s (columns t) ∧ starts_text (s +:+ t).
Proof.
  intros (w & ws & Hw & ->). revert w Hw. induction ws as [|w' ws IH]; intros w [Hw Hws]%Forall_cons.
  - split; [by apply wordy_columns|by apply wordy_starts].
  - change (join " " (w :: w' :: ws)) with (w +:+ " " +:+ join " " (w' :: ws)). destruct (IH w' Hws) as [Hc Hs].
    rewrite <-!str_app_assoc. split; [|by apply wordy_starts].
    rewrite wordy_columns, one_space_columns, Hc by done. by rewrite !prepend_prepend, <-?str_app_assoc.
Qed.

Definition row_cells (first : string) (rest : list (nat * string)) : Prop := is_cell first ∧ Forall (λ nc, is_cell nc.2) rest.

Lemma row_columns first rest : row_cells first rest →
  columns (row_text first rest) = first :: rest.*2 ∧ starts_text (row_text first rest).
Proof.
  intros [Hf Hr]. revert first Hf. induction Hr as [|[n c] rest Hc _ IH]; intros first Hf.
  - unfold row_text. cbn [fmap list_fmap foldr]. destruct (cell_columns first "" Hf) as [-> Hs]. split; [|done]. cbn. by rewrite str_app_empty.
  - change (row_text first ((n, c) :: rest)) with (first +:+ (blanks (2 + n) +:+ c) +:+ foldr (λ nc t, nc +:+ t) "" ((λ nc, blanks (2 + nc.1) +:+ nc.2) <$> rest)).
    rewrite <-str_app_assoc. change (c +:+ foldr _ "" _) with (row_text c rest). destruct (IH c Hc) as [E Hs].
    destruct (cell_columns first (blanks (2 + n) +:+ row_text c rest) Hf) as [-> Hs']. split; [|done].
    rewrite gap_columns, E by done. cbn. by rewrite str_app_empty.
Qed.

Lemma rstrip_after s t : rstrip t = t → t ≠ "" → rstrip (s +:+ t) = s +:+ t.
Proof.
  intros Ht Hne. induction s as [|c s IH]; [done|]. rewrite app_cons. cbn [rstrip]. rewrite IH.
  destruct (s +:+ t) eqn:E; [|done]. by destruct s, t.
Qed.
Lemma rstrip_space s t : rstrip t = "" → rstrip (s +:+ t) = rstrip s.
Proof. intros Ht. induction s as [|c s IH]; [done|]. rewrite app_cons. cbn [rstrip]. by rewrite IH. Qed.
Lemma lstrip_starts t : starts_text t → lstrip t = t.
Proof. destruct t as [|c t]; [done|]. cbn. by intros ->. Qed.

(** A line that is not blank at either end and has no breaks *)
Record is_line (s : string) : Prop := {
  il_starts : starts_text s;
  il_ends : rstrip s = s;
  il_breaks : Forall (λ c, is_break c = false) (chars s);
}.

Lemma line_strip s : is_line s → strip s = s.
Proof. intros [Hs He _]. unfold strip. by rewrite lstrip_starts. Qed.
Lemma line_nonempty s : is_line s → s ≠ "".
Proof. intros [Hs _ _]. by destruct s. Qed.

Lemma space_break c : is_space c = false → is_break c = false.
Proof. destruct c as [[] [] [] [] [] [] [] []]; vm_compute; congruence. Qed.

Lemma wordy_line w : is_wordy w → is_line w.
Proof.
  intros [Hne Hw]. split.
  - destruct w; [done|]. by apply Forall_cons in Hw as [? _].
  - clear Hne. induction w as [|c w IH]; [done|]. apply Forall_cons in Hw as [Hc Hw]. cbn [rstrip]. rewrite IH by done. rewrite Hc. by destruct w.
  - eapply Forall_impl; [exact Hw|]. apply space_break.
Qed.

(** Lines with blanks between them *)
Lemma line_after s n t : is_line s → is_line t → is_line (s +:+ blanks n +:+ t).
Proof.
  intros [Hs _ Hb] Ht. pose proof (line_nonempty _ Ht). destruct Ht as [Hs' He' Hb']. split.
  - by destruct s.
  - rewrite str_app_assoc. by apply rstrip_after.
  - rewrite !chars_app, !Forall_app. split_and!; [done| |done]. clear. induction n; [constructor|by constructor].
Qed.

Lemma cell_line s : is_cell s → is_line s.
Proof.
  intros (w & ws & Hw & ->). revert w Hw. induction ws as [|w' ws IH]; intros w [Hw Hws]%Forall_cons; [by apply wordy_line|].
  change (join " " (w :: w' :: ws)) with (w +:+ blanks 1 +:+ join " " (w' :: ws)). apply line_after; [by apply wordy_line|by apply IH].
Qed.

Lemma row_line first rest : row_cells first rest → is_line (row_text first rest).
Proof.
  intros [Hf Hr]. revert first Hf. induction Hr as [|[n c] rest Hc _ IH]; intros first Hf.
  - unfold row_text. cbn [fmap list_fmap foldr]. rewrite str_app_empty. by apply cell_line.
  - change (row_text first ((n, c) :: rest)) with (first +:+ (blanks (2 + n) +:+ c) +:+ foldr (λ nc t, nc +:+ t) "" ((λ nc, blanks (2 + nc.1) +:+ nc.2) <$> rest)).
    rewrite <-(str_app_assoc (blanks (2 + n))). change (c +:+ foldr _ "" _) with (row_text c rest).
    apply line_after; [by apply cell_line|by apply IH].
Qed.

Lemma splitlines_newline l t : Forall (λ c, is_break c = false) (chars l) → splitlines (l +:+ newline +:+ t) = l :: splitlines t.
Proof.
  induction l as [|c l IH]; cbn [chars].
  - intros _. change ("" +:+ newline +:+ t) with (String (ascii_of_N 10) t). cbn [splitlines]. change (is_break (ascii_of_N 10)) with true.
    cbv iota. by destruct t.
  - intros [Hc Hl]%Forall_cons. rewrite app_cons. cbn [splitlines]. rewrite Hc, (IH Hl). by destruct l.
Qed.

Lemma splitlines_one l : Forall (λ c, is_break c = false) (chars l) → l ≠ "" → splitlines l = [l].
Proof.
  induction l as [|c l IH]; [done|]. intros [Hc Hl]%Forall_cons _. cbn [splitlines]. rewrite Hc. destruct l; [done|]. by rewrite IH.
Qed.

(** The text of a table *)
Definition lines_text (lines : list string) : string := join newline lines +:+ newline.

Lemma lines_read first rest : Forall is_line (first :: rest) → splitlines (strip (lines_text (first :: rest))) = first :: rest.
Proof.
  intros Hl. assert (starts_text (join newline (first :: rest)) ∧ rstrip (join newline (first :: rest)) = join newline (first :: rest)
    ∧ join newline (first :: rest) ≠ "" ∧ splitlines (join newline (first :: rest)) = first :: rest) as (Hs & He & Hne & Hsplit).
  { revert first Hl. induction rest as [|l rest IH]; intros first [Hf Hl]%Forall_cons.
    - pose proof (line_nonempty _ Hf). destruct Hf as [Hs He Hb]. cbn. split_and!; [done..|by apply splitlines_one].
    - destruct (IH l Hl) as (Hs & He & Hne & Hsplit). destruct Hf as [Hs' _ Hb].
      change (join newline (first :: l :: rest)) with (first +:+ newline +:+ join newline (l :: rest)).
      rewrite splitlines_newline, Hsplit by done. split_and!; [by destruct first| |by destruct first|done].
      rewrite str_app_assoc. by apply rstrip_after. }
  unfold lines_text, strip. rewrite lstrip_starts, rstrip_space, He by (try done; by destruct (join newline (first :: rest))). done.
Qed.

(** The key a header gives *)
Definition header_key (h : string) : string := str_replace " " "_" (lower h).
Definition cells (r : string * list (nat * string)) : list string := r.1 :: r.2.*2.
Definition text_of (r : string * list (nat * string)) : string := row_text r.1 r.2.
(** What a row is read as *)
Definition row_of (h r : string * list (nat * string)) : pyval := VDict (zip (header_key <$> cells h) (VStr <$> cells r)).

Lemma cells_strip r : row_cells r.1 r.2 → Forall (λ c, strip c = c ∧ c ≠ "") (cells r).
Proof.
  intros [Hf Hr]. apply Forall_cons. split.
  - apply cell_line in Hf. split; [by apply line_strip|by apply line_nonempty].
  - apply Forall_fmap. eapply Forall_impl; [exact Hr|]. intros nc Hc%cell_line. split; [by apply line_strip|by apply line_nonempty].
Qed.

Lemma table_headers_keys r : row_cells r.1 r.2 → table_headers (row_text r.1 r.2) = header_key <$> cells r.
Proof.
  intros Hr. unfold table_headers. rewrite line_strip by by apply row_line. destruct (row_columns _ _ Hr) as [-> _]. fold (cells r).
  pose proof (cells_strip r Hr) as Hc. induction Hc as [|c l [Hs Hne] _ IH]; [done|]. cbn [List.filter]. rewrite Hs.
  apply str_truthy_iff in Hne. rewrite Hne. cbn [fmap list_fmap]. by rewrite IH, Hs.
Qed.

Lemma row_values (hs cs : list string) : length hs = length cs → Forall (λ c, strip c = c ∧ c ≠ "") cs →
  imap (λ i h, (h, VStr match cs !! i with Some v => strip v | None => "" end)) hs = zip hs (VStr <$> cs).
Proof.
  revert cs. induction hs as [|h hs IH]; intros [|c cs] Hl Hc; try done. apply Forall_cons in Hc as [[Hs _] Hc].
  cbn [imap fmap list_fmap zip zip_with lookup list_lookup]. rewrite Hs. f_equal. apply IH; [by injection Hl|done].
Qed.

Lemma table_row_cells (h r : string * list (nat * string)) : row_cells r.1 r.2 → r.2 ≠ [] → length (cells r) = length (cells h) →
  NoDup (header_key <$> cells h) →
  table_row (header_key <$> cells h) (text_of r) = Some (row_of h r).
Proof.
  intros Hr Hne Hl Hnd. unfold table_row, text_of. pose proof (row_line _ _ Hr) as Hline. rewrite line_strip by done.
  pose proof (line_nonempty _ Hline) as Ht%str_truthy_iff. rewrite Ht.
  assert (is_separator (row_text r.1 r.2) = false) as ->.
  { destruct r as [f [|[n c] rest]]; [done|]. unfold is_separator.
    change (row_text (f, (n, c) :: rest).1 (f, (n, c) :: rest).2) with
      (f +:+ (String " " (blanks (S n) +:+ c)) +:+ foldr (λ nc t, nc +:+ t) "" ((λ nc, blanks (2 + nc.1) +:+ nc.2) <$> rest)).
    rewrite !str_all_app. cbn. by rewrite andb_false_r. }
  cbn [negb orb]. destruct (row_columns _ _ Hr) as [-> _]. fold (cells r). unfold row_of. f_equal. f_equal.
  rewrite row_values by (first [by rewrite length_fmap|by apply cells_strip]). apply dict_of_list_wf_id. unfold dict_wf, dict_keys.
  rewrite fst_zip; [done|]. rewrite !length_fmap. lia.
Qed.

Lemma rows_read h rows : NoDup (header_key <$> cells h) →
  Forall (λ r : string * list (nat * string), row_cells r.1 r.2 ∧ r.2 ≠ [] ∧ length (cells r) = length (cells h)) rows →
  omap (table_row (header_key <$> cells h)) (text_of <$> rows) = row_of h <$> rows.
Proof.
  intros Hnd. induction 1 as [|r rs (Hr & Hr2 & Hl) _ IH]; [done|]. cbn [fmap list_fmap omap list_omap].
  rewrite table_row_cells by done. by rewrite <-IH.
Qed.

(** A printed table is read back.  For a table of two columns or more, printed
    with at least two spaces between the cells of a line, where a cell is one or
    more words with single spaces between them, parsing the output gives one
    dictionary for each row, in order, with the normalised headers as its keys, in
    order, and the row's cells as their values. *)
Theorem table_roundtrip json_loads yaml_load repr (h : string * list (nat * string)) rows :
  row_cells h.1 h.2 → NoDup (header_key <$> cells h) → rows ≠ [] →
  Forall (λ r : string * list (nat * string), row_cells r.1 r.2 ∧ r.2 ≠ [] ∧ length (cells r) = length (cells h)) rows →
  parse_output json_loads yaml_load repr (lines_text (text_of h :: (text_of <$> rows))) "table" = VList (row_of h <$> rows).
Proof.
  intros Hh Hnd Hne Hrows. unfold parse_output.
  change (str_eqb "table" "auto") with false. change (str_eqb "table" "json") with false. change (str_eqb "table" "yaml") with false.
  change (str_eqb "table" "table") with true. cbv iota zeta. f_equal. unfold _parse_table. rewrite lines_read.
  2: { apply Forall_cons. split; [by apply row_line|]. apply Forall_fmap. eapply Forall_impl; [exact Hrows|]. intros r (Hr & _). by apply row_line. }
  destruct rows as [|r rows]; [done|]. rewrite <-(rows_read h (r :: rows)) by done. rewrite (fmap_cons text_of).
  change (table_headers (text_of h)) with (table_headers (row_text h.1 h.2)). by rewrite <-(table_headers_keys h).
Qed.

(** ** Worked outputs *)

Definition ps_table : string := lines_text ["PID   CPU TIME   COMMAND"; "1     0:01       init"; "42    1:10       sh run"].

Lemma table_roundtrip_witness :
  ps_table = lines_text (text_of ("PID", [(1, "CPU TIME"); (1, "COMMAND")]) :: (text_of <$>
    [("1", [(3, "0:01"); (5, "init")]); ("42", [(2, "1:10"); (5, "sh run")])]))%nat ∧
  parse_output (λ _, None) (λ _, None) (λ _, "") ps_table "table" = VList [
    VDict [("pid", VStr "1"); ("cpu_time", VStr "0:01"); ("command", VStr "init")];
    VDict [("pid", VStr "42"); ("cpu_time", VStr "1:10"); ("command", VStr "sh run")]].
Proof.
  assert (∀ s w ws, forallb (λ w, str_truthy w && forallb (λ c, negb (is_space c)) (chars w)) (w :: ws) = true → s = join " " (w :: ws) → is_cell s) as Hcell.
  { intros s w ws Hw ->. exists w, ws. split; [|reflexivity]. apply Forall_forall. intros x Hx. rewrite forallb_forall in Hw.
    apply list_elem_of_In, Hw, andb_true_iff in Hx as [H1 H2]. split; [by apply str_truthy_iff|].
    apply Forall_forall. intros c Hc. rewrite forallb_forall in H2. apply list_elem_of_In, H2 in Hc. by apply negb_true_iff. }
  split; [vm_compute; reflexivity|].
  exact (table_roundtrip (λ _, None) (λ _, None) (λ _, "") ("PID", [(1%nat, "CPU TIME"); (1%nat, "COMMAND")])
    [("1", [(3%nat, "0:01"); (5%nat, "init")]); ("42", [(2%nat, "1:10"); (5%nat, "sh run")])]
    ltac:(split; [by apply (Hcell _ "PID" [])|repeat constructor; [by apply (Hcell _ "CPU" ["TIME"])|by apply (Hcell _ "COMMAND" [])]])
    ltac:(vm_compute; repeat constructor; set_solver) ltac:(discriminate)
    ltac:(repeat (apply Forall_cons; split; [split_and!; [split; [|repeat (apply Forall_cons; split; [|]); [..|by constructor]]|discriminate|reflexivity]|]);
          [by apply (Hcell _ "1" [])|by apply (Hcell _ "0:01" [])|by apply (Hcell _ "init" [])|by apply (Hcell _ "42" [])|by apply (Hcell _ "1:10" [])
          |by apply (Hcell _ "sh" ["run"])|by constructor])).
Defined.

(** A line under the headers is skipped only if it is one column wide. *)
Example underline_is_a_row :
  _parse_table (lines_text ["A   B"; "---------"; "1   2"]) = [VDict [("a", VStr "1"); ("b", VStr "2")]] ∧
  _parse_table (lines_text ["A   B"; "--  --"; "1   2"]) = [VDict [("a", VStr "--"); ("b", VStr "--")]; VDict [("a", VStr "1"); ("b", VStr "2")]].
Proof. split; vm_compute; reflexivity. Qed.

(** An empty cell moves the ones after it to the left. *)
Example empty_cell_shifts :
  _parse_table (lines_text ["NAME   OWNER   SIZE"; "a              7"]) = [VDict [("name", VStr "a"); ("owner", VStr "7"); ("size", VStr "")]].
Proof. vm_compute. reflexivity. Qed.

(** What is recognised as JSON is JSON, and is returned as it was read. *)
Lemma json_detected json_loads yaml_load repr output : detect_format json_loads yaml_load output = "json" →
  ∃ v, json_loads (strip output) = Some v ∧ (is_container v = true → parse_output json_loads yaml_load repr output "auto" = v).
Proof.
  intros H. assert (∃ v, json_loads (strip output) = Some v) as [v Hv].
  { unfold detect_format in H. destruct (negb _); [done|]. destruct (_ && bool_decide (is_Some _)) eqn:E.
    - apply andb_true_iff in E as [_ [v Hv]%bool_decide_eq_true]. by exists v.
    - by repeat case_match. }
  exists v. split; [done|]. intros Hc. unfold parse_output. change (str_eqb "auto" "auto") with true. cbv iota zeta. rewrite H.
  change (str_eqb "json" "json") with true. cbv iota. unfold _parse_json. by rewrite Hv, Hc.
Qed.
