(* ===== verification/CliExtractor.v ===== *)
(** * The CLI extractor ([libs/extractors/cli.py])

    The commands of a [.cli.yaml] or [.cli.json] specification become operations
    with a command line for a contract.  The JSON and YAML parsers are parameters,
    as is what pydantic reads as an integer; specifications have text keys. *)

From S2P Require Export ExtractorKit RuntimeProxy.
From Stdlib Require Import Ascii.

Definition _SAFE_PREFIXES : list string := ["get"; "list"; "query"; "fetch"; "describe"; "find"; "search"; "count"; "show"; "read"].
Definition _DANGEROUS_PREFIXES : list string := ["delete"; "remove"; "purge"; "drop"; "destroy"].

(** [_TYPE_MAP.get(raw_type, "string")] *)
Definition cli_type : pyval → outcome exn string := _TYPE_MAP.

Definition _json_schema_for_param (arg : dict pyval) (ir_type : string) : option (dict pyval) :=
  if str_eqb ir_type "object" then
    let properties := get_or_none arg "properties" in
    if truthy properties then
      Some ([("type", VStr "object"); ("properties", properties)]
            ++ (let required := get_or_none arg "required_fields" in if truthy required then [("required", required)] else []))
    else None
  else if str_eqb ir_type "array" then
    let items := get_default arg "items" (VDict []) in
    Some [("type", VStr "array"); ("items", if truthy items then items else typed_schema "string")]
  else None.

(** [RiskLevel(v)], unknown for what it refuses *)
Definition risk_level_of (v : pyval) : RiskLevel :=
  match v with
  | VStr s => if str_eqb s "safe" then safe else if str_eqb s "cautious" then cautious else if str_eqb s "dangerous" then dangerous else unknown
  | _ => unknown
  end.

(** The last segment of a command's name *)
Definition last_segment (name : string) : string := default "" (last (split_on "_"%char (str_replace "-" "_" (lower name)))).
Definition starts_with_any (prefixes : list string) (s : string) : bool := existsb (λ p, startswith p s) prefixes.

Definition _classify_risk (command_name : string) (risk_spec : pyval) : outcome exn RiskMetadata :=
  match risk_spec with
  | VNone =>
      let segment := last_segment command_name in
      Ok (if starts_with_any _SAFE_PREFIXES segment then mk_risk (Some false) (Some false) None None safe 0x1.6666666666666p-1 src_extractor
          else if starts_with_any _DANGEROUS_PREFIXES segment then mk_risk (Some true) (Some true) None None dangerous 0x1.6666666666666p-1 src_extractor
          else mk_risk (Some true) (Some false) None None cautious 0x1p-1 src_extractor)
  | VDict spec =>
      let flag k dflt := Some (truthy (get_default spec k (VBool dflt))) in
      Ok (mk_risk (flag "writes_state" false) (flag "destructive" false) (flag "external_side_effect" false) (flag "idempotent" true)
            (risk_level_of (get_default spec "risk_level" (VStr "unknown"))) high src_extractor)
  | _ => Raise (attribute_error "get")
  end.

(** [for x in v] *)
Definition iterated (v : pyval) : outcome exn (list pyval) :=
  match v with
  | VList l => Ok l
  | VDict d => Ok (VStr <$> dict_keys d)
  | VStr s => Ok ((λ c, VStr (String c "")) <$> chars s)
  | _ => Raise (type_error "object is not iterable")
  end.

(** [list[str]] and [dict[str, str]] fields *)
Definition texts_field (v : pyval) : outcome exn (list string) :=
  match v with VList l => traverse (text_field "CliOperationConfig") l | _ => Raise (field_error "CliOperationConfig") end.
Definition text_map_field (v : pyval) : outcome exn (dict string) :=
  match v with
  | VDict d => traverse (λ kv, let! s := text_field "CliOperationConfig" kv.2 in Ok (kv.1, s)) d
  | _ => Raise (field_error "CliOperationConfig")
  end.

Definition cli_error (code description : string) (fields : list (string * string)) : ErrorResponse :=
  coded_error code description (Some (object_of ((λ f, (f.1, typed_schema f.2)) <$> fields))).
Definition cli_errors : ErrorSchema :=
  mk_error_schema [cli_error "nonzero_exit" "Command exited with a non-zero exit code" [("exit_code", "integer"); ("stderr", "string")];
                   cli_error "timeout" "Command execution exceeded the configured timeout" [("error", "string"); ("timeout_seconds", "number")];
                   cli_error "not_found" "Command executable was not found on PATH" [("error", "string"); ("command", "string")]]
    (Some (object_of [("exit_code", typed_schema "integer"); ("stderr", typed_schema "string")])).

Section commands.
Context (repr : pyval → string) (read_int : pyval → option Z).

Definition argument_param (arg : pyval) : outcome exn (option Param) :=
  match arg with
  | VDict d =>
      let arg_name := get_or_none d "name" in
      if negb (truthy arg_name) then Ok None
      else
        let! ir_type := cli_type (get_default d "type" (VStr "string")) in
        Ok (Some (extracted (py_str repr arg_name) ir_type (truthy (get_default d "required" (VBool false)))
                    (py_str repr (get_default d "description" (VStr ""))) (get_or_none d "default") (_json_schema_for_param d ir_type) 1))
  | _ => Ok None
  end.

(** The contract of a command *)
Definition command_config (cmd : dict pyval) (base_command : string) : outcome exn CliOperationConfig :=
  let! subcommands := texts_field (get_default cmd "subcommands" (VList [])) in
  let! args_style := text_field "CliOperationConfig" (get_default cmd "args_style" (VStr "gnu")) in
  let! env_vars := text_map_field (get_default cmd "env_vars" (VDict [])) in
  let! timeout := match read_int (get_default cmd "timeout_seconds" (VInt 30)) with
                  | Some n => Ok n | None => Raise (field_error "CliOperationConfig") end in
  let! sandbox_mode := text_field "CliOperationConfig" (get_default cmd "sandbox_mode" (VStr "none")) in
  let! output_format := text_field "CliOperationConfig" (get_default cmd "output_format" (VStr "auto")) in
  let config := mk_cli base_command subcommands args_style env_vars None timeout sandbox_mode output_format in
  if CliOperationConfig_fields config then Ok config else Raise (field_error "CliOperationConfig").

Definition _command_to_operation (base_command service_name : string) (cmd : dict pyval) : outcome exn (option Operation) :=
  let name := get_or_none cmd "name" in
  if negb (truthy name) then Ok None
  else
    let! args := iterated (get_default cmd "args" (VList [])) in
    let! params := traverse argument_param args in
    let! config := command_config cmd base_command in
    let! risk := _classify_risk (py_str repr name) (get_or_none cmd "risk") in
    Ok (Some (mk_operation (slugify (service_name +:+ "_" +:+ py_str repr name)) (py_str repr name)
                (py_str repr (get_default cmd "description" (VStr ""))) None None (omap id params) None cli_errors [] risk plain_strategy body_json
                None None None None None None None (Some config) None [] None src_extractor 1 None true)).

(** [extract] after the content is parsed *)
Definition cli_description (data : dict pyval) (source_url : option string) (source_hash : string) (now : Z) : outcome exn ServiceIR :=
  match get_or_none data "commands" with
  | VList commands =>
      let service_name := slugify (py_str repr (get_default data "name" (VStr "cli-tool"))) in
      let base_command := py_str repr (get_default data "base_command" (VStr service_name)) in
      let! found := traverse (_command_to_operation base_command service_name) (omap as_dict commands) in
      let operations := omap id found in
      describe "cli" service_name (py_str repr (get_default data "description" (VStr ""))) "" (plain_auth no_auth) source_url source_hash
        operations [] [("service_version", VStr (py_str repr (get_default data "version" (VStr "0.0.0"))));
                       ("base_command", VStr base_command); ("command_count", VInt (Z.of_nat (length operations)))] now
  | _ => Raise (value_error "CLI spec: missing or invalid 'commands' list")
  end.

Section extractor.
Context {W : Type} (read_text : string → comp W exn string) (httpx_get : string → dict string → comp W exn response).
(** [json.loads] and [yaml.safe_load]: nothing for what they refuse *)
Context (json_loads yaml_load : string → option pyval) (sha256_hex : string → string) (now : W → Z).

(** [_try_parse]: JSON first, then YAML *)
Definition _try_parse (content : string) : option (dict pyval) :=
  match json_loads content ≫= as_dict with
  | Some d => Some d
  | None => yaml_load content ≫= as_dict
  end.

Definition cli_extract (source : SourceConfig) : comp W exn ServiceIR :=
  content <- get_content read_text httpx_get source ;;
  match content with
  | None => raise (value_error "CLI spec: no content available from source")
  | Some text =>
      match _try_parse text with
      | None => raise (value_error "CLI spec: content is not valid YAML or JSON")
      | Some data => t <- gets now ;; answer (cli_description data (sc_url source) (sha256_hex text) t)
      end
  end.

Definition cli_detect (source : SourceConfig) : comp W exn float :=
  if bool_decide (dict_get (sc_hints source) "protocol" = Some "cli") then ret 0x1.e666666666666p-1%float
  else if match named (sc_file_path source) with
          | Some p => existsb (λ e, endswith e (lower p)) [".cli.yaml"; ".cli.yml"; ".cli.json"]
          | None => false
          end then ret high
  else
    content <- get_content read_text httpx_get source ;;
    ret match content with
        | None => 0%float
        | Some text =>
            if match named (sc_file_content source) with
               | Some c => str_contains ".cli.yaml" (lower c) || str_contains ".cli.json" (lower c)
               | None => false
               end then high
            else match _try_parse text with
                 | Some data => if is_list (get_or_none data "commands") then 0x1.b333333333333p-1%float else 0%float
                 | None => 0%float
                 end
        end.

Definition CLIExtractor : ExtractorProtocol W := mk_extractor "cli" cli_detect cli_extract None.
End extractor.
End commands.

(** ** What an extracted description holds *)

Section soundness.
Context (repr : pyval → string) (read_int : pyval → option Z).

(** A command with a name, and the names of its arguments *)
Definition is_named (d : dict pyval) : bool := truthy (get_or_none d "name").
Definition argument_names (cmd : dict pyval) : list string :=
  (λ d, py_str repr (get_or_none d "name")) <$> List.filter is_named (omap as_dict (match get_default cmd "args" (VList []) with VList l => l | _ => [] end)).

(** The operation of a command: a command line that starts with the base command
    and the command's own words, run for a bounded time; disabled if its risk was
    given and is not known, and classified by its name if none was given. *)
Record command_call (base service : string) (cmd : dict pyval) (o : Operation) : Prop := {
  cc_id : op_id o = slugify (service +:+ "_" +:+ py_str repr (get_or_none cmd "name"));
  cc_path : op_method o = None ∧ op_path o = None;
  cc_params : pa_name <$> op_params o = argument_names cmd;
  cc_line : ∃ c, op_cli o = Some c ∧ texts_field (get_default cmd "subcommands" (VList [])) = Ok (cl_subcommands c) ∧
    1 ≤ cl_timeout_seconds c ≤ 3600 ∧ ∀ args, ∃ flags, _build_command repr c args = base :: cl_subcommands c ++ flags;
  cc_enabled : op_enabled o = true ↔ rm_risk_level (op_risk o) ≠ unknown;
  cc_risk : get_or_none cmd "risk" = VNone →
    (rm_risk_level (op_risk o) = safe ↔ starts_with_any _SAFE_PREFIXES (last_segment (py_str repr (get_or_none cmd "name"))) = true) ∧ op_enabled o = true;
}.

Lemma argument_params l params : traverse (argument_param repr) l = Ok params →
  pa_name <$> omap id params = (λ d, py_str repr (get_or_none d "name")) <$> List.filter is_named (omap as_dict l).
Proof.
  intros H%traverse_ok. induction H as [|v p vs ps Hv _ IH]; [done|]. unfold argument_param in Hv.
  destruct v as [| | | | | |d]; try (by injection Hv as <-).
  change (omap as_dict (VDict d :: vs)) with (d :: omap as_dict vs). cbn [List.filter]. unfold is_named at 1.
  destruct (truthy (get_or_none d "name")); cbn [negb] in Hv; [|by injection Hv as <-].
  apply obind_ok in Hv as (t & _ & Hv). injection Hv as <-. change (omap id (Some ?x :: ps)) with (x :: omap id ps).
  rewrite !fmap_cons. by f_equal.
Qed.

Lemma not_list_unnamed v l : iterated v = Ok l → is_list v = false → omap as_dict l = [].
Proof.
  intros H Hl. destruct v as [| | | |s|l'|d]; try done; injection H as <-.
  - induction (chars s) as [|c cs IH]; [done|]. exact IH.
  - induction (dict_keys d) as [|k ks IH]; [done|]. exact IH.
Qed.

Lemma classified_known name risk : _classify_risk name VNone = Ok risk →
  rm_risk_level risk ≠ unknown ∧ (rm_risk_level risk = safe ↔ starts_with_any _SAFE_PREFIXES (last_segment name) = true).
Proof.
  intros H. assert (∀ a b : RiskMetadata, (Ok a : outcome exn RiskMetadata) = Ok b → a = b) as Hok by congruence.
  apply Hok in H as <-. clear Hok.
  destruct (starts_with_any _SAFE_PREFIXES (last_segment name)), (starts_with_any _DANGEROUS_PREFIXES (last_segment name));
    cbn; repeat split; intros; congruence.
Qed.

Lemma unknown_keeps_risk o : op_risk (unknown_risk_must_be_disabled o) = op_risk o.
Proof. unfold unknown_risk_must_be_disabled. by destruct (rm_risk_level (op_risk o)), (op_enabled o). Qed.

Lemma command_built base service cmd o : _command_to_operation repr read_int base service cmd = Ok (Some o) →
  is_named cmd = true ∧ command_call base service cmd (unknown_risk_must_be_disabled o).
Proof.
  unfold _command_to_operation. cbv zeta. fold (is_named cmd). destruct (is_named cmd); [|done]. cbn [negb]. intros H. split; [done|].
  apply obind_ok in H as (args & Ha & H). apply obind_ok in H as (params & Hp & H). apply obind_ok in H as (c & Hc & H).
  apply obind_ok in H as (risk & Hr & H). injection H as <-. apply argument_params in Hp.
  assert (op_enabled (unknown_risk_must_be_disabled (mk_operation (slugify (service +:+ "_" +:+ py_str repr (get_or_none cmd "name")))
    (py_str repr (get_or_none cmd "name")) (py_str repr (get_default cmd "description" (VStr ""))) None None (omap id params) None cli_errors [] risk
    plain_strategy body_json None None None None None None None (Some c) None [] None src_extractor 1 None true)) = negb (bool_decide (rm_risk_level risk = unknown))) as Hen.
  { unfold unknown_risk_must_be_disabled. cbn [op_risk op_enabled]. by destruct (rm_risk_level risk). }
  split.
  1-4: unfold unknown_risk_must_be_disabled; cbn [op_risk].
  - by destruct (rm_risk_level risk).
  - by destruct (rm_risk_level risk).
  - assert (pa_name <$> omap id params = argument_names cmd) as E; [|by destruct (rm_risk_level risk)].
    rewrite Hp. unfold argument_names. destruct (is_list (get_default cmd "args" (VList []))) eqn:El.
    + destruct (get_default cmd "args" (VList [])); try done. by injection Ha as <-.
    + rewrite (not_list_unnamed _ _ Ha El). by destruct (get_default cmd "args" (VList [])).
  - exists c. unfold command_config in Hc. do 6 (apply obind_ok in Hc as (? & ? & Hc)). destruct (CliOperationConfig_fields _) eqn:Ef; [|done].
    injection Hc as <-. split; [by destruct (rm_risk_level risk)|]. split; [done|]. split.
    + unfold CliOperationConfig_fields in Ef. rewrite !andb_true_iff, !Z.leb_le in Ef. cbn in Ef. cbn. lia.
    + intros flags. eexists. reflexivity.
  - by rewrite Hen, negb_true_iff, bool_decide_eq_false, unknown_keeps_risk.
  - intros E. rewrite E in Hr. apply classified_known in Hr as [Hk Hs]. by rewrite Hen, negb_true_iff, bool_decide_eq_false, unknown_keeps_risk, <-Hs.
Qed.

Lemma commands_built base service l found : traverse (_command_to_operation repr read_int base service) l = Ok found →
  Forall2 (command_call base service) (List.filter is_named l) (unknown_risk_must_be_disabled <$> omap id found).
Proof.
  intros H%traverse_ok. induction H as [|cmd o cs os Ho _ IH]; [by constructor|]. cbn [List.filter]. destruct o as [o|].
  - destruct (command_built _ _ _ _ Ho) as [-> Hc]. by constructor.
  - destruct (is_named cmd) eqn:En; [|done]. exfalso. unfold _command_to_operation in Ho. cbv zeta in Ho. unfold is_named in En. rewrite En in Ho.
    cbn [negb] in Ho. do 4 (apply obind_ok in Ho as (? & _ & Ho)). done.
Qed.

(** A command-line specification becomes its commands.  A description made of one
    is valid and has exactly one operation for each named command, in order: its
    parameters are the command's named arguments, every command line the runtime
    makes of it starts with the base command and the command's own words and runs
    for at most an hour; it is enabled exactly when its risk is known, and without
    a risk of its own it is enabled, and safe exactly when the last segment of its
    name says that it reads. *)
Theorem cli_extraction data source_url source_hash now ir : cli_description repr read_int data source_url source_hash now = Ok ir →
  valid_description "cli" ir ∧ ∃ commands base service, get_or_none data "commands" = VList commands ∧
    base = py_str repr (get_default data "base_command" (VStr service)) ∧ ir_service_name ir = service ∧
    Forall2 (command_call base service) (List.filter is_named (omap as_dict commands)) (ir_operations ir).
Proof.
  unfold cli_description. destruct (get_or_none data "commands") as [| | | | |commands|]; try done. cbv zeta. intros H.
  apply obind_ok in H as (found & Hf & H). split; [by eapply describe_valid|].
  exists commands, (py_str repr (get_default data "base_command" (VStr (slugify (py_str repr (get_default data "name" (VStr "cli-tool"))))))),
    (slugify (py_str repr (get_default data "name" (VStr "cli-tool")))).
  pose proof (describe_fields _ _ _ _ _ _ _ _ _ _ _ _ H) as (_ & _ & Hname & _). split_and!; [done|done|done|].
  apply commands_built in Hf. unfold describe in H. apply validate_service_eq in H as (ops & _ & Hops & -> & _).
  cbn [ir_operations ir_with_operations ir_with] in *. assert (ops = unknown_risk_must_be_disabled <$> omap id found) as ->; [|done].
  clear -Hops. induction Hops as [|o o' l l' Ho _ IH]; [done|]. apply validate_operation_eq in Ho as (-> & _). rewrite fmap_cons. by f_equal.
Qed.
End soundness.

#[global] Instance cli_extracts {W} repr read_int read_text httpx_get json_loads yaml_load sha256_hex (now : W → Z) :
  Extracts (CLIExtractor repr read_int read_text httpx_get json_loads yaml_load sha256_hex now).
Proof.
  intros source w ir w' H. cbn in H. unfold cli_extract in H. mbind H raw w1 H1. destruct raw as [text|]; [|done].
  destruct (_try_parse _ _ _) as [data|]; [|done]. mbind H t w3 H3. apply answer_ok in H as [H _].
  unfold cli_description in H. destruct (get_or_none data "commands") as [| | | | |commands|]; try done. cbv zeta in H.
  apply obind_ok in H as (? & _ & H). by eapply describe_valid.
Qed.

(** ** A worked specification *)

Definition user_tool : dict pyval := [
  ("name", VStr "usertool"); ("base_command", VStr "/usr/bin/ut");
  ("commands", VList [
    VDict [("name", VStr "list"); ("subcommands", vstrs ["user"; "list"]); ("args", VList [VDict [("name", VStr "max_count"); ("type", VStr "integer")]])];
    VDict [("name", VStr "delete-user"); ("args", VList [VDict [("name", VStr "id"); ("required", VBool true)]; VStr "stray"])];
    VDict [("name", VStr "sync"); ("risk", VDict [("writes_state", VBool true)])];
    VDict [("description", VStr "without a name")]])].
Definition read_Z (v : pyval) : option Z := match v with VInt n => Some n | _ => None end.

(** A name of two words is classified by the second: a command that deletes is not
    seen to be destructive.  A risk without a level disables its command. *)
Example delete_user_is_cautious :
  match cli_description (λ _, "") read_Z user_tool None "h" 0 with
  | Ok ir => (λ o, (op_id o, rm_risk_level (op_risk o), rm_destructive (op_risk o), op_enabled o)) <$> ir_operations ir
  | Raise _ => []
  end = [("usertool-list", safe, Some false, true); ("usertool-delete-user", cautious, Some false, true);
         ("usertool-sync", unknown, Some false, false)].
Proof. vm_compute. reflexivity. Qed.

Lemma cli_extraction_witness : ∃ ir, cli_description (λ _, "") read_Z user_tool None "h" 0 = Ok ir ∧ valid_description "cli" ir ∧
  (λ o, (λ c, _build_command (λ _, "") c [("max_count", VInt 3)]) <$> op_cli o) <$> ir_operations ir !! 0%nat
  = Some (Some ["/usr/bin/ut"; "user"; "list"; "--max-count"; "3"]).
Proof.
  destruct (cli_description (λ _, "") read_Z user_tool None "h" 0) as [ir|e] eqn:E; [|vm_compute in E; discriminate E].
  exists ir. split; [reflexivity|]. split; [exact (proj1 (cli_extraction (λ _, "") read_Z user_tool None "h" 0 ir E))|].
  vm_compute in E. injection E as <-. vm_compute. reflexivity.
Defined.
