(* ===== verification/RestEndpoints.v ===== *)
(** * Endpoints of a REST service ([libs/extractors/rest_classification.py],
      [rest_schema.py], and the data and paths of [rest_probing.py])

    What was observed of an endpoint, paths and their parameters, removing the
    concrete paths that a template covers, merging siblings that are values, and
    the operations that endpoints are classified as.  Paths are ASCII. *)

From S2P Require Export Scan.
From Stdlib Require Import Ascii Sorted.

(** ** Observed endpoints *)

Abbreviation names := (gset string).

Record observed_endpoint := mk_observed {
  ob_path : string;
  ob_url : string;
  ob_methods : names;
  ob_sources : names;
  ob_confidence : float;
}.
Record DiscoveredEndpoint := mk_discovered {
  dp_path : string;
  dp_url : string;
  dp_methods : list string;
  dp_sources : list string;
  dp_confidence : float;
}.
Abbreviation observations := (dict observed_endpoint).

Definition _SUPPORTED_METHODS : list string := ["GET"; "POST"; "PUT"; "PATCH"; "DELETE"].

(** [max(a, b)] *)
Definition fmax (a b : float) : float := if PrimFloat.ltb a b then b else a.
Definition sorted_names (s : names) : list string := sorted_strings (elements s).

Definition freeze (e : observed_endpoint) : DiscoveredEndpoint :=
  mk_discovered (ob_path e) (ob_url e) (match sorted_names (ob_methods e) with [] => ["GET"] | l => l end)
    (sorted_names (ob_sources e)) (if PrimFloat.eqb (ob_confidence e) 0 then 0x1p-1%float else ob_confidence e).

Definition merge_endpoint (e : observed_endpoint) (methods sources : names) (confidence : float) : observed_endpoint :=
  mk_observed (ob_path e) (ob_url e) (ob_methods e ∪ methods) (ob_sources e ∪ sources) (fmax (ob_confidence e) confidence).
Definition with_url (e : observed_endpoint) (url : string) : observed_endpoint :=
  mk_observed (ob_path e) url (ob_methods e) (ob_sources e) (ob_confidence e).

(** [target.setdefault(path, _ObservedEndpoint(path=path, absolute_url=url))] *)
Definition endpoint_at (target : observations) (path url : string) : observed_endpoint :=
  default (mk_observed path url ∅ ∅ 0) (dict_get target path).

Definition _register_endpoint (target : observations) (path url : string) (methods : list string) (source : string)
    (confidence : float) : observations :=
  dict_set target path (merge_endpoint (with_url (endpoint_at target path url) url) (list_to_set methods) {[ source ]} confidence).

(** ** Paths *)

(** [unquote(s)] *)
Fixpoint unquote (s : string) : string :=
  match s with
  | String "%"%char (String a (String b s') as t) =>
      match hex_value a, hex_value b with
      | Some x, Some y => String (ascii_of_N (16 * x + y)) (unquote s')
      | _, _ => String "%" (unquote t)
      end
  | String c s' => String c (unquote s')
  | EmptyString => ""
  end.

(** [value.split("?", 1)[0]], [s.rsplit("/", 1)[-1]], and what comes before that *)
Definition before_query (path : string) : string := match split_first "?"%char path with Some (p, _) => p | None => path end.
Definition leaf (path : string) : string := default "" (last (split_on "/"%char path)).
Definition clean_path (path : string) : string := rstrip_char "/"%char (before_query path).
Definition parent_path (path : string) : string := join "/" (removelast (split_on "/"%char path)).
Definition is_template_segment (s : string) : bool := startswith "{" s && endswith "}" s.
Definition segments (path : string) : list string := List.filter str_truthy (split_on "/"%char path).

Definition slugify_or (dflt text : string) : string :=
  let slug := of_chars (rstrip_dashes (drop_dashes (slug_chars false (chars (lower text))))) in
  if str_truthy slug then slug else dflt.
(** [_slugify] *)
Definition _slugify : string → string := slugify_or "rest-service".

Definition with_query (path query : string) : string := if str_truthy query then path +:+ "?" +:+ unquote query else path.

Definition _normalize_path (absolute_url : string) : outcome exn string :=
  let! u := urlparse absolute_url in
  Ok (with_query (unquote (if str_truthy (path u) then path u else "/")) (query u)).

Definition _normalize_classification_path (base_path p : string) : outcome exn string :=
  let! u := urlparse p in
  let raw := unquote (if str_truthy (path u) then path u else "/") in
  let normalized := if startswith "/" raw then raw else "/" +:+ raw in
  let relative :=
    if str_truthy base_path then
      if str_eqb normalized base_path then "/"
      else if startswith (base_path +:+ "/") normalized then drop_str (String.length base_path) normalized else normalized
    else normalized in
  Ok (with_query relative (query u)).

Definition _shared_query_suffix (paths : list string) : outcome exn string :=
  let! queries := traverse (λ p, let! u := urlparse p in Ok (sorted_pairs (parse_qsl (query u)))) paths in
  Ok match queries with
     | [] => ""
     | first :: rest =>
         if existsb (λ q, match q with [] => true | _ => false end) queries || negb (bool_decide (Forall (λ q, q = first) rest)) then ""
         else let encoded := urlencode first in if str_truthy encoded then "?" +:+ encoded else ""
     end.

(** [_PATH_PARAM_PATTERN.findall(path)] *)
Definition path_params (p : string) : list string := placeholders None p.

(** ** Parameters *)

Definition checked_param (p : Param) : outcome exn Param := let! _ := validate_Param p in Ok p.

Definition _params_from_path_and_query (p : string) : outcome exn (list Param) :=
  let! u := urlparse p in
  let! in_path := traverse (λ n, checked_param (extracted n "string" true ("Path parameter extracted from " +:+ path u +:+ ".") VNone None high))
                    (path_params (path u)) in
  let! in_query := traverse (λ kv, checked_param (extracted kv.1 "string" false ("Query parameter extracted from " +:+ query u +:+ ".")
                                      (if str_truthy kv.2 then VStr kv.2 else VNone) None high)) (parse_qsl (query u)) in
  Ok (in_path ++ in_query).

(** [segment[1:-1].strip()] *)
Definition template_name (segment : string) : string := strip (String.substring 1 (String.length segment - 2) segment).

Definition _path_param_defaults_from_endpoint (e : DiscoveredEndpoint) : outcome exn (dict string) :=
  let! t := urlparse (dp_path e) in
  let! c := urlparse (dp_url e) in
  let template_segments := segments (path t) in
  let concrete_segments := unquote <$> segments (path c) in
  Ok (if (length template_segments =? length concrete_segments)%nat then
        dict_of_list (omap (λ tc, if is_template_segment tc.1 && str_truthy (template_name tc.1) then Some (template_name tc.1, tc.2) else None)
                        (zip template_segments concrete_segments))
      else []).

Definition add_path_defaults (base_path : string) (acc : dict (dict string)) (e : DiscoveredEndpoint) : outcome exn (dict (dict string)) :=
  let! defaults := _path_param_defaults_from_endpoint e in
  match defaults with
  | [] => Ok acc
  | _ =>
      let! p := _normalize_classification_path base_path (dp_path e) in
      Ok (if dict_mem acc p then acc else dict_set acc p defaults)
  end.
Definition _path_param_defaults_by_operation_path (endpoints : list DiscoveredEndpoint) (base_path : string) : outcome exn (dict (dict string)) :=
  fold_outcome (add_path_defaults base_path) [] endpoints.

(** ** Classification *)

Record EndpointClassification := mk_classification {
  cf_path : string;
  cf_method : string;
  cf_name : string;
  cf_description : string;
  cf_confidence : float;
  cf_tags : list string;
}.

(** [str.title()] *)
Fixpoint title_from (in_word : bool) (s : string) : string :=
  match s with
  | EmptyString => ""
  | String c s' => String (if in_word then lower_char c else upper_char c) (title_from (is_alpha c) s')
  end.
Definition title : string → string := title_from false.

Definition strip_char (c : ascii) (s : string) : string := rstrip_char c (of_chars (rev (chars (rstrip_char c (of_chars (rev (chars s))))))).
Definition _default_operation_name (method path : string) : string :=
  let label := str_replace "}" "" (str_replace "{" "" (str_replace "/" " " (strip_char "/"%char path))) in
  let label := join " " (split_space label) in
  title method +:+ " " +:+ title (if str_truthy label then label else "root").

(** [re.split(r"[/{}]+", path)] without its empty parts *)
Definition path_parts (path : string) : list string :=
  segments (map_str (λ c, if bool_decide (c ∈ ["{"%char; "}"%char]) then "/"%char else c) path).
Definition _operation_id (method path : string) : string :=
  let slug := join "_" ((λ part, str_replace "-" "_" (_slugify part)) <$> path_parts path) in
  lower method +:+ "_" +:+ (if str_truthy slug then slug else "root").

(** [HeuristicRESTClassifier.classify] *)
Definition classify_method (e : DiscoveredEndpoint) (method : string) : option EndpointClassification :=
  let m := upper method in
  if one_of m _SUPPORTED_METHODS then
    Some (mk_classification (dp_path e) m (_default_operation_name m (dp_path e))
            ("Discovered REST endpoint " +:+ dp_path e +:+ " using " +:+ m +:+ ".") (dp_confidence e) ["rest"; "discovered"])
  else None.
Definition heuristic_classify (endpoints : list DiscoveredEndpoint) : list EndpointClassification :=
  concat ((λ e, omap (classify_method e) (dp_methods e)) <$> endpoints).

(** [_deduplicate_operation_ids]; [seen] counts the operations of an identifier. *)
Fixpoint dedup_ids (seen : dict nat) (ops : list Operation) : list Operation :=
  match ops with
  | [] => []
  | o :: ops' =>
      let count := default 0%nat (dict_get seen (op_id o)) in
      (if (0 <? count)%nat then op_with_identity o (op_id o +:+ "_" +:+ str_of_Z (Z.of_nat count)) (op_name o) else o)
        :: dedup_ids (dict_set seen (op_id o) (S count)) ops'
  end.
Definition _deduplicate_operation_ids (ops : list Operation) : list Operation := dedup_ids [] ops.

Definition _risk_for_method (m : string) : RiskLevel :=
  if str_eqb m "GET" then safe else if one_of m ["POST"; "PUT"; "PATCH"] then cautious else if str_eqb m "DELETE" then dangerous else unknown.

(** The names of a query that are among the hints, in order *)
Definition hinted (query_names : names) (hints : list string) : list string := List.filter (λ h, bool_decide (h ∈ query_names)) hints.
Definition prefer (best : string) (l : list string) (dflt : string) : string := if one_of best l then best else default dflt (head l).

Definition _infer_pagination_from_response (p method : string) : outcome exn (option PaginationConfig) :=
  if negb (str_eqb (upper method) "GET") then Ok None
  else
    let! u := urlparse p in
    let query_names : names := list_to_set ((λ kv, lower kv.1) <$> parse_qsl (query u)) in
    let pagination style page limit cursor := Some (mk_pagination style page (Some limit) cursor None None None None) in
    Ok match hinted query_names ["cursor"; "next"; "page_token"], hinted query_names ["current_page"; "page"; "total_pages"],
             hinted query_names ["limit"; "offset"] with
       | (_ :: _) as l, _, _ => pagination "cursor" None "page_size" (Some (prefer "cursor" l ""))
       | [], (_ :: _) as l, _ =>
           pagination "page" (Some (prefer "page" l "")) (default "page_size" (head (hinted query_names ["page_size"; "per_page"; "size"]))) None
       | [], [], (_ :: _) as l => pagination "offset" (Some (if one_of "offset" l then "offset" else "page"))
                                    (if one_of "limit" l then "limit" else "page_size") None
       | [], [], [] => None
       end.

(** [default] of a parameter without one, where the concrete path gives a value *)
Definition with_default (defaults : dict string) (p : Param) : Param :=
  match pa_default p, dict_get defaults (pa_name p) with
  | VNone, Some v => mk_param (pa_name p) (pa_type p) (pa_required p) (pa_description p) (VStr v) (pa_json_schema p) (pa_source p) (pa_confidence p)
  | _, _ => p
  end.

(** [_classification_to_operation]; [heuristic]: the classifier is the source's own *)
Definition _classification_to_operation (heuristic : bool) (base_path : string) (defaults_by_path : dict (dict string))
    (c : EndpointClassification) : outcome exn Operation :=
  let method := upper (cf_method c) in
  let! normalized_path := _normalize_classification_path base_path (cf_path c) in
  let path := before_query normalized_path in
  let! params := _params_from_path_and_query normalized_path in
  let params := with_default (default [] (dict_get defaults_by_path normalized_path)) <$> params in
  let writes_body := one_of method ["POST"; "PUT"; "PATCH"] && negb (existsb (λ p, str_eqb (pa_name p) "payload") params) in
  let! body := if writes_body then
                 let! p := checked_param (extracted "payload" "object" false "Request body payload for the discovered REST endpoint." VNone None (cf_confidence c)) in
                 Ok [p]
               else Ok [] in
  let! pagination := _infer_pagination_from_response normalized_path method in
  let source := if heuristic then src_extractor else src_llm in
  let writes := one_of method ["POST"; "PUT"; "PATCH"; "DELETE"] in
  Ok (mk_operation (_operation_id method path) (cf_name c) (cf_description c) (Some method) (Some path) (params ++ body) None
        (mk_error_schema [] None) []
        (mk_risk (Some writes) (Some (str_eqb method "DELETE")) (Some writes) (Some (one_of method ["GET"; "PUT"; "DELETE"]))
           (_risk_for_method method) (cf_confidence c) source)
        (mk_strategy pagination None None None trunc_none) body_json (if writes_body then Some "payload" else None)
        None None None None None None None None (cf_tags c) None source (cf_confidence c) None true).

(** ** Concrete paths that a template covers *)

Definition _template_count (p : string) : nat := length (path_params (before_query p)).

(** [regex.fullmatch(clean)] for the pattern of a template *)
Fixpoint segments_match (template concrete : list string) : bool :=
  match template, concrete with
  | [], [] => true
  | t :: ts, c :: cs => (if is_template_segment t then str_truthy c else str_eqb t c) && segments_match ts cs
  | _, _ => false
  end.
Definition covers (template p : string) : bool :=
  segments_match (split_on "/"%char (before_query template)) (split_on "/"%char (before_query p)).

(** The templates, the most general first *)
Definition templates (observed : observations) : list string :=
  sorted_by (λ a b, (_template_count b <=? _template_count a)%nat)
    (List.filter (λ p, (0 <? _template_count p)%nat) (dict_keys observed)).

(** The most general template that covers a path and is more general than it *)
Fixpoint subsuming (l : list string) (p : string) : option string :=
  match l with
  | [] => None
  | t :: l' =>
      if str_eqb t p then subsuming l' p
      else if (_template_count t <=? _template_count p)%nat then None
      else if covers t p then Some t else subsuming l' p
  end.

(** One round of the loop that merges the endpoints *)
Definition merge_subsumed (observed : observations) (merged : observations) (kv : string * observed_endpoint) : observations :=
  let '(p, e) := kv in
  match subsuming (templates observed) p with
  | Some t =>
      match dict_get observed t with
      | Some target => dict_set merged t (merge_endpoint (default target (dict_get merged t)) (ob_methods e) (ob_sources e) (ob_confidence e))
      | None => merged
      end
  | None => if dict_mem merged p then merged else dict_set merged p e
  end.

Definition _deduplicate_concrete_paths (observed : observations) : observations :=
  if existsb (λ p, match subsuming (templates observed) p with Some _ => true | None => false end) (dict_keys observed)
  then foldl (merge_subsumed observed) [] observed
  else observed.

(** ** Siblings that are values *)

Definition _SIBLING_COALESCE_THRESHOLD : nat := 3.

Definition is_hex (c : ascii) : bool := match hex_value c with Some _ => true | None => false end.
Definition is_uuid (s : string) : bool :=
  bool_decide (String.length <$> split_on "-"%char s = [8; 4; 4; 4; 12]%nat) && forallb (str_all is_hex) (split_on "-"%char s).
Definition _looks_like_value_segment (segment : string) : bool :=
  if str_contains " " segment then true
  else if is_template_segment segment then false
  else (str_truthy segment && str_all is_digit segment) || is_uuid segment.

Definition leaf_of (p : string) : string := leaf (clean_path p).
Definition lstrip_char (c : ascii) (s : string) : string := of_chars (rev (chars (rstrip_char c (of_chars (rev (chars s)))))).
Definition group_of (p : string) : string :=
  let clean := clean_path p in
  if str_contains "/" (lstrip_char "/"%char clean) then parent_path clean else "".

(** The paths by parent *)
Definition sibling_groups (observed : observations) : dict (list string) :=
  foldl (λ acc p, dict_set acc (group_of p) (default [] (dict_get acc (group_of p)) ++ [p])) [] (dict_keys observed).

(** The endpoints of some paths *)
Definition endpoints_of (observed : observations) (paths : list string) : list observed_endpoint := omap (dict_get observed) paths.

(** [max(endpoints, key=confidence)]: the first of the best *)
Definition best_endpoint (l : list observed_endpoint) : option observed_endpoint :=
  match l with
  | [] => None
  | e :: l' => Some (foldl (λ best e, if PrimFloat.ltb (ob_confidence best) (ob_confidence e) then e else best) e l')
  end.

Definition keep_paths (observed merged : observations) (paths : list string) : observations :=
  foldl (λ acc p, match dict_get observed p with Some e => dict_set acc p e | None => acc end) merged paths.

(** One round of the loop over the groups *)
Definition coalesce_group (observed : observations) (merged : observations) (group : string * list string) : outcome exn observations :=
  let '(parent, paths) := group in
  let has_value := existsb (λ p, _looks_like_value_segment (leaf_of p)) paths in
  if ((length paths <? _SIBLING_COALESCE_THRESHOLD)%nat && negb has_value) || negb has_value then Ok (keep_paths observed merged paths)
  else
    let existing := last (List.filter (λ p, is_template_segment (leaf_of p)) paths) in
    let others := List.filter (λ p, negb (is_template_segment (leaf_of p)) && negb (_looks_like_value_segment (leaf_of p))) paths in
    let! template_path := match existing with
                          | Some p => Ok p
                          | None => let! suffix := _shared_query_suffix paths in
                                    Ok ((if str_truthy parent then parent +:+ "/{id}" else "/{id}") +:+ suffix)
                          end in
    let endpoints := endpoints_of observed paths in
    match best_endpoint endpoints with
    | None => Ok merged
    | Some best =>
        let coalesced := mk_observed template_path (ob_url best) (⋃ (ob_methods <$> endpoints)) (⋃ (ob_sources <$> endpoints)) (ob_confidence best) in
        Ok (keep_paths observed (dict_set merged template_path coalesced) others)
    end.

Definition _coalesce_sibling_endpoints (observed : observations) : outcome exn observations :=
  fold_outcome (coalesce_group observed) [] (sibling_groups observed).

(** ** Templates cover paths *)

Lemma segments_match_trans a b c : segments_match a b = true → segments_match b c = true → segments_match a c = true.
Proof.
  revert b c. induction a as [|x a IH]; intros [|y b] [|z c]; cbn; try done.
  rewrite !andb_true_iff. intros [Hxy Hab] [Hyz Hbc]. split; [|by eapply IH].
  destruct (is_template_segment x) eqn:Ex.
  - destruct (is_template_segment y); [done|]. by apply str_eqb_eq in Hyz as <-.
  - apply str_eqb_eq in Hxy as <-. by rewrite Ex in Hyz.
Qed.

Lemma covers_trans a b c : covers a b = true → covers b c = true → covers a c = true.
Proof. apply segments_match_trans. Qed.

(** A path is covered by a template that is more general. *)
Definition covered (t p : string) : Prop := covers t p = true ∧ (_template_count p < _template_count t)%nat.

Lemma covered_trans a b c : covered a b → covered b c → covered a c.
Proof. intros [H1 H2] [H3 H4]. split; [by eapply covers_trans|lia]. Qed.

Abbreviation count := _template_count.
Definition more_general (a b : string) : Prop := (count b ≤ count a)%nat.

Lemma insert_general x l : StronglySorted more_general l → StronglySorted more_general (insert_by (λ a b, (count b <=? count a)%nat) x l).
Proof.
  induction 1 as [|y l Hl IH Hy]; [by repeat constructor|]. cbn. destruct (count y <=? count x)%nat eqn:E.
  - apply Nat.leb_le in E. constructor; [by constructor|]. constructor; [done|]. eapply Forall_impl; [exact Hy|]. unfold more_general. intros; lia.
  - apply Nat.leb_gt in E. constructor; [done|]. clear IH. apply Forall_forall. intros z Hz.
    rewrite insert_by_perm in Hz. apply elem_of_cons in Hz as [->|Hz]; [unfold more_general; lia|]. rewrite Forall_forall in Hy. by apply Hy.
Qed.

Lemma sorted_general l : StronglySorted more_general (sorted_by (λ a b, (count b <=? count a)%nat) l).
Proof. unfold sorted_by. induction l as [|x l IH]; [constructor|]. by apply insert_general. Qed.

Section dedup.
Context (observed : observations).

Lemma elem_of_templates t : t ∈ templates observed ↔ t ∈ dict_keys observed ∧ (0 < count t)%nat.
Proof. unfold templates. rewrite sorted_by_perm, elem_of_filterb, Nat.ltb_lt. naive_solver. Qed.

(** What [subsuming] finds is the first, and nothing found means nothing covers. *)
Lemma subsuming_Some l p t : StronglySorted more_general l → subsuming l p = Some t →
  t ∈ l ∧ covered t p ∧ ∀ t', t' ∈ l → covered t' p → (count t' ≤ count t)%nat.
Proof.
  induction 1 as [|x l Hl IH Hx]; [done|]. cbn. destruct (str_eqb x p) eqn:E.
  - apply str_eqb_eq in E as ->. intros (Hin & Hc & Hmax)%IH. split_and!; [by right|done|].
    intros t' [->|Ht']%elem_of_cons Hc'; [destruct Hc'; lia|by apply Hmax].
  - destruct (count x <=? count p)%nat eqn:El; [done|]. apply Nat.leb_gt in El. destruct (covers x p) eqn:Ec.
    + intros [= <-]. split_and!; [by left|by split|]. intros t' [->|Ht']%elem_of_cons _; [done|]. rewrite Forall_forall in Hx. by apply Hx.
    + intros (Hin & Hc & Hmax)%IH. split_and!; [by right|done|].
      intros t' [->|Ht']%elem_of_cons Hc'; [destruct Hc'; congruence|by apply Hmax].
Qed.

Lemma subsuming_None l p : StronglySorted more_general l → subsuming l p = None → ∀ t, t ∈ l → ¬ covered t p.
Proof.
  induction 1 as [|x l Hl IH Hx]; [by intros _ t ?%elem_of_nil|]. cbn. destruct (str_eqb x p) eqn:E.
  - apply str_eqb_eq in E as ->. intros Hn t [->|Ht]%elem_of_cons; [intros [_ ?]; lia|by apply IH].
  - destruct (count x <=? count p)%nat eqn:El.
    + apply Nat.leb_le in El. intros _ t Ht [_ Hlt]. rewrite Forall_forall in Hx. apply elem_of_cons in Ht as [->|Ht]; [lia|].
      specialize (Hx t Ht). unfold more_general in Hx. lia.
    + destruct (covers x p) eqn:Ec; [done|]. intros Hn t [->|Ht]%elem_of_cons; [intros [? _]; congruence|by apply IH].
Qed.

(** A path that is kept: no template observed covers it. *)
Definition kept (p : string) : Prop := p ∈ dict_keys observed ∧ ∀ t, t ∈ dict_keys observed → ¬ covered t p.
Abbreviation target p := (subsuming (templates observed) p).

Lemma target_None p : p ∈ dict_keys observed → target p = None ↔ kept p.
Proof.
  intros Hp. pose proof (sorted_general (List.filter (λ p, (0 <? count p)%nat) (dict_keys observed))) as Hs. fold (templates observed) in Hs.
  split.
  - intros Hn. split; [done|]. intros t Ht Hc. apply (subsuming_None _ _ Hs Hn t); [|done].
    apply elem_of_templates. split; [done|]. destruct Hc. lia.
  - intros [_ Hk]. destruct (target p) as [t|] eqn:E; [|done]. apply subsuming_Some in E as (Hin & Hc & _); [|done].
    apply elem_of_templates in Hin as [Hin _]. by destruct (Hk t Hin).
Qed.

Lemma target_Some p t : target p = Some t → covered t p ∧ kept t.
Proof.
  intros E. pose proof (sorted_general (List.filter (λ p, (0 <? count p)%nat) (dict_keys observed))) as Hs. fold (templates observed) in Hs.
  apply subsuming_Some in E as (Hin & Hc & Hmax); [|done]. apply elem_of_templates in Hin as [Hin _]. split; [done|]. split; [done|].
  intros t' Ht' Hc'. pose proof (covered_trans _ _ _ Hc' Hc) as Hc2. destruct Hc' as [_ Hlt].
  assert (t' ∈ templates observed) as Htt by (apply elem_of_templates; split; [done|lia]). specialize (Hmax t' Htt Hc2). lia.
Qed.

(** Where the endpoint of a path goes *)
Definition goes_to (p : string) : string := default p (target p).

Lemma goes_to_kept p : p ∈ dict_keys observed → kept (goes_to p) ∧ (goes_to p = p ∨ covered (goes_to p) p).
Proof.
  intros Hp. unfold goes_to. destruct (target p) as [t|] eqn:E; cbn.
  - apply target_Some in E as [Hc Hk]. split; [done|by right].
  - split; [by apply target_None|by left].
Qed.
Lemma goes_to_self p : kept p → goes_to p = p.
Proof. intros Hk. unfold goes_to. pose proof Hk as [Hp _]. apply target_None in Hk; [|done]. by rewrite Hk. Qed.

(** After some of the endpoints were merged *)
Record merged_so_far (l merged : observations) : Prop := {
  ms_targets : ∀ k, k ∈ dict_keys merged → ∃ p, p ∈ l.*1 ∧ goes_to p = k;
  ms_kept : ∀ p e, (p, e) ∈ l → ∃ e', dict_get merged (goes_to p) = Some e' ∧ ob_methods e ⊆ ob_methods e' ∧ ob_sources e ⊆ ob_sources e';
  ms_own : ∀ k e' e, dict_get merged k = Some e' → dict_get observed k = Some e → ob_methods e ⊆ ob_methods e' ∧ ob_sources e ⊆ ob_sources e';
  ms_sound : ∀ k e' m, dict_get merged k = Some e' → m ∈ ob_methods e' → ∃ p e, dict_get observed p = Some e ∧ goes_to p = k ∧ m ∈ ob_methods e;
}.

Lemma last_key (l : observations) p e : p ∈ (l ++ [(p, e)]).*1.
Proof. rewrite fmap_app. apply elem_of_app. right. by left. Qed.
Lemma earlier_key (l : observations) q p e : q ∈ l.*1 → q ∈ (l ++ [(p, e)]).*1.
Proof. intros Hq. rewrite fmap_app. apply elem_of_app. by left. Qed.

Lemma merge_step l merged p e : dict_get observed p = Some e → merged_so_far l merged →
  merged_so_far (l ++ [(p, e)]) (merge_subsumed observed merged (p, e)).
Proof.
  intros Hp [Ht Hk Ho Hs]. assert (p ∈ dict_keys observed) as Hin by (apply dict_get_is_Some; by exists e).
  unfold merge_subsumed. destruct (target p) as [t|] eqn:Et.
  - pose proof (target_Some _ _ Et) as [_ Hkt]. assert (goes_to p = t) as Hgo by (unfold goes_to; by rewrite Et).
    destruct Hkt as [Hkin Hkt]. pose proof (goes_to_self t (conj Hkin Hkt)) as Hgt. apply dict_get_is_Some in Hkin as [et Het]. rewrite Het.
    set (base := default et (dict_get merged t)).
    assert (ob_methods et ⊆ ob_methods base ∧ ob_sources et ⊆ ob_sources base) as [Hbm Hbs].
    { unfold base. destruct (dict_get merged t) as [e0|] eqn:E0; [by eapply Ho|done]. }
    split.
    + intros k [->|Hk']%dict_keys_set; [exists p; by split; [apply last_key|]|]. destruct (Ht k Hk') as (q & Hq & <-). exists q. by split; [apply earlier_key|].
    + intros q eq [Hq|[= -> ->]%list_elem_of_singleton]%elem_of_app.
      * destruct (Hk q eq Hq) as (e' & He' & Hm & Hsrc). destruct (decide (goes_to q = t)) as [E|Hne].
        -- rewrite E in He' |- *. rewrite dict_get_set_eq. eexists. split; [done|]. unfold base. rewrite He'. cbn. set_solver.
        -- rewrite dict_get_set_ne by done. by exists e'.
      * rewrite Hgo, dict_get_set_eq. eexists. split; [done|]. cbn. set_solver.
    + intros k e' ek. destruct (decide (k = t)) as [->|Hne].
      * rewrite dict_get_set_eq. intros [= <-] Hek. rewrite Het in Hek. injection Hek as <-. cbn. set_solver.
      * rewrite dict_get_set_ne by done. apply Ho.
    + intros k e' m. destruct (decide (k = t)) as [->|Hne].
      * rewrite dict_get_set_eq. intros [= <-] [Hm|Hm]%elem_of_union; [|by exists p, e].
        unfold base in Hm. destruct (dict_get merged t) as [e0|] eqn:E0; [by eapply Hs|]. by exists t, et.
      * rewrite dict_get_set_ne by done. apply Hs.
  - assert (goes_to p = p) as Hgo by (unfold goes_to; by rewrite Et). destruct (dict_mem merged p) eqn:Em.
    + apply dict_mem_key in Em. split; [| |done|done].
      * intros k Hk'. destruct (Ht k Hk') as (q & Hq & <-). exists q. by split; [apply earlier_key|].
      * intros q eq [Hq|[= -> ->]%list_elem_of_singleton]%elem_of_app; [by apply Hk|]. rewrite Hgo.
        apply dict_get_is_Some in Em as [e' He']. exists e'. split; [done|]. by eapply Ho.
    + split.
      * intros k [->|Hk']%dict_keys_set; [exists p; by split; [apply last_key|]|]. destruct (Ht k Hk') as (q & Hq & <-). exists q. by split; [apply earlier_key|].
      * intros q eq [Hq|[= -> ->]%list_elem_of_singleton]%elem_of_app.
        -- destruct (Hk q eq Hq) as (e' & He' & Hm). destruct (decide (goes_to q = p)) as [E|Hne].
           ++ rewrite E in He'. unfold dict_mem in Em. by rewrite He' in Em.
           ++ rewrite dict_get_set_ne by done. by exists e'.
        -- rewrite Hgo, dict_get_set_eq. by exists e.
      * intros k e' ek. destruct (decide (k = p)) as [->|Hne].
        -- rewrite dict_get_set_eq. intros [= <-] Hek. rewrite Hp in Hek. by injection Hek as <-.
        -- rewrite dict_get_set_ne by done. apply Ho.
      * intros k e' m. destruct (decide (k = p)) as [->|Hne].
        -- rewrite dict_get_set_eq. intros [= <-] Hm. by exists p, e.
        -- rewrite dict_get_set_ne by done. apply Hs.
Qed.

Lemma merged_all : dict_wf observed → merged_so_far observed (foldl (merge_subsumed observed) [] observed).
Proof.
  intros Hwf. assert (∀ l l' merged, l ++ l' = observed → merged_so_far l merged → merged_so_far observed (foldl (merge_subsumed observed) merged l')) as H.
  { intros l l'. revert l. induction l' as [|[p e] l' IH]; intros l merged E Hm.
    - rewrite app_nil_r in E. by rewrite <-E at 1.
    - cbn [foldl]. apply (IH (l ++ [(p, e)])); [by rewrite <-app_assoc|]. apply merge_step; [|done].
      apply dict_get_elem; [done|]. rewrite <-E. set_solver. }
  apply (H []); [done|]. split; [by intros k ?%elem_of_nil|by intros p e ?%elem_of_nil|done|done].
Qed.

(** C29. Removing the paths a template covers loses nothing and is complete.  Of the
    endpoints observed exactly those stay that no more general template observed
    covers; every other one is covered by one that stays, which has its methods and
    its sources; and a method of an endpoint that stays was observed of its path or
    of one it covers.  Nothing that stays covers anything else that does. *)
Theorem deduplication_exact : dict_wf observed →
  (∀ p, p ∈ dict_keys (_deduplicate_concrete_paths observed) ↔ kept p) ∧
  (∀ p e, dict_get observed p = Some e → ∃ t e', dict_get (_deduplicate_concrete_paths observed) t = Some e' ∧ (t = p ∨ covered t p) ∧
     ob_methods e ⊆ ob_methods e' ∧ ob_sources e ⊆ ob_sources e') ∧
  (∀ t e' m, dict_get (_deduplicate_concrete_paths observed) t = Some e' → m ∈ ob_methods e' →
     ∃ p e, dict_get observed p = Some e ∧ (t = p ∨ covered t p) ∧ m ∈ ob_methods e) ∧
  (∀ p t, p ∈ dict_keys (_deduplicate_concrete_paths observed) → t ∈ dict_keys (_deduplicate_concrete_paths observed) → ¬ covered t p).
Proof.
  intros Hwf. assert ((∀ p, p ∈ dict_keys (_deduplicate_concrete_paths observed) ↔ kept p) ∧
    merged_so_far observed (_deduplicate_concrete_paths observed)) as [Hkeys [Ht Hk Ho Hs]].
  { unfold _deduplicate_concrete_paths. destruct (existsb _ _) eqn:E.
    - pose proof (merged_all Hwf) as Hm. split; [|done]. destruct Hm as [Ht Hk _ _]. intros p. split.
      + intros (q & Hq & <-)%Ht. by apply goes_to_kept.
      + intros Hp. pose proof Hp as [Hin _]. apply dict_get_is_Some in Hin as [e He]. apply dict_get_Some_elem, Hk in He as (e' & He' & _).
        rewrite goes_to_self in He' by done. apply dict_get_is_Some. by exists e'.
    - assert (∀ p, p ∈ dict_keys observed → kept p) as Hall.
      { intros p Hp. apply target_None; [done|]. destruct (target p) eqn:Et; [|done]. exfalso. apply not_true_iff_false in E. apply E, existsb_exists.
        exists p. split; [by apply list_elem_of_In|]. by rewrite Et. }
      split; [intros p; split; [apply Hall|by intros [? _]]|]. split.
      + intros k Hk. exists k. split; [done|]. by apply goes_to_self, Hall.
      + intros p e Hp%dict_get_elem; [|done]. exists e. rewrite goes_to_self; [done|]. apply Hall, dict_get_is_Some. by exists e.
      + intros k e' e He' He. rewrite He' in He. by injection He as <-.
      + intros k e' m He' Hm. exists k, e'. split_and!; [done| |done]. apply goes_to_self, Hall, dict_get_is_Some. by exists e'. }
  split_and!; [done| | |].
  - intros p e He. assert (p ∈ dict_keys observed) as Hp by (apply dict_get_is_Some; by exists e).
    apply dict_get_Some_elem, Hk in He as (e' & He' & Hm). exists (goes_to p), e'. split_and!; [done| |by apply Hm..]. by apply goes_to_kept.
  - intros t e' m He' Hm. destruct (Hs t e' m He' Hm) as (p & e & He & <- & Hm'). exists p, e. split_and!; [done| |done].
    apply goes_to_kept, dict_get_is_Some. by exists e.
  - intros p t Hp%Hkeys Ht'%Hkeys. apply Hp, Ht'.
Qed.
End dedup.

(** ** Worked endpoints *)

Definition seen_at (path : string) (methods : list string) (confidence : float) : string * observed_endpoint :=
  (path, mk_observed path ("http://api" +:+ path) (list_to_set methods) {[ "link" ]} confidence).
Definition shown (o : observations) : list (string * list string) := map (λ kv, (kv.1, sorted_names (ob_methods kv.2))) o.

Definition user_endpoints : observations := [
  seen_at "/users" ["GET"] high; seen_at "/users/7" ["DELETE"] high; seen_at "/users/{id}" ["GET"] high;
  seen_at "/users/7/posts/{post_id}" ["PUT"] high; seen_at "/users/{id}/posts/{post_id}" ["GET"] high].

Lemma deduplication_exact_witness : dict_wf user_endpoints ∧
  (∀ p, p ∈ dict_keys (_deduplicate_concrete_paths user_endpoints) ↔ kept user_endpoints p) ∧
  shown (_deduplicate_concrete_paths user_endpoints)
  = [("/users", ["GET"]); ("/users/{id}", ["DELETE"; "GET"]); ("/users/{id}/posts/{post_id}", ["GET"; "PUT"])].
Proof.
  assert (dict_wf user_endpoints) as Hwf by (apply (bool_decide_unpack _); vm_compute; exact I).
  split; [exact Hwf|]. split; [exact (proj1 (deduplication_exact user_endpoints Hwf))|]. vm_compute. reflexivity.
Defined.

Definition coalesced (o : observations) : list (string * list string) :=
  match _coalesce_sibling_endpoints o with Ok o' => shown o' | Raise _ => [] end.

(** One value is enough for its siblings to be merged: the threshold never matters.
    The template gets the methods of siblings that are not values, too. *)
Example threshold_never_matters :
  coalesced [seen_at "/users/7" ["GET"] high] = [("/users/{id}", ["GET"])] ∧
  coalesced [seen_at "/users/7" ["GET"] high; seen_at "/users/search" ["POST"] high]
  = [("/users/{id}", ["GET"; "POST"]); ("/users/search", ["POST"])].
Proof. split; vm_compute; reflexivity. Qed.

Lemma coalesce_without_values observed merged parent paths :
  existsb (λ p, _looks_like_value_segment (leaf_of p)) paths = false →
  coalesce_group observed merged (parent, paths) = Ok (keep_paths observed merged paths).
Proof. unfold coalesce_group. intros ->. cbn [negb]. by rewrite orb_true_r. Qed.

Definition named_operation (id : string) : Operation :=
  plain_operation id id "" (Some "GET") (Some "/") [] (mk_error_schema [] None)
    (mk_risk None None None None safe high src_extractor) [] 1.
(** A suffix may give an identifier that another operation has. *)
Example suffix_collides : op_id <$> _deduplicate_operation_ids (named_operation <$> ["get_a"; "get_a"; "get_a_1"]) = ["get_a"; "get_a_1"; "get_a_1"].
Proof. vm_compute. reflexivity. Qed.

(** A body's parameter claims to be extracted, whoever classified the endpoint: with
    less confidence than that needs, the whole extraction fails. *)
Example unsure_classification_fails :
  match _classification_to_operation false "" [] (mk_classification "/users" "POST" "Create" "" 0x1.6666666666666p-1 []) with
  | Ok _ => true | Raise _ => false end = false ∧
  match _classification_to_operation false "" [] (mk_classification "/users" "GET" "List" "" 0x1.6666666666666p-1 []) with
  | Ok _ => true | Raise _ => false end = true.
Proof. split; vm_compute; reflexivity. Qed.
