(* ===== verification/RestProbing.v ===== *)
(** * Probing a REST service ([libs/extractors/rest_probing.py])

    The requests that find out what an endpoint takes, the addresses found in HTML and
    JSON, the registries and paginations of known kinds of services, and the paths
    inferred below known ones.  HTTP, waiting, HTML entities and Python's [float()] are
    parameters.  Texts are ASCII.  A set's order of iteration shows nowhere. *)

From S2P Require Export RuntimeApp RestEndpoints.
From Stdlib Require Import Ascii.

(** ** Addresses *)

(** The text after the semicolon of the last segment, which [urlparse] cuts off *)
Definition url_params (u : SplitResult) : string :=
  if one_of (scheme u) uses_params then
    match split_first ";"%char (leaf (path u)) with Some (_, p) => p | None => "" end
  else "".
Definition plain_path (u : SplitResult) : string := if one_of (scheme u) uses_params then cut_params (path u) else path u.
Definition with_params (p params : string) : string := if str_truthy params then p +:+ ";" +:+ params else p.
(** [urlparse(url)._replace(query=q, fragment=f).geturl()] *)
Definition replace_query (u : SplitResult) (q f : string) : string :=
  urlunsplit (mk_split (scheme u) (netloc u) (with_params (plain_path u) (url_params u)) q f).

Definition uses_relative : list string :=
  [""; "ftp"; "http"; "gopher"; "nntp"; "imap"; "wais"; "file"; "https"; "shttp"; "mms"; "prospero"; "rtsp"; "rtsps"; "rtspu"; "sftp"; "svn";
   "svn+ssh"; "ws"; "wss"].

(** Dots are resolved the way [urljoin] does; [acc] is reversed. *)
Fixpoint resolve_dots (acc segs : list string) : list string :=
  match segs with
  | [] => rev acc
  | s :: segs' => resolve_dots (if str_eqb s ".." then tail acc else if str_eqb s "." then acc else s :: acc) segs'
  end.
(** [segments[1:-1] = filter(None, segments[1:-1])] *)
Definition drop_inner_empty (l : list string) : list string :=
  match l with
  | [] => []
  | x :: l' => match last l' with Some z => x :: List.filter str_truthy (removelast l') ++ [z] | None => [x] end
  end.

(** [urljoin(base, url)] of the standard library *)
Definition urljoin (base url : string) : outcome exn string :=
  if negb (str_truthy base) then Ok url
  else if negb (str_truthy url) then Ok base
  else
    let! b := urlsplit base in
    let! u := urlsplit url in
    let u := if str_truthy (scheme u) then u else mk_split (scheme b) (netloc u) (path u) (query u) (fragment u) in
    if negb (str_eqb (scheme u) (scheme b)) || negb (one_of (scheme u) uses_relative) then Ok url
    else if one_of (scheme u) uses_netloc && str_truthy (netloc u) then Ok (replace_query u (query u) (fragment u))
    else
      let n := if one_of (scheme u) uses_netloc then netloc b else netloc u in
      let make p params q := urlunsplit (mk_split (scheme u) n (with_params p params) q (fragment u)) in
      if negb (str_truthy (plain_path u)) && negb (str_truthy (url_params u)) then
        Ok (make (plain_path b) (url_params b) (if str_truthy (query u) then query u else query b))
      else
        let base_parts := split_on "/"%char (plain_path b) in
        let base_parts := if str_truthy (default "" (last base_parts)) then removelast base_parts else base_parts in
        let parts := split_on "/"%char (plain_path u) in
        let segs := if startswith "/" (plain_path u) then parts else drop_inner_empty (base_parts ++ parts) in
        let resolved := resolve_dots [] segs ++ (if one_of (default "" (last segs)) ["."; ".."] then [""] else []) in
        let joined := join "/" resolved in
        Ok (make (if str_truthy joined then joined else "/") (url_params u) (query u)).

Example urljoin_demo :
  (λ u, match urljoin "http://a/b/c/d;p?q" u with Ok r => r | Raise _ => "" end) <$>
    ["g"; "./g/"; "/g"; "//g"; "?y"; "g?y#s"; ";x"; "../../g"; "../../../g"; "g;x=1/../y"; "https://e/f"; "#s"]
  = ["http://a/b/c/g"; "http://a/b/c/g/"; "http://a/g"; "http://g"; "http://a/b/c/d;p?y"; "http://a/b/c/g?y#s"; "http://a/b/c/;x"; "http://a/g";
     "http://a/g"; "http://a/b/c/y"; "https://e/f"; "http://a/b/c/d;p?q#s"].
Proof. vm_compute. reflexivity. Qed.

Definition _origin (url : string) : outcome exn string := let! u := urlparse url in Ok (scheme u +:+ "://" +:+ netloc u).

Definition _join_relative_url (base_url relative_path : string) : outcome exn string :=
  urljoin (if endswith "/" base_url then base_url else base_url +:+ "/") (lstrip_char "/"%char relative_path).

Definition _STATIC_ASSET_EXTENSIONS : list string :=
  [".avif"; ".bmp"; ".css"; ".gif"; ".ico"; ".jpeg"; ".jpg"; ".js"; ".map"; ".mjs"; ".png"; ".svg"; ".ttf"; ".webp"; ".woff"; ".woff2"].
Definition _is_static_asset_path (p : string) : bool :=
  let candidate := lower (leaf p) in
  str_contains "." candidate && one_of ("." +:+ default "" (last (split_on "."%char candidate))) _STATIC_ASSET_EXTENSIONS.

Definition _normalize_candidate (base_url candidate : string) : outcome exn (option string) :=
  if str_truthy candidate then
    let! absolute := urljoin base_url candidate in
    let! u := urlparse absolute in
    let! b := urlparse base_url in
    Ok (if negb (str_eqb (netloc u) (netloc b)) then None else if _is_static_asset_path (path u) then None else Some absolute)
  else Ok None.

Definition _normalize_same_origin_candidate (base_url candidate : string) : outcome exn (option string) :=
  let! absolute := urljoin base_url candidate in
  let! u := urlparse absolute in
  let! b := urlparse base_url in
  Ok (if str_eqb (netloc u) (netloc b) then Some absolute else None).

(** [text[:-1] if text.endswith("s") and len(text) > n else text] *)
Definition singular_of (n : nat) (text : string) : string :=
  if endswith "s" text && (n <? String.length text)%nat then String.substring 0 (String.length text - 1) text else text.

Definition _resource_param_name_from_path (p : string) : string :=
  let clean := clean_path p in
  str_replace "-" "_" (_slugify (singular_of 2 (if str_truthy clean then leaf clean else "resource"))) +:+ "_id".

(** ** Addresses in JSON *)

Definition _LINK_LIKE_JSON_KEYS : list string :=
  ["endpoint"; "endpoints"; "href"; "link"; "links"; "location"; "next"; "path"; "previous"; "prev"; "related"; "self"; "uri"; "url"].
Definition _is_link_like_json_key (parent_key : option string) : bool :=
  match parent_key with
  | None => false
  | Some k =>
      let normalized := str_replace "-" "_" (lower (strip k)) in
      one_of normalized _LINK_LIKE_JSON_KEYS
      || existsb (λ e, endswith e normalized) ["_endpoint"; "_href"; "_link"; "_links"; "_path"; "_uri"; "_url"]
  end.

Fixpoint _walk_json_link_candidates (parent_key : option string) (v : pyval) : list (string * option string) :=
  match v with
  | VStr s => [(s, parent_key)]
  | VDict d => (fix entries (l : list (string * pyval)) :=
                  match l with [] => [] | (k, w) :: l' => _walk_json_link_candidates (Some k) w ++ entries l' end) d
  | VList l => (fix items (l : list pyval) :=
                  match l with [] => [] | w :: l' => _walk_json_link_candidates parent_key w ++ items l' end) l
  | _ => []
  end.

Definition fs_prefixes : list string :=
  ["/etc/"; "/usr/"; "/var/"; "/tmp/"; "/opt/"; "/home/"; "/root/"; "/proc/"; "/sys/"; "/dev/"].
Definition config_exts : list string := [".env"; ".conf"; ".cfg"; ".ini"; ".log"; ".pid"; ".sock"; ".key"; ".pem"; ".crt"].

Definition _is_path_like (value : string) (parent_key : option string) : outcome exn bool :=
  let stripped := strip value in
  if negb (str_truthy stripped) || existsb (λ p, startswith p stripped) fs_prefixes then Ok false
  else if startswith "/" stripped && existsb (λ e, endswith e stripped) config_exts then Ok false
  else if existsb (λ p, startswith p stripped) ["/"; "./"; "../"; "http://"; "https://"] || str_contains "://" stripped then Ok true
  else
    let! u := urlparse stripped in
    Ok (if str_truthy (scheme u) || str_truthy (netloc u) || str_contains " " stripped
           || negb (str_truthy (path u)) || startswith "#" (path u) then false
        else if _is_link_like_json_key parent_key then str_contains "/" (path u) || str_truthy (query u)
        else (3 <=? length (segments (path u)))%nat || (str_truthy (query u) && (1 <=? length (segments (path u)))%nat)).

Definition json_candidate (base_url : string) (c : string * option string) : outcome exn (option (string * string)) :=
  let! b := _is_path_like c.1 c.2 in
  if b then let! n := _normalize_candidate base_url c.1 in Ok ((λ u, (u, "json")) <$> n) else Ok None.
Definition _extract_from_json (base_url : string) (payload : pyval) : outcome exn (list (string * string)) :=
  let! l := traverse (json_candidate base_url) (_walk_json_link_candidates None payload) in Ok (omap id l).

(** ** Addresses in HTML *)

(** [expect], whatever the case of letters *)
Definition expect_ci (lit s : string) : option string := if startswith lit (lower s) then Some (drop_str (String.length lit) s) else None.
Definition is_quote (c : ascii) : bool := bool_decide (ord c ∈ [34; 39]%N).
(** A quotation mark, [stop]'s complement once or more, and a quotation mark *)
Definition quoted_value (stop : ascii → bool) (s : string) : option (string * string) :=
  match s with
  | String q s' => if is_quote q then
                     '(v, r) ← take1 (λ c, negb (stop c)) s';
                     match r with String q' r' => if is_quote q' then Some (v, r') else None | EmptyString => None end
                   else None
  | EmptyString => None
  end.
Definition quoted_address : string → option (string * string) := quoted_value (λ c, is_quote c || bool_decide (c = "#"%char)).

Definition _HTML_LINK_PATTERN (s : string) : option (string * string) := expect_ci "href=" s ≫= quoted_address.

(** [[^>]*action=...]: the last place before the tag ends *)
Definition action_here (s : string) : option (string * string) := expect_ci "action=" s ≫= quoted_address.
Fixpoint last_action (s : string) : option (string * string) :=
  match s with
  | String c s' => if bool_decide (c = ">"%char) then None
                   else match last_action s' with Some x => Some x | None => action_here s end
  | EmptyString => None
  end.
(** Action and method; the characters before the method are skipped lazily, so that
    none are. *)
Definition _HTML_FORM_PATTERN (s : string) : option ((string * string) * string) :=
  '(action, r) ← expect_ci "<form" s ≫= last_action;
  match expect_ci "method=" r ≫= quoted_value is_quote with
  | Some (m, r') => Some ((action, m), r')
  | None => Some ((action, ""), r)
  end.

Definition html_candidate (base_url : string) (source address : string) : outcome exn (option (string * string)) :=
  let! n := _normalize_candidate base_url address in Ok ((λ u, (u, source)) <$> n).
Definition _extract_from_html (unescape : string → string) (base_url body : string) : outcome exn (list (string * string)) :=
  let! links := traverse (λ href, html_candidate base_url "link" (unescape href)) (finditer _HTML_LINK_PATTERN 0 body) in
  let! forms := traverse (λ am, html_candidate base_url (if str_eqb (upper am.2) "POST" then "form" else "link") (unescape am.1))
                  (finditer _HTML_FORM_PATTERN 0 body) in
  Ok (omap id (links ++ forms)).

Definition _MAX_BODY_BYTES : N := 5 * 1024 * 1024.
Definition content_type (r : response) : string := lower (default "" (header r "content-type")).

(** What a failed extraction from JSON may raise to be tried as HTML *)
Definition json_failures : list string := ["JSONDecodeError"; "ValueError"; "UnicodeDecodeError"; "KeyError"; "TypeError"].
Definition _extract_candidate_paths (unescape : string → string) (base_url : string) (r : response) : outcome exn (list (string * string)) :=
  if (_MAX_BODY_BYTES <? N.of_nat (String.length (rsp_content r)))%N then Ok []
  else if str_contains "html" (content_type r) then _extract_from_html unescape base_url (rsp_text r)
  else if str_contains "json" (content_type r) then
    match rsp_json r with
    | None => _extract_from_html unescape base_url (rsp_text r)
    | Some payload => match _extract_from_json base_url payload with
                      | Ok l => Ok l
                      | Raise e => if one_of (exn_type e) json_failures then _extract_from_html unescape base_url (rsp_text r) else Raise e
                      end
    end
  else _extract_from_html unescape base_url (rsp_text r).

(** ** JSON Server *)

Definition _JSON_SERVER_MARKERS : list string := ["<title>json server</title>"; "you're successfully running json server"; "congrats!"].
Definition _looks_like_json_server_html (body : string) : bool := forallb (λ m, str_contains m (lower body)) _JSON_SERVER_MARKERS.

Definition is_container (v : pyval) : bool := is_list v || is_dict v.
Definition _looks_like_json_server_db_payload (payload : pyval) : bool :=
  match payload with VDict d => existsb (λ kv, is_container kv.2) d | _ => false end.
Definition _looks_like_json_server_resource (name : string) (v : pyval) : bool :=
  str_truthy (strip name) && negb (startswith "__" name) && is_container v.
Definition _json_server_collection_methods (v : pyval) : list string :=
  match v with VList _ => ["GET"; "POST"] | VDict _ => ["GET"; "PUT"; "PATCH"] | _ => ["GET"] end.

Definition _extract_collection_items (payload : pyval) : option (list pyval) :=
  match payload with
  | VList l => Some l
  | VDict d => head (omap (λ k, match get_or_none d k with VList l => Some l | _ => None end) ["data"; "items"; "records"; "results"; "value"])
  | _ => None
  end.

(** [str(sample_id)] *)
Definition sample_text (v : pyval) : option string :=
  match v with VStr s => Some s | VInt n => Some (str_of_Z n) | VBool b => Some (if b then "True" else "False") | _ => None end.
Definition _sample_resource_id (v : pyval) : option string :=
  match v with
  | VList l => head (omap (λ item, match item with VDict d => dict_get d "id" ≫= sample_text | _ => None end) l)
  | _ => None
  end.

Definition _looks_like_foreign_key_field (field_name : string) : bool :=
  let lowered := lower (strip field_name) in
  endswith "_id" lowered || (endswith "id" lowered && negb (str_eqb lowered "id")).
Definition _json_server_foreign_keys (items : list pyval) : list string :=
  concat ((λ item, match item with
                   | VDict d => omap (λ kv, if negb (str_eqb kv.1 "id") && _looks_like_foreign_key_field kv.1 && bool_decide (is_Some (sample_text kv.2))
                                            then Some kv.1 else None) d
                   | _ => []
                   end) <$> items).

(** [re.sub(r"([a-z0-9])([A-Z])", r"\1-\2", s)] *)
Fixpoint hyphenate (after_small : bool) (s : string) : string :=
  match s with
  | EmptyString => ""
  | String c s' =>
      let rest := String c (hyphenate (is_digit c || (is_alpha c && negb (is_upper c))) s') in
      if after_small && is_upper c then String "-" rest else rest
  end.

Definition _pluralize_resource_name (name : string) : string :=
  let before_last := String.substring (String.length name - 2) 1 name in
  if negb (str_truthy name) then name
  else if endswith "y" name && (1 <? String.length name)%nat && negb (one_of before_last ["a"; "e"; "i"; "o"; "u"])
       then String.substring 0 (String.length name - 1) name +:+ "ies"
  else if existsb (λ e, endswith e name) ["s"; "x"; "z"; "ch"; "sh"] then name +:+ "es"
  else name +:+ "s".

Definition drop_last_str (n : nat) (s : string) : string := String.substring 0 (String.length s - n) s.
Definition _json_server_parent_candidates (field_name : string) (resource_names : list string) : list string :=
  let base_name := strip field_name in
  let lowered := lower base_name in
  let candidates base :=
    let normalized := _slugify (hyphenate false base) in
    let plural := _pluralize_resource_name normalized in
    List.filter (λ c, one_of c resource_names) (normalized :: (if str_eqb plural normalized then [] else [plural])) in
  if endswith "_id" lowered then candidates (drop_last_str 3 base_name)
  else if endswith "id" lowered && negb (str_eqb lowered "id") then candidates (drop_last_str 2 base_name)
  else [].

Abbreviation relations := (dict names).
Definition add_relation (child : string) (acc : relations) (parent : string) : relations :=
  if str_eqb parent child then acc else dict_set acc parent (default ∅ (dict_get acc parent) ∪ {[ child ]}).
Definition _infer_json_server_relations (payload : pyval) : relations :=
  match payload with
  | VDict d =>
      let resources := List.filter (λ kv, _looks_like_json_server_resource kv.1 kv.2) d in
      foldl (λ acc kv, match kv.2 with
                       | VList items => foldl (λ acc fk, foldl (add_relation kv.1) acc (_json_server_parent_candidates fk resources.*1))
                                          acc (_json_server_foreign_keys items)
                       | _ => acc
                       end) [] resources
  | _ => []
  end.

(** One resource of the database is registered, and its elements. *)
Definition register_resource (current_url : string) (observed : observations) (kv : string * pyval) : outcome exn observations :=
  let '(resource_name, resource_value) := kv in
  if negb (_looks_like_json_server_resource resource_name resource_value) then Ok observed
  else
    let! collection_url := _join_relative_url current_url resource_name in
    let! collection_path := _normalize_path collection_url in
    let observed := _register_endpoint observed collection_path collection_url (_json_server_collection_methods resource_value) "json_server_db"
                      0x1.f5c28f5c28f5cp-1%float in
    match _sample_resource_id resource_value with
    | None => Ok observed
    | Some sample_id =>
        let param_name := str_replace "-" "_" (_slugify (singular_of 0 resource_name)) +:+ "_id" in
        let! detail_url := _join_relative_url collection_url sample_id in
        Ok (_register_endpoint observed (rstrip_char "/"%char collection_path +:+ "/{" +:+ param_name +:+ "}") detail_url
              ["GET"; "PUT"; "PATCH"; "DELETE"] "json_server_db" 0x1.f0a3d70a3d70ap-1%float)
    end.

(** ** Registries of collections *)

Record CollectionDiscoveryStrategy := mk_collection_strategy {
  cs_name : string;
  cs_path_suffix : string;
  cs_name_fields : list string;
  cs_type_field : option string;
  cs_exclude_prefixes : list string;
  cs_valid_types : option (list (option string));
  cs_item_path_template : string;
}.
Record _RegistryCollectionCandidate := mk_registry_candidate { rc_url : string; rc_methods : list string; rc_source : string }.

Definition _COLLECTION_STRATEGIES : list CollectionDiscoveryStrategy := [
  mk_collection_strategy "pocketbase" "/api/collections" ["name"] (Some "type") ["_"] (Some [None; Some "base"; Some "view"]) "/{name}/records";
  mk_collection_strategy "directus" "/collections" ["collection"; "name"] None ["directus_"] None "/items/{name}"].

Definition _match_collection_strategy (current_url : string) : outcome exn (option CollectionDiscoveryStrategy) :=
  let! u := urlparse current_url in
  Ok (List.find (λ s, endswith (cs_path_suffix s) (rstrip_char "/"%char (path u))) _COLLECTION_STRATEGIES).

(** [item_type in valid_types] *)
Definition type_is_valid (v : pyval) (valid : list (option string)) : outcome exn bool :=
  if unhashable v then Raise (type_error "unhashable type")
  else Ok match v with VNone => bool_decide (None ∈ valid) | VStr s => bool_decide (Some s ∈ valid) | _ => false end.

Definition collection_name_of (s : CollectionDiscoveryStrategy) (d : dict pyval) : option string :=
  head (omap (λ f, match get_or_none d f with VStr n => if str_truthy (strip n) then Some n else None | _ => None end) (cs_name_fields s)).

Definition collection_address (s : CollectionDiscoveryStrategy) (current_url registry_root prefix name : string) : outcome exn string :=
  let relative := str_replace "{name}" name (cs_item_path_template s) in
  if startswith "/items/" (cs_item_path_template s) then
    let! origin := _origin current_url in urljoin origin (str_replace "//" "/" (prefix +:+ relative))
  else _join_relative_url registry_root (lstrip_char "/"%char relative).

(** The address of one entry of a registry, unless it is skipped *)
Definition registry_entry (s : CollectionDiscoveryStrategy) (current_url registry_root prefix : string) (item : pyval) : outcome exn (option string) :=
  match item with
  | VDict d =>
      match collection_name_of s d with
      | None => Ok None
      | Some name =>
          if existsb (λ p, startswith p name) (cs_exclude_prefixes s) then Ok None
          else
            let! valid := match cs_type_field s, cs_valid_types s with
                          | Some f, Some types => type_is_valid (get_or_none d f) types
                          | _, _ => Ok true
                          end in
            if valid then let! u := collection_address s current_url registry_root prefix name in Ok (Some u) else Ok None
      end
  | _ => Ok None
  end.

Definition _apply_collection_strategy (s : CollectionDiscoveryStrategy) (current_url : string) (payload : pyval)
    : outcome exn (list _RegistryCollectionCandidate) :=
  match _extract_collection_items payload with
  | None => Ok []
  | Some items =>
      let! u := urlsplit current_url in
      let registry_root := rstrip_char "/"%char (replace_query u "" "") in
      let current_path := rstrip_char "/"%char (plain_path u) in
      let prefix := if endswith (cs_path_suffix s) current_path then drop_last_str (String.length (cs_path_suffix s)) current_path else "" in
      fold_outcome (λ acc item,
        let! o := registry_entry s current_url registry_root prefix item in
        Ok match o with
           | Some url => if one_of url (rc_url <$> acc) then acc else acc ++ [mk_registry_candidate url ["GET"; "POST"] "collection_registry"]
           | None => acc
           end) [] items
  end.

Definition register_candidate (observed : observations) (c : _RegistryCollectionCandidate) : outcome exn observations :=
  let! p := _normalize_path (rc_url c) in
  Ok (_register_endpoint observed p (rc_url c) (rc_methods c) (rc_source c) 0x1.dc28f5c28f5c3p-1%float).
Definition _bootstrap_collection_registry (current_url : string) (r : response) (observed : observations) : outcome exn (observations * list string) :=
  if negb (str_contains "json" (content_type r)) then Ok (observed, [])
  else match rsp_json r with
       | None => Ok (observed, [])
       | Some payload =>
           let! s := _match_collection_strategy current_url in
           match s with
           | None => Ok (observed, [])
           | Some s =>
               let! candidates := _apply_collection_strategy s current_url payload in
               let! observed := fold_outcome register_candidate observed candidates in
               Ok (observed, rc_url <$> candidates)
           end
       end.

(** ** Pages after a page *)

(** [int(value)] where that is a number *)
Definition _int_like (v : pyval) : outcome exn (option Z) :=
  match v with
  | VInt n => Ok (Some n)
  | VFloat f => match int_of_float f with
                | Some n => Ok (Some n)
                | None => if PrimFloat.eqb f f then Raise (mk_exn "OverflowError" "cannot convert float infinity to integer" []) else Ok None
                end
  | VStr s => Ok (int_of_text s)
  | _ => Ok None
  end.
(** [_int_like(a) or _int_like(b)] *)
Definition int_like_or (a b : pyval) : outcome exn (option Z) :=
  let! x := _int_like a in
  match x with Some n => if n =? 0 then _int_like b else Ok (Some n) | None => _int_like b end.

Definition page_numbers (d : dict pyval) : outcome exn (option (Z * Z * option Z)) :=
  let field k := get_or_none d k in
  let! current_page := _int_like (field "page") in
  match current_page with
  | None => Ok None
  | Some current_page =>
      let! per_page := int_like_or (field "perPage") (field "per_page") in
      let! total_pages := int_like_or (field "totalPages") (field "total_pages") in
      let! total_items := int_like_or (field "totalItems") (field "total") in
      let total_pages :=
        match total_pages, per_page, total_items with
        | Some t, _, _ => Some t
        | None, Some p, Some t => if negb (p =? 0) && (0 <=? t) then Some (Z.max 1 ((t + p - 1) / p)) else None
        | None, _, _ => None
        end in
      Ok ((λ t, (current_page, t, per_page)) <$> total_pages)
  end.
Fixpoint first_numbers (l : list (dict pyval)) : outcome exn (option (Z * Z * option Z)) :=
  match l with
  | [] => Ok None
  | d :: l' => let! o := page_numbers d in match o with Some x => Ok (Some x) | None => first_numbers l' end
  end.
Definition dicts_at (d : dict pyval) (k : string) : list (dict pyval) := match get_or_none d k with VDict e => [e] | _ => [] end.
Definition _pagination_state (payload : pyval) : outcome exn (option (Z * Z * option Z)) :=
  match payload with
  | VDict d =>
      let meta := dicts_at d "meta" in
      first_numbers ([d] ++ meta ++ concat ((λ m, dicts_at m "pagination") <$> meta) ++ dicts_at d "pagination")
  | _ => Ok None
  end.

Definition _set_query_param (url name : string) (value : Z) : outcome exn string :=
  let! u := urlsplit url in
  let filtered := List.filter (λ kv, negb (str_eqb kv.1 name)) (parse_qsl (query u)) in
  Ok (replace_query u (urlencode (filtered ++ [(name, str_of_Z value)])) (fragment u)).

Definition sorted_set (l : list string) : list string := sorted_names (list_to_set l).

Definition _pagination_followup_urls (current_url : string) (payload : pyval) : outcome exn (list string) :=
  let! links := match payload with
                | VDict d => traverse (λ k, match get_or_none d k with
                                            | VStr v => _normalize_same_origin_candidate current_url v
                                            | _ => Ok None
                                            end) ["@odata.nextLink"; "next"; "next_link"; "nextLink"; "next_url"; "nextUrl"]
                | _ => Ok []
                end in
  let! state := _pagination_state payload in
  let! next := match state with
               | Some (current_page, total_pages, per_page) =>
                   if current_page <? total_pages then
                     let! u := _set_query_param current_url "page" (current_page + 1) in
                     let! u := match per_page with Some p => _set_query_param u "perPage" p | None => Ok u end in
                     Ok [u]
                   else Ok []
               | None => Ok []
               end in
  Ok (sorted_set (omap id links ++ next)).

(** [part[part.find("<") + 1 : part.find(">")].strip()], where they are in that order *)
Definition angled (part : string) : option string :=
  match String.index 0 "<" part, String.index 0 ">" part with
  | Some s, Some e => if (e <=? s)%nat then None else Some (strip (String.substring (s + 1) (e - (s + 1)) part))
  | _, _ => None
  end.
Definition rel_next : list string := ["rel=" +:+ double_quote +:+ "next" +:+ double_quote; "rel='next'"].
Definition _parse_link_header_next (r : response) (base_url : string) : outcome exn (option string) :=
  match header r "link" with
  | None => Ok None
  | Some link_header =>
      let nexts := omap (λ part, if existsb (λ m, str_contains m part) rel_next then angled part else None) (strip <$> split_on ","%char link_header) in
      match nexts with url :: _ => _normalize_same_origin_candidate base_url url | [] => Ok None end
  end.

(** A body that is the JSON text [null] is not looked at. *)
Definition _pagination_followups (current_url : string) (r : response) : outcome exn (list string) :=
  let! link_next := _parse_link_header_next r current_url in
  let! urls := if str_contains "json" (content_type r) then
                 match rsp_json r with None | Some VNone => Ok [] | Some payload => _pagination_followup_urls current_url payload end
               else Ok [] in
  Ok (sorted_set (option_list link_next ++ urls)).

(** ** What headers tell *)

Definition extract_rate_limit_info (r : response) : outcome exn (option (dict pyval)) :=
  let! info := fold_outcome (λ info hk, match header r hk.1 with
                                        | Some v => if dict_mem info hk.2 then Ok info
                                                    else let! n := _int_like (VStr v) in
                                                         Ok (dict_set info hk.2 (match n with Some n => VInt n | None => VStr v end))
                                        | None => Ok info
                                        end) ([] : dict pyval)
                 [("x-ratelimit-limit", "limit"); ("ratelimit-limit", "limit"); ("x-ratelimit-remaining", "remaining");
                  ("ratelimit-remaining", "remaining"); ("x-ratelimit-reset", "reset"); ("ratelimit-reset", "reset")] in
  Ok match info with [] => None | _ => Some info end.

(** What follows [realm=] between the double quotes *)
Definition realm_of (www_auth : string) : option string :=
  match String.index 0 ("realm=" +:+ double_quote) (lower www_auth) with
  | Some n => match split_first (ascii_of_N 34) (drop_str (n + 7) www_auth) with Some (realm, _) => Some realm | None => None end
  | None => None
  end.
Definition detect_auth_requirements (r : response) : option (dict string) :=
  if negb (rsp_status r =? 401) then None
  else match header r "www-authenticate" with
       | None => Some [("scheme", "unknown")]
       | Some www_auth =>
           match split_space www_auth with
           | [] => Some [("scheme", "unknown"); ("raw", www_auth)]
           | word :: _ => Some ([("scheme", lower (rstrip_char ","%char word)); ("raw", www_auth)]
                                ++ match realm_of www_auth with Some realm => [("realm", realm)] | None => [] end)
           end
       end.

(** ** Requests *)

Definition _MAX_RETRY_ATTEMPTS : nat := 3.
Definition _DEFAULT_RETRY_AFTER_SECONDS : float := 1.

Definition _SUB_RESOURCE_HINTS : dict (list string) := [
  ("users", ["posts"; "comments"; "settings"; "orders"; "notifications"]);
  ("products", ["reviews"; "images"; "variants"; "inventory"]);
  ("orders", ["items"; "payments"; "status"; "shipments"]);
  ("categories", ["products"; "items"]);
  ("inventory", ["adjustments"; "history"]);
  ("notifications", ["acknowledge"; "read"]);
  ("reports", ["status"; "download"]);
  ("webhooks", ["test"; "events"; "logs"])].
Definition _DEFAULT_SUB_RESOURCES : list string := ["items"; "details"; "status"; "history"; "settings"; "comments"].
Definition _common_sub_resources (parent_name : string) : list string :=
  let name := lower parent_name in
  match dict_get _SUB_RESOURCE_HINTS (rstrip_char "s"%char name +:+ "s"), dict_get _SUB_RESOURCE_HINTS name with
  | Some hints, _ | None, Some hints => hints
  | None, None => _DEFAULT_SUB_RESOURCES
  end.

(** The methods an answer to [OPTIONS] allows *)
Definition allowed_methods (r : response) : list string :=
  let allow_header := strip (default "" (header r "allow")) in
  if str_eqb allow_header "*" then _SUPPORTED_METHODS
  else List.filter (λ m, one_of m _SUPPORTED_METHODS) ((λ m, upper (strip m)) <$> split_on ","%char allow_header).
(** An answer that shows that [GET] works *)
Definition shows_content (r : response) : bool :=
  (rsp_status r <? 400) && existsb (λ t, str_contains t (content_type r)) ["json"; "html"; "xml"; "text"].

Section probing.
Context {W : Type}.
(** A request of the HTTP client, [time.sleep] and [float(text)] *)
Context (http : string → string → dict string → comp W exn response) (sleep : float → comp W exn unit) (parse_float : string → option float).
Abbreviation M := (comp W exn).

(** [try: m / except httpx.HTTPError: a] *)
Definition unless_http_error {A} (m : M A) (a : A) : M A := catch m (λ e, if is_http_error e then ret a else raise e).

Definition _retry_after_seconds (r : response) : float :=
  match header r "retry-after" with
  | None => _DEFAULT_RETRY_AFTER_SECONDS
  | Some text => match parse_float text with Some f => fmax f 0 | None => _DEFAULT_RETRY_AFTER_SECONDS end
  end.

(** [n] attempts after the first one may follow. *)
Fixpoint request_attempts (n : nat) (method url : string) (headers : dict string) : M response :=
  r <- http method url headers ;;
  match n with
  | S n' => if rsp_status r =? 429 then sleep (_retry_after_seconds r) ;;; request_attempts n' method url headers else ret r
  | O => ret r
  end.
Definition _request : string → string → dict string → M response := request_attempts (_MAX_RETRY_ATTEMPTS - 1).

Definition _head_probe (url : string) (headers : dict string) : M (list string) :=
  unless_http_error (r <- http "HEAD" url headers ;; ret (if rsp_status r <? 400 then ["GET"] else [])) [].

(** The methods that probing an address shows *)
Definition options_probe (url : string) (headers : dict string) : M (list string) :=
  unless_http_error
    (r <- http "OPTIONS" url headers ;;
     if rsp_status r <? 400 then ret (allowed_methods r)
     else if rsp_status r =? 405 then _head_probe url headers else ret []) [].
Definition get_probe (url : string) (headers : dict string) : M (list string) :=
  unless_http_error (r <- http "GET" url headers ;; ret (if shows_content r then ["GET"] else [])) [].
Definition if_none (methods : list string) (m : M (list string)) : M (list string) := match methods with [] => m | _ => ret methods end.
Definition probed_methods (url : string) (headers : dict string) : M (list string) :=
  methods <- options_probe url headers ;;
  methods <- if_none methods (_head_probe url headers) ;;
  if_none methods (get_probe url headers).

Definition probed_endpoint (p url source : string) (methods : names) : observed_endpoint :=
  mk_observed p url methods (if (1 <? size methods)%nat then {[ source; "options" ]} else {[ source ]}) 0x1.b333333333333p-1%float.
Definition _probe_and_register (p url : string) (target : observations) (source : string) (headers : dict string) : M observations :=
  methods <- probed_methods url headers ;;
  ret (match methods with [] => target | _ => dict_set target p (probed_endpoint p url source (list_to_set methods)) end).

Definition _probe_allowed_methods (e : observed_endpoint) (headers : dict string) : M observed_endpoint :=
  o <- unless_http_error (r <- http "OPTIONS" (ob_url e) headers ;; ret (Some r)) None ;;
  match o with
  | None => ret e
  | Some r =>
      if rsp_status r =? 405 then
        methods <- _head_probe (ob_url e) headers ;;
        ret (match methods with [] => e | _ => mk_observed (ob_path e) (ob_url e) (ob_methods e ∪ list_to_set methods) (ob_sources e ∪ {[ "head" ]}) (ob_confidence e) end)
      else if 400 <=? rsp_status r then ret e
      else match allowed_methods r with
           | [] => ret e
           | methods => ret (mk_observed (ob_path e) (ob_url e) (list_to_set methods) (ob_sources e ∪ {[ "options" ]})
                               (fmax (ob_confidence e) 0x1.ccccccccccccdp-1%float))
           end
  end.

Definition _bootstrap_json_server (current_url : string) (r : response) (observed : observations) (auth_headers : dict string)
    : M (observations * relations) :=
  if negb (str_contains "html" (content_type r)) || negb (_looks_like_json_server_html (rsp_text r)) then ret (observed, [])
  else
    db_url <- answer (_join_relative_url current_url "db") ;;
    o <- unless_http_error (r <- http "GET" db_url auth_headers ;; ret (Some r)) None ;;
    match o with
    | None => ret (observed, [])
    | Some db =>
        match (if 400 <=? rsp_status db then None else rsp_json db) with
        | Some ((VDict d) as payload) =>
            if _looks_like_json_server_db_payload payload then
              observed <- answer (fold_outcome (register_resource current_url) observed d) ;;
              ret (observed, _infer_json_server_relations payload)
            else ret (observed, [])
        | _ => ret (observed, [])
        end
    end.

Definition _bootstrap_current_json_entrypoint (current_url : string) (r : response) (observed : observations) (auth_headers : dict string) : M observations :=
  if negb (str_contains "json" (content_type r)) then ret observed
  else match rsp_json r ≫= _extract_collection_items with
       | None => ret observed
       | Some items =>
           collection_path <- answer (_normalize_path current_url) ;;
           let observed := _register_endpoint observed collection_path current_url ["GET"] "json_entrypoint" 0x1.eb851eb851eb8p-1%float in
           match _sample_resource_id (VList items) with
           | None => ret observed
           | Some sample_id =>
               detail_url <- answer (_join_relative_url current_url sample_id) ;;
               _probe_and_register (rstrip_char "/"%char collection_path +:+ "/{" +:+ _resource_param_name_from_path collection_path +:+ "}") detail_url
                 observed "json_entrypoint" auth_headers
           end
       end.

(** ** Inference *)

Section inference.
Context (base_url : string) (observed : observations) (relation_hints : relations) (headers : dict string).

(** What was inferred, and the paths that were probed *)
Definition probe_new (st : observations * list string) (candidate : string) : M (observations * list string) :=
  let '(inferred, probed) := st in
  candidate_url <- answer (urljoin base_url candidate) ;;
  if dict_mem observed candidate || one_of candidate probed then ret st
  else inferred <- _probe_and_register candidate candidate_url inferred "inferred" headers ;; ret (inferred, candidate :: probed).

Definition sub_candidates (clean : string) (e : observed_endpoint) : list string :=
  let parent_leaf := leaf (parent_path clean) in
  if bool_decide ("json_server_db" ∈ ob_sources e) then
    if (length (segments clean) =? 2)%nat then sorted_names (default ∅ (dict_get relation_hints parent_leaf)) else []
  else _common_sub_resources parent_leaf.

(** The candidates that one path gives *)
Definition inferred_paths (kv : string * observed_endpoint) : list string :=
  let clean := clean_path kv.1 in
  if negb (str_truthy clean) then []
  else if is_template_segment (leaf clean) then (λ sub, clean +:+ "/" +:+ sub) <$> sub_candidates clean kv.2
  else [clean +:+ "/{" +:+ singular_of 2 (leaf clean) +:+ "_id}"].

Definition _infer_sub_resources : M observations :=
  st <- fold_each (λ st kv, fold_each probe_new st (inferred_paths kv)) ([], []) observed ;; ret st.1.
End inference.
End probing.
