(* ===== verification/RestExtractor.v ===== *)
(** * The REST extractor ([libs/extractors/rest.py])

    A crawl from the source's address, of so many pages at most; the methods asked of
    every endpoint found; three rounds of inference; a language model's suggestions;
    merging; and the description of what remains.  What [RestProbing] takes as
    parameters is taken here, and the classifier, the model and JSON. *)

From S2P Require Export RestProbing.
From Stdlib Require Import Ascii.

Definition _MAX_INFERENCE_PASSES : nat := 3.

(** ** Names and addresses *)

Definition _service_name_from_url (source : SourceConfig) : outcome exn string :=
  match named (dict_get (sc_hints source) "service_name") with
  | Some name => Ok (_slugify name)
  | None =>
      if opt_truthy (sc_url source) then
        let! u := urlparse (default "" (sc_url source)) in
        let bare := strip_char "/"%char (path u) in
        Ok (_slugify (if str_truthy (url_hostname u) then url_hostname u else if str_truthy bare then bare else "rest-service"))
      else Ok "rest-service"
  end.

Definition _normalized_base_path (url : string) : outcome exn string :=
  let! u := urlparse url in
  let raw_path := unquote (path u) in
  Ok (if negb (str_truthy raw_path) || str_eqb raw_path "/" then "" else rstrip_char "/"%char raw_path).

Definition _runtime_base_url (url base_path : string) : outcome exn string := let! origin := _origin url in Ok (origin +:+ base_path).

(** The segments two paths start with *)
Fixpoint shared_prefix (a b : list string) : list string :=
  match a, b with x :: a', y :: b' => if str_eqb x y then x :: shared_prefix a' b' else [] | _, _ => [] end.
Definition _common_path_prefix (paths : list string) : string :=
  match segments <$> List.filter (λ p, negb (one_of p [""; "/"])) paths with
  | [] => ""
  | first :: rest => match foldl shared_prefix first rest with [] => "" | prefix => "/" +:+ join "/" prefix end
  end.

Definition _discovery_base_path (url : string) (endpoints : list DiscoveredEndpoint) : outcome exn string :=
  let! entrypoint_path := _normalized_base_path url in
  if str_truthy entrypoint_path then
    let! l := traverse (λ e, _normalized_base_path (dp_path e)) endpoints in Ok (_common_path_prefix (entrypoint_path :: l))
  else Ok "".

Definition rest_detect (source : SourceConfig) : outcome exn float :=
  if bool_decide (dict_get (sc_hints source) "protocol" = Some "rest") then Ok 1%float
  else if negb (opt_truthy (sc_url source)) then Ok 0%float
  else
    let url := default "" (sc_url source) in
    let! u := urlparse url in
    Ok (if negb (one_of (scheme u) ["http"; "https"]) then 0%float
        else if str_contains "openapi" (lower url) || str_contains "swagger" (lower url) then 0x1.999999999999ap-4%float
        else if str_contains "graphql" (lower url) then 0x1.999999999999ap-4%float
        else 0x1.199999999999ap-1%float).

(** ** The crawl *)

Record crawl_state := mk_crawl {
  cr_queue : list (string * nat);
  cr_visited : list string;
  cr_observed : observations;
  cr_relations : relations;
}.

(** The next page of the queue that was not visited *)
Fixpoint next_page (visited : list string) (queue : list (string * nat)) : option ((string * nat) * list (string * nat)) :=
  match queue with
  | [] => None
  | page :: queue' => if one_of page.1 visited then next_page visited queue' else Some (page, queue')
  end.

Definition add_relations (known discovered : relations) : relations :=
  foldl (λ acc pc, dict_set acc pc.1 (default ∅ (dict_get acc pc.1) ∪ pc.2)) known discovered.

Definition link_confidence (source : string) : float :=
  if str_eqb source "link" then 0x1.8p-1%float else if str_eqb source "form" then 0x1.b333333333333p-1%float else 0x1.6666666666666p-1%float.
Definition is_page (source : string) : bool := one_of source ["link"; "json"].
Definition link_methods (source : string) : list string := if is_page source then ["GET"] else if str_eqb source "form" then ["POST"] else [].

Section discovery.
Context {W : Type}.
Context (http : string → string → dict string → comp W exn response) (sleep : float → comp W exn unit) (parse_float : string → option float)
  (unescape : string → string).
Abbreviation M := (comp W exn).
Context (max_pages : nat) (base_url : string) (headers : dict string).

(** An address is queued unless it is too deep or was visited. *)
Definition enqueue (depth : nat) (visited : list string) (queue : list (string * nat)) (url : string) : list (string * nat) :=
  if (depth + 1 <? max_pages)%nat && negb (one_of url visited) then queue ++ [(url, depth + 1)%nat] else queue.

(** An address found on a page *)
Definition found_address (depth : nat) (st : crawl_state) (c : string * string) : outcome exn crawl_state :=
  let '(found, source) := c in
  let! url := urljoin base_url found in
  let! normalized := _normalize_path url in
  let e := endpoint_at (cr_observed st) normalized url in
  let e := merge_endpoint e (list_to_set (link_methods source)) {[ source ]} (link_confidence source) in
  Ok (mk_crawl (if is_page source then enqueue depth (cr_visited st) (cr_queue st) url else cr_queue st) (cr_visited st)
        (dict_set (cr_observed st) normalized e) (cr_relations st)).

Definition read_page (url : string) (depth : nat) (r : response) (st : crawl_state) : M crawl_state :=
  or <- _bootstrap_json_server http url r (cr_observed st) headers ;;
  observed <- _bootstrap_current_json_entrypoint http url r or.1 headers ;;
  oc <- answer (_bootstrap_collection_registry url r observed) ;;
  followups <- answer (_pagination_followups url r) ;;
  let queue := foldl (enqueue depth (cr_visited st)) (cr_queue st) (oc.2 ++ followups) in
  candidates <- answer (_extract_candidate_paths unescape base_url r) ;;
  answer (fold_outcome (found_address depth) (mk_crawl queue (cr_visited st) oc.1 (add_relations (cr_relations st) or.2)) candidates).

Definition visit (url : string) (depth : nat) (st : crawl_state) : M crawl_state :=
  o <- unless_http_error (r <- _request http sleep parse_float "GET" url headers ;; ret (Some r)) None ;;
  match o with
  | None => ret st
  | Some r => if 400 <=? rsp_status r then ret st else read_page url depth r st
  end.

(** [n] pages may still be visited. *)
Fixpoint crawl (n : nat) (st : crawl_state) : M crawl_state :=
  match n with
  | O => ret st
  | S n' =>
      match next_page (cr_visited st) (cr_queue st) with
      | None => ret st
      | Some ((url, depth), queue) =>
          st' <- visit url depth (mk_crawl queue (cr_visited st ++ [url]) (cr_observed st) (cr_relations st)) ;;
          crawl n' st'
      end
  end.

Definition initial_crawl : crawl_state := mk_crawl [(base_url, O)] [] [] [].

(** Every endpoint is asked for its methods. *)
Definition probe_all (observed : observations) : M observations :=
  fold_each (λ acc kv, e <- _probe_allowed_methods http kv.2 headers ;; ret (acc ++ [(kv.1, e)])) [] observed.

Fixpoint infer_passes (n : nat) (hints : relations) (observed : observations) : M observations :=
  match n with
  | O => ret observed
  | S n' =>
      inferred <- _infer_sub_resources http base_url observed hints headers ;;
      match inferred with [] => ret observed | _ => infer_passes n' hints (dict_update observed inferred) end
  end.

(** ** Suggestions of a model *)

Section suggestions.
Context (json_indent : pyval → string) (json_loads : string → option pyval).

Definition probe_seed (observed : observations) (acc : observations) (c : SeedCandidate) : M observations :=
  if dict_mem observed (seed_path c) then ret acc
  else url <- answer (urljoin base_url (seed_path c)) ;; _probe_and_register http (seed_path c) url acc "llm_seed" [].
Definition _llm_seed_mutation (complete : string → M string) (observed : observations) : M observations :=
  candidates <- generate_seed_candidates json_indent json_loads parse_float complete base_url
                  (map (λ kv : string * observed_endpoint, (ob_path kv.2, sorted_names (ob_methods kv.2))) observed) 30 ;;
  fold_each (probe_seed observed) [] candidates.

Definition by_path (l : list observed_endpoint) : list observed_endpoint := sorted_by (λ a b, String.leb (ob_path a) (ob_path b)) l.

Definition _discover (llm_client : option (string → M string)) : M (list DiscoveredEndpoint) :=
  st <- crawl max_pages initial_crawl ;;
  observed <- probe_all (cr_observed st) ;;
  observed <- infer_passes _MAX_INFERENCE_PASSES (cr_relations st) observed ;;
  observed <- match llm_client with
              | Some complete => seeds <- _llm_seed_mutation complete observed ;; ret (dict_update observed seeds)
              | None => ret observed
              end ;;
  observed <- answer (_coalesce_sibling_endpoints (_deduplicate_concrete_paths observed)) ;;
  ret (freeze <$> by_path (map snd observed)).
End suggestions.
End discovery.

(** ** The extractor *)

(** A classifier: the name of its class, and what it does *)
Record classifier (W : Type) := mk_classifier {
  cl_class : string;
  cl_heuristic : bool;
  cl_classify : string → list DiscoveredEndpoint → comp W exn (list EndpointClassification);
}.
Arguments mk_classifier {W} _ _ _.
Arguments cl_class {W} _.
Arguments cl_heuristic {W} _.
Arguments cl_classify {W} _ _ _.
Definition HeuristicRESTClassifier {W} : classifier W := mk_classifier "HeuristicRESTClassifier" true (λ _ endpoints, ret (heuristic_classify endpoints)).

Section extractor.
Context {W : Type}.
Context (http : string → string → dict string → comp W exn response) (sleep : float → comp W exn unit) (parse_float : string → option float)
  (unescape : string → string) (json_indent json_sorted : pyval → string) (json_loads : string → option pyval) (sha256_hex : string → string)
  (now : W → Z).
Abbreviation M := (comp W exn).
Context (max_pages : nat) (llm_client : option (string → M string)) (chosen : option (classifier W)).
Definition classifier_used : classifier W := default HeuristicRESTClassifier chosen.

Definition endpoint_document (e : DiscoveredEndpoint) : pyval :=
  VDict [("path", VStr (dp_path e)); ("methods", VList (VStr <$> dp_methods e)); ("sources", VList (VStr <$> dp_sources e));
         ("confidence", VFloat (dp_confidence e))].
Definition classification_document (c : EndpointClassification) : pyval :=
  VDict [("path", VStr (cf_path c)); ("method", VStr (cf_method c)); ("name", VStr (cf_name c)); ("confidence", VFloat (cf_confidence c));
         ("tags", VList (VStr <$> cf_tags c))].
Definition _discovery_hash (base_url : string) (endpoints : list DiscoveredEndpoint) (classified : list EndpointClassification) : string :=
  sha256_hex (json_sorted (VDict [("base_url", VStr base_url); ("endpoints", VList (endpoint_document <$> endpoints));
                                  ("classified", VList (classification_document <$> classified))])).

(** The description of what was discovered and classified *)
Definition rest_description (source : SourceConfig) (url : string) (discovered : list DiscoveredEndpoint)
    (classified : list EndpointClassification) (now : Z) : outcome exn ServiceIR :=
  let! base_path := _discovery_base_path url discovered in
  let! defaults := _path_param_defaults_by_operation_path discovered base_path in
  let! operations := traverse (λ c, let! o := _classification_to_operation (cl_heuristic classifier_used) base_path defaults c in validate_Operation o) classified in
  let! service_name := _service_name_from_url source in
  let! runtime_url := _runtime_base_url url base_path in
  describe "rest" service_name ("Discovered REST API at " +:+ url) runtime_url (plain_auth no_auth) (Some url)
    (_discovery_hash url discovered classified) (_deduplicate_operation_ids operations) []
    [("discovered_paths", vstrs (dp_path <$> discovered)); ("classifier", VStr (cl_class classifier_used));
     ("base_path", VStr (if str_truthy base_path then base_path else "/")); ("discovery_entrypoint", VStr url);
     ("llm_seed_mutation", VBool (bool_decide (is_Some llm_client)))] now.

Definition rest_extract (source : SourceConfig) : M ServiceIR :=
  match named (sc_url source) with
  | None => raise (value_error "RESTExtractor requires source.url pointing at a REST API base URL")
  | Some url =>
      discovered <- _discover http sleep parse_float unescape max_pages url (get_auth_headers source) json_indent json_loads llm_client ;;
      match discovered with
      | [] => raise (value_error ("No REST endpoints discovered from " +:+ url))
      | _ =>
          classified <- cl_classify classifier_used url discovered ;;
          match classified with
          | [] => raise (value_error ("Classifier returned no REST operations for " +:+ url))
          | _ => t <- gets now ;; answer (rest_description source url discovered classified t)
          end
      end
  end.

(** [close]: the client the extractor made is part of the parameters. *)
Definition RESTExtractor : ExtractorProtocol W := mk_extractor "rest" (λ s, answer (rest_detect s)) rest_extract (Some (ret tt)).
End extractor.

(** ** Discovery only reads *)

Definition reading : list string := ["GET"; "HEAD"; "OPTIONS"].

Section reads.
Context {W : Type} (I : W → Prop).
Context (http : string → string → dict string → comp W exn response) (sleep : float → comp W exn unit) (parse_float : string → option float)
  (headers : dict string).
(** What one request that reads, with the source's credentials or without, keeps *)
Context (reads : ∀ m url h, m ∈ reading → h ∈ [headers; []] → preserves I (http m url h)) (sleeps : ∀ t, preserves I (sleep t)).

Lemma preserves_answer {A} (o : outcome exn A) : preserves I (answer o).
Proof. intros w Hw. unfold answer, wp. by destruct o. Qed.
Lemma preserves_fold_each {A B} (f : B → A → comp W exn B) b l : (∀ b x, preserves I (f b x)) → preserves I (fold_each f b l).
Proof. intros Hf. revert b. induction l; intros b; cbn; [apply preserves_ret|by apply preserves_bind]. Qed.
Lemma preserves_unless {A} (m : comp W exn A) a : preserves I m → preserves I (unless_http_error m a).
Proof. intros Hm. apply preserves_catch; [done|]. intros e. destruct (is_http_error e); auto with preserve. Qed.
Lemma preserves_attempt {A} (m : comp W exn A) : preserves I m → preserves I (attempt m).
Proof. intros Hm w Hw. apply wp_attempt. by apply Hm. Qed.
#[local] Hint Resolve preserves_answer preserves_fold_each preserves_unless preserves_attempt sleeps : preserve.

(** Steps through a computation, down to its requests *)
Ltac steps := repeat first
  [ solve [eauto 3 with preserve] | apply reads; [set_solver|set_solver] | apply preserves_bind; [|intros ?] | apply preserves_unless | case_match ].

Lemma reads_request n m url : m ∈ reading → preserves I (request_attempts http sleep parse_float n m url headers).
Proof. intros Hm. induction n as [|n IH]; cbn; steps. Qed.

Lemma reads_head url h : h ∈ [headers; []] → preserves I (_head_probe http url h).
Proof. intros Hh. unfold _head_probe. steps. Qed.
#[local] Hint Resolve reads_head reads_request : preserve.

Lemma reads_probe p url target source h : h ∈ [headers; []] → preserves I (_probe_and_register http p url target source h).
Proof. intros Hh. unfold _probe_and_register, probed_methods, options_probe, get_probe, if_none. steps. Qed.
#[local] Hint Resolve reads_probe : preserve.

Lemma own_headers : headers ∈ [headers; []].
Proof. by left. Qed.
Lemma no_headers : [] ∈ [headers; []].
Proof. right. by left. Qed.
#[local] Hint Resolve own_headers no_headers : preserve.

Lemma reads_allowed e : preserves I (_probe_allowed_methods http e headers).
Proof. unfold _probe_allowed_methods. steps. Qed.
#[local] Hint Resolve reads_allowed : preserve.

Lemma reads_json_server url r observed : preserves I (_bootstrap_json_server http url r observed headers).
Proof. unfold _bootstrap_json_server. steps. Qed.
Lemma reads_entrypoint url r observed : preserves I (_bootstrap_current_json_entrypoint http url r observed headers).
Proof. unfold _bootstrap_current_json_entrypoint. steps. Qed.
#[local] Hint Resolve reads_json_server reads_entrypoint : preserve.

Context (unescape : string → string) (max_pages : nat) (base_url : string).

Lemma reads_page url depth r st : preserves I (read_page http unescape max_pages base_url headers url depth r st).
Proof. unfold read_page. steps. Qed.
#[local] Hint Resolve reads_page : preserve.

Lemma reads_visit url depth st : preserves I (visit http sleep parse_float unescape max_pages base_url headers url depth st).
Proof. unfold visit, _request. steps. Qed.
#[local] Hint Resolve reads_visit : preserve.

Lemma reads_crawl n st : preserves I (crawl http sleep parse_float unescape max_pages base_url headers n st).
Proof. revert st. induction n as [|n IH]; intros st; cbn; steps. Qed.

Lemma reads_inference observed hints : preserves I (_infer_sub_resources http base_url observed hints headers).
Proof.
  unfold _infer_sub_resources. apply preserves_bind; [|auto with preserve]. apply preserves_fold_each. intros st kv.
  apply preserves_fold_each. intros [inferred probed] candidate. unfold probe_new. steps.
Qed.
#[local] Hint Resolve reads_inference : preserve.

Lemma reads_passes n hints observed : preserves I (infer_passes http base_url headers n hints observed).
Proof. revert observed. induction n as [|n IH]; intros observed; cbn; steps. Qed.

Lemma reads_seeds json_indent json_loads complete observed : (∀ prompt, preserves I (complete prompt)) →
  preserves I (_llm_seed_mutation http parse_float base_url json_indent json_loads complete observed).
Proof.
  intros Hc. unfold _llm_seed_mutation. apply preserves_bind.
  - unfold generate_seed_candidates. destruct (map _ _); steps.
  - intros l. apply preserves_fold_each. intros acc c. unfold probe_seed. steps.
Qed.

(** C31. Discovering a service reads it only.  Every request that discovery sends, on
    any page, of any endpoint, inferred or suggested, is a [GET], a [HEAD] or an
    [OPTIONS], and carries the source's credentials or none: whatever such requests,
    waiting and the model keep true, discovery keeps true. *)
Theorem discovery_only_reads json_indent json_loads (llm_client : option (string → comp W exn string)) :
  (∀ complete prompt, llm_client = Some complete → preserves I (complete prompt)) →
  preserves I (_discover http sleep parse_float unescape max_pages base_url headers json_indent json_loads llm_client).
Proof.
  intros Hc. unfold _discover. apply preserves_bind; [apply reads_crawl|]. intros st.
  apply preserves_bind; [apply preserves_fold_each; intros acc kv; steps|]. intros observed.
  apply preserves_bind; [apply reads_passes|]. intros observed'.
  apply preserves_bind; [|intros ?; steps]. destruct llm_client as [complete|]; [|apply preserves_ret].
  apply preserves_bind; [apply reads_seeds; auto|auto with preserve].
Qed.
End reads.

(** ** What is discovered *)

Definition strong : list float :=
  [0x1.b333333333333p-1; 0x1.ccccccccccccdp-1; 0x1.dc28f5c28f5c3p-1; 0x1.eb851eb851eb8p-1; 0x1.f0a3d70a3d70ap-1; 0x1.f5c28f5c28f5cp-1]%float.
Definition confidences : list float := [0x1.6666666666666p-1; 0x1.8p-1]%float ++ strong.
Definition supported (methods : names) : Prop := methods ⊆ list_to_set _SUPPORTED_METHODS.

(** Observed by the extractor's own rules: what is only linked to is read, and
    whatever writes was seen with more confidence. *)
Record sound (e : observed_endpoint) : Prop := {
  so_methods : supported (ob_methods e);
  so_confidence : ob_confidence e ∈ confidences;
  so_writes : ob_methods e ⊆ {[ "GET" ]} ∨ ob_confidence e ∈ strong;
}.
Abbreviation all_sound := (Forall (λ kv : string * observed_endpoint, sound kv.2)).

(** Facts about the few confidences there are, by looking at all of them *)
Lemma strong_confidence c : c ∈ strong → c ∈ confidences.
Proof. intros H. apply elem_of_app. by right. Qed.

Ltac each_confidence H := repeat (apply elem_of_cons in H as [->|H]); [.. |by apply elem_of_nil in H].
Ltac is_listed := vm_compute; repeat (first [by left|right]).
Lemma fmax_confidence a b : a ∈ confidences → b ∈ confidences → fmax a b ∈ confidences.
Proof. intros Ha Hb. unfold fmax. by destruct (PrimFloat.ltb a b). Qed.
Lemma fmax_strong_l a b : a ∈ strong → b ∈ confidences → fmax a b ∈ strong.
Proof. intros Ha Hb. unfold confidences, strong in Ha, Hb. cbn [app] in Hb. each_confidence Ha; each_confidence Hb; is_listed. Qed.
Lemma fmax_strong_r a b : a ∈ confidences → b ∈ strong → fmax a b ∈ strong.
Proof. intros Ha Hb. unfold confidences, strong in Ha, Hb. cbn [app] in Ha. each_confidence Ha; each_confidence Hb; is_listed. Qed.
Lemma fmax_zero c : c ∈ confidences → fmax 0 c = c.
Proof. intros H. unfold confidences, strong in H. cbn [app] in H. each_confidence H; reflexivity. Qed.

Lemma sound_merge e methods sources c : sound e → supported methods → c ∈ confidences → methods ⊆ {[ "GET" ]} ∨ c ∈ strong →
  sound (merge_endpoint e methods sources c).
Proof.
  intros [Hm Hc Hw] Hm' Hc' Hw'. split; cbn; [by apply union_least|by apply fmax_confidence|].
  destruct Hw' as [Hw'|Hw']; [|right; by apply fmax_strong_r]. destruct Hw as [Hw|Hw]; [left; by apply union_least|right; by apply fmax_strong_l].
Qed.

(** An endpoint that may be new is registered with what was seen. *)
Lemma sound_at target p url methods source c : all_sound target → supported methods → c ∈ confidences → methods ⊆ {[ "GET" ]} ∨ c ∈ strong →
  sound (merge_endpoint (endpoint_at target p url) methods {[ source ]} c).
Proof.
  intros Ht Hm Hc Hw. unfold endpoint_at. destruct (dict_get target p) as [e|] eqn:E; cbn.
  - apply sound_merge; [exact (values_get sound _ _ _ Ht E)|done..].
  - split; cbn; [by apply union_least|by rewrite fmax_zero|]. rewrite fmax_zero by done. destruct Hw; [left; by apply union_least|by right].
Qed.

Lemma sound_register target p url methods source c :
  all_sound target → supported (list_to_set methods) → c ∈ confidences → list_to_set methods ⊆ ({[ "GET" ]} : names) ∨ c ∈ strong →
  all_sound (_register_endpoint target p url methods source c).
Proof.
  intros Ht Hm Hc Hw. apply values_set; [done|].
  pose proof (sound_at target p url (list_to_set methods) source c Ht Hm Hc Hw) as [Hm' Hc' Hw']. by split.
Qed.

Lemma supported_list l : Forall (λ m, m ∈ _SUPPORTED_METHODS) l → supported (list_to_set l).
Proof. intros H m Hm%elem_of_list_to_set. apply elem_of_list_to_set. rewrite Forall_forall in H. auto. Qed.
Ltac all_supported := apply supported_list, (bool_decide_unpack _); vm_compute; exact I.
Ltac only_reads := left; apply (bool_decide_unpack _); vm_compute; exact I.

Lemma sound_freeze e : sound e → dp_methods (freeze e) ≠ [] ∧ Forall (λ m, m ∈ _SUPPORTED_METHODS) (dp_methods (freeze e)) ∧
  dp_confidence (freeze e) ∈ confidences ∧ (Forall (λ m, m = "GET") (dp_methods (freeze e)) ∨ dp_confidence (freeze e) ∈ strong).
Proof.
  intros [Hm Hc Hw]. assert (dp_confidence (freeze e) = ob_confidence e) as Hf.
  { cbn. clear -Hc. unfold confidences, strong in Hc. cbn [app] in Hc. each_confidence Hc; reflexivity. }
  rewrite Hf. unfold freeze; cbn. assert (∀ m, m ∈ sorted_names (ob_methods e) ↔ m ∈ ob_methods e) as Hs.
  { intros m. unfold sorted_names, sorted_strings. rewrite sorted_by_perm. apply elem_of_elements. }
  destruct (sorted_names (ob_methods e)) as [|m l] eqn:El.
  - split_and!; [done| |done|left; by constructor]. constructor; [by left|done].
  - split_and!; [done| |done|].
    + apply Forall_forall. intros x Hx%Hs%Hm. by apply elem_of_list_to_set in Hx.
    + destruct Hw as [Hw|Hw]; [left|by right]. apply Forall_forall. intros x Hx%Hs%Hw. set_solver.
Qed.

(** ** Soundness of discovery *)

(** Every answer of a computation has a property. *)
Definition yields {W A} (P : A → Prop) (m : comp W exn A) : Prop := ∀ w, wp m (λ a _, P a) (λ _ _, True) w.

Section yields.
Context {W : Type}.

Lemma yields_ret {A} (P : A → Prop) (a : A) : P a → yields (W:=W) P (ret a).
Proof. by intros H w. Qed.
Lemma yields_bind {A B} (Q : A → Prop) (P : B → Prop) (m : comp W exn A) (k : A → comp W exn B) :
  yields Q m → (∀ a, Q a → yields P (k a)) → yields P (bind m k).
Proof. intros Hm Hk w. apply wp_bind. eapply wp_mono; [apply Hm| |done]. intros a w' Ha. by apply Hk. Qed.
Lemma yields_any {A} (m : comp W exn A) : yields (λ _, True) m.
Proof. intros w. unfold wp. by destruct (m w) as [[]]. Qed.
Lemma yields_then {A B} (P : B → Prop) (m : comp W exn A) (k : A → comp W exn B) : (∀ a, yields P (k a)) → yields P (bind m k).
Proof. intros Hk. apply (yields_bind (λ _, True)); [apply yields_any|auto]. Qed.
Lemma yields_answer {A} (P : A → Prop) (o : outcome exn A) : (∀ a, o = Ok a → P a) → yields (W:=W) P (answer o).
Proof. intros H w. unfold answer, wp. destruct o; auto. Qed.
Lemma yields_unless {A} (P : A → Prop) (m : comp W exn A) a : yields P m → P a → yields P (unless_http_error m a).
Proof.
  intros Hm Ha w. apply wp_catch. eapply wp_mono; [apply Hm|done|]. intros e w' _. by destruct (is_http_error e).
Qed.
Lemma yields_fold {A B} (P : B → Prop) (f : B → A → comp W exn B) b l :
  P b → Forall (λ x, ∀ b, P b → yields P (f b x)) l → yields P (fold_each f b l).
Proof. intros Hb Hl. revert b Hb. induction Hl as [|x l Hx _ IH]; intros b Hb; cbn; [by apply yields_ret|]. eapply yields_bind; [by apply Hx|auto]. Qed.
Lemma yields_answers {A} (P : A → Prop) (m : comp W exn A) w a w' : yields P m → m w = (Ok a, w') → P a.
Proof. intros Hm E. specialize (Hm w). unfold wp in Hm. by rewrite E in Hm. Qed.
End yields.

Section soundness.
Context {W : Type}.
Context (http : string → string → dict string → comp W exn response) (sleep : float → comp W exn unit) (parse_float : string → option float)
  (headers : dict string) (unescape : string → string).

Abbreviation known l := (Forall (λ m : string, m ∈ _SUPPORTED_METHODS) l).

Lemma only_get : known ["GET"].
Proof. by repeat constructor. Qed.
Lemma none_known : known [].
Proof. constructor. Qed.
Lemma allowed_known r : known (allowed_methods r).
Proof.
  unfold allowed_methods. destruct (str_eqb _ _); [by apply Forall_forall|]. apply Forall_forall. intros m [Hm _]%elem_of_filterb. by apply bool_decide_eq_true in Hm.
Qed.

Lemma head_get url h : yields (λ l, l = [] ∨ l = ["GET"]) (_head_probe http url h).
Proof. apply yields_unless; [|by left]. apply yields_then. intros r. apply yields_ret. destruct (rsp_status r <? 400); [by right|by left]. Qed.
Lemma head_known url h : yields (λ l, known l) (_head_probe http url h).
Proof. intros w. eapply wp_mono; [apply head_get| |done]. intros a _ [->| ->]; [apply none_known|apply only_get]. Qed.

Lemma probed_known url h : yields (λ l, known l) (probed_methods http url h).
Proof.
  unfold probed_methods, options_probe, get_probe, if_none. eapply yields_bind.
  { apply yields_unless; [|apply none_known]. apply yields_then. intros r. destruct (rsp_status r <? 400); [apply yields_ret, allowed_known|].
    destruct (rsp_status r =? 405); [apply head_known|apply yields_ret, none_known]. }
  intros l Hl. eapply yields_bind; [destruct l; [apply head_known|by apply yields_ret]|].
  intros l' Hl'. destruct l'; [|by apply yields_ret]. apply yields_unless; [|apply none_known]. apply yields_then. intros r. apply yields_ret.
  destruct (shows_content r); [apply only_get|apply none_known].
Qed.

Lemma sound_probe p url target source h : all_sound target → yields (λ o, all_sound o) (_probe_and_register http p url target source h).
Proof.
  intros Ht. eapply yields_bind; [apply probed_known|]. intros l Hl. apply yields_ret. destruct l as [|m l]; [done|]. apply values_set; [done|].
  split; [exact (supported_list (m :: l) Hl)|apply strong_confidence|right]; is_listed.
Qed.

Lemma sound_allowed e : sound e → yields sound (_probe_allowed_methods http e headers).
Proof.
  intros He. apply yields_then. intros [r|]; [|by apply yields_ret]. destruct (rsp_status r =? 405).
  - eapply yields_bind; [apply head_get|]. intros l [->| ->]; apply yields_ret; [done|]. destruct He as [Hm Hc Hw].
    split; cbn [ob_methods ob_confidence]; [apply union_least; [done|exact (supported_list _ only_get)]|done|].
    destruct Hw as [Hw|Hw]; [left; apply union_least; [done|set_solver]|by right].
  - destruct (400 <=? rsp_status r); [by apply yields_ret|]. pose proof (allowed_known r) as Hl. destruct (allowed_methods r) as [|m l]; apply yields_ret; [done|].
    destruct He as [_ Hc _]. split; [exact (supported_list (m :: l) Hl)|apply strong_confidence|right]; (apply fmax_strong_r; [done|is_listed]).
Qed.

Lemma sound_resource url observed kv observed' : register_resource url observed kv = Ok observed' → all_sound observed → all_sound observed'.
Proof.
  unfold register_resource. destruct kv as [name v]. destruct (negb _); [by intros [= <-]|]. intros H Ho. obinds H.
  assert (∀ p u, all_sound (_register_endpoint observed p u (_json_server_collection_methods v) "json_server_db" 0x1.f5c28f5c28f5cp-1%float)) as Hc.
  { intros p u. apply sound_register; [done|destruct v; all_supported|apply strong_confidence; is_listed|right; is_listed]. }
  destruct (_sample_resource_id v); [|by injection H as <-]. obinds H. injection H as <-.
  apply sound_register; [apply Hc|all_supported|apply strong_confidence; is_listed|right; is_listed].
Qed.

Lemma sound_json_server url r observed : all_sound observed → yields (λ or : observations * relations, all_sound or.1) (_bootstrap_json_server http url r observed headers).
Proof.
  intros Ho. unfold _bootstrap_json_server. destruct (_ || _); [by apply yields_ret|]. apply yields_then. intros db_url. apply yields_then.
  intros [db|]; [|by apply yields_ret]. destruct (if 400 <=? rsp_status db then _ else _) as [[| | | | | |d]|]; try by apply yields_ret.
  destruct (_looks_like_json_server_db_payload _); [|by apply yields_ret]. eapply yields_bind; [|intros o Hs; by apply yields_ret].
  apply yields_answer. intros o H. revert Ho. exact (fold_outcome_inv (λ o, all_sound o) _ _ _ _ (λ b a b', sound_resource _ b a b') H).
Qed.

Lemma sound_entrypoint url r observed : all_sound observed → yields (λ o, all_sound o) (_bootstrap_current_json_entrypoint http url r observed headers).
Proof.
  intros Ho. unfold _bootstrap_current_json_entrypoint. destruct (negb _); [by apply yields_ret|].
  destruct (_ ≫= _) as [items|]; [|by apply yields_ret]. apply yields_then. intros p.
  assert (all_sound (_register_endpoint observed p url ["GET"] "json_entrypoint" 0x1.eb851eb851eb8p-1%float)) as Hr.
  { apply sound_register; [done|all_supported|apply strong_confidence; is_listed|right; is_listed]. }
  destruct (_sample_resource_id _); [|by apply yields_ret]. apply yields_then. intros u. by apply sound_probe.
Qed.

Lemma sound_registry url r observed o : _bootstrap_collection_registry url r observed = Ok o → all_sound observed → all_sound o.1.
Proof.
  unfold _bootstrap_collection_registry. destruct (negb _); [by intros [= <-]|]. destruct (rsp_json r); [|by intros [= <-]].
  intros H. apply obind_ok in H as (strategy & _ & H). destruct strategy as [strategy|]; [|by injection H as <-].
  apply obind_ok in H as (l & Hl & H). apply obind_ok in H as (o' & H' & H). injection H as <-. intros Ho. cbn.
  assert (Forall (λ c, rc_methods c = ["GET"; "POST"]) l) as Hm.
  { unfold _apply_collection_strategy in Hl. destruct (_extract_collection_items _); [|by injection Hl as <-].
    apply obind_ok in Hl as (u & _ & Hl). refine (fold_outcome_inv (λ l, Forall (λ c, rc_methods c = _) l) _ _ _ _ _ Hl (List.Forall_nil _)). intros acc item acc' Ha Hacc.
    apply obind_ok in Ha as (x & _ & Ha). injection Ha as <-. destruct x; [|done]. destruct (one_of _ _); [done|].
    apply Forall_app. split; [done|by apply Forall_singleton]. }
  clear Hl. revert observed H' Ho. induction Hm as [|c l Hc _ IH]; intros observed H' Ho; cbn in H'; [by injection H' as <-|].
  apply obind_ok in H' as (o1 & H1 & H'). apply (IH _ H'). unfold register_candidate in H1. apply obind_ok in H1 as (u & _ & H1). injection H1 as <-.
  apply sound_register; [done|rewrite Hc; all_supported|apply strong_confidence; is_listed|right; is_listed].
Qed.

Lemma known_link source : supported (list_to_set (link_methods source)) ∧ link_confidence source ∈ confidences ∧
  (list_to_set (link_methods source) ⊆ ({[ "GET" ]} : names) ∨ link_confidence source ∈ strong).
Proof.
  unfold link_methods, link_confidence, is_page. destruct (str_eqb source "form") eqn:Ef.
  - apply str_eqb_eq in Ef as ->. cbn -[list_to_set]. split_and!; [all_supported|is_listed|right; is_listed].
  - destruct (one_of source _); destruct (str_eqb source "link"); split_and!; first [all_supported|is_listed|only_reads].
Qed.

Context (max_pages : nat) (base_url : string).
Abbreviation sound_state st := (all_sound (cr_observed st)).

Lemma sound_found depth st c st' : found_address max_pages base_url depth st c = Ok st' → sound_state st →
  sound_state st' ∧ cr_visited st' = cr_visited st.
Proof.
  unfold found_address. destruct c as [found source]. intros H Hs. do 2 (apply obind_ok in H as (? & _ & H)). injection H as <-. split; [|done].
  apply values_set; [done|]. destruct (known_link source) as (Hm & Hc & Hw). by apply sound_at.
Qed.

Lemma sound_read url depth r st : sound_state st →
  yields (λ st', sound_state st' ∧ cr_visited st' = cr_visited st) (read_page http unescape max_pages base_url headers url depth r st).
Proof.
  intros Hs. unfold read_page. eapply yields_bind; [by apply sound_json_server|]. intros or Ho.
  eapply yields_bind; [by apply sound_entrypoint|]. intros o Ho'. eapply yields_bind; [apply yields_answer; intros oc H; exact (sound_registry _ _ _ _ H Ho')|].
  intros oc Hoc. do 2 (apply yields_then; intros ?). apply yields_answer. intros st' H.
  eapply (fold_outcome_inv (λ st', sound_state st' ∧ cr_visited st' = cr_visited st)); [|exact H|done].
  intros b c b' Hb [Hbs Hbv]. destruct (sound_found _ _ _ _ Hb Hbs) as [? Hv]. split; [done|congruence].
Qed.

Lemma sound_visit url depth st : sound_state st →
  yields (λ st', sound_state st' ∧ cr_visited st' = cr_visited st) (visit http sleep parse_float unescape max_pages base_url headers url depth st).
Proof.
  intros Hs. unfold visit. apply yields_then. intros [r|]; [|by apply yields_ret]. destruct (400 <=? rsp_status r); [by apply yields_ret|].
  by apply sound_read.
Qed.

Lemma next_page_new visited queue url depth queue' : next_page visited queue = Some ((url, depth), queue') → url ∉ visited.
Proof.
  induction queue as [|[u d] queue IH]; [done|]. cbn. destruct (one_of u visited) eqn:E; [done|]. intros [= <- <- <-].
  by apply bool_decide_eq_false in E.
Qed.

Lemma sound_crawl n st : sound_state st → NoDup (cr_visited st) →
  yields (λ st', sound_state st' ∧ NoDup (cr_visited st') ∧ (length (cr_visited st') ≤ length (cr_visited st) + n)%nat)
    (crawl http sleep parse_float unescape max_pages base_url headers n st).
Proof.
  revert st. induction n as [|n IH]; intros st Hs Hnd; cbn [crawl]; [apply yields_ret; by split_and!; [..|lia]|].
  destruct (next_page _ _) as [[[url depth] queue]|] eqn:E; [|apply yields_ret; by split_and!; [..|lia]].
  apply next_page_new in E. eapply yields_bind; [by apply sound_visit|]. intros st' [Hs' Hv]. cbn in Hv.
  intros w. eapply wp_mono; [apply IH; [done|rewrite Hv; apply NoDup_app; split_and!; [done|set_solver|apply NoDup_singleton]]| |done].
  intros st2 _ (Hs2 & Hnd2 & Hl). split_and!; [done..|]. rewrite Hv, length_app in Hl. cbn in Hl. lia.
Qed.

Lemma sound_update observed more : all_sound observed → all_sound more → all_sound (dict_update observed more).
Proof.
  intros Ho Hm. revert observed Ho. unfold dict_update. induction Hm as [|kv more Hkv _ IH]; intros observed Ho; [done|]. cbn. apply IH. by apply values_set.
Qed.

Lemma sound_inference observed hints : yields (λ o, all_sound o) (_infer_sub_resources http base_url observed hints headers).
Proof.
  unfold _infer_sub_resources. eapply (yields_bind (λ st, all_sound st.1)); [|intros st Hs; by apply yields_ret].
  apply yields_fold; [constructor|]. apply Forall_forall. intros kv _ st Hst. apply yields_fold; [done|]. apply Forall_forall.
  intros candidate _ [inferred probed] Hi. unfold probe_new. apply yields_then. intros url. destruct (_ || _); [by apply yields_ret|].
  eapply yields_bind; [by apply sound_probe|]. intros o Ho. by apply yields_ret.
Qed.

Lemma sound_passes n hints observed : all_sound observed → yields (λ o, all_sound o) (infer_passes http base_url headers n hints observed).
Proof.
  revert observed. induction n as [|n IH]; intros observed Ho; cbn [infer_passes]; [by apply yields_ret|].
  eapply yields_bind; [apply sound_inference|]. intros inferred Hi. destruct inferred; [by apply yields_ret|]. by apply IH, sound_update.
Qed.

Lemma sound_seeds json_indent json_loads complete observed :
  yields (λ o, all_sound o) (_llm_seed_mutation http parse_float base_url json_indent json_loads complete observed).
Proof.
  unfold _llm_seed_mutation. apply yields_then. intros l. apply yields_fold; [constructor|]. apply Forall_forall. intros c _ acc Hacc.
  unfold probe_seed. destruct (dict_mem _ _); [by apply yields_ret|]. apply yields_then. intros url. by apply sound_probe.
Qed.

Lemma sound_probe_all observed : all_sound observed → yields (λ o, all_sound o) (probe_all http headers observed).
Proof.
  intros Ho. apply yields_fold; [constructor|]. eapply Forall_impl; [exact Ho|]. intros kv Hkv acc Hacc.
  eapply yields_bind; [by apply sound_allowed|]. intros e He. apply yields_ret. apply Forall_app. split; [done|by apply Forall_singleton].
Qed.
End soundness.

(** ** Merging keeps what is discovered sound *)

Lemma sound_keep observed merged paths : all_sound observed → all_sound merged → all_sound (keep_paths observed merged paths).
Proof.
  intros Ho. unfold keep_paths. revert merged. induction paths as [|p paths IH]; intros merged Hm; [done|]. cbn [foldl]. apply IH.
  destruct (dict_get observed p) as [e|] eqn:E; [|done]. apply values_set; [done|]. exact (values_get sound _ _ _ Ho E).
Qed.

Lemma sound_dedup observed : all_sound observed → all_sound (_deduplicate_concrete_paths observed).
Proof.
  intros Ho. unfold _deduplicate_concrete_paths. destruct (existsb _ _); [|done].
  assert (∀ l merged, all_sound l → all_sound merged → all_sound (foldl (merge_subsumed observed) merged l)) as H; [|by apply H].
  induction l as [|[p e] l IH]; intros merged Hl Hm; [done|]. apply Forall_cons in Hl as [He Hl]. cbn [foldl]. apply IH; [done|].
  unfold merge_subsumed. destruct (subsuming _ p) as [t|].
  - destruct (dict_get observed t) as [target|] eqn:Et; [|done]. apply values_set; [done|]. pose proof (values_get sound _ _ _ Ho Et) as Ht.
    destruct He as [Hs Hc Hw]. apply sound_merge; [|done..]. destruct (dict_get merged t) as [e'|] eqn:E'; [|done]. exact (values_get sound _ _ _ Hm E').
  - destruct (dict_mem merged p); [done|]. by apply values_set.
Qed.

(** The most confident endpoint is as confident as any. *)
Definition better (best e : observed_endpoint) : observed_endpoint := if PrimFloat.ltb (ob_confidence best) (ob_confidence e) then e else best.
Lemma better_strong a b : sound a → sound b → sound (better a b) ∧
  (ob_confidence a ∈ strong ∨ ob_confidence b ∈ strong → ob_confidence (better a b) ∈ strong).
Proof.
  intros Ha Hb. unfold better. split; [by destruct (PrimFloat.ltb _ _)|].
  assert (fmax (ob_confidence a) (ob_confidence b) = ob_confidence (if PrimFloat.ltb (ob_confidence a) (ob_confidence b) then b else a)) as <-
    by (unfold fmax; by destruct (PrimFloat.ltb _ _)).
  intros [H|H]; [apply fmax_strong_l|apply fmax_strong_r]; (done || by destruct Ha, Hb).
Qed.

Lemma best_strong l b : Forall sound l → best_endpoint l = Some b →
  ob_confidence b ∈ confidences ∧ (ob_confidence b ∈ strong ∨ Forall (λ e, ob_methods e ⊆ {[ "GET" ]}) l).
Proof.
  destruct l as [|e l]; [done|]. intros [He Hl]%Forall_cons. cbn. intros [= <-]. change (foldl _ e l) with (foldl better e l).
  assert (∀ G : Prop, G ∨ ob_confidence e ∈ strong → sound (foldl better e l) ∧
    (ob_confidence (foldl better e l) ∈ strong ∨ (G ∧ Forall (λ e, ob_methods e ⊆ {[ "GET" ]}) l))) as H.
  { revert e He. induction Hl as [|x l Hx _ IH]; intros e He G HG; cbn [foldl].
    - split; [done|]. destruct HG; [right; by split; [|constructor]|by left].
    - destruct (better_strong e x He Hx) as [Hb Hor]. destruct (IH _ Hb (G ∧ ob_methods x ⊆ {[ "GET" ]})) as [Hs H].
      + destruct HG as [HG|HG]; [|right; apply Hor; by left]. destruct (so_writes x Hx); [by left|right; apply Hor; by right].
      + split; [done|]. destruct H as [H|[[H1 H2] H]]; [by left|right]. split; [done|by constructor]. }
  destruct (H _ (so_writes e He)) as [Hs H']. split; [apply Hs|]. destruct H' as [H'|[Hg H']]; [by left|right; by constructor].
Qed.

Lemma sound_group observed merged g merged' : coalesce_group observed merged g = Ok merged' → all_sound observed → all_sound merged → all_sound merged'.
Proof.
  unfold coalesce_group. destruct g as [parent paths]. intros H Ho Hm. cbv zeta in H. destruct (orb _ _); [injection H as <-; by apply sound_keep|].
  apply obind_ok in H as (template_path & _ & H). destruct (best_endpoint _) as [b|] eqn:Eb; [|by injection H as <-]. injection H as <-.
  apply sound_keep; [done|]. apply values_set; [done|].
  assert (Forall sound (endpoints_of observed paths)) as Hs.
  { unfold endpoints_of. apply Forall_forall. intros e (p & _ & Hp)%list_elem_of_omap. exact (values_get sound _ _ _ Ho Hp). }
  destruct (best_strong _ _ Hs Eb) as [Hc Hw]. split; cbn; [|done|].
  - intros m (s & Hs' & Hmem)%elem_of_union_list. apply list_elem_of_fmap in Hs' as (e & -> & He). rewrite Forall_forall in Hs. by apply (Hs e He).
  - destruct Hw as [Hw|Hw]; [by right|left]. intros m (s & Hs' & Hmem)%elem_of_union_list. apply list_elem_of_fmap in Hs' as (e & -> & He).
    rewrite Forall_forall in Hw. by apply (Hw e He).
Qed.

Lemma sound_coalesce observed o : _coalesce_sibling_endpoints observed = Ok o → all_sound observed → all_sound o.
Proof.
  intros H Ho. refine (fold_outcome_inv (λ o, all_sound o) _ _ _ _ _ H (List.Forall_nil _)). intros merged g merged' Hg. by apply (sound_group _ _ _ _ Hg).
Qed.

(** What the classifier and the description rely on *)
Record discovered_soundly (e : DiscoveredEndpoint) : Prop := {
  ds_methods : dp_methods e ≠ [] ∧ Forall (λ m, m ∈ _SUPPORTED_METHODS) (dp_methods e);
  ds_confidence : dp_confidence e ∈ confidences;
  ds_writes : Forall (λ m, m = "GET") (dp_methods e) ∨ dp_confidence e ∈ strong;
}.

Lemma discovery_sound {W} (http : string → string → dict string → comp W exn response) sleep parse_float unescape max_pages base_url headers
    json_indent json_loads llm_client :
  yields (Forall discovered_soundly) (_discover http sleep parse_float unescape max_pages base_url headers json_indent json_loads llm_client).
Proof.
  unfold _discover. eapply yields_bind; [apply sound_crawl; [constructor|apply NoDup_nil_2]|]. intros st (Hst & _ & _).
  eapply yields_bind; [by apply sound_probe_all|]. intros o1 H1. eapply yields_bind; [by apply sound_passes|]. intros o2 H2.
  eapply (yields_bind (λ o, all_sound o)).
  { destruct llm_client as [complete|]; [|by apply yields_ret]. eapply yields_bind; [apply sound_seeds|]. intros seeds Hseeds. by apply yields_ret, sound_update. }
  intros o3 H3. eapply yields_bind; [apply yields_answer; intros o H; exact (sound_coalesce _ _ H (sound_dedup _ H3))|].
  intros o4 H4. apply yields_ret, Forall_fmap. unfold by_path. rewrite sorted_by_perm. apply Forall_fmap. eapply Forall_impl; [exact H4|].
  intros kv Hkv. destruct (sound_freeze _ Hkv) as (H5 & H6 & H7 & H8). by split.
Qed.

(** ** The operations *)

(** The methods of the endpoints discovered, in order *)
Definition endpoint_methods (discovered : list DiscoveredEndpoint) : list (DiscoveredEndpoint * string) :=
  concat ((λ e, (λ m, (e, m)) <$> dp_methods e) <$> discovered).
Definition own_classification (em : DiscoveredEndpoint * string) : EndpointClassification :=
  mk_classification (dp_path em.1) em.2 (_default_operation_name em.2 (dp_path em.1))
    ("Discovered REST endpoint " +:+ dp_path em.1 +:+ " using " +:+ em.2 +:+ ".") (dp_confidence em.1) ["rest"; "discovered"].

Lemma upper_supported m : m ∈ _SUPPORTED_METHODS → upper m = m ∧ one_of m _SUPPORTED_METHODS = true ∧ _risk_for_method m ≠ unknown.
Proof. intros H. split_and!; [|by apply bool_decide_eq_true|]; unfold _SUPPORTED_METHODS in H; repeat (apply elem_of_cons in H as [->|H]; [done|]); by apply elem_of_nil in H. Qed.

Lemma classified_all discovered : Forall discovered_soundly discovered →
  heuristic_classify discovered = own_classification <$> endpoint_methods discovered.
Proof.
  unfold heuristic_classify, endpoint_methods. induction 1 as [|e l [[_ Hm] _ _] _ IH]; [done|]. cbn [fmap list_fmap concat].
  rewrite IH, fmap_app. f_equal. clear -Hm. induction Hm as [|m l Hm _ IH]; [done|]. cbn [omap list_omap fmap list_fmap].
  unfold classify_method at 1. destruct (upper_supported m Hm) as (-> & -> & _). cbn [option_bind mbind]. by f_equal.
Qed.

(** An operation describes a method of an endpoint. *)
Record describes (base_path : string) (em : DiscoveredEndpoint * string) (o : Operation) : Prop := {
  de_method : op_method o = Some em.2;
  de_name : op_name o = _default_operation_name em.2 (dp_path em.1);
  de_path : ∃ n u, _normalize_classification_path base_path (dp_path em.1) = Ok n ∧ op_path o = Some (before_query n) ∧ startswith "/" n = true ∧
    urlparse n = Ok u ∧ ∀ x, x ∈ path_params (path u) → ∃ p, p ∈ op_params o ∧ pa_name p = x ∧ pa_required p = true;
  de_body : op_body_param_name o = None ∨ op_body_param_name o = Some "payload" ∧ ∃ p, p ∈ op_params o ∧ pa_name p = "payload";
  de_risk : rm_risk_level (op_risk o) = _risk_for_method em.2;
  de_enabled : op_enabled o = true;
}.

Lemma absolute_app a t : startswith "/" a = true → startswith "/" (a +:+ t) = true.
Proof. intros (r & ->)%startswith_true. rewrite <-str_app_assoc. apply startswith_app. Qed.

Lemma normalized_absolute base_path p n : _normalize_classification_path base_path p = Ok n → startswith "/" n = true.
Proof.
  unfold _normalize_classification_path. intros H. apply obind_ok in H as (u & _ & H). injection H as <-.
  assert (∀ a q, startswith "/" a = true → startswith "/" (with_query a q) = true) as Hq.
  { intros a q Ha. unfold with_query. destruct (str_truthy q); [by apply absolute_app|done]. }
  apply Hq. set (n0 := if startswith "/" _ then _ else _). assert (startswith "/" n0 = true) as Hn.
  { unfold n0. destruct (startswith "/" (unquote _)) eqn:E; [done|]. apply (startswith_app "/"). }
  clearbody n0. destruct (str_truthy base_path); [|done]. destruct (str_eqb n0 base_path); [done|]. destruct (startswith (base_path +:+ "/") n0) eqn:E; [|done].
  apply startswith_true in E as (r & ->). rewrite <-str_app_assoc, drop_str_app. apply (startswith_app "/").
Qed.

Lemma checked_ok p p' : checked_param p = Ok p' → p' = p ∧ validate_Param p = Ok tt.
Proof. unfold checked_param. destruct (validate_Param p) as [[]|]; [by intros [= <-]|done]. Qed.

(** Parameters are checked when they are made; those of the path are required. *)
Lemma params_sound n params u : _params_from_path_and_query n = Ok params → urlparse n = Ok u →
  Forall (λ p, validate_Param p = Ok tt) params ∧ ∀ x, x ∈ path_params (path u) → ∃ p, p ∈ params ∧ pa_name p = x ∧ pa_required p = true.
Proof.
  unfold _params_from_path_and_query. intros H Hu. rewrite Hu in H. cbn [obind] in H. apply obind_ok in H as (l1 & H1%traverse_ok & H).
  apply obind_ok in H as (l2 & H2%traverse_ok & H). injection H as <-. split.
  - apply Forall_app. split; apply Forall_forall; intros p (i & Hi)%list_elem_of_lookup;
      [destruct (Forall2_lookup_r _ _ _ _ _ H1 Hi) as (a & _ & Ha)|destruct (Forall2_lookup_r _ _ _ _ _ H2 Hi) as (a & _ & Ha)];
      by apply checked_ok in Ha as [-> ?].
  - intros x (i & Hi)%list_elem_of_lookup. destruct (Forall2_lookup_l _ _ _ _ _ H1 Hi) as (p & Hp & Hx). apply checked_ok in Hx as [-> _].
    eexists. split; [apply elem_of_app; left; by eapply list_elem_of_lookup_2|done].
Qed.

Lemma with_default_keeps defaults p : pa_name (with_default defaults p) = pa_name p ∧ pa_required (with_default defaults p) = pa_required p ∧
  validate_Param (with_default defaults p) = validate_Param p.
Proof. unfold with_default. destruct (pa_default p); try done. by destruct (dict_get defaults (pa_name p)). Qed.

Lemma operation_describes base_path defaults em o : em.2 ∈ _SUPPORTED_METHODS →
  _classification_to_operation true base_path defaults (own_classification em) = Ok o → describes base_path em o.
Proof.
  intros Hm. unfold _classification_to_operation. cbn [cf_method cf_path own_classification]. destruct (upper_supported _ Hm) as (-> & _ & _).
  intros H. apply obind_ok in H as (n & Hn & H). cbv zeta in H. apply obind_ok in H as (params & Hp & H).
  assert (∃ u, urlparse n = Ok u) as [u Hu].
  { unfold _params_from_path_and_query in Hp. by apply obind_ok in Hp as (u & Hu & _); exists u. }
  destruct (params_sound _ _ _ Hp Hu) as [_ Hr]. apply obind_ok in H as (body & Hb & H). apply obind_ok in H as (pagination & _ & H). injection H as <-.
  split; cbn [op_method op_name op_path op_params op_body_param_name op_risk op_enabled rm_risk_level]; try done.
  - exists n, u. split_and!; [done|done|by eapply normalized_absolute|done|]. intros x (p & Hin & <- & Hreq)%Hr.
    set (d := default [] (dict_get defaults n)). destruct (with_default_keeps d p) as (E1 & E2 & _).
    exists (with_default d p). split; [apply elem_of_app; left; by apply list_elem_of_fmap_2|]. by rewrite E1, E2.
  - destruct (one_of _ _ && _) eqn:E; [right|by left]. split; [done|]. apply obind_ok in Hb as (p & Hb%checked_ok & Hp'). injection Hp' as <-. destruct Hb as [-> _].
    eexists. split; [apply elem_of_app; right; by left|done].
Qed.

Lemma confident c : c ∈ confidences → unit_interval c = true.
Proof. intros H. unfold confidences, strong in H. cbn [app] in H. each_confidence H; reflexivity. Qed.

Lemma pagination_fields n m o : _infer_pagination_from_response n m = Ok o → opt_all PaginationConfig_fields o = true.
Proof.
  assert (∀ a b : option PaginationConfig, Ok (E:=exn) a = Ok b → a = b) as Hok by congruence.
  unfold _infer_pagination_from_response. destruct (negb _); [by intros [= <-]|]. intros H. apply obind_ok in H as (u & _ & <-%Hok).
  cbv zeta. generalize (list_to_set (C:=names) ((λ kv, lower kv.1) <$> parse_qsl (query u))). intros s.
  generalize (hinted s ["cursor"; "next"; "page_token"]), (hinted s ["current_page"; "page"; "total_pages"]), (hinted s ["limit"; "offset"]).
  by intros [|? ?] [|? ?] [|? ?].
Qed.

Lemma operation_valid base_path defaults em o : em.2 ∈ _SUPPORTED_METHODS → discovered_soundly em.1 →
  _classification_to_operation true base_path defaults (own_classification em) = Ok o → validate_Operation o = Ok o.
Proof.
  intros Hm Hs H. pose proof (operation_describes _ _ _ _ Hm H) as Hd. destruct (upper_supported _ Hm) as (Hu & _ & Hk).
  apply validate_operation_eq. assert (unknown_risk_must_be_disabled o = o) as ->.
  { unfold unknown_risk_must_be_disabled. pose proof (de_risk _ _ _ Hd) as Hr. by destruct (rm_risk_level (op_risk o)). }
  split; [done|]. unfold _classification_to_operation in H. cbn [cf_method cf_path own_classification] in H. rewrite Hu in H.
  apply obind_ok in H as (n & Hn & H). cbv zeta in H. apply obind_ok in H as (params & Hp & H).
  assert (∃ u, urlparse n = Ok u) as [u Hu'].
  { unfold _params_from_path_and_query in Hp. by apply obind_ok in Hp as (u & Hu' & _); exists u. }
  destruct (params_sound _ _ _ Hp Hu') as [Hv _]. apply obind_ok in H as (body & Hb & H). apply obind_ok in H as (pagination & Hg & H). injection H as <-.
  split; [|done]. unfold operation_parts. apply in_order_ok. apply Forall_app. cbn [op_params]. split.
  - rewrite map_app. apply Forall_app. split; apply Forall_map.
    + apply Forall_fmap. eapply Forall_impl; [exact Hv|]. intros p Hpv. cbn. by destruct (with_default_keeps (default [] (dict_get defaults n)) p) as (_ & _ & ->).
    + destruct (_ && _); [|injection Hb as <-; constructor]. apply obind_ok in Hb as (p & [-> Hc]%checked_ok & Hb). injection Hb as <-. by apply Forall_singleton.
  - repeat (apply Forall_cons; split; [done|]). apply Forall_singleton. unfold Operation_fields.
    cbn [op_id op_name op_confidence op_response_examples op_risk op_response_strategy op_graphql op_grpc_unary op_soap op_jsonrpc op_cli op_pagination op_sla opt_all].
    pose proof (confident _ (ds_confidence _ Hs)) as Hc. cbn [cf_confidence own_classification].
    unfold RiskMetadata_fields, ResponseStrategy_fields. cbn [rm_confidence rs_pagination rs_max_response_bytes rs_max_array_items opt_all].
    rewrite Hc, (pagination_fields _ _ _ Hg). cbn [forallb andb].
    assert (∀ a x b, str_truthy x = true → str_truthy (a +:+ (x +:+ b)) = true) as Ht by (intros [|? ?] [|? ?] ?; done).
    unfold _operation_id, _default_operation_name. cbn [cf_name own_classification]. unfold _default_operation_name. 
    rewrite !Ht by done. done.
Qed.

(** ** The extraction *)

(** Suffixes change identifiers only. *)
Definition but_identifier (o o' : Operation) : Prop := ∃ i, i ≠ "" ∧ o' = op_with_identity o i (op_name o).

Lemma dedup_keeps seen ops : Forall (λ o, op_id o ≠ "") ops → Forall2 (λ o o', o' = o ∨ but_identifier o o') ops (dedup_ids seen ops).
Proof.
  intros H. revert seen. induction H as [|o ops Ho _ IH]; intros seen; cbn [dedup_ids]; constructor; [|apply IH].
  destruct (_ <? _)%nat; [right|by left]. eexists. split; [|done]. by destruct (op_id o).
Qed.

Lemma describes_renamed base_path em o o' : o' = o ∨ but_identifier o o' → describes base_path em o → describes base_path em o'.
Proof. intros [->|(i & _ & ->)]; [done|]. intros []. by split. Qed.

Lemma traverse_agree {A B} (P : A → Prop) (f g : A → outcome exn B) l l' : Forall P l → (∀ a b, P a → f a = Ok b ↔ g a = Ok b) →
  traverse f l = Ok l' ↔ traverse g l = Ok l'.
Proof.
  intros Hl Hfg. rewrite !traverse_ok. revert l'. induction Hl as [|a l Ha _ IH]; intros l'.
  { split; intros ->%Forall2_nil_inv_l; constructor. }
  split; intros (b & k & Hb & Hk & ->)%Forall2_cons_inv_l; (constructor; [by apply (Hfg _ _ Ha)|by apply IH]).
Qed.

Lemma traverse_fmap {A B C} (f : B → outcome exn C) (g : A → B) l : traverse f (g <$> l) = traverse (λ x, f (g x)) l.
Proof. induction l as [|x l IH]; [done|]. cbn. by rewrite IH. Qed.

Lemma methods_sound discovered : Forall discovered_soundly discovered →
  Forall (λ em, em.2 ∈ _SUPPORTED_METHODS ∧ discovered_soundly em.1) (endpoint_methods discovered).
Proof.
  induction 1 as [|e l He _ IH]; [constructor|]. unfold endpoint_methods. cbn [fmap list_fmap concat]. apply Forall_app. split; [|exact IH].
  apply Forall_fmap. destruct (ds_methods _ He) as [_ Hm]. eapply Forall_impl; [exact Hm|]. by intros m Hin.
Qed.

Section description.
Context {W : Type} (json_sorted : pyval → string) (sha256_hex : string → string) (llm_client : option (string → comp W exn string)).
Abbreviation own_description := (rest_description json_sorted sha256_hex llm_client None).

(** The operations converted and validated *)
Lemma converted discovered base_path defaults ops : Forall discovered_soundly discovered →
  traverse (λ c, let! o := _classification_to_operation true base_path defaults c in validate_Operation o) (heuristic_classify discovered) = Ok ops ↔
  traverse (λ em, _classification_to_operation true base_path defaults (own_classification em)) (endpoint_methods discovered) = Ok ops.
Proof.
  intros Hs. rewrite (classified_all _ Hs), traverse_fmap.
  apply (traverse_agree (λ em, em.2 ∈ _SUPPORTED_METHODS ∧ discovered_soundly em.1)); [by apply methods_sound|]. intros em o [Hm Hd].
  split; intros Ho.
  - apply obind_ok in Ho as (o' & Ho & Hv). rewrite (operation_valid _ _ _ _ Hm Hd Ho) in Hv. by injection Hv as <-.
  - rewrite Ho. cbn [obind]. by eapply operation_valid.
Qed.

Lemma converted_describe discovered base_path defaults ops : Forall discovered_soundly discovered →
  traverse (λ em, _classification_to_operation true base_path defaults (own_classification em)) (endpoint_methods discovered) = Ok ops →
  Forall2 (describes base_path) (endpoint_methods discovered) (_deduplicate_operation_ids ops) ∧
  Forall (λ o, rm_risk_level (op_risk o) ≠ unknown) (_deduplicate_operation_ids ops).
Proof.
  intros Hs%methods_sound Ht%traverse_ok.
  assert (Forall2 (describes base_path) (endpoint_methods discovered) (_deduplicate_operation_ids ops)) as Hd.
  { assert (Forall (λ o, op_id o ≠ "") ops) as Hids.
    { clear Hs. induction Ht as [|em o l ops Ho _ IH]; constructor; [|done]. unfold _classification_to_operation in Ho.
      do 4 (apply obind_ok in Ho as (? & _ & Ho)). injection Ho as <-. cbn [op_id]. unfold _operation_id. by destruct (lower _). }
    pose proof (dedup_keeps [] _ Hids) as Hk. change (dedup_ids [] ops) with (_deduplicate_operation_ids ops) in Hk.
    clear Hids. revert Hk. generalize (_deduplicate_operation_ids ops). revert Hs.
    induction Ht as [|em o l ops Ho _ IH]; intros Hs ops' Hk; [apply Forall2_nil_inv_l in Hk as ->; constructor|].
    apply Forall2_cons_inv_l in Hk as (o' & k & Ho' & Hk & ->). apply Forall_cons in Hs as [[Hm _] Hs]. constructor; [|by apply IH].
    eapply describes_renamed; [exact Ho'|]. by eapply operation_describes. }
  split; [done|]. clear Ht. induction Hd as [|em o l ops' Ho _ IH]; constructor; apply Forall_cons in Hs as [[Hm _] Hs]; [|by apply IH].
  rewrite (de_risk _ _ _ Ho). by apply upper_supported.
Qed.

Lemma description_of source url discovered now ir : Forall discovered_soundly discovered →
  own_description source url discovered (heuristic_classify discovered) now = Ok ir →
  valid_description "rest" ir ∧ ∃ base_path, _discovery_base_path url discovered = Ok base_path ∧
    Forall2 (describes base_path) (endpoint_methods discovered) (ir_operations ir).
Proof.
  intros Hs. unfold rest_description. intros H. apply obind_ok in H as (base_path & Hb & H). apply obind_ok in H as (defaults & _ & H).
  apply obind_ok in H as (ops & Ho & H). do 2 (apply obind_ok in H as (? & _ & H)). apply (converted _ _ _ _ Hs) in Ho.
  destruct (converted_describe _ _ _ _ Hs Ho) as [Hd Hk]. split; [by eapply describe_valid|]. exists base_path. split; [done|].
  by apply described_operations in H as [-> _].
Qed.
End description.

Section extraction.
Context {W : Type}.
Context (http : string → string → dict string → comp W exn response) (sleep : float → comp W exn unit) (parse_float : string → option float)
  (unescape : string → string) (json_indent json_sorted : pyval → string) (json_loads : string → option pyval) (sha256_hex : string → string)
  (now : W → Z) (max_pages : nat) (llm_client : option (string → comp W exn string)).
Abbreviation extract_with := (rest_extract http sleep parse_float unescape json_indent json_sorted json_loads sha256_hex now max_pages llm_client).

(** C30. A service that was discovered is described in full.  With the source's own
    classifier, an extraction that answers has crawled; what it discovered are
    endpoints with methods, every writing one of which was seen with the confidence
    a body parameter needs; and the valid description has exactly one operation for
    each method of each endpoint, in order: enabled, of the risk of its method, with
    an absolute path whose placeholders are required parameters, and with a payload
    among its parameters when it names one. *)
Theorem rest_extraction source w ir w' : extract_with None source w = (Ok ir, w') →
  valid_description "rest" ir ∧ ∃ url discovered base_path w1, sc_url source = Some url ∧
    _discover http sleep parse_float unescape max_pages url (get_auth_headers source) json_indent json_loads llm_client w = (Ok discovered, w1) ∧
    Forall discovered_soundly discovered ∧ _discovery_base_path url discovered = Ok base_path ∧
    Forall2 (describes base_path) (endpoint_methods discovered) (ir_operations ir).
Proof.
  unfold rest_extract. destruct (named _) as [url|] eqn:En; [|done]. apply named_Some in En as [En _]. intros H. mbind H discovered w1 Hd.
  pose proof (yields_answers _ _ _ _ _ (discovery_sound _ _ _ _ _ _ _ _ _ _) Hd) as Hs. destruct discovered as [|e l] eqn:El; [done|].
  rewrite <-El in *. mbind H classified w2 Hc. injection Hc as <- <-. destruct (heuristic_classify discovered) as [|c cs] eqn:Ec; [done|]. rewrite <-Ec in H.
  mbind H t w3 Ht. apply answer_ok in H as [H _]. destruct (description_of _ _ _ _ _ _ _ _ Hs H) as [Hv (base_path & Hb & Hf)].
  split; [done|]. by exists url, discovered, base_path, w1.
Qed.

#[global] Instance rest_extracts chosen :
  Extracts (RESTExtractor http sleep parse_float unescape json_indent json_sorted json_loads sha256_hex now max_pages llm_client chosen).
Proof.
  intros source w ir w' H. cbn in H. unfold rest_extract in H. destruct (named _) as [url|]; [|done]. mbind H discovered w1 Hd.
  destruct discovered; [done|]. mbind H classified w2 Hc. destruct classified; [done|]. mbind H t w3 Ht. apply answer_ok in H as [H _].
  unfold rest_description in H. do 5 (apply obind_ok in H as (? & _ & H)). by eapply describe_valid.
Qed.

(** The crawl visits each page once, and so many at most. *)
Theorem crawl_bounded headers base_url w st w' :
  crawl http sleep parse_float unescape max_pages base_url headers max_pages (initial_crawl base_url) w = (Ok st, w') →
  NoDup (cr_visited st) ∧ (length (cr_visited st) ≤ max_pages)%nat.
Proof.
  intros H. eapply yields_answers in H; [|apply sound_crawl; [constructor|apply NoDup_nil_2]]. cbn in H. by destruct H as (_ & ? & ?).
Qed.
End extraction.

(** ** A worked service *)

(** Requests are logged: method, address, and whether credentials came along. *)
Abbreviation request_log := (list (string * string * bool)).
Definition page (type text : string) (json : option pyval) : response := mk_response 200 [("content-type", type)] text text json None.
Definition allows (methods : string) : response := mk_response 200 [("allow", methods)] "" "" None None.
Definition serves (pages : dict response) (method url : string) (headers : dict string) : comp request_log exn response :=
  λ log, (Ok (default (mk_response 404 [] "" "" None None) (dict_get pages (method +:+ " " +:+ url))),
          log ++ [(method, url, bool_decide (headers ≠ []))]).
Definition no_sleep (t : float) : comp request_log exn unit := ret tt.

Definition users_page (id : pyval) : response := page "application/json" "" (Some (VList [VDict [("id", id); ("name", VStr "x")]])).
Definition demo_pages : dict response := [
  ("GET http://api/", page "text/html" "<a href='/users'>Users</a> <a href='/logo.png'>" None);
  ("GET http://api/users", users_page (VInt 7));
  ("OPTIONS http://api/users", allows "GET, POST");
  ("OPTIONS http://api/users/7", allows "GET, DELETE")].
Definition demo_source : SourceConfig := mk_source (Some "http://api/") None None None (Some "token") [].
Definition demo_extract : comp request_log exn ServiceIR :=
  rest_extract (serves demo_pages) no_sleep (λ _, None) id (λ _, "") (λ _, "{}") (λ _, None) (λ _, "0") (λ _, 0) 8 None None demo_source.
Definition demo_ir : option ServiceIR := match (demo_extract []).1 with Ok ir => Some ir | Raise _ => None end.

Definition shown_operations (ir : ServiceIR) : list (string * option string) := (λ o, (op_id o, op_path o)) <$> ir_operations ir.

Lemma rest_extraction_witness :
  ∃ ir w', demo_extract [] = (Ok ir, w') ∧ valid_description "rest" ir ∧
    shown_operations ir = [("get_users", Some "/users"); ("post_users", Some "/users"); ("delete_users_user_id", Some "/users/{user_id}");
                           ("get_users_user_id", Some "/users/{user_id}")].
Proof.
  destruct (demo_extract []) as [[ir|e] w'] eqn:E; [|vm_compute in E; discriminate E]. exists ir, w'. split; [reflexivity|]. split.
  - exact (proj1 (rest_extraction _ _ _ _ _ _ _ _ _ _ _ _ _ _ _ E)).
  - vm_compute in E. injection E as <- _. reflexivity.
Defined.

Definition demo_discover : comp request_log exn (list DiscoveredEndpoint) :=
  _discover (serves demo_pages) no_sleep (λ _, None) id 8 "http://api/" [("Authorization", "Bearer token")] (λ _, "") (λ _, None) None.
Definition only_reads (log : request_log) : Prop := Forall (λ r, r.1.1 ∈ reading) log.

Lemma discovery_only_reads_witness : only_reads (demo_discover []).2 ∧ length (demo_discover []).2 = 20%nat.
Proof.
  split; [|vm_compute; reflexivity].
  assert (preserves only_reads demo_discover) as H.
  { apply (discovery_only_reads only_reads (serves demo_pages) no_sleep).
    - intros m url h Hm _ log Hlog. cbn. apply Forall_app. split; [exact Hlog|]. by apply Forall_singleton.
    - intros t log Hlog. exact Hlog.
    - discriminate. }
  specialize (H [] (List.Forall_nil _)). unfold wp in H. destruct (demo_discover []) as [[] log]; exact H.
Defined.

(** ** What the code does besides *)

Definition sent_to (host : string) (log : request_log) : bool := existsb (λ r, str_contains host r.1.2 && r.2) log.

(** An element's identifier that is an address of another host is requested there,
    with the credentials; so is a path that starts with two slashes once decoded. *)
Example credentials_leave_the_host :
  let run pages := (_discover (serves pages) no_sleep (λ _, None) id 8 "http://api/users" [("Authorization", "secret")] (λ _, "") (λ _, None) None []).2 in
  sent_to "http://evil/" (run [("GET http://api/users", users_page (VStr "http://evil/7"))]) = true ∧
  sent_to "http://evil/" (run [("GET http://api/users", page "text/html" "<a href='/%2Fevil/x'>" None)]) = true.
Proof. split; vm_compute; reflexivity. Qed.

Definition html_at (base_url body : string) : option (list (string * string)) :=
  match _extract_from_html id base_url body with Ok l => Some l | Raise _ => None end.
(** A method is seen only right after the action: usual forms are taken for links. *)
Example form_is_a_link : html_at "http://api/" "<form action='/login' method='post'>" = Some [("http://api/login", "link")] ∧
  html_at "http://api/" "<form action='/login'method='post'>" = Some [("http://api/login", "form")].
Proof. split; vm_compute; reflexivity. Qed.
(** One malformed address on a page fails the whole discovery. *)
Example malformed_link_fails : html_at "http://api/" "<a href='/users'> <a href='http://[x'>" = None.
Proof. vm_compute. reflexivity. Qed.

(** Addresses are relative to where the crawl began, not to the page they are on. *)
Example links_relative_to_the_start :
  match (crawl (serves [("GET http://api/", page "text/html" "<a href='docs/'>" None); ("GET http://api/docs/", page "text/html" "<a href='intro'>" None)])
           no_sleep (λ _, None) id 8 "http://api/" [] 8 (initial_crawl "http://api/") []).1 with
  | Ok st => dict_keys (cr_observed st) | Raise _ => [] end = ["/docs/"; "/intro"].
Proof. vm_compute. reflexivity. Qed.

Definition fails {A} (o : outcome exn A) : bool := match o with Ok _ => false | Raise _ => true end.
(** Values of unexpected types, an infinite number and a parameter without a name
    are not caught. *)
Example unexpected_values_fail :
  (match _match_collection_strategy "http://api/api/collections" with
   | Ok (Some s) => fails (_apply_collection_strategy s "http://api/api/collections" (VList [VDict [("name", VStr "a"); ("type", VList [])]]))
   | _ => false end) = true ∧
  fails (_pagination_state (VDict [("page", VFloat PrimFloat.infinity)])) = true ∧
  fails (_params_from_path_and_query "/a?=1") = true.
Proof. split_and!; vm_compute; reflexivity. Qed.

(** Suggestions are probed without the source's credentials. *)
Example suggestions_unauthenticated :
  (probe_seed (serves []) "http://api/" [] [] (mk_seed "/users" ["GET"] VNone 0.5%float) []).2
  = [("OPTIONS", "http://api/users", false); ("HEAD", "http://api/users", false); ("GET", "http://api/users", false)].
Proof. vm_compute. reflexivity. Qed.
