(* ===== verification/BlackBox.v ===== *)
(** * Comparing a description with known endpoints ([libs/validator/black_box.py])

    Endpoints that are known to exist are looked up by method and generalised path;
    what was found, missed and found besides, and figures about it. *)

From S2P Require Export Validators PyUrl.
From Stdlib Require Import Ascii.

(** [EndpointTruth] of the fixtures *)
Record EndpointTruth := mk_truth {
  et_method : string;
  et_path : string;
  et_writes_state : bool;
  et_destructive : bool;
  et_external_side_effect : bool;
  et_idempotent : bool;
  et_resource_group : string;
  et_description : string;
}.
Record EndpointMatch := mk_match {
  em_method : string;
  em_path : string;
  em_operation_id : option string;
  em_risk_correct : option bool;
  em_description : string;
}.
Record FailurePattern := mk_pattern { fp_name : string; fp_affected : list (string * string); fp_description : string }.
Record BlackBoxReport := mk_report {
  bb_target_name : string;
  bb_target_base_url : string;
  bb_protocol : string;
  bb_ground_truth_count : nat;
  bb_resource_groups : list string;
  bb_discovered_operations : nat;
  bb_discovered_paths : list string;
  bb_matched_endpoints : list EndpointMatch;
  bb_unmatched_ground_truth : list (string * string);
  bb_extra_discovered : list (option string * option string);
  bb_discovery_coverage : float;
  bb_risk_accuracy : float;
  bb_failure_patterns : list FailurePattern;
}.
Definition matched_count (r : BlackBoxReport) : nat := length (List.filter (λ m, opt_truthy (em_operation_id m)) (bb_matched_endpoints r)).
Definition unmatched_count (r : BlackBoxReport) : nat := length (bb_unmatched_ground_truth r).

(** ** Paths *)

(** What follows the first closing brace, when something is before it *)
Definition template_rest (s : string) : option string :=
  match split_first "}"%char s with Some (name, rest) => if str_truthy name then Some rest else None | None => None end.
(** [_TEMPLATE_RE.sub("{_}", s)]: [skip] characters belong to the match before. *)
Fixpoint sub_templates (skip : nat) (s : string) : string :=
  match s with
  | EmptyString => ""
  | String c s' =>
      match skip with
      | S k => sub_templates k s'
      | O => if bool_decide (c = "{"%char) then
               match template_rest s' with
               | Some rest => "{_}" +:+ sub_templates (String.length s' - String.length rest) s'
               | None => String c (sub_templates 0 s')
               end
             else String c (sub_templates 0 s')
      end
  end.
Definition _normalize_template (p : string) : string := sub_templates 0 (rstrip_char "/"%char p).

Abbreviation key := (string * string)%type.
Definition truth_key (t : EndpointTruth) : key := (et_method t, _normalize_template (et_path t)).
(** The keys of an operation *)
Definition operation_key (o : Operation) : option key :=
  match op_method o, op_path o with
  | Some m, Some p => if str_truthy m && str_truthy p then Some (upper m, _normalize_template p) else None
  | _, _ => None
  end.

(** [truth_by_norm.get(key)]: the last endpoint of a key is kept. *)
Definition truth_at (ground_truth : list EndpointTruth) (k : key) : option EndpointTruth :=
  List.find (λ t, bool_decide (truth_key t = k)) (rev ground_truth).
Definition _match_operation_to_truth (o : Operation) (ground_truth : list EndpointTruth) : option EndpointTruth :=
  operation_key o ≫= truth_at ground_truth.

Definition agrees (o : option bool) (b : bool) : bool := match o with Some x => bool_decide (x = b) | None => true end.
Definition _risk_matches (o : Operation) (t : EndpointTruth) : bool :=
  let r := op_risk o in
  agrees (rm_writes_state r) (et_writes_state t) && agrees (rm_destructive r) (et_destructive t)
  && agrees (rm_external_side_effect r) (et_external_side_effect t) && agrees (rm_idempotent r) (et_idempotent t).

(** ** Patterns of failure *)

Definition slashes (s : string) : nat := length (List.filter (λ c, bool_decide (c = "/"%char)) (chars s)).
(** ["/" + p.split("/")[1]] *)
Definition base_of (mp : key) : outcome exn string :=
  match split_on "/"%char mp.2 with _ :: s :: _ => Ok ("/" +:+ s) | _ => Raise (mk_exn "IndexError" "list index out of range" []) end.

(** A pattern is reported when it affects something. *)
Definition affecting (name description : string) (l : list key) : list FailurePattern :=
  match l with [] => [] | _ => [mk_pattern name l description] end.
Definition nested_text : string :=
  "Nested resource endpoints (e.g. /users/{id}/posts) were not discovered, likely because the crawler did not follow sub-resource links.".
Definition mutation_text : string :=
  "Write/delete endpoints were not discovered; the extractor may only probe GET/OPTIONS or skip methods not advertised in Allow headers.".
Definition item_text : string :=
  "Collection endpoints were discovered but item-level parameterized paths were not generalized from probing.".
Definition nothing_text : string :=
  "Zero operations were extracted, suggesting the target may require authentication, be rate-limiting, or be unreachable.".

Definition discovered_paths (ops : list Operation) : list string := omap (λ o, match op_path o with Some p => if str_truthy p then Some p else None | None => None end) ops.
Definition _identify_failure_patterns (unmatched : list key) (ops : list Operation) : outcome exn (list FailurePattern) :=
  let templated := List.filter (λ mp : key, str_contains "{" mp.2) unmatched in
  let! base_paths := traverse base_of templated in
  let found := (λ p, _normalize_template (_normalize_template p)) <$> discovered_paths ops in
  let missing := List.filter (λ b, negb (one_of b found)) base_paths in
  Ok (affecting "nested_resource_not_discovered" nested_text (List.filter (λ mp : key, (3 <=? slashes mp.2)%nat) unmatched)
      ++ affecting "mutation_endpoints_not_discovered" mutation_text (List.filter (λ mp : key, one_of mp.1 ["POST"; "PUT"; "PATCH"; "DELETE"]) unmatched)
      ++ match missing with [] => affecting "item_endpoints_not_generalized" item_text templated | _ => [] end
      ++ match ops with [] => [mk_pattern "no_operations_extracted" unmatched nothing_text] | _ => [] end).

(** ** The report *)

(** The endpoints matched so far, their keys and the operations' identifiers *)
Record matching := mk_matching { mg_matched : list EndpointMatch; mg_keys : list key; mg_ids : list string }.
Definition match_operation (ground_truth : list EndpointTruth) (st : matching) (o : Operation) : matching :=
  match _match_operation_to_truth o ground_truth with
  | Some t =>
      if bool_decide (truth_key t ∈ mg_keys st) then st
      else mk_matching (mg_matched st ++ [mk_match (et_method t) (et_path t) (Some (op_id o)) (Some (_risk_matches o t)) (et_description t)])
             (mg_keys st ++ [truth_key t]) (mg_ids st ++ [op_id o])
  | None => st
  end.
Definition match_all (ground_truth : list EndpointTruth) (ops : list Operation) : matching :=
  foldl (match_operation ground_truth) (mk_matching [] [] []) ops.

(** [a / b if b > 0 else 0.0] *)
Definition share (a b : nat) : outcome exn float :=
  if (0 <? b)%nat then ratio (Z.of_nat a) (Z.of_nat b) else Ok 0%float.

Definition enabled_operations (ir : ServiceIR) : list Operation := List.filter op_enabled (ir_operations ir).

Definition evaluate_black_box (ir : ServiceIR) (ground_truth : list EndpointTruth) (target_name target_base_url : string)
    : outcome exn BlackBoxReport :=
  let enabled := enabled_operations ir in
  let m := match_all ground_truth enabled in
  let unmatched := (λ t, (et_method t, et_path t)) <$> List.filter (λ t, negb (bool_decide (truth_key t ∈ mg_keys m))) ground_truth in
  let extra := (λ o, (op_method o, op_path o)) <$> List.filter (λ o, negb (one_of (op_id o) (mg_ids m))) enabled in
  let! coverage := share (length (mg_keys m)) (length ground_truth) in
  let correct := length (List.filter (λ e, bool_decide (em_risk_correct e = Some true)) (mg_matched m)) in
  let! accuracy := share correct (length (List.filter (λ e, bool_decide (is_Some (em_risk_correct e))) (mg_matched m))) in
  let! patterns := _identify_failure_patterns unmatched enabled in
  Ok (mk_report (if str_truthy target_name then target_name else ir_service_name ir)
        (if str_truthy target_base_url then target_base_url else ir_base_url ir) (ir_protocol ir) (length ground_truth)
        (sorted_strings (remove_dups (List.filter str_truthy (et_resource_group <$> ground_truth)))) (length enabled) (discovered_paths enabled)
        (mg_matched m) unmatched extra coverage accuracy patterns).

(** ** What the report says *)

Lemma reverse_elem {A} (x : A) l : x ∈ rev l ↔ x ∈ l.
Proof. rewrite !list_elem_of_In. symmetry. apply in_rev. Qed.

Lemma truth_at_Some ground_truth k t : truth_at ground_truth k = Some t → t ∈ ground_truth ∧ truth_key t = k.
Proof.
  unfold truth_at. intros H. apply List.find_some in H as [Hin Hk]. apply bool_decide_eq_true in Hk. split; [|done].
  apply list_elem_of_In in Hin. by apply reverse_elem.
Qed.
Lemma truth_at_None ground_truth k t : truth_at ground_truth k = None → t ∈ ground_truth → truth_key t ≠ k.
Proof.
  unfold truth_at. intros H Hin Hk. pose proof (List.find_none _ _ H t) as Hn. apply bool_decide_eq_false in Hn; [done|].
  apply list_elem_of_In. by apply reverse_elem.
Qed.

(** A match names an enabled operation and a known endpoint of one key. *)
Definition matches (ground_truth : list EndpointTruth) (ops : list Operation) (k : key) (e : EndpointMatch) : Prop :=
  ∃ o t, o ∈ ops ∧ t ∈ ground_truth ∧ operation_key o = Some k ∧ truth_key t = k ∧
    e = mk_match (et_method t) (et_path t) (Some (op_id o)) (Some (_risk_matches o t)) (et_description t).

(** An operation is the first of its key among some, and the key is known. *)
Definition finds (ground_truth : list EndpointTruth) (before : list Operation) (o : Operation) : Prop :=
  ∃ k, operation_key o = Some k ∧ k ∈ truth_key <$> ground_truth ∧ Forall (λ o', operation_key o' ≠ Some k) before.

Record matched_exactly (ground_truth : list EndpointTruth) (ops : list Operation) (m : matching) : Prop := {
  mx_distinct : NoDup (mg_keys m);
  mx_keys : ∀ k, k ∈ mg_keys m ↔ k ∈ truth_key <$> ground_truth ∧ ∃ o, o ∈ ops ∧ operation_key o = Some k;
  mx_matches : Forall2 (matches ground_truth ops) (mg_keys m) (mg_matched m);
  mx_ids : ∀ i, i ∈ mg_ids m ↔ ∃ before o after, ops = before ++ o :: after ∧ op_id o = i ∧ finds ground_truth before o;
}.

Lemma matches_more ground_truth ops ops' k e : matches ground_truth ops k e → matches ground_truth (ops ++ ops') k e.
Proof. intros (o & t & Ho & H). exists o, t. split; [apply elem_of_app; by left|done]. Qed.

Lemma snoc_split {A} (l before after : list A) x y : l ++ [x] = before ++ y :: after →
  (after = [] ∧ l = before ∧ x = y) ∨ ∃ after', after = after' ++ [x] ∧ l = before ++ y :: after'.
Proof.
  destruct after as [|z after _] using rev_ind.
  - intros H. left. by apply app_inj_tail in H as [-> ->].
  - intros H. right. change (y :: after ++ [z]) with ((y :: after) ++ [z]) in H. rewrite app_assoc in H. apply app_inj_tail in H as [-> ->].
    by exists after.
Qed.

Lemma snoc_key ops o k : (∃ o', o' ∈ ops ++ [o] ∧ operation_key o' = Some k) ↔ (∃ o', o' ∈ ops ∧ operation_key o' = Some k) ∨ operation_key o = Some k.
Proof.
  split.
  - intros (o' & [Ho'|Ho']%elem_of_app & Hk); [left; by exists o'|right]. by apply list_elem_of_singleton in Ho' as ->.
  - intros [(o' & Ho' & Hk)|Hk]; [exists o'|exists o]; (split; [apply elem_of_app|done]); [by left|right; by left].
Qed.

Lemma match_step ground_truth ops m o : matched_exactly ground_truth ops m →
  matched_exactly ground_truth (ops ++ [o]) (match_operation ground_truth m o).
Proof.
  intros [Hd Hk Hm Hi].
  assert (∀ i, (∃ before o' after, ops ++ [o] = before ++ o' :: after ∧ op_id o' = i ∧ finds ground_truth before o') ↔
    i ∈ mg_ids m ∨ op_id o = i ∧ finds ground_truth ops o) as Hids.
  { intros i. rewrite Hi. split.
    - intros (before & o' & after & E & Ho & Hf). apply snoc_split in E as [(-> & -> & ->)|(after' & -> & ->)]; [by right|left]. by exists before, o', after'.
    - intros [(before & o' & after & -> & Ho & Hf)|[Ho Hf]]; [|by exists ops, o, []]. exists before, o', (after ++ [o]). by rewrite <-app_assoc. }
  assert (Forall2 (matches ground_truth (ops ++ [o])) (mg_keys m) (mg_matched m)) as Hm'.
  { eapply Forall2_impl; [exact Hm|]. intros. by apply matches_more. }
  unfold match_operation, _match_operation_to_truth. destruct (operation_key o) as [k|] eqn:Ek; cbn [mbind option_bind].
  2: { split; [done| |done|].
       - intros k. rewrite Hk, snoc_key. intuition congruence.
       - intros i. rewrite Hids. split; [by left|intros [?|[_ (k & ? & _)]]; [done|congruence]]. }
  destruct (truth_at ground_truth k) as [t|] eqn:Et.
  - apply truth_at_Some in Et as [Hin <-]. case_bool_decide as Hmem.
    + split; [done| |done|].
      * intros k. rewrite Hk, snoc_key. apply Hk in Hmem as [? ?]. split; [intuition|]. intros [? [?|E]]; [by split|]. rewrite Ek in E. by injection E as <-.
      * intros i. rewrite Hids. split; [by left|]. intros [?|[_ (k & Hk' & _ & Hf)]]; [done|]. rewrite Ek in Hk'. injection Hk' as <-.
        apply Hk in Hmem as [_ (o' & Ho' & Hk')]. rewrite Forall_forall in Hf. by destruct (Hf _ Ho').
    + split; cbn [mg_keys mg_matched mg_ids].
      * apply NoDup_app. split_and!; [done| |apply NoDup_singleton]. by intros k Hin' ->%list_elem_of_singleton.
      * intros k. rewrite elem_of_app, Hk, list_elem_of_singleton, snoc_key. pose proof (list_elem_of_fmap_2 truth_key _ _ Hin) as Ht.
        split; [intros [[? ?]| ->]; tauto|]. intros [? [?|E]]; [tauto|right; congruence].
      * apply Forall2_app; [done|]. constructor; [|constructor]. exists o, t. split_and!; [apply elem_of_app; right; by left|done..].
      * intros i. rewrite elem_of_app, Hids, list_elem_of_singleton. apply or_iff_compat_l. split; [intros ->; split; [done|]|by intros [-> _]].
        exists (truth_key t). split_and!; [done|by apply list_elem_of_fmap_2|]. apply Forall_forall. intros o' Ho' Hk'. apply Hmem, Hk.
        split; [by apply list_elem_of_fmap_2|by exists o'].
  - assert (k ∉ truth_key <$> ground_truth) as Hn.
    { intros (t & -> & Hin)%list_elem_of_fmap. by eapply truth_at_None. }
    split; [done| |done|].
    + intros k'. rewrite Hk, snoc_key. split; [tauto|]. intros [? [?|E]]; [tauto|congruence].
    + intros i. rewrite Hids. split; [by left|]. intros [?|[_ (k' & Hk' & Hin & _)]]; [done|congruence].
Qed.

Lemma match_all_exact ground_truth ops : matched_exactly ground_truth ops (match_all ground_truth ops).
Proof.
  unfold match_all. induction ops as [|o ops IH] using rev_ind.
  - split; cbn; [constructor| |constructor|]; [intros k; split; [by intros ?%elem_of_nil|by intros [_ (o & ?%elem_of_nil & _)]]|]. intros i. split; [by intros ?%elem_of_nil|]. by intros ([|] & ? & ? & ? & _).
  - rewrite foldl_app. cbn [foldl]. by apply match_step.
Qed.

(** Whether some operation of the description has the key of an endpoint *)
Definition has_key (ops : list Operation) (k : key) : bool := existsb (λ o, bool_decide (operation_key o = Some k)) ops.
Definition found_in (ops : list Operation) (t : EndpointTruth) : bool := has_key ops (truth_key t).

Lemma has_key_true ops k : has_key ops k = true ↔ ∃ o, o ∈ ops ∧ operation_key o = Some k.
Proof.
  unfold has_key. rewrite existsb_exists. setoid_rewrite bool_decide_eq_true. by setoid_rewrite list_elem_of_In.
Qed.

Lemma found_iff ground_truth ops t : t ∈ ground_truth → bool_decide (truth_key t ∈ mg_keys (match_all ground_truth ops)) = found_in ops t.
Proof.
  intros Ht. apply eq_true_iff_eq. unfold found_in. rewrite bool_decide_eq_true, has_key_true.
  rewrite (mx_keys _ _ _ (match_all_exact ground_truth ops)). pose proof (list_elem_of_fmap_2 truth_key _ _ Ht). tauto.
Qed.

(** Operations with identifiers of their own occur once. *)
Lemma split_by_id before before' o o' after after' : NoDup (op_id <$> before ++ o :: after) → before ++ o :: after = before' ++ o' :: after' →
  op_id o' = op_id o → before' = before ∧ o' = o.
Proof.
  revert before'. induction before as [|x before IH]; intros [|y before'] Hnd E Hid; cbn in Hnd, E; apply NoDup_cons in Hnd as [Hn Hnd].
  - by injection E as <- <-.
  - injection E as <- ->. destruct Hn. rewrite <-Hid. apply list_elem_of_fmap_2, elem_of_app. right. by left.
  - injection E as -> <-. destruct Hn. rewrite Hid. apply list_elem_of_fmap_2, elem_of_app. right. by left.
  - injection E as <- E. by destruct (IH _ Hnd E Hid) as [-> ->].
Qed.

Lemma filter_agrees {A} (f g : A → bool) l : (∀ x, x ∈ l → f x = g x) → List.filter f l = List.filter g l.
Proof. intros H. apply List.filter_ext_in. intros x Hx. by apply H, list_elem_of_In. Qed.

(** The report is exact.  The endpoints it lists as missed are those whose method
    and generalised path no enabled operation has, in order; those it lists as
    matched are known, each matched by an enabled operation of its key whose risk is
    compared with its own, one for each key that was found; the operations it lists
    as extra are the enabled ones that are not the first of a known key; and what it
    counts is the ratio of the keys found to the endpoints known. *)
Theorem report_exact ir ground_truth name url r : NoDup (op_id <$> enabled_operations ir) →
  evaluate_black_box ir ground_truth name url = Ok r →
  bb_unmatched_ground_truth r = (λ t, (et_method t, et_path t)) <$> List.filter (λ t, negb (found_in (enabled_operations ir) t)) ground_truth ∧
  (∃ keys, NoDup keys ∧ (∀ k, k ∈ keys ↔ k ∈ truth_key <$> List.filter (found_in (enabled_operations ir)) ground_truth) ∧
     Forall2 (matches ground_truth (enabled_operations ir)) keys (bb_matched_endpoints r) ∧
     share (length keys) (length ground_truth) = Ok (bb_discovery_coverage r)) ∧
  (∃ extra, bb_extra_discovered r = (λ o, (op_method o, op_path o)) <$> extra ∧
     ∀ before o after, enabled_operations ir = before ++ o :: after → o ∈ extra ↔ ¬ finds ground_truth before o).
Proof.
  set (enabled := enabled_operations ir). intros Hnd. unfold evaluate_black_box. fold enabled. pose proof (match_all_exact ground_truth enabled) as Hx.
  set (m := match_all ground_truth enabled) in *. intros H. apply obind_ok in H as (coverage & Hc & H). apply obind_ok in H as (accuracy & _ & H).
  apply obind_ok in H as (patterns & _ & H). injection H as <-. cbn [bb_unmatched_ground_truth bb_matched_endpoints bb_discovery_coverage bb_extra_discovered].
  split_and!.
  - f_equal. apply filter_agrees. intros t Ht. f_equal. by apply found_iff.
  - exists (mg_keys m). split_and!; [apply Hx| |apply Hx|done]. intros k. rewrite (mx_keys _ _ _ Hx). split.
    + intros [(t & -> & Ht)%list_elem_of_fmap Ho]. apply list_elem_of_fmap. exists t. split; [done|]. apply elem_of_filterb. split; [|done]. by apply has_key_true.
    + intros (t & -> & [Hf Ht]%elem_of_filterb)%list_elem_of_fmap. split; [by apply list_elem_of_fmap_2|]. by apply has_key_true.
  - eexists. split; [done|]. intros before o after E. rewrite elem_of_filterb, negb_true_iff. unfold one_of. rewrite bool_decide_eq_false.
    rewrite (mx_ids _ _ _ Hx). split.
    + intros [Hn _] Hf. apply Hn. by exists before, o, after.
    + intros Hn. split; [|rewrite E; apply elem_of_app; right; by left]. intros (before' & o' & after' & E' & Hid & Hf). rewrite E in Hnd, E'.
      by destruct (split_by_id _ _ _ _ _ _ Hnd E' Hid) as [-> ->].
Qed.

(** ** Worked reports *)

Definition operation_at (id method path : string) (writes : bool) : Operation :=
  mk_operation id id "" (Some method) (Some path) [] None (mk_error_schema [] None) []
    (mk_risk (Some writes) (Some false) (Some false) (Some true) (if writes then cautious else safe) 1 src_extractor)
    (mk_strategy None None None None trunc_none) body_json None None None None None None None None None [] None src_extractor 1 None true.
Definition truth (method path : string) (writes : bool) : EndpointTruth := mk_truth method path writes false false true "users" "".

Definition demo_report_ir : ServiceIR :=
  ir_with demo_ir "users" [operation_at "list" "get" "/users/" false; operation_at "read" "GET" "/users/{user_id}" false;
                           operation_at "read_again" "GET" "/users/{name}" false; operation_at "health" "GET" "/health" false] [].
Definition demo_truth : list EndpointTruth := [truth "GET" "/users" false; truth "GET" "/users/{id}" true; truth "DELETE" "/users/{id}" true].

Lemma report_exact_witness :
  ∃ r, evaluate_black_box demo_report_ir demo_truth "" "" = Ok r ∧
    bb_unmatched_ground_truth r
    = (λ t, (et_method t, et_path t)) <$> List.filter (λ t, negb (found_in (enabled_operations demo_report_ir) t)) demo_truth ∧
    (bb_unmatched_ground_truth r, em_operation_id <$> bb_matched_endpoints r, em_risk_correct <$> bb_matched_endpoints r, bb_extra_discovered r,
     fp_name <$> bb_failure_patterns r)
    = ([("DELETE", "/users/{id}")], [Some "list"; Some "read"], [Some true; Some false],
       [(Some "GET", Some "/users/{name}"); (Some "GET", Some "/health")],
       ["mutation_endpoints_not_discovered"; "item_endpoints_not_generalized"]).
Proof.
  assert (NoDup (op_id <$> enabled_operations demo_report_ir)) as Hnd by (apply (bool_decide_unpack _); vm_compute; exact I).
  destruct (evaluate_black_box demo_report_ir demo_truth "" "") as [r|e] eqn:E; [|vm_compute in E; discriminate E]. exists r. split; [reflexivity|]. split.
  - exact (proj1 (report_exact _ _ _ _ _ Hnd E)).
  - vm_compute in E. injection E as <-. reflexivity.
Defined.

(** Endpoints that differ in the name of a parameter only are one key: nothing is
    missed, and half of the endpoints count as found. *)
Example coverage_of_twins :
  match evaluate_black_box demo_report_ir [truth "GET" "/users/{id}" false; truth "GET" "/users/{name}" false] "" "" with
  | Ok r => (bb_unmatched_ground_truth r, bb_discovery_coverage r) | Raise _ => ([], 0%float) end = ([], 0x1p-1%float).
Proof. vm_compute. reflexivity. Qed.

(** A template without a slash before it fails the report. *)
Example bare_template_fails :
  match evaluate_black_box demo_report_ir [truth "GET" "{id}" false] "" "" with Ok _ => true | Raise _ => false end = false.
Proof. vm_compute. reflexivity. Qed.

(** Every named template becomes the same; what is none stays. *)
Example templates_demo : _normalize_template "/a/{x}/b/{yy}/" = "/a/{_}/b/{_}" ∧ _normalize_template "/{}/{a" = "/{}/{a".
Proof. split; vm_compute; reflexivity. Qed.
