(* ===== verification/Judge.v ===== *)
(** * Judging descriptions ([libs/validator/llm_judge.py])

    A language model scores the tools of a service in batches; what a batch's answer
    lacks, and batches that fail, score zero.  The model and JSON are parameters. *)

From S2P Require Export OpenApi Enhancer.
From Stdlib Require Import Ascii PrimFloat FloatOps SpecFloat FloatAxioms.

Record ToolQualityScore := mk_score {
  sc_operation_id : string;
  sc_tool_name : string;
  sc_accuracy : float;
  sc_completeness : float;
  sc_clarity : float;
  sc_overall : float;
  sc_feedback : string;
}.
Record JudgeEvaluation := mk_evaluation {
  je_service_name : string;
  je_tools_evaluated : nat;
  je_average_accuracy : float;
  je_average_completeness : float;
  je_average_clarity : float;
  je_average_overall : float;
  je_quality_threshold : float;
  je_scores : list ToolQualityScore;
  je_low_quality_tools : list string;
}.
Definition quality_passed (e : JudgeEvaluation) : bool := PrimFloat.leb (je_quality_threshold e) (je_average_overall e).

(** ** Numbers *)

Definition _clamp : float → float := clamp_unit.

(** The integer nearest to [n / d], the even one of two *)
Definition nearest (n d : Z) : Z :=
  let q := n / d in
  match 2 * (n mod d) ?= d with Lt => q | Gt => q + 1 | Eq => if Z.even q then q else q + 1 end.
(** [round(f, 3)] of a number whose thousandfold is exact enough: the nearest
    thousandth of the exact value, as a double *)
Definition round3 (f : float) : float :=
  match Prim2SF f with
  | S754_finite s m e =>
      let k := if 0 <=? e then Z.pos m * 2 ^ e * 1000 else nearest (Z.pos m * 1000) (2 ^ (- e)) in
      match float_of_Z k with
      | Some x => let r := PrimFloat.div x 1000 in if s then PrimFloat.opp r else r
      | None => f
      end
  | _ => f
  end.

(** [sum(l)] of doubles: the first added to zero, then compensated *)
Fixpoint compensated (total c : float) (l : list float) : float :=
  match l with
  | [] => if PrimFloat.eqb c 0 || negb (PrimFloat.is_finite c) then total else PrimFloat.add total c
  | x :: l' =>
      let t := PrimFloat.add total x in
      let lost := if PrimFloat.leb (PrimFloat.abs x) (PrimFloat.abs total) then PrimFloat.add (PrimFloat.sub total t) x
                  else PrimFloat.add (PrimFloat.sub x t) total in
      compensated t (PrimFloat.add c lost) l'
  end.
Definition py_sum (l : list float) : float := match l with [] => 0%float | x :: l' => compensated (PrimFloat.add 0 x) 0 l' end.

(** [sum(...) / len(...)] *)
Definition average (l : list float) : float :=
  PrimFloat.div (py_sum l) (default 1%float (float_of_Z (Z.of_nat (length l)))).

Section judge.
Context {W : Type} (repr : pyval → string) (json_indent : pyval → string) (json_loads : string → option pyval) (parse_float : string → option float).
(** [client.complete(prompt)]: the text of the answer *)
Context (complete : string → comp W exn string).
Abbreviation M := (comp W exn).

(** [LLMJudge.__init__] *)
Record LLMJudge := mk_judge { lj_batch_size : Z; lj_low_quality_threshold : float }.
Definition make_judge (batch_size : Z) (low_quality_threshold : float) : outcome exn LLMJudge :=
  if batch_size <=? 0 then Raise (value_error "LLMJudge batch_size must be greater than zero.") else Ok (mk_judge batch_size low_quality_threshold).

Context (judge : LLMJudge).

Definition _batch_operations (operations : list Operation) : list (list Operation) :=
  slices (length operations) (Z.to_nat (lj_batch_size judge)) operations.

Definition _failed_score (o : Operation) (feedback : string) : ToolQualityScore := mk_score (op_id o) (op_name o) 0 0 0 0 feedback.
Definition _failed_batch_scores (batch : list Operation) (feedback : string) : list ToolQualityScore := (λ o, _failed_score o feedback) <$> batch.
Definition _empty_evaluation (service_name : string) : JudgeEvaluation :=
  mk_evaluation service_name 0 0 0 0 0 (lj_low_quality_threshold judge) [] [].

Definition fence : string := "```".
(** The text between fences of the first and the last line *)
Definition unfenced (content : string) : string :=
  let text := strip content in
  if startswith fence text then
    let lines := split_on newline_char text in
    strip (join newline_str (if str_eqb (strip (default "" (last lines))) fence then removelast (tail lines) else tail lines))
  else text.

(** The three scores of an item, all of them halves when one is no number *)
Definition item_scores (item : dict pyval) : outcome exn (float * float * float) :=
  let score k := let! f := to_float parse_float (get_default item k (VFloat 0x1p-1)) in Ok (_clamp f) in
  match (let! a := score "accuracy" in let! c := score "completeness" in let! l := score "clarity" in Ok (a, c, l)) with
  | Ok s => Ok s
  | Raise e => if one_of (exn_type e) ["ValueError"; "TypeError"] then Ok (0x1p-1, 0x1p-1, 0x1p-1)%float else Raise e
  end.
Definition overall_of (accuracy completeness clarity : float) : float :=
  PrimFloat.add (PrimFloat.add (PrimFloat.mul accuracy 0x1.6666666666666p-2) (PrimFloat.mul completeness 0x1.6666666666666p-2))
    (PrimFloat.mul clarity 0x1.3333333333333p-2).

(** One item of the answer *)
Definition judge_item (batch : list Operation) (scores_by_id : dict ToolQualityScore) (item : pyval) : outcome exn (dict ToolQualityScore) :=
  match item with
  | VDict d =>
      match get_default d "operation_id" (VStr "") with
      | VStr op_id' =>
          match List.find (λ o, str_eqb (op_id o) op_id') (rev batch) with
          | None => Ok scores_by_id
          | Some o =>
              if dict_mem scores_by_id op_id' then Ok scores_by_id
              else
                let! s := item_scores d in
                let '(accuracy, completeness, clarity) := s in
                let feedback := get_default d "feedback" (VStr "") in
                Ok (dict_set scores_by_id op_id' (mk_score op_id' (op_name o) accuracy completeness clarity
                      (round3 (overall_of accuracy completeness clarity)) (py_str repr feedback)))
          end
      | v => if is_list v || is_dict v then Raise (type_error "unhashable type") else Ok scores_by_id
      end
  | _ => Ok scores_by_id
  end.

Definition parse_failures : list string := ["JSONDecodeError"; "KeyError"; "TypeError"; "ValueError"].
Definition _parse_judge_response (content : string) (batch : list Operation) : outcome exn (list ToolQualityScore) :=
  match json_loads (unfenced content) with
  | None => Ok (_failed_batch_scores batch "Failed to parse LLM judge response.")
  | Some (VList data) =>
      match fold_outcome (judge_item batch) [] data with
      | Ok scores => Ok ((λ o, default (_failed_score o "LLM judge response omitted this operation.") (dict_get scores (op_id o))) <$> batch)
      | Raise e => if one_of (exn_type e) parse_failures then Ok (_failed_batch_scores batch "Failed to parse LLM judge response.") else Raise e
      end
  | Some _ => Ok (_failed_batch_scores batch "LLM judge response was not a JSON array.")
  end.

Definition prompt_head : string := text_lines [
  "You are an expert evaluator of API tool descriptions for AI agents. Rate the quality of each tool description on three dimensions.";
  "";
  "Evaluation criteria:";
  "1. **Accuracy** (0.0-1.0): Is the description factually correct? Does it accurately    describe what the API endpoint does based on its name, method, and path?";
  "2. **Completeness** (0.0-1.0): Does the description cover all important aspects?    Are parameters explained? Are side effects mentioned?";
  "3. **Clarity** (0.0-1.0): Is the description clear, unambiguous, and actionable    for an AI agent deciding which tool to call?";
  ""].
Definition prompt_tail : string := text_lines [
  "";
  "Return ONLY valid JSON array. No markdown, no explanation:";
  "[";
  "  {";
  "    `operation_id`: `<id>`,";
  "    `accuracy`: 0.8,";
  "    `completeness`: 0.7,";
  "    `clarity`: 0.9,";
  "    `feedback`: `Brief suggestion for improvement`";
  "  }";
  "]"].
Definition JUDGE_PROMPT_TEMPLATE (service_name protocol base_url tools_json : string) : string :=
  prompt_head +:+ "Service: " +:+ service_name +:+ " (" +:+ protocol +:+ ")" +:+ newline_str +:+ "Base URL: " +:+ base_url +:+ newline_str
  +:+ newline_str +:+ "Tools to evaluate:" +:+ newline_str +:+ tools_json +:+ newline_str +:+ prompt_tail.

Definition judged_tool (o : Operation) : pyval :=
  VDict [("operation_id", VStr (op_id o)); ("name", VStr (op_name o)); ("description", VStr (op_description o)); ("method", opt_str (op_method o));
         ("path", opt_str (op_path o));
         ("params", VList ((λ p, VDict [("name", VStr (pa_name p)); ("type", VStr (pa_type p)); ("description", VStr (pa_description p))]) <$> op_params o));
         ("risk_level", VStr (risk_value (rm_risk_level (op_risk o))))].
Definition _evaluate_batch (ir : ServiceIR) (batch : list Operation) : M (list ToolQualityScore) :=
  let tools_json := json_indent (VList (judged_tool <$> batch)) in
  content <- complete (JUDGE_PROMPT_TEMPLATE (ir_service_name ir) (ir_protocol ir) (ir_base_url ir) tools_json) ;;
  λ w, (_parse_judge_response content batch, w).

(** What is caught of a batch: the classes named, and those below them *)
Definition batch_failures : list string :=
  request_errors ++ ["HTTPError"; "HTTPStatusError"; "JSONDecodeError"; "ValueError"; "UnicodeDecodeError"; "UnicodeEncodeError"; "KeyError"; "TypeError";
                     "RuntimeError"; "NotImplementedError"; "RecursionError"].
Definition judge_batch (ir : ServiceIR) (batch : list Operation) : M (list ToolQualityScore) :=
  catch (_evaluate_batch ir batch)
    (λ e, if one_of (exn_type e) batch_failures then ret (_failed_batch_scores batch ("LLM judge batch failed: " +:+ exn_str e)) else raise e).

Definition evaluation_of (ir : ServiceIR) (scores : list ToolQualityScore) : JudgeEvaluation :=
  mk_evaluation (ir_service_name ir) (length scores) (average (sc_accuracy <$> scores)) (average (sc_completeness <$> scores))
    (average (sc_clarity <$> scores)) (average (sc_overall <$> scores)) (lj_low_quality_threshold judge) scores
    (sc_operation_id <$> List.filter (λ s, PrimFloat.ltb (sc_overall s) (lj_low_quality_threshold judge)) scores).

Definition evaluate (ir : ServiceIR) : M JudgeEvaluation :=
  match List.filter op_enabled (ir_operations ir) with
  | [] => ret (_empty_evaluation (ir_service_name ir))
  | enabled_ops =>
      all_scores <- fold_each (λ acc batch, scores <- judge_batch ir batch ;; ret (acc ++ scores)) [] (_batch_operations enabled_ops) ;;
      ret (match all_scores with [] => _empty_evaluation (ir_service_name ir) | _ => evaluation_of ir all_scores end)
  end.
End judge.

(** ** What is scored *)

Lemma clamped c : unit_interval (_clamp c) = true.
Proof.
  unfold _clamp, clamp_unit, unit_interval. destruct (PrimFloat.ltb c 1) eqn:E1; [|done].
  destruct (PrimFloat.ltb 0 c) eqn:E0; [|done]. apply andb_true_iff.
  rewrite ltb_spec in E0, E1. rewrite !leb_spec. unfold SFltb in E0, E1. unfold SFleb. destruct (SFcompare _ _) as [[]|]; try done.
  by destruct (SFcompare (Prim2SF 0) _) as [[]|].
Qed.

(** A score of an operation, in the unit interval *)
Definition scores_of (o : Operation) (s : ToolQualityScore) : Prop :=
  sc_operation_id s = op_id o ∧ unit_interval (sc_accuracy s) = true ∧ unit_interval (sc_completeness s) = true ∧ unit_interval (sc_clarity s) = true.

Section scored.
Context {W : Type} (repr : pyval → string) (json_indent : pyval → string) (json_loads : string → option pyval) (parse_float : string → option float)
  (complete : string → comp W exn string) (judge : LLMJudge).

Lemma failed_scores o feedback : scores_of o (_failed_score o feedback).
Proof. by split_and!. Qed.

Lemma failed_batch batch feedback : Forall2 scores_of batch (_failed_batch_scores batch feedback).
Proof. unfold _failed_batch_scores. induction batch; constructor; [apply failed_scores|done]. Qed.

Lemma item_scores_unit d s : item_scores parse_float d = Ok s →
  unit_interval s.1.1 = true ∧ unit_interval s.1.2 = true ∧ unit_interval s.2 = true.
Proof.
  unfold item_scores. destruct (obind _ _) as [x|e] eqn:E.
  - intros [= <-]. do 3 (apply obind_ok in E as (? & H & E); apply obind_ok in H as (? & _ & H); injection H as <-). injection E as <-.
    split_and!; apply clamped.
  - destruct (one_of _ _); [|done]. by intros [= <-].
Qed.

(** What is known of an operation is a score of it. *)
Definition known_scores (scores : dict ToolQualityScore) : Prop :=
  Forall (λ ks, sc_operation_id ks.2 = ks.1 ∧ unit_interval (sc_accuracy ks.2) = true ∧ unit_interval (sc_completeness ks.2) = true ∧
                unit_interval (sc_clarity ks.2) = true) scores.

Lemma dict_set_forall {V} (P : string * V → Prop) (d : dict V) k v : Forall P d → P (k, v) → Forall P (dict_set d k v).
Proof. intros Hd Hp. induction Hd as [|[k' v'] d Hk Hd IH]; [by apply Forall_singleton|]. cbn. destruct (str_eqb k k') eqn:E; [apply str_eqb_eq in E as <-|]; by constructor. Qed.

Lemma judge_item_known batch scores item scores' : judge_item repr parse_float batch scores item = Ok scores' → known_scores scores → known_scores scores'.
Proof.
  unfold judge_item. intros H Hs. destruct item as [| | | | | |d]; try (by injection H as <-).
  destruct (get_default d "operation_id" _) as [| | | |i| |]; cbn in H; try done; try (by injection H as <-).
  destruct (List.find _ _); [|by injection H as <-]. destruct (dict_mem scores i); [by injection H as <-|].
  apply obind_ok in H as ([[a c] l] & Hi & H). injection H as <-. apply item_scores_unit in Hi. by apply dict_set_forall.
Qed.

Lemma parsed_scores content batch scores : _parse_judge_response repr json_loads parse_float content batch = Ok scores → Forall2 scores_of batch scores.
Proof.
  unfold _parse_judge_response. destruct (json_loads _) as [[| | | | |data|]|]; try (intros [= <-]; apply failed_batch).
  destruct (fold_outcome _ _ data) as [found|e] eqn:E; [|destruct (one_of _ _); [|done]; intros [= <-]; apply failed_batch].
  intros [= <-]. assert (known_scores found) as Hk.
  { refine (fold_outcome_inv known_scores _ _ _ _ _ E (List.Forall_nil _)). intros b a b' Hb. by apply (judge_item_known _ _ _ _ Hb). }
  clear E. induction batch as [|o batch IH]; constructor; [|done]. destruct (dict_get found (op_id o)) as [s|] eqn:Es; [|apply failed_scores].
  apply dict_get_Some_elem in Es. unfold known_scores in Hk. rewrite Forall_forall in Hk. by destruct (Hk _ Es) as (? & ? & ? & ?).
Qed.

Lemma judged ir batch w scores w' : judge_batch repr json_indent json_loads parse_float complete ir batch w = (Ok scores, w') → Forall2 scores_of batch scores.
Proof.
  unfold judge_batch, catch. destruct (_evaluate_batch _ _ _ _ _ ir batch w) as [[l|e] w1] eqn:E.
  - intros [= <- <-]. unfold _evaluate_batch in E. mbind E content w2 Hc. injection E as E _. by apply parsed_scores in E.
  - destruct (one_of _ _); [|done]. intros [= <- <-]. apply failed_batch.
Qed.

(** Every tool is scored.  An evaluation that answers holds one score for each
    enabled operation, in order, with accuracy, completeness and clarity between
    zero and one, whatever the model answered and whichever batches failed; and the
    tools it calls low in quality are exactly those scored below the threshold. *)
Theorem every_tool_scored ir w e w' : 0 < lj_batch_size judge →
  evaluate repr json_indent json_loads parse_float complete judge ir w = (Ok e, w') →
  Forall2 scores_of (List.filter op_enabled (ir_operations ir)) (je_scores e) ∧ je_tools_evaluated e = length (je_scores e) ∧
  je_low_quality_tools e = sc_operation_id <$> List.filter (λ s, PrimFloat.ltb (sc_overall s) (lj_low_quality_threshold judge)) (je_scores e).
Proof.
  intros Hb. unfold evaluate. destruct (List.filter op_enabled (ir_operations ir)) as [|o ops] eqn:Eo; [intros [= <- <-]; by split_and!; [constructor|..]|].
  rewrite <-Eo. intros H. mbind H scores w1 Hf. set (enabled := List.filter op_enabled (ir_operations ir)) in *.
  assert (Forall2 scores_of (concat (_batch_operations judge enabled)) scores) as Hs.
  { pose proof (wp_fold_each (λ acc batch, scores <- judge_batch repr json_indent json_loads parse_float complete ir batch ;; ret (acc ++ scores))
      (λ done acc _, Forall2 scores_of (concat done) acc) (λ _ _, True) (_batch_operations judge enabled) [] w (List.Forall2_nil _)) as Hw.
    unfold wp in Hw. rewrite Hf in Hw. apply Hw. intros pre x post acc w2 _ Hacc.
    destruct (bind (judge_batch _ _ _ _ _ ir x) _ w2) as [[l|ex] w3] eqn:E; [|done]. mbind E l' w4 Hl. injection E as <- <-.
    apply judged in Hl. rewrite concat_app. cbn [concat]. rewrite app_nil_r. by apply Forall2_app. }
  unfold _batch_operations in Hs. rewrite slices_concat in Hs by lia.
  injection H as <- <-. destruct scores as [|s l].
  - apply Forall2_nil_inv_r in Hs. subst enabled. congruence.
  - by split_and!.
Qed.
End scored.

(** ** Worked evaluations *)

Definition judged_ir (n : nat) : ServiceIR :=
  ir_with demo_ir "pets" ((λ i, op_with_identity (demo_op "list" safe) ("tool" +:+ str_of_Z (Z.of_nat i)) "List") <$> seq 0 n) [].
Definition score_item (id : string) (accuracy : pyval) : pyval :=
  VDict [("operation_id", VStr id); ("accuracy", accuracy); ("completeness", VFloat 1); ("clarity", VFloat 0x1p-1)].
(** The model always answers with the same items. *)
Definition judged_with (items : list pyval) (n : nat) : comp unit exn JudgeEvaluation :=
  evaluate (λ _, "") (λ _, "") (λ _, Some (VList items)) (λ _, None) (λ _, ret "[]") (mk_judge 2 0x1p-1) (judged_ir n).

Lemma every_tool_scored_witness : ∃ e, (judged_with [score_item "tool0" (VFloat 1); score_item "tool2" (VStr "good"); score_item "other" VNone] 3 tt).1 = Ok e ∧
  Forall2 scores_of (List.filter op_enabled (ir_operations (judged_ir 3))) (je_scores e) ∧
  (je_low_quality_tools e, sc_overall <$> je_scores e) = (["tool1"], [0x1.b333333333333p-1; 0; 0x1p-1]%float).
Proof.
  destruct (judged_with [score_item "tool0" (VFloat 1); score_item "tool2" (VStr "good"); score_item "other" VNone] 3 tt) as [[e|x] w] eqn:E;
    [|vm_compute in E; discriminate E].
  exists e. split; [reflexivity|]. split.
  - exact (proj1 (every_tool_scored (λ _, "") (λ _, "") (λ _, Some (VList [score_item "tool0" (VFloat 1); score_item "tool2" (VStr "good"); score_item "other" VNone]))
      (λ _, None) (λ _, ret "[]") (mk_judge 2 0x1p-1) (judged_ir 3) tt e w ltac:(reflexivity) E)).
  - vm_compute in E. injection E as <- _. reflexivity.
Defined.

(** A number that is not one is the best score there is. *)
Example nan_is_perfect : sc_accuracy <$> (match (judged_with [score_item "tool0" (VFloat PrimFloat.nan)] 1 tt).1 with Ok e => je_scores e | Raise _ => [] end) = [1%float].
Proof. vm_compute. reflexivity. Qed.

(** An integer too large for a float escapes every handler. *)
Example huge_score_escapes : match (judged_with [score_item "tool0" (VInt (10 ^ 400))] 1 tt).1 with Ok _ => "" | Raise e => exn_type e end = "OverflowError".
Proof. vm_compute. reflexivity. Qed.

(** Rounding is that of the exact value, halves to the even side. *)
Example roundings : round3 0x1.d62d0e5604189p-1 = 0x1.d604189374bc7p-1%float ∧ round3 0x1.0624dd2f1a9fcp-11 = 0x1.0624dd2f1a9fcp-10%float ∧ nearest 5 2 = 2 ∧ nearest 7 2 = 4.
Proof. split_and!; vm_compute; reflexivity. Qed.
