(* ===== verification/ApiStore.v ===== *)
(** * The database session of the compiler API ([apps/compiler_api/repository.py],
      [access_control/audit/service.py], [dispatcher.py])

    One session over versions, jobs and the audit log: what was done in it is
    committed or discarded as a whole.  Calls that may fail take their failures from
    the explicit list of faults; reading does not fail.  The events of a job are
    written by the worker. *)

From S2P Require Export PyUrl CompileModels.
From S2P Require JobStore Registry IRDiff.

(** ** Rows *)

Record audit_entry := mk_audit {
  au_actor : string;
  au_action : string;
  au_resource : option string;
  au_detail : option (dict pyval);
}.
Record stored_job := mk_stored { sj_row : JobStore.JobStore.job_row; sj_created_at : Z; sj_updated_at : Z }.
Record rows := mk_rows {
  r_registry : Registry.tables;
  r_jobs : list (uuid * stored_job);
  r_audit : list audit_entry;
}.
Record stored_event := mk_stored_event { se_id : uuid; se_row : JobStore.JobStore.event_row; se_created_at : string }.
Record api := mk_api {
  ap_working : rows;
  ap_committed : rows;
  ap_events : list stored_event;
  ap_queue : list CompilationRequest;
  ap_uuids : list uuid;
  ap_now : Z;
  ap_faults : list (option exn);
}.
Abbreviation M := (comp api exn).

Definition on_working (f : rows → rows) (s : api) : api :=
  mk_api (f (ap_working s)) (ap_committed s) (ap_events s) (ap_queue s) (ap_uuids s) (ap_now s) (ap_faults s).
Definition set_jobs (f : list (uuid * stored_job) → list (uuid * stored_job)) (r : rows) : rows := mk_rows (r_registry r) (f (r_jobs r)) (r_audit r).
Definition set_audit (f : list audit_entry → list audit_entry) (r : rows) : rows := mk_rows (r_registry r) (r_jobs r) (f (r_audit r)).

(** A call that may fail *)
Definition fault : M unit := λ s,
  match ap_faults s with
  | [] => (Ok tt, s)
  | f :: rest =>
      let s' := mk_api (ap_working s) (ap_committed s) (ap_events s) (ap_queue s) (ap_uuids s) (ap_now s) rest in
      (match f with None => Ok tt | Some e => Raise e end, s')
  end.

Lemma wp_fault (Q : unit → api → Prop) (R : exn → api → Prop) w c ev q us now fs :
  (∀ fs', Q tt (mk_api w c ev q us now fs')) → (∀ e fs', R e (mk_api w c ev q us now fs')) → wp fault Q R (mk_api w c ev q us now fs).
Proof. intros HQ HR. unfold wp, fault. destruct fs as [|[e|] fs]; [apply HQ|apply HR|apply HQ]. Qed.

(** [session.flush()], [session.commit()], [session.rollback()] *)
Definition flush : M unit := fault.
Definition save (s : api) : api :=
  mk_api (ap_working s) (ap_working s) (ap_events s) (ap_queue s) (ap_uuids s) (ap_now s) (ap_faults s).
Definition discard (s : api) : api :=
  mk_api (ap_committed s) (ap_committed s) (ap_events s) (ap_queue s) (ap_uuids s) (ap_now s) (ap_faults s).
Definition commit : M unit := fault ;;; modify save.
Definition rollback : M unit := modify discard.
(** The session of a request is closed at its end: what was not committed is gone. *)
Definition in_session {A} (m : M A) : M A := λ s, let '(o, s') := m s in (o, discard s').

Definition uuid4 : M uuid := λ s,
  match ap_uuids s with
  | [] => (Ok 0%N, s)
  | u :: rest => (Ok u, mk_api (ap_working s) (ap_committed s) (ap_events s) (ap_queue s) rest (ap_now s) (ap_faults s))
  end.

(** What the registry's repository does in this session *)
Definition in_registry {A} (m : comp Registry.session exn A) : M A := λ s,
  let '(o, r) := m (Registry.mk_session (r_registry (ap_working s)) (r_registry (ap_committed s)) (ap_uuids s)) in
  (o, mk_api (mk_rows (Registry.working r) (r_jobs (ap_working s)) (r_audit (ap_working s)))
        (mk_rows (Registry.committed r) (r_jobs (ap_committed s)) (r_audit (ap_committed s)))
        (ap_events s) (ap_queue s) (Registry.uuid4s r) (ap_now s) (ap_faults s)).

(** ** The audit log ([AuditLogService]) *)

Definition append_entry (actor action : string) (resource : option string) (detail : option (dict pyval)) (commit_it : bool) : M audit_entry :=
  let entry := mk_audit actor action resource detail in
  modify (on_working (set_audit (λ l, l ++ [entry]))) ;;;
  flush ;;;
  when commit_it commit ;;;
  ret entry.

(** ** Jobs ([CompilationRepository]) *)

Record CompilationJobResponse := mk_job_response {
  cj_id : uuid;
  cj_source_url : option string;
  cj_source_hash : option string;
  cj_protocol : option string;
  cj_status : string;
  cj_current_stage : option string;
  cj_error_detail : option string;
  cj_options : option (dict pyval);
  cj_created_by : option string;
  cj_service_id : option string;
  cj_service_name : option string;
  cj_created_at : Z;
  cj_updated_at : Z;
  cj_tenant : option string;
  cj_environment : option string;
}.

(** [_to_job_response] *)
Definition _to_job_response (include_internal_options : bool) (job : uuid * stored_job) : CompilationJobResponse :=
  let r := sj_row job.2 in
  mk_job_response job.1 (JobStore.JobStore.j_source_url r) (JobStore.JobStore.j_source_hash r) (JobStore.JobStore.j_protocol r)
    (JobStore.JobStore.j_status r) (JobStore.JobStore.j_current_stage r) (JobStore.JobStore.j_error_detail r)
    (if include_internal_options then JobStore.JobStore.j_options r else public_compilation_options (JobStore.JobStore.j_options r))
    (JobStore.JobStore.j_created_by r) (JobStore.JobStore.j_service_id r) (JobStore.JobStore.j_service_name r)
    (sj_created_at job.2) (sj_updated_at job.2) (JobStore.JobStore.j_tenant r) (JobStore.JobStore.j_environment r).

Definition find_job (job_id : uuid) (l : list (uuid * stored_job)) : option (uuid * stored_job) := List.find (λ j, bool_decide (j.1 = job_id)) l.

(** The row [create_job] inserts *)
Definition new_row (request : CompilationRequest) : JobStore.JobStore.job_row :=
  let '(tenant, environment) := request_scope_from_options (Some (rq_options request)) in
  JobStore.JobStore.mk_job_row (rq_source_url request) (rq_source_hash request) None (status_value PENDING) None None
    (store_compilation_request_options request) (rq_created_by request) (rq_service_name request) (rq_service_id request) tenant environment.

Definition create_job (request : CompilationRequest) (job_id : option uuid) (commit_it : bool) : M CompilationJobResponse :=
  id <- match job_id, rq_job_id request with Some u, _ | None, Some u => ret u | None, None => uuid4 end ;;
  now <- gets ap_now ;;
  taken <- gets (λ s, find_job id (r_jobs (ap_working s))) ;;
  let job := (id, mk_stored (new_row request) now now) in
  match taken with
  | Some _ => rollback ;;; raise (integrity_error "duplicate key value violates compilation_jobs_pkey")
  | None =>
      modify (on_working (set_jobs (λ l, l ++ [job]))) ;;;
      flush ;;;
      when commit_it commit ;;;
      ret (_to_job_response false job)
  end.

(** The events go with their job: [ondelete] is CASCADE. *)
Definition drop_events (job_id : uuid) (s : api) : api :=
  mk_api (ap_working s) (ap_committed s) (List.filter (λ e, negb (bool_decide (JobStore.JobStore.e_job_id (se_row e) = job_id))) (ap_events s))
    (ap_queue s) (ap_uuids s) (ap_now s) (ap_faults s).
Definition delete_job (job_id : uuid) : M unit :=
  job <- gets (λ s, find_job job_id (r_jobs (ap_working s))) ;;
  match job with
  | None => ret tt
  | Some _ => modify (on_working (set_jobs (List.filter (λ j, negb (bool_decide (j.1 = job_id)))))) ;;; commit ;;; modify (drop_events job_id)
  end.

Definition get_job (job_id : uuid) (include_internal_options : bool) : M (option CompilationJobResponse) :=
  gets (λ s, _to_job_response include_internal_options <$> find_job job_id (r_jobs (ap_working s))).

(** The newest first *)
Definition list_jobs (limit : option nat) (service_id : option string) : M (list CompilationJobResponse) :=
  gets (λ s,
    let l := List.filter (λ j, match service_id with Some i => bool_decide (JobStore.JobStore.j_service_id (sj_row j.2) = Some i) | None => true end)
               (r_jobs (ap_working s)) in
    let l := sorted_by (λ a b, sj_created_at b.2 <=? sj_created_at a.2) l in
    _to_job_response false <$> match limit with Some n => take n l | None => l end).

Definition seq_of (e : stored_event) : Z := JobStore.JobStore.e_sequence_number (se_row e).
Definition seq_leb (a b : stored_event) : bool := seq_of a <=? seq_of b.
Definition events_after (job_id : uuid) (after_sequence : Z) (l : list stored_event) : list stored_event :=
  sorted_by seq_leb (List.filter (λ e, bool_decide (JobStore.JobStore.e_job_id (se_row e) = job_id) && (after_sequence <? seq_of e)) l).
Definition list_events (job_id : uuid) (after_sequence : Z) : M (list stored_event) :=
  gets (λ s, events_after job_id after_sequence (ap_events s)).

(** ** Dispatchers ([dispatcher.py]) *)

Inductive CompilationDispatcher :=
| InMemoryCompilationDispatcher
| UnconfiguredCompilationDispatcher (workflow_engine : option string)
| CallbackCompilationDispatcher (callback : CompilationRequest → outcome exn unit)
| CeleryCompilationDispatcher (task_name : string) (registered : bool).

Definition submitted (request : CompilationRequest) : M unit :=
  modify (λ s, mk_api (ap_working s) (ap_committed s) (ap_events s) (ap_queue s ++ [request]) (ap_uuids s) (ap_now s) (ap_faults s)).
Definition accepted {A} (o : outcome exn A) (request : CompilationRequest) : M unit :=
  match o with Ok _ => submitted request | Raise e => raise e end.

(** [enqueue]: the broker, too, may fail. *)
Definition enqueue (d : CompilationDispatcher) (request : CompilationRequest) : M unit :=
  fault ;;;
  match d with
  | InMemoryCompilationDispatcher => submitted request
  | UnconfiguredCompilationDispatcher (Some engine) =>
      raise (runtime_error ("Unsupported WORKFLOW_ENGINE '" +:+ engine +:+ "'; configure a supported dispatcher backend."))
  | UnconfiguredCompilationDispatcher None =>
      raise (runtime_error "Compiler worker dispatcher is not configured; set WORKFLOW_ENGINE=celery or inject an explicit dispatcher.")
  | CallbackCompilationDispatcher callback => accepted (callback request) request
  | CeleryCompilationDispatcher task_name registered =>
      if registered then accepted (to_payload request) request else raise (runtime_error ("Celery task " +:+ task_name +:+ " is not registered."))
  end.

(** [_resolve_default_dispatcher]: an engine of blanks is none. *)
Definition _resolve_default_dispatcher (task_name : string) (registered : bool) (configured_engine : option string) : CompilationDispatcher :=
  if str_eqb (lower (strip (default "" configured_engine))) "celery" then CeleryCompilationDispatcher task_name registered
  else UnconfiguredCompilationDispatcher (match strip <$> configured_engine with Some e => if str_truthy e then Some e else None | None => None end).
(** [get_compilation_dispatcher]: the state's, else the default, which is kept *)
Definition get_compilation_dispatcher (task_name : string) (registered : bool) (configured_engine : option string)
    (state : option CompilationDispatcher) : CompilationDispatcher :=
  default (_resolve_default_dispatcher task_name registered configured_engine) state.
