(* ===== verification/CompileRoutes.v ===== *)
(** * The compilation routes of the compiler API ([apps/compiler_api/routes/compilations.py],
      the payloads of [apps/compiler_api/models.py])

    Submitting, listing, retrying and rolling back compilations over the session of
    [ApiStore], and the stream of a job's events.  The caller is authenticated before
    a route runs. *)

From S2P Require Export ApiStore.
From S2P Require Security CompileWorkflow.
From stdpp Require Import sorting.
From Stdlib Require Import Ascii.
#[local] Open Scope Z_scope.

(** ** Payloads *)

Record CompilationCreateRequest := mk_create_request {
  cc_source_url : option string;
  cc_source_content : option string;
  cc_source_hash : option string;
  cc_filename : option string;
  cc_created_by : option string;
  cc_service_id : option string;
  cc_service_name : option string;
  cc_options : dict pyval;
}.

(** [Field(max_length=...)] *)
Definition fits (limit : Z) (o : option string) : bool :=
  match o with Some s => Z.of_nat (String.length s) <=? limit | None => true end.
Definition field_limits (p : CompilationCreateRequest) : bool := fits 4096 (cc_source_url p) && fits 10000000 (cc_source_content p).

Definition control_characters : list ascii := [ascii_of_nat 13; ascii_of_nat 10; ascii_of_nat 0].
Definition has_control (url : string) : bool := existsb (λ c, bool_decide (c ∈ control_characters)) (chars url).
(** [self.source_url.strip() if self.source_url else ] the empty text *)
Definition stripped (o : option string) : string := match o with Some s => strip s | None => "" end.
Definition with_sources (url content : option string) (p : CompilationCreateRequest) : CompilationCreateRequest :=
  mk_create_request url content (cc_source_hash p) (cc_filename p) (cc_created_by p) (cc_service_id p) (cc_service_name p) (cc_options p).
Definition or_same (s : string) (o : option string) : option string := if str_truthy s then Some s else o.

Definition validate_source (p : CompilationCreateRequest) : outcome exn CompilationCreateRequest :=
  let url := stripped (cc_source_url p) in
  let content := stripped (cc_source_content p) in
  if negb (str_truthy url) && negb (str_truthy content) then Raise (value_error "Either source_url or source_content must be provided.")
  else if str_truthy url && str_truthy content then Raise (value_error "Provide exactly one of source_url or source_content, not both")
  else if str_truthy url && has_control url then Raise (value_error "source_url contains invalid control characters.")
  else Ok (with_sources (or_same url (cc_source_url p)) (or_same content (cc_source_content p)) p).

(** The body of a request as FastAPI validates it *)
Definition create_request (p : CompilationCreateRequest) : outcome exn CompilationCreateRequest :=
  if field_limits p then validate_source p else Raise (value_error "String should have at most max_length characters").

Definition to_workflow_request (p : CompilationCreateRequest) : CompilationRequest :=
  mk_request (cc_source_url p) (cc_source_content p) (cc_source_hash p) (cc_filename p) (cc_created_by p) (cc_service_id p)
    (cc_service_name p) (cc_options p) None.

Definition with_created_by (actor : string) (r : CompilationRequest) : CompilationRequest :=
  mk_request (rq_source_url r) (rq_source_content r) (rq_source_hash r) (rq_filename r) (Some actor) (rq_service_id r)
    (rq_service_name r) (rq_options r) (rq_job_id r).
Definition with_job_id (u : uuid) (r : CompilationRequest) : CompilationRequest :=
  mk_request (rq_source_url r) (rq_source_content r) (rq_source_hash r) (rq_filename r) (rq_created_by r) (rq_service_id r)
    (rq_service_name r) (rq_options r) (Some u).

(** ** Helpers *)

Definition _not_found (job_id : uuid) : exn := http_error 404 ("Compilation job " +:+ uuid_str job_id +:+ " was not found.").
Definition conflict (detail : string) : exn := http_error 409 detail.
Definition _caller_actor : Security.TokenPrincipalResponse → string := Security.actor.

Definition _job_resource (job : CompilationJobResponse) : string :=
  if opt_truthy (cj_service_id job) then default "" (cj_service_id job)
  else if opt_truthy (cj_service_name job) then default "" (cj_service_name job)
  else uuid_str (cj_id job).

Definition _coerce_version_number (value : pyval) : option Z :=
  match value with
  | VBool _ => None
  | VInt n => Some n
  | VStr s => int_of_text s
  | _ => None
  end.

Definition is_register_event (e : stored_event) : bool :=
  let r := se_row e in
  str_eqb (JobStore.JobStore.e_event_type r) (event_type_value STAGE_SUCCEEDED)
  && bool_decide (JobStore.JobStore.e_stage r = Some (stage_value REGISTER))
  && bool_decide (is_Some (JobStore.JobStore.e_detail r)).
Definition _register_stage_detail (events : list stored_event) : option (dict pyval) :=
  List.find is_register_event (rev events) ≫= λ e, JobStore.JobStore.e_detail (se_row e).

(** The first text that is not blank, stripped *)
Fixpoint first_text (candidates : list pyval) : option string :=
  match candidates with
  | [] => None
  | VStr s :: rest => if str_truthy (strip s) then Some (strip s) else first_text rest
  | _ :: rest => first_text rest
  end.

Definition detail_entry (detail : option (dict pyval)) (k : string) : pyval :=
  match detail with Some d => get_or_none d k | None => VNone end.

Definition _resolve_execution_service_id (original : CompilationJobResponse) (register_detail : option (dict pyval)) : option string :=
  let replay := compilation_request_replay (cj_options original) in
  first_text [get_or_none replay "service_id"; opt_str (cj_service_id original); detail_entry register_detail "service_id";
              opt_str (cj_service_name original)].

Definition checkpoint_version (options : option (dict pyval)) : option Z :=
  compilation_resume_checkpoint options ≫= λ cp, _coerce_version_number (get_or_none (cp_payload cp) "registered_version").
Definition _resolve_registered_version (original : CompilationJobResponse) (register_detail : option (dict pyval)) : option Z :=
  match checkpoint_version (cj_options original) with
  | Some v => Some v
  | None => _coerce_version_number (detail_entry register_detail "version_number")
  end.

Definition number_of (v : Registry.ArtifactVersionResponse) : Z := Registry.vr_version_number (Registry.rs_version v).

Definition _resolve_rollback_metadata (original_job_id : uuid) (original : CompilationJobResponse) : M rollback_metadata :=
  let compilation := "Compilation " +:+ uuid_str (cj_id original) in
  events <- list_events original_job_id 0 ;;
  let register_detail := _register_stage_detail events in
  service_id <- from_option_or (conflict (compilation +:+ " does not record the service_id needed to execute a rollback."))
                  (_resolve_execution_service_id original register_detail) ;;
  registered_version <- from_option_or (conflict (compilation +:+ " does not record the version needed to determine a rollback target."))
                          (_resolve_registered_version original register_detail) ;;
  active <- in_registry (Registry.get_active_version service_id (cj_tenant original) (cj_environment original)) ;;
  active_version <- from_option_or (conflict ("Service " +:+ service_id +:+ " has no active version to roll back.")) active ;;
  (if number_of active_version =? registered_version then ret tt
   else raise (conflict (compilation +:+ " is not the active deployment for service " +:+ service_id
                +:+ "; only the currently active deployment can be rolled back safely."))) ;;;
  versions <- in_registry (Registry.list_versions service_id (cj_tenant original) (cj_environment original)) ;;
  rollback_target <- from_option_or (conflict (compilation +:+ " has no previous version available for rollback."))
                       (List.find (λ v, number_of v <? registered_version) versions) ;;
  ret (mk_rollback_metadata original_job_id service_id (number_of rollback_target) (cj_tenant original) (cj_environment original)).

(** A replay is written by [store_compilation_request_options]: its values are texts. *)
Definition replayed (options : option (dict pyval)) (k : string) : option string :=
  as_str (get_or_none (compilation_request_replay options) k).

Definition or_text (a b : option string) : option string := if opt_truthy a then a else b.

Definition _build_replay_request (original : CompilationJobResponse) (actor : string) (service_id from_stage : option string)
    (metadata : option rollback_metadata) : CompilationRequest :=
  let options := default [] (cj_options original) in
  let options := if opt_truthy from_stage then dict_set options "from_stage" (opt_str from_stage) else options in
  let options := match metadata with
                 | Some m => store_compilation_rollback_request (Some options) (rm_source_job_id m) (rm_service_id m) (rm_target_version m)
                               (rm_tenant m) (rm_environment m)
                 | None => options
                 end in
  mk_request (cj_source_url original) (replayed (cj_options original) "source_content") (cj_source_hash original)
    (replayed (cj_options original) "filename") (Some actor)
    (or_text service_id (or_text (replayed (cj_options original) "service_id") (cj_service_id original)))
    (cj_service_name original) options None.

(** The position of a stage in the enumeration *)
Definition stage_position (s : CompilationStage) : nat := default 0%nat (fst <$> list_find (λ t, t = s) all_stages).

Definition _validate_retry_stage_boundary (original : CompilationJobResponse) (from_stage : option string) : outcome exn unit :=
  if negb (opt_truthy from_stage) then Ok tt
  else
    let wanted := default "" from_stage in
    match parse_stage wanted with
    | None => Raise (http_error 422 ("Unknown compilation stage: " +:+ wanted +:+ "."))
    | Some target_stage =>
        let start_index := stage_position target_stage in
        if (start_index <=? 1)%nat then Ok tt
        else
          match compilation_resume_checkpoint (cj_options original) with
          | None => Raise (conflict ("Compilation " +:+ uuid_str (cj_id original) +:+ " does not have the persisted checkpoint needed to resume from stage "
                             +:+ stage_value target_stage +:+ "."))
          | Some cp =>
              match parse_stage (cp_completed_stage cp) with
              | None => Raise (value_error ("'" +:+ cp_completed_stage cp +:+ "' is not a valid CompilationStage"))
              | Some completed_stage =>
                  if bool_decide (Some completed_stage = all_stages !! (start_index - 1)%nat) then Ok tt
                  else Raise (conflict ("Compilation " +:+ uuid_str (cj_id original) +:+ " can only resume from the stage after "
                                +:+ stage_value completed_stage +:+ ", not from " +:+ stage_value target_stage +:+ "."))
              end
          end
    end.

(** ** Submission

    The three routes that submit share their second half: store the job, write the
    audit entry, hand the request to the dispatcher; on a failure, undo. *)

(** [str(exc).strip() or exc.__class__.__name__] *)
Definition error_message (e : exn) : string := if str_truthy (strip (exn_str e)) then strip (exn_str e) else exn_type e.
Definition dispatch_failed (e : exn) : exn := http_error 503 ("Compilation worker dispatch failed: " +:+ error_message e).
Definition or_system (o : option string) : string := if opt_truthy o then default "" o else "system".

Definition undo {A} (job_id : uuid) (e : exn) : M A := rollback ;;; delete_job job_id ;;; raise e.

Definition submit (dispatcher : CompilationDispatcher) (request : CompilationRequest) (action : string)
    (resource : CompilationJobResponse → string) (detail : CompilationJobResponse → dict pyval) : M CompilationJobResponse :=
  job <- create_job request None true ;;
  let request := with_job_id (cj_id job) request in
  catch (append_entry (or_system (rq_created_by request)) action (Some (resource job)) (Some (detail job)) false ;;; ret tt)
    (undo (cj_id job)) ;;;
  catch (enqueue dispatcher request ;;; commit)
    (λ e, undo (cj_id job) (dispatch_failed e)) ;;;
  ret job.

(** ** Routes *)

Definition uuid_value (u : uuid) : pyval := VStr (uuid_str u).

Definition create_compilation (dispatcher : CompilationDispatcher) (caller : Security.TokenPrincipalResponse) (payload : CompilationCreateRequest)
    : M CompilationJobResponse :=
  let workflow_request := with_created_by (_caller_actor caller) (to_workflow_request payload) in
  submit dispatcher workflow_request "compilation.triggered" _job_resource
    (λ job, [("job_id", uuid_value (cj_id job)); ("source_url", opt_str (cc_source_url payload)); ("service_id", opt_str (cc_service_id payload));
             ("service_name", opt_str (cc_service_name payload))]).

Definition list_compilations (service_id : option string) : M (list CompilationJobResponse) := list_jobs None service_id.

Definition found (job_id : uuid) (include_internal_options : bool) : M CompilationJobResponse :=
  job <- get_job job_id include_internal_options ;;
  from_option_or (_not_found job_id) job.
Definition get_compilation (job_id : uuid) : M CompilationJobResponse := found job_id false.

Definition outcome_comp {A} (o : outcome exn A) : M A := match o with Ok a => ret a | Raise e => raise e end.

Definition retry_compilation (dispatcher : CompilationDispatcher) (caller : Security.TokenPrincipalResponse) (job_id : uuid) (from_stage : option string)
    : M CompilationJobResponse :=
  original <- found job_id true ;;
  outcome_comp (_validate_retry_stage_boundary original from_stage) ;;;
  let retry_request := _build_replay_request original (_caller_actor caller) None from_stage None in
  submit dispatcher retry_request "compilation.retried" (λ _, _job_resource original)
    (λ new_job, [("original_job_id", uuid_value job_id); ("new_job_id", uuid_value (cj_id new_job)); ("from_stage", opt_str from_stage)]).

Definition rollback_compilation (dispatcher : CompilationDispatcher) (caller : Security.TokenPrincipalResponse) (job_id : uuid)
    : M CompilationJobResponse :=
  original <- found job_id true ;;
  (if str_eqb (cj_status original) (status_value SUCCEEDED) then ret tt
   else raise (conflict ("Only succeeded compilations can be rolled back (current: " +:+ cj_status original +:+ ")."))) ;;;
  metadata <- _resolve_rollback_metadata job_id original ;;
  let rollback_request := _build_replay_request original (_caller_actor caller) (Some (rm_service_id metadata)) None (Some metadata) in
  submit dispatcher rollback_request "compilation.rollback_requested" (λ _, _job_resource original)
    (λ new_job, [("original_job_id", uuid_value job_id); ("rollback_job_id", uuid_value (cj_id new_job));
                 ("target_version", VInt (rm_target_version metadata))]).

(** ** The stream of a job's events *)

Definition _TERMINAL_STATUSES : list string := status_value <$> [SUCCEEDED; FAILED; ROLLED_BACK].

(** [event.model_dump(mode="json")] *)
Definition event_payload (e : stored_event) : dict pyval :=
  let r := se_row e in
  [("id", uuid_value (se_id e)); ("job_id", uuid_value (JobStore.JobStore.e_job_id r)); ("sequence_number", VInt (JobStore.JobStore.e_sequence_number r));
   ("stage", opt_str (JobStore.JobStore.e_stage r)); ("event_type", VStr (JobStore.JobStore.e_event_type r));
   ("attempt", match JobStore.JobStore.e_attempt r with Some n => VInt n | None => VNone end);
   ("detail", opt_dict (JobStore.JobStore.e_detail r)); ("error_detail", opt_str (JobStore.JobStore.e_error_detail r));
   ("created_at", VStr (se_created_at e))].

(** What one turn of the polling loop reads: the events, then the job's status, then
    whether the client is gone.  Others commit in between. *)
Record poll := mk_poll {
  pl_events : list stored_event;
  pl_status : option string;
  pl_disconnected : bool;
}.

(** How the response ends: closed, broken by an exception, or still polling when the
    list of polls is used up. *)
Inductive stream_end := Closed | Broken (e : exn) | Polling.

Section stream.
(** [json.dumps(payload, separators=(",", ":"))] *)
Context (json_dumps : pyval → outcome exn string).

Definition newline : string := String (ascii_of_nat 10) "".
Definition _format_sse_event (event_name : string) (payload : dict pyval) : outcome exn string :=
  let! data := json_dumps (VDict payload) in
  Ok ("event: " +:+ event_name +:+ newline +:+ "data: " +:+ data +:+ newline +:+ newline).

Definition event_frame (e : stored_event) : outcome exn string :=
  _format_sse_event (JobStore.JobStore.e_event_type (se_row e)) (event_payload e).
Definition error_frame (e : stored_event) : outcome exn string :=
  _format_sse_event "stream.error" [("message", VStr ("Failed to serialize compilation event " +:+ JobStore.JobStore.e_event_type (se_row e)))].

(** The events of one poll: what is sent, the last sequence number, and how the
    stream ended if it did. *)
Fixpoint send (last_sequence : Z) (events : list stored_event) : list string * Z * option stream_end :=
  match events with
  | [] => ([], last_sequence, None)
  | event :: rest =>
      let last_sequence := seq_of event in
      match event_frame event with
      | Ok frame => let '(frames, last, stop) := send last_sequence rest in (frame :: frames, last, stop)
      | Raise e =>
          if exn_is "TypeError" e || exn_is "ValueError" e then
            match error_frame event with
            | Ok frame => ([frame], last_sequence, Some Closed)
            | Raise e' => ([], last_sequence, Some (Broken e'))
            end
          else ([], last_sequence, Some (Broken e))
      end
  end.

(** The loop ends after a poll that saw no job, a terminal one, or no client. *)
Definition last_poll (p : poll) : bool :=
  match pl_status p with
  | None => true
  | Some st => bool_decide (st ∈ _TERMINAL_STATUSES) || pl_disconnected p
  end.

Fixpoint event_stream (job_id : uuid) (last_sequence : Z) (polls : list poll) : list string * stream_end :=
  match polls with
  | [] => ([], Polling)
  | p :: rest =>
      let '(frames, last, stop) := send last_sequence (events_after job_id last_sequence (pl_events p)) in
      match stop with
      | Some e => (frames, e)
      | None =>
          if last_poll p then (frames, Closed)
          else let '(more, e) := event_stream job_id last rest in (frames ++ more, e)
      end
  end.

Definition stream_compilation_events (job_id : uuid) (polls : list poll) : M (list string * stream_end) :=
  found job_id false ;;;
  ret (event_stream job_id 0 polls).
End stream.

(** ** Sessions with faults *)

(** No call fails any more; at most one does. *)
Definition quiet (l : list (option exn)) : Prop := Forall (λ o, o = None) l.
Fixpoint one_fault (l : list (option exn)) : Prop :=
  match l with
  | [] => True
  | None :: l' => one_fault l'
  | Some _ :: l' => quiet l'
  end.
#[global] Instance quiet_dec l : Decision (quiet l) := _.
#[global] Instance one_fault_dec l : Decision (one_fault l).
Proof. induction l as [|[] l IH]; cbn [one_fault]; apply _. Defined.

Lemma quiet_one l : quiet l → one_fault l.
Proof. induction 1 as [|o l -> Hl IH]; done. Qed.
#[export] Hint Resolve quiet_one : core.

(** One call, in a state that may still see a fault *)
Lemma fault_quiet w c ev q us now fs :
  quiet fs → ∃ fs', quiet fs' ∧ fault (mk_api w c ev q us now fs) = (Ok tt, mk_api w c ev q us now fs').
Proof. intros H. destruct H as [|o fs -> H]; [exists []|exists fs]; repeat split; try done. by constructor. Qed.

Lemma fault_one w c ev q us now fs :
  one_fault fs → ∃ fs',
    (fault (mk_api w c ev q us now fs) = (Ok tt, mk_api w c ev q us now fs') ∧ one_fault fs' ∧ (quiet fs → quiet fs'))
    ∨ (∃ e, fault (mk_api w c ev q us now fs) = (Raise e, mk_api w c ev q us now fs') ∧ quiet fs').
Proof.
  destruct fs as [|[e|] fs]; cbn; intros H; [exists []; by left|exists fs; right; by exists e|exists fs; left].
  repeat split; [done|]. by intros [_ ?]%Forall_cons_1.
Qed.

Lemma find_job_last u j l : find_job u l = None → find_job u (l ++ [(u, j)]) = Some (u, j).
Proof.
  unfold find_job. induction l as [|k l IH]; cbn; [by rewrite bool_decide_eq_true_2|].
  case_bool_decide; [done|]. exact IH.
Qed.

Lemma without_job_last u j l :
  find_job u l = None → List.filter (λ k : uuid * stored_job, negb (bool_decide (k.1 = u))) (l ++ [(u, j)]) = l.
Proof.
  unfold find_job. induction l as [|k l IH]; cbn; [by rewrite bool_decide_eq_true_2|].
  case_bool_decide; [done|]. cbn. intros Hl. f_equal. by apply IH.
Qed.

(** What undoing leaves: the committed rows without the job *)
Lemma undo_quiet {A} u e j w c ev q us now fs :
  quiet fs → find_job u (r_jobs c) = None →
  ∃ fs' ev', undo (A:=A) u e (mk_api w (set_jobs (λ l, l ++ [(u, j)]) c) ev q us now fs) = (Raise e, mk_api c c ev' q us now fs').
Proof.
  intros Hq Hnew. unfold undo, delete_job, commit, rollback, bind, gets, modify, discard, save, on_working, set_jobs.
  cbn -[find_job fault List.filter]. rewrite (find_job_last _ _ _ Hnew). cbn -[fault List.filter].
  rewrite (without_job_last _ _ _ Hnew). destruct c as [reg jobs aud]. cbn -[fault] in *.
  match goal with |- context [fault (mk_api ?a ?b ?x ?y ?z ?t ?v)] => destruct (fault_quiet a b x y z t v Hq) as (fs' & _ & E) end.
  rewrite E. by eexists _, _.
Qed.

Definition fresh_job (request : CompilationRequest) (now : Z) : stored_job := mk_stored (new_row request) now now.
Definition stored_with (request : CompilationRequest) (u : uuid) (now : Z) : rows → rows :=
  set_jobs (λ l, l ++ [(u, fresh_job request now)]).

(** Creating a job stores one new row, committed at once, or nothing. *)
Lemma create_job_cases request c ev q us now fs :
  one_fault fs →
  wp (create_job request None true)
    (λ job s', ∃ u us' fs', find_job u (r_jobs c) = None ∧ one_fault fs' ∧ (quiet fs → quiet fs')
       ∧ job = _to_job_response false (u, fresh_job request now)
       ∧ s' = mk_api (stored_with request u now c) (stored_with request u now c) ev q us' now fs')
    (λ _ s', ap_committed s' = c ∧ ap_queue s' = q) (mk_api c c ev q us now fs).
Proof.
  intros Hf. unfold create_job. apply wp_bind.
  assert (∃ u us', match rq_job_id request with Some u => ret u | None => uuid4 end (mk_api c c ev q us now fs)
                   = (Ok u, mk_api c c ev q us' now fs)) as (u & us' & E).
  { destruct (rq_job_id request); [by eexists _, _|]. unfold uuid4. cbn. by destruct us; eexists _, _. }
  unfold wp at 1. rewrite E. apply wp_bind, wp_gets, wp_bind, wp_gets. cbn [ap_working ap_now].
  destruct (find_job u (r_jobs c)) eqn:Hu; [by repeat step_wp; split|].
  apply wp_bind, wp_modify. unfold on_working. cbn [ap_working ap_committed ap_events ap_queue ap_uuids ap_now ap_faults].
  apply wp_bind. unfold flush, wp at 1.
  edestruct (fault_one) as (fs1 & [(-> & H1 & Hq1)|(e & -> & _)]); [exact Hf| |by split].
  apply wp_bind. unfold when, commit. apply wp_bind. unfold wp at 1.
  edestruct (fault_one) as (fs2 & [(-> & H2 & Hq2)|(e & -> & _)]); [exact H1| |by split].
  apply wp_modify. apply wp_ret. exists u, us', fs2. repeat split; try done. by intros ?%Hq1%Hq2.
Qed.

(** The dispatcher takes the request. *)
Definition willing (dispatcher : CompilationDispatcher) (request : CompilationRequest) : bool :=
  match dispatcher with
  | InMemoryCompilationDispatcher => true
  | UnconfiguredCompilationDispatcher _ => false
  | CallbackCompilationDispatcher callback => match callback request with Ok _ => true | Raise _ => false end
  | CeleryCompilationDispatcher _ registered => registered && match to_payload request with Ok _ => true | Raise _ => false end
  end.
(** At most one thing goes wrong: a call, or else the dispatcher refuses. *)
Definition one_failure (dispatcher : CompilationDispatcher) (request : CompilationRequest) (fs : list (option exn)) : Prop :=
  quiet fs ∨ (one_fault fs ∧ ∀ u, willing dispatcher (with_job_id u request) = true).

(** Handing over: the queue grows by the request, or an exception tells that it did not. *)
Lemma enqueue_cases dispatcher request w c ev q us now fs :
  quiet fs ∨ (one_fault fs ∧ willing dispatcher request = true) →
  wp (enqueue dispatcher request)
    (λ _ s', ∃ fs', one_fault fs' ∧ s' = mk_api w c ev (q ++ [request]) us now fs')
    (λ _ s', ∃ fs', quiet fs' ∧ s' = mk_api w c ev q us now fs') (mk_api w c ev q us now fs).
Proof.
  intros Hf. unfold enqueue. apply wp_bind. unfold wp at 1.
  destruct Hf as [Hf|[Hf Hd]].
  - destruct (fault_quiet w c ev q us now fs Hf) as (fs1 & H1 & ->).
    destruct dispatcher as [|[]|callback|name []]; try (apply wp_raise; by eauto).
    + by apply wp_modify; eauto.
    + destruct (callback request); [apply wp_modify|apply wp_raise]; eauto.
    + unfold accepted. destruct (to_payload request); [apply wp_modify|apply wp_raise]; eauto.
  - destruct (fault_one w c ev q us now fs Hf) as (fs1 & [(-> & H1 & _)|(e & -> & H1)]); [|by eauto].
    destruct dispatcher as [|[]|callback|name []]; try done; cbn in Hd.
    + by apply wp_modify; eauto.
    + destruct (callback request); [apply wp_modify|done]; eauto.
    + unfold accepted. destruct (to_payload request); [apply wp_modify|done]; eauto.
Qed.

Definition clean (s : api) : Prop := ap_working s = ap_committed s.

(** What a submission leaves once the request's session is closed *)
Definition submitted_or_not (request : CompilationRequest) (action : string)
    (resource : CompilationJobResponse → string) (detail : CompilationJobResponse → dict pyval) (s : api)
    (o : outcome exn CompilationJobResponse) (s' : api) : Prop :=
  let before := ap_committed s in
  let sent u := ap_queue s ++ [with_job_id u request] in
  match o with
  | Ok job =>
      find_job (cj_id job) (r_jobs before) = None
      ∧ job = _to_job_response false (cj_id job, fresh_job request (ap_now s))
      ∧ ap_committed s' =
          mk_rows (r_registry before) (r_jobs before ++ [(cj_id job, fresh_job request (ap_now s))])
            (r_audit before ++ [mk_audit (or_system (rq_created_by request)) action (Some (resource job)) (Some (detail job))])
      ∧ ap_queue s' = sent (cj_id job)
  | Raise e =>
      ap_committed s' = before
      ∧ (ap_queue s' = ap_queue s ∨ (http_status e = Some 503 ∧ ∃ u, ap_queue s' = sent u))
  end.

Lemma wp_undo {A} u e j w c ev q us now fs (Q : A → api → Prop) (R : exn → api → Prop) :
  quiet fs → find_job u (r_jobs c) = None → (∀ ev' fs', R e (mk_api c c ev' q us now fs')) →
  wp (undo u e) Q R (mk_api w (set_jobs (λ l, l ++ [(u, j)]) c) ev q us now fs).
Proof. intros Hq Hu HR. unfold wp. by destruct (undo_quiet (A:=A) u e j w c ev q us now fs Hq Hu) as (? & ? & ->). Qed.


(** ** What an accepted request hands over *)

Section queue.
Context (q : list CompilationRequest).
Let same_queue (s : api) : Prop := ap_queue s = q.

Lemma preserves_fault : preserves same_queue fault.
Proof. intros s H. unfold wp, fault. destruct (ap_faults s) as [|[] ?]; exact H. Qed.
Lemma preserves_commit_queue : preserves same_queue commit.
Proof. apply preserves_bind; [apply preserves_fault|]. intros []. by apply preserves_modify. Qed.
#[local] Hint Resolve preserves_fault preserves_commit_queue : preserve.

Lemma preserves_create_job request job_id : preserves same_queue (create_job request job_id true).
Proof.
  unfold create_job. apply preserves_bind.
  { destruct job_id; [apply preserves_ret|]. destruct (rq_job_id request); [apply preserves_ret|].
    intros s H. unfold wp, uuid4. by destruct (ap_uuids s). }
  intros u. apply preserves_bind; [apply preserves_gets|]. intros now. apply preserves_bind; [apply preserves_gets|].
  intros []; [by apply preserves_bind; [apply preserves_modify|]; intros; [|apply preserves_raise]|].
  apply preserves_bind; [by apply preserves_modify|]. intros []. apply preserves_bind; [apply preserves_fault|]. intros [].
  apply preserves_bind; [apply preserves_when, preserves_commit_queue|]. intros []. apply preserves_ret.
Qed.
Lemma preserves_append_entry actor action resource detail : preserves same_queue (append_entry actor action resource detail false).
Proof.
  apply preserves_bind; [by apply preserves_modify|]. intros []. apply preserves_bind; [apply preserves_fault|]. intros [].
  apply preserves_bind; [apply preserves_when, preserves_commit_queue|]. intros []. apply preserves_ret.
Qed.
End queue.

Lemma undo_raises {A} u e s (Q : A → api → Prop) : wp (undo u e) Q (λ _ _, True) s.
Proof.
  unfold undo, wp, bind, raise. destruct (rollback s) as [[] ?]; [|done]. by destruct (delete_job u _) as [[] ?].
Qed.

Lemma enqueue_appends dispatcher request s :
  wp (enqueue dispatcher request) (λ _ s', ap_queue s' = ap_queue s ++ [request]) (λ _ _, True) s.
Proof.
  unfold enqueue. apply wp_bind. eapply wp_mono; [by apply (preserves_fault (ap_queue s))| |done].
  intros [] s1 <-. destruct dispatcher as [|[]|callback|name []]; try done.
  - by destruct (callback request).
  - unfold accepted. by destruct (to_payload request).
Qed.

(** An answered submission has put its request, under the new job's id, into the queue. *)
Lemma submit_hands_over dispatcher request action resource detail s :
  wp (submit dispatcher request action resource detail)
    (λ job s', ap_queue s' = ap_queue s ++ [with_job_id (cj_id job) request]) (λ _ _, True) s.
Proof.
  unfold submit. apply wp_bind. eapply wp_mono; [by apply (preserves_create_job (ap_queue s))| |done].
  intros job s1 H1. apply wp_bind, wp_catch, wp_bind.
  eapply wp_mono; [by apply (preserves_append_entry (ap_queue s))| |by intros; apply undo_raises].
  intros ? s2 H2. apply wp_ret, wp_bind, wp_catch, wp_bind.
  eapply wp_mono; [apply enqueue_appends| |by intros; apply undo_raises].
  intros [] s3 H3. rewrite H2 in H3.
  eapply wp_mono; [by apply (preserves_commit_queue (ap_queue s3))| |by intros; apply undo_raises].
  intros [] s4 H4. apply wp_ret. by rewrite H4.
Qed.

(** ** Rollback *)

Definition newer (a b : Registry.ServiceVersion) : Prop := Registry.vr_version_number b ≤ Registry.vr_version_number a.

Lemma insert_newer r l : StronglySorted newer l → StronglySorted newer (Registry.insert_desc r l).
Proof.
  induction 1 as [|a l Hl IH Ha]; cbn; [by repeat constructor|].
  destruct (Z.ltb_spec (Registry.vr_version_number a) (Registry.vr_version_number r)) as [Hr|Hr].
  - constructor; [by constructor|]. constructor; [unfold newer; lia|]. eapply Forall_impl; [exact Ha|]. unfold newer. lia.
  - constructor; [exact IH|]. rewrite Registry.insert_desc_perm. by constructor.
Qed.
Lemma sorted_newer l : StronglySorted newer (Registry.sort_desc l).
Proof.
  unfold Registry.sort_desc. enough (∀ acc, StronglySorted newer acc → StronglySorted newer (foldl (λ acc r, Registry.insert_desc r acc) acc l)) as H
    by (apply H; constructor).
  induction l as [|r l IH]; intros acc Hacc; [done|]. by apply IH, insert_newer.
Qed.

Lemma find_newest_below (n : Z) l t :
  StronglySorted newer l → List.find (λ r, Registry.vr_version_number r <? n) l = Some t →
  t ∈ l ∧ Registry.vr_version_number t < n
  ∧ ∀ r, r ∈ l → Registry.vr_version_number r < n → Registry.vr_version_number r ≤ Registry.vr_version_number t.
Proof.
  induction 1 as [|a l Hl IH Ha]; cbn; [done|]. destruct (Z.ltb_spec (Registry.vr_version_number a) n) as [Hn|Hn].
  - intros [= ->]. split; [left|]. split; [done|]. intros r [->|Hr]%elem_of_cons _; [done|].
    rewrite Forall_forall in Ha. by apply Ha.
  - intros H. destruct (IH H) as (H1 & H2 & H3). split; [by right|]. split; [done|].
    intros r [->|Hr]%elem_of_cons Hb; [lia|by apply H3].
Qed.

(** Reading the registry leaves the session as it is. *)
Definition registered (s : api) : list Registry.ServiceVersion := Registry.versions (r_registry (ap_working s)).
Definition response_in (s : api) (r : Registry.ServiceVersion) : Registry.ArtifactVersionResponse :=
  Registry.mk_response r (Registry.artifacts_of (Registry.vr_id r) (r_registry (ap_working s))).

Lemma in_registry_active service_id tenant environment s :
  in_registry (Registry.get_active_version service_id tenant environment) s =
  (match List.filter (λ r, Registry.version_query service_id tenant environment r && Registry.vr_is_active r) (registered s) with
   | [] => Ok None
   | [r] => Ok (Some (response_in s r))
   | _ => Raise (Registry.ambiguous_error service_id)
   end, s).
Proof.
  destruct s as [[reg js au] [] ? ? ? ? ?]. unfold in_registry, Registry.get_active_version, Registry.require_unique_version_record,
    Registry.select_versions, registered, bind, gets. cbn -[List.filter].
  by destruct (List.filter _ _) as [|? []].
Qed.
Lemma in_registry_versions service_id tenant environment s :
  in_registry (Registry.list_versions service_id tenant environment) s =
  (Ok (response_in s <$> Registry.sort_desc (List.filter (Registry.version_query service_id tenant environment) (registered s))), s).
Proof. by destruct s as [[] [] ? ? ? ? ?]. Qed.

Lemma find_fmap {A B} (f : A → B) (p : B → bool) l : List.find p (f <$> l) = f <$> List.find (λ a, p (f a)) l.
Proof. induction l as [|a l IH]; cbn; [done|]. by destruct (p (f a)). Qed.

(** A rollback goes from the active version of the scope to the newest older one. *)
Definition steps_back (s : api) (service_id : string) (tenant environment : option string) (active target : Registry.ServiceVersion) : Prop :=
  let visible r := r ∈ registered s ∧ Registry.version_query service_id tenant environment r = true in
  visible active ∧ Registry.vr_is_active active = true ∧ visible target
  ∧ Registry.vr_version_number target < Registry.vr_version_number active
  ∧ ∀ r, visible r → Registry.vr_version_number r < Registry.vr_version_number active →
      Registry.vr_version_number r ≤ Registry.vr_version_number target.

(** What [_resolve_rollback_metadata] resolves, if it does; it changes nothing. *)
Lemma resolve_metadata_cases job_id original s :
  wp (_resolve_rollback_metadata job_id original)
    (λ m s', s' = s ∧ ∃ active target,
       let detail := _register_stage_detail (events_after job_id 0 (ap_events s)) in
       _resolve_execution_service_id original detail = Some (rm_service_id m)
       ∧ _resolve_registered_version original detail = Some (Registry.vr_version_number active)
       ∧ steps_back s (rm_service_id m) (cj_tenant original) (cj_environment original) active target
       ∧ m = mk_rollback_metadata job_id (rm_service_id m) (Registry.vr_version_number target) (cj_tenant original) (cj_environment original))
    (λ _ s', s' = s) s.
Proof.
  unfold _resolve_rollback_metadata. apply wp_bind, wp_gets. set (detail := _register_stage_detail _).
  apply wp_bind. destruct (_resolve_execution_service_id original detail) as [service_id|] eqn:Hsid; [|done].
  apply wp_ret, wp_bind. destruct (_resolve_registered_version original detail) as [v|] eqn:Hv; [|done].
  apply wp_ret, wp_bind. unfold wp at 1. rewrite in_registry_active.
  destruct (List.filter _ _) as [|active []] eqn:Ha; cbn [from_option_or]; [done| |done].
  apply wp_bind, wp_ret, wp_bind. unfold number_of at 1. cbn [Registry.rs_version response_in].
  destruct (Z.eqb_spec (Registry.vr_version_number active) v) as [<-|]; [|done].
  apply wp_ret, wp_bind. unfold wp at 1. rewrite in_registry_versions, find_fmap.
  unfold number_of. cbn [Registry.rs_version response_in].
  apply wp_bind. destruct (List.find _ _) as [target|] eqn:Ht; [|done]. apply wp_ret, wp_ret. split; [done|].
  exists active, target. cbn [rm_service_id]. split; [done|]. split; [done|]. split; [|done].
  apply find_newest_below in Ht as (Hin & Hlt & Hmax); [|apply sorted_newer].
  rewrite Registry.sort_desc_perm, elem_of_filterb in Hin. destruct Hin as [Hq Hin].
  assert (active ∈ [active]) as Hact by left. rewrite <-Ha, elem_of_filterb, andb_true_iff in Hact. destruct Hact as [[Hqa Hact] Hina].
  unfold steps_back. split_and!; [done..|]. intros r [Hr Hqr]. apply Hmax. by rewrite Registry.sort_desc_perm, elem_of_filterb.
Qed.

Lemma found_cases job_id include s :
  wp (found job_id include)
    (λ job s', s' = s ∧ ∃ j, find_job job_id (r_jobs (ap_working s)) = Some j ∧ job = _to_job_response include j)
    (λ e s', s' = s ∧ find_job job_id (r_jobs (ap_working s)) = None ∧ http_status e = Some 404) s.
Proof.
  unfold found, get_job. apply wp_bind, wp_gets. destruct (find_job _ _) as [j|] eqn:E; [|by apply wp_raise].
  apply wp_ret. split; [done|]. by exists j.
Qed.

(** The rollback metadata of a request that [_build_replay_request] made *)
Lemma replay_metadata original actor service_id m :
  options_wf (cj_options original) → uuid_wf (rm_source_job_id m) →
  compilation_rollback_request (Some (rq_options (_build_replay_request original actor service_id None (Some m))))
  = Some (mk_rollback_metadata (rm_source_job_id m) (rm_service_id m) (rm_target_version m)
            (normalize_scope_value (opt_str (rm_tenant m))) (normalize_scope_value (opt_str (rm_environment m)))).
Proof.
  intros Hwf Hu. unfold _build_replay_request. cbn [rq_options opt_truthy].
  assert (options_wf (Some (default [] (cj_options original)))) as Hwf'.
  { destruct (cj_options original); [exact Hwf|]. apply NoDup_nil_2. }
  by apply rollback_request_roundtrip.
Qed.

Definition j_row (j : uuid * stored_job) : JobStore.JobStore.job_row := sj_row j.2.

(** C7. An accepted rollback is of a compilation that succeeded and whose version is the
    active one of its service and scope; the request that the worker gets names the
    newest version older than that one, so that no version between the two is skipped,
    and reads back as exactly this job, service and scope. *)
Theorem rollback_targets_previous dispatcher caller job_id s job s' :
  uuid_wf job_id →
  (∀ j, find_job job_id (r_jobs (ap_working s)) = Some j → options_wf (JobStore.JobStore.j_options (j_row j))) →
  rollback_compilation dispatcher caller job_id s = (Ok job, s') →
  ∃ j service_id active target request,
    find_job job_id (r_jobs (ap_working s)) = Some j
    ∧ JobStore.JobStore.j_status (j_row j) = status_value SUCCEEDED
    ∧ _resolve_registered_version (_to_job_response true j) (_register_stage_detail (events_after job_id 0 (ap_events s)))
      = Some (Registry.vr_version_number active)
    ∧ steps_back s service_id (JobStore.JobStore.j_tenant (j_row j)) (JobStore.JobStore.j_environment (j_row j)) active target
    ∧ ap_queue s' = ap_queue s ++ [request]
    ∧ rq_job_id request = Some (cj_id job)
    ∧ compilation_rollback_request (Some (rq_options request))
      = Some (mk_rollback_metadata job_id service_id (Registry.vr_version_number target)
                (normalize_scope_value (opt_str (JobStore.JobStore.j_tenant (j_row j))))
                (normalize_scope_value (opt_str (JobStore.JobStore.j_environment (j_row j))))).
Proof.
  intros Hu Hwf H.
  enough (wp (rollback_compilation dispatcher caller job_id) (λ job s', ∃ j service_id active target request, _) (λ _ _, True) s) as Hw
    by (unfold wp in Hw; rewrite H in Hw; exact Hw).
  unfold rollback_compilation. apply wp_bind. eapply wp_mono; [apply found_cases| |done].
  intros original s1 (-> & j & Hj & ->). apply wp_bind.
  destruct (str_eqb _ _) eqn:Hst; [|done]. apply str_eqb_eq in Hst. apply wp_ret, wp_bind.
  eapply wp_mono; [apply resolve_metadata_cases| |done].
  intros m s2 (-> & active & target & _ & Hv & Hback & Hm).
  pose proof (f_equal rm_source_job_id Hm) as Hsrc. pose proof (f_equal rm_target_version Hm) as Htgt.
  pose proof (f_equal rm_tenant Hm) as Hten. pose proof (f_equal rm_environment Hm) as Henv. cbn in Hsrc, Htgt, Hten, Henv.
  eapply wp_mono; [apply submit_hands_over| |done]. intros job' s3 Hq.
  exists j, (rm_service_id m), active, target. eexists. split; [exact Hj|]. split; [exact Hst|].
  split; [exact Hv|]. split; [exact Hback|]. split; [exact Hq|]. split; [done|].
  cbn [rq_options with_job_id]. rewrite replay_metadata; [by rewrite Hsrc, Htgt, Hten, Henv|exact (Hwf j Hj)|by rewrite Hsrc].
Qed.

(** ** Retry *)

Lemma internal_set_public d k v : is_internal k = false → internal_part (dict_set d k v) = internal_part d.
Proof.
  intros Hk. unfold internal_part. induction d as [|[k' v'] d IH]; simpl; [by rewrite Hk|].
  case_eqb; simpl; [by rewrite Hk|]. by rewrite IH.
Qed.

(** A public option does not disturb the checkpoint. *)
Lemma checkpoint_set_public d k v :
  dict_wf d → is_internal k = false →
  compilation_resume_checkpoint (Some (dict_set d k v)) = compilation_resume_checkpoint (Some d).
Proof.
  intros Hd Hk. unfold compilation_resume_checkpoint.
  rewrite !split_wf by (try apply dict_wf_set; done). cbn [snd]. by rewrite internal_set_public.
Qed.

Lemma validated_retry original f :
  str_truthy f = true → _validate_retry_stage_boundary original (Some f) = Ok tt →
  ∃ t, f = stage_value t ∧
    ((stage_position t <= 1)%nat
     ∨ ∃ cp done_stage, compilation_resume_checkpoint (cj_options original) = Some cp
         ∧ parse_stage (cp_completed_stage cp) = Some done_stage ∧ Some done_stage = all_stages !! (stage_position t - 1)%nat).
Proof.
  intros Hf. unfold _validate_retry_stage_boundary. cbn [opt_truthy]. change (default "" (Some f)) with f. rewrite Hf. cbn [negb].
  destruct (parse_stage f) as [t|] eqn:Ht; [|done]. apply CompileWorkflow.parse_stage_Some in Ht. intros H. exists t. split; [done|].
  destruct (Nat.leb_spec (stage_position t) 1) as [Hle|Hgt]; [by left|right].
  destruct (compilation_resume_checkpoint _) as [cp|]; [|done].
  destruct (parse_stage (cp_completed_stage cp)) as [st|] eqn:Hst; [|done].
  case_bool_decide as Heq; [|done]. by exists cp, st.
Qed.

(** The worker resolves what the route's check let through. *)
Lemma worker_resolves {St} t request cx (st : St) :
  dict_get (rq_options request) "from_stage" = Some (VStr (stage_value t)) →
  ((stage_position t <= 1)%nat
   ∨ ∃ cp done_stage, compilation_resume_checkpoint (Some (rq_options request)) = Some cp
       ∧ parse_stage (cp_completed_stage cp) = Some done_stage ∧ Some done_stage = all_stages !! (stage_position t - 1)%nat) →
  ∃ cx', CompileWorkflow.resolve_stage_definitions CompileWorkflow.DEFAULT_STAGE_DEFINITIONS request cx st
         = (Ok (drop (stage_position t) CompileWorkflow.DEFAULT_STAGE_DEFINITIONS, cx'), st).
Proof.
  intros Hfrom Hcp. unfold CompileWorkflow.resolve_stage_definitions. rewrite Hfrom.
  assert (strip (stage_value t) = stage_value t ∧ str_truthy (stage_value t) = true) as [-> ->] by (by destruct t).
  unfold bind, CompileWorkflow.stage_of_value. rewrite parse_stage_value. cbn [negb from_option_or ret].
  assert (CompileWorkflow.stage_index CompileWorkflow.DEFAULT_STAGE_DEFINITIONS t = Some (stage_position t)) as -> by (by destruct t).
  unfold from_option_or at 1, ret at 1. destruct (Nat.leb_spec (stage_position t) 1) as [Hle|Hgt]; [by eexists|].
  destruct Hcp as [Hcp|(cp & d & -> & Hd & Hprev)]; [lia|].
  assert (∀ k, sd_stage <$> CompileWorkflow.DEFAULT_STAGE_DEFINITIONS !! k = all_stages !! k) as ->.
  { intros k. by do 10 (destruct k as [|k]; [done|]). }
  rewrite <-Hprev, Hd. unfold from_option_or, ret. rewrite bool_decide_eq_true_2 by done. by eexists.
Qed.

(** C8. A retry from a named stage that the route accepts is one that the worker can
    carry out: resolving the handed-over request against the worker's stages does not
    fail, and starts at exactly the stage asked for. *)
Theorem accepted_retry_resumes {St} dispatcher caller job_id f s job s' cx (st : St) :
  str_truthy f = true →
  (∀ j, find_job job_id (r_jobs (ap_working s)) = Some j → options_wf (JobStore.JobStore.j_options (j_row j))) →
  retry_compilation dispatcher caller job_id (Some f) s = (Ok job, s') →
  ∃ request t cx',
    ap_queue s' = ap_queue s ++ [request]
    ∧ f = stage_value t
    ∧ CompileWorkflow.resolve_stage_definitions CompileWorkflow.DEFAULT_STAGE_DEFINITIONS request cx st
      = (Ok (drop (stage_position t) CompileWorkflow.DEFAULT_STAGE_DEFINITIONS, cx'), st)
    ∧ sd_stage <$> CompileWorkflow.DEFAULT_STAGE_DEFINITIONS !! stage_position t = Some t.
Proof.
  intros Hf Hwf H.
  enough (wp (retry_compilation dispatcher caller job_id (Some f)) (λ job s', ∃ request t cx', _) (λ _ _, True) s) as Hw
    by (unfold wp in Hw; rewrite H in Hw; exact Hw).
  unfold retry_compilation. apply wp_bind. eapply wp_mono; [apply found_cases| |done].
  intros original s1 (-> & j & Hj & ->). specialize (Hwf j Hj).
  change (JobStore.JobStore.j_options (j_row j)) with (cj_options (_to_job_response true j)) in Hwf.
  set (original := _to_job_response true j) in *. apply wp_bind.
  destruct (_validate_retry_stage_boundary original (Some f)) as [[]|e] eqn:Hv; [|by apply wp_raise].
  apply wp_ret. destruct (validated_retry _ _ Hf Hv) as (t & Ht & Hcp).
  eapply wp_mono; [apply submit_hands_over| |done]. intros job' s2 Hq.
  cbn beta in Hq. match type of Hq with _ = app _ (cons ?r nil) => set (request := r) in *; destruct (worker_resolves t request cx st) as [cx' Hr] end.
  - unfold request, _build_replay_request. cbn [rq_options with_job_id opt_truthy]. rewrite Hf, Ht. by rewrite dict_get_set_eq.
  - destruct Hcp as [Hcp|(cp & d & Hcp & Hd)]; [by left|right]. exists cp, d. split; [|exact Hd].
    unfold request, _build_replay_request. cbn [rq_options with_job_id opt_truthy]. rewrite Hf.
    destruct (cj_options original) as [o|]; [|done]. by rewrite checkpoint_set_public.
  - exists request, t, cx'. split; [exact Hq|]. split; [exact Ht|]. split; [exact Hr|by destruct t].
Qed.

(** ** Sorting and selecting events *)

Section sorting_events.
Implicit Types (x y : stored_event) (l : list stored_event).
Let below x y : Prop := seq_of x ≤ seq_of y.

Lemma insert_least x l : Forall (below x) l → insert_by seq_leb x l = x :: l.
Proof. destruct 1 as [|y l Hy]; cbn; [done|]. unfold seq_leb. by rewrite (proj2 (Z.leb_le _ _) Hy). Qed.

Lemma insert_below x l : StronglySorted below l → StronglySorted below (insert_by seq_leb x l).
Proof.
  induction 1 as [|y l Hl IH Hy]; cbn; [by repeat constructor|]. unfold seq_leb at 1.
  destruct (Z.leb_spec (seq_of x) (seq_of y)) as [Hxy|Hxy].
  - constructor; [by constructor|]. constructor; [done|]. eapply Forall_impl; [exact Hy|]. unfold below. lia.
  - constructor; [exact IH|]. rewrite insert_by_perm. constructor; [unfold below; lia|done].
Qed.
Lemma sorted_below l : StronglySorted below (sorted_by seq_leb l).
Proof. induction l as [|x l IH]; [constructor|]. by apply insert_below. Qed.

Lemma Forall_filterb {A} (Q : A → Prop) (P : A → bool) (l : list A) : Forall Q l → Forall Q (List.filter P l).
Proof. rewrite !Forall_forall. intros H a [_ Ha]%elem_of_filterb. by apply H. Qed.

Lemma filter_insert (P : stored_event → bool) x l : StronglySorted below l →
  List.filter P (insert_by seq_leb x l) = if P x then insert_by seq_leb x (List.filter P l) else List.filter P l.
Proof.
  induction 1 as [|y l Hl IH Hy]; cbn; [by destruct (P x)|]. unfold seq_leb at 1.
  destruct (Z.leb_spec (seq_of x) (seq_of y)) as [Hxy|Hxy].
  - cbn. destruct (P x); [|done]. rewrite insert_least; [done|].
    assert (Forall (below x) (y :: l)) as H.
    { constructor; [done|]. eapply Forall_impl; [exact Hy|]. unfold below. lia. }
    exact (Forall_filterb _ P _ H).
  - cbn. rewrite IH. destruct (P x), (P y); try done. cbn. unfold seq_leb at 2.
    by rewrite (proj2 (Z.leb_gt _ _) Hxy).
Qed.
Lemma filter_sorted (P : stored_event → bool) l : List.filter P (sorted_by seq_leb l) = sorted_by seq_leb (List.filter P l).
Proof.
  induction l as [|x l IH]; [done|]. cbn [sorted_by foldr]. fold (sorted_by seq_leb l).
  rewrite filter_insert by apply sorted_below. rewrite IH. cbn. by destruct (P x).
Qed.

(** Asking for the later events is asking for all and leaving out the earlier ones. *)
Lemma events_after_filter job_id n l : 0 ≤ n →
  events_after job_id n l = List.filter (λ e, n <? seq_of e) (events_after job_id 0 l).
Proof.
  intros Hn. unfold events_after. rewrite filter_sorted. f_equal.
  induction l as [|e l IH]; cbn; [done|]. rewrite IH. case_bool_decide; cbn; [|done].
  destruct (Z.ltb_spec 0 (seq_of e)); cbn; [done|]. by rewrite (proj2 (Z.ltb_ge _ _)) by lia.
Qed.
Lemma events_after_positive job_id l : Forall (λ e, 0 < seq_of e) (events_after job_id 0 l).
Proof.
  unfold events_after. rewrite sorted_by_perm. apply Forall_forall. intros e [[_ H]%andb_true_iff _]%elem_of_filterb. by apply Z.ltb_lt.
Qed.

Lemma keep_later n l : Forall (λ e, n < seq_of e) l → List.filter (λ e, n <? seq_of e) l = l.
Proof. induction 1 as [|e l He Hl IH]; cbn; [done|]. by rewrite (proj2 (Z.ltb_lt _ _) He), IH. Qed.
Lemma drop_earlier n l : Forall (λ e, seq_of e ≤ n) l → List.filter (λ e, n <? seq_of e) l = [].
Proof. induction 1 as [|e l He Hl IH]; cbn; [done|]. by rewrite (proj2 (Z.ltb_ge _ _) He). Qed.

Definition last_seq (l : list stored_event) : Z := match last l with Some e => seq_of e | None => 0 end.

(** In a log, the last number of a prefix separates it from the rest. *)
Lemma last_seq_separates sent new :
  StronglySorted below (sent ++ new) → NoDup (seq_of <$> sent ++ new) → Forall (λ e, 0 < seq_of e) (sent ++ new) →
  0 ≤ last_seq sent ∧ Forall (λ e, seq_of e ≤ last_seq sent) sent ∧ Forall (λ e, last_seq sent < seq_of e) new.
Proof.
  intros Hs Hnd Hpos. unfold last_seq. destruct sent as [|e sent _] using rev_ind; [by cbn in *|].
  rewrite last_snoc. rewrite <-(assoc_L (++)) in *. rewrite Forall_forall in Hpos.
  split; [|split].
  - assert (0 < seq_of e); [apply Hpos|lia]. apply elem_of_app. right. left.
  - apply Forall_app. split; [|by constructor]. apply Forall_forall. intros x Hx.
    refine (StronglySorted_app_1_elem_of below sent ([e] ++ new) x e Hs Hx _). left.
  - apply StronglySorted_app in Hs as (_ & _ & Hs). cbn in Hs. apply StronglySorted_inv in Hs as [_ Hs].
    rewrite fmap_app in Hnd. apply NoDup_app in Hnd as (_ & _ & Hnd). cbn in Hnd. apply NoDup_cons in Hnd as [Hnd _].
    apply Forall_forall. intros x Hx. rewrite Forall_forall in Hs. pose proof (Hs x Hx) as Hle. unfold below in Hle.
    enough (seq_of e ≠ seq_of x) by lia. intros Heq. apply Hnd. rewrite Heq. by apply list_elem_of_fmap_2.
Qed.

(** What remains to be sent after [sent] *)
Lemma events_after_sent job_id sent new l :
  NoDup (seq_of <$> events_after job_id 0 l) → events_after job_id 0 l = sent ++ new →
  events_after job_id (last_seq sent) l = new.
Proof.
  intros Hnd Hl. pose proof (events_after_positive job_id l) as Hpos. pose proof (sorted_below (List.filter (λ e,
    bool_decide (JobStore.JobStore.e_job_id (se_row e) = job_id) && (0 <? seq_of e)) l)) as Hs.
  fold (events_after job_id 0 l) in Hs. rewrite Hl in Hnd, Hpos, Hs.
  destruct (last_seq_separates _ _ Hs Hnd Hpos) as (H0 & H1 & H2).
  by rewrite events_after_filter, Hl, List.filter_app, drop_earlier, keep_later.
Qed.
End sorting_events.

(** ** The stream *)

Section delivery.
Context (json_dumps : pyval → outcome exn string) (job_id : uuid).
Let frame_of (e : stored_event) (f : string) : Prop := event_frame json_dumps e = Ok f.
Definition log_of (p : poll) : list stored_event := events_after job_id 0 (pl_events p).

(** The polls that are made: up to the first that ends the loop *)
Fixpoint polled (polls : list poll) : list poll :=
  match polls with
  | [] => []
  | p :: rest => if last_poll p then [p] else p :: polled rest
  end.

(** Each poll sees what the one before saw, and perhaps more. *)
Fixpoint growing (before : list stored_event) (polls : list poll) : Prop :=
  match polls with
  | [] => True
  | p :: rest => before `prefix_of` log_of p ∧ growing (log_of p) rest
  end.

Lemma send_all sent new :
  Forall (λ e, ∃ f, frame_of e f) new →
  ∃ frames, send json_dumps (last_seq sent) new = (frames, last_seq (sent ++ new), None) ∧ Forall2 frame_of new frames.
Proof.
  intros H. revert sent. induction H as [|e new [f Hf] Hnew IH]; intros sent; [by eexists []; rewrite app_nil_r|].
  cbn. unfold frame_of in Hf. rewrite Hf. destruct (IH (sent ++ [e])) as (frames & E & HF).
  unfold last_seq at 1 in E. rewrite last_snoc in E. rewrite E, <-(assoc_L (++)). exists (f :: frames). split; [done|]. by constructor.
Qed.

Lemma stream_from sent polls :
  growing sent polls → Forall (λ p, NoDup (seq_of <$> log_of p)) polls →
  Forall (λ p, Forall (λ e, ∃ f, frame_of e f) (log_of p)) polls →
  ∃ frames new,
    event_stream json_dumps job_id (last_seq sent) polls = (frames, if existsb last_poll polls then Closed else Polling)
    ∧ Forall2 frame_of new frames
    ∧ sent ++ new = match last (polled polls) with Some p => log_of p | None => sent end.
Proof.
  revert sent. induction polls as [|p polls IH]; intros sent Hg Hn Hf; [exists [], []; by rewrite app_nil_r|].
  destruct Hg as [[new Hnew] Hg]. apply Forall_cons in Hn as [Hn1 Hn]. apply Forall_cons in Hf as [Hf1 Hf].
  cbn [event_stream]. rewrite (events_after_sent job_id sent new) by done.
  rewrite Hnew in Hf1. apply Forall_app in Hf1 as [_ Hf1].
  destruct (send_all sent new Hf1) as (frames & -> & HF). cbn [existsb polled].
  destruct (last_poll p) eqn:Hlast; cbn [orb]; [by exists frames, new|].
  rewrite <-Hnew. destruct (IH (log_of p) Hg Hn Hf) as (more & rest & -> & HF' & Hrest).
  exists (frames ++ more), (new ++ rest). split; [done|]. split; [by apply Forall2_app|].
  rewrite (assoc_L (++)), <-Hnew, Hrest. rewrite last_cons. by destruct (last (polled polls)).
Qed.
End delivery.

(** C9. The event stream delivers every event of the job once and in order of its
    sequence number, whatever is committed between the polls: if each poll sees the
    job's log grow and every event can be written as JSON, the frames sent are those of
    the log as the last poll saw it, and the stream closes at the first poll that finds
    the job gone or finished or the client away. *)
Theorem stream_delivers_in_order json_dumps job_id polls :
  growing job_id [] polls →
  Forall (λ p, NoDup (seq_of <$> log_of job_id p)) polls →
  Forall (λ p, Forall (λ e, ∃ f, event_frame json_dumps e = Ok f) (log_of job_id p)) polls →
  ∃ frames,
    event_stream json_dumps job_id 0 polls = (frames, if existsb last_poll polls then Closed else Polling)
    ∧ Forall2 (λ e f, event_frame json_dumps e = Ok f)
        (match last (polled polls) with Some p => log_of job_id p | None => [] end) frames.
Proof.
  intros Hg Hn Hf. destruct (stream_from json_dumps job_id [] polls Hg Hn Hf) as (frames & new & E & HF & Hnew).
  exists frames. split; [exact E|]. rewrite <-Hnew. exact HF.
Qed.

(** ** At concrete inputs *)

Lemma accepted_source_dispatches p r actor u :
  create_request p = Ok r → ∃ payload, to_payload (with_job_id u (with_created_by actor (to_workflow_request r))) = Ok payload.
Proof.
  unfold create_request, validate_source. destruct (field_limits p); [|done].
  destruct (str_truthy (stripped (cc_source_url p))) eqn:Hu, (str_truthy (stripped (cc_source_content p))) eqn:Hc; cbn [negb andb]; try done.
  - destruct (has_control _); [done|]. intros [= <-]. unfold to_payload, or_same. cbn. rewrite Hu. cbn. rewrite Hu. by eexists.
  - intros [= <-]. unfold to_payload, or_same. cbn. rewrite Hc. cbn. rewrite Hc. rewrite andb_false_r. by eexists.
Qed.

Definition sample_caller : Security.TokenPrincipalResponse := Security.mk_principal "u-1" (Some "ada") "jwt" [].
Definition sample_request : CompilationRequest :=
  mk_request (Some "https://api.test/openapi.json") None None None (Some "ada") (Some "pets") None [("tenant", VStr "acme")] None.
Definition sample_row (status : CompilationStatus) (options : dict pyval) : JobStore.JobStore.job_row :=
  JobStore.JobStore.mk_job_row (Some "https://api.test/openapi.json") None (Some "openapi") (status_value status) (Some "register") None
    (Some options) (Some "ada") (Some "pets") (Some "pets") (Some "acme") None.
Definition sample_version (id : uuid) (n : Z) (active : bool) : Registry.ServiceVersion :=
  Registry.mk_version id "pets" n active [] None "0.1.0" None None None None None None (Some "acme") None.
Definition sample_event (n : Z) (t : CompilationEventType) (stage : option CompilationStage) (detail : option (dict pyval)) : stored_event :=
  mk_stored_event (Z.to_N n) (JobStore.JobStore.mk_event_row 7%N n (stage_value <$> stage) (event_type_value t) None detail None) "2025-01-01T00:00:00Z".
Definition sample_log : list stored_event :=
  [sample_event 1 JOB_CREATED None None; sample_event 2 JOB_STARTED None None;
   sample_event 3 STAGE_SUCCEEDED (Some REGISTER) (Some [("version_number", VInt 5)])].
(** Versions 3, 4 and 5 of a service, the last active, and the job that compiled it *)
Definition sample_rows (options : dict pyval) : rows :=
  mk_rows (Registry.mk_tables [sample_version 1%N 3 false; sample_version 2%N 5 true; sample_version 3%N 4 false] [])
    [(7%N, mk_stored (sample_row SUCCEEDED options) 0 0)] [].
Definition sample_api (options : dict pyval) (faults : list (option exn)) : api :=
  mk_api (sample_rows options) (sample_rows options) sample_log [] [9%N] 0 faults.


Lemma rollback_targets_previous_witness :
  ∃ job s', rollback_compilation InMemoryCompilationDispatcher sample_caller 7%N (sample_api [] []) = (Ok job, s')
    ∧ ∃ j service_id active target request, find_job 7%N (r_jobs (ap_working (sample_api [] []))) = Some j
      ∧ steps_back (sample_api [] []) service_id (JobStore.JobStore.j_tenant (j_row j)) (JobStore.JobStore.j_environment (j_row j)) active target
      ∧ ap_queue s' = [request].
Proof.
  destruct (rollback_compilation InMemoryCompilationDispatcher sample_caller 7%N (sample_api [] [])) as [[job|e] s'] eqn:E;
    [|vm_compute in E; discriminate].
  exists job, s'. split; [reflexivity|].
  assert (∀ j, find_job 7%N (r_jobs (ap_working (sample_api [] []))) = Some j → options_wf (JobStore.JobStore.j_options (j_row j))) as Hwf.
  { intros j [= <-]. apply NoDup_nil_2. }
  destruct (rollback_targets_previous InMemoryCompilationDispatcher sample_caller 7%N (sample_api [] []) job s' eq_refl Hwf E)
    as (j & sid & a & t & r & Hj & _ & _ & Hb & Hq & _).
  exists j, sid, a, t, r. split; [exact Hj|]. split; [exact Hb|exact Hq].
Defined.
Example rollback_goes_to_version_four :
  (λ r, rm_target_version <$> compilation_rollback_request (Some (rq_options r)))
    <$> ap_queue (rollback_compilation InMemoryCompilationDispatcher sample_caller 7%N (sample_api [] [])).2 = [Some 4].
Proof. vm_compute. reflexivity. Qed.

Definition deployed_options : dict pyval := store_compilation_checkpoint None [] None None (stage_value GENERATE).
Lemma accepted_retry_resumes_witness :
  ∃ job s', retry_compilation InMemoryCompilationDispatcher sample_caller 7%N (Some "deploy") (sample_api deployed_options []) = (Ok job, s')
    ∧ ∃ request t, ap_queue s' = [request] ∧ "deploy" = stage_value t.
Proof.
  destruct (retry_compilation InMemoryCompilationDispatcher sample_caller 7%N (Some "deploy") (sample_api deployed_options [])) as [[job|e] s'] eqn:E;
    [|vm_compute in E; discriminate].
  exists job, s'. split; [reflexivity|].
  assert (∀ j, find_job 7%N (r_jobs (ap_working (sample_api deployed_options []))) = Some j → options_wf (JobStore.JobStore.j_options (j_row j))) as Hwf.
  { intros j [= <-]. apply NoDup_singleton. }
  destruct (accepted_retry_resumes InMemoryCompilationDispatcher sample_caller 7%N "deploy" (sample_api deployed_options []) job s'
      (mk_context 7%N sample_request [] None None []) tt eq_refl Hwf E) as (r & t & cx' & Hq & Ht & _).
  exists r, t. split; [exact Hq|exact Ht].
Defined.

Definition sample_dumps (v : pyval) : outcome exn string := Ok (match v with VDict d => String.concat "," (dict_keys d) | _ => "" end).
Definition sample_polls : list poll :=
  [mk_poll (take 2 sample_log) (Some "running") false; mk_poll sample_log (Some "running") false;
   mk_poll (sample_log ++ [sample_event 4 JOB_SUCCEEDED None None]) (Some "succeeded") false].
Lemma stream_delivers_in_order_witness :
  ∃ frames, event_stream sample_dumps 7%N 0 sample_polls = (frames, Closed) ∧ length frames = 4%nat.
Proof.
  assert (growing 7%N [] sample_polls) as Hg.
  { split; [apply prefix_nil|]. split; [by eexists|]. split; [by eexists|done]. }
  assert (Forall (λ p, NoDup (seq_of <$> log_of 7%N p)) sample_polls) as Hn by (apply (bool_decide_unpack _); vm_compute; exact I).
  assert (Forall (λ p, Forall (λ e, ∃ f, event_frame sample_dumps e = Ok f) (log_of 7%N p)) sample_polls) as Hf
    by (apply Forall_forall; intros p _; apply Forall_forall; intros e _; by eexists).
  destruct (stream_delivers_in_order sample_dumps 7%N sample_polls Hg Hn Hf) as (frames & E & HF).
  exists frames. split; [exact E|]. by apply Forall2_length in HF as <-.
Defined.

(** ** Findings *)

(** The worker marks a job succeeded before it appends [job.succeeded]; a poll between
    the two ends the stream without that event. *)
Example stream_may_miss_the_last_event :
  let polls := [mk_poll sample_log (Some "succeeded") false; mk_poll (sample_log ++ [sample_event 4 JOB_SUCCEEDED None None]) (Some "succeeded") false] in
  (length (event_stream sample_dumps 7%N 0 polls).1, (event_stream sample_dumps 7%N 0 polls).2) = (3%nat, Closed).
Proof. vm_compute. reflexivity. Qed.

(** The last commit fails: the worker has the request, the job and the audit entry are gone. *)
Example dispatched_job_is_deleted :
  let '(o, s') := in_session (submit InMemoryCompilationDispatcher sample_request "compilation.triggered" _job_resource (λ _, []))
                    (sample_api [] [None; None; None; None; Some (runtime_error "connection lost")]) in
  (match o with Raise e => http_status e | Ok _ => None end, rq_job_id <$> ap_queue s', find_job 9%N (r_jobs (ap_committed s'))) = (Some 503, [Some 9%N], None).
Proof. vm_compute. reflexivity. Qed.

(** A source_url of blanks beside a document is kept. *)
Example blank_url_is_kept :
  create_request (mk_create_request (Some "  ") (Some "openapi: 3.1.0") None None None None None [])
  = Ok (mk_create_request (Some "  ") (Some "openapi: 3.1.0") None None None None None []).
Proof. vm_compute. reflexivity. Qed.

(** A client's own options reach the worker's reserved names: this submission is run as a rollback. *)
Example forged_rollback_is_dispatched :
  let forged := store_compilation_rollback_request None 7%N "pets" 1 (Some "globex") None in
  let payload := mk_create_request (Some "https://api.test") None None None None None None forged in
  (λ r, compilation_rollback_request (Some (rq_options r)))
    <$> ap_queue (create_compilation InMemoryCompilationDispatcher sample_caller payload (sample_api [] [])).2
  = [Some (mk_rollback_metadata 7%N "pets" 1 (Some "globex") None)].
Proof. vm_compute. reflexivity. Qed.

(** A retry that names no stage inherits the one the job was itself retried from,
    unchecked: here there is no checkpoint for it. *)
Example retry_inherits_old_stage :
  (λ r, dict_get (rq_options r) "from_stage")
    <$> ap_queue (retry_compilation InMemoryCompilationDispatcher sample_caller 7%N None (sample_api [("from_stage", VStr "deploy")] [])).2
  = [Some (VStr "deploy")].
Proof. vm_compute. reflexivity. Qed.
Example named_stage_is_refused :
  (match (retry_compilation InMemoryCompilationDispatcher sample_caller 7%N (Some "deploy") (sample_api [("from_stage", VStr "deploy")] [])).1 with
   | Raise e => http_status e | Ok _ => None end) = Some 409.
Proof. vm_compute. reflexivity. Qed.
