(* ===== verification/ArtifactRoutes.v ===== *)
(** * The artifact and service routes of the compiler API
      ([apps/compiler_api/routes/artifacts.py], [routes/services.py], [route_publisher.py],
      the catalogue of [repository.py])

    Changing a registered version changes the registry, the audit log and the routes of
    the gateway together.  The registry and the audit log share the session of
    [ApiStore]; the gateway is behind a publisher, whose laws are the class
    [SafePublisher]. *)

From S2P Require Export ApiStore.
From S2P Require Security IRModels RuntimeProtocols Publishers.
#[local] Open Scope Z_scope.

(** ** Publishers of routes *)

Record ArtifactRoutePublisher (W : Type) := mk_route_publisher {
  pub_sync : dict pyval → comp W exn (option (dict pyval));
  pub_delete : dict pyval → comp W exn (option (dict pyval));
  pub_rollback : dict pyval → dict pyval → comp W exn (option (dict pyval));
}.
Arguments mk_route_publisher {W} _ _ _.
Arguments pub_sync {W} _ _ _.
Arguments pub_delete {W} _ _ _.
Arguments pub_rollback {W} _ _ _ _.

Definition NoopArtifactRoutePublisher {W} : ArtifactRoutePublisher W :=
  mk_route_publisher (λ _, ret None) (λ _, ret None) (λ _ _, ret None).

Definition publisher_unconfigured : exn :=
  runtime_error "ACCESS_CONTROL_URL is not configured; artifact route publication is unavailable.".
Definition UnconfiguredArtifactRoutePublisher {W} : ArtifactRoutePublisher W :=
  mk_route_publisher (λ _, raise publisher_unconfigured) (λ _, raise publisher_unconfigured) (λ _ _, raise publisher_unconfigured).

Section access_control.
Context {W : Type}.
(** [client.post] on the publisher's own client or on one made for the call, the
    closing of the latter, and [build_service_jwt()] *)
Context (post : string → dict pyval → dict string → comp W exn RuntimeProtocols.response) (close : comp W exn unit) (build_service_jwt : comp W exn string).
Context (auth_token : option string).

Definition delete_path : string := "/api/v1/gateway-binding/service-routes/delete".

(** [_post]: without [previous_routes] when there are none to send *)
Definition post_route (path : string) (route_config : dict pyval) (previous_routes : option (dict pyval)) : comp W exn (dict pyval) :=
  headers <- Publishers._headers build_service_jwt auth_token ;;
  r <- post path (("route_config", VDict route_config) :: match previous_routes with Some p => [("previous_routes", VDict p)] | None => [] end) headers ;;
  Sources.raise_for_status r ;;;
  match RuntimeProtocols.rsp_json r with
  | None => raise (runtime_error "Access-control route publisher returned a non-JSON response.")
  | Some (VDict payload) => ret payload
  | Some _ => raise (runtime_error "Access-control route publisher returned a non-object response.")
  end.
Definition _post (path : string) (route_config : dict pyval) (previous_routes : option (dict pyval)) : comp W exn (option (dict pyval)) :=
  o <- attempt (post_route path route_config previous_routes) ;;
  close ;;;
  match o with Ok payload => ret (Some payload) | Raise e => raise e end.

Definition AccessControlArtifactRoutePublisher : ArtifactRoutePublisher W :=
  mk_route_publisher (λ rc, _post Publishers.sync_path rc None) (λ rc, _post delete_path rc None)
    (λ rc previous, _post Publishers.rollback_path rc (Some previous)).
End access_control.

(** [_resolve_default_route_publisher] on [ACCESS_CONTROL_URL] *)
Definition _resolve_default_route_publisher {W} (access_control : string → ArtifactRoutePublisher W) (access_control_url : option string)
    : ArtifactRoutePublisher W :=
  let base_url := strip (default "" access_control_url) in
  if str_truthy base_url then access_control base_url else UnconfiguredArtifactRoutePublisher.
(** [get_route_publisher]: the state's, else the default *)
Definition get_route_publisher {W} (access_control : string → ArtifactRoutePublisher W) (access_control_url : option string)
    (state : option (ArtifactRoutePublisher W)) : ArtifactRoutePublisher W :=
  default (_resolve_default_route_publisher access_control access_control_url) state.

(** ** The session and what is outside it *)

Record site (W : Type) := mk_site { si_api : api; si_world : W }.
Arguments mk_site {W} _ _.
Arguments si_api {W} _.
Arguments si_world {W} _.

Definition store {W A} (m : M A) : comp (site W) exn A := λ s, let '(o, a) := m (si_api s) in (o, mk_site a (si_world s)).
Definition outside {W A} (m : comp W exn A) : comp (site W) exn A := λ s, let '(o, w) := m (si_world s) in (o, mk_site (si_api s) w).
Definition in_registry {W A} (m : comp Registry.session exn A) : comp (site W) exn A := store (ApiStore.in_registry m).
Definition closing {W A} (m : comp (site W) exn A) : comp (site W) exn A := λ s,
  let '(o, s') := m s in (o, mk_site (discard (si_api s')) (si_world s')).
Definition permitted {W} (caller : Security.TokenPrincipalResponse) (tenant environment : option string) : comp (site W) exn unit :=
  match Security.require_scope_access caller tenant environment with Ok _ => ret tt | Raise e => raise e end.

(** ** Helpers *)

Definition named (service_id : string) (version_number : Z) : string := service_id +:+ ":" +:+ str_of_Z version_number.
Definition _not_found (service_id : string) (version_number : Z) : exn :=
  http_error 404 ("Service version " +:+ named service_id version_number +:+ " was not found.").

Definition _version_only_route_config (route_config : option (dict pyval)) : option (dict pyval) :=
  match route_config with
  | Some rc => match get_or_none rc "version_route" with VDict _ => Some (dict_set rc "default_route" VNone) | _ => None end
  | None => None
  end.

Definition _caller_actor : Security.TokenPrincipalResponse → string := Security.actor.

Definition _previous_routes (payload : option (dict pyval)) : dict pyval :=
  match payload with
  | Some p => match get_or_none p "previous_routes" with VDict d => List.filter (λ kv, is_dict kv.2) d | _ => [] end
  | None => []
  end.

Definition route_config_of (v : Registry.ArtifactVersionResponse) : option (dict pyval) := Registry.vr_route_config (Registry.rs_version v).
Definition version_detail (service_id : string) (version_number : Z) : dict pyval :=
  [("service_id", VStr service_id); ("version_number", VInt version_number)].

(** The audit entry of a change and the commit of both *)
Definition audit_of (caller : Security.TokenPrincipalResponse) (action service_id : string) (version_number : Z) : audit_entry :=
  mk_audit (_caller_actor caller) action (Some (named service_id version_number)) (Some (version_detail service_id version_number)).
Definition audit_and_commit {W} (caller : Security.TokenPrincipalResponse) (action service_id : string) (version_number : Z) : comp (site W) exn unit :=
  store (append_entry (_caller_actor caller) action (Some (named service_id version_number)) (Some (version_detail service_id version_number)) false ;;;
         commit).
(** [except Exception: await session.rollback(); raise] *)
Definition or_rolled_back {W A} (m : comp (site W) exn A) : comp (site W) exn A :=
  catch m (λ e, store rollback ;;; raise e).

Section routes.
Context {W : Type} (normalize_ir_json : dict pyval → outcome exn (dict pyval)) (route_publisher : ArtifactRoutePublisher W).
Abbreviation R := (comp (site W) exn).

Definition create_artifact_version (caller : Security.TokenPrincipalResponse) (payload : Registry.ArtifactVersionCreate)
    : R Registry.ArtifactVersionResponse :=
  let service_id := Registry.vc_service_id payload in
  let version_number := Registry.vc_version_number payload in
  permitted caller (Registry.vc_tenant payload) (Registry.vc_environment payload) ;;;
  created <- catch (in_registry (Registry.create_version normalize_ir_json payload false)) (λ e,
    if exn_is "IntegrityError" e
    then store rollback ;;; raise (http_error 409 ("Service version " +:+ named service_id version_number +:+ " already exists."))
    else raise e) ;;
  or_rolled_back (audit_and_commit caller "artifact.created" service_id version_number) ;;;
  ret created.

Definition list_artifact_versions (caller : Security.TokenPrincipalResponse) (service_id : string) (tenant environment : option string)
    : R (list Registry.ArtifactVersionResponse) :=
  permitted caller tenant environment ;;;
  in_registry (Registry.list_versions service_id tenant environment).

Definition or_not_found {A} (service_id : string) (version_number : Z) (o : option A) : R A := from_option_or (_not_found service_id version_number) o.

Definition get_artifact_version (caller : Security.TokenPrincipalResponse) (service_id : string) (version_number : Z) (tenant environment : option string)
    : R Registry.ArtifactVersionResponse :=
  permitted caller tenant environment ;;;
  version <- in_registry (Registry.get_version service_id version_number tenant environment) ;;
  or_not_found service_id version_number version.

Definition update_artifact_version (caller : Security.TokenPrincipalResponse) (service_id : string) (version_number : Z)
    (payload : Registry.ArtifactVersionUpdate) (tenant environment : option string) : R Registry.ArtifactVersionResponse :=
  permitted caller tenant environment ;;;
  updated <- in_registry (Registry.update_version normalize_ir_json service_id version_number payload tenant environment false) ;;
  version <- or_not_found service_id version_number updated ;;
  or_rolled_back (audit_and_commit caller "artifact.updated" service_id version_number) ;;;
  ret version.

Definition sync_failed (what service_id : string) (version_number : Z) (e : exn) : exn :=
  http_error 502 ("Route synchronization failed after " +:+ what +:+ " " +:+ named service_id version_number +:+ ": " +:+ exn_str e).
Definition route_rollback_failed (what service_id : string) (version_number : Z) (e : exn) : exn :=
  http_error 502 ("Route rollback failed after " +:+ what +:+ " " +:+ named service_id version_number +:+ ": " +:+ exn_str e).

(** The routes of a deleted version: what is undone with, should the rest fail *)
Definition sync_deletion (deleted : Registry.ArtifactVersionResponse) (replacement : option Registry.ArtifactVersionResponse)
    : comp W exn (option (dict pyval) * dict pyval) :=
  let version_only_route := _version_only_route_config (route_config_of deleted) in
  let deleting rc :=
    r <- pub_delete route_publisher rc ;;
    ret (_previous_routes r) in
  if Registry.vr_is_active (Registry.rs_version deleted) then
    match replacement ≫= route_config_of, route_config_of deleted with
    | Some replacing, _ =>
        first <- match version_only_route with Some rc => deleting rc | None => ret [] end ;;
        r <- pub_sync route_publisher replacing ;;
        ret (Some replacing, dict_update first (_previous_routes r))
    | None, Some rc => previous <- deleting rc ;; ret (Some rc, previous)
    | None, None => ret (None, [])
    end
  else
    match version_only_route with
    | Some rc => previous <- deleting rc ;; ret (Some rc, previous)
    | None => ret (None, [])
    end.

(** Undoing the routes after the database failed *)
Definition compensated {A} (what service_id : string) (version_number : Z) (undo : comp W exn unit) (e : exn) : R A :=
  store rollback ;;;
  catch (outside undo) (λ e', raise (route_rollback_failed what service_id version_number e')) ;;;
  raise (sync_failed what service_id version_number e).

Definition delete_artifact_version (caller : Security.TokenPrincipalResponse) (service_id : string) (version_number : Z)
    (tenant environment : option string) : R unit :=
  permitted caller tenant environment ;;;
  before <- in_registry (Registry.get_version service_id version_number tenant environment) ;;
  deleted_version <- or_not_found service_id version_number before ;;
  deleted <- in_registry (Registry.delete_version service_id version_number tenant environment false) ;;
  (if deleted : bool then ret tt else raise (_not_found service_id version_number)) ;;;
  replacement <- (if Registry.vr_is_active (Registry.rs_version deleted_version)
                  then in_registry (Registry.get_active_version service_id tenant environment) else ret None) ;;
  undo <- catch (outside (sync_deletion deleted_version replacement))
            (λ e, store rollback ;;; raise (sync_failed "deleting" service_id version_number e)) ;;
  catch (audit_and_commit caller "artifact.deleted" service_id version_number)
    (compensated "deleting" service_id version_number
       (match undo.1 with Some rc => pub_rollback route_publisher rc undo.2 ;;; ret tt | None => ret tt end)).

Definition activate_artifact_version (caller : Security.TokenPrincipalResponse) (service_id : string) (version_number : Z)
    (tenant environment : option string) : R Registry.ArtifactVersionResponse :=
  permitted caller tenant environment ;;;
  activated <- in_registry (Registry.activate_version service_id version_number tenant environment false) ;;
  version <- or_not_found service_id version_number activated ;;
  route_sync_result <- catch (match route_config_of version with
                              | Some rc => outside (pub_sync route_publisher rc)
                              | None => ret None
                              end)
                         (λ e, store rollback ;;; raise (sync_failed "activating" service_id version_number e)) ;;
  catch (audit_and_commit caller "artifact.activated" service_id version_number)
    (compensated "activating" service_id version_number
       (match route_config_of version with
        | Some rc => pub_rollback route_publisher rc (_previous_routes route_sync_result) ;;; ret tt
        | None => ret tt
        end)) ;;;
  ret version.
End routes.

(** ** Differences between versions *)

Record ArtifactDiffChange := mk_diff_change { dc_field_name : string; dc_old_value : pyval; dc_new_value : pyval; dc_param_name : option string }.
Record ArtifactDiffOperation := mk_diff_operation {
  do_operation_id : string;
  do_operation_name : string;
  do_changes : list ArtifactDiffChange;
  do_added_params : list string;
  do_removed_params : list string;
}.
Record ArtifactDiffResponse := mk_diff_response {
  dr_service_id : string;
  dr_from_version : Z;
  dr_to_version : Z;
  dr_summary : string;
  dr_is_empty : bool;
  dr_added_operations : list string;
  dr_removed_operations : list string;
  dr_changed_operations : list ArtifactDiffOperation;
}.

Definition _to_diff_change (c : IRDiff.change) : ArtifactDiffChange :=
  match c with
  | IRDiff.ParamChange param_name field_name old_value new_value => mk_diff_change field_name old_value new_value (Some param_name)
  | IRDiff.FieldChange field_name old_value new_value => mk_diff_change field_name old_value new_value None
  end.

(** [MalformedArtifactDiffError], [MalformedServiceVersionError] *)
Definition malformed_diff (service_id : string) (version_number : Z) : exn :=
  mk_exn "MalformedArtifactDiffError" ("Stored artifact version " +:+ named service_id version_number +:+ " is malformed and cannot be diffed.") [].
Definition malformed_version (service_id : string) (version_number : Z) : exn :=
  mk_exn "MalformedServiceVersionError" ("Active service record for " +:+ service_id +:+ " v" +:+ str_of_Z version_number +:+ " is malformed and cannot be served.") [].

Definition diff_response (service_id : string) (from_version to_version : Z) (diff : IRDiff.IRDiff) : ArtifactDiffResponse :=
  mk_diff_response service_id from_version to_version (IRDiff.summary diff) (IRDiff.is_empty diff)
    (IRDiff.df_added_operations diff) (IRDiff.df_removed_operations diff)
    ((λ o, mk_diff_operation (IRDiff.od_operation_id o) (IRDiff.od_operation_name o) (_to_diff_change <$> IRDiff.od_changes o)
             (IRDiff.od_added_params o) (IRDiff.od_removed_params o)) <$> IRDiff.df_changed_operations diff).

Record ServiceSummaryResponse := mk_summary {
  ss_service_id : string;
  ss_active_version : Z;
  ss_version_count : Z;
  ss_service_name : string;
  ss_service_description : option string;
  ss_tool_count : Z;
  ss_protocol : option string;
  ss_tenant : option string;
  ss_environment : option string;
  ss_deployment_revision : option string;
  ss_created_at : Z;
}.
Record DashboardSummaryResponse := mk_dashboard {
  ds_total_services : Z;
  ds_total_tools : Z;
  ds_protocol_distribution : dict Z;
  ds_recent_compilations : list CompilationJobResponse;
  ds_services_by_status : dict Z;
}.

Section catalogue.
(** [ServiceIR.model_validate] and the column [created_at] of the versions *)
Context (model_validate : dict pyval → outcome exn IRModels.ServiceIR) (created_at : Registry.ServiceVersion → Z).

(** A stored description, or the error raised for one that does not validate *)
Definition validated (malformed : exn) (ir_json : dict pyval) : outcome exn IRModels.ServiceIR :=
  match model_validate ir_json with
  | Ok ir => Ok ir
  | Raise e => Raise (if exn_is "ValidationError" e then malformed else e)
  end.

Definition diff_versions (service_id : string) (from_version to_version : Z) (tenant environment : option string)
    : comp Registry.session exn (option ArtifactDiffResponse) :=
  from_record <- Registry.get_version_record service_id from_version tenant environment ;;
  to_record <- Registry.get_version_record service_id to_version tenant environment ;;
  match from_record, to_record with
  | Some f, Some t =>
      match
        (let! from_ir := validated (malformed_diff service_id from_version) (Registry.vr_ir_json f) in
         let! to_ir := validated (malformed_diff service_id to_version) (Registry.vr_ir_json t) in
         Ok (diff_response service_id from_version to_version (IRDiff.compute_diff from_ir to_ir)))
      with
      | Ok r => ret (Some r)
      | Raise e => raise e
      end
  | _, _ => ret None
  end.

(** The versions counted together: [_service_stats_subquery] and its join *)
Definition same_scope (a b : Registry.ServiceVersion) : bool :=
  Registry.in_scope (Registry.vr_service_id a) (Registry.vr_tenant a) (Registry.vr_environment a) b.
Definition stats_of (l : list Registry.ServiceVersion) (r : Registry.ServiceVersion) : Z * Z :=
  let group := List.filter (same_scope r) l in
  (Z.of_nat (length group), foldr (λ x m, Z.max (created_at x) m) (created_at r) group).

Definition enabled_tools (ir : IRModels.ServiceIR) : Z := Z.of_nat (length (List.filter IRModels.op_enabled (IRModels.ir_operations ir))).

Definition _to_service_summary (l : list Registry.ServiceVersion) (version : Registry.ServiceVersion) : outcome exn ServiceSummaryResponse :=
  let '(version_count, last_compiled_at) := stats_of l version in
  let! service_ir := validated (malformed_version (Registry.vr_service_id version) (Registry.vr_version_number version)) (Registry.vr_ir_json version) in
  Ok (mk_summary (Registry.vr_service_id version) (Registry.vr_version_number version) version_count
        (IRModels.ir_service_name service_ir) (Some (IRModels.ir_service_description service_ir)) (enabled_tools service_ir)
        (if opt_truthy (Registry.vr_protocol version) then Registry.vr_protocol version else Some (IRModels.ir_protocol service_ir))
        (Registry.vr_tenant version) (Registry.vr_environment version) (Registry.vr_deployment_revision version) last_compiled_at).

Definition active_in (tenant environment : option string) (r : Registry.ServiceVersion) : bool :=
  Registry.vr_is_active r && Registry.matches_filter tenant (Registry.vr_tenant r) && Registry.matches_filter environment (Registry.vr_environment r).
Definition by_service_id (a b : Registry.ServiceVersion) : bool := String.leb (Registry.vr_service_id a) (Registry.vr_service_id b).

(** The loop of [list_services]: a malformed version is left out. *)
Fixpoint summaries (all versions : list Registry.ServiceVersion) : outcome exn (list ServiceSummaryResponse) :=
  match versions with
  | [] => Ok []
  | v :: rest =>
      match _to_service_summary all v with
      | Ok s => let! l := summaries all rest in Ok (s :: l)
      | Raise e => if exn_is "MalformedServiceVersionError" e then summaries all rest else Raise e
      end
  end.

Definition answer {A} (o : outcome exn A) : comp Registry.session exn A := match o with Ok a => ret a | Raise e => raise e end.

Definition list_services (tenant environment : option string) : comp Registry.session exn (list ServiceSummaryResponse) :=
  versions <- gets (λ s, Registry.versions (Registry.working s)) ;;
  answer (summaries versions (sorted_by by_service_id (List.filter (active_in tenant environment) versions))).

Definition get_service (service_id : string) (tenant environment : option string) : comp Registry.session exn (option ServiceSummaryResponse) :=
  versions <- gets (λ s, Registry.versions (Registry.working s)) ;;
  match List.filter (λ r, active_in tenant environment r && str_eqb (Registry.vr_service_id r) service_id) versions with
  | [] => ret None
  | [version] => summary <- answer (_to_service_summary versions version) ;; ret (Some summary)
  | _ => raise (Registry.ambiguous_error service_id)
  end.

Definition count_protocol (d : dict Z) (s : ServiceSummaryResponse) : dict Z :=
  let proto := if opt_truthy (ss_protocol s) then default "" (ss_protocol s) else "unknown" in
  dict_set d proto (default 0 (dict_get d proto) + 1).

(** The jobs of the dashboard show less of themselves. *)
Definition recent_job (job : uuid * stored_job) : CompilationJobResponse :=
  let r := sj_row job.2 in
  mk_job_response job.1 None None None (JobStore.JobStore.j_status r) (JobStore.JobStore.j_current_stage r) (JobStore.JobStore.j_error_detail r)
    None None (Some (default "" (JobStore.JobStore.j_service_id r))) None (sj_created_at job.2) (sj_updated_at job.2) None None.
Definition recent_jobs (tenant : option string) (recent_limit : nat) : M (list CompilationJobResponse) :=
  gets (λ s, recent_job <$> take recent_limit
    (sorted_by (λ a b, sj_created_at b.2 <=? sj_created_at a.2)
       (List.filter (λ j, Registry.matches_filter tenant (JobStore.JobStore.j_tenant (sj_row j.2))) (r_jobs (ap_working s))))).

Definition dashboard_summary (tenant environment : option string) (recent_limit : nat) : M DashboardSummaryResponse :=
  services <- ApiStore.in_registry (list_services tenant environment) ;;
  recent <- recent_jobs tenant recent_limit ;;
  ret (mk_dashboard (Z.of_nat (length services)) (foldr (λ s n, ss_tool_count s + n) 0 services) (foldl count_protocol [] services) recent []).

(** ** Routes of services *)

Section service_routes.
Context {W : Type}.
Abbreviation R := (comp (site W) exn).

Definition diff_artifact_versions (caller : Security.TokenPrincipalResponse) (service_id : string) (from_version to_version : Z)
    (tenant environment : option string) : R ArtifactDiffResponse :=
  permitted caller tenant environment ;;;
  diff <- catch (in_registry (diff_versions service_id from_version to_version tenant environment))
            (λ e, if exn_is "MalformedArtifactDiffError" e then raise (http_error 409 (exn_str e)) else raise e) ;;
  from_option_or (http_error 404 ("Unable to diff versions " +:+ named service_id from_version +:+ " and "
    +:+ named service_id to_version +:+ " with the provided filters.")) diff.

Definition get_dashboard_summary (caller : Security.TokenPrincipalResponse) (tenant environment : option string) (limit : nat) : R DashboardSummaryResponse :=
  permitted caller tenant environment ;;;
  store (dashboard_summary tenant environment limit).

Definition list_services_route (caller : Security.TokenPrincipalResponse) (tenant environment : option string) : R (list ServiceSummaryResponse) :=
  permitted caller tenant environment ;;;
  in_registry (list_services tenant environment).

Definition service_not_found (service_id : string) : exn := http_error 404 ("Service " +:+ service_id +:+ " was not found.").
Definition get_service_route (caller : Security.TokenPrincipalResponse) (service_id : string) (tenant environment : option string) : R ServiceSummaryResponse :=
  permitted caller tenant environment ;;;
  service <- catch (in_registry (get_service service_id tenant environment))
               (λ e, if exn_is "MalformedServiceVersionError" e then raise (http_error 409 (exn_str e)) else raise e) ;;
  from_option_or (service_not_found service_id) service.

Definition delete_service_route (caller : Security.TokenPrincipalResponse) (service_id : string) (tenant environment : option string) : R unit :=
  permitted caller tenant environment ;;;
  deleted <- in_registry (Registry.delete_service service_id tenant environment true) ;;
  if (deleted =? 0)%nat then raise (service_not_found service_id) else ret tt.
End service_routes.
End catalogue.

(** ** What a publisher promises *)

(** A refused publication leaves the routes as they were, and one that was made is
    undone by rolling back to the routes it reported; [same] compares routes, [own]
    says that the routes a configuration replaces are its service's. *)
Class SafePublisher {W} (p : ArtifactRoutePublisher W) (same : W → W → Prop) (own : dict pyval → W → Prop) : Prop := {
  same_equiv : Equivalence same;
  sync_refused : ∀ rc w, wp (pub_sync p rc) (λ _ _, True) (λ _ w', same w' w) w;
  sync_undone : ∀ rc w, own rc w →
    wp (pub_sync p rc)
      (λ r w', wp (pub_rollback p rc (_previous_routes r)) (λ _ w'', same w'' w) (λ _ _, False) w')
      (λ _ _, True) w;
}.

#[export] Instance noop_safe {W} : SafePublisher (W:=W) NoopArtifactRoutePublisher eq (λ _ _, True).
Proof. split; [apply eq_equivalence|done|done]. Qed.

(** ** Before the commit *)

(** A registry operation that is told not to commit *)
Definition uncommitted {A} (m : comp Registry.session exn A) : Prop := ∀ t, preserves (λ s, Registry.committed s = t) m.

Section uncommitted.
Context (t : Registry.tables).
Let kept (s : Registry.session) : Prop := Registry.committed s = t.

Lemma kept_reads {A} (m : comp Registry.session exn A) : Registry.reads m → preserves kept m.
Proof. apply Registry.reads_preserves. Qed.
Lemma kept_flush : preserves kept Registry.flush.
Proof.
  apply preserves_bind; [apply preserves_gets|]. intros []; [apply preserves_ret|].
  apply preserves_bind; [by apply preserves_modify|]. intros []. apply preserves_raise.
Qed.
Lemma kept_uuid4 : preserves kept Registry.uuid4.
Proof. intros s Hs. unfold wp, Registry.uuid4. by destruct (Registry.uuid4s s). Qed.
Lemma kept_working f : preserves (E:=exn) kept (modify (Registry.on_working f)).
Proof. by apply preserves_modify. Qed.
#[local] Hint Resolve kept_flush kept_uuid4 kept_working : preserve.
#[local] Hint Resolve Registry.reads_get_version_record Registry.reads_get_version Registry.reads_list_versions Registry.reads_refreshed
  Registry.reads_normalized Registry.reads_normalized_opt Registry.reads_from_option Registry.reads_gets Registry.reads_ret : reads.

Ltac solve_kept :=
  repeat first
    [ solve [auto with preserve nocore]
    | solve [apply kept_reads; solve [auto with reads nocore]]
    | apply preserves_bind; [|intros]
    | apply preserves_when
    | case_match ].

Lemma kept_create nf payload : preserves kept (Registry.create_version nf payload false).
Proof.
  unfold Registry.create_version, Registry.deactivate_service_versions, Registry.replace_artifacts. cbn [when]. solve_kept.
Qed.
Lemma kept_update nf sid n payload te en : preserves kept (Registry.update_version nf sid n payload te en false).
Proof. unfold Registry.update_version, Registry.assign, Registry.replace_artifacts. cbn [when]. solve_kept. Qed.
Lemma kept_activate sid n te en : preserves kept (Registry.activate_version sid n te en false).
Proof. unfold Registry.activate_version, Registry.deactivate_service_versions, Registry.assign. cbn [when]. solve_kept. Qed.
Lemma kept_delete sid n te en : preserves kept (Registry.delete_version sid n te en false).
Proof. unfold Registry.delete_version, Registry.delete_row, Registry.assign, Registry.select_versions. cbn [when]. solve_kept. Qed.
End uncommitted.

(** ** Changes and their audit *)

Section changes.
Context {W : Type}.
Implicit Types (s : site W) (c : rows).

(** What is committed is still [c]; only the registry of the session differs. *)
Definition pending c s : Prop :=
  let w := ap_working (si_api s) in
  ap_committed (si_api s) = c ∧ Registry.tables_ok (r_registry w) ∧ r_jobs w = r_jobs c ∧ r_audit w = r_audit c.
(** A change is committed, together with its audit entry. *)
Definition audited c (entry : audit_entry) s : Prop :=
  ∃ reg, Registry.tables_ok reg ∧ ap_committed (si_api s) = mk_rows reg (r_jobs c) (r_audit c ++ [entry]).
Definition clean_site s : Prop := ap_working (si_api s) = ap_committed (si_api s).
Definition untouched c s : Prop := ap_committed (si_api s) = c.

Lemma pending_untouched c s : pending c s → untouched c s.
Proof. by intros []. Qed.

Lemma pending_registry {A} c (m : comp Registry.session exn A) :
  Registry.tables_ok (r_registry c) → uncommitted m → preserves Registry.session_ok m → preserves (pending c) (in_registry m : comp (site W) exn A).
Proof.
  intros Hc Hun Hok [a w] (Hcom & Hreg & Hj & Ha). unfold wp, in_registry, store, ApiStore.in_registry. cbn [si_api si_world].
  set (r0 := Registry.mk_session _ _ _).
  assert (Registry.session_ok r0) as H0 by (split; [exact Hreg|]; cbn; cbn in Hcom; by rewrite Hcom).
  specialize (Hok r0 H0). specialize (Hun (Registry.committed r0) r0 eq_refl). unfold wp in Hok, Hun.
  assert (∀ r1, Registry.session_ok r1 → Registry.committed r1 = Registry.committed r0 →
    pending c (mk_site (mk_api (mk_rows (Registry.working r1) (r_jobs (ap_working a)) (r_audit (ap_working a)))
      (mk_rows (Registry.committed r1) (r_jobs (ap_committed a)) (r_audit (ap_committed a)))
      (ap_events a) (ap_queue a) (Registry.uuid4s r1) (ap_now a) (ap_faults a)) w)) as Hgo.
  { intros r1 [Hw1 _] Hc1. unfold pending. cbn in *. split; [rewrite Hc1; cbn; by destruct (ap_committed a)|done]. }
  destruct (m r0) as [[x|e] r1]; apply Hgo; done.
Qed.

Lemma pending_outside {A} c (m : comp W exn A) : preserves (pending c) (outside m).
Proof. intros [a w] H. unfold wp, outside. cbn. destruct (m w) as [[] ?]; exact H. Qed.
Lemma pending_permitted c caller tenant environment : preserves (E:=exn) (pending c) (permitted caller tenant environment).
Proof. unfold permitted. destruct (Security.require_scope_access _ _ _); [apply preserves_ret|apply preserves_raise]. Qed.

Lemma wp_store {A} (m : M A) (Q : A → site W → Prop) (R : exn → site W → Prop) s :
  wp m (λ a x, Q a (mk_site x (si_world s))) (λ e x, R e (mk_site x (si_world s))) (si_api s) → wp (store m) Q R s.
Proof. unfold wp, store. by destruct (m (si_api s)) as [[] ?]. Qed.

(** A step that leaves the change pending *)
Lemma wp_pending {A B} c (m : comp (site W) exn A) (k : A → comp (site W) exn B) (Q : B → site W → Prop) s :
  preserves (pending c) m → pending c s → (∀ a s', pending c s' → wp (k a) Q (λ _ s'', untouched c s'') s') →
  wp (bind m k) Q (λ _ s'', untouched c s'') s.
Proof. intros Hm Hs Hk. apply wp_bind. eapply wp_mono; [by apply Hm|done|]. by intros e s' ?%pending_untouched. Qed.
Lemma pending_from_option {A} c (e : exn) (o : option A) : preserves (pending c) (from_option_or e o : comp (site W) exn A).
Proof. apply preserves_from_option. Qed.

(** Writing the audit entry and committing: both or neither *)
Lemma wp_audit_and_commit c caller action sid n (Q : unit → site W → Prop) (R : exn → site W → Prop) s :
  pending c s →
  (∀ s', si_world s' = si_world s →
     ap_committed (si_api s') = set_audit (λ l, l ++ [audit_of caller action sid n]) (ap_working (si_api s)) →
     audited c (audit_of caller action sid n) s' → Q tt s') →
  (∀ e s', si_world s' = si_world s → untouched c s' → R e s') →
  wp (audit_and_commit caller action sid n) Q R s.
Proof.
  destruct s as [[[reg js au] cm ev q us now fs] w]. intros (Hc & Hreg & Hj & Ha) HQ HR. cbn in Hc, Hreg, Hj, Ha. subst js au.
  apply wp_store. unfold append_entry. cbn [si_api si_world]. apply wp_bind, wp_bind, wp_modify, wp_bind. unfold flush.
  apply wp_fault; [|by intros; apply HR]. intros fs1. apply wp_bind, wp_ret, wp_ret. unfold commit. apply wp_bind.
  apply wp_fault; [|by intros; apply HR]. intros fs2. apply wp_modify, HQ; [done..|].
  by exists reg.
Qed.

(** Undoing keeps what was committed. *)
Lemma untouched_rollback c s : untouched c s → untouched c (mk_site (discard (si_api s)) (si_world s)).
Proof. done. Qed.
Lemma wp_rolled_back {A} c (m : comp (site W) exn A) (Q : A → site W → Prop) s :
  wp m Q (λ _ s', untouched c s') s → wp (or_rolled_back m) Q (λ _ s', untouched c s') s.
Proof. intros H. apply wp_catch. eapply wp_mono; [exact H|done|]. intros e s' Hs. by apply wp_bind, wp_store, wp_modify, wp_raise. Qed.
Lemma wp_compensated {A} c what sid n undo e (Q : A → site W → Prop) s :
  untouched c s → wp (compensated what sid n undo e) Q (λ _ s', untouched c s') s.
Proof.
  intros Hs. apply wp_bind, wp_store, wp_modify, wp_bind, wp_catch. unfold wp at 1, outside. cbn [si_api si_world].
  by destruct (undo (si_world s)) as [[] ?].
Qed.

(** A change as its caller sees it, once the session is closed *)
Definition settled {A} (m : comp (site W) exn A) (entry : audit_entry) s : Prop :=
  let c := ap_committed (si_api s) in
  let '(o, s') := closing m s in
  ap_working (si_api s') = ap_committed (si_api s')
  ∧ match o with Ok _ => audited c entry s' | Raise _ => untouched c s' end.

Lemma settle {A} (m : comp (site W) exn A) entry s :
  wp m (λ _ s', audited (ap_committed (si_api s)) entry s') (λ _ s', untouched (ap_committed (si_api s)) s') s → settled m entry s.
Proof. unfold settled, closing, wp. by destruct (m s) as [[] ?]. Qed.
End changes.

(** C11. Every change that the artifact routes commit is audited, and whatever fails on
    the way, be it the registry, the publisher of routes, the audit log or the commit,
    changes nothing: an answered creation, update, deletion or activation commits sound
    tables and exactly one audit entry that names the caller, the change and the
    version, and a refused one leaves all committed tables as they were. *)
Theorem changes_are_audited {W} nf (p : ArtifactRoutePublisher W) (s : site W) :
  ap_working (si_api s) = ap_committed (si_api s) → Registry.tables_ok (r_registry (ap_committed (si_api s))) →
  (∀ caller payload, settled (create_artifact_version nf caller payload)
     (audit_of caller "artifact.created" (Registry.vc_service_id payload) (Registry.vc_version_number payload)) s)
  ∧ (∀ caller sid n payload te en, settled (update_artifact_version nf caller sid n payload te en) (audit_of caller "artifact.updated" sid n) s)
  ∧ (∀ caller sid n te en, settled (delete_artifact_version p caller sid n te en) (audit_of caller "artifact.deleted" sid n) s)
  ∧ (∀ caller sid n te en, settled (activate_artifact_version p caller sid n te en) (audit_of caller "artifact.activated" sid n) s).
Proof.
  intros Hclean Hok. set (c := ap_committed (si_api s)) in *.
  assert (pending c s) as Hs by (unfold pending; rewrite Hclean; done).
  split_and!; intros; apply settle; fold c.
  - apply (wp_pending c); [apply pending_permitted|exact Hs|]. intros _ s1 H1. apply wp_bind, wp_catch.
    eapply wp_mono; [apply (pending_registry c); [exact Hok|intros t; apply kept_create|apply Registry.create_version_preserves|exact H1]| |].
    + intros v s2 H2. apply wp_bind, wp_rolled_back. eapply wp_audit_and_commit; [exact H2|intros s3 _ _ H3|by intros]. by apply wp_ret.
    + intros e s2 H2%pending_untouched. destruct (exn_is _ e); [|by apply wp_raise]. by apply wp_bind, wp_store, wp_modify, wp_raise.
  - apply (wp_pending c); [apply pending_permitted|exact Hs|]. intros _ s1 H1.
    apply (wp_pending c); [apply pending_registry; [exact Hok|intros t; apply kept_update|apply Registry.update_version_preserves]|exact H1|].
    intros o s2 H2. apply (wp_pending c); [apply pending_from_option|exact H2|]. intros v s3 H3.
    apply wp_bind, wp_rolled_back. eapply wp_audit_and_commit; [exact H3|intros s4 _ _ H4|by intros]. by apply wp_ret.
  - apply (wp_pending c); [apply pending_permitted|exact Hs|]. intros _ s1 H1.
    apply (wp_pending c); [apply pending_registry; [exact Hok|..]|exact H1|].
    { intros t. apply kept_reads, Registry.reads_get_version. }
    { apply Registry.reads_preserves, Registry.reads_get_version. }
    intros o s2 H2. apply (wp_pending c); [apply pending_from_option|exact H2|]. intros v s3 H3.
    apply (wp_pending c); [apply pending_registry; [exact Hok|intros t; apply kept_delete|apply Registry.delete_version_preserves]|exact H3|].
    intros b s4 H4. apply (wp_pending c); [destruct b; [apply preserves_ret|apply preserves_raise]|exact H4|]. intros _ s5 H5.
    apply (wp_pending c); [|exact H5|].
    { destruct (Registry.vr_is_active _); [|apply preserves_ret]. apply pending_registry; [exact Hok|..].
      - intros t'. apply kept_reads, Registry.reads_get_active_version.
      - apply Registry.reads_preserves, Registry.reads_get_active_version. }
    intros r s6 H6. apply wp_bind, wp_catch. eapply wp_mono; [by apply (pending_outside c)| |].
    + intros undo s7 H7. apply wp_catch. eapply wp_audit_and_commit; [exact H7|by intros|]. intros e s8 _ H8. by apply wp_compensated.
    + intros e s7 H7%pending_untouched. by apply wp_bind, wp_store, wp_modify, wp_raise.
  - apply (wp_pending c); [apply pending_permitted|exact Hs|]. intros _ s1 H1.
    apply (wp_pending c); [apply pending_registry; [exact Hok|intros t; apply kept_activate|apply Registry.activate_version_preserves]|exact H1|].
    intros o s2 H2. apply (wp_pending c); [apply pending_from_option|exact H2|]. intros v s3 H3.
    apply wp_bind, wp_catch. eapply wp_mono; [|intros r s4 H4|intros e s4 H4].
    + instantiate (1 := λ _, pending c). instantiate (1 := λ _, pending c).
      destruct (route_config_of v); [by apply (pending_outside c)|by apply wp_ret].
    + apply wp_bind, wp_catch. eapply wp_audit_and_commit; [exact H4|intros s5 _ _ H5; by apply wp_ret|].
      intros e s5 _ H5. by apply wp_compensated.
    + apply pending_untouched in H4. by apply wp_bind, wp_store, wp_modify, wp_raise.
Qed.

(** ** Activation and the gateway *)

Section activation.
Context {W : Type} (p : ArtifactRoutePublisher W) (same : W → W → Prop) (own : dict pyval → W → Prop) `{!SafePublisher p same own}.
Implicit Types (s : site W) (c : rows).

(** Nothing was changed, neither the tables nor, up to [same], the routes. *)
Definition as_before c (w : W) s : Prop := untouched c s ∧ same (si_world s) w.
(** The routes are those of the activated version. *)
Definition published (v : Registry.ArtifactVersionResponse) (w w' : W) : Prop :=
  match route_config_of v with
  | Some rc => ∃ r, pub_sync p rc w = (Ok r, w')
  | None => w' = w
  end.

Let publish (v : Registry.ArtifactVersionResponse) : comp (site W) exn (option (dict pyval)) :=
  match route_config_of v with Some rc => outside (pub_sync p rc) | None => ret None end.
Let unpublish (v : Registry.ArtifactVersionResponse) (r : option (dict pyval)) : comp W exn unit :=
  match route_config_of v with Some rc => pub_rollback p rc (_previous_routes r) ;;; ret tt | None => ret tt end.

(** Publishing in a session with a pending change, and undoing it *)
Lemma publish_undo c v s :
  pending c s → (∀ rc, route_config_of v = Some rc → own rc (si_world s)) →
  wp (publish v)
    (λ r s', pending c s' ∧ si_api s' = si_api s ∧ published v (si_world s) (si_world s')
             ∧ wp (unpublish v r) (λ _ w, same w (si_world s)) (λ _ _, False) (si_world s'))
    (λ _ s', untouched c s' ∧ same (si_world s') (si_world s)) s.
Proof using Type*.
  intros Hs Hown. unfold publish, unpublish, published. destruct (route_config_of v) as [rc|].
  - specialize (Hown rc eq_refl). pose proof (sync_refused (p:=p) rc (si_world s)) as Hr.
    pose proof (sync_undone (p:=p) rc (si_world s) Hown) as Hu.
    unfold wp at 1, outside. unfold wp at 1 in Hr. unfold wp at 1 in Hu. destruct (pub_sync p rc (si_world s)) as [[r|e] w'] eqn:E.
    + split; [exact Hs|]. split; [done|]. split; [by exists r|]. apply wp_bind. eapply wp_mono; [exact Hu| |done]. intros ? w'' Hw. by apply wp_ret.
    + split; [by apply pending_untouched|done].
  - apply wp_ret. split; [done|]. split; [done|]. split; [done|]. apply wp_ret. apply same_equiv.
Qed.

Lemma wp_compensated_same {A} c (w : W) what sid n undo e (Q : A → site W → Prop) s :
  untouched c s → wp undo (λ _ w', same w' w) (λ _ _, False) (si_world s) →
  wp (compensated what sid n undo e) Q (λ _ s', as_before c w s') s.
Proof using Type.
  intros Hs Hu. apply wp_bind, wp_store, wp_modify, wp_bind, wp_catch. unfold wp at 1, outside. cbn [si_api si_world].
  unfold wp in Hu. destruct (undo (si_world s)) as [[] w']; [|done]. by apply wp_raise.
Qed.

(** Activating a version through the API moves the registry and the gateway
    together: when the route answers, the version is committed as active, with one
    audit entry, and the gateway has taken its routes; when it raises, at whatever
    point, the tables are as before and so are the routes, provided that the
    publisher keeps its promises and the routes replaced are the service's own. *)
Theorem activation_transactional caller sid n te en s :
  ap_working (si_api s) = ap_committed (si_api s) → Registry.tables_ok (r_registry (ap_committed (si_api s))) →
  (∀ v t rc, ApiStore.in_registry (Registry.activate_version sid n te en false) (si_api s) = (Ok (Some v), t) →
     route_config_of v = Some rc → own rc (si_world s)) →
  let '(o, s') := closing (activate_artifact_version p caller sid n te en) s in
  match o with
  | Ok v =>
      (∃ t, ApiStore.in_registry (Registry.activate_version sid n te en false) (si_api s) = (Ok (Some v), t)
         ∧ ap_committed (si_api s') = set_audit (λ l, l ++ [audit_of caller "artifact.activated" sid n]) (ap_working t))
      ∧ published v (si_world s) (si_world s')
  | Raise _ => as_before (ap_committed (si_api s)) (si_world s) s'
  end.
Proof using Type*.
  intros Hclean Hok Hown. set (c := ap_committed (si_api s)) in *.
  assert (pending c s) as Hs by (unfold pending; rewrite Hclean; done).
  set (act := Registry.activate_version sid n te en false) in *.
  enough (wp (activate_artifact_version p caller sid n te en)
            (λ v s', (∃ t, ApiStore.in_registry act (si_api s) = (Ok (Some v), t)
                ∧ ap_committed (si_api s') = set_audit (λ l, l ++ [audit_of caller "artifact.activated" sid n]) (ap_working t))
              ∧ published v (si_world s) (si_world s'))
            (λ _ s', as_before c (si_world s) s') s) as H.
  { unfold closing, wp in *. destruct (activate_artifact_version _ _ _ _ _ _ s) as [[] ?]; exact H. }
  assert (∀ s', as_before c (si_world s) s' ↔ untouched c s' ∧ same (si_world s') (si_world s)) as Hbefore by done.
  assert (same (si_world s) (si_world s)) as Hrefl by apply same_equiv.
  unfold activate_artifact_version. apply wp_bind. unfold permitted.
  destruct (Security.require_scope_access caller te en); [apply wp_ret|by apply wp_raise].
  apply wp_bind. fold act.
  pose proof (pending_registry c act Hok (λ t, kept_activate t sid n te en) (Registry.activate_version_preserves sid n te en false) s Hs) as Hact.
  unfold wp at 1 in Hact. unfold wp at 1. unfold in_registry, store in *.
  destruct (ApiStore.in_registry act (si_api s)) as [[[v|]|e] t] eqn:Et.
  2: { apply wp_bind, wp_raise. split; [by apply pending_untouched in Hact|exact Hrefl]. }
  2: { split; [by apply pending_untouched in Hact|exact Hrefl]. }
  apply wp_bind, wp_ret, wp_bind, wp_catch. eapply wp_mono; [apply (publish_undo c v); [exact Hact|]| |].
  - intros rc Hrc. by eapply Hown.
  - intros r s2 (H2 & Hsame & Hpub & Hundo). apply wp_bind, wp_catch. eapply wp_audit_and_commit; [exact H2|intros s3 Hw Hc3 _|intros e s3 Hw H3].
    + apply wp_ret. rewrite Hw. split; [|exact Hpub]. exists t. split; [done|]. by rewrite Hc3, Hsame.
    + apply wp_compensated_same; [exact H3|by rewrite Hw].
  - intros e s2 [H2 Hw]. by apply wp_bind, wp_store, wp_modify, wp_raise.
Qed.
End activation.

(** ** The catalogue *)

#[local] Arguments _to_service_summary : simpl never.

Section catalogue_facts.
Context (model_validate : dict pyval → outcome exn IRModels.ServiceIR) (created_at : Registry.ServiceVersion → Z).
Abbreviation summary_of := (_to_service_summary model_validate created_at).

Definition summary_or_none (all : list Registry.ServiceVersion) (v : Registry.ServiceVersion) : option ServiceSummaryResponse :=
  match summary_of all v with Ok s => Some s | Raise _ => None end.

Lemma summaries_omap all vs l : summaries model_validate created_at all vs = Ok l → l = omap (summary_or_none all) vs.
Proof.
  revert l. induction vs as [|v vs IH]; intros l; cbn; [congruence|]. unfold summary_or_none at 1. destruct (summary_of all v) as [s|e].
  - intros (l' & Hl & [= <-])%obind_ok. f_equal. by apply IH.
  - destruct (exn_is _ e); [apply IH|done].
Qed.

Definition scope_of (s : ServiceSummaryResponse) : string * option string * option string := (ss_service_id s, ss_tenant s, ss_environment s).
Definition row_scope (v : Registry.ServiceVersion) : string * option string * option string :=
  (Registry.vr_service_id v, Registry.vr_tenant v, Registry.vr_environment v).

Lemma same_scope_row v x : same_scope v x = bool_decide (row_scope x = row_scope v).
Proof.
  unfold same_scope, row_scope. apply eq_true_iff_eq. rewrite Registry.in_scope_spec, bool_decide_eq_true. split.
  - by intros (-> & -> & ->).
  - by intros [= -> -> ->].
Qed.

(** What a summary shows of its version *)
Definition shows (all : list Registry.ServiceVersion) (v : Registry.ServiceVersion) (s : ServiceSummaryResponse) : Prop :=
  scope_of s = row_scope v
  ∧ ss_active_version s = Registry.vr_version_number v
  ∧ ss_version_count s = Z.of_nat (length (List.filter (λ x, bool_decide (row_scope x = row_scope v)) all))
  ∧ ∃ ir, model_validate (Registry.vr_ir_json v) = Ok ir ∧ ss_tool_count s = enabled_tools ir.

Lemma summary_shows all v s : summary_of all v = Ok s → shows all v s.
Proof.
  unfold _to_service_summary, shows. cbn. intros (ir & Hir & H)%obind_ok.
  assert (∀ a b : ServiceSummaryResponse, Ok (E:=exn) a = Ok b → a = b) as Hinj by congruence. apply Hinj in H as <-. cbn.
  split; [done|]. split; [done|]. split; [by rewrite (List.filter_ext _ _ (same_scope_row v))|]. exists ir. split; [|done]. unfold validated in Hir. by destruct (model_validate _).
Qed.

Lemma NoDup_omap_key {A B K} (f : A → option B) (ka : A → K) (kb : B → K) (l : list A) :
  (∀ a b, f a = Some b → kb b = ka a) → NoDup (ka <$> l) → NoDup (kb <$> omap f l).
Proof.
  intros Hf. induction l as [|a l IH]; cbn; [constructor|]. intros [Ha Hl]%NoDup_cons. destruct (f a) as [b|] eqn:E; [|by apply IH].
  cbn. constructor; [|by apply IH]. intros (b' & Hb & Hin)%list_elem_of_fmap. apply list_elem_of_omap in Hin as (a' & Ha' & E').
  apply Ha. rewrite <-(Hf _ _ E), Hb, (Hf _ _ E'). by apply list_elem_of_fmap_2.
Qed.

Lemma active_scopes_unique te en l :
  Registry.unique_versions l → NoDup (row_scope <$> sorted_by by_service_id (List.filter (active_in te en) l)).
Proof.
  intros (Hid & Hkey & Hact)%Registry.unique_versions_iff.
  assert (NoDup (List.filter (active_in te en) l)) as Hnd by (apply NoDup_filterb, (NoDup_fmap_1 Registry.vr_id), Hid).
  rewrite sorted_by_perm. rewrite NoDup_fmap_iff by done.
  intros x y [Hx Hxl]%elem_of_filterb [Hy Hyl]%elem_of_filterb [= H1 H2 H3].
  apply andb_true_iff in Hx as [[Hx _]%andb_true_iff _]. apply andb_true_iff in Hy as [[Hy _]%andb_true_iff _].
  apply Hact; [done..|]. unfold Registry.active_key. by rewrite H1, H2, H3.
Qed.

(** C12. The catalogue shows every scope of a service at most once, by its active
    version: each entry is of an active version that the filters admit and that reads
    as a description, with the tools of that description and the number of versions of
    exactly its scope; every such version has an entry, and a version looked up by its
    service alone is the one that is listed. *)
Theorem catalogue_faithful te en s l s' :
  Registry.unique_versions (Registry.versions (Registry.working s)) →
  list_services model_validate created_at te en s = (Ok l, s') →
  let all := Registry.versions (Registry.working s) in
  s' = s
  ∧ NoDup (scope_of <$> l)
  ∧ (∀ e, e ∈ l → ∃ v, v ∈ all ∧ active_in te en v = true ∧ shows all v e)
  ∧ (∀ v ir, v ∈ all → active_in te en v = true → model_validate (Registry.vr_ir_json v) = Ok ir → ∃ e, e ∈ l ∧ shows all v e)
  ∧ (∀ sid e t, get_service model_validate created_at sid te en s = (Ok (Some e), t) → e ∈ l).
Proof.
  intros Hu H all. unfold list_services, bind, gets in H. fold all in H.
  destruct (summaries _ _ _ _) as [l'|e] eqn:El; [|done].
  assert (l' = l ∧ s' = s) as [-> ->] by (by inversion H). clear H. apply summaries_omap in El.
  assert (∀ v, v ∈ sorted_by by_service_id (List.filter (active_in te en) all) ↔ active_in te en v = true ∧ v ∈ all) as Hin.
  { intros v. by rewrite sorted_by_perm, elem_of_filterb. }
  assert (∀ v e, summary_or_none all v = Some e → shows all v e) as Hshows.
  { intros v e. unfold summary_or_none. destruct (summary_of all v) eqn:E; [|done]. intros [= <-]. by apply summary_shows. }
  split; [done|]. split; [|split; [|split]].
  - rewrite El. apply (NoDup_omap_key _ row_scope); [|by apply active_scopes_unique].
    intros v e He%Hshows. by destruct He as [He _].
  - intros e. rewrite El. intros (v & Hv & He)%list_elem_of_omap. apply Hin in Hv as [Hact Hv]. exists v. auto.
  - intros v ir Hv Hact Hir. destruct (summary_of all v) as [e|x] eqn:E.
    + exists e. split; [|by apply summary_shows]. rewrite El. apply list_elem_of_omap. exists v. split; [by apply Hin|].
      unfold summary_or_none. by rewrite E.
    + exfalso. unfold _to_service_summary, validated in E. cbn in E. by rewrite Hir in E.
  - intros sid e t. unfold get_service, bind, gets. fold all.
    unfold ret, raise.
    set (mine := λ r : Registry.ServiceVersion, active_in te en r && str_eqb (Registry.vr_service_id r) sid).
    destruct (List.filter mine all) as [|v []] eqn:Ef; [by intros He; inversion He| |by intros He; inversion He]. unfold answer.
    destruct (summary_of all v) as [e'|] eqn:E; unfold ret, raise; intros He; [|by inversion He].
    assert (e' = e) as <- by (by inversion He).
    assert (v ∈ [v]) as Hv by constructor. rewrite <-Ef, elem_of_filterb in Hv. destruct Hv as [[Hact _]%andb_true_iff Hv].
    rewrite El. apply list_elem_of_omap. exists v. split; [by apply Hin|]. unfold summary_or_none. by rewrite E.
Qed.
End catalogue_facts.

(** ** At concrete inputs *)

Definition demo_tables : Registry.tables := Registry.working Registry.demo_session.
Definition demo_rows : rows := mk_rows demo_tables [] [].
Definition demo_site {W} (w : W) (faults : list (option exn)) : site W := mk_site (mk_api demo_rows demo_rows [] [] [9%N] 0 faults) w.
Definition demo_caller : Security.TokenPrincipalResponse := Security.mk_principal "u-1" (Some "ada") "jwt" [("tenant", VStr "acme")].

Lemma demo_tables_ok : Registry.tables_ok demo_tables.
Proof. exact (proj1 Registry.demo_session_ok). Qed.

Lemma changes_are_audited_witness :
  Registry.tables_ok demo_tables ∧
  settled (activate_artifact_version NoopArtifactRoutePublisher demo_caller "billing" 1 (Some "acme") None)
    (audit_of demo_caller "artifact.activated" "billing" 1) (demo_site tt []).
Proof.
  split; [exact demo_tables_ok|].
  destruct (changes_are_audited Registry.accept_ir NoopArtifactRoutePublisher (demo_site tt []) eq_refl demo_tables_ok) as (_ & _ & _ & H).
  apply H.
Defined.

Definition demo_validate (d : dict pyval) : outcome exn IRModels.ServiceIR := Ok IRModels.demo_ir.
Lemma catalogue_faithful_witness :
  ∃ l, list_services demo_validate (λ v, Registry.vr_version_number v) (Some "acme") None Registry.demo_session = (Ok l, Registry.demo_session)
    ∧ NoDup (scope_of <$> l) ∧ length l = 1%nat.
Proof.
  destruct (list_services demo_validate (λ v, Registry.vr_version_number v) (Some "acme") None Registry.demo_session) as [[l|e] s'] eqn:E;
    [|vm_compute in E; discriminate].
  destruct (catalogue_faithful demo_validate (λ v, Registry.vr_version_number v) (Some "acme") None Registry.demo_session l s'
    (proj1 demo_tables_ok) E) as (-> & Hl & _).
  exists l. split; [reflexivity|]. split; [exact Hl|]. vm_compute in E. injection E as <-. reflexivity.
Defined.

(** ** Findings *)

(** A publisher whose deletions are answered and whose synchronisation fails; its
    world is the list of what it was asked to do. *)
Definition half_publisher : ArtifactRoutePublisher (list string) :=
  mk_route_publisher (λ _, raise (runtime_error "gateway is down")) (λ _, modify (cons "deleted") ;;; ret None) (λ _ _, modify (cons "rolled back") ;;; ret None).
Definition routed_version (id : uuid) (n : Z) (active : bool) : Registry.ServiceVersion :=
  Registry.mk_version id "billing" n active Registry.demo_ir None "0.1.0" None None None None None
    (Some [("version_route", VDict [])]) (Some "acme") None.
Definition routed_site : site (list string) :=
  let r := mk_rows (Registry.mk_tables [routed_version 1%N 1 false; routed_version 2%N 2 true] []) [] [] in
  mk_site (mk_api r r [] [] [] 0 []) [].

(** Deleting an active version removes its route before the replacement is published;
    when that fails the version stays and its route is gone. *)
Example deletion_loses_routes :
  let '(o, s') := closing (delete_artifact_version half_publisher demo_caller "billing" 2 (Some "acme") None) routed_site in
  (match o with Raise e => http_status e | Ok _ => None end,
   length (Registry.versions (r_registry (ap_committed (si_api s')))), si_world s') = (Some 502, 2%nat, ["deleted"]).
Proof. vm_compute. reflexivity. Qed.

(** Deleting a service writes no audit entry and takes back no route. *)
Example deleted_service_keeps_routes :
  let '(_, s') := closing (delete_service_route demo_caller "billing" (Some "acme") None) routed_site in
  (length (Registry.versions (r_registry (ap_committed (si_api s')))), length (r_audit (ap_committed (si_api s'))), si_world s') = (0%nat, 0%nat, []).
Proof. vm_compute. reflexivity. Qed.

(** A caller bound to one tenant who names none passes the check and reads the
    versions of every tenant. *)
Example unnamed_tenant_reads_all :
  let other := Security.mk_principal "u-2" (Some "eve") "jwt" [("tenant", VStr "globex")] in
  (λ v, Registry.vr_tenant (Registry.rs_version v))
    <$> match (list_artifact_versions (W:=unit) other "billing" None None (demo_site tt [])).1 with Ok l => l | Raise _ => [] end
  = [Some "acme"; Some "acme"; Some "acme"].
Proof. vm_compute. reflexivity. Qed.
