(* ===== verification/GatewayRoutes.v ===== *)
(** * The gateway routes of access control over HTTP
      ([apps/access_control/gateway_binding/routes.py])

    The handlers that the compiler API's publisher calls.  Composed with that
    publisher they keep the promises of [SafePublisher], so that activating a version
    moves the registry and a real gateway together. *)

From S2P Require Export ArtifactRoutes.
From S2P Require Import RouteConfig.
From S2P Require GatewayBinding.
#[local] Open Scope Z_scope.

(** ** Requests and answers *)

Definition status_only (status : Z) : RuntimeProtocols.response := RuntimeProtocols.mk_response status [] "" "" None None.
Definition json_answer (payload : pyval) : RuntimeProtocols.response := RuntimeProtocols.mk_response 200 [] "" "" (Some payload) None.

(** A value of [dict[str, dict[str, Any]]] *)
Definition documents_in (v : pyval) : option (dict (dict pyval)) :=
  match v with
  | VDict d => mapM (λ kv : string * pyval, (λ x, (kv.1, x)) <$> as_dict kv.2) d
  | _ => None
  end.

Definition document_values (d : dict (dict pyval)) : dict pyval := (λ kv : string * dict pyval, (kv.1, VDict kv.2)) <$> d.

Section handlers.
Context (repr : pyval → string) (P : pydantic).
(** [require_admin_caller] on the headers of a request *)
Context (authorised : dict string → bool).

(** [ServiceRouteRequest], with [route_config.model_dump(exclude_none=True)] *)
Definition ServiceRouteRequest (body : dict pyval) : option (dict pyval * dict (dict pyval)) :=
  match dict_get body "route_config" with
  | Some (VDict rc) =>
      config ← GatewayRouteConfig P rc;
      previous ← match dict_get body "previous_routes" with Some v => documents_in v | None => Some [] end;
      Some (config, previous)
  | _ => None
  end.

Definition ServiceRouteResponse (r : GatewayBinding.route_sync) : dict pyval :=
  [("route_ids", VList (VStr <$> GatewayBinding.rs_route_ids r));
   ("service_routes_synced", VInt (Z.of_nat (GatewayBinding.rs_synced r)));
   ("service_routes_deleted", VInt (Z.of_nat (GatewayBinding.rs_deleted r)));
   ("previous_routes", VDict (document_values (GatewayBinding.rs_previous_routes r)))].

Definition sync_service_routes (request : dict pyval * dict (dict pyval)) : comp GatewayBinding.gateway exn GatewayBinding.route_sync :=
  GatewayBinding.sync_service_routes repr P request.1 request.2.
Definition delete_service_routes (request : dict pyval * dict (dict pyval)) : comp GatewayBinding.gateway exn GatewayBinding.route_sync :=
  GatewayBinding.delete_service_routes repr P request.1.
Definition rollback_service_routes (request : dict pyval * dict (dict pyval)) : comp GatewayBinding.gateway exn GatewayBinding.route_sync :=
  GatewayBinding.rollback_service_routes repr P request.1 request.2.

Definition handler_of (path : string) : option (dict pyval * dict (dict pyval) → comp GatewayBinding.gateway exn GatewayBinding.route_sync) :=
  if str_eqb path Publishers.sync_path then Some sync_service_routes
  else if str_eqb path delete_path then Some delete_service_routes
  else if str_eqb path Publishers.rollback_path then Some rollback_service_routes
  else None.

(** One request as the application answers it: what a handler raises is a 500. *)
Definition gateway_post (path : string) (body : dict pyval) (headers : dict string) : comp GatewayBinding.gateway exn RuntimeProtocols.response :=
  match handler_of path with
  | None => ret (status_only 404)
  | Some handler =>
      if negb (authorised headers) then ret (status_only 403)
      else match ServiceRouteRequest body with
           | None => ret (status_only 422)
           | Some request =>
               catch (r <- handler request ;; ret (json_answer (VDict (ServiceRouteResponse r)))) (λ _, ret (status_only 500))
           end
  end.

(** ** The publisher of the compiler API against these routes *)

Context (token : string).
Definition service_headers : dict string := [("Authorization", "Bearer " +:+ token)].
Definition gateway_publisher : ArtifactRoutePublisher GatewayBinding.gateway :=
  AccessControlArtifactRoutePublisher gateway_post (ret tt) (ret token) None.

Lemma documents_back d : documents_in (VDict (document_values d)) = Some d.
Proof.
  unfold documents_in. induction d as [|[k x] d IH]; [done|].
  change (document_values ((k, x) :: d)) with ((k, VDict x) :: document_values d). simpl. by rewrite IH.
Qed.
Lemma documents_kept d : List.filter (λ kv : string * pyval, is_dict kv.2) (document_values d) = document_values d.
Proof.
  induction d as [|[k x] d IH]; [done|].
  change (document_values ((k, x) :: d)) with ((k, VDict x) :: document_values d). simpl. by rewrite IH.
Qed.
Lemma previous_of_response r : _previous_routes (Some (ServiceRouteResponse r)) = document_values (GatewayBinding.rs_previous_routes r).
Proof. unfold _previous_routes. cbn -[List.filter document_values]. apply documents_kept. Qed.

Context (Hauth : authorised service_headers = true).

Definition http_500 : exn := mk_exn "HTTPStatusError" "HTTP status 500" [].
Definition http_422 : exn := mk_exn "HTTPStatusError" "HTTP status 422" [].
Definition answered (o : outcome exn GatewayBinding.route_sync * GatewayBinding.gateway) : outcome exn (option (dict pyval)) * GatewayBinding.gateway :=
  match o with (Ok r, g) => (Ok (Some (ServiceRouteResponse r)), g) | (Raise _, g) => (Raise http_500, g) end.

(** One call of the publisher, through the request and the handler *)
Lemma publisher_call path handler rc previous g :
  handler_of path = Some handler →
  _post gateway_post (ret tt) (ret token) None path rc (document_values <$> previous) g =
  match GatewayRouteConfig P rc with
  | Some config => answered (handler (config, default [] previous) g)
  | None => (Raise http_422, g)
  end.
Proof using Hauth.
  intros Hh. unfold _post, post_route, Publishers._headers, attempt, bind, ret, gateway_post. cbn [opt_truthy].
  rewrite Hh. match goal with |- context [authorised ?h] => change h with service_headers end. rewrite Hauth. cbn [negb].
  assert (∀ l, ServiceRouteRequest (("route_config", VDict rc) :: l)
    = config ← GatewayRouteConfig P rc; prev ← match dict_get l "previous_routes" with Some v => documents_in v | None => Some [] end; Some (config, prev)) as Hreq.
  { intros l. unfold ServiceRouteRequest. cbn. destruct (GatewayRouteConfig P rc); [|done]. cbn. done. }
  rewrite Hreq. destruct (GatewayRouteConfig P rc) as [config|]; [|done].
  assert ((prev ← match dict_get (match document_values <$> previous with Some p => [("previous_routes", VDict p)] | None => [] end) "previous_routes" with
     Some v => documents_in v | None => Some [] end; Some (config, prev)) = Some (config, default [] previous)) as Hprev.
  { destruct previous as [d|]; [|done]. cbn [fmap option_fmap option_map dict_get]. cbn -[documents_in]. by rewrite documents_back. }
  cbn [mbind option_bind] in *. rewrite Hprev. unfold catch, answered, bind, ret.
  by destruct (handler _ g) as [[] ?].
Qed.

(** ** The promises are kept *)

(** Two gateways that hold the same, entry by entry *)
Definition same_gateway (g g' : GatewayBinding.gateway) : Prop :=
  GatewayBinding.consumers g = GatewayBinding.consumers g' ∧ GatewayBinding.policy_bindings g = GatewayBinding.policy_bindings g'
  ∧ ∀ k, dict_get (GatewayBinding.routes g) k = dict_get (GatewayBinding.routes g') k.

#[export] Instance same_gateway_equiv : Equivalence same_gateway.
Proof.
  split; [done|..].
  - intros g g' (H1 & H2 & H3). repeat split; [congruence..|]. by intros k.
  - intros g1 g2 g3 (H1 & H2 & H3) (H1' & H2' & H3'). repeat split; [congruence..|]. intros k. by rewrite H3.
Qed.

(** The routes under the identifiers of a configuration are those of its service. *)
Definition own_routes (rc : dict pyval) (g : GatewayBinding.gateway) : Prop :=
  dict_wf (GatewayBinding.routes g)
  ∧ ∀ config docs k old, GatewayRouteConfig P rc = Some config → GatewayBinding.documents_of repr P config true true = Ok docs →
      k ∈ dict_keys docs → dict_get (GatewayBinding.routes g) k = Some old →
      GatewayBinding.route_belongs_to_service old (GatewayBinding.route_service_identity repr config) = true.

Lemma answered_wp o (Q : option (dict pyval) → GatewayBinding.gateway → Prop) (R : exn → GatewayBinding.gateway → Prop)
    (m : comp GatewayBinding.gateway exn (option (dict pyval))) g :
  m g = answered o →
  (∀ r g', o = (Ok r, g') → Q (Some (ServiceRouteResponse r)) g') → (∀ e g', o = (Raise e, g') → R http_500 g') → wp m Q R g.
Proof. intros Hm HQ HR. unfold wp. rewrite Hm. destruct o as [[r|e] g']; cbn; [by apply HQ|by eapply HR]. Qed.

#[export] Instance gateway_safe : SafePublisher gateway_publisher same_gateway own_routes.
Proof using Hauth.
  split; [apply same_gateway_equiv|..].
  - intros rc g. pose proof (publisher_call Publishers.sync_path sync_service_routes rc None g eq_refl) as Hcall.
    change (pub_sync gateway_publisher rc g = match GatewayRouteConfig P rc with
      | Some config => answered (sync_service_routes (config, []) g) | None => (Raise http_422, g) end) in Hcall.
    destruct (GatewayRouteConfig P rc) as [config|] eqn:Ec; [|unfold wp; rewrite Hcall; reflexivity].
    eapply answered_wp; [exact Hcall|done|]. intros e g' Hs. unfold sync_service_routes in Hs. cbn [fst snd] in Hs.
    rewrite GatewayBinding.sync_eq in Hs. destruct (GatewayBinding.documents_of _ _ _ _ _); [destruct (List.find _ _); [|done]|]; by injection Hs as <- <-.
  - intros rc g [Hwf Hown]. pose proof (publisher_call Publishers.sync_path sync_service_routes rc None g eq_refl) as Hcall.
    change (pub_sync gateway_publisher rc g = match GatewayRouteConfig P rc with
      | Some config => answered (sync_service_routes (config, []) g) | None => (Raise http_422, g) end) in Hcall.
    destruct (GatewayRouteConfig P rc) as [config|] eqn:Ec; [|unfold wp; rewrite Hcall; done].
    eapply answered_wp; [exact Hcall| |done]. intros r g1 Hs. unfold sync_service_routes in Hs. cbn [fst snd] in Hs.
    destruct (GatewayBinding.route_rollback_restores repr P config [] g r g1 Hwf Hs) as (r' & g2 & Hr & H1 & H2 & H3).
    { intros k old Hk Hold. rewrite GatewayBinding.sync_eq in Hs. destruct (GatewayBinding.documents_of _ _ _ _ _) as [docs|] eqn:Ed; [|done].
      destruct (List.find _ _); [done|]. injection Hs as <- _. by apply (Hown config docs k old). }
    rewrite previous_of_response.
    pose proof (publisher_call Publishers.rollback_path rollback_service_routes rc (Some (GatewayBinding.rs_previous_routes r)) g1 eq_refl) as Hback.
    rewrite Ec in Hback. unfold rollback_service_routes in Hback. cbn [fst snd default] in Hback.
    change (pub_rollback gateway_publisher rc (document_values (GatewayBinding.rs_previous_routes r)) g1
      = answered (GatewayBinding.rollback_service_routes repr P config (GatewayBinding.rs_previous_routes r) g1)) in Hback.
    rewrite Hr in Hback. unfold wp. rewrite Hback. by repeat split.
Qed.
End handlers.

(** ** Activation, end to end *)

(** What activating returns is the one active version of its scope. *)
Lemma activated_alone sid n te en se v t :
  Registry.session_ok se → Forall Registry.proper_scope (Registry.versions (Registry.working se)) →
  Registry.activate_version sid n te en false se = (Ok (Some v), t) →
  let r := Registry.rs_version v in
  Registry.vr_service_id r = sid ∧ Registry.vr_version_number r = n
  ∧ List.filter (λ x, Registry.vr_is_active x && Registry.in_scope sid (Registry.vr_tenant r) (Registry.vr_environment r) x)
      (Registry.versions (Registry.working t)) = [r]
  ∧ ∃ old, old ∈ Registry.versions (Registry.working se) ∧ Registry.vr_route_config old = Registry.vr_route_config r.
Proof.
  intros Hok Hproper H. destruct (Registry.matching sid n te en se) as [|r []] eqn:Hm.
  1,3: unfold Registry.activate_version, bind in H; rewrite Registry.get_version_record_eq, Hm in H; by inversion H.
  destruct (Registry.activate_version_eq sid n te en false se r Hok Hproper Hm) as (E & Halone & _).
  rewrite E in H. injection H as <- <-. cbn [Registry.rs_version]. assert (r ∈ Registry.matching sid n te en se) as Hr by (rewrite Hm; left).
  apply Registry.matching_found in Hr as (Hin & Hs & Hn & _).
  split; [exact Hs|]. split; [exact Hn|]. split; [exact Halone|]. by exists r.
Qed.

Section end_to_end.
Context (repr : pyval → string) (P : pydantic) (authorised : dict string → bool) (token : string).
Context (Hauth : authorised (service_headers token) = true).
Abbreviation publisher := (gateway_publisher repr P authorised token).

(** The gateway routes a configuration as it says. *)
Definition routed (rc : dict pyval) (g : GatewayBinding.gateway) : Prop :=
  ∃ config docs, GatewayRouteConfig P rc = Some config ∧ GatewayBinding.documents_of repr P config true true = Ok docs
    ∧ ∀ k doc, dict_get docs k = Some doc → dict_get (GatewayBinding.routes g) k = Some doc.

Lemma published_routed rc r g g' :
  dict_wf (GatewayBinding.routes g) → pub_sync publisher rc g = (Ok r, g') → routed rc g'.
Proof using Hauth.
  intros Hwf H. pose proof (publisher_call repr P authorised token Hauth Publishers.sync_path (sync_service_routes repr P) rc None g eq_refl) as Hcall.
  change (pub_sync publisher rc g = match GatewayRouteConfig P rc with
    | Some config => answered (sync_service_routes repr P (config, []) g) | None => (Raise http_422, g) end) in Hcall.
  rewrite H in Hcall. destruct (GatewayRouteConfig P rc) as [config|] eqn:Ec; [|done].
  unfold sync_service_routes in Hcall. cbn [fst snd] in Hcall.
  pose proof (GatewayBinding.sync_service_routes_spec repr P config [] g Hwf) as Hspec.
  destruct (GatewayBinding.sync_service_routes repr P config [] g) as [[rs|e] g1]; [|done]. injection Hcall as _ ->.
  destruct Hspec as (_ & _ & docs & Hd & _ & Hk). exists config, docs. split; [done|]. split; [exact Hd|].
  intros k doc Hdoc. destruct (Hk k) as [-> _]. by rewrite Hdoc.
Qed.

End end_to_end.

(** ** At concrete inputs *)

Definition demo_registry : Registry.tables := Registry.mk_tables [GatewayBinding.demo_version] [].
Definition demo_gateway_site (faults : list (option exn)) : site GatewayBinding.gateway :=
  let r := mk_rows demo_registry [] [] in mk_site (mk_api r r [] [] [] 0 faults) GatewayBinding.demo_gateway.


Example activated_is_routed :
  let '(o, s') := closing (activate_artifact_version (gateway_publisher GatewayBinding.demo_repr GatewayBinding.demo_pydantic (λ _, true) "t")
                             demo_caller "billing" 1 None None) (demo_gateway_site []) in
  (match o with Ok _ => true | Raise _ => false end, dict_keys (GatewayBinding.routes (si_world s')), length (r_audit (ap_committed (si_api s'))))
  = (true, ["hand-made"; "billing-active"; "billing-v1"], 1%nat).
Proof. vm_compute. reflexivity. Qed.
